(* ===== verification/_CoqProject ===== *)
-Q . S2P
Prelude.v
StateM.v
Ring.v
Vuart.v
Jtag.v
JtagTap.v
Msgqueue.v
Smbus.v
Cm2dm.v
BhChip.v
DmcMain.v
BootFs.v
Aiclk.v
Throttler.v
Dvfs.v
ClockControl.v
DvfsPll.v
I2c.v
Avs.v
Regulator.v
Pdr.v
Dma.v
Noc.v
Tile.v
NocDma.v
Harvesting.v
Telemetry.v
Fan.v
Cat.v
NocInit.v
Gddr.v
ResetDriver.v
Eth.v
Power.v
TensixInit.v
NocTables.v
NocProgram.v
Reset.v
Pll.v
Pvt.v
NocHarvest.v
