(* ===== verification/Prelude.v ===== *)
(** * Verification of the tt-zephyr-platforms firmware

    The repository holds the firmware of Tenstorrent's Blackhole boards: that of
    the system management controller (SMC, an ARC core on each chip), that of the
    board's management controller (DMC), the drivers both use and the libraries
    they share.  This library models the part of it that decides things -- queues,
    protocols, state machines, arbitration, tables -- in Rocq, operation by
    operation, and proves what makes each part correct.

    ** How the model reads

    A definition carries the name of the C function, type or constant it
    translates.  Machine integers are [Z]; where the C type is narrower the wrap
    is written out ([u8], [u16], [u32], [u64], [s32] below).  Structures are
    records, enumerations inductive types, arrays lists accessed with [aget] and
    [aset].  A function that may do what C leaves undefined (an index out of
    bounds, a division by zero, a call through NULL) or that loops returns an
    [option]: [None] is the fault, or the fuel of its loop running out.  State is
    passed explicitly, or threaded by the monad of [StateM].  What is not in the repository -- Zephyr, the hardware,
    libpldm, the firmware table -- is an argument or a class of operations
    ([DmcHal], [Flash], [NocHw], [JtagPort], [PllHw], [I2cHw], [Libpldm], [ArcDma],
    [CatHw], [GddrHw], [EthHw], [NocDmaHw], [TensixHw], [ResetHw], [Refclk],
    [PowerHw]); where a theorem needs more than the calls' types, a second class states the documented behaviour ([FlashLaws],
    [NocHwLaws], [Clocked], [PllHwLaws], [I2cLaws], [AvsLaws], [LibpldmLaws],
    [ArcDmaLaws], [CatLaws], [TlbRegs], [TileLaws], [MriscLaws], [EthLaws], [ResetUnit],
    [NiuLaws], [ZeroLaws], [DestLaws], [ResetLaws], [BootLaws], [RefclkLaws],
    [PowerLaws], [SpiLaws]) and an
    instance shows it can hold.

    ** The parts, and where they are

    Host and SMC.
    - [Msgqueue]: the four request/response rings ([lib/tenstorrent/fw_common/msgqueue.c]),
      their processing loop and interrupt handlers; the host's accesses interleaved
      with the firmware's, message by message.
    - [Vuart]: the virtual UART's byte rings ([include/tenstorrent/uart_tt_virt.h],
      [drivers/serial/uart_tt_virt.c]), sequentially and with device and host
      interleaved access by access.  [Ring] has the lemmas on circular arrays that
      these and [Cm2dm] share.

    DMC and SMC.
    - [Smbus]: the SMBus target state machine ([drivers/smbus/target/smbus_target.c]).
    - [Cm2dm]: the SMC's side of its mailbox to the DMC ([lib/tenstorrent/bh_arc/cm2dm_msg.c]).
    - [BhChip]: the DMC's operations on a chip ([lib/tenstorrent/bh_chip],
      [lib/tenstorrent/jtag_bootrom]); [DmcMain]: the DMC's main loop ([app/dmc/src/main.c]).
      [DmcMain.cm2dm_exactly_once] runs [DmcMain] against [Cm2dm] over a lossy bus.
    - [Jtag]: the bit-banged JTAG driver ([drivers/jtag/jtag_bitbang.c],
      [include/tenstorrent/bitrev.h]); [JtagTap]: the devices behind its pins, the
      TAP controller of IEEE 1149.1 and the emulator of [drivers/jtag/jtag_emul.c].

    Storage.
    - [BootFs]: the boot file system ([lib/tenstorrent/boot_fs/tt_boot_fs.c]).

    Power management of the SMC ([lib/tenstorrent/bh_arc]).
    - [Aiclk]: the frequency arbiter ([aiclk_ppm.c]); [Throttler]: the throttlers
      that feed it ([throttler.c]); [Dvfs]: one step of frequency and voltage
      ([dvfs.c], [voltage.c], [vf_curve.c]).
    - [ClockControl]: the PLL driver below ([drivers/clock_control/clock_control_tt_bh.c]);
      [Pll]: the older library on the same registers, which starts the PLLs ([pll.c]);
      [DvfsPll] carries the safety of a DVFS step down to its register writes.

    Buses and devices of the SMC ([lib/tenstorrent/bh_arc], [drivers]).
    - [I2c]: the DesignWare I2C master and the host's I2C message ([dw_apb_i2c.c],
      [i2c_messages.c]); [Avs]: the AVS bus ([avs.c]); [Regulator]: the voltage regulators
      with the tables of every board, over both ([regulator.c], [regulator_config.c]).
    - [Dma]: the ARC HS DMA driver, its channels, descriptors and interrupts
      ([drivers/dma/dma_arc_hs.c]).
    - [Pdr]: the repository of PLDM sensor records ([drivers/pmci/pldm/pldm_pdr.c]).
    - [Telemetry]: the telemetry table ([telemetry.c], [telemetry_internal.c]); [Fan]: the
      fan curves ([fan_ctrl.c]); [Cat]: the catastrophe monitor and the GDDR trip ([cat.c]);
      [Pvt]: the process, voltage and temperature monitors and their messages
      ([drivers/sensor/tenstorrent/pvt], [pvt.c]).
    - [Power]: the host's power settings ([bh_power.c]) and the copies of images from the
      flash to a tile ([spi_flash_buf.c]).

    Network on chip and tiles ([lib/tenstorrent/bh_arc]).
    - [Noc]: coordinates and TLB windows ([noc.c], [noc2axi.c]); [Harvesting]: which
      tiles are usable ([harvesting.c], [functional_efuse.c]); [NocInit]: the
      computation and programming of the translation tables ([noc_init.c]);
      [NocTables] and [NocProgram]: that the tables are right and reach every node;
      [NocHarvest]: the way from fuses to nodes.
    - [Tile]: what a read or a write through an opened window reaches, and a class that
      states it for the clients below.
    - [Gddr]: the memory controllers, their processors, training and self-test ([gddr.c]).
    - [ResetDriver]: the banks of reset lines ([drivers/reset/reset_tt_bh.c]); [Eth]: the
      Ethernet tiles, their SerDes and firmware, reset and heartbeats ([eth.c],
      [serdes_eth.c]).
    - [NocDma]: the driver that moves data between tiles ([drivers/dma/dma_tt_bh_noc.c]);
      [TensixInit]: the start of the Tensix tiles, which wipes their memories over it
      ([tensix_init.c], [tensix.c]).
    - [Reset]: the resets of start-up and those the host asks for ([reset.c]), over
      [ResetDriver], [NocInit] and [TensixInit].

    ** What is shown

    - Queues lose, repeat and reorder nothing, whatever the interleaving:
      [Msgqueue.interleaving_fifo], [Msgqueue.process_message_queue_refines],
      [Vuart.vuart_refines_queues], [DmcMain.cm2dm_exactly_once],
      [Cm2dm.cm2dm_no_starvation]; and where they do not, how exactly
      ([Vuart.vuart_interleaved], [Vuart.vuart_windows_open]).
    - Protocol machines keep their invariants for any input and do what the
      protocol says: [Smbus.smbus_event_safe] and the transaction theorems,
      [JtagTap.Tap.jtag_drives_tap], [JtagTap.EmulWrites.jtag_blockwrite_reaches_emulator].
    - The chip is never run outside what its parts allow:
      [Dvfs.dvfs_never_undervolts], [DvfsPll.hw_safe_down_to_pll],
      [ClockControl.pll_sequencing], [Pll.pll_init_ok], [Aiclk.aiclk_arbitration],
      [Cat.gddr_therm_trip_exact], [Cat.cat_shutdown_range], [Fan.fan_control_safe],
      [Power.BhPower.power_settings_safe], [DmcMain.pgood_severe_latches].
    - Tables are right: [NocTables.noc_logical_roundtrip],
      [NocProgram.debug_noc_translation_programs_all],
      [NocHarvest.harvested_chip_translates], [Harvesting.calculate_harvesting_ok],
      [Telemetry.telemetry_update], [Telemetry.gddr_telemetry_decodes].
    - Devices end up as asked, or the error says how far it got:
      [Regulator.RegulatorInit_reference], [Gddr.toggle_gddr_reset_ok],
      [Gddr.gddr_training_records], [Gddr.get_gddr_temps_ok], [Eth.toggle_eth_reset_ok],
      [Eth.eth_sel_exact], [Reset.toggle_single_tensix_reset_ok], [Reset.boot_resets_ok],
      [TensixInit.wipe_dest_restores], [Pvt.pvt_submit_ok], [Pvt.pvt_init_ok]; the host gets
      back what the sensors say, or 32 steps more ([Pvt.pvt_handlers_ok]).
    - Data arrives: [Dma.dma_transfer_copies] and the other theorems on the DMA driver,
      [NocDma.memory_to_memory_copies], [TensixInit.wipe_l1_zeroes],
      [Power.SpiFlashBuf.spi_copy_correct], [BootFs.boot_fs_add_get] and its
      companions, the [Pdr.pdr_repository_built] group for sensor records.
    - Errors and edges: what every failing branch leaves behind, and the inputs the
      code mishandles ([Smbus.empty_block_overflows], [BootFs.cksum_behaviour],
      [Aiclk.aiclk_host_requests_break_limits], [ClockControl.failed_init_locks_out],
      [ClockControl.aiclk_set_rate_edges], [Fan.forced_speed_overtaken],
      [Gddr.failed_reset_leaves_phy_awake], [Eth.hung_instance_reported],
      [NocDma.restart_loses_source], [NocDma.early_completion],
      [TensixInit.cg_enabled_skips], [Reset.single_reset_unchecked], [Pll.drop_aiclk],
      [Pll.set_aiclk_diverges]).

    ** Loops and fuel

    A loop over a fixed range is [for_loop], which needs no fuel.  The others:
    [Msgqueue.process_message_queue] uses [loop_fuel] = 8, and
    [Msgqueue.process_message_queue_terminates] shows that 8 iterations always
    suffice (the ring pointers are read once, modulo 8); the interrupt handler's
    fuel is at least the depth of the FIFO it drains; the memory-repair poll of
    [DmcMain] ends because the cycle counter advances; [BootFs] searches at most
    the descriptors that fit the table; the voltage search of [Aiclk] narrows
    a range of frequencies; the UART's interrupt loop ends when its callback
    leaves nothing pending, and its fuel bounds the calls; a PLL lock wait of 400 ms
    makes at most [ClockControl.lock_fuel] polls, one per nanosecond, and a walk of
    the 16-bit divider at most 65,535 steps; [Pll] waits 400 us, at most [ref_fuel] polls.  An I2C wait polls at most
    [I2c.wait_fuel] times before its timeout, an AVS command at most [max_retries]
    times; the fetch of a sensor record takes at most one step per byte, a walk over
    linked DMA descriptors one per channel, the DMA's poll one per busy wait before
    its timeout and its interrupt routine one per round of the engine; a bit scan
    takes 32 steps, the trim search of [Cat] one for each of 64 codes, a copy from the
    flash at most one per byte, and a wait of [Gddr] one per poll that its 1000 ms
    timepoint can still grant ([remaining]); so is a wait of [NocDma], and its linked
    channels take one step each; the wipe of [TensixInit] doubles what it has wiped at each of
    its steps, 22 at most; [Pvt] polls for 10 ms, and an idle wait as long as the hardware
    is busy ([sdif_bound]).  Theorems about these functions say
    that the result is reached, not only what it is if it is.

    ** What is not modelled

    Float arithmetic is exact rational arithmetic with an arbitrary rounding
    function; delays are events without effect; logging, tracing and shell output
    are left out.  Drivers that only program registers of a block whose behaviour
    the repository does not define (PCIe, fan controllers, UART and SPI
    blocks, remote processors), the PLDM command handlers (wrappers of libpldm), the
    other chip's (Grendel) drivers, the boot protocol [occp.c], host tools, shells,
    samples and tests have no model. *)

From Stdlib Require Import ZArith Lia.
From stdpp Require Export base numbers list option gmap relations.
#[export] Set Default Goal Selector "!".

(** ** Scope, hint databases and notation *)

#[global] Open Scope Z_scope.

Declare Scope fw_scope.
Delimit Scope fw_scope with fw.
#[global] Open Scope fw_scope.

Create HintDb fw discriminated.

(** ** Machine integers *)

(** A [w]-bit unsigned integer is a [Z]; every operation that may overflow
    wraps its result explicitly, the way C's unsigned arithmetic does. *)
Definition wrap (w z : Z) : Z := z mod 2 ^ w.
Abbreviation u8 := (wrap 8).
Abbreviation u16 := (wrap 16).
Abbreviation u32 := (wrap 32).
Abbreviation u64 := (wrap 64).

(** Conversion of an integer to the [w]-bit two's complement value. *)
Definition swrap (w z : Z) : Z := (z + 2 ^ (w - 1)) mod 2 ^ w - 2 ^ (w - 1).
Abbreviation s32 := (swrap 32).

Definition in_width (w z : Z) : Prop := 0 <= z < 2 ^ w.
Abbreviation is_u8 := (in_width 8).
Abbreviation is_u16 := (in_width 16).
Abbreviation is_u32 := (in_width 32).
Abbreviation is_u64 := (in_width 64).

#[export] Instance in_width_dec w z : Decision (in_width w z).
Proof. unfold in_width. apply _. Defined.

Lemma wrap_range w z : 0 <= w -> in_width w (wrap w z).
Proof. intros ?. unfold in_width, wrap. apply Z.mod_pos_bound. lia. Qed.

Lemma wrap_small w z : in_width w z -> wrap w z = z.
Proof. apply Z.mod_small. Qed.

Lemma wrap_wrap w z : 0 <= w -> wrap w (wrap w z) = wrap w z.
Proof. intros. apply wrap_small, wrap_range; done. Qed.

Lemma swrap_small w z : 0 < w -> - 2 ^ (w - 1) <= z < 2 ^ (w - 1) -> swrap w z = z.
Proof.
  intros ??. unfold swrap. replace (2 ^ w) with (2 * 2 ^ (w - 1)) by (rewrite <- Z.pow_succ_r by lia; f_equal; lia).
  rewrite Z.mod_small; lia.
Qed.

Lemma u8_range z : is_u8 (u8 z).
Proof. apply wrap_range; lia. Qed.
Lemma u16_range z : is_u16 (u16 z).
Proof. apply wrap_range; lia. Qed.
Lemma u32_range z : is_u32 (u32 z).
Proof. apply wrap_range; lia. Qed.
#[export] Hint Resolve u8_range u16_range u32_range : fw.

(** Turn every [wrap]/[in_width] into [mod] and inequalities with literal
    powers, so that [lia] sees them. *)
Ltac pow_simpl :=
  change (2 ^ 8) with 256 in *; change (2 ^ 12) with 4096 in *;
  change (2 ^ 16) with 65536 in *; change (2 ^ 24) with 16777216 in *;
  change (2 ^ 31) with 2147483648 in *; change (2 ^ 32) with 4294967296 in *;
  change (2 ^ 64) with 18446744073709551616 in *.
Ltac unwrap := unfold in_width, wrap in *; pow_simpl.
Ltac word_lia := unwrap; Z.to_euclidean_division_equations; lia.

(** ** Boolean tests of the code, turned into propositions *)

Ltac bool_cases :=
  repeat match goal with
  | H : (_ <? _) = true |- _ => apply Z.ltb_lt in H
  | H : (_ <? _) = false |- _ => apply Z.ltb_ge in H
  | H : (_ <=? _) = true |- _ => apply Z.leb_le in H
  | H : (_ <=? _) = false |- _ => apply Z.leb_gt in H
  | H : (_ =? _) = true |- _ => apply Z.eqb_eq in H
  | H : (_ =? _) = false |- _ => apply Z.eqb_neq in H
  | H : _ && _ = true |- _ => apply andb_true_iff in H; destruct H
  | H : _ || _ = false |- _ => apply orb_false_iff in H; destruct H
  | H : negb _ = true |- _ => apply negb_true_iff in H
  | H : negb _ = false |- _ => apply negb_false_iff in H
  end.

(** Case analysis on the test of an [if] in the goal or in a hypothesis. *)
Ltac if_case :=
  match goal with
  | |- context [if ?b then _ else _] => destruct b eqn:?
  | H : context [if ?b then _ else _] |- _ => destruct b eqn:?
  end; bool_cases.

(** ** Bit fields *)

(** Bits [lo .. lo+len-1] of a word, and a word with that field replaced
    (C bit-field read and write). *)
Definition bits_get (lo len z : Z) : Z := Z.land (Z.shiftr z lo) (Z.ones len).
Definition bits_set (lo len v z : Z) : Z :=
  Z.lor (Z.land z (Z.lnot (Z.shiftl (Z.ones len) lo)))
        (Z.shiftl (Z.land v (Z.ones len)) lo).
Definition BIT (n : Z) : Z := Z.shiftl 1 n.

Lemma bit_BIT n i : 0 <= n -> Z.testbit (BIT n) i = (n =? i).
Proof. intros. unfold BIT. rewrite Z.shiftl_1_l. by apply Z.pow2_bits_eqb. Qed.

Lemma bits_get_div lo len z :
  0 <= lo -> 0 <= len -> bits_get lo len z = (z / 2 ^ lo) mod 2 ^ len.
Proof.
  intros. unfold bits_get. by rewrite Z.land_ones, Z.shiftr_div_pow2 by lia.
Qed.

Lemma bits_get_range lo len z : 0 <= lo -> 0 <= len -> in_width len (bits_get lo len z).
Proof. intros. rewrite bits_get_div by lia. apply wrap_range; lia. Qed.

Lemma testbit_ones_in n i : 0 <= n -> 0 <= i -> Z.testbit (Z.ones n) i = (i <? n).
Proof.
  intros. destruct (Z.ltb_spec i n).
  - by apply Z.ones_spec_low; lia.
  - by apply Z.ones_spec_high; lia.
Qed.

(** Bit [i] of a field write: the new field inside, the old word outside. *)
Lemma bits_set_spec lo len v z i :
  0 <= lo -> 0 <= len -> 0 <= i ->
  Z.testbit (bits_set lo len v z) i =
    if (lo <=? i) && (i <? lo + len) then Z.testbit v (i - lo) else Z.testbit z i.
Proof.
  intros. unfold bits_set.
  rewrite Z.lor_spec, Z.land_spec, Z.lnot_spec, !Z.shiftl_spec by lia.
  destruct (Z.leb_spec lo i); simpl.
  - rewrite Z.land_spec, !testbit_ones_in by lia.
    destruct (Z.ltb_spec (i - lo) len), (Z.ltb_spec i (lo + len)); try lia; simpl.
    + by rewrite andb_false_r, andb_true_r.
    + by rewrite andb_true_r, andb_false_r, orb_false_r.
  - rewrite (Z.testbit_neg_r (Z.ones len) (i - lo)) by lia.
    rewrite (Z.testbit_neg_r (Z.land v (Z.ones len)) (i - lo)) by lia.
    simpl. by rewrite andb_true_r, orb_false_r.
Qed.

Lemma bits_get_spec lo len z i :
  0 <= lo -> 0 <= len -> 0 <= i ->
  Z.testbit (bits_get lo len z) i = (i <? len) && Z.testbit z (i + lo).
Proof.
  intros. unfold bits_get.
  rewrite Z.land_spec, Z.shiftr_spec, testbit_ones_in by lia.
  by rewrite andb_comm.
Qed.

Lemma bits_get_set_same lo len v z :
  0 <= lo -> 0 <= len -> bits_get lo len (bits_set lo len v z) = wrap len v.
Proof.
  intros. apply Z.bits_inj'. intros i Hi.
  rewrite bits_get_spec, bits_set_spec by lia.
  unfold wrap. rewrite <- Z.land_ones, Z.land_spec, testbit_ones_in by lia.
  destruct (Z.ltb_spec i len).
  - destruct (Z.leb_spec lo (i + lo)), (Z.ltb_spec (i + lo) (lo + len)); try lia.
    simpl. rewrite andb_true_r. f_equal. lia.
  - by rewrite andb_false_r.
Qed.

(** Disjoint fields do not interfere. *)
Lemma bits_get_set_other lo len v z lo' len' :
  0 <= lo -> 0 <= len -> 0 <= lo' -> 0 <= len' ->
  lo + len <= lo' \/ lo' + len' <= lo ->
  bits_get lo' len' (bits_set lo len v z) = bits_get lo' len' z.
Proof.
  intros. apply Z.bits_inj'. intros i Hi.
  rewrite !bits_get_spec, bits_set_spec by lia.
  destruct (Z.ltb_spec i len'); simpl; [|done].
  destruct (Z.leb_spec lo (i + lo')), (Z.ltb_spec (i + lo') (lo + len)); simpl; done || lia.
Qed.

(** ** Masks and the lowest set bit *)

(** [GENMASK(31, l)], [LSB_GET] and [LOG2] of Zephyr on a 32-bit word. *)
Definition GENMASK (h l : Z) : Z := Z.land (Z.shiftl (Z.ones (h - l + 1)) l) (Z.ones 32).
Definition LSB_GET (x : Z) : Z := Z.land x (u32 (- x)).
Definition LOG2 (x : Z) : Z := if x <? 1 then -1 else Z.log2 x.

(** Every positive number is a power of two times an odd number. *)
Lemma lowest_bit_split (x : Z) : 0 < x -> exists k r, 0 <= k /\ 0 <= r /\ x = (2 * r + 1) * 2 ^ k.
Proof.
  destruct x as [|p|p]; [lia| |lia]. intros _. induction p as [p _|p IH|].
  - exists 0, (Zpos p). lia.
  - destruct IH as (k & r & Hk & Hr & E). exists (k + 1), r. split_and!; [lia|lia|].
    rewrite Z.pow_add_r by lia. lia.
  - exists 0, 0. done.
Qed.

Lemma land_opp_odd r : Z.land (2 * r + 1) (- (2 * r + 1)) = 1.
Proof.
  replace (- (2 * r + 1)) with (2 * Z.lnot r + 1) by (unfold Z.lnot; lia).
  apply Z.bits_inj'. intros i Hi. rewrite Z.land_spec.
  destruct (Z.eq_dec i 0) as [->|].
  - by rewrite !Z.testbit_odd_0.
  - replace i with (Z.succ (i - 1)) by lia.
    rewrite !Z.testbit_odd_succ, Z.lnot_spec by lia.
    rewrite (Z.bits_above_log2 1) by (change (Z.log2 1) with 0; lia).
    by destruct (Z.testbit r (i - 1)).
Qed.

(** [LSB_GET] isolates the lowest set bit and [LOG2] is its index. *)
Lemma lsb_get_pow2 x :
  0 < x < 2 ^ 32 ->
  exists k, 0 <= k < 32 /\ LSB_GET x = 2 ^ k /\ LOG2 (LSB_GET x) = k /\ Z.testbit x k = true /\
            forall j, Z.testbit x j = true -> k <= j.
Proof.
  intros Hx. destruct (lowest_bit_split x) as (k & r & Hk & Hr & E); [lia|].
  assert (Hk32 : k < 32).
  { apply (Z.pow_lt_mono_r_iff 2); [lia|lia|]. nia. }
  assert (Hb : forall j, Z.testbit x j = if k <=? j then Z.testbit (2 * r + 1) (j - k) else false).
  { intros j. rewrite E, Z.mul_pow2_bits by lia. destruct (Z.leb_spec k j); [done|].
    apply Z.testbit_neg_r. lia. }
  assert (Hlsb : LSB_GET x = 2 ^ k).
  { unfold LSB_GET, wrap. rewrite <- Z.land_ones by lia.
    rewrite Z.land_assoc.
    assert (Z.land x (- x) = 2 ^ k) as ->.
    { rewrite E at 1 2. rewrite <- Z.mul_opp_l, <- !Z.shiftl_mul_pow2, <- Z.shiftl_land, land_opp_odd by lia.
      apply Z.shiftl_1_l. }
    apply Z.land_ones_low; [pose proof (Z.pow_pos_nonneg 2 k); lia|].
    rewrite Z.log2_pow2; lia. }
  exists k. split_and!; [lia|lia|done|..].
  - rewrite Hlsb. unfold LOG2. destruct (Z.ltb_spec (2 ^ k) 1); [pose proof (Z.pow_pos_nonneg 2 k); lia|].
    by apply Z.log2_pow2.
  - rewrite Hb, Z.leb_refl, Z.sub_diag. by rewrite Z.testbit_odd_0.
  - intros j. rewrite Hb. destruct (Z.leb_spec k j); [done|congruence].
Qed.

Lemma lsb_get_lowest x :
  0 < x < 2 ^ 32 ->
  exists k, 0 <= k < 32 /\ LOG2 (LSB_GET x) = k /\ Z.testbit x k = true /\
            forall j, Z.testbit x j = true -> k <= j.
Proof. intros Hx. destruct (lsb_get_pow2 x Hx) as (k & ? & _ & ?). by exists k. Qed.

(** The positions of the set bits of a 32-bit word, in increasing order, and
    what removing the lowest one does. *)
Definition bits_of (m : Z) : list Z := filter (fun i => Z.testbit m i = true) (seqZ 0 32).

Lemma elem_of_bits_of m i : i ∈ bits_of m <-> Z.testbit m i = true /\ 0 <= i < 32.
Proof. unfold bits_of. rewrite list_elem_of_filter, elem_of_seqZ. intuition lia. Qed.

Lemma bits_of_NoDup m : NoDup (bits_of m).
Proof. apply NoDup_filter, NoDup_seqZ. Qed.

Lemma filter_nil_iff {A} (P : A -> Prop) `{forall x, Decision (P x)} (l : list A) :
  (forall x, x ∈ l -> ~ P x) -> filter P l = [].
Proof.
  induction l as [|a l IH]; intros Hl; [done|].
  rewrite filter_cons_False by (apply Hl; set_solver). apply IH. set_solver.
Qed.

Lemma filter_ext_in {A} (P Q : A -> Prop) `{forall x, Decision (P x)} `{forall x, Decision (Q x)} (l : list A) :
  (forall x, x ∈ l -> P x <-> Q x) -> filter P l = filter Q l.
Proof.
  induction l as [|a l IH]; intros Hl; [done|].
  rewrite !filter_cons, IH by set_solver.
  destruct (Hl a) as [Hpq Hqp]; [set_solver|]. do 2 case_decide; tauto || congruence.
Qed.

Lemma clear_bit_spec m k i :
  0 <= k -> 0 <= i -> Z.testbit (Z.land m (Z.lnot (2 ^ k))) i = Z.testbit m i && negb (k =? i).
Proof. intros. by rewrite Z.land_spec, Z.lnot_spec, Z.pow2_bits_eqb by lia. Qed.

Lemma land_BIT_eqb z i : 0 <= i -> (Z.land z (BIT i) =? 0) = negb (Z.testbit z i).
Proof.
  intros. unfold BIT. rewrite Z.shiftl_1_l. destruct (Z.testbit z i) eqn:E; simpl.
  - apply Z.eqb_neq. intros H0. apply (f_equal (fun w => Z.testbit w i)) in H0.
    rewrite Z.land_spec, Z.pow2_bits_true, Z.bits_0, andb_true_r in H0 by lia. congruence.
  - apply Z.eqb_eq, Z.bits_inj'. intros j Hj. rewrite Z.land_spec, Z.pow2_bits_eqb, Z.bits_0 by lia.
    destruct (Z.eqb_spec i j) as [->|]; [by rewrite E|by rewrite andb_false_r].
Qed.

Lemma bits_of_pop m :
  0 < m < 2 ^ 32 ->
  bits_of m = LOG2 (LSB_GET m) :: bits_of (Z.land m (Z.lnot (LSB_GET m))).
Proof.
  intros Hm. destruct (lsb_get_pow2 m Hm) as (k & Hk & Hlsb & -> & Hbit & Hlow).
  rewrite Hlsb. unfold bits_of.
  replace (seqZ 0 32) with (seqZ 0 k ++ seqZ (0 + k) (32 - k))
    by (rewrite <- seqZ_app by lia; f_equal; lia).
  rewrite !filter_app.
  rewrite (filter_nil_iff _ (seqZ 0 k)), (filter_nil_iff _ (seqZ 0 k)).
  2:{ intros x [? ?]%elem_of_seqZ. rewrite clear_bit_spec by lia. intros [?%Hlow _]%andb_true_iff. lia. }
  2:{ intros x [? ?]%elem_of_seqZ ?%Hlow. lia. }
  rewrite (seqZ_cons (0 + k)) by lia. cbn [app].
  rewrite filter_cons_True by done. rewrite filter_cons_False.
  2:{ rewrite clear_bit_spec, Z.eqb_refl, andb_false_r by lia. done. }
  rewrite Z.add_0_l. f_equal. apply filter_ext_in. intros x [? ?]%elem_of_seqZ.
  rewrite clear_bit_spec by lia. destruct (Z.eqb_spec k x); [lia|]. by rewrite andb_true_r.
Qed.

Lemma bits_of_0 : bits_of 0 = [].
Proof. apply filter_nil_iff. intros x _. by rewrite Z.bits_0. Qed.

Lemma bits_lt_pow2 p n : 0 <= p -> 0 <= n -> (forall i, Z.testbit p i = true -> i < n) -> p < 2 ^ n.
Proof.
  intros Hp Hn Hb. destruct (Z.lt_ge_cases p (2 ^ n)) as [|Hge]; [done|].
  assert (n <= Z.log2 p) by (apply Z.log2_le_pow2; [|done]; pose proof (Z.pow_pos_nonneg 2 n); lia).
  pose proof (Hb (Z.log2 p)) as H'. rewrite Z.bit_log2 in H' by (pose proof (Z.pow_pos_nonneg 2 n); lia).
  specialize (H' eq_refl). lia.
Qed.

(** Bits at or above the width of a number are clear. *)
Lemma testbit_above x n i : 0 <= x < 2 ^ n -> n <= i -> Z.testbit x i = false.
Proof.
  intros Hx Hi. destruct (Z.eq_dec x 0) as [->|]; [apply Z.bits_0|].
  apply Z.bits_above_log2; [lia|]. assert (Z.log2 x < n) by (apply Z.log2_lt_pow2; lia). lia.
Qed.

(** A field write inside the width keeps the width. *)
Lemma bits_set_width w lo n v z : 0 <= lo -> 0 <= n -> lo + n <= w -> in_width w z -> in_width w (bits_set lo n v z).
Proof.
  intros Hlo Hn Hw Hz. unfold in_width. assert (0 <= bits_set lo n v z).
  { unfold bits_set. apply Z.lor_nonneg. split.
    - apply Z.land_nonneg. left. unfold in_width in *. lia.
    - apply Z.shiftl_nonneg, Z.land_nonneg. right. rewrite Z.ones_equiv. assert (0 < 2 ^ n) by (apply Z.pow_pos_nonneg; lia). lia. }
  split; [done|]. apply bits_lt_pow2; [done|lia|]. intros i Hi. destruct (Z.lt_ge_cases i w); [done|]. rewrite bits_set_spec in Hi by lia.
  destruct (Z.leb_spec lo i), (Z.ltb_spec i (lo + n)); cbn in Hi; try lia; by rewrite (testbit_above z w) in Hi.
Qed.

(** *** Fields of a word put together with shifts *)

Lemma bits_get_lor lo len x y : bits_get lo len (Z.lor x y) = Z.lor (bits_get lo len x) (bits_get lo len y).
Proof. unfold bits_get. by rewrite Z.shiftr_lor, Z.land_lor_distr_l. Qed.

Lemma bits_get_shiftl_same lo len x : 0 <= lo -> 0 <= len -> in_width len x -> bits_get lo len (Z.shiftl x lo) = x.
Proof. intros Hlo Hlen Hx. unfold bits_get. rewrite Z.shiftr_shiftl_l, Z.sub_diag, Z.shiftl_0_r, Z.land_ones by lia. by apply Z.mod_small. Qed.

Lemma bits_get_shiftl_other lo len s n x :
  0 <= lo -> 0 <= len -> 0 <= s -> 0 <= n -> in_width n x -> lo + len <= s \/ s + n <= lo -> bits_get lo len (Z.shiftl x s) = 0.
Proof.
  intros Hlo Hlen Hs Hn Hx Hd. apply Z.bits_inj'. intros i Hi. rewrite bits_get_spec, Z.bits_0 by lia.
  destruct (Z.ltb_spec i len); [|done]. cbn [andb]. rewrite Z.shiftl_spec by lia.
  destruct Hd; [by apply Z.testbit_neg_r; lia|by apply (testbit_above x n); [|lia] ].
Qed.

Lemma genmask_spec l i : 0 <= l < 32 -> 0 <= i < 32 -> Z.testbit (GENMASK 31 l) i = (l <=? i).
Proof.
  intros. unfold GENMASK. rewrite Z.land_spec, Z.shiftl_spec, (testbit_ones_in 32) by lia.
  destruct (Z.ltb_spec i 32); [|lia]. rewrite andb_true_r.
  destruct (Z.leb_spec l i).
  - rewrite testbit_ones_in by lia. apply Z.ltb_lt. lia.
  - apply Z.testbit_neg_r. lia.
Qed.

(** ** Arrays *)

(** A C array is a list indexed by [Z]; an access outside it is undefined
    behaviour, modelled by [None].  [option] is the monad of such faults. *)
Definition aget {A} (l : list A) (i : Z) : option A :=
  if 0 <=? i then l !! Z.to_nat i else None.

Definition aset {A} (l : list A) (i : Z) (x : A) : option (list A) :=
  if (0 <=? i) && (i <? Z.of_nat (length l)) then Some (<[Z.to_nat i := x]> l) else None.

Abbreviation len l := (Z.of_nat (length l)).

Section arrays.
Context {A : Type}.
Implicit Types (l : list A) (i j : Z) (x y : A).

Lemma aget_range l i x : aget l i = Some x -> 0 <= i < len l.
Proof.
  unfold aget. destruct (Z.leb_spec 0 i); [|done].
  intros ?%lookup_lt_Some. lia.
Qed.

Lemma aget_in l i : 0 <= i < len l -> exists x, aget l i = Some x.
Proof.
  intros. unfold aget. destruct (Z.leb_spec 0 i); [|lia].
  apply lookup_lt_is_Some. lia.
Qed.

Lemma aget_nat l i : 0 <= i -> aget l i = l !! Z.to_nat i.
Proof. intros. unfold aget. by destruct (Z.leb_spec 0 i); [|lia]. Qed.

Lemma aset_in l i x : 0 <= i < len l -> aset l i x = Some (<[Z.to_nat i := x]> l).
Proof.
  intros. unfold aset.
  by destruct (Z.leb_spec 0 i), (Z.ltb_spec i (len l)); try lia.
Qed.

Lemma aset_out l i x : i < 0 \/ len l <= i -> aset l i x = None.
Proof.
  intros. unfold aset.
  by destruct (Z.leb_spec 0 i), (Z.ltb_spec i (len l)); try lia.
Qed.

Lemma aget_out l i : i < 0 \/ len l <= i -> aget l i = None.
Proof.
  intros. unfold aget. destruct (Z.leb_spec 0 i); [|done].
  apply lookup_ge_None_2. lia.
Qed.

Lemma aset_Some l i x l' :
  aset l i x = Some l' -> 0 <= i < len l /\ l' = <[Z.to_nat i := x]> l.
Proof. unfold aset. if_case; naive_solver lia. Qed.

Lemma aset_length l i x l' : aset l i x = Some l' -> length l' = length l.
Proof. intros [? ->]%aset_Some. apply length_insert. Qed.

Lemma aget_aset l i x l' j :
  aset l i x = Some l' -> aget l' j = if i =? j then Some x else aget l j.
Proof.
  intros [? ->]%aset_Some. unfold aget.
  destruct (Z.eqb_spec i j) as [->|Hne].
  - destruct (Z.leb_spec 0 j); [|lia]. apply list_lookup_insert_eq. lia.
  - destruct (Z.leb_spec 0 j); [|done]. apply list_lookup_insert_ne. lia.
Qed.
End arrays.

(** Reading and overwriting a cell that was just written. *)
Lemma aget_insert {A} (l : list A) i x :
  0 <= i < len l -> aget (<[Z.to_nat i := x]> l) i = Some x.
Proof.
  intros Hi. rewrite (aget_aset l i x) by (by apply aset_in). by rewrite Z.eqb_refl.
Qed.

Lemma aget_insert_ne {A} (l : list A) i j x :
  0 <= i < len l -> i <> j -> aget (<[Z.to_nat i := x]> l) j = aget l j.
Proof.
  intros Hi Hne. rewrite (aget_aset l i x) by (by apply aset_in).
  destruct (Z.eqb_spec i j); done.
Qed.

Lemma aset_insert {A} (l : list A) i x y :
  0 <= i < len l -> aset (<[Z.to_nat i := x]> l) i y = Some (<[Z.to_nat i := y]> l).
Proof.
  intros Hi. rewrite aset_in by (by rewrite length_insert).
  by rewrite list_insert_insert_eq.
Qed.

(** [Forall]-style invariants of the cells survive in-range updates. *)
Lemma aset_Forall {A} (P : A -> Prop) l i x l' :
  Forall P l -> P x -> aset l i x = Some l' -> Forall P l'.
Proof. intros ?? [? ->]%aset_Some. by apply Forall_insert. Qed.

Lemma aget_Forall {A} (P : A -> Prop) l i x :
  Forall P l -> aget l i = Some x -> P x.
Proof.
  unfold aget. if_case; [|done]. intros HF Hl. by eapply Forall_lookup_1 in HF.
Qed.

(** ** Little-endian encoding *)

Fixpoint bytes_of_le (n : nat) (z : Z) : list Z :=
  match n with
  | O => []
  | S n => u8 z :: bytes_of_le n (z / 256)
  end.

Fixpoint le_of_bytes (l : list Z) : Z :=
  match l with
  | [] => 0
  | b :: l => b + 256 * le_of_bytes l
  end.

Lemma bytes_of_le_length n z : length (bytes_of_le n z) = n.
Proof. revert z. induction n; simpl; auto. Qed.

Lemma bytes_of_le_bytes n z : Forall is_u8 (bytes_of_le n z).
Proof. revert z. induction n; simpl; constructor; auto with fw. Qed.

Lemma le_of_bytes_of_le n z : le_of_bytes (bytes_of_le n z) = z mod 256 ^ Z.of_nat n.
Proof.
  revert z. induction n as [|n IH]; intros z.
  - simpl. by rewrite Z.mod_1_r.
  - cbn [bytes_of_le le_of_bytes]. rewrite IH. unwrap.
    rewrite Nat2Z.inj_succ, Z.pow_succ_r by lia.
    rewrite Z.rem_mul_r by lia. done.
Qed.

Lemma le_of_bytes_range l : Forall is_u8 l -> 0 <= le_of_bytes l < 256 ^ len l.
Proof.
  induction 1 as [|b l Hb _ IH]; [simpl; lia|].
  cbn [le_of_bytes length]. rewrite Nat2Z.inj_succ, Z.pow_succ_r by lia. unwrap. nia.
Qed.

Lemma bytes_of_le_of_bytes l : Forall is_u8 l -> bytes_of_le (length l) (le_of_bytes l) = l.
Proof.
  induction 1 as [|b l Hb _ IH]; [done|].
  cbn [le_of_bytes length bytes_of_le].
  assert ((b + 256 * le_of_bytes l) / 256 = le_of_bytes l) as -> by word_lia.
  rewrite IH. f_equal. word_lia.
Qed.

(** ** Loops *)

(** [for (i = lo; i < lo + n; i++) s = body i s], where the body may fault. *)
Fixpoint for_loop {S} (n : nat) (lo : Z) (body : Z -> S -> option S) (s : S) : option S :=
  match n with
  | O => Some s
  | Datatypes.S n => s' ← body lo s; for_loop n (lo + 1) body s'
  end.

(** Invariant rule for [for_loop]: the body is total under the invariant. *)
Lemma for_loop_inv {S} (I : Z -> S -> Prop) n lo body s :
  I lo s ->
  (forall i s, lo <= i < lo + Z.of_nat n -> I i s -> exists s', body i s = Some s' /\ I (i + 1) s') ->
  exists s', for_loop n lo body s = Some s' /\ I (lo + Z.of_nat n) s'.
Proof.
  revert lo s. induction n as [|n IH]; intros lo s HI Hb.
  - exists s. split; [done|]. by replace (lo + Z.of_nat 0) with lo by lia.
  - destruct (Hb lo s) as (s1 & E & HI1); [lia|done|]. simpl. rewrite E. simpl.
    destruct (IH (lo + 1) s1) as (s' & E' & HI'); [done| |].
    { intros i t ? ?. apply Hb; [lia|done]. }
    exists s'. split; [done|]. by replace (lo + Z.of_nat (Datatypes.S n)) with (lo + 1 + Z.of_nat n) by lia.
Qed.
