(* ===== verification/StateM.v ===== *)
(** * Computations on a state that may fault

    Code that changes a state and may do what C leaves undefined, or wait: [None] is
    the fault, or the fuel running out.  With the loops that the drivers of tiles
    ([Gddr], [Eth]) use, and the rules to reason about what they do. *)

From S2P Require Import Prelude.
#[local] Open Scope Z_scope.

Definition M (S A : Type) : Type := S -> option (A * S).
#[export] Instance M_ret S : MRet (M S) := fun A a s => Some (a, s).
#[export] Instance M_bind S : MBind (M S) := fun A B f m s =>
  match m s with Some (a, s) => f a s | None => None end.

Definition lift {S A} (o : option A) : M S A := fun s => a ← o; Some (a, s).

(** A loop over a fixed range. *)
Fixpoint for_m {W S} (n : nat) (lo : Z) (body : Z -> S -> M W S) (s : S) : M W S :=
  match n with O => mret s | Datatypes.S n => s ← body lo s; for_m n (lo + 1) body s end.

(** A step for every instance of a mask until one returns. *)
Fixpoint each_until {W R} (n : nat) (lo : Z) (mask : Z) (body : Z -> M W (option R)) : M W (option R) :=
  match n with
  | O => mret None
  | S n =>
      r ← (if Z.testbit mask lo then body lo else mret None);
      match r with Some r => mret (Some r) | None => each_until n (lo + 1) mask body end
  end.

(** ** What a computation returns and leaves *)

Definition does {S A} (m : M S A) (s : S) (P : A -> S -> Prop) : Prop := exists a s', m s = Some (a, s') /\ P a s'.

Lemma does_bind {S A B} (m : M S A) (f : A -> M S B) s P Q :
  does m s Q -> (forall a s', Q a s' -> does (f a) s' P) -> does (m ≫= f) s P.
Proof. intros (a & s' & E & HQ) Hf. destruct (Hf a s' HQ) as (b & s2 & E2 & HP). exists b, s2. split; [|done]. unfold mbind, M_bind. by rewrite E. Qed.

Lemma does_ret {S A} (a : A) s (P : A -> S -> Prop) : P a s -> does (mret a) s P.
Proof. intros. by exists a, s. Qed.

Lemma does_mono {S A} (m : M S A) s (P Q : A -> S -> Prop) : does m s P -> (forall a s', P a s' -> Q a s') -> does m s Q.
Proof. intros (a & s' & E & HP) H. exists a, s'. auto. Qed.

Lemma does_lift {S A} (a : A) (s : S) (P : A -> S -> Prop) : P a s -> does (lift (Some a)) s P.
Proof. intros. by exists a, s. Qed.

Lemma for_m_ok {W S} (I : Z -> S -> W -> Prop) n lo body x (s : W) :
  I lo x s -> (forall i x s, lo <= i < lo + Z.of_nat n -> I i x s -> does (body i x) s (I (i + 1))) ->
  does (for_m n lo body x) s (I (lo + Z.of_nat n)).
Proof.
  revert lo x s. induction n as [|n IH]; intros lo x s H0' Hb; cbn [for_m].
  - apply does_ret. by rewrite Z.add_0_r.
  - eapply does_bind; [apply Hb; [lia|done]|]. intros x' s' Hi. replace (lo + Z.of_nat (Datatypes.S n)) with (lo + 1 + Z.of_nat n) by lia.
    apply IH; [done|]. intros i y t Hit. apply Hb. lia.
Qed.

Lemma each_until_ok {W R} (I : Z -> W -> Prop) (E : R -> W -> Prop) n lo mask body (s : W) :
  I lo s ->
  (forall i s, lo <= i < lo + Z.of_nat n -> Z.testbit mask i = true -> I i s ->
     does (body i) s (fun r s' => match r with Some r => E r s' | None => I (i + 1) s' end)) ->
  (forall i s, lo <= i < lo + Z.of_nat n -> Z.testbit mask i = false -> I i s -> I (i + 1) s) ->
  does (each_until n lo mask body) s (fun r s' => match r with Some r => E r s' | None => I (lo + Z.of_nat n) s' end).
Proof.
  revert lo s. induction n as [|n IH]; intros lo s H0' Hb Hskip; cbn [each_until].
  - apply does_ret. by rewrite Z.add_0_r.
  - eapply (does_bind _ _ _ _ (fun r s' => match r with Some r => E r s' | None => I (lo + 1) s' end)).
    + destruct (Z.testbit mask lo) eqn:Em; [apply Hb; [lia|done|done]|]. apply does_ret. apply Hskip; [lia|done|done].
    + intros r s' Hr. destruct r as [r|]; [by apply does_ret|]. replace (lo + Z.of_nat (Datatypes.S n)) with (lo + 1 + Z.of_nat n) by lia.
      apply IH; [done|intros; apply Hb; [lia|done|done]|intros; apply Hskip; [lia|done|done]].
Qed.
