(* ===== verification/Ring.v ===== *)
(** * Ring buffers

    The contents of a circular array: [ring_list N slots r n] are the [n] cells
    starting at the free-running (or multiply-wrapped) index [r], read modulo
    the capacity [N].  The lemmas say what advancing the read index and writing
    behind the last element do to these contents; the message queues, the
    virtual UART and the CM-to-DM message buffer share them. *)

From S2P Require Import Prelude.

Definition ring_list {A} (N : Z) (slots : list A) (r n : Z) : list A :=
  omap (fun k => aget slots (k mod N)) (seqZ r n).

(** Inside a window shorter than the capacity no index meets the next one. *)
Lemma mod_window N r n k : 0 <= n < N -> r <= k < r + n -> k mod N <> (r + n) mod N.
Proof.
  intros Hn Hk E.
  pose proof (Z.div_mod k N). pose proof (Z.div_mod (r + n) N).
  assert (r + n - k = N * ((r + n) / N - k / N)) by lia.
  assert (0 < r + n - k < N) by lia.
  remember ((r + n) / N - k / N) as q.
  assert (1 <= q \/ q <= 0) as [?|?] by lia; nia.
Qed.

Section ring.
Context {A : Type} (N : Z) (slots : list A).
Hypothesis HN : 0 < N.
Hypothesis Hlen : len slots = N.

Lemma ring_aget k : exists x, aget slots (k mod N) = Some x.
Proof. apply aget_in. rewrite Hlen. apply Z.mod_pos_bound. lia. Qed.

Lemma ring_aset k x : exists s', aset slots (k mod N) x = Some s'.
Proof. eexists. apply aset_in. rewrite Hlen. apply Z.mod_pos_bound. lia. Qed.

Lemma ring_list_nil r n : n <= 0 -> ring_list N slots r n = [].
Proof. intros. unfold ring_list. by rewrite seqZ_nil by lia. Qed.

Lemma ring_list_cons r n x :
  0 < n -> aget slots (r mod N) = Some x ->
  ring_list N slots r n = x :: ring_list N slots (r + 1) (n - 1).
Proof.
  intros Hn Hx. unfold ring_list. rewrite seqZ_cons by lia. simpl.
  rewrite Hx. by rewrite <- Z.add_1_r, <- Z.sub_1_r.
Qed.

Lemma ring_list_snoc r n x :
  0 <= n -> aget slots ((r + n) mod N) = Some x ->
  ring_list N slots r (n + 1) = ring_list N slots r n ++ [x].
Proof.
  intros Hn Hx. unfold ring_list. rewrite seqZ_app by lia.
  rewrite omap_app, (seqZ_cons (r + n)) by lia. simpl.
  by rewrite Hx.
Qed.

Lemma ring_list_length r n : 0 <= n -> len (ring_list N slots r n) = n.
Proof.
  intros Hn. revert r. pattern n. apply natlike_ind; [| |done].
  - intros r. by rewrite ring_list_nil.
  - intros m Hm IH r. destruct (ring_aget (r + m)) as [x Hx].
    rewrite <- Z.add_1_r, (ring_list_snoc r m x), length_app by done.
    specialize (IH r). simpl. lia.
Qed.

(** Only the index modulo the capacity matters. *)
Lemma ring_list_cong r r' n : r mod N = r' mod N -> ring_list N slots r n = ring_list N slots r' n.
Proof.
  intros Heq. destruct (Z.le_gt_cases n 0); [by rewrite !ring_list_nil|].
  revert r r' Heq. pattern n. apply natlike_ind; [| |lia].
  - intros. by rewrite !ring_list_nil.
  - intros m Hm IH r r' Heq. destruct (ring_aget r) as [x Hx].
    rewrite (ring_list_cons r _ x), (ring_list_cons r' _ x) by (lia || congruence).
    f_equal. replace (Z.succ m - 1) with m by lia. apply IH.
    rewrite (Z.add_mod r), (Z.add_mod r'), Heq by lia. done.
Qed.

(** A cell outside the live window may be overwritten. *)
Lemma ring_list_aset_outside s' r n i x :
  aset slots (i mod N) x = Some s' ->
  (forall k, r <= k < r + n -> k mod N <> i mod N) ->
  ring_list N s' r n = ring_list N slots r n.
Proof.
  intros Hs Hout. unfold ring_list.
  apply list_omap_ext, Forall2_same_length_lookup_2; [done|].
  intros j k k' Hk Hk'. assert (k' = k) as -> by congruence.
  apply lookup_seqZ in Hk as [-> Hj]. rewrite (aget_aset _ _ _ _ _ Hs).
  destruct (Z.eqb_spec (i mod N) ((r + Z.of_nat j) mod N)) as [E|]; [|done].
  exfalso. apply (Hout (r + Z.of_nat j)); [lia|done].
Qed.
End ring.

(** Writing at the write index appends an element. *)
Lemma ring_list_push {A} N (slots s' : list A) r n x :
  0 < N -> len slots = N -> 0 <= n < N ->
  aset slots ((r + n) mod N) x = Some s' ->
  ring_list N s' r (n + 1) = ring_list N slots r n ++ [x].
Proof.
  intros HN Hlen Hn Hs.
  rewrite (ring_list_snoc N s' r n x); [|lia|].
  - f_equal. apply (ring_list_aset_outside N slots s' r n (r + n) x Hs).
    intros k Hk. by apply mod_window.
  - rewrite (aget_aset _ _ _ _ _ Hs). by rewrite Z.eqb_refl.
Qed.

(** Advancing the read index drops the head. *)
Lemma ring_list_tail {A} N (slots : list A) r n :
  0 < N -> len slots = N -> 0 < n ->
  exists x, aget slots (r mod N) = Some x /\
            ring_list N slots r n = x :: ring_list N slots (r + 1) (n - 1).
Proof.
  intros HN Hlen Hn. destruct (ring_aget N slots HN Hlen r) as [x Hx].
  exists x. split; [done|]. by apply ring_list_cons.
Qed.

(** The [j]-th of the contents. *)
Lemma ring_list_aget {A} N (slots : list A) r n j :
  0 < N -> len slots = N -> 0 <= j < n -> aget (ring_list N slots r n) j = aget slots ((r + j) mod N).
Proof.
  intros HN Hl Hj. rewrite aget_nat by lia. replace j with (Z.of_nat (Z.to_nat j)) in Hj |- * by lia.
  rewrite Nat2Z.id. revert r n Hj. induction (Z.to_nat j) as [|k IH]; intros r n Hj;
    destruct (ring_list_tail N slots r n HN Hl) as (x & Ex & ->); try lia; cbn [lookup list_lookup].
  - by rewrite Z.add_0_r, Ex.
  - rewrite IH by lia. do 2 f_equal. lia.
Qed.

#[export] Hint Resolve ring_list_push ring_list_tail : fw.
