(* ===== verification/Vuart.v ===== *)
(** * The virtual UART ([include/tenstorrent/uart_tt_virt.h], [drivers/serial/uart_tt_virt.c])

    Two byte rings in memory shared by the firmware (the device) and the host,
    addressed by free-running 32-bit counters.  First the inline functions both
    sides use and the Zephyr driver on top of them, run one at a time; then
    every interleaving of one producer and one consumer, load by load.
    [None] is an access outside the buffer or a division by zero. *)

From S2P Require Import Prelude Ring.

(** ** The shared descriptor *)

Inductive tt_vuart_role := TT_VUART_ROLE_DEVICE | TT_VUART_ROLE_HOST.

Record tt_vuart := MkVuart {
  magic : Z;
  rx_cap : Z;
  rx_head : Z;
  rx_tail : Z;
  tx_cap : Z;
  tx_head : Z;
  tx_oflow : Z;
  tx_tail : Z;
  version : Z;
  buf : list Z
}.

Definition tt_vuart_inst (v : tt_vuart) : Z := Z.shiftr (version v) 24.

Definition tt_vuart_buf_size (head tail : Z) : Z := u32 (tail - head).
Definition tt_vuart_buf_space (head tail cap : Z) : Z := u32 (cap - tt_vuart_buf_size head tail).
Definition tt_vuart_buf_empty (head tail : Z) : bool := tt_vuart_buf_size head tail =? 0.
Definition tt_vuart_buf_full (head tail cap : Z) : bool := tt_vuart_buf_size head tail =? cap.

(** The ring a role reads from and the one it writes to. *)
Inductive chan := Tx | Rx.
Definition in_chan (role : tt_vuart_role) : chan := match role with TT_VUART_ROLE_DEVICE => Rx | TT_VUART_ROLE_HOST => Tx end.
Definition out_chan (role : tt_vuart_role) : chan := match role with TT_VUART_ROLE_DEVICE => Tx | TT_VUART_ROLE_HOST => Rx end.

Definition head_of (c : chan) (v : tt_vuart) : Z := match c with Tx => tx_head v | Rx => rx_head v end.
Definition tail_of (c : chan) (v : tt_vuart) : Z := match c with Tx => tx_tail v | Rx => rx_tail v end.
Definition cap_of (c : chan) (v : tt_vuart) : Z := match c with Tx => tx_cap v | Rx => rx_cap v end.
Definition offs_of (c : chan) (v : tt_vuart) : Z := match c with Tx => 0 | Rx => tx_cap v end.

Definition set_head (c : chan) (h : Z) (v : tt_vuart) : tt_vuart :=
  match c with
  | Tx => MkVuart (magic v) (rx_cap v) (rx_head v) (rx_tail v) (tx_cap v) h (tx_oflow v) (tx_tail v) (version v) (buf v)
  | Rx => MkVuart (magic v) (rx_cap v) h (rx_tail v) (tx_cap v) (tx_head v) (tx_oflow v) (tx_tail v) (version v) (buf v)
  end.
Definition set_tail (c : chan) (t : Z) (v : tt_vuart) : tt_vuart :=
  match c with
  | Tx => MkVuart (magic v) (rx_cap v) (rx_head v) (rx_tail v) (tx_cap v) (tx_head v) (tx_oflow v) t (version v) (buf v)
  | Rx => MkVuart (magic v) (rx_cap v) (rx_head v) t (tx_cap v) (tx_head v) (tx_oflow v) (tx_tail v) (version v) (buf v)
  end.
Definition set_oflow (n : Z) (v : tt_vuart) : tt_vuart :=
  MkVuart (magic v) (rx_cap v) (rx_head v) (rx_tail v) (tx_cap v) (tx_head v) n (tx_tail v) (version v) (buf v).
Definition set_buf (b : list Z) (v : tt_vuart) : tt_vuart :=
  MkVuart (magic v) (rx_cap v) (rx_head v) (rx_tail v) (tx_cap v) (tx_head v) (tx_oflow v) (tx_tail v) (version v) b.

(** [vuart->buf[offs + (i % cap)]]. *)
Definition cell (c : chan) (i : Z) (v : tt_vuart) : option Z :=
  if cap_of c v =? 0 then None else Some (offs_of c v + i mod cap_of c v).

(** Without interference the compare-and-exchange succeeds the first time. *)
Definition tt_vuart_poll_in (role : tt_vuart_role) (v : tt_vuart) : option (Z * tt_vuart) :=
  let c := in_chan role in
  if tt_vuart_buf_empty (head_of c v) (tail_of c v) then Some (-1, v)
  else
    let head := head_of c v in
    let v := set_head c (u32 (head + 1)) v in
    i ← cell c head v;
    ch ← aget (buf v) i;
    Some (ch, v).

Definition is_device (role : tt_vuart_role) : bool := match role with TT_VUART_ROLE_DEVICE => true | _ => false end.

Definition tt_vuart_poll_out (out_char : Z) (role : tt_vuart_role) (v : tt_vuart) : option tt_vuart :=
  let c := out_chan role in
  if is_device role && tt_vuart_buf_full (head_of c v) (tail_of c v) (cap_of c v)
  then Some (set_oflow (u32 (tx_oflow v + 1)) v)
  else
    let tail := tail_of c v in
    let v := set_tail c (u32 (tail + 1)) v in
    i ← cell c tail v;
    b ← aset (buf v) i out_char;
    Some (set_buf b v).

(** ** The driver *)

Record uart_config := MkUartCfg { baudrate : Z; parity : Z; stop_bits : Z; data_bits : Z; flow_ctrl : Z }.

(** The values of Zephyr's enumerations that bound what is accepted. *)
Record uart_enums := MkUartEnums {
  UART_CFG_PARITY_NONE : Z; UART_CFG_PARITY_SPACE : Z;
  UART_CFG_STOP_BITS_0_5 : Z; UART_CFG_STOP_BITS_2 : Z;
  UART_CFG_DATA_BITS_5 : Z; UART_CFG_DATA_BITS_8 : Z;
  UART_CFG_FLOW_CTRL_NONE : Z; UART_CFG_FLOW_CTRL_RTS_CTS : Z
}.

Record uart_tt_virt_data := MkUart {
  cfg : uart_config;
  err_flags : Z;
  err_irq_en : bool;
  rx_irq_en : bool;
  tx_irq_en : bool;
  irq_timer : bool;          (** running *)
  irq_cb : bool;             (** a callback is set *)
  vuart : tt_vuart
}.

Definition set_cfg (c : uart_config) (d : uart_tt_virt_data) : uart_tt_virt_data :=
  MkUart c (err_flags d) (err_irq_en d) (rx_irq_en d) (tx_irq_en d) (irq_timer d) (irq_cb d) (vuart d).
Definition set_irqs (e r t timer : bool) (d : uart_tt_virt_data) : uart_tt_virt_data :=
  MkUart (cfg d) (err_flags d) e r t timer (irq_cb d) (vuart d).
Definition set_vuart (v : tt_vuart) (d : uart_tt_virt_data) : uart_tt_virt_data :=
  MkUart (cfg d) (err_flags d) (err_irq_en d) (rx_irq_en d) (tx_irq_en d) (irq_timer d) (irq_cb d) v.

Definition uart_tt_virt_config_get (c : uart_config) (d : uart_tt_virt_data) : Z * uart_tt_virt_data := (0, set_cfg c d).

Definition between (lo x hi : Z) : bool := (lo <=? x) && (x <=? hi).
Definition uart_tt_virt_configure (z : uart_enums) (c : option uart_config) (d : uart_tt_virt_data) : Z * uart_tt_virt_data :=
  match c with
  | None => (-22, d)
  | Some c =>
      if negb (between (UART_CFG_PARITY_NONE z) (parity c) (UART_CFG_PARITY_SPACE z)) then (-22, d)
      else if negb (between (UART_CFG_STOP_BITS_0_5 z) (stop_bits c) (UART_CFG_STOP_BITS_2 z)) then (-22, d)
      else if negb (between (UART_CFG_DATA_BITS_5 z) (data_bits c) (UART_CFG_DATA_BITS_8 z)) then (-22, d)
      else if negb (between (UART_CFG_FLOW_CTRL_NONE z) (flow_ctrl c) (UART_CFG_FLOW_CTRL_RTS_CTS z)) then (-22, d)
      else (0, set_cfg c d)
  end.

Definition uart_tt_virt_err_check (d : uart_tt_virt_data) : Z := Z.b2z (negb (err_flags d =? 0)).

Fixpoint out_loop (l : list Z) (role : tt_vuart_role) (v : tt_vuart) : option tt_vuart :=
  match l with
  | [] => Some v
  | ch :: l => v ← tt_vuart_poll_out ch role v; out_loop l role v
  end.

Definition loopback_step (v : tt_vuart) : option tt_vuart :=
  '(r, v) ← tt_vuart_poll_in TT_VUART_ROLE_HOST v;
  tt_vuart_poll_out (if r =? -1 then 255 else r) TT_VUART_ROLE_HOST v.

(** [size] is the number of bytes at [tx_data]. *)
Definition uart_tt_virt_fifo_fill (loopback : bool) (tx_data : list Z) (size : Z) (d : uart_tt_virt_data)
    : option (Z * uart_tt_virt_data) :=
  let v := vuart d in
  let size := Z.min (s32 (tt_vuart_buf_space (tx_head v) (tx_tail v) (tx_cap v))) size in
  v ← (if len tx_data <? size then None else out_loop (take (Z.to_nat size) tx_data) TT_VUART_ROLE_DEVICE v);
  if loopback && (0 <? size) then
    let lim := Z.min size (s32 (tt_vuart_buf_space (rx_head v) (rx_tail v) (rx_cap v))) in
    v ← for_loop (Z.to_nat lim) 0 (fun _ v => loopback_step v) v;
    Some (size, set_vuart v d)
  else Some (size, set_vuart v d).

(** The bytes stored at [rx_data]; the caller asks for no more than there are. *)
Fixpoint in_loop (n : nat) (v : tt_vuart) : option (list Z * tt_vuart) :=
  match n with
  | O => Some ([], v)
  | S n =>
      '(ch, v) ← tt_vuart_poll_in TT_VUART_ROLE_DEVICE v;
      '(l, v) ← in_loop n v;
      Some (ch :: l, v)
  end.

Definition uart_tt_virt_fifo_read (size : Z) (d : uart_tt_virt_data) : option (Z * list Z * uart_tt_virt_data) :=
  let v := vuart d in
  let size := Z.min size (s32 (tt_vuart_buf_size (rx_head v) (rx_tail v))) in
  '(l, v) ← in_loop (Z.to_nat size) v;
  Some (size, l, set_vuart v d).

Definition uart_tt_virt_irq_err_disable (d : uart_tt_virt_data) : uart_tt_virt_data :=
  set_irqs false (rx_irq_en d) (tx_irq_en d) (if negb (rx_irq_en d || tx_irq_en d) then false else irq_timer d) d.
Definition uart_tt_virt_irq_err_enable (d : uart_tt_virt_data) : uart_tt_virt_data :=
  set_irqs true (rx_irq_en d) (tx_irq_en d) true d.
Definition uart_tt_virt_irq_rx_disable (d : uart_tt_virt_data) : uart_tt_virt_data :=
  set_irqs (err_irq_en d) false (tx_irq_en d) (if negb (tx_irq_en d || err_irq_en d) then false else irq_timer d) d.
Definition uart_tt_virt_irq_rx_enable (d : uart_tt_virt_data) : uart_tt_virt_data :=
  set_irqs (err_irq_en d) true (tx_irq_en d) true d.
Definition uart_tt_virt_irq_tx_disable (d : uart_tt_virt_data) : uart_tt_virt_data :=
  set_irqs (err_irq_en d) (rx_irq_en d) false (if negb (rx_irq_en d || err_irq_en d) then false else irq_timer d) d.
Definition uart_tt_virt_irq_tx_enable (d : uart_tt_virt_data) : uart_tt_virt_data :=
  set_irqs (err_irq_en d) (rx_irq_en d) true true d.

Definition uart_tt_virt_irq_callback_set (d : uart_tt_virt_data) : uart_tt_virt_data :=
  MkUart (cfg d) (err_flags d) (err_irq_en d) (rx_irq_en d) (tx_irq_en d) (irq_timer d) true (vuart d).

Definition uart_tt_virt_irq_rx_ready (d : uart_tt_virt_data) : Z :=
  if negb (rx_irq_en d) then 0 else Z.b2z (negb (tt_vuart_buf_empty (rx_head (vuart d)) (rx_tail (vuart d)))).
Definition uart_tt_virt_irq_tx_ready (d : uart_tt_virt_data) : Z :=
  let v := vuart d in
  if negb (tx_irq_en d) then 0 else s32 (tt_vuart_buf_space (tx_head v) (tx_tail v) (tx_cap v)).
Definition uart_tt_virt_irq_tx_complete (d : uart_tt_virt_data) : Z :=
  Z.b2z (tt_vuart_buf_empty (tx_head (vuart d)) (tx_tail (vuart d))).
Definition uart_tt_virt_irq_is_pending (d : uart_tt_virt_data) : bool :=
  negb (uart_tt_virt_irq_tx_ready d =? 0) || negb (uart_tt_virt_irq_rx_ready d =? 0).

(** The timer's handler: the callback found at entry, until nothing is pending;
    [fuel] bounds the calls. *)
Fixpoint irq_loop (fuel : nat) (cb : uart_tt_virt_data -> uart_tt_virt_data) (d : uart_tt_virt_data) : option uart_tt_virt_data :=
  if negb (uart_tt_virt_irq_is_pending d) then Some d
  else match fuel with O => None | S fuel => irq_loop fuel cb (cb d) end.
Definition uart_tt_virt_irq_handler (fuel : nat) (cb : uart_tt_virt_data -> uart_tt_virt_data) (d : uart_tt_virt_data)
    : option uart_tt_virt_data :=
  if negb (irq_cb d) then Some d else irq_loop fuel cb d.

Definition uart_tt_virt_poll_in (d : uart_tt_virt_data) : option (Z * Z * uart_tt_virt_data) :=
  '(r, v) ← tt_vuart_poll_in TT_VUART_ROLE_DEVICE (vuart d);
  Some (if r =? -1 then -1 else 0, r, set_vuart v d).
Definition uart_tt_virt_poll_out (out_char : Z) (d : uart_tt_virt_data) : option uart_tt_virt_data :=
  v ← tt_vuart_poll_out out_char TT_VUART_ROLE_DEVICE (vuart d); Some (set_vuart v d).

(** The initialisation callback is weak and empty; the timer is set up but not started. *)
Definition uart_tt_virt_init (d : uart_tt_virt_data) : Z * uart_tt_virt_data :=
  (0, set_irqs (err_irq_en d) (rx_irq_en d) (tx_irq_en d) false d).

(** ** The rings as queues *)

(** The cells of one ring, and the bytes waiting in it. *)
Definition slots (c : chan) (v : tt_vuart) : list Z := take (Z.to_nat (cap_of c v)) (drop (Z.to_nat (offs_of c v)) (buf v)).
Definition size_of (c : chan) (v : tt_vuart) : Z := tt_vuart_buf_size (head_of c v) (tail_of c v).
Definition contents (c : chan) (v : tt_vuart) : list Z := ring_list (cap_of c v) (slots c v) (head_of c v) (size_of c v).

(** The counters wrap at [2^32], so a ring works across the wrap only when its
    capacity divides [2^32]. *)
Record vuart_wf (v : tt_vuart) : Prop := {
  wf_cap : forall c, 0 < cap_of c v < 2 ^ 31 /\ (cap_of c v | 2 ^ 32);
  wf_counters : forall c, is_u32 (head_of c v) /\ is_u32 (tail_of c v);
  wf_size : forall c, size_of c v <= cap_of c v;
  wf_buf : tx_cap v + rx_cap v <= len (buf v);
  wf_bytes : Forall is_u8 (buf v)
}.

Lemma u32_sub_succ_r a b : u32 (a - u32 (b + 1)) = u32 (a - b - 1).
Proof. unfold wrap. rewrite Zminus_mod_idemp_r. f_equal. lia. Qed.
Lemma u32_sub_succ_l a b : u32 (u32 (a + 1) - b) = u32 (a - b + 1).
Proof. unfold wrap. rewrite Zminus_mod_idemp_l. f_equal. lia. Qed.
Lemma u32_pred a : 0 < u32 a -> u32 (a - 1) = u32 a - 1.
Proof. intros. word_lia. Qed.
Lemma u32_succ a : u32 a < 2 ^ 31 -> u32 (a + 1) = u32 a + 1.
Proof. intros. word_lia. Qed.

(** Indexes modulo the capacity survive the wrap. *)
Lemma mod_cap_wrap cap x : 0 < cap -> (cap | 2 ^ 32) -> u32 x mod cap = x mod cap.
Proof.
  intros Hc [k Hk]. unfold wrap. rewrite Hk. assert (0 < k) by nia.
  rewrite (Z.mul_comm k cap), Z.rem_mul_r by lia. rewrite Z.mul_comm, Z.mod_add by lia. apply Z.mod_mod. lia.
Qed.

Section facts.
Variable v : tt_vuart.
Hypothesis Hwf : vuart_wf v.

Lemma offs_nonneg c : 0 <= offs_of c v /\ offs_of c v + cap_of c v <= len (buf v).
Proof.
  pose proof (wf_cap v Hwf Tx) as [? _]. pose proof (wf_cap v Hwf Rx) as [? _]. pose proof (wf_buf v Hwf).
  destruct c; cbn [offs_of cap_of] in *; lia.
Qed.

Lemma slots_length c : len (slots c v) = cap_of c v.
Proof.
  pose proof (wf_cap v Hwf c) as [? _]. pose proof (offs_nonneg c). unfold slots. rewrite length_take, length_drop. lia.
Qed.

Lemma size_range c : 0 <= size_of c v <= cap_of c v.
Proof. split; [apply u32_range|apply (wf_size v Hwf)]. Qed.

Lemma contents_length c : len (contents c v) = size_of c v.
Proof. apply ring_list_length; [apply (wf_cap v Hwf c)|apply slots_length|apply size_range]. Qed.

Lemma slots_aget c k : 0 <= k < cap_of c v -> aget (slots c v) k = aget (buf v) (offs_of c v + k).
Proof.
  intros Hk. pose proof (offs_nonneg c). rewrite !aget_nat by lia. unfold slots.
  rewrite lookup_take_lt, lookup_drop by lia. f_equal. lia.
Qed.

Lemma cell_defined c i : cell c i v = Some (offs_of c v + i mod cap_of c v) /\ 0 <= i mod cap_of c v < cap_of c v.
Proof.
  pose proof (wf_cap v Hwf c) as [? _]. unfold cell. destruct (Z.eqb_spec (cap_of c v) 0); [lia|].
  split; [done|]. apply Z.mod_pos_bound. lia.
Qed.

Lemma contents_u8 c : Forall is_u8 (contents c v).
Proof.
  apply Forall_forall. intros x Hx. unfold contents, ring_list in Hx. apply list_elem_of_omap in Hx as (k & _ & Hk).
  apply (aget_Forall is_u8 (slots c v)) in Hk; [done|]. apply Forall_take, Forall_drop, (wf_bytes v Hwf).
Qed.
End facts.

(** The other ring. *)
Definition other (c : chan) : chan := match c with Tx => Rx | Rx => Tx end.

Lemma chan_cases c (P : chan -> Prop) : P c -> P (other c) -> forall c', P c'.
Proof. by destruct c; intros ? ? []. Qed.

(** What an operation on ring [c] leaves alone. *)
Record same_frame (c : chan) (v v' : tt_vuart) : Prop := {
  sf_wf : vuart_wf v';
  sf_cap : forall c, cap_of c v' = cap_of c v;
  sf_other : contents (other c) v' = contents (other c) v
}.

Lemma poll_in_empty role v :
  vuart_wf v -> contents (in_chan role) v = [] -> tt_vuart_poll_in role v = Some (-1, v).
Proof.
  intros Hwf Hc. pose proof (contents_length v Hwf (in_chan role)) as Hl. rewrite Hc in Hl. cbn in Hl.
  unfold tt_vuart_poll_in, tt_vuart_buf_empty. fold (size_of (in_chan role) v). by rewrite <- Hl.
Qed.

Lemma poll_in_head role v x l :
  vuart_wf v -> contents (in_chan role) v = x :: l ->
  exists v', tt_vuart_poll_in role v = Some (x, v') /\ same_frame (in_chan role) v v' /\
    contents (in_chan role) v' = l /\ tx_oflow v' = tx_oflow v.
Proof.
  intros Hwf Hc. set (c := in_chan role) in *.
  pose proof (contents_length v Hwf c) as Hl. rewrite Hc in Hl. cbn [length] in Hl.
  pose proof (size_range v Hwf c) as Hs. pose proof (wf_cap v Hwf c) as [Hcap Hdiv].
  destruct (cell_defined v Hwf c (head_of c v)) as [Ecell Hk].
  destruct (ring_list_tail (cap_of c v) (slots c v) (head_of c v) (size_of c v)) as (y & Ey & El);
    [lia|by apply slots_length|lia|].
  unfold contents in Hc. rewrite El in Hc. injection Hc as -> Htail.
  unfold tt_vuart_poll_in. fold c. unfold tt_vuart_buf_empty. fold (size_of c v).
  destruct (Z.eqb_spec (size_of c v) 0); [lia|]. cbv zeta.
  assert (Hcell : cell c (head_of c v) (set_head c (u32 (head_of c v + 1)) v) = Some (offs_of c v + head_of c v mod cap_of c v))
    by (rewrite <- Ecell; by destruct c).
  assert (Hb : buf (set_head c (u32 (head_of c v + 1)) v) = buf v) by (by destruct c).
  rewrite Hcell. cbn [mbind option_bind]. rewrite Hb, <- (slots_aget v Hwf) by done. rewrite Ey. cbn [mbind option_bind].
  set (v' := set_head c (u32 (head_of c v + 1)) v).
  assert (Hsize : size_of c v' = size_of c v - 1).
  { unfold v', size_of, tt_vuart_buf_size in *. rewrite <- u32_pred by lia.
    replace (tail_of c (set_head c (u32 (head_of c v + 1)) v)) with (tail_of c v) by (by destruct c).
    replace (head_of c (set_head c (u32 (head_of c v + 1)) v)) with (u32 (head_of c v + 1)) by (by destruct c).
    apply u32_sub_succ_r. }
  assert (Hother : size_of (other c) v' = size_of (other c) v) by (by destruct c).
  exists v'. split; [done|]. split; [constructor|split].
  - constructor.
    + intros c'. replace (cap_of c' v') with (cap_of c' v) by (by destruct c, c'). apply (wf_cap v Hwf).
    + intros c'. unfold v'. pose proof (wf_counters v Hwf c') as [H1 H2].
      destruct c, c'; cbn [set_head head_of tail_of rx_head rx_tail tx_head tx_tail] in *; auto using u32_range.
    + apply (chan_cases c).
      * rewrite Hsize. replace (cap_of c v') with (cap_of c v) by (by destruct c). lia.
      * rewrite Hother. replace (cap_of (other c) v') with (cap_of (other c) v) by (by destruct c). apply (wf_size v Hwf).
    + replace (tx_cap v' + rx_cap v') with (tx_cap v + rx_cap v) by (by destruct c). unfold v'. rewrite Hb. apply (wf_buf v Hwf).
    + unfold v'. rewrite Hb. apply (wf_bytes v Hwf).
  - intros c'. by destruct c, c'.
  - by destruct c.
  - rewrite <- Htail. unfold contents. rewrite Hsize.
    replace (cap_of c v') with (cap_of c v) by (by destruct c). replace (slots c v') with (slots c v) by (by destruct c).
    apply ring_list_cong; [lia|by apply slots_length|].
    replace (head_of c v') with (u32 (head_of c v + 1)) by (by destruct c). by apply mod_cap_wrap; [lia|].
  - by destruct c.
Qed.

Lemma slots_write c v k b (B : list Z) :
  vuart_wf v -> 0 <= k < cap_of c v -> aset (buf v) (offs_of c v + k) b = Some B ->
  aset (slots c v) k b = Some (slots c (set_buf B v)) /\ slots (other c) (set_buf B v) = slots (other c) v /\
  length B = length (buf v).
Proof.
  intros Hwf Hk E. pose proof (offs_nonneg v Hwf c) as [Ho Hl]. pose proof (slots_length v Hwf c) as Hs.
  rewrite aset_in in E by lia. injection E as <-. rewrite aset_in by lia.
  assert (Hi : Z.to_nat (offs_of c v + k) = (Z.to_nat (offs_of c v) + Z.to_nat k)%nat) by lia. rewrite Hi.
  split; [|split; [|apply length_insert]].
  - f_equal. unfold slots. destruct c; cbn [set_buf buf cap_of offs_of tx_cap rx_cap] in *;
      rewrite drop_insert_ge, take_insert_lt by lia; do 2 f_equal; lia.
  - unfold slots. destruct c; cbn [other set_buf buf cap_of offs_of tx_cap rx_cap] in *.
    + by rewrite drop_insert_lt by lia.
    + rewrite !drop_0. by rewrite take_insert_ge by lia.
Qed.

Lemma poll_out_room b role v :
  vuart_wf v -> is_u8 b -> len (contents (out_chan role) v) < cap_of (out_chan role) v ->
  exists v', tt_vuart_poll_out b role v = Some v' /\ same_frame (out_chan role) v v' /\
    contents (out_chan role) v' = contents (out_chan role) v ++ [b] /\ tx_oflow v' = tx_oflow v.
Proof.
  intros Hwf Hb Hroom. set (c := out_chan role) in *.
  rewrite (contents_length v Hwf c) in Hroom.
  pose proof (size_range v Hwf c) as Hs. pose proof (wf_cap v Hwf c) as [Hcap Hdiv].
  destruct (cell_defined v Hwf c (tail_of c v)) as [Ecell Hk]. pose proof (offs_nonneg v Hwf c) as [Ho Hl].
  unfold tt_vuart_poll_out. fold c. unfold tt_vuart_buf_full. fold (size_of c v).
  destruct (Z.eqb_spec (size_of c v) (cap_of c v)); [lia|]. rewrite andb_false_r. cbv zeta.
  set (v1 := set_tail c (u32 (tail_of c v + 1)) v).
  assert (Hcell : cell c (tail_of c v) v1 = Some (offs_of c v + tail_of c v mod cap_of c v))
    by (rewrite <- Ecell; by destruct c).
  rewrite Hcell. cbn [mbind option_bind]. replace (buf v1) with (buf v) by (by destruct c).
  destruct (aset (buf v) (offs_of c v + tail_of c v mod cap_of c v) b) as [B|] eqn:EB;
    [|rewrite aset_in in EB by lia; done].
  cbn [mbind option_bind]. destruct (slots_write c v _ b B Hwf Hk EB) as (Hsl & Hso & HlB).
  set (v' := set_buf B v1).
  assert (Hslots : slots c v' = slots c (set_buf B v)) by (by destruct c).
  assert (Hslots' : slots (other c) v' = slots (other c) (set_buf B v)) by (by destruct c).
  assert (Hsize : size_of c v' = size_of c v + 1).
  { unfold size_of, tt_vuart_buf_size in *. rewrite <- u32_succ by lia.
    replace (head_of c v') with (head_of c v) by (by destruct c).
    replace (tail_of c v') with (u32 (tail_of c v + 1)) by (by destruct c). apply u32_sub_succ_l. }
  assert (Hother : size_of (other c) v' = size_of (other c) v) by (by destruct c).
  exists v'. split; [done|]. split; [constructor|split].
  - constructor.
    + intros c'. replace (cap_of c' v') with (cap_of c' v) by (by destruct c, c'). apply (wf_cap v Hwf).
    + intros c'. pose proof (wf_counters v Hwf c') as [H1 H2].
      destruct c, c'; cbn [v' v1 set_buf set_tail head_of tail_of rx_head rx_tail tx_head tx_tail] in *; auto using u32_range.
    + apply (chan_cases c).
      * rewrite Hsize. replace (cap_of c v') with (cap_of c v) by (by destruct c). lia.
      * rewrite Hother. replace (cap_of (other c) v') with (cap_of (other c) v) by (by destruct c). apply (wf_size v Hwf).
    + replace (tx_cap v' + rx_cap v') with (tx_cap v + rx_cap v) by (by destruct c). cbn [v' set_buf buf]. rewrite HlB. apply (wf_buf v Hwf).
    + cbn [v' set_buf buf]. exact (aset_Forall _ _ _ _ _ (wf_bytes v Hwf) Hb EB).
  - intros c'. by destruct c, c'.
  - unfold contents. rewrite Hother, Hslots', Hso.
    replace (cap_of (other c) v') with (cap_of (other c) v) by (by destruct c).
    by replace (head_of (other c) v') with (head_of (other c) v) by (by destruct c).
  - unfold contents. rewrite Hsize, Hslots. replace (cap_of c v') with (cap_of c v) by (by destruct c).
    replace (head_of c v') with (head_of c v) by (by destruct c).
    apply ring_list_push; [lia|by apply slots_length|lia|].
    assert (Hidx : (head_of c v + size_of c v) mod cap_of c v = tail_of c v mod cap_of c v).
    { unfold size_of, tt_vuart_buf_size. rewrite Z.add_mod, mod_cap_wrap, <- Z.add_mod by (lia || done). f_equal. lia. }
    by rewrite Hidx.
  - by destruct c.
Qed.

Lemma poll_out_full b v :
  vuart_wf v -> len (contents Tx v) = tx_cap v ->
  tt_vuart_poll_out b TT_VUART_ROLE_DEVICE v = Some (set_oflow (u32 (tx_oflow v + 1)) v).
Proof.
  intros Hwf Hl. rewrite (contents_length v Hwf Tx) in Hl.
  unfold tt_vuart_poll_out. cbn [is_device out_chan cap_of]. unfold tt_vuart_buf_full. fold (size_of Tx v).
  rewrite Hl, Z.eqb_refl. reflexivity.
Qed.

(** ** The driver against its specification *)

Record queues := MkQueues { to_host : list Z; to_device : list Z; overflows : Z }.

Inductive uart_op :=
| DevicePut (b : Z) | DeviceGet | HostPut (b : Z) | HostGet | FifoFill (bytes : list Z) | FifoRead (n : nat).

Definition op_wf (op : uart_op) : Prop :=
  match op with
  | DevicePut b | HostPut b => is_u8 b
  | FifoFill l => Forall is_u8 l /\ len l < 2 ^ 31
  | FifoRead n => Z.of_nat n < 2 ^ 31
  | _ => True
  end.

(** One operation of either side, and what it reports. *)
Definition uart_step (loopback : bool) (op : uart_op) (d : uart_tt_virt_data) : option (list Z * uart_tt_virt_data) :=
  match op with
  | DevicePut b => d ← uart_tt_virt_poll_out b d; Some ([], d)
  | DeviceGet => '(rc, ch, d) ← uart_tt_virt_poll_in d; Some ([rc; ch], d)
  | HostPut b => v ← tt_vuart_poll_out b TT_VUART_ROLE_HOST (vuart d); Some ([], set_vuart v d)
  | HostGet => '(ch, v) ← tt_vuart_poll_in TT_VUART_ROLE_HOST (vuart d); Some ([ch], set_vuart v d)
  | FifoFill l => '(n, d) ← uart_tt_virt_fifo_fill loopback l (len l) d; Some ([n], d)
  | FifoRead n => '(k, l, d) ← uart_tt_virt_fifo_read (Z.of_nat n) d; Some (k :: l, d)
  end.

(** The same on two bounded queues; the host must not write to a full one. *)
Definition queue_step (loopback : bool) (tcap rcap : Z) (op : uart_op) (q : queues) : option (list Z * queues) :=
  match op with
  | DevicePut b =>
      Some ([], if len (to_host q) =? tcap then MkQueues (to_host q) (to_device q) (u32 (overflows q + 1))
                else MkQueues (to_host q ++ [b]) (to_device q) (overflows q))
  | DeviceGet =>
      Some match to_device q with
           | [] => ([-1; -1], q)
           | x :: l => ([0; x], MkQueues (to_host q) l (overflows q))
           end
  | HostPut b =>
      if len (to_device q) <? rcap then Some ([], MkQueues (to_host q) (to_device q ++ [b]) (overflows q)) else None
  | HostGet =>
      Some match to_host q with
           | [] => ([-1], q)
           | x :: l => ([x], MkQueues l (to_device q) (overflows q))
           end
  | FifoFill l =>
      let n := Z.to_nat (Z.min (tcap - len (to_host q)) (len l)) in
      let t := to_host q ++ take n l in
      let k := if loopback then Z.to_nat (Z.min (Z.of_nat n) (rcap - len (to_device q))) else 0%nat in
      Some ([Z.of_nat n], MkQueues (drop k t) (to_device q ++ take k t) (overflows q))
  | FifoRead n =>
      let k := Nat.min n (length (to_device q)) in
      Some (Z.of_nat k :: take k (to_device q), MkQueues (to_host q) (drop k (to_device q)) (overflows q))
  end.

(** The queues a well-formed driver state stands for. *)
Record represents (tcap rcap : Z) (q : queues) (d : uart_tt_virt_data) : Prop := {
  rep_wf : vuart_wf (vuart d);
  rep_tcap : tx_cap (vuart d) = tcap;
  rep_rcap : rx_cap (vuart d) = rcap;
  rep_tx : contents Tx (vuart d) = to_host q;
  rep_rx : contents Rx (vuart d) = to_device q;
  rep_oflow : tx_oflow (vuart d) = overflows q
}.

Lemma out_loop_room l role v :
  vuart_wf v -> Forall is_u8 l -> len (contents (out_chan role) v) + len l <= cap_of (out_chan role) v ->
  exists v', out_loop l role v = Some v' /\ same_frame (out_chan role) v v' /\
    contents (out_chan role) v' = contents (out_chan role) v ++ l /\ tx_oflow v' = tx_oflow v.
Proof.
  revert v. induction l as [|b l IH]; intros v Hwf HF Hroom; cbn [out_loop length] in *.
  - exists v. split; [done|]. split; [by constructor|]. by rewrite app_nil_r.
  - apply Forall_cons in HF as [Hb HF].
    destruct (poll_out_room b role v Hwf Hb) as (v1 & -> & [W1 C1 O1] & E1 & F1); [lia|]. cbn [mbind option_bind].
    destruct (IH v1 W1 HF) as (v2 & -> & [W2 C2 O2] & E2 & F2).
    { rewrite E1, length_app, C1. cbn [length]. lia. }
    exists v2. split; [done|]. split; [constructor; [done| |congruence]|].
    + intros c. by rewrite C2, C1.
    + rewrite E2, E1, <- app_assoc. split; [done|congruence].
Qed.

Lemma in_loop_contents n v :
  vuart_wf v -> (n <= length (contents Rx v))%nat ->
  exists v', in_loop n v = Some (take n (contents Rx v), v') /\ same_frame Rx v v' /\
    contents Rx v' = drop n (contents Rx v) /\ tx_oflow v' = tx_oflow v.
Proof.
  revert v. induction n as [|n IH]; intros v Hwf Hn; cbn [in_loop].
  - exists v. split; [done|]. split; [by constructor|]. done.
  - destruct (contents Rx v) as [|x l] eqn:E; [cbn in Hn; lia|]. cbn [length] in Hn.
    destruct (poll_in_head TT_VUART_ROLE_DEVICE v x l Hwf E) as (v1 & -> & [W1 C1 O1] & E1 & F1). cbn [in_chan] in *.
    cbn [mbind option_bind]. destruct (IH v1 W1) as (v2 & -> & [W2 C2 O2] & E2 & F2); [rewrite E1; lia|].
    cbn [mbind option_bind]. rewrite E1 in *. exists v2. split; [done|]. split; [constructor; [done| |congruence]|].
    + intros c. by rewrite C2, C1.
    + split; [done|congruence].
Qed.

Lemma loopback_step_ok x l v :
  vuart_wf v -> contents Tx v = x :: l -> len (contents Rx v) < rx_cap v ->
  exists v', loopback_step v = Some v' /\ vuart_wf v' /\ (forall c, cap_of c v' = cap_of c v) /\
    contents Tx v' = l /\ contents Rx v' = contents Rx v ++ [x] /\ tx_oflow v' = tx_oflow v.
Proof.
  intros Hwf E Hroom. pose proof (contents_u8 v Hwf Tx) as Hu. rewrite E in Hu. apply Forall_cons in Hu as [Hx _].
  destruct (poll_in_head TT_VUART_ROLE_HOST v x l Hwf E) as (v1 & E1 & [W1 C1 O1] & T1 & F1). cbn [in_chan other] in *.
  destruct (poll_out_room x TT_VUART_ROLE_HOST v1 W1 Hx) as (v2 & E2 & [W2 C2 O2] & T2 & F2); cbn [out_chan other] in *.
  { rewrite O1, C1. exact Hroom. }
  exists v2. unfold loopback_step. rewrite E1. cbn [mbind option_bind].
  destruct (Z.eqb_spec x (-1)); [unwrap; lia|]. rewrite E2. split; [done|]. split; [done|].
  split; [intros c; by rewrite C2, C1|]. rewrite O2, T2, O1. split; [done|]. split; [done|congruence].
Qed.

Lemma loopback_loop n i v :
  vuart_wf v -> (n <= length (contents Tx v))%nat -> len (contents Rx v) + Z.of_nat n <= rx_cap v ->
  exists v', for_loop n i (fun _ v => loopback_step v) v = Some v' /\ vuart_wf v' /\ (forall c, cap_of c v' = cap_of c v) /\
    contents Tx v' = drop n (contents Tx v) /\ contents Rx v' = contents Rx v ++ take n (contents Tx v) /\
    tx_oflow v' = tx_oflow v.
Proof.
  revert i v. induction n as [|n IH]; intros i v Hwf Hn Hroom.
  - exists v. do 3 (split; [done|]). by rewrite app_nil_r.
  - destruct (contents Tx v) as [|x l] eqn:E; [cbn in Hn; lia|]. cbn [length] in Hn.
    destruct (loopback_step_ok x l v Hwf E) as (v2 & E2 & W2 & C2 & T2 & R2 & F2); [lia|].
    destruct (IH (i + 1) v2 W2) as (v3 & E3 & W3 & C3 & T3 & R3 & F3).
    { rewrite T2. lia. }
    { rewrite R2, length_app. cbn [length]. specialize (C2 Rx). cbn [cap_of] in C2. lia. }
    exists v3. cbn [for_loop]. rewrite E2. cbn [mbind option_bind]. split; [done|]. split; [done|].
    split; [intros c; by rewrite C3, C2|]. rewrite T3, R3, T2, R2, <- app_assoc. split; [done|]. split; [done|congruence].
Qed.

(** Queue loads and their bounds, from a represented state. *)
Lemma size_eq v c : vuart_wf v -> tt_vuart_buf_size (head_of c v) (tail_of c v) = len (contents c v).
Proof. intros Hwf. symmetry. apply (contents_length v Hwf c). Qed.

Lemma space_eq v c :
  vuart_wf v -> s32 (tt_vuart_buf_space (head_of c v) (tail_of c v) (cap_of c v)) = cap_of c v - len (contents c v).
Proof.
  intros Hwf. unfold tt_vuart_buf_space. rewrite size_eq by done.
  pose proof (wf_cap v Hwf c) as [Hc _]. pose proof (size_range v Hwf c). rewrite (contents_length v Hwf c).
  rewrite wrap_small by (unwrap; lia). apply swrap_small; pow_simpl; lia.
Qed.

Lemma fifo_fill_ok (lb : bool) l d :
  vuart_wf (vuart d) -> Forall is_u8 l ->
  let v := vuart d in
  let n := Z.to_nat (Z.min (tx_cap v - len (contents Tx v)) (len l)) in
  let t := contents Tx v ++ take n l in
  let k := if lb then Z.to_nat (Z.min (Z.of_nat n) (rx_cap v - len (contents Rx v))) else 0%nat in
  exists v', uart_tt_virt_fifo_fill lb l (len l) d = Some (Z.of_nat n, set_vuart v' d) /\ vuart_wf v' /\
    (forall c, cap_of c v' = cap_of c v) /\ contents Tx v' = drop k t /\ contents Rx v' = contents Rx v ++ take k t /\
    tx_oflow v' = tx_oflow v.
Proof.
  intros Hwf Hl. cbv zeta. set (v := vuart d) in *.
  pose proof (size_range v Hwf Tx) as Hs. rewrite <- (contents_length v Hwf Tx) in Hs. cbn [cap_of] in Hs.
  pose proof (size_range v Hwf Rx) as Hr. rewrite <- (contents_length v Hwf Rx) in Hr. cbn [cap_of] in Hr.
  unfold uart_tt_virt_fifo_fill. fold v.
  pose proof (space_eq v Tx Hwf) as Es. cbn [head_of tail_of cap_of] in Es. rewrite Es.
  set (n := Z.to_nat (Z.min (tx_cap v - len (contents Tx v)) (len l))).
  replace (Z.min (tx_cap v - len (contents Tx v)) (len l)) with (Z.of_nat n) by lia.
  destruct (Z.ltb_spec (len l) (Z.of_nat n)); [lia|].
  destruct (out_loop_room (take n l) TT_VUART_ROLE_DEVICE v Hwf) as (v1 & -> & [W1 C1 O1] & T1 & F1);
    [by apply Forall_take|cbn [out_chan cap_of]; rewrite length_take; lia|].
  cbn [mbind option_bind out_chan other] in *.
  pose proof (space_eq v1 Rx W1) as Er. cbn [head_of tail_of cap_of] in Er. rewrite Er, O1.
  pose proof (C1 Rx) as CR. cbn [cap_of] in CR. rewrite CR.
  assert (Hnone : exists v', Some (Z.of_nat n, set_vuart v1 d) = Some (Z.of_nat n, set_vuart v' d) /\ vuart_wf v' /\
    (forall c, cap_of c v' = cap_of c v) /\ contents Tx v' = drop 0 (contents Tx v ++ take n l) /\
    contents Rx v' = contents Rx v ++ take 0 (contents Tx v ++ take n l) /\ tx_oflow v' = tx_oflow v).
  { exists v1. rewrite app_nil_r. do 3 (split; [done|]). done. }
  destruct lb; cbn [andb]; [|exact Hnone].
  destruct (Z.ltb_spec 0 (Z.of_nat n)).
  - destruct (loopback_loop (Z.to_nat (Z.min (Z.of_nat n) (rx_cap v - len (contents Rx v)))) 0 v1 W1)
      as (v2 & -> & W2 & C2 & T2 & R2 & F2).
    { rewrite T1, length_app, length_take. lia. }
    { rewrite O1, CR. lia. }
    cbn [mbind option_bind]. exists v2. split; [done|]. split; [done|]. split; [intros c; by rewrite C2, C1|].
    rewrite T2, R2, T1, O1. split; [done|]. split; [done|congruence].
  - replace (Z.to_nat _) with 0%nat by lia. exact Hnone.
Qed.

Lemma fifo_read_ok n d :
  vuart_wf (vuart d) ->
  let q := contents Rx (vuart d) in
  let k := Nat.min n (length q) in
  exists v', uart_tt_virt_fifo_read (Z.of_nat n) d = Some (Z.of_nat k, take k q, set_vuart v' d) /\
    same_frame Rx (vuart d) v' /\ contents Rx v' = drop k q /\ tx_oflow v' = tx_oflow (vuart d).
Proof.
  intros Hwf. cbv zeta. set (v := vuart d) in *. set (k := Nat.min n (length (contents Rx v))).
  pose proof (size_range v Hwf Rx) as Hr. pose proof (wf_cap v Hwf Rx) as [Hc _].
  rewrite <- (contents_length v Hwf Rx) in Hr.
  unfold uart_tt_virt_fifo_read. fold v. pose proof (size_eq v Rx Hwf) as Es. cbn [head_of tail_of] in Es. rewrite Es.
  rewrite swrap_small by (pow_simpl; lia). replace (Z.min (Z.of_nat n) (len (contents Rx v))) with (Z.of_nat k) by lia.
  rewrite Nat2Z.id. destruct (in_loop_contents k v Hwf) as (v' & -> & F & E & O); [lia|].
  cbn [mbind option_bind]. by exists v'.
Qed.

Lemma represents_frame tcap rcap q d c v' q' :
  represents tcap rcap q d -> same_frame c (vuart d) v' ->
  contents c v' = (match c with Tx => to_host q' | Rx => to_device q' end) ->
  contents (other c) (vuart d) = (match c with Tx => to_device q' | Rx => to_host q' end) ->
  tx_oflow v' = overflows q' -> represents tcap rcap q' (set_vuart v' d).
Proof.
  intros [W T R H1 H2 O] [W' C' O'] E E' O2. pose proof (C' Tx) as CT. pose proof (C' Rx) as CR. cbn [cap_of] in CT, CR.
  constructor; cbn [set_vuart vuart]; try congruence; destruct c; cbn [other] in *; congruence.
Qed.

Lemma wf_set_oflow n v : vuart_wf v -> vuart_wf (set_oflow n v).
Proof. intros [W1 W2 W3 W4 W5]. constructor; [intros []; [apply (W1 Tx)|apply (W1 Rx)]|intros []; [apply (W2 Tx)|apply (W2 Rx)]|intros []; [apply (W3 Tx)|apply (W3 Rx)]|done|done]. Qed.

Lemma step_refines lb tcap rcap op q d outs q' :
  represents tcap rcap q d -> op_wf op -> queue_step lb tcap rcap op q = Some (outs, q') ->
  exists d', uart_step lb op d = Some (outs, d') /\ represents tcap rcap q' d'.
Proof.
  intros Hrep Hop Hq. pose proof Hrep as [W T R ET ER EO].
  destruct op as [b| |b| |l|n]; cbn [queue_step uart_step] in *.
  - injection Hq as <- <-. unfold uart_tt_virt_poll_out. rewrite <- ET, <- T, <- EO.
    destruct (Z.eqb_spec (len (contents Tx (vuart d))) (tx_cap (vuart d))) as [E|E].
    + rewrite poll_out_full by done. cbn [mbind option_bind]. eexists. split; [done|].
      constructor; cbn [set_vuart vuart to_host to_device overflows]; try done. by apply wf_set_oflow.
    + pose proof (size_range _ W Tx) as Hs. rewrite <- (contents_length _ W Tx) in Hs. cbn [cap_of] in Hs.
      destruct (poll_out_room b TT_VUART_ROLE_DEVICE (vuart d) W Hop) as (v' & -> & F & E1 & E2); [cbn [out_chan cap_of]; lia|].
      cbn [mbind option_bind out_chan] in *. eexists. split; [done|]. rewrite T. by apply (represents_frame tcap rcap q d Tx).
  - unfold uart_tt_virt_poll_in. destruct (to_device q) as [|x l] eqn:E; injection Hq as <- <-.
    + rewrite poll_in_empty by done. cbn [mbind option_bind]. eexists. split; [done|]. by destruct d.
    + destruct (poll_in_head TT_VUART_ROLE_DEVICE (vuart d) x l W) as (v' & -> & F & E1 & E2); [done|].
      cbn [mbind option_bind in_chan] in *.
      pose proof (contents_u8 _ W Rx) as Hu. rewrite ER in Hu. apply Forall_cons in Hu as [Hx _].
      destruct (Z.eqb_spec x (-1)); [unwrap; lia|]. eexists. split; [done|].
      apply (represents_frame tcap rcap q d Rx); [done..|]. cbn. congruence.
  - destruct (Z.ltb_spec (len (to_device q)) rcap); [|done]. injection Hq as <- <-.
    destruct (poll_out_room b TT_VUART_ROLE_HOST (vuart d) W Hop) as (v' & -> & F & E1 & E2); [cbn [out_chan cap_of]; lia||(rewrite ER; lia)|].
    cbn [mbind option_bind out_chan] in *. eexists. split; [done|].
    apply (represents_frame tcap rcap q d Rx); cbn [to_device to_host overflows]; try done; congruence.
  - destruct (to_host q) as [|x l] eqn:E; injection Hq as <- <-.
    + rewrite poll_in_empty by done. cbn [mbind option_bind]. eexists. split; [done|]. by destruct d.
    + destruct (poll_in_head TT_VUART_ROLE_HOST (vuart d) x l W) as (v' & -> & F & E1 & E2); [done|].
      cbn [mbind option_bind in_chan] in *. eexists. split; [done|].
      apply (represents_frame tcap rcap q d Tx); [done..|]. cbn. congruence.
  - destruct Hop as [Hl _]. injection Hq as <- <-. rewrite <- ET, <- ER, <- T, <- R, <- EO.
    destruct (fifo_fill_ok lb l d W Hl) as (v' & -> & W' & C' & T' & R' & F').
    cbn [mbind option_bind]. eexists. split; [done|].
    pose proof (C' Tx) as CT. pose proof (C' Rx) as CR. cbn [cap_of] in CT, CR.
    constructor; cbn [set_vuart vuart to_host to_device overflows]; done.
  - injection Hq as <- <-. rewrite <- ER. destruct (fifo_read_ok n d W) as (v' & -> & F & E1 & E2).
    cbn [mbind option_bind]. eexists. split; [done|].
    apply (represents_frame tcap rcap q d Rx); cbn [to_device to_host overflows]; try done; congruence.
Qed.

Fixpoint uart_run (lb : bool) (ops : list uart_op) (d : uart_tt_virt_data) : option (list (list Z) * uart_tt_virt_data) :=
  match ops with
  | [] => Some ([], d)
  | op :: ops => '(o, d) ← uart_step lb op d; '(os, d) ← uart_run lb ops d; Some (o :: os, d)
  end.
Fixpoint queue_run (lb : bool) (tcap rcap : Z) (ops : list uart_op) (q : queues) : option (list (list Z) * queues) :=
  match ops with
  | [] => Some ([], q)
  | op :: ops => '(o, q) ← queue_step lb tcap rcap op q; '(os, q) ← queue_run lb tcap rcap ops q; Some (o :: os, q)
  end.

(** C18: the virtual UART refines a pair of bounded queues.  For any sequence of
    driver calls (poll_in, poll_out, fifo_fill with or without loopback,
    fifo_read) and of host reads and writes, each run to completion, what every
    call returns is what the queues give, no access leaves the buffer, and the
    rings then hold the queues' contents: bytes come out in order, none lost or
    repeated, a byte put to a full transmit ring is dropped and counted.  The
    counters may wrap at any point; the capacities divide [2^32], and the host
    does not write to a full ring, which its side of the code does not test. *)
Theorem vuart_refines_queues lb tcap rcap ops q d outs q' :
  represents tcap rcap q d -> Forall op_wf ops -> queue_run lb tcap rcap ops q = Some (outs, q') ->
  exists d', uart_run lb ops d = Some (outs, d') /\ represents tcap rcap q' d'.
Proof.
  revert q d outs. induction ops as [|op ops IH]; intros q d outs Hrep HF E; cbn [queue_run uart_run] in *.
  - injection E as <- <-. by exists d.
  - apply Forall_cons in HF as [Hop HF].
    destruct (queue_step lb tcap rcap op q) as [[o q1]|] eqn:E1; [|done]. cbn [mbind option_bind] in E.
    destruct (queue_run lb tcap rcap ops q1) as [[os q2]|] eqn:E2; [|done]. injection E as <- <-.
    destruct (step_refines _ _ _ _ _ _ _ _ Hrep Hop E1) as (d1 & -> & R1). cbn [mbind option_bind].
    destruct (IH _ _ _ R1 HF E2) as (d2 & -> & R2). by exists d2.
Qed.

(** Counters about to wrap, a 4-byte transmit ring and a 2-byte receive ring. *)
Definition wrap_vuart : tt_vuart := MkVuart 0 2 4294967295 4294967295 4 4294967294 7 4294967295 0 [10; 11; 12; 13; 20; 21].
Definition wrap_uart : uart_tt_virt_data := MkUart (MkUartCfg 0 0 0 0 0) 0 false false false false false wrap_vuart.
Lemma divide_pow k : 0 <= k <= 32 -> (2 ^ k | 2 ^ 32).
Proof. intros. exists (2 ^ (32 - k)). rewrite <- Z.pow_add_r by lia. f_equal. lia. Qed.
Lemma wrap_uart_represents : represents 4 2 (MkQueues [12] [] 7) wrap_uart.
Proof.
  constructor; try reflexivity. constructor.
  - intros []; (split; [cbn; lia|]); [apply (divide_pow 2)|apply (divide_pow 1)]; lia.
  - intros []; split; cbn; unwrap; lia.
  - intros []; vm_compute; discriminate.
  - cbn. lia.
  - by apply (bool_decide_unpack (Forall is_u8 _)).

Qed.

Definition sample_ops : list uart_op :=
  [FifoFill [1; 2; 3; 4; 5]; DevicePut 9; HostGet; HostGet; HostPut 100; HostPut 101; FifoRead 5; DeviceGet; HostGet].

Lemma vuart_refines_queues_witness :
  exists d', uart_run false sample_ops wrap_uart =
    Some ([[3]; []; [12]; [1]; []; []; [2; 100; 101]; [-1; -1]; [2]], d') /\ represents 4 2 (MkQueues [3] [] 8) d'.
Proof.
  apply (vuart_refines_queues false 4 2 sample_ops (MkQueues [12] [] 7) wrap_uart).
  - exact wrap_uart_represents.
  - repeat (apply Forall_cons; split; [first [exact I|lia|unwrap; lia|split; [by apply (bool_decide_unpack (Forall is_u8 _))|cbn; lia]|cbn; lia|cbn; unwrap; lia]|]).
    apply Forall_nil. exact I.
  - reflexivity.
Defined.

(** ** Producer and consumer interleaved

    The device writes and the host reads at the same time: each shared access of
    [tt_vuart_poll_out] and [tt_vuart_poll_in] is a step.  [cap] never changes, so
    its load is not a step of its own. *)

Inductive out_pc :=
| OutIdle
| OutLoop (b : Z)                  (** at the top of the loop *)
| OutTail (b tail : Z)             (** [tail] loaded *)
| OutHead (b tail head : Z)        (** [head] loaded *)
| OutStore (b tail : Z)            (** the exchange has advanced the tail *)
| OutOflow (n : Z).                (** [tx_oflow] loaded *)

Inductive in_pc :=
| InIdle
| InLoop
| InHead (head : Z)
| InTail (head tail : Z)
| InRead (head : Z).               (** the exchange has advanced the head *)

Definition tt_vuart_poll_out_step (p : out_pc) (v : tt_vuart) : option (out_pc * tt_vuart) :=
  match p with
  | OutIdle => Some (OutIdle, v)
  | OutLoop b => Some (OutTail b (tx_tail v), v)
  | OutTail b tail => Some (OutHead b tail (tx_head v), v)
  | OutHead b tail head =>
      if tt_vuart_buf_full head tail (tx_cap v) then Some (OutOflow (tx_oflow v), v)
      else if tx_tail v =? tail then Some (OutStore b tail, set_tail Tx (u32 (tail + 1)) v)
      else Some (OutLoop b, v)
  | OutStore b tail => i ← cell Tx tail v; B ← aset (buf v) i b; Some (OutIdle, set_buf B v)
  | OutOflow n => Some (OutIdle, set_oflow (u32 (n + 1)) v)
  end.

(** The last component is the byte delivered. *)
Definition tt_vuart_poll_in_step (p : in_pc) (v : tt_vuart) : option (in_pc * tt_vuart * option Z) :=
  match p with
  | InIdle => Some (InIdle, v, None)
  | InLoop => Some (InHead (tx_head v), v, None)
  | InHead head => Some (InTail head (tx_tail v), v, None)
  | InTail head tail =>
      if tt_vuart_buf_empty head tail then Some (InIdle, v, None)
      else if tx_head v =? head then Some (InRead head, set_head Tx (u32 (head + 1)) v, None)
      else Some (InLoop, v, None)
  | InRead head => i ← cell Tx head v; x ← aget (buf v) i; Some (InIdle, v, Some x)
  end.

(** Run alone, the steps are the functions above. *)
Lemma poll_out_steps b v p1 v1 p2 v2 p3 v3 p4 v4 :
  tt_vuart_poll_out_step (OutLoop b) v = Some (p1, v1) -> tt_vuart_poll_out_step p1 v1 = Some (p2, v2) ->
  tt_vuart_poll_out_step p2 v2 = Some (p3, v3) -> tt_vuart_poll_out_step p3 v3 = Some (p4, v4) ->
  p4 = OutIdle /\ tt_vuart_poll_out b TT_VUART_ROLE_DEVICE v = Some v4.
Proof.
  cbn [tt_vuart_poll_out_step]. intros [= <- <-] [= <- <-] E3 E4. unfold tt_vuart_poll_out. cbn [tt_vuart_poll_out_step is_device out_chan] in *.
  cbn [head_of tail_of cap_of andb] in *. destruct (tt_vuart_buf_full _ _ _).
  - injection E3 as <- <-. by injection E4 as <- <-.
  - rewrite Z.eqb_refl in E3. injection E3 as <- <-. cbn [tt_vuart_poll_out_step] in E4.
    destruct (cell _ _ _); [|done]. cbn [mbind option_bind] in *. destruct (aset _ _ _); [|done]. by injection E4 as <- <-.
Qed.

Lemma poll_in_steps v p1 v1 p2 v2 p3 v3 p4 v4 x1 x2 x3 x :
  tt_vuart_poll_in_step InLoop v = Some (p1, v1, x1) -> tt_vuart_poll_in_step p1 v1 = Some (p2, v2, x2) ->
  tt_vuart_poll_in_step p2 v2 = Some (p3, v3, x3) -> tt_vuart_poll_in_step p3 v3 = Some (p4, v4, x) ->
  p4 = InIdle /\ tt_vuart_poll_in TT_VUART_ROLE_HOST v = Some (default (-1) x, v4).
Proof.
  cbn [tt_vuart_poll_in_step]. intros [= <- <- _] [= <- <- _] E3 E4. unfold tt_vuart_poll_in. cbn [tt_vuart_poll_in_step in_chan] in *.
  cbn [head_of tail_of] in *. destruct (tt_vuart_buf_empty _ _).
  - injection E3 as <- <- _. by injection E4 as <- <- <-.
  - rewrite Z.eqb_refl in E3. injection E3 as <- <- _. cbn [tt_vuart_poll_in_step] in E4.
    destruct (cell _ _ _); [|done]. cbn [mbind option_bind] in *. destruct (aget _ _); [|done]. by injection E4 as <- <- <-.
Qed.

(** Both sides, with the bytes accepted (the tail advanced over them) and the
    bytes delivered so far. *)
Record system := MkSys { mem : tt_vuart; dev : out_pc; host : in_pc; sent : list Z; got : list Z }.

Inductive move := Offer (b : Z) | Ask | Dev | Host.

Definition accepted (p p' : out_pc) : list Z := match p, p' with OutHead b _ _, OutStore _ _ => [b] | _, _ => [] end.

Definition sys_move (m : move) (s : system) : option system :=
  match m with
  | Offer b => match dev s with OutIdle => Some (MkSys (mem s) (OutLoop b) (host s) (sent s) (got s)) | _ => Some s end
  | Ask => match host s with InIdle => Some (MkSys (mem s) (dev s) InLoop (sent s) (got s)) | _ => Some s end
  | Dev =>
      '(p, v) ← tt_vuart_poll_out_step (dev s) (mem s);
      Some (MkSys v p (host s) (sent s ++ accepted (dev s) p) (got s))
  | Host =>
      '(p, v, x) ← tt_vuart_poll_in_step (host s) (mem s);
      Some (MkSys v (dev s) p (sent s) (got s ++ option_list x))
  end.

Definition move_wf (m : move) : Prop := match m with Offer b => is_u8 b | _ => True end.

(** From a quiet ring, whose waiting bytes count as accepted. *)
Inductive reachable (v0 : tt_vuart) : system -> Prop :=
| reach_init : reachable v0 (MkSys v0 OutIdle InIdle (contents Tx v0) [])
| reach_move s m s' : reachable v0 s -> move_wf m -> sys_move m s = Some s' -> reachable v0 s'.

(** What the [j]-th byte of the stream is: for [0 <= j] the one accepted, before
    that what the buffer happened to hold. *)
Definition stream (v0 : tt_vuart) (sent : list Z) (j : Z) : option Z :=
  if j <? 0 then aget (slots Tx v0) ((tx_head v0 + j) mod tx_cap v0) else aget sent j.

(** Bytes taken and bytes written. *)
Definition taken (s : system) : Z := len (got s) + match host s with InRead _ => 1 | _ => 0 end.
Definition written (s : system) : Z := len (sent s) - match dev s with OutStore _ _ => 1 | _ => 0 end.

Section interleaved.
Variable v0 : tt_vuart.
Hypothesis Hwf0 : vuart_wf v0.

Definition out_pc_ok (s : system) : Prop :=
  match dev s with
  | OutIdle | OutOflow _ => True
  | OutLoop b => is_u8 b
  | OutTail b t => is_u8 b /\ t = tx_tail (mem s)
  | OutHead b t h => is_u8 b /\ t = tx_tail (mem s) /\ exists h', h = u32 (tx_head v0 + h') /\ 0 <= h' <= taken s /\ len (sent s) - h' <= tx_cap v0
  | OutStore b t => is_u8 b /\ t = u32 (tx_head v0 + written s) /\ aget (sent s) (written s) = Some b
  end.
Definition in_pc_ok (s : system) : Prop :=
  match host s with
  | InIdle | InLoop => True
  | InHead h => h = tx_head (mem s)
  | InTail h t => h = tx_head (mem s) /\ exists t', t = u32 (tx_head v0 + t') /\ taken s <= t' <= len (sent s)
  | InRead h => h = u32 (tx_head v0 + len (got s))
  end.

(** Which byte a read can deliver: the right one, the one a lap earlier when it
    is not written yet, the one a lap later when it is already overwritten. *)
Definition delivered (s : system) (k x : Z) : Prop :=
  Some x = stream v0 (sent s) k \/ Some x = stream v0 (sent s) (k - tx_cap v0) \/ Some x = stream v0 (sent s) (k + tx_cap v0).

Record sys_ok (s : system) : Prop := {
  ok_wf : vuart_wf (mem s);
  ok_cap : tx_cap (mem s) = tx_cap v0;
  ok_tail : tx_tail (mem s) = u32 (tx_head v0 + len (sent s));
  ok_head : tx_head (mem s) = u32 (tx_head v0 + taken s);
  ok_size : 0 <= len (sent s) - taken s <= tx_cap v0;
  ok_out : out_pc_ok s;
  ok_in : in_pc_ok s;
  ok_slots : forall j, written s - tx_cap v0 <= j < written s ->
    aget (slots Tx (mem s)) ((tx_head v0 + j) mod tx_cap v0) = stream v0 (sent s) j;
  ok_got : forall k x, aget (got s) k = Some x -> delivered s k x
}.
End interleaved.

Lemma u32_diff a b : 0 <= a - b < 2 ^ 32 -> u32 (u32 a - u32 b) = a - b.
Proof.
  intros. unfold wrap. rewrite Zminus_mod_idemp_l, Zminus_mod_idemp_r. apply Z.mod_small. lia.
Qed.
Lemma u32_add_r a b : u32 (u32 a + b) = u32 (a + b).
Proof. unfold wrap. apply Zplus_mod_idemp_l. Qed.

Lemma wf_update v v' :
  vuart_wf v -> tx_cap v' = tx_cap v -> rx_cap v' = rx_cap v -> rx_head v' = rx_head v -> rx_tail v' = rx_tail v ->
  is_u32 (tx_head v') -> is_u32 (tx_tail v') -> size_of Tx v' <= tx_cap v -> length (buf v') = length (buf v) ->
  Forall is_u8 (buf v') -> vuart_wf v'.
Proof.
  intros [W1 W2 W3 W4 W5] E1 E2 E3 E4 H1 H2 H3 H4 H5. constructor; [intros []|intros []|intros []| |done].
  - cbn [cap_of]. rewrite E1. apply (W1 Tx).
  - cbn [cap_of]. rewrite E2. apply (W1 Rx).
  - done.
  - cbn [head_of tail_of]. rewrite E3, E4. apply (W2 Rx).
  - cbn [cap_of]. rewrite E1. done.
  - specialize (W3 Rx). unfold size_of in *. cbn [cap_of head_of tail_of] in *. by rewrite E2, E3, E4.
  - rewrite E1, E2, H4. done.
Qed.

Section interleaved.
Variable v0 : tt_vuart.
Hypothesis Hwf0 : vuart_wf v0.

Lemma cap_ok : 0 < tx_cap v0 < 2 ^ 31 /\ (tx_cap v0 | 2 ^ 32).
Proof. apply (wf_cap v0 Hwf0 Tx). Qed.

Lemma stream_snoc l x j : j < len l -> stream v0 (l ++ [x]) j = stream v0 l j.
Proof.
  intros Hj. unfold stream. destruct (Z.ltb_spec j 0); [done|]. rewrite !aget_nat, lookup_app_l by lia. done.
Qed.

Lemma init_ok : sys_ok v0 (MkSys v0 OutIdle InIdle (contents Tx v0) []).
Proof.
  pose proof cap_ok as [Hc Hd]. pose proof (size_range v0 Hwf0 Tx) as Hs. cbn [cap_of] in Hs.
  pose proof (contents_length v0 Hwf0 Tx) as Hl. pose proof (wf_counters v0 Hwf0 Tx) as [Hh Ht]. cbn [head_of tail_of] in *.
  constructor; unfold written, taken; cbn [mem dev host sent got length]; try done.
  - rewrite Hl. unfold size_of, tt_vuart_buf_size. cbn [head_of tail_of]. rewrite Z.add_comm, u32_add_r.
    rewrite wrap_small; [lia|]. by replace (_ - _ + _) with (tx_tail v0) by lia.
  - rewrite wrap_small; [lia|]. by replace (_ + _) with (tx_head v0) by lia.
  - lia.
  - intros j Hj. unfold stream. destruct (Z.ltb_spec j 0); [done|].
    unfold contents. cbn [cap_of head_of]. rewrite ring_list_aget; [done|lia|by apply slots_length|lia].
  - intros k x. destruct k; done.
Qed.

(** Steps that only load, and the ones that start a call, keep the ring. *)
Lemma ok_local s s' :
  sys_ok v0 s -> (exists n, mem s' = set_oflow n (mem s)) \/ mem s' = mem s -> sent s' = sent s -> got s' = got s ->
  taken s' = taken s -> written s' = written s -> out_pc_ok v0 s' -> in_pc_ok v0 s' -> sys_ok v0 s'.
Proof.
  intros [W C T H S O I L G] Hm Es Eg Et Ew O' I'.
  assert (E : vuart_wf (mem s') /\ tx_cap (mem s') = tx_cap (mem s) /\ tx_tail (mem s') = tx_tail (mem s) /\
              tx_head (mem s') = tx_head (mem s) /\ slots Tx (mem s') = slots Tx (mem s)).
  { destruct Hm as [[n ->]| ->]; [|done]. split; [by apply wf_set_oflow|done]. }
  destruct E as (W' & E1 & E2 & E3 & E4).
  constructor; rewrite ?Es, ?Et, ?Ew, ?E1, ?E2, ?E3, ?E4; try done.
  intros k x Hk. rewrite Eg in Hk. unfold delivered. rewrite Es. by apply G.
Qed.

Lemma full_eq n h :
  0 <= n - h <= tx_cap v0 ->
  tt_vuart_buf_full (u32 (tx_head v0 + h)) (u32 (tx_head v0 + n)) (tx_cap v0) = (n - h =? tx_cap v0).
Proof.
  intros. pose proof cap_ok as [Hc Hd]. unfold tt_vuart_buf_full, tt_vuart_buf_size. rewrite u32_diff by lia. f_equal. lia.
Qed.

Lemma empty_eq n h :
  0 <= n - h <= tx_cap v0 -> tt_vuart_buf_empty (u32 (tx_head v0 + h)) (u32 (tx_head v0 + n)) = (n - h =? 0).
Proof.
  intros. pose proof cap_ok as [Hc Hd]. unfold tt_vuart_buf_empty, tt_vuart_buf_size. rewrite u32_diff by lia. f_equal. lia.
Qed.

Lemma stream_mono l l' j x : Some x = stream v0 l j -> Some x = stream v0 (l ++ l') j.
Proof.
  unfold stream. destruct (j <? 0) eqn:E; [done|]. apply Z.ltb_ge in E. rewrite !aget_nat by lia.
  intros H. symmetry in H |- *. by apply lookup_app_l_Some.
Qed.

(** The exchange that advances the tail. *)
Lemma out_advance v b h q snt gt :
  let s := MkSys v (OutHead b (tx_tail v) h) q snt gt in
  let s' := MkSys (set_tail Tx (u32 (tx_tail v + 1)) v) (OutStore b (tx_tail v)) q (snt ++ [b]) gt in
  sys_ok v0 s -> len snt - taken s < tx_cap v0 -> sys_ok v0 s'.
Proof.
  intros s s' [W C T H S O I L G] Hroom. pose proof cap_ok as [Hc Hd]. unfold s in W, C, T, H, S. cbn [mem sent] in W, C, T, H, S. fold s in H, S.
  assert (Et : taken s' = taken s) by done.
  assert (Ew : written s' = written s) by (unfold s, s', written; cbn [dev sent]; rewrite length_app; cbn; lia).
  assert (Ew0 : written s = len snt) by (unfold s, written; cbn [dev sent]; lia).
  assert (El : len (sent s') = len snt + 1) by (unfold s'; cbn [sent]; rewrite length_app; cbn; lia).
  assert (Etail : tx_tail (mem s') = u32 (tx_head v0 + len (sent s'))).
  { rewrite El. unfold s'. cbn [mem set_tail tx_tail]. rewrite T, u32_add_r. f_equal. lia. }
  constructor; rewrite ?Et, ?Ew, ?El; try done.
  - apply (wf_update v); try done; [apply (wf_counters v W Tx)|apply u32_range| |apply (wf_bytes v W)].
    unfold size_of, tt_vuart_buf_size. cbn [head_of tail_of]. rewrite C. fold (mem s').
    change (tx_tail (set_tail Tx (u32 (tx_tail v + 1)) v)) with (tx_tail (mem s')). rewrite Etail, El.
    change (tx_head (mem s')) with (tx_head v). rewrite H, u32_diff; lia.
  - by rewrite Etail, El.
  - lia.
  - unfold out_pc_ok. cbn [s' dev]. unfold s' in *. split; [apply O|]. rewrite Ew, Ew0. split; [done|].
    cbn [sent]. rewrite aget_nat, lookup_app_r by lia. by replace (_ - _)%nat with 0%nat by lia.
  - unfold in_pc_ok in *. cbn [s s' host mem sent got] in *. destruct q; try done. cbn [set_tail tx_head].
    destruct I as [? (t' & ? & ?)]. split; [done|]. exists t'. split; [done|]. rewrite length_app. cbn.
    change (taken s') with (taken s). lia.
  - intros j Hj. unfold s'. cbn [sent mem]. rewrite stream_snoc by lia. change (slots Tx _) with (slots Tx v). by apply L.
  - intros k x Hk. specialize (G k x Hk). unfold delivered in *. cbn [s s' sent] in *.
    destruct G as [G|[G|G]]; [left|right; left|right; right]; by apply stream_mono.
Qed.
End interleaved.

Section interleaved_steps.
Variable v0 : tt_vuart.
Hypothesis Hwf0 : vuart_wf v0.

(** The byte goes into the slot behind the written ones. *)
Lemma out_store v b t q snt gt :
  let s := MkSys v (OutStore b t) q snt gt in
  sys_ok v0 s ->
  exists i B, cell Tx t v = Some i /\ aset (buf v) i b = Some B /\ sys_ok v0 (MkSys (set_buf B v) OutIdle q snt gt).
Proof.
  intros s [W C T H S O I L G]. pose proof (cap_ok v0 Hwf0) as [Hc Hd]. unfold s in W, C, T, H, S, O, L. cbn [mem sent] in W, C, T, H, S, L.
  destruct O as (Hb & Et & Hlast). fold s in Et, Hlast, L. cbn [s sent] in Hlast.
  assert (Ew : written s = len snt - 1) by done.
  destruct (cell_defined v W Tx t) as [Ec Hk]. cbn [offs_of cap_of] in Ec, Hk. rewrite C, Z.add_0_l in *.
  pose proof (offs_nonneg v W Tx) as [_ Hlen]. cbn [offs_of cap_of] in Hlen.
  destruct (aset (buf v) (t mod tx_cap v0) b) as [B|] eqn:EB; [|rewrite aset_in in EB by lia; done].
  set (s' := MkSys (set_buf B v) OutIdle q snt gt). exists (t mod tx_cap v0), B. split; [done|]. split; [done|].
  destruct (slots_write Tx v (t mod tx_cap v0) b B W) as (Hsl & _ & HlB); [by cbn [cap_of]; rewrite C|done|].
  assert (Ew' : written s' = written s + 1) by (unfold written; cbn; lia).
  constructor; rewrite ?Ew'; try done.
  - apply (wf_update v); try done; [apply (wf_counters v W Tx)..|apply (wf_size v W Tx)|].
    exact (aset_Forall _ _ _ _ _ (wf_bytes v W) Hb EB).
  - fold s'. rewrite Ew'. intros j Hj. cbn [s' mem sent]. rewrite (aget_aset _ _ _ _ _ Hsl).
    assert (Etm : t mod tx_cap v0 = (tx_head v0 + written s) mod tx_cap v0) by (rewrite Et; by apply mod_cap_wrap; [lia|]).
    rewrite Etm. destruct (decide (j = written s)) as [->|Hne].
    + rewrite Z.eqb_refl. unfold stream. pose proof (aget_range _ _ _ Hlast).
      destruct (Z.ltb_spec (written s) 0); [lia|]. by rewrite Hlast.
    + destruct (Z.eqb_spec ((tx_head v0 + written s) mod tx_cap v0) ((tx_head v0 + j) mod tx_cap v0)) as [E|_]; [|apply L; lia].
      exfalso. apply (mod_window (tx_cap v0) (tx_head v0 + j) (written s - j) (tx_head v0 + j)); [lia|lia|].
      rewrite <- E. f_equal. lia.
Qed.

(** The exchange that advances the head. *)
Lemma in_advance v p t snt gt :
  let s := MkSys v p (InTail (tx_head v) t) snt gt in
  sys_ok v0 s -> 0 < len snt - taken s ->
  sys_ok v0 (MkSys (set_head Tx (u32 (tx_head v + 1)) v) p (InRead (tx_head v)) snt gt).
Proof.
  intros s [W C T H S O I L G] Hroom. pose proof (cap_ok v0 Hwf0) as [Hc Hd].
  unfold s in W, C, T, H, S. cbn [mem sent] in W, C, T, H, S. fold s in H, S. set (s' := MkSys _ _ _ _ _).
  assert (Et : taken s' = taken s + 1) by (unfold taken; cbn; lia).
  assert (Et0 : taken s = len gt) by (unfold taken; cbn; lia).
  assert (Eh : tx_head (mem s') = u32 (tx_head v0 + taken s')).
  { rewrite Et. unfold s'. cbn [mem set_head tx_head]. rewrite H, u32_add_r. f_equal. lia. }
  constructor; fold s'; try done; [|rewrite Et; change (sent s') with snt; lia| |].
  - apply (wf_update v); try done; [apply u32_range|apply (wf_counters v W Tx)| |apply (wf_bytes v W)].
    unfold size_of, tt_vuart_buf_size. cbn [head_of tail_of]. rewrite Eh, Et. change (tx_tail (mem s')) with (tx_tail v).
    rewrite T, C, u32_diff; lia.
  - unfold out_pc_ok in O |- *. rewrite Et. change (dev s) with p in O. change (dev s') with p. change (mem s) with v in O.
    destruct p; try done. destruct O as (? & ? & h' & ? & ? & ?). split; [done|]. split; [done|]. exists h'.
    split; [done|]. split; [lia|done].
  - unfold in_pc_ok. cbn [s' host got]. by rewrite H, Et0.
Qed.

(** The byte read. *)
Lemma in_read v p h snt gt :
  let s := MkSys v p (InRead h) snt gt in
  sys_ok v0 s ->
  exists i x, cell Tx h v = Some i /\ aget (buf v) i = Some x /\ sys_ok v0 (MkSys v p InIdle snt (gt ++ [x])) /\
    (len gt < written s <= len gt + tx_cap v0 -> Some x = stream v0 snt (len gt)).
Proof.
  intros s Hok. pose proof Hok as [W C T H S O I L G]. pose proof (cap_ok v0 Hwf0) as [Hc Hd].
  unfold s in W, C, T, H, S, I, L, G. cbn [mem sent got] in W, C, T, H, S, L, G. fold s in H, S, L.
  unfold in_pc_ok in I. cbn [host got] in I.
  destruct (cell_defined v W Tx h) as [Ec Hk]. cbn [offs_of cap_of] in Ec, Hk. rewrite C, Z.add_0_l in *.
  pose proof (offs_nonneg v W Tx) as [_ Hlen]. cbn [offs_of cap_of] in Hlen.
  destruct (aget_in (buf v) (h mod tx_cap v0)) as [x Ex]; [lia|]. exists (h mod tx_cap v0), x.
  split; [done|]. split; [done|].
  assert (Eslot : aget (slots Tx v) ((tx_head v0 + len gt) mod tx_cap v0) = Some x).
  { rewrite (slots_aget v W) by (cbn [cap_of]; rewrite C; apply Z.mod_pos_bound; lia). cbn [offs_of].
    rewrite Z.add_0_l, <- Ex. f_equal. rewrite I. symmetry. by apply mod_cap_wrap; [lia|]. }
  assert (Et : taken s = len gt + 1) by (unfold taken; cbn; lia).
  assert (Ew : len snt - 1 <= written s <= len snt) by (unfold written, s; cbn; destruct p; lia).
  assert (Hslot : forall d, (tx_head v0 + len gt + d * tx_cap v0) mod tx_cap v0 = (tx_head v0 + len gt) mod tx_cap v0)
    by (intros; apply Z.mod_add; lia).
  assert (Hright : len gt < written s <= len gt + tx_cap v0 -> Some x = stream v0 snt (len gt)).
  { intros. rewrite <- L by lia. done. }
  split; [|exact Hright].
  set (s' := MkSys _ _ _ _ _). assert (Et' : taken s' = taken s) by (unfold taken; cbn; rewrite length_app; cbn; lia).
  constructor; fold s'; rewrite ?Et'; try done.
  - unfold out_pc_ok in O |- *. by rewrite Et'.
  - intros k y Hk'. change (got s') with (gt ++ [x]) in Hk'. destruct (Z.eqb_spec k (len gt)) as [->|Hne].
    + rewrite aget_nat, Nat2Z.id, lookup_app_r, Nat.sub_diag in Hk' by lia. injection Hk' as <-. unfold delivered. change (sent s') with snt.
      destruct (Z.le_gt_cases (written s) (len gt)).
      * right. left. rewrite <- L by lia. rewrite <- Eslot. f_equal. rewrite <- (Hslot (-1)). f_equal. lia.
      * destruct (Z.le_gt_cases (written s) (len gt + tx_cap v0)); [left; apply Hright; lia|].
        right. right. rewrite <- L by lia. rewrite <- Eslot. f_equal. rewrite <- (Hslot 1). f_equal. lia.
    + pose proof (aget_range _ _ _ Hk') as Hr. rewrite length_app in Hr. cbn in Hr.
      rewrite aget_nat, lookup_app_l, <- aget_nat in Hk' by lia. exact (G k y Hk').
Qed.
End interleaved_steps.

(** One step of either side, or the start of a call. *)
Lemma move_ok v0 m s :
  vuart_wf v0 -> sys_ok v0 s -> exists s', sys_move m s = Some s' /\ (move_wf m -> sys_ok v0 s').
Proof.
  intros Hwf0 Hok. destruct s as [v p q snt gt]. pose proof (cap_ok v0 Hwf0) as [Hc _].
  pose proof (ok_cap _ _ Hok) as C. pose proof (ok_tail _ _ Hok) as T. pose proof (ok_head _ _ Hok) as H. pose proof (ok_size _ _ Hok) as S.
  pose proof (ok_out _ _ Hok) as O. pose proof (ok_in _ _ Hok) as I. unfold out_pc_ok, in_pc_ok in O, I.
  cbn [mem dev host sent got] in C, T, H, S, O, I.
  destruct m as [b| | |]; cbn [sys_move dev host mem sent got].
  - destruct p; (eexists; split; [reflexivity|]; intros Hb; try exact Hok). apply (ok_local v0 _ _ Hok); auto.
  - destruct q; (eexists; split; [reflexivity|]; intros _; try exact Hok). apply (ok_local v0 _ _ Hok); auto.
  - destruct p as [|b|b t|b t h|b t|n]; cbn [tt_vuart_poll_out_step].
    + cbn [mbind option_bind accepted]. rewrite app_nil_r. by exists (MkSys v OutIdle q snt gt).
    + cbn [mbind option_bind accepted]. rewrite app_nil_r. eexists. split; [reflexivity|]. intros _.
      apply (ok_local v0 _ _ Hok); auto. done.
    + cbn [mbind option_bind accepted]. rewrite app_nil_r. eexists. split; [reflexivity|]. intros _.
      apply (ok_local v0 _ _ Hok); auto. destruct O as [? ->]. split; [done|]. split; [done|].
      exists (taken (MkSys v (OutTail b (tx_tail v)) q snt gt)). split; [exact H|]. unfold taken in *. cbn in *. destruct q; lia.
    + destruct O as (Hb & -> & h' & -> & Hh' & Hroom). rewrite C, T, full_eq by (done || lia). cbn [dev accepted].
      destruct (Z.eqb_spec (len snt - h') (tx_cap v0)) as [E|E].
      * cbn [mbind option_bind accepted]. rewrite app_nil_r. eexists. split; [reflexivity|]. intros _. apply (ok_local v0 _ _ Hok); auto. done.
      * rewrite <- T, Z.eqb_refl. cbn [mbind option_bind accepted]. eexists. split; [reflexivity|]. intros _.
        apply (out_advance v0 Hwf0 _ _ _ _ _ _ Hok). lia.
    + destruct (out_store v0 Hwf0 v b t q snt gt Hok) as (i & B & -> & HB & Hok'). cbn [mbind option_bind]. rewrite HB.
      cbn [mbind option_bind accepted]. rewrite app_nil_r. eauto.
    + cbn [mbind option_bind accepted]. rewrite app_nil_r. eexists. split; [reflexivity|]. intros _.
      apply (ok_local v0 _ _ Hok); auto. left. by exists (u32 (n + 1)).
  - destruct q as [| |h|h t|h]; cbn [tt_vuart_poll_in_step].
    + cbn [mbind option_bind option_list]. rewrite app_nil_r. by exists (MkSys v p InIdle snt gt).
    + cbn [mbind option_bind option_list]. rewrite app_nil_r. eexists. split; [reflexivity|]. intros _.
      apply (ok_local v0 _ _ Hok); auto. done.
    + subst h. cbn [mbind option_bind option_list]. rewrite app_nil_r. eexists. split; [reflexivity|]. intros _.
      apply (ok_local v0 _ _ Hok); auto. split; [done|]. exists (len snt). split; [exact T|].
      unfold taken in *. cbn in *. lia.
    + destruct I as (-> & t' & -> & Ht'). rewrite H, empty_eq by (done || lia).
      set (s := MkSys _ _ _ _ _) in *. destruct (Z.eqb_spec (t' - taken s) 0) as [E|E].
      * cbn [mbind option_bind option_list]. rewrite app_nil_r. eexists. split; [reflexivity|]. intros _. apply (ok_local v0 _ _ Hok); auto. done.
      * rewrite Z.eqb_refl. cbn [mbind option_bind option_list]. rewrite app_nil_r. eexists. split; [reflexivity|]. intros _.
        rewrite <- H. apply (in_advance v0 Hwf0 _ _ _ _ _ Hok). fold s. lia.
    + destruct (in_read v0 Hwf0 v p h snt gt Hok) as (i & x & -> & Hx & Hok' & _). cbn [mbind option_bind]. rewrite Hx. eauto.
Qed.

Lemma reachable_ok v0 s : vuart_wf v0 -> reachable v0 s -> sys_ok v0 s.
Proof.
  intros Hwf0. induction 1 as [|s m s' _ IH Hm E]; [by apply init_ok|].
  destruct (move_ok v0 m s Hwf0 IH) as (s1 & E1 & H). rewrite E in E1. injection E1 as <-. auto.
Qed.

(** C17: one device and one host working on the transmit ring at the same time, in
    every interleaving of their loads, exchanges, stores and reads, across any
    number of counter wraps: no step faults, the ring never holds more than its
    capacity nor gives back more than was accepted, and the [k]-th byte the host
    gets is the [k]-th accepted one, or, in the two windows the code leaves open,
    the byte one lap before it (read after the tail was published and before
    the store) or one lap after it (overwritten between the exchange on the head
    and the read).  A read outside these windows is exact. *)
Theorem vuart_interleaved v0 s :
  vuart_wf v0 -> reachable v0 s ->
  (forall m, exists s', sys_move m s = Some s') /\
  0 <= len (sent s) - taken s <= tx_cap v0 /\
  tt_vuart_buf_size (tx_head (mem s)) (tx_tail (mem s)) = len (sent s) - taken s /\
  (forall k x, aget (got s) k = Some x -> delivered v0 s k x) /\
  (forall h s', host s = InRead h -> sys_move Host s = Some s' -> len (got s) < written s <= len (got s) + tx_cap v0 ->
     exists x, aget (sent s) (len (got s)) = Some x /\ got s' = got s ++ [x]).
Proof.
  intros Hwf0 Hr. pose proof (reachable_ok v0 s Hwf0 Hr) as Hok. pose proof (cap_ok v0 Hwf0) as [Hc _].
  split; [intros m; destruct (move_ok v0 m s Hwf0 Hok) as (s' & E & _); by exists s'|].
  split; [apply Hok|]. pose proof (ok_size _ _ Hok). split; [|split; [apply Hok|]].
  - rewrite (ok_tail _ _ Hok), (ok_head _ _ Hok). unfold tt_vuart_buf_size. rewrite u32_diff; lia.
  - intros h s' Eh E Hk. destruct s as [v p q snt gt]. cbn [host] in Eh. subst q.
    destruct (in_read v0 Hwf0 v p h snt gt Hok) as (i & x & Ei & Ex & _ & Hx). cbn [sent got] in *.
    specialize (Hx Hk). unfold stream in Hx. destruct (Z.ltb_spec (len gt) 0); [lia|]. exists x. split; [done|].
    cbn [sys_move host mem tt_vuart_poll_in_step] in E. rewrite Ei in E. cbn [mbind option_bind] in E. rewrite Ex in E.
    by injection E as <-.
Qed.

Fixpoint sys_run (ms : list move) (s : system) : option system :=
  match ms with [] => Some s | m :: ms => s ← sys_move m s; sys_run ms s end.

Lemma sys_run_reachable v0 ms s s' : reachable v0 s -> Forall move_wf ms -> sys_run ms s = Some s' -> reachable v0 s'.
Proof.
  revert s. induction ms as [|m ms IH]; intros s Hr HF E; cbn [sys_run] in E; [by injection E as <-|].
  apply Forall_cons in HF as [Hm HF]. destruct (sys_move m s) as [s1|] eqn:E1; [|done]. cbn [mbind option_bind] in E.
  apply (IH s1); [|done..]. exact (reach_move v0 s m s1 Hr Hm E1).
Qed.

Lemma run_from_quiet v0 ms s :
  Forall move_wf ms -> sys_run ms (MkSys v0 OutIdle InIdle (contents Tx v0) []) = Some s -> reachable v0 s.
Proof. apply sys_run_reachable. constructor. Qed.

#[export] Instance move_wf_dec m : Decision (move_wf m).
Proof. destruct m; apply _. Defined.

(** The host runs between the device's exchange and its store. *)
Definition early_read : list move := [Host; Offer 65; Dev; Dev; Dev; Ask; Host; Host; Host; Host; Ask; Host; Host; Host; Host; Dev].
(** The device fills a full ring between the host's exchange and its read. *)
Definition late_read : list move :=
  [Offer 65; Dev; Dev; Dev; Dev; Offer 66; Dev; Dev; Dev; Dev; Offer 67; Dev; Dev; Dev; Dev;
   Ask; Host; Host; Host; Offer 68; Dev; Dev; Dev; Dev; Host].

(** Both windows are real: from a quiet ring with the byte 12 waiting, the host
    gets 12 and then a byte that was never sent while 65 was, because
    [tt_vuart_poll_out] publishes the tail before it stores; and with the ring
    full behind 12, it gets 68, the byte sent last, in 12's place, because
    [tt_vuart_poll_in] releases the slot before it reads it. *)
Theorem vuart_windows_open :
  (exists s, reachable wrap_vuart s /\ sent s = [12; 65] /\ got s = [12; 13] /\ dev s = OutIdle /\ host s = InIdle) /\
  (exists s, reachable wrap_vuart s /\ sent s = [12; 65; 66; 67; 68] /\ got s = [68] /\ dev s = OutIdle /\ host s = InIdle).
Proof.
  split.
  - eexists. split; [apply (run_from_quiet wrap_vuart early_read); [by apply (bool_decide_unpack (Forall move_wf _))|vm_compute; reflexivity]|]. done.
  - eexists. split; [apply (run_from_quiet wrap_vuart late_read); [by apply (bool_decide_unpack (Forall move_wf _))|vm_compute; reflexivity]|]. done.
Qed.

(** The second one, just before its last step. *)
Definition quiet : system := MkSys wrap_vuart OutIdle InIdle (contents Tx wrap_vuart) [].
Definition late_system : system := Eval vm_compute in default quiet (sys_run (removelast late_read) quiet).
Lemma late_system_reachable : reachable wrap_vuart late_system.
Proof. apply (run_from_quiet wrap_vuart (removelast late_read)); [by apply (bool_decide_unpack (Forall move_wf _))|vm_compute; reflexivity]. Qed.

Lemma vuart_interleaved_witness :
  host late_system = InRead 4294967294 /\ 0 <= len (sent late_system) - taken late_system <= 4 /\
  exists s', sys_move Host late_system = Some s'.
Proof.
  destruct (vuart_interleaved wrap_vuart late_system (rep_wf _ _ _ _ wrap_uart_represents) late_system_reachable) as (Hm & Hs & _).
  split; [reflexivity|]. split; [exact Hs|exact (Hm Host)].
Defined.
