(* ===== verification/Jtag.v ===== *)
(** * The bit-banged JTAG driver ([drivers/jtag/jtag_bitbang.c], [include/tenstorrent/bitrev.h])

    The driver clocks commands into the chip's test access port (TAP) by setting
    pins one at a time.  GPIO calls are the class [JtagPort]; a call may fault
    ([None]).  The plain GPIO build is modelled (neither memory-mapped I/O nor
    profiling).  [Clocked] says what a clock pulse does to the device behind the
    pins; the driver's sequences are proved against it. *)

From S2P Require Import Prelude.

(** ** Bit reversal ([bitrev.h]) *)

Definition rev4 : list Z := [0x0; 0x8; 0x4; 0xc; 0x2; 0xa; 0x6; 0xe; 0x1; 0x9; 0x5; 0xd; 0x3; 0xb; 0x7; 0xf].

Definition bitrev4 (nibble : Z) : Z := nth (Z.to_nat (Z.land nibble 0xf)) rev4 0.
Definition bitrev8 (byte : Z) : Z := u8 (Z.lor (Z.shiftl (bitrev4 byte) 4) (bitrev4 (Z.shiftr byte 4))).
Definition bitrev16 (hword : Z) : Z :=
  u16 (Z.lor (Z.shiftl (bitrev8 (u8 hword)) 8) (bitrev8 (u8 (Z.shiftr hword 8)))).
Definition bitrev32 (word : Z) : Z :=
  u32 (Z.lor (Z.shiftl (bitrev16 (u16 word)) 16) (bitrev16 (u16 (Z.shiftr word 16)))).
Definition bitrev64 (dword : Z) : Z :=
  u64 (Z.lor (Z.shiftl (bitrev32 (u32 dword)) 32) (bitrev32 (u32 (Z.shiftr dword 32)))).

(** ** Constants ([axi.h], [jtag_bitbang.c]) *)

Definition AXI_CNTL_CLEAR : Z := 0.
Definition AXI_CNTL_READ : Z := BIT 31.
Definition AXI_CNTL_WRITE : Z := Z.lor (Z.lor (BIT 31) (BIT 8)) (Z.ones 4).
Definition ARC_AXI_ADDR_TDR : Z := 2.
Definition ARC_AXI_DATA_TDR : Z := 3.
Definition ARC_AXI_CONTROL_STATUS_TDR : Z := 4.

Definition MST_TAP_OP_ISCAN_SEL : Z := 2.
Definition TENSIX_SM_RTAP : Z := 0x19e.
Definition TENSIX_SM_SIBLEN : Z := 4.
Definition TENSIX_SM_TDRLEN : Z := 32.
Definition TENSIX_SIBLEN_PLUS_1_OR_0 : Z := if 0 <? TENSIX_SM_SIBLEN then TENSIX_SM_SIBLEN + 1 else 0.
Definition TENSIX_TDRLEN_SIBLEN_PLUS_1 : Z := 1 + TENSIX_SM_TDRLEN + TENSIX_SM_SIBLEN.
Definition SIBSHIFT (x : Z) : Z := Z.shiftr x TENSIX_SM_SIBLEN.
Definition SIBSHIFTUP (x : Z) : Z := u64 (Z.shiftl x TENSIX_SM_SIBLEN).
Definition INSTR_REG_BISTEN_SEL_END_0 : Z := 9.
Definition INSTR_REG_BISTEN_SEL_START_0 : Z := 7.
Definition INSTR_REG_BISTEN_SEL_MASK_0 : Z := 7.
Definition INSTR_REG_BISTEN_SEL_MASK_1 : Z := 0x3f.

(** ** Pins *)

Inductive jtag_pin := TCK | TDI | TDO | TMS | TRST.
Inductive pin_mode := GPIO_OUTPUT_ACTIVE | GPIO_INPUT.

(** [gpio_pin_set_dt], [gpio_pin_get_dt] and [gpio_pin_configure_dt]. *)
Class JtagPort (W : Type) := {
  pin_set : jtag_pin -> bool -> W -> option W;
  pin_get : jtag_pin -> W -> Z;
  pin_configure : jtag_pin -> pin_mode -> W -> Z * W
}.

Section driver.
Context {W : Type} `{JtagPort W}.
Variable has_trst : bool.    (** [config->trst.port != NULL] *)

Definition SET_TCK : W -> option W := pin_set TCK true.
Definition CLR_TCK : W -> option W := pin_set TCK false.
Definition SET_TDI : W -> option W := pin_set TDI true.
Definition CLR_TDI : W -> option W := pin_set TDI false.
Definition SET_TMS : W -> option W := pin_set TMS true.
Definition CLR_TMS : W -> option W := pin_set TMS false.
Definition GET_TDO (w : W) : bool := negb (pin_get TDO w =? 0).
Definition IF_TDI (stmt : Z) (w : W) : option W := if negb (stmt =? 0) then SET_TDI w else CLR_TDI w.

Definition jtag_bitbang_tick (count : Z) (w : W) : option W :=
  w ← for_loop (Z.to_nat count) 0 (fun _ w => w ← CLR_TCK w; SET_TCK w) w;
  CLR_TCK w.

Definition jtag_bitbang_reset (w : W) : option W :=
  w ← (if has_trst then w ← pin_set TRST true w; pin_set TRST false w else Some w);
  w ← CLR_TDI w;
  w ← SET_TMS w;
  w ← jtag_bitbang_tick 5 w;
  w ← CLR_TMS w;
  jtag_bitbang_tick 1 w.

(** The loops [for (; count > 1; --count, data >>= 1)]; [n] is [count - 1]. *)
Fixpoint shift_ir (n : nat) (data : Z) (w : W) : option (Z * W) :=
  match n with
  | O => Some (data, w)
  | S n =>
      w ← IF_TDI (Z.land data 1) w;
      w ← jtag_bitbang_tick 1 w;
      shift_ir n (Z.shiftr data 1) w
  end.

Definition jtag_bitbang_update_ir (count data : Z) (w : W) : option W :=
  w ← SET_TMS w;
  w ← jtag_bitbang_tick 2 w;
  w ← CLR_TMS w;
  w ← jtag_bitbang_tick 1 w;
  '(data, w) ← shift_ir (Z.to_nat (count - 1)) data w;
  w ← SET_TMS w;
  w ← IF_TDI (Z.land data 1) w;
  w ← jtag_bitbang_tick 1 w;
  w ← SET_TMS w;
  jtag_bitbang_tick 2 w.

Fixpoint shift_dr (n : nat) (capture : bool) (data_in data_out : Z) (w : W) : option (Z * Z * W) :=
  match n with
  | O => Some (data_in, data_out, w)
  | S n =>
      w ← IF_TDI (Z.land data_in 1) w;
      let data_out := if capture then u64 (Z.shiftl (Z.lor data_out (Z.b2z (GET_TDO w))) 1) else data_out in
      w ← jtag_bitbang_tick 1 w;
      shift_dr n capture (Z.shiftr data_in 1) data_out w
  end.

(** A shift of [data_out] by a negative amount is undefined. *)
Definition jtag_bitbang_xfer_dr (count data_in : Z) (idle capture : bool) (w : W) : option (Z * W) :=
  if count =? 0 then Some (0, w)
  else
    let starting_count := count in
    w ← CLR_TMS w;
    w ← jtag_bitbang_tick 1 w;
    w ← jtag_bitbang_tick 1 w;
    '(data_in, data_out, w) ← shift_dr (Z.to_nat (count - 1)) capture data_in 0 w;
    w ← SET_TMS w;
    w ← IF_TDI (Z.land data_in 1) w;
    let data_out := if capture then Z.lor data_out (Z.b2z (GET_TDO w)) else data_out in
    w ← jtag_bitbang_tick 1 w;
    w ← jtag_bitbang_tick 1 w;
    w ← (if idle then w ← CLR_TMS w; jtag_bitbang_tick 1 w else jtag_bitbang_tick 1 w);
    if capture then
      if 64 <? starting_count then None
      else Some (bitrev64 (u64 (Z.shiftl data_out (64 - starting_count))), w)
    else Some (data_out, w).

Definition jtag_bitbang_capture_dr_idle (count data_in : Z) := jtag_bitbang_xfer_dr count data_in true true.
Definition jtag_bitbang_capture_dr (count data_in : Z) := jtag_bitbang_xfer_dr count data_in false true.
Definition jtag_bitbang_update_dr_idle (count data_in : Z) (w : W) : option W :=
  '(_, w) ← jtag_bitbang_xfer_dr count data_in true false w; Some w.
Definition jtag_bitbang_update_dr (count data_in : Z) (w : W) : option W :=
  '(_, w) ← jtag_bitbang_xfer_dr count data_in false false w; Some w.

Definition jtag_bitbang_read_id (w : W) : option (Z * W) :=
  let tap_addr := 6 in
  w ← jtag_bitbang_update_ir 24 tap_addr w;
  '(id, w) ← jtag_bitbang_capture_dr_idle 32 0 w;
  Some (u32 id, w).

(** The chain of [||]: 1 at the first configuration that fails. *)
Fixpoint configure_all (l : list (jtag_pin * pin_mode)) (w : W) : Z * W :=
  match l with
  | [] => (0, w)
  | (p, m) :: l =>
      let '(r, w) := pin_configure p m w in
      if negb (r =? 0) then (1, w) else configure_all l w
  end.

Definition jtag_bitbang_setup (w : W) : Z * W :=
  let '(ret, w) := configure_all [(TCK, GPIO_OUTPUT_ACTIVE); (TDI, GPIO_OUTPUT_ACTIVE); (TDO, GPIO_INPUT);
                                  (TMS, GPIO_OUTPUT_ACTIVE)] w in
  if (ret =? 0) && has_trst then pin_configure TRST GPIO_OUTPUT_ACTIVE w else (ret, w).
Definition jtag_bitbang_teardown (w : W) : Z * W :=
  let '(ret, w) := configure_all [(TCK, GPIO_INPUT); (TDI, GPIO_INPUT); (TDO, GPIO_INPUT); (TMS, GPIO_INPUT)] w in
  if (ret =? 0) && has_trst then pin_configure TRST GPIO_INPUT w else (ret, w).

(** ** Access to the AXI bus through a data register *)

Definition jtag_instr (rtap_addr : Z) : Z :=
  let instrn := bits_set 0 3 MST_TAP_OP_ISCAN_SEL 0 in
  let instrn := bits_set 7 3 (Z.land rtap_addr INSTR_REG_BISTEN_SEL_MASK_0) instrn in
  bits_set 17 6 (Z.land (Z.shiftr rtap_addr (INSTR_REG_BISTEN_SEL_END_0 - INSTR_REG_BISTEN_SEL_START_0 + 1))
                        INSTR_REG_BISTEN_SEL_MASK_1) instrn.

Definition jtag_setup_access (rtap_addr : Z) (w : W) : option W := jtag_bitbang_update_ir 24 (jtag_instr rtap_addr) w.

Definition jtag_access_rtap_tdr_idle (tdr_addr wrdata : Z) (w : W) : option (Z * W) :=
  w ← jtag_bitbang_update_dr TENSIX_SIBLEN_PLUS_1_OR_0 (tdr_addr + 1) w;
  '(r, w) ← jtag_bitbang_capture_dr_idle TENSIX_TDRLEN_SIBLEN_PLUS_1 (SIBSHIFTUP wrdata) w;
  Some (u32 (SIBSHIFT r), w).
Definition jtag_access_rtap_tdr (tdr_addr wrdata : Z) (w : W) : option (Z * W) :=
  w ← jtag_bitbang_update_dr TENSIX_SIBLEN_PLUS_1_OR_0 (tdr_addr + 1) w;
  '(r, w) ← jtag_bitbang_capture_dr TENSIX_TDRLEN_SIBLEN_PLUS_1 (SIBSHIFTUP wrdata) w;
  Some (u32 (SIBSHIFT r), w).
Definition jtag_wr_tensix_sm_rtap_tdr_idle (tdr_addr wrvalue : Z) (w : W) : option W :=
  w ← jtag_bitbang_update_dr TENSIX_SIBLEN_PLUS_1_OR_0 (tdr_addr + 1) w;
  jtag_bitbang_update_dr_idle TENSIX_TDRLEN_SIBLEN_PLUS_1 (SIBSHIFTUP wrvalue) w.
Definition jtag_wr_tensix_sm_rtap_tdr (tdr_addr wrvalue : Z) (w : W) : option W :=
  w ← jtag_bitbang_update_dr TENSIX_SIBLEN_PLUS_1_OR_0 (tdr_addr + 1) w;
  jtag_bitbang_update_dr TENSIX_TDRLEN_SIBLEN_PLUS_1 (SIBSHIFTUP wrvalue) w.
Definition jtag_rd_tensix_sm_rtap_tdr_idle (tdr_addr : Z) (w : W) : option (Z * W) :=
  w ← jtag_bitbang_update_dr TENSIX_SIBLEN_PLUS_1_OR_0 (tdr_addr + 1) w;
  '(r, w) ← jtag_bitbang_capture_dr_idle TENSIX_TDRLEN_SIBLEN_PLUS_1 0 w;
  Some (u32 (SIBSHIFT r), w).
Definition jtag_rd_tensix_sm_rtap_tdr (tdr_addr : Z) (w : W) : option (Z * W) :=
  w ← jtag_bitbang_update_dr TENSIX_SIBLEN_PLUS_1_OR_0 (tdr_addr + 1) w;
  '(r, w) ← jtag_bitbang_capture_dr TENSIX_TDRLEN_SIBLEN_PLUS_1 0 w;
  Some (u32 (SIBSHIFT r), w).

Definition jtag_req_clear (w : W) : option W :=
  w ← jtag_setup_access TENSIX_SM_RTAP w;
  jtag_wr_tensix_sm_rtap_tdr_idle 2 AXI_CNTL_CLEAR w.

(** The polling loop of [jtag_axiread]. *)
Fixpoint axi_poll (n : nat) (axi_status : Z) (w : W) : option (Z * W) :=
  match n with
  | O => Some (axi_status, w)
  | S n =>
      '(axi_status, w) ← jtag_rd_tensix_sm_rtap_tdr ARC_AXI_CONTROL_STATUS_TDR w;
      if negb (Z.land axi_status 0xF =? 0) then Some (axi_status, w) else axi_poll n axi_status w
  end.

(** Return code, the word read, and the world. *)
Definition jtag_axiread (addr : Z) (w : W) : option (Z * Z * W) :=
  w ← jtag_setup_access TENSIX_SM_RTAP w;
  w ← jtag_wr_tensix_sm_rtap_tdr ARC_AXI_ADDR_TDR addr w;
  w ← jtag_wr_tensix_sm_rtap_tdr ARC_AXI_CONTROL_STATUS_TDR AXI_CNTL_READ w;
  '(axi_status, w) ← axi_poll 1000 1 w;
  '(axi_rddata, w) ← jtag_rd_tensix_sm_rtap_tdr_idle ARC_AXI_DATA_TDR w;
  Some (if negb (Z.land axi_status 0xF =? 0) then 0 else -1, axi_rddata, w).

Definition jtag_axiwrite (addr value : Z) (w : W) : option (Z * W) :=
  w ← jtag_setup_access TENSIX_SM_RTAP w;
  w ← jtag_wr_tensix_sm_rtap_tdr ARC_AXI_ADDR_TDR addr w;
  w ← jtag_wr_tensix_sm_rtap_tdr ARC_AXI_DATA_TDR value w;
  w ← jtag_wr_tensix_sm_rtap_tdr ARC_AXI_CONTROL_STATUS_TDR AXI_CNTL_WRITE w;
  '(status, w) ← jtag_rd_tensix_sm_rtap_tdr_idle ARC_AXI_CONTROL_STATUS_TDR w;
  Some (if negb (Z.land (Z.shiftr status 16) 1 =? 1) then 0 else -1, w).

(** [i] words have been written; [len] is the length of the list. *)
Fixpoint block_loop (addr i result : Z) (value : list Z) (w : W) : option (Z * W) :=
  match value with
  | [] => Some (result, w)
  | v :: value =>
      '(r, w) ← jtag_axiwrite (u32 (addr + 4 * i)) v w;
      block_loop addr (i + 1) (Z.lor result r) value w
  end.
Definition jtag_axi_blockwrite (addr : Z) (value : list Z) (w : W) : option (Z * W) := block_loop addr 0 0 value w.
End driver.

(** ** Bits of words *)

(** The lowest [n] bits of a word, lowest first, and the word of a list of bits. *)
Definition low_bits (n : nat) (x : Z) : list bool := map (fun i => Z.testbit x (Z.of_nat i)) (seq 0 n).
Definition word_of (l : list bool) : Z := foldr (fun b a => Z.b2z b + 2 * a) 0 l.

Lemma low_bits_length n x : length (low_bits n x) = n.
Proof. unfold low_bits. by rewrite length_map, length_seq. Qed.

Lemma low_bits_S n x : low_bits (S n) x = Z.testbit x 0 :: low_bits n (Z.shiftr x 1).
Proof.
  unfold low_bits. cbn [seq map]. f_equal. rewrite <- seq_shift, map_map. apply map_ext.
  intros i. rewrite Z.shiftr_spec by lia. f_equal. lia.
Qed.

Lemma low_bits_snoc n x : low_bits (S n) x = low_bits n x ++ [Z.testbit x (Z.of_nat n)].
Proof. unfold low_bits. by rewrite seq_S, map_app. Qed.

Lemma word_of_testbit l i : Z.testbit (word_of l) (Z.of_nat i) = nth i l false.
Proof.
  revert i. induction l as [|b l IH]; intros i; cbn [word_of foldr]; [destruct i; apply Z.bits_0|].
  fold (word_of l). destruct i as [|i].
  - change (Z.of_nat 0) with 0. apply Z.add_b2z_double_bit0.
  - rewrite Nat2Z.inj_succ, Z.add_comm, Z.testbit_succ_r by lia. cbn [nth]. apply IH.
Qed.

Lemma word_of_inj_bits l x : 0 <= x -> (forall i, nth i l false = Z.testbit x (Z.of_nat i)) -> word_of l = x.
Proof.
  intros Hx Hl. apply Z.bits_inj'. intros i Hi. replace i with (Z.of_nat (Z.to_nat i)) by lia.
  rewrite word_of_testbit. apply Hl.
Qed.

Lemma word_of_low_bits n x : 0 <= x < 2 ^ Z.of_nat n -> word_of (low_bits n x) = x.
Proof.
  intros Hx. apply word_of_inj_bits; [lia|]. intros i. destruct (Nat.lt_ge_cases i n) as [Hi|Hi].
  - unfold low_bits. rewrite (nth_indep _ _ (Z.testbit x (Z.of_nat 0))) by (rewrite length_map, length_seq; done).
    rewrite (map_nth (fun i => Z.testbit x (Z.of_nat i))), seq_nth by done. done.
  - rewrite nth_overflow by (rewrite low_bits_length; done). symmetry. apply (testbit_above _ (Z.of_nat n)); lia.
Qed.

Lemma wrap_testbit w x i : 0 <= w -> 0 <= i -> Z.testbit (wrap w x) i = (i <? w) && Z.testbit x i.
Proof.
  intros Hw Hi. unfold wrap. destruct (Z.ltb_spec i w).
  - by rewrite Z.mod_pow2_bits_low.
  - by rewrite Z.mod_pow2_bits_high.
Qed.

(** [f] reverses words of [w] bits. *)
Definition reverses (w : Z) (f : Z -> Z) : Prop :=
  forall x i, 0 <= i -> Z.testbit (f x) i = (i <? w) && Z.testbit x (w - 1 - i).

Lemma bitrev4_spec : reverses 4 bitrev4.
Proof.
  intros x i Hi. unfold bitrev4. change 0xf with (Z.ones 4).
  assert (Hx : forall j, 0 <= j < 4 -> Z.testbit x j = Z.testbit (Z.land x (Z.ones 4)) j).
  { intros j Hj. rewrite Z.land_spec, testbit_ones_in by lia. destruct (Z.ltb_spec j 4); [by rewrite andb_true_r|lia]. }
  assert (Hr : 0 <= Z.land x (Z.ones 4) < 16) by (rewrite Z.land_ones by lia; apply Z.mod_pos_bound; done).
  assert (Hi4 : i < 4 -> Z.testbit x (4 - 1 - i) = Z.testbit (Z.land x (Z.ones 4)) (4 - 1 - i)) by (intros; apply Hx; lia).
  revert Hi4 Hr. generalize (Z.land x (Z.ones 4)). clear Hx. intros y Hi4 Hr.
  assert (Hy : y ∈ seqZ 0 16) by (apply elem_of_seqZ; lia). revert Hy Hi4. clear Hr.
  destruct (Z.ltb_spec i 4) as [H4|H4]; cbn [andb].
  - intros Hy Hi4. rewrite Hi4 by done. clear Hi4 x.
    assert (Hi' : i ∈ seqZ 0 4) by (apply elem_of_seqZ; lia). clear Hi H4.
    revert y Hy. apply Forall_forall. revert i Hi'. apply Forall_forall. vm_compute. repeat constructor.
  - intros Hy _. apply (testbit_above _ 4); [|lia].
    revert y Hy. apply Forall_forall. vm_compute. repeat (constructor; [split; done|]). constructor.
Qed.

(** Two reversed halves, swapped, are the reversed word. *)
Lemma bitrev_double h f g :
  0 < h -> reverses h f ->
  (forall x, g x = wrap (2 * h) (Z.lor (Z.shiftl (f (wrap h x)) h) (f (wrap h (Z.shiftr x h))))) ->
  reverses (2 * h) g.
Proof.
  intros Hh Hf Hg x i Hi. rewrite Hg, wrap_testbit, Z.lor_spec, Z.shiftl_spec by lia.
  destruct (Z.ltb_spec i (2 * h)) as [H2|H2]; [cbn [andb]|done].
  assert (Hlow : forall j, 0 <= j < h -> Z.testbit (f (wrap h x)) j = Z.testbit x (h - 1 - j)).
  { intros j Hj. rewrite Hf, wrap_testbit by lia. destruct (Z.ltb_spec j h), (Z.ltb_spec (h - 1 - j) h); (lia || done). }
  assert (Hhigh : forall j, 0 <= j < h -> Z.testbit (f (wrap h (Z.shiftr x h))) j = Z.testbit x (2 * h - 1 - j)).
  { intros j Hj. rewrite Hf, wrap_testbit, Z.shiftr_spec by lia.
    destruct (Z.ltb_spec j h), (Z.ltb_spec (h - 1 - j) h); try lia. cbn [andb]. f_equal. lia. }
  destruct (Z.lt_ge_cases i h) as [Hih|Hih].
  - rewrite (Z.testbit_neg_r _ (i - h)) by lia. cbn [orb]. apply Hhigh. lia.
  - rewrite Hlow by lia. rewrite (Hf _ i Hi). destruct (Z.ltb_spec i h); [lia|]. cbn [andb]. rewrite orb_false_r. f_equal. lia.
Qed.

Lemma bitrev4_low x : bitrev4 (wrap 4 x) = bitrev4 x.
Proof.
  unfold bitrev4. do 2 f_equal. apply Z.bits_inj'. intros i Hi. change 0xf with (Z.ones 4).
  rewrite !Z.land_spec, wrap_testbit, testbit_ones_in by lia. by destruct (i <? 4), (Z.testbit x i).
Qed.

Lemma bitrev8_spec : reverses 8 bitrev8.
Proof. apply (bitrev_double 4 bitrev4); [lia|apply bitrev4_spec|]. intros x. by rewrite !bitrev4_low. Qed.
Lemma bitrev16_spec : reverses 16 bitrev16.
Proof. apply (bitrev_double 8 bitrev8); [lia|apply bitrev8_spec|done]. Qed.
Lemma bitrev32_spec : reverses 32 bitrev32.
Proof. apply (bitrev_double 16 bitrev16); [lia|apply bitrev16_spec|done]. Qed.
Lemma bitrev64_spec : reverses 64 bitrev64.
Proof. apply (bitrev_double 32 bitrev32); [lia|apply bitrev32_spec|done]. Qed.

(** ** What a clock pulse does

    [at_rest tms tdi c] is a device in state [c] with TCK low; a pulse takes [c]
    to [clock tms tdi c]; [tdo c] is what the driver reads in between. *)
Class Clocked (W C : Type) `{JtagPort W} := {
  at_rest : bool -> bool -> C -> W;
  clock : bool -> bool -> C -> option C;
  tdo : C -> bool;
  rest_tms : forall m d c, SET_TMS (at_rest m d c) = Some (at_rest true d c) /\
                           CLR_TMS (at_rest m d c) = Some (at_rest false d c);
  rest_tdi : forall m d c, SET_TDI (at_rest m d c) = Some (at_rest m true c) /\
                           CLR_TDI (at_rest m d c) = Some (at_rest m false c);
  rest_trst : forall m d c b, pin_set TRST b (at_rest m d c) = Some (at_rest m d c);
  rest_tdo : forall m d c, GET_TDO (at_rest m d c) = tdo c;
  rest_tck : forall m d c, CLR_TCK (at_rest m d c) = Some (at_rest m d c);
  pulse : forall m d c, (w ← SET_TCK (at_rest m d c); CLR_TCK w) = c ← clock m d c; Some (at_rest m d c)
}.

Section clocked.
Context {W C : Type} `{Clocked W C}.
Implicit Types (c : C).

Fixpoint clocks (n : nat) (m d : bool) (c : C) : option C :=
  match n with O => Some c | S n => c ← clock m d c; clocks n m d c end.

Lemma tick_clocks n m d c :
  jtag_bitbang_tick (Z.of_nat n) (at_rest m d c) = c ← clocks n m d c; Some (at_rest m d c).
Proof.
  unfold jtag_bitbang_tick. rewrite Nat2Z.id. generalize 0.
  cut (forall (oc : option C) (w : W) i, CLR_TCK w = (c ← oc; Some (at_rest m d c)) ->
    (w ← for_loop n i (fun _ w => w ← CLR_TCK w; SET_TCK w) w; CLR_TCK w) =
    (c ← oc; c ← clocks n m d c; Some (at_rest m d c))).
  { intros Hg i. rewrite (Hg (Some c) _ i); [done|apply rest_tck]. }
  induction n as [|n IH]; intros oc w i Hw; cbn [for_loop clocks].
  - cbn [mbind option_bind]. rewrite Hw. by destruct oc.
  - destruct oc as [c'|]; cbn [mbind option_bind] in *; rewrite Hw; cbn [mbind option_bind]; [|done].
    pose proof (pulse m d c') as Hp. destruct (SET_TCK (at_rest m d c')) as [w'|]; cbn [mbind option_bind] in *.
    + rewrite (IH (clock m d c') w' _ Hp). by destruct (clock m d c').
    + by destruct (clock m d c').
Qed.

Lemma tick1 m d c : jtag_bitbang_tick 1 (at_rest m d c) = c ← clock m d c; Some (at_rest m d c).
Proof. change 1 with (Z.of_nat 1). rewrite tick_clocks. cbn [clocks]. by destruct (clock m d c). Qed.

Lemma tick2 m d c :
  jtag_bitbang_tick 2 (at_rest m d c) = c ← clock m d c; c ← clock m d c; Some (at_rest m d c).
Proof.
  change 2 with (Z.of_nat 2). rewrite tick_clocks. cbn [clocks]. destruct (clock m d c) as [c1|]; [|done].
  cbn [mbind option_bind]. by destruct (clock m d c1).
Qed.

Lemma if_tdi_low_bit x m d c : IF_TDI (Z.land x 1) (at_rest m d c) = Some (at_rest m (Z.testbit x 0) c).
Proof.
  unfold IF_TDI. replace (Z.land x 1 =? 0) with (negb (Z.testbit x 0)).
  - rewrite negb_involutive. destruct (Z.testbit x 0); apply rest_tdi.
  - symmetry. exact (land_BIT_eqb x 0 ltac:(lia)).
Qed.

(** Bits clocked in with TMS low, and what TDO showed before each. *)
Fixpoint shift_in (bits : list bool) (c : C) : option (list bool * C) :=
  match bits with
  | [] => Some ([], c)
  | b :: bits =>
      c' ← clock false b c;
      '(outs, c') ← shift_in bits c';
      Some (tdo c :: outs, c')
  end.

(** TDI after the loop. *)
Definition last_bit (d : bool) (bits : list bool) : bool := List.last bits d.

Lemma last_bit_cons d b bits : last_bit d (b :: bits) = last_bit b bits.
Proof.
  unfold last_bit. revert b. induction bits as [|b' bits IH]; intros b; [done|].
  change (List.last (b :: b' :: bits) d) with (List.last (b' :: bits) d).
  destruct bits as [|b'' bits]; [done|]. cbn [List.last] in *. by rewrite <- (IH b).
Qed.

Lemma shift_ir_bits n data d c :
  shift_ir n data (at_rest false d c) =
  '(_, c) ← shift_in (low_bits n data) c;
  Some (Z.shiftr data (Z.of_nat n), at_rest false (last_bit d (low_bits n data)) c).
Proof.
  revert data d c. induction n as [|n IH]; intros data d c; cbn [shift_ir].
  - cbn. by rewrite Z.shiftr_0_r.
  - rewrite low_bits_S, if_tdi_low_bit. cbn [mbind option_bind shift_in]. rewrite tick1.
    destruct (clock false (Z.testbit data 0) c) as [c1|]; [|done]. cbn [mbind option_bind]. rewrite IH.
    destruct (shift_in (low_bits n (Z.shiftr data 1)) c1) as [[outs c2]|]; [|done]. cbn [mbind option_bind].
    rewrite Z.shiftr_shiftr by lia. rewrite last_bit_cons. do 3 f_equal. lia.
Qed.

(** The word that the capture loop builds, highest bit first. *)
Definition collect (capture : bool) (outs : list bool) (acc : Z) : Z :=
  if capture then foldl (fun a b => u64 (Z.shiftl (Z.lor a (Z.b2z b)) 1)) acc outs else acc.

Lemma shift_dr_bits n capture data acc d c :
  shift_dr n capture data acc (at_rest false d c) =
  '(outs, c) ← shift_in (low_bits n data) c;
  Some (Z.shiftr data (Z.of_nat n), collect capture outs acc, at_rest false (last_bit d (low_bits n data)) c).
Proof.
  revert data acc d c. induction n as [|n IH]; intros data acc d c; cbn [shift_dr].
  - cbn. rewrite Z.shiftr_0_r. by destruct capture.
  - rewrite low_bits_S, if_tdi_low_bit. cbn [mbind option_bind shift_in]. rewrite tick1.
    destruct (clock false (Z.testbit data 0) c) as [c1|]; [|done]. cbn [mbind option_bind]. rewrite IH.
    destruct (shift_in (low_bits n (Z.shiftr data 1)) c1) as [[outs c2]|]; [|done]. cbn [mbind option_bind].
    rewrite Z.shiftr_shiftr, last_bit_cons by lia. do 2 f_equal. f_equal.
    + f_equal. lia.
    + destruct capture; [|done]. cbn [collect foldl]. by rewrite rest_tdo.
Qed.

(** The captured bits in reverse, above a free bit 0. *)
Lemma collect_spec outs i :
  (length outs <= 63)%nat -> 0 <= i ->
  Z.testbit (collect true outs 0) i =
    (1 <=? i) && (i <=? Z.of_nat (length outs)) && nth (length outs - Z.to_nat i) outs false.
Proof.
  cbn [collect]. revert i. induction outs as [|b outs IH] using rev_ind; intros i Hl Hi.
  - cbn [foldl length]. rewrite Z.bits_0. destruct (Z.leb_spec 1 i), (Z.leb_spec i (Z.of_nat 0)); (lia || done).
  - rewrite length_app in *. cbn [length] in *. rewrite foldl_app. cbn [foldl].
    rewrite wrap_testbit, Z.shiftl_spec by lia.
    destruct (Z.leb_spec 1 i) as [H1|H1].
    2:{ rewrite (Z.testbit_neg_r _ (i - 1)) by lia. apply andb_false_r. }
    rewrite Z.lor_spec, IH by lia. cbn [andb].
    destruct (Z.leb_spec i (Z.of_nat (length outs + 1))) as [H2|H2]; cbn [andb].
    + destruct (Z.ltb_spec i 64); [cbn [andb]|lia].
      destruct (Z.eq_dec i 1) as [->|Hne].
      * change (1 - 1) with 0. change (1 <=? 0) with false. cbn [andb orb].
        replace (length outs + 1 - Z.to_nat 1)%nat with (length outs) by lia.
        rewrite app_nth2, Nat.sub_diag by lia. cbn [nth]. by destruct b.
      * replace (Z.testbit (Z.b2z b) (i - 1)) with false by (symmetry; destruct b; [apply Z.bits_above_log2; cbn; lia|apply Z.bits_0]).
        destruct (Z.leb_spec 1 (i - 1)), (Z.leb_spec (i - 1) (Z.of_nat (length outs))); try lia.
        cbn [andb]. rewrite orb_false_r, app_nth1 by lia. f_equal. lia.
    + replace (Z.testbit (Z.b2z b) (i - 1)) with false by (symmetry; destruct b; [apply Z.bits_above_log2; cbn; lia|apply Z.bits_0]).
      destruct (Z.leb_spec (i - 1) (Z.of_nat (length outs))); [lia|]. rewrite andb_false_r. apply andb_false_r.
Qed.

(** The driver's shift and bit reversal put the captured bits in order. *)
Lemma capture_word outs b count :
  count = Z.of_nat (length outs) + 1 -> count <= 64 ->
  bitrev64 (u64 (Z.shiftl (Z.lor (collect true outs 0) (Z.b2z b)) (64 - count))) = word_of (outs ++ [b]).
Proof.
  intros -> Hc. symmetry. apply Z.bits_inj'. intros i Hi.
  replace (Z.testbit (word_of (outs ++ [b])) i) with (nth (Z.to_nat i) (outs ++ [b]) false)
    by (rewrite <- word_of_testbit; f_equal; lia).
  rewrite bitrev64_spec by lia.
  destruct (Z.ltb_spec i 64); cbn [andb]; [|by rewrite nth_overflow by (rewrite length_app; cbn [length]; lia)].
  rewrite wrap_testbit by lia. destruct (Z.ltb_spec (64 - 1 - i) 64); [cbn [andb]|lia].
  rewrite Z.shiftl_spec by lia. set (j := 64 - 1 - i - (64 - (Z.of_nat (length outs) + 1))).
  assert (Hj : j = Z.of_nat (length outs) - i) by (unfold j; lia). rewrite Hj. clear Hj j.
  destruct (Z.ltb_spec (Z.of_nat (length outs)) i) as [Hlt|Hle].
  - rewrite nth_overflow by (rewrite length_app; cbn [length]; lia). by rewrite Z.testbit_neg_r by lia.
  - rewrite Z.lor_spec, collect_spec by lia.
    destruct (Z.eq_dec i (Z.of_nat (length outs))) as [->|Hne].
    + rewrite Z.sub_diag, Nat2Z.id, app_nth2, Nat.sub_diag by lia. cbn. by destruct b.
    + replace (Z.testbit (Z.b2z b) (Z.of_nat (length outs) - i)) with false
        by (symmetry; destruct b; [apply Z.bits_above_log2; cbn; lia|apply Z.bits_0]).
      destruct (Z.leb_spec 1 (Z.of_nat (length outs) - i)), (Z.leb_spec (Z.of_nat (length outs) - i) (Z.of_nat (length outs)));
        try lia.
      cbn [andb]. rewrite orb_false_r, app_nth1 by lia. f_equal. lia.
Qed.

Lemma shift_bits_length bits c outs c' : shift_in bits c = Some (outs, c') -> length outs = length bits.
Proof.
  revert c outs c'. induction bits as [|b bits IH]; intros c outs c'; cbn [shift_in]; [by intros [= <- <-]|].
  destruct (clock false b c) as [c1|]; [|done]. cbn [mbind option_bind].
  destruct (shift_in bits c1) as [[o c2]|] eqn:E; [|done]. cbn [mbind option_bind]. intros [= <- <-].
  cbn [length]. f_equal. exact (IH _ _ _ E).
Qed.

(** A data register scan, as clock pulses. *)
Definition scan_dr (bits : list bool) (b : bool) (idle : bool) (d : bool) (c : C) : option (list bool * C) :=
  c ← clock false d c; c ← clock false d c;
  '(outs, c) ← shift_in bits c;
  let out := tdo c in
  c ← clock true b c; c ← clock true b c;
  c ← clock (negb idle) b c;
  Some (outs ++ [out], c).

Lemma xfer_dr_scan count data idle capture m d c :
  0 < count <= 64 ->
  jtag_bitbang_xfer_dr count data idle capture (at_rest m d c) =
  '(outs, c) ← scan_dr (low_bits (Z.to_nat (count - 1)) data) (Z.testbit data (count - 1)) idle d c;
  Some (if capture then word_of outs else 0, at_rest (negb idle) (Z.testbit data (count - 1)) c).
Proof.
  intros Hc. unfold jtag_bitbang_xfer_dr, scan_dr. destruct (Z.eqb_spec count 0); [lia|].
  destruct (rest_tms m d c) as [_ ->]. cbn [mbind option_bind]. rewrite tick1.
  destruct (clock false d c) as [c1|]; [|done]. cbn [mbind option_bind]. rewrite tick1.
  destruct (clock false d c1) as [c2|]; [|done]. cbn [mbind option_bind]. rewrite shift_dr_bits.
  destruct (shift_in _ c2) as [[outs c3]|] eqn:Es; [|done]. cbn [mbind option_bind].
  destruct (rest_tms false (last_bit d (low_bits (Z.to_nat (count - 1)) data)) c3) as [-> _]. cbn [mbind option_bind].
  rewrite if_tdi_low_bit. cbn [mbind option_bind]. rewrite rest_tdo.
  replace (Z.testbit (Z.shiftr data (Z.of_nat (Z.to_nat (count - 1)))) 0) with (Z.testbit data (count - 1))
    by (rewrite Z.shiftr_spec by lia; f_equal; lia).
  rewrite tick1. destruct (clock true (Z.testbit data (count - 1)) c3) as [c4|]; [|done]. cbn [mbind option_bind].
  rewrite tick1. destruct (clock true (Z.testbit data (count - 1)) c4) as [c5|]; [|done]. cbn [mbind option_bind].
  assert (Hlast : (if idle then w ← CLR_TMS (at_rest true (Z.testbit data (count - 1)) c5); jtag_bitbang_tick 1 w
                   else jtag_bitbang_tick 1 (at_rest true (Z.testbit data (count - 1)) c5)) =
                  c ← clock (negb idle) (Z.testbit data (count - 1)) c5; Some (at_rest (negb idle) (Z.testbit data (count - 1)) c)).
  { destruct idle; [|apply tick1]. destruct (rest_tms true (Z.testbit data (count - 1)) c5) as [_ ->].
    cbn [mbind option_bind]. apply tick1. }
  rewrite Hlast. destruct (clock (negb idle) _ c5) as [c6|]; [|done]. cbn [mbind option_bind].
  destruct capture; [|done]. destruct (Z.ltb_spec 64 count); [lia|].
  rewrite (capture_word outs (tdo c3) count); [done| |lia].
  apply shift_bits_length in Es. rewrite Es, low_bits_length. lia.
Qed.

(** An instruction register scan; it ends one pulse after Update-IR. *)
Definition scan_ir (bits : list bool) (b : bool) (d : bool) (c : C) : option C :=
  c ← clock true d c; c ← clock true d c; c ← clock false d c;
  '(_, c) ← shift_in bits c;
  c ← clock true b c; c ← clock true b c; clock true b c.

Lemma update_ir_scan count data m d c :
  0 < count ->
  jtag_bitbang_update_ir count data (at_rest m d c) =
  c ← scan_ir (low_bits (Z.to_nat (count - 1)) data) (Z.testbit data (count - 1)) d c;
  Some (at_rest true (Z.testbit data (count - 1)) c).
Proof.
  intros Hc. unfold jtag_bitbang_update_ir, scan_ir.
  destruct (rest_tms m d c) as [-> _]. cbn [mbind option_bind]. rewrite tick2.
  destruct (clock true d c) as [c1|]; [|done]. cbn [mbind option_bind].
  destruct (clock true d c1) as [c2|]; [|done]. cbn [mbind option_bind].
  destruct (rest_tms true d c2) as [_ ->]. cbn [mbind option_bind]. rewrite tick1.
  destruct (clock false d c2) as [c3|]; [|done]. cbn [mbind option_bind]. rewrite shift_ir_bits.
  destruct (shift_in _ c3) as [[outs c4]|]; [|done]. cbn [mbind option_bind].
  destruct (rest_tms false (last_bit d (low_bits (Z.to_nat (count - 1)) data)) c4) as [-> _]. cbn [mbind option_bind].
  rewrite if_tdi_low_bit. cbn [mbind option_bind].
  replace (Z.testbit (Z.shiftr data (Z.of_nat (Z.to_nat (count - 1)))) 0) with (Z.testbit data (count - 1))
    by (rewrite Z.shiftr_spec by lia; f_equal; lia).
  rewrite tick1. destruct (clock true (Z.testbit data (count - 1)) c4) as [c5|]; [|done]. cbn [mbind option_bind].
  destruct (rest_tms true (Z.testbit data (count - 1)) c5) as [-> _]. cbn [mbind option_bind]. rewrite tick2.
  destruct (clock true (Z.testbit data (count - 1)) c5) as [c6|]; [|done]. cbn [mbind option_bind].
  by destruct (clock true (Z.testbit data (count - 1)) c6).
Qed.

Lemma reset_pulses trst m d c :
  jtag_bitbang_reset trst (at_rest m d c) =
  c ← clocks 5 true false c; c ← clock false false c; Some (at_rest false false c).
Proof.
  unfold jtag_bitbang_reset.
  assert (Ht : (if trst then w ← pin_set TRST true (at_rest m d c); pin_set TRST false w else Some (at_rest m d c)) =
               Some (at_rest m d c)).
  { destruct trst; [|done]. rewrite rest_trst. cbn [mbind option_bind]. apply rest_trst. }
  rewrite Ht. cbn [mbind option_bind]. destruct (rest_tdi m d c) as [_ ->]. cbn [mbind option_bind].
  destruct (rest_tms m false c) as [-> _]. cbn [mbind option_bind]. change 5 with (Z.of_nat 5). rewrite tick_clocks.
  destruct (clocks 5 true false c) as [c1|]; [|done]. cbn [mbind option_bind].
  destruct (rest_tms true false c1) as [_ ->]. cbn [mbind option_bind]. rewrite tick1.
  by destruct (clock false false c1).
Qed.
End clocked.
