(* ===== verification/JtagTap.v ===== *)
(** * The JTAG driver and the devices it drives ([drivers/jtag/jtag_emul.c], IEEE 1149.1)

    Two devices behind the pins of [Jtag]: the TAP controller of the standard
    with a scan register, the specification of the driver, and the emulator of
    [jtag_emul.c], which keeps a word buffer that AXI writes go to.  The state
    names are those of [jtag_priv.h]. *)

From S2P Require Import Prelude Jtag.

Inductive jtag_state :=
| JTAG_RESET | IDLE | SCAN_DR | SCAN_IR | CAPTURE_DR | CAPTURE_IR | SHIFT_DR | SHIFT_IR
| EXIT1_DR | EXIT1_IR | PAUSE_DR | PAUSE_IR | EXIT2_DR | EXIT2_IR | UPDATE_DR | UPDATE_IR.

#[export] Instance jtag_state_eq_dec : EqDecision jtag_state.
Proof. solve_decision. Defined.

(** ** The emulator ([jtag_emul.c]) *)

Module Emul.

(** [next_state], by the level of TMS. *)
Definition next_state (tms : bool) (s : jtag_state) : jtag_state :=
  if tms then
    match s with
    | JTAG_RESET => JTAG_RESET | IDLE => SCAN_DR | SCAN_DR => SCAN_IR | SCAN_IR => JTAG_RESET
    | CAPTURE_DR => EXIT1_DR | CAPTURE_IR => EXIT1_IR | SHIFT_DR => EXIT1_DR | SHIFT_IR => EXIT1_IR
    | EXIT1_DR => UPDATE_DR | EXIT1_IR => UPDATE_IR | PAUSE_DR => EXIT2_DR | PAUSE_IR => EXIT2_IR
    | EXIT2_DR => SHIFT_DR | EXIT2_IR => SHIFT_IR | UPDATE_DR => SCAN_DR | UPDATE_IR => SCAN_DR
    end
  else
    match s with
    | JTAG_RESET => IDLE | IDLE => IDLE | SCAN_DR => CAPTURE_DR | SCAN_IR => CAPTURE_IR
    | CAPTURE_DR => SHIFT_DR | CAPTURE_IR => SHIFT_IR | SHIFT_DR => SHIFT_DR | SHIFT_IR => SHIFT_IR
    | EXIT1_DR => PAUSE_DR | EXIT1_IR => PAUSE_IR | PAUSE_DR => PAUSE_DR | PAUSE_IR => PAUSE_IR
    | EXIT2_DR => SHIFT_DR | EXIT2_IR => SHIFT_IR | UPDATE_DR => IDLE | UPDATE_IR => IDLE
    end.

(** [enum jtag_shift_reg]: bypass, instruction and data register. *)
Definition BR : Z := 0.
Definition IR : Z := 1.
Definition DR : Z := 2.
Definition REG_BITS : Z := 32.

(** [struct jtag_emul_data], with the buffer of [struct jtag_data]. *)
Record jtag_emul_data := MkEmul {
  shift_reg : list Z;
  shift_bits : list Z;
  hold_reg : list Z;
  state : jtag_state;
  selected_reg : Z;
  tck_old : bool;
  tck_count : Z;
  have_axi_addr_tdr : bool;
  axi_addr_tdr : Z;
  have_axi_data_tdr : bool;
  axi_data_tdr : Z;
  buf : list Z
}.

Definition set_regs (sr sb hr : list Z) (e : jtag_emul_data) : jtag_emul_data :=
  MkEmul sr sb hr (state e) (selected_reg e) (tck_old e) (tck_count e) (have_axi_addr_tdr e) (axi_addr_tdr e)
         (have_axi_data_tdr e) (axi_data_tdr e) (buf e).
Definition set_selected (r : Z) (e : jtag_emul_data) : jtag_emul_data :=
  MkEmul (shift_reg e) (shift_bits e) (hold_reg e) (state e) r (tck_old e) (tck_count e) (have_axi_addr_tdr e)
         (axi_addr_tdr e) (have_axi_data_tdr e) (axi_data_tdr e) (buf e).
Definition set_state (s : jtag_state) (n : Z) (e : jtag_emul_data) : jtag_emul_data :=
  MkEmul (shift_reg e) (shift_bits e) (hold_reg e) s (selected_reg e) (tck_old e) n (have_axi_addr_tdr e)
         (axi_addr_tdr e) (have_axi_data_tdr e) (axi_data_tdr e) (buf e).
Definition set_tck_old (b : bool) (e : jtag_emul_data) : jtag_emul_data :=
  MkEmul (shift_reg e) (shift_bits e) (hold_reg e) (state e) (selected_reg e) b (tck_count e) (have_axi_addr_tdr e)
         (axi_addr_tdr e) (have_axi_data_tdr e) (axi_data_tdr e) (buf e).
Definition set_axi (ha : bool) (a : Z) (hd : bool) (d : Z) (b : list Z) (e : jtag_emul_data) : jtag_emul_data :=
  MkEmul (shift_reg e) (shift_bits e) (hold_reg e) (state e) (selected_reg e) (tck_old e) (tck_count e) ha a hd d b.

(** What a word that reached the data register's hold register means. *)
Definition on_hold_dr (hold : Z) (e : jtag_emul_data) : jtag_emul_data :=
  if u32 (hold - 1) =? ARC_AXI_ADDR_TDR then
    set_axi true (axi_addr_tdr e) (have_axi_data_tdr e) (axi_data_tdr e) (buf e) e
  else if have_axi_addr_tdr e then
    set_axi false hold (have_axi_data_tdr e) (axi_data_tdr e) (buf e) e
  else if u32 (hold - 1) =? ARC_AXI_DATA_TDR then
    set_axi (have_axi_addr_tdr e) (axi_addr_tdr e) true (axi_data_tdr e) (buf e) e
  else if have_axi_data_tdr e then
    let i := Z.shiftr (axi_addr_tdr e) 2 in
    let b := if i <? len (buf e) then <[Z.to_nat i := hold]> (buf e) else buf e in
    set_axi (have_axi_addr_tdr e) (axi_addr_tdr e) false hold b e
  else e.

Definition on_update_reg (e : jtag_emul_data) : option jtag_emul_data :=
  if selected_reg e =? DR then
    n ← aget (shift_bits e) DR;
    let n := Z.max 1 (Z.min n REG_BITS) in
    sb ← aset (shift_bits e) DR n;
    r ← aget (shift_reg e) DR;
    let hold := Z.shiftr (bitrev32 r) (REG_BITS - n) in
    hr ← aset (hold_reg e) DR hold;
    Some (on_hold_dr hold (set_regs (shift_reg e) sb hr e))
  else if selected_reg e =? IR then
    n ← aget (shift_bits e) IR;
    r ← aget (shift_reg e) IR;
    if REG_BITS - n - 1 <? 0 then None
    else
      hr ← aset (hold_reg e) IR (Z.shiftr (bitrev32 r) (REG_BITS - n - 1));
      Some (set_regs (shift_reg e) (shift_bits e) hr e)
  else Some e.

Definition on_tck_falling (tms tdi : bool) (e : jtag_emul_data) : option jtag_emul_data :=
  match state e with
  | SCAN_DR => Some (set_selected DR e)
  | SCAN_IR => Some (set_selected IR e)
  | CAPTURE_DR | CAPTURE_IR =>
      sb ← aset (shift_bits e) (selected_reg e) 0;
      Some (set_regs (shift_reg e) sb (hold_reg e) e)
  | SHIFT_DR | SHIFT_IR =>
      if tms then Some e
      else
        r ← aget (shift_reg e) (selected_reg e);
        sr ← aset (shift_reg e) (selected_reg e) (Z.lor (u32 (Z.shiftl r 1)) (Z.b2z tdi));
        n ← aget (shift_bits e) (selected_reg e);
        sb ← aset (shift_bits e) (selected_reg e) (u8 (n + 1));
        Some (set_regs sr sb (hold_reg e) e)
  | UPDATE_DR | UPDATE_IR => on_update_reg e
  | _ => Some e
  end.

(** The emulator behind its pins: levels, and what it drives on TDO (nothing). *)
Record wired := MkWired { tck : bool; tms : bool; tdi : bool; tdo_level : Z; data : jtag_emul_data }.

Definition gpio_emul_callback (w : wired) : option wired :=
  let e := data w in
  if Bool.eqb (tck w) (tck_old e) then Some w
  else
    let e := set_tck_old (tck w) e in
    if negb (tck w) then
      e ← on_tck_falling (tms w) (tdi w) e;
      let e := set_state (next_state (tms w) (state e)) (u32 (tck_count e + 1)) e in
      Some (MkWired (tck w) (tms w) (tdi w) (tdo_level w) e)
    else Some (MkWired (tck w) (tms w) (tdi w) (tdo_level w) e).

#[export] Instance emul_port : JtagPort wired := {|
  pin_set p b w :=
    match p with
    | TCK => gpio_emul_callback (MkWired b (tms w) (tdi w) (tdo_level w) (data w))
    | TMS => Some (MkWired (tck w) b (tdi w) (tdo_level w) (data w))
    | TDI => Some (MkWired (tck w) (tms w) b (tdo_level w) (data w))
    | _ => Some w
    end;
  pin_get _ w := tdo_level w;
  pin_configure _ _ w := (0, w) |}.

Definition jtag_emul_setup (b : list Z) (e : jtag_emul_data) : jtag_emul_data :=
  MkEmul [0; 0; 0] [0; 0; 0] [0; 0; 0] IDLE BR true 0 false 0 false 0 b.

Definition jtag_emul_axi_read32 (addr : Z) (e : jtag_emul_data) : Z * option Z :=
  let idx := Z.shiftr addr 2 in
  if len (buf e) <=? idx then (-22, None) else (0, aget (buf e) idx).

(** One clock pulse, pins aside. *)
Definition emul_clock (m d : bool) (e : jtag_emul_data) : option jtag_emul_data :=
  e ← on_tck_falling m d (set_tck_old false e);
  Some (set_state (next_state m (state e)) (u32 (tck_count e + 1)) e).

Lemma on_hold_dr_old hold e : tck_old (on_hold_dr hold e) = tck_old e.
Proof. unfold on_hold_dr. by repeat case_match. Qed.

Lemma on_tck_falling_old m d e e' : on_tck_falling m d e = Some e' -> tck_old e' = tck_old e.
Proof.
  unfold on_tck_falling, on_update_reg. intros E.
  destruct (state e), m; repeat (case_match || discriminate E || (destruct (aget _ _); cbn [mbind option_bind] in E) || (destruct (aset _ _ _); cbn [mbind option_bind] in E)); try done;
    injection E as <-; rewrite ?on_hold_dr_old; reflexivity.
Qed.

Lemma set_tck_old_same b e : tck_old e = b -> set_tck_old b e = e.
Proof. intros <-. by destruct e. Qed.

(** The device with TCK low, and the level of its TDO pin. *)
Definition emul_rest (m d : bool) (c : Z * jtag_emul_data) : wired := MkWired false m d c.1 (set_tck_old false c.2).

Lemma emul_pulse m d c :
  (w ← SET_TCK (emul_rest m d c); CLR_TCK w) = c' ← (e ← emul_clock m d c.2; Some (c.1, e)); Some (emul_rest m d c').
Proof.
  destruct c as [v e]. unfold SET_TCK, CLR_TCK, emul_rest, emul_clock. cbn [pin_set emul_port tms tdi tdo_level data fst snd].
  unfold gpio_emul_callback at 1. cbn [tck data set_tck_old tck_old Bool.eqb negb mbind option_bind tms tdi tdo_level].
  unfold gpio_emul_callback. cbn [tck data set_tck_old tck_old Bool.eqb negb mbind option_bind tms tdi tdo_level].
  change (set_tck_old false (set_tck_old true (set_tck_old false e))) with (set_tck_old false e).
  destruct (on_tck_falling m d (set_tck_old false e)) as [e'|] eqn:E; [|done]. cbn [mbind option_bind fst snd].
  apply on_tck_falling_old in E. rewrite set_tck_old_same; [done|exact E].
Qed.

#[export, refine] Instance emul_clocked : Clocked wired (Z * jtag_emul_data) := {|
  at_rest := emul_rest;
  clock m d c := e ← emul_clock m d c.2; Some (c.1, e);
  tdo c := negb (c.1 =? 0) |}.
Proof. all: try done. exact emul_pulse. Defined.
End Emul.

(** ** The TAP controller of IEEE 1149.1 *)

Module Tap.

Definition tap_next (tms : bool) (s : jtag_state) : jtag_state :=
  match s with
  | JTAG_RESET => if tms then JTAG_RESET else IDLE
  | IDLE => if tms then SCAN_DR else IDLE
  | SCAN_DR => if tms then SCAN_IR else CAPTURE_DR
  | SCAN_IR => if tms then JTAG_RESET else CAPTURE_IR
  | CAPTURE_DR | SHIFT_DR => if tms then EXIT1_DR else SHIFT_DR
  | CAPTURE_IR | SHIFT_IR => if tms then EXIT1_IR else SHIFT_IR
  | EXIT1_DR => if tms then UPDATE_DR else PAUSE_DR
  | EXIT1_IR => if tms then UPDATE_IR else PAUSE_IR
  | PAUSE_DR => if tms then EXIT2_DR else PAUSE_DR
  | PAUSE_IR => if tms then EXIT2_IR else PAUSE_IR
  | EXIT2_DR => if tms then UPDATE_DR else SHIFT_DR
  | EXIT2_IR => if tms then UPDATE_IR else SHIFT_IR
  | UPDATE_DR | UPDATE_IR => if tms then SCAN_DR else IDLE
  end.

(** The registers that were loaded in Update-IR and Update-DR, latest first. *)
Inductive scanned := ScanIR (bits : list bool) | ScanDR (bits : list bool).

(** [scan] is the register between TDI and TDO; [chip] is what Capture-IR
    ([true]) and Capture-DR ([false]) load into it, given the past. *)
Record tap := MkTap {
  tap_state : jtag_state;
  scan : list bool;
  past : list scanned;
  chip : list scanned -> bool -> list bool
}.

Definition tap_clock (tms tdi : bool) (t : tap) : tap :=
  let '(scan, past) :=
    match tap_state t with
    | CAPTURE_DR => (chip t (past t) false, past t)
    | CAPTURE_IR => (chip t (past t) true, past t)
    | SHIFT_DR | SHIFT_IR => (tail (scan t ++ [tdi]), past t)
    | UPDATE_DR => (scan t, ScanDR (scan t) :: past t)
    | UPDATE_IR => (scan t, ScanIR (scan t) :: past t)
    | _ => (scan t, past t)
    end in
  MkTap (tap_next tms (tap_state t)) scan past (chip t).

(** Pins; the controller acts on the rising edge of TCK. *)
Record pins := MkPins { p_tck : bool; p_tms : bool; p_tdi : bool; p_tap : tap }.

#[export] Instance tap_port : JtagPort pins := {|
  pin_set p b w :=
    Some match p with
    | TCK => MkPins b (p_tms w) (p_tdi w)
               (if b && negb (p_tck w) then tap_clock (p_tms w) (p_tdi w) (p_tap w) else p_tap w)
    | TMS => MkPins (p_tck w) b (p_tdi w) (p_tap w)
    | TDI => MkPins (p_tck w) (p_tms w) b (p_tap w)
    | _ => w
    end;
  pin_get _ w := Z.b2z (hd false (scan (p_tap w)));
  pin_configure _ _ w := (0, w) |}.

#[export, refine] Instance tap_clocked : Clocked pins tap := {|
  at_rest := MkPins false;
  clock m d t := Some (tap_clock m d t);
  tdo t := hd false (scan t) |}.
Proof.
  all: try done. intros m d t. unfold GET_TDO. cbn [pin_get tap_port p_tap]. by destruct (hd false (scan t)).
Defined.

Lemma tap_shift bits t :
  tap_state t = SHIFT_DR \/ tap_state t = SHIFT_IR -> scan t <> [] ->
  shift_in bits t = Some (take (length bits) (scan t ++ bits),
                          MkTap (tap_state t) (drop (length bits) (scan t ++ bits)) (past t) (chip t)).
Proof.
  revert t. induction bits as [|b bits IH]; intros t Hs Hne; cbn [shift_in].
  - rewrite app_nil_r. by destruct t.
  - cbn [clock tap_clocked mbind option_bind]. destruct t as [s [|x l] h c]; [done|]. cbn [tap_state scan past chip] in *.
    assert (Hc : tap_clock false b (MkTap s (x :: l) h c) = MkTap s (l ++ [b]) h c) by (by destruct Hs as [-> | ->]).
    rewrite Hc, IH by (done || by destruct l). cbn [mbind option_bind tap_state scan past chip tdo tap_clocked hd].
    rewrite <- app_assoc. reflexivity.
Qed.

Lemma drop_step {A} n (l : list A) b : (n < length l)%nat -> tail (drop n l ++ [b]) = drop (S n) (l ++ [b]).
Proof.
  revert n. induction l as [|a l IH]; intros n Hn; cbn [length] in Hn; [lia|].
  destruct n as [|n]; [done|]. cbn [drop app]. apply IH. lia.
Qed.

Lemma take_step n (l : list bool) b : (n < length l)%nat -> take n l ++ [hd false (drop n l)] = take (S n) (l ++ [b]).
Proof.
  revert n. induction l as [|a l IH]; intros n Hn; cbn [length] in Hn; [lia|].
  destruct n as [|n]; [done|]. cbn [drop take app]. f_equal. apply IH. lia.
Qed.

(** Five pulses with TMS high reset the controller from any state. *)
Lemma tap_reset t : exists t', clocks 5 true false t = Some t' /\ tap_state t' = JTAG_RESET.
Proof. eexists. split; [reflexivity|]. destruct t as [s l h c]. by destruct s. Qed.

Lemma tap_dr_scan count data idle capture m d t :
  tap_state t = SCAN_DR -> 0 < count <= 64 -> chip t (past t) false <> [] ->
  let stream := chip t (past t) false ++ low_bits (Z.to_nat count) data in
  let reg := drop (Z.to_nat count) stream in
  jtag_bitbang_xfer_dr count data idle capture (at_rest m d t) =
    Some (if capture then word_of (take (Z.to_nat count) stream) else 0,
          at_rest (negb idle) (Z.testbit data (count - 1))
            (MkTap (if idle then IDLE else SCAN_DR) reg (ScanDR reg :: past t) (chip t))).
Proof.
  intros Hs Hc Hne stream reg. subst reg stream. rewrite xfer_dr_scan by done. unfold scan_dr.
  destruct t as [s l h c]. cbn [tap_state past chip] in *. subst s.
  cbn [clock tap_clocked mbind option_bind tap_clock tap_state scan past chip tap_next].
  rewrite tap_shift by (cbn; auto). rewrite low_bits_length. cbn [tap_state scan past chip mbind option_bind].
  replace (Z.to_nat count) with (S (Z.to_nat (count - 1))) by lia. set (n := Z.to_nat (count - 1)).
  rewrite low_bits_snoc. replace (Z.of_nat n) with (count - 1) by (unfold n; lia).
  set (b := Z.testbit data (count - 1)). rewrite app_assoc. set (st := c h false ++ low_bits n data).
  assert (Hlen : (n < length st)%nat) by (unfold st; rewrite length_app, low_bits_length; destruct (c h false); [done|cbn; lia]).
  rewrite <- (take_step n st b), <- (drop_step n st b) by done.
  cbn [clock tap_clocked mbind option_bind tap_clock tap_state scan past chip tap_next tdo].
  destruct idle; cbn [negb tap_next tap_state scan past chip mbind option_bind]; reflexivity.
Qed.

Lemma tap_ir_scan count data m d t :
  tap_state t = IDLE -> 1 < count -> chip t (past t) true <> [] ->
  let reg := drop (Z.to_nat (count - 1)) (chip t (past t) true ++ tail (low_bits (Z.to_nat count) data)) in
  jtag_bitbang_update_ir count data (at_rest m d t) =
    Some (at_rest true (Z.testbit data (count - 1)) (MkTap SCAN_DR reg (ScanIR reg :: past t) (chip t))).
Proof.
  intros Hs Hc Hne reg. subst reg. rewrite update_ir_scan by lia. unfold scan_ir.
  destruct t as [s l h c]. cbn [tap_state past chip] in *. subst s.
  replace (Z.to_nat (count - 1)) with (S (Z.to_nat (count - 2))) by lia. set (n := Z.to_nat (count - 2)).
  replace (Z.to_nat count) with (S (S n)) by lia. rewrite (low_bits_snoc (S n)).
  replace (Z.of_nat (S n)) with (count - 1) by lia. set (b := Z.testbit data (count - 1)).
  rewrite low_bits_S. cbn [app tail]. set (bits := low_bits n (Z.shiftr data 1)).
  assert (Hn : length bits = n) by apply low_bits_length.
  cbn [clock tap_clocked mbind option_bind tap_clock tap_state scan past chip tap_next shift_in].
  rewrite tap_shift by (cbn; auto). cbn [tap_state scan past chip mbind option_bind]. rewrite Hn.
  rewrite app_assoc. set (st := c h true ++ bits).
  assert (Hlen : (n < length st)%nat) by (unfold st; rewrite length_app, Hn; destruct (c h true); [done|cbn; lia]).
  rewrite <- (drop_step n st b) by done. reflexivity.
Qed.

Lemma read_id_steps {W} `{JtagPort W} (w w1 w2 : W) id :
  jtag_bitbang_update_ir 24 6 w = Some w1 -> jtag_bitbang_xfer_dr 32 0 true true w1 = Some (id, w2) ->
  jtag_bitbang_read_id w = Some (u32 id, w2).
Proof.
  intros E1 E2. unfold jtag_bitbang_read_id, jtag_bitbang_capture_dr_idle. cbv zeta. rewrite E1.
  cbn [mbind option_bind]. rewrite E2. reflexivity.
Qed.

Lemma captured_ir cap : length cap = 24%nat -> nth 23 cap false = false ->
  drop (Z.to_nat (24 - 1)) (cap ++ tail (low_bits (Z.to_nat 24) 6)) = low_bits 24 6.
Proof.
  intros Hl Hlast. destruct (nth_split cap false (n := 23)) as (l1 & l2 & E' & L1); [lia|].
  rewrite E', length_app in Hl. cbn [length] in Hl. destruct l2; [|cbn [length] in Hl; lia]. rewrite E', Hlast.
  rewrite <- app_assoc, drop_app_length' by (rewrite L1; reflexivity). reflexivity.
Qed.

Lemma captured_id id rest : is_u32 id -> u32 (word_of (take (Z.to_nat 32) (low_bits 32 id ++ rest))) = id.
Proof.
  intros Hid. rewrite take_app_length' by (rewrite low_bits_length; reflexivity).
  rewrite word_of_low_bits by exact Hid. by apply wrap_small.
Qed.

Lemma tap_read_id id m d t :
  tap_state t = IDLE -> length (chip t (past t) true) = 24%nat -> nth 23 (chip t (past t) true) false = false ->
  is_u32 id -> chip t (ScanIR (low_bits 24 6) :: past t) false = low_bits 32 id ->
  exists m' d' t', jtag_bitbang_read_id (at_rest m d t) = Some (id, at_rest m' d' t') /\ tap_state t' = IDLE.
Proof.
  intros Hs Hl Hlast Hid Hchip.
  assert (Hne : chip t (past t) true <> []) by (intros E; rewrite E in Hl; discriminate).
  pose proof (tap_ir_scan 24 6 m d t Hs ltac:(lia) Hne) as E1. cbv zeta in E1. clear Hne.
  rewrite (captured_ir _ Hl Hlast) in E1.
  set (t1 := MkTap SCAN_DR (low_bits 24 6) (ScanIR (low_bits 24 6) :: past t) (chip t)) in *.
  assert (Hs1 : tap_state t1 = SCAN_DR) by reflexivity.
  assert (Hc1 : chip t1 (past t1) false = low_bits 32 id) by exact Hchip. clearbody t1.
  assert (Hne : chip t1 (past t1) false <> []) by (rewrite Hc1, low_bits_S; discriminate).
  pose proof (tap_dr_scan 32 0 true true true (Z.testbit 6 (24 - 1)) t1 Hs1 ltac:(lia) Hne) as E2. cbv zeta in E2. clear Hne.
  rewrite Hc1 in E2.
  pose proof (read_id_steps _ _ _ _ E1 E2) as E. rewrite captured_id in E by exact Hid.
  eexists _, _, _. split; [exact E|]. reflexivity.
Qed.

(** C16: the driver speaks the protocol of IEEE 1149.1.  From any state
    [jtag_bitbang_reset] leads to Run-Test/Idle.  A data scan of up to 64 bits
    started in Select-DR-Scan captures the register, shifts in exactly the given
    bits, lowest first, updates it, returns the bits shifted out as a word, and
    ends in Run-Test/Idle or back in Select-DR-Scan.  An instruction scan
    started in Run-Test/Idle ends in Select-DR-Scan, but its first bit is clocked
    in Capture-IR and never reaches the register: of [count] bits the upper
    [count - 1] are shifted, so bit 0 of a [count]-bit instruction is the
    highest bit that was captured; a chip whose 24-bit instruction register
    captures 0 there and then presents its 32-bit identifier is identified. *)
Theorem jtag_drives_tap m d t :
  (forall trst, exists t', jtag_bitbang_reset trst (at_rest m d t) = Some (at_rest false false t') /\ tap_state t' = IDLE) /\
  (forall count data idle capture,
     tap_state t = SCAN_DR -> 0 < count <= 64 -> chip t (past t) false <> [] ->
     let stream := chip t (past t) false ++ low_bits (Z.to_nat count) data in
     let reg := drop (Z.to_nat count) stream in
     jtag_bitbang_xfer_dr count data idle capture (at_rest m d t) =
       Some (if capture then word_of (take (Z.to_nat count) stream) else 0,
             at_rest (negb idle) (Z.testbit data (count - 1))
               (MkTap (if idle then IDLE else SCAN_DR) reg (ScanDR reg :: past t) (chip t)))) /\
  (forall count data,
     tap_state t = IDLE -> 1 < count -> chip t (past t) true <> [] ->
     let reg := drop (Z.to_nat (count - 1)) (chip t (past t) true ++ tail (low_bits (Z.to_nat count) data)) in
     jtag_bitbang_update_ir count data (at_rest m d t) =
       Some (at_rest true (Z.testbit data (count - 1)) (MkTap SCAN_DR reg (ScanIR reg :: past t) (chip t)))) /\
  (forall id,
     tap_state t = IDLE -> length (chip t (past t) true) = 24%nat -> nth 23 (chip t (past t) true) false = false ->
     is_u32 id -> chip t (ScanIR (low_bits 24 6) :: past t) false = low_bits 32 id ->
     exists m' d' t', jtag_bitbang_read_id (at_rest m d t) = Some (id, at_rest m' d' t') /\ tap_state t' = IDLE).
Proof.
  split; [|split; [|split]].
  - intros trst. rewrite reset_pulses. destruct (tap_reset t) as (t1 & -> & Hs). cbn [mbind option_bind clock tap_clocked].
    eexists. split; [reflexivity|]. unfold tap_clock. rewrite Hs. reflexivity.
  - intros. by apply tap_dr_scan.
  - intros. by apply tap_ir_scan.
  - intros. by apply tap_read_id.
Qed.

(** A chip with a 24-bit instruction register and the identifier 0x138A5. *)
Definition example_tap : tap :=
  MkTap IDLE [] [] (fun h ir => if ir : bool then true :: replicate 23 false
                                else match h with ScanIR _ :: _ => low_bits 32 0x138A5 | _ => [false] end).

Lemma jtag_drives_tap_witness :
  exists m' d' t', jtag_bitbang_read_id (at_rest false false example_tap) = Some (0x138A5, at_rest m' d' t') /\
    tap_state t' = IDLE.
Proof. apply (jtag_drives_tap false false example_tap); try reflexivity. split; [lia|reflexivity]. Defined.
End Tap.

(** ** AXI writes reach the emulator's buffer *)

Module EmulWrites.
Import Emul.

Definition wf (e : jtag_emul_data) : Prop :=
  length (shift_reg e) = 3%nat /\ length (shift_bits e) = 3%nat /\ length (hold_reg e) = 3%nat.

(** The part of the emulator that the data register's words act on. *)
Record axi := MkAxi { have_addr : bool; addr : Z; have_data : bool; last_data : Z; words : list Z }.
Definition axi_of (e : jtag_emul_data) : axi :=
  MkAxi (have_axi_addr_tdr e) (axi_addr_tdr e) (have_axi_data_tdr e) (axi_data_tdr e) (buf e).

Definition axi_step (hold : Z) (a : axi) : axi :=
  if u32 (hold - 1) =? ARC_AXI_ADDR_TDR then MkAxi true (addr a) (have_data a) (last_data a) (words a)
  else if have_addr a then MkAxi false hold (have_data a) (last_data a) (words a)
  else if u32 (hold - 1) =? ARC_AXI_DATA_TDR then MkAxi (have_addr a) (addr a) true (last_data a) (words a)
  else if have_data a then
    MkAxi (have_addr a) (addr a) false hold
      (if Z.shiftr (addr a) 2 <? len (words a) then <[Z.to_nat (Z.shiftr (addr a) 2) := hold]> (words a) else words a)
  else a.

Lemma on_hold_dr_axi hold e : axi_of (on_hold_dr hold e) = axi_step hold (axi_of e).
Proof. unfold on_hold_dr, axi_step. cbn [have_addr addr have_data last_data words axi_of]. by repeat case_match. Qed.

Lemma on_hold_dr_regs hold e :
  shift_reg (on_hold_dr hold e) = shift_reg e /\ shift_bits (on_hold_dr hold e) = shift_bits e /\
  hold_reg (on_hold_dr hold e) = hold_reg e /\ state (on_hold_dr hold e) = state e /\
  selected_reg (on_hold_dr hold e) = selected_reg e.
Proof. unfold on_hold_dr. by repeat case_match. Qed.

(** Bits pushed into a shift register. *)
Definition push (bits : list bool) (r : Z) : Z := foldl (fun r b => Z.lor (u32 (Z.shiftl r 1)) (Z.b2z b)) r bits.

Lemma push_testbit bits r i :
  0 <= i < 32 ->
  Z.testbit (push bits r) i =
    if i <? len bits then nth (length bits - 1 - Z.to_nat i) bits false else Z.testbit r (i - len bits).
Proof.
  unfold push. revert i. induction bits as [|b bits IH] using rev_ind; intros i Hi.
  - cbn [foldl length]. destruct (Z.ltb_spec i (Z.of_nat 0)); [lia|]. by rewrite Z.sub_0_r.
  - rewrite foldl_app. cbn [foldl]. rewrite length_app. cbn [length].
    rewrite Z.lor_spec, wrap_testbit, Z.shiftl_spec by lia. destruct (Z.ltb_spec i 32); [cbn [andb]|lia].
    destruct (Z.eq_dec i 0) as [->|Hne].
    + rewrite (Z.testbit_neg_r _ (0 - 1)) by lia. cbn [orb]. destruct (Z.ltb_spec 0 (Z.of_nat (length bits + 1))); [|lia].
      rewrite app_nth2 by (cbn; lia). replace (_ - _)%nat with 0%nat by (cbn; lia). by destruct b.
    + replace (Z.testbit (Z.b2z b) i) with false by (symmetry; destruct b; [apply Z.bits_above_log2; cbn; lia|apply Z.bits_0]).
      rewrite orb_false_r, IH by lia.
      destruct (Z.ltb_spec (i - 1) (len bits)), (Z.ltb_spec i (Z.of_nat (length bits + 1))); try lia.
      * rewrite app_nth1 by lia. f_equal. lia.
      * f_equal. lia.
Qed.

(** The word that reaches the hold register: the last 32 bits shifted in. *)
Lemma hold_word bits r :
  (1 <= length bits)%nat ->
  Z.shiftr (bitrev32 (push bits r)) (32 - Z.max 1 (Z.min (len bits) 32)) = word_of (drop (length bits - 32) bits).
Proof.
  intros Hl. set (n := Z.max 1 (Z.min (len bits) 32)). apply Z.bits_inj'. intros i Hi.
  replace (Z.testbit (word_of (drop (length bits - 32) bits)) i)
    with (nth (Z.to_nat i) (drop (length bits - 32) bits) false) by (rewrite <- word_of_testbit; f_equal; lia).
  rewrite nth_skipn. rewrite Z.shiftr_spec, bitrev32_spec by lia.
  destruct (Z.ltb_spec (i + (32 - n)) 32) as [Hn|Hn]; cbn [andb].
  - rewrite push_testbit by lia. destruct (Z.ltb_spec (32 - 1 - (i + (32 - n))) (len bits)); [|lia]. f_equal. lia.
  - rewrite nth_overflow by lia. done.
Qed.

Ltac emul_simpl :=
  unfold wf; cbn [set_state set_regs set_tck_old set_selected state selected_reg shift_reg shift_bits hold_reg].

(** A shift register selected in a shift state. *)
Record shifting (r n : Z) (e : jtag_emul_data) : Prop := {
  sh_wf : wf e;
  sh_state : state e = SHIFT_DR /\ selected_reg e = DR \/ state e = SHIFT_IR /\ selected_reg e = IR;
  sh_reg : aget (shift_reg e) (selected_reg e) = Some r;
  sh_bits : aget (shift_bits e) (selected_reg e) = Some n
}.

Lemma shift_step b r n v e :
  shifting r n e -> 0 <= n < 255 ->
  exists e', clock false b (v, e) = Some (v, e') /\ shifting (push [b] r) (n + 1) e' /\
    state e' = state e /\ selected_reg e' = selected_reg e /\ axi_of e' = axi_of e.
Proof.
  intros [(L1 & L2 & L3) Hs Hr Hn] Hrange. cbn [clock emul_clocked fst snd].
  assert (Hsel : 0 <= selected_reg e < 3) by (destruct Hs as [[_ ->]|[_ ->]]; unfold DR, IR; lia).
  unfold emul_clock, on_tck_falling. cbn [set_tck_old state selected_reg shift_reg shift_bits hold_reg].
  rewrite Hr, Hn. cbn [mbind option_bind]. rewrite (wrap_small 8 (n + 1)) by (unwrap; lia).
  assert (Hst : match state e with
                | SHIFT_DR | SHIFT_IR => True | _ => False end) by (by destruct Hs as [[-> _]|[-> _]]).
  destruct (state e) eqn:Es; try done; rewrite !aset_in by lia; cbn [mbind option_bind].
  all: eexists; split; [reflexivity|].
  all: cbn [set_state set_regs set_tck_old state selected_reg]; rewrite ?Es; cbn [next_state].
  all: split; [constructor; emul_simpl|repeat split].
  all: try exact Hs.
  all: try (split; [by rewrite length_insert|split; [by rewrite length_insert|exact L3]]).
  all: by rewrite aget_insert by lia.
Qed.

Lemma emul_shift bits r n v e :
  shifting r n e -> 0 <= n -> n + len bits <= 255 ->
  exists e', shift_in bits (v, e) = Some (replicate (length bits) (negb (v =? 0)), (v, e')) /\
    shifting (push bits r) (n + len bits) e' /\
    state e' = state e /\ selected_reg e' = selected_reg e /\ axi_of e' = axi_of e.
Proof.
  revert r n e. induction bits as [|b bits IH]; intros r n e Hs Hn Hl; cbn [shift_in length] in *.
  - exists e. split; [done|]. rewrite Z.add_0_r. done.
  - destruct (shift_step b r n v e Hs ltac:(lia)) as (e1 & -> & Hs1 & E1 & E2 & E3). cbn [mbind option_bind].
    destruct (IH (push [b] r) (n + 1) e1 Hs1 ltac:(lia) ltac:(lia)) as (e' & -> & Hs' & F1 & F2 & F3). cbn [mbind option_bind].
    exists e'. split; [reflexivity|]. split; [|repeat split; congruence].
    replace (n + Z.of_nat (S (length bits))) with (n + 1 + len bits) by lia. exact Hs'.
Qed.

(** Pulses outside the shift and update states. *)
Lemma clock_scan m d v e :
  wf e -> state e = IDLE \/ state e = SCAN_DR \/ state e = SCAN_IR ->
  exists e', clock m d (v, e) = Some (v, e') /\ wf e' /\ state e' = next_state m (state e) /\ axi_of e' = axi_of e /\
    selected_reg e' = match state e with SCAN_DR => DR | SCAN_IR => IR | _ => selected_reg e end.
Proof.
  intros Hwf Hs. cbn [clock emul_clocked fst snd]. unfold emul_clock, on_tck_falling. cbn [set_tck_old state].
  destruct Hs as [E|[E|E]]; rewrite E; cbn [mbind option_bind]; eexists; (split; [reflexivity|]);
    cbn [set_state set_selected set_tck_old state selected_reg]; rewrite ?E; repeat split; apply Hwf.
Qed.

Lemma clock_exit d v e :
  wf e -> match state e with SHIFT_DR | SHIFT_IR | EXIT1_DR | EXIT1_IR => True | _ => False end ->
  exists e', clock true d (v, e) = Some (v, e') /\ state e' = next_state true (state e) /\
    shift_reg e' = shift_reg e /\ shift_bits e' = shift_bits e /\ hold_reg e' = hold_reg e /\
    axi_of e' = axi_of e /\ selected_reg e' = selected_reg e.
Proof.
  intros Hwf Hs. cbn [clock emul_clocked fst snd]. unfold emul_clock, on_tck_falling. cbn [set_tck_old state].
  destruct (state e) eqn:E; try done; cbn [mbind option_bind]; eexists; (split; [reflexivity|]);
    cbn [set_state set_tck_old state]; rewrite ?E; repeat split.
Qed.

Lemma clock_capture d v e :
  wf e -> state e = CAPTURE_DR /\ selected_reg e = DR \/ state e = CAPTURE_IR /\ selected_reg e = IR ->
  exists e' r, clock false d (v, e) = Some (v, e') /\ shifting r 0 e' /\ axi_of e' = axi_of e /\
    selected_reg e' = selected_reg e /\ state e' = next_state false (state e).
Proof.
  intros (L1 & L2 & L3) Hs.
  assert (Hsel : 0 <= selected_reg e < 3) by (destruct Hs as [[_ ->]|[_ ->]]; unfold DR, IR; lia).
  destruct (aget_in (shift_reg e) (selected_reg e)) as (r & Er); [lia|].
  cbn [clock emul_clocked fst snd]. unfold emul_clock, on_tck_falling. cbn [set_tck_old state selected_reg shift_bits].
  assert (Hc : exists sb, aset (shift_bits e) (selected_reg e) 0 = Some sb /\ length sb = 3%nat /\
                 aget sb (selected_reg e) = Some 0).
  { rewrite aset_in by lia. eexists. split; [reflexivity|]. rewrite length_insert. split; [done|]. apply aget_insert. lia. }
  destruct Hc as (sb & -> & Lsb & Esb).
  destruct Hs as [[E Es]|[E Es]]; rewrite E; cbn [mbind option_bind]; eexists _, r; (split; [reflexivity|]).
  all: (split; [constructor|]); cbn [set_state set_regs set_tck_old state selected_reg shift_reg shift_bits hold_reg]; rewrite ?E.
  all: try exact Er. all: try exact Esb. all: try done.
  all: by (left; split; done) || by (right; split; done).
Qed.

(** Leaving Update-DR acts on the word in the hold register. *)
Lemma clock_update_dr m d v e bits r :
  wf e -> state e = UPDATE_DR -> selected_reg e = DR ->
  aget (shift_reg e) DR = Some (push bits r) -> aget (shift_bits e) DR = Some (len bits) -> (1 <= length bits)%nat ->
  exists e', clock m d (v, e) = Some (v, e') /\ wf e' /\ state e' = (if m then SCAN_DR else IDLE) /\
    axi_of e' = axi_step (word_of (drop (length bits - 32) bits)) (axi_of e).
Proof.
  intros (L1 & L2 & L3) Es Esel Er Eb Hl.
  cbn [clock emul_clocked fst snd]. unfold emul_clock, on_tck_falling. cbn [set_tck_old state].
  rewrite Es. unfold on_update_reg. cbn [set_tck_old selected_reg shift_bits shift_reg hold_reg].
  rewrite Esel, Er, Eb. rewrite Z.eqb_refl. cbn [mbind option_bind]. unfold DR, REG_BITS in *.
  rewrite !aset_in by lia. cbn [mbind option_bind]. rewrite hold_word by done.
  eexists. split; [reflexivity|].
  set (h := word_of _). set (e1 := set_regs _ _ _ _).
  destruct (on_hold_dr_regs h e1) as (H1 & H2 & H3 & H4 & _).
  split; [|split].
  - unfold wf, set_state. cbn [shift_reg shift_bits hold_reg]. rewrite H1, H2, H3. unfold e1, set_regs.
    cbn [shift_reg shift_bits hold_reg set_tck_old]. rewrite !length_insert. done.
  - unfold set_state. cbn [state]. rewrite H4. unfold e1, set_regs. cbn [state set_tck_old]. rewrite Es. by destruct m.
  - change (axi_of (set_state ?s ?n ?x)) with (axi_of x). rewrite on_hold_dr_axi. reflexivity.
Qed.

(** A data scan delivers its last 32 bits, the very last one excepted. *)
Lemma emul_dr_scan count data idle capture m d v e :
  wf e -> state e = SCAN_DR -> 2 <= count <= 64 ->
  exists e', jtag_bitbang_xfer_dr count data idle capture (at_rest m d (v, e)) =
      Some (if capture then word_of (replicate (Z.to_nat count) (negb (v =? 0))) else 0,
            at_rest (negb idle) (Z.testbit data (count - 1)) (v, e')) /\
    wf e' /\ state e' = (if idle then IDLE else SCAN_DR) /\
    axi_of e' = axi_step (word_of (drop (Z.to_nat (count - 33)) (low_bits (Z.to_nat (count - 1)) data))) (axi_of e).
Proof.
  intros Hwf Hs Hc. rewrite xfer_dr_scan by lia. unfold scan_dr.
  set (bits := low_bits (Z.to_nat (count - 1)) data). set (b := Z.testbit data (count - 1)).
  assert (Hlen : length bits = Z.to_nat (count - 1)) by apply low_bits_length.
  destruct (clock_scan false d v e Hwf ltac:(auto)) as (e1 & -> & W1 & S1 & A1 & R1). rewrite Hs in S1, R1. cbn [mbind option_bind].
  destruct (clock_capture d v e1 W1 ltac:(by left)) as (e2 & r & -> & Sh2 & A2 & R2 & S2). rewrite S1 in S2. cbn [mbind option_bind].
  destruct (emul_shift bits r 0 v e2 Sh2 ltac:(lia) ltac:(lia)) as (e3 & -> & Sh3 & S3 & R3 & A3). cbn [mbind option_bind].
  pose proof Sh3 as [W3 _ Sr3 Sb3]. rewrite S2 in S3. cbn [next_state] in S3.
  destruct (clock_exit b v e3 W3 ltac:(by rewrite S3)) as (e4 & -> & S4 & Q4 & B4 & H4 & A4 & R4). rewrite S3 in S4. cbn [mbind option_bind].
  assert (W4 : wf e4) by (unfold wf; by rewrite Q4, B4, H4).
  destruct (clock_exit b v e4 W4 ltac:(by rewrite S4)) as (e5 & -> & S5 & Q5 & B5 & H5 & A5 & R5). rewrite S4 in S5. cbn [mbind option_bind].
  assert (W5 : wf e5) by (unfold wf; by rewrite Q5, B5, H5).
  assert (Esel : selected_reg e5 = DR) by congruence.
  assert (Esel3 : selected_reg e3 = DR) by congruence. rewrite Esel3 in Sr3, Sb3.
  destruct (clock_update_dr (negb idle) b v e5 bits r W5 S5 Esel) as (e6 & -> & W6 & S6 & A6).
  { rewrite Q5, Q4. exact Sr3. }
  { rewrite B5, B4. exact Sb3. }
  { lia. }
  cbn [mbind option_bind]. exists e6. split; [|split; [exact W6|split; [by destruct idle|]]].
  - do 2 f_equal. destruct capture; [|done]. f_equal.
    change [tdo (v, e3)] with (replicate 1 (negb (v =? 0))). rewrite <- replicate_add. f_equal. lia.
  - rewrite A6. f_equal; [|congruence]. do 2 f_equal. lia.
Qed.

Lemma clock_update_ir d v e n :
  wf e -> state e = UPDATE_IR -> selected_reg e = IR -> aget (shift_bits e) IR = Some n -> 0 <= n <= 31 ->
  exists e', clock true d (v, e) = Some (v, e') /\ wf e' /\ state e' = SCAN_DR /\ axi_of e' = axi_of e.
Proof.
  intros (L1 & L2 & L3) Es Esel Eb Hn. destruct (aget_in (shift_reg e) IR) as (r & Er); [unfold IR; lia|].
  cbn [clock emul_clocked fst snd]. unfold emul_clock, on_tck_falling. cbn [set_tck_old state].
  rewrite Es. unfold on_update_reg. cbn [set_tck_old selected_reg shift_bits shift_reg hold_reg].
  rewrite Esel, Er, Eb. change (IR =? DR) with false. change (IR =? IR) with true. cbn [mbind option_bind].
  unfold IR, REG_BITS in *. destruct (Z.ltb_spec (32 - n - 1) 0); [lia|].
  rewrite !aset_in by lia. cbn [mbind option_bind]. eexists. split; [reflexivity|]. emul_simpl. rewrite Es.
  repeat split; try assumption. by rewrite length_insert.
Qed.

Lemma emul_ir_scan data m d v e :
  wf e -> state e = IDLE ->
  exists e', jtag_bitbang_update_ir 24 data (at_rest m d (v, e)) = Some (at_rest true (Z.testbit data 23) (v, e')) /\
    wf e' /\ state e' = SCAN_DR /\ axi_of e' = axi_of e.
Proof.
  intros Hwf Hs. rewrite update_ir_scan by lia. unfold scan_ir. change (Z.to_nat (24 - 1)) with 23%nat.
  change (24 - 1) with 23. set (b := Z.testbit data 23). rewrite low_bits_S.
  set (bits := low_bits 22 (Z.shiftr data 1)). assert (Hlen : length bits = 22%nat) by apply low_bits_length.
  destruct (clock_scan true d v e Hwf ltac:(auto)) as (e1 & -> & W1 & S1 & A1 & R1). rewrite Hs in S1. cbn [mbind option_bind].
  cbn [next_state] in S1.
  destruct (clock_scan true d v e1 W1 ltac:(auto)) as (e2 & -> & W2 & S2 & A2 & R2). rewrite S1 in S2. cbn [mbind option_bind].
  cbn [next_state] in S2.
  destruct (clock_scan false d v e2 W2 ltac:(auto)) as (e3 & -> & W3 & S3 & A3 & R3). rewrite S2 in S3, R3. cbn [mbind option_bind].
  cbn [shift_in].
  destruct (clock_capture (Z.testbit data 0) v e3 W3 ltac:(by right)) as (e4 & r & -> & Sh4 & A4 & R4 & S4). rewrite S3 in S4.
  cbn [mbind option_bind].
  destruct (emul_shift bits r 0 v e4 Sh4 ltac:(lia) ltac:(lia)) as (e5 & -> & Sh5 & S5 & R5 & A5). cbn [mbind option_bind].
  pose proof Sh5 as [W5 _ _ Sb5]. rewrite S4 in S5. cbn [next_state] in S5.
  destruct (clock_exit b v e5 W5 ltac:(by rewrite S5)) as (e6 & -> & S6 & Q6 & B6 & H6 & A6 & R6). rewrite S5 in S6. cbn [mbind option_bind].
  assert (W6 : wf e6) by (unfold wf; by rewrite Q6, B6, H6).
  destruct (clock_exit b v e6 W6 ltac:(by rewrite S6)) as (e7 & -> & S7 & Q7 & B7 & H7 & A7 & R7). rewrite S6 in S7. cbn [mbind option_bind].
  assert (W7 : wf e7) by (unfold wf; by rewrite Q7, B7, H7).
  assert (Esel5 : selected_reg e5 = IR) by congruence. rewrite Esel5 in Sb5.
  destruct (clock_update_ir b v e7 (0 + len bits) W7 S7 ltac:(congruence) ltac:(by rewrite B7, B6) ltac:(lia)) as (e8 & -> & W8 & S8 & A8).
  cbn [mbind option_bind]. exists e8. split; [reflexivity|]. split; [exact W8|]. split; [exact S8|]. congruence.
Qed.

(** A write of a data register: its selector, then its value. *)
Lemma emul_select tdr m d v e :
  wf e -> state e = SCAN_DR -> 0 <= tdr + 1 < 16 ->
  exists d' e', jtag_bitbang_update_dr TENSIX_SIBLEN_PLUS_1_OR_0 (tdr + 1) (at_rest m d (v, e)) =
      Some (at_rest true d' (v, e')) /\
    wf e' /\ state e' = SCAN_DR /\ axi_of e' = axi_step (tdr + 1) (axi_of e).
Proof.
  intros Hwf Hs Ht. unfold jtag_bitbang_update_dr. change TENSIX_SIBLEN_PLUS_1_OR_0 with 5.
  destruct (emul_dr_scan 5 (tdr + 1) false false m d v e Hwf Hs ltac:(lia)) as (e' & -> & W' & S' & A').
  eexists _, e'. split; [reflexivity|]. split; [exact W'|]. split; [exact S'|]. rewrite A'. f_equal.
  change (drop _ ?l) with l. apply word_of_low_bits. exact Ht.
Qed.

Lemma sib_word x : is_u32 x -> word_of (drop 4 (low_bits 36 (SIBSHIFTUP x))) = x.
Proof.
  intros Hx. rewrite <- (word_of_low_bits 32 x) at 2 by exact Hx. f_equal.
  unfold low_bits. rewrite skipn_map. change (drop 4 (seq 0 36)) with (map (Nat.add 4) (seq 0 32)). rewrite map_map.
  apply map_ext_in. intros i Hi%in_seq. unfold SIBSHIFTUP, TENSIX_SM_SIBLEN.
  rewrite wrap_testbit, Z.shiftl_spec by lia. destruct (Z.ltb_spec (Z.of_nat (4 + i)) 64); [|lia]. cbn [andb]. f_equal. lia.
Qed.

Lemma emul_value value idle capture m d v e :
  wf e -> state e = SCAN_DR -> is_u32 value ->
  exists d' e', jtag_bitbang_xfer_dr TENSIX_TDRLEN_SIBLEN_PLUS_1 (SIBSHIFTUP value) idle capture (at_rest m d (v, e)) =
      Some (if capture then word_of (replicate 37 (negb (v =? 0))) else 0, at_rest (negb idle) d' (v, e')) /\
    wf e' /\ state e' = (if idle then IDLE else SCAN_DR) /\ axi_of e' = axi_step value (axi_of e).
Proof.
  intros Hwf Hs Hv. change TENSIX_TDRLEN_SIBLEN_PLUS_1 with 37.
  destruct (emul_dr_scan 37 (SIBSHIFTUP value) idle capture m d v e Hwf Hs ltac:(lia)) as (e' & -> & W' & S' & A').
  eexists _, e'. split; [reflexivity|]. split; [exact W'|]. split; [exact S'|]. rewrite A'. f_equal. by apply sib_word.
Qed.

Lemma emul_wr_tdr tdr value m d v e :
  wf e -> state e = SCAN_DR -> 0 <= tdr + 1 < 16 -> is_u32 value ->
  exists d' e', jtag_wr_tensix_sm_rtap_tdr tdr value (at_rest m d (v, e)) = Some (at_rest true d' (v, e')) /\
    wf e' /\ state e' = SCAN_DR /\ axi_of e' = axi_step value (axi_step (tdr + 1) (axi_of e)).
Proof.
  intros Hwf Hs Ht Hv. unfold jtag_wr_tensix_sm_rtap_tdr.
  destruct (emul_select tdr m d v e Hwf Hs Ht) as (d1 & e1 & -> & W1 & S1 & A1). cbn [mbind option_bind].
  unfold jtag_bitbang_update_dr.
  destruct (emul_value value false false true d1 v e1 W1 S1 Hv) as (d2 & e2 & -> & W2 & S2 & A2). cbn [mbind option_bind].
  exists d2, e2. split; [reflexivity|]. split; [exact W2|]. split; [exact S2|]. by rewrite A2, A1.
Qed.

Lemma emul_rd_tdr_idle tdr m d v e :
  wf e -> state e = SCAN_DR -> 0 <= tdr + 1 < 16 ->
  exists d' e', jtag_rd_tensix_sm_rtap_tdr_idle tdr (at_rest m d (v, e)) =
      Some (if v =? 0 then 0 else 2 ^ 32 - 1, at_rest false d' (v, e')) /\
    wf e' /\ state e' = IDLE /\ axi_of e' = axi_step 0 (axi_step (tdr + 1) (axi_of e)).
Proof.
  intros Hwf Hs Ht. unfold jtag_rd_tensix_sm_rtap_tdr_idle.
  destruct (emul_select tdr m d v e Hwf Hs Ht) as (d1 & e1 & -> & W1 & S1 & A1). cbn [mbind option_bind].
  unfold jtag_bitbang_capture_dr_idle. change 0 with (SIBSHIFTUP 0) at 1.
  destruct (emul_value 0 true true true d1 v e1 W1 S1 ltac:(unwrap; lia)) as (d2 & e2 & -> & W2 & S2 & A2). cbn [mbind option_bind].
  exists d2, e2. split; [by destruct (v =? 0)|]. split; [exact W2|]. split; [exact S2|]. by rewrite A2, A1.
Qed.

(** The emulator between two operations of the driver. *)
Definition ready (e : jtag_emul_data) : Prop :=
  wf e /\ state e = IDLE /\ have_axi_addr_tdr e = false /\ have_axi_data_tdr e = false.

(** The words that the emulator takes for a register selector. *)
Definition is_selector (value : Z) : bool := (value =? ARC_AXI_ADDR_TDR + 1) || (value =? ARC_AXI_DATA_TDR + 1).

Lemma selector_pred h tdr : is_u32 h -> 0 <= tdr < 15 -> (u32 (h - 1) =? tdr) = (h =? tdr + 1).
Proof. intros Hh Ht. apply eq_bool_prop_intro. rewrite !Is_true_true, !Z.eqb_eq. word_lia. Qed.

(** What a write's words do to an emulator that expects neither address nor data. *)
Lemma axi_write_steps a addr value :
  have_addr a = false -> have_data a = false -> is_u32 addr -> is_u32 value ->
  addr <> ARC_AXI_ADDR_TDR + 1 -> is_selector value = false ->
  axi_step 0 (axi_step 5 (axi_step AXI_CNTL_WRITE (axi_step 5
    (axi_step value (axi_step 4 (axi_step addr (axi_step 3 a))))))) =
  MkAxi false addr false value
    (if Z.shiftr addr 2 <? len (words a) then <[Z.to_nat (Z.shiftr addr 2) := value]> (words a) else words a).
Proof.
  intros Ha Hd Hua Huv Hne Hsel. destruct a as [ha ad hd dd b]. cbn [have_addr have_data words] in *. subst ha hd.
  apply orb_false_iff in Hsel as [S1 S2].
  assert (E3 : axi_step 3 (MkAxi false ad false dd b) = MkAxi true ad false dd b) by reflexivity. rewrite E3. clear E3.
  assert (Ea : axi_step addr (MkAxi true ad false dd b) = MkAxi false addr false dd b).
  { unfold axi_step. rewrite selector_pred by (done || unfold ARC_AXI_ADDR_TDR; lia).
    destruct (Z.eqb_spec addr (ARC_AXI_ADDR_TDR + 1)); [done|reflexivity]. }
  rewrite Ea. clear Ea.
  assert (E4 : axi_step 4 (MkAxi false addr false dd b) = MkAxi false addr true dd b) by reflexivity. rewrite E4. clear E4.
  assert (Ev : axi_step value (MkAxi false addr true dd b) =
    MkAxi false addr false value (if Z.shiftr addr 2 <? len b then <[Z.to_nat (Z.shiftr addr 2) := value]> b else b)).
  { unfold axi_step. rewrite !selector_pred by (done || unfold ARC_AXI_ADDR_TDR, ARC_AXI_DATA_TDR; lia). by rewrite S1, S2. }
  rewrite Ev. reflexivity.
Qed.

Lemma emul_axiwrite addr value m d v e :
  ready e -> is_u32 addr -> is_u32 value -> addr <> ARC_AXI_ADDR_TDR + 1 -> is_selector value = false ->
  exists d' e', jtag_axiwrite addr value (at_rest m d (v, e)) = Some (if v =? 0 then 0 else -1, at_rest false d' (v, e')) /\
    ready e' /\ buf e' = if Z.shiftr addr 2 <? len (buf e) then <[Z.to_nat (Z.shiftr addr 2) := value]> (buf e) else buf e.
Proof.
  intros (Hwf & Hs & Ha & Hd) Hua Huv Hne Hsel. unfold jtag_axiwrite, jtag_setup_access.
  destruct (emul_ir_scan (jtag_instr TENSIX_SM_RTAP) m d v e Hwf Hs) as (e0 & -> & W0 & S0 & A0). cbn [mbind option_bind].
  destruct (emul_wr_tdr ARC_AXI_ADDR_TDR addr true (Z.testbit (jtag_instr TENSIX_SM_RTAP) 23) v e0 W0 S0 ltac:(by vm_compute; split) Hua) as (d1 & e1 & -> & W1 & S1 & A1).
  cbn [mbind option_bind].
  destruct (emul_wr_tdr ARC_AXI_DATA_TDR value true d1 v e1 W1 S1 ltac:(by vm_compute; split) Huv) as (d2 & e2 & -> & W2 & S2 & A2).
  cbn [mbind option_bind].
  destruct (emul_wr_tdr ARC_AXI_CONTROL_STATUS_TDR AXI_CNTL_WRITE true d2 v e2 W2 S2 ltac:(by vm_compute; split)
              ltac:(by vm_compute; split)) as (d3 & e3 & -> & W3 & S3 & A3).
  cbn [mbind option_bind].
  destruct (emul_rd_tdr_idle ARC_AXI_CONTROL_STATUS_TDR true d3 v e3 W3 S3 ltac:(by vm_compute; split)) as (d4 & e4 & -> & W4 & S4 & A4).
  cbn [mbind option_bind]. exists d4, e4. split; [by destruct (v =? 0)|].
  rewrite A3, A2, A1, A0 in A4.
  change (ARC_AXI_ADDR_TDR + 1) with 3 in A4. change (ARC_AXI_DATA_TDR + 1) with 4 in A4.
  change (ARC_AXI_CONTROL_STATUS_TDR + 1) with 5 in A4.
  rewrite (axi_write_steps (axi_of e) addr value Ha Hd Hua Huv Hne Hsel) in A4.
  split; [|exact (f_equal words A4)].
  split; [exact W4|]. split; [exact S4|]. split; [exact (f_equal have_addr A4)|exact (f_equal have_data A4)].
Qed.

Lemma blockwrite_loop ws addr k i result m d v e :
  ready e -> 0 <= k -> 0 <= i -> addr = 4 * k -> k + i + len ws <= len (buf e) -> 4 * len (buf e) <= 2 ^ 32 ->
  Forall (fun w => is_u32 w /\ is_selector w = false) ws ->
  exists m' d' e', block_loop addr i result ws (at_rest m d (v, e)) =
      Some (if (v =? 0) || Nat.eqb (length ws) 0 then result else -1, at_rest m' d' (v, e')) /\
    ready e' /\
    buf e' = take (Z.to_nat (k + i)) (buf e) ++ ws ++ drop (Z.to_nat (k + i) + length ws) (buf e).
Proof.
  revert i result m d e. induction ws as [|w ws IH]; intros i result m d e Hr Hk Hi Ha Hlen Hbuf HF; cbn [block_loop length] in *.
  - exists m, d, e. split; [by rewrite orb_true_r|]. split; [exact Hr|].
    by rewrite Nat.add_0_r, app_nil_l, take_drop.
  - apply Forall_cons in HF as [[Hu Hsel] HF].
    rewrite (wrap_small 32 (addr + 4 * i)) by (unwrap; lia).
    destruct (emul_axiwrite (addr + 4 * i) w m d v e Hr) as (d1 & e1 & -> & Hr1 & Hb1);
      [unwrap; lia|exact Hu|unfold ARC_AXI_ADDR_TDR; lia|exact Hsel|].
    cbn [mbind option_bind].
    assert (Hidx : Z.shiftr (addr + 4 * i) 2 = k + i) by (rewrite Z.shiftr_div_pow2 by lia; change (2 ^ 2) with 4; Z.to_euclidean_division_equations; lia).
    rewrite Hidx in Hb1. destruct (Z.ltb_spec (k + i) (len (buf e))); [|lia].
    assert (Hl1 : length (buf e1) = length (buf e)) by (rewrite Hb1; apply length_insert).
    destruct (IH (i + 1) (Z.lor result (if v =? 0 then 0 else -1)) false d1 e1 Hr1) as (m' & d' & e' & -> & Hr' & Hb'); try lia; [exact HF|].
    exists m', d', e'. split; [|split; [exact Hr'|]].
    + do 2 f_equal. destruct (v =? 0); cbn [orb]; [by rewrite Z.lor_0_r|].
      rewrite Z.lor_m1_r. by destruct (Nat.eqb (length ws) 0).
    + rewrite Hb', Hb1. replace (Z.to_nat (k + (i + 1))) with (S (Z.to_nat (k + i))) by lia.
      rewrite (take_S_r _ _ w) by (apply list_lookup_insert_eq; lia).
      rewrite take_insert_ge, drop_insert_lt by lia.
      rewrite <- app_assoc. cbn [app]. do 3 f_equal. f_equal. lia.
Qed.

(** Through the pins, the bit-bang driver and the emulator's TAP agree on AXI
    writes.  A block write of words to a word-aligned address within the buffer,
    none of them 3 or 4, leaves exactly these words there and nothing else
    changed, [jtag_emul_axi_read32] reads them back, and the emulator is ready
    for the next operation.  The driver reports success exactly when TDO is low
    (or there is nothing to write). *)
Theorem jtag_blockwrite_reaches_emulator addr ws m d v e :
  ready e -> 0 <= addr -> addr mod 4 = 0 -> addr / 4 + len ws <= len (buf e) -> 4 * len (buf e) <= 2 ^ 32 ->
  Forall (fun w => is_u32 w /\ is_selector w = false) ws ->
  exists m' d' e',
    jtag_axi_blockwrite addr ws (at_rest m d (v, e)) =
      Some (if (v =? 0) || Nat.eqb (length ws) 0 then 0 else -1, at_rest m' d' (v, e')) /\
    ready e' /\
    buf e' = take (Z.to_nat (addr / 4)) (buf e) ++ ws ++ drop (Z.to_nat (addr / 4) + length ws) (buf e) /\
    (forall i w, ws !! i = Some w -> jtag_emul_axi_read32 (addr + 4 * Z.of_nat i) e' = (0, Some w)).
Proof.
  intros Hr Ha Hmod Hlen Hbuf HF.
  assert (Hk : addr = 4 * (addr / 4)) by (Z.to_euclidean_division_equations; lia).
  destruct (blockwrite_loop ws addr (addr / 4) 0 0 m d v e Hr) as (m' & d' & e' & E & Hr' & Hb'); try lia; [exact HF|].
  rewrite Z.add_0_r in Hb'. exists m', d', e'. split; [exact E|]. split; [exact Hr'|]. split; [exact Hb'|].
  intros i w Hw. unfold jtag_emul_axi_read32.
  assert (Hidx : Z.shiftr (addr + 4 * Z.of_nat i) 2 = addr / 4 + Z.of_nat i)
    by (rewrite Z.shiftr_div_pow2 by lia; change (2 ^ 2) with 4; Z.to_euclidean_division_equations; lia).
  rewrite Hidx. pose proof (lookup_lt_Some _ _ _ Hw) as Hi.
  assert (Hl : length (buf e') = length (buf e)).
  { rewrite Hb', !length_app, length_take, length_drop. lia. }
  destruct (Z.leb_spec (len (buf e')) (addr / 4 + Z.of_nat i)); [lia|]. f_equal.
  rewrite aget_nat by lia. rewrite Hb', lookup_app_r by (rewrite length_take; lia).
  rewrite length_take, lookup_app_l by lia. rewrite <- Hw. f_equal. lia.
Qed.

(** Eight words, four written from address 8 on. *)
Lemma jtag_blockwrite_reaches_emulator_witness :
  let e0 := jtag_emul_setup (replicate 8 0) (jtag_emul_setup [] (MkEmul [] [] [] IDLE 0 true 0 false 0 false 0 [])) in
  exists m' d' e',
    jtag_axi_blockwrite 8 [0xDEADBEEF; 1; 2; 0xFFFFFFFF] (at_rest false false (0, e0)) = Some (0, at_rest m' d' (0, e')) /\
    buf e' = [0; 0; 0xDEADBEEF; 1; 2; 0xFFFFFFFF; 0; 0].
Proof.
  cbv zeta. set (e0 := jtag_emul_setup _ _).
  destruct (jtag_blockwrite_reaches_emulator 8 [0xDEADBEEF; 1; 2; 0xFFFFFFFF] false false 0 e0)
    as (m' & d' & e' & E & _ & Hb & _).
  - by vm_compute.
  - lia.
  - reflexivity.
  - vm_compute. discriminate.
  - vm_compute. discriminate.
  - repeat constructor; vm_compute; (reflexivity || discriminate).
  - exists m', d', e'. split; [exact E|exact Hb].
Defined.


(** After [jtag_emul_setup], whatever the pins show, [jtag_bitbang_reset] makes the
    emulator ready. *)
Lemma emul_reset_ready trst t0 m0 d0 v b e :
  exists e', jtag_bitbang_reset trst (MkWired t0 m0 d0 v (jtag_emul_setup b e)) = Some (at_rest false false (v, e')) /\
    ready e' /\ buf e' = b.
Proof.
  assert (E : exists e', jtag_bitbang_reset trst (MkWired t0 m0 d0 v (jtag_emul_setup b e)) = Some (MkWired false false false v e') /\
            tck_old e' = false /\ ready e' /\ buf e' = b).
  { destruct trst, t0, m0, d0; vm_compute; eexists; (split; [reflexivity|]); repeat split. }
  destruct E as (e' & E & Ho & H). exists e'. split; [|exact H]. rewrite E. cbn [at_rest emul_clocked]. unfold emul_rest.
  cbn [fst snd]. by rewrite set_tck_old_same.
Qed.

(** A word 3 is taken for the address register's selector: it is lost, and the
    control word that follows lands in word 1. *)
Example emul_word_3_lost :
  (w ← jtag_bitbang_reset true (MkWired false false false 0 (jtag_emul_setup [7; 7; 7] (MkEmul [] [] [] IDLE 0 true 0 false 0 false 0 [])));
   '(r, w) ← jtag_axiwrite 0 3 w; Some (r, buf (data w))) = Some (0, [7; AXI_CNTL_WRITE; 7]).
Proof. vm_compute. reflexivity. Qed.
End EmulWrites.
