(* ===== verification/Msgqueue.v ===== *)
(** * Host message queues ([lib/tenstorrent/fw_common/msgqueue.c])

    Four request/response rings shared by the host and the firmware.  A
    [message_queue] is the C structure; the ring pointers run modulo twice the
    capacity.  The firmware side ([process_message_queue] and the interrupt
    handlers) is modelled whole; message handlers are arguments. *)

From S2P Require Import Prelude Ring.

(** ** Data *)

Definition NUM_MSG_QUEUES : Z := 4.
Definition MSG_QUEUE_SIZE : Z := 4.
Definition MSG_QUEUE_POINTER_WRAP : Z := 2 * MSG_QUEUE_SIZE.
Definition REQUEST_MSG_LEN : Z := 8.
Definition CONFIG_TT_MSGQUEUE_NUM_MSG_CODES : Z := 200.
Definition MSG_ERROR_REPLY : Z := 0xff.
Definition MESSAGE_QUEUE_STATUS_SCRATCH_ONLY : Z := 0xfe.

Definition TT_SMC_MSG_REPORT_SCRATCH_ONLY : Z := 0x16.
Definition TT_SMC_MSG_TEST : Z := 0x90.
Definition TT_SMC_MSG_SET_LAST_SERIAL : Z := 0xbe.

(** A message is its array of eight 32-bit words. *)
Abbreviation request := (list Z).
Abbreviation response := (list Z).

Record message_queue_header := MkHeader {
  request_queue_wptr : Z;
  response_queue_rptr : Z;
  unused_1 : Z;
  unused_2 : Z;
  request_queue_rptr : Z;
  response_queue_wptr : Z;
  last_serial : Z;
  unused_3 : Z
}.

Record message_queue := MkQueue {
  header : message_queue_header;
  request_queue : list request;
  response_queue : list response
}.

Definition zero_header : message_queue_header := MkHeader 0 0 0 0 0 0 0 0.
Definition zero_message : list Z := replicate 8 0.

Definition set_request_wptr (v : Z) (q : message_queue) : message_queue :=
  let h := header q in
  MkQueue (MkHeader v (response_queue_rptr h) (unused_1 h) (unused_2 h)
             (request_queue_rptr h) (response_queue_wptr h) (last_serial h) (unused_3 h))
          (request_queue q) (response_queue q).
Definition set_response_rptr (v : Z) (q : message_queue) : message_queue :=
  let h := header q in
  MkQueue (MkHeader (request_queue_wptr h) v (unused_1 h) (unused_2 h)
             (request_queue_rptr h) (response_queue_wptr h) (last_serial h) (unused_3 h))
          (request_queue q) (response_queue q).
Definition set_request_rptr (v : Z) (q : message_queue) : message_queue :=
  let h := header q in
  MkQueue (MkHeader (request_queue_wptr h) (response_queue_rptr h) (unused_1 h) (unused_2 h)
             v (response_queue_wptr h) (last_serial h) (unused_3 h))
          (request_queue q) (response_queue q).
Definition set_response_wptr (v : Z) (q : message_queue) : message_queue :=
  let h := header q in
  MkQueue (MkHeader (request_queue_wptr h) (response_queue_rptr h) (unused_1 h) (unused_2 h)
             (request_queue_rptr h) v (last_serial h) (unused_3 h))
          (request_queue q) (response_queue q).
Definition set_last_serial (v : Z) (q : message_queue) : message_queue :=
  let h := header q in
  MkQueue (MkHeader (request_queue_wptr h) (response_queue_rptr h) (unused_1 h) (unused_2 h)
             (request_queue_rptr h) (response_queue_wptr h) v (unused_3 h))
          (request_queue q) (response_queue q).
Definition set_requests (l : list request) (q : message_queue) : message_queue :=
  MkQueue (header q) l (response_queue q).
Definition set_responses (l : list response) (q : message_queue) : message_queue :=
  MkQueue (header q) (request_queue q) l.

(** [request->command_code] is the first byte of the message. *)
Definition command_code (r : request) : option Z := w ← aget r 0; Some (u8 w).

(** ** The ring operations

    Each returns the C status and the new queues.  A message pointer may be
    NULL ([None]); [None] as the whole result is a memory fault. *)

Definition request_entry (q : message_queue) (ptr : Z) : option request :=
  aget (request_queue q) (ptr mod MSG_QUEUE_SIZE).
Definition response_entry (q : message_queue) (ptr : Z) : option response :=
  aget (response_queue q) (ptr mod MSG_QUEUE_SIZE).

(** [p += 1; p %= MSG_QUEUE_POINTER_WRAP] on a [uint32_t]. *)
Definition bump (p : Z) : Z := u32 (p + 1) mod MSG_QUEUE_POINTER_WRAP.

Definition msgqueue_request_push (mqs : list message_queue) (id : Z) (req : option request)
    : option (Z * list message_queue) :=
  if NUM_MSG_QUEUES <=? id then Some (-1, mqs) else
  match req with
  | None => Some (-1, mqs)
  | Some r =>
      q ← aget mqs id;
      rq ← aset (request_queue q) (request_queue_wptr (header q) mod MSG_QUEUE_SIZE) r;
      mqs ← aset mqs id (set_request_wptr (bump (request_queue_wptr (header q))) (set_requests rq q));
      Some (0, mqs)
  end.

(** The pops take whether the out pointer is non-NULL and return the message. *)
Definition msgqueue_request_pop (mqs : list message_queue) (id : Z) (out : bool)
    : option (Z * option request * list message_queue) :=
  if NUM_MSG_QUEUES <=? id then Some (-1, None, mqs) else
  if negb out then Some (-1, None, mqs) else
  q ← aget mqs id;
  r ← request_entry q (request_queue_rptr (header q));
  mqs ← aset mqs id (set_request_rptr (bump (request_queue_rptr (header q))) q);
  Some (0, Some r, mqs).

Definition msgqueue_response_push (mqs : list message_queue) (id : Z) (rsp : option response)
    : option (Z * list message_queue) :=
  if NUM_MSG_QUEUES <=? id then Some (-1, mqs) else
  match rsp with
  | None => Some (-1, mqs)
  | Some r =>
      q ← aget mqs id;
      rq ← aset (response_queue q) (response_queue_wptr (header q) mod MSG_QUEUE_SIZE) r;
      mqs ← aset mqs id (set_response_wptr (bump (response_queue_wptr (header q))) (set_responses rq q));
      Some (0, mqs)
  end.

Definition msgqueue_response_pop (mqs : list message_queue) (id : Z) (out : bool)
    : option (Z * option response * list message_queue) :=
  if NUM_MSG_QUEUES <=? id then Some (-1, None, mqs) else
  if negb out then Some (-1, None, mqs) else
  q ← aget mqs id;
  r ← response_entry q (response_queue_rptr (header q));
  mqs ← aset mqs id (set_response_rptr (bump (response_queue_rptr (header q))) q);
  Some (0, Some r, mqs).

(** ** Processing *)

(** The guard of the processing loop; the last test of the source repeats
    [request_rptr] where [response_rptr] is meant, and so does this one. *)
Definition start_next_message (q : message_queue) : option (Z * Z) :=
  let request_wptr := request_queue_wptr (header q) in
  let request_rptr := request_queue_rptr (header q) in
  if request_wptr =? request_rptr then None else
  let response_wptr := response_queue_wptr (header q) in
  let response_rptr := response_queue_rptr (header q) in
  if u32 (response_wptr - response_rptr) mod MSG_QUEUE_POINTER_WRAP =? MSG_QUEUE_SIZE then None else
  if (MSG_QUEUE_POINTER_WRAP <=? request_wptr) || (MSG_QUEUE_POINTER_WRAP <=? request_rptr)
     || (MSG_QUEUE_POINTER_WRAP <=? response_wptr) || (MSG_QUEUE_POINTER_WRAP <=? request_rptr)
  then None
  else Some (request_rptr, response_wptr).

Definition command_writes_serial (r : request) : option bool :=
  c ← command_code r; Some (c =? TT_SMC_MSG_SET_LAST_SERIAL).

Definition advance_serial (q : message_queue) (r : request) : option message_queue :=
  b ← command_writes_serial r;
  Some (if negb b then set_last_serial (u32 (last_serial (header q) + 1)) q else q).

Section processing.
(** [W]: whatever state the message handlers act on. *)
Context {W : Type}.

(** A handler reads the request and the zeroed response, and returns its exit
    code with the response it filled in. *)
Definition handler := request -> response -> W -> Z * response * W.
Implicit Types (hs : list (option handler)) (w : W).

Definition process_l2_message_queue hs (req : request) (rsp : response) w
    : option (response * W) :=
  msg_code ← command_code req;
  let error_reply := rsp ← aset rsp 0 MSG_ERROR_REPLY; Some (rsp, w) in
  if CONFIG_TT_MSGQUEUE_NUM_MSG_CODES <=? msg_code then error_reply else
  h ← aget hs msg_code;
  match h with
  | None => error_reply
  | Some h =>
      let '(exit_code, rsp, w) := h req rsp w in
      d0 ← aget rsp 0;
      rsp ← aset rsp 0 (Z.lor d0 exit_code);
      Some (rsp, w)
  end.

Definition handle_set_last_serial (q : message_queue) (req : request) : option message_queue :=
  s ← aget req 1; Some (set_last_serial s q).

Definition handle_test (q : message_queue) (req : request) (rsp : response) : option response :=
  test_value ← aget req 1;
  rsp ← aset rsp 0 0;
  rsp ← aset rsp 1 (u32 (test_value + 1));
  aset rsp 2 (u32 (last_serial (header q) + 1)).

Definition report_scratch_only_message (rsp : response) : option response :=
  aset rsp 0 MESSAGE_QUEUE_STATUS_SCRATCH_ONLY.

Definition process_queued_message hs (q : message_queue) (req : request) (rsp : response) w
    : option (message_queue * response * W) :=
  c ← command_code req;
  if c =? TT_SMC_MSG_SET_LAST_SERIAL then
    q ← handle_set_last_serial q req; Some (q, rsp, w)
  else if c =? TT_SMC_MSG_TEST then
    rsp ← handle_test q req rsp; Some (q, rsp, w)
  else if c =? TT_SMC_MSG_REPORT_SCRATCH_ONLY then
    rsp ← report_scratch_only_message rsp; Some (q, rsp, w)
  else
    '(rsp, w) ← process_l2_message_queue hs req rsp w; Some (q, rsp, w).

(** The body of the [while] of [process_message_queue].  [queue] is the
    pointer [&message_queues[id]]: it is read afresh after every call. *)
Definition process_message hs (mqs : list message_queue) (id : Z) w
    : option (list message_queue * W) :=
  '(_, r, mqs) ← msgqueue_request_pop mqs id true;
  let req := default zero_message r in
  q ← aget mqs id;
  '(q, rsp, w) ← process_queued_message hs q req zero_message w;
  mqs ← aset mqs id q;
  '(_, mqs) ← msgqueue_response_push mqs id (Some rsp);
  q ← aget mqs id;
  q ← advance_serial q req;
  mqs ← aset mqs id q;
  Some (mqs, w).

(** [None] is a fault or an exhausted bound; [loop_fuel] suffices. *)
Fixpoint process_message_queue (fuel : nat) hs (mqs : list message_queue) (id : Z) w
    : option (list message_queue * W) :=
  q ← aget mqs id;
  match start_next_message q with
  | None => Some (mqs, w)
  | Some _ =>
      match fuel with
      | O => None
      | S fuel =>
          '(mqs, w) ← process_message hs mqs id w;
          process_message_queue fuel hs mqs id w
      end
  end.

Definition loop_fuel : nat := 8.

(** ** The whole component: queues, handler table, post codes, queue info *)

Record msgq_state := MkMsgq {
  message_queues : list message_queue;
  message_handlers : list (option handler);
  message_queue_info : list Z;
  post_codes : list Z;        (** values written to the post code register, newest first *)
  info_reg : Z;               (** [STATUS_MSG_Q_INFO_REG_ADDR] *)
  world : W
}.

Definition POST_CODE_PREFIX : Z := 0xc0de.
Definition POST_CODE_SRC_CMFW : Z := 0.
Definition POST_CODE_ARC_MSG_HANDLE_START : Z := 0x30.
Definition POST_CODE_ARG_MSG_QUEUE_START : Z := 0x31.
Definition POST_CODE_ARC_MSG_HANDLE_DONE : Z := 0x3f.

Definition SetPostCode (fw_id post_code : Z) (s : msgq_state) : msgq_state :=
  MkMsgq (message_queues s) (message_handlers s) (message_queue_info s)
    (Z.lor (Z.lor (Z.shiftl POST_CODE_PREFIX 16) (Z.shiftl fw_id 14)) (Z.land post_code 0x3fff)
       :: post_codes s)
    (info_reg s) (world s).

(** One turn of its loop over the queues. *)
Definition process_queue_turn (i : Z) (s : msgq_state) : option msgq_state :=
  let s := SetPostCode POST_CODE_SRC_CMFW (POST_CODE_ARG_MSG_QUEUE_START + i) s in
  '(mqs, w) ← process_message_queue loop_fuel (message_handlers s) (message_queues s) i (world s);
  Some (MkMsgq mqs (message_handlers s) (message_queue_info s) (post_codes s) (info_reg s) w).

Definition process_message_queues (s : msgq_state) : option msgq_state :=
  s ← for_loop (Z.to_nat NUM_MSG_QUEUES) 0 process_queue_turn
        (SetPostCode POST_CODE_SRC_CMFW POST_CODE_ARC_MSG_HANDLE_START s);
  Some (SetPostCode POST_CODE_SRC_CMFW POST_CODE_ARC_MSG_HANDLE_DONE s).

Definition msgqueue_register_handler (msg_code : Z) (h : option handler) (s : msgq_state)
    : option msgq_state :=
  if CONFIG_TT_MSGQUEUE_NUM_MSG_CODES <=? msg_code then Some s else
  hs ← aset (message_handlers s) msg_code h;
  Some (MkMsgq (message_queues s) hs (message_queue_info s) (post_codes s) (info_reg s) (world s)).

(** [prepare_msg_queue]; the addresses the linker gives are arguments. *)
Definition prepare_msg_queue (queues_addr info_addr : Z) (s : msgq_state) : option msgq_state :=
  info ← aset (message_queue_info s) 0 (u32 queues_addr);
  info ← aset info 1 (Z.lor MSG_QUEUE_SIZE (Z.shiftl NUM_MSG_QUEUES 8));
  info ← aset info 2 0;
  info ← aset info 3 0;
  mqs ← for_loop (Z.to_nat NUM_MSG_QUEUES) 0 (fun i mqs =>
          q ← aget mqs i;
          aset mqs i (MkQueue zero_header (request_queue q) (response_queue q))) (message_queues s);
  Some (MkMsgq mqs (message_handlers s) info (post_codes s) (u32 info_addr) (world s)).

(** [register_interrupt_handlers]: the iterable section of registrations. *)
Fixpoint register_interrupt_handlers (items : list (Z * handler)) (s : msgq_state) : option msgq_state :=
  match items with
  | [] => Some s
  | (msg_type, h) :: items =>
      s ← msgqueue_register_handler msg_type (Some h) s; register_interrupt_handlers items s
  end.
End processing.
Arguments handler W : clear implicits.
Arguments msgq_state W : clear implicits.

(** ** Abstraction: a queue is two bounded FIFOs and a serial number *)

Definition request_count (q : message_queue) : Z :=
  (request_queue_wptr (header q) - request_queue_rptr (header q)) mod MSG_QUEUE_POINTER_WRAP.
Definition response_count (q : message_queue) : Z :=
  (response_queue_wptr (header q) - response_queue_rptr (header q)) mod MSG_QUEUE_POINTER_WRAP.

Definition pending (q : message_queue) : list request :=
  ring_list MSG_QUEUE_SIZE (request_queue q) (request_queue_rptr (header q)) (request_count q).
Definition responses (q : message_queue) : list response :=
  ring_list MSG_QUEUE_SIZE (response_queue q) (response_queue_rptr (header q)) (response_count q).

Definition is_message (m : list Z) : Prop := length m = 8%nat.

(** What C's types give: array sizes. *)
Record queue_shape (q : message_queue) : Prop := {
  shape_requests : len (request_queue q) = MSG_QUEUE_SIZE;
  shape_responses : len (response_queue q) = MSG_QUEUE_SIZE;
  shape_request_msgs : Forall is_message (request_queue q)
}.

(** What the protocol maintains: pointers in range, at most four entries. *)
Record queue_ok (q : message_queue) : Prop := {
  ok_shape : queue_shape q;
  ok_req_w : 0 <= request_queue_wptr (header q) < MSG_QUEUE_POINTER_WRAP;
  ok_req_r : 0 <= request_queue_rptr (header q) < MSG_QUEUE_POINTER_WRAP;
  ok_rsp_w : 0 <= response_queue_wptr (header q) < MSG_QUEUE_POINTER_WRAP;
  ok_rsp_r : 0 <= response_queue_rptr (header q) < MSG_QUEUE_POINTER_WRAP;
  ok_req_n : request_count q <= MSG_QUEUE_SIZE;
  ok_rsp_n : response_count q <= MSG_QUEUE_SIZE
}.

Definition queues_shape (mqs : list message_queue) : Prop :=
  len mqs = NUM_MSG_QUEUES /\ Forall queue_shape mqs.

Ltac mq_unfold :=
  unfold request_count, response_count, bump in *;
  unfold MSG_QUEUE_POINTER_WRAP, MSG_QUEUE_SIZE, NUM_MSG_QUEUES in *; cbn [header request_queue response_queue
    request_queue_wptr response_queue_rptr request_queue_rptr response_queue_wptr last_serial
    set_request_wptr set_response_rptr set_request_rptr set_response_wptr set_last_serial
    set_requests set_responses] in *.
Ltac mq_lia := mq_unfold; word_lia.

Section service.
Context {W : Type}.
Implicit Types (hs : list (option (handler W))) (w : W).

(** A handler keeps the size of the response. *)
Definition handlers_ok hs : Prop :=
  len hs = CONFIG_TT_MSGQUEUE_NUM_MSG_CODES /\
  Forall (fun o => forall h, o = Some h -> forall req rsp w,
    is_message rsp -> is_message (h req rsp w).1.2) hs.

(** *** Specification: the service one request gets *)
Definition serve hs (req : request) (serial : Z) w : option (response * Z * W) :=
  c ← command_code req;
  arg ← aget req 1;
  if c =? TT_SMC_MSG_SET_LAST_SERIAL then Some (zero_message, arg, w) else
  if c =? TT_SMC_MSG_TEST then
    Some ([0; u32 (arg + 1); u32 (serial + 1); 0; 0; 0; 0; 0], u32 (serial + 1), w) else
  if c =? TT_SMC_MSG_REPORT_SCRATCH_ONLY then
    Some ([MESSAGE_QUEUE_STATUS_SCRATCH_ONLY; 0; 0; 0; 0; 0; 0; 0], u32 (serial + 1), w) else
  '(rsp, w) ← process_l2_message_queue hs req zero_message w;
  Some (rsp, u32 (serial + 1), w).

(** Requests are served in order, the serial and the state threaded. *)
Fixpoint serve_all hs (reqs : list request) (serial : Z) w : option (list response * Z * W) :=
  match reqs with
  | [] => Some ([], serial, w)
  | r :: reqs =>
      '(rsp, serial, w) ← serve hs r serial w;
      '(rsps, serial, w) ← serve_all hs reqs serial w;
      Some (rsp :: rsps, serial, w)
  end.

Lemma is_message_get (m : list Z) i : is_message m -> 0 <= i < 8 -> exists x, aget m i = Some x.
Proof. intros Hm Hi. apply aget_in. rewrite Hm. lia. Qed.

Lemma l2_total hs req w :
  handlers_ok hs -> is_message req ->
  exists rsp w', process_l2_message_queue hs req zero_message w = Some (rsp, w').
Proof.
  intros [Hn Hhs] Hreq. unfold process_l2_message_queue, command_code.
  destruct (is_message_get req 0) as [x Hx]; [done|lia|]. rewrite Hx. simpl.
  assert (is_u8 (u8 x)) by auto with fw.
  case_match eqn:E; bool_cases; [by eexists _, _|].
  destruct (aget_in hs (u8 x)) as [o Ho]; [unwrap; lia|].
  rewrite Ho. simpl. destruct o as [h|]; [|by eexists _, _].
  pose proof (aget_Forall _ _ _ _ Hhs Ho h eq_refl req zero_message w eq_refl) as Hm.
  destruct (h req zero_message w) as [[ec rsp] w']. simpl in *.
  destruct (is_message_get rsp 0) as [d0 ->]; [done|lia|]. simpl.
  rewrite aset_in by (rewrite Hm; lia). simpl. eauto.
Qed.

Lemma serve_total hs req serial w :
  handlers_ok hs -> is_message req -> exists r, serve hs req serial w = Some r.
Proof.
  intros Hhs Hreq. unfold serve, command_code.
  destruct (is_message_get req 0) as [x Hx]; [done|lia|].
  destruct (is_message_get req 1) as [y Hy]; [done|lia|].
  destruct (l2_total hs req w Hhs Hreq) as (rsp & w' & Hl2).
  rewrite Hx, Hy. simpl. rewrite Hl2. simpl.
  repeat case_match; eauto.
Qed.

(** The dispatcher and the serial bookkeeping around it implement [serve]. *)
Lemma process_queued_message_serve hs q req w rsp s w' :
  serve hs req (last_serial (header q)) w = Some (rsp, s, w') ->
  exists q2, process_queued_message hs q req zero_message w = Some (q2, rsp, w') /\
    q2 = set_last_serial (last_serial (header q2)) q /\
    (forall q3, last_serial (header q3) = last_serial (header q2) ->
       advance_serial q3 req = Some (set_last_serial s q3)).
Proof.
  unfold serve, process_queued_message, advance_serial, command_writes_serial.
  unfold handle_set_last_serial, handle_test, report_scratch_only_message.
  destruct (command_code req) as [c|]; simpl; [|done].
  destruct (aget req 1) as [arg|]; simpl; [|done].
  assert (Hid : q = set_last_serial (last_serial (header q)) q) by (by destruct q as [[] ? ?]).
  destruct (c =? TT_SMC_MSG_SET_LAST_SERIAL) eqn:E1; simpl.
  { intros [= <- <- <-]. eexists. split_and!; [done|done|].
    intros [[] ? ?]; simpl; intros ->. done. }
  destruct (c =? TT_SMC_MSG_TEST) eqn:E2; simpl.
  { intros [= <- <- <-]. exists q. split_and!; [done|done|].
    intros q3 ->. done. }
  destruct (c =? TT_SMC_MSG_REPORT_SCRATCH_ONLY) eqn:E3; simpl.
  { intros [= <- <- <-]. exists q. split_and!; [done|done|].
    intros q3 ->. done. }
  destruct (process_l2_message_queue hs req zero_message w) as [[r1 w1]|]; simpl; [|done].
  intros [= <- <- <-]. exists q. split_and!; [done|done|]. intros q3 ->. done.
Qed.

(** The queue after one message, in closed form. *)
Definition after_message (q : message_queue) (slots : list response) (s : Z) : message_queue :=
  set_last_serial s
    (set_response_wptr (bump (response_queue_wptr (header q)))
      (set_responses slots
        (set_request_rptr (bump (request_queue_rptr (header q))) q))).

Lemma process_message_eq hs mqs id w q req slots rsp s w' :
  0 <= id < NUM_MSG_QUEUES -> len mqs = NUM_MSG_QUEUES -> aget mqs id = Some q ->
  request_entry q (request_queue_rptr (header q)) = Some req ->
  serve hs req (last_serial (header q)) w = Some (rsp, s, w') ->
  aset (response_queue q) (response_queue_wptr (header q) mod MSG_QUEUE_SIZE) rsp = Some slots ->
  process_message hs mqs id w = Some (<[Z.to_nat id := after_message q slots s]> mqs, w').
Proof.
  intros Hid Hlen Hq Hr Hs Hslots.
  assert (Hin : 0 <= id < len mqs) by lia.
  unfold process_message, msgqueue_request_pop.
  destruct (Z.leb_spec NUM_MSG_QUEUES id); [lia|]. simpl.
  rewrite Hq. simpl. rewrite Hr. simpl. rewrite aset_in by done. simpl.
  rewrite aget_insert by done. simpl.
  destruct (process_queued_message_serve hs
    (set_request_rptr (bump (request_queue_rptr (header q))) q) req w rsp s w') as (q2 & -> & Hq2 & Hadv); [done|].
  simpl. rewrite aset_insert by done. simpl. unfold msgqueue_response_push.
  destruct (Z.leb_spec NUM_MSG_QUEUES id); [lia|].
  rewrite aget_insert by done. simpl.
  rewrite Hq2 at 1 2. cbn [set_last_serial set_request_rptr header response_queue response_queue_wptr].
  rewrite Hslots. simpl. rewrite aset_insert by done. simpl.
  rewrite aget_insert by done. simpl. rewrite Hadv by done. simpl.
  rewrite aset_insert by done. simpl. by rewrite Hq2.
Qed.
End service.

(** ** One message, seen through the abstraction *)

Lemma count_mod8 a b : u32 (a - b) mod MSG_QUEUE_POINTER_WRAP = (a - b) mod MSG_QUEUE_POINTER_WRAP.
Proof. mq_lia. Qed.

(** The guard lets a message through exactly when one is pending and its
    response has a slot. *)
Lemma start_next_message_ok q :
  queue_ok q ->
  start_next_message q =
    if (0 <? request_count q) && (response_count q <? MSG_QUEUE_SIZE)
    then Some (request_queue_rptr (header q), response_queue_wptr (header q)) else None.
Proof.
  intros [_ ? ? ? ? ? ?]. unfold start_next_message. rewrite count_mod8.
  destruct q as [[rw sr u1 u2 rr sw ls u3] rq sq]. mq_unfold.
  repeat case_match; bool_cases; try done; exfalso;
    repeat match goal with
    | H : _ && _ = false |- _ => apply andb_false_iff in H as [H|H]
    | H : _ || _ = true |- _ => apply orb_true_iff in H as [H|H]
    end; bool_cases; word_lia.
Qed.

(** In any state the guard implies both request pointers are in range. *)
Lemma start_next_message_range q p :
  0 <= request_queue_wptr (header q) -> 0 <= request_queue_rptr (header q) ->
  start_next_message q = Some p ->
  0 <= request_queue_rptr (header q) < MSG_QUEUE_POINTER_WRAP /\
  0 <= request_queue_wptr (header q) < MSG_QUEUE_POINTER_WRAP /\ 0 < request_count q.
Proof.
  intros H1 H2. unfold start_next_message. destruct q as [[rw sr u1 u2 rr sw ls u3] rq sq]. mq_unfold.
  repeat case_match; bool_cases; try done. intros _. word_lia.
Qed.

Lemma ring_index p c n : 0 <= p < 8 -> c = (p + n) mod 8 -> (p + n) mod 4 = c mod 4.
Proof. intros. word_lia. Qed.

Lemma bump_index p : 0 <= p < MSG_QUEUE_POINTER_WRAP -> (p + 1) mod MSG_QUEUE_SIZE = bump p mod MSG_QUEUE_SIZE.
Proof. intros. mq_lia. Qed.

Lemma pending_cons q :
  queue_shape q -> 0 <= request_queue_rptr (header q) < MSG_QUEUE_POINTER_WRAP -> 0 < request_count q ->
  exists req, request_entry q (request_queue_rptr (header q)) = Some req /\ is_message req /\
    pending q = req :: ring_list MSG_QUEUE_SIZE (request_queue q)
                         (bump (request_queue_rptr (header q))) (request_count q - 1).
Proof.
  intros [Hrq _ Hm] Hr Hc.
  destruct (ring_list_tail MSG_QUEUE_SIZE (request_queue q) (request_queue_rptr (header q))
    (request_count q)) as (req & Hreq & Hl); [done|done|done|].
  exists req. split; [done|]. split; [by eapply aget_Forall|].
  unfold pending. rewrite Hl. f_equal. apply ring_list_cong; [done|done|].
  by apply bump_index.
Qed.

Section one_message.
Context (q : message_queue) (slots : list response) (rsp : response) (s : Z).
Hypothesis Hq : queue_ok q.
Hypothesis Hpend : 0 < request_count q.
Hypothesis Hroom : response_count q < MSG_QUEUE_SIZE.
Hypothesis Hslots :
  aset (response_queue q) (response_queue_wptr (header q) mod MSG_QUEUE_SIZE) rsp = Some slots.

Lemma after_message_counts :
  request_count (after_message q slots s) = request_count q - 1 /\
  response_count (after_message q slots s) = response_count q + 1.
Proof.
  destruct Hq as [_ ? ? ? ? ? ?]. unfold after_message. clear Hslots Hq.
  destruct q as [[rw sr u1 u2 rr sw ls u3] rq sq]. mq_lia.
Qed.

Lemma after_message_ok : queue_ok (after_message q slots s).
Proof.
  destruct after_message_counts as [Hc1 Hc2]. destruct Hq as [[Hs1 Hs2 Hs3] ? ? ? ? ? ?].
  apply aset_length in Hslots.
  constructor; [constructor| | | | | |]; try lia; unfold after_message;
    cbn [header request_queue response_queue request_queue_wptr response_queue_rptr
         request_queue_rptr response_queue_wptr set_last_serial set_response_wptr
         set_responses set_request_rptr]; try done; try lia; mq_lia.
Qed.

Lemma after_message_pending : pending q = default [] (head (pending q) ≫= fun r => Some [r]) ++ pending (after_message q slots s).
Proof.
  destruct after_message_counts as [Hc1 _]. destruct Hq as [Hsh ? Hr ? ? ? ?].
  destruct (pending_cons q Hsh Hr Hpend) as (req & _ & _ & Hp).
  unfold pending at 3. rewrite Hc1. rewrite Hp. done.
Qed.

Lemma after_message_responses : responses (after_message q slots s) = responses q ++ [rsp].
Proof.
  destruct after_message_counts as [_ Hc2]. destruct Hq as [[Hs1 Hs2 Hs3] ? ? ? ? ? ?].
  unfold responses. rewrite Hc2. unfold after_message at 1 2.
  cbn [header response_queue response_queue_rptr set_last_serial set_response_wptr
       set_responses set_request_rptr].
  apply ring_list_push; [done|done| |].
  { split; [|done]. apply Z.mod_pos_bound. done. }
  rewrite <- Hslots. f_equal. clear Hslots Hc2. mq_unfold.
  apply ring_index; [lia|]. word_lia.
Qed.
End one_message.

Section correctness.
Context {W : Type} (hs : list (option (handler W))).
Hypothesis Hhs : handlers_ok hs.

(** A pending message with room for its response: the step it makes. *)
Lemma process_message_step mqs id w q :
  0 <= id < NUM_MSG_QUEUES -> len mqs = NUM_MSG_QUEUES -> aget mqs id = Some q ->
  queue_shape q -> 0 <= request_queue_rptr (header q) < MSG_QUEUE_POINTER_WRAP -> 0 < request_count q ->
  exists req rsp s w' slots,
    pending q = req :: ring_list MSG_QUEUE_SIZE (request_queue q)
                         (bump (request_queue_rptr (header q))) (request_count q - 1) /\
    serve hs req (last_serial (header q)) w = Some (rsp, s, w') /\
    aset (response_queue q) (response_queue_wptr (header q) mod MSG_QUEUE_SIZE) rsp = Some slots /\
    process_message hs mqs id w = Some (<[Z.to_nat id := after_message q slots s]> mqs, w').
Proof.
  intros Hid Hlen Hq Hsh Hr Hc.
  destruct (pending_cons q Hsh Hr Hc) as (req & Hreq & Hmsg & Hp).
  destruct (serve_total hs req (last_serial (header q)) w Hhs Hmsg) as [[[rsp s] w'] Hs].
  destruct (ring_aset MSG_QUEUE_SIZE (response_queue q) ltac:(done) (shape_responses q Hsh)
    (response_queue_wptr (header q)) rsp) as [slots Hslots].
  exists req, rsp, s, w', slots. split_and!; [done..|]. by eapply process_message_eq.
Qed.

Lemma after_message_shape q slots rsp s :
  queue_shape q ->
  aset (response_queue q) (response_queue_wptr (header q) mod MSG_QUEUE_SIZE) rsp = Some slots ->
  queue_shape (after_message q slots s).
Proof.
  intros [H1 H2 H3] Hs%aset_length. constructor; [done| |done]. simpl. by rewrite Hs.
Qed.

(** The number of messages a pass over the queue serves. *)
Definition servable (q : message_queue) : Z :=
  Z.min (request_count q) (MSG_QUEUE_SIZE - response_count q).

Lemma servable_pos q : queue_ok q ->
  (0 <? request_count q) && (response_count q <? MSG_QUEUE_SIZE) = (0 <? servable q).
Proof.
  intros _. unfold servable.
  destruct (Z.ltb_spec 0 (request_count q)), (Z.ltb_spec (response_count q) MSG_QUEUE_SIZE),
    (Z.ltb_spec 0 (Z.min (request_count q) (MSG_QUEUE_SIZE - response_count q))); simpl; done || lia.
Qed.

Lemma process_message_queue_spec fuel mqs id w q :
  0 <= id < NUM_MSG_QUEUES -> len mqs = NUM_MSG_QUEUES -> aget mqs id = Some q -> queue_ok q ->
  servable q <= Z.of_nat fuel ->
  exists q' w' rsps,
    process_message_queue fuel hs mqs id w = Some (<[Z.to_nat id := q']> mqs, w') /\
    queue_ok q' /\
    serve_all hs (take (Z.to_nat (servable q)) (pending q)) (last_serial (header q)) w
      = Some (rsps, last_serial (header q'), w') /\
    pending q' = drop (Z.to_nat (servable q)) (pending q) /\
    responses q' = responses q ++ rsps /\
    servable q' <= 0.
Proof.
  revert mqs w q. induction fuel as [|fuel IH]; intros mqs w q Hid Hlen Hq Hok Hf.
  all: assert (Hin : 0 <= id < len mqs) by lia.
  all: assert (Hself : <[Z.to_nat id := q]> mqs = mqs)
    by (apply list_insert_id; by rewrite aget_nat in Hq by lia).
  all: simpl; rewrite Hq; simpl; rewrite start_next_message_ok, servable_pos by done.
  all: destruct (Z.ltb_spec 0 (servable q)); simpl.
  1: lia.
  all: try solve [exists q, w, []; rewrite Hself; replace (Z.to_nat (servable q)) with 0%nat by lia;
    rewrite app_nil_r; simpl; split_and!; done || lia].
  assert (0 < request_count q) by (unfold servable in *; lia).
  assert (response_count q < MSG_QUEUE_SIZE) by (unfold servable in *; lia).
  destruct (process_message_step mqs id w q Hid Hlen Hq (ok_shape q Hok) (ok_req_r q Hok))
    as (req & rsp & s & w1 & slots & Hp & Hs & Hslots & ->); [done|]. simpl.
  pose proof (after_message_counts q slots s Hok ltac:(done) ltac:(done)) as [Hc1 Hc2].
  assert (Hsv : servable (after_message q slots s) = servable q - 1) by (unfold servable; lia).
  destruct (IH (<[Z.to_nat id:=after_message q slots s]> mqs) w1 (after_message q slots s))
    as (q' & w' & rsps & Hrun & Hok' & Hall & Hpend & Hrsp & Hend).
  - done.
  - by rewrite length_insert.
  - by apply aget_insert.
  - by eapply after_message_ok.
  - lia.
  - exists q', w', (rsp :: rsps). rewrite Hrun, list_insert_insert_eq.
    pose proof (after_message_pending q slots s Hok ltac:(done) ltac:(done)) as Hpq.
    rewrite Hp in Hpq at 2. simpl in Hpq. rewrite Hsv in Hall, Hpend.
    replace (Z.to_nat (servable q)) with (S (Z.to_nat (servable q - 1))) by lia.
    rewrite Hpq. simpl. rewrite Hs. simpl.
    change (last_serial (header (after_message q slots s))) with s in Hall.
    rewrite Hall, Hpend, Hrsp. simpl.
    rewrite (after_message_responses q slots rsp s) by done. by rewrite <- app_assoc.
Qed.
End correctness.

(** ** Interrupt handlers

    The MSI catcher is a FIFO that faults when read empty (as the driver's
    comment says), the work queue a flag: submitting pending work is a no-op. *)

Record irq_state := MkIrq {
  arc_misc_cntl : Z;
  msi_fifo : list Z;
  work_submitted : bool;
  boot_status0 : Z
}.

Definition k_work_submit (s : irq_state) : irq_state :=
  MkIrq (arc_misc_cntl s) (msi_fifo s) true (boot_status0 s).

Definition clear_msg_irq (s : irq_state) : irq_state :=
  MkIrq (bits_set 16 4 0 (arc_misc_cntl s)) (msi_fifo s) (work_submitted s) (boot_status0 s).

Definition msgqueue_interrupt_handler (s : irq_state) : irq_state := k_work_submit (clear_msg_irq s).

Definition msi_catcher_nonempty (s : irq_state) : bool :=
  match msi_fifo s with [] => false | _ => true end.

Definition msi_catcher_pop (s : irq_state) : option (Z * irq_state) :=
  match msi_fifo s with
  | [] => None
  | d :: l => Some (d, MkIrq (arc_misc_cntl s) l (work_submitted s) (boot_status0 s))
  end.

Definition msi_catcher_flush (s : irq_state) : irq_state :=
  MkIrq (arc_misc_cntl s) [] (work_submitted s) (boot_status0 s).

(** The draining loop; the fuel bounds the entries read. *)
Fixpoint msi_drain (fuel : nat) (msi_for_msgqueue : bool) (s : irq_state) : option (bool * irq_state) :=
  if msi_catcher_nonempty s then
    match fuel with
    | O => None
    | S fuel =>
        '(msi_data, s) ← msi_catcher_pop s;
        msi_drain fuel (if msi_data =? 0 then true else msi_for_msgqueue) s
    end
  else Some (msi_for_msgqueue, s).

Definition msgqueue_msi_interrupt_handler (fuel : nat) (s : irq_state) : option irq_state :=
  '(msi_for_msgqueue, s) ← msi_drain fuel false s;
  Some (if msi_for_msgqueue : bool then k_work_submit s else s).

Definition msgqueue_msi_overflow_handler (s : irq_state) : irq_state :=
  k_work_submit (msi_catcher_flush s).

Definition init_msgqueue_irqs (s : irq_state) : irq_state :=
  MkIrq (arc_misc_cntl s) (msi_fifo s) (work_submitted s) (bits_set 0 1 1 (boot_status0 s)).

Lemma msi_drain_eq fuel b s :
  (length (msi_fifo s) <= fuel)%nat ->
  msi_drain fuel b s = Some (b || existsb (fun d => d =? 0) (msi_fifo s), msi_catcher_flush s).
Proof.
  revert b s. induction fuel as [|fuel IH]; intros b [c fifo wk bs] Hf; simpl in *.
  - destruct fifo; [|simpl in *; lia]. simpl. by rewrite orb_false_r.
  - destruct fifo as [|d fifo]; [simpl; by rewrite orb_false_r|].
    cbn [msi_catcher_nonempty msi_fifo msi_catcher_pop mbind option_bind].
    rewrite IH by (simpl in *; lia). cbn [existsb msi_fifo].
    by destruct b, (d =? 0).
Qed.

(** Interrupt side.  With at least as many iterations allowed as the FIFO
    holds, the MSI handler never reads the FIFO empty, drains it completely and
    submits the queue work exactly when one of the messages was 0; the doorbell
    interrupt clears its trigger field [irq0_trig] and no other field of
    ARC_MISC_CNTL (here the neighbours [dbus_clkdis] and [self_reset]) and
    submits the work. *)
Theorem interrupt_handlers_correct s :
  msgqueue_msi_interrupt_handler (length (msi_fifo s)) s =
    Some (MkIrq (arc_misc_cntl s) []
      (existsb (fun d => d =? 0) (msi_fifo s) || work_submitted s) (boot_status0 s)) /\
  bits_get 16 4 (arc_misc_cntl (msgqueue_interrupt_handler s)) = 0 /\
  bits_get 15 1 (arc_misc_cntl (msgqueue_interrupt_handler s)) = bits_get 15 1 (arc_misc_cntl s) /\
  bits_get 20 12 (arc_misc_cntl (msgqueue_interrupt_handler s)) = bits_get 20 12 (arc_misc_cntl s) /\
  work_submitted (msgqueue_interrupt_handler s) = true /\
  msi_fifo (msgqueue_msi_overflow_handler s) = [] /\
  bits_get 0 1 (boot_status0 (init_msgqueue_irqs s)) = 1.
Proof.
  unfold msgqueue_msi_interrupt_handler. rewrite msi_drain_eq by done. simpl.
  rewrite !bits_get_set_same, !bits_get_set_other by lia.
  split_and!; try done. by destruct (existsb _ _).
Qed.

Section main_theorems.
Context {W : Type}.

(** C2: Refinement to the FIFO service.  On a well-formed queue one pass of
    [process_message_queue] serves, in order, the pending requests that have
    room for a response: it computes what [serve_all] specifies for them
    (responses, serial number, handler state), removes exactly those requests,
    appends exactly their responses, and leaves every other queue alone; it
    stops only when nothing is pending or the response ring is full. *)
Theorem process_message_queue_refines (hs : list (option (handler W))) mqs id w q
    (Hhs : handlers_ok hs) (Hid : 0 <= id < NUM_MSG_QUEUES)
    (Hlen : len mqs = NUM_MSG_QUEUES) (Hq : aget mqs id = Some q) (Hok : queue_ok q) :
  exists q' w' rsps,
    process_message_queue loop_fuel hs mqs id w = Some (<[Z.to_nat id := q']> mqs, w') /\
    queue_ok q' /\
    serve_all hs (take (Z.to_nat (servable q)) (pending q)) (last_serial (header q)) w
      = Some (rsps, last_serial (header q'), w') /\
    pending q' = drop (Z.to_nat (servable q)) (pending q) /\
    responses q' = responses q ++ rsps /\
    (request_count q' <= 0 \/ response_count q' = MSG_QUEUE_SIZE).
Proof.
  destruct (process_message_queue_spec hs Hhs loop_fuel mqs id w q Hid Hlen Hq Hok)
    as (q' & w' & rsps & ? & Hok' & ? & ? & ? & Hend).
  { pose proof (ok_req_n q Hok). unfold servable, loop_fuel, MSG_QUEUE_SIZE in *. lia. }
  exists q', w', rsps. split_and!; try done. unfold servable in Hend.
  pose proof (ok_rsp_n q' Hok'). lia.
Qed.

Lemma process_message_queue_total_aux hs mqs id (w : W) n fuel q :
  handlers_ok hs -> 0 <= id < NUM_MSG_QUEUES -> queues_shape mqs ->
  aget mqs id = Some q ->
  0 <= request_queue_wptr (header q) -> 0 <= request_queue_rptr (header q) ->
  (start_next_message q <> None -> request_count q <= n) -> n <= Z.of_nat fuel ->
  exists mqs' w', process_message_queue fuel hs mqs id w = Some (mqs', w') /\ queues_shape mqs'.
Proof.
  intros Hhs Hid. revert mqs w n q.
  induction fuel as [|fuel IH]; intros mqs w n q [Hlen Hsh] Hq Hw Hr Hn Hf.
  all: simpl; rewrite Hq; simpl; destruct (start_next_message q) as [p|] eqn:Hs;
    [|by eexists _, _]; destruct (start_next_message_range q p Hw Hr Hs) as (? & ? & ?).
  { specialize (Hn ltac:(done)). lia. }
  assert (Hshq : queue_shape q) by (by eapply aget_Forall in Hq).
  destruct (process_message_step hs Hhs mqs id w q)
    as (req & rsp & s & w1 & slots & _ & _ & Hslots & ->); [done..|]. simpl.
  assert (Hin : 0 <= id < len mqs) by lia. specialize (Hn ltac:(done)).
  eapply (IH _ _ (n - 1) (after_message q slots s)).
  - split; [by rewrite length_insert|]. apply Forall_insert; [done|].
    by eapply after_message_shape.
  - by apply aget_insert.
  - simpl. done.
  - unfold after_message. simpl. mq_lia.
  - intros _. unfold after_message. destruct q as [[rw sr u1 u2 rr sw ls u3] rq sq].
    mq_lia.
  - lia.
Qed.

(** C3: Termination whatever the host writes.  For any values of the ring
    pointers in the headers (a misbehaving host may store anything there) the
    processing loop ends within [loop_fuel] messages, without a memory fault,
    and leaves the queues the size they were. *)
Theorem process_message_queue_terminates (hs : list (option (handler W))) mqs id w
    (Hhs : handlers_ok hs) (Hid : 0 <= id < NUM_MSG_QUEUES) (Hsh : queues_shape mqs)
    (Hu32 : Forall (fun q => is_u32 (request_queue_wptr (header q)) /\
                             is_u32 (request_queue_rptr (header q))) mqs) :
  exists mqs' w', process_message_queue loop_fuel hs mqs id w = Some (mqs', w') /\ queues_shape mqs'.
Proof.
  destruct (aget_in mqs id) as [q Hq]; [destruct Hsh; lia|].
  destruct (aget_Forall _ _ _ _ Hu32 Hq) as [[Hw _] [Hr _]].
  eapply (process_message_queue_total_aux hs mqs id w 8); try done.
  intros _. unfold request_count. pose proof (Z.mod_pos_bound (request_queue_wptr (header q) -
    request_queue_rptr (header q)) MSG_QUEUE_POINTER_WRAP ltac:(done)).
  unfold MSG_QUEUE_POINTER_WRAP, MSG_QUEUE_SIZE in *. lia.
Qed.
End main_theorems.

(** ** The host side and the interleaving of both sides *)

Lemma request_push_ok mqs id q r :
  0 <= id < NUM_MSG_QUEUES -> len mqs = NUM_MSG_QUEUES -> aget mqs id = Some q ->
  queue_ok q -> is_message r -> request_count q < MSG_QUEUE_SIZE ->
  exists q', msgqueue_request_push mqs id (Some r) = Some (0, <[Z.to_nat id := q']> mqs) /\
    queue_ok q' /\ pending q' = pending q ++ [r] /\ responses q' = responses q /\
    last_serial (header q') = last_serial (header q).
Proof.
  intros Hid Hlen Hq Hok Hr Hroom. unfold msgqueue_request_push.
  destruct (Z.leb_spec NUM_MSG_QUEUES id); [lia|]. rewrite Hq. simpl.
  destruct Hok as [[Hs1 Hs2 Hs3] ? ? ? ? ? ?].
  destruct (ring_aset MSG_QUEUE_SIZE (request_queue q) ltac:(done) Hs1
    (request_queue_wptr (header q)) r) as [slots Hslots].
  rewrite Hslots. simpl. rewrite aset_in by lia. simpl. eexists. split; [done|].
  assert (Hcnt : request_count (set_request_wptr (bump (request_queue_wptr (header q)))
                   (set_requests slots q)) = request_count q + 1).
  { clear Hslots. destruct q as [[rw sr u1 u2 rr sw ls u3] rq sq]. mq_lia. }
  split_and!; [|..|done|done].
  - pose proof (aset_length _ _ _ _ Hslots). pose proof (aset_Forall _ _ _ _ _ Hs3 Hr Hslots).
    constructor; [constructor; simpl; try done; by rewrite H0|..]; try done; try lia.
    simpl. mq_lia.
  - unfold pending. rewrite Hcnt.
    cbn [header request_queue request_queue_rptr set_request_wptr set_requests].
    apply ring_list_push; [done|done| |].
    + split; [|done]. apply Z.mod_pos_bound. done.
    + rewrite <- Hslots. f_equal. clear Hslots Hcnt. mq_unfold.
      apply ring_index; [lia|]. word_lia.
Qed.

Lemma response_pop_ok mqs id q :
  0 <= id < NUM_MSG_QUEUES -> len mqs = NUM_MSG_QUEUES -> aget mqs id = Some q ->
  queue_ok q -> 0 < response_count q ->
  exists q' r, msgqueue_response_pop mqs id true = Some (0, Some r, <[Z.to_nat id := q']> mqs) /\
    queue_ok q' /\ pending q' = pending q /\ responses q = r :: responses q' /\
    last_serial (header q') = last_serial (header q).
Proof.
  intros Hid Hlen Hq Hok Hc. unfold msgqueue_response_pop.
  destruct (Z.leb_spec NUM_MSG_QUEUES id); [lia|]. rewrite Hq. simpl.
  destruct Hok as [[Hs1 Hs2 Hs3] ? ? ? ? ? ?].
  destruct (ring_list_tail MSG_QUEUE_SIZE (response_queue q) (response_queue_rptr (header q))
    (response_count q)) as (r & Hr & Hl); [done..|].
  unfold response_entry. rewrite Hr. simpl. rewrite aset_in by lia. simpl.
  eexists _, r. split; [done|].
  assert (Hcnt : response_count (set_response_rptr (bump (response_queue_rptr (header q))) q)
                   = response_count q - 1).
  { clear Hr Hl. destruct q as [[rw sr u1 u2 rr sw ls u3] rq sq]. mq_lia. }
  split_and!; [|done| |done].
  - constructor; [done|..]; try done; try lia. simpl. mq_lia.
  - unfold responses at 1. rewrite Hl. f_equal. unfold responses. rewrite Hcnt.
    apply ring_list_cong; [done|done|]. by apply bump_index.
Qed.

Section interleaving.
Context {W : Type} (hs : list (option (handler W))) (id : Z).

(** One queue's life: memory, handler state, and the history of what the host
    submitted to it and received from it. *)
Record mq_config := MkConfig {
  c_mqs : list message_queue;
  c_world : W;
  c_submitted : list request;
  c_received : list response
}.

(** The host pushes when there is room and pops when there is a response; the
    firmware runs one iteration of its loop.  Steps interleave freely. *)
Inductive mq_step : mq_config -> mq_config -> Prop :=
| step_host_push c q r mqs' :
    aget (c_mqs c) id = Some q -> request_count q < MSG_QUEUE_SIZE -> is_message r ->
    msgqueue_request_push (c_mqs c) id (Some r) = Some (0, mqs') ->
    mq_step c (MkConfig mqs' (c_world c) (c_submitted c ++ [r]) (c_received c))
| step_host_pop c q r mqs' :
    aget (c_mqs c) id = Some q -> 0 < response_count q ->
    msgqueue_response_pop (c_mqs c) id true = Some (0, Some r, mqs') ->
    mq_step c (MkConfig mqs' (c_world c) (c_submitted c) (c_received c ++ [r]))
| step_firmware c q p mqs' w' :
    aget (c_mqs c) id = Some q -> start_next_message q = Some p ->
    process_message hs (c_mqs c) id (c_world c) = Some (mqs', w') ->
    mq_step c (MkConfig mqs' w' (c_submitted c) (c_received c)).

Definition mq_inv (serial0 : Z) (w0 : W) (c : mq_config) : Prop :=
  len (c_mqs c) = NUM_MSG_QUEUES /\
  exists q handled, aget (c_mqs c) id = Some q /\ queue_ok q /\
    c_submitted c = handled ++ pending q /\
    serve_all hs handled serial0 w0
      = Some (c_received c ++ responses q, last_serial (header q), c_world c).

Lemma serve_all_snoc reqs r serial w rsps s1 w1 rsp s2 w2 :
  serve_all hs reqs serial w = Some (rsps, s1, w1) ->
  serve hs r s1 w1 = Some (rsp, s2, w2) ->
  serve_all hs (reqs ++ [r]) serial w = Some (rsps ++ [rsp], s2, w2).
Proof.
  revert serial w rsps. induction reqs as [|r0 reqs IH]; intros serial w rsps; simpl.
  - intros [= <- <- <-] ->. done.
  - destruct (serve hs r0 serial w) as [[[rsp0 s0] w0]|]; simpl; [|done].
    destruct (serve_all hs reqs s0 w0) as [[[rsps0 s3] w3]|] eqn:E; simpl; [|done].
    intros [= <- <- <-] Hr. by rewrite (IH _ _ _ E Hr).
Qed.

Lemma mq_step_inv serial0 w0 c c' :
  handlers_ok hs -> 0 <= id < NUM_MSG_QUEUES ->
  mq_inv serial0 w0 c -> mq_step c c' -> mq_inv serial0 w0 c'.
Proof.
  intros Hhs Hid (Hlen & q & handled & Hq & Hok & Hsub & Hserve) Hstep.
  assert (Hin : 0 <= id < len (c_mqs c)) by lia.
  destruct Hstep as [c q1 r mqs' Hq1 Hn Hr Hpush|c q1 r mqs' Hq1 Hn Hpop|c q1 p mqs' w' Hq1 Hst Hrun];
    assert (q1 = q) as -> by congruence.
  - destruct (request_push_ok _ _ _ _ Hid Hlen Hq Hok Hr Hn) as (q' & Hp & Hok' & Hpd & Hrs & Hls).
    rewrite Hp in Hpush. injection Hpush as <-.
    split; [cbn; by rewrite length_insert|]. exists q', handled. cbn.
    by rewrite aget_insert, Hpd, Hrs, Hls, Hsub, app_assoc.
  - destruct (response_pop_ok _ _ _ Hid Hlen Hq Hok Hn) as (q' & r' & Hp & Hok' & Hpd & Hrs & Hls).
    rewrite Hp in Hpop. injection Hpop as -> <-.
    split; [cbn; by rewrite length_insert|]. exists q', handled. cbn.
    rewrite aget_insert, Hpd, Hls by done. rewrite Hrs in Hserve.
    by rewrite <- app_assoc.
  - rewrite start_next_message_ok in Hst by done. case_match eqn:E; [|done]. bool_cases.
    destruct (process_message_step hs Hhs _ _ (c_world c) _ Hid Hlen Hq (ok_shape q Hok) (ok_req_r q Hok))
      as (req & rsp & s & w1 & slots & Hp & Hs & Hslots & Hrun'); [done|].
    rewrite Hrun' in Hrun. injection Hrun as <- <-.
    split; [cbn; by rewrite length_insert|].
    exists (after_message q slots s), (handled ++ [req]). cbn.
    rewrite aget_insert by done. split_and!; [done| | |].
    + by eapply after_message_ok.
    + pose proof (after_message_pending q slots s Hok ltac:(done) ltac:(done)) as Hpq.
      rewrite Hp in Hpq at 2. simpl in Hpq. by rewrite Hsub, Hpq, <- app_assoc.
    + rewrite (after_message_responses q slots rsp s) by done.
      rewrite app_assoc. by eapply serve_all_snoc.
Qed.

(** C1: End-to-end FIFO.  From an empty queue, after any interleaving of host
    pushes, host pops and firmware iterations, the requests submitted are those
    handled followed by those still pending, and the responses the host received
    followed by those waiting are exactly what serving the handled requests in
    order gives: nothing is lost, duplicated, reordered or answered early. *)
Theorem interleaving_fifo (q0 : message_queue) mqs (w0 : W) c
    (Hhs : handlers_ok hs) (Hid : 0 <= id < NUM_MSG_QUEUES)
    (Hlen : len mqs = NUM_MSG_QUEUES) (Hq0 : aget mqs id = Some q0)
    (Hshape : queue_shape q0) (Hinit : header q0 = zero_header)
    (Hsteps : rtc mq_step (MkConfig mqs w0 [] []) c) :
  exists q handled, aget (c_mqs c) id = Some q /\ queue_ok q /\
    c_submitted c = handled ++ pending q /\
    serve_all hs handled 0 w0
      = Some (c_received c ++ responses q, last_serial (header q), c_world c).
Proof.
  assert (H0 : mq_inv 0 w0 (MkConfig mqs w0 [] [])).
  { split; [done|]. exists q0, []. cbn. split_and!; [done| | |].
    - by constructor; rewrite ?Hinit; try done; unfold request_count, response_count; rewrite Hinit.
    - unfold pending, request_count. rewrite Hinit. done.
    - unfold responses, response_count. rewrite Hinit. done. }
  revert H0. induction Hsteps as [c|c c' c'' Hst _ IH]; [by intros [_ ?]|].
  intros H0. apply IH. by eapply mq_step_inv.
Qed.
End interleaving.

(** ** All the queues *)

Definition post_code_word (post_code : Z) : Z :=
  Z.lor (Z.lor (Z.shiftl POST_CODE_PREFIX 16) (Z.shiftl POST_CODE_SRC_CMFW 14)) (Z.land post_code 0x3fff).

Definition drained (q : message_queue) : Prop :=
  request_count q <= 0 \/ response_count q = MSG_QUEUE_SIZE.

Definition queues_ok (mqs : list message_queue) : Prop :=
  len mqs = NUM_MSG_QUEUES /\ Forall queue_ok mqs.

Section all_queues.
Context {W : Type}.
Implicit Types (s : msgq_state W).

(** State of [process_message_queues] when its loop reaches queue [i]. *)
Definition queues_loop_inv s0 (i : Z) s : Prop :=
  queues_ok (message_queues s) /\
  (forall j q, 0 <= j < i -> aget (message_queues s) j = Some q -> drained q) /\
  message_handlers s = message_handlers s0 /\
  message_queue_info s = message_queue_info s0 /\ info_reg s = info_reg s0 /\
  post_codes s = rev (map (fun j => post_code_word (POST_CODE_ARG_MSG_QUEUE_START + j)) (seqZ 0 i))
                 ++ post_code_word POST_CODE_ARC_MSG_HANDLE_START :: post_codes s0.

Lemma queues_loop_step s0 i s :
  handlers_ok (message_handlers s0) -> 0 <= i < NUM_MSG_QUEUES -> queues_loop_inv s0 i s ->
  exists q' w', process_message_queue loop_fuel (message_handlers s0) (message_queues s) i (world s)
      = Some (<[Z.to_nat i := q']> (message_queues s), w') /\
    queues_ok (<[Z.to_nat i := q']> (message_queues s)) /\
    (forall j q, 0 <= j < i + 1 -> aget (<[Z.to_nat i := q']> (message_queues s)) j = Some q -> drained q).
Proof.
  intros Hhs Hi ((Hlen & Hall) & Hdr & _).
  destruct (aget_in (message_queues s) i) as [q Hq]; [lia|].
  pose proof (aget_Forall _ _ _ _ Hall Hq) as Hok.
  destruct (process_message_queue_spec _ Hhs loop_fuel _ i (world s) q Hi Hlen Hq Hok)
    as (q' & w' & rsps & Hrun & Hok' & _ & _ & _ & Hend).
  { pose proof (ok_req_n q Hok). unfold servable, loop_fuel, MSG_QUEUE_SIZE in *. lia. }
  exists q', w'. split_and!; [done|split; [by rewrite length_insert|by apply Forall_insert]|].
  intros j q2 Hj. destruct (Z.eq_dec j i) as [->|Hne].
  - rewrite aget_insert by lia. intros [= <-]. unfold drained, servable in *.
    pose proof (ok_rsp_n q' Hok'). lia.
  - rewrite aget_insert_ne by lia. intros Hq2. apply (Hdr j); [lia|done].
Qed.

(** The whole handler.  From well-formed queues [process_message_queues]
    always completes; afterwards every queue is well formed and either has no
    pending request or has no room for another response; the handler table is
    unchanged; and the post codes written are START, one per queue in order,
    and DONE. *)
Theorem process_message_queues_drains s
    (Hhs : handlers_ok (message_handlers s)) (Hok : queues_ok (message_queues s)) :
  exists s', process_message_queues s = Some s' /\
    queues_ok (message_queues s') /\ Forall drained (message_queues s') /\
    message_handlers s' = message_handlers s /\
    post_codes s' = map post_code_word [0x3f; 0x34; 0x33; 0x32; 0x31; 0x30] ++ post_codes s.
Proof.
  unfold process_message_queues.
  destruct (for_loop_inv (queues_loop_inv s) (Z.to_nat NUM_MSG_QUEUES) 0 process_queue_turn
    (SetPostCode POST_CODE_SRC_CMFW POST_CODE_ARC_MSG_HANDLE_START s))
    as (s2 & Hrun & ((Hlen2 & Hok2) & Hdr & Hh & Hi & Hr & Hpc)).
  - split_and!; try done. intros; lia.
  - intros i t Hi Hinv.
    destruct (queues_loop_step s i t Hhs ltac:(unfold NUM_MSG_QUEUES in *; lia) Hinv)
      as (q' & w' & Hstep & Hok' & Hdr').
    destruct Hinv as ((Hlen & Hall) & Hdr & Hh & Hinf & Hreg & Hpc).
    unfold process_queue_turn. cbn [SetPostCode message_handlers message_queues world].
    rewrite Hh, Hstep. simpl.
    eexists. split; [done|]. split_and!; simpl; try done.
    rewrite Hpc. rewrite (seqZ_app 0 i 1) by lia.
    rewrite map_app, rev_app_distr. done.
  - rewrite Hrun. simpl. eexists. split; [done|]. split_and!; simpl; try done.
    + apply Forall_lookup_2. intros n q Hn. apply (Hdr (Z.of_nat n)).
      * apply lookup_lt_Some in Hn. unfold NUM_MSG_QUEUES in *. lia.
      * rewrite aget_nat by lia. by rewrite Nat2Z.id.
    + by rewrite Hpc.
Qed.
End all_queues.

(** ** The C interface on its error branches *)

(** Error paths of the four ring operations.  A queue number of 4 or more,
    or a NULL message pointer, gives -1 and changes nothing; otherwise on a
    well-formed queue with room (with an entry) the push appends at the tail
    (the pop returns the head), and reports 0. *)
Theorem ring_api_functional mqs id r q
    (Hlen : len mqs = NUM_MSG_QUEUES) (Hr : is_message r) :
  (NUM_MSG_QUEUES <= id ->
     msgqueue_request_push mqs id (Some r) = Some (-1, mqs) /\
     msgqueue_request_pop mqs id true = Some (-1, None, mqs) /\
     msgqueue_response_push mqs id (Some r) = Some (-1, mqs) /\
     msgqueue_response_pop mqs id true = Some (-1, None, mqs)) /\
  msgqueue_request_push mqs id None = Some (-1, mqs) /\
  msgqueue_request_pop mqs id false = Some (-1, None, mqs) /\
  msgqueue_response_push mqs id None = Some (-1, mqs) /\
  msgqueue_response_pop mqs id false = Some (-1, None, mqs) /\
  (0 <= id < NUM_MSG_QUEUES -> aget mqs id = Some q -> queue_ok q ->
     (request_count q < MSG_QUEUE_SIZE ->
        exists q', msgqueue_request_push mqs id (Some r) = Some (0, <[Z.to_nat id := q']> mqs) /\
          queue_ok q' /\ pending q' = pending q ++ [r] /\ responses q' = responses q) /\
     (0 < response_count q ->
        exists q' x, msgqueue_response_pop mqs id true = Some (0, Some x, <[Z.to_nat id := q']> mqs) /\
          queue_ok q' /\ pending q' = pending q /\ responses q = x :: responses q')).
Proof.
  assert (Hge : forall A (a b : A), NUM_MSG_QUEUES <= id -> (if NUM_MSG_QUEUES <=? id then a else b) = a).
  { intros A a b ?. destruct (Z.leb_spec NUM_MSG_QUEUES id); [done|lia]. }
  split_and!.
  - intros Hid. unfold msgqueue_request_push, msgqueue_request_pop, msgqueue_response_push,
      msgqueue_response_pop. by rewrite !Hge.
  - unfold msgqueue_request_push. by destruct (_ <=? _).
  - unfold msgqueue_request_pop. by destruct (_ <=? _).
  - unfold msgqueue_response_push. by destruct (_ <=? _).
  - unfold msgqueue_response_pop. by destruct (_ <=? _).
  - intros Hid Hq Hok. split; intros Hc.
    + destruct (request_push_ok mqs id q r) as (q' & ? & ? & ? & ? & ?); [done..|]. by exists q'.
    + destruct (response_pop_ok mqs id q) as (q' & x & ? & ? & ? & ? & ?); [done..|]. by exists q', x.
Qed.

(** ** Start-up *)

(** [prepare_msg_queue] publishes the queue geometry and makes every queue
    well formed, empty and with serial number 0. *)
Theorem prepare_msg_queue_ok {W} (s : msgq_state W) queues_addr info_addr
    (Hsh : queues_shape (message_queues s)) (Hinfo : len (message_queue_info s) = 4) :
  exists s', prepare_msg_queue queues_addr info_addr s = Some s' /\
    message_queue_info s' = [u32 queues_addr; 0x404; 0; 0] /\ info_reg s' = u32 info_addr /\
    queues_ok (message_queues s') /\
    Forall (fun q => pending q = [] /\ responses q = [] /\ last_serial (header q) = 0) (message_queues s').
Proof.
  destruct s as [mqs hs info pcs reg w]. simpl in *. unfold prepare_msg_queue. simpl.
  destruct Hsh as [Hlen Hsh].
  destruct info as [|i0 [|i1 [|i2 [|i3 [|]]]]]; simpl in Hinfo; try lia. simpl.
  destruct mqs as [|q0 [|q1 [|q2 [|q3 [|]]]]]; unfold NUM_MSG_QUEUES in *; simpl in Hlen; try lia.
  eexists. split; [reflexivity|]. simpl.
  assert (Hok : forall q, queue_shape q -> queue_ok (MkQueue zero_header (request_queue q) (response_queue q))).
  { intros q [? ? ?]. by constructor. }
  repeat match goal with H : Forall queue_shape (_ :: _) |- _ => apply Forall_cons in H as [? H] end.
  split_and!; [done|done|split; [done|]|].
  - repeat (constructor; [by apply Hok|]). done.
  - by repeat constructor.
Qed.

(** ** Concrete runs *)

Definition demo_handlers : list (option (handler nat)) :=
  <[160%nat := Some (fun _ rsp w => (1, rsp, S w))]> (replicate 200 None).

(** Requests: a test message, a registered code, an unregistered code; the ring
    is about to wrap. *)
Definition demo_queue : message_queue :=
  MkQueue (MkHeader 1 3 0 0 6 4 41 0)
    [[0x33; 0; 0; 0; 0; 0; 0; 0]; zero_message; [0x90; 7; 0; 0; 0; 0; 0; 0]; [0xa0; 0; 0; 0; 0; 0; 0; 0]]
    [zero_message; zero_message; zero_message; [9; 9; 9; 9; 9; 9; 9; 9]].
Definition demo_queues : list message_queue :=
  [MkQueue zero_header (replicate 4 zero_message) (replicate 4 zero_message); demo_queue;
   MkQueue zero_header (replicate 4 zero_message) (replicate 4 zero_message);
   MkQueue zero_header (replicate 4 zero_message) (replicate 4 zero_message)].

Lemma demo_handlers_ok : handlers_ok demo_handlers.
Proof.
  split; [done|]. apply Forall_insert; [by apply Forall_replicate|].
  by intros h [= <-] req rsp w.
Qed.

Lemma demo_queue_ok : queue_ok demo_queue.
Proof. constructor; [constructor; [done|done|by repeat constructor]|done..]. Qed.

Lemma zero_queue_ok : queue_ok (MkQueue zero_header (replicate 4 zero_message) (replicate 4 zero_message)).
Proof. constructor; [constructor; [done|done|by repeat constructor]|done..]. Qed.

Lemma demo_queues_ok : queues_ok demo_queues.
Proof.
  split; [done|]. repeat (constructor; [apply zero_queue_ok || apply demo_queue_ok|]). constructor.
Qed.

Example demo_run :
  (fun r => (responses <$> (r.1 !! 1%nat), r.2)) <$>
    process_message_queue loop_fuel demo_handlers demo_queues 1 0%nat =
  Some (Some [[9; 9; 9; 9; 9; 9; 9; 9]; [0; 8; 42; 0; 0; 0; 0; 0]; [1; 0; 0; 0; 0; 0; 0; 0];
              [0xff; 0; 0; 0; 0; 0; 0; 0]], 1%nat).
Proof. vm_compute. reflexivity. Qed.

Lemma process_message_queue_refines_witness :
  exists q' w' rsps,
    process_message_queue loop_fuel demo_handlers demo_queues 1 0%nat
      = Some (<[1%nat := q']> demo_queues, w') /\
    queue_ok q' /\
    serve_all demo_handlers (take 3 (pending demo_queue)) 41 0%nat
      = Some (rsps, last_serial (header q'), w') /\
    pending q' = [] /\ responses q' = responses demo_queue ++ rsps.
Proof.
  destruct (process_message_queue_refines demo_handlers demo_queues 1 0%nat demo_queue
    demo_handlers_ok ltac:(done) eq_refl eq_refl demo_queue_ok) as (q' & w' & rsps & H).
  exists q', w', rsps. revert H. vm_compute (Z.to_nat (servable demo_queue)).
  intros (? & ? & ? & ? & ? & ?). split_and!; done.
Defined.

Lemma process_message_queue_terminates_witness :
  exists mqs' w', process_message_queue loop_fuel demo_handlers
    (<[0%nat := set_request_wptr 0xffffffff demo_queue]> demo_queues) 0 0%nat = Some (mqs', w') /\
    queues_shape mqs'.
Proof.
  apply (process_message_queue_terminates demo_handlers _ 0 0%nat demo_handlers_ok); [done| |].
  - split; [done|]. apply Forall_insert; [|by repeat constructor].
    apply (Forall_impl _ _ _ (proj2 demo_queues_ok)). intros ? [? ? ? ? ? ? ?]. done.
  - by repeat constructor.
Defined.

Lemma interleaving_fifo_witness :
  exists q handled, aget (<[0%nat := set_request_wptr 1 (set_requests ([0x90; 1; 0; 0; 0; 0; 0; 0]
      :: replicate 3 zero_message) (MkQueue zero_header (replicate 4 zero_message) (replicate 4 zero_message)))]>
      demo_queues) 0 = Some q /\ queue_ok q /\
    [[0x90; 1; 0; 0; 0; 0; 0; 0]] = handled ++ pending q.
Proof.
  destruct (interleaving_fifo demo_handlers 0
    (MkQueue zero_header (replicate 4 zero_message) (replicate 4 zero_message)) demo_queues 0%nat
    (MkConfig (<[0%nat := set_request_wptr 1 (set_requests ([0x90; 1; 0; 0; 0; 0; 0; 0]
      :: replicate 3 zero_message) (MkQueue zero_header (replicate 4 zero_message) (replicate 4 zero_message)))]>
      demo_queues) 0%nat [[0x90; 1; 0; 0; 0; 0; 0; 0]] []))
    as (q & handled & Hq & Hok & Hs & _); [apply demo_handlers_ok|done|done|done|apply zero_queue_ok|done| |].
  - apply rtc_once.
    apply (step_host_push demo_handlers 0 (MkConfig demo_queues 0%nat [] [])
      (MkQueue zero_header (replicate 4 zero_message) (replicate 4 zero_message)) [0x90; 1; 0; 0; 0; 0; 0; 0]);
      done.
  - by exists q, handled.
Defined.

Lemma process_message_queues_drains_witness :
  exists s', process_message_queues (MkMsgq demo_queues demo_handlers [0; 0; 0; 0] [] 0 0%nat) = Some s' /\
    Forall drained (message_queues s') /\ length (post_codes s') = 6%nat.
Proof.
  destruct (process_message_queues_drains (MkMsgq demo_queues demo_handlers [0; 0; 0; 0] [] 0 0%nat)
    demo_handlers_ok demo_queues_ok) as (s' & ? & _ & ? & _ & Hpc).
  exists s'. by rewrite Hpc.
Defined.

Lemma ring_api_functional_witness :
  msgqueue_request_push demo_queues 4 (Some zero_message) = Some (-1, demo_queues) /\
  exists q' x, msgqueue_response_pop demo_queues 1 true = Some (0, Some x, <[1%nat := q']> demo_queues) /\
    queue_ok q' /\ responses demo_queue = x :: responses q'.
Proof.
  split.
  - destruct (ring_api_functional demo_queues 4 zero_message demo_queue) as (H & _); [done|done|].
    by apply H.
  - destruct (ring_api_functional demo_queues 1 zero_message demo_queue) as (_ & _ & _ & _ & _ & H);
      [done|done|].
    destruct H as [_ H]; [done|done|apply demo_queue_ok|].
    destruct H as (q' & x & ? & ? & ? & ?); [done|]. exists q', x. split_and!; done.
Defined.

Lemma prepare_msg_queue_ok_witness :
  exists s', prepare_msg_queue 0x10000000 0x10000400
      (MkMsgq demo_queues demo_handlers [1; 2; 3; 4] [] 0 0%nat) = Some s' /\
    queues_ok (message_queues s').
Proof.
  destruct (prepare_msg_queue_ok (MkMsgq demo_queues demo_handlers [1; 2; 3; 4] [] 0 0%nat)
    0x10000000 0x10000400) as (s' & H1 & _ & _ & H2 & _).
  - split; [done|]. apply (Forall_impl _ _ _ (proj2 demo_queues_ok)). intros ? [? ? ? ? ? ? ?]. done.
  - done.
  - by exists s'.
Defined.

(** The guard of the loop never range-checks [response_rptr]: with the value 12
    the ring looks full, but with 13, just as invalid, the request is served. *)
Lemma start_next_message_ignores_response_rptr :
  start_next_message (set_response_rptr 12 (set_request_wptr 1
    (MkQueue zero_header (replicate 4 zero_message) (replicate 4 zero_message)))) = None /\
  start_next_message (set_response_rptr 13 (set_request_wptr 1
    (MkQueue zero_header (replicate 4 zero_message) (replicate 4 zero_message)))) <> None.
Proof. by split. Qed.
