(* ===== verification/Smbus.v ===== *)
(** * SMBus target state machine ([drivers/smbus/target/smbus_target.c])

    The byte-level state machine behind the I2C target callbacks.  Commands are
    looked up in a 256-entry table; their receive and send handlers act on an
    application state [W].  Zephyr's [crc8] is an argument.  An access outside
    the data buffers and a call through a NULL pointer are faults ([None]). *)

From S2P Require Import Prelude.

(** ** Data *)

Inductive smbus_trans_type :=
| SMBUS_TRANS_WRITE_BYTE
| SMBUS_TRANS_READ_BYTE
| SMBUS_TRANS_WRITE_WORD
| SMBUS_TRANS_READ_WORD
| SMBUS_TRANS_WRITE_BLOCK
| SMBUS_TRANS_READ_BLOCK
| SMBUS_TRANS_READ_WRITE_BLOCK.

#[export] Instance smbus_trans_type_eq_dec : EqDecision smbus_trans_type.
Proof. solve_decision. Defined.

Inductive smbus_state :=
| SMBUS_STATE_IDLE
| SMBUS_STATE_CMD
| SMBUS_STATE_RCV_DATA
| SMBUS_STATE_RCV_PEC
| SMBUS_STATE_SEND_DATA
| SMBUS_STATE_SEND_PEC
| SMBUS_STATE_WAIT_IDLE.

#[export] Instance smbus_state_eq_dec : EqDecision smbus_state.
Proof. solve_decision. Defined.

Definition CONFIG_SMBUS_MAX_MSG_SIZE : Z := 64.

(** Flags of the I2C address byte (Zephyr's I2C_MSG_WRITE and I2C_MSG_READ). *)
Definition I2C_MSG_WRITE : Z := 0.
Definition I2C_MSG_READ : Z := 1.

Section smbus.
(** Application state, and Zephyr's [crc8(src, len, poly, init, reversed)]. *)
Context {W : Type}.
Variable crc8 : list Z -> Z -> Z -> bool -> Z.

(** A receive handler gets the buffer and the size; a send handler fills the
    buffer and sets the size.  0 is success. *)
Definition smbus_rcv_handler := list Z -> Z -> W -> Z * W.
Definition smbus_send_handler := list Z -> W -> Z * list Z * Z * W.

Record smbus_cmd_def := MkCmd {
  trans_type : smbus_trans_type;
  rcv_handler : option smbus_rcv_handler;
  send_handler : option smbus_send_handler;
  pec : bool
}.

Record smbus_target_data := MkData {
  address : Z;
  cmd_defs : list (option smbus_cmd_def);
  error_count : Z;
  state : smbus_state;
  command : Z;
  blocksize_r : Z;
  blocksize_w : Z;
  rcv_index : Z;
  send_index : Z;
  received_data : list Z;
  send_data : list Z
}.

Definition get_cmd_def (s : smbus_target_data) (cmd : Z) : option (option smbus_cmd_def) :=
  aget (cmd_defs s) cmd.

Definition pec_crc_8 (crc data : Z) : Z := crc8 [u8 data] 0x7 crc false.

(** Field updates. *)
Definition set_state (v : smbus_state) (s : smbus_target_data) : smbus_target_data :=
  MkData (address s) (cmd_defs s) (error_count s) v (command s) (blocksize_r s) (blocksize_w s)
    (rcv_index s) (send_index s) (received_data s) (send_data s).
Definition set_command (v : Z) (s : smbus_target_data) : smbus_target_data :=
  MkData (address s) (cmd_defs s) (error_count s) (state s) v (blocksize_r s) (blocksize_w s)
    (rcv_index s) (send_index s) (received_data s) (send_data s).
Definition set_blocksize_w (v : Z) (s : smbus_target_data) : smbus_target_data :=
  MkData (address s) (cmd_defs s) (error_count s) (state s) (command s) (blocksize_r s) v
    (rcv_index s) (send_index s) (received_data s) (send_data s).
Definition set_send_buffer (d : list Z) (n : Z) (s : smbus_target_data) : smbus_target_data :=
  MkData (address s) (cmd_defs s) (error_count s) (state s) (command s) n (blocksize_w s)
    (rcv_index s) (send_index s) (received_data s) d.

(** [SMBUS_LOG_ERR_RATELIMIT]: count the error (the log line is not modelled). *)
Definition log_err (s : smbus_target_data) : smbus_target_data :=
  MkData (address s) (cmd_defs s) (error_count s + 1) (state s) (command s) (blocksize_r s)
    (blocksize_w s) (rcv_index s) (send_index s) (received_data s) (send_data s).

(** [received_data[rcv_index++] = val] and [send_data[send_index++]]. *)
Definition store_byte (val : Z) (s : smbus_target_data) : option smbus_target_data :=
  d ← aset (received_data s) (rcv_index s) val;
  Some (MkData (address s) (cmd_defs s) (error_count s) (state s) (command s) (blocksize_r s)
          (blocksize_w s) (u8 (rcv_index s + 1)) (send_index s) d (send_data s)).
Definition fetch_byte (s : smbus_target_data) : option (Z * smbus_target_data) :=
  v ← aget (send_data s) (send_index s);
  Some (v, MkData (address s) (cmd_defs s) (error_count s) (state s) (command s) (blocksize_r s)
             (blocksize_w s) (rcv_index s) (u8 (send_index s + 1)) (received_data s) (send_data s)).

Definition call_rcv (cmd : smbus_cmd_def) (s : smbus_target_data) (w : W) : option (Z * W) :=
  h ← rcv_handler cmd; Some (h (received_data s) (blocksize_w s) w).

(** Fold the first [n] bytes of a buffer into a PEC. *)
Definition pec_bytes (crc : Z) (buf : list Z) (n : Z) : option Z :=
  for_loop (Z.to_nat n) 0 (fun i crc => b ← aget buf i; Some (pec_crc_8 crc b)) crc.

Definition is_rw_block (c : smbus_cmd_def) : bool :=
  bool_decide (trans_type c = SMBUS_TRANS_READ_WRITE_BLOCK).
Definition is_write_block (c : smbus_cmd_def) : bool :=
  bool_decide (trans_type c = SMBUS_TRANS_WRITE_BLOCK).
Definition is_read_block (c : smbus_cmd_def) : bool :=
  bool_decide (trans_type c = SMBUS_TRANS_READ_BLOCK).

(** ** [smbus_write_handler]: a byte written by the controller *)
Definition smbus_write_handler (s : smbus_target_data) (val : Z) (w : W)
    : option (Z * smbus_target_data * W) :=
  curr_cmd ← get_cmd_def s (command s);
  match state s with
  | SMBUS_STATE_IDLE =>
      let s := set_command val s in
      curr_cmd ← get_cmd_def s (command s);
      match curr_cmd with
      | None => Some (-1, set_state SMBUS_STATE_WAIT_IDLE (log_err s), w)
      | Some _ => Some (0, set_state SMBUS_STATE_CMD s, w)
      end
  | SMBUS_STATE_CMD =>
      c ← curr_cmd;
      match trans_type c with
      | SMBUS_TRANS_WRITE_BLOCK | SMBUS_TRANS_READ_WRITE_BLOCK =>
          let s := set_blocksize_w val s in
          if CONFIG_SMBUS_MAX_MSG_SIZE <? blocksize_w s then
            Some (-1, set_state SMBUS_STATE_WAIT_IDLE (log_err s), w)
          else Some (0, set_state SMBUS_STATE_RCV_DATA s, w)
      | SMBUS_TRANS_WRITE_BYTE =>
          s ← store_byte val (set_blocksize_w 1 s);
          if pec c then Some (0, set_state SMBUS_STATE_RCV_PEC s, w)
          else '(ret, w) ← call_rcv c s w; Some (ret, set_state SMBUS_STATE_WAIT_IDLE s, w)
      | SMBUS_TRANS_WRITE_WORD =>
          s ← store_byte val (set_blocksize_w 2 s);
          Some (0, set_state SMBUS_STATE_RCV_DATA s, w)
      | _ => Some (-1, set_state SMBUS_STATE_WAIT_IDLE (log_err s), w)
      end
  | SMBUS_STATE_RCV_DATA =>
      s ← store_byte val s;
      if rcv_index s =? blocksize_w s then
        c ← curr_cmd;
        if pec c && negb (is_rw_block c) then Some (0, set_state SMBUS_STATE_RCV_PEC s, w)
        else
          '(ret, w) ← call_rcv c s w;
          if (ret =? 0) && is_rw_block c then Some (ret, set_state SMBUS_STATE_CMD s, w)
          else if negb (ret =? 0) then Some (ret, set_state SMBUS_STATE_WAIT_IDLE (log_err s), w)
          else Some (ret, set_state SMBUS_STATE_WAIT_IDLE s, w)
      else Some (0, s, w)
  | SMBUS_STATE_RCV_PEC =>
      let p := pec_crc_8 0 (Z.lor (Z.shiftl (address s) 1) I2C_MSG_WRITE) in
      let p := pec_crc_8 p (command s) in
      c ← curr_cmd;
      let p := if is_write_block c then pec_crc_8 p (blocksize_w s) else p in
      p ← pec_bytes p (received_data s) (blocksize_w s);
      if negb (p =? val) then Some (-1, set_state SMBUS_STATE_WAIT_IDLE (log_err s), w)
      else
        '(ret, w) ← call_rcv c s w;
        if (ret =? 0) && is_rw_block c then Some (ret, set_state SMBUS_STATE_CMD s, w)
        else if negb (ret =? 0) then Some (ret, set_state SMBUS_STATE_WAIT_IDLE (log_err s), w)
        else Some (ret, set_state SMBUS_STATE_WAIT_IDLE s, w)
  | _ => Some (-1, set_state SMBUS_STATE_WAIT_IDLE (log_err s), w)
  end.

(** ** [smbus_read_handler]: a byte requested by the controller

    Returns the status, the byte and the new states. *)
Definition read_error (s : smbus_target_data) (w : W) : Z * Z * smbus_target_data * W :=
  (-1, 0xff, set_state SMBUS_STATE_WAIT_IDLE (log_err s), w).

Definition after_data (c : smbus_cmd_def) : smbus_state :=
  if pec c then SMBUS_STATE_SEND_PEC else SMBUS_STATE_WAIT_IDLE.

Definition smbus_read_handler (s : smbus_target_data) (w : W)
    : option (Z * Z * smbus_target_data * W) :=
  curr_cmd ← get_cmd_def s (command s);
  match state s with
  | SMBUS_STATE_CMD =>
      c ← curr_cmd;
      match trans_type c with
      | SMBUS_TRANS_READ_BLOCK | SMBUS_TRANS_READ_WRITE_BLOCK
      | SMBUS_TRANS_READ_BYTE | SMBUS_TRANS_READ_WORD =>
          h ← send_handler c;
          let '(ret, d, n, w) := h (send_data s) w in
          let s := set_send_buffer d n s in
          if negb (ret =? 0) then Some (read_error s w) else
          match trans_type c with
          | SMBUS_TRANS_READ_WRITE_BLOCK | SMBUS_TRANS_READ_BLOCK =>
              Some (0, blocksize_r s, set_state SMBUS_STATE_SEND_DATA s, w)
          | SMBUS_TRANS_READ_BYTE =>
              '(v, s) ← fetch_byte s; Some (0, v, set_state (after_data c) s, w)
          | SMBUS_TRANS_READ_WORD =>
              '(v, s) ← fetch_byte s; Some (0, v, set_state SMBUS_STATE_SEND_DATA s, w)
          | _ => Some (read_error s w)
          end
      | _ => Some (read_error s w)
      end
  | SMBUS_STATE_SEND_DATA =>
      '(v, s) ← fetch_byte s;
      if send_index s =? blocksize_r s then
        c ← curr_cmd; Some (0, v, set_state (after_data c) s, w)
      else Some (0, v, s, w)
  | SMBUS_STATE_SEND_PEC =>
      let p := pec_crc_8 0 (Z.lor (Z.shiftl (address s) 1) I2C_MSG_WRITE) in
      let p := pec_crc_8 p (command s) in
      c ← curr_cmd;
      let p := if is_rw_block c then pec_crc_8 p (blocksize_w s) else p in
      p ← pec_bytes p (received_data s) (rcv_index s);
      let p := pec_crc_8 p (Z.lor (Z.shiftl (address s) 1) I2C_MSG_READ) in
      let p := if is_read_block c || is_rw_block c then pec_crc_8 p (blocksize_r s) else p in
      p ← pec_bytes p (send_data s) (blocksize_r s);
      Some (0, p, set_state SMBUS_STATE_WAIT_IDLE s, w)
  | _ => Some (read_error s w)
  end.

Definition smbus_target_get_error_count (dev : option smbus_target_data) : Z :=
  match dev with None => 0 | Some s => u32 (error_count s) end.

Definition reset_state_machine (s : smbus_target_data) : smbus_target_data :=
  MkData (address s) (cmd_defs s) (error_count s) SMBUS_STATE_IDLE 0 0 0 0 0
    (received_data s) (send_data s).

Definition smbus_stop_handler (s : smbus_target_data) : Z * smbus_target_data :=
  (0, reset_state_machine s).
Definition smbus_write_requested (s : smbus_target_data) : Z * smbus_target_data :=
  (0, reset_state_machine s).

(** [smbus_target_init]: [ready] is [device_is_ready] of the bus. *)
Definition ENODEV : Z := 19.
Definition EINVAL : Z := 22.
Definition smbus_target_init (ready : bool) (bus_addr : Z) (s : smbus_target_data)
    : Z * smbus_target_data :=
  if negb ready then (- ENODEV, s) else
  (0, MkData bus_addr (cmd_defs s) 0 (state s) (command s) (blocksize_r s) (blocksize_w s)
        (rcv_index s) (send_index s) (received_data s) (send_data s)).

Definition smbus_target_register_cmd (ready : bool) (cmd_id : Z) (c : smbus_cmd_def)
    (s : smbus_target_data) : option (Z * smbus_target_data) :=
  if negb ready then Some (- ENODEV, s) else
  d ← aset (cmd_defs s) cmd_id (Some c);
  Some (0, MkData (address s) d (error_count s) (state s) (command s) (blocksize_r s)
             (blocksize_w s) (rcv_index s) (send_index s) (received_data s) (send_data s)).

Fixpoint register_loop (ready : bool) (cmds : list (Z * smbus_cmd_def)) (s : smbus_target_data)
    : option (Z * smbus_target_data) :=
  match cmds with
  | [] => Some (0, s)
  | (id, c) :: cmds =>
      '(rc, s) ← smbus_target_register_cmd ready id c s;
      if rc <? 0 then Some (rc, s) else register_loop ready cmds s
  end.

Definition smbus_target_register_cmds (ready : bool) (cmds : option (list (Z * smbus_cmd_def)))
    (s : smbus_target_data) : option (Z * smbus_target_data) :=
  match cmds with None => Some (- EINVAL, s) | Some l => register_loop ready l s end.

(** ** Bus events, and runs of them *)

Inductive event := EvWriteRequested | EvWrite (b : Z) | EvRead | EvStop.

(** What the controller observes of one callback. *)
Record reply := MkReply { reply_ret : Z; reply_byte : option Z }.

Definition smbus_event (e : event) (s : smbus_target_data) (w : W)
    : option (reply * smbus_target_data * W) :=
  match e with
  | EvWriteRequested => let '(r, s) := smbus_write_requested s in Some (MkReply r None, s, w)
  | EvWrite b => '(r, s, w) ← smbus_write_handler s b w; Some (MkReply r None, s, w)
  | EvRead => '(r, v, s, w) ← smbus_read_handler s w; Some (MkReply r (Some v), s, w)
  | EvStop => let '(r, s) := smbus_stop_handler s in Some (MkReply r None, s, w)
  end.

Fixpoint smbus_run (es : list event) (s : smbus_target_data) (w : W)
    : option (list reply * smbus_target_data * W) :=
  match es with
  | [] => Some ([], s, w)
  | e :: es =>
      '(r, s, w) ← smbus_event e s w;
      '(rs, s, w) ← smbus_run es s w;
      Some (r :: rs, s, w)
  end.
End smbus.
Arguments smbus_target_data W : clear implicits.
Arguments smbus_cmd_def W : clear implicits.
Arguments smbus_rcv_handler W : clear implicits.
Arguments smbus_send_handler W : clear implicits.

(** ** Lemmas on the buffers *)

Section transactions.
Context {W : Type}.
Variable crc8 : list Z -> Z -> Z -> bool -> Z.
Implicit Types (s : smbus_target_data W) (c : smbus_cmd_def W) (w : W).

Abbreviation crc := (pec_crc_8 crc8).
Abbreviation run := (smbus_run crc8).

(** The PEC of the bytes on the wire. *)
Definition pec_of (bytes : list Z) : Z := fold_left crc bytes 0.

Lemma pec_bytes_app pre data rest p :
  for_loop (length data) (len pre)
    (fun i p => b ← aget (pre ++ data ++ rest) i; Some (crc p b)) p
  = Some (fold_left crc data p).
Proof.
  revert pre p. induction data as [|b data IH]; intros pre p; [done|].
  cbn [length for_loop].
  replace (aget (pre ++ (b :: data) ++ rest) (len pre)) with (Some b).
  - simpl. specialize (IH (pre ++ [b]) (crc p b)).
    rewrite <- IH. f_equal; [rewrite length_app; simpl; lia|].
    by rewrite <- app_assoc.
  - rewrite aget_nat by lia. rewrite Nat2Z.id.
    rewrite lookup_app_r by done. by rewrite Nat.sub_diag.
Qed.

Lemma pec_bytes_prefix data rest p n :
  n = len data -> pec_bytes crc8 p (data ++ rest) n = Some (fold_left crc data p).
Proof.
  intros ->. unfold pec_bytes. rewrite Nat2Z.id.
  apply (pec_bytes_app [] data rest p).
Qed.

(** [s] after the bytes [p] of a message arrived. *)
Definition rcv_prefix (p : list Z) s : smbus_target_data W :=
  MkData (address s) (cmd_defs s) (error_count s) (state s) (command s) (blocksize_r s)
    (blocksize_w s) (len p) (send_index s) (p ++ drop (length p) (received_data s)) (send_data s).

(** What C's types and the initialisation give. *)
Record shape s : Prop := {
  shape_cmds : len (cmd_defs s) = 256;
  shape_rcv : len (received_data s) = CONFIG_SMBUS_MAX_MSG_SIZE;
  shape_send : len (send_data s) = CONFIG_SMBUS_MAX_MSG_SIZE
}.

Lemma drop_cons_overwrite (p buf : list Z) b :
  (length p < length buf)%nat ->
  <[length p := b]> (p ++ drop (length p) buf) = (p ++ [b]) ++ drop (length (p ++ [b])) buf.
Proof.
  intros Hl. replace (length p) with (length p + 0)%nat at 1 by lia.
  rewrite insert_app_r.
  destruct (drop (length p) buf) as [|x l] eqn:E.
  { apply (f_equal length) in E. rewrite length_drop in E. simpl in E. lia. }
  simpl. rewrite length_app. simpl. rewrite Nat.add_1_r, <- app_assoc. simpl.
  do 2 f_equal. by rewrite <- (drop_drop buf (length p) 1%nat), E || (rewrite <- Nat.add_1_r, <- drop_drop, E).
Qed.

Lemma store_byte_prefix p b s :
  len (received_data s) = CONFIG_SMBUS_MAX_MSG_SIZE -> len p < CONFIG_SMBUS_MAX_MSG_SIZE ->
  store_byte b (rcv_prefix p s) = Some (rcv_prefix (p ++ [b]) s).
Proof.
  intros Hl Hp. unfold store_byte, rcv_prefix. cbn [received_data rcv_index].
  rewrite aset_in.
  - simpl. rewrite Nat2Z.id, drop_cons_overwrite by lia. do 2 f_equal.
    rewrite length_app. simpl. unfold CONFIG_SMBUS_MAX_MSG_SIZE in *. unwrap.
    rewrite Z.mod_small by lia. lia.
  - rewrite length_app, length_drop. lia.
Qed.

Lemma rcv_prefix_nil s : rcv_index s = 0 -> rcv_prefix [] s = s.
Proof. destruct s. simpl. by intros ->. Qed.

(** ** The receiving half *)

(** What happens once the last data byte is stored. *)
Definition deliver c s w : option (Z * smbus_target_data W * W) :=
  if pec c && negb (is_rw_block c) then Some (0, set_state SMBUS_STATE_RCV_PEC s, w) else
  '(ret, w) ← call_rcv c s w;
  Some (ret, (if (ret =? 0) && is_rw_block c then set_state SMBUS_STATE_CMD s
              else if negb (ret =? 0) then set_state SMBUS_STATE_WAIT_IDLE (log_err s)
              else set_state SMBUS_STATE_WAIT_IDLE s), w).

Definition ok_reply : reply := MkReply 0 None.

Lemma rcv_data_run c rest : forall p s w,
  shape s -> state s = SMBUS_STATE_RCV_DATA -> aget (cmd_defs s) (command s) = Some (Some c) ->
  rest <> [] -> len p + len rest = blocksize_w s -> blocksize_w s <= CONFIG_SMBUS_MAX_MSG_SIZE ->
  run (map EvWrite rest) (rcv_prefix p s) w =
    '(r, s', w') ← deliver c (rcv_prefix (p ++ rest) s) w;
    Some (replicate (length rest - 1) ok_reply ++ [MkReply r None], s', w').
Proof.
  induction rest as [|b rest IH]; intros p s w Hsh Hst Hc Hne Hn Hmax; [done|].
  cbn [map smbus_run smbus_event]. simpl length in Hn.
  unfold smbus_write_handler at 1, get_cmd_def.
  cbn [rcv_prefix cmd_defs command state]. rewrite Hst, Hc. simpl.
  rewrite store_byte_prefix by (destruct Hsh; done || lia).
  cbn [mbind option_bind rcv_index rcv_prefix blocksize_w]. rewrite length_app.
  destruct rest as [|b' rest].
  - rewrite (proj2 (Z.eqb_eq _ _)) by (simpl in *; lia). unfold deliver. simpl.
    destruct (pec c && negb (is_rw_block c)); [done|].
    destruct (call_rcv c _ w) as [[ret w1]|]; [|done]. simpl.
    by repeat case_match.
  - rewrite (proj2 (Z.eqb_neq _ _)) by (simpl in *; lia). cbn [mbind option_bind].
    change (MkData _ _ _ _ _ _ _ _ _ _ _) with (rcv_prefix (p ++ [b]) s).
    rewrite (IH (p ++ [b]) s w Hsh Hst Hc) by (done || (rewrite length_app; simpl in *; lia)).
    rewrite <- app_assoc. simpl.
    destruct (deliver c _ w) as [[[r s1] w1]|]; [|done]. simpl. by rewrite Nat.sub_0_r.
Qed.

(** A state between transactions. *)
Record idle s : Prop := {
  idle_shape : shape s;
  idle_state : state s = SMBUS_STATE_IDLE;
  idle_rcv : rcv_index s = 0;
  idle_send : send_index s = 0
}.

Lemma reset_idle s : shape s -> idle (reset_state_machine s).
Proof. intros [? ? ?]. by constructor. Qed.

(** The first byte selects the command. *)
Lemma run_command cmd c es s w :
  idle s -> is_u8 (command s) -> is_u8 cmd -> aget (cmd_defs s) cmd = Some (Some c) ->
  run (EvWrite cmd :: es) s w =
    '(rs, s', w') ← run es (set_state SMBUS_STATE_CMD (set_command cmd s)) w;
    Some (ok_reply :: rs, s', w').
Proof.
  intros [[H1 ? ?] H2 ? ?] Hu Hu' Hc. cbn [smbus_run smbus_event].
  unfold smbus_write_handler at 1, get_cmd_def. rewrite H2.
  destruct (aget_in (cmd_defs s) (command s)) as [o ->]; [unwrap; lia|]. simpl.
  rewrite Hc. done.
Qed.

Definition is_write_type (t : smbus_trans_type) : Prop :=
  t = SMBUS_TRANS_WRITE_BYTE \/ t = SMBUS_TRANS_WRITE_WORD \/ t = SMBUS_TRANS_WRITE_BLOCK.

(** The number of data bytes each write transaction carries, and its bytes on
    the wire after the command code. *)
Definition write_size_ok (t : smbus_trans_type) (n : Z) : Prop :=
  match t with
  | SMBUS_TRANS_WRITE_BYTE => n = 1
  | SMBUS_TRANS_WRITE_WORD => n = 2
  | _ => 1 <= n <= CONFIG_SMBUS_MAX_MSG_SIZE
  end.
Definition write_frame (t : smbus_trans_type) (data : list Z) : list Z :=
  match t with
  | SMBUS_TRANS_WRITE_BYTE | SMBUS_TRANS_WRITE_WORD => data
  | _ => len data :: data
  end.
Definition address_w s : Z := Z.lor (Z.shiftl (address s) 1) I2C_MSG_WRITE.
Definition address_r s : Z := Z.lor (Z.shiftl (address s) 1) I2C_MSG_READ.

(** The whole frame is received, then delivered.  (A byte write without PEC is
    delivered by its own branch of the source, which does not count an error.) *)
Definition received s n data : smbus_target_data W :=
  rcv_prefix data (set_state SMBUS_STATE_RCV_DATA (set_blocksize_w n s)).

Lemma run_frame c data s w :
  shape s -> state s = SMBUS_STATE_CMD -> rcv_index s = 0 ->
  aget (cmd_defs s) (command s) = Some (Some c) ->
  is_write_type (trans_type c) \/ trans_type c = SMBUS_TRANS_READ_WRITE_BLOCK ->
  write_size_ok (trans_type c) (len data) ->
  trans_type c <> SMBUS_TRANS_WRITE_BYTE ->
  run (map EvWrite (write_frame (trans_type c) data)) s w =
    '(r, s', w') ← deliver c (received s (len data) data) w;
    Some (replicate (length (write_frame (trans_type c) data) - 1) ok_reply ++ [MkReply r None], s', w').
Proof.
  intros Hsh Hst Hr Hc Ht Hn Hnb.
  assert (Hsh' : forall n t, shape (set_state t (set_blocksize_w n s))) by (by destruct Hsh).
  destruct (decide (trans_type c = SMBUS_TRANS_WRITE_WORD)) as [Hw|Hw].
  - rewrite Hw in *. simpl in Hn.
    destruct data as [|b0 [|b1 [|]]]; simpl in Hn; try lia.
    assert (Hstep : smbus_write_handler crc8 s b0 w =
      Some (0, rcv_prefix [b0] (set_state SMBUS_STATE_RCV_DATA (set_blocksize_w 2 s)), w)).
    { unfold smbus_write_handler, get_cmd_def. rewrite Hst, Hc. simpl. rewrite Hw.
      rewrite <- (rcv_prefix_nil (set_blocksize_w 2 s)) by done.
      rewrite store_byte_prefix by (destruct Hsh; done). done. }
    change (map EvWrite (write_frame SMBUS_TRANS_WRITE_WORD [b0; b1])) with (EvWrite b0 :: map EvWrite [b1]).
    cbn [smbus_run smbus_event]. rewrite Hstep. cbn [mbind option_bind].
    rewrite (rcv_data_run c [b1] [b0]) by (done || auto).
    unfold received. simpl. by destruct (deliver c _ w) as [[[r s1] w1]|].
  - assert (Hf : write_frame (trans_type c) data = len data :: data).
    { destruct (trans_type c); done || (unfold is_write_type in Ht; naive_solver). }
    assert (Hb : 1 <= len data <= CONFIG_SMBUS_MAX_MSG_SIZE).
    { destruct (trans_type c); done || (unfold is_write_type in Ht; naive_solver). }
    assert (Hstep : smbus_write_handler crc8 s (len data) w =
      Some (0, set_state SMBUS_STATE_RCV_DATA (set_blocksize_w (len data) s), w)).
    { unfold smbus_write_handler, get_cmd_def. rewrite Hst, Hc. simpl.
      destruct (Z.ltb_spec CONFIG_SMBUS_MAX_MSG_SIZE (len data)); [lia|].
      destruct (trans_type c); done || (unfold is_write_type in Ht; naive_solver). }
    rewrite Hf. cbn [map smbus_run smbus_event]. rewrite Hstep. simpl.
    rewrite <- (rcv_prefix_nil (set_state _ _)) by done.
    rewrite (rcv_data_run c) by (done || auto || (intros ->; simpl in *; lia) || (simpl; lia)).
    unfold received. simpl. destruct (deliver c _ w) as [[[r s'] w']|]; [|done]. simpl.
    do 3 f_equal. destruct data as [|b data]; [simpl in *; lia|]. simpl.
    by rewrite Nat.sub_0_r.
Qed.

Lemma smbus_run_app es1 es2 s w :
  run (es1 ++ es2) s w =
    '(r1, s, w) ← run es1 s w; '(r2, s, w) ← run es2 s w; Some (r1 ++ r2, s, w).
Proof.
  revert s w. induction es1 as [|e es1 IH]; intros s w; cbn [app smbus_run].
  - simpl. by destruct (run es2 s w) as [[[? ?] ?]|].
  - destruct (smbus_event crc8 e s w) as [[[r s1] w1]|]; [|done]. cbn [mbind option_bind].
    rewrite IH. destruct (run es1 s1 w1) as [[[r1 s2] w2]|]; [|done]. cbn [mbind option_bind].
    by destruct (run es2 s2 w2) as [[[? ?] ?]|].
Qed.

(** The PEC byte, checked in state RCV_PEC. *)
Definition expected_write_pec s c data : Z :=
  pec_of ([address_w s; command s] ++ write_frame (trans_type c) data).

Lemma run_pec_byte c data s n val w :
  n = len data -> state s = SMBUS_STATE_RCV_PEC -> aget (cmd_defs s) (command s) = Some (Some c) ->
  is_write_type (trans_type c) -> blocksize_w s = n ->
  (exists rest, received_data s = data ++ rest) ->
  run [EvWrite val] s w =
    if val =? expected_write_pec s c data then
      '(ret, w') ← call_rcv c s w;
      Some ([MkReply ret None],
            (if ret =? 0 then set_state SMBUS_STATE_WAIT_IDLE s
             else set_state SMBUS_STATE_WAIT_IDLE (log_err s)), w')
    else Some ([MkReply (-1) None], set_state SMBUS_STATE_WAIT_IDLE (log_err s), w).
Proof.
  intros Hn Hst Hc Ht Hb [rest Hrest]. cbn [smbus_run smbus_event].
  unfold smbus_write_handler, get_cmd_def. rewrite Hst, Hc. cbn [mbind option_bind].
  rewrite Hrest, pec_bytes_prefix by congruence. cbn [mbind option_bind].
  assert (Hrw : is_rw_block c = false).
  { unfold is_rw_block. apply bool_decide_eq_false. by destruct Ht as [-> | [-> | ->] ]. }
  replace (fold_left crc data _) with (expected_write_pec s c data).
  - rewrite Z.eqb_sym. destruct (val =? _); simpl; [|done].
    destruct (call_rcv c s w) as [[ret w']|]; [|done]. simpl.
    rewrite Hrw, andb_false_r. by destruct (ret =? 0).
  - unfold expected_write_pec, pec_of, is_write_block.
    destruct Ht as [-> | [-> | ->] ]; cbn [write_frame app fold_left]; try done.
    rewrite bool_decide_eq_true_2 by done. by rewrite Hb, Hn.
Qed.

Lemma set_state_shape t s : shape s -> shape (set_state t s).
Proof. by intros [? ? ?]. Qed.

(** Everything up to the PEC byte. *)
Lemma run_write_frame c h cmd data s w :
  let s1 := set_state SMBUS_STATE_CMD (set_command cmd s) in
  idle s -> aget (cmd_defs s) cmd = Some (Some c) -> is_write_type (trans_type c) ->
  write_size_ok (trans_type c) (len data) -> rcv_handler c = Some h ->
  exists oks s2, Forall (eq ok_reply) oks /\
    (if pec c then
       run (map EvWrite (write_frame (trans_type c) data)) s1 w = Some (oks, s2, w) /\
       s2 = set_state SMBUS_STATE_RCV_PEC (received s1 (len data) data)
     else
       run (map EvWrite (write_frame (trans_type c) data)) s1 w =
         Some (oks ++ [MkReply (h (data ++ drop (length data) (received_data s)) (len data) w).1 None], s2,
               (h (data ++ drop (length data) (received_data s)) (len data) w).2) /\
       state s2 = SMBUS_STATE_WAIT_IDLE /\
       (trans_type c <> SMBUS_TRANS_WRITE_BYTE ->
          error_count s2 = error_count s +
            (if (h (data ++ drop (length data) (received_data s)) (len data) w).1 =? 0 then 0 else 1))).
Proof.
  intros s1 Hidle Hc Ht Hn Hh.
  assert (Hsh1 : shape s1) by (destruct Hidle as [[? ? ?] ? ? ?]; by constructor).
  assert (Hrw : is_rw_block c = false).
  { unfold is_rw_block. apply bool_decide_eq_false. by destruct Ht as [-> | [-> | ->] ]. }
  destruct (decide (trans_type c = SMBUS_TRANS_WRITE_BYTE)) as [Hb|Hb].
  - rewrite Hb in Hn |- *. simpl in Hn. destruct data as [|b [|]]; simpl in Hn; try lia.
    assert (Hstep : smbus_write_handler crc8 s1 b w =
      let s2 := rcv_prefix [b] (set_blocksize_w 1 s1) in
      if pec c then Some (0, set_state SMBUS_STATE_RCV_PEC s2, w)
      else '(ret, w) ← call_rcv c s2 w; Some (ret, set_state SMBUS_STATE_WAIT_IDLE s2, w)).
    { unfold smbus_write_handler, get_cmd_def. simpl. rewrite Hc. simpl. rewrite Hb.
      rewrite <- (rcv_prefix_nil (set_blocksize_w 1 s1)) at 1 by (destruct Hidle; done).
      rewrite store_byte_prefix by (destruct Hsh1; done). done. }
    cbn [write_frame map smbus_run smbus_event]. rewrite Hstep.
    destruct (pec c).
    + by exists [ok_reply], (set_state SMBUS_STATE_RCV_PEC (received s1 1 [b])); repeat constructor.
    + assert (Hcall : call_rcv c (rcv_prefix [b] (set_blocksize_w 1 s1)) w =
        Some (h ([b] ++ drop (length [b]) (received_data s)) (len [b]) w))
        by (unfold call_rcv; by rewrite Hh).
      cbv zeta. rewrite Hcall. cbn [mbind option_bind].
      destruct (h _ (len [b]) w) as [ret w1]. exists []. eexists. by split_and!.
  - rewrite (run_frame c data s1 w) by (try done; try (by left); try (destruct Hidle; done)).
    unfold deliver. rewrite Hrw. cbn [negb]. rewrite andb_true_r.
    exists (replicate (length (write_frame (trans_type c) data) - 1) ok_reply ++
            (if pec c then [ok_reply] else [])).
    destruct (pec c).
    + eexists. split; [|by split].
      apply Forall_app. split; [by apply Forall_replicate|by repeat constructor].
    + unfold call_rcv. rewrite Hh. cbn [mbind option_bind].
      change (received_data (received s1 (len data) data)) with (data ++ drop (length data) (received_data s)).
      change (blocksize_w (received s1 (len data) data)) with (len data).
      destruct (h _ (len data) w) as [ret w1]. simpl. rewrite app_nil_r, andb_false_r.
      eexists. split; [by apply Forall_replicate|]. split; [done|].
      destruct (ret =? 0); simpl; split; done || (intros; lia).
Qed.

(** C9: Write transactions.  From an idle target, a write-byte, write-word or
    write-block command with its bytes (and the PEC byte when the command
    demands one) makes the target call the receive handler exactly once, with
    the bytes received and their number, when the PEC is that of the whole wire
    message (address, command, size for blocks, data) or none is demanded;
    otherwise the handler is not called, the application state is untouched and
    the last byte is refused.  Either way the target then waits for the bus to
    go idle. *)
Theorem smbus_write_transaction c h cmd data val s w
    (Hidle : idle s) (Hcmd0 : is_u8 (command s)) (Hcmd : is_u8 cmd)
    (Hc : aget (cmd_defs s) cmd = Some (Some c)) (Ht : is_write_type (trans_type c))
    (Hn : write_size_ok (trans_type c) (len data)) (Hh : rcv_handler c = Some h) :
  let accepted := negb (pec c) ||
    (val =? pec_of ([address_w s; cmd] ++ write_frame (trans_type c) data)) in
  let result := if accepted then h (data ++ drop (length data) (received_data s)) (len data) w
                else (-1, w) in
  exists oks s',
    run (EvWrite cmd :: map EvWrite (write_frame (trans_type c) data)
           ++ (if pec c then [EvWrite val] else [])) s w
      = Some (oks ++ [MkReply result.1 None], s', result.2) /\
    Forall (eq ok_reply) oks /\ state s' = SMBUS_STATE_WAIT_IDLE /\
    (trans_type c <> SMBUS_TRANS_WRITE_BYTE \/ pec c = true ->
       error_count s' = error_count s + (if result.1 =? 0 then 0 else 1)).
Proof.
  intros accepted result.
  rewrite (run_command cmd c) by done.
  destruct (run_write_frame c h cmd data s w) as (oks & s2 & Hoks & Hrun); [done..|].
  rewrite smbus_run_app. destruct (pec c) eqn:Hpec.
  - destruct Hrun as [-> ->]. cbn [mbind option_bind].
    rewrite (run_pec_byte c data _ (len data)); [..|done| |]; try done.
    2: { exists (drop (length data) (received_data s)). done. }
    change (expected_write_pec _ c data)
      with (pec_of ([address_w s; cmd] ++ write_frame (trans_type c) data)).
    exists (ok_reply :: oks). subst result accepted. cbn [negb orb].
    destruct (val =? _).
    + unfold call_rcv. rewrite Hh. cbn [mbind option_bind].
      change (h (received_data _) (blocksize_w _) w) with
        (h (data ++ drop (length data) (received_data s)) (len data) w).
      destruct (h _ (len data) w) as [ret w1]. simpl.
      eexists. split; [done|]. split; [by constructor|].
      destruct (ret =? 0); simpl; split; done || (intros; lia).
    + simpl. eexists. split; [done|]. split; [by constructor|]. done.
  - destruct Hrun as (-> & Hst & Herr). cbn [mbind option_bind smbus_run].
    subst result accepted. cbn [negb orb]. exists (ok_reply :: oks), s2.
    rewrite app_nil_r. split; [done|]. split; [by constructor|]. split; [done|].
    intros [?|?]; [by apply Herr|done].
Qed.

(** ** The sending half *)

(** [s] after [i] bytes of the send buffer went out. *)
Definition sent (i : Z) s : smbus_target_data W :=
  MkData (address s) (cmd_defs s) (error_count s) (state s) (command s) (blocksize_r s)
    (blocksize_w s) (rcv_index s) i (received_data s) (send_data s).

Definition ok_byte (b : Z) : reply := MkReply 0 (Some b).

Lemma fetch_byte_sent pre b post s :
  send_data s = pre ++ b :: post -> len (send_data s) = CONFIG_SMBUS_MAX_MSG_SIZE ->
  fetch_byte (sent (len pre) s) = Some (b, sent (len pre + 1) s).
Proof.
  intros Hd Hl. unfold fetch_byte. cbn [sent send_data send_index]. rewrite Hd.
  rewrite aget_nat, Nat2Z.id, lookup_app_r, Nat.sub_diag by lia. simpl.
  rewrite Hd, length_app in Hl. simpl in Hl. unfold sent. do 3 f_equal; [|done].
  unfold CONFIG_SMBUS_MAX_MSG_SIZE in *. apply wrap_small. unwrap. lia.
Qed.

Lemma run_send_data c rest : forall pre post s w,
  shape s -> state s = SMBUS_STATE_SEND_DATA -> aget (cmd_defs s) (command s) = Some (Some c) ->
  rest <> [] -> send_data s = pre ++ rest ++ post -> blocksize_r s = len pre + len rest ->
  run (replicate (length rest) EvRead) (sent (len pre) s) w =
    Some (map ok_byte rest, set_state (after_data c) (sent (blocksize_r s) s), w).
Proof.
  induction rest as [|b rest IH]; intros pre post s w Hsh Hst Hc Hne Hd Hn; [done|].
  cbn [length replicate smbus_run smbus_event].
  unfold smbus_read_handler at 1, get_cmd_def. cbn [sent cmd_defs command state]. rewrite Hst, Hc.
  cbn [mbind option_bind].
  rewrite (fetch_byte_sent pre b (rest ++ post) s) by (done || by destruct Hsh).
  cbn [mbind option_bind sent send_index blocksize_r].
  destruct rest as [|b' rest].
  - rewrite (proj2 (Z.eqb_eq _ _)) by (simpl in *; lia). simpl.
    do 3 f_equal. unfold sent. simpl. by rewrite Hn.
  - rewrite (proj2 (Z.eqb_neq _ _)) by (simpl in *; lia). cbn [mbind option_bind].
    change (MkData _ _ _ _ _ _ _ _ _ _ _) with (sent (len pre + 1) s).
    replace (len pre + 1) with (len (pre ++ [b])) by (rewrite length_app; simpl; lia).
    rewrite (IH (pre ++ [b]) post s w Hsh Hst Hc); [done|done| |].
    + by rewrite <- app_assoc.
    + rewrite length_app. simpl in *. lia.
Qed.

Definition is_read_type (t : smbus_trans_type) : Prop :=
  t = SMBUS_TRANS_READ_BYTE \/ t = SMBUS_TRANS_READ_WORD \/ t = SMBUS_TRANS_READ_BLOCK \/
  t = SMBUS_TRANS_READ_WRITE_BLOCK.

(** The sizes a send handler may report, and the bytes the target then sends. *)
Definition read_size_ok (t : smbus_trans_type) (n : Z) : Prop :=
  match t with
  | SMBUS_TRANS_READ_BYTE => n = 1
  | SMBUS_TRANS_READ_WORD => n = 2
  | _ => 1 <= n <= CONFIG_SMBUS_MAX_MSG_SIZE
  end.
Definition read_frame (t : smbus_trans_type) (data : list Z) : list Z :=
  match t with
  | SMBUS_TRANS_READ_BYTE | SMBUS_TRANS_READ_WORD => data
  | _ => len data :: data
  end.

(** All the bytes of a read transaction before its PEC. *)
Definition read_wire s c prefix data : list Z :=
  [address_w s; command s] ++
  (if decide (trans_type c = SMBUS_TRANS_READ_WRITE_BLOCK) then [blocksize_w s] else []) ++
  prefix ++ [address_r s] ++ read_frame (trans_type c) data.

Lemma run_send_pec c prefix data s w rest1 rest2 :
  state s = SMBUS_STATE_SEND_PEC -> aget (cmd_defs s) (command s) = Some (Some c) ->
  is_read_type (trans_type c) ->
  received_data s = prefix ++ rest1 -> rcv_index s = len prefix ->
  send_data s = data ++ rest2 -> blocksize_r s = len data ->
  run [EvRead] s w = Some ([ok_byte (pec_of (read_wire s c prefix data))],
                           set_state SMBUS_STATE_WAIT_IDLE s, w).
Proof.
  intros Hst Hc Ht Hr Hri Hd Hn. cbn [smbus_run smbus_event].
  unfold smbus_read_handler, get_cmd_def. rewrite Hst, Hc. cbn [mbind option_bind].
  rewrite Hr, pec_bytes_prefix by done. cbn [mbind option_bind].
  rewrite Hd, pec_bytes_prefix by done. cbn [mbind option_bind].
  unfold ok_byte. do 5 f_equal. unfold pec_of, read_wire, is_rw_block, is_read_block.
  rewrite Hn. rewrite !fold_left_app.
  by destruct Ht as [Ht | [Ht | [Ht | Ht] ] ]; rewrite Ht.
Qed.

(** *** The reply phase from state CMD, whatever was received before *)
Section reply.
Context (c : smbus_cmd_def W) (h : smbus_send_handler W) (prefix rest : list Z)
  (s : smbus_target_data W) (w w' : W) (d : list Z) (n : Z).
Hypothesis Hsh : shape s.
Hypothesis Hst : state s = SMBUS_STATE_CMD.
Hypothesis Hsi : send_index s = 0.
Hypothesis Hc : aget (cmd_defs s) (command s) = Some (Some c).
Hypothesis Ht : is_read_type (trans_type c).
Hypothesis Hr : received_data s = prefix ++ rest.
Hypothesis Hri : rcv_index s = len prefix.
Hypothesis Hh : send_handler c = Some h.
Hypothesis Hcall : h (send_data s) w = (0, d, n, w').
Hypothesis Hd : len d = CONFIG_SMBUS_MAX_MSG_SIZE.
Hypothesis Hn : read_size_ok (trans_type c) n.

Let data : list Z := take (Z.to_nat n) d.
Let s1 : smbus_target_data W := set_state SMBUS_STATE_SEND_DATA (set_send_buffer d n s).

Lemma reply_data_length : 1 <= n <= CONFIG_SMBUS_MAX_MSG_SIZE /\ len data = n.
Proof.
  assert (Hn64 : 1 <= n <= CONFIG_SMBUS_MAX_MSG_SIZE).
  { destruct (trans_type c); simpl in Hn; unfold CONFIG_SMBUS_MAX_MSG_SIZE in *; lia. }
  split; [done|]. unfold data. rewrite length_take. lia.
Qed.

Lemma reply_data_split : d = data ++ drop (Z.to_nat n) d.
Proof. unfold data. by rewrite take_drop. Qed.

Lemma sent_0 : sent 0 s1 = s1.
Proof. unfold s1. rewrite <- Hsi. by destruct s. Qed.

(** The first byte out: the size for block replies, else the first data byte. *)
Lemma reply_first_byte :
  smbus_read_handler crc8 s w =
    if decide (trans_type c = SMBUS_TRANS_READ_BYTE)
    then Some (0, nth 0 data 0, set_state (after_data c) (sent 1 s1), w')
    else if decide (trans_type c = SMBUS_TRANS_READ_WORD) then Some (0, nth 0 data 0, sent 1 s1, w')
    else Some (0, n, s1, w').
Proof.
  destruct reply_data_length as [? Hdata]. pose proof reply_data_split as Hsplit.
  unfold smbus_read_handler, get_cmd_def. rewrite Hst, Hc. cbn [mbind option_bind].
  rewrite Hh. cbn [mbind option_bind]. rewrite Hcall. cbn [Z.eqb negb].
  destruct data as [|b0 data'] eqn:Edata; [simpl in Hdata; lia|].
  assert (Hf : fetch_byte (set_send_buffer d n s) = Some (b0, sent 1 (set_send_buffer d n s))).
  { pose proof (fetch_byte_sent [] b0 (data' ++ drop (Z.to_nat n) d) (set_send_buffer d n s)) as Hf.
    change (len []) with 0 in Hf. change (0 + 1) with 1 in Hf.
    replace (sent 0 (set_send_buffer d n s)) with (set_send_buffer d n s) in Hf
      by (rewrite <- Hsi; by destruct s).
    by apply Hf. }
  destruct Ht as [E | [E | [E | E] ] ]; rewrite E; simpl; rewrite ?Hf; done.
Qed.

Lemma run_reply_data :
  run (replicate (length (read_frame (trans_type c) data)) EvRead) s w
    = Some (map ok_byte (read_frame (trans_type c) data),
            set_state (after_data c)
              (sent (if decide (trans_type c = SMBUS_TRANS_READ_BYTE) then 1 else n) s1), w').
Proof.
  destruct reply_data_length as [? Hdata]. pose proof reply_data_split as Hsplit.
  pose proof reply_first_byte as Hfirst.
  assert (Hsh1 : shape s1) by (by destruct Hsh).
  destruct (decide (trans_type c = SMBUS_TRANS_READ_BYTE)) as [E|Eb];
    [|destruct (decide (trans_type c = SMBUS_TRANS_READ_WORD)) as [E|Ew]].
  - rewrite E in Hn |- *. simpl in Hn. destruct data as [|b0 [|]]; simpl in Hdata; try lia.
    cbn [read_frame length replicate smbus_run smbus_event]. by rewrite Hfirst.
  - rewrite E in Hn |- *. simpl in Hn. destruct data as [|b0 [|b1 [|]]]; simpl in Hdata; try lia.
    change (replicate (length (read_frame SMBUS_TRANS_READ_WORD [b0; b1])) EvRead)
      with (EvRead :: replicate (length [b1]) EvRead).
    cbn [smbus_run smbus_event]. rewrite Hfirst. cbn [mbind option_bind].
    change 1 with (len [b0]).
    rewrite (run_send_data c [b1] [b0] (drop (Z.to_nat n) d) s1) by (done || auto). done.
  - assert (Hfr : read_frame (trans_type c) data = n :: data).
    { rewrite <- Hdata at 1. destruct Ht as [E | [E | [E | E] ] ]; rewrite E in *; done. }
    rewrite Hfr. cbn [length replicate smbus_run smbus_event].
    rewrite Hfirst. cbn [mbind option_bind].
    pose proof (run_send_data c data [] (drop (Z.to_nat n) d) s1 w' Hsh1 eq_refl Hc) as Hrun.
    change (len []) with 0 in Hrun. rewrite sent_0 in Hrun. rewrite Hrun; [done| |done|simpl; lia].
    intros E. rewrite E in Hdata. simpl in Hdata. lia.
Qed.

Lemma run_reply :
  exists s',
    run (replicate (length (read_frame (trans_type c) data)) EvRead
           ++ (if pec c then [EvRead] else [])) s w
      = Some (map ok_byte (read_frame (trans_type c) data ++
                (if pec c then [pec_of (read_wire s c prefix data)] else [])), s', w') /\
    state s' = SMBUS_STATE_WAIT_IDLE.
Proof.
  rewrite smbus_run_app, run_reply_data. cbn [mbind option_bind].
  destruct reply_data_length as [? Hdata]. pose proof reply_data_split as Hsplit.
  destruct (pec c) eqn:Hpec.
  - erewrite (run_send_pec c prefix data _ w' rest (drop (Z.to_nat n) d)); try done.
    + cbn [mbind option_bind]. rewrite map_app. eexists. by split.
    + unfold after_data. simpl. by rewrite Hpec.
  - simpl. rewrite !app_nil_r. eexists. split; [done|]. unfold after_data. simpl. by rewrite Hpec.
Qed.
End reply.

(** C10: Read transactions.  From an idle target, a read-byte, read-word or
    read-block command whose send handler succeeds makes the target send the
    handler's bytes in order, preceded by their number for block reads, and
    followed, when the command demands it, by the PEC of the whole wire message
    (address with the write bit, command, address with the read bit, bytes
    sent); the handler runs once and the target then waits for the bus. *)
Theorem smbus_read_transaction c h cmd d n s w w'
    (Hidle : idle s) (Hcmd0 : is_u8 (command s)) (Hcmd : is_u8 cmd)
    (Hc : aget (cmd_defs s) cmd = Some (Some c))
    (Ht : is_read_type (trans_type c)) (Hnrw : trans_type c <> SMBUS_TRANS_READ_WRITE_BLOCK)
    (Hh : send_handler c = Some h) (Hcall : h (send_data s) w = (0, d, n, w'))
    (Hd : len d = CONFIG_SMBUS_MAX_MSG_SIZE) (Hn : read_size_ok (trans_type c) n) :
  let data := take (Z.to_nat n) d in
  let frame := read_frame (trans_type c) data in
  exists s',
    run (EvWrite cmd :: replicate (length frame) EvRead ++ (if pec c then [EvRead] else [])) s w
      = Some (ok_reply :: map ok_byte (frame ++
                (if pec c then [pec_of ([address_w s; cmd; address_r s] ++ frame)] else [])), s', w') /\
    state s' = SMBUS_STATE_WAIT_IDLE.
Proof.
  intros data frame. rewrite (run_command cmd c) by done.
  destruct Hidle as [Hsh Hst Hri Hsi].
  destruct (run_reply c h [] (received_data s) (set_state SMBUS_STATE_CMD (set_command cmd s)) w w' d n)
    as (s' & Hrun & Hend); try done; [by destruct Hsh|].
  unfold frame, data in *. rewrite Hrun. exists s'. split; [|done]. simpl.
  unfold read_wire. by rewrite decide_False by done.
Qed.

(** Block process calls.  A write of a block followed by a read of a block
    under one command: the receive handler gets the block written, and when it
    succeeds the send handler's block is returned with its size and, when
    demanded, the PEC over both halves of the message. *)
Theorem smbus_block_process_call c hr hs cmd data d n s w w1 w2
    (Hidle : idle s) (Hcmd0 : is_u8 (command s)) (Hcmd : is_u8 cmd)
    (Hc : aget (cmd_defs s) cmd = Some (Some c))
    (Ht : trans_type c = SMBUS_TRANS_READ_WRITE_BLOCK)
    (Hsize : 1 <= len data <= CONFIG_SMBUS_MAX_MSG_SIZE)
    (Hhr : rcv_handler c = Some hr) (Hhs : send_handler c = Some hs)
    (Hrcv : hr (data ++ drop (length data) (received_data s)) (len data) w = (0, w1))
    (Hsnd : hs (send_data s) w1 = (0, d, n, w2))
    (Hd : len d = CONFIG_SMBUS_MAX_MSG_SIZE) (Hn : 1 <= n <= CONFIG_SMBUS_MAX_MSG_SIZE) :
  let answer := n :: take (Z.to_nat n) d in
  exists s',
    run (EvWrite cmd :: map EvWrite (len data :: data) ++
         replicate (length answer) EvRead ++ (if pec c then [EvRead] else [])) s w
      = Some (ok_reply :: replicate (S (length data)) ok_reply ++
              map ok_byte (answer ++ (if pec c then
                [pec_of ([address_w s; cmd; len data] ++ data ++ [address_r s] ++ answer)] else [])), s', w2) /\
    state s' = SMBUS_STATE_WAIT_IDLE.
Proof.
  intros answer. rewrite (run_command cmd c) by done.
  destruct Hidle as [Hsh Hst Hri Hsi].
  set (s1 := set_state SMBUS_STATE_CMD (set_command cmd s)).
  assert (Hsh1 : shape s1) by (by destruct Hsh).
  pose proof (run_frame c data s1 w Hsh1 eq_refl Hri Hc (or_intror Ht)) as Hframe.
  rewrite Ht in Hframe. specialize (Hframe Hsize ltac:(done)). cbn [write_frame] in Hframe.
  rewrite smbus_run_app, Hframe. unfold deliver, is_rw_block. rewrite bool_decide_eq_true_2 by done.
  rewrite andb_false_r. unfold call_rcv. rewrite Hhr. cbn [mbind option_bind].
  change (received_data (received s1 (len data) data)) with (data ++ drop (length data) (received_data s)).
  change (blocksize_w (received s1 (len data) data)) with (len data).
  rewrite Hrcv. cbn [Z.eqb andb mbind option_bind].
  set (s2 := set_state SMBUS_STATE_CMD (received s1 (len data) data)).
  destruct (run_reply c hs data (drop (length data) (received_data s)) s2 w1 w2 d n)
    as (s' & Hrun & Hend); try done.
  - destruct Hsh as [? Hl ?]. constructor; [done| |done]. simpl.
    rewrite length_app, length_drop. lia.
  - by right; right; right.
  - by rewrite Ht.
  - assert (Hlen : len (take (Z.to_nat n) d) = n) by (rewrite length_take; lia).
    rewrite Ht in Hrun. cbn [read_frame] in Hrun. rewrite Hlen in Hrun.
    subst answer. rewrite Hrun. cbn [mbind option_bind]. exists s'. split; [|done].
    assert (Hrep : replicate (S (length data)) ok_reply
                   = replicate (length (len data :: data) - 1) ok_reply ++ [MkReply 0 None]).
    { cbn [length]. rewrite Nat.sub_succ, Nat.sub_0_r. by rewrite <- replicate_S_end. }
    rewrite Hrep. unfold read_wire. rewrite decide_True by done. rewrite Ht. cbn [read_frame].
    rewrite Hlen. by destruct (pec c).
Qed.

(** ** Memory safety *)

(** A command entry the framework may register: the handlers its type needs are
    there, and the send handler respects the buffer and the size of its type. *)
Definition cmd_ok c : Prop :=
  (is_write_type (trans_type c) \/ trans_type c = SMBUS_TRANS_READ_WRITE_BLOCK ->
     is_Some (rcv_handler c)) /\
  (is_read_type (trans_type c) -> exists h, send_handler c = Some h /\
     forall buf w, len buf = CONFIG_SMBUS_MAX_MSG_SIZE ->
       let '(ret, d, n, _) := h buf w in
       len d = CONFIG_SMBUS_MAX_MSG_SIZE /\ (ret = 0 -> read_size_ok (trans_type c) n)).

Definition table_ok s : Prop :=
  len (cmd_defs s) = 256 /\ Forall (fun o => forall c, o = Some c -> cmd_ok c) (cmd_defs s).

(** The command of the transaction in progress. *)
Definition active s c : Prop := aget (cmd_defs s) (command s) = Some (Some c).
Definition takes_bytes c : Prop :=
  is_write_type (trans_type c) \/ trans_type c = SMBUS_TRANS_READ_WRITE_BLOCK.

Definition state_ok s : Prop :=
  match state s with
  | SMBUS_STATE_IDLE => rcv_index s = 0 /\ send_index s = 0
  | SMBUS_STATE_WAIT_IDLE => True
  | SMBUS_STATE_CMD => send_index s = 0 /\ 0 <= rcv_index s <= CONFIG_SMBUS_MAX_MSG_SIZE /\
      exists c, active s c /\ (is_rw_block c = false -> rcv_index s = 0)
  | SMBUS_STATE_RCV_DATA => send_index s = 0 /\
      0 <= rcv_index s < blocksize_w s /\ blocksize_w s <= CONFIG_SMBUS_MAX_MSG_SIZE /\
      exists c, active s c /\ takes_bytes c
  | SMBUS_STATE_RCV_PEC => blocksize_w s <= CONFIG_SMBUS_MAX_MSG_SIZE /\
      exists c, active s c /\ is_write_type (trans_type c)
  | SMBUS_STATE_SEND_DATA => 0 <= rcv_index s <= CONFIG_SMBUS_MAX_MSG_SIZE /\
      0 <= send_index s < blocksize_r s /\ blocksize_r s <= CONFIG_SMBUS_MAX_MSG_SIZE /\
      exists c, active s c
  | SMBUS_STATE_SEND_PEC => 0 <= rcv_index s <= CONFIG_SMBUS_MAX_MSG_SIZE /\
      blocksize_r s <= CONFIG_SMBUS_MAX_MSG_SIZE /\ exists c, active s c
  end.

Record safe s : Prop := {
  safe_shape : shape s;
  safe_table : table_ok s;
  safe_command : is_u8 (command s);
  safe_state : state_ok s
}.

(** The one thing that a controller must not do: announce a block that is not longer
    than what the transaction has received.  That is an empty block, or, in a second write phase
    of a block write and read, one no longer than the first.  Any other byte is fine in any state. *)
Definition polite (e : event) s : Prop :=
  match e with
  | EvWrite b => is_u8 b /\
      (state s = SMBUS_STATE_CMD -> forall c, active s c ->
       trans_type c = SMBUS_TRANS_WRITE_BLOCK \/ trans_type c = SMBUS_TRANS_READ_WRITE_BLOCK -> rcv_index s < b)
  | _ => True
  end.

Lemma active_in s c : table_ok s -> active s c -> cmd_ok c.
Proof. intros [_ HF] Ha. by eapply aget_Forall in HF; [|exact Ha]; apply HF. Qed.

Lemma pec_bytes_total p buf n :
  n <= len buf -> exists p', pec_bytes crc8 p buf n = Some p'.
Proof.
  intros Hn. destruct (Z.le_gt_cases n 0).
  - unfold pec_bytes. replace (Z.to_nat n) with 0%nat by lia. by eexists.
  - pose proof (pec_bytes_prefix (take (Z.to_nat n) buf) (drop (Z.to_nat n) buf) p n) as H'.
    rewrite take_drop in H'. eexists. apply H'. rewrite length_take. lia.
Qed.

Lemma store_byte_in s b :
  shape s -> 0 <= rcv_index s < CONFIG_SMBUS_MAX_MSG_SIZE ->
  exists d, len d = CONFIG_SMBUS_MAX_MSG_SIZE /\
    store_byte b s = Some (MkData (address s) (cmd_defs s) (error_count s) (state s) (command s)
      (blocksize_r s) (blocksize_w s) (rcv_index s + 1) (send_index s) d (send_data s)).
Proof.
  intros [? Hl ?] Hr. unfold store_byte. rewrite aset_in by lia. simpl.
  eexists. split; [|do 2 f_equal; apply wrap_small; unfold CONFIG_SMBUS_MAX_MSG_SIZE in *; unwrap; lia].
  by rewrite length_insert.
Qed.

Lemma fetch_byte_in s :
  shape s -> 0 <= send_index s < CONFIG_SMBUS_MAX_MSG_SIZE ->
  exists v, fetch_byte s = Some (v, sent (send_index s + 1) s).
Proof.
  intros [? ? Hl] Hr. unfold fetch_byte.
  destruct (aget_in (send_data s) (send_index s)) as [v ->]; [lia|]. simpl.
  exists v. unfold sent. do 3 f_equal. apply wrap_small. unfold CONFIG_SMBUS_MAX_MSG_SIZE in *. unwrap. lia.
Qed.

Lemma write_type_rw c : takes_bytes c -> is_rw_block c = false -> is_write_type (trans_type c).
Proof. intros [?|E]; [done|]. unfold is_rw_block. rewrite E. done. Qed.

(** Running out to WAIT_IDLE, with or without counting an error, is safe. *)
Lemma wait_idle_safe s s' :
  safe s -> shape s' -> cmd_defs s' = cmd_defs s -> is_u8 (command s') ->
  state s' = SMBUS_STATE_WAIT_IDLE -> safe s'.
Proof.
  intros [? [? ?] ? ?] ? Hc ? Hst. constructor; [done| |done|].
  - split; by rewrite Hc.
  - unfold state_ok. by rewrite Hst.
Qed.

Lemma write_cmd_safe s b w :
  safe s -> state s = SMBUS_STATE_CMD -> polite (EvWrite b) s ->
  exists r s' w', smbus_write_handler crc8 s b w = Some (r, s', w') /\ safe s'.
Proof.
  intros Hsafe Hst [Hb Hpol]. pose proof Hsafe as [Hsh Htab Hcmd Hok].
  unfold state_ok in Hok. rewrite Hst in Hok. destruct Hok as (Hsi & Hri & c & Hc & Hrw).
  specialize (Hpol Hst c Hc).
  pose proof (active_in s c Htab Hc) as [Hrcv _].
  unfold smbus_write_handler, get_cmd_def. rewrite Hst, Hc. cbn [mbind option_bind].
  assert (Herr : safe (set_state SMBUS_STATE_WAIT_IDLE (log_err s))).
  { by eapply (wait_idle_safe s); try done; destruct Hsh. }
  assert (Hblock : trans_type c = SMBUS_TRANS_WRITE_BLOCK \/ trans_type c = SMBUS_TRANS_READ_WRITE_BLOCK ->
    exists r s' w', (if CONFIG_SMBUS_MAX_MSG_SIZE <? b
       then Some (-1, set_state SMBUS_STATE_WAIT_IDLE (log_err (set_blocksize_w b s)), w)
       else Some (0, set_state SMBUS_STATE_RCV_DATA (set_blocksize_w b s), w)) = Some (r, s', w') /\ safe s').
  { intros Ht. destruct (Z.ltb_spec CONFIG_SMBUS_MAX_MSG_SIZE b); eexists _, _, _; (split; [done|]).
    - by eapply (wait_idle_safe s); try done; destruct Hsh.
    - specialize (Hpol Ht). constructor; [by destruct Hsh|done|done|]. cbn. split_and!; try (lia || done).
      exists c. split; [done|]. destruct Ht; [left; by right; right|by right]. }
  assert (Hr : trans_type c = SMBUS_TRANS_WRITE_BYTE \/ trans_type c = SMBUS_TRANS_WRITE_WORD -> rcv_index s = 0).
  { intros Ht. apply Hrw. unfold is_rw_block. apply bool_decide_eq_false. by destruct Ht as [-> | ->]. }
  destruct (trans_type c) eqn:Ht; try (eexists _, _, _; by split); try (by apply Hblock; auto); specialize (Hr ltac:(auto)).
  - destruct (store_byte_in (set_blocksize_w 1 s) b) as (d & Hd & ->); [by destruct Hsh|simpl; by rewrite Hr|].
    cbn [mbind option_bind]. destruct (pec c).
    + eexists _, _, _. split; [done|]. constructor; [by destruct Hsh|done|done|].
      cbn. split; [done|]. exists c. split; [done|]. rewrite Ht. by left.
    + unfold call_rcv. destruct Hrcv as [h ->]; [left; by left|]. cbn [mbind option_bind].
      destruct (h _ _ w) as [ret w1]. eexists _, _, _. split; [done|].
      by eapply (wait_idle_safe s); try done; destruct Hsh.
  - destruct (store_byte_in (set_blocksize_w 2 s) b) as (d & Hd & ->); [by destruct Hsh|simpl; by rewrite Hr|].
    eexists _, _, _. split; [done|]. constructor; [by destruct Hsh|done|done|].
    cbn. rewrite Hr. split_and!; try done. exists c. split; [done|]. left. rewrite Ht. by right; left.
Qed.

(** The call of the receive handler and the state it leaves. *)
Lemma rcv_call_safe s s1 c w :
  safe s -> shape s1 -> cmd_defs s1 = cmd_defs s -> is_u8 (command s1) -> active s1 c ->
  send_index s1 = 0 \/ is_rw_block c = false -> 0 <= rcv_index s1 <= CONFIG_SMBUS_MAX_MSG_SIZE \/ is_rw_block c = false ->
  takes_bytes c ->
  exists r s' w', ('(ret, w) ← call_rcv c s1 w;
      if (ret =? 0) && is_rw_block c then Some (ret, set_state SMBUS_STATE_CMD s1, w)
      else if negb (ret =? 0) then Some (ret, set_state SMBUS_STATE_WAIT_IDLE (log_err s1), w)
      else Some (ret, set_state SMBUS_STATE_WAIT_IDLE s1, w)) = Some (r, s', w') /\ safe s'.
Proof.
  intros Hsafe Hsh Hdefs Hcmd Hact Hsi Hri Ht. pose proof Hsafe as [_ [Htl Htab] _ _].
  assert (Hcok : cmd_ok c). { apply (active_in s1); [|done]. split; by rewrite Hdefs. }
  unfold call_rcv. destruct Hcok as [Hrcv _]. destruct Hrcv as [h ->]; [done|].
  cbn [mbind option_bind]. destruct (h _ _ w) as [ret w1].
  destruct (ret =? 0), (is_rw_block c) eqn:Hrw; cbn [andb negb];
    (eexists _, _, _; split; [done|]).
  - constructor; [by destruct Hsh|split; cbn; by rewrite Hdefs|done|]. cbn.
    destruct Hsi, Hri; try done. split_and!; try lia. exists c. split; [done|]. congruence.
  - by eapply (wait_idle_safe s); try done; destruct Hsh.
  - by eapply (wait_idle_safe s); try done; destruct Hsh.
  - by eapply (wait_idle_safe s); try done; destruct Hsh.
Qed.

Lemma write_safe s b w :
  safe s -> polite (EvWrite b) s ->
  exists r s' w', smbus_write_handler crc8 s b w = Some (r, s', w') /\ safe s'.
Proof.
  intros Hsafe Hpol. pose proof Hpol as [Hb _]. pose proof Hsafe as [Hsh [Htl Htab] Hcmd Hok].
  assert (Herr : safe (set_state SMBUS_STATE_WAIT_IDLE (log_err s))).
  { by eapply (wait_idle_safe s); try done; destruct Hsh. }
  destruct (aget_in (cmd_defs s) (command s)) as [o Ho]; [unwrap; lia|].
  unfold state_ok in Hok. destruct (state s) eqn:Hst.
  - destruct (aget_in (cmd_defs s) b) as [oc Hoc]; [unwrap; lia|].
    unfold smbus_write_handler, get_cmd_def. rewrite Hst, Ho. cbn.
    rewrite Hoc. cbn. destruct oc as [c|]; (eexists _, _, _; split; [done|]).
    + constructor; [by destruct Hsh|done|done|]. cbn. destruct Hok as [-> ->]. split_and!; try done. by exists c.
    + by eapply (wait_idle_safe s); try done; destruct Hsh.
  - by apply write_cmd_safe.
  - destruct Hok as (Hsi & Hri & Hbw & c & Hc & Ht).
    destruct (store_byte_in s b Hsh) as (d & Hd & Hstore); [lia|].
    unfold smbus_write_handler, get_cmd_def. rewrite Hst, Hc. cbn [mbind option_bind].
    rewrite Hstore. cbn [mbind option_bind rcv_index blocksize_w].
    destruct (Z.eqb_spec (rcv_index s + 1) (blocksize_w s)).
    + destruct (pec c && negb (is_rw_block c)) eqn:Hp.
      * eexists _, _, _. split; [done|]. constructor; [by destruct Hsh|done|done|]. cbn.
        split; [done|]. exists c. split; [done|]. apply write_type_rw; [done|].
        destruct (is_rw_block c); [by rewrite andb_false_r in Hp|done].
      * apply (rcv_call_safe s _ c w Hsafe); try done; [by destruct Hsh|by left|left; cbn; lia].
    + eexists _, _, _. split; [done|]. constructor; [by destruct Hsh|done|done|].
      unfold state_ok. cbn. rewrite Hst. split_and!; try lia. by exists c.
  - destruct Hok as (Hbw & c & Hc & Ht).
    unfold smbus_write_handler, get_cmd_def. rewrite Hst, Hc. cbn [mbind option_bind].
    match goal with |- context [pec_bytes crc8 ?q (received_data s) ?n] =>
      destruct (pec_bytes_total q (received_data s) n) as [p Hp]; [destruct Hsh; lia|] end.
    rewrite Hp. cbn [mbind option_bind]. destruct (negb (p =? b)); [by eexists _, _, _|].
    assert (Hrw : is_rw_block c = false).
    { unfold is_rw_block. apply bool_decide_eq_false. by destruct Ht as [-> | [-> | ->] ]. }
    apply (rcv_call_safe s s c w); try done; [by right|by right|by left].
  - unfold smbus_write_handler, get_cmd_def. rewrite Hst, Ho. by eexists _, _, _.
  - unfold smbus_write_handler, get_cmd_def. rewrite Hst, Ho. by eexists _, _, _.
  - unfold smbus_write_handler, get_cmd_def. rewrite Hst, Ho. by eexists _, _, _.
Qed.

Lemma read_cmd_safe s w :
  safe s -> state s = SMBUS_STATE_CMD ->
  exists r v s' w', smbus_read_handler crc8 s w = Some (r, v, s', w') /\ safe s'.
Proof.
  intros Hsafe Hst. pose proof Hsafe as [Hsh Htab Hcmd Hok].
  unfold state_ok in Hok. rewrite Hst in Hok. destruct Hok as (Hsi & Hri & c & Hc & _).
  pose proof (active_in s c Htab Hc) as [_ Hsnd]. unfold is_read_type in Hsnd.
  unfold smbus_read_handler, get_cmd_def, read_error. rewrite Hst, Hc. cbn [mbind option_bind].
  assert (Herr : safe (set_state SMBUS_STATE_WAIT_IDLE (log_err s))).
  { by eapply (wait_idle_safe s); try done; destruct Hsh. }
  destruct (trans_type c) eqn:Ht; try (by eexists _, _, _, _);
    (destruct Hsnd as (h & -> & Hh); [by auto|]); cbn [mbind option_bind];
    specialize (Hh (send_data s) w (shape_send s Hsh)); destruct (h (send_data s) w) as [[[ret d] n] w1];
    destruct Hh as [Hd Hn]; destruct (Z.eqb_spec ret 0) as [->|]; cbn [negb];
    try (eexists _, _, _, _; split; [done|]; by eapply (wait_idle_safe s); try done; destruct Hsh).
  all: assert (Hshd : shape (set_send_buffer d n s)) by (by destruct Hsh).
  all: specialize (Hn eq_refl); cbn in Hn.
  - destruct (fetch_byte_in (set_send_buffer d n s) Hshd) as [v ->]; [by cbn; rewrite Hsi|].
    eexists _, _, _, _. split; [done|]. unfold after_data. destruct (pec c).
    + constructor; [by destruct Hshd|done|done|]. cbn. split_and!; try lia; [by rewrite Hn|]. by exists c.
    + by eapply (wait_idle_safe s); try done; destruct Hshd.
  - destruct (fetch_byte_in (set_send_buffer d n s) Hshd) as [v ->]; [by cbn; rewrite Hsi|].
    eexists _, _, _, _. split; [done|]. constructor; [by destruct Hshd|done|done|].
    cbn. rewrite Hsi, Hn. split_and!; try done; try lia. by exists c.
  - eexists _, _, _, _. split; [done|]. constructor; [by destruct Hshd|done|done|].
    cbn. rewrite Hsi. split_and!; try lia. by exists c.
  - eexists _, _, _, _. split; [done|]. constructor; [by destruct Hshd|done|done|].
    cbn. rewrite Hsi. split_and!; try lia. by exists c.
Qed.

Lemma read_safe s w :
  safe s -> exists r v s' w', smbus_read_handler crc8 s w = Some (r, v, s', w') /\ safe s'.
Proof.
  intros Hsafe. pose proof Hsafe as [Hsh [Htl Htab] Hcmd Hok].
  assert (Herr : safe (set_state SMBUS_STATE_WAIT_IDLE (log_err s))).
  { by eapply (wait_idle_safe s); try done; destruct Hsh. }
  destruct (aget_in (cmd_defs s) (command s)) as [o Ho]; [unwrap; lia|].
  unfold state_ok in Hok. destruct (state s) eqn:Hst.
  2: by apply read_cmd_safe.
  4: { destruct Hok as (Hri & Hsi & Hbr & c & Hc).
    destruct (fetch_byte_in s Hsh) as [v Hf]; [lia|].
    unfold smbus_read_handler, get_cmd_def. rewrite Hst, Hc. cbn [mbind option_bind].
    rewrite Hf. cbn [mbind option_bind sent send_index blocksize_r].
    destruct (Z.eqb_spec (send_index s + 1) (blocksize_r s)); (eexists _, _, _, _; split; [done|]).
    - unfold after_data. destruct (pec c).
      + constructor; [by destruct Hsh|done|done|]. cbn. split_and!; try lia. by exists c.
      + by eapply (wait_idle_safe s); try done; destruct Hsh.
    - constructor; [by destruct Hsh|done|done|]. unfold state_ok. cbn. rewrite Hst.
      split_and!; try lia. by exists c. }
  4: { destruct Hok as (Hri & Hbr & c & Hc).
    unfold smbus_read_handler, get_cmd_def. rewrite Hst, Hc. cbn [mbind option_bind].
    destruct Hsh as [Hl1 Hl2 Hl3].
    match goal with |- context [pec_bytes crc8 ?p (received_data s) ?n] =>
      destruct (pec_bytes_total p (received_data s) n) as [p1 ->]; [lia|] end. cbn [mbind option_bind].
    match goal with |- context [pec_bytes crc8 ?p (send_data s) ?n] =>
      destruct (pec_bytes_total p (send_data s) n) as [p2 ->]; [lia|] end. cbn [mbind option_bind].
    eexists _, _, _, _. split; [done|]. by eapply (wait_idle_safe s). }
  all: unfold smbus_read_handler, get_cmd_def; rewrite Hst, Ho; by eexists _, _, _, _.
Qed.

(** C11: Memory safety.  With a properly registered command table, no bus event
    makes the target read or write outside its buffers or call a NULL handler,
    and the invariant is kept, whatever the event and the state, but for a byte that announces a block no longer
    than what the transaction has already received: an empty block, or a second write phase no longer than the first.
    [empty_block_overflows] shows what that does. *)
Theorem smbus_event_safe e s w (Hsafe : safe s) (Hpolite : polite e s) :
  exists r s' w', smbus_event crc8 e s w = Some (r, s', w') /\ safe s'.
Proof.
  destruct e as [|b| |].
  - eexists _, _, _. split; [done|]. destruct Hsafe as [[? ? ?] ? ? ?]. by constructor.
  - destruct (write_safe s b w Hsafe Hpolite) as (r & s' & w' & E & Hs').
    cbn [smbus_event]. rewrite E. by eexists _, _, _.
  - destruct (read_safe s w Hsafe) as (r & v & s' & w' & E & Hs').
    cbn [smbus_event]. rewrite E. by eexists _, _, _.
  - eexists _, _, _. split; [done|]. destruct Hsafe as [[? ? ?] ? ? ?]. by constructor.
Qed.

(** ** The defect of the empty block *)

Lemma run_unbounded b c k : forall p s w,
  shape s -> state s = SMBUS_STATE_RCV_DATA -> blocksize_w s = 0 ->
  aget (cmd_defs s) (command s) = Some (Some c) ->
  len p + Z.of_nat k <= CONFIG_SMBUS_MAX_MSG_SIZE ->
  run (replicate k (EvWrite b)) (rcv_prefix p s) w =
    Some (replicate k ok_reply, rcv_prefix (p ++ replicate k b) s, w).
Proof.
  induction k as [|k IH]; intros p s w Hsh Hst Hb Hc Hk.
  - cbn. by rewrite app_nil_r.
  - cbn [replicate smbus_run smbus_event].
    unfold smbus_write_handler at 1, get_cmd_def. cbn [rcv_prefix cmd_defs command state].
    rewrite Hst, Hc. cbn [mbind option_bind].
    rewrite store_byte_prefix by (destruct Hsh; done || lia).
    cbn [mbind option_bind rcv_index rcv_prefix blocksize_w]. rewrite length_app.
    rewrite (proj2 (Z.eqb_neq _ _)) by (simpl; lia). cbn [mbind option_bind].
    change (MkData _ _ _ _ _ _ _ _ _ _ _) with (rcv_prefix (p ++ [b]) s).
    rewrite (IH (p ++ [b]) s w Hsh Hst Hb Hc); [|rewrite length_app; simpl; lia].
    cbn [mbind option_bind]. by rewrite <- app_assoc.
Qed.

(** The empty-block defect.  After a block-write command that announces
    zero bytes the target accepts data without end: the 65th byte is stored
    outside the 64-byte receive buffer, whatever the command's handlers. *)
Theorem empty_block_overflows c cmd b s w
    (Hidle : idle s) (Hcmd0 : is_u8 (command s)) (Hcmd : is_u8 cmd)
    (Hc : aget (cmd_defs s) cmd = Some (Some c))
    (Ht : trans_type c = SMBUS_TRANS_WRITE_BLOCK \/ trans_type c = SMBUS_TRANS_READ_WRITE_BLOCK) :
  (exists s', run (EvWrite cmd :: EvWrite 0 :: replicate 64 (EvWrite b)) s w
     = Some (replicate 66 ok_reply, s', w)) /\
  run (EvWrite cmd :: EvWrite 0 :: replicate 64 (EvWrite b) ++ [EvWrite b]) s w = None.
Proof.
  set (s1 := set_state SMBUS_STATE_CMD (set_command cmd s)).
  set (s2 := set_state SMBUS_STATE_RCV_DATA (set_blocksize_w 0 s1)).
  assert (Hstep : smbus_write_handler crc8 s1 0 w = Some (0, s2, w)).
  { unfold smbus_write_handler, get_cmd_def. simpl. rewrite Hc. simpl.
    by destruct Ht as [-> | ->]. }
  assert (Hsh2 : shape s2) by (by destruct Hidle as [[? ? ?] ? ? ?]).
  assert (H0 : rcv_prefix [] s2 = s2) by (apply rcv_prefix_nil; by destruct Hidle).
  assert (Hrun : run (replicate 64 (EvWrite b)) s2 w =
    Some (replicate 64 ok_reply, rcv_prefix (replicate 64 b) s2, w)).
  { rewrite <- H0 at 1. by apply (run_unbounded b c). }
  rewrite !(run_command cmd c) by done. fold s1.
  change (run (EvWrite 0 :: replicate 64 (EvWrite b)) s1 w)
    with ('(r, s, w) ← smbus_event crc8 (EvWrite 0) s1 w;
          '(rs, s, w) ← run (replicate 64 (EvWrite b)) s w; Some (r :: rs, s, w)).
  change (run (EvWrite 0 :: replicate 64 (EvWrite b) ++ [EvWrite b]) s1 w)
    with ('(r, s, w) ← smbus_event crc8 (EvWrite 0) s1 w;
          '(rs, s, w) ← run (replicate 64 (EvWrite b) ++ [EvWrite b]) s w; Some (r :: rs, s, w)).
  cbn [smbus_event]. rewrite Hstep. cbn [mbind option_bind].
  rewrite smbus_run_app, Hrun. cbn [mbind option_bind]. split; [by eexists|].
  assert (Hnone : store_byte b (rcv_prefix (replicate 64 b) s2) = None).
  { unfold store_byte. rewrite aset_out; [done|]. right. unfold rcv_prefix.
    cbn [received_data rcv_index]. rewrite length_app, length_drop, length_replicate.
    pose proof (shape_rcv s2 Hsh2). unfold CONFIG_SMBUS_MAX_MSG_SIZE in *. lia. }
  cbn [smbus_run smbus_event]. unfold smbus_write_handler, get_cmd_def.
  change (cmd_defs (rcv_prefix _ s2)) with (cmd_defs s).
  change (command (rcv_prefix _ s2)) with cmd. change (state (rcv_prefix _ s2)) with SMBUS_STATE_RCV_DATA.
  rewrite Hc. cbn [mbind option_bind]. by rewrite Hnone.
Qed.

(** ** Registration *)

Lemma register_loop_ok cmds : forall s,
  table_ok s -> Forall (fun p => is_u8 p.1 /\ cmd_ok p.2) cmds ->
  exists s', register_loop true cmds s = Some (0, s') /\ table_ok s' /\
    (forall id, (forall c, (id, c) ∉ cmds) -> aget (cmd_defs s') id = aget (cmd_defs s) id) /\
    (NoDup cmds.*1 -> forall id c, (id, c) ∈ cmds -> aget (cmd_defs s') id = Some (Some c)).
Proof.
  induction cmds as [|[id c] cmds IH]; intros s Htab Hcmds.
  - exists s. split_and!; [done|done|done|]. intros _ ? ? ?%not_elem_of_nil. done.
  - apply Forall_cons in Hcmds as [[Hid Hok] Hcmds]. simpl in Hid, Hok.
    destruct Htab as [Hl HF]. cbn [register_loop]. unfold smbus_target_register_cmd. simpl.
    assert (Hin : 0 <= id < len (cmd_defs s)) by (unwrap; lia).
    rewrite aset_in by done. simpl.
    set (s1 := MkData _ _ _ _ _ _ _ _ _ _ _).
    destruct (IH s1) as (s' & Hrun & Htab' & Hother & Hdup); [|done|].
    { split; [cbn; by rewrite length_insert|]. cbn. apply Forall_insert; [done|]. by intros ? [= <-]. }
    exists s'. split; [done|]. split; [done|]. split.
    + intros id' Hnot. rewrite Hother by (intros c' Hc'; apply (Hnot c'); by right).
      cbn. apply aget_insert_ne; [done|]. intros ->. apply (Hnot c). by left.
    + simpl. intros [Hni Hnd]%NoDup_cons id' c' Hin'%elem_of_cons.
      destruct Hin' as [[= -> ->]|Hin']; [|by apply Hdup].
      rewrite Hother; [cbn; by apply aget_insert|].
      intros c' Hc'. apply Hni. by apply (list_elem_of_fmap_2 fst) in Hc'.
Qed.

(** Registration.  A table of well-formed commands with distinct codes is
    installed completely, other entries are untouched and the table stays well
    formed; a missing table gives -EINVAL and a device that is not ready
    -ENODEV, both without effect. *)
Theorem smbus_register_cmds_ok cmds s
    (Htab : table_ok s) (Hcmds : Forall (fun p => is_u8 p.1 /\ cmd_ok p.2) cmds)
    (Hnd : NoDup cmds.*1) (Hne : cmds <> []) :
  (exists s', smbus_target_register_cmds true (Some cmds) s = Some (0, s') /\ table_ok s' /\
     (forall id c, (id, c) ∈ cmds -> aget (cmd_defs s') id = Some (Some c)) /\
     (forall id, (forall c, (id, c) ∉ cmds) -> aget (cmd_defs s') id = aget (cmd_defs s) id)) /\
  smbus_target_register_cmds true None s = Some (- EINVAL, s) /\
  smbus_target_register_cmds false (Some cmds) s = Some (- ENODEV, s).
Proof.
  split_and!; [|done|by destruct cmds as [|[id c] cmds]].
  destruct (register_loop_ok cmds s Htab Hcmds) as (s' & ? & ? & ? & Hd).
  exists s'. split_and!; [done|done|by apply Hd|done].
Qed.
End transactions.

(** ** Concrete runs *)

(** A bitwise CRC-8 for the examples (most significant bit first). *)
Definition crc8_bit (poly crc : Z) : Z :=
  if Z.testbit crc 7 then Z.lxor (u8 (2 * crc)) poly else u8 (2 * crc).
Definition demo_crc8 (src : list Z) (poly init : Z) (_ : bool) : Z :=
  fold_left (fun crc b => Nat.iter 8 (crc8_bit poly) (Z.lxor crc b)) src init.

(** An application that logs what it receives and answers four bytes. *)
Definition demo_rcv : smbus_rcv_handler (list (list Z)) :=
  fun buf n w => (0, take (Z.to_nat n) buf :: w).
Definition demo_send : smbus_send_handler (list (list Z)) :=
  fun buf w => (0, [1; 2; 3; 4] ++ drop 4 buf, 4, w).
Definition demo_table : list (option (smbus_cmd_def (list (list Z)))) :=
  <[0x10%nat := Some (MkCmd SMBUS_TRANS_WRITE_BLOCK (Some demo_rcv) None true)]>
  (<[0x11%nat := Some (MkCmd SMBUS_TRANS_READ_BLOCK None (Some demo_send) true)]>
  (<[0x12%nat := Some (MkCmd SMBUS_TRANS_READ_WRITE_BLOCK (Some demo_rcv) (Some demo_send) true)]>
  (replicate 256 None))).
Definition demo_target : smbus_target_data (list (list Z)) :=
  MkData 0x40 demo_table 0 SMBUS_STATE_IDLE 0 0 0 0 0 (replicate 64 0) (replicate 64 0).

Lemma demo_idle : idle demo_target.
Proof. by repeat constructor. Qed.

Lemma demo_cmd_ok (t : smbus_trans_type) r snd p :
  (r = None -> t = SMBUS_TRANS_READ_BLOCK) ->
  (snd = Some demo_send /\ (t = SMBUS_TRANS_READ_BLOCK \/ t = SMBUS_TRANS_READ_WRITE_BLOCK) \/
   t = SMBUS_TRANS_WRITE_BLOCK \/ t = SMBUS_TRANS_WRITE_WORD) ->
  cmd_ok (MkCmd t r snd p).
Proof.
  intros Hr Hs. split; cbn.
  - intros Ht. destruct r; [by eexists|]. specialize (Hr eq_refl).
    unfold is_write_type in Ht. naive_solver.
  - intros Ht. destruct Hs as [[-> Hs]|Hs]; [|unfold is_read_type in Ht; naive_solver].
    exists demo_send. split; [done|]. intros buf w Hb. cbn. split.
    + rewrite length_drop. unfold CONFIG_SMBUS_MAX_MSG_SIZE in *. lia.
    + by destruct Hs as [-> | ->].
Qed.

Lemma demo_safe : safe demo_target.
Proof.
  constructor; [by constructor| |done|done]. split; [done|].
  unfold demo_target, demo_table. cbn [cmd_defs].
  apply Forall_insert; [apply Forall_insert; [apply Forall_insert; [by apply Forall_replicate|]|]|];
    intros c [= <-]; apply demo_cmd_ok; naive_solver.
Qed.

Lemma smbus_write_transaction_witness :
  let val := pec_of demo_crc8 [0x80; 0x10; 3; 7; 8; 9] in
  exists oks s',
    smbus_run demo_crc8 (EvWrite 0x10 :: map EvWrite [3; 7; 8; 9] ++ [EvWrite val]) demo_target []
      = Some (oks ++ [MkReply 0 None], s', [[7; 8; 9]]) /\ state s' = SMBUS_STATE_WAIT_IDLE.
Proof.
  intros val.
  destruct (smbus_write_transaction demo_crc8
    (MkCmd SMBUS_TRANS_WRITE_BLOCK (Some demo_rcv) None true) demo_rcv 0x10 [7; 8; 9] val demo_target [])
    as (oks & s' & H & _ & Hst & _);
    [apply demo_idle|done|done|done|by right; right|done|done|].
  exists oks, s'. split; [exact H|exact Hst].
Defined.

Lemma smbus_read_transaction_witness :
  exists s', smbus_run demo_crc8 (EvWrite 0x11 :: replicate 5 EvRead ++ [EvRead]) demo_target [] =
    Some (ok_reply :: map ok_byte [4; 1; 2; 3; 4; pec_of demo_crc8 [0x80; 0x11; 0x81; 4; 1; 2; 3; 4]], s', []) /\
    state s' = SMBUS_STATE_WAIT_IDLE.
Proof.
  apply (smbus_read_transaction demo_crc8
    (MkCmd SMBUS_TRANS_READ_BLOCK None (Some demo_send) true) demo_send 0x11
    ([1; 2; 3; 4] ++ replicate 60 0) 4 demo_target [] []);
    [apply demo_idle|done|done|done|by right; right; left|done|done|done|done|done].
Defined.

Lemma smbus_block_process_call_witness :
  exists s', smbus_run demo_crc8 (EvWrite 0x12 :: map EvWrite [1; 5] ++ replicate 5 EvRead ++ [EvRead])
      demo_target [] =
    Some (ok_reply :: replicate 2 ok_reply ++ map ok_byte
      [4; 1; 2; 3; 4; pec_of demo_crc8 [0x80; 0x12; 1; 5; 0x81; 4; 1; 2; 3; 4]], s', [[5]]) /\
    state s' = SMBUS_STATE_WAIT_IDLE.
Proof.
  apply (smbus_block_process_call demo_crc8
    (MkCmd SMBUS_TRANS_READ_WRITE_BLOCK (Some demo_rcv) (Some demo_send) true) demo_rcv demo_send 0x12 [5]
    ([1; 2; 3; 4] ++ replicate 60 0) 4 demo_target [] [[5]] [[5]]);
    [apply demo_idle|done..].
Defined.

Lemma smbus_event_safe_witness :
  exists r s' w', smbus_event demo_crc8 (EvWrite 0x10) demo_target [] = Some (r, s', w') /\ safe s'.
Proof. apply smbus_event_safe; [apply demo_safe|done]. Defined.

Lemma empty_block_overflows_witness :
  smbus_run demo_crc8 (EvWrite 0x10 :: EvWrite 0 :: replicate 64 (EvWrite 0xaa) ++ [EvWrite 0xaa])
    demo_target [] = None.
Proof.
  apply (empty_block_overflows demo_crc8 (MkCmd SMBUS_TRANS_WRITE_BLOCK (Some demo_rcv) None true));
    [apply demo_idle|done|done|done|by left].
Defined.

Lemma smbus_register_cmds_ok_witness :
  exists s', smbus_target_register_cmds true
      (Some [(0x20, MkCmd SMBUS_TRANS_WRITE_WORD (Some demo_rcv) None true)]) demo_target = Some (0, s') /\
    table_ok s'.
Proof.
  destruct (smbus_register_cmds_ok [(0x20, MkCmd SMBUS_TRANS_WRITE_WORD (Some demo_rcv) None true)] demo_target)
    as [(s' & H1 & H2 & _) _].
  - apply demo_safe.
  - constructor; [|done]. split; [done|]. apply demo_cmd_ok; naive_solver.
  - by apply NoDup_singleton.
  - done.
  - by exists s'.
Defined.
