(* ===== verification/Cm2dm.v ===== *)
(** * Messages from the SMC to the DMC ([lib/tenstorrent/bh_arc/cm2dm_msg.c])

    The SMC side of the CM-to-DM mailbox: posted messages wait as bits of
    [pending_messages] with their data in [next_msgs]; the DMC reads one message
    at a time over SMBus and acknowledges it by id and sequence number.  Calls
    into other parts of the firmware are recorded in a log, newest first. *)

From S2P Require Import Prelude.

(** ** Data ([include/tenstorrent/bh_arc.h]) *)

Definition kCm2DmMsgIdNull : Z := 0.
Definition kCm2DmMsgIdResetReq : Z := 1.
Definition kCm2DmMsgIdPing : Z := 2.
Definition kCm2DmMsgIdFanSpeedUpdate : Z := 3.
Definition kCm2DmMsgIdReady : Z := 4.
Definition kCm2DmMsgIdAutoResetTimeoutUpdate : Z := 5.
Definition kCm2DmMsgTelemHeartbeatUpdate : Z := 6.
Definition kCm2DmMsgIdForcedFanSpeedUpdate : Z := 7.
Definition kCm2DmMsgIdLedBlink : Z := 8.
Definition kCm2DmMsgIdGddrThermTrip : Z := 9.
Definition kCm2DmMsgCount : Z := 10.

Definition kCm2DmResetLevelAsic : Z := 0.
Definition kCm2DmResetLevelDmc : Z := 3.

Record cm2dmMessage := MkMsg { msg_id : Z; seq_num : Z; data : Z }.

#[export] Instance cm2dmMessage_eq_dec : EqDecision cm2dmMessage.
Proof. solve_decision. Defined.

Definition zero_msg : cm2dmMessage := MkMsg 0 0 0.

(** The packed structure on the wire. *)
Definition encode_msg (m : cm2dmMessage) : list Z :=
  u8 (msg_id m) :: u8 (seq_num m) :: bytes_of_le 4 (data m).
Definition decode_msg (bytes : list Z) : option cm2dmMessage :=
  match bytes with
  | i :: s :: d => Some (MkMsg i s (le_of_bytes (take 4 d)))
  | _ => None
  end.

Record Cm2DmMsgState := MkCm {
  pending_messages : Z;
  next_id_rr_ : Z;
  next_seq_num : Z;
  curr_msg_valid : bool;
  curr_msg : cm2dmMessage;
  next_msgs : list Z
}.

(** ** The mailbox *)

Definition PostCm2DmMsg (id d : Z) (s : Cm2DmMsgState) : option Cm2DmMsgState :=
  l ← aset (next_msgs s) id d;
  Some (MkCm (Z.setbit (pending_messages s) id) (next_id_rr_ s) (next_seq_num s)
             (curr_msg_valid s) (curr_msg s) l).

(** Returns the chosen id and the new rotation point. *)
Definition next_id_rr (pending rr : Z) : Z * Z :=
  let hi_pending := Z.land pending (GENMASK 31 rr) in
  let search_messages := if hi_pending =? 0 then pending else hi_pending in
  let next_message_id := u32 (LOG2 (LSB_GET search_messages)) in
  (next_message_id, u8 ((next_message_id + 1) mod kCm2DmMsgCount)).

(** The send handler of CMFW_SMBUS_REQ: returns the bytes (its size is 6). *)
Definition Cm2DmMsgReqSmbusHandler (s : Cm2DmMsgState) : option (list Z * Cm2DmMsgState) :=
  s ← (if curr_msg_valid s then Some s else
       if pending_messages s =? 0 then Some s else
       let '(id, rr) := next_id_rr (pending_messages s) (next_id_rr_ s) in
       d ← aget (next_msgs s) id;
       Some (MkCm (Z.clearbit (pending_messages s) id) rr (u8 (next_seq_num s + 1)) true
                  (MkMsg (u8 id) (next_seq_num s) d) (next_msgs s)));
  Some (encode_msg (curr_msg s), s).

Definition Cm2DmMsgAckSmbusHandler (bytes : list Z) (size : Z) (s : Cm2DmMsgState)
    : option (Z * Cm2DmMsgState) :=
  if negb (size =? 2) then Some (-1, s) else
  ack_id ← aget bytes 0;
  ack_seq ← aget bytes 1;
  if curr_msg_valid s && (ack_id =? msg_id (curr_msg s)) && (ack_seq =? seq_num (curr_msg s)) then
    Some (0, MkCm (pending_messages s) (next_id_rr_ s) (next_seq_num s) false zero_msg (next_msgs s))
  else Some (-1, s).

(** ** The rest of the file: requests to the DMC and handlers of its messages *)

Inductive smc_call :=
| CLockDownForReset
| CIrqDisable (irq : Z)
| CResetTimerStart (ms : Z)
| CPingSemReset
| CPingSemGive
| CWritePingDuration (v : Z)
| CUpdateDmFwVersion (bl app : Z)
| CWriteArcStartTime (v : Z)
| CWriteDmInitDuration (v : Z)
| CWriteArcHangPc (v : Z)
| CAdjustDVFSTimer
| CSetFanRPM (rpm : Z)
| CUpdateTelemetryThermTripCount (n : Z)
| CUartPollOut (b : Z)
| CWdtInstall (ms : Z) | CWdtSetup | CWdtDisable.

Record smc_state := MkSmc {
  cm : Cm2DmMsgState;
  chip_reset_asic_called : bool;
  chip_reset_dmc_called : bool;
  reset_type : Z;
  power : Z;
  telemetry_reg : Z;
  calls : list smc_call
}.

Definition set_cm (c : Cm2DmMsgState) (s : smc_state) : smc_state :=
  MkSmc c (chip_reset_asic_called s) (chip_reset_dmc_called s) (reset_type s) (power s)
    (telemetry_reg s) (calls s).
Definition log_call (c : smc_call) (s : smc_state) : smc_state :=
  MkSmc (cm s) (chip_reset_asic_called s) (chip_reset_dmc_called s) (reset_type s) (power s)
    (telemetry_reg s) (c :: calls s).
Definition set_power (p : Z) (s : smc_state) : smc_state :=
  MkSmc (cm s) (chip_reset_asic_called s) (chip_reset_dmc_called s) (reset_type s) p
    (telemetry_reg s) (calls s).
Definition set_telemetry_reg (r : Z) (s : smc_state) : smc_state :=
  MkSmc (cm s) (chip_reset_asic_called s) (chip_reset_dmc_called s) (reset_type s) (power s) r (calls s).

Definition post (id d : Z) (s : smc_state) : option smc_state :=
  c ← PostCm2DmMsg id d (cm s); Some (set_cm c s).

Definition IssueChipReset (reset_level : Z) (s : smc_state) : option smc_state :=
  let s := log_call CLockDownForReset s in
  post kCm2DmMsgIdResetReq reset_level
    (MkSmc (cm s)
       (chip_reset_asic_called s || (reset_level =? kCm2DmResetLevelAsic))
       (chip_reset_dmc_called s || (reset_level =? kCm2DmResetLevelDmc))
       (reset_type s) (power s) (telemetry_reg s) (calls s)).

Definition ChipResetRequest (irq_num : Z) (s : smc_state) : option smc_state :=
  IssueChipReset kCm2DmResetLevelAsic (log_call (CIrqDisable irq_num) s).

Definition UpdateFanSpeedRequest (v : Z) := post kCm2DmMsgIdFanSpeedUpdate v.
Definition UpdateForcedFanSpeedRequest (v : Z) := post kCm2DmMsgIdForcedFanSpeedUpdate v.
Definition Dm2CmReadyRequest := post kCm2DmMsgIdReady 0.
Definition UpdateAutoResetTimeoutRequest (v : Z) := post kCm2DmMsgIdAutoResetTimeoutUpdate v.
Definition UpdateTelemHeartbeatRequest (v : Z) := post kCm2DmMsgTelemHeartbeatUpdate v.
Definition RequestLedBlink (v : Z) := post kCm2DmMsgIdLedBlink v.
Definition ReportGddrThermTrip (v : Z) := post kCm2DmMsgIdGddrThermTrip v.

Definition reset_request_handler (s : smc_state) : option smc_state := IssueChipReset (reset_type s) s.

(** [reset_dm_handler]: the request's level byte; returns the exit code. *)
Definition reset_dm_handler (reset_level : Z) (s : smc_state) : Z * smc_state :=
  let s := MkSmc (cm s) (chip_reset_asic_called s) (chip_reset_dmc_called s) reset_level (power s)
             (telemetry_reg s) (calls s) in
  if (reset_level =? kCm2DmResetLevelAsic) || (reset_level =? kCm2DmResetLevelDmc)
  then (0, log_call (CResetTimerStart 5) s)
  else (reset_level, s).

(** [ping_dm_handler]: [take] is the result of waiting on the semaphore and
    [delta] the uptime that passed; returns the response word. *)
Definition ping_dm_handler (legacy_ping take delta : Z) (s : smc_state) : option (Z * smc_state) :=
  s ← post kCm2DmMsgIdPing legacy_ping (log_call CPingSemReset s);
  Some ((if take =? 0 then 1 else 0), log_call (CWritePingDuration (u32 delta)) s).

(** [set_watchdog_timeout]: the driver's answers are arguments. *)
Definition ENODEV : Z := 19.
Definition ENOTSUP : Z := 134.
Definition set_watchdog_timeout (ready : bool) (install setup disable : Z) (feed_interval timeout_ms : Z)
    (s : smc_state) : Z * smc_state :=
  if negb ready then (ENODEV, s) else
  if negb (timeout_ms =? 0) then
    if timeout_ms <=? feed_interval then (ENOTSUP, s) else
    let s := log_call (CWdtInstall timeout_ms) s in
    if install <? 0 then (u8 (0 - install), s) else
    (u8 (0 - setup), log_call CWdtSetup s)
  else (u8 (0 - disable), log_call CWdtDisable s).

Definition word_at (bytes : list Z) (off : nat) (n : nat) : Z := le_of_bytes (take n (drop off bytes)).

Definition Dm2CmSendDataHandler (bytes : list Z) (size : Z) (s : smc_state) : Z * smc_state :=
  if negb (size =? 24) then (-1, s) else
  if negb (word_at bytes 0 4 =? 0) then
    let s := log_call (CUpdateDmFwVersion (word_at bytes 4 4) (word_at bytes 8 4)) s in
    let s := log_call (CWriteArcStartTime (word_at bytes 12 4)) s in
    let s := log_call (CWriteDmInitDuration (word_at bytes 16 4)) s in
    (0, if negb (word_at bytes 20 4 =? 0) then log_call (CWriteArcHangPc (word_at bytes 20 4)) s else s)
  else (-1, s).

Definition Dm2CmPingHandler (bytes : list Z) (size : Z) (s : smc_state) : Z * smc_state :=
  if negb (size =? 2) then (-1, s) else
  if negb (word_at bytes 0 2 =? 0xA5A5) then (-1, s) else (0, log_call CPingSemGive s).

Definition Dm2CmPingV2 (s : smc_state) : list Z * smc_state := ([0xA5; 0xA5], log_call CPingSemGive s).

(** [extra] is [bh_chip_info_additional_board_power()]; [power] is 16 bits. *)
Definition Dm2CmSendPowerHandler (extra : Z) (bytes : list Z) (size : Z) (s : smc_state) : Z * smc_state :=
  if negb (size =? 2) then (-1, s) else
  (0, set_power (u16 (word_at bytes 0 2 + extra)) (log_call CAdjustDVFSTimer s)).

Definition GetInputPower (s : smc_state) : Z := power s.

Definition Dm2CmSendFanRPMHandler (bytes : list Z) (size : Z) (s : smc_state) : Z * smc_state :=
  if negb (size =? 2) then (-1, s) else (0, log_call (CSetFanRPM (word_at bytes 0 2)) s).

Definition SMBusTelemRegHandler (bytes : list Z) (size : Z) (s : smc_state) : option (Z * smc_state) :=
  if negb (size =? 1) then Some (-1, s) else
  b ← aget bytes 0; Some (0, set_telemetry_reg b s).

(** [valid] and [value] are the telemetry table's answers for the register. *)
Definition SMBusTelemDataHandler (valid : Z -> bool) (value : Z -> Z) (s : smc_state) : list Z :=
  (if valid (telemetry_reg s) then 0 else 1) :: 0 :: 0 :: bytes_of_le 4 (value (telemetry_reg s)).

Definition Dm2CmSendThermTripCountHandler (bytes : list Z) (size : Z) (s : smc_state) : Z * smc_state :=
  if negb (size =? 2) then (-1, s) else
  (0, log_call (CUpdateTelemetryThermTripCount (word_at bytes 0 2)) s).

Definition Dm2CmWriteTelemetry (size : Z) : Z := if negb (size =? 33) then -1 else 0.

(** The control word's trigger bits, and the 20-byte block with its own CRC. *)
Definition ctl_data (s : smc_state) : Z :=
  bits_set 12 1 (if chip_reset_dmc_called s then 1 else 0)
    (bits_set 8 1 (if chip_reset_asic_called s then 1 else 0) 0).

Definition Dm2CmReadControlData (crc8 : list Z -> Z -> Z -> bool -> Z) (s : smc_state) : list Z :=
  let body := replicate 11 0 ++ bytes_of_le 4 (ctl_data s) ++ replicate 4 0 in
  let pec := crc8 [20] 0x7 0 false in
  let pec := crc8 body 0x7 pec false in
  body ++ [pec].

(** [for (uint8_t i = 0; i < size; i++)] over the block. *)
Definition Dm2CmDMCLogHandler (bytes : list Z) (size : Z) (s : smc_state) : option (Z * smc_state) :=
  s ← for_loop (Z.to_nat size) 0 (fun i s => b ← aget bytes i; Some (log_call (CUartPollOut b) s)) s;
  Some (0, s).

(** ** The round-robin choice *)

(** Only the message ids 1..9 are ever pending. *)
Definition pending_ok (p : Z) : Prop := 0 <= p /\ forall i, Z.testbit p i = true -> 1 <= i < kCm2DmMsgCount.

(** The distance of an id from the rotation point, in round-robin order. *)
Definition rr_dist (rr id : Z) : Z := (id - rr) mod kCm2DmMsgCount.

Lemma next_id_rr_choice p rr :
  pending_ok p -> p <> 0 -> 0 <= rr < kCm2DmMsgCount ->
  let '(id, rr') := next_id_rr p rr in
  1 <= id < kCm2DmMsgCount /\ Z.testbit p id = true /\ rr' = (id + 1) mod kCm2DmMsgCount /\
  forall j, Z.testbit p j = true -> rr_dist rr id <= rr_dist rr j.
Proof.
  intros [Hp Hb] Hne Hrr. unfold next_id_rr. cbv zeta.
  change kCm2DmMsgCount with 10 in *.
  assert (Hlt : p < 2 ^ 10) by (apply bits_lt_pow2; [lia|lia|]; intros i ?%Hb; lia).
  assert (Hh : forall i, Z.testbit (Z.land p (GENMASK 31 rr)) i = Z.testbit p i && (rr <=? i)).
  { intros i. rewrite Z.land_spec. destruct (Z.testbit p i) eqn:E; [|done].
    apply Hb in E. by rewrite genmask_spec by lia. }
  set (hi := Z.land p (GENMASK 31 rr)) in *.
  assert (0 <= hi < 2 ^ 10).
  { split; [apply Z.land_nonneg; lia|]. apply bits_lt_pow2; [apply Z.land_nonneg; lia|lia|].
    intros i. rewrite Hh. intros [?%Hb _]%andb_true_iff. lia. }
  destruct (Z.eqb_spec hi 0) as [E|E].
  - destruct (lsb_get_lowest p) as (k & Hk & -> & Hbit & Hlow); [lia|].
    pose proof (Hb _ Hbit). rewrite (wrap_small 32) by (unwrap; lia).
    rewrite wrap_small by word_lia. split_and!; [lia|lia|done|done|].
    intros j Hj. pose proof (Hlow _ Hj). pose proof (Hb _ Hj).
    assert (forall i, Z.testbit p i = true -> i < rr) as Hlo.
    { intros i Hi. pose proof (Hh i) as Hhi. rewrite E, Hi, Z.bits_0 in Hhi.
      destruct (Z.leb_spec rr i); [done|lia]. }
    pose proof (Hlo _ Hj). pose proof (Hlo _ Hbit). unfold rr_dist, kCm2DmMsgCount. word_lia.
  - destruct (lsb_get_lowest hi) as (k & Hk & -> & Hbit & Hlow); [lia|].
    rewrite Hh in Hbit. apply andb_true_iff in Hbit as [Hbit Hge%Z.leb_le].
    pose proof (Hb _ Hbit). rewrite (wrap_small 32) by (unwrap; lia).
    rewrite wrap_small by word_lia. split_and!; [lia|lia|done|done|].
    intros j Hj. pose proof (Hb _ Hj). pose proof (Hlow j) as Hl. rewrite Hh, Hj in Hl. simpl in Hl.
    unfold rr_dist, kCm2DmMsgCount. destruct (Z.leb_spec rr j).
    + specialize (Hl eq_refl). word_lia.
    + word_lia.
Qed.

(** ** The invariant and the operations *)

Record cm_inv (s : Cm2DmMsgState) : Prop := {
  cm_pending : pending_ok (pending_messages s);
  cm_rr : 0 <= next_id_rr_ s < kCm2DmMsgCount;
  cm_seq : is_u8 (next_seq_num s);
  cm_next : len (next_msgs s) = kCm2DmMsgCount;
  cm_data : Forall is_u32 (next_msgs s);
  cm_curr : if curr_msg_valid s
            then 1 <= msg_id (curr_msg s) < kCm2DmMsgCount /\ is_u8 (seq_num (curr_msg s)) /\
                 is_u32 (data (curr_msg s)) /\ u8 (seq_num (curr_msg s) + 1) = next_seq_num s
            else curr_msg s = zero_msg
}.

Definition cm2dm_init : Cm2DmMsgState := MkCm 0 0 0 false zero_msg (replicate 10 0).

Lemma cm2dm_init_inv : cm_inv cm2dm_init.
Proof.
  split; cbn; try done; try (unfold kCm2DmMsgCount; lia); [|repeat constructor; unwrap; lia].
  split; [lia|]. intros i. by rewrite Z.bits_0.
Qed.

(** What is pending after a post and after a pick. *)
Lemma pending_setbit p id : pending_ok p -> 1 <= id < kCm2DmMsgCount -> pending_ok (Z.setbit p id).
Proof.
  intros [Hp Hb] Hid. split.
  - unfold Z.setbit. rewrite Z.lor_nonneg. split; [done|]. apply Z.shiftl_nonneg. lia.
  - intros i. rewrite Z.setbit_eqb by lia. intros [->%Z.eqb_eq|?]%orb_true_iff; [done|auto].
Qed.

Lemma pending_clearbit p id : pending_ok p -> 0 <= id -> pending_ok (Z.clearbit p id).
Proof.
  intros [Hp Hb] Hid. split.
  - unfold Z.clearbit. apply Z.ldiff_nonneg. by left.
  - intros i. rewrite Z.clearbit_eqb. intros [? _]%andb_true_iff. auto.
Qed.

Lemma post_ok s id d :
  cm_inv s -> 1 <= id < kCm2DmMsgCount -> is_u32 d ->
  exists s', PostCm2DmMsg id d s = Some s' /\ cm_inv s' /\
    next_msgs s' = <[Z.to_nat id := d]> (next_msgs s) /\
    pending_messages s' = Z.setbit (pending_messages s) id /\
    curr_msg_valid s' = curr_msg_valid s /\ curr_msg s' = curr_msg s /\
    next_seq_num s' = next_seq_num s /\ next_id_rr_ s' = next_id_rr_ s.
Proof.
  intros [Hp Hr Hq Hn Hd Hc] Hid Hu. unfold PostCm2DmMsg. rewrite aset_in by lia.
  eexists. split; [done|]. split; [|done].
  split; cbn; try done; [by apply pending_setbit|by rewrite length_insert|by apply Forall_insert].
Qed.

(** Choosing and loading the next message. *)
Lemma req_load s :
  cm_inv s -> curr_msg_valid s = false -> pending_messages s <> 0 ->
  exists m s', Cm2DmMsgReqSmbusHandler s = Some (encode_msg m, s') /\ cm_inv s' /\
    curr_msg_valid s' = true /\ curr_msg s' = m /\ next_msgs s' = next_msgs s /\
    seq_num m = next_seq_num s /\ aget (next_msgs s) (msg_id m) = Some (data m) /\
    Z.testbit (pending_messages s) (msg_id m) = true /\
    pending_messages s' = Z.clearbit (pending_messages s) (msg_id m) /\
    next_id_rr_ s' = (msg_id m + 1) mod kCm2DmMsgCount /\
    (forall j, Z.testbit (pending_messages s) j = true ->
       rr_dist (next_id_rr_ s) (msg_id m) <= rr_dist (next_id_rr_ s) j).
Proof.
  intros [Hp Hr Hq Hn Hd Hc] Hv Hne. unfold Cm2DmMsgReqSmbusHandler. rewrite Hv.
  destruct (Z.eqb_spec (pending_messages s) 0); [done|].
  pose proof (next_id_rr_choice _ _ Hp Hne Hr) as Hch.
  destruct (next_id_rr _ _) as [id rr']. destruct Hch as (Hid & Hbit & -> & Hmin).
  destruct (aget_in (next_msgs s) id) as [d Ed]; [lia|].
  assert (is_u32 d) by (by eapply aget_Forall).
  unfold kCm2DmMsgCount in *.
  assert (Hw : u8 id = id) by (apply wrap_small; unwrap; lia).
  rewrite Ed, Hw. cbn. eexists _, _. split; [done|]. split; [|by cbn].
  split; cbn; try done; [by apply pending_clearbit; [|lia]|unfold kCm2DmMsgCount; word_lia|auto with fw].
Qed.

(** While a message is out, asking again repeats it. *)
Lemma req_repeat s : curr_msg_valid s = true -> Cm2DmMsgReqSmbusHandler s = Some (encode_msg (curr_msg s), s).
Proof. intros E. unfold Cm2DmMsgReqSmbusHandler. by rewrite E. Qed.

Lemma req_idle s :
  cm_inv s -> curr_msg_valid s = false -> pending_messages s = 0 ->
  Cm2DmMsgReqSmbusHandler s = Some (encode_msg zero_msg, s).
Proof.
  intros [_ _ _ _ _ Hc] E E'. unfold Cm2DmMsgReqSmbusHandler. rewrite E in *. rewrite E'. cbn. by rewrite Hc.
Qed.

Lemma decode_encode m :
  is_u8 (msg_id m) -> is_u8 (seq_num m) -> is_u32 (data m) -> decode_msg (encode_msg m) = Some m.
Proof.
  intros Hi Hs Hd. unfold encode_msg, decode_msg. rewrite !(wrap_small 8) by done.
  rewrite take_ge by (by rewrite bytes_of_le_length). rewrite le_of_bytes_of_le.
  change (256 ^ Z.of_nat 4) with (2 ^ 32). rewrite Z.mod_small by done. by destruct m.
Qed.

(** The acknowledge frame: two bytes, accepted only for the message that is out. *)
Lemma ack_match s i q :
  Cm2DmMsgAckSmbusHandler [i; q] 2 s =
    if curr_msg_valid s && (i =? msg_id (curr_msg s)) && (q =? seq_num (curr_msg s))
    then Some (0, MkCm (pending_messages s) (next_id_rr_ s) (next_seq_num s) false zero_msg (next_msgs s))
    else Some (-1, s).
Proof. done. Qed.

Lemma ack_inv s s' bytes size r :
  cm_inv s -> Cm2DmMsgAckSmbusHandler bytes size s = Some (r, s') -> cm_inv s'.
Proof.
  intros Hi. unfold Cm2DmMsgAckSmbusHandler. destruct (negb _); [by intros [= _ <-]|].
  destruct (aget bytes 0); [|done]. destruct (aget bytes 1); [|done]. cbn.
  destruct (_ && _); intros [= _ <-]; [|done]. destruct Hi. by split.
Qed.

(** ** Fault-free exchanges: every posted message gets its turn *)

Definition legal_post (p : Z * Z) : Prop := 1 <= p.1 < kCm2DmMsgCount /\ is_u32 p.2.

Fixpoint post_all (ps : list (Z * Z)) (s : Cm2DmMsgState) : option Cm2DmMsgState :=
  match ps with
  | [] => Some s
  | (id, d) :: ps => s ← PostCm2DmMsg id d s; post_all ps s
  end.

(** The DMC reads the offered message and acknowledges it. *)
Definition exchange (s : Cm2DmMsgState) : option (cm2dmMessage * Cm2DmMsgState) :=
  '(bytes, s) ← Cm2DmMsgReqSmbusHandler s;
  m ← decode_msg bytes;
  if msg_id m =? kCm2DmMsgIdNull then Some (m, s) else
  '(_, s) ← Cm2DmMsgAckSmbusHandler [msg_id m; seq_num m] 2 s;
  Some (m, s).

(** Before each exchange, firmware may post any messages. *)
Fixpoint rounds (pss : list (list (Z * Z))) (s : Cm2DmMsgState)
    : option (list cm2dmMessage * Cm2DmMsgState) :=
  match pss with
  | [] => Some ([], s)
  | ps :: pss =>
      s ← post_all ps s;
      '(m, s) ← exchange s;
      '(ms, s) ← rounds pss s;
      Some (m :: ms, s)
  end.

(** The value of the last post of [j], or the [old] one. *)
Definition latest (j old : Z) (ps : list (Z * Z)) : Z :=
  fold_left (fun v p => if p.1 =? j then p.2 else v) ps old.

Lemma post_all_ok ps s :
  cm_inv s -> Forall legal_post ps ->
  exists s', post_all ps s = Some s' /\ cm_inv s' /\ curr_msg_valid s' = curr_msg_valid s /\
    next_id_rr_ s' = next_id_rr_ s /\
    (forall j, Z.testbit (pending_messages s) j = true -> Z.testbit (pending_messages s') j = true) /\
    forall j v, aget (next_msgs s) j = Some v -> aget (next_msgs s') j = Some (latest j v ps).
Proof.
  intros Hi HF. revert s Hi. induction HF as [|[id d] ps [Hid Hd] _ IH]; intros s Hi; [by exists s|].
  destruct (post_ok s id d) as (s1 & E & Hi1 & En & Ep & Ev & _ & _ & Er); [done..|].
  destruct (IH s1 Hi1) as (s' & E' & Hi' & Ev' & Er' & Hb & Hg).
  exists s'. cbn [post_all]. rewrite E. cbn [mbind option_bind]. split_and!; [done|done|congruence|congruence| |].
  - intros j Hj. apply Hb. rewrite Ep, Z.setbit_eqb, Hj by (cbn in Hid; lia). by rewrite orb_true_r.
  - intros j v Hv. cbn [latest fold_left fst snd]. apply Hg. rewrite En.
    destruct Hi as [_ _ _ Hlen _ _]. cbn in Hid.
    destruct (Z.eqb_spec id j) as [->|]; [apply aget_insert; lia|].
    by rewrite aget_insert_ne by lia.
Qed.

Lemma exchange_ok s :
  cm_inv s -> curr_msg_valid s = false -> pending_messages s <> 0 ->
  exists m s', exchange s = Some (m, s') /\ cm_inv s' /\ curr_msg_valid s' = false /\
    next_msgs s' = next_msgs s /\ aget (next_msgs s) (msg_id m) = Some (data m) /\
    pending_messages s' = Z.clearbit (pending_messages s) (msg_id m) /\
    next_id_rr_ s' = (msg_id m + 1) mod kCm2DmMsgCount /\
    1 <= msg_id m < kCm2DmMsgCount /\
    (forall j, Z.testbit (pending_messages s) j = true ->
       rr_dist (next_id_rr_ s) (msg_id m) <= rr_dist (next_id_rr_ s) j).
Proof.
  intros Hi Hv Hne.
  destruct (req_load s) as (m & s1 & E & Hi1 & Ev & Em & En & Eq & Eg & Eb & Ep & Er & Hmin); [done..|].
  pose proof (cm_curr _ Hi1) as Hc. rewrite Ev, Em in Hc. destruct Hc as (Hid & Hq & Hd & _).
  unfold exchange. rewrite E. cbn [mbind option_bind].
  rewrite decode_encode by (try done; unfold kCm2DmMsgCount in Hid; unwrap; lia). cbn [mbind option_bind].
  destruct (Z.eqb_spec (msg_id m) kCm2DmMsgIdNull) as [Ez|]; [unfold kCm2DmMsgIdNull in Ez; lia|].
  destruct (Cm2DmMsgAckSmbusHandler [msg_id m; seq_num m] 2 s1) as [[r s2]|] eqn:Ea;
    rewrite ack_match, Ev, Em, !Z.eqb_refl in Ea; [|done].
  cbn [andb] in Ea. injection Ea as _ <-.
  eexists m, _. split; [done|]. split; [by destruct Hi1; split|]. by cbn.
Qed.

Lemma exchange_total s :
  cm_inv s -> curr_msg_valid s = false ->
  exists m s', exchange s = Some (m, s') /\ cm_inv s' /\ curr_msg_valid s' = false.
Proof.
  intros Hi Hv. destruct (Z.eq_dec (pending_messages s) 0) as [E|Hne].
  - exists zero_msg, s. unfold exchange. rewrite req_idle by done. done.
  - destruct (exchange_ok s Hi Hv Hne) as (m & s' & ? & ? & ? & _). by exists m, s'.
Qed.

Lemma rounds_total pss s :
  cm_inv s -> curr_msg_valid s = false -> Forall (Forall legal_post) pss ->
  exists ms s', rounds pss s = Some (ms, s') /\ cm_inv s' /\ curr_msg_valid s' = false.
Proof.
  intros Hi Hv HF. revert s Hi Hv. induction HF as [|ps pss Hps HF IH]; intros s Hi Hv; [by exists [], s|].
  destruct (post_all_ok ps s Hi Hps) as (s1 & E1 & Hi1 & Hv1 & _).
  destruct (exchange_total s1) as (m & s2 & E2 & Hi2 & Hv2); [done|congruence|].
  destruct (IH s2 Hi2 Hv2) as (ms & s3 & E3 & Hi3 & Hv3).
  exists (m :: ms), s3. cbn [rounds]. rewrite E1. cbn [mbind option_bind]. rewrite E2.
  cbn [mbind option_bind]. by rewrite E3.
Qed.

Lemma latest_app j v ps qs : latest j v (ps ++ qs) = latest j (latest j v ps) qs.
Proof. apply fold_left_app. Qed.

Lemma testbit_nonzero p j : Z.testbit p j = true -> p <> 0.
Proof. intros H ->. by rewrite Z.bits_0 in H. Qed.

(** C15: No message starves.  A message that is pending when the mailbox is idle
    is handed to the DMC within as many exchanges as its round-robin distance
    (at most nine others go first), whatever the firmware posts in between, and
    what the DMC gets is the data of the last post before that exchange. *)
Theorem cm2dm_no_starvation pss s j v :
  cm_inv s -> curr_msg_valid s = false -> 1 <= j < kCm2DmMsgCount ->
  Forall (Forall legal_post) pss -> aget (next_msgs s) j = Some v ->
  Z.testbit (pending_messages s) j = true -> rr_dist (next_id_rr_ s) j < len pss ->
  exists ms s', rounds pss s = Some (ms, s') /\ cm_inv s' /\ curr_msg_valid s' = false /\
    exists k m, ms !! k = Some m /\ Z.of_nat k <= rr_dist (next_id_rr_ s) j /\
      msg_id m = j /\ data m = latest j v (concat (take (S k) pss)).
Proof.
  intros Hi Hv Hj HF. revert s v Hi Hv. induction HF as [|ps pss Hps HF IH]; intros s v Hi Hv Hg Hb Hlt.
  { cbn in Hlt. unfold rr_dist, kCm2DmMsgCount in Hlt. word_lia. }
  destruct (post_all_ok ps s Hi Hps) as (s1 & E1 & Hi1 & Hv1 & Hr1 & Hb1 & Hg1).
  pose proof (Hb1 _ Hb) as Hbj. pose proof (Hg1 _ _ Hg) as Hgj. rewrite Hv in Hv1.
  destruct (exchange_ok s1) as (m & s2 & E2 & Hi2 & Hv2 & En2 & Eg2 & Ep2 & Er2 & Hid & Hmin);
    [done|done|by eapply testbit_nonzero|].
  cbn [rounds]. rewrite E1. cbn [mbind option_bind]. rewrite E2. cbn [mbind option_bind].
  destruct (Z.eq_dec (msg_id m) j) as [Ej|Hne].
  - destruct (rounds_total pss s2 Hi2 Hv2 HF) as (ms & s3 & E3 & Hi3 & Hv3).
    exists (m :: ms), s3. rewrite E3. split_and!; [done|done|done|]. exists 0%nat, m.
    split_and!; [done|unfold rr_dist, kCm2DmMsgCount; word_lia|done|].
    cbn [take concat]. rewrite take_0. cbn [concat]. rewrite app_nil_r. congruence.
  - specialize (Hmin _ Hbj). rewrite Hr1 in Hmin.
    assert (rr_dist (next_id_rr_ s2) j < rr_dist (next_id_rr_ s) j) as Hdec.
    { rewrite Er2. pose proof (cm_rr _ Hi). unfold rr_dist, kCm2DmMsgCount in *. word_lia. }
    destruct (IH s2 (latest j v ps)) as (ms & s3 & E3 & Hi3 & Hv3 & k & m' & Ek & Hk & Em & Ed);
      [done|done|congruence| |cbn [length] in Hlt; lia|].
    { rewrite Ep2, Z.clearbit_eqb, Hbj. by destruct (Z.eqb_spec (msg_id m) j). }
    exists (m :: ms), s3. rewrite E3. split_and!; [done|done|done|]. exists (S k), m'.
    split_and!; [done|lia|done|]. rewrite Ed. cbn [take concat]. by rewrite latest_app.
Qed.

Lemma cm2dm_no_starvation_witness :
  exists s ms s', PostCm2DmMsg kCm2DmMsgIdReady 7 cm2dm_init = Some s /\
    rounds [[(kCm2DmMsgIdPing, 1)]; [(kCm2DmMsgIdReady, 8)]; []; []; []] s = Some (ms, s') /\
    exists k m, ms !! k = Some m /\ msg_id m = kCm2DmMsgIdReady /\ data m = 8.
Proof.
  destruct (post_ok cm2dm_init kCm2DmMsgIdReady 7 cm2dm_init_inv) as (s & E & Hi & _);
    [by vm_compute|by vm_compute|].
  injection E as <-.
  destruct (cm2dm_no_starvation [[(kCm2DmMsgIdPing, 1)]; [(kCm2DmMsgIdReady, 8)]; []; []; []] _
              kCm2DmMsgIdReady 7 Hi) as (ms & s' & Er & _ & _ & k & m & Ek & _ & Em & _);
    [done|by vm_compute| |done|done|by vm_compute|].
  { repeat constructor; by vm_compute. }
  eexists _, ms, s'. split; [done|]. split; [exact Er|]. vm_compute in Er. injection Er as <- <-.
  exists 1%nat, (MkMsg 4 1 8). done.
Defined.

(** ** Interleaving of a poster and the request handler

    [PostCm2DmMsg] stores the data and then sets the bit; the request handler
    picks an id, clears its bit and then reads the data.  Each of these is one
    atomic step; any number of posters may be between their two steps. *)

Inductive reader := RIdle | RPicked (id : Z) | RCleared (id : Z).

Record world := MkWorld {
  w_cm : Cm2DmMsgState;
  w_reader : reader;
  w_posters : list Z;      (** posters that stored their data but not yet their bit *)
  w_posted : gset Z;       (** ids posted so far *)
  w_sent : gmap Z Z        (** data last loaded for sending, per id *)
}.

Definition store_data (id d : Z) (s : Cm2DmMsgState) : option Cm2DmMsgState :=
  l ← aset (next_msgs s) id d;
  Some (MkCm (pending_messages s) (next_id_rr_ s) (next_seq_num s) (curr_msg_valid s) (curr_msg s) l).
Definition set_bit (id : Z) (s : Cm2DmMsgState) : Cm2DmMsgState :=
  MkCm (Z.setbit (pending_messages s) id) (next_id_rr_ s) (next_seq_num s) (curr_msg_valid s)
    (curr_msg s) (next_msgs s).
Definition pick (s : Cm2DmMsgState) : Z * Cm2DmMsgState :=
  let '(id, rr) := next_id_rr (pending_messages s) (next_id_rr_ s) in
  (id, MkCm (pending_messages s) rr (next_seq_num s) (curr_msg_valid s) (curr_msg s) (next_msgs s)).
Definition clear_bit (id : Z) (s : Cm2DmMsgState) : Cm2DmMsgState :=
  MkCm (Z.clearbit (pending_messages s) id) (next_id_rr_ s) (next_seq_num s) (curr_msg_valid s)
    (curr_msg s) (next_msgs s).
Definition load_msg (id : Z) (s : Cm2DmMsgState) : option (Z * Cm2DmMsgState) :=
  d ← aget (next_msgs s) id;
  Some (d, MkCm (pending_messages s) (next_id_rr_ s) (u8 (next_seq_num s + 1)) true
             (MkMsg (u8 id) (next_seq_num s) d) (next_msgs s)).

(** The functions are these steps in sequence. *)
Lemma post_steps id d s : PostCm2DmMsg id d s = s' ← store_data id d s; Some (set_bit id s').
Proof. unfold PostCm2DmMsg, store_data. by destruct (aset _ _ _). Qed.

Lemma req_steps s :
  curr_msg_valid s = false -> pending_messages s <> 0 ->
  Cm2DmMsgReqSmbusHandler s =
    let '(id, s1) := pick s in
    '(_, s2) ← load_msg id (clear_bit id s1); Some (encode_msg (curr_msg s2), s2).
Proof.
  intros Hv Hne. unfold Cm2DmMsgReqSmbusHandler, pick, load_msg. rewrite Hv.
  destruct (Z.eqb_spec (pending_messages s) 0); [done|].
  destruct (next_id_rr _ _) as [id rr]. cbn. by destruct (aget _ _).
Qed.

Inductive wstep : world -> world -> Prop :=
| WStore c r ps posted sent id d c' :
    1 <= id < kCm2DmMsgCount -> is_u32 d -> store_data id d c = Some c' ->
    wstep (MkWorld c r ps posted sent) (MkWorld c' r (id :: ps) ({[id]} ∪ posted) sent)
| WSetBit c r ps1 id ps2 posted sent :
    wstep (MkWorld c r (ps1 ++ id :: ps2) posted sent) (MkWorld (set_bit id c) r (ps1 ++ ps2) posted sent)
| WPick c ps posted sent id c' :
    curr_msg_valid c = false -> pending_messages c <> 0 -> pick c = (id, c') ->
    wstep (MkWorld c RIdle ps posted sent) (MkWorld c' (RPicked id) ps posted sent)
| WClear c id ps posted sent :
    wstep (MkWorld c (RPicked id) ps posted sent) (MkWorld (clear_bit id c) (RCleared id) ps posted sent)
| WLoad c id d ps posted sent c' :
    load_msg id c = Some (d, c') ->
    wstep (MkWorld c (RCleared id) ps posted sent) (MkWorld c' RIdle ps posted (<[id := d]> sent))
| WAck c ps posted sent bytes size v c' :
    Cm2DmMsgAckSmbusHandler bytes size c = Some (v, c') ->
    wstep (MkWorld c RIdle ps posted sent) (MkWorld c' RIdle ps posted sent).

Definition world_init : world := MkWorld cm2dm_init RIdle [] ∅ ∅.

(** Every posted id still has someone who will send its current data. *)
Definition covered (w : world) (id : Z) : Prop :=
  id ∈ w_posters w \/ Z.testbit (pending_messages (w_cm w)) id = true \/ w_reader w = RCleared id \/
  (exists d, w_sent w !! id = Some d /\ aget (next_msgs (w_cm w)) id = Some d).

Definition winv (w : world) : Prop :=
  (forall id, id ∈ w_posted w -> covered w id) /\ (forall id, id ∈ w_posters w -> 0 <= id).

Lemma ack_fields bytes size c v c' :
  Cm2DmMsgAckSmbusHandler bytes size c = Some (v, c') ->
  pending_messages c' = pending_messages c /\ next_msgs c' = next_msgs c.
Proof.
  unfold Cm2DmMsgAckSmbusHandler. destruct (negb _); [by intros [= _ <-]|].
  destruct (aget bytes 0); [|done]. destruct (aget bytes 1); [|done]. cbn.
  by destruct (_ && _); intros [= _ <-].
Qed.

Lemma wstep_inv w w' : wstep w w' -> winv w -> winv w'.
Proof.
  intros Hst [Hc Hp]. destruct Hst as
    [c r ps posted sent id d c' Hid Hd E|c r ps1 i ps2 posted sent|c ps posted sent i c' Hv Hne E
    |c i ps posted sent|c i d ps posted sent c' E|c ps posted sent bytes size v c' E];
    unfold winv, covered in *; cbn in *.
  - unfold store_data in E. destruct (aset _ _ _) as [l|] eqn:El; [|done]. injection E as <-. cbn.
    split; [|intros j [->|Hj]%elem_of_cons; [lia|by apply Hp]]. intros j Hj. destruct (Z.eq_dec id j) as [->|Hne]; [set_solver|].
    destruct (Hc j) as [?|[?|[?|(d' & Es & Eg)]]]; [set_solver|set_solver|by auto|by auto|].
    right; right; right. exists d'. split; [done|]. rewrite (aget_aset _ _ _ _ _ El).
    by destruct (Z.eqb_spec id j).
  - split; [|intros j Hj; apply Hp; set_solver]. intros j Hj.
    destruct (Z.eq_dec i j) as [->|Hne].
    { right; left. rewrite Z.setbit_eqb by (apply Hp; set_solver). by rewrite Z.eqb_refl. }
    destruct (Hc j Hj) as [?|[Hb|[?|?]]]; [left; set_solver| |by auto|by auto].
    right; left. rewrite Z.setbit_eqb, Hb by (apply Hp; set_solver). by rewrite orb_true_r.
  - unfold pick, next_id_rr in E. injection E as _ <-. cbn.
    split; [|done]. intros j Hj. destruct (Hc j Hj) as [?|[?|[?|?]]]; auto. done.
  - split; [|done]. intros j Hj.
    destruct (Hc j Hj) as [?|[Hb|[?|?]]]; [by auto| |done|by auto].
    destruct (Z.eq_dec i j) as [->|Hne]; [by auto|].
    right; left. rewrite Z.clearbit_eqb, Hb. by destruct (Z.eqb_spec i j).
  - unfold load_msg in E. destruct (aget _ _) as [d'|] eqn:Eg; [|done]. injection E as -> <-. cbn.
    split; [|done]. intros j Hj. destruct (Z.eq_dec i j) as [->|Hne].
    { right; right; right. exists d. by rewrite lookup_insert_eq. }
    destruct (Hc j Hj) as [?|[Hb|[?|(d' & Es & Eg')]]]; [by auto|by auto|by simplify_eq|].
    right; right; right. exists d'. by rewrite lookup_insert_ne.
  - destruct (ack_fields _ _ _ _ _ E) as [Ep En]. rewrite Ep, En. split; done.
Qed.

(** The final value of every message is always sent.  In any interleaving of
    posters, request handler and acknowledgements, once no poster is half-way
    and nothing is pending, what was last loaded for sending under each posted
    id is exactly the data stored last. *)
Theorem cm2dm_final_value_sent w id :
  rtc wstep world_init w ->
  w_posters w = [] -> pending_messages (w_cm w) = 0 -> w_reader w = RIdle -> id ∈ w_posted w ->
  exists d, w_sent w !! id = Some d /\ aget (next_msgs (w_cm w)) id = Some d.
Proof.
  intros Hr Hps Hpend Hrd Hid.
  assert (winv w) as [Hc _].
  { assert (winv world_init) as Hi by (split; cbn; set_solver).
    revert Hi. clear -Hr. induction Hr as [|x y z Hs _ IH]; eauto using wstep_inv. }
  destruct (Hc id Hid) as [H|[H|[H|H]]]; [|by rewrite Hpend, Z.bits_0 in H|congruence|done].
  rewrite Hps in H. set_solver.
Qed.

Lemma cm2dm_final_value_sent_witness :
  exists w, rtc wstep world_init w /\ aget (next_msgs (w_cm w)) 3 = Some 60 /\ w_sent w !! 3 = Some 60.
Proof.
  assert (exists w, rtc wstep world_init w /\ w_posters w = [] /\ pending_messages (w_cm w) = 0 /\
            w_reader w = RIdle /\ 3 ∈ w_posted w /\ aget (next_msgs (w_cm w)) 3 = Some 60)
    as (w & Hr & H1 & H2 & H3 & H4 & H5).
  { eexists. split_and!.
    - (* a post, picked up while a second post of the same message is half-way *)
      eapply rtc_l; [eapply (WStore _ _ _ _ _ 3 50); [done|by vm_compute|vm_compute; reflexivity]|].
      eapply rtc_l; [apply (WSetBit _ _ [])|].
      eapply rtc_l; [eapply WPick; [done|done|vm_compute; reflexivity]|].
      eapply rtc_l; [eapply (WStore _ _ _ _ _ 3 60); [done|by vm_compute|vm_compute; reflexivity]|].
      eapply rtc_l; [apply WClear|].
      eapply rtc_l; [eapply WLoad; vm_compute; reflexivity|].
      eapply rtc_l; [apply (WSetBit _ _ [])|].
      eapply rtc_l; [eapply (WAck _ _ _ _ [3; 0] 2); vm_compute; reflexivity|].
      eapply rtc_l; [eapply WPick; [done|done|vm_compute; reflexivity]|].
      eapply rtc_l; [apply WClear|].
      eapply rtc_l; [eapply WLoad; vm_compute; reflexivity|]. apply rtc_refl.
    - done.
    - done.
    - done.
    - set_solver.
    - done. }
  exists w. destruct (cm2dm_final_value_sent w 3 Hr H1 H2 H3 H4) as (d & E & E').
  split_and!; [done|done|congruence].
Defined.

(** A message is offered until it is acknowledged.  The request handler never
    fails, answers with the six bytes of the current message, and answers the
    same again until the acknowledgement; it answers the null message only when
    nothing is pending.  An acknowledgement counts only with the right size and
    with the id and sequence number of the message on offer, and then empties
    the slot. *)
Theorem cm2dm_offer_until_acked s :
  cm_inv s ->
  exists bytes s1, Cm2DmMsgReqSmbusHandler s = Some (bytes, s1) /\ cm_inv s1 /\ length bytes = 6%nat /\
    decode_msg bytes = Some (curr_msg s1) /\
    (curr_msg_valid s = true -> s1 = s) /\
    (curr_msg_valid s1 = false <-> curr_msg_valid s = false /\ pending_messages s = 0) /\
    (msg_id (curr_msg s1) = kCm2DmMsgIdNull <-> curr_msg_valid s1 = false) /\
    Cm2DmMsgReqSmbusHandler s1 = Some (bytes, s1) /\
    (forall ack size, size <> 2 -> Cm2DmMsgAckSmbusHandler ack size s1 = Some (-1, s1)) /\
    forall i q, exists s2, Cm2DmMsgAckSmbusHandler [i; q] 2 s1 =
        Some ((if decide (curr_msg_valid s1 = true /\ i = msg_id (curr_msg s1) /\ q = seq_num (curr_msg s1))
               then 0 else -1), s2) /\ cm_inv s2 /\
      if decide (curr_msg_valid s1 = true /\ i = msg_id (curr_msg s1) /\ q = seq_num (curr_msg s1))
      then curr_msg_valid s2 = false /\ pending_messages s2 = pending_messages s1 else s2 = s1.
Proof.
  intros Hi.
  assert (exists s1, Cm2DmMsgReqSmbusHandler s = Some (encode_msg (curr_msg s1), s1) /\ cm_inv s1 /\
            (curr_msg_valid s = true -> s1 = s) /\
            (curr_msg_valid s1 = false <-> curr_msg_valid s = false /\ pending_messages s = 0))
    as (s1 & E & Hi1 & Hsame & Hv).
  { destruct (curr_msg_valid s) eqn:Ev.
    - exists s. rewrite req_repeat, Ev by done. split_and!; [done..|naive_solver].
    - destruct (Z.eq_dec (pending_messages s) 0) as [Ep|Hne].
      + exists s. rewrite req_idle by done. pose proof (cm_curr _ Hi) as Hc. rewrite Ev in Hc.
        rewrite Hc, Ev. done.
      + destruct (req_load s) as (m & s1 & E & Hi1 & Ev1 & <- & _); [done..|].
        exists s1. rewrite Ev1. naive_solver. }
  assert (Hz : if curr_msg_valid s1 then is_u8 (msg_id (curr_msg s1)) /\ is_u8 (seq_num (curr_msg s1)) /\
                 is_u32 (data (curr_msg s1)) /\ msg_id (curr_msg s1) <> 0
               else curr_msg s1 = zero_msg).
  { pose proof (cm_curr _ Hi1) as Hc. destruct (curr_msg_valid s1); [|done].
    unfold kCm2DmMsgCount in Hc. destruct Hc as (? & ? & ? & _). split_and!; [unwrap; lia..|done|done|lia]. }
  exists (encode_msg (curr_msg s1)), s1. split; [done|]. split; [done|]. split; [done|].
  split; [destruct (curr_msg_valid s1); [apply decode_encode; naive_solver|by rewrite Hz]|].
  split; [done|]. split; [done|]. unfold kCm2DmMsgIdNull.
  split; [destruct (curr_msg_valid s1); [naive_solver|by rewrite Hz]|].
  split.
  { destruct (curr_msg_valid s1) eqn:Ev1; [by apply req_repeat|].
    destruct Hv as [Hv _]. destruct (Hv eq_refl) as [Ev Ep]. rewrite req_idle in E by done.
    rewrite Hz. assert (s1 = s) as -> by congruence. by apply req_idle. }
  split.
  { intros ack size Hs. unfold Cm2DmMsgAckSmbusHandler. by destruct (Z.eqb_spec size 2). }
  intros i q. rewrite ack_match.
  destruct (curr_msg_valid s1) eqn:Ev1; [|by case_decide; [naive_solver|exists s1]].
  case_decide as Hd.
  - destruct Hd as (_ & -> & ->). rewrite !Z.eqb_refl. cbn. eexists. split; [done|]. split; [|done].
    by destruct Hi1; split.
  - exists s1. split; [|done].
    destruct (Z.eqb_spec i (msg_id (curr_msg s1))), (Z.eqb_spec q (seq_num (curr_msg s1))); cbn; try done.
    by destruct Hd.
Qed.

Lemma cm2dm_offer_until_acked_witness :
  exists s bytes s1, PostCm2DmMsg kCm2DmMsgIdPing 5 cm2dm_init = Some s /\
    Cm2DmMsgReqSmbusHandler s = Some (bytes, s1) /\ cm_inv s1 /\ bytes = [2; 0; 5; 0; 0; 0].
Proof.
  destruct (post_ok cm2dm_init kCm2DmMsgIdPing 5 cm2dm_init_inv) as (s & E & Hi & _);
    [by vm_compute|by vm_compute|].
  destruct (cm2dm_offer_until_acked s Hi) as (bytes & s1 & Er & Hi1 & _).
  exists s, bytes, s1. split_and!; [done|done|done|].
  vm_compute in E. injection E as <-. vm_compute in Er. by injection Er as <- _.
Defined.

(** ** The requests and the DMC-facing handlers *)

(** A reset request reaches the DMC and is remembered: [IssueChipReset]
    always succeeds on a well-formed mailbox, locks the chip down, leaves the
    reset message pending with its level, and the control block the DMC can read
    reports exactly the levels requested so far in bits 8 and 12 of its word at
    offset 11, all other bytes being zero except the final CRC, which covers the
    size byte and the block. *)
Theorem chip_reset_recorded (crc8 : list Z -> Z -> Z -> bool -> Z) level s :
  cm_inv (cm s) -> is_u32 level ->
  (forall x y a b c, crc8 (x ++ y) a b c = crc8 y a (crc8 x a b c) c) ->
  exists s', IssueChipReset level s = Some s' /\ cm_inv (cm s') /\
    calls s' = CLockDownForReset :: calls s /\
    Z.testbit (pending_messages (cm s')) kCm2DmMsgIdResetReq = true /\
    aget (next_msgs (cm s')) kCm2DmMsgIdResetReq = Some level /\
    chip_reset_asic_called s' = chip_reset_asic_called s || (level =? kCm2DmResetLevelAsic) /\
    chip_reset_dmc_called s' = chip_reset_dmc_called s || (level =? kCm2DmResetLevelDmc) /\
    exists body, Dm2CmReadControlData crc8 s' = body ++ [crc8 (20 :: body) 7 0 false] /\
      length body = 19%nat /\
      (forall i, i <> 12%nat -> (i < 19)%nat -> body !! i = Some 0) /\
      body !! 12%nat = Some ((if chip_reset_asic_called s' then 1 else 0) +
                             (if chip_reset_dmc_called s' then 16 else 0)).
Proof.
  intros Hi Hl Hcrc. unfold IssueChipReset, post.
  destruct (post_ok (cm s) kCm2DmMsgIdResetReq level Hi) as (c & E & Hc & En & Ep & _);
    [by vm_compute|done|].
  cbn [cm log_call]. rewrite E. cbn [mbind option_bind]. eexists. split; [done|].
  cbn [cm set_cm calls log_call chip_reset_asic_called chip_reset_dmc_called].
  split; [done|]. split; [done|].
  split; [by rewrite Ep, Z.setbit_eqb|].
  split; [rewrite En; apply aget_insert; rewrite (cm_next _ Hi); done|].
  split; [done|]. split; [done|].
  eexists. split.
  { unfold Dm2CmReadControlData. by rewrite <- Hcrc. }
  split; [by rewrite !length_app, bytes_of_le_length|].
  unfold ctl_data, set_cm, chip_reset_asic_called at 1, chip_reset_dmc_called at 1.
  split.
  - intros i Hne Hlt. destruct (chip_reset_dmc_called s || _), (chip_reset_asic_called s || _);
      (do 19 (destruct i as [|i]; [done|])); lia.
  - by destruct (chip_reset_dmc_called s || _), (chip_reset_asic_called s || _).
Qed.

(** CRC-8 with polynomial [poly], most significant bit first, as the witness's
    instance of the CRC library. *)
Definition crc8_byte (poly c b : Z) : Z :=
  Nat.iter 8 (fun c => if Z.testbit c 7 then Z.lxor (u8 (2 * c)) poly else u8 (2 * c)) (Z.lxor c b).
Definition crc8_msb (l : list Z) (poly init : Z) (_ : bool) : Z := fold_left (crc8_byte poly) l init.

Definition smc_init : smc_state := MkSmc cm2dm_init false false 0 0 0 [].

Lemma chip_reset_recorded_witness :
  exists s', IssueChipReset kCm2DmResetLevelDmc smc_init = Some s' /\ chip_reset_dmc_called s' = true /\
    exists body, Dm2CmReadControlData crc8_msb s' = body ++ [crc8_msb (20 :: body) 7 0 false] /\
      body !! 12%nat = Some 16.
Proof.
  destruct (chip_reset_recorded crc8_msb kCm2DmResetLevelDmc smc_init) as
    (s' & E & _ & _ & _ & _ & Ea & Ed & body & Eb & _ & _ & Ec);
    [exact cm2dm_init_inv|by vm_compute|intros; apply fold_left_app|].
  exists s'. split_and!; [done|by rewrite Ed|]. exists body. split; [done|]. by rewrite Ec, Ea, Ed.
Defined.

Lemma le_word_bytes v : is_u16 v -> word_at (bytes_of_le 2 v) 0 2 = v.
Proof.
  intros. unfold word_at. rewrite drop_0, take_ge by (by rewrite bytes_of_le_length).
  rewrite le_of_bytes_of_le. by apply Z.mod_small.
Qed.

(** The log handler prints every byte, in order. *)
Lemma dmc_log_loop n lo pre bytes s :
  lo = len pre -> n = length bytes ->
  for_loop n lo (fun i s => b ← aget (pre ++ bytes) i; Some (log_call (CUartPollOut b) s)) s =
    Some (fold_left (fun s b => log_call (CUartPollOut b) s) bytes s).
Proof.
  revert n lo pre s. induction bytes as [|b bytes IH]; intros n lo pre s -> ->; [done|].
  cbn [length for_loop fold_left]. rewrite aget_nat by lia. rewrite Nat2Z.id, list_lookup_middle by done.
  cbn [mbind option_bind]. rewrite (assoc_L (++) pre [b] bytes : pre ++ b :: bytes = _).
  apply IH; [|done]. rewrite length_app. cbn. lia.
Qed.

(** The word handlers of the DMC's reports.  A frame of the wrong size is
    refused with -1 and no effect; a frame of the right size delivers exactly the
    little-endian value: the fan speed, the thermal-trip count, the board power
    (plus the board's extra power, in 16 bits, after the DVFS adjustment), the
    telemetry selector; the ping counts only for the pattern 0xA5A5; the log
    handler prints every byte in order. *)
Theorem dm2cm_handlers_deliver extra v s :
  is_u16 v ->
  Dm2CmSendFanRPMHandler (bytes_of_le 2 v) 2 s = (0, log_call (CSetFanRPM v) s) /\
  Dm2CmSendThermTripCountHandler (bytes_of_le 2 v) 2 s = (0, log_call (CUpdateTelemetryThermTripCount v) s) /\
  Dm2CmSendPowerHandler extra (bytes_of_le 2 v) 2 s =
    (0, set_power (u16 (v + extra)) (log_call CAdjustDVFSTimer s)) /\
  Dm2CmPingHandler (bytes_of_le 2 v) 2 s = (if v =? 0xA5A5 then (0, log_call CPingSemGive s) else (-1, s)) /\
  SMBusTelemRegHandler [v] 1 s = Some (0, set_telemetry_reg v s) /\
  (forall bytes, Dm2CmDMCLogHandler bytes (len bytes) s =
     Some (0, fold_left (fun s b => log_call (CUartPollOut b) s) bytes s)) /\
  forall bytes size,
    (size <> 2 -> Dm2CmSendFanRPMHandler bytes size s = (-1, s) /\
       Dm2CmSendThermTripCountHandler bytes size s = (-1, s) /\
       Dm2CmSendPowerHandler extra bytes size s = (-1, s) /\ Dm2CmPingHandler bytes size s = (-1, s)) /\
    (size <> 1 -> SMBusTelemRegHandler bytes size s = Some (-1, s)) /\
    (size <> 24 -> Dm2CmSendDataHandler bytes size s = (-1, s)) /\
    (size <> 33 -> Dm2CmWriteTelemetry size = -1).
Proof.
  intros Hv.
  unfold Dm2CmSendFanRPMHandler, Dm2CmSendThermTripCountHandler, Dm2CmSendPowerHandler, Dm2CmPingHandler,
    Dm2CmSendDataHandler, Dm2CmWriteTelemetry.
  rewrite le_word_bytes by done. split_and!; [done|done|done|by destruct (v =? _)|done| |].
  - intros bytes. unfold Dm2CmDMCLogHandler. rewrite Nat2Z.id.
    by rewrite (dmc_log_loop _ 0 [] bytes).
  - intros bytes size. split_and!; intros Hs; repeat split;
      unfold SMBusTelemRegHandler; apply Z.eqb_neq in Hs; by rewrite Hs.
Qed.

Lemma dm2cm_handlers_deliver_witness :
  Dm2CmPingHandler (bytes_of_le 2 0xA5A5) 2 smc_init = (0, log_call CPingSemGive smc_init).
Proof.
  destruct (dm2cm_handlers_deliver 0 0xA5A5 smc_init) as (_ & _ & _ & E & _); [by vm_compute|exact E].
Defined.
