(* ===== verification/BhChip.v ===== *)
(** * The DMC's view of a chip ([lib/tenstorrent/bh_chip], [lib/tenstorrent/jtag_bootrom])

    The management controller (DMC) drives each Blackhole chip through GPIOs,
    JTAG and SMBus.  Zephyr drivers and the hardware are an interface, the class
    [DmcHal]: every call takes the world and answers with an integer result (or a
    value read) and the new world.  [trigger_reset], an atomic flag that
    interrupt handlers set at any time, lives in the world.  The Kconfig options
    modelled are those of the boards: JTAG_LOAD_BOOTROM and JTAG_LOAD_ON_PRESET
    on, GPIO emulation off; the others are in [kconfig]. *)

From S2P Require Import Prelude Cm2dm.

(** ** Chip data ([struct bh_chip_data]) *)

Record bh_chip_data := MkChip {
  workaround_applied : bool;
  arc_needs_init_msg : bool;
  performing_reset : bool;
  therm_trip_triggered : bool;
  therm_trip_count : Z;
  pgood_fall_triggered : bool;
  pgood_rise_triggered : bool;
  pgood_severe_fault : bool;
  pgood_last_trip_ms : Z;
  auto_reset_timeout : Z;
  telemetry_heartbeat : Z;
  arc_hang_pc : Z;
  arc_wdog_triggered : bool;
  fan_speed : Z;
  fan_speed_forced : bool;
  last_cm2dm_seq_num : Z;
  last_cm2dm_seq_num_valid : bool;
  cable_power_limit : Z;
  perst_seen : bool;
  dm_init_done : Z;
  arc_start_time : Z
}.

Definition chip0 : bh_chip_data :=
  MkChip false false false false 0 false false false 0 0 0 0 false 0 false 0 false 0 false 0 0.

Definition set_workaround_applied (v : bool) (d : bh_chip_data) : bh_chip_data :=
  MkChip v (arc_needs_init_msg d) (performing_reset d) (therm_trip_triggered d)
    (therm_trip_count d) (pgood_fall_triggered d) (pgood_rise_triggered d) (pgood_severe_fault
    d) (pgood_last_trip_ms d) (auto_reset_timeout d) (telemetry_heartbeat d) (arc_hang_pc d)
    (arc_wdog_triggered d) (fan_speed d) (fan_speed_forced d) (last_cm2dm_seq_num d)
    (last_cm2dm_seq_num_valid d) (cable_power_limit d) (perst_seen d) (dm_init_done d)
    (arc_start_time d).
Definition set_arc_needs_init_msg (v : bool) (d : bh_chip_data) : bh_chip_data :=
  MkChip (workaround_applied d) v (performing_reset d) (therm_trip_triggered d)
    (therm_trip_count d) (pgood_fall_triggered d) (pgood_rise_triggered d) (pgood_severe_fault
    d) (pgood_last_trip_ms d) (auto_reset_timeout d) (telemetry_heartbeat d) (arc_hang_pc d)
    (arc_wdog_triggered d) (fan_speed d) (fan_speed_forced d) (last_cm2dm_seq_num d)
    (last_cm2dm_seq_num_valid d) (cable_power_limit d) (perst_seen d) (dm_init_done d)
    (arc_start_time d).
Definition set_performing_reset (v : bool) (d : bh_chip_data) : bh_chip_data :=
  MkChip (workaround_applied d) (arc_needs_init_msg d) v (therm_trip_triggered d)
    (therm_trip_count d) (pgood_fall_triggered d) (pgood_rise_triggered d) (pgood_severe_fault
    d) (pgood_last_trip_ms d) (auto_reset_timeout d) (telemetry_heartbeat d) (arc_hang_pc d)
    (arc_wdog_triggered d) (fan_speed d) (fan_speed_forced d) (last_cm2dm_seq_num d)
    (last_cm2dm_seq_num_valid d) (cable_power_limit d) (perst_seen d) (dm_init_done d)
    (arc_start_time d).
Definition set_therm_trip_triggered (v : bool) (d : bh_chip_data) : bh_chip_data :=
  MkChip (workaround_applied d) (arc_needs_init_msg d) (performing_reset d) v (therm_trip_count
    d) (pgood_fall_triggered d) (pgood_rise_triggered d) (pgood_severe_fault d)
    (pgood_last_trip_ms d) (auto_reset_timeout d) (telemetry_heartbeat d) (arc_hang_pc d)
    (arc_wdog_triggered d) (fan_speed d) (fan_speed_forced d) (last_cm2dm_seq_num d)
    (last_cm2dm_seq_num_valid d) (cable_power_limit d) (perst_seen d) (dm_init_done d)
    (arc_start_time d).
Definition set_therm_trip_count (v : Z) (d : bh_chip_data) : bh_chip_data :=
  MkChip (workaround_applied d) (arc_needs_init_msg d) (performing_reset d)
    (therm_trip_triggered d) v (pgood_fall_triggered d) (pgood_rise_triggered d)
    (pgood_severe_fault d) (pgood_last_trip_ms d) (auto_reset_timeout d) (telemetry_heartbeat d)
    (arc_hang_pc d) (arc_wdog_triggered d) (fan_speed d) (fan_speed_forced d)
    (last_cm2dm_seq_num d) (last_cm2dm_seq_num_valid d) (cable_power_limit d) (perst_seen d)
    (dm_init_done d) (arc_start_time d).
Definition set_pgood_fall_triggered (v : bool) (d : bh_chip_data) : bh_chip_data :=
  MkChip (workaround_applied d) (arc_needs_init_msg d) (performing_reset d)
    (therm_trip_triggered d) (therm_trip_count d) v (pgood_rise_triggered d) (pgood_severe_fault
    d) (pgood_last_trip_ms d) (auto_reset_timeout d) (telemetry_heartbeat d) (arc_hang_pc d)
    (arc_wdog_triggered d) (fan_speed d) (fan_speed_forced d) (last_cm2dm_seq_num d)
    (last_cm2dm_seq_num_valid d) (cable_power_limit d) (perst_seen d) (dm_init_done d)
    (arc_start_time d).
Definition set_pgood_rise_triggered (v : bool) (d : bh_chip_data) : bh_chip_data :=
  MkChip (workaround_applied d) (arc_needs_init_msg d) (performing_reset d)
    (therm_trip_triggered d) (therm_trip_count d) (pgood_fall_triggered d) v (pgood_severe_fault
    d) (pgood_last_trip_ms d) (auto_reset_timeout d) (telemetry_heartbeat d) (arc_hang_pc d)
    (arc_wdog_triggered d) (fan_speed d) (fan_speed_forced d) (last_cm2dm_seq_num d)
    (last_cm2dm_seq_num_valid d) (cable_power_limit d) (perst_seen d) (dm_init_done d)
    (arc_start_time d).
Definition set_pgood_severe_fault (v : bool) (d : bh_chip_data) : bh_chip_data :=
  MkChip (workaround_applied d) (arc_needs_init_msg d) (performing_reset d)
    (therm_trip_triggered d) (therm_trip_count d) (pgood_fall_triggered d) (pgood_rise_triggered
    d) v (pgood_last_trip_ms d) (auto_reset_timeout d) (telemetry_heartbeat d) (arc_hang_pc d)
    (arc_wdog_triggered d) (fan_speed d) (fan_speed_forced d) (last_cm2dm_seq_num d)
    (last_cm2dm_seq_num_valid d) (cable_power_limit d) (perst_seen d) (dm_init_done d)
    (arc_start_time d).
Definition set_pgood_last_trip_ms (v : Z) (d : bh_chip_data) : bh_chip_data :=
  MkChip (workaround_applied d) (arc_needs_init_msg d) (performing_reset d)
    (therm_trip_triggered d) (therm_trip_count d) (pgood_fall_triggered d) (pgood_rise_triggered
    d) (pgood_severe_fault d) v (auto_reset_timeout d) (telemetry_heartbeat d) (arc_hang_pc d)
    (arc_wdog_triggered d) (fan_speed d) (fan_speed_forced d) (last_cm2dm_seq_num d)
    (last_cm2dm_seq_num_valid d) (cable_power_limit d) (perst_seen d) (dm_init_done d)
    (arc_start_time d).
Definition set_auto_reset_timeout (v : Z) (d : bh_chip_data) : bh_chip_data :=
  MkChip (workaround_applied d) (arc_needs_init_msg d) (performing_reset d)
    (therm_trip_triggered d) (therm_trip_count d) (pgood_fall_triggered d) (pgood_rise_triggered
    d) (pgood_severe_fault d) (pgood_last_trip_ms d) v (telemetry_heartbeat d) (arc_hang_pc d)
    (arc_wdog_triggered d) (fan_speed d) (fan_speed_forced d) (last_cm2dm_seq_num d)
    (last_cm2dm_seq_num_valid d) (cable_power_limit d) (perst_seen d) (dm_init_done d)
    (arc_start_time d).
Definition set_telemetry_heartbeat (v : Z) (d : bh_chip_data) : bh_chip_data :=
  MkChip (workaround_applied d) (arc_needs_init_msg d) (performing_reset d)
    (therm_trip_triggered d) (therm_trip_count d) (pgood_fall_triggered d) (pgood_rise_triggered
    d) (pgood_severe_fault d) (pgood_last_trip_ms d) (auto_reset_timeout d) v (arc_hang_pc d)
    (arc_wdog_triggered d) (fan_speed d) (fan_speed_forced d) (last_cm2dm_seq_num d)
    (last_cm2dm_seq_num_valid d) (cable_power_limit d) (perst_seen d) (dm_init_done d)
    (arc_start_time d).
Definition set_arc_hang_pc (v : Z) (d : bh_chip_data) : bh_chip_data :=
  MkChip (workaround_applied d) (arc_needs_init_msg d) (performing_reset d)
    (therm_trip_triggered d) (therm_trip_count d) (pgood_fall_triggered d) (pgood_rise_triggered
    d) (pgood_severe_fault d) (pgood_last_trip_ms d) (auto_reset_timeout d) (telemetry_heartbeat
    d) v (arc_wdog_triggered d) (fan_speed d) (fan_speed_forced d) (last_cm2dm_seq_num d)
    (last_cm2dm_seq_num_valid d) (cable_power_limit d) (perst_seen d) (dm_init_done d)
    (arc_start_time d).
Definition set_arc_wdog_triggered (v : bool) (d : bh_chip_data) : bh_chip_data :=
  MkChip (workaround_applied d) (arc_needs_init_msg d) (performing_reset d)
    (therm_trip_triggered d) (therm_trip_count d) (pgood_fall_triggered d) (pgood_rise_triggered
    d) (pgood_severe_fault d) (pgood_last_trip_ms d) (auto_reset_timeout d) (telemetry_heartbeat
    d) (arc_hang_pc d) v (fan_speed d) (fan_speed_forced d) (last_cm2dm_seq_num d)
    (last_cm2dm_seq_num_valid d) (cable_power_limit d) (perst_seen d) (dm_init_done d)
    (arc_start_time d).
Definition set_fan_speed (v : Z) (d : bh_chip_data) : bh_chip_data :=
  MkChip (workaround_applied d) (arc_needs_init_msg d) (performing_reset d)
    (therm_trip_triggered d) (therm_trip_count d) (pgood_fall_triggered d) (pgood_rise_triggered
    d) (pgood_severe_fault d) (pgood_last_trip_ms d) (auto_reset_timeout d) (telemetry_heartbeat
    d) (arc_hang_pc d) (arc_wdog_triggered d) v (fan_speed_forced d) (last_cm2dm_seq_num d)
    (last_cm2dm_seq_num_valid d) (cable_power_limit d) (perst_seen d) (dm_init_done d)
    (arc_start_time d).
Definition set_fan_speed_forced (v : bool) (d : bh_chip_data) : bh_chip_data :=
  MkChip (workaround_applied d) (arc_needs_init_msg d) (performing_reset d)
    (therm_trip_triggered d) (therm_trip_count d) (pgood_fall_triggered d) (pgood_rise_triggered
    d) (pgood_severe_fault d) (pgood_last_trip_ms d) (auto_reset_timeout d) (telemetry_heartbeat
    d) (arc_hang_pc d) (arc_wdog_triggered d) (fan_speed d) v (last_cm2dm_seq_num d)
    (last_cm2dm_seq_num_valid d) (cable_power_limit d) (perst_seen d) (dm_init_done d)
    (arc_start_time d).
Definition set_last_cm2dm_seq_num (v : Z) (d : bh_chip_data) : bh_chip_data :=
  MkChip (workaround_applied d) (arc_needs_init_msg d) (performing_reset d)
    (therm_trip_triggered d) (therm_trip_count d) (pgood_fall_triggered d) (pgood_rise_triggered
    d) (pgood_severe_fault d) (pgood_last_trip_ms d) (auto_reset_timeout d) (telemetry_heartbeat
    d) (arc_hang_pc d) (arc_wdog_triggered d) (fan_speed d) (fan_speed_forced d) v
    (last_cm2dm_seq_num_valid d) (cable_power_limit d) (perst_seen d) (dm_init_done d)
    (arc_start_time d).
Definition set_last_cm2dm_seq_num_valid (v : bool) (d : bh_chip_data) : bh_chip_data :=
  MkChip (workaround_applied d) (arc_needs_init_msg d) (performing_reset d)
    (therm_trip_triggered d) (therm_trip_count d) (pgood_fall_triggered d) (pgood_rise_triggered
    d) (pgood_severe_fault d) (pgood_last_trip_ms d) (auto_reset_timeout d) (telemetry_heartbeat
    d) (arc_hang_pc d) (arc_wdog_triggered d) (fan_speed d) (fan_speed_forced d)
    (last_cm2dm_seq_num d) v (cable_power_limit d) (perst_seen d) (dm_init_done d)
    (arc_start_time d).
Definition set_cable_power_limit (v : Z) (d : bh_chip_data) : bh_chip_data :=
  MkChip (workaround_applied d) (arc_needs_init_msg d) (performing_reset d)
    (therm_trip_triggered d) (therm_trip_count d) (pgood_fall_triggered d) (pgood_rise_triggered
    d) (pgood_severe_fault d) (pgood_last_trip_ms d) (auto_reset_timeout d) (telemetry_heartbeat
    d) (arc_hang_pc d) (arc_wdog_triggered d) (fan_speed d) (fan_speed_forced d)
    (last_cm2dm_seq_num d) (last_cm2dm_seq_num_valid d) v (perst_seen d) (dm_init_done d)
    (arc_start_time d).
Definition set_perst_seen (v : bool) (d : bh_chip_data) : bh_chip_data :=
  MkChip (workaround_applied d) (arc_needs_init_msg d) (performing_reset d)
    (therm_trip_triggered d) (therm_trip_count d) (pgood_fall_triggered d) (pgood_rise_triggered
    d) (pgood_severe_fault d) (pgood_last_trip_ms d) (auto_reset_timeout d) (telemetry_heartbeat
    d) (arc_hang_pc d) (arc_wdog_triggered d) (fan_speed d) (fan_speed_forced d)
    (last_cm2dm_seq_num d) (last_cm2dm_seq_num_valid d) (cable_power_limit d) v (dm_init_done d)
    (arc_start_time d).
Definition set_dm_init_done (v : Z) (d : bh_chip_data) : bh_chip_data :=
  MkChip (workaround_applied d) (arc_needs_init_msg d) (performing_reset d)
    (therm_trip_triggered d) (therm_trip_count d) (pgood_fall_triggered d) (pgood_rise_triggered
    d) (pgood_severe_fault d) (pgood_last_trip_ms d) (auto_reset_timeout d) (telemetry_heartbeat
    d) (arc_hang_pc d) (arc_wdog_triggered d) (fan_speed d) (fan_speed_forced d)
    (last_cm2dm_seq_num d) (last_cm2dm_seq_num_valid d) (cable_power_limit d) (perst_seen d) v
    (arc_start_time d).
Definition set_arc_start_time (v : Z) (d : bh_chip_data) : bh_chip_data :=
  MkChip (workaround_applied d) (arc_needs_init_msg d) (performing_reset d)
    (therm_trip_triggered d) (therm_trip_count d) (pgood_fall_triggered d) (pgood_rise_triggered
    d) (pgood_severe_fault d) (pgood_last_trip_ms d) (auto_reset_timeout d) (telemetry_heartbeat
    d) (arc_hang_pc d) (arc_wdog_triggered d) (fan_speed d) (fan_speed_forced d)
    (last_cm2dm_seq_num d) (last_cm2dm_seq_num_valid d) (cable_power_limit d) (perst_seen d)
    (dm_init_done d) v.

(** The constant part ([struct bh_chip_config]): which optional pins exist. *)
Record bh_chip_config := MkConfig {
  arc_enable : bool;
  straps : list bool;     (** gpio6, gpio38, gpio39, gpio40 *)
  spi_mux : bool;
  spi_mux1 : bool
}.

Record kconfig := MkKconfig {
  fan0_okay : bool;
  TT_ASSEMBLY_TEST : bool;
  JTAG_VERIFY_WRITE : bool;
  INA228 : bool;
  REBOOT : bool;
  TT_BIST : bool;
  rambus_mux : bool;
  l2_mux : bool;
  fault_led_port : bool
}.

(** ** Calls to drivers and hardware *)

Inductive pin :=
| AsicReset (c : nat) | SpiReset (c : nat) | SpiMux (c : nat) | SpiMux1 (c : nat)
| Pgood (c : nat) | ThermTrip (c : nat) | Strap (c : nat) (n : nat)
| FaultLed | PsuSense0 | PsuSense1 | RambusMux | L2Mux | PresetTrigger.

Inductive pin_mode := Input | OutputActive | OutputInactive | OutputLow.

Inductive irq_mode := EdgeToActive | EdgeToInactive | EdgeBoth.

Inductive timer := AutoResetTimer (c : nat) | BlinkTimer | Shared20ms | BoardPower.

Inductive dmc_call :=
| SmbusCancel (c : nat) | SmbusUncancel (c : nat) | SmbusConfigure (c : nat)
| SmbusWordWrite (c : nat) (cmd word : Z)
| SmbusWordRead (c : nat) (cmd : Z)
| SmbusBlockWrite (c : nat) (cmd : Z) (bytes : list Z)
| I2cEnablePin (c : nat) (m : pin_mode)
| I2cRecover (c : nat)
| GpioSet (p : pin) (v : Z) | GpioConfigure (p : pin) (m : pin_mode) | GpioGet (p : pin)
| GpioToggle (p : pin) | GpioAddCallback (p : pin) | GpioIrq (p : pin) (m : irq_mode)
| PwmSetCycles (period pulse : Z)
| TimerStart (t : timer) (first period : Z) | TimerStop (t : timer)
| SysReboot
| EventPost (events : Z)
| EventWait
| JtagSetup (c : nat) | JtagReset (c : nat) | JtagTeardown (c : nat)
| JtagReadId (c : nat)
| JtagAxiRead (c : nat) (addr : Z)
| JtagAxiWrite (c : nat) (addr v : Z)
| JtagAxiBlockWrite (c : nat) (addr : Z) (words : list Z)
| BusyWait (us : Z) | KYield
| UptimeMs | Cycles32 | Cycles64
| TriggerGet (c : nat) | TriggerSet (c : nat) (v : bool) | TriggerSwap (c : nat) (v : bool)
| SensorFetch | SensorGet
| Bist | ImgConfirmed | WriteImgConfirmed
| LogClaim (size : Z) | LogFinish (size : Z).

(** What the drivers promise to the DMC code: [io] answers one integer,
    [io_value] a status and a value, [io_block] a status and a buffer. *)
Class DmcHal (W : Type) := {
  io : dmc_call -> W -> Z * W;
  io_value : dmc_call -> W -> (Z * Z) * W;
  io_block : nat -> Z -> W -> (Z * list Z) * W
}.

(** ** The DMC's state and its monad

    [None] is a loop that has not ended within its fuel. *)

Record dmc (W : Type) := MkDmc {
  chips : list bh_chip_data;
  perst_start_time : Z;
  recover_ratelimit : Z;      (** uptime from which bus recovery is allowed again *)
  max_power : Z;
  world_of : W
}.
Arguments MkDmc {W}.
Arguments chips {W}.
Arguments perst_start_time {W}.
Arguments recover_ratelimit {W}.
Arguments max_power {W}.
Arguments world_of {W}.

Definition M (W A : Type) : Type := dmc W -> option (A * dmc W).

#[export] Instance M_ret W : MRet (M W) := fun A a s => Some (a, s).
#[export] Instance M_bind W : MBind (M W) := fun A B f m s =>
  match m s with Some (a, s) => f a s | None => None end.

Section hal.
Context {W : Type} `{DmcHal W}.

Definition set_world (w : W) (s : dmc W) : dmc W :=
  MkDmc (chips s) (perst_start_time s) (recover_ratelimit s) (max_power s) w.

Definition call (c : dmc_call) : M W Z := fun s =>
  let '(r, w) := io c (world_of s) in Some (r, set_world w s).
Definition call_value (c : dmc_call) : M W (Z * Z) := fun s =>
  let '(r, w) := io_value c (world_of s) in Some (r, set_world w s).
Definition call_block (c : nat) (cmd : Z) : M W (Z * list Z) := fun s =>
  let '(r, w) := io_block c cmd (world_of s) in Some (r, set_world w s).

(** A call whose result the code ignores. *)
Definition exec (c : dmc_call) : M W unit := _ ← call c; mret tt.

Definition chip (c : nat) : M W bh_chip_data := fun s => Some (default chip0 (chips s !! c), s).
Definition modify (c : nat) (f : bh_chip_data -> bh_chip_data) : M W unit := fun s =>
  Some (tt, MkDmc (alter f c (chips s)) (perst_start_time s) (recover_ratelimit s) (max_power s)
              (world_of s)).
Definition get {A} (f : dmc W -> A) : M W A := fun s => Some (f s, s).
(** The statics [perst_start_time], [recover_ratelimit] and [max_power]. *)
Definition modify_globals (f : Z -> Z -> Z -> Z * Z * Z) : M W unit := fun s =>
  let '(p, r, m) := f (perst_start_time s) (recover_ratelimit s) (max_power s) in
  Some (tt, MkDmc (chips s) p r m (world_of s)).
Definition chip_count : M W nat := fun s => Some (length (chips s), s).
Definition nothing : M W unit := mret tt.

(** [ARRAY_FOR_EACH_BH_CHIP] *)
Fixpoint each (cs : list nat) (body : nat -> M W unit) : M W unit :=
  match cs with
  | [] => nothing
  | c :: cs => _ ← body c; each cs body
  end.
Definition each_chip (body : nat -> M W unit) : M W unit := n ← chip_count; each (seq 0 n) body.

(** [while (cond) body], with [cond] evaluated by the world. *)
Fixpoint while_loop (fuel : nat) (cond : M W bool) (body : M W unit) : M W unit :=
  match fuel with
  | O => fun _ => None
  | S fuel => b ← cond; if b : bool then _ ← body; while_loop fuel cond body else nothing
  end.
End hal.

(** ** Register addresses and constants *)

Definition EIO : Z := 5.
Definition ENOBUFS : Z := 105.
Definition ETIMEDOUT : Z := 116.

Definition ROM_MEMORY_MEM_BASE_ADDR : Z := 0x80000000.
Definition RESET_UNIT_REFCLK_CNT_LO_REG_ADDR : Z := 0x800300E0.
Definition RESET_UNIT_ARC_MISC_CNTL_REG_ADDR : Z := 0x80030100.
Definition RESET_UNIT_GPIO_PAD_TRIEN_CNTL_REG_ADDR : Z := 0x800301A0.
Definition RESET_UNIT_MEM_REPAIR_CNTL_REG_ADDR : Z := 0x800300C0.
Definition RESET_UNIT_MEM_REPAIR_STATUS_REG_ADDR : Z := 0x800300C4.
Definition RESET_UNIT_SCRATCH_REG_ADDR (n : Z) : Z := 0x80030060 + 4 * n.
Definition STATUS_POST_CODE_REG_ADDR : Z := RESET_UNIT_SCRATCH_REG_ADDR 0.
Definition DMC_CABLE_POWER_LIMIT_REG_ADDR : Z := RESET_UNIT_SCRATCH_REG_ADDR 1.
Definition CABLE_POWER_LIMIT_MAGIC : Z := 0xCAB10000.

Definition CMFW_SMBUS_REQ : Z := 0x10.
Definition CMFW_SMBUS_ACK : Z := 0x11.
Definition CMFW_SMBUS_DM_STATIC_INFO : Z := 0x20.
Definition CMFW_SMBUS_PING : Z := 0x21.
Definition CMFW_SMBUS_FAN_SPEED : Z := 0x22.
Definition CMFW_SMBUS_FAN_RPM : Z := 0x23.
Definition CMFW_SMBUS_POWER_LIMIT : Z := 0x24.
Definition CMFW_SMBUS_POWER_INSTANT : Z := 0x25.
Definition CMFW_SMBUS_THERM_TRIP_COUNT : Z := 0x28.
Definition CMFW_SMBUS_PING_V2 : Z := 0x2A.
Definition CMFW_SMBUS_DMC_LOG : Z := 0x29.

Definition TT_EVENT_THERM_TRIP : Z := BIT 0.
Definition TT_EVENT_WATCHDOG_EXPIRED : Z := BIT 1.
Definition TT_EVENT_PERST : Z := BIT 2.
Definition TT_EVENT_PGOOD : Z := BIT 3.
Definition TT_EVENT_BOARD_POWER_TO_SMC : Z := BIT 4.
Definition TT_EVENT_FAN_RPM_TO_SMC : Z := BIT 5.
Definition TT_EVENT_CM2DM_POLL : Z := BIT 6.
Definition TT_EVENT_LOGS_TO_SMC : Z := BIT 7.
Definition TT_EVENT_WAKE : Z := BIT 31.

Section bh_chip.
Context {W : Type} `{DmcHal W}.
Variable kc : kconfig.
Variable cfg : nat -> bh_chip_config.
Variable bootcode : list Z.   (** the boot ROM patch, in words: a build product *)
Variable fuel : nat.          (** bound on each polling loop *)

(** ** [bh_arc.c] *)

Definition bharc_enable_i2cbus (c : nat) : M W Z :=
  if arc_enable (cfg c) then call (I2cEnablePin c OutputActive) else mret 0.
Definition bharc_disable_i2cbus (c : nat) : M W Z :=
  if arc_enable (cfg c) then call (I2cEnablePin c OutputInactive) else mret 0.
Definition bharc_smbus_block_read (c : nat) (cmd : Z) : M W (Z * list Z) := call_block c cmd.
Definition bharc_smbus_block_write (c : nat) (cmd : Z) (bytes : list Z) : M W Z :=
  call (SmbusBlockWrite c cmd bytes).
Definition bharc_smbus_word_data_write (c : nat) (cmd word : Z) : M W Z :=
  call (SmbusWordWrite c cmd (u16 word)).
Definition bharc_smbus_word_data_read (c : nat) (cmd : Z) : M W (Z * Z) := call_value (SmbusWordRead c cmd).

(** ** [strapping.c] *)

Fixpoint each_strap (c n : nat) (ports : list bool) (body : nat -> M W unit) : M W unit :=
  match ports with
  | [] => nothing
  | present :: ports => _ ← (if present : bool then body n else nothing); each_strap c (S n) ports body
  end.

Definition bh_chip_set_straps (c : nat) : M W unit :=
  _ ← bharc_enable_i2cbus c;
  _ ← each_strap c 0 (straps (cfg c)) (fun n =>
        ret ← call (GpioConfigure (Strap c n) OutputActive);
        if ret <? 0 then
          _ ← exec (I2cRecover c);
          exec (GpioConfigure (Strap c n) OutputActive)
        else nothing);
  _ ← bharc_disable_i2cbus c;
  nothing.

Definition bh_chip_unset_straps (c : nat) : M W unit :=
  _ ← bharc_enable_i2cbus c;
  _ ← each_strap c 0 (straps (cfg c)) (fun n => exec (GpioConfigure (Strap c n) Input));
  _ ← bharc_disable_i2cbus c;
  nothing.

Definition i2c_straps : M W unit := each_chip (fun c => _ ← bharc_enable_i2cbus c; nothing).
Definition deinit_i2c_straps : M W unit := each_chip (fun c => _ ← bharc_disable_i2cbus c; nothing).

(** ** [bh_chip.c]: the simple operations *)

Definition bh_chip_cancel_bus_transfer_set (c : nat) : M W unit := exec (SmbusCancel c).
Definition bh_chip_cancel_bus_transfer_clear (c : nat) : M W unit := exec (SmbusUncancel c).
Definition bh_chip_assert_asic_reset (c : nat) : M W unit := exec (GpioSet (AsicReset c) 1).
Definition bh_chip_deassert_asic_reset (c : nat) : M W unit := exec (GpioSet (AsicReset c) 0).
Definition bh_chip_assert_spi_reset (c : nat) : M W unit := exec (GpioSet (SpiReset c) 1).
Definition bh_chip_deassert_spi_reset (c : nat) : M W unit := exec (GpioSet (SpiReset c) 0).

(** ** [jtag_bootrom.c] *)

Definition jtag_axiwait (c : nat) (addr : Z) : M W bool :=
  _ ← exec (JtagReset c);
  '(ret, _) ← call_value (JtagAxiRead c addr);
  mret (ret =? 0).

(** [while (true) { reset; read; if (id matches) break; yield; }] *)
Definition jtag_bitbang_wait_for_id (c : nat) : M W unit :=
  while_loop fuel
    (_ ← exec (JtagReset c); '(_, id) ← call_value (JtagReadId c); mret (negb (id =? 0x138A5)))
    (exec KYield).

(** The PERST interrupt. *)
Definition gpio_asic_reset_callback : M W unit :=
  now ← call Cycles32;
  _ ← modify_globals (fun _ r m => (now, r, m));
  _ ← each_chip (fun c =>
        _ ← modify c (set_perst_seen true);
        _ ← exec (TriggerSet c true);
        d ← chip c;
        if negb (performing_reset d) then bh_chip_cancel_bus_transfer_set c else nothing);
  exec (EventPost TT_EVENT_PERST).

(** [do { read status; read clock; if (past) return; } while (status == 0)] *)
Fixpoint mem_repair_poll (fuel : nat) (c : nat) (deadline : Z) : M W Z :=
  match fuel with
  | O => fun _ => None
  | S fuel =>
      '(_, status) ← call_value (JtagAxiRead c RESET_UNIT_MEM_REPAIR_STATUS_REG_ADDR);
      now ← call Cycles64;
      if 0 <=? now - deadline then mret (- ETIMEDOUT) else
      if status =? 0 then mem_repair_poll fuel c deadline else mret 0
  end.

(** [us_to_cyc] is [k_us_to_cyc_floor64(20000)]. *)
Variable us_to_cyc : Z.

Definition jtag_trigger_mem_repair (c : nat) : M W Z :=
  start_cycles ← call Cycles64;
  let deadline_cycles := start_cycles + us_to_cyc in
  _ ← exec (JtagAxiWrite c RESET_UNIT_MEM_REPAIR_CNTL_REG_ADDR 1);
  mem_repair_poll fuel c deadline_cycles.

Definition jtag_bootrom_reset_asic (c : nat) : M W Z :=
  _ ← call (GpioGet (Pgood c));
  _ ← while_loop fuel (v ← call (GpioGet (Pgood c)); mret (v =? 0)) nothing;
  _ ← bh_chip_assert_asic_reset c;
  _ ← bh_chip_assert_spi_reset c;
  ret ← call (JtagSetup c);
  if negb (ret =? 0) then mret ret else
  _ ← exec (BusyWait 1000);
  _ ← bh_chip_set_straps c;
  _ ← bh_chip_deassert_asic_reset c;
  _ ← bh_chip_deassert_spi_reset c;
  _ ← exec (BusyWait 2000);
  _ ← exec (JtagReset c);
  _ ← jtag_bitbang_wait_for_id c;
  _ ← exec (JtagReset c);
  _ ← while_loop fuel (b ← jtag_axiwait c STATUS_POST_CODE_REG_ADDR; mret (negb b)) (exec KYield);
  _ ← jtag_trigger_mem_repair c;
  _ ← exec (JtagReset c);
  _ ← bh_chip_unset_straps c;
  mret 0.

(** [primary] is [BH_CHIP_PRIMARY_INDEX]; C's [||] yields 0 or 1 and does not
    evaluate its right operand when the left one is nonzero. *)
Definition jtag_bootrom_init (primary c : nat) : M W Z :=
  ret ← (if rambus_mux kc then call (GpioConfigure RambusMux OutputActive) else mret 0);
  r ← (if l2_mux kc then call (GpioConfigure L2Mux OutputActive) else mret 0);
  let ret := Z.lor ret r in
  r ← call (GpioConfigure (Pgood c) Input);
  let ret := Z.lor ret r in
  if negb (ret =? 0) then mret ret else
  r ← call (GpioConfigure (AsicReset c) OutputActive);
  b ← (if negb (r =? 0) then mret 1
       else r ← call (GpioConfigure (SpiReset c) OutputActive); mret (if r =? 0 then 0 else 1));
  let ret := Z.lor ret b in
  if negb (ret =? 0) then mret ret else
  ret ← (if bool_decide (c = primary) then
           ret ← call (GpioConfigure PresetTrigger Input);
           if negb (ret =? 0) then mret ret else
           ret ← call (GpioIrq PresetTrigger EdgeToInactive);
           if negb (ret =? 0) then mret ret else
           _ ← exec (GpioAddCallback PresetTrigger); mret 0
         else mret 0);
  if negb (ret =? 0) then mret ret else
  v ← call (GpioGet PresetTrigger);
  _ ← (if v =? 0 then exec (TriggerSet c true) else nothing);
  mret 0.

Definition jtag_bootrom_patch_offset (c : nat) (patch : list Z) (start_addr : Z) : M W Z :=
  let cntl := RESET_UNIT_ARC_MISC_CNTL_REG_ADDR in
  _ ← exec (JtagReset c);
  '(_, v) ← call_value (JtagAxiRead c cntl);
  _ ← exec (JtagAxiWrite c cntl (Z.lor v (Z.shiftl 15 4)));
  '(_, v) ← call_value (JtagAxiRead c cntl);
  _ ← exec (JtagAxiWrite c cntl (Z.ldiff v (Z.shiftl 15 4)));
  _ ← exec (JtagAxiWrite c RESET_UNIT_GPIO_PAD_TRIEN_CNTL_REG_ADDR 0xff00);
  _ ← exec (JtagAxiWrite c STATUS_POST_CODE_REG_ADDR 0xF2);
  _ ← exec (JtagAxiBlockWrite c start_addr patch);
  _ ← exec (JtagAxiWrite c STATUS_POST_CODE_REG_ADDR 0xF3);
  _ ← modify c (set_workaround_applied true);
  mret 0.

Fixpoint verify_loop (c : nat) (i : Z) (patch : list Z) : M W Z :=
  match patch with
  | [] => mret 0
  | w :: patch =>
      '(_, readback) ← call_value (JtagAxiRead c (i * 4));
      if negb (w =? readback) then
        _ ← exec (JtagAxiWrite c STATUS_POST_CODE_REG_ADDR 0x6); mret 1
      else verify_loop c (i + 1) patch
  end.

Definition jtag_bootrom_verify (c : nat) (patch : list Z) : M W Z :=
  if negb (JTAG_VERIFY_WRITE kc) then mret 0 else verify_loop c 0 patch.

Definition jtag_bootrom_get_perst_start_time : M W Z := get perst_start_time.

Definition jtag_bootrom_soft_reset_arc (c : nat) : M W unit :=
  _ ← exec (JtagReset c);
  _ ← exec (JtagAxiWrite c RESET_UNIT_ARC_MISC_CNTL_REG_ADDR (GENMASK 7 4));
  _ ← exec (JtagAxiWrite c RESET_UNIT_ARC_MISC_CNTL_REG_ADDR 0);
  _ ← exec (JtagAxiWrite c ROM_MEMORY_MEM_BASE_ADDR 0x84);
  d ← chip c;
  _ ← (if perst_seen d then
         now ← call Cycles32;
         modify c (fun d => set_perst_seen false (set_dm_init_done now d))
       else nothing);
  '(_, v) ← call_value (JtagAxiRead c RESET_UNIT_REFCLK_CNT_LO_REG_ADDR);
  _ ← modify c (set_arc_start_time v);
  _ ← exec (JtagAxiWrite c RESET_UNIT_ARC_MISC_CNTL_REG_ADDR (BIT 12));
  exec (JtagAxiWrite c RESET_UNIT_ARC_MISC_CNTL_REG_ADDR 0).

Definition jtag_bootrom_set_cable_power_limit (c : nat) (power_limit : Z) : M W unit :=
  exec (JtagAxiWrite c DMC_CABLE_POWER_LIMIT_REG_ADDR (Z.lor CABLE_POWER_LIMIT_MAGIC power_limit)).

Definition jtag_bootrom_teardown (c : nat) : M W unit :=
  _ ← exec (JtagReset c); exec (JtagTeardown c).

(** ** [reset.c] *)

Definition jtag_bootrom_reset_sequence (c : nat) (force_reset : bool) (cable_limit : Z) : M W Z :=
  _ ← (if force_reset then exec (TriggerSet c true) else nothing);
  _ ← bh_chip_cancel_bus_transfer_clear c;
  ret ← jtag_bootrom_reset_asic c;
  if negb (ret =? 0) then mret ret else
  _ ← jtag_bootrom_patch_offset c bootcode 0x80;
  _ ← jtag_bootrom_verify c bootcode;
  _ ← jtag_bootrom_set_cable_power_limit c cable_limit;
  t ← call (TriggerGet c);
  _ ← (if negb (t =? 0) then
         _ ← jtag_bootrom_soft_reset_arc c; exec (TriggerSet c false)
       else nothing);
  _ ← jtag_bootrom_teardown c;
  mret 0.

(** ** [bh_chip.c]: messages, reports, resets and power-good handling *)

Record cm2dmMessageRet := MkRet { msg : cm2dmMessage; ret : Z; ack : Z * Z; ack_ret : Z }.

(** The buffer is 255 bytes; only its first six are looked at, and only after a
    successful read, which fills them. *)
Definition bh_chip_get_cm2dm_message (c : nat) : M W cm2dmMessageRet :=
  '(r, buf) ← bharc_smbus_block_read c CMFW_SMBUS_REQ;
  let m := default zero_msg (decode_msg buf) in
  '(a, ar) ← (if (r =? 0) && negb (msg_id m =? 0) then
                ar ← bharc_smbus_word_data_write c CMFW_SMBUS_ACK
                       (le_of_bytes [msg_id m; seq_num m]);
                mret ((msg_id m, seq_num m), ar)
              else mret ((0, 0), -1));
  _ ← (if r =? - EIO then
         now ← call UptimeMs;
         limit ← get recover_ratelimit;
         if limit <=? now then
           _ ← modify_globals (fun p _ m => (p, now + 250, m));
           _ ← exec (I2cRecover c);
           exec (SmbusUncancel c)
         else nothing
       else nothing);
  mret (MkRet m r a ar).

(** The static information block, little endian; [app_version] is the build's. *)
Definition static_info_bytes (app_version start_time init_duration hang_pc : Z) : list Z :=
  bytes_of_le 4 1 ++ bytes_of_le 4 0 ++ bytes_of_le 4 app_version ++ bytes_of_le 4 start_time ++
  bytes_of_le 4 init_duration ++ bytes_of_le 4 hang_pc.

Definition bh_chip_set_static_info (app_version : Z) (c : nat) : M W Z :=
  d ← chip c;
  t ← jtag_bootrom_get_perst_start_time;
  bharc_smbus_block_write c CMFW_SMBUS_DM_STATIC_INFO
    (static_info_bytes app_version (arc_start_time d) (u32 (dm_init_done d - t)) (arc_hang_pc d)).

Definition bh_chip_set_input_power (c : nat) (power : Z) : M W Z :=
  bharc_smbus_word_data_write c CMFW_SMBUS_POWER_INSTANT power.
Definition bh_chip_set_input_power_lim (c : nat) (limit : Z) : M W Z :=
  bharc_smbus_word_data_write c CMFW_SMBUS_POWER_LIMIT limit.
Definition bh_chip_set_fan_rpm (c : nat) (rpm : Z) : M W Z :=
  bharc_smbus_word_data_write c CMFW_SMBUS_FAN_RPM rpm.
Definition bh_chip_set_therm_trip_count (c : nat) (count : Z) : M W Z :=
  bharc_smbus_word_data_write c CMFW_SMBUS_THERM_TRIP_COUNT count.

Definition bh_chip_auto_reset (c : nat) : M W unit :=
  _ ← modify c (set_arc_wdog_triggered true);
  _ ← bh_chip_cancel_bus_transfer_set c;
  exec (EventPost TT_EVENT_WATCHDOG_EXPIRED).

Definition bh_chip_write_logs (c : nat) (log_data : list Z) : M W Z :=
  if 32 <? len log_data then mret (- ENOBUFS) else
  bharc_smbus_block_write c CMFW_SMBUS_DMC_LOG log_data.

Definition bh_chip_reset_chip (c : nat) (force_reset : bool) : M W Z :=
  _ ← modify c (set_last_cm2dm_seq_num_valid false);
  ret ← bharc_disable_i2cbus c;
  if negb (ret =? 0) then _ ← bharc_enable_i2cbus c; mret ret else
  d ← chip c;
  ret2 ← jtag_bootrom_reset_sequence c force_reset (cable_power_limit d);
  ret ← bharc_enable_i2cbus c;
  if negb (ret =? 0) then mret ret else mret ret2.

Definition therm_trip_detected (c : nat) : M W unit :=
  _ ← modify c (set_therm_trip_triggered true);
  _ ← bh_chip_cancel_bus_transfer_set c;
  exec (EventPost TT_EVENT_THERM_TRIP).

(** Both interrupt pins are set up alike. *)
Definition irq_pin_setup (p : pin) (m : irq_mode) : M W Z :=
  ret ← call (GpioConfigure p Input);
  if negb (ret =? 0) then mret ret else
  ret ← call (GpioAddCallback p);
  if negb (ret =? 0) then mret ret else
  call (GpioIrq p m).
Definition therm_trip_gpio_setup (c : nat) : M W Z := irq_pin_setup (ThermTrip c) EdgeToActive.
Definition pgood_gpio_setup (c : nat) : M W Z := irq_pin_setup (Pgood c) EdgeBoth.

Definition pgood_change_detected (c : nat) : M W unit :=
  v ← call (GpioGet (Pgood c));
  _ ← (if negb (v =? 0) then modify c (set_pgood_rise_triggered true)
       else modify c (set_pgood_fall_triggered true));
  exec (EventPost TT_EVENT_PGOOD).

Definition handle_pgood_event (c : nat) : M W unit :=
  d ← chip c;
  _ ← (if pgood_fall_triggered d && negb (pgood_severe_fault d) then
         current_uptime_ms ← call UptimeMs;
         _ ← exec (GpioSet FaultLed 1);
         _ ← bh_chip_assert_asic_reset c;
         d ← chip c;
         _ ← (if negb (pgood_last_trip_ms d =? 0) &&
                 (current_uptime_ms - pgood_last_trip_ms d <? 1000)
              then modify c (set_pgood_severe_fault true) else nothing);
         modify c (fun d => set_pgood_fall_triggered false (set_pgood_last_trip_ms current_uptime_ms d))
       else nothing);
  d ← chip c;
  if pgood_rise_triggered d && negb (pgood_severe_fault d) then
    _ ← bh_chip_reset_chip c true;
    _ ← (if negb (TT_ASSEMBLY_TEST kc) then exec (GpioSet FaultLed 0) else nothing);
    modify c (set_pgood_rise_triggered false)
  else nothing.
End bh_chip.
