(* ===== verification/DmcMain.v ===== *)
(** * The DMC application ([app/dmc/src/main.c])

    Fan control, the handlers of the SMC's messages, the urgent events and one
    pass of the main loop, over the chip operations of [BhChip]. *)

From S2P Require Import Prelude Cm2dm BhChip.

Definition UINT8_MAX : Z := 255.
Definition INITIAL_FAN_SPEED : Z := 35.
Definition LED_BLINK_RATE_MS : Z := 400.
Definition RESET_UNIT_ARC_PC_CORE_0 : Z := 0x80030C00.

(** Speed of the shared fan: the fastest request, unless some chip forces one. *)
Definition max_fan_speed (cs : list bh_chip_data) : Z :=
  fold_left (fun v d => Z.max v (fan_speed d)) cs 0.
Definition max_forced_fan_speed (cs : list bh_chip_data) : Z :=
  fold_left (fun v d => Z.max v (if fan_speed_forced d then fan_speed d else 0)) cs 0.
Definition board_fan_speed (cs : list bh_chip_data) : Z :=
  if negb (max_forced_fan_speed cs =? 0) then max_forced_fan_speed cs else max_fan_speed cs.
Definition DIV_ROUND_UP (n d : Z) : Z := (n + d - 1) / d.
Definition fan_speed_pwm (speed : Z) : Z := DIV_ROUND_UP (speed * UINT8_MAX) 100.

Section main.
Context {W : Type} `{DmcHal W}.
Variable kc : kconfig.
Variable cfg : nat -> bh_chip_config.
Variable bootcode : list Z.
Variable fuel : nat.
Variable us_to_cyc : Z.
Variable APPVERSION : Z.

Definition update_fan_speed (notify_smcs : bool) : M W unit :=
  if fan0_okay kc then
    cs ← get chips;
    let speed := board_fan_speed cs in
    _ ← exec (PwmSetCycles UINT8_MAX (fan_speed_pwm speed));
    if notify_smcs then each_chip (fun c => _ ← bharc_smbus_word_data_write c CMFW_SMBUS_FAN_SPEED speed; nothing)
    else nothing
  else nothing.

(** ** The handlers of the SMC's messages: [true] ends the polling *)

(** [sys_reboot] does not return; the [true] after it is not reached. *)
Definition process_reset_req (c : nat) (msg_data : Z) : M W bool :=
  _ ← (if msg_data =? kCm2DmResetLevelAsic then
         _ ← bh_chip_cancel_bus_transfer_clear c;
         _ ← bh_chip_reset_chip kc cfg bootcode fuel us_to_cyc c true; nothing
       else if msg_data =? kCm2DmResetLevelDmc then
         if REBOOT kc then exec SysReboot else nothing
       else nothing);
  mret true.

(** [do { ... retries++ } while (ret != 0 && retries < 10)] *)
Fixpoint ping_loop (tries : nat) (c : nat) (msg_data : Z) : M W unit :=
  match tries with
  | O => nothing
  | S tries =>
      r ← (if msg_data =? 0 then '(r, _) ← bharc_smbus_word_data_read c CMFW_SMBUS_PING_V2; mret r
           else bharc_smbus_word_data_write c CMFW_SMBUS_PING 0xA5A5);
      if negb (r =? 0) then ping_loop tries c msg_data else nothing
  end.
Definition process_ping (c : nat) (msg_data : Z) : M W bool := _ ← ping_loop 10 c msg_data; mret false.

Definition process_fan_speed_update (c : nat) (msg_data : Z) : M W bool :=
  _ ← modify c (fun d => set_fan_speed_forced false (set_fan_speed (bits_get 0 8 msg_data) d));
  _ ← update_fan_speed true;
  mret false.
Definition process_forced_fan_speed_update (c : nat) (msg_data : Z) : M W bool :=
  _ ← modify c (fun d => set_fan_speed_forced true (set_fan_speed (bits_get 0 8 msg_data) d));
  _ ← update_fan_speed true;
  mret false.

Definition process_id_ready (c : nat) (msg_data : Z) : M W bool :=
  _ ← modify c (set_arc_needs_init_msg true); mret false.

Definition process_auto_reset_timeout_update (c : nat) (msg_data : Z) : M W bool :=
  _ ← modify c (set_auto_reset_timeout msg_data);
  _ ← (if negb (msg_data =? 0) then exec (TimerStart (AutoResetTimer c) msg_data 0)
       else exec (TimerStop (AutoResetTimer c)));
  mret false.

Definition process_heartbeat_update (c : nat) (msg_data : Z) : M W bool :=
  d ← chip c;
  _ ← (if negb (telemetry_heartbeat d =? msg_data) then
         _ ← modify c (set_telemetry_heartbeat msg_data);
         if negb (auto_reset_timeout d =? 0)
         then exec (TimerStart (AutoResetTimer c) (auto_reset_timeout d) 0) else nothing
       else nothing);
  mret false.

Definition blink_led_expired : M W unit := exec (GpioToggle FaultLed).

Definition process_led_blink_request (c : nat) (msg_data : Z) : M W bool :=
  if TT_ASSEMBLY_TEST kc then mret false else
  _ ← (if negb (msg_data =? 0) then exec (TimerStart BlinkTimer LED_BLINK_RATE_MS LED_BLINK_RATE_MS)
       else _ ← exec (TimerStop BlinkTimer); exec (GpioSet FaultLed 0));
  mret false.

(** Only logs the reason. *)
Definition process_gddr_therm_trip (c : nat) (msg_data : Z) : M W bool := mret false.

(** The table [msg_processors], indexed by message id. *)
Definition msg_processor (id : Z) : option (nat -> Z -> M W bool) :=
  if id =? kCm2DmMsgIdResetReq then Some process_reset_req else
  if id =? kCm2DmMsgIdPing then Some process_ping else
  if id =? kCm2DmMsgIdFanSpeedUpdate then Some process_fan_speed_update else
  if id =? kCm2DmMsgIdForcedFanSpeedUpdate then Some process_forced_fan_speed_update else
  if id =? kCm2DmMsgIdReady then Some process_id_ready else
  if id =? kCm2DmMsgIdAutoResetTimeoutUpdate then Some process_auto_reset_timeout_update else
  if id =? kCm2DmMsgTelemHeartbeatUpdate then Some process_heartbeat_update else
  if id =? kCm2DmMsgIdLedBlink then Some process_led_blink_request else
  if id =? kCm2DmMsgIdGddrThermTrip then Some process_gddr_therm_trip else None.

(** One polling of chip [c]: at most [n] messages; returns those accepted (not
    repeats), in order. *)
Fixpoint poll_messages (n : nat) (c : nat) : M W (list cm2dmMessage) :=
  match n with
  | O => mret []
  | S n =>
      m ← bh_chip_get_cm2dm_message c;
      if negb (ret m =? 0) then mret [] else
      if msg_id (msg m) =? kCm2DmMsgIdNull then mret [] else
      d ← chip c;
      if last_cm2dm_seq_num_valid d && (last_cm2dm_seq_num d =? seq_num (msg m)) then poll_messages n c else
      _ ← modify c (fun d => set_last_cm2dm_seq_num (seq_num (msg m)) (set_last_cm2dm_seq_num_valid true d));
      stop ← match msg_processor (msg_id (msg m)) with
             | Some p => p c (data (msg m))
             | None => mret false
             end;
      if stop : bool then mret [msg m] else
      ms ← poll_messages n c;
      mret (msg m :: ms)
  end.

Definition process_cm2dm_message (c : nat) : M W (list cm2dmMessage) :=
  poll_messages (Z.to_nat kCm2DmMsgCount) c.

(** ** Power and fan reports *)

(** [val1 & 0xFFFF] stored in an [int16_t] and passed as [uint16_t]. *)
Definition ina228_power_update : M W unit :=
  _ ← exec SensorFetch;
  '(_, val1) ← call_value SensorGet;
  each_chip (fun c => _ ← bh_chip_set_input_power c (Z.land val1 0xFFFF); nothing).

Definition detect_max_power : M W Z :=
  _ ← exec (GpioConfigure PsuSense0 Input);
  _ ← exec (GpioConfigure PsuSense1 Input);
  sense0_val ← call (GpioGet PsuSense0);
  sense1_val ← call (GpioGet PsuSense1);
  if (sense0_val =? 0) && (sense1_val =? 0) then mret 600 else
  if negb (sense0_val =? 0) && (sense1_val =? 0) then mret 450 else
  if (sense0_val =? 0) && negb (sense1_val =? 0) then mret 300 else
  _ ← exec (GpioConfigure PsuSense0 OutputLow);
  v ← call (GpioGet PsuSense1);
  _ ← exec (GpioConfigure PsuSense0 Input);
  mret (if v =? 0 then 150 else 0).

(** ** Urgent events *)

Definition full_fan (c : nat) : M W unit :=
  _ ← modify c (fun d => set_fan_speed_forced true (set_fan_speed 100 d));
  if fan0_okay kc then exec (PwmSetCycles UINT8_MAX UINT8_MAX) else nothing.

Definition handle_therm_trip : M W unit :=
  each_chip (fun c =>
    d ← chip c;
    if therm_trip_triggered d then
      _ ← modify c (set_therm_trip_triggered false);
      _ ← (if fault_led_port kc then exec (GpioSet FaultLed 1) else nothing);
      _ ← full_fan c;
      t ← call (TriggerGet c);
      if t =? 0 then
        _ ← modify c (set_performing_reset true);
        _ ← bh_chip_cancel_bus_transfer_clear c;
        _ ← modify c (fun d => set_therm_trip_count (u16 (therm_trip_count d + 1)) d);
        _ ← bh_chip_reset_chip kc cfg bootcode fuel us_to_cyc c true;
        t ← call (TriggerGet c);
        _ ← (if negb (t =? 0) then bh_chip_cancel_bus_transfer_set c else nothing);
        modify c (set_performing_reset false)
      else nothing
    else nothing).

Definition handle_watchdog_reset : M W unit :=
  each_chip (fun c =>
    d ← chip c;
    if arc_wdog_triggered d then
      _ ← modify c (set_arc_wdog_triggered false);
      _ ← bh_chip_cancel_bus_transfer_clear c;
      _ ← exec (JtagSetup c);
      _ ← exec (JtagReset c);
      '(_, pc) ← call_value (JtagAxiRead c RESET_UNIT_ARC_PC_CORE_0);
      _ ← modify c (set_arc_hang_pc pc);
      _ ← exec (JtagTeardown c);
      _ ← modify c (set_auto_reset_timeout 0);
      _ ← full_fan c;
      _ ← modify c (set_performing_reset true);
      _ ← bh_chip_reset_chip kc cfg bootcode fuel us_to_cyc c true;
      _ ← bh_chip_cancel_bus_transfer_clear c;
      modify c (set_performing_reset false)
    else nothing).

Definition handle_perst : M W unit :=
  each_chip (fun c =>
    t ← call (TriggerSwap c false);
    if negb (t =? 0) then
      _ ← modify c (fun d => set_last_cm2dm_seq_num_valid false (set_performing_reset true d));
      _ ← bh_chip_cancel_bus_transfer_clear c;
      _ ← bharc_disable_i2cbus cfg c;
      _ ← jtag_bootrom_reset_asic cfg fuel us_to_cyc c;
      d ← chip c;
      _ ← jtag_bootrom_set_cable_power_limit c (cable_power_limit d);
      _ ← jtag_bootrom_soft_reset_arc c;
      _ ← jtag_bootrom_teardown c;
      _ ← bharc_enable_i2cbus cfg c;
      t ← call (TriggerGet c);
      _ ← (if negb (t =? 0) then bh_chip_cancel_bus_transfer_set c else nothing);
      modify c (fun d => set_performing_reset false (set_arc_hang_pc 0 (set_therm_trip_count 0 d)))
    else nothing).

Definition handle_pgood_change : M W unit :=
  each_chip (handle_pgood_event kc cfg bootcode fuel us_to_cyc).

(** C's [&&]: each report is sent only if the ones before it were. *)
Definition send_init_data : M W unit :=
  each_chip (fun c =>
    d ← chip c;
    if arc_needs_init_msg d then
      r ← bh_chip_set_static_info APPVERSION c;
      if negb (r =? 0) then nothing else
      limit ← get max_power;
      r ← bh_chip_set_input_power_lim c limit;
      if negb (r =? 0) then nothing else
      d ← chip c;
      r ← bh_chip_set_therm_trip_count c (therm_trip_count d);
      if negb (r =? 0) then nothing else
      modify c (set_arc_needs_init_msg false)
    else nothing).

Definition board_power_update : M W unit := if INA228 kc then ina228_power_update else nothing.

Definition fan_rpm_feedback : M W unit :=
  if fan0_okay kc then
    _ ← exec SensorFetch;
    '(_, val1) ← call_value SensorGet;
    each_chip (fun c => _ ← bh_chip_set_fan_rpm c (u16 val1); nothing)
  else nothing.

Definition handle_cm2dm_messages : M W unit := each_chip (fun c => _ ← process_cm2dm_message c; nothing).

(** [primary] is [BH_CHIP_PRIMARY_INDEX]; the claim answers its size and the
    world holds the claimed bytes. *)
Variable claimed : W -> list Z.
Definition send_logs_to_smc (primary : nat) : M W unit :=
  r ← call (LogClaim 32);
  if 0 <? r then
    log_data ← get (fun s => take (Z.to_nat r) (claimed (world_of s)));
    w ← bh_chip_write_logs primary log_data;
    exec (LogFinish (if w =? 0 then r else 0))
  else nothing.

Definition shared_20ms_expired : M W unit :=
  exec (EventPost (Z.lor (Z.lor TT_EVENT_FAN_RPM_TO_SMC TT_EVENT_CM2DM_POLL) TT_EVENT_LOGS_TO_SMC)).
Definition board_power_update_expired : M W unit := exec (EventPost TT_EVENT_BOARD_POWER_TO_SMC).

(** ** Start-up and the main loop *)

(** Runs [body] on the chips in turn until one fails: [return ret] of the caller. *)
Fixpoint each_until (cs : list nat) (body : nat -> M W Z) : M W Z :=
  match cs with
  | [] => mret 0
  | c :: cs => r ← body c; if negb (r =? 0) then mret r else each_until cs body
  end.

Definition setup_gpios (c : nat) : M W Z :=
  r ← therm_trip_gpio_setup c;
  if negb (r =? 0) then mret r else pgood_gpio_setup c.

Definition boot_chip (primary : nat) (limit : Z) (c : nat) : M W Z :=
  r ← jtag_bootrom_init kc primary c;
  if negb (r =? 0) then mret r else
  _ ← bharc_disable_i2cbus cfg c;
  _ ← modify c (set_cable_power_limit limit);
  r ← jtag_bootrom_reset_sequence kc cfg bootcode fuel us_to_cyc c false limit;
  _ ← bharc_enable_i2cbus cfg c;
  mret r.

(** [main] up to its loop: a nonzero result is [main]'s early return. *)
Definition main_init (primary : nat) : M W Z :=
  bist_rc ← (if TT_BIST kc then call Bist else mret 0);
  _ ← each_chip (fun c => modify c (set_fan_speed INITIAL_FAN_SPEED));
  _ ← update_fan_speed false;
  ret ← (if bist_rc =? 0 then
           confirmed ← call ImgConfirmed;
           if confirmed =? 0 then call WriteImgConfirmed else mret 0
         else mret 0);
  if ret <? 0 then mret ret else
  _ ← each_chip (fun c =>
        _ ← (if spi_mux (cfg c) then exec (GpioConfigure (SpiMux c) OutputActive) else nothing);
        if spi_mux1 (cfg c) then exec (GpioConfigure (SpiMux1 c) OutputActive) else nothing);
  _ ← (if fault_led_port kc then exec (GpioConfigure FaultLed OutputInactive) else nothing);
  n ← chip_count;
  ret ← each_until (seq 0 n) setup_gpios;
  if negb (ret =? 0) then mret ret else
  limit ← detect_max_power;
  _ ← modify_globals (fun p r _ => (p, r, limit));
  ret ← each_until (seq 0 n) (boot_chip primary limit);
  if negb (ret =? 0) then mret ret else
  _ ← each_chip (fun c => _ ← exec (SmbusConfigure c); bh_chip_cancel_bus_transfer_clear c);
  _ ← (if TT_ASSEMBLY_TEST kc && fault_led_port kc then exec (GpioSet FaultLed 1) else nothing);
  _ ← exec (TimerStart Shared20ms 20 20);
  _ ← exec (TimerStart BoardPower 1 1);
  mret 0.

Definition wanted (events e : Z) : bool := negb (Z.land events (Z.lor e TT_EVENT_WAKE) =? 0).

(** One pass of [while (true)], woken with [events]. *)
Definition main_pass (primary : nat) (events : Z) : M W unit :=
  _ ← handle_therm_trip;
  _ ← handle_watchdog_reset;
  _ ← handle_perst;
  _ ← handle_pgood_change;
  _ ← send_init_data;
  _ ← (if wanted events TT_EVENT_BOARD_POWER_TO_SMC then board_power_update else nothing);
  _ ← (if wanted events TT_EVENT_FAN_RPM_TO_SMC then fan_rpm_feedback else nothing);
  _ ← (if wanted events TT_EVENT_CM2DM_POLL then handle_cm2dm_messages else nothing);
  if wanted events TT_EVENT_LOGS_TO_SMC then send_logs_to_smc primary else nothing.
End main.

(** ** The mailbox and the DMC together

    One chip, joined to the SMC's mailbox of [Cm2dm] by a bus that may lose a
    transfer before it reaches the SMC, or lose only its answer. *)

Inductive fault := Delivered | ReplyLost | Lost.

Record net := MkNet {
  smc : Cm2DmMsgState;
  faults : list fault;              (** outcomes of the next transfers; then all are delivered *)
  issued : list cm2dmMessage        (** messages the SMC has put on offer, oldest first *)
}.

Definition next_fault (w : net) : fault := default Delivered (head (faults w)).

(** The SMC's side of a transfer; a message newly on offer is recorded. *)
Definition smc_step (s' : Cm2DmMsgState) (w : net) : net :=
  MkNet s' (tail (faults w))
    (if negb (curr_msg_valid (smc w)) && curr_msg_valid s' then issued w ++ [curr_msg s'] else issued w).

Definition net_req (w : net) : (Z * list Z) * net :=
  match next_fault w, Cm2DmMsgReqSmbusHandler (smc w) with
  | Delivered, Some (bytes, s') => ((0, bytes), smc_step s' w)
  | ReplyLost, Some (_, s') => ((- EIO, []), smc_step s' w)
  | _, _ => ((- EIO, []), smc_step (smc w) w)
  end.

Definition net_ack (word : Z) (w : net) : Z * net :=
  match next_fault w, Cm2DmMsgAckSmbusHandler (bytes_of_le 2 word) 2 (smc w) with
  | Delivered, Some (r, s') => ((if r =? 0 then 0 else - EIO), smc_step s' w)
  | ReplyLost, Some (_, s') => (- EIO, smc_step s' w)
  | _, _ => (- EIO, smc_step (smc w) w)
  end.

Section system.
(** What every other device answers. *)
Variable answer : dmc_call -> Z.

#[local] Instance net_hal : DmcHal net := {
  io c w := match c with
            | SmbusWordWrite _ 0x11 word => net_ack word w
            | _ => (answer c, w)
            end;
  io_value c w := ((answer c, 0), w);
  io_block _ cmd w := if cmd =? CMFW_SMBUS_REQ then net_req w else ((- EIO, []), w)
}.

Variable kc : kconfig.
Variable cfg : nat -> bh_chip_config.
Variable bootcode : list Z.
Variable fuel : nat.
Variable us_to_cyc : Z.

Abbreviation poll := (poll_messages kc cfg bootcode fuel us_to_cyc).

(** Firmware posts a message, or the DMC polls. *)
Inductive event := EvPost (id d : Z) | EvPoll.

Definition post_net (id d : Z) (s : dmc net) : option (dmc net) :=
  let w := world_of s in
  c ← PostCm2DmMsg id d (smc w); Some (set_world (MkNet c (faults w) (issued w)) s).

Fixpoint run_events (evs : list event) (s : dmc net) : option (list cm2dmMessage * dmc net) :=
  match evs with
  | [] => Some ([], s)
  | EvPost id d :: evs => s ← post_net id d s; run_events evs s
  | EvPoll :: evs =>
      '(ms, s) ← process_cm2dm_message kc cfg bootcode fuel us_to_cyc 0 s;
      '(ms', s) ← run_events evs s;
      Some (ms ++ ms', s)
  end.

(** Every message but the chip reset, which restarts the mailbox. *)
Definition legal_event (e : event) : Prop :=
  match e with EvPost id d => 2 <= id < kCm2DmMsgCount /\ is_u32 d | EvPoll => True end.

Definition system_init (fs : list fault) : dmc net := MkDmc [chip0] 0 0 0 (MkNet cm2dm_init fs []).

(** *** Processors leave the mailbox and the sequence number alone *)

Definition same_last (s s' : dmc net) : Prop :=
  length (chips s') = length (chips s) /\
  let d := default chip0 (chips s !! 0%nat) in let d' := default chip0 (chips s' !! 0%nat) in
  last_cm2dm_seq_num_valid d' = last_cm2dm_seq_num_valid d /\ last_cm2dm_seq_num d' = last_cm2dm_seq_num d.

Definition quiet {A} (m : M net A) (Q : A -> Prop) : Prop :=
  forall s, exists a s', m s = Some (a, s') /\ Q a /\ world_of s' = world_of s /\ same_last s s'.

Lemma quiet_ret {A} (a : A) (Q : A -> Prop) : Q a -> quiet (mret a) Q.
Proof. intros HQ s. by exists a, s. Qed.

Lemma quiet_bind {A B} (m : M net A) (f : A -> M net B) P Q :
  quiet m P -> (forall a, P a -> quiet (f a) Q) -> quiet (m ≫= f) Q.
Proof.
  intros Hm Hf s. destruct (Hm s) as (a & s1 & E & HP & Hw & Hl).
  destruct (Hf a HP s1) as (b & s2 & E2 & HQ & Hw2 & Hl2).
  exists b, s2. unfold mbind, M_bind. rewrite E. split_and!; [done|done|congruence|].
  unfold same_last in *. cbv zeta in *. intuition congruence.
Qed.

(** [any] is the postcondition of a call whose result does not matter. *)
Definition any {A} (_ : A) : Prop := True.

Lemma quiet_call c : (forall n w, c <> SmbusWordWrite n 0x11 w) -> quiet (call c) any.
Proof.
  intros Hc s. exists (answer c), (set_world (world_of s) s). unfold call.
  assert (io c (world_of s) = (answer c, world_of s)) as ->.
  { destruct c; try done. cbn. repeat (case_match; try done). subst. by edestruct Hc. }
  done.
Qed.

Lemma quiet_exec c : (forall n w, c <> SmbusWordWrite n 0x11 w) -> quiet (exec c) any.
Proof. intros Hc. unfold exec. eapply quiet_bind; [by apply quiet_call|]. intros. by apply quiet_ret. Qed.

Lemma quiet_call_value c : quiet (call_value c) any.
Proof. intros s. by eexists _, _. Qed.

Lemma quiet_get {A} (f : dmc net -> A) : quiet (get f) any.
Proof. intros s. by exists (f s), s. Qed.

Lemma quiet_modify c f :
  (forall d, last_cm2dm_seq_num_valid (f d) = last_cm2dm_seq_num_valid d /\
             last_cm2dm_seq_num (f d) = last_cm2dm_seq_num d) ->
  quiet (modify c f) any.
Proof.
  intros Hf s. eexists tt, _. split; [done|]. split; [done|]. split; [done|].
  unfold same_last. cbn [chips]. split; [apply length_alter|].
  destruct (decide (c = 0%nat)) as [->|]; [|by rewrite list_lookup_alter_ne].
  rewrite list_lookup_alter_eq. destruct (chips s !! 0%nat); [apply Hf|done].
Qed.

Lemma quiet_each cs body : (forall c, quiet (body c) any) -> quiet (each cs body) any.
Proof.
  intros Hb. induction cs as [|c cs IH]; cbn [each]; [by apply quiet_ret|].
  eapply quiet_bind; [apply Hb|]. by intros.
Qed.

Lemma quiet_chip c : quiet (chip c) any.
Proof. intros s. by eexists _, s. Qed.

Lemma quiet_weaken {A} (m : M net A) (P Q : A -> Prop) : quiet m P -> (forall a, P a -> Q a) -> quiet m Q.
Proof. intros Hm HPQ s. destruct (Hm s) as (a & s' & ? & ? & ?). exists a, s'. eauto. Qed.

Ltac quiet1 :=
  match goal with
  | |- quiet (mret _) _ => apply quiet_ret; first [done | exact I]
  | |- quiet nothing _ => apply quiet_ret; exact I
  | |- quiet (mbind _ _) _ => apply (quiet_bind _ _ any); [|intros ? ?]
  | |- quiet (exec _) _ => apply quiet_exec; by intros
  | |- quiet (call _) _ => apply quiet_call; by intros
  | |- quiet (call_value _) _ => apply quiet_call_value
  | |- quiet (get _) _ => apply quiet_get
  | |- quiet (chip _) _ => apply quiet_chip
  | |- quiet chip_count _ => apply quiet_get
  | |- quiet (modify _ _) _ => by apply quiet_modify
  | |- quiet (each _ _) _ => apply quiet_each; intros ?
  | |- quiet (let '(_, _) := ?p in _) _ => destruct p
  | |- quiet (if ?b then _ else _) _ => destruct b
  end.
Ltac quiet := repeat quiet1.

Lemma quiet_update_fan_speed b : quiet (update_fan_speed kc b) any.
Proof. unfold update_fan_speed, each_chip, bharc_smbus_word_data_write. quiet. Qed.

Lemma quiet_ping n c d : quiet (ping_loop n c d) any.
Proof.
  revert c d. induction n as [|n IH]; intros c d; cbn [ping_loop];
    unfold bharc_smbus_word_data_read, bharc_smbus_word_data_write; quiet; auto.
Qed.

Lemma msg_processor_quiet id p c d :
  id <> kCm2DmMsgIdResetReq -> msg_processor kc cfg bootcode fuel us_to_cyc id = Some p ->
  quiet (p c d) (fun stop => stop = false).
Proof.
  intros Hid. unfold msg_processor.
  repeat (case_match; [intros [= <-]|]); try done; bool_cases; try done;
    unfold process_ping, process_fan_speed_update, process_forced_fan_speed_update, process_id_ready,
      process_auto_reset_timeout_update, process_heartbeat_update, process_led_blink_request,
      process_gddr_therm_trip; quiet; auto using quiet_update_fan_speed, quiet_ping.
Qed.

(** *** The mailbox seen through the bus *)

Record mail (w : net) : Prop := {
  mail_cm : cm_inv (smc w);
  mail_noreset : Z.testbit (pending_messages (smc w)) kCm2DmMsgIdResetReq = false;
  mail_issued : forall k m, issued w !! k = Some m ->
    seq_num m = Z.of_nat k mod 256 /\ 2 <= msg_id m < kCm2DmMsgCount;
  mail_next : next_seq_num (smc w) = len (issued w) mod 256;
  mail_curr : curr_msg_valid (smc w) = true -> exists L, issued w = L ++ [curr_msg (smc w)]
}.

(** [acc] is what the DMC has accepted: all but at most the message on offer. *)
Definition covers (acc : list cm2dmMessage) (w : net) : Prop :=
  if curr_msg_valid (smc w)
  then exists L, issued w = L ++ [curr_msg (smc w)] /\ (acc = L \/ acc = issued w)
  else acc = issued w.

(** Messages still to be exchanged: the pending ones and the one on offer. *)
Definition npend (p : Z) : Z :=
  Z.b2z (Z.testbit p 2) + Z.b2z (Z.testbit p 3) + Z.b2z (Z.testbit p 4) + Z.b2z (Z.testbit p 5) +
  Z.b2z (Z.testbit p 6) + Z.b2z (Z.testbit p 7) + Z.b2z (Z.testbit p 8) + Z.b2z (Z.testbit p 9).
Definition load (w : net) : Z := npend (pending_messages (smc w)) + Z.b2z (curr_msg_valid (smc w)).

Lemma npend_clear p id : 2 <= id < 10 -> Z.testbit p id = true -> npend (Z.clearbit p id) = npend p - 1.
Proof.
  intros Hid Hb. unfold npend. rewrite !Z.clearbit_eqb.
  assert (id = 2 \/ id = 3 \/ id = 4 \/ id = 5 \/ id = 6 \/ id = 7 \/ id = 8 \/ id = 9) as Hcase by lia.
  destruct Hcase as [->|[->|[->|[->|[->|[->|[->| ->] ] ] ] ] ] ]; rewrite Hb; cbn [Z.eqb Pos.eqb negb];
    rewrite ?andb_true_r, ?andb_false_r; cbn [Z.b2z]; lia.
Qed.

Lemma load_bound w : 0 <= load w <= 9.
Proof.
  assert (forall b, 0 <= Z.b2z b <= 1) as Hb by (intros []; done).
  unfold load, npend.
  repeat match goal with |- context [Z.b2z ?b] => pose proof (Hb b); generalize dependent (Z.b2z b); intros end.
  lia.
Qed.

Lemma load_zero w : mail w -> load w = 0 -> pending_messages (smc w) = 0 /\ curr_msg_valid (smc w) = false.
Proof.
  intros Hm Hl. unfold load in Hl.
  assert (curr_msg_valid (smc w) = false) as Hv.
  { destruct (curr_msg_valid (smc w)); [|done]. cbn in Hl. unfold npend in Hl.
    repeat match goal with H : context [Z.b2z (Z.testbit ?p ?i)] |- _ => destruct (Z.testbit p i) end; cbn in Hl; lia. }
  split; [|done]. rewrite Hv in Hl. cbn in Hl. apply Z.bits_inj'. intros i Hi. rewrite Z.bits_0.
  destruct (Z.testbit (pending_messages (smc w)) i) eqn:E; [|done]. exfalso.
  pose proof (cm_pending _ (mail_cm _ Hm)) as [_ Hb]. pose proof (Hb _ E) as Hr. unfold kCm2DmMsgCount in Hr.
  assert (i <> 1) by (intros ->; pose proof (mail_noreset _ Hm); unfold kCm2DmMsgIdResetReq in *; congruence).
  pose proof (npend_clear _ i ltac:(lia) E) as Hc.
  unfold npend at 1 in Hc.
  repeat match goal with H : context [Z.b2z ?b] |- _ =>
    lazymatch b with Z.testbit (Z.clearbit _ _) _ => destruct b end end; cbn in Hc; lia.
Qed.

(** The SMC's answer to a request, whatever happens to it on the way back. *)
Lemma mail_req acc w :
  mail w -> covers acc w ->
  exists s', Cm2DmMsgReqSmbusHandler (smc w) = Some (encode_msg (curr_msg s'), s') /\
    let w' := smc_step s' w in
    mail w' /\ covers acc w' /\ smc w' = s' /\
    (curr_msg_valid s' = false -> pending_messages s' = 0 /\ curr_msg s' = zero_msg /\ acc = issued w') /\
    load w' = load w.
Proof.
  intros [Hi Hnr His Hnx Hcu] Hcov. unfold covers in Hcov.
  destruct (curr_msg_valid (smc w)) eqn:Ev.
  { exists (smc w). split; [by apply req_repeat|]. unfold smc_step. rewrite Ev. cbn [smc issued faults negb andb].
    split; [split; cbn [smc issued faults negb andb]; auto|]. unfold covers, load. cbn [smc issued faults negb andb]. rewrite Ev. done. }
  destruct (Z.eq_dec (pending_messages (smc w)) 0) as [Ep|Hne].
  { pose proof (cm_curr _ Hi) as Hc. rewrite Ev in Hc.
    exists (smc w). rewrite Hc. split; [by apply req_idle|]. unfold smc_step. rewrite Ev. cbn [smc issued faults negb andb].
    split; [split; cbn [smc issued faults negb andb]; try done; by rewrite Ev|]. unfold covers, load. cbn [smc issued faults negb andb]. by rewrite Ev. }
  destruct (req_load (smc w) Hi Ev Hne) as (m & s' & E & Hi' & Ev' & Em & En & Eq & Eg & Eb & Ep & Er & _).
  exists s'. subst m. split; [done|]. unfold smc_step. rewrite Ev, Ev'. cbn [smc issued faults negb andb].
  pose proof (cm_curr _ Hi') as Hc. rewrite Ev' in Hc. destruct Hc as (Hid & _ & _ & Hsq).
  assert (msg_id (curr_msg s') <> 1).
  { intros E1. rewrite E1 in Eb. unfold kCm2DmMsgIdResetReq in Hnr. congruence. }
  split.
  { split; cbn [smc issued faults negb andb].
    - done.
    - rewrite Ep, Z.clearbit_eqb. by rewrite Hnr.
    - intros k m [Hl|[Hl Hk]]%lookup_app_Some; [by apply His|].
      apply list_lookup_singleton_Some in Hk as [Hk <-].
      split; [rewrite Eq, Hnx; f_equal; lia|lia].
    - rewrite length_app. cbn [length]. rewrite <- Hsq, Eq, Hnx. word_lia.
    - intros _. by eexists. }
  unfold covers, load. cbn [smc issued faults negb andb]. rewrite Ev', Ev, Ep. unfold kCm2DmMsgCount in Hid.
  split; [exists (issued w); subst acc; auto|]. split; [done|]. split; [done|].
  rewrite npend_clear by (done || lia). cbn. lia.
Qed.

(** The SMC's handling of the acknowledgement of the message on offer. *)
Lemma mail_ack w m :
  mail w -> curr_msg_valid (smc w) = true -> curr_msg (smc w) = m ->
  exists s', Cm2DmMsgAckSmbusHandler (bytes_of_le 2 (u16 (le_of_bytes [msg_id m; seq_num m]))) 2 (smc w) = Some (0, s') /\
    let w' := smc_step s' w in
    mail w' /\ covers (issued w) w' /\ curr_msg_valid (smc w') = false /\ issued w' = issued w /\ load w' = load w - 1.
Proof.
  intros [Hi Hnr His Hnx Hcu] Ev <-.
  pose proof (cm_curr _ Hi) as Hc. rewrite Ev in Hc. destruct Hc as (Hid & Hsq & _ & _).
  unfold kCm2DmMsgCount in Hid.
  assert (bytes_of_le 2 (u16 (le_of_bytes [msg_id (curr_msg (smc w)); seq_num (curr_msg (smc w))])) =
          [msg_id (curr_msg (smc w)); seq_num (curr_msg (smc w))]) as ->.
  { rewrite wrap_small by (cbn [le_of_bytes]; unwrap; lia).
    apply (bytes_of_le_of_bytes [_; _]).
    apply Forall_cons_2; [unwrap; lia|]. by apply Forall_cons_2; [|constructor]. }
  rewrite ack_match, Ev, !Z.eqb_refl. cbn [andb]. eexists. split; [done|].
  unfold smc_step. rewrite Ev. cbn [smc issued faults negb andb].
  split; [split; cbn [smc issued faults negb andb]; try done; by destruct Hi; split|].
  unfold covers, load. cbn [smc issued faults negb andb]. rewrite Ev. cbn. split_and!; try done. lia.
Qed.

(** *** One message, seen from the DMC *)

Lemma smc_step_same w : smc_step (smc w) w = MkNet (smc w) (tail (faults w)) (issued w).
Proof. unfold smc_step. by destruct (curr_msg_valid (smc w)). Qed.

Lemma mail_faults w fs : mail w -> mail (MkNet (smc w) fs (issued w)).
Proof. intros []. by split. Qed.

Lemma net_req_cases acc w :
  mail w -> covers acc w ->
  exists w', mail w' /\ covers acc w' /\ load w' = load w /\ faults w' = tail (faults w) /\
    (net_req w = ((0, encode_msg (curr_msg (smc w'))), w') /\
     (curr_msg_valid (smc w') = false ->
        pending_messages (smc w') = 0 /\ curr_msg (smc w') = zero_msg /\ acc = issued w') \/
     faults w <> [] /\ net_req w = ((- EIO, []), w')).
Proof.
  intros Hm Hc. destruct (mail_req acc w Hm Hc) as (s' & E & Hm' & Hc' & Es & Hz & Hl).
  assert (net_req w = match next_fault w with
    | Delivered => ((0, encode_msg (curr_msg s')), smc_step s' w)
    | ReplyLost => ((- EIO, []), smc_step s' w)
    | Lost => ((- EIO, []), smc_step (smc w) w) end) as ->.
  { unfold net_req. rewrite E. by destruct (next_fault w). }
  destruct (next_fault w) eqn:Ef.
  - exists (smc_step s' w). split_and!; [done..|]. left. by rewrite Es.
  - exists (smc_step s' w). split_and!; [done..|]. right. unfold next_fault in Ef. by destruct (faults w).
  - exists (smc_step (smc w) w). rewrite smc_step_same.
    split_and!; [by apply mail_faults|done|done|done|]. right. unfold next_fault in Ef. by destruct (faults w).
Qed.

Lemma net_ack_cases w m :
  mail w -> curr_msg_valid (smc w) = true -> curr_msg (smc w) = m ->
  exists r w', net_ack (u16 (le_of_bytes [msg_id m; seq_num m])) w = (r, w') /\
    mail w' /\ covers (issued w) w' /\ issued w' = issued w /\ load w' <= load w /\
    (faults w = [] -> faults w' = [] /\ load w' < load w).
Proof.
  intros Hm Hv Em. destruct (mail_ack w m Hm Hv Em) as (s' & E & Hm' & Hc' & Hv' & Hi' & Hl).
  unfold net_ack, next_fault. rewrite E.
  destruct (faults w) as [|f fs] eqn:Ef; cbn [head default from_option id].
  - eexists _, _. split; [done|]. split_and!; [done..|lia|]. intros _. split; [by cbn; rewrite Ef|lia].
  - destruct f.
    + eexists _, _. split; [done|]. split_and!; [done..|lia|done].
    + eexists _, _. split; [done|]. split_and!; [done..|lia|done].
    + eexists _, _. rewrite smc_step_same. split; [done|].
      split_and!; [by apply mail_faults| |done|done|done].
      destruct (mail_curr _ Hm Hv) as [L HL]. unfold covers. cbn [smc issued]. rewrite Hv.
      exists L. auto.
Qed.

(** After a failed request the bus may be recovered: nothing else changes. *)
Lemma recover_quiet r :
  quiet (if r =? - EIO then
           now ← call UptimeMs;
           limit ← get recover_ratelimit;
           if limit <=? now then
             _ ← modify_globals (fun p _ m => (p, now + 250, m));
             _ ← exec (I2cRecover 0);
             exec (SmbusUncancel 0)
           else nothing
         else nothing) any.
Proof. quiet. intros s. by eexists _, _. Qed.

Lemma covers_accepted acc w :
  covers acc w -> curr_msg_valid (smc w) = true ->
  exists L, issued w = L ++ [curr_msg (smc w)] /\ (acc = L \/ acc = issued w).
Proof. unfold covers. intros Hc Hv. by rewrite Hv in Hc. Qed.

Definition got (acc : list cm2dmMessage) (s s' : dmc net) (m : cm2dmMessageRet) : Prop :=
  let w := world_of s in let w' := world_of s' in
  mail w' /\ load w' <= load w /\
  ((ret m <> 0 /\ covers acc w' /\ faults w <> []) \/
   (ret m = 0 /\ msg_id (msg m) = kCm2DmMsgIdNull /\ covers acc w' /\
    pending_messages (smc w') = 0 /\ curr_msg_valid (smc w') = false) \/
   (ret m = 0 /\ 2 <= msg_id (msg m) < kCm2DmMsgCount /\
    exists L, issued w' = L ++ [msg m] /\ (acc = L \/ acc = issued w') /\ covers (issued w') w' /\
      (faults w = [] -> faults w' = [] /\ load w' < load w))).

Lemma get_message acc s :
  mail (world_of s) -> covers acc (world_of s) ->
  exists m s', bh_chip_get_cm2dm_message 0 s = Some (m, s') /\ same_last s s' /\ got acc s s' m.
Proof.
  intros Hm Hc. destruct (net_req_cases acc _ Hm Hc) as (w1 & Hm1 & Hc1 & Hl1 & Hf1 & Hcase).
  unfold bh_chip_get_cm2dm_message, bharc_smbus_block_read, call_block.
  unfold mbind at 1, M_bind at 1. cbn [io_block net_hal].
  change (CMFW_SMBUS_REQ =? CMFW_SMBUS_REQ) with true. cbn match.
  destruct Hcase as [[-> Hz]|[Hne ->] ].
  - destruct (curr_msg_valid (smc w1)) eqn:Ev.
    + pose proof (cm_curr _ (mail_cm _ Hm1)) as Hcur. rewrite Ev in Hcur.
      destruct Hcur as (Hid & Hsq & Hd & _). unfold kCm2DmMsgCount in Hid.
      rewrite decode_encode by (try done; unwrap; lia). cbn [default from_option id].
      set (m := curr_msg (smc w1)) in *.
      destruct (net_ack_cases w1 m Hm1 Ev eq_refl) as (r & w2 & Ea & Hm2 & Hc2 & Hi2 & Hl2 & Hf2).
      destruct (Z.eqb_spec (msg_id m) 0); [lia|]. cbn [Z.eqb andb negb].
      change (0 =? - EIO) with false.
      unfold mbind, M_bind, bharc_smbus_word_data_write, call, set_world. cbn [world_of io net_hal].
      change CMFW_SMBUS_ACK with 0x11. cbn match. rewrite Ea.
      eexists _, _. split; [done|]. split; [done|]. unfold got. cbn [ret msg world_of].
      split; [done|]. split; [lia|]. right; right.
      destruct (covers_accepted _ _ Hc1 Ev) as (L & HL & Hacc). fold m in HL.
      assert (2 <= msg_id m < kCm2DmMsgCount).
      { apply (mail_issued _ Hm1 (length L)). rewrite HL. by apply list_lookup_middle. }
      split; [done|]. split; [done|]. exists L. rewrite Hi2. split_and!; [done|done|done|].
      intros Hnil. rewrite Hnil in Hf1. destruct (Hf2 Hf1) as [? ?]. split; [done|lia].
    + destruct (Hz eq_refl) as (Hp & Ecur & Hacc). rewrite Ecur. cbn [decode_msg encode_msg].
      eexists _, _. split; [done|]. split; [done|]. unfold got. cbn [ret msg world_of set_world].
      split; [done|]. split; [lia|]. right; left. by cbn.
  - cbn [decode_msg default from_option id]. change (- EIO =? 0) with false. cbn [andb].
    unfold mbind at 1, M_bind at 1, mret, M_ret.
    destruct (recover_quiet (- EIO) (set_world w1 s)) as (u & s2 & E2 & _ & Hw & Hsl).
    unfold mbind at 1, M_bind at 1. rewrite E2.
    eexists _, _. split; [done|]. split; [done|]. unfold got. cbn [ret msg].
    rewrite Hw. cbn [world_of set_world]. split; [done|]. split; [lia|]. left. done.
Qed.

(** *** Polling *)

(** The DMC remembers the sequence number of the last message it accepted. *)
Definition last_ok (acc : list cm2dmMessage) (s : dmc net) : Prop :=
  (0 < length (chips s))%nat /\
  let d := default chip0 (chips s !! 0%nat) in
  match last acc with
  | None => last_cm2dm_seq_num_valid d = false
  | Some m => last_cm2dm_seq_num_valid d = true /\ last_cm2dm_seq_num d = seq_num m
  end.

Definition linked (acc : list cm2dmMessage) (s : dmc net) : Prop :=
  mail (world_of s) /\ covers acc (world_of s) /\ last_ok acc s.

Lemma last_ok_same acc s s' : last_ok acc s -> same_last s s' -> last_ok acc s'.
Proof.
  intros [Hl Hd] [Hl' [Hv Hq] ]. split; [lia|]. cbv zeta in *. destruct (last acc); rewrite Hv, ?Hq; done.
Qed.

(** A message on offer is a repeat exactly when it was accepted before. *)
Lemma repeat_iff acc s w L m :
  mail w -> issued w = L ++ [m] -> acc = L \/ acc = issued w -> last_ok acc s ->
  let d := default chip0 (chips s !! 0%nat) in
  last_cm2dm_seq_num_valid d && (last_cm2dm_seq_num d =? seq_num m) = true <-> acc = issued w.
Proof.
  intros Hm HL Hacc [_ Hd] d. fold d in Hd. cbv zeta in Hd.
  destruct (decide (acc = issued w)) as [->|Hne].
  - rewrite HL, last_snoc in Hd. destruct Hd as [-> ->]. rewrite Z.eqb_refl. done.
  - split; [|done]. destruct Hacc as [->|]; [|done].
    destruct (last L) as [m'|] eqn:El; [|by rewrite Hd].
    destruct Hd as [-> ->]. intros E. cbn [andb] in E. bool_cases. exfalso.
    apply last_Some in El as [L' ->].
    destruct (mail_issued _ Hm (length L') m') as [Eq1 _].
    { rewrite HL, <- app_assoc. by apply list_lookup_middle. }
    destruct (mail_issued _ Hm (length (L' ++ [m'])) m) as [Eq2 _].
    { rewrite HL. by apply list_lookup_middle. }
    rewrite length_app in Eq2. cbn [length] in Eq2. word_lia.
Qed.

Lemma process_message id d s :
  2 <= id < kCm2DmMsgCount ->
  exists s', match msg_processor kc cfg bootcode fuel us_to_cyc id with
             | Some p => p 0%nat d
             | None => mret false
             end s = Some (false, s') /\ world_of s' = world_of s /\ same_last s s'.
Proof.
  intros Hid. destruct (msg_processor _ _ _ _ _ id) as [p|] eqn:Ep.
  - assert (id <> kCm2DmMsgIdResetReq) as Hne by (unfold kCm2DmMsgIdResetReq; lia).
    destruct (msg_processor_quiet id p 0%nat d Hne Ep s) as (b & s' & E & -> & Hw & Hl). by exists s'.
  - by exists s.
Qed.

Lemma accept_last m acc s :
  (0 < length (chips s))%nat ->
  exists s', modify 0 (fun d => set_last_cm2dm_seq_num (seq_num m) (set_last_cm2dm_seq_num_valid true d)) s =
      Some (tt, s') /\ world_of s' = world_of s /\ last_ok (acc ++ [m]) s'.
Proof.
  intros Hl. eexists. split; [done|]. split; [done|]. unfold last_ok. cbn [chips].
  rewrite length_alter, last_snoc, list_lookup_alter_eq. split; [done|].
  destruct (chips s) as [|d ds]; [cbn in Hl; lia|]. done.
Qed.

Lemma poll_linked n acc s :
  linked acc s ->
  exists ms s', poll n 0 s = Some (ms, s') /\ linked (acc ++ ms) s' /\
    (faults (world_of s) = [] -> load (world_of s) < Z.of_nat n ->
     pending_messages (smc (world_of s')) = 0 /\ curr_msg_valid (smc (world_of s')) = false).
Proof.
  revert acc s. induction n as [|n IH]; intros acc s Hlk.
  { exists [], s. rewrite app_nil_r. split_and!; [done..|]. intros _. pose proof (load_bound (world_of s)). lia. }
  destruct Hlk as (Hm & Hc & Hlast).
  destruct (get_message acc s Hm Hc) as (r & s1 & E1 & Hsame & Hm1 & Hl1 & Hgot).
  assert (last_ok acc s1) as Hlast1 by (by eapply last_ok_same).
  cbn [poll_messages]. unfold mbind at 1, M_bind at 1. rewrite E1.
  destruct Hgot as [(Hr & Hc1 & Hf)|[(Hr & Hid & Hc1 & Hp & Hv)|(Hr & Hid & L & HL & Hacc & Hc1 & Hdr)] ].
  - destruct (Z.eqb_spec (ret r) 0); [done|]. exists [], s1. rewrite app_nil_r. by split_and!.
  - rewrite Hr. cbn [Z.eqb negb]. rewrite Hid. cbn [Z.eqb kCm2DmMsgIdNull].
    exists [], s1. rewrite app_nil_r. by split_and!.
  - rewrite Hr. cbn [Z.eqb negb]. destruct (Z.eqb_spec (msg_id (msg r)) kCm2DmMsgIdNull) as [E0|];
      [unfold kCm2DmMsgIdNull in E0; lia|].
    pose proof (repeat_iff acc s1 _ L (msg r) Hm1 HL Hacc Hlast1) as Hrep. cbv zeta in Hrep.
    unfold chip. unfold mbind at 1, M_bind at 1.
    destruct (last_cm2dm_seq_num_valid _ && _).
    + destruct Hrep as [Hrep _]. specialize (Hrep eq_refl). subst acc.
      destruct (IH _ s1 (conj Hm1 (conj Hc1 Hlast1))) as (ms & s2 & E2 & Hlk2 & Hd2).
      exists ms, s2. split_and!; [done|done|]. intros Hf Hlt. destruct (Hdr Hf). apply Hd2; [done|lia].
    + assert (acc = L) as -> by (destruct Hacc as [|E]; [done|]; by apply Hrep in E).
      destruct (accept_last (msg r) L s1) as (s2 & E2 & Hw2 & Hlast2); [by destruct Hlast1|].
      unfold mbind at 1, M_bind at 1. rewrite E2.
      destruct (process_message (msg_id (msg r)) (data (msg r)) s2 Hid) as (s3 & E3 & Hw3 & Hsame3).
      unfold mbind at 1, M_bind at 1. rewrite E3.
      destruct (IH (L ++ [msg r]) s3) as (ms & s4 & E4 & Hlk4 & Hd4).
      { unfold linked. rewrite Hw3, Hw2, <- HL. split_and!; [done..|]. rewrite HL. by eapply last_ok_same. }
      unfold mbind at 1, M_bind at 1. rewrite E4. exists (msg r :: ms), s4.
      rewrite <- app_assoc in Hlk4. split_and!; [done|done|]. rewrite Hw3, Hw2 in Hd4.
      intros Hf Hlt. destruct (Hdr Hf). apply Hd4; [done|lia].
Qed.

Lemma post_linked id d acc s :
  linked acc s -> 2 <= id < kCm2DmMsgCount -> is_u32 d ->
  exists s', post_net id d s = Some s' /\ linked acc s' /\ faults (world_of s') = faults (world_of s) /\
    issued (world_of s') = issued (world_of s).
Proof.
  intros ([Hi Hnr His Hnx Hcu] & Hc & Hl) Hid Hd. unfold post_net.
  destruct (post_ok (smc (world_of s)) id d Hi) as (c & E & Hi' & En & Ep & Ev & Em & Eq & Er); [lia|done|].
  rewrite E. cbn [mbind option_bind]. eexists. split; [done|].
  unfold linked, covers. cbn [world_of set_world smc issued faults]. rewrite Ev, Em.
  split; [|done]. split; [|done].
  split; cbn [smc issued]; rewrite ?Ev, ?Em, ?Eq; try done.
  rewrite Ep, Z.setbit_eqb, Hnr by lia. unfold kCm2DmMsgIdResetReq. by destruct (Z.eqb_spec id 1); [lia|].
Qed.

Lemma init_linked fs : linked [] (system_init fs).
Proof.
  split; [|split; [done|by split; [cbn; lia|] ] ].
  split; try done. exact cm2dm_init_inv.
Qed.

Lemma run_linked evs acc s :
  linked acc s -> Forall legal_event evs ->
  exists ms s', run_events evs s = Some (ms, s') /\ linked (acc ++ ms) s'.
Proof.
  intros Hlk HF. revert acc s Hlk. induction HF as [|e evs He _ IH]; intros acc s Hlk.
  { exists [], s. by rewrite app_nil_r. }
  destruct e as [id d|]; cbn [run_events].
  - destruct He as [Hid Hd]. destruct (post_linked id d acc s Hlk Hid Hd) as (s1 & E1 & Hlk1 & _).
    rewrite E1. cbn [mbind option_bind]. by apply IH.
  - destruct (poll_linked (Z.to_nat kCm2DmMsgCount) acc s Hlk) as (ms & s1 & E1 & Hlk1 & _).
    destruct (IH _ _ Hlk1) as (ms2 & s2 & E2 & Hlk2).
    unfold process_cm2dm_message. rewrite E1. cbn [mbind option_bind]. rewrite E2. cbn [mbind option_bind].
    exists (ms ++ ms2), s2. by rewrite app_assoc.
Qed.


(** One poll is enough.  Whatever happened before, once the bus delivers every
    transfer a single poll (at most [kCm2DmMsgCount] messages) empties the
    mailbox: nothing is pending or on offer, and every message ever put on offer
    has been accepted. *)
Theorem poll_drains_mailbox evs fs :
  Forall legal_event evs ->
  exists ms s ms' s', run_events evs (system_init fs) = Some (ms, s) /\
    (faults (world_of s) = [] ->
     process_cm2dm_message kc cfg bootcode fuel us_to_cyc 0 s = Some (ms', s') /\
     pending_messages (smc (world_of s')) = 0 /\ curr_msg_valid (smc (world_of s')) = false /\
     issued (world_of s') = ms ++ ms').
Proof.
  intros HF. destruct (run_linked evs [] (system_init fs) (init_linked fs) HF) as (ms & s & E & Hlk).
  destruct (poll_linked (Z.to_nat kCm2DmMsgCount) _ _ Hlk) as (ms' & s' & E' & (_ & Hc & _) & Hd).
  exists ms, s, ms', s'. split; [done|]. intros Hf.
  destruct (Hd Hf) as [Hp Hv]; [pose proof (load_bound (world_of s)); unfold kCm2DmMsgCount; lia|].
  split_and!; [done..|]. unfold covers in Hc. by rewrite Hv in Hc.
Qed.
End system.

(** *** Witnesses: a board with a fan, whose devices answer 0 *)

Definition kc0 : kconfig := MkKconfig true false false true true true false false true.
Definition cfg0 (_ : nat) : bh_chip_config := MkConfig true [true] true false.

Definition trace : list event :=
  [EvPost kCm2DmMsgIdFanSpeedUpdate 60; EvPost kCm2DmMsgIdReady 0; EvPoll; EvPoll;
   EvPost kCm2DmMsgIdPing 1; EvPoll; EvPoll].
Definition losses : list fault := [Delivered; Lost; ReplyLost; Lost; Delivered; ReplyLost; Lost].

Lemma trace_legal : Forall legal_event trace.
Proof. unfold trace. repeat (apply Forall_cons_2; [by vm_compute|]). by apply Forall_nil. Qed.


Lemma poll_drains_mailbox_witness :
  exists ms s, run_events (fun _ => 0) kc0 cfg0 [] 5 0 (take 3 trace) (system_init [Lost]) = Some (ms, s) /\
    exists s', @process_cm2dm_message net (net_hal (fun _ => 0)) kc0 cfg0 [] 5 0 0 s =
                 Some ([MkMsg 3 0 60; MkMsg 4 1 0], s') /\
               pending_messages (smc (world_of s')) = 0.
Proof.
  assert (Forall legal_event (take 3 trace)) as HF by (apply Forall_take, trace_legal).
  destruct (poll_drains_mailbox (fun _ => 0) kc0 cfg0 [] 5 0 (take 3 trace) [Lost] HF)
    as (ms & s & ms' & s' & E & Hd).
  exists ms, s. split; [done|].
  destruct Hd as (E' & Hp & _); [vm_compute in E; by injection E as <- <-|].
  exists s'. split; [|done]. vm_compute in E. injection E as <- <-.
  rewrite E'. vm_compute in E'. by injection E' as <- <-.
Defined.

(** ** Behaviour against a recording world

    The world is the list of calls made so far, newest first; the devices may
    answer anything, depending on that history. *)

Section recording.
Variable answer : list dmc_call -> dmc_call -> Z.
Variable buffer : list dmc_call -> list Z.

#[local] Instance rec_hal : DmcHal (list dmc_call) := {
  io c w := (answer w c, c :: w);
  io_value c w := ((answer w c, answer (c :: w) c), c :: w);
  io_block _ _ w := ((answer w KYield, buffer w), w)
}.

Variable kc : kconfig.

(** *** Fan speed *)

Lemma fold_max_spec (f : bh_chip_data -> Z) cs v :
  let r := fold_left (fun v d => Z.max v (f d)) cs v in
  v <= r /\ (forall d, d ∈ cs -> f d <= r) /\ (r = v \/ exists d, d ∈ cs /\ f d = r).
Proof.
  revert v. induction cs as [|d cs IH]; intros v r.
  { split_and!; [done|set_solver|by left]. }
  subst r. cbn [fold_left]. destruct (IH (Z.max v (f d))) as (Hv & Hall & Hex).
  split_and!; [lia| |].
  - intros d' [->|Hd]%elem_of_cons; [lia|auto].
  - destruct Hex as [->|(d' & Hd' & <-)].
    + destruct (Z.max_spec v (f d)) as [[_ ->]|[_ ->] ]; [right|by left]. exists d. set_solver.
    + right. exists d'. set_solver.
Qed.

(** The chips' requests: a forced nonzero request overrides all others. *)
Definition forced (d : bh_chip_data) : Prop := fan_speed_forced d = true /\ fan_speed d <> 0.

Lemma board_fan_speed_spec cs :
  Forall (fun d => 0 <= fan_speed d) cs ->
  let speed := board_fan_speed cs in
  (forall d, d ∈ cs -> forced d -> fan_speed d <= speed) /\
  ((exists d, d ∈ cs /\ forced d /\ fan_speed d = speed) \/
   (forall d, d ∈ cs -> ~ forced d) /\ (forall d, d ∈ cs -> fan_speed d <= speed) /\
   (speed = 0 \/ exists d, d ∈ cs /\ fan_speed d = speed)).
Proof.
  intros Hnn speed. subst speed. unfold board_fan_speed.
  destruct (fold_max_spec (fun d => if fan_speed_forced d then fan_speed d else 0) cs 0) as (H0 & Hall & Hex).
  destruct (fold_max_spec fan_speed cs 0) as (_ & Hall' & Hex').
  fold (max_forced_fan_speed cs) in H0, Hall, Hex. fold (max_fan_speed cs) in Hall', Hex'.
  set (f := max_forced_fan_speed cs) in *.
  assert (Hforced : forall d, d ∈ cs -> forced d -> fan_speed d <= f).
  { intros d Hd [Hf _]. specialize (Hall d Hd). by rewrite Hf in Hall. }
  destruct (Z.eqb_spec f 0) as [E|Hne]; cbn [negb].
  - assert (forall d, d ∈ cs -> ~ forced d) as Hnone.
    { intros d Hd Hf. pose proof (Hforced d Hd Hf). destruct Hf as [_ Hf].
      rewrite Forall_forall in Hnn. pose proof (Hnn d Hd). cbn in *. lia. }
    split; [by intros d Hd Hf; destruct (Hnone d Hd Hf)|]. right. by split_and!.
  - split; [done|]. left. destruct Hex as [|(d & Hd & E)]; [done|].
    exists d. destruct (fan_speed_forced d) eqn:Ef; [|done]. unfold forced. rewrite Ef, E. naive_solver.
Qed.

Lemma each_log s cs (f : nat -> dmc_call) :
  each cs (fun c => _ ← call (f c); nothing) s = Some (tt, set_world (rev (map f cs) ++ world_of s) s).
Proof.
  revert s. induction cs as [|c cs IH]; intros s; [by destruct s|].
  cbn [each map rev]. unfold mbind, M_bind, call. cbn. unfold nothing, mret, M_ret.
  rewrite IH. by rewrite <- app_assoc.
Qed.

(** Fan control.  The board's fan is driven once, at the fastest speed a chip
    forces, or, when none forces a nonzero speed, at the fastest speed requested;
    with speeds in percent the pulse is within the PWM period, and every SMC is
    told the same speed, in chip order. *)
Theorem update_fan_speed_ok s :
  fan0_okay kc = true -> Forall (fun d => 0 <= fan_speed d <= 100) (chips s) ->
  exists speed, update_fan_speed kc true s = Some (tt, set_world
      (rev (map (fun c => SmbusWordWrite c CMFW_SMBUS_FAN_SPEED speed) (seq 0 (length (chips s)))) ++
       PwmSetCycles UINT8_MAX (fan_speed_pwm speed) :: world_of s) s) /\
    0 <= speed <= 100 /\ 0 <= fan_speed_pwm speed <= UINT8_MAX /\
    (forall d, d ∈ chips s -> forced d -> fan_speed d <= speed) /\
    ((exists d, d ∈ chips s /\ forced d /\ fan_speed d = speed) \/
     (forall d, d ∈ chips s -> ~ forced d) /\ (forall d, d ∈ chips s -> fan_speed d <= speed) /\
     (speed = 0 \/ exists d, d ∈ chips s /\ fan_speed d = speed)).
Proof.
  intros Hfan HF. exists (board_fan_speed (chips s)).
  destruct (board_fan_speed_spec (chips s)) as [Hmax Hcase]; [eapply Forall_impl; [done|]; cbn; lia|].
  rewrite Forall_forall in HF.
  assert (0 <= board_fan_speed (chips s) <= 100) as Hr.
  { destruct Hcase as [(d & Hd & _ & <-)|(_ & _ & [->|(d & Hd & <-)])]; [by apply HF|lia|by apply HF]. }
  split.
  - unfold update_fan_speed. rewrite Hfan. unfold get, exec, each_chip, chip_count, bharc_smbus_word_data_write.
    unfold mbind, M_bind, call at 1. cbn [io rec_hal]. unfold mret, M_ret. cbn [set_world chips].
    rewrite (wrap_small 16) by (unwrap; lia).
    exact (each_log (set_world (_ :: world_of s) s) _
             (fun c => SmbusWordWrite c CMFW_SMBUS_FAN_SPEED (board_fan_speed (chips s)))).
  - split; [done|]. split; [|done]. unfold fan_speed_pwm, DIV_ROUND_UP, UINT8_MAX. word_lia.
Qed.

(** *** Power good *)

Variable cfg : nat -> bh_chip_config.
Variable bootcode : list Z.
Variable fuel : nat.
Variable us_to_cyc : Z.
Abbreviation pgood_event := (handle_pgood_event kc cfg bootcode fuel us_to_cyc 0).

Inductive pgood_op := PgoodIrq | PgoodHandle.
Definition pgood_run (op : pgood_op) : M (list dmc_call) unit :=
  match op with PgoodIrq => pgood_change_detected 0 | PgoodHandle => pgood_event end.
Fixpoint pgood_runs (ops : list pgood_op) : M (list dmc_call) unit :=
  match ops with [] => nothing | op :: ops => _ ← pgood_run op; pgood_runs ops end.

(** Calls that only look at the pin and wake the main loop. *)
Definition passive (c : dmc_call) : Prop := c = GpioGet (Pgood 0) \/ c = EventPost TT_EVENT_PGOOD.

Lemma severe_step op s d :
  chips s !! 0%nat = Some d -> pgood_severe_fault d = true ->
  exists s' d' new, pgood_run op s = Some (tt, s') /\ chips s' !! 0%nat = Some d' /\
    pgood_severe_fault d' = true /\ world_of s' = new ++ world_of s /\ Forall passive new.
Proof.
  intros Hd Hs. destruct op; cbn [pgood_run].
  - unfold pgood_change_detected, exec, call, modify. unfold mbind, M_bind, mret, M_ret. cbn [io rec_hal].
    destruct (negb _); cbn [chips set_world world_of].
    + eexists _, (set_pgood_rise_triggered true d), [_; _]. split; [done|]. cbn [chips set_world world_of].
      rewrite list_lookup_alter_eq, Hd. split_and!; [done..|]. unfold passive.
      repeat (apply Forall_cons_2; [auto|]). by apply Forall_nil.
    + eexists _, (set_pgood_fall_triggered true d), [_; _]. split; [done|]. cbn [chips set_world world_of].
      rewrite list_lookup_alter_eq, Hd. split_and!; [done..|]. unfold passive.
      repeat (apply Forall_cons_2; [auto|]). by apply Forall_nil.
  - exists s, d, []. split; [|by split_and!].
    unfold handle_pgood_event, chip. unfold mbind, M_bind. rewrite Hd. cbn [default from_option id].
    rewrite Hs. cbn [negb]. rewrite !andb_false_r. unfold nothing, mret, M_ret. rewrite Hd. cbn [default from_option id].
    by rewrite Hs, andb_false_r.
Qed.

Lemma severe_runs ops s d :
  chips s !! 0%nat = Some d -> pgood_severe_fault d = true ->
  exists s' new, pgood_runs ops s = Some (tt, s') /\ world_of s' = new ++ world_of s /\ Forall passive new.
Proof.
  revert s d. induction ops as [|op ops IH]; intros t d1 Hd1 Hs1; [by exists t, []|].
  destruct (severe_step op t d1 Hd1 Hs1) as (t1 & d2 & new & E & Hd2 & Hs2 & Hw & HF).
  destruct (IH t1 d2 Hd2 Hs2) as (t2 & new2 & E2 & Hw2 & HF2).
  exists t2, (new2 ++ new). cbn [pgood_runs]. unfold mbind, M_bind. rewrite E.
  split_and!; [done|by rewrite Hw2, Hw, app_assoc|by apply Forall_app].
Qed.

(** Severe power faults latch.  When power good falls a second time less than
    a second after the last fall (and that one not at time zero), handling it
    lights the fault LED, holds the ASIC in reset and marks the fault severe, and
    from then on no sequence of power-good interrupts and handler calls makes the
    DMC touch the chip again: no reset sequence, no release of the reset line. *)
Theorem pgood_severe_latches s d now ops :
  chips s !! 0%nat = Some d -> pgood_fall_triggered d = true -> pgood_severe_fault d = false ->
  answer (world_of s) UptimeMs = now -> pgood_last_trip_ms d <> 0 -> now - pgood_last_trip_ms d < 1000 ->
  exists s1 d1, pgood_event s = Some (tt, s1) /\ chips s1 !! 0%nat = Some d1 /\
    pgood_severe_fault d1 = true /\ pgood_last_trip_ms d1 = now /\
    world_of s1 = GpioSet (AsicReset 0) 1 :: GpioSet FaultLed 1 :: UptimeMs :: world_of s /\
    exists s2 new, pgood_runs ops s1 = Some (tt, s2) /\ world_of s2 = new ++ world_of s1 /\ Forall passive new.
Proof.
  intros Hd Hf Hs Ht Hlast Hwin.
  eexists _, _. split; [|split; [|split; [|split; [|split] ] ] ].
  - unfold handle_pgood_event, chip, call, exec, modify, bh_chip_assert_asic_reset.
    unfold mbind, M_bind, exec, mret, M_ret. rewrite Hd. cbn [default from_option id]. rewrite Hf, Hs.
    cbn [negb andb io rec_hal]. unfold mbind, M_bind, call. cbn [io rec_hal world_of set_world chips].
    rewrite Hd, Ht. cbn [default from_option id].
    destruct (Z.eqb_spec (pgood_last_trip_ms d) 0); [done|].
    destruct (Z.ltb_spec (now - pgood_last_trip_ms d) 1000); [|lia].
    cbn [negb andb chips set_world world_of perst_start_time recover_ratelimit max_power].
    rewrite !list_lookup_alter_eq, Hd. cbn [default from_option id fmap option_fmap option_map].
    cbn [pgood_severe_fault set_pgood_fall_triggered set_pgood_last_trip_ms set_pgood_severe_fault negb].
    rewrite andb_false_r. reflexivity.
  - cbn [chips]. rewrite !list_lookup_alter_eq, Hd. reflexivity.
  - done.
  - done.
  - done.
  - eapply severe_runs; [cbn [chips]; rewrite !list_lookup_alter_eq, Hd; reflexivity|done].
Qed.
End recording.

(** ** The memory repair's deadline *)

Section mem_repair.
Context {W : Type} `{DmcHal W}.
(** The cycle counter: reading it takes time, and nothing turns it back. *)
Variable clk : W -> Z.
Hypothesis cycles_read : forall w, exists w', io Cycles64 w = (clk w', w') /\ clk w < clk w'.
Hypothesis io_clk : forall c w, clk w <= clk (io c w).2.
Hypothesis io_value_clk : forall c w, clk w <= clk (io_value c w).2.

Lemma call_clk c s : exists r s', call c s = Some (r, s') /\ clk (world_of s) <= clk (world_of s').
Proof.
  unfold call. pose proof (io_clk c (world_of s)) as Hc. destruct (io c (world_of s)) as [r w].
  by exists r, (set_world w s).
Qed.

Lemma call_value_clk c s : exists r s', call_value c s = Some (r, s') /\ clk (world_of s) <= clk (world_of s').
Proof.
  unfold call_value. pose proof (io_value_clk c (world_of s)) as Hc. destruct (io_value c (world_of s)) as [r w].
  by exists r, (set_world w s).
Qed.

Lemma call_cycles s :
  exists s', call Cycles64 s = Some (clk (world_of s'), s') /\ clk (world_of s) < clk (world_of s').
Proof.
  unfold call. destruct (cycles_read (world_of s)) as (w' & E & Hlt). rewrite E. by exists (set_world w' s).
Qed.

Lemma mem_repair_poll_ends fuel c deadline s :
  (0 < fuel)%nat -> deadline - clk (world_of s) <= Z.of_nat fuel ->
  exists r s', mem_repair_poll fuel c deadline s = Some (r, s') /\
    (r = 0 \/ r = - ETIMEDOUT /\ deadline <= clk (world_of s')).
Proof.
  revert s. induction fuel as [|fuel IH]; intros s Hpos Hf; [lia|].
  cbn [mem_repair_poll]. unfold mbind, M_bind.
  destruct (call_value_clk (JtagAxiRead c RESET_UNIT_MEM_REPAIR_STATUS_REG_ADDR) s) as ([x status] & s1 & E1 & Hc1).
  rewrite E1. destruct (call_cycles s1) as (s2 & E2 & Hc2). rewrite E2.
  destruct (Z.leb_spec 0 (clk (world_of s2) - deadline)).
  - eexists _, _. split; [done|]. right. split; [done|lia].
  - destruct (status =? 0); [|exists 0, s2; split; [reflexivity|by left] ].
    apply IH; lia.
Qed.

(** Memory repair cannot hang the boot.  When the cycle counter advances at
    every reading, the wait for the repair ends: with success, or with
    [-ETIMEDOUT], the latter not before [us_to_cyc] cycles (20 ms) have passed. *)
Theorem mem_repair_bounded fuel us_to_cyc c s :
  0 <= us_to_cyc <= Z.of_nat fuel -> (0 < fuel)%nat ->
  exists r s', jtag_trigger_mem_repair fuel us_to_cyc c s = Some (r, s') /\
    (r = 0 \/ r = - ETIMEDOUT /\ clk (world_of s) + us_to_cyc < clk (world_of s')).
Proof.
  intros Hus Hf. unfold jtag_trigger_mem_repair, exec, mbind, M_bind.
  destruct (call_cycles s) as (s1 & E1 & Hc1). rewrite E1.
  destruct (call_clk (JtagAxiWrite c RESET_UNIT_MEM_REPAIR_CNTL_REG_ADDR 1) s1) as (r2 & s2 & E2 & Hc2).
  rewrite E2. cbn [mret M_ret].
  destruct (mem_repair_poll_ends fuel c (clk (world_of s1) + us_to_cyc) s2) as (r & s3 & E3 & Hr); [done|lia|].
  exists r, s3. split; [done|]. destruct Hr as [|[? ?] ]; [by left|right; split; [done|lia] ].
Qed.
End mem_repair.

(** A world that is just its cycle counter; the status never becomes nonzero. *)
Definition clock_hal : DmcHal Z := {|
  io c w := match c with Cycles64 => (w + 1, w + 1) | _ => (0, w) end;
  io_value _ w := ((0, 0), w);
  io_block _ _ w := ((0, []), w)
|}.

Lemma mem_repair_bounded_witness :
  exists s', @jtag_trigger_mem_repair Z clock_hal 10 5 0 (MkDmc [] 0 0 0 100) = Some (- ETIMEDOUT, s').
Proof.
  destruct (@mem_repair_bounded Z clock_hal (fun w => w)) with (fuel := 10%nat) (us_to_cyc := 5) (c := 0%nat)
    (s := MkDmc [] 0 0 0 100) as (r & s' & E & Hr).
  - intros w. exists (w + 1). split; [done|lia].
  - intros c w. destruct c; cbn; lia.
  - intros c w. cbn. lia.
  - lia.
  - lia.
  - exists s'. vm_compute in E. injection E as <- <-. done.
Defined.

(** ** Witnesses for the fan and for power good *)

Definition two_chips : list bh_chip_data :=
  [set_fan_speed 80 chip0; set_fan_speed_forced true (set_fan_speed 30 chip0)].

Lemma update_fan_speed_ok_witness :
  exists s', @update_fan_speed _ (rec_hal (fun _ _ => 0) (fun _ => [])) kc0 true (MkDmc two_chips 0 0 0 []) = Some (tt, s') /\
    world_of s' = [SmbusWordWrite 1 CMFW_SMBUS_FAN_SPEED 30; SmbusWordWrite 0 CMFW_SMBUS_FAN_SPEED 30;
                   PwmSetCycles 255 77].
Proof.
  destruct (update_fan_speed_ok (fun _ _ => 0) (fun _ => []) kc0 (MkDmc two_chips 0 0 0 [])) as (speed & E & _).
  - done.
  - repeat (apply Forall_cons_2; [by vm_compute|]). by apply Forall_nil.
  - eexists. split; [exact E|]. vm_compute in E. injection E as <-. done.
Defined.

Lemma pgood_severe_latches_witness :
  let d := set_pgood_last_trip_ms 500 (set_pgood_fall_triggered true chip0) in
  exists s1, @handle_pgood_event _ (rec_hal (fun _ c => match c with UptimeMs => 900 | _ => 0 end) (fun _ => []))
      kc0 cfg0 [] 5 0 0 (MkDmc [d] 0 0 0 []) = Some (tt, s1) /\
    exists s2 new, @pgood_runs (fun _ c => match c with UptimeMs => 900 | _ => 0 end) (fun _ => []) kc0 cfg0 [] 5 0
      [PgoodIrq; PgoodHandle] s1 = Some (tt, s2) /\ Forall passive new.
Proof.
  intros d.
  destruct (pgood_severe_latches (fun _ c => match c with UptimeMs => 900 | _ => 0 end) (fun _ => []) kc0 cfg0 [] 5 0
    (MkDmc [d] 0 0 0 []) d 900 [PgoodIrq; PgoodHandle]) as (s1 & d1 & E & _ & _ & _ & _ & s2 & new & E2 & _ & HF);
    [done|done|done|done|done|done|].
  exists s1. split; [exact E|]. by exists s2, new.
Defined.
