(* ===== verification/BootFs.v ===== *)
(** * The boot file system ([lib/tenstorrent/boot_fs/tt_boot_fs.c])

    A table of 32-byte file descriptors at the start of the SPI flash, each with a
    checksum of its own and one of its file's data.  The flash is reached through
    the HAL functions given at mount time, here the class [Flash], or through
    Zephyr's flash device, here a function that may fail. *)

From S2P Require Import Prelude.

(** ** File descriptors ([include/tenstorrent/tt_boot_fs.h]) *)

Definition TT_BOOT_FS_FD_HEAD_ADDR : Z := 0x0.
Definition TT_BOOT_FS_SECURITY_BINARY_FD_ADDR : Z := 0x3FE0.
Definition TT_BOOT_FS_FAILOVER_HEAD_ADDR : Z := 0x4000.
Definition TT_BOOT_FS_IMAGE_TAG_SIZE : nat := 8.
Definition TT_BOOT_FS_OK : Z := 0.
Definition TT_BOOT_FS_ERR : Z := -1.
Definition EIO : Z := 5.
Definition ENXIO : Z := 6.
Definition EINVAL : Z := 22.
Definition ENOENT : Z := 2.

Record tt_boot_fs_fd := MkFd {
  spi_addr : Z;
  copy_dest : Z;
  flags : Z;
  data_crc : Z;
  security_flags : Z;
  image_tag : list Z;
  fd_crc : Z
}.

Definition image_size (fd : tt_boot_fs_fd) : Z := bits_get 0 24 (flags fd).
Definition invalid (fd : tt_boot_fs_fd) : bool := Z.testbit (flags fd) 24.
Definition signature_size (fd : tt_boot_fs_fd) : Z := bits_get 0 12 (security_flags fd).

Definition sizeof_fd : Z := 32.

(** The structure in memory: everything but [fd_crc], and all of it. *)
Definition fd_body (fd : tt_boot_fs_fd) : list Z :=
  bytes_of_le 4 (spi_addr fd) ++ bytes_of_le 4 (copy_dest fd) ++ bytes_of_le 4 (flags fd) ++
  bytes_of_le 4 (data_crc fd) ++ bytes_of_le 4 (security_flags fd) ++ image_tag fd.
Definition fd_bytes (fd : tt_boot_fs_fd) : list Z := fd_body fd ++ bytes_of_le 4 (fd_crc fd).

Definition word (off : nat) (bytes : list Z) : Z := le_of_bytes (take 4 (drop off bytes)).
Definition fd_of_bytes (b : list Z) : tt_boot_fs_fd :=
  MkFd (word 0 b) (word 4 b) (word 8 b) (word 12 b) (word 16 b) (take 8 (drop 20 b)) (word 28 b).

Definition fd_wf (fd : tt_boot_fs_fd) : Prop :=
  is_u32 (spi_addr fd) /\ is_u32 (copy_dest fd) /\ is_u32 (flags fd) /\ is_u32 (data_crc fd) /\
  is_u32 (security_flags fd) /\ length (image_tag fd) = 8%nat /\ Forall is_u8 (image_tag fd) /\
  is_u32 (fd_crc fd).

(** ** The HAL *)

(** Reading and writing bytes of the flash. *)
Class Flash (F : Type) := {
  spi_read : F -> Z -> Z -> list Z;
  spi_write : F -> Z -> list Z -> F
}.

(** What the file system relies on: reads have the size asked for, a read of a
    range sees the last write of it, and writes elsewhere do not matter. *)
Class FlashLaws (F : Type) `{Flash F} : Prop := {
  spi_read_length f a n : 0 <= n -> len (spi_read f a n) = n;
  spi_read_bytes f a n : Forall is_u8 (spi_read f a n);
  spi_read_write f a l : Forall is_u8 l -> spi_read (spi_write f a l) a (len l) = l;
  spi_read_other f a l a' n : a + len l <= a' \/ a' + n <= a -> spi_read (spi_write f a l) a' n = spi_read f a' n;
  spi_read_app f a n m : 0 <= n -> 0 <= m -> spi_read f a (n + m) = spi_read f a n ++ spi_read f (a + n) m
}.

(** ** Checksum *)

(** [n] little-endian words from the start of [data], added to [cksum] in 32 bits;
    a word outside the buffer is a fault. *)
Fixpoint add_dwords (n : Z) (cksum : Z) (data : list Z) : option (Z * list Z) :=
  if n <=? 0 then Some (cksum, data) else
  match data with
  | a :: b :: c :: d :: rest => add_dwords (n - 1) (u32 (cksum + le_of_bytes [a; b; c; d])) rest
  | _ => None
  end.

(** [asserts]: whether Zephyr's [__ASSERT] stops the program. *)
Definition tt_boot_fs_cksum (asserts : bool) (cksum : Z) (data : list Z) (num_bytes : Z) : option Z :=
  if num_bytes =? 0 then Some 0 else
  let num_dwords := u32 (num_bytes / 4 - 1) in
  '(cksum, rest) ← add_dwords num_dwords cksum data;
  if num_bytes mod 4 =? 0 then
    '(cksum, _) ← add_dwords 1 cksum rest; Some cksum
  else if asserts then None else Some cksum.

Inductive tt_checksum_res_t := TT_BOOT_FS_CHK_OK | TT_BOOT_FS_CHK_FAIL.

Definition calculate_and_compare_checksum (asserts : bool) (data : list Z) (num_bytes expected : Z)
    (skip_checksum : bool) : option tt_checksum_res_t :=
  if negb skip_checksum then
    c ← tt_boot_fs_cksum asserts 0 data num_bytes;
    Some (if negb (c =? expected) then TT_BOOT_FS_CHK_FAIL else TT_BOOT_FS_CHK_OK)
  else Some TT_BOOT_FS_CHK_OK.

(** ** Mounted file system: the cached table *)

Section boot_fs.
Context {F : Type} `{Flash F}.
Variable asserts : bool.
Variable CONFIG_TT_BOOT_FS_IMAGE_COUNT_MAX : nat.

Definition tt_boot_fs_next (last_fd_addr : Z) : Z := u32 (last_fd_addr + sizeof_fd).

(** The bytes of the table, cut into descriptors. *)
Fixpoint split_fds (n : nat) (bytes : list Z) : list tt_boot_fs_fd :=
  match n with
  | O => []
  | S n => fd_of_bytes (take 32 bytes) :: split_fds n (drop 32 bytes)
  end.

Definition tt_boot_fs_load_cache (f : F) : list tt_boot_fs_fd :=
  split_fds CONFIG_TT_BOOT_FS_IMAGE_COUNT_MAX
    (spi_read f TT_BOOT_FS_FD_HEAD_ADDR (sizeof_fd * Z.of_nat CONFIG_TT_BOOT_FS_IMAGE_COUNT_MAX)).

(** The callbacks are the class's; the result is the status and the cache. *)
Definition tt_boot_fs_mount (f : F) : Z * list tt_boot_fs_fd := (TT_BOOT_FS_OK, tt_boot_fs_load_cache f).

(** [while (head.flags.f.invalid == 0)]: the address of the first invalid descriptor
    from [addr] on; [None] when none is met within [fuel] slots. *)
Fixpoint find_slot (fuel : nat) (f : F) (addr : Z) : option Z :=
  match fuel with
  | O => None
  | S fuel =>
      if invalid (fd_of_bytes (spi_read f addr sizeof_fd)) then Some addr
      else find_slot fuel f (tt_boot_fs_next addr)
  end.

Definition tt_boot_fs_add_file (fuel : nat) (f : F) (fd : tt_boot_fs_fd) (image_data_src : list Z)
    (isFailoverEntry isSecurityBinaryEntry : bool) : option (Z * F) :=
  addr ← (if isFailoverEntry then Some TT_BOOT_FS_FAILOVER_HEAD_ADDR
          else if isSecurityBinaryEntry then Some TT_BOOT_FS_SECURITY_BINARY_FD_ADDR
          else find_slot fuel f TT_BOOT_FS_FD_HEAD_ADDR);
  let f := spi_write f addr (fd_bytes fd) in
  let total_image_size := image_size fd + signature_size fd in
  if len image_data_src <? total_image_size then None else
  Some (TT_BOOT_FS_OK, spi_write f (spi_addr fd) (take (Z.to_nat total_image_size) image_data_src)).

(** The cached descriptors are checked as their 28 bytes in memory. *)
Fixpoint find_fd_by_tag (cache : list tt_boot_fs_fd) (tag : list Z) : option (option tt_boot_fs_fd) :=
  match cache with
  | [] => Some None
  | fd :: cache =>
      if invalid fd then find_fd_by_tag cache tag else
      if negb (bool_decide (image_tag fd = take TT_BOOT_FS_IMAGE_TAG_SIZE tag)) then find_fd_by_tag cache tag else
      chk ← calculate_and_compare_checksum asserts (fd_body fd) (sizeof_fd - 4) (fd_crc fd) false;
      match chk with
      | TT_BOOT_FS_CHK_FAIL => find_fd_by_tag cache tag
      | TT_BOOT_FS_CHK_OK => Some (Some fd)
      end
  end.

(** Returns the status and, when the descriptor fits, the size and the bytes read. *)
Definition tt_boot_fs_get_file (f : F) (cache : list tt_boot_fs_fd) (tag : list Z) (buf_size : Z)
    : option (Z * option (Z * list Z)) :=
  r ← find_fd_by_tag cache tag;
  match r with
  | None => Some (TT_BOOT_FS_ERR, None)
  | Some fd_data =>
      if buf_size <? image_size fd_data then Some (TT_BOOT_FS_ERR, None) else
      let file_size := image_size fd_data in
      let buf := spi_read f (spi_addr fd_data) file_size in
      chk ← calculate_and_compare_checksum asserts buf file_size (data_crc fd_data) false;
      match chk with
      | TT_BOOT_FS_CHK_OK => Some (TT_BOOT_FS_OK, Some (file_size, buf))
      | TT_BOOT_FS_CHK_FAIL => Some (TT_BOOT_FS_ERR, Some (file_size, buf))
      end
  end.
End boot_fs.

(** ** Access through a flash device *)

Section flash_device.
Variable asserts : bool.
Variable CONFIG_TT_BOOT_FS_IMAGE_COUNT_MAX : nat.
(** [flash_read]: [None] is a negative status. *)
Variable flash_read : Z -> Z -> option (list Z).

Inductive fd_result := FdOk (fd : tt_boot_fs_fd) | FdEnd | FdError (e : Z).

Definition read_and_validate_fd (index : Z) : option fd_result :=
  match flash_read (TT_BOOT_FS_FD_HEAD_ADDR + index * sizeof_fd) sizeof_fd with
  | None => Some (FdError (- EIO))
  | Some bytes =>
      let fd := fd_of_bytes bytes in
      if invalid fd then Some FdEnd else
      chk ← calculate_and_compare_checksum asserts bytes (sizeof_fd - 4) (fd_crc fd) false;
      match chk with
      | TT_BOOT_FS_CHK_OK => Some (FdOk fd)
      | TT_BOOT_FS_CHK_FAIL => Some (FdError (- ENXIO))
      end
  end.

(** The loop of [tt_boot_fs_ls]: returns the result and the descriptors stored;
    [keep] says whether the caller gave an array. *)
Fixpoint ls_loop (fuel : nat) (keep : bool) (nfds offset i found : Z) (acc : list tt_boot_fs_fd)
    : option (Z * list tt_boot_fs_fd) :=
  match fuel with
  | O => None
  | S fuel =>
      r ← read_and_validate_fd i;
      match r with
      | FdError e => Some (e, acc)
      | FdEnd => Some (found, acc)
      | FdOk fd =>
          if offset <=? i then
            let acc := if keep && (found <? nfds) then acc ++ [fd] else acc in
            if found + 1 =? nfds then Some (found + 1, acc)
            else ls_loop fuel keep nfds offset (i + 1) (found + 1) acc
          else ls_loop fuel keep nfds offset (i + 1) found acc
      end
  end.

Definition tt_boot_fs_ls (ready : bool) (keep : bool) (nfds offset : Z) : option (Z * list tt_boot_fs_fd) :=
  if negb ready then Some (- ENXIO, []) else
  if nfds =? 0 then Some (0, []) else
  ls_loop (Z.to_nat (nfds + offset)) keep nfds offset 0 0 [].

(** [strncmp(tag, image_tag, 8) == 0]: equal up to the first NUL of [tag]. *)
Fixpoint strncmp_eq (n : nat) (a b : list Z) : bool :=
  match n, a, b with
  | S n, x :: a, y :: b => if x =? y then if x =? 0 then true else strncmp_eq n a b else false
  | _, _, _ => true
  end.

Fixpoint find_loop (n : nat) (i : Z) (tag : list Z) : option (Z * option tt_boot_fs_fd) :=
  match n with
  | O => Some (- ENOENT, None)
  | S n =>
      r ← read_and_validate_fd i;
      match r with
      | FdError e => Some (e, None)
      | FdEnd => Some (- ENOENT, None)
      | FdOk cur =>
          if strncmp_eq TT_BOOT_FS_IMAGE_TAG_SIZE tag (image_tag cur) then Some (0, Some cur)
          else find_loop n (i + 1) tag
      end
  end.

(** A NULL tag is [None]. *)
Definition tt_boot_fs_find_fd_by_tag (ready : bool) (tag : option (list Z)) : option (Z * option tt_boot_fs_fd) :=
  match tag with
  | None => Some (- EINVAL, None)
  | Some tag =>
      if negb ready then Some (- ENXIO, None) else find_loop CONFIG_TT_BOOT_FS_IMAGE_COUNT_MAX 0 tag
  end.
End flash_device.

(** ** Checksum lemmas *)

(** The reference: the sum of a buffer's little-endian words. *)
Fixpoint dword_sum (data : list Z) : Z :=
  match data with
  | a :: b :: c :: d :: rest => le_of_bytes [a; b; c; d] + dword_sum rest
  | _ => 0
  end.

Lemma dword_sum_app l1 l2 : len l1 mod 4 = 0 -> dword_sum (l1 ++ l2) = dword_sum l1 + dword_sum l2.
Proof.
  remember (length l1) as n eqn:En. revert l1 En.
  induction (lt_wf n) as [n _ IH]; intros l1 -> Hmod.
  destruct l1 as [|a [|b [|c [|d l1] ] ] ]; try (cbn in Hmod; discriminate Hmod); [done|].
  cbn [app dword_sum]. rewrite (IH (length l1)); [lia|cbn; lia|done|]. cbn [length] in Hmod. word_lia.
Qed.

Lemma add_dwords_app n c l1 l2 :
  0 <= n -> len l1 = 4 * n -> add_dwords n (u32 c) (l1 ++ l2) = Some (u32 (c + dword_sum l1), l2).
Proof.
  intros Hn. revert c l1. pattern n. apply natlike_ind; [| |done]; clear n Hn.
  - intros c l1 Hl. destruct l1; [|cbn in Hl; lia]. cbn [app dword_sum].
    replace (c + 0) with c by lia. by destruct l2.
  - intros n Hn IH c l1 Hl. destruct l1 as [|a [|b [|c' [|d l1] ] ] ]; cbn [length] in Hl; try lia.
    cbn [app add_dwords dword_sum]. destruct (Z.leb_spec (Z.succ n) 0); [lia|].
    assert (forall v, u32 (u32 c + v) = u32 (c + v)) as ->
      by (intros v; unfold wrap; apply Z.add_mod_idemp_l; lia).
    replace (Z.succ n - 1) with n by lia. rewrite IH by lia. by rewrite Z.add_assoc.
Qed.

Lemma add_dwords_short n c l : len l < 4 * n -> add_dwords n c l = None.
Proof.
  remember (length l) as k eqn:Ek. revert n c l Ek.
  induction (lt_wf k) as [k _ IH]; intros n c l -> Hlt.
  destruct l as [|a [|b [|d [|e l] ] ] ]; cbn [add_dwords]; destruct (Z.leb_spec n 0); try (cbn [length] in Hlt; lia); try done; [].
  eapply (IH (length l)); [cbn [length]; lia|done|]. cbn [length] in Hlt. lia.
Qed.

(** On whole words the checksum is the reference sum, in 32 bits. *)
Lemma cksum_words asserts c data :
  data <> [] -> len data mod 4 = 0 -> len data < 2 ^ 32 ->
  tt_boot_fs_cksum asserts (u32 c) data (len data) = Some (u32 (c + dword_sum data)).
Proof.
  intros Hne Hmod Hlt. unfold tt_boot_fs_cksum.
  assert (Hlen : 0 < len data) by (destruct data; [done|cbn [length]; lia]).
  destruct (Z.eqb_spec (len data) 0) as [|_]; [lia|].
  assert (Hdw : 0 <= len data / 4 - 1) by word_lia.
  rewrite (wrap_small 32) by word_lia. rewrite Hmod. cbn [Z.eqb].
  set (n := len data / 4 - 1) in *.
  rewrite <- (take_drop (Z.to_nat (4 * n)) data) at 1.
  rewrite add_dwords_app by (try lia; rewrite length_take; subst n; word_lia). cbn [mbind option_bind].
  rewrite <- (app_nil_r (drop _ data)).
  rewrite add_dwords_app by (try lia; rewrite length_drop; subst n; word_lia). cbn [mbind option_bind].
  f_equal. rewrite <- Z.add_assoc, <- dword_sum_app by (rewrite length_take; subst n; word_lia).
  by rewrite take_drop.
Qed.

Lemma compare_ok asserts data crc :
  data <> [] -> len data mod 4 = 0 -> len data < 2 ^ 32 ->
  calculate_and_compare_checksum asserts data (len data) crc false =
    Some (if u32 (dword_sum data) =? crc then TT_BOOT_FS_CHK_OK else TT_BOOT_FS_CHK_FAIL).
Proof.
  intros Hne Hmod Hlt. unfold calculate_and_compare_checksum. cbn [negb].
  pose proof (cksum_words asserts 0 data Hne Hmod Hlt) as E. change (u32 0) with 0 in E.
  rewrite E. cbn [mbind option_bind]. by destruct (_ =? crc).
Qed.

(** ** Descriptor encoding *)

Lemma word_bytes off pre v rest :
  is_u32 v -> off = length pre -> word off (pre ++ bytes_of_le 4 v ++ rest) = v.
Proof.
  intros Hv ->. unfold word. rewrite drop_app_length, take_app_length'; [|by rewrite bytes_of_le_length].
  rewrite le_of_bytes_of_le. by apply Z.mod_small.
Qed.

Lemma fd_body_length fd : length (image_tag fd) = 8%nat -> length (fd_body fd) = 28%nat.
Proof. intros Ht. unfold fd_body. by rewrite !length_app, !bytes_of_le_length, Ht. Qed.

Lemma fd_bytes_length fd : length (image_tag fd) = 8%nat -> len (fd_bytes fd) = sizeof_fd.
Proof. intros Ht. unfold fd_bytes. by rewrite length_app, fd_body_length, bytes_of_le_length. Qed.

Lemma fd_bytes_u8 fd : Forall is_u8 (image_tag fd) -> Forall is_u8 (fd_bytes fd).
Proof. intros Ht. unfold fd_bytes, fd_body. rewrite !Forall_app. auto 10 using bytes_of_le_bytes. Qed.

Lemma fd_round_trip fd : fd_wf fd -> fd_of_bytes (fd_bytes fd) = fd.
Proof.
  intros (H1 & H2 & H3 & H4 & H5 & Ht & _ & H7). destruct fd as [a c f d s t k].
  unfold fd_of_bytes, fd_bytes, fd_body.
  cbn [spi_addr copy_dest flags data_crc security_flags image_tag fd_crc] in *.
  rewrite <- !app_assoc. f_equal.
  - by apply (word_bytes 0 []).
  - by apply (word_bytes 4 (bytes_of_le 4 a)).
  - by apply (word_bytes 8 (bytes_of_le 4 a ++ bytes_of_le 4 c)).
  - by apply (word_bytes 12 (bytes_of_le 4 a ++ bytes_of_le 4 c ++ bytes_of_le 4 f)).
  - by apply (word_bytes 16 (bytes_of_le 4 a ++ bytes_of_le 4 c ++ bytes_of_le 4 f ++ bytes_of_le 4 d)).
  - change 20%nat with (length (bytes_of_le 4 a ++ bytes_of_le 4 c ++ bytes_of_le 4 f ++ bytes_of_le 4 d ++ bytes_of_le 4 s)).
    rewrite !app_assoc, <- (app_assoc _ t), drop_app_length.
    by apply take_app_length'.
  - replace (bytes_of_le 4 k) with (bytes_of_le 4 k ++ []) by apply app_nil_r.
    rewrite !app_assoc, <- (app_assoc _ (bytes_of_le 4 k)). apply word_bytes; [done|].
    rewrite !length_app, !bytes_of_le_length, Ht. done.
Qed.

(** ** The table on the flash *)

Section table.
Context {F : Type} `{FlashLaws F}.
Variable asserts : bool.
Variable MAX : nat.
Hypothesis MAX_fits : 0 < sizeof_fd * Z.of_nat MAX < 2 ^ 32.

(** Slot [j] of the table. *)
Definition slot (f : F) (j : nat) : tt_boot_fs_fd :=
  fd_of_bytes (spi_read f (sizeof_fd * Z.of_nat j) sizeof_fd).

Lemma split_fds_read n f a j :
  (j < n)%nat ->
  split_fds n (spi_read f a (sizeof_fd * Z.of_nat n)) !! j =
    Some (fd_of_bytes (spi_read f (a + sizeof_fd * Z.of_nat j) sizeof_fd)).
Proof.
  revert a j. induction n as [|n IH]; intros a j Hj; [lia|].
  replace (sizeof_fd * Z.of_nat (S n)) with (sizeof_fd + sizeof_fd * Z.of_nat n) by lia.
  rewrite spi_read_app by (unfold sizeof_fd; lia).
  pose proof (spi_read_length f a sizeof_fd ltac:(done)) as Hlen. unfold sizeof_fd at 2 in Hlen.
  cbn [split_fds]. rewrite take_app_length', drop_app_length' by lia.
  destruct j as [|j]; cbn [lookup list_lookup].
  - by rewrite Z.mul_0_r, Z.add_0_r.
  - change (split_fds n (spi_read f (a + sizeof_fd) (sizeof_fd * Z.of_nat n)) !! j = 
      Some (fd_of_bytes (spi_read f (a + sizeof_fd * Z.of_nat (S j)) sizeof_fd))).
    rewrite IH by lia. do 3 f_equal. lia.
Qed.

Lemma split_fds_length n l : length (split_fds n l) = n.
Proof. revert l. induction n; intros l; cbn; auto. Qed.

Lemma cache_lookup f j : (j < MAX)%nat -> tt_boot_fs_load_cache MAX f !! j = Some (slot f j).
Proof. intros Hj. unfold tt_boot_fs_load_cache, TT_BOOT_FS_FD_HEAD_ADDR. by rewrite split_fds_read. Qed.

(** Looking for the first free slot. *)
Lemma find_slot_first f k fuel i :
  (k < MAX)%nat -> (i <= k < i + fuel)%nat ->
  (forall j, (i <= j < k)%nat -> invalid (slot f j) = false) -> invalid (slot f k) = true ->
  find_slot fuel f (sizeof_fd * Z.of_nat i) = Some (sizeof_fd * Z.of_nat k).
Proof.
  intros HkM. revert i. induction fuel as [|fuel IH]; intros i Hk Hval Hinv; [lia|].
  cbn [find_slot]. fold (slot f i). destruct (decide (i = k)) as [->|]; [by rewrite Hinv|].
  rewrite (Hval i) by lia. unfold tt_boot_fs_next. rewrite wrap_small by (unfold sizeof_fd in *; unwrap; lia).
  replace (sizeof_fd * Z.of_nat i + sizeof_fd) with (sizeof_fd * Z.of_nat (S i)) by lia.
  apply IH; [lia| |done]. intros. apply Hval. lia.
Qed.

(** The cache search passes over slots of other tags. *)
Lemma find_fd_skip cache tag k fd :
  cache !! k = Some fd -> length (image_tag fd) = 8%nat ->
  (forall j g, (j < k)%nat -> cache !! j = Some g -> image_tag g <> tag) ->
  invalid fd = false -> image_tag fd = tag -> fd_crc fd = u32 (dword_sum (fd_body fd)) ->
  find_fd_by_tag asserts cache tag = Some (Some fd).
Proof.
  intros Hk Hlen Hother Hinv Htag Hcrc.
  assert (Htake : take TT_BOOT_FS_IMAGE_TAG_SIZE tag = tag)
    by (apply take_ge; unfold TT_BOOT_FS_IMAGE_TAG_SIZE; rewrite <- Htag; lia).
  revert k Hk Hother. induction cache as [|g cache IH]; intros k Hk Hother; [done|].
  cbn [find_fd_by_tag]. rewrite Htake. destruct k as [|k].
  - injection Hk as ->. rewrite Hinv, Htag, bool_decide_true by done. cbn [negb].
    pose proof (compare_ok asserts (fd_body fd) (fd_crc fd)) as Hc.
    rewrite fd_body_length in Hc by done. change (Z.of_nat 28) with (sizeof_fd - 4) in Hc.
    rewrite Hc, Hcrc, Z.eqb_refl; [done| |done|unwrap; done].
    intros E. pose proof (fd_body_length fd Hlen) as El. by rewrite E in El.
  - rewrite (bool_decide_false (image_tag g = tag)) by (apply (Hother 0%nat); [lia|done]). cbn [negb].
    destruct (invalid g); (apply (IH k); [done|]; intros j g' Hj Hg; apply (Hother (S j)); [lia|done]).
Qed.

(** C19: A file added is a file found.  On a flash whose table has slots [0..k-1] in
    use, none with the new tag, and slot [k] free, [tt_boot_fs_add_file] with a
    well-formed descriptor, whose checksums are right and whose data lies beyond
    the table, succeeds, leaves every other slot as it was, and after mounting
    again [tt_boot_fs_get_file] of that tag into a large enough buffer returns
    exactly the image. *)
Theorem boot_fs_add_get f k fd data tag fuel buf_size :
  (k < MAX)%nat -> (k < fuel)%nat ->
  (forall j, (j < k)%nat -> invalid (slot f j) = false /\ image_tag (slot f j) <> tag) ->
  invalid (slot f k) = true ->
  fd_wf fd -> invalid fd = false -> image_tag fd = tag ->
  fd_crc fd = u32 (dword_sum (fd_body fd)) ->
  len data = image_size fd + signature_size fd -> Forall is_u8 data ->
  0 < image_size fd -> image_size fd mod 4 = 0 -> image_size fd <= buf_size ->
  data_crc fd = u32 (dword_sum (take (Z.to_nat (image_size fd)) data)) ->
  sizeof_fd * Z.of_nat MAX <= spi_addr fd ->
  exists f', tt_boot_fs_add_file fuel f fd data false false = Some (TT_BOOT_FS_OK, f') /\
    (forall j, (j < MAX)%nat -> slot f' j = if decide (j = k) then fd else slot f j) /\
    tt_boot_fs_get_file asserts f' (tt_boot_fs_mount MAX f').2 tag buf_size =
      Some (TT_BOOT_FS_OK, Some (image_size fd, take (Z.to_nat (image_size fd)) data)).
Proof.
  intros HkM Hfuel Hbelow Hfree Hwf Hinv Htag Hcrc Hlen Hu8 Hpos Hmod Hbuf Hdata Haddr.
  pose proof Hwf as (_ & _ & _ & _ & _ & Htl & Htb & _).
  assert (Hsig : 0 <= signature_size fd) by (by apply (bits_get_range 0 12)).
  set (f1 := spi_write f (sizeof_fd * Z.of_nat k) (fd_bytes fd)).
  set (f2 := spi_write f1 (spi_addr fd) data).
  assert (Hslot : forall j, (j < MAX)%nat -> slot f2 j = if decide (j = k) then fd else slot f j).
  { intros j Hj. unfold slot, f2. rewrite spi_read_other by (right; unfold sizeof_fd in *; nia).
    unfold f1. destruct (decide (j = k)) as [->|Hne].
    - rewrite <- (fd_bytes_length fd) at 3 by done. rewrite spi_read_write by (by apply fd_bytes_u8).
      by apply fd_round_trip.
    - rewrite spi_read_other; [done|]. rewrite fd_bytes_length by done. unfold sizeof_fd. lia. }
  exists f2. split; [|split; [done|] ].
  - unfold tt_boot_fs_add_file. change TT_BOOT_FS_FD_HEAD_ADDR with (sizeof_fd * Z.of_nat 0).
    rewrite (find_slot_first f k) by (try done; try lia; intros; apply Hbelow; lia).
    cbn [mbind option_bind]. fold f1. destruct (Z.ltb_spec (len data) (image_size fd + signature_size fd)); [lia|].
    by rewrite take_ge by lia.
  - unfold tt_boot_fs_get_file, tt_boot_fs_mount. cbn [snd].
    rewrite (find_fd_skip _ tag k fd); [| | | |done|done|done].
    + cbn [mbind option_bind]. destruct (Z.ltb_spec buf_size (image_size fd)); [lia|].
      assert (Hread : spi_read f2 (spi_addr fd) (image_size fd) = take (Z.to_nat (image_size fd)) data).
      { pose proof (spi_read_write f1 (spi_addr fd) data Hu8) as Hrw. rewrite Hlen in Hrw.
        rewrite spi_read_app in Hrw by lia. fold f2 in Hrw. rewrite <- Hrw.
        rewrite take_app_length'; [done|]. pose proof (spi_read_length f2 (spi_addr fd) (image_size fd) ltac:(lia)). lia. }
      rewrite Hread.
      assert (Hl : len (take (Z.to_nat (image_size fd)) data) = image_size fd) by (rewrite length_take; lia).
      assert (image_size fd < 2 ^ 24) by (by apply (bits_get_range 0 24)).
      pose proof (compare_ok asserts (take (Z.to_nat (image_size fd)) data) (data_crc fd)) as Hc.
      rewrite Hl in Hc. rewrite Hc; [|intros E; rewrite E in Hl; cbn in Hl; lia|done|unwrap; lia].
      rewrite Hdata, Z.eqb_refl. done.
    + rewrite cache_lookup, Hslot, decide_True by done. done.
    + done.
    + intros j g Hj. rewrite cache_lookup, Hslot, decide_False by lia. intros [= <-]. by apply Hbelow.
Qed.
End table.

(** ** A concrete flash: a function from addresses to bytes *)

Definition mem_flash : Type := Z -> Z.
#[export] Instance mem_flash_ops : Flash mem_flash := {
  spi_read f a n := map (fun i => u8 (f (a + i))) (seqZ 0 n);
  spi_write f a l := fun x => if (a <=? x) && (x <? a + len l) then default 0 (aget l (x - a)) else f x
}.

#[export] Instance mem_flash_laws : FlashLaws mem_flash.
Proof.
  split; cbn.
  - intros f a n Hn. rewrite length_map, length_seqZ. lia.
  - intros f a n. rewrite Forall_map. apply Forall_forall. auto with fw.
  - intros f a l Hl. apply list_eq. intros i. rewrite list_lookup_fmap.
    destruct (decide (i < length l)%nat) as [Hi|Hi].
    + rewrite lookup_seqZ_lt by lia. cbn.
      destruct (Z.leb_spec a (a + (0 + Z.of_nat i))); [|lia].
      destruct (Z.ltb_spec (a + (0 + Z.of_nat i)) (a + len l)); [|lia]. cbn.
      replace (a + (0 + Z.of_nat i) - a) with (Z.of_nat i) by lia.
      rewrite aget_nat, Nat2Z.id by lia. destruct (lookup_lt_is_Some_2 l i Hi) as [x Hx]. rewrite Hx. cbn.
      rewrite wrap_small; [done|]. by eapply Forall_lookup_1 in Hl.
    + rewrite lookup_seqZ_ge by lia. by rewrite (lookup_ge_None_2 l) by lia.
  - intros f a l a' n Hd. apply list_eq. intros i. rewrite !list_lookup_fmap.
    destruct (decide (Z.of_nat i < n)); [|by rewrite !lookup_seqZ_ge by lia].
    rewrite !lookup_seqZ_lt by lia. cbn.
    destruct (Z.leb_spec a (a' + (0 + Z.of_nat i))), (Z.ltb_spec (a' + (0 + Z.of_nat i)) (a + len l)); cbn; done || lia.
  - intros f a n m Hn Hm. rewrite seqZ_app by lia. rewrite map_app. f_equal.
    apply list_eq. intros i. rewrite !list_lookup_fmap.
    destruct (decide (Z.of_nat i < m)); [|by rewrite !lookup_seqZ_ge by lia].
    rewrite !lookup_seqZ_lt by lia. cbn. do 3 f_equal. lia.
Qed.

(** An empty table, every slot marked invalid, and one small file. *)
Definition erased : mem_flash := fun _ => 0xFF.
Definition demo_tag : list Z := [99; 109; 102; 119; 0; 0; 0; 0].
Definition demo_data : list Z := [1; 2; 3; 4; 5; 6; 7; 8].
Definition demo_fd_crc (crc : Z) : tt_boot_fs_fd :=
  MkFd 0x1000 0 8 (u32 (dword_sum demo_data)) 0 demo_tag crc.
Definition demo_fd : tt_boot_fs_fd := demo_fd_crc (u32 (dword_sum (fd_body (demo_fd_crc 0)))).

Lemma boot_fs_add_get_witness :
  exists f', tt_boot_fs_add_file 5 erased demo_fd demo_data false false = Some (0, f') /\
    tt_boot_fs_get_file true f' (tt_boot_fs_mount 4 f').2 demo_tag 16 = Some (0, Some (8, demo_data)).
Proof.
  destruct (boot_fs_add_get true 4 ltac:(done) erased 0 demo_fd demo_data demo_tag 5 16) as (f' & E & _ & E').
  - lia.
  - lia.
  - lia.
  - by vm_compute.
  - split_and!; try by vm_compute. repeat (apply Forall_cons_2; [by vm_compute|]). by apply Forall_nil.
  - by vm_compute.
  - done.
  - by vm_compute.
  - by vm_compute.
  - repeat (apply Forall_cons_2; [by vm_compute|]). by apply Forall_nil.
  - by vm_compute.
  - by vm_compute.
  - by vm_compute.
  - by vm_compute.
  - by vm_compute.
  - exists f'. split; [exact E|exact E'].
Defined.

(** ** The checksum: what it detects and where it fails *)

(** The image checksum.  For a buffer of whole words it never faults and is the
    sum of the words modulo [2^32], so it is additive over concatenation and a
    change confined to one word is always detected; for a buffer of one to three
    bytes the word count underflows and the code reads past the buffer. *)
Theorem cksum_behaviour asserts :
  (forall c data, data <> [] -> len data mod 4 = 0 -> len data < 2 ^ 32 ->
     tt_boot_fs_cksum asserts (u32 c) data (len data) = Some (u32 (c + dword_sum data))) /\
  (forall pre w w' post, len pre mod 4 = 0 -> length w = 4%nat -> length w' = 4%nat ->
     Forall is_u8 w -> Forall is_u8 w' -> len (pre ++ w ++ post) mod 4 = 0 -> len (pre ++ w ++ post) < 2 ^ 32 ->
     tt_boot_fs_cksum asserts 0 (pre ++ w ++ post) (len (pre ++ w ++ post)) =
     tt_boot_fs_cksum asserts 0 (pre ++ w' ++ post) (len (pre ++ w' ++ post)) -> w = w') /\
  (forall c data n, 1 <= n <= 3 -> len data < 4 * (2 ^ 32 - 1) -> tt_boot_fs_cksum asserts c data n = None).
Proof.
  split; [intros; by apply cksum_words|]. split.
  - intros pre w w' post Hpre Hw Hw' Hu Hu' Hmod Hlt E.
    assert (Hl : len (pre ++ w' ++ post) = len (pre ++ w ++ post)) by (rewrite !length_app; lia).
    pose proof (cksum_words asserts 0 (pre ++ w ++ post)) as E1.
    pose proof (cksum_words asserts 0 (pre ++ w' ++ post)) as E2. rewrite Hl in E2, E.
    change (u32 0) with 0 in E1, E2.
    rewrite E1, E2 in E; [|by destruct pre, w'|done|done|by destruct pre, w|done|done].
    injection E as E. rewrite !Z.add_0_l in E.
    assert (Hsum : forall v, length v = 4%nat -> dword_sum (pre ++ v ++ post) = dword_sum pre + le_of_bytes v + dword_sum post).
    { intros v Hv. rewrite dword_sum_app by done. destruct v as [|a [|b [|c [|d [|] ] ] ] ]; try done.
      cbn [app dword_sum]. lia. }
    rewrite !Hsum in E by done.
    pose proof (le_of_bytes_range w Hu). pose proof (le_of_bytes_range w' Hu').
    rewrite Hw in *. rewrite Hw' in *. change (256 ^ Z.of_nat 4) with 4294967296 in *.
    assert (le_of_bytes w = le_of_bytes w') by word_lia.
    rewrite <- (bytes_of_le_of_bytes w), <- (bytes_of_le_of_bytes w') by done. congruence.
  - intros c data n Hn Hlt. unfold tt_boot_fs_cksum. destruct (Z.eqb_spec n 0); [lia|].
    assert (u32 (n / 4 - 1) = 2 ^ 32 - 1) as ->.
    { replace (n / 4) with 0 by word_lia. done. }
    by rewrite add_dwords_short by lia.
Qed.

Lemma cksum_behaviour_witness : tt_boot_fs_cksum false 0 [1; 0; 0; 0; 2; 0; 0; 0] 8 = Some 3 /\
  tt_boot_fs_cksum false 0 [1; 2; 3; 4] 3 = None.
Proof.
  destruct (cksum_behaviour false) as (H & _ & H3).
  split; [exact (H 0 [1; 0; 0; 0; 2; 0; 0; 0] ltac:(done) eq_refl eq_refl)|apply H3; [lia|done] ].
Defined.

(** ** Listing and searching a flash device *)

Section listing.
Variable asserts : bool.
Variable flash_read : Z -> Z -> option (list Z).
Abbreviation entry i := (read_and_validate_fd asserts flash_read i).

(** The device holds the valid descriptors [tbl], then the answer [stop]. *)
Definition table (tbl : list tt_boot_fs_fd) (stop : fd_result) : Prop :=
  (forall j g, tbl !! j = Some g -> entry (Z.of_nat j) = Some (FdOk g)) /\ entry (len tbl) = Some stop.

Definition stop_result (stop : fd_result) (found : Z) : option Z :=
  match stop with FdEnd => Some found | FdError e => Some e | FdOk _ => None end.

(** From index [i] on, with [found] entries already listed. *)
Lemma ls_loop_spec keep nfds offset stop r rest fuel i found acc :
  (forall j g, rest !! j = Some g -> entry (i + Z.of_nat j) = Some (FdOk g)) ->
  entry (i + len rest) = Some stop -> (forall n, stop_result stop n = Some (r n)) ->
  0 <= offset -> found = Z.max 0 (i - offset) -> 0 <= found < nfds -> nfds + offset - i <= Z.of_nat fuel ->
  let listed := drop (Z.to_nat (offset - i)) rest in
  ls_loop asserts flash_read fuel keep nfds offset i found acc =
    Some (if nfds - found <=? len listed then nfds else r (found + len listed),
          acc ++ if keep : bool then take (Z.to_nat (nfds - found)) listed else []).
Proof.
  intros Hrest Hstop Hr Hoff. revert fuel i found acc Hrest Hstop.
  induction rest as [|g rest IH]; intros fuel i found acc Hrest Hstop Hfound Hrange Hfuel listed.
  - subst listed. rewrite drop_nil, take_nil. cbn [length] in *. change (Z.of_nat 0) with 0 in *. destruct fuel as [|fuel]; [lia|].
    cbn [ls_loop]. rewrite Z.add_0_r in Hstop. rewrite Hstop. cbn [mbind option_bind].
    destruct (Z.leb_spec (nfds - found) 0); [lia|]. rewrite Z.add_0_r.
    replace (if keep then [] else []) with (@nil tt_boot_fs_fd) by (by destruct keep). rewrite app_nil_r.
    specialize (Hr found). destruct stop; cbn in Hr |- *; congruence.
  - destruct fuel as [|fuel]; [lia|]. cbn [ls_loop].
    pose proof (Hrest 0%nat g eq_refl) as E. rewrite Z.add_0_r in E. rewrite E. cbn [mbind option_bind].
    assert (Hrest' : forall j g0, rest !! j = Some g0 -> entry (i + 1 + Z.of_nat j) = Some (FdOk g0)).
    { intros j g0 Hj. specialize (Hrest (S j) g0 Hj). rewrite <- Hrest. f_equal. lia. }
    assert (Hstop' : entry (i + 1 + len rest) = Some stop).
    { rewrite <- Hstop. f_equal. cbn [length]. lia. }
    destruct (Z.leb_spec offset i) as [Hle|Hgt].
    + subst listed. replace (Z.to_nat (offset - i)) with 0%nat by lia. rewrite drop_0.
      destruct (Z.ltb_spec found nfds); [|lia]. rewrite andb_true_r.
      destruct (Z.eqb_spec (found + 1) nfds) as [En|Hne].
      * replace (Z.to_nat (nfds - found)) with 1%nat by lia. cbn [take length]. rewrite take_0.
        destruct (Z.leb_spec (nfds - found) (Z.of_nat (S (length rest)))); [|lia].
        rewrite En. by destruct keep; rewrite ?app_nil_r.
      * rewrite (IH fuel (i + 1) (found + 1)) by (done || lia).
        replace (Z.to_nat (offset - (i + 1))) with 0%nat by lia. rewrite drop_0.
        replace (Z.to_nat (nfds - found)) with (S (Z.to_nat (nfds - (found + 1)))) by lia. cbn [take length].
        f_equal. f_equal.
        -- destruct (Z.leb_spec (nfds - (found + 1)) (len rest)), (Z.leb_spec (nfds - found) (Z.of_nat (S (length rest))));
             try lia. f_equal. lia.
        -- destruct keep; [by rewrite <- app_assoc|done].
    + rewrite (IH fuel (i + 1) found) by (done || lia). subst listed.
      replace (Z.to_nat (offset - i)) with (S (Z.to_nat (offset - (i + 1)))) by lia. done.
Qed.

(** Listing.  On a ready device whose table is [tbl] followed by the end
    marker or by an unreadable descriptor, [tt_boot_fs_ls] with [nfds > 0]
    returns, in order, the descriptors from [offset] on, at most [nfds] of them
    and their number; an error is reported exactly when it is met before [nfds]
    descriptors were found, whatever the length of the table.  With [nfds = 0] it
    returns 0, and without an array it stores nothing. *)
Theorem boot_fs_ls_ok tbl stop r keep nfds offset :
  table tbl stop -> (forall n, stop_result stop n = Some (r n)) -> 0 <= offset -> 0 <= nfds ->
  let listed := drop (Z.to_nat offset) tbl in
  tt_boot_fs_ls asserts flash_read true keep nfds offset =
    Some (if nfds <=? len listed then nfds else r (len listed),
          if keep then take (Z.to_nat nfds) listed else []).
Proof.
  intros [Htbl Hstop] Hr Hoff Hn listed. unfold tt_boot_fs_ls. cbn [negb].
  destruct (Z.eqb_spec nfds 0) as [->|Hne].
  - cbn [take]. destruct (Z.leb_spec 0 (len listed)); [|lia]. by destruct keep.
  - rewrite (ls_loop_spec keep nfds offset stop r tbl) by (done || lia). subst listed.
    by rewrite !Z.sub_0_r.
Qed.

(** Searching by tag.  On a ready device [tt_boot_fs_find_fd_by_tag] returns the
    first of the first [MAX] descriptors whose tag matches; without one it
    returns [-ENOENT] at the end marker or after [MAX] descriptors, and the
    error when the table stops with one before. *)
Theorem boot_fs_find_ok MAX tbl stop r tag :
  table tbl stop -> (forall n, stop_result stop n = Some (r n)) ->
  tt_boot_fs_find_fd_by_tag asserts MAX flash_read true (Some tag) =
    Some match list_find (fun fd => strncmp_eq TT_BOOT_FS_IMAGE_TAG_SIZE tag (image_tag fd) = true) (take MAX tbl) with
         | Some (_, fd) => (0, Some fd)
         | None => (if (MAX <=? length tbl)%nat then - ENOENT else r (- ENOENT), None)
         end.
Proof.
  intros [Htbl Hstop] Hr. unfold tt_boot_fs_find_fd_by_tag. cbn [negb].
  assert (forall n i rest, (forall j g, rest !! j = Some g -> entry (i + Z.of_nat j) = Some (FdOk g)) ->
    entry (i + len rest) = Some stop ->
    find_loop asserts flash_read n i tag =
    Some match list_find (fun fd => strncmp_eq TT_BOOT_FS_IMAGE_TAG_SIZE tag (image_tag fd) = true) (take n rest) with
         | Some (_, fd) => (0, Some fd)
         | None => (if (n <=? length rest)%nat then - ENOENT else r (- ENOENT), None)
         end) as Hloop.
  { induction n as [|n IH]; intros i rest Hrest Hend; [done|].
    cbn [find_loop]. destruct rest as [|g rest].
    - cbn [length] in Hend. rewrite Z.add_0_r in Hend. rewrite Hend. cbn.
      specialize (Hr (- ENOENT)). destruct stop; cbn in Hr |- *; congruence.
    - pose proof (Hrest 0%nat g eq_refl) as E. rewrite Z.add_0_r in E. rewrite E. cbn [mbind option_bind].
      cbn [take list_find length]. destruct (strncmp_eq _ tag (image_tag g)) eqn:Es.
      + by rewrite decide_True by done.
      + rewrite decide_False by done. rewrite (IH (i + 1) rest).
        * destruct (list_find _ _) as [ [k fd]|]; [done|]. done.
        * intros j g0 Hj. specialize (Hrest (S j) g0 Hj). rewrite <- Hrest. f_equal. lia.
        * rewrite <- Hend. f_equal. cbn [length]. lia. }
  by apply Hloop.
Qed.
End listing.

(** A device holding [demo_fd] and then an erased descriptor. *)
Definition demo_flash (addr size : Z) : option (list Z) :=
  if addr =? 0 then Some (fd_bytes demo_fd) else Some (replicate (Z.to_nat size) 0xFF).

Lemma demo_table : table true demo_flash [demo_fd] FdEnd.
Proof. split; [|by vm_compute]. intros [|j] g E; [|done]. injection E as <-. by vm_compute. Qed.

Lemma boot_fs_ls_ok_witness : tt_boot_fs_ls true demo_flash true true 3 0 = Some (1, [demo_fd]).
Proof.
  exact (boot_fs_ls_ok true demo_flash [demo_fd] FdEnd (fun n => n) true 3 0 demo_table
           (fun n => eq_refl) ltac:(lia) ltac:(lia)).
Defined.

Lemma boot_fs_find_ok_witness :
  tt_boot_fs_find_fd_by_tag true 4 demo_flash true (Some [99; 109; 102; 119; 0]) = Some (0, Some demo_fd).
Proof.
  exact (boot_fs_find_ok true demo_flash 4 [demo_fd] FdEnd (fun n => n) [99; 109; 102; 119; 0] demo_table
           (fun n => eq_refl)).
Defined.
