(* ===== verification/Aiclk.v ===== *)
(** * The AICLK arbiter ([lib/tenstorrent/bh_arc/aiclk_ppm.c])

    Which frequency the AI clock should run at: minimum and maximum arbiters, a
    floor the host may raise, a sweep for testing, a forced frequency and the
    reset-safe cap.  A finite C [float] is a rational number ([Q]); the code only
    compares floats, clamps them and converts them to and from [uint32_t], which
    are exact for the values below [2^24] that occur.  Conversion to [uint32_t]
    truncates. *)

From Stdlib Require Import QArith Qround.
From S2P Require Import Prelude.
#[global] Open Scope Z_scope.

(** ** C floats *)

Definition qle (a b : Q) : bool := Qle_bool a b.
Definition qlt (a b : Q) : bool := negb (Qle_bool b a).
Definition of_u32 (z : Z) : Q := inject_Z z.
(** Truncation of a nonnegative float. *)
Definition to_u32 (q : Q) : Z := Qfloor q.

(** Zephyr's [MIN] and [CLAMP]. *)
Definition qmin (a b : Q) : Q := if qlt a b then a else b.
Definition CLAMP (v lo hi : Q) : Q := if qle v lo then lo else qmin v hi.

Lemma qle_spec a b : qle a b = true <-> (a <= b)%Q.
Proof. apply Qle_bool_iff. Qed.

Lemma qlt_spec a b : qlt a b = true <-> (a < b)%Q.
Proof.
  unfold qlt. rewrite negb_true_iff. rewrite <- not_true_iff_false, Qle_bool_iff. split.
  - apply Qnot_le_lt.
  - apply Qlt_not_le.
Qed.

Lemma CLAMP_range v lo hi : (lo <= hi)%Q -> (lo <= CLAMP v lo hi <= hi)%Q.
Proof.
  intros Hlh. unfold CLAMP, qmin. destruct (qle v lo) eqn:E1; [split; [apply Qle_refl|done]|].
  destruct (qlt v hi) eqn:E2.
  - apply qlt_spec in E2. split; [|by apply Qlt_le_weak].
    apply Qlt_le_weak, Qnot_le_lt. intros H%qle_spec. congruence.
  - split; [done|apply Qle_refl].
Qed.

Lemma to_u32_of_u32 z : to_u32 (of_u32 z) = z.
Proof. unfold to_u32, of_u32. apply Qfloor_Z. Qed.

Lemma to_u32_mono a b : (a <= b)%Q -> to_u32 a <= to_u32 b.
Proof. apply Qfloor_resp_le. Qed.

Lemma to_u32_between a b q : (of_u32 a <= q <= of_u32 b)%Q -> a <= to_u32 q <= b.
Proof.
  intros [H1 H2]. split.
  - rewrite <- (to_u32_of_u32 a). by apply to_u32_mono.
  - rewrite <- (to_u32_of_u32 b). by apply to_u32_mono.
Qed.

(** ** Data *)

Definition AICLK_FMAX_MAX : Z := 1400.
Definition AICLK_FMAX_MIN : Z := 800.
Definition AICLK_FMIN_MAX : Z := 1400.
Definition AICLK_FMIN_MIN : Z := 200.
Definition AICLK_RESET_SAFE_FREQ : Z := 250.

Definition aiclk_arb_max_fmax : Z := 0.
Definition aiclk_arb_max_tdp : Z := 1.
Definition aiclk_arb_max_fast_tdc : Z := 2.
Definition aiclk_arb_max_tdc : Z := 3.
Definition aiclk_arb_max_thm : Z := 4.
Definition aiclk_arb_max_board_power : Z := 5.
Definition aiclk_arb_max_voltage : Z := 6.
Definition aiclk_arb_max_gddr_thm : Z := 7.
Definition aiclk_arb_max_doppler_slow : Z := 8.
Definition aiclk_arb_max_doppler_critical : Z := 9.
Definition aiclk_arb_max_host_fmax : Z := 10.
Definition aiclk_arb_max_count : Z := 11.
Definition aiclk_arb_min_fmin : Z := 0.
Definition aiclk_arb_min_busy : Z := 1.
Definition aiclk_arb_min_count : Z := 2.

Inductive targ_freq_reason :=
| limit_reason_min_arb | limit_reason_max_arb | limit_reason_fmin | limit_reason_sweep | limit_reason_forced.

Record AiclkArb := MkArb { enabled : bool; value : Q }.

Record AiclkPPM := MkPPM {
  curr_freq : Z;
  targ_freq : Z;
  boot_freq : Z;
  fmax : Z;
  fmin : Z;
  host_requested_fmin : Z;
  forced_freq : Z;
  reset_safe : bool;
  sweep_en : Z;
  sweep_low : Z;
  sweep_high : Z;
  lim_arb_info : Z * targ_freq_reason;
  arbiter_max : list AiclkArb;
  arbiter_min : list AiclkArb;
  (** the other statics of the file *)
  last_msg_busy : bool;
  final_arbiter_count : list Z;
  throttler_frozen_mask : Z;
  throttler_overflow_mask : Z
}.

Definition set_curr_freq (v : Z) (s : AiclkPPM) : AiclkPPM :=
  MkPPM v (targ_freq s) (boot_freq s) (fmax s) (fmin s) (host_requested_fmin s) (forced_freq s)
    (reset_safe s) (sweep_en s) (sweep_low s) (sweep_high s) (lim_arb_info s) (arbiter_max s)
    (arbiter_min s) (last_msg_busy s) (final_arbiter_count s) (throttler_frozen_mask s)
    (throttler_overflow_mask s).
Definition set_targ_freq (v : Z) (s : AiclkPPM) : AiclkPPM :=
  MkPPM (curr_freq s) v (boot_freq s) (fmax s) (fmin s) (host_requested_fmin s) (forced_freq s)
    (reset_safe s) (sweep_en s) (sweep_low s) (sweep_high s) (lim_arb_info s) (arbiter_max s)
    (arbiter_min s) (last_msg_busy s) (final_arbiter_count s) (throttler_frozen_mask s)
    (throttler_overflow_mask s).
Definition set_host_requested_fmin (v : Z) (s : AiclkPPM) : AiclkPPM :=
  MkPPM (curr_freq s) (targ_freq s) (boot_freq s) (fmax s) (fmin s) v (forced_freq s)
    (reset_safe s) (sweep_en s) (sweep_low s) (sweep_high s) (lim_arb_info s) (arbiter_max s)
    (arbiter_min s) (last_msg_busy s) (final_arbiter_count s) (throttler_frozen_mask s)
    (throttler_overflow_mask s).
Definition set_forced_freq (v : Z) (s : AiclkPPM) : AiclkPPM :=
  MkPPM (curr_freq s) (targ_freq s) (boot_freq s) (fmax s) (fmin s) (host_requested_fmin s) v
    (reset_safe s) (sweep_en s) (sweep_low s) (sweep_high s) (lim_arb_info s) (arbiter_max s)
    (arbiter_min s) (last_msg_busy s) (final_arbiter_count s) (throttler_frozen_mask s)
    (throttler_overflow_mask s).
Definition set_reset_safe (v : bool) (s : AiclkPPM) : AiclkPPM :=
  MkPPM (curr_freq s) (targ_freq s) (boot_freq s) (fmax s) (fmin s) (host_requested_fmin s)
    (forced_freq s) v (sweep_en s) (sweep_low s) (sweep_high s) (lim_arb_info s) (arbiter_max s)
    (arbiter_min s) (last_msg_busy s) (final_arbiter_count s) (throttler_frozen_mask s)
    (throttler_overflow_mask s).
Definition set_sweep_en (v : Z) (s : AiclkPPM) : AiclkPPM :=
  MkPPM (curr_freq s) (targ_freq s) (boot_freq s) (fmax s) (fmin s) (host_requested_fmin s)
    (forced_freq s) (reset_safe s) v (sweep_low s) (sweep_high s) (lim_arb_info s) (arbiter_max
    s) (arbiter_min s) (last_msg_busy s) (final_arbiter_count s) (throttler_frozen_mask s)
    (throttler_overflow_mask s).
Definition set_sweep_low (v : Z) (s : AiclkPPM) : AiclkPPM :=
  MkPPM (curr_freq s) (targ_freq s) (boot_freq s) (fmax s) (fmin s) (host_requested_fmin s)
    (forced_freq s) (reset_safe s) (sweep_en s) v (sweep_high s) (lim_arb_info s) (arbiter_max
    s) (arbiter_min s) (last_msg_busy s) (final_arbiter_count s) (throttler_frozen_mask s)
    (throttler_overflow_mask s).
Definition set_sweep_high (v : Z) (s : AiclkPPM) : AiclkPPM :=
  MkPPM (curr_freq s) (targ_freq s) (boot_freq s) (fmax s) (fmin s) (host_requested_fmin s)
    (forced_freq s) (reset_safe s) (sweep_en s) (sweep_low s) v (lim_arb_info s) (arbiter_max s)
    (arbiter_min s) (last_msg_busy s) (final_arbiter_count s) (throttler_frozen_mask s)
    (throttler_overflow_mask s).
Definition set_lim_arb_info (v : Z * targ_freq_reason) (s : AiclkPPM) : AiclkPPM :=
  MkPPM (curr_freq s) (targ_freq s) (boot_freq s) (fmax s) (fmin s) (host_requested_fmin s)
    (forced_freq s) (reset_safe s) (sweep_en s) (sweep_low s) (sweep_high s) v (arbiter_max s)
    (arbiter_min s) (last_msg_busy s) (final_arbiter_count s) (throttler_frozen_mask s)
    (throttler_overflow_mask s).
Definition set_arbiter_max (v : list AiclkArb) (s : AiclkPPM) : AiclkPPM :=
  MkPPM (curr_freq s) (targ_freq s) (boot_freq s) (fmax s) (fmin s) (host_requested_fmin s)
    (forced_freq s) (reset_safe s) (sweep_en s) (sweep_low s) (sweep_high s) (lim_arb_info s) v
    (arbiter_min s) (last_msg_busy s) (final_arbiter_count s) (throttler_frozen_mask s)
    (throttler_overflow_mask s).
Definition set_arbiter_min (v : list AiclkArb) (s : AiclkPPM) : AiclkPPM :=
  MkPPM (curr_freq s) (targ_freq s) (boot_freq s) (fmax s) (fmin s) (host_requested_fmin s)
    (forced_freq s) (reset_safe s) (sweep_en s) (sweep_low s) (sweep_high s) (lim_arb_info s)
    (arbiter_max s) v (last_msg_busy s) (final_arbiter_count s) (throttler_frozen_mask s)
    (throttler_overflow_mask s).
Definition set_last_msg_busy (v : bool) (s : AiclkPPM) : AiclkPPM :=
  MkPPM (curr_freq s) (targ_freq s) (boot_freq s) (fmax s) (fmin s) (host_requested_fmin s)
    (forced_freq s) (reset_safe s) (sweep_en s) (sweep_low s) (sweep_high s) (lim_arb_info s)
    (arbiter_max s) (arbiter_min s) v (final_arbiter_count s) (throttler_frozen_mask s)
    (throttler_overflow_mask s).
Definition set_final_arbiter_count (v : list Z) (s : AiclkPPM) : AiclkPPM :=
  MkPPM (curr_freq s) (targ_freq s) (boot_freq s) (fmax s) (fmin s) (host_requested_fmin s)
    (forced_freq s) (reset_safe s) (sweep_en s) (sweep_low s) (sweep_high s) (lim_arb_info s)
    (arbiter_max s) (arbiter_min s) (last_msg_busy s) v (throttler_frozen_mask s)
    (throttler_overflow_mask s).
Definition set_throttler_frozen_mask (v : Z) (s : AiclkPPM) : AiclkPPM :=
  MkPPM (curr_freq s) (targ_freq s) (boot_freq s) (fmax s) (fmin s) (host_requested_fmin s)
    (forced_freq s) (reset_safe s) (sweep_en s) (sweep_low s) (sweep_high s) (lim_arb_info s)
    (arbiter_max s) (arbiter_min s) (last_msg_busy s) (final_arbiter_count s) v
    (throttler_overflow_mask s).
Definition set_throttler_overflow_mask (v : Z) (s : AiclkPPM) : AiclkPPM :=
  MkPPM (curr_freq s) (targ_freq s) (boot_freq s) (fmax s) (fmin s) (host_requested_fmin s)
    (forced_freq s) (reset_safe s) (sweep_en s) (sweep_low s) (sweep_high s) (lim_arb_info s)
    (arbiter_max s) (arbiter_min s) (last_msg_busy s) (final_arbiter_count s)
    (throttler_frozen_mask s) v.

(** ** Arbiters *)

Definition set_arb_value (l : list AiclkArb) (i : Z) (q : Q) : option (list AiclkArb) :=
  a ← aget l i; aset l i (MkArb (enabled a) q).
Definition set_arb_enabled (l : list AiclkArb) (i : Z) (b : bool) : option (list AiclkArb) :=
  a ← aget l i; aset l i (MkArb b (value a)).

Definition SetAiclkArbMax (arb : Z) (freq : Q) (s : AiclkPPM) : option AiclkPPM :=
  l ← set_arb_value (arbiter_max s) arb (CLAMP freq (of_u32 (fmin s)) (of_u32 (fmax s)));
  Some (set_arbiter_max l s).
Definition SetAiclkArbMin (arb : Z) (freq : Q) (s : AiclkPPM) : option AiclkPPM :=
  l ← set_arb_value (arbiter_min s) arb (CLAMP freq (of_u32 (fmin s)) (of_u32 (fmax s)));
  Some (set_arbiter_min l s).
Definition EnableArbMax (arb : Z) (enable : bool) (s : AiclkPPM) : option AiclkPPM :=
  l ← set_arb_enabled (arbiter_max s) arb enable; Some (set_arbiter_max l s).
Definition EnableArbMin (arb : Z) (enable : bool) (s : AiclkPPM) : option AiclkPPM :=
  l ← set_arb_enabled (arbiter_min s) arb enable; Some (set_arbiter_min l s).

(** The loops over the arbiters, from index [i]: the effective limit and the
    arbiter that sets it. *)
Fixpoint arb_min_loop (l : list AiclkArb) (i : Z) (eff arb : Z) : Z * Z :=
  match l with
  | [] => (eff, arb)
  | a :: l => if enabled a && qle (of_u32 eff) (value a)
              then arb_min_loop l (i + 1) (to_u32 (value a)) i else arb_min_loop l (i + 1) eff arb
  end.
Fixpoint arb_max_loop (l : list AiclkArb) (i : Z) (eff arb : Z) : Z * Z :=
  match l with
  | [] => (eff, arb)
  | a :: l => if enabled a && qle (value a) (of_u32 eff)
              then arb_max_loop l (i + 1) (to_u32 (value a)) i else arb_max_loop l (i + 1) eff arb
  end.

(** [arb] is the caller's variable, kept when no arbiter is effective. *)
Definition get_aiclk_effective_arb_min (s : AiclkPPM) (arb : Z) : Z * Z :=
  arb_min_loop (arbiter_min s) 0 (fmin s) arb.
Definition get_aiclk_effective_arb_max (s : AiclkPPM) (arb : Z) : Z * Z :=
  arb_max_loop (arbiter_max s) 0 (fmax s) arb.

Fixpoint enabled_bitmask (l : list AiclkArb) (i : Z) : Z :=
  match l with
  | [] => 0
  | a :: l => Z.lor (if enabled a then Z.shiftl 1 i else 0) (enabled_bitmask l (i + 1))
  end.
Definition get_enabled_arb_min_bitmask (s : AiclkPPM) : Z := enabled_bitmask (arbiter_min s) 0.
Definition get_enabled_arb_max_bitmask (s : AiclkPPM) : Z := enabled_bitmask (arbiter_max s) 0.

Definition GetThrottlerArbMax (arb : Z) (s : AiclkPPM) : option Q := value <$> aget (arbiter_max s) arb.
Definition GetAiclkTarg (s : AiclkPPM) : Z := targ_freq s.
Definition GetAiclkFmin (s : AiclkPPM) : Z := fmin s.
Definition GetAiclkFmax (s : AiclkPPM) : Z := fmax s.
Definition get_targ_aiclk_info (s : AiclkPPM) : Z * targ_freq_reason := lim_arb_info s.

(** ** The target frequency *)

(** Counting the arbiters that throttle; [count] says that this calculation counts. *)
Fixpoint count_loop (l : list AiclkArb) (i : Z) (targ frozen : Z) (count : bool) (cs : list Z) (overflow : Z)
    : option (list Z * Z) :=
  match l with
  | [] => Some (cs, overflow)
  | a :: l =>
      if enabled a && Qeq_bool (value a) (of_u32 targ) && count && negb (Z.testbit frozen i) then
        c ← aget cs i;
        if c <? 2 ^ 32 - 1 then
          cs ← aset cs i (c + 1);
          count_loop l (i + 1) targ frozen count cs overflow
        else count_loop l (i + 1) targ frozen count cs (Z.lor overflow (BIT i))
      else count_loop l (i + 1) targ frozen count cs overflow
  end.

(** [rand] is the library's random number; a zero divisor is a fault. *)
Definition CalculateTargAiclk (rand : Z) (s : AiclkPPM) : option AiclkPPM :=
  let '(min_freq, min_arb) := get_aiclk_effective_arb_min s aiclk_arb_min_count in
  let '(max_arb_freq, max_arb) := get_aiclk_effective_arb_max s aiclk_arb_max_count in
  let '(targ, info) := if max_arb_freq <? min_freq then (max_arb_freq, (max_arb, limit_reason_max_arb))
                       else (min_freq, (min_arb, limit_reason_min_arb)) in
  let throttling := negb (targ =? fmax s) in
  busy ← aget (arbiter_min s) aiclk_arb_min_busy;
  let aiclk_busy := Qeq_bool (value busy) (of_u32 (fmax s)) in
  '(counts, overflow) ← count_loop (arbiter_max s) 0 targ (throttler_frozen_mask s)
                          (throttling && aiclk_busy) (final_arbiter_count s) (throttler_overflow_mask s);
  let floor := if 0 <? host_requested_fmin s then Z.max (fmin s) (host_requested_fmin s) else fmin s in
  let '(targ, info) := if targ <? floor then (floor, (0, limit_reason_fmin)) else (targ, info) in
  '(targ, info) ← (if sweep_en s =? 1 then
                     let range := u32 (sweep_high s - sweep_low s + 1) in
                     if range =? 0 then None else
                     Some (u32 (u32 rand mod range + sweep_low s), (0, limit_reason_sweep))
                   else Some (targ, info));
  let '(targ, info) := if negb (forced_freq s =? 0) then (forced_freq s, (0, limit_reason_forced)) else (targ, info) in
  let targ := if reset_safe s && (AICLK_RESET_SAFE_FREQ <? targ) then AICLK_RESET_SAFE_FREQ else targ in
  Some (set_lim_arb_info info (set_targ_freq targ
         (set_final_arbiter_count counts (set_throttler_overflow_mask overflow s)))).

(** The clock's new rate, when it changes, and the new state. *)
Definition DecreaseAiclk (s : AiclkPPM) : option Z * AiclkPPM :=
  if targ_freq s <? curr_freq s then (Some (targ_freq s), set_curr_freq (targ_freq s) s) else (None, s).
Definition IncreaseAiclk (s : AiclkPPM) : option Z * AiclkPPM :=
  if curr_freq s <? targ_freq s then (Some (targ_freq s), set_curr_freq (targ_freq s) s) else (None, s).

(** [while (low < high)]: [exceeds f] is [VFCurve(f) > voltage]. *)
Fixpoint voltage_search (fuel : nat) (exceeds : Z -> bool) (low high : Z) : option Z :=
  match fuel with
  | O => None
  | S fuel =>
      if low <? high then
        let mid := u32 (low + high) / 2 in
        if exceeds mid then voltage_search fuel exceeds low mid else voltage_search fuel exceeds (u32 (mid + 1)) high
      else Some low
  end.
Definition GetMaxAiclkForVoltage (exceeds : Z -> bool) (s : AiclkPPM) : option Z :=
  low ← voltage_search (S (Z.to_nat (fmax s + 1))) exceeds (fmin s) (u32 (fmax s + 1));
  Some (u32 (low - 1)).

Definition InitArbMaxVoltage (exceeds : Z -> bool) (s : AiclkPPM) : option AiclkPPM :=
  f ← GetMaxAiclkForVoltage exceeds s; SetAiclkArbMax aiclk_arb_max_voltage (of_u32 f) s.

(** [InitAiclkPPM] on the ARC: [rate] is the clock's, [asic_fmax] and [asic_fmin]
    the firmware table's. *)
Definition zclamp (v lo hi : Z) : Z := if v <=? lo then lo else Z.min v hi.
Definition InitAiclkPPM (rate asic_fmax asic_fmin : Z) (s : AiclkPPM) : option AiclkPPM :=
  let fmax := zclamp asic_fmax AICLK_FMAX_MIN AICLK_FMAX_MAX in
  let fmin := zclamp asic_fmin AICLK_FMIN_MIN AICLK_FMIN_MAX in
  EnableArbMax aiclk_arb_max_host_fmax false
    (MkPPM rate rate rate fmax fmin (host_requested_fmin s) 0 false 0 (sweep_low s) (sweep_high s)
       (lim_arb_info s) (replicate 11 (MkArb true (of_u32 fmax))) (replicate 2 (MkArb true (of_u32 fmin)))
       (last_msg_busy s) (final_arbiter_count s) (throttler_frozen_mask s) (throttler_overflow_mask s)).

(** [aiclk_state]: what [bh_power_state_get] answers. *)
Definition aiclk_update_busy (aiclk_state : bool) (s : AiclkPPM) : option AiclkPPM :=
  SetAiclkArbMin aiclk_arb_min_busy (of_u32 (if last_msg_busy s || aiclk_state then fmax s else fmin s)) s.

(** ** Host messages *)

Definition TT_SMC_MSG_AICLK_GO_BUSY : Z := 0x52.
Definition TT_SMC_MSG_AISWEEP_START : Z := 0x31.

Definition aiclk_busy_handler (aiclk_state : bool) (command_code : Z) (s : AiclkPPM) : option (Z * AiclkPPM) :=
  s ← aiclk_update_busy aiclk_state (set_last_msg_busy (command_code =? TT_SMC_MSG_AICLK_GO_BUSY) s);
  Some (0, s).

(** The clock control mode reported by [get_aiclk_handler]. *)
Definition get_aiclk_handler (dvfs_enabled : bool) (rate : Z) (s : AiclkPPM) : Z * Z :=
  (rate, if negb dvfs_enabled then 1 else if negb (forced_freq s =? 0) then 2 else 3).

Definition SweepAiclkHandler (command_code low high : Z) (s : AiclkPPM) : Z * AiclkPPM :=
  if command_code =? TT_SMC_MSG_AISWEEP_START then
    if (low =? 0) || (high =? 0) then (1, s) else
    (0, set_sweep_en 1 (set_sweep_high (Z.min high (fmax s)) (set_sweep_low (Z.max low (fmin s)) s)))
  else (0, set_sweep_en 0 s).

(** The second result is the telemetry update, when there is one. *)
Definition set_arb_host_fmax_handler (restore_default : bool) (new_fmax : Z) (s : AiclkPPM)
    : option (Z * option Z * AiclkPPM) :=
  if restore_default then
    s ← EnableArbMax aiclk_arb_max_host_fmax false s; Some (0, Some 0, s)
  else if (AICLK_FMAX_MAX <? new_fmax) || (new_fmax <? AICLK_FMAX_MIN) then Some (1, None, s) else
  s ← EnableArbMax aiclk_arb_max_host_fmax true s;
  s ← SetAiclkArbMax aiclk_arb_max_host_fmax (of_u32 new_fmax) s;
  Some (0, Some new_fmax, s).

Definition handle_char_set_host_fmin (new_fmin : Z) (s : AiclkPPM) : Z * AiclkPPM :=
  if new_fmin =? 1 then (0, set_host_requested_fmin 0 s) else
  if (AICLK_FMIN_MAX <? new_fmin) || (new_fmin <? AICLK_FMIN_MIN) then (1, s) else
  (0, set_host_requested_fmin new_fmin s).

(** [COUNTER_CMD_CLEAR]'s loop. *)
Fixpoint clear_loop (n : nat) (i mask : Z) (cs : list Z) (overflow : Z) : option (list Z * Z) :=
  match n with
  | O => Some (cs, overflow)
  | S n =>
      if Z.testbit mask i then
        cs ← aset cs i 0; clear_loop n (i + 1) mask cs (Z.ldiff overflow (BIT i))
      else clear_loop n (i + 1) mask cs overflow
  end.

Inductive counter_command := COUNTER_CMD_GET (idx : Z) | COUNTER_CMD_CLEAR (mask : Z)
| COUNTER_CMD_FREEZE (mask : Z) | COUNTER_CMD_OTHER.

(** The status, the response words 1 and 2, and the state. *)
Definition throttler_counter_handler (c : counter_command) (s : AiclkPPM) : option (Z * option (Z * Z) * AiclkPPM) :=
  match c with
  | COUNTER_CMD_GET idx =>
      if aiclk_arb_max_count <=? idx then Some (1, None, s) else
      let ovf := if Z.testbit (throttler_overflow_mask s) idx then 1 else 0 in
      let frz := if Z.testbit (throttler_frozen_mask s) idx then 1 else 0 in
      c ← aget (final_arbiter_count s) idx;
      Some (0, Some (Z.lor ovf (Z.shiftl frz 16), c), s)
  | COUNTER_CMD_CLEAR mask =>
      '(cs, overflow) ← clear_loop (Z.to_nat aiclk_arb_max_count) 0 mask (final_arbiter_count s) (throttler_overflow_mask s);
      Some (0, None, set_final_arbiter_count cs (set_throttler_overflow_mask overflow s))
  | COUNTER_CMD_FREEZE mask => Some (0, None, set_throttler_frozen_mask mask s)
  | COUNTER_CMD_OTHER => Some (1, None, s)
  end.

(** ** Well-formedness *)

Definition in_limits (s : AiclkPPM) (q : Q) : Prop := (of_u32 (fmin s) <= q <= of_u32 (fmax s))%Q.

Record ppm_wf (s : AiclkPPM) : Prop := {
  wf_limits : 0 < fmin s <= fmax s;
  wf_fmax : fmax s <= AICLK_FMAX_MAX;
  wf_max_len : len (arbiter_max s) = aiclk_arb_max_count;
  wf_min_len : len (arbiter_min s) = aiclk_arb_min_count;
  wf_count_len : len (final_arbiter_count s) = aiclk_arb_max_count;
  wf_counts : Forall is_u32 (final_arbiter_count s);
  wf_max : Forall (fun a => in_limits s (value a)) (arbiter_max s);
  wf_min : Forall (fun a => in_limits s (value a)) (arbiter_min s)
}.

Lemma clamp_in_limits s q : 0 < fmin s <= fmax s -> in_limits s (CLAMP q (of_u32 (fmin s)) (of_u32 (fmax s))).
Proof. intros Hl. apply CLAMP_range. unfold of_u32. rewrite <- Zle_Qle. lia. Qed.

Lemma set_arb_value_ok (P : AiclkArb -> Prop) l i q :
  0 <= i < len l -> Forall P l -> (forall b, P (MkArb b q)) ->
  exists l', set_arb_value l i q = Some l' /\ length l' = length l /\ Forall P l' /\
    exists a, aget l i = Some a /\ l' = <[Z.to_nat i := MkArb (enabled a) q]> l.
Proof.
  intros Hi HF HP. destruct (aget_in l i Hi) as [a Ea]. unfold set_arb_value. rewrite Ea.
  cbn [mbind option_bind]. rewrite aset_in by done. eexists. split; [done|].
  split; [apply length_insert|]. split; [by apply Forall_insert|]. by exists a.
Qed.

Lemma set_arb_enabled_ok (P : AiclkArb -> Prop) l i b :
  0 <= i < len l -> Forall P l -> (forall a b, P a -> P (MkArb b (value a))) ->
  exists l', set_arb_enabled l i b = Some l' /\ length l' = length l /\ Forall P l'.
Proof.
  intros Hi HF HP. destruct (aget_in l i Hi) as [a Ea]. unfold set_arb_enabled. rewrite Ea.
  cbn [mbind option_bind]. rewrite aset_in by done. eexists. split; [done|].
  split; [apply length_insert|]. apply Forall_insert; [done|]. apply HP. by eapply aget_Forall.
Qed.

Lemma SetAiclkArbMax_wf arb q s :
  ppm_wf s -> 0 <= arb < aiclk_arb_max_count -> exists s', SetAiclkArbMax arb q s = Some s' /\ ppm_wf s'.
Proof.
  intros [Hl Hx Hml Hnl Hcl Hc HM HN] Harb. unfold SetAiclkArbMax.
  destruct (set_arb_value_ok (fun a => in_limits s (value a)) (arbiter_max s) arb
              (CLAMP q (of_u32 (fmin s)) (of_u32 (fmax s)))) as (l & E & Hlen & HF & _);
    [lia|done|intros; by apply clamp_in_limits|].
  rewrite E. eexists. split; [done|]. split; try done. unfold set_arbiter_max. cbn. lia.
Qed.

Lemma SetAiclkArbMin_wf arb q s :
  ppm_wf s -> 0 <= arb < aiclk_arb_min_count -> exists s', SetAiclkArbMin arb q s = Some s' /\ ppm_wf s'.
Proof.
  intros [Hl Hx Hml Hnl Hcl Hc HM HN] Harb. unfold SetAiclkArbMin.
  destruct (set_arb_value_ok (fun a => in_limits s (value a)) (arbiter_min s) arb
              (CLAMP q (of_u32 (fmin s)) (of_u32 (fmax s)))) as (l & E & Hlen & HF & _);
    [lia|done|intros; by apply clamp_in_limits|].
  rewrite E. eexists. split; [done|]. split; try done. unfold set_arbiter_min. cbn. lia.
Qed.

Lemma EnableArbMax_wf arb b s :
  ppm_wf s -> 0 <= arb < aiclk_arb_max_count -> exists s', EnableArbMax arb b s = Some s' /\ ppm_wf s'.
Proof.
  intros [Hl Hx Hml Hnl Hcl Hc HM HN] Harb. unfold EnableArbMax.
  destruct (set_arb_enabled_ok (fun a => in_limits s (value a)) (arbiter_max s) arb b)
    as (l & E & Hlen & HF); [lia|done|done|].
  rewrite E. eexists. split; [done|]. split; try done. unfold set_arbiter_max. cbn. lia.
Qed.

Lemma InitAiclkPPM_wf rate asic_fmax asic_fmin s :
  len (final_arbiter_count s) = aiclk_arb_max_count -> Forall is_u32 (final_arbiter_count s) ->
  asic_fmin <= 800 ->
  exists s', InitAiclkPPM rate asic_fmax asic_fmin s = Some s' /\ ppm_wf s'.
Proof.
  intros Hcl Hc Hmin. unfold InitAiclkPPM. apply EnableArbMax_wf; [|done].
  assert (0 < zclamp asic_fmin AICLK_FMIN_MIN AICLK_FMIN_MAX <= zclamp asic_fmax AICLK_FMAX_MIN AICLK_FMAX_MAX).
  { unfold zclamp, AICLK_FMIN_MIN, AICLK_FMIN_MAX, AICLK_FMAX_MIN, AICLK_FMAX_MAX. repeat if_case; lia. }
  split; cbn [fmin fmax arbiter_max arbiter_min final_arbiter_count]; try done.
  - unfold zclamp, AICLK_FMAX_MIN, AICLK_FMAX_MAX. repeat if_case; lia.
  - apply Forall_replicate. unfold in_limits, of_u32. cbn [fmin fmax value]. rewrite <- !Zle_Qle. lia.
  - apply Forall_replicate. unfold in_limits, of_u32. cbn [fmin fmax value]. rewrite <- !Zle_Qle. lia.
Qed.

(** ** The effective arbiters *)

Lemma arb_max_loop_spec (l : list AiclkArb) i eff arb :
  let r := (arb_max_loop l i eff arb).1 in
  r <= eff /\ (forall a, a ∈ l -> enabled a = true -> r <= to_u32 (value a)) /\
  (r = eff \/ exists a, a ∈ l /\ enabled a = true /\ r = to_u32 (value a)).
Proof.
  revert i eff arb. induction l as [|a l IH]; intros i eff arb; cbn [arb_max_loop].
  { split_and!; [done|set_solver|by left]. }
  assert (Hcase : enabled a = true -> qle (value a) (of_u32 eff) = false -> eff <= to_u32 (value a)).
  { intros _ Hq. rewrite <- (to_u32_of_u32 eff). apply to_u32_mono.
    destruct (Qlt_le_dec (value a) (of_u32 eff)) as [Hlt|]; [|done].
    apply Qlt_le_weak, qle_spec in Hlt. congruence. }
  destruct (enabled a && qle (value a) (of_u32 eff)) eqn:E; cbv zeta.
  - apply andb_true_iff in E as [Een Eq]. apply qle_spec, to_u32_mono in Eq. rewrite to_u32_of_u32 in Eq.
    destruct (IH (i + 1) (to_u32 (value a)) i) as (H1 & H2 & H3). split_and!; [lia| |].
    + intros b [->|Hb]%elem_of_cons; [done|auto].
    + right. destruct H3 as [->|(b & Hb & ?)]; [exists a; set_solver|exists b; set_solver].
  - destruct (IH (i + 1) eff arb) as (H1 & H2 & H3). split_and!; [done| |].
    + intros b [->|Hb]%elem_of_cons Hen; [|auto]. rewrite Hen in E. cbn [andb] in E.
      specialize (Hcase Hen E). lia.
    + destruct H3 as [|(b & Hb & ?)]; [by left|right]. exists b. set_solver.
Qed.

Lemma arb_min_loop_spec (l : list AiclkArb) i eff arb :
  let r := (arb_min_loop l i eff arb).1 in
  eff <= r /\ (forall a, a ∈ l -> enabled a = true -> to_u32 (value a) <= r) /\
  (r = eff \/ exists a, a ∈ l /\ enabled a = true /\ r = to_u32 (value a)).
Proof.
  revert i eff arb. induction l as [|a l IH]; intros i eff arb; cbn [arb_min_loop].
  { split_and!; [done|set_solver|by left]. }
  assert (Hcase : enabled a = true -> qle (of_u32 eff) (value a) = false -> to_u32 (value a) <= eff).
  { intros _ Hq. rewrite <- (to_u32_of_u32 eff). apply to_u32_mono.
    destruct (Qlt_le_dec (of_u32 eff) (value a)) as [Hlt|]; [|done].
    apply Qlt_le_weak, qle_spec in Hlt. congruence. }
  destruct (enabled a && qle (of_u32 eff) (value a)) eqn:E; cbv zeta.
  - apply andb_true_iff in E as [Een Eq]. apply qle_spec, to_u32_mono in Eq. rewrite to_u32_of_u32 in Eq.
    destruct (IH (i + 1) (to_u32 (value a)) i) as (H1 & H2 & H3). split_and!; [lia| |].
    + intros b [->|Hb]%elem_of_cons; [done|auto].
    + right. destruct H3 as [->|(b & Hb & ?)]; [exists a; set_solver|exists b; set_solver].
  - destruct (IH (i + 1) eff arb) as (H1 & H2 & H3). split_and!; [done| |].
    + intros b [->|Hb]%elem_of_cons Hen; [|auto]. rewrite Hen in E. cbn [andb] in E.
      specialize (Hcase Hen E). lia.
    + destruct H3 as [|(b & Hb & ?)]; [by left|right]. exists b. set_solver.
Qed.

(** ** The throttler counters *)

(** Does arbiter [j] count in this calculation? *)
Definition counts_hit (l : list AiclkArb) (targ frozen : Z) (count : bool) (i j : Z) : bool :=
  match aget l (j - i) with
  | Some a => enabled a && Qeq_bool (value a) (of_u32 targ) && count && negb (Z.testbit frozen j)
  | None => false
  end.

Lemma aget_cons {A} (a : A) l i : 0 <= i -> aget (a :: l) i = if i =? 0 then Some a else aget l (i - 1).
Proof.
  intros Hi. rewrite aget_nat by done. destruct (Z.eqb_spec i 0) as [->|]; [done|].
  rewrite aget_nat by lia. replace (Z.to_nat i) with (S (Z.to_nat (i - 1))) by lia. done.
Qed.

Lemma counts_hit_cons a l targ frozen count i j :
  i <= j ->
  counts_hit (a :: l) targ frozen count i j =
    if j =? i then enabled a && Qeq_bool (value a) (of_u32 targ) && count && negb (Z.testbit frozen i)
    else counts_hit l targ frozen count (i + 1) j.
Proof.
  intros Hj. unfold counts_hit. rewrite aget_cons by lia.
  destruct (Z.eqb_spec j i) as [->|].
  - by rewrite Z.sub_diag.
  - destruct (Z.eqb_spec (j - i) 0); [lia|]. by replace (j - i - 1) with (j - (i + 1)) by lia.
Qed.

Lemma counts_hit_before l targ frozen count i j : j < i -> counts_hit l targ frozen count i j = false.
Proof. intros. unfold counts_hit. by rewrite aget_out by lia. Qed.

Lemma count_loop_ok l i targ frozen count cs o :
  0 <= i -> i + len l <= len cs -> Forall is_u32 cs ->
  exists cs' o', count_loop l i targ frozen count cs o = Some (cs', o') /\ length cs' = length cs /\
    Forall is_u32 cs' /\
    forall j c, aget cs j = Some c ->
      aget cs' j = Some (if counts_hit l targ frozen count i j then Z.min (c + 1) (2 ^ 32 - 1) else c) /\
      Z.testbit o' j = Z.testbit o j || (counts_hit l targ frozen count i j && (c =? 2 ^ 32 - 1)).
Proof.
  revert i cs o. induction l as [|a l IH]; intros i cs o Hi Hlen HF.
  { exists cs, o. split_and!; [done..|]. intros j c Hc. unfold counts_hit.
    assert (aget (@nil AiclkArb) (j - i) = None) as -> by (unfold aget; by case_match).
    by rewrite orb_false_r. }
  cbn [count_loop]. cbn [length] in Hlen.
  destruct (aget_in cs i ltac:(lia)) as [ci Eci]. pose proof (aget_Forall _ _ _ _ HF Eci) as Hci.
  assert (Hgen : forall cs1 o1 hit,
    (enabled a && Qeq_bool (value a) (of_u32 targ) && count && negb (Z.testbit frozen i)) = hit ->
    length cs1 = length cs -> Forall is_u32 cs1 ->
    (forall j c, aget cs j = Some c ->
      aget cs1 j = Some (if hit && (j =? i) then Z.min (c + 1) (2 ^ 32 - 1) else c) /\
      Z.testbit o1 j = Z.testbit o j || (hit && (j =? i) && (c =? 2 ^ 32 - 1))) ->
    exists cs' o', count_loop l (i + 1) targ frozen count cs1 o1 = Some (cs', o') /\ length cs' = length cs /\
      Forall is_u32 cs' /\ forall j c, aget cs j = Some c ->
      aget cs' j = Some (if counts_hit (a :: l) targ frozen count i j then Z.min (c + 1) (2 ^ 32 - 1) else c) /\
      Z.testbit o' j = Z.testbit o j || (counts_hit (a :: l) targ frozen count i j && (c =? 2 ^ 32 - 1))).
  { intros cs1 o1 hit Ehit Hl1 HF1 Hrel.
    destruct (IH (i + 1) cs1 o1) as (cs' & o' & E & Hl' & HF' & Hspec); [lia|lia|done|].
    exists cs', o'. split_and!; [done|congruence|done|]. intros j c Hc.
    destruct (Hrel j c Hc) as [Hg Ho]. destruct (Hspec j _ Hg) as [Hg' Ho']. rewrite Hg', Ho', Ho.
    destruct (Z.lt_ge_cases j i) as [Hlt|Hge].
    - rewrite !counts_hit_before by lia. destruct (Z.eqb_spec j i); [lia|].
      by destruct hit; cbn [andb]; rewrite !orb_false_r.
    - rewrite counts_hit_cons, Ehit by lia. destruct (Z.eqb_spec j i) as [->|].
      + rewrite (counts_hit_before l) by lia. by destruct hit; cbn [andb]; rewrite !orb_false_r.
      + by destruct hit; cbn [andb]; rewrite !orb_false_r. }
  destruct (enabled a && Qeq_bool (value a) (of_u32 targ) && count && negb (Z.testbit frozen i)) eqn:Ehit.
  - rewrite Eci. cbn [mbind option_bind]. destruct (Z.ltb_spec ci (2 ^ 32 - 1)) as [Hlt|Hge].
    + rewrite aset_in by lia. cbn [mbind option_bind]. apply (Hgen _ _ true); [done|apply length_insert| |].
      { apply Forall_insert; [done|]. unwrap. lia. }
      intros j c Hc. destruct (Z.eqb_spec j i) as [->|Hne].
      * rewrite aget_insert by lia. assert (c = ci) as -> by congruence. cbn [andb].
        destruct (Z.eqb_spec ci (2 ^ 32 - 1)); [lia|]. rewrite orb_false_r. split; [|done]. f_equal. lia.
      * rewrite aget_insert_ne by lia. cbn [andb]. by rewrite orb_false_r.
    + apply (Hgen _ _ true); [done..|]. intros j c Hc. cbn [andb].
      unfold BIT. rewrite Z.lor_spec, Z.shiftl_spec by (apply aget_range in Hc; lia).
      destruct (Z.eqb_spec j i) as [->|Hne].
      * assert (c = ci) as -> by congruence. rewrite Z.sub_diag.
        assert (Hmax : ci = 2 ^ 32 - 1) by (unwrap; lia). rewrite Eci, Hmax, Z.eqb_refl.
        split; [by vm_compute|]. by change (Z.testbit 1 0) with true.
      * split; [done|]. f_equal. destruct (Z.lt_ge_cases j i); [by rewrite Z.testbit_neg_r by lia|].
        rewrite (Z.bits_above_log2 1) by (cbn; lia). done.
  - apply (Hgen _ _ false); [done..|]. intros j c Hc. cbn [andb]. by rewrite orb_false_r.
Qed.

(** ** The target frequency *)

(** The floor under the arbitration. *)
Definition freq_floor (s : AiclkPPM) : Z := Z.max (fmin s) (host_requested_fmin s).

(** The three stages after the arbitration. *)
Definition swept (rand : Z) (s : AiclkPPM) (t : Z) : Z :=
  if sweep_en s =? 1 then u32 (u32 rand mod u32 (sweep_high s - sweep_low s + 1) + sweep_low s) else t.
Definition arbitrated (s : AiclkPPM) : Z :=
  Z.max (Z.min (get_aiclk_effective_arb_min s aiclk_arb_min_count).1
               (get_aiclk_effective_arb_max s aiclk_arb_max_count).1) (freq_floor s).
Definition overridden (s : AiclkPPM) (t : Z) : Z :=
  let t := if forced_freq s =? 0 then t else forced_freq s in
  if reset_safe s then Z.min t AICLK_RESET_SAFE_FREQ else t.

(** The throttling condition, on the frequency before the floor. *)
Definition throttle_hit (s : AiclkPPM) (j : Z) : bool :=
  let t := Z.min (get_aiclk_effective_arb_min s aiclk_arb_min_count).1
                 (get_aiclk_effective_arb_max s aiclk_arb_max_count).1 in
  counts_hit (arbiter_max s) t (throttler_frozen_mask s)
    (negb (t =? fmax s) &&
     match aget (arbiter_min s) aiclk_arb_min_busy with
     | Some a => Qeq_bool (value a) (of_u32 (fmax s)) | None => false end) 0 j.

Lemma CalculateTargAiclk_spec rand s :
  ppm_wf s -> 0 <= host_requested_fmin s -> (sweep_en s = 1 -> u32 (sweep_high s - sweep_low s + 1) <> 0) ->
  exists s', CalculateTargAiclk rand s = Some s' /\ ppm_wf s' /\
    targ_freq s' = overridden s (swept rand s (arbitrated s)) /\
    curr_freq s' = curr_freq s /\ fmin s' = fmin s /\ fmax s' = fmax s /\
    forced_freq s' = forced_freq s /\ reset_safe s' = reset_safe s /\
    host_requested_fmin s' = host_requested_fmin s /\
    throttler_frozen_mask s' = throttler_frozen_mask s /\
    forall j c, aget (final_arbiter_count s) j = Some c ->
      aget (final_arbiter_count s') j = Some (if throttle_hit s j then Z.min (c + 1) (2 ^ 32 - 1) else c) /\
      Z.testbit (throttler_overflow_mask s') j =
        Z.testbit (throttler_overflow_mask s) j || (throttle_hit s j && (c =? 2 ^ 32 - 1)).
Proof.
  intros [Hl Hx Hml Hnl Hcl Hc HM HN] Hh Hsw. unfold CalculateTargAiclk, arbitrated, throttle_hit.
  destruct (get_aiclk_effective_arb_min s aiclk_arb_min_count) as [lo lo_arb].
  destruct (get_aiclk_effective_arb_max s aiclk_arb_max_count) as [hi hi_arb]. cbn [fst].
  set (t0 := Z.min lo hi).
  assert (exists info, (if hi <? lo then (hi, (hi_arb, limit_reason_max_arb)) else (lo, (lo_arb, limit_reason_min_arb)))
            = (t0, info)) as [info ->].
  { subst t0. destruct (Z.ltb_spec hi lo); eexists; f_equal; lia. }
  destruct (aget_in (arbiter_min s) aiclk_arb_min_busy) as [busy Eb]; [rewrite Hnl; done|].
  rewrite Eb. cbn [mbind option_bind].
  destruct (count_loop_ok (arbiter_max s) 0 t0 (throttler_frozen_mask s)
    (negb (t0 =? fmax s) && Qeq_bool (value busy) (of_u32 (fmax s))) (final_arbiter_count s) (throttler_overflow_mask s))
    as (cs & o & E & Hl' & HF' & Hspec); [lia|lia|done|].
  rewrite E. cbn [mbind option_bind].
  assert ((if 0 <? host_requested_fmin s then Z.max (fmin s) (host_requested_fmin s) else fmin s) = freq_floor s) as ->.
  { unfold freq_floor. destruct (Z.ltb_spec 0 (host_requested_fmin s)); lia. }
  assert (exists info', (if t0 <? freq_floor s then (freq_floor s, (0, limit_reason_fmin)) else (t0, info))
            = (Z.max t0 (freq_floor s), info')) as [info' ->].
  { destruct (Z.ltb_spec t0 (freq_floor s)); eexists; f_equal; lia. }
  set (t1 := Z.max t0 (freq_floor s)).
  assert (exists info'', (if sweep_en s =? 1 then
             if u32 (sweep_high s - sweep_low s + 1) =? 0 then None
             else Some (u32 (u32 rand mod u32 (sweep_high s - sweep_low s + 1) + sweep_low s), (0, limit_reason_sweep))
           else Some (t1, info')) = Some (swept rand s t1, info'')) as [info'' Es].
  { unfold swept. destruct (Z.eqb_spec (sweep_en s) 1) as [E1|]; [|by eexists].
    destruct (Z.eqb_spec (u32 (sweep_high s - sweep_low s + 1)) 0) as [E0|]; [by destruct (Hsw E1)|by eexists]. }
  cbv zeta. rewrite Es. cbn [mbind option_bind].
  assert (exists info3, (if negb (forced_freq s =? 0) then (forced_freq s, (0, limit_reason_forced)) else (swept rand s t1, info''))
    = ((if forced_freq s =? 0 then swept rand s t1 else forced_freq s), info3)) as [info3 ->].
  { destruct (forced_freq s =? 0); by eexists. }
  eexists. split; [done|]. unfold overridden. cbn.
  split; [split; cbn; try done; by rewrite Hl'|].
  split; [|by split_and!].
  destruct (reset_safe s); cbn [andb]; [|done].
  destruct (Z.ltb_spec AICLK_RESET_SAFE_FREQ (if forced_freq s =? 0 then swept rand s t1 else forced_freq s)); lia.
Qed.

(** C38: Frequency arbitration.  On a well-formed state, unless a sweep over an empty
    range is running, the calculation succeeds and keeps the state well formed.
    Without override the target is at least the floor (the larger of Fmin and the
    host's floor); if above the floor it respects Fmax and every enabled maximum
    arbiter, and is as high as every enabled minimum arbiter asks unless some
    maximum arbiter sets it.  A forced frequency wins over all of this, and the
    reset-safe cap of 250 MHz wins over everything. *)
Theorem aiclk_arbitration rand s :
  ppm_wf s -> 0 <= host_requested_fmin s -> (sweep_en s = 1 -> u32 (sweep_high s - sweep_low s + 1) <> 0) ->
  exists s', CalculateTargAiclk rand s = Some s' /\ ppm_wf s' /\
    (reset_safe s = true -> targ_freq s' <= AICLK_RESET_SAFE_FREQ) /\
    (reset_safe s = false -> forced_freq s <> 0 -> targ_freq s' = forced_freq s) /\
    (reset_safe s = false -> forced_freq s = 0 -> sweep_en s <> 1 ->
       freq_floor s <= targ_freq s' /\
       (targ_freq s' = freq_floor s \/
        targ_freq s' <= fmax s /\
        (forall a, a ∈ arbiter_max s -> enabled a = true -> targ_freq s' <= to_u32 (value a)) /\
        ((forall a, a ∈ arbiter_min s -> enabled a = true -> to_u32 (value a) <= targ_freq s') \/
         targ_freq s' = fmax s \/
         exists a, a ∈ arbiter_max s /\ enabled a = true /\ targ_freq s' = to_u32 (value a)))).
Proof.
  intros Hwf Hh Hsw.
  destruct (CalculateTargAiclk_spec rand s Hwf Hh Hsw) as (s' & E & Hwf' & Et & _).
  exists s'. split; [done|]. split; [done|]. rewrite Et. unfold overridden. split_and!.
  - intros ->. lia.
  - intros -> Hf. by destruct (Z.eqb_spec (forced_freq s) 0).
  - intros -> -> Hs. cbn [Z.eqb]. unfold swept. destruct (Z.eqb_spec (sweep_en s) 1) as [|_]; [done|].
    unfold arbitrated, get_aiclk_effective_arb_max, get_aiclk_effective_arb_min.
    destruct (arb_max_loop_spec (arbiter_max s) 0 (fmax s) aiclk_arb_max_count) as (Hm1 & Hm2 & Hm3).
    destruct (arb_min_loop_spec (arbiter_min s) 0 (fmin s) aiclk_arb_min_count) as (Hn1 & Hn2 & Hn3).
    cbv zeta in *. set (hi := (arb_max_loop _ _ _ _).1) in *. set (lo := (arb_min_loop _ _ _ _).1) in *.
    split; [lia|]. destruct (Z.le_gt_cases (Z.min lo hi) (freq_floor s)) as [|Hgt]; [left; lia|right].
    rewrite Z.max_l by lia. split_and!; [lia| |].
    + intros a Ha Hen. specialize (Hm2 a Ha Hen). lia.
    + destruct (Z.le_gt_cases lo hi).
      * left. intros a Ha Hen. specialize (Hn2 a Ha Hen). lia.
      * right. rewrite Z.min_r by lia. destruct Hm3 as [|(a & ? & ? & ?)]; [by left|right]. by exists a.
Qed.

(** A state as [InitAiclkPPM] leaves it, at 800 MHz, with limits 200 and 1000 MHz. *)
Definition ppm0 : AiclkPPM :=
  MkPPM 800 800 800 1000 200 0 0 false 0 0 0 (0, limit_reason_min_arb)
    (replicate 10 (MkArb true (of_u32 1000)) ++ [MkArb false (of_u32 1000)])
    (replicate 2 (MkArb true (of_u32 200))) false (replicate 11 0) 0 0.

Lemma ppm0_in_limits z : 200 <= z <= 1000 -> in_limits ppm0 (of_u32 z).
Proof. intros Hz. unfold in_limits, of_u32. rewrite <- !Zle_Qle. exact Hz. Qed.

Lemma ppm0_wf : ppm_wf ppm0.
Proof.
  split.
  - by split.
  - done.
  - done.
  - done.
  - done.
  - apply (Forall_replicate _ 11 0). by split.
  - apply Forall_app. split; [apply Forall_replicate|apply Forall_singleton]; by apply ppm0_in_limits.
  - apply Forall_replicate. by apply ppm0_in_limits.
Qed.

Lemma aiclk_arbitration_witness :
  exists s s', SetAiclkArbMin aiclk_arb_min_busy (of_u32 1000) ppm0 = Some s /\
    CalculateTargAiclk 0 s = Some s' /\ ppm_wf s' /\ targ_freq s' = 1000.
Proof.
  destruct (SetAiclkArbMin_wf aiclk_arb_min_busy (of_u32 1000) ppm0 ppm0_wf) as (s & E & Hwf); [done|].
  pose proof E as E1. vm_compute in E1. injection E1 as <-.
  destruct (aiclk_arbitration 0 _ Hwf) as (s' & E' & Hwf' & _); [by vm_compute|by vm_compute|].
  eexists _, s'. split; [exact E|]. split; [done|]. split; [done|].
  vm_compute in E'. injection E' as <-. done.
Defined.

(** Requests that break the limits.  The host may start a sweep whose low end is
    one above its high end, and the next calculation divides by zero; and a host
    floor above the chip's Fmax drives the target above Fmax. *)
Theorem aiclk_host_requests_break_limits rand s :
  ppm_wf s ->
  (forall low, fmin s < low <= fmax s ->
     let '(status, s') := SweepAiclkHandler TT_SMC_MSG_AISWEEP_START low (low - 1) s in
     status = 0 /\ CalculateTargAiclk rand s' = None) /\
  (forall f, fmax s < f <= AICLK_FMIN_MAX -> AICLK_FMIN_MIN <= f -> f <> 1 ->
     sweep_en s <> 1 -> forced_freq s = 0 -> reset_safe s = false ->
     let '(status, s') := handle_char_set_host_fmin f s in
     exists s'', status = 0 /\ CalculateTargAiclk rand s' = Some s'' /\ targ_freq s'' = f /\ fmax s'' < targ_freq s'').
Proof.
  intros Hwf. pose proof Hwf as [Hl Hx _ Hnl _ _ _ _]. split.
  - intros low Hlow. unfold SweepAiclkHandler. cbn [Z.eqb TT_SMC_MSG_AISWEEP_START Pos.eqb].
    destruct (Z.eqb_spec low 0), (Z.eqb_spec (low - 1) 0); [lia|lia| |].
    + exfalso. lia.
    + cbn [orb]. split; [done|]. rewrite Z.max_l, Z.min_l by lia.
      unfold CalculateTargAiclk.
      destruct (get_aiclk_effective_arb_min _ _) as [a b]. destruct (get_aiclk_effective_arb_max _ _) as [c d].
      destruct (if c <? a then _ else _) as [t0 i0]. destruct (aget _ _); cbn [mbind option_bind]; [|done].
      destruct (count_loop _ _ _ _ _ _ _) as [ [? ?]|]; cbn [mbind option_bind]; [|done]. cbv zeta.
      destruct (if t0 <? _ then _ else _) as [t1 i1].
      cbn [sweep_en sweep_high sweep_low set_sweep_en set_sweep_high set_sweep_low Z.eqb Pos.eqb].
      by replace (low - 1 - low + 1) with 0 by lia.
  - intros f Hf Hf2 Hne Hs Hfo Hr. unfold handle_char_set_host_fmin.
    destruct (Z.eqb_spec f 1); [done|]. destruct (Z.ltb_spec AICLK_FMIN_MAX f); [lia|].
    destruct (Z.ltb_spec f AICLK_FMIN_MIN); [lia|]. cbn [orb].
    set (s1 := set_host_requested_fmin f s).
    assert (ppm_wf s1) as Hwf1 by (by destruct Hwf; split).
    destruct (CalculateTargAiclk_spec rand s1 Hwf1) as (s2 & E & _ & Et & _ & _ & Ex & _);
      [cbn; lia|by intros|].
    exists s2. split; [done|]. split; [done|].
    assert (targ_freq s2 = f) as ->; [|split; [done|]; rewrite Ex; cbn; lia].
    rewrite Et. unfold overridden, swept, arbitrated, freq_floor. cbn [reset_safe forced_freq sweep_en s1 set_host_requested_fmin].
    rewrite Hr, Hfo. cbn [Z.eqb]. destruct (Z.eqb_spec (sweep_en s) 1); [done|].
    destruct (arb_max_loop_spec (arbiter_max s) 0 (fmax s) aiclk_arb_max_count) as (Hm1 & _).
    unfold get_aiclk_effective_arb_max. cbn. cbn in Hm1. lia.
Qed.

Lemma aiclk_host_requests_break_limits_witness :
  (let '(_, s') := SweepAiclkHandler TT_SMC_MSG_AISWEEP_START 801 800 ppm0 in CalculateTargAiclk 5 s' = None) /\
  (let '(_, s') := handle_char_set_host_fmin 1300 ppm0 in
   exists s'', CalculateTargAiclk 5 s' = Some s'' /\ targ_freq s'' = 1300).
Proof.
  destruct (aiclk_host_requests_break_limits 5 ppm0 ppm0_wf) as [H1 H2]. split.
  - exact (proj2 (H1 801 ltac:(by vm_compute))).
  - destruct (H2 1300) as (s'' & _ & E & Et & _); try by vm_compute. by exists s''.
Defined.

(** ** Frequency for a voltage *)

Lemma voltage_search_spec exceeds fuel low high lo0 hi0 :
  (forall a b, a <= b -> exceeds a = true -> exceeds b = true) ->
  0 < lo0 <= low -> low <= high -> high <= hi0 < 2 ^ 30 -> high - low < Z.of_nat fuel ->
  (forall f, lo0 <= f < low -> exceeds f = false) -> (forall f, high <= f < hi0 -> exceeds f = true) ->
  exists r, voltage_search fuel exceeds low high = Some r /\ low <= r <= high /\
    (forall f, lo0 <= f < r -> exceeds f = false) /\ (forall f, r <= f < hi0 -> exceeds f = true).
Proof.
  intros Hmono Hlo0. revert low high Hlo0. induction fuel as [|fuel IH]; intros low high Hlo0 Hlh Hhi Hfuel Hbelow Habove;
    [lia|].
  cbn [voltage_search]. destruct (Z.ltb_spec low high) as [Hlt|]; [|exists low; split_and!; [done|lia|lia|done|]].
  2:{ intros f Hf. apply Habove. lia. }
  rewrite !wrap_small by word_lia. set (mid := (low + high) / 2).
  assert (Hmid : low <= mid < high) by (subst mid; word_lia).
  destruct (exceeds mid) eqn:Em.
  - destruct (IH low mid) as (r & E & Hr & H1 & H2); [lia|lia|lia|lia|done| |].
    { intros f Hf. apply (Hmono mid); [lia|done]. }
    exists r. split_and!; [done|lia|lia|done|done].
  - destruct (IH (mid + 1) high) as (r & E & Hr & H1 & H2); [lia|lia|lia|lia| |done|].
    { intros f Hf. destruct (exceeds f) eqn:Ef; [|done]. rewrite (Hmono f mid) in Em; [done|lia|done]. }
    exists r. split_and!; [done|lia|lia|done|done].
Qed.

(** The largest frequency for a voltage.  For a voltage curve that rises with
    frequency the binary search ends and returns the largest frequency within
    [Fmin..Fmax] whose voltage is within the limit, and [Fmin - 1] when even Fmin
    needs more. *)
Theorem max_aiclk_for_voltage exceeds s :
  ppm_wf s -> (forall a b, a <= b -> exceeds a = true -> exceeds b = true) ->
  exists r, GetMaxAiclkForVoltage exceeds s = Some r /\ fmin s - 1 <= r <= fmax s /\
    (forall f, fmin s <= f <= r -> exceeds f = false) /\ (forall f, r < f <= fmax s -> exceeds f = true).
Proof.
  intros [Hl Hx _ _ _ _ _ _] Hmono. unfold GetMaxAiclkForVoltage. unfold AICLK_FMAX_MAX in Hx.
  rewrite (wrap_small 32) by (unwrap; lia).
  destruct (voltage_search_spec exceeds (S (Z.to_nat (fmax s + 1))) (fmin s) (fmax s + 1) (fmin s) (fmax s + 1))
    as (r & E & Hr & H1 & H2); [done|lia|lia|lia|lia|intros; lia|intros; lia|].
  rewrite E. cbn [mbind option_bind]. exists (r - 1). rewrite wrap_small by (unwrap; lia).
  split_and!; [done|lia|lia| |]; intros; [apply H1|apply H2]; lia.
Qed.

Lemma max_aiclk_for_voltage_witness :
  GetMaxAiclkForVoltage (fun f => 850 <? f) ppm0 = Some 850.
Proof.
  destruct (max_aiclk_for_voltage (fun f => 850 <? f) ppm0 ppm0_wf) as (r & E & _).
  { intros a b Hab Ha%Z.ltb_lt. apply Z.ltb_lt. lia. }
  rewrite E. vm_compute in E. by injection E as <-.
Defined.

(** Throttler counters.  Each calculation adds one to the counter of every
    enabled, unfrozen maximum arbiter that holds the frequency down while the
    chip is busy, and leaves the others alone; a counter stops at [2^32 - 1] and
    then raises its overflow bit, which stays until the host clears it; reading
    back gives the count with overflow in bit 0 and frozen in bit 16. *)
Theorem throttler_counters_saturate rand s idx c :
  ppm_wf s -> 0 <= host_requested_fmin s -> sweep_en s <> 1 ->
  aget (final_arbiter_count s) idx = Some c ->
  exists s', CalculateTargAiclk rand s = Some s' /\
    let c' := if throttle_hit s idx then Z.min (c + 1) (2 ^ 32 - 1) else c in
    let ovf := Z.testbit (throttler_overflow_mask s) idx || (throttle_hit s idx && (c =? 2 ^ 32 - 1)) in
    let frz := Z.testbit (throttler_frozen_mask s) idx in
    aget (final_arbiter_count s') idx = Some c' /\ c' < 2 ^ 32 /\
    (frz = true -> c' = c) /\
    throttler_counter_handler (COUNTER_CMD_GET idx) s' =
      Some (0, Some ((if ovf then 1 else 0) + (if frz then 65536 else 0), c'), s').
Proof.
  intros Hwf Hh Hs Hc.
  destruct (CalculateTargAiclk_spec rand s Hwf Hh ltac:(done)) as
    (s' & E & _ & _ & _ & _ & _ & _ & _ & _ & Ef & Hcnt).
  destruct (Hcnt idx c Hc) as [Hg Ho]. exists s'. split; [done|]. cbv zeta.
  pose proof (aget_Forall _ _ _ _ (wf_counts _ Hwf) Hc) as Hu.
  pose proof (aget_range _ _ _ Hc) as Hr. rewrite (wf_count_len _ Hwf) in Hr.
  split; [done|]. split; [destruct (throttle_hit s idx); unwrap; lia|]. split.
  - intros Hf. unfold throttle_hit, counts_hit. destruct (aget (arbiter_max s) (idx - 0)); [|done].
    by rewrite Hf, !andb_false_r.
  - cbn [throttler_counter_handler]. destruct (Z.leb_spec aiclk_arb_max_count idx); [lia|].
    rewrite Hg, Ho, Ef. cbn [mbind option_bind]. do 3 f_equal.
    by destruct (Z.testbit (throttler_overflow_mask s) idx || _), (Z.testbit (throttler_frozen_mask s) idx).
Qed.

Lemma throttler_counters_saturate_witness :
  exists s', CalculateTargAiclk 0 ppm0 = Some s' /\
    throttler_counter_handler (COUNTER_CMD_GET 3) s' = Some (0, Some (0, 0), s').
Proof.
  destruct (throttler_counters_saturate 0 ppm0 3 0 ppm0_wf) as (s' & E & _ & _ & _ & Eg);
    [by vm_compute|by vm_compute|by vm_compute|].
  exists s'. split; [exact E|]. rewrite Eg. by vm_compute.
Defined.
