(* ===== verification/Throttler.v ===== *)
(** * The throttlers ([lib/tenstorrent/bh_arc/throttler.c])

    Proportional-derivative throttlers that lower the AICLK arbiters, the board
    power throttler (Doppler) with its consecutive-sample triggers, and the
    kernel throttler that makes the Tensix cores insert NOPs.  Floats are
    rationals as in [Aiclk]; [rnd] is the rounding of a float operation. *)

From Stdlib Require Import QArith Qround.
From S2P Require Import Prelude Aiclk.
#[global] Open Scope Z_scope.

(** ** Data *)

Definition kThrottlerTDP : Z := 0.
Definition kThrottlerFastTDC : Z := 1.
Definition kThrottlerTDC : Z := 2.
Definition kThrottlerThm : Z := 3.
Definition kThrottlerBoardPower : Z := 4.
Definition kThrottlerGDDRThm : Z := 5.
Definition kThrottlerDopplerSlow : Z := 6.
Definition kThrottlerCount : Z := 7.
Definition DEFAULT_BOARD_POWER_LIMIT : Z := 150.
Definition UINT8_MAX : Z := 255.

(** [throttler_limit_ranges]: (min, max) per throttler. *)
Definition throttler_limit_ranges : list (Z * Z) :=
  [(50, 500); (50, 500); (50, 400); (50, 100); (50, 600); (50, 100); (50, 1200)].

(** The statics of the file; [broadcasts] are the counter values written to the
    Tensix cores, newest first.  [doppler_slow], [doppler_t2] and [doppler_t3] are
    always equal to [doppler]. *)
Record Throttler := MkThrottler {
  arb_max : Z;
  alpha_filter : Q;
  p_gain : Q;
  d_gain : Q;
  limit : Q;
  tvalue : Q;
  error : Q;
  prev_error : Q;
  output : Q
}.

Record thr := MkThr {
  power_limit : Z;
  doppler : bool;
  stop_nops_freq : Z;
  stop_nops_freq_default : Z;
  throttlers : list Throttler;
  throttle_counter : Z;
  tensixes_enabled : bool;
  nop_on_since_ms : Z;
  nop_on_accum_ms : Z;
  prev_nop_on_accum_ms : Z;
  seeded : bool;
  board_power_history : list Z;
  board_power_history_cursor : Z;
  board_power_sum : Z;
  kernel_nops_enabled : bool;
  t2_count : Z;
  t3_count : Z;
  broadcasts : list Z
}.

Definition set_limit (v : Q) (t : Throttler) : Throttler :=
  MkThrottler (arb_max t) (alpha_filter t) (p_gain t) (d_gain t) v (tvalue t) (error t)
    (prev_error t) (output t).
Definition set_tvalue (v : Q) (t : Throttler) : Throttler :=
  MkThrottler (arb_max t) (alpha_filter t) (p_gain t) (d_gain t) (limit t) v (error t)
    (prev_error t) (output t).
Definition set_error (v : Q) (t : Throttler) : Throttler :=
  MkThrottler (arb_max t) (alpha_filter t) (p_gain t) (d_gain t) (limit t) (tvalue t) v
    (prev_error t) (output t).
Definition set_prev_error (v : Q) (t : Throttler) : Throttler :=
  MkThrottler (arb_max t) (alpha_filter t) (p_gain t) (d_gain t) (limit t) (tvalue t) (error t)
    v (output t).
Definition set_output (v : Q) (t : Throttler) : Throttler :=
  MkThrottler (arb_max t) (alpha_filter t) (p_gain t) (d_gain t) (limit t) (tvalue t) (error t)
    (prev_error t) v.

Definition set_power_limit (v : Z) (s : thr) : thr :=
  MkThr v (doppler s) (stop_nops_freq s) (stop_nops_freq_default s) (throttlers s)
    (throttle_counter s) (tensixes_enabled s) (nop_on_since_ms s) (nop_on_accum_ms s)
    (prev_nop_on_accum_ms s) (seeded s) (board_power_history s) (board_power_history_cursor s)
    (board_power_sum s) (kernel_nops_enabled s) (t2_count s) (t3_count s) (broadcasts s).
Definition set_stop_nops_freq (v : Z) (s : thr) : thr :=
  MkThr (power_limit s) (doppler s) v (stop_nops_freq_default s) (throttlers s)
    (throttle_counter s) (tensixes_enabled s) (nop_on_since_ms s) (nop_on_accum_ms s)
    (prev_nop_on_accum_ms s) (seeded s) (board_power_history s) (board_power_history_cursor s)
    (board_power_sum s) (kernel_nops_enabled s) (t2_count s) (t3_count s) (broadcasts s).
Definition set_throttlers (v : list Throttler) (s : thr) : thr :=
  MkThr (power_limit s) (doppler s) (stop_nops_freq s) (stop_nops_freq_default s) v
    (throttle_counter s) (tensixes_enabled s) (nop_on_since_ms s) (nop_on_accum_ms s)
    (prev_nop_on_accum_ms s) (seeded s) (board_power_history s) (board_power_history_cursor s)
    (board_power_sum s) (kernel_nops_enabled s) (t2_count s) (t3_count s) (broadcasts s).
Definition set_throttle_counter (v : Z) (s : thr) : thr :=
  MkThr (power_limit s) (doppler s) (stop_nops_freq s) (stop_nops_freq_default s) (throttlers s)
    v (tensixes_enabled s) (nop_on_since_ms s) (nop_on_accum_ms s) (prev_nop_on_accum_ms s)
    (seeded s) (board_power_history s) (board_power_history_cursor s) (board_power_sum s)
    (kernel_nops_enabled s) (t2_count s) (t3_count s) (broadcasts s).
Definition set_tensixes_enabled (v : bool) (s : thr) : thr :=
  MkThr (power_limit s) (doppler s) (stop_nops_freq s) (stop_nops_freq_default s) (throttlers s)
    (throttle_counter s) v (nop_on_since_ms s) (nop_on_accum_ms s) (prev_nop_on_accum_ms s)
    (seeded s) (board_power_history s) (board_power_history_cursor s) (board_power_sum s)
    (kernel_nops_enabled s) (t2_count s) (t3_count s) (broadcasts s).
Definition set_nop_on_since_ms (v : Z) (s : thr) : thr :=
  MkThr (power_limit s) (doppler s) (stop_nops_freq s) (stop_nops_freq_default s) (throttlers s)
    (throttle_counter s) (tensixes_enabled s) v (nop_on_accum_ms s) (prev_nop_on_accum_ms s)
    (seeded s) (board_power_history s) (board_power_history_cursor s) (board_power_sum s)
    (kernel_nops_enabled s) (t2_count s) (t3_count s) (broadcasts s).
Definition set_nop_on_accum_ms (v : Z) (s : thr) : thr :=
  MkThr (power_limit s) (doppler s) (stop_nops_freq s) (stop_nops_freq_default s) (throttlers s)
    (throttle_counter s) (tensixes_enabled s) (nop_on_since_ms s) v (prev_nop_on_accum_ms s)
    (seeded s) (board_power_history s) (board_power_history_cursor s) (board_power_sum s)
    (kernel_nops_enabled s) (t2_count s) (t3_count s) (broadcasts s).
Definition set_prev_nop_on_accum_ms (v : Z) (s : thr) : thr :=
  MkThr (power_limit s) (doppler s) (stop_nops_freq s) (stop_nops_freq_default s) (throttlers s)
    (throttle_counter s) (tensixes_enabled s) (nop_on_since_ms s) (nop_on_accum_ms s) v (seeded
    s) (board_power_history s) (board_power_history_cursor s) (board_power_sum s)
    (kernel_nops_enabled s) (t2_count s) (t3_count s) (broadcasts s).
Definition set_seeded (v : bool) (s : thr) : thr :=
  MkThr (power_limit s) (doppler s) (stop_nops_freq s) (stop_nops_freq_default s) (throttlers s)
    (throttle_counter s) (tensixes_enabled s) (nop_on_since_ms s) (nop_on_accum_ms s)
    (prev_nop_on_accum_ms s) v (board_power_history s) (board_power_history_cursor s)
    (board_power_sum s) (kernel_nops_enabled s) (t2_count s) (t3_count s) (broadcasts s).
Definition set_board_power_history (v : list Z) (s : thr) : thr :=
  MkThr (power_limit s) (doppler s) (stop_nops_freq s) (stop_nops_freq_default s) (throttlers s)
    (throttle_counter s) (tensixes_enabled s) (nop_on_since_ms s) (nop_on_accum_ms s)
    (prev_nop_on_accum_ms s) (seeded s) v (board_power_history_cursor s) (board_power_sum s)
    (kernel_nops_enabled s) (t2_count s) (t3_count s) (broadcasts s).
Definition set_board_power_history_cursor (v : Z) (s : thr) : thr :=
  MkThr (power_limit s) (doppler s) (stop_nops_freq s) (stop_nops_freq_default s) (throttlers s)
    (throttle_counter s) (tensixes_enabled s) (nop_on_since_ms s) (nop_on_accum_ms s)
    (prev_nop_on_accum_ms s) (seeded s) (board_power_history s) v (board_power_sum s)
    (kernel_nops_enabled s) (t2_count s) (t3_count s) (broadcasts s).
Definition set_board_power_sum (v : Z) (s : thr) : thr :=
  MkThr (power_limit s) (doppler s) (stop_nops_freq s) (stop_nops_freq_default s) (throttlers s)
    (throttle_counter s) (tensixes_enabled s) (nop_on_since_ms s) (nop_on_accum_ms s)
    (prev_nop_on_accum_ms s) (seeded s) (board_power_history s) (board_power_history_cursor s) v
    (kernel_nops_enabled s) (t2_count s) (t3_count s) (broadcasts s).
Definition set_kernel_nops_enabled (v : bool) (s : thr) : thr :=
  MkThr (power_limit s) (doppler s) (stop_nops_freq s) (stop_nops_freq_default s) (throttlers s)
    (throttle_counter s) (tensixes_enabled s) (nop_on_since_ms s) (nop_on_accum_ms s)
    (prev_nop_on_accum_ms s) (seeded s) (board_power_history s) (board_power_history_cursor s)
    (board_power_sum s) v (t2_count s) (t3_count s) (broadcasts s).
Definition set_t2_count (v : Z) (s : thr) : thr :=
  MkThr (power_limit s) (doppler s) (stop_nops_freq s) (stop_nops_freq_default s) (throttlers s)
    (throttle_counter s) (tensixes_enabled s) (nop_on_since_ms s) (nop_on_accum_ms s)
    (prev_nop_on_accum_ms s) (seeded s) (board_power_history s) (board_power_history_cursor s)
    (board_power_sum s) (kernel_nops_enabled s) v (t3_count s) (broadcasts s).
Definition set_t3_count (v : Z) (s : thr) : thr :=
  MkThr (power_limit s) (doppler s) (stop_nops_freq s) (stop_nops_freq_default s) (throttlers s)
    (throttle_counter s) (tensixes_enabled s) (nop_on_since_ms s) (nop_on_accum_ms s)
    (prev_nop_on_accum_ms s) (seeded s) (board_power_history s) (board_power_history_cursor s)
    (board_power_sum s) (kernel_nops_enabled s) (t2_count s) v (broadcasts s).
Definition set_broadcasts (v : list Z) (s : thr) : thr :=
  MkThr (power_limit s) (doppler s) (stop_nops_freq s) (stop_nops_freq_default s) (throttlers s)
    (throttle_counter s) (tensixes_enabled s) (nop_on_since_ms s) (nop_on_accum_ms s)
    (prev_nop_on_accum_ms s) (seeded s) (board_power_history s) (board_power_history_cursor s)
    (board_power_sum s) (kernel_nops_enabled s) (t2_count s) (t3_count s) v.

(** What a calculation reads: telemetry, board power, uptime, and the
    feature flag [kernel_nops_at_aiclk_fmin]. *)
Record inputs := MkInputs {
  vcore_power : Q;
  vcore_current : Q;
  asic_temperature : Q;
  max_gddr_temp : Q;
  input_power : Z;
  uptime_ms : Z;
  kernel_nops_at_aiclk_fmin : bool
}.

Definition throttler0 : list Throttler :=
  let mk arb a p d := MkThrottler arb a p d 0 0 0 0 0 in
  [mk aiclk_arb_max_tdp 1%Q (15 # 1000)%Q (1 # 10)%Q; mk aiclk_arb_max_fast_tdc 1%Q (1 # 2)%Q 0%Q;
   mk aiclk_arb_max_tdc (1 # 10)%Q (2 # 10)%Q 0%Q; mk aiclk_arb_max_thm 1%Q (2 # 10)%Q 0%Q;
   mk aiclk_arb_max_board_power 1%Q (1 # 10)%Q (1 # 10)%Q; mk aiclk_arb_max_gddr_thm 1%Q (2 # 10)%Q 0%Q;
   mk aiclk_arb_max_doppler_slow 1%Q (25 # 10000)%Q (3 # 10)%Q].

(** ** Limits *)

Definition get_throttler_clamped_limit (id : Z) (l : Q) : option Q :=
  r ← aget throttler_limit_ranges id; Some (CLAMP l (of_u32 r.1) (of_u32 r.2)).

Definition SetThrottlerLimit (id : Z) (l : Q) (s : thr) : option thr :=
  c ← get_throttler_clamped_limit id l;
  t ← aget (throttlers s) id;
  ts ← aset (throttlers s) id (set_limit c t);
  Some (set_throttlers ts s).

(** ** Kernel throttling *)

Definition BroadcastKernelThrottleState (s : thr) : thr :=
  if tensixes_enabled s then set_broadcasts (throttle_counter s :: broadcasts s) s else s.

Definition InitKernelThrottling (s : thr) : thr :=
  BroadcastKernelThrottleState
    (set_throttle_counter 0 (set_nop_on_since_ms 0 (set_nop_on_accum_ms 0 (set_prev_nop_on_accum_ms 0 s)))).

Definition SendKernelThrottlingMessage (now : Z) (throttle : bool) (s : thr) : thr :=
  let c := u32 (throttle_counter s + 1) in
  let c := if negb (Z.land c 1 =? (if throttle then 1 else 0)) then u32 (c + 1) else c in
  let s := set_throttle_counter c s in
  let s := if throttle then set_nop_on_since_ms (u32 now) s
           else set_nop_on_accum_ms (u32 (nop_on_accum_ms s + u32 (u32 now - nop_on_since_ms s))) s in
  BroadcastKernelThrottleState s.

Definition doppler_tensix_state_callback (enable : bool) (s : thr) : thr :=
  BroadcastKernelThrottleState (set_tensixes_enabled enable s).

(** Switching the NOPs, when the state changes. *)
Definition switch_nops (now : Z) (b : bool) (s : thr) : thr :=
  if negb (Bool.eqb b (kernel_nops_enabled s))
  then SendKernelThrottlingMessage now b (set_kernel_nops_enabled b s) else s.

(** ** Throttler updates *)

Section rounding.
(** Rounding of the exact result of a float operation. *)
Variable rnd : Q -> Q.

Definition fadd (a b : Q) : Q := rnd (a + b)%Q.
Definition fsub (a b : Q) : Q := rnd (a - b)%Q.
Definition fmul (a b : Q) : Q := rnd (a * b)%Q.
Definition fdiv (a b : Q) : Q := rnd (a / b)%Q.
Definition kThrottlerAiclkScaleFactor : Q := 500%Q.

Definition UpdateThrottler (id : Z) (v : Q) (s : thr) : option thr :=
  t ← aget (throttlers s) id;
  let v' := fadd (fmul (alpha_filter t) v) (fmul (fsub 1 (alpha_filter t)) (tvalue t)) in
  let e := fdiv (fsub (limit t) v') (limit t) in
  let o := fadd (fmul (p_gain t) e) (fmul (d_gain t) (fsub e (prev_error t))) in
  ts ← aset (throttlers s) id (set_prev_error e (set_output o (set_error e (set_tvalue v' t))));
  Some (set_throttlers ts s).

Definition UpdateThrottlerArb (id : Z) (s : thr) (ppm : AiclkPPM) : option AiclkPPM :=
  t ← aget (throttlers s) id;
  arb_val ← GetThrottlerArbMax (arb_max t) ppm;
  SetAiclkArbMax (arb_max t) (fadd arb_val (fmul (output t) kThrottlerAiclkScaleFactor)) ppm.

(** ** Doppler *)

(** [ADVANCE_CIRCULAR_POINTER] on the index of the cursor. *)
Definition advance (cursor n : Z) : Z := if cursor + 1 =? n then 0 else cursor + 1.

Definition UpdateMovingAveragePower (current_power : Z) (s : thr) : option (Z * thr) :=
  old ← aget (board_power_history s) (board_power_history_cursor s);
  let sum := u32 (board_power_sum s + (current_power - old)) in
  h ← aset (board_power_history s) (board_power_history_cursor s) current_power;
  Some (u16 (sum / len (board_power_history s)),
        set_board_power_sum sum (set_board_power_history h
          (set_board_power_history_cursor (advance (board_power_history_cursor s) (len (board_power_history s))) s))).

Definition DopplerActive (s : thr) : bool := doppler s && (0 <? power_limit s).

(** A saturating count of consecutive samples above a limit. *)
Definition count_above (power lim count : Z) : Z :=
  if lim <? power then if count <? UINT8_MAX then count + 1 else count else 0.

Definition UpdateDoppler (inp : inputs) (s : thr) (ppm : AiclkPPM) : option (thr * AiclkPPM) :=
  let current_power := input_power inp in
  '(average_power, s) ← UpdateMovingAveragePower current_power s;
  s ← UpdateThrottler kThrottlerDopplerSlow (of_u32 average_power) s;
  let s := set_t2_count (count_above current_power (u32 (power_limit s * 2)) (t2_count s)) s in
  let t2_triggered := (10 <=? t2_count s) && doppler s in
  let s := set_t3_count (count_above current_power (u32 (power_limit s * 5) / 2) (t3_count s)) s in
  let t3_triggered := (2 <=? t3_count s) && doppler s in
  let start_nops := (GetAiclkTarg ppm =? GetAiclkFmin ppm) && (power_limit s <? current_power) in
  let stop_nops := (GetAiclkTarg ppm =? GetAiclkFmax ppm) && (current_power <? power_limit s) in
  let critical_throttling := t2_triggered || t3_triggered in
  let new_enabled := ((kernel_nops_enabled s || start_nops) && negb stop_nops) || critical_throttling in
  let s := switch_nops (uptime_ms inp) new_enabled s in
  ppm ← EnableArbMax aiclk_arb_max_doppler_critical critical_throttling ppm;
  Some (s, ppm).

(** ** The kernel throttler *)

Definition UpdateKernelThrottler (inp : inputs) (current_power tdp_limit : Q) (s : thr) (ppm : AiclkPPM) : thr :=
  let '(start_nops, stop_nops) :=
    if kernel_nops_at_aiclk_fmin inp then
      let stop_freq := if stop_nops_freq s =? 0 then (get_aiclk_effective_arb_min ppm 0).1 else stop_nops_freq s in
      ((GetAiclkTarg ppm =? GetAiclkFmin ppm) && qlt tdp_limit current_power,
       (stop_freq <=? GetAiclkTarg ppm) && qlt current_power tdp_limit)
    else (false, false) in
  switch_nops (uptime_ms inp) ((kernel_nops_enabled s || start_nops) && negb stop_nops) s.

(** [for (i = 0; i < kThrottlerCount; i++) UpdateThrottlerArb(i)] *)
Definition update_arbs (s : thr) (ppm : AiclkPPM) : option AiclkPPM :=
  for_loop (Z.to_nat kThrottlerCount) 0 (fun i ppm => UpdateThrottlerArb i s ppm) ppm.

Definition CalculateThrottlers (inp : inputs) (s : thr) (ppm : AiclkPPM) : option (thr * AiclkPPM) :=
  '(s, ppm) ← (if DopplerActive s then UpdateDoppler inp s ppm else
    s ← UpdateThrottler kThrottlerTDP (vcore_power inp) s;
    s ← UpdateThrottler kThrottlerFastTDC (vcore_current inp) s;
    s ← UpdateThrottler kThrottlerTDC (vcore_current inp) s;
    s ← UpdateThrottler kThrottlerBoardPower (of_u32 (input_power inp)) s;
    t ← aget (throttlers s) kThrottlerTDP;
    Some (UpdateKernelThrottler inp (vcore_power inp) (limit t) s ppm, ppm));
  s ← UpdateThrottler kThrottlerThm (asic_temperature inp) s;
  s ← UpdateThrottler kThrottlerGDDRThm (max_gddr_temp inp) s;
  ppm ← update_arbs s ppm;
  Some (s, ppm).
End rounding.

(** ** Start-up and host requests *)

(** The firmware table's entries that the throttlers use. *)
Record fw_limits := MkLimits {
  doppler_en : bool;
  fw_stop_nops_freq : Z;
  tdp_limit : Q; tdc_fast_limit : Q; tdc_limit : Q; thm_limit : Q; gddr_thm_limit : Q;
  max_tdp_limit : Q;
  board_power_limit : Z
}.

Definition InitThrottlers (fw : fw_limits) (s : thr) (ppm : AiclkPPM) : option (thr * AiclkPPM) :=
  let f := fw_stop_nops_freq fw in
  let f := if negb (f =? 0) && ((f <? AICLK_FMIN_MIN) || (AICLK_FMIN_MAX <? f)) then 0 else f in
  let s := MkThr (power_limit s) (doppler_en fw) f f (throttlers s) (throttle_counter s) (tensixes_enabled s)
             (nop_on_since_ms s) (nop_on_accum_ms s) (prev_nop_on_accum_ms s) (seeded s) (board_power_history s)
             (board_power_history_cursor s) (board_power_sum s) (kernel_nops_enabled s) (t2_count s) (t3_count s)
             (broadcasts s) in
  s ← SetThrottlerLimit kThrottlerTDP (tdp_limit fw) s;
  s ← SetThrottlerLimit kThrottlerFastTDC (tdc_fast_limit fw) s;
  s ← SetThrottlerLimit kThrottlerTDC (tdc_limit fw) s;
  s ← SetThrottlerLimit kThrottlerThm (thm_limit fw) s;
  s ← SetThrottlerLimit kThrottlerBoardPower (of_u32 DEFAULT_BOARD_POWER_LIMIT) s;
  s ← SetThrottlerLimit kThrottlerGDDRThm (gddr_thm_limit fw) s;
  s ← SetThrottlerLimit kThrottlerDopplerSlow (of_u32 DEFAULT_BOARD_POWER_LIMIT) s;
  let s := InitKernelThrottling s in
  ppm ← EnableArbMax aiclk_arb_max_tdp (negb (doppler s)) ppm;
  ppm ← EnableArbMax aiclk_arb_max_fast_tdc (negb (doppler s)) ppm;
  ppm ← EnableArbMax aiclk_arb_max_tdc (negb (doppler s)) ppm;
  ppm ← EnableArbMax aiclk_arb_max_board_power (negb (doppler s)) ppm;
  ppm ← EnableArbMax aiclk_arb_max_thm true ppm;
  ppm ← EnableArbMax aiclk_arb_max_gddr_thm true ppm;
  ppm ← EnableArbMax aiclk_arb_max_doppler_slow (doppler s) ppm;
  ppm ← SetAiclkArbMax aiclk_arb_max_doppler_critical (of_u32 (GetAiclkFmin ppm)) ppm;
  ppm ← EnableArbMax aiclk_arb_max_doppler_critical false ppm;
  Some (s, ppm).

Definition ThrottlerSetKernelThrottlerEnabled (now enabled : Z) (s : thr) : Z * thr :=
  if 1 <? enabled then (1, s) else
  (0, if (enabled =? 0) && kernel_nops_enabled s
      then SendKernelThrottlingMessage now false (set_kernel_nops_enabled false s) else s).

Definition ThrottlerSetKernelThrottlerStopFreq (frequency : Z) (s : thr) : Z * thr :=
  if frequency =? 0 then (0, set_stop_nops_freq (stop_nops_freq_default s) s) else
  if (AICLK_FMIN_MAX <? frequency) || (frequency <? AICLK_FMIN_MIN) then (1, s) else
  (0, set_stop_nops_freq frequency s).

Definition Dm2CmSetBoardPowerLimit (fw : fw_limits) (bytes : list Z) (size : Z) (s : thr) : option (Z * thr) :=
  if negb (size =? 2) then Some (-1, s) else
  let l := Z.min (le_of_bytes (take 2 bytes)) (board_power_limit fw) in
  let s := set_power_limit l s in
  s ← SetThrottlerLimit kThrottlerBoardPower (of_u32 l) s;
  s ← SetThrottlerLimit kThrottlerDopplerSlow (of_u32 l) s;
  Some (0, s).

Definition set_tdp_limit_handler (fw : fw_limits) (restore_default : bool) (requested : Q) (s : thr) : option (Z * thr) :=
  default_tdp_limit ← get_throttler_clamped_limit kThrottlerTDP (tdp_limit fw);
  r ← aget throttler_limit_ranges kThrottlerTDP;
  let max_limit := CLAMP (max_tdp_limit fw) default_tdp_limit (of_u32 r.2) in
  let new := if restore_default then default_tdp_limit else requested in
  if qlt max_limit new then Some (1, s) else
  c ← get_throttler_clamped_limit kThrottlerTDP new;
  if negb (Qeq_bool c new) then Some (1, s) else
  s ← SetThrottlerLimit kThrottlerTDP new s;
  Some (0, s).

(** ** NOP telemetry *)

Definition GetStartNOPCount (s : thr) : Z := Z.shiftr (u32 (throttle_counter s + 1)) 1.

Definition GetNOPOnAccumulatedTime (now : Z) (s : thr) : Z :=
  if kernel_nops_enabled s then u32 (nop_on_accum_ms s + u32 (u32 now - nop_on_since_ms s)) else nop_on_accum_ms s.

Definition GetNOPOnDuration (now window_ms : Z) (s : thr) : Z * thr :=
  let accumulated_time := GetNOPOnAccumulatedTime now s in
  let duration := u32 (accumulated_time - prev_nop_on_accum_ms s) in
  let s := set_prev_nop_on_accum_ms accumulated_time s in
  if negb (seeded s) then (Z.min duration window_ms, set_seeded true s) else (duration, s).

(** ** NOP accounting *)

(** The specification: starts, total time on before the current interval, whether
    on, and since when. *)
Record nop_spec := MkSpec { starts : Z; total_on : Z; is_on : bool; on_since : Z }.

Definition spec_switch (now : Z) (b : bool) (g : nop_spec) : nop_spec :=
  if Bool.eqb b (is_on g) then g
  else if b then MkSpec (starts g + 1) (total_on g) true now
  else MkSpec (starts g) (total_on g + (now - on_since g)) false (on_since g).

Definition spec_total (now : Z) (g : nop_spec) : Z :=
  total_on g + if is_on g then now - on_since g else 0.

Definition nop_rel (s : thr) (g : nop_spec) : Prop :=
  kernel_nops_enabled s = is_on g /\ 0 <= starts g /\ (is_on g = true -> 0 < starts g) /\
  throttle_counter s = u32 (2 * starts g - if is_on g then 1 else 0) /\
  nop_on_accum_ms s = u32 (total_on g) /\ (is_on g = true -> nop_on_since_ms s = u32 (on_since g)).

(** What happens to the NOPs: a calculation without Doppler, a host request, a
    change of the Tensix state. *)
Inductive nop_op :=
| OpKernel (inp : inputs) (power lim : Q) (ppm : AiclkPPM)
| OpSetEnabled (now enabled : Z)
| OpTensix (enable : bool).

Definition run_op (o : nop_op) (s : thr) : thr :=
  match o with
  | OpKernel inp power lim ppm => UpdateKernelThrottler inp power lim s ppm
  | OpSetEnabled now enabled => (ThrottlerSetKernelThrottlerEnabled now enabled s).2
  | OpTensix enable => doppler_tensix_state_callback enable s
  end.

Definition op_time (o : nop_op) : Z :=
  match o with OpKernel inp _ _ _ => uptime_ms inp | OpSetEnabled now _ => now | OpTensix _ => 0 end.

(** The specification follows what the operation decided. *)
Fixpoint run_ops (os : list nop_op) (s : thr) (g : nop_spec) : thr * nop_spec :=
  match os with
  | [] => (s, g)
  | o :: os => let s' := run_op o s in run_ops os s' (spec_switch (op_time o) (kernel_nops_enabled s') g)
  end.

Lemma broadcast_fields s :
  let s' := BroadcastKernelThrottleState s in
  kernel_nops_enabled s' = kernel_nops_enabled s /\ throttle_counter s' = throttle_counter s /\
  nop_on_accum_ms s' = nop_on_accum_ms s /\ nop_on_since_ms s' = nop_on_since_ms s.
Proof. unfold BroadcastKernelThrottleState. by destruct (tensixes_enabled s). Qed.

Lemma land1_odd z : Z.land z 1 = if Z.odd z then 1 else 0.
Proof. change 1 with (Z.ones 1) at 1. rewrite Z.land_ones by lia. change (2 ^ 1) with 2. rewrite Zmod_odd. done. Qed.

Lemma u32_odd z : Z.odd (u32 z) = Z.odd z.
Proof.
  unfold wrap. rewrite (Z.div_mod z (2 ^ 32)) at 2 by done.
  rewrite Z.odd_add, Z.odd_mul. by destruct (Z.odd (z mod 2 ^ 32)).
Qed.

(** The parity of the counter never needs the correction step. *)
Lemma switch_rel now b s g : nop_rel s g -> nop_rel (switch_nops now b s) (spec_switch now b g).
Proof.
  intros (He & Hs0 & Hs1 & Hc & Ha & Hsi). unfold switch_nops, spec_switch. rewrite He.
  destruct (Bool.eqb b (is_on g)) eqn:Eb; cbn [negb]; [by split_and!|].
  assert (Hon : is_on g = negb b) by (by destruct b, (is_on g)).
  unfold SendKernelThrottlingMessage. cbn [throttle_counter set_kernel_nops_enabled].
  set (c := u32 (throttle_counter s + 1)).
  assert (Ec : c = u32 (2 * starts g + if b then 1 else 0)).
  { subst c. rewrite Hc, Hon. unfold wrap. rewrite Z.add_mod_idemp_l by done. f_equal. destruct b; cbn; lia. }
  assert (Eodd : Z.odd c = b).
  { rewrite Ec, u32_odd, Z.odd_add, Z.odd_mul. by destruct b. }
  rewrite land1_odd, Eodd. rewrite Z.eqb_refl. cbn [negb].
  unfold nop_rel.
  match goal with |- context [BroadcastKernelThrottleState ?t] =>
    destruct (broadcast_fields t) as (E1 & E2 & E3 & E4); rewrite E1, E2, E3, E4; clear E1 E2 E3 E4 end.
  destruct b; cbn; cbn in Hon.
  - split_and!; try done; try lia; [].
    rewrite Ec. by replace (2 * (starts g + 1) - 1) with (2 * starts g + 1) by lia.
  - split_and!; [done|done|done| | |done].
    + rewrite Ec. by rewrite Z.add_0_r, Z.sub_0_r.
    + rewrite Ha, Hsi by done. unfold wrap.
      rewrite <- Zminus_mod, <- Zplus_mod. done.
Qed.

Lemma spec_switch_same now g : spec_switch now (is_on g) g = g.
Proof. unfold spec_switch. by rewrite Bool.eqb_reflx. Qed.

Lemma switch_enabled now b s : kernel_nops_enabled (switch_nops now b s) = b.
Proof.
  unfold switch_nops. destruct (Bool.eqb b (kernel_nops_enabled s)) eqn:E; cbn [negb].
  - by apply Bool.eqb_prop in E.
  - unfold SendKernelThrottlingMessage.
    match goal with |- context [BroadcastKernelThrottleState ?t] =>
      destruct (broadcast_fields t) as (-> & _) end. by destruct b.
Qed.

Lemma run_op_rel o s g :
  nop_rel s g -> nop_rel (run_op o s) (spec_switch (op_time o) (kernel_nops_enabled (run_op o s)) g).
Proof.
  intros Hr. destruct o as [inp power lim ppm|now enabled|enable]; cbn [run_op op_time].
  - unfold UpdateKernelThrottler. destruct (if kernel_nops_at_aiclk_fmin inp then _ else _) as [a b].
    rewrite switch_enabled. by apply switch_rel.
  - unfold ThrottlerSetKernelThrottlerEnabled. pose proof Hr as (He & _).
    destruct (1 <? enabled); cbn [snd]; [by rewrite He, spec_switch_same|].
    destruct ((enabled =? 0) && kernel_nops_enabled s) eqn:E; [|by rewrite He, spec_switch_same].
    apply andb_true_iff in E as [_ E].
    assert (SendKernelThrottlingMessage now false (set_kernel_nops_enabled false s) = switch_nops now false s) as ->.
    { unfold switch_nops. by rewrite E. }
    rewrite switch_enabled. by apply switch_rel.
  - unfold doppler_tensix_state_callback.
    destruct (broadcast_fields (set_tensixes_enabled enable s)) as (E1 & E2 & E3 & E4).
    pose proof Hr as (He & _). rewrite E1. cbn [kernel_nops_enabled set_tensixes_enabled].
    rewrite He, spec_switch_same. unfold nop_rel. by rewrite E1, E2, E3, E4.
Qed.

(** NOP accounting.  Whatever calculations, host requests and Tensix state
    changes occur, from a fresh start the reported number of NOP starts is the
    number of times the kernel throttler switched on (below [2^31]), and the
    reported time is the total time it was on, modulo [2^32] milliseconds,
    including the interval in progress. *)
Theorem nop_accounting os s now :
  throttle_counter s = 0 -> kernel_nops_enabled s = false -> nop_on_accum_ms s = 0 ->
  let '(s', g) := run_ops os s (MkSpec 0 0 false 0) in
  kernel_nops_enabled s' = is_on g /\
  (starts g < 2 ^ 31 -> GetStartNOPCount s' = starts g) /\
  GetNOPOnAccumulatedTime now s' = u32 (spec_total now g).
Proof.
  intros Hc He Ha.
  assert (forall g, nop_rel s g -> let '(s', g') := run_ops os s g in nop_rel s' g') as Hrun.
  { clear. revert s. induction os as [|o os IH]; intros s g Hr; cbn [run_ops]; [done|].
    by apply IH, run_op_rel. }
  specialize (Hrun (MkSpec 0 0 false 0)). destruct (run_ops os s _) as [s' g].
  destruct Hrun as (He' & H0 & H1 & Hc' & Ha' & Hsi).
  { unfold nop_rel. cbn. by rewrite Hc, He, Ha. }
  split; [done|]. split.
  - intros Hlt. unfold GetStartNOPCount. rewrite Hc'. unfold wrap. rewrite Z.add_mod_idemp_l by done.
    rewrite Z.shiftr_div_pow2 by lia. change (2 ^ 1) with 2. destruct (is_on g).
    + specialize (H1 eq_refl). word_lia.
    + word_lia.
  - unfold GetNOPOnAccumulatedTime, spec_total. rewrite He'. destruct (is_on g).
    + rewrite Ha', Hsi by done. unfold wrap. by rewrite <- Zminus_mod, <- Zplus_mod.
    + by rewrite Ha', Z.add_0_r.
Qed.

(** ** Doppler *)

Definition board_samples : Z := 1000.

Fixpoint zsum (l : list Z) : Z := match l with [] => 0 | x :: l => x + zsum l end.

Lemma zsum_insert l i x y : l !! i = Some y -> zsum (<[i := x]> l) = zsum l + (x - y).
Proof.
  revert i. induction l as [|z l IH]; intros [|i] Hi; try done.
  - injection Hi as ->. cbn. lia.
  - change (<[S i:=x]> (z :: l)) with (z :: <[i:=x]> l). cbn [zsum]. rewrite (IH i) by done. lia.
Qed.

Lemma zsum_bound l : Forall is_u16 l -> 0 <= zsum l <= 65535 * len l.
Proof. induction 1 as [|x l Hx _ IH]; cbn [zsum length]; [lia|]. unwrap. lia. Qed.

Record doppler_inv (s : thr) : Prop := {
  di_len : len (board_power_history s) = board_samples;
  di_cursor : 0 <= board_power_history_cursor s < board_samples;
  di_u16 : Forall is_u16 (board_power_history s);
  di_sum : board_power_sum s = zsum (board_power_history s);
  di_throttlers : len (throttlers s) = kThrottlerCount
}.

(** The moving average is the mean of the last thousand samples, rounded down. *)
Lemma moving_average_ok p s :
  doppler_inv s -> is_u16 p ->
  exists s', UpdateMovingAveragePower p s = Some (zsum (board_power_history s') / board_samples, s') /\
    doppler_inv s' /\ board_power_history s' = <[Z.to_nat (board_power_history_cursor s) := p]> (board_power_history s) /\
    power_limit s' = power_limit s /\ doppler s' = doppler s /\ t2_count s' = t2_count s /\
    t3_count s' = t3_count s.
Proof.
  intros [Hl Hcur Hu Hs Ht] Hp. unfold UpdateMovingAveragePower.
  destruct (aget_in (board_power_history s) (board_power_history_cursor s)) as [old Eo]; [lia|].
  rewrite Eo. cbn [mbind option_bind]. rewrite aset_in by lia. cbn [mbind option_bind].
  set (h := <[Z.to_nat (board_power_history_cursor s) := p]> (board_power_history s)).
  assert (Hh : Forall is_u16 h) by (by apply Forall_insert).
  assert (Hlen : length h = length (board_power_history s)) by apply length_insert.
  assert (Hsum : zsum h = board_power_sum s + (p - old)).
  { unfold h. rewrite aget_nat in Eo by lia. by rewrite (zsum_insert _ _ _ old), Hs. }
  pose proof (zsum_bound h Hh) as Hb. rewrite Hlen, Hl in Hb. unfold board_samples in *.
  rewrite (wrap_small 32) by (unwrap; lia). rewrite <- Hsum, Hl.
  rewrite (wrap_small 16) by (unwrap; Z.to_euclidean_division_equations; lia).
  lazymatch goal with |- exists s', Some (_, ?t) = _ /\ _ => exists t end. split; [done|].
  cbn [board_power_history set_board_power_sum set_board_power_history set_board_power_history_cursor board_power_history_cursor board_power_sum throttlers power_limit doppler t2_count t3_count].
  split; [|done]. split;
    cbn [board_power_history set_board_power_sum set_board_power_history set_board_power_history_cursor board_power_history_cursor board_power_sum throttlers power_limit doppler t2_count t3_count];
    [unfold board_samples; lia| |done|by rewrite Hsum|done]. unfold advance, board_samples. if_case; lia.
Qed.

(** Length of the run of samples above [lim] at the end of [ps]. *)
Definition run_above (lim : Z) (ps : list Z) : Z :=
  fold_left (fun r p => if lim <? p then r + 1 else 0) ps 0.

Lemma count_above_run lim ps :
  fold_left (fun c p => count_above p lim c) ps 0 = Z.min UINT8_MAX (run_above lim ps) /\ 0 <= run_above lim ps.
Proof.
  unfold run_above. induction ps as [|p ps IH] using rev_ind; [done|].
  rewrite !fold_left_app. cbn [fold_left]. destruct IH as [-> Hr]. unfold count_above, UINT8_MAX in *.
  destruct (lim <? p); [|done]. destruct (Z.ltb_spec (Z.min 255 (fold_left (fun r p0 => if lim <? p0 then r + 1 else 0) ps 0)) 255); lia.
Qed.

(** What the Doppler invariant and counters depend on. *)
Definition doppler_same (s s' : thr) : Prop :=
  board_power_history s' = board_power_history s /\ board_power_history_cursor s' = board_power_history_cursor s /\
  board_power_sum s' = board_power_sum s /\ length (throttlers s') = length (throttlers s) /\
  power_limit s' = power_limit s /\ doppler s' = doppler s /\ t2_count s' = t2_count s /\ t3_count s' = t3_count s.

Lemma doppler_inv_same s s' : doppler_inv s -> doppler_same s s' -> doppler_inv s'.
Proof. intros [] (E1 & E2 & E3 & E4 & _). split; rewrite ?E1, ?E2, ?E3; try done. by rewrite E4. Qed.

Lemma switch_nops_same now b s : doppler_same s (switch_nops now b s).
Proof.
  unfold switch_nops, SendKernelThrottlingMessage, BroadcastKernelThrottleState, doppler_same.
  destruct (negb (Bool.eqb _ _)), b; try done; by destruct (tensixes_enabled _).
Qed.

Lemma UpdateThrottler_same rnd id v s :
  len (throttlers s) = kThrottlerCount -> 0 <= id < kThrottlerCount ->
  exists s', UpdateThrottler rnd id v s = Some s' /\ doppler_same s s'.
Proof.
  intros Hl Hid. unfold UpdateThrottler. destruct (aget_in (throttlers s) id) as [t E]; [lia|].
  rewrite E. cbn [mbind option_bind]. rewrite aset_in by lia. cbn [mbind option_bind].
  eexists. split; [done|]. unfold doppler_same. cbn [throttlers set_throttlers]. by rewrite length_insert.
Qed.

Lemma EnableArbMax_get arb b ppm :
  ppm_wf ppm -> 0 <= arb < aiclk_arb_max_count ->
  exists ppm' a, EnableArbMax arb b ppm = Some ppm' /\ aget (arbiter_max ppm') arb = Some a /\ enabled a = b.
Proof.
  intros Hwf Harb. pose proof (wf_max_len _ Hwf) as Hl. unfold EnableArbMax, set_arb_enabled.
  destruct (aget_in (arbiter_max ppm) arb) as [a E]; [lia|]. rewrite E. cbn [mbind option_bind].
  rewrite aset_in by lia. cbn [mbind option_bind]. eexists _, _. split; [done|].
  cbn [arbiter_max set_arbiter_max]. rewrite aget_insert by lia. done.
Qed.

Definition t2_limit (pl : Z) : Z := 2 * pl.
Definition t3_limit (pl : Z) : Z := 5 * pl / 2.

Definition tracks (pl : Z) (ps : list Z) (s : thr) : Prop :=
  doppler_inv s /\ doppler s = true /\ power_limit s = pl /\
  t2_count s = Z.min UINT8_MAX (run_above (t2_limit pl) ps) /\
  t3_count s = Z.min UINT8_MAX (run_above (t3_limit pl) ps).

Lemma count_above_snoc lim ps p :
  count_above p lim (Z.min UINT8_MAX (run_above lim ps)) = Z.min UINT8_MAX (run_above lim (ps ++ [p])).
Proof.
  rewrite <- (proj1 (count_above_run lim ps)), <- (proj1 (count_above_run lim (ps ++ [p]))).
  by rewrite fold_left_app.
Qed.

(** Critical throttling after the samples [ps]. *)
Definition critical (pl : Z) (ps : list Z) : bool :=
  (10 <=? run_above (t2_limit pl) ps) || (2 <=? run_above (t3_limit pl) ps).

Lemma UpdateDoppler_step rnd inp pl ps s ppm :
  tracks pl ps s -> 0 <= pl < 2 ^ 16 -> is_u16 (input_power inp) -> ppm_wf ppm ->
  exists s' ppm' a, UpdateDoppler rnd inp s ppm = Some (s', ppm') /\ tracks pl (ps ++ [input_power inp]) s' /\
    aget (arbiter_max ppm') aiclk_arb_max_doppler_critical = Some a /\
    enabled a = critical pl (ps ++ [input_power inp]).
Proof.
  intros (Hi & Hd & Hpl & H2 & H3) Hplr Hp Hwf. unfold UpdateDoppler.
  destruct (moving_average_ok (input_power inp) s Hi Hp) as (s1 & E1 & Hi1 & _ & P1 & D1 & A1 & B1).
  rewrite E1. cbn [mbind option_bind].
  destruct (UpdateThrottler_same rnd kThrottlerDopplerSlow
              (of_u32 (zsum (board_power_history s1) / board_samples)) s1) as (s2 & E2 & Hs2);
    [apply Hi1|done|].
  rewrite E2. cbn [mbind option_bind].
  pose proof (doppler_inv_same _ _ Hi1 Hs2) as Hi2. destruct Hs2 as (_ & _ & _ & _ & P2 & D2 & A2 & B2).
  assert (L2 : u32 (power_limit s2 * 2) = t2_limit pl) by (rewrite P2, P1, Hpl; unfold t2_limit; rewrite wrap_small by (unwrap; lia); lia).
  assert (L3 : u32 (power_limit s2 * 5) / 2 = t3_limit pl).
  { rewrite P2, P1, Hpl. unfold t3_limit. rewrite wrap_small by (unwrap; lia). by rewrite Z.mul_comm. }
  rewrite L2. set (sa := set_t2_count _ s2).
  assert (Ea : power_limit sa = power_limit s2) by done. rewrite Ea, L3.
  set (sb := set_t3_count _ sa).
  assert (T2 : t2_count sb = Z.min UINT8_MAX (run_above (t2_limit pl) (ps ++ [input_power inp]))).
  { subst sb sa. cbn [t2_count set_t3_count set_t2_count]. by rewrite A2, A1, H2, count_above_snoc. }
  assert (T3 : t3_count sb = Z.min UINT8_MAX (run_above (t3_limit pl) (ps ++ [input_power inp]))).
  { subst sb sa. cbn [t3_count set_t3_count set_t2_count]. by rewrite B2, B1, H3, count_above_snoc. }
  assert (Db : doppler sb = true) by (subst sb sa; cbn; congruence).
  assert (Tsa : t2_count sa = t2_count sb) by done. assert (Dsa : doppler sa = doppler sb) by done.
  rewrite Tsa, Dsa, Db, !andb_true_r.
  assert (Hcrit : (10 <=? t2_count sb) || (2 <=? t3_count sb) = critical pl (ps ++ [input_power inp])).
  { unfold critical. rewrite T2, T3. unfold UINT8_MAX. f_equal.
    - destruct (Z.leb_spec 10 (Z.min 255 (run_above (t2_limit pl) (ps ++ [input_power inp])))),
        (Z.leb_spec 10 (run_above (t2_limit pl) (ps ++ [input_power inp]))); lia.
    - destruct (Z.leb_spec 2 (Z.min 255 (run_above (t3_limit pl) (ps ++ [input_power inp])))),
        (Z.leb_spec 2 (run_above (t3_limit pl) (ps ++ [input_power inp]))); lia. }
  rewrite Hcrit.
  destruct (EnableArbMax_get aiclk_arb_max_doppler_critical (critical pl (ps ++ [input_power inp])) ppm Hwf)
    as (ppm' & a & E3 & Ea' & Eb'); [done|].
  rewrite E3. cbn [mbind option_bind]. eexists _, ppm', a. split; [done|]. split; [|done].
  set (sw := switch_nops _ _ sb). pose proof (switch_nops_same (uptime_ms inp)
    ((kernel_nops_enabled sb || (GetAiclkTarg ppm =? GetAiclkFmin ppm) && (power_limit sb <? input_power inp)) &&
     negb ((GetAiclkTarg ppm =? GetAiclkFmax ppm) && (input_power inp <? power_limit sb)) ||
     critical pl (ps ++ [input_power inp])) sb) as Hsw. fold sw in Hsw.
  assert (Hib : doppler_inv sb) by (by destruct Hi2; split).
  pose proof (doppler_inv_same _ _ Hib Hsw) as Hiw. destruct Hsw as (_ & _ & _ & _ & Pw & Dw & Aw & Bw).
  unfold tracks. rewrite Pw, Dw, Aw, Bw, T2, T3, Db. split_and!; try done.
  subst sb sa. cbn [power_limit set_t3_count set_t2_count]. congruence.
Qed.

(** Successive calculations; the arbiters may change in between. *)
Fixpoint doppler_run (rnd : Q -> Q) (xs : list (inputs * AiclkPPM)) (s : thr) : option (thr * list AiclkPPM) :=
  match xs with
  | [] => Some (s, [])
  | (inp, ppm) :: xs =>
      '(s, ppm) ← UpdateDoppler rnd inp s ppm;
      '(s, ppms) ← doppler_run rnd xs s;
      Some (s, ppm :: ppms)
  end.

(** Doppler's critical throttling.  Along any run of calculations with a fixed
    power limit, whatever the float rounding and the state of the arbiters, no
    step fails, the power average is the mean of the last thousand samples, and
    the critical arbiter is enabled exactly while the last ten samples exceed
    twice the limit or the last two exceed two and a half times. *)
Theorem doppler_critical_throttling rnd pl xs s :
  tracks pl [] s -> 0 <= pl < 2 ^ 16 ->
  Forall (fun x => is_u16 (input_power x.1) /\ ppm_wf x.2) xs ->
  exists s' ppms, doppler_run rnd xs s = Some (s', ppms) /\
    board_power_sum s' = zsum (board_power_history s') /\ length ppms = length xs /\
    forall k ppm, ppms !! k = Some ppm ->
      exists a, aget (arbiter_max ppm) aiclk_arb_max_doppler_critical = Some a /\
        enabled a = critical pl (take (S k) (map (fun x => input_power x.1) xs)).
Proof.
  intros Ht Hpl HF.
  assert (forall ps s, tracks pl ps s ->
    exists s' ppms, doppler_run rnd xs s = Some (s', ppms) /\ doppler_inv s' /\ length ppms = length xs /\
    forall k ppm, ppms !! k = Some ppm ->
      exists a, aget (arbiter_max ppm) aiclk_arb_max_doppler_critical = Some a /\
        enabled a = critical pl (ps ++ take (S k) (map (fun x => input_power x.1) xs))) as Hgen.
  { clear s Ht. induction HF as [|[inp ppm] xs [Hp Hwf] _ IH]; intros ps s Ht.
    { exists s, []. split; [done|]. split; [apply Ht|]. done. }
    destruct (UpdateDoppler_step rnd inp pl ps s ppm Ht Hpl Hp Hwf) as (s1 & ppm1 & a & E1 & Ht1 & Ea & Eb).
    destruct (IH _ _ Ht1) as (s2 & ppms & E2 & Hi2 & Hl2 & Hall).
    cbn [doppler_run]. rewrite E1. cbn [mbind option_bind]. rewrite E2. cbn [mbind option_bind].
    exists s2, (ppm1 :: ppms). split_and!; [done|done|cbn; by rewrite Hl2|].
    intros [|k] q Hk; cbn [lookup list_lookup] in Hk.
    - injection Hk as <-. exists a. split; [done|]. rewrite Eb. cbn [map take fst]. by rewrite take_0.
    - destruct (Hall k q Hk) as (b & ? & Hb). exists b. split; [done|]. rewrite Hb.
      by rewrite <- app_assoc. }
  destruct (Hgen [] s Ht) as (s' & ppms & E & Hi & Hl & Hall).
  exists s', ppms. split_and!; [done|apply Hi|done|]. intros k ppm Hk. exact (Hall k ppm Hk).
Qed.

(** ** Witnesses *)

Definition thr0 (pl : Z) (dop : bool) : thr :=
  MkThr pl dop 0 0 throttler0 0 true 0 0 0 false (replicate 1000 0) 0 0 false 0 0 [].
Definition inputs_at (power now : Z) : inputs := MkInputs 0 0 0 0 power now true.

Lemma thr0_tracks pl : tracks pl [] (thr0 pl true).
Proof.
  split; [|done]. split; try done. apply Forall_replicate. by split.
Qed.

Lemma doppler_critical_throttling_witness :
  exists s' p1 p2 p3, doppler_run (fun q => q)
      [(inputs_at 400 1, ppm0); (inputs_at 400 2, ppm0); (inputs_at 100 3, ppm0)] (thr0 150 true) =
      Some (s', [p1; p2; p3]) /\
    (exists a, aget (arbiter_max p2) 9 = Some a /\ enabled a = true) /\
    (exists a, aget (arbiter_max p3) 9 = Some a /\ enabled a = false).
Proof.
  destruct (doppler_critical_throttling (fun q => q) 150
    [(inputs_at 400 1, ppm0); (inputs_at 400 2, ppm0); (inputs_at 100 3, ppm0)] (thr0 150 true))
    as (s' & ppms & E & _ & Hl & Hall); [apply thr0_tracks|by split| |].
  { repeat (apply Forall_cons_2; [split; [by split|exact ppm0_wf]|]). by apply Forall_nil. }
  assert (exists p1 p2 p3, ppms = [p1; p2; p3]) as (p1 & p2 & p3 & ->).
  { clear -Hl. destruct ppms as [|p1 [|p2 [|p3 [|] ] ] ]; try discriminate Hl. by eexists _, _, _. }
  exists s', p1, p2, p3. split; [exact E|]. split.
  - destruct (Hall 1%nat p2 eq_refl) as (a & Ea & Eb). exists a. split; [exact Ea|]. rewrite Eb. by vm_compute.
  - destruct (Hall 2%nat p3 eq_refl) as (a & Ea & Eb). exists a. split; [exact Ea|]. rewrite Eb. by vm_compute.
Defined.

Lemma nop_accounting_witness :
  let os := [OpKernel (inputs_at 0 100) (200 # 1) (150 # 1) (set_targ_freq 200 ppm0);
             OpSetEnabled 160 0; OpKernel (inputs_at 0 300) (200 # 1) (150 # 1) (set_targ_freq 200 ppm0)] in
  let '(s', _) := run_ops os (thr0 0 false) (MkSpec 0 0 false 0) in
  GetStartNOPCount s' = 2 /\ GetNOPOnAccumulatedTime 310 s' = 70.
Proof.
  pose proof (nop_accounting [OpKernel (inputs_at 0 100) (200 # 1) (150 # 1) (set_targ_freq 200 ppm0);
             OpSetEnabled 160 0; OpKernel (inputs_at 0 300) (200 # 1) (150 # 1) (set_targ_freq 200 ppm0)]
             (thr0 0 false) 310 eq_refl eq_refl eq_refl) as Hacc.
  cbv zeta in *. destruct (run_ops _ _ _) as [s' g] eqn:E. destruct Hacc as (_ & Hs & Ha).
  assert (g = MkSpec 2 60 true 300) as -> by (vm_compute in E; by injection E as _ <-).
  split; [by apply Hs|]. rewrite Ha. by vm_compute.
Defined.
