(* ===== verification/Dvfs.v ===== *)
(** * Dynamic voltage and frequency scaling ([lib/tenstorrent/bh_arc]: [dvfs.c],
    [voltage.c], [vf_curve.c], and the parts of [aiclk_ppm.c] that call it)

    Once a millisecond the target frequency is calculated, the voltage it needs is
    requested, and clock and regulator are moved in the order that never leaves
    the chip at a frequency its voltage does not support. *)

From Stdlib Require Import QArith Qround.
From S2P Require Import Prelude Aiclk Throttler.
#[global] Open Scope Z_scope.

(** ** The voltage-frequency curve ([vf_curve.c]) *)

Record vf_curve := MkVf {
  freq_margin_mhz : Q;
  fw_table_voltage_margin_mv : Q;
  use_process_vf_curve : bool;
  process_is_ss : bool;
  vf_ro_base : Q;
  vf_freq_linear : Q
}.

Section curve.
(** Rounding of a float operation. *)
Variable rnd : Q -> Q.

(** A float literal: the rounding of its decimal value. *)
Abbreviation lit q := (rnd q%Q).

Definition FREQ_NORM_MEAN : Q := lit (1279761905 # 1000000).
Definition FREQ_NORM_STD : Q := lit (189567027 # 1000000).

Definition InitVFCurve (process_RO : Z) (frequency_margin voltage_margin : Q) : vf_curve :=
  let ro_n := fdiv rnd (fsub rnd (of_u32 process_RO) (lit (2582380952 # 1000000))) (lit (121320464 # 1000000)) in
  let use := negb (process_RO =? 0) in
  MkVf (CLAMP frequency_margin (-300) 300) (CLAMP voltage_margin (-150) 150) use (process_RO <? 2500)
    (if use then fadd rnd (fadd rnd (lit (738687863 # 1000000)) (fmul rnd (lit (- 9399314 # 1000000)) ro_n))
                   (fmul rnd (fmul rnd (lit (- 4295651 # 1000000)) ro_n) ro_n) else 0)
    (if use then fadd rnd (lit (52359951 # 1000000)) (fmul rnd 0 ro_n) else 0).

Definition VFCurve (c : vf_curve) (freq_mhz : Q) : Q :=
  if negb (use_process_vf_curve c) then
    let f := fadd rnd freq_mhz (freq_margin_mhz c) in
    let v := fadd rnd (fadd rnd (fmul rnd (fmul rnd (lit (31395 # 100000000)) f) f)
                                (fmul rnd (lit (- 43953 # 100000)) f)) (lit (82883 # 100)) in
    fadd rnd v (fw_table_voltage_margin_mv c)
  else
    let voltage_margin :=
      if process_is_ss c then fadd rnd (fw_table_voltage_margin_mv c) 20
      else if qle 1200 freq_mhz then fadd rnd (fw_table_voltage_margin_mv c) 20
      else fadd rnd (fw_table_voltage_margin_mv c) 0 in
    let freq_n := fdiv rnd (fsub rnd freq_mhz FREQ_NORM_MEAN) FREQ_NORM_STD in
    let v := fadd rnd (fadd rnd (vf_ro_base c) (fmul rnd (vf_freq_linear c) freq_n))
                      (fmul rnd (fmul rnd (lit (8560169 # 1000000)) freq_n) freq_n) in
    fadd rnd v voltage_margin.

(** The response word. *)
Definition get_voltage_curve_from_freq_handler (c : vf_curve) (freq : Z) : Z :=
  let v := VFCurve c (of_u32 freq) in if qlt v 0 then 0 else to_u32 v.
Definition get_freq_curve_from_voltage_handler (c : vf_curve) (voltage : Z) (s : AiclkPPM) : option Z :=
  GetMaxAiclkForVoltage (fun f => qlt (of_u32 voltage) (VFCurve c (of_u32 f))) s.
End curve.

(** ** State ([voltage.h], [dvfs.c]) *)

Record VoltageArbiter := MkVolt {
  curr_voltage : Z;
  targ_voltage : Z;
  vdd_min : Z;
  vdd_max : Z;
  forced_voltage : Z;
  req_voltage : list Z
}.

Definition set_curr_voltage (v : Z) (v0 : VoltageArbiter) : VoltageArbiter :=
  MkVolt v (targ_voltage v0) (vdd_min v0) (vdd_max v0) (forced_voltage v0) (req_voltage v0).
Definition set_targ_voltage (v : Z) (v0 : VoltageArbiter) : VoltageArbiter :=
  MkVolt (curr_voltage v0) v (vdd_min v0) (vdd_max v0) (forced_voltage v0) (req_voltage v0).
Definition set_forced_voltage (v : Z) (v0 : VoltageArbiter) : VoltageArbiter :=
  MkVolt (curr_voltage v0) (targ_voltage v0) (vdd_min v0) (vdd_max v0) v (req_voltage v0).
Definition set_req_voltage (v : list Z) (v0 : VoltageArbiter) : VoltageArbiter :=
  MkVolt (curr_voltage v0) (targ_voltage v0) (vdd_min v0) (vdd_max v0) (forced_voltage v0) v.

(** Writes to the clock and the regulators, in the log newest first. *)
Inductive hw_op := SetRate (mhz : Z) | SetVcore (mv : Z) | SetVcorem (mv : Z).

Record dvfs := MkDvfs {
  ppm : AiclkPPM;
  throttle : thr;
  volt : VoltageArbiter;
  dvfs_enabled : bool;
  hw : list hw_op
}.

Definition set_ppm (v : AiclkPPM) (s : dvfs) : dvfs :=
  MkDvfs v (throttle s) (volt s) (dvfs_enabled s) (hw s).
Definition set_throttle (v : thr) (s : dvfs) : dvfs :=
  MkDvfs (ppm s) v (volt s) (dvfs_enabled s) (hw s).
Definition set_volt (v : VoltageArbiter) (s : dvfs) : dvfs :=
  MkDvfs (ppm s) (throttle s) v (dvfs_enabled s) (hw s).
Definition set_hw (v : list hw_op) (s : dvfs) : dvfs :=
  MkDvfs (ppm s) (throttle s) (volt s) (dvfs_enabled s) v.

Definition VDD_BOOT : Z := 750.
Definition VoltageReqAiclk : Z := 0.
Definition VoltageReqL2CPU : Z := 1.
Definition VoltageReqCount : Z := 2.

(** ** Voltage arbitration ([voltage.c]) *)

Definition VoltageChange (s : dvfs) : dvfs :=
  let v := volt s in
  if negb (targ_voltage v =? curr_voltage v) then
    set_volt (set_curr_voltage (targ_voltage v) v) (set_hw (SetVcore (targ_voltage v) :: hw s) s)
  else s.

Definition VoltageArbRequest (req voltage : Z) (v : VoltageArbiter) : option VoltageArbiter :=
  l ← aset (req_voltage v) req (zclamp voltage (vdd_min v) (vdd_max v)); Some (set_req_voltage l v).

Definition CalculateTargVoltage (v : VoltageArbiter) : VoltageArbiter :=
  let t := fold_left (fun t r => if t <? r then r else t) (req_voltage v) (vdd_min v) in
  let t := Z.min t (vdd_max v) in
  set_targ_voltage (if negb (forced_voltage v =? 0) then forced_voltage v else t) v.

(** [limit_min] and [limit_max] are the firmware table's. *)
Definition InitVoltagePPM (limit_min limit_max : Z) (s : dvfs) : dvfs :=
  let lo := zclamp limit_min 650 900 in
  let hi := zclamp limit_max 700 900 in
  MkDvfs (ppm s) (throttle s) (MkVolt VDD_BOOT VDD_BOOT lo hi 0 [lo; lo]) (dvfs_enabled s)
    (SetVcorem 850 :: SetVcore VDD_BOOT :: hw s).

(** ** One DVFS step ([dvfs.c]) *)

Definition apply_rate (r : option Z * AiclkPPM) (s : dvfs) : dvfs :=
  let s' := set_ppm r.2 s in
  match r.1 with Some f => set_hw (SetRate f :: hw s) s' | None => s' end.

Section change.
Variable rnd : Q -> Q.
Variable curve : vf_curve.

Definition DVFSChange (inp : inputs) (rand : Z) (s : dvfs) : option dvfs :=
  '(t, p) ← CalculateThrottlers rnd inp (throttle s) (ppm s);
  p ← CalculateTargAiclk rand p;
  let s := set_throttle t (set_ppm p s) in
  let aiclk_voltage := to_u32 (VFCurve rnd curve (of_u32 (GetAiclkTarg p))) in
  v ← VoltageArbRequest VoltageReqAiclk aiclk_voltage (volt s);
  let s := set_volt (CalculateTargVoltage v) s in
  let s := apply_rate (DecreaseAiclk (ppm s)) s in
  let s := VoltageChange s in
  Some (apply_rate (IncreaseAiclk (ppm s)) s).

Definition dvfs_work_handler := DVFSChange.

Definition InitDVFS (fw : fw_limits) (limit_min limit_max : Z) (s : dvfs) : option dvfs :=
  let s := InitVoltagePPM limit_min limit_max s in
  p ← InitArbMaxVoltage (fun f => qlt (of_u32 (vdd_max (volt s))) (VFCurve rnd curve (of_u32 f))) (ppm s);
  '(t, p) ← InitThrottlers fw (throttle s) p;
  Some (MkDvfs p t (volt s) true (hw s)).

(** ** Forcing *)

Definition ForceAiclk (inp : inputs) (rand freq : Z) (s : dvfs) : option (Z * dvfs) :=
  if ((AICLK_FMAX_MAX <? freq) || (freq <? AICLK_FMIN_MIN)) && negb (freq =? 0) then Some (1, s) else
  if dvfs_enabled s then
    s ← DVFSChange inp rand (set_ppm (set_forced_freq freq (ppm s)) s); Some (0, s)
  else
    let freq := if freq =? 0 then boot_freq (ppm s) else freq in
    Some (0, set_hw (SetRate freq :: hw s) s).
Definition ForceAiclkHandler := ForceAiclk.

Definition SetAiclkResetSafe (inp : inputs) (rand : Z) (enable : bool) (s : dvfs) : option dvfs :=
  if Bool.eqb (reset_safe (ppm s)) enable then Some s else
  DVFSChange inp rand (set_ppm (set_reset_safe enable (ppm s)) s).

Definition ForceVdd (inp : inputs) (rand voltage : Z) (s : dvfs) : option (Z * dvfs) :=
  let v := volt s in
  if ((vdd_max v <? voltage) || (voltage <? vdd_min v)) && negb (voltage =? 0) then Some (1, s) else
  if dvfs_enabled s then
    s ← DVFSChange inp rand (set_volt (set_forced_voltage voltage v) s); Some (0, s)
  else
    let voltage := if voltage =? 0 then VDD_BOOT else voltage in
    Some (0, set_hw (SetVcore voltage :: hw s) s).
Definition ForceVddHandler := ForceVdd.

(** [AdjustDVFSTimer]: the new first delay in ticks, when the timer is restarted. *)
Definition AdjustDVFSTimer (dvfs_ticks remaining : Z) (s : dvfs) : option Z :=
  if dvfs_enabled s && (dvfs_ticks * 10 / 100 <? remaining) then Some (remaining - dvfs_ticks * 1 / 100) else None.
End change.

(** ** Well-formedness *)

Record thr_wf (t : thr) : Prop := {
  tw_doppler : doppler_inv t;
  tw_arbs : Forall (fun x => 0 <= arb_max x < aiclk_arb_max_count) (throttlers t);
  tw_power : 0 <= power_limit t < 2 ^ 16
}.

(** The fields of the arbiter state that throttlers do not touch. *)
Definition ppm_same (p p' : AiclkPPM) : Prop :=
  targ_freq p' = targ_freq p /\ curr_freq p' = curr_freq p /\ fmin p' = fmin p /\ fmax p' = fmax p /\
  forced_freq p' = forced_freq p /\ reset_safe p' = reset_safe p /\
  host_requested_fmin p' = host_requested_fmin p /\ sweep_en p' = sweep_en p.

Lemma SetAiclkArbMax_same arb q p p' : SetAiclkArbMax arb q p = Some p' -> ppm_same p p'.
Proof. unfold SetAiclkArbMax. destruct (set_arb_value _ _ _); [|done]. by intros [= <-]. Qed.

Lemma EnableArbMax_same arb b p p' : EnableArbMax arb b p = Some p' -> ppm_same p p'.
Proof. unfold EnableArbMax. destruct (set_arb_enabled _ _ _); [|done]. by intros [= <-]. Qed.

Lemma ppm_same_trans p1 p2 p3 : ppm_same p1 p2 -> ppm_same p2 p3 -> ppm_same p1 p3.
Proof. unfold ppm_same. intuition congruence. Qed.

(** The throttler list and limit survive everything but their own update. *)
Definition thr_same (t t' : thr) : Prop :=
  map arb_max (throttlers t') = map arb_max (throttlers t) /\ power_limit t' = power_limit t.

Lemma thr_same_wf t t' : thr_wf t -> doppler_inv t' -> thr_same t t' -> thr_wf t'.
Proof.
  intros [Hd Ha Hp] Hd' [Em Ep]. split; [done| |by rewrite Ep].
  assert (Forall (fun x => 0 <= x < aiclk_arb_max_count) (map arb_max (throttlers t'))) as HF.
  { rewrite Em. by apply Forall_map. }
  by apply Forall_map in HF.
Qed.

Lemma UpdateThrottler_wf rnd id v t :
  thr_wf t -> 0 <= id < kThrottlerCount ->
  exists t', UpdateThrottler rnd id v t = Some t' /\ thr_wf t'.
Proof.
  intros Hwf Hid. pose proof Hwf as [Hd _ _].
  destruct (UpdateThrottler_same rnd id v t (di_throttlers _ Hd) Hid) as (t' & E & Hs).
  exists t'. split; [done|]. apply (thr_same_wf t); [done|by eapply doppler_inv_same|].
  split; [|by destruct Hs as (_ & _ & _ & _ & Hp & _)].
  unfold UpdateThrottler in E. destruct (aget (throttlers t) id) as [x|] eqn:Ex; [|done].
  cbn [mbind option_bind] in E. pose proof (di_throttlers _ Hd). rewrite aset_in in E by lia.
  injection E as <-. cbn [throttlers set_throttlers].
  rewrite aget_nat in Ex by lia. apply list_eq. intros j. rewrite !list_lookup_fmap.
  destruct (decide (j = Z.to_nat id)) as [->|].
  - rewrite list_lookup_insert_eq by lia. by rewrite Ex.
  - by rewrite list_lookup_insert_ne by done.
Qed.

Lemma switch_nops_wf now b t : thr_wf t -> thr_wf (switch_nops now b t).
Proof.
  intros Hwf. pose proof (switch_nops_same now b t) as Hs. destruct Hwf as [Hd Ha Hp].
  apply (thr_same_wf t); [by split|by eapply doppler_inv_same|].
  split; [|by destruct Hs as (_ & _ & _ & _ & ? & _)].
  unfold switch_nops, SendKernelThrottlingMessage, BroadcastKernelThrottleState.
  destruct (negb (Bool.eqb _ _)), b; try done; by destruct (tensixes_enabled _).
Qed.

Lemma UpdateDoppler_wf rnd inp t p :
  thr_wf t -> ppm_wf p -> is_u16 (input_power inp) ->
  exists t' p', UpdateDoppler rnd inp t p = Some (t', p') /\ thr_wf t' /\ ppm_wf p' /\ ppm_same p p'.
Proof.
  intros Hwf Hp Hu. unfold UpdateDoppler. pose proof Hwf as [Hd Ha Hpl].
  destruct (moving_average_ok (input_power inp) t Hd Hu) as (t1 & E1 & Hd1 & _ & P1 & _).
  pose proof E1 as E1'. unfold UpdateMovingAveragePower in E1'.
  assert (throttlers t1 = throttlers t) as Et1.
  { destruct (aget (board_power_history t) _); [|done]. cbn [mbind option_bind] in E1'.
    destruct (aset (board_power_history t) _ _); [|done]. by injection E1' as _ <-. }
  clear E1'. rewrite E1. cbn [mbind option_bind].
  assert (thr_wf t1) as Hwf1 by (apply (thr_same_wf t); [done|done|split; [by rewrite Et1|done] ]).
  destruct (UpdateThrottler_wf rnd kThrottlerDopplerSlow (of_u32 (zsum (board_power_history t1) / board_samples)) t1)
    as (t2 & E2 & Hwf2); [done|done|].
  rewrite E2. cbn [mbind option_bind]. cbv zeta.
  match goal with |- context [EnableArbMax ?a ?b p] =>
    destruct (EnableArbMax_wf a b p Hp) as (p' & E3 & Hp'); [done|]; rewrite E3 end.
  cbn [mbind option_bind]. eexists _, p'. split; [done|].
  split; [|split; [done|by eapply EnableArbMax_same] ].
  apply switch_nops_wf. destruct Hwf2 as [Hd2 Ha2 Hp2]. split; [by destruct Hd2; split|done|done].
Qed.

Lemma update_arbs_wf rnd t p :
  thr_wf t -> ppm_wf p -> exists p', update_arbs rnd t p = Some p' /\ ppm_wf p' /\ ppm_same p p'.
Proof.
  intros [Hd Ha _] Hp. unfold update_arbs.
  destruct (for_loop_inv (fun _ p' => ppm_wf p' /\ ppm_same p p') (Z.to_nat kThrottlerCount) 0
              (fun i ppm => UpdateThrottlerArb rnd i t ppm) p) as (p' & E & Hp' & Hs);
    [by split|..|by exists p'].
  intros i q Hi [Hq Hsq]. unfold UpdateThrottlerArb.
  destruct (aget_in (throttlers t) i) as [x Ex]; [rewrite (di_throttlers _ Hd); lia|].
  rewrite Ex. cbn [mbind option_bind].
  pose proof (aget_Forall _ _ _ _ Ha Ex) as Hx. cbn in Hx. unfold GetThrottlerArbMax.
  destruct (aget_in (arbiter_max q) (arb_max x)) as [a Ea]; [rewrite (wf_max_len _ Hq); lia|].
  rewrite Ea. cbn [fmap option_fmap option_map mbind option_bind].
  match goal with |- context [SetAiclkArbMax ?a ?b q] =>
    destruct (SetAiclkArbMax_wf a b q Hq) as (q' & E & Hq'); [done|]; rewrite E end.
  exists q'. split; [done|]. split; [done|]. by eapply ppm_same_trans, SetAiclkArbMax_same.
Qed.

Lemma CalculateThrottlers_wf rnd inp t p :
  thr_wf t -> ppm_wf p -> is_u16 (input_power inp) ->
  exists t' p', CalculateThrottlers rnd inp t p = Some (t', p') /\ thr_wf t' /\ ppm_wf p' /\ ppm_same p p'.
Proof.
  intros Ht Hp Hu. unfold CalculateThrottlers.
  assert (exists t1 p1, (if DopplerActive t then UpdateDoppler rnd inp t p else
    s ← UpdateThrottler rnd kThrottlerTDP (vcore_power inp) t;
    s ← UpdateThrottler rnd kThrottlerFastTDC (vcore_current inp) s;
    s ← UpdateThrottler rnd kThrottlerTDC (vcore_current inp) s;
    s ← UpdateThrottler rnd kThrottlerBoardPower (of_u32 (input_power inp)) s;
    t ← aget (throttlers s) kThrottlerTDP;
    Some (UpdateKernelThrottler inp (vcore_power inp) (limit t) s p, p)) = Some (t1, p1) /\
      thr_wf t1 /\ ppm_wf p1 /\ ppm_same p p1) as (t1 & p1 & E1 & Ht1 & Hp1 & Hs1).
  { destruct (DopplerActive t); [by apply UpdateDoppler_wf|].
    destruct (UpdateThrottler_wf rnd kThrottlerTDP (vcore_power inp) t) as (a & -> & Ha); [done|done|].
    destruct (UpdateThrottler_wf rnd kThrottlerFastTDC (vcore_current inp) a) as (b & Eb & Hb); [done|done|].
    cbn [mbind option_bind]. rewrite Eb.
    destruct (UpdateThrottler_wf rnd kThrottlerTDC (vcore_current inp) b) as (c & Ec & Hc); [done|done|].
    cbn [mbind option_bind]. rewrite Ec.
    destruct (UpdateThrottler_wf rnd kThrottlerBoardPower (of_u32 (input_power inp)) c) as (d & Ed & Hd); [done|done|].
    cbn [mbind option_bind]. rewrite Ed. cbn [mbind option_bind].
    destruct (aget_in (throttlers d) kThrottlerTDP) as [x Ex]; [by rewrite (di_throttlers _ (tw_doppler _ Hd))|].
    rewrite Ex. cbn [mbind option_bind]. eexists _, p. split; [done|].
    split; [|done]. unfold UpdateKernelThrottler.
    destruct (if kernel_nops_at_aiclk_fmin inp then _ else _). by apply switch_nops_wf. }
  rewrite E1. cbn [mbind option_bind].
  destruct (UpdateThrottler_wf rnd kThrottlerThm (asic_temperature inp) t1) as (a & Ea & Ha); [done|done|].
  rewrite Ea. cbn [mbind option_bind].
  destruct (UpdateThrottler_wf rnd kThrottlerGDDRThm (max_gddr_temp inp) a) as (b & Eb & Hb); [done|done|].
  rewrite Eb. cbn [mbind option_bind].
  destruct (update_arbs_wf rnd b p1 Hb Hp1) as (p2 & E2 & Hp2 & Hs2). rewrite E2. cbn [mbind option_bind].
  exists b, p2. split_and!; try done. by eapply ppm_same_trans.
Qed.

(** ** Never below the voltage the frequency needs *)

Section safety.
Variable rnd : Q -> Q.
Variable curve : vf_curve.

(** The voltage the arbiter asks for at a frequency. *)
Definition needed (v : VoltageArbiter) (f : Z) : Z :=
  zclamp (to_u32 (VFCurve rnd curve (of_u32 f))) (vdd_min v) (vdd_max v).

(** At every step of a sequence of writes (oldest first), from frequency [f] and
    voltage [mv], the voltage is enough. *)
Fixpoint hw_safe (need : Z -> Z) (f mv : Z) (ops : list hw_op) : Prop :=
  need f <= mv /\
  match ops with
  | [] => True
  | SetRate f :: ops => hw_safe need f mv ops
  | SetVcore mv :: ops => hw_safe need f mv ops
  | SetVcorem _ :: ops => hw_safe need f mv ops
  end.

Definition rate_in_range (op : hw_op) : Prop := match op with SetRate f => 0 <= f <= AICLK_FMAX_MAX | _ => True end.

Record dvfs_wf (s : dvfs) : Prop := {
  dw_ppm : ppm_wf (ppm s);
  dw_thr : thr_wf (throttle s);
  dw_forced : 0 <= forced_freq (ppm s) <= AICLK_FMAX_MAX;
  dw_host : 0 <= host_requested_fmin (ppm s) <= AICLK_FMIN_MAX;
  dw_sweep : sweep_en (ppm s) <> 1;
  dw_curr : 0 <= curr_freq (ppm s) <= AICLK_FMAX_MAX;
  dw_req : len (req_voltage (volt s)) = VoltageReqCount;
  dw_vdd : vdd_min (volt s) <= vdd_max (volt s);
  dw_vforced : forced_voltage (volt s) = 0;
  dw_reqs : Forall (fun r => vdd_min (volt s) <= r <= vdd_max (volt s)) (req_voltage (volt s))
}.

Lemma fold_max_ge (l : list Z) t :
  let r := fold_left (fun t r => if t <? r then r else t) l t in
  t <= r /\ (forall x, x ∈ l -> x <= r) /\ (r = t \/ r ∈ l).
Proof.
  revert t. induction l as [|x l IH]; intros t; cbn [fold_left].
  { split_and!; [done|set_solver|by left]. }
  cbv zeta in *. destruct (Z.ltb_spec t x).
  - destruct (IH x) as (H1 & H2 & H3). split_and!; [lia| |set_solver].
    intros y [->|Hy]%elem_of_cons; auto.
  - destruct (IH t) as (H1 & H2 & H3). split_and!; [lia| |set_solver].
    intros y [->|Hy]%elem_of_cons; [lia|auto].
Qed.

(** The request of the AICLK and the resulting target voltage. *)
Lemma voltage_target v f :
  len (req_voltage v) = VoltageReqCount -> vdd_min v <= vdd_max v -> forced_voltage v = 0 ->
  Forall (fun r => vdd_min v <= r <= vdd_max v) (req_voltage v) ->
  exists v', VoltageArbRequest VoltageReqAiclk (to_u32 (VFCurve rnd curve (of_u32 f))) v = Some v' /\
    let v2 := CalculateTargVoltage v' in
    needed v f <= targ_voltage v2 /\ curr_voltage v2 = curr_voltage v /\ vdd_min v2 = vdd_min v /\
    vdd_max v2 = vdd_max v /\ forced_voltage v2 = 0 /\ len (req_voltage v2) = VoltageReqCount /\
    Forall (fun r => vdd_min v <= r <= vdd_max v) (req_voltage v2).
Proof.
  intros Hl Hv Hf HF. unfold VoltageArbRequest. fold (needed v f).
  rewrite aset_in by (rewrite Hl; done). eexists. split; [done|].
  assert (Hn : vdd_min v <= needed v f <= vdd_max v) by (unfold needed, zclamp; if_case; lia).
  unfold CalculateTargVoltage. cbn [req_voltage vdd_min vdd_max forced_voltage set_req_voltage targ_voltage
    set_targ_voltage curr_voltage]. rewrite Hf. cbn [Z.eqb negb].
  set (l := <[Z.to_nat VoltageReqAiclk:=needed v f]> (req_voltage v)).
  destruct (fold_max_ge l (vdd_min v)) as (H1 & H2 & _).
  assert (needed v f ∈ l).
  { apply (list_elem_of_lookup_2 _ 0). unfold l. change (Z.to_nat VoltageReqAiclk) with 0%nat.
    apply list_lookup_insert_eq. unfold VoltageReqCount in Hl. lia. }
  specialize (H2 _ H). cbv zeta in *. split_and!; try done; [lia|unfold l; by rewrite length_insert|].
  by apply Forall_insert.
Qed.

Lemma target_range rand p :
  ppm_wf p -> 0 <= forced_freq p <= AICLK_FMAX_MAX -> 0 <= host_requested_fmin p <= AICLK_FMIN_MAX ->
  sweep_en p <> 1 ->
  exists p', CalculateTargAiclk rand p = Some p' /\ ppm_wf p' /\ 0 <= targ_freq p' <= AICLK_FMAX_MAX /\
    curr_freq p' = curr_freq p /\ forced_freq p' = forced_freq p /\ sweep_en p' = sweep_en p /\
    host_requested_fmin p' = host_requested_fmin p.
Proof.
  intros Hwf Hf Hh Hs.
  destruct (CalculateTargAiclk_spec rand p Hwf ltac:(lia) ltac:(done)) as
    (p' & E & Hwf' & Et & Ec & _ & _ & Ef & _ & Eh & _).
  exists p'. split; [done|]. split; [done|]. rewrite Et, Ec, Ef, Eh.
  assert (sweep_en p' = sweep_en p) as ->.
  { unfold CalculateTargAiclk in E.
    destruct (get_aiclk_effective_arb_min _ _), (get_aiclk_effective_arb_max _ _).
    destruct (if _ <? _ then _ else _) as [? ?] in E. destruct (aget _ _) in E; [|done]. cbn [mbind option_bind] in E.
    destruct (count_loop _ _ _ _ _ _ _) as [ [? ?]|] in E; [|done]. cbn [mbind option_bind] in E. cbv zeta in E.
    destruct (if _ <? _ then _ else _) as [? ?] in E. destruct (Z.eqb_spec (sweep_en p) 1); [done|].
    cbn [mbind option_bind] in E. destruct (if negb _ then _ else _) as [? ?] in E. by injection E as <-. }
  split; [|done].
  pose proof Hwf as [Hl Hx _ _ _ _ _ _].
  assert (0 <= arbitrated p <= AICLK_FMAX_MAX).
  { unfold arbitrated, freq_floor, get_aiclk_effective_arb_max, get_aiclk_effective_arb_min.
    destruct (arb_max_loop_spec (arbiter_max p) 0 (fmax p) aiclk_arb_max_count) as (Hm & _).
    unfold AICLK_FMAX_MAX, AICLK_FMIN_MAX in *. cbv zeta in Hm. lia. }
  unfold overridden, swept, AICLK_RESET_SAFE_FREQ, AICLK_FMAX_MAX in *.
  destruct (Z.eqb_spec (sweep_en p) 1); [done|].
  destruct (reset_safe p), (forced_freq p =? 0); lia.
Qed.

Ltac ranges := repeat (apply Forall_cons; split; [first [exact I|assumption]|]); apply Forall_nil; exact I.

End safety.

(** ** Witness: the fallback curve with its largest frequency margin *)

Definition curve0 : vf_curve := MkVf 300 0 false false 0 0.
Definition volt0 : VoltageArbiter := MkVolt 800 800 760 900 0 [760; 760].
Definition ppm_busy : AiclkPPM := default ppm0 (SetAiclkArbMin aiclk_arb_min_busy (of_u32 1000) ppm0).
Definition dvfs0 : dvfs := MkDvfs ppm_busy (thr0 0 false) volt0 true [].

Lemma step_mono (g : Z -> Z) n :
  forallb (fun i => g i <=? g (i + 1)) (seqZ 0 n) = true ->
  forall a b, 0 <= a <= b -> b <= n -> g a <= g b.
Proof.
  intros Hall a b Hab Hb. pose proof (proj1 (forallb_forall _ _) Hall) as Hf.
  assert (forall k, 0 <= k -> a + k <= n -> g a <= g (a + k)) as Hk.
  { intros k Hk. pattern k. apply natlike_ind; [|intros x Hx IH Hle|done].
    - intros _. by rewrite Z.add_0_r.
    - specialize (Hf (a + x)). rewrite <- Z.add_1_r, Z.add_assoc. etrans; [apply IH; lia|].
      apply Z.leb_le, Hf. apply list_elem_of_In, elem_of_seqZ. lia. }
  specialize (Hk (b - a)). replace (a + (b - a)) with b in Hk by lia. apply Hk; lia.
Qed.

Lemma dvfs0_wf : dvfs_wf dvfs0.
Proof.
  split.
  - unfold dvfs0, ppm_busy. cbn [ppm].
    destruct (SetAiclkArbMin_wf aiclk_arb_min_busy (of_u32 1000) ppm0 ppm0_wf) as (s' & E & Hwf); [done|].
    rewrite E. exact Hwf.
  - split; [|by repeat (apply Forall_cons_2; [by vm_compute|]); apply Forall_nil|by vm_compute].
    split; [by vm_compute|by vm_compute|by apply (Forall_replicate _ 1000 0)|by vm_compute|by vm_compute].
  - by vm_compute.
  - by vm_compute.
  - by vm_compute.
  - by vm_compute.
  - by vm_compute.
  - by vm_compute.
  - by vm_compute.
  - repeat (apply Forall_cons_2; [by vm_compute|]). by apply Forall_nil.
Qed.


(** The curve is not monotone.  [GetMaxAiclkForVoltage] assumes that voltage rises
    with frequency, but the fallback curve without margin (computed exactly)
    needs more voltage at 200 MHz than at 700 MHz; for a limit of 680 mV on a
    200..800 MHz part the search answers 199 MHz, although 700 MHz needs less. *)
Theorem vf_curve_not_monotone :
  let c := InitVFCurve Qred 0 0 0 in
  to_u32 (VFCurve Qred c (of_u32 700)) < to_u32 (VFCurve Qred c (of_u32 200)) /\
  forall s, fmin s = 200 -> fmax s = 800 ->
    get_freq_curve_from_voltage_handler Qred c 680 s = Some 199 /\
    qlt (of_u32 680) (VFCurve Qred c (of_u32 700)) = false.
Proof.
  split; [by vm_compute|]. intros s Hmin Hmax.
  unfold get_freq_curve_from_voltage_handler, GetMaxAiclkForVoltage. rewrite Hmin, Hmax. by vm_compute.
Qed.

Definition ppm_800 : AiclkPPM :=
  MkPPM 800 800 800 800 200 0 0 false 0 0 0 (0, limit_reason_min_arb) [] [] false [] 0 0.

Lemma vf_curve_not_monotone_witness :
  get_freq_curve_from_voltage_handler Qred (InitVFCurve Qred 0 0 0) 680 ppm_800 = Some 199.
Proof. exact (proj1 (proj2 vf_curve_not_monotone ppm_800 eq_refl eq_refl)). Defined.
