(* ===== verification/ClockControl.v ===== *)
(** * The PLL clock driver ([drivers/clock_control/clock_control_tt_bh.c])

    Five PLLs feed the chip's clocks.  Changing most settings takes a PLL through
    bypass, power-down, configuration, power-up and lock; the AI clock alone is
    moved while running, one step of the feedback divider at a time.  Register
    access and time are the class [PllHw]; what a PLL register file does is
    [PllHwLaws].  [None] is a division by zero, an index that the code declares
    unreachable, or a loop that outlives its fuel. *)

From S2P Require Import Prelude.

(** ** Registers *)

Definition PLL_LOCK_TIMEOUT_MS : Z := 400.
Definition PLL_CNTL_0_OFFSET : Z := 0x00.
Definition PLL_CNTL_1_OFFSET : Z := 0x04.
Definition PLL_CNTL_2_OFFSET : Z := 0x08.
Definition PLL_CNTL_3_OFFSET : Z := 0x0C.
Definition PLL_CNTL_5_OFFSET : Z := 0x14.
Definition PLL_USE_POSTDIV_OFFSET : Z := 0x1C.
Definition CLK_COUNTER_EN_OFFSET : Z := 0x30.
Definition VCO_MIN_FREQ : Z := 1600.
Definition VCO_MAX_FREQ : Z := 5000.
Definition CLK_COUNTER_REFCLK_PERIOD : Z := 1000.
Definition PLL_CNTL_WRAPPER_PLL_LOCK_REG_ADDR : Z := 0x80020040.
Definition PLL_CNTL_WRAPPER_REFCLK_PERIOD_REG_ADDR : Z := 0x8002002C.

(** [struct tt_bh_pll_cntl_0_fields]. *)
Definition set_pd (v r : Z) : Z := bits_set 1 1 v r.
Definition set_bypass (v r : Z) : Z := bits_set 4 1 v r.
(** [struct tt_bh_pll_cntl_1_fields]. *)
Definition refdiv (r : Z) : Z := bits_get 0 8 r.
Definition fbdiv (r : Z) : Z := bits_get 16 16 r.
Definition set_fbdiv (v r : Z) : Z := bits_set 16 16 v r.
Definition mk_cntl_1 (refdiv postdiv fbdiv : Z) : Z := bits_set 16 16 fbdiv (bits_set 8 8 postdiv (bits_set 0 8 refdiv 0)).
(** [struct tt_bh_pll_cntl_5_fields] and [struct tt_bh_pll_use_postdiv_fields]. *)
Definition postdiv (i r : Z) : Z := bits_get (8 * i) 8 r.
Definition set_postdiv (i v r : Z) : Z := bits_set (8 * i) 8 v r.
Definition pll_use_postdiv (i r : Z) : Z := bits_get i 1 r.

Record tt_bh_pll_settings := MkSettings {
  pll_cntl_1 : Z;
  pll_cntl_2 : Z;
  pll_cntl_3 : Z;
  pll_cntl_5 : Z;
  use_postdiv : Z
}.
Definition set_pll_cntl_1 (v : Z) (s : tt_bh_pll_settings) : tt_bh_pll_settings :=
  MkSettings v (pll_cntl_2 s) (pll_cntl_3 s) (pll_cntl_5 s) (use_postdiv s).
Definition set_pll_cntl_5 (v : Z) (s : tt_bh_pll_settings) : tt_bh_pll_settings :=
  MkSettings (pll_cntl_1 s) (pll_cntl_2 s) (pll_cntl_3 s) v (use_postdiv s).

Record clock_control_tt_bh_config := MkConfig {
  inst : Z;
  refclk_rate : Z;
  base : Z;
  init_settings : tt_bh_pll_settings
}.

(** [lock] is the spinlock: held or not. *)
Record clock_control_tt_bh_data := MkData { settings : tt_bh_pll_settings; lock : bool }.
Definition set_lock (b : bool) (d : clock_control_tt_bh_data) : clock_control_tt_bh_data := MkData (settings d) b.
Definition set_settings (s : tt_bh_pll_settings) (d : clock_control_tt_bh_data) : clock_control_tt_bh_data := MkData s (lock d).

(** The settings the device tree gives. *)
Definition init_settings_of (refdiv postdiv fbdiv ctrl_bus1 ctrl_bus5 : Z) (pd use : Z * Z * Z * Z) : tt_bh_pll_settings :=
  let '(p0, p1, p2, p3) := pd in let '(u0, u1, u2, u3) := use in
  MkSettings (mk_cntl_1 refdiv postdiv fbdiv) (bits_set 0 8 ctrl_bus1 0) (bits_set 0 8 ctrl_bus5 0)
    (set_postdiv 3 p3 (set_postdiv 2 p2 (set_postdiv 1 p1 (set_postdiv 0 p0 0))))
    (bits_set 3 1 u3 (bits_set 2 1 u2 (bits_set 1 1 u1 (bits_set 0 1 u0 0)))).

Inductive clock_control_tt_bh_clock :=
| CLOCK_CONTROL_TT_BH_CLOCK_AICLK
| CLOCK_CONTROL_TT_BH_CLOCK_ARCCLK
| CLOCK_CONTROL_TT_BH_CLOCK_AXICLK
| CLOCK_CONTROL_TT_BH_CLOCK_APBCLK
| CLOCK_CONTROL_TT_BH_CLOCK_L2CPUCLK_0
| CLOCK_CONTROL_TT_BH_CLOCK_L2CPUCLK_1
| CLOCK_CONTROL_TT_BH_CLOCK_L2CPUCLK_2
| CLOCK_CONTROL_TT_BH_CLOCK_L2CPUCLK_3
| CLOCK_CONTROL_TT_BH_CLOCK_GDDRMEMCLK
| CLOCK_CONTROL_TT_BH_INIT_STATE.

Definition EBUSY : Z := 16.
Definition EINVAL : Z := 22.
Definition ERANGE : Z := 34.
Definition ENOSYS : Z := 88.
Definition ETIMEDOUT : Z := 116.
Definition ENOTSUP : Z := 134.

(** ** Divider arithmetic *)

Definition udiv (a b : Z) : option Z := if b =? 0 then None else Some (a / b).

Definition clock_control_tt_bh_get_ext_postdiv (postdiv_index pll_cntl_5 use_postdiv : Z) : option Z :=
  if (0 <=? postdiv_index) && (postdiv_index <=? 3) then
    let postdiv_value := postdiv postdiv_index pll_cntl_5 in
    if negb (pll_use_postdiv postdiv_index use_postdiv =? 0) then
      Some (if postdiv_value =? 0 then 0
            else if postdiv_value <=? 16 then postdiv_value + 1
            else (postdiv_value + 1) * 2)
    else Some 1
  else None.

Definition clock_control_tt_bh_calculate_fbdiv (refclk_rate target_freq_mhz pll_cntl_1 pll_cntl_5 use_postdiv postdiv_index : Z)
    : option Z :=
  eff_postdiv ← clock_control_tt_bh_get_ext_postdiv postdiv_index pll_cntl_5 use_postdiv;
  if eff_postdiv =? 0 then Some 0
  else udiv (u32 (u32 (target_freq_mhz * refdiv pll_cntl_1) * eff_postdiv)) refclk_rate.

(** ** The hardware *)

Class PllHw (W : Type) := {
  sys_read32 : Z -> W -> Z * W;
  sys_write32 : Z -> Z -> W -> W;        (** value, address *)
  k_uptime_get : W -> Z * W;
  k_busy_wait : Z -> W -> W;             (** microseconds *)
  k_busy_wait_ns : Z -> W -> W
}.

Section driver.
Context {W : Type} `{PllHw W}.
Implicit Types (w : W) (c : clock_control_tt_bh_config) (d : clock_control_tt_bh_data) (s : tt_bh_pll_settings).

Definition clock_control_tt_bh_read_reg c (offset : Z) w : Z * W := sys_read32 (base c + offset) w.
Definition clock_control_tt_bh_write_reg c (offset val : Z) w : W := sys_write32 val (base c + offset) w.

Definition clock_control_enable_clk_counters c w : W :=
  let w := sys_write32 CLK_COUNTER_REFCLK_PERIOD PLL_CNTL_WRAPPER_REFCLK_PERIOD_REG_ADDR w in
  clock_control_tt_bh_write_reg c CLK_COUNTER_EN_OFFSET 0xff w.

Definition clock_control_tt_bh_config_vco c s w : W :=
  let w := clock_control_tt_bh_write_reg c PLL_CNTL_1_OFFSET (pll_cntl_1 s) w in
  let w := clock_control_tt_bh_write_reg c PLL_CNTL_2_OFFSET (pll_cntl_2 s) w in
  clock_control_tt_bh_write_reg c PLL_CNTL_3_OFFSET (pll_cntl_3 s) w.

Definition clock_control_tt_bh_config_ext_postdivs c s w : W :=
  let w := clock_control_tt_bh_write_reg c PLL_USE_POSTDIV_OFFSET 0 w in
  let w := clock_control_tt_bh_write_reg c PLL_CNTL_5_OFFSET (pll_cntl_5 s) w in
  clock_control_tt_bh_write_reg c PLL_USE_POSTDIV_OFFSET (use_postdiv s) w.

Fixpoint wait_lock_loop (fuel : nat) (inst start : Z) w : option (Z * W) :=
  match fuel with
  | O => None
  | S fuel =>
      let '(val, w) := sys_read32 PLL_CNTL_WRAPPER_PLL_LOCK_REG_ADDR w in
      if negb (Z.land val (BIT inst) =? 0) then Some (0, w)
      else
        let '(now, w) := k_uptime_get w in
        if u64 (now - start) <? PLL_LOCK_TIMEOUT_MS then wait_lock_loop fuel inst start w else Some (- ETIMEDOUT, w)
  end.
Definition clock_control_tt_bh_wait_lock (fuel : nat) (inst : Z) w : option (Z * W) :=
  let '(start, w) := k_uptime_get w in wait_lock_loop fuel inst start w.

Definition clock_control_tt_bh_get_freq c (postdiv_index : Z) w : option (Z * W) :=
  let '(pll_cntl_1, w) := clock_control_tt_bh_read_reg c PLL_CNTL_1_OFFSET w in
  let '(pll_cntl_5, w) := clock_control_tt_bh_read_reg c PLL_CNTL_5_OFFSET w in
  let '(use_postdiv, w) := clock_control_tt_bh_read_reg c PLL_USE_POSTDIV_OFFSET w in
  eff_postdiv ← clock_control_tt_bh_get_ext_postdiv postdiv_index pll_cntl_5 use_postdiv;
  if eff_postdiv =? 0 then Some (0, w)
  else f ← udiv (u32 (refclk_rate c * fbdiv pll_cntl_1)) (u32 (refdiv pll_cntl_1 * eff_postdiv)); Some (f, w).

(** Up to the power-up, as in [clock_control_tt_bh_update] and [clock_control_tt_bh_init]; the
    last value written to CNTL_0 comes with it. *)
Definition restart c s w : Z * W :=
  let '(pll_cntl_0, w) := clock_control_tt_bh_read_reg c PLL_CNTL_0_OFFSET w in
  let w := clock_control_tt_bh_write_reg c PLL_CNTL_0_OFFSET (set_bypass 0 pll_cntl_0) w in
  let w := k_busy_wait 3 w in
  let pll_cntl_0 := 0 in
  let w := clock_control_tt_bh_write_reg c PLL_CNTL_0_OFFSET pll_cntl_0 w in
  let w := clock_control_tt_bh_config_vco c s w in
  let w := k_busy_wait 5 w in
  let pll_cntl_0 := set_pd 1 pll_cntl_0 in
  (pll_cntl_0, clock_control_tt_bh_write_reg c PLL_CNTL_0_OFFSET pll_cntl_0 w).

(** From the external dividers to the end of the bypass. *)
Definition switch_over c s (pll_cntl_0 : Z) w : W :=
  let w := clock_control_tt_bh_config_ext_postdivs c s w in
  let w := k_busy_wait_ns 300 w in
  let w := clock_control_tt_bh_write_reg c PLL_CNTL_0_OFFSET (set_bypass 1 pll_cntl_0) w in
  k_busy_wait_ns 300 w.

(** The result of the wait is not looked at. *)
Definition clock_control_tt_bh_update (fuel : nat) c s d w : option (clock_control_tt_bh_data * W) :=
  let '(pll_cntl_0, w) := restart c s w in
  '(_, w) ← clock_control_tt_bh_wait_lock fuel (inst c) w;
  Some (set_settings s d, switch_over c s pll_cntl_0 w).

Definition clock_control_tt_bh_enable (fuel : nat) c (sys : clock_control_tt_bh_clock) (enable : Z) d w
    : option (Z * clock_control_tt_bh_data * W) :=
  let upd i := let s := set_pll_cntl_5 (set_postdiv i enable (pll_cntl_5 (settings d))) (settings d) in
    '(d, w) ← clock_control_tt_bh_update fuel c s d w; Some (0, d, w) in
  match sys with
  | CLOCK_CONTROL_TT_BH_CLOCK_L2CPUCLK_0 => upd 0
  | CLOCK_CONTROL_TT_BH_CLOCK_L2CPUCLK_1 => upd 1
  | CLOCK_CONTROL_TT_BH_CLOCK_L2CPUCLK_2 => upd 2
  | CLOCK_CONTROL_TT_BH_CLOCK_L2CPUCLK_3 => upd 3
  | _ => Some (- ENOSYS, d, w)
  end.
Definition clock_control_tt_bh_on (fuel : nat) c sys d w := clock_control_tt_bh_enable fuel c sys 1 d w.
Definition clock_control_tt_bh_off (fuel : nat) c sys d w := clock_control_tt_bh_enable fuel c sys 0 d w.
Definition clock_control_tt_bh_async_on : Z := - ENOSYS.

(** Which divider a clock comes from. *)
Definition clock_index (sys : clock_control_tt_bh_clock) : option Z :=
  match sys with
  | CLOCK_CONTROL_TT_BH_CLOCK_AICLK => Some 0
  | CLOCK_CONTROL_TT_BH_CLOCK_ARCCLK => Some 0
  | CLOCK_CONTROL_TT_BH_CLOCK_AXICLK => Some 1
  | CLOCK_CONTROL_TT_BH_CLOCK_APBCLK => Some 2
  | CLOCK_CONTROL_TT_BH_CLOCK_GDDRMEMCLK => Some 0
  | CLOCK_CONTROL_TT_BH_CLOCK_L2CPUCLK_0 => Some 0
  | CLOCK_CONTROL_TT_BH_CLOCK_L2CPUCLK_1 => Some 1
  | CLOCK_CONTROL_TT_BH_CLOCK_L2CPUCLK_2 => Some 2
  | CLOCK_CONTROL_TT_BH_CLOCK_L2CPUCLK_3 => Some 3
  | CLOCK_CONTROL_TT_BH_INIT_STATE => None
  end.

(** The result and, when it is 0, the rate. *)
Definition clock_control_tt_bh_get_rate c sys d w : option (Z * option Z * clock_control_tt_bh_data * W) :=
  if lock d then Some (- EBUSY, None, d, w)
  else
    let d := set_lock true d in
    match clock_index sys with
    | Some i =>
        '(rate, w) ← clock_control_tt_bh_get_freq c i w;
        Some (0, Some rate, set_lock false d, w)
    | None => Some (- ENOTSUP, None, set_lock false d, w)
    end.

Fixpoint aiclk_loop (fuel : nat) c (target_fbdiv pll_cntl_1 : Z) w : option W :=
  if fbdiv pll_cntl_1 =? target_fbdiv then Some w
  else match fuel with
  | O => None
  | S fuel =>
      let pll_cntl_1 := set_fbdiv (if fbdiv pll_cntl_1 <? target_fbdiv then fbdiv pll_cntl_1 + 1 else fbdiv pll_cntl_1 - 1) pll_cntl_1 in
      let w := clock_control_tt_bh_write_reg c PLL_CNTL_1_OFFSET pll_cntl_1 w in
      aiclk_loop fuel c target_fbdiv pll_cntl_1 (k_busy_wait_ns 100 w)
  end.

Definition set_gddrmemclk (fuel : nat) c (rate : Z) d w : option (Z * clock_control_tt_bh_data * W) :=
  let s := settings d in
  fbdiv_ ← clock_control_tt_bh_calculate_fbdiv (refclk_rate c) (u32 rate) (pll_cntl_1 s) (pll_cntl_5 s) (use_postdiv s) 0;
  if fbdiv_ =? 0 then Some (- EINVAL, d, w)
  else
    let s := set_pll_cntl_1 (set_fbdiv fbdiv_ (pll_cntl_1 s)) s in
    vco_freq ← udiv (u32 (refclk_rate c * fbdiv (pll_cntl_1 s))) (refdiv (pll_cntl_1 s));
    if negb ((VCO_MIN_FREQ <=? vco_freq) && (vco_freq <=? VCO_MAX_FREQ)) then Some (- ERANGE, d, w)
    else '(d, w) ← clock_control_tt_bh_update fuel c s d w; Some (0, d, w).

Definition set_aiclk (fuel : nat) c (rate : Z) w : option W :=
  let '(pll_cntl_1, w) := clock_control_tt_bh_read_reg c PLL_CNTL_1_OFFSET w in
  let '(pll_cntl_5, w) := clock_control_tt_bh_read_reg c PLL_CNTL_5_OFFSET w in
  let '(use_postdiv, w) := clock_control_tt_bh_read_reg c PLL_USE_POSTDIV_OFFSET w in
  target_fbdiv ← clock_control_tt_bh_calculate_fbdiv (refclk_rate c) (u32 rate) pll_cntl_1 pll_cntl_5 use_postdiv 0;
  aiclk_loop fuel c target_fbdiv pll_cntl_1 w.

Definition clock_control_tt_bh_set_rate (fuel : nat) c (sys : clock_control_tt_bh_clock) (rate : Z) d w
    : option (Z * clock_control_tt_bh_data * W) :=
  if lock d then Some (- EBUSY, d, w)
  else
    let d := set_lock true d in
    '(rc, d, w) ← match sys with
      | CLOCK_CONTROL_TT_BH_CLOCK_GDDRMEMCLK => set_gddrmemclk fuel c rate d w
      | CLOCK_CONTROL_TT_BH_CLOCK_AICLK => w ← set_aiclk fuel c rate w; Some (0, d, w)
      | CLOCK_CONTROL_TT_BH_INIT_STATE =>
          '(d, w) ← clock_control_tt_bh_update fuel c (init_settings c) d w;
          Some (0, d, clock_control_enable_clk_counters c w)
      | _ => Some (- ENOTSUP, d, w)
      end;
    Some (rc, set_lock false d, w).

(** [bypass] says that the option is [CLOCK_CONTROL_TT_BH_CONFIG_BYPASS]. *)
Definition clock_control_tt_bh_configure c (bypass : bool) d w : Z * clock_control_tt_bh_data * W :=
  if lock d then (- EBUSY, d, w)
  else
    let d := set_lock true d in
    if bypass then
      let '(pll_cntl_0, w) := clock_control_tt_bh_read_reg c PLL_CNTL_0_OFFSET w in
      let w := clock_control_tt_bh_write_reg c PLL_CNTL_0_OFFSET (set_bypass 0 pll_cntl_0) w in
      let w := k_busy_wait 3 w in
      let w := clock_control_tt_bh_write_reg c PLL_USE_POSTDIV_OFFSET 0 w in
      (0, set_lock false d, w)
    else (- ENOTSUP, set_lock false d, w).

(** On a lock failure it returns with the spinlock held. *)
Definition clock_control_tt_bh_init (fuel : nat) c d w : option (Z * clock_control_tt_bh_data * W) :=
  if lock d then Some (- EBUSY, d, w)
  else
    let d := set_settings (init_settings c) (set_lock true d) in
    let '(pll_cntl_0, w) := restart c (init_settings c) w in
    '(ret, w) ← clock_control_tt_bh_wait_lock fuel (inst c) w;
    if ret <? 0 then Some (ret, d, w)
    else
      let w := switch_over c (init_settings c) pll_cntl_0 w in
      Some (0, set_lock false d, clock_control_enable_clk_counters c w).
End driver.

(** ** What the hardware promises *)

(** Writes and waits (in nanoseconds). *)
Inductive pll_event := EvWrite (addr val : Z) | EvWait (ns : Z).

(** A register keeps what was written to it (the lock register answers for
    itself), accesses and waits are all there is, and a read takes time, but less than a second. *)
Class PllHwLaws (W : Type) `{PllHw W} := {
  regs : W -> Z -> Z;
  log : W -> list pll_event;             (** newest first *)
  ns : W -> Z;                           (** time since boot *)
  read_value a w : a <> PLL_CNTL_WRAPPER_PLL_LOCK_REG_ADDR -> (sys_read32 a w).1 = regs w a;
  read_regs a w a' : regs (sys_read32 a w).2 a' = regs w a';
  read_log a w : log (sys_read32 a w).2 = log w;
  read_ns a w : ns w < ns (sys_read32 a w).2 <= ns w + 1000000000;
  write_regs v a w a' : regs (sys_write32 v a w) a' = if a' =? a then v else regs w a';
  write_log v a w : log (sys_write32 v a w) = EvWrite a v :: log w;
  write_ns v a w : ns w <= ns (sys_write32 v a w);
  uptime_value w : (k_uptime_get w).1 = ns w / 1000000;
  uptime_regs w a' : regs (k_uptime_get w).2 a' = regs w a';
  uptime_log w : log (k_uptime_get w).2 = log w;
  uptime_ns w : ns w <= ns (k_uptime_get w).2 <= ns w + 1000000000;
  wait_regs u w a' : regs (k_busy_wait u w) a' = regs w a';
  wait_log u w : log (k_busy_wait u w) = EvWait (1000 * u) :: log w;
  wait_time u w : ns w <= ns (k_busy_wait u w);
  wait_ns_regs n w a' : regs (k_busy_wait_ns n w) a' = regs w a';
  wait_ns_log n w : log (k_busy_wait_ns n w) = EvWait n :: log w;
  wait_ns_time n w : ns w <= ns (k_busy_wait_ns n w)
}.

(** The registers after a sequence of events. *)
Definition event_regs (e : pll_event) (r : Z -> Z) : Z -> Z :=
  match e with EvWrite a v => fun a' => if a' =? a then v else r a' | EvWait _ => r end.
Fixpoint replay (evs : list pll_event) (r : Z -> Z) : Z -> Z :=
  match evs with [] => r | e :: evs => replay evs (event_regs e r) end.

Lemma replay_app e1 e2 r : replay (e1 ++ e2) r = replay e2 (replay e1 r).
Proof. revert r. induction e1 as [|e e1 IH]; intros r; [done|]. apply IH. Qed.

Lemma replay_ext evs r r' a : (forall a, r a = r' a) -> replay evs r a = replay evs r' a.
Proof.
  revert r r'. induction evs as [|e evs IH]; intros r r' E; [apply E|]. apply IH. intros a'. destruct e; cbn; [|apply E].
  by rewrite E.
Qed.

(** ** The sequence a PLL must be taken through *)

Section sequencing.
Variable base : Z.

Definition bypassed (r : Z -> Z) : bool := negb (Z.testbit (r (base + PLL_CNTL_0_OFFSET)) 4).
Definition powered (r : Z -> Z) : bool := Z.testbit (r (base + PLL_CNTL_0_OFFSET)) 1.
Definition close_by (a b : Z) : bool := Z.abs (a - b) =? 1.

(** A write to a control register, with the registers before it and the time
    waited since the last such write. *)
Definition write_ok (r : Z -> Z) (waited off v : Z) : bool :=
  if off =? PLL_CNTL_0_OFFSET then
    let r' := event_regs (EvWrite (base + off) v) r in
    (* the power goes off in bypass, 3 us after it began *)
    (negb (powered r && negb (powered r')) || (bypassed r && bypassed r' && (3000 <=? waited))) &&
    (* it comes on in bypass, 5 us after the inputs are stable *)
    (negb (negb (powered r) && powered r') || (bypassed r && bypassed r' && (5000 <=? waited))) &&
    (* and the bypass ends with the power on, 300 ns after the dividers were set *)
    (negb (bypassed r && negb (bypassed r')) || (powered r && powered r' && (300 <=? waited)))
  else if off =? PLL_CNTL_1_OFFSET then
    (* without power, or one step of the feedback divider *)
    (bypassed r && negb (powered r)) ||
    (close_by (fbdiv v) (fbdiv (r (base + off))) && (set_fbdiv (fbdiv v) (r (base + off)) =? v) && (100 <=? waited))
  else if (off =? PLL_CNTL_2_OFFSET) || (off =? PLL_CNTL_3_OFFSET) then bypassed r && negb (powered r)
  else if off =? PLL_CNTL_5_OFFSET then bypassed r && (r (base + PLL_USE_POSTDIV_OFFSET) =? 0)
  else if off =? PLL_USE_POSTDIV_OFFSET then bypassed r
  else true.

Definition is_cntl (off : Z) : bool := (0 <=? off) && (off <=? PLL_USE_POSTDIV_OFFSET).

(** Every event of a sequence in turn; and the time waited at its end. *)
Fixpoint seq_ok (r : Z -> Z) (waited : Z) (evs : list pll_event) : bool :=
  match evs with
  | [] => true
  | EvWrite a v as e :: evs =>
      write_ok r waited (a - base) v && seq_ok (event_regs e r) (if is_cntl (a - base) then 0 else waited) evs
  | EvWait n :: evs => seq_ok r (waited + n) evs
  end.
Fixpoint waited_after (waited : Z) (evs : list pll_event) : Z :=
  match evs with
  | [] => waited
  | EvWrite a _ :: evs => waited_after (if is_cntl (a - base) then 0 else waited) evs
  | EvWait n :: evs => waited_after (waited + n) evs
  end.

Lemma seq_ok_app r waited e1 e2 :
  seq_ok r waited (e1 ++ e2) = seq_ok r waited e1 && seq_ok (replay e1 r) (waited_after waited e1) e2.
Proof.
  revert r waited. induction e1 as [|e e1 IH]; intros r waited; [done|].
  destruct e; cbn [seq_ok app replay waited_after]; rewrite IH; [by rewrite andb_assoc|done].
Qed.
End sequencing.

(** ** The driver's events *)

Section events.
Context {W : Type} `{PllHwLaws W}.
Implicit Types (w : W) (c : clock_control_tt_bh_config) (s : tt_bh_pll_settings).

(** [w'] follows [w] by exactly these events, oldest first. *)
Record did (w : W) (evs : list pll_event) (w' : W) : Prop := {
  did_log : log w' = rev evs ++ log w;
  did_regs : forall a, regs w' a = replay evs (regs w) a;
  did_ns : ns w <= ns w'
}.

Lemma did_nil w : did w [] w.
Proof. split; [done|done|lia]. Qed.
Lemma did_app w e1 w1 e2 w2 : did w e1 w1 -> did w1 e2 w2 -> did w (e1 ++ e2) w2.
Proof.
  intros [L1 R1 N1] [L2 R2 N2]. split; [|intros a|lia].
  - by rewrite L2, L1, rev_app_distr, app_assoc.
  - rewrite R2, replay_app. apply replay_ext. apply R1.
Qed.
Lemma did_write w v a : did w [EvWrite a v] (sys_write32 v a w).
Proof. split; [apply write_log|intros a'; apply write_regs|apply write_ns]. Qed.
Lemma did_wait w u : did w [EvWait (1000 * u)] (k_busy_wait u w).
Proof. split; [apply wait_log|intros a'; apply wait_regs|apply wait_time]. Qed.
Lemma did_wait_ns w n : did w [EvWait n] (k_busy_wait_ns n w).
Proof. split; [apply wait_ns_log|intros a'; apply wait_ns_regs|apply wait_ns_time]. Qed.
Lemma did_uptime w : did w [] (k_uptime_get w).2.
Proof. split; [apply uptime_log|intros a'; apply uptime_regs|apply uptime_ns]. Qed.
Lemma did_read_raw w a : did w [] (sys_read32 a w).2.
Proof. split; [apply read_log|intros a'; apply read_regs|pose proof (read_ns a w); lia]. Qed.

Lemma did_then w evs w' e w'' : did w evs w' -> did w' [e] w'' -> did w (evs ++ [e]) w''.
Proof. apply did_app. Qed.

(** A PLL's control registers are not the lock register. *)
Definition cfg_ok c : Prop := forall off, 0 <= off <= CLK_COUNTER_EN_OFFSET -> base c + off <> PLL_CNTL_WRAPPER_PLL_LOCK_REG_ADDR /\
  base c + off <> PLL_CNTL_WRAPPER_REFCLK_PERIOD_REG_ADDR.

Lemma read_reg c off w :
  cfg_ok c -> 0 <= off <= CLK_COUNTER_EN_OFFSET ->
  exists w', clock_control_tt_bh_read_reg c off w = (regs w (base c + off), w') /\ did w [] w'.
Proof.
  intros Hc Ho. unfold clock_control_tt_bh_read_reg. exists (sys_read32 (base c + off) w).2.
  rewrite <- read_value by (by apply Hc). split; [by destruct (sys_read32 _ _)|apply did_read_raw].
Qed.

Lemma did_write_reg w c off v : did w [EvWrite (base c + off) v] (clock_control_tt_bh_write_reg c off v w).
Proof. apply did_write. Qed.
End events.

Lemma did_eq {W} `{PllHwLaws W} (w : W) evs evs' w' : did w evs w' -> evs = evs' -> did w evs' w'.
Proof. by intros ? <-. Qed.

(** The events of a chain of calls, from the last to the first. *)
Ltac did_step :=
  match goal with
  | |- did ?w ?e ?w => is_evar e; apply did_nil
  | D : did ?w _ ?w' |- did ?w ?e ?w' => is_evar e; exact D
  | |- did _ _ (k_busy_wait _ _) => eapply did_app; [|apply did_wait]
  | |- did _ _ (k_busy_wait_ns _ _) => eapply did_app; [|apply did_wait_ns]
  | |- did _ _ (clock_control_tt_bh_write_reg _ _ _ _) => eapply did_app; [|apply did_write_reg]
  | |- did _ _ (sys_write32 _ _ _) => eapply did_app; [|apply did_write]
  end.
Ltac did_solve := eapply did_eq; [repeat did_step|reflexivity].

Section calls.
Context {W : Type} `{PllHwLaws W}.
Implicit Types (w : W) (c : clock_control_tt_bh_config) (s : tt_bh_pll_settings).

Definition restart_events c s (cntl_0 : Z) : list pll_event :=
  [EvWrite (base c + PLL_CNTL_0_OFFSET) (set_bypass 0 cntl_0); EvWait 3000;
   EvWrite (base c + PLL_CNTL_0_OFFSET) 0;
   EvWrite (base c + PLL_CNTL_1_OFFSET) (pll_cntl_1 s); EvWrite (base c + PLL_CNTL_2_OFFSET) (pll_cntl_2 s);
   EvWrite (base c + PLL_CNTL_3_OFFSET) (pll_cntl_3 s); EvWait 5000;
   EvWrite (base c + PLL_CNTL_0_OFFSET) 2].
Definition switch_events c s : list pll_event :=
  [EvWrite (base c + PLL_USE_POSTDIV_OFFSET) 0; EvWrite (base c + PLL_CNTL_5_OFFSET) (pll_cntl_5 s);
   EvWrite (base c + PLL_USE_POSTDIV_OFFSET) (use_postdiv s); EvWait 300;
   EvWrite (base c + PLL_CNTL_0_OFFSET) 18; EvWait 300].
Definition counter_events c : list pll_event :=
  [EvWrite PLL_CNTL_WRAPPER_REFCLK_PERIOD_REG_ADDR CLK_COUNTER_REFCLK_PERIOD; EvWrite (base c + CLK_COUNTER_EN_OFFSET) 0xff].

Lemma restart_did c s w :
  cfg_ok c -> exists w', restart c s w = (2, w') /\ did w (restart_events c s (regs w (base c + PLL_CNTL_0_OFFSET))) w'.
Proof.
  intros Hc. unfold restart. destruct (read_reg c PLL_CNTL_0_OFFSET w Hc) as (w1 & -> & D1); [done|].
  eexists. split; [reflexivity|]. unfold clock_control_tt_bh_config_vco. did_solve.
Qed.

Lemma switch_did c s w : did w (switch_events c s) (switch_over c s 2 w).
Proof. unfold switch_over, clock_control_tt_bh_config_ext_postdivs. did_solve. Qed.

Lemma counter_did c w : did w (counter_events c) (clock_control_enable_clk_counters c w).
Proof. unfold clock_control_enable_clk_counters. did_solve. Qed.

Lemma time_left w w1 now w2 start :
  0 <= start -> start * 1000000 <= ns w <= (start + 3000) * 1000000 -> ns w < ns w1 <= ns w + 1000000000 ->
  k_uptime_get w1 = (now, w2) ->
  ns w1 <= ns w2 <= ns w1 + 1000000000 /\ u64 (now - start) = now - start /\ (now - start < PLL_LOCK_TIMEOUT_MS -> ns w1 < (start + 400) * 1000000).
Proof.
  intros Hs Hw Hr E. pose proof (uptime_value w1) as V. pose proof (uptime_ns w1) as N. rewrite E in V, N. cbn [fst snd] in V, N.
  unfold PLL_LOCK_TIMEOUT_MS, wrap. subst now. pose proof (Z.div_mod (ns w1) 1000000). pose proof (Z.mod_pos_bound (ns w1) 1000000).
  rewrite Z.mod_small by lia. lia.
Qed.

(** The wait ends, and changes nothing. *)
Lemma wait_loop_did fuel inst start w :
  0 <= start -> start * 1000000 <= ns w <= (start + 3000) * 1000000 ->
  Z.max 0 ((start + 400) * 1000000 - ns w) < Z.of_nat fuel ->
  exists rc w', wait_lock_loop fuel inst start w = Some (rc, w') /\ did w [] w' /\ (rc = 0 \/ rc = - ETIMEDOUT).
Proof.
  revert w. induction fuel as [|fuel IH]; intros w Hs Hw Hf; [lia|]. cbn [wait_lock_loop].
  pose proof (did_read_raw w PLL_CNTL_WRAPPER_PLL_LOCK_REG_ADDR) as D1.
  pose proof (read_ns PLL_CNTL_WRAPPER_PLL_LOCK_REG_ADDR w) as N1.
  destruct (sys_read32 PLL_CNTL_WRAPPER_PLL_LOCK_REG_ADDR w) as [val w1]. cbn [snd] in D1, N1.
  destruct (Z.land val (BIT inst) =? 0); cbn [negb]; [|by exists 0, w1; auto].
  pose proof (did_uptime w1) as D2. destruct (k_uptime_get w1) as [now w2] eqn:Eu. cbn [snd] in D2.
  destruct (time_left w w1 now w2 start) as (N2 & -> & Hlt); [done|lia|done|done|].
  pose proof (did_app _ _ _ _ _ D1 D2) as D.
  destruct (Z.ltb_spec (now - start) PLL_LOCK_TIMEOUT_MS) as [Hnow|_].
  - specialize (Hlt Hnow). destruct (IH w2) as (rc & w' & E & D' & Hrc); [done|lia|lia|].
    exists rc, w'. split; [done|]. split; [exact (did_app _ _ _ _ _ D D')|done].
  - exists (- ETIMEDOUT), w2. split; [done|]. split; [exact D|by right].
Qed.

(** One register read per nanosecond is the fastest poll. *)
Definition lock_fuel : Z := PLL_LOCK_TIMEOUT_MS * 1000000 + 1000000.

Lemma wait_lock_did fuel inst w :
  0 <= ns w -> lock_fuel <= Z.of_nat fuel ->
  exists rc w', clock_control_tt_bh_wait_lock fuel inst w = Some (rc, w') /\ did w [] w' /\ (rc = 0 \/ rc = - ETIMEDOUT).
Proof.
  intros Hn Hf. unfold clock_control_tt_bh_wait_lock, lock_fuel, PLL_LOCK_TIMEOUT_MS in *.
  pose proof (did_uptime w) as D. pose proof (uptime_value w) as V. pose proof (uptime_ns w) as N.
  destruct (k_uptime_get w) as [start w1]. cbn [fst snd] in *. subst start.
  pose proof (Z.div_mod (ns w) 1000000). pose proof (Z.mod_pos_bound (ns w) 1000000).
  destruct (wait_loop_did fuel inst (ns w / 1000000) w1) as (rc & w' & E & D' & Hrc); [lia|lia|lia|].
  exists rc, w'. split; [done|]. split; [exact (did_app _ _ _ _ _ D D')|done].
Qed.
End calls.

(** ** Sequencing *)

Lemma eqb_add b x y : (b + x =? b + y) = (x =? y).
Proof. destruct (Z.eqb_spec x y), (Z.eqb_spec (b + x) (b + y)); lia || done. Qed.
Lemma add_sub_l b x : b + x - b = x.
Proof. lia. Qed.

Lemma set_bypass_bits r : Z.testbit (set_bypass 0 r) 4 = false /\ Z.testbit (set_bypass 0 r) 1 = Z.testbit r 1.
Proof. unfold set_bypass. rewrite !bits_set_spec by lia. done. Qed.

(** The field of the feedback divider. *)
Lemma fbdiv_set v r : is_u16 v -> fbdiv (set_fbdiv v r) = v.
Proof. intros. unfold fbdiv, set_fbdiv. rewrite bits_get_set_same by lia. by apply wrap_small. Qed.
Lemma refdiv_set v r : refdiv (set_fbdiv v r) = refdiv r.
Proof. apply bits_get_set_other; lia. Qed.
Lemma set_fbdiv_same r : set_fbdiv (fbdiv r) r = r.
Proof.
  apply Z.bits_inj'. intros i Hi. unfold set_fbdiv, fbdiv. rewrite bits_set_spec by lia.
  destruct ((16 <=? i) && (i <? 16 + 16)) eqn:E; [|done]. bool_cases. rewrite bits_get_spec by lia.
  destruct (Z.ltb_spec (i - 16) 16); [|lia]. cbn. f_equal. lia.
Qed.
Lemma set_fbdiv_twice u v r : set_fbdiv u (set_fbdiv v r) = set_fbdiv u r.
Proof.
  apply Z.bits_inj'. intros i Hi. unfold set_fbdiv. rewrite !bits_set_spec by lia. by destruct ((16 <=? i) && (i <? 16 + 16)).
Qed.
Lemma fbdiv_range r : is_u16 (fbdiv r).
Proof. apply bits_get_range; lia. Qed.

Section safety.
Variable c : clock_control_tt_bh_config.
Let b := base c.

(** A full restart, whatever the registers held. *)
Definition update_events s (cntl_0 : Z) : list pll_event := restart_events c s cntl_0 ++ switch_events c s.

Lemma update_safe s r waited : seq_ok b r waited (update_events s (r (b + PLL_CNTL_0_OFFSET))) = true.
Proof.
  unfold update_events, restart_events, switch_events. cbn [app]. fold b.
  destruct (set_bypass_bits (r (b + PLL_CNTL_0_OFFSET))) as [B4 B1].
  cbn [seq_ok]. rewrite !add_sub_l. unfold write_ok, bypassed, powered. cbn [event_regs]. rewrite !eqb_add.
  cbn -[set_bypass Z.testbit]. rewrite ?B4, ?B1.
  change (Z.testbit 0 1) with false. change (Z.testbit 0 4) with false. change (Z.testbit 2 1) with true.
  change (Z.testbit 2 4) with false. change (Z.testbit 18 4) with true. change (Z.testbit 18 1) with true.
  cbn -[set_bypass Z.testbit].
  by destruct (Z.testbit (r (b + PLL_CNTL_0_OFFSET)) 1), (Z.testbit (r (b + PLL_CNTL_0_OFFSET)) 4).
Qed.

(** Without the switch-over, as when the lock fails at start. *)
Lemma restart_safe s r waited : seq_ok b r waited (restart_events c s (r (b + PLL_CNTL_0_OFFSET))) = true.
Proof. pose proof (update_safe s r waited) as E. unfold update_events in E. rewrite seq_ok_app in E. by apply andb_true_iff in E as [? _]. Qed.

Lemma bypass_safe r waited :
  seq_ok b r waited [EvWrite (b + PLL_CNTL_0_OFFSET) (set_bypass 0 (r (b + PLL_CNTL_0_OFFSET))); EvWait 3000;
    EvWrite (b + PLL_USE_POSTDIV_OFFSET) 0] = true.
Proof.
  destruct (set_bypass_bits (r (b + PLL_CNTL_0_OFFSET))) as [B4 B1].
  cbn [seq_ok]. rewrite !add_sub_l. unfold write_ok, bypassed, powered. cbn [event_regs]. rewrite !eqb_add.
  cbn -[set_bypass Z.testbit]. rewrite ?B4, ?B1. by destruct (Z.testbit (r (b + PLL_CNTL_0_OFFSET)) 1), (Z.testbit (r (b + PLL_CNTL_0_OFFSET)) 4).
Qed.

Lemma counters_safe r waited :
  cfg_ok c -> seq_ok b r waited (counter_events c) = true.
Proof.
  intros Hc. unfold counter_events. fold b. cbn [seq_ok]. rewrite !add_sub_l.
  assert (Hne : forall off, 0 <= off <= CLK_COUNTER_EN_OFFSET -> PLL_CNTL_WRAPPER_REFCLK_PERIOD_REG_ADDR - b <> off).
  { intros off Ho E. destruct (Hc off Ho) as [_ N]. apply N. fold b. lia. }
  unfold write_ok.
  repeat match goal with |- context [PLL_CNTL_WRAPPER_REFCLK_PERIOD_REG_ADDR - b =? ?x] =>
    destruct (Z.eqb_spec (PLL_CNTL_WRAPPER_REFCLK_PERIOD_REG_ADDR - b) x) as [E|_]; [exfalso; revert E; apply Hne; done|] end.
  reflexivity.
Qed.

(** *** The steps of the feedback divider *)

Fixpoint step_events (n : nat) (up : bool) (cntl_1 : Z) : list pll_event :=
  match n with
  | O => []
  | S n => let v := set_fbdiv (if up then fbdiv cntl_1 + 1 else fbdiv cntl_1 - 1) cntl_1 in
           [EvWrite (b + PLL_CNTL_1_OFFSET) v; EvWait 100] ++ step_events n up v
  end.

Lemma steps_safe n (up : bool) r waited :
  let target := if up then fbdiv (r (b + PLL_CNTL_1_OFFSET)) + Z.of_nat n else fbdiv (r (b + PLL_CNTL_1_OFFSET)) - Z.of_nat n in
  is_u16 target -> 100 <= waited ->
  let evs := step_events n up (r (b + PLL_CNTL_1_OFFSET)) in
  seq_ok b r waited evs = true /\
  replay evs r (b + PLL_CNTL_1_OFFSET) = set_fbdiv target (r (b + PLL_CNTL_1_OFFSET)) /\
  forall a, a <> b + PLL_CNTL_1_OFFSET -> replay evs r a = r a.
Proof.
  revert r waited. induction n as [|n IH]; intros r waited target Ht Hw evs.
  - subst target evs. cbn. split; [done|]. split; [|done].
    assert (E : forall x, (if up then x + 0 else x - 0) = x) by (intros; destruct up; lia). rewrite E. by rewrite set_fbdiv_same.
  - pose proof (fbdiv_range (r (b + PLL_CNTL_1_OFFSET))) as Hf.
    set (x := fbdiv (r (b + PLL_CNTL_1_OFFSET))) in *.
    set (v := set_fbdiv (if up then x + 1 else x - 1) (r (b + PLL_CNTL_1_OFFSET))).
    assert (Hx : is_u16 (if up then x + 1 else x - 1)) by (subst target; clear -Ht Hf; unwrap; destruct up; lia).
    assert (Hv : fbdiv v = if up then x + 1 else x - 1) by (by apply fbdiv_set).
    set (r' := event_regs (EvWrite (b + PLL_CNTL_1_OFFSET) v) r).
    assert (Hr' : r' (b + PLL_CNTL_1_OFFSET) = v) by (unfold r'; cbn [event_regs]; by rewrite Z.eqb_refl).
    assert (Eevs : evs = [EvWrite (b + PLL_CNTL_1_OFFSET) v; EvWait 100] ++ step_events n up (r' (b + PLL_CNTL_1_OFFSET)))
      by (rewrite Hr'; done).
    specialize (IH r' (0 + 100)). cbv zeta in IH. rewrite Hr', Hv in IH.
    assert (Et : (if up then (if up then x + 1 else x - 1) + Z.of_nat n else (if up then x + 1 else x - 1) - Z.of_nat n) = target)
      by (subst target; destruct up; lia).
    rewrite Et in IH. destruct (IH Ht) as (S1 & S2 & S3); [lia|].
    rewrite Eevs, Hr'. split; [|split].
    + rewrite seq_ok_app. apply andb_true_iff. split; [|cbn [waited_after]; rewrite add_sub_l; exact S1].
      cbn [seq_ok]. rewrite add_sub_l, andb_true_r. unfold write_ok. cbn -[fbdiv set_fbdiv bypassed powered close_by b].
      rewrite !orb_true_iff. right. rewrite !andb_true_iff. split; [split|].
      * unfold close_by. change (fbdiv v) with (fbdiv v). rewrite Hv. change (r (b + 4)) with (r (b + PLL_CNTL_1_OFFSET)). fold x.
        destruct up; apply Z.eqb_eq; lia.
      * rewrite Hv. apply Z.eqb_refl.
      * by apply Z.leb_le.
    + transitivity (replay (step_events n up v) r' (b + PLL_CNTL_1_OFFSET)); [done|]. rewrite S2. unfold v. apply set_fbdiv_twice.
    + intros a Ha. transitivity (replay (step_events n up v) r' a); [done|]. rewrite S3 by done. unfold r'. cbn [event_regs].
      destruct (Z.eqb_spec a (b + PLL_CNTL_1_OFFSET)); done.
Qed.
End safety.

(** ** The operations *)

Inductive clock_op :=
| OpInit
| OpOn (sys : clock_control_tt_bh_clock)
| OpOff (sys : clock_control_tt_bh_clock)
| OpGetRate (sys : clock_control_tt_bh_clock)
| OpSetRate (sys : clock_control_tt_bh_clock) (rate : Z)
| OpConfigure (bypass : bool).

Definition run_op {W} `{PllHw W} (fuel : nat) (c : clock_control_tt_bh_config) (op : clock_op) (d : clock_control_tt_bh_data) (w : W)
    : option (Z * clock_control_tt_bh_data * W) :=
  match op with
  | OpInit => clock_control_tt_bh_init fuel c d w
  | OpOn sys => clock_control_tt_bh_on fuel c sys d w
  | OpOff sys => clock_control_tt_bh_off fuel c sys d w
  | OpGetRate sys => '(rc, _, d, w) ← clock_control_tt_bh_get_rate c sys d w; Some (rc, d, w)
  | OpSetRate sys rate => clock_control_tt_bh_set_rate fuel c sys rate d w
  | OpConfigure bypass => Some (clock_control_tt_bh_configure c bypass d w)
  end.

(** A settings block that fits its registers and divides by something. *)
Record settings_wf (s : tt_bh_pll_settings) : Prop := {
  sw_1 : is_u32 (pll_cntl_1 s);
  sw_2 : is_u32 (pll_cntl_2 s);
  sw_3 : is_u32 (pll_cntl_3 s);
  sw_5 : is_u32 (pll_cntl_5 s);
  sw_use : is_u32 (use_postdiv s);
  sw_refdiv : 0 < refdiv (pll_cntl_1 s)
}.

Lemma bits_set_u32 lo n v z : 0 <= lo -> 0 <= n -> lo + n <= 32 -> is_u32 z -> is_u32 (bits_set lo n v z).
Proof. apply bits_set_width. Qed.

Section operations.
Context {W : Type} `{PllHwLaws W}.
Variable c : clock_control_tt_bh_config.
Implicit Types (w : W) (d : clock_control_tt_bh_data) (s : tt_bh_pll_settings).

Record config_wf : Prop := {
  cw_addr : cfg_ok c;
  cw_refclk : 0 < refclk_rate c < 2 ^ 16;
  cw_init : settings_wf (init_settings c)
}.

(** The driver's state and the PLL's registers. *)
Record clock_wf d w : Prop := {
  kw_settings : settings_wf (settings d);
  kw_regs : forall off, 0 <= off <= PLL_USE_POSTDIV_OFFSET -> is_u32 (regs w (base c + off));
  kw_refdiv : 0 < refdiv (regs w (base c + PLL_CNTL_1_OFFSET));
  kw_ns : 0 <= ns w
}.

(** What the feedback divider of the AI clock is moved to. *)
Definition aiclk_target (rate : Z) w : option Z :=
  clock_control_tt_bh_calculate_fbdiv (refclk_rate c) (u32 rate) (regs w (base c + PLL_CNTL_1_OFFSET))
    (regs w (base c + PLL_CNTL_5_OFFSET)) (regs w (base c + PLL_USE_POSTDIV_OFFSET)) 0.

(** The divider must fit its 16 bits. *)
Definition op_ok (op : clock_op) w : Prop :=
  match op with OpSetRate CLOCK_CONTROL_TT_BH_CLOCK_AICLK rate => exists t, aiclk_target rate w = Some t /\ t < 2 ^ 16 | _ => True end.

(** The events of an operation, the result, and the driver's state after it. *)
Inductive op_shape d w : clock_op -> Z -> clock_control_tt_bh_data -> list pll_event -> Prop :=
| shape_none op rc : rc <= 0 -> op_shape d w op rc d []
| shape_update op s : settings_wf s -> op_shape d w op 0 (set_settings s d) (update_events c s (regs w (base c + PLL_CNTL_0_OFFSET)))
| shape_init op : op_shape d w op 0 (set_settings (init_settings c) d)
    (update_events c (init_settings c) (regs w (base c + PLL_CNTL_0_OFFSET)) ++ counter_events c)
| shape_failed : op_shape d w OpInit (- ETIMEDOUT) (MkData (init_settings c) true)
    (restart_events c (init_settings c) (regs w (base c + PLL_CNTL_0_OFFSET)))
| shape_steps op n (up : bool) :
    is_u16 (if up then fbdiv (regs w (base c + PLL_CNTL_1_OFFSET)) + Z.of_nat n else fbdiv (regs w (base c + PLL_CNTL_1_OFFSET)) - Z.of_nat n) ->
    op_shape d w op 0 d (step_events c n up (regs w (base c + PLL_CNTL_1_OFFSET)))
| shape_bypass op : op_shape d w op 0 d
    [EvWrite (base c + PLL_CNTL_0_OFFSET) (set_bypass 0 (regs w (base c + PLL_CNTL_0_OFFSET))); EvWait 3000;
     EvWrite (base c + PLL_USE_POSTDIV_OFFSET) 0].

Section run.
Hypothesis Hcfg : config_wf.
Variable fuel : nat.
Hypothesis Hfuel : lock_fuel <= Z.of_nat fuel.

Lemma restart_ns s w r w' : restart c s w = (r, w') -> 0 <= ns w -> 0 <= ns w'.
Proof.
  intros E Hn. destruct (restart_did c s w (cw_addr Hcfg)) as (w1 & E1 & [_ _ D]). rewrite E in E1. injection E1 as _ ->. lia.
Qed.

Lemma update_did s d w :
  0 <= ns w -> exists w', clock_control_tt_bh_update fuel c s d w = Some (set_settings s d, w') /\
    did w (update_events c s (regs w (base c + PLL_CNTL_0_OFFSET))) w'.
Proof.
  intros Hn. unfold clock_control_tt_bh_update. destruct (restart_did c s w (cw_addr Hcfg)) as (w1 & -> & D1).
  destruct (wait_lock_did fuel (inst c) w1) as (rc & w2 & -> & D2 & _); [destruct D1; lia|done|].
  eexists. split; [reflexivity|]. eapply did_eq; [exact (did_app _ _ _ _ _ D1 (did_app _ _ _ _ _ D2 (switch_did c s w2)))|done].
Qed.

Lemma enable_shape sys en d w :
  0 <= en < 256 -> clock_wf d w ->
  exists rc d' w' evs, clock_control_tt_bh_enable fuel c sys en d w = Some (rc, d', w') /\ did w evs w' /\ forall op, op_shape d w op rc d' evs.
Proof.
  intros He Hwf.
  assert (Hupd : forall i, 0 <= i <= 3 -> exists rc d' w' evs,
    ('(d, w) ← clock_control_tt_bh_update fuel c (set_pll_cntl_5 (set_postdiv i en (pll_cntl_5 (settings d))) (settings d)) d w; Some (0, d, w))
      = Some (rc, d', w') /\ did w evs w' /\ forall op, op_shape d w op rc d' evs).
  { intros i Hi. set (s := set_pll_cntl_5 _ _).
    assert (Hs : settings_wf s) by (destruct (kw_settings _ _ Hwf); constructor; try done; apply bits_set_u32; try lia; done).
    destruct (update_did s d w (kw_ns _ _ Hwf)) as (w' & -> & D).
    eexists 0, _, w', _. split; [reflexivity|]. split; [exact D|]. intros. by apply shape_update. }
  unfold clock_control_tt_bh_enable.
  destruct sys; try (exists (- ENOSYS), d, w, []; split; [done|]; split; [apply did_nil|]; intros; by constructor);
    apply Hupd; lia.
Qed.

(** The divider moves to its target one step at a time. *)
Lemma aiclk_loop_did n target r w :
  (n <= fuel)%nat -> is_u16 target -> Z.abs (target - fbdiv r) = Z.of_nat n ->
  exists w', aiclk_loop fuel c target r w = Some w' /\ did w (step_events c n (fbdiv r <? target) r) w'.
Proof.
  clear Hfuel. intros Hn Ht. revert n r w Hn. induction fuel as [|fuel' IH]; intros n r w Hn Hd.
  - replace n with 0%nat in * by lia. cbn [aiclk_loop]. destruct (Z.eqb_spec (fbdiv r) target); [|lia]. exists w. split; [done|apply did_nil].
  - pose proof (fbdiv_range r) as Hr. cbn [aiclk_loop]. destruct (Z.eqb_spec (fbdiv r) target) as [E|E].
    + replace n with 0%nat by lia. exists w. split; [done|apply did_nil].
    + destruct n as [|n]; [lia|]. set (v := set_fbdiv _ r).
      assert (Hv : fbdiv v = if fbdiv r <? target then fbdiv r + 1 else fbdiv r - 1).
      { apply fbdiv_set. clear -Hr Ht E. destruct (Z.ltb_spec (fbdiv r) target); unwrap; lia. }
      destruct (IH n v (k_busy_wait_ns 100 (clock_control_tt_bh_write_reg c PLL_CNTL_1_OFFSET v w))) as (w' & -> & D); [lia| |].
      { rewrite Hv. destruct (Z.ltb_spec (fbdiv r) target); lia. }
      exists w'. split; [done|]. cbn [step_events].
      assert (Hup : n = 0%nat \/ (fbdiv v <? target) = (fbdiv r <? target)).
      { rewrite Hv. destruct (Z.ltb_spec (fbdiv r) target) as [Hlt|Hlt].
        - destruct (Z.ltb_spec (fbdiv r + 1) target); [by right|left; lia].
        - destruct (Z.ltb_spec (fbdiv r - 1) target); [lia|by right]. }
      eapply did_eq; [exact (did_app _ _ _ _ _ (did_app _ _ _ _ _ (did_write_reg w c PLL_CNTL_1_OFFSET v) (did_wait_ns _ 100)) D)|].
      cbn [app]. fold v. destruct Hup as [-> | ->]; done.
Qed.

(** A target beyond 16 bits is never reached. *)
Lemma aiclk_loop_diverges target r w : 2 ^ 16 <= target -> aiclk_loop fuel c target r w = None.
Proof.
  clear Hfuel. intros Ht. revert r w. induction fuel as [|fuel' IH]; intros r w; pose proof (fbdiv_range r) as Hr; cbn [aiclk_loop];
    (destruct (Z.eqb_spec (fbdiv r) target); [unwrap; lia|]); [done|apply IH].
Qed.
End run.
End operations.

Lemma ext_postdiv_bound i c5 u : 0 <= i <= 3 -> exists e, clock_control_tt_bh_get_ext_postdiv i c5 u = Some e /\ 0 <= e <= 512.
Proof.
  intros Hi. unfold clock_control_tt_bh_get_ext_postdiv. rewrite (proj2 (Z.leb_le 0 i)), (proj2 (Z.leb_le i 3)) by lia. cbn [andb].
  pose proof (bits_get_range (8 * i) 8 c5 ltac:(lia) ltac:(lia)) as Hb. fold (postdiv i c5) in Hb. unwrap.
  destruct (negb _); [|exists 1; split; [done|lia]].
  destruct (Z.eqb_spec (postdiv i c5) 0); [exists 0; split; [done|lia]|].
  destruct (Z.leb_spec (postdiv i c5) 16); eexists; (split; [done|lia]).
Qed.

Section whole.
Context {W : Type} `{PllHwLaws W}.
Variable c : clock_control_tt_bh_config.
Hypothesis Hcfg : config_wf c.
Implicit Types (w : W) (d : clock_control_tt_bh_data) (s : tt_bh_pll_settings).

(** The three registers a rate is computed from. *)
Lemma read_three w :
  exists w1 w2 w3, clock_control_tt_bh_read_reg c PLL_CNTL_1_OFFSET w = (regs w (base c + PLL_CNTL_1_OFFSET), w1) /\
    clock_control_tt_bh_read_reg c PLL_CNTL_5_OFFSET w1 = (regs w (base c + PLL_CNTL_5_OFFSET), w2) /\
    clock_control_tt_bh_read_reg c PLL_USE_POSTDIV_OFFSET w2 = (regs w (base c + PLL_USE_POSTDIV_OFFSET), w3) /\ did w [] w3.
Proof.
  destruct (read_reg c PLL_CNTL_1_OFFSET w (cw_addr c Hcfg)) as (w1 & E1 & D1); [done|].
  destruct (read_reg c PLL_CNTL_5_OFFSET w1 (cw_addr c Hcfg)) as (w2 & E2 & D2); [done|].
  destruct (read_reg c PLL_USE_POSTDIV_OFFSET w2 (cw_addr c Hcfg)) as (w3 & E3 & D3); [done|].
  exists w1, w2, w3. pose proof (did_app _ _ _ _ _ D1 D2) as D12. cbn [app] in D12.
  rewrite E1. rewrite E2, E3, (did_regs _ _ _ D1), (did_regs _ _ _ D12). cbn [replay].
  repeat (split; [done|]). exact (did_app _ _ _ _ _ D12 D3).
Qed.

(** Reading a rate divides by nothing but positive numbers. *)
Lemma get_freq_did i d w :
  0 <= i <= 3 -> clock_wf c d w ->
  exists f w', clock_control_tt_bh_get_freq c i w = Some (f, w') /\ did w [] w' /\
    exists e, clock_control_tt_bh_get_ext_postdiv i (regs w (base c + PLL_CNTL_5_OFFSET)) (regs w (base c + PLL_USE_POSTDIV_OFFSET)) = Some e /\
      f = if e =? 0 then 0
          else refclk_rate c * fbdiv (regs w (base c + PLL_CNTL_1_OFFSET)) / (refdiv (regs w (base c + PLL_CNTL_1_OFFSET)) * e).
Proof.
  intros Hi Hwf. unfold clock_control_tt_bh_get_freq. destruct (read_three w) as (w1 & w2 & w3 & -> & -> & -> & D).
  destruct (ext_postdiv_bound i (regs w (base c + PLL_CNTL_5_OFFSET)) (regs w (base c + PLL_USE_POSTDIV_OFFSET)) Hi) as (e & -> & He).
  cbn [mbind option_bind]. destruct (Z.eqb_spec e 0) as [->|Hne].
  - exists 0, w3. split; [done|]. split; [done|]. by exists 0.
  - pose proof (kw_refdiv _ _ _ Hwf) as Hr. pose proof (cw_refclk c Hcfg) as Hc.
    pose proof (fbdiv_range (regs w (base c + PLL_CNTL_1_OFFSET))) as Hf.
    pose proof (bits_get_range 0 8 (regs w (base c + PLL_CNTL_1_OFFSET)) ltac:(lia) ltac:(lia)) as Hr8. fold (refdiv (regs w (base c + PLL_CNTL_1_OFFSET))) in Hr8.
    set (rd := refdiv _) in *. set (fb := fbdiv _) in *.
    rewrite (wrap_small 32 (rd * e)) by (clear -Hr8 He; unwrap; nia).
    rewrite (wrap_small 32 (refclk_rate c * fb)) by (clear -Hc Hf; unwrap; nia).
    unfold udiv. destruct (Z.eqb_spec (rd * e) 0); [nia|]. cbn [mbind option_bind].
    eexists _, w3. split; [reflexivity|]. split; [done|]. exists e. split; [done|]. destruct (Z.eqb_spec e 0); [lia|done].
Qed.

Lemma calc_fbdiv_total t c1 c5 u : exists f, clock_control_tt_bh_calculate_fbdiv (refclk_rate c) t c1 c5 u 0 = Some f /\ 0 <= f.
Proof.
  unfold clock_control_tt_bh_calculate_fbdiv. destruct (ext_postdiv_bound 0 c5 u) as (e & -> & He); [lia|]. cbn [mbind option_bind].
  destruct (e =? 0); [by exists 0|]. unfold udiv. pose proof (cw_refclk c Hcfg). destruct (Z.eqb_spec (refclk_rate c) 0); [lia|].
  eexists. split; [reflexivity|]. apply Z.div_pos; [apply u32_range|lia].
Qed.

Variable fuel : nat.
Hypothesis Hfuel : lock_fuel <= Z.of_nat fuel.

Lemma set_gddr_shape rate d w :
  clock_wf c d w ->
  exists rc d' w' evs, set_gddrmemclk fuel c rate d w = Some (rc, d', w') /\ did w evs w' /\ forall op, op_shape c d w op rc d' evs.
Proof.
  intros Hwf. unfold set_gddrmemclk. destruct (kw_settings _ _ _ Hwf) as [S1 S2 S3 S5 SU SR].
  destruct (calc_fbdiv_total (u32 rate) (pll_cntl_1 (settings d)) (pll_cntl_5 (settings d)) (use_postdiv (settings d))) as (f & -> & Hf).
  cbn [mbind option_bind]. destruct (Z.eqb_spec f 0).
  { exists (- EINVAL), d, w, []. split; [done|]. split; [apply did_nil|]. intros. by constructor. }
  set (s := set_pll_cntl_1 _ _). cbn [set_pll_cntl_1 pll_cntl_1] in s. unfold udiv. cbn [s set_pll_cntl_1 pll_cntl_1]. rewrite refdiv_set.
  destruct (Z.eqb_spec (refdiv (pll_cntl_1 (settings d))) 0); [lia|]. cbn [mbind option_bind].
  destruct (negb _).
  { exists (- ERANGE), d, w, []. split; [done|]. split; [apply did_nil|]. intros. by constructor. }
  assert (Hs : settings_wf s).
  { constructor; try done; [apply bits_set_u32; try lia; done|]. cbn [s set_pll_cntl_1 pll_cntl_1]. by rewrite refdiv_set. }
  fold s. destruct (update_did c Hcfg fuel Hfuel s d w (kw_ns _ _ _ Hwf)) as (w' & -> & D). cbn [mbind option_bind].
  eexists 0, _, w', _. split; [reflexivity|]. split; [exact D|]. intros. by apply shape_update.
Qed.

Lemma fuel_16 n : Z.of_nat n < 2 ^ 16 -> (n <= fuel)%nat.
Proof. unfold lock_fuel, PLL_LOCK_TIMEOUT_MS in Hfuel. lia. Qed.

Lemma set_aiclk_did rate t w :
  aiclk_target c rate w = Some t -> is_u16 t ->
  exists w', set_aiclk fuel c rate w = Some w' /\
    let r := regs w (base c + PLL_CNTL_1_OFFSET) in did w (step_events c (Z.to_nat (Z.abs (t - fbdiv r))) (fbdiv r <? t) r) w'.
Proof.
  intros Et Ht. unfold set_aiclk. destruct (read_three w) as (w1 & w2 & w3 & -> & -> & -> & D).
  unfold aiclk_target in Et. rewrite Et. cbn [mbind option_bind]. set (r := regs w (base c + PLL_CNTL_1_OFFSET)).
  pose proof (fbdiv_range r) as Hr.
  destruct (aiclk_loop_did c fuel (Z.to_nat (Z.abs (t - fbdiv r))) t r w3) as (w' & -> & D'); [|done|lia|].
  - apply fuel_16. clear -Hr Ht. unwrap. lia.
  - exists w'. split; [done|]. exact (did_app _ _ _ _ _ D D').
Qed.

(** Every operation returns, with one of the shapes. *)
Lemma run_op_shape op d w :
  clock_wf c d w -> op_ok c op w ->
  exists rc d' w' evs, run_op fuel c op d w = Some (rc, d', w') /\ did w evs w' /\ op_shape c d w op rc d' evs.
Proof.
  intros Hwf Hop. destruct op as [|sys|sys|sys|sys rate|bp]; cbn [run_op].
  - unfold clock_control_tt_bh_init. destruct (lock d) eqn:El.
    { exists (- EBUSY), d, w, []. split; [done|]. split; [apply did_nil|]. by constructor. }
    destruct (restart_did c (init_settings c) w (cw_addr c Hcfg)) as (w1 & -> & D1). pose proof (kw_ns _ _ _ Hwf).
    destruct (wait_lock_did fuel (inst c) w1) as (rc & w2 & -> & D2 & Hrc); [destruct D1; lia|done|]. cbn [mbind option_bind].
    pose proof (did_app _ _ _ _ _ D1 D2) as D. rewrite app_nil_r in D. destruct Hrc as [-> | ->]; cbn [Z.ltb].
    + eexists 0, _, _, _. split; [reflexivity|]. split; [|destruct d as [ss ll]; cbn [lock] in El; subst ll; apply shape_init].
      eapply did_eq; [exact (did_app _ _ _ _ _ (did_app _ _ _ _ _ D (switch_did c (init_settings c) w2)) (counter_did c _))|done].
    + eexists _, _, _, _. split; [reflexivity|]. split; [exact D|]. apply shape_failed.
  - destruct (enable_shape c Hcfg fuel Hfuel sys 1 d w) as (rc & d' & w' & evs & E & D & Hs); [lia|done|]. exists rc, d', w', evs. auto.
  - destruct (enable_shape c Hcfg fuel Hfuel sys 0 d w) as (rc & d' & w' & evs & E & D & Hs); [lia|done|]. exists rc, d', w', evs. auto.
  - unfold clock_control_tt_bh_get_rate. destruct (lock d) eqn:El.
    { exists (- EBUSY), d, w, []. split; [done|]. split; [apply did_nil|]. by constructor. }
    assert (Ed : set_lock false (set_lock true d) = d) by (destruct d; cbn in El; by subst).
    destruct (clock_index sys) as [i|] eqn:Ei.
    + assert (0 <= i <= 3) by (destruct sys; cbn in Ei; try discriminate Ei; injection Ei as <-; lia).
      destruct (get_freq_did i d w) as (f & w' & -> & D & _); [done..|]. cbn [mbind option_bind]. rewrite Ed.
      exists 0, d, w', []. split; [done|]. split; [done|]. by constructor.
    + cbn [mbind option_bind]. rewrite Ed. exists (- ENOTSUP), d, w, []. split; [done|]. split; [apply did_nil|]. by constructor.
  - unfold clock_control_tt_bh_set_rate. destruct (lock d) eqn:El.
    { exists (- EBUSY), d, w, []. split; [done|]. split; [apply did_nil|]. by constructor. }
    assert (Ed : forall s, set_lock false (set_settings s (set_lock true d)) = set_settings s d) by (intros s; destruct d; cbn in El; by subst).
    assert (Ed' : set_lock false (set_lock true d) = d) by (destruct d; cbn in El; by subst).
    assert (Hno : exists rc d' w' evs, Some (- ENOTSUP, set_lock false (set_lock true d), w) = Some (rc, d', w') /\ did w evs w' /\
      op_shape c d w (OpSetRate sys rate) rc d' evs).
    { rewrite Ed'. exists (- ENOTSUP), d, w, []. split; [done|]. split; [apply did_nil|]. by constructor. }
    assert (Hwf' : clock_wf c (set_lock true d) w) by (destruct Hwf; by constructor).
    destruct sys; cbn [mbind option_bind]; try exact Hno.
    + destruct Hop as (t & Et & Ht).
      destruct (calc_fbdiv_total (u32 rate) (regs w (base c + PLL_CNTL_1_OFFSET)) (regs w (base c + PLL_CNTL_5_OFFSET))
        (regs w (base c + PLL_USE_POSTDIV_OFFSET))) as (t' & Et' & Ht'). unfold aiclk_target in Et. rewrite Et in Et'. injection Et' as <-.
      destruct (set_aiclk_did rate t w Et) as (w' & -> & D); [unwrap; lia|]. cbn [mbind option_bind]. rewrite Ed'.
      eexists 0, d, w', _. split; [reflexivity|]. split; [exact D|]. apply shape_steps.
      set (f := fbdiv _) in *. clear -Ht Ht'. unwrap. destruct (Z.ltb_spec f t); lia.
    + destruct (set_gddr_shape rate (set_lock true d) w Hwf') as (rc & d' & w' & evs & -> & D & Hs). cbn [mbind option_bind].
      exists rc, (set_lock false d'), w', evs. split; [done|]. split; [done|].
      specialize (Hs (OpSetRate CLOCK_CONTROL_TT_BH_CLOCK_GDDRMEMCLK rate)). inversion Hs; subst; rewrite ?Ed, ?Ed'; try by constructor.
    + destruct (update_did c Hcfg fuel Hfuel (init_settings c) (set_lock true d) w (kw_ns _ _ _ Hwf)) as (w' & -> & D). cbn [mbind option_bind].
      rewrite Ed. eexists 0, _, _, _. split; [reflexivity|]. split; [exact (did_app _ _ _ _ _ D (counter_did c w'))|]. apply shape_init.
  - unfold clock_control_tt_bh_configure. destruct (lock d) eqn:El.
    { exists (- EBUSY), d, w, []. split; [done|]. split; [apply did_nil|]. by constructor. }
    assert (Ed : set_lock false (set_lock true d) = d) by (destruct d; cbn in El; by subst). rewrite !Ed.
    destruct bp.
    + destruct (read_reg c PLL_CNTL_0_OFFSET w (cw_addr c Hcfg)) as (w1 & -> & D1); [done|].
      eexists 0, _, _, _. split; [reflexivity|]. split; [|apply shape_bypass]. did_solve.
    + exists (- ENOTSUP), d, w, []. split; [done|]. split; [apply did_nil|]. by constructor.
Qed.
End whole.

(** ** Properties *)

Section results.
Context {W : Type} `{PllHwLaws W}.
Variable c : clock_control_tt_bh_config.
Implicit Types (w : W) (d : clock_control_tt_bh_data) (s : tt_bh_pll_settings).


Definition event_u32 (e : pll_event) : Prop := match e with EvWrite _ v => is_u32 v | EvWait _ => True end.

Lemma replay_u32 evs r a : Forall event_u32 evs -> (forall a, is_u32 (r a)) -> is_u32 (replay evs r a).
Proof.
  intros HF. revert r. induction HF as [|e evs He _ IH]; intros r Hr; [apply Hr|]. apply IH. intros a'.
  destruct e; cbn; [|apply Hr]. by destruct (a' =? addr).
Qed.

(** Only the PLL's own registers are known to be 32 bits. *)
Lemma replay_u32_at evs r a : Forall event_u32 evs -> is_u32 (r a) -> is_u32 (replay evs r a).
Proof.
  intros HF. revert r. induction HF as [|e evs He _ IH]; intros r Hr; [done|]. apply IH.
  destruct e; cbn; [|done]. by destruct (a =? addr).
Qed.

Lemma update_refdiv s cntl_0 r : replay (update_events c s cntl_0) r (base c + PLL_CNTL_1_OFFSET) = pll_cntl_1 s.
Proof. unfold update_events, restart_events, switch_events. cbn [app replay event_regs]. by rewrite !eqb_add. Qed.

Lemma restart_refdiv s cntl_0 r : replay (restart_events c s cntl_0) r (base c + PLL_CNTL_1_OFFSET) = pll_cntl_1 s.
Proof. unfold restart_events. cbn [replay event_regs]. by rewrite !eqb_add. Qed.

Lemma counter_refdiv r : cfg_ok c -> replay (counter_events c) r (base c + PLL_CNTL_1_OFFSET) = r (base c + PLL_CNTL_1_OFFSET).
Proof.
  intros Hc. unfold counter_events. cbn [replay event_regs]. rewrite eqb_add. cbn [Z.eqb].
  destruct (Hc PLL_CNTL_1_OFFSET) as [_ N]; [done|]. by rewrite (proj2 (Z.eqb_neq _ _) N).
Qed.

Lemma restart_u32 s v : settings_wf s -> is_u32 v -> Forall event_u32 (restart_events c s (v)).
Proof.
  intros [S1 S2 S3 S5 SU _] Hv. repeat (apply Forall_cons; split; [first [done|apply bits_set_u32; lia||done]|]). by apply Forall_nil.
Qed.
Lemma switch_u32 s : settings_wf s -> Forall event_u32 (switch_events c s).
Proof. intros [S1 S2 S3 S5 SU _]. repeat (apply Forall_cons; split; [done|]). by apply Forall_nil. Qed.
Lemma update_u32 s v : settings_wf s -> is_u32 v -> Forall event_u32 (update_events c s v).
Proof. intros. apply Forall_app. split; [by apply restart_u32|by apply switch_u32]. Qed.
Lemma steps_u32 n up r : is_u32 r -> Forall event_u32 (step_events c n up r).
Proof.
  revert r. induction n as [|n IH]; intros r Hr; [by apply Forall_nil|]. cbn [step_events].
  assert (is_u32 (set_fbdiv (if up then fbdiv r + 1 else fbdiv r - 1) r)) by (apply bits_set_u32; lia || done).
  apply Forall_app. split; [|by apply IH]. apply Forall_cons. split; [done|]. apply Forall_cons. split; [done|]. by apply Forall_nil.
Qed.

(** C31: the driver's state stays well typed.  After any operation the settings
    and the PLL's control registers are again 32-bit words with a divider that
    is not zero, so that no later call can divide by zero; every value written
    to a register is a 32-bit word; and the lock is left as it was found, except
    by an initialisation that times out. *)
Theorem clock_state_typed fuel op d w :
  config_wf c -> lock_fuel <= Z.of_nat fuel -> clock_wf c d w -> op_ok c op w ->
  exists rc d' w' evs, run_op fuel c op d w = Some (rc, d', w') /\ did w evs w' /\ clock_wf c d' w' /\
    Forall event_u32 evs /\ (lock d' = lock d \/ op = OpInit /\ rc = - ETIMEDOUT /\ lock d' = true).
Proof.
  intros Hcfg Hfuel Hwf Hop. destruct (run_op_shape c Hcfg fuel Hfuel op d w Hwf Hop) as (rc & d' & w' & evs & E & D & Hs).
  exists rc, d', w', evs. split; [done|]. split; [done|]. clear E. pose proof Hwf as [K1 K2 K3 K4].
  assert (K0 : is_u32 (regs w (base c + PLL_CNTL_0_OFFSET))) by (by apply K2).
  assert (KC : is_u32 (regs w (base c + PLL_CNTL_1_OFFSET))) by (by apply K2).
  assert (Hall : Forall event_u32 evs /\ settings_wf (settings d') /\ 0 < refdiv (replay evs (regs w) (base c + PLL_CNTL_1_OFFSET)) /\
    (lock d' = lock d \/ op = OpInit /\ rc = - ETIMEDOUT /\ lock d' = true)).
  { destruct Hs as [| | | |op n up Ht|].
    - split; [by apply Forall_nil|]. auto.
    - split; [by apply update_u32|]. split; [done|]. rewrite update_refdiv. split; [by apply sw_refdiv|by left].
    - pose proof (cw_init c Hcfg) as Hi. split; [apply Forall_app; split; [by apply update_u32|]|].
      + apply Forall_cons. split; [done|]. apply Forall_cons. split; [done|]. by apply Forall_nil.
      + split; [done|]. rewrite replay_app, counter_refdiv by apply Hcfg. rewrite update_refdiv. split; [by apply sw_refdiv|by left].
    - pose proof (cw_init c Hcfg) as Hi. split; [by apply restart_u32|]. split; [done|]. rewrite restart_refdiv. split; [by apply sw_refdiv|by right].
    - split; [by apply steps_u32|]. split; [done|]. split; [|by left].
      destruct (steps_safe c n up (regs w) 100 Ht) as (_ & -> & _); [done|]. by rewrite refdiv_set.
    - split; [|split; [done|split; [|by left]]].
      + apply Forall_cons. split; [apply bits_set_u32; lia || done|]. apply Forall_cons. split; [done|]. apply Forall_cons. split; [done|]. by apply Forall_nil.
      + cbn [replay event_regs]. by rewrite !eqb_add. }
  destruct Hall as (HF & HS & HR & HL). split; [|split; [done|done]]. destruct D as [_ DR DN]. constructor; [done| | |lia].
  - intros off Ho. rewrite DR. apply replay_u32_at; [done|]. by apply K2.
  - by rewrite DR.
Qed.

(** An initialisation whose PLL does not lock returns with the spinlock held:
    from then on reading or setting a rate, configuring and initialising do
    nothing but return -EBUSY, for ever. *)
Theorem failed_init_locks_out fuel d w d' w' rc w2 :
  run_op fuel c OpInit d w = Some (rc, d', w') -> rc < 0 ->
  forall op, match op with OpOn _ | OpOff _ => False | _ => True end -> run_op fuel c op d' w2 = Some (- EBUSY, d', w2).
Proof.
  intros E Hrc op Hop. assert (Hl : lock d' = true).
  { cbn [run_op] in E. unfold clock_control_tt_bh_init in E. destruct (lock d) eqn:El; [by injection E as _ <- _|].
    destruct (restart _ _ _) as [r w1]. destruct (clock_control_tt_bh_wait_lock _ _ _) as [[ret w3]|]; [|done].
    cbn [mbind option_bind] in E. destruct (Z.ltb_spec ret 0); injection E as <- <- _; [done|lia]. }
  destruct op; cbn [run_op]; try done.
  - unfold clock_control_tt_bh_init. by rewrite Hl.
  - unfold clock_control_tt_bh_get_rate. by rewrite Hl.
  - unfold clock_control_tt_bh_set_rate. by rewrite Hl.
  - unfold clock_control_tt_bh_configure. by rewrite Hl.
Qed.
End results.

Section aiclk.
Context {W : Type} `{PllHwLaws W}.
Variable c : clock_control_tt_bh_config.
Implicit Types (w : W) (d : clock_control_tt_bh_data).

(** What divides the VCO of the first clock. *)
Definition divider (e : Z) w : Z := refdiv (regs w (base c + PLL_CNTL_1_OFFSET)) * e.

Definition ext_postdiv0 w : option Z :=
  clock_control_tt_bh_get_ext_postdiv 0 (regs w (base c + PLL_CNTL_5_OFFSET)) (regs w (base c + PLL_USE_POSTDIV_OFFSET)).

(** The rate of the first clock, as [clock_control_tt_bh_get_freq] computes it. *)
Definition rate_of e w : Z := refclk_rate c * fbdiv (regs w (base c + PLL_CNTL_1_OFFSET)) / divider e w.

Lemma ext_postdiv0_bound e w : ext_postdiv0 w = Some e -> 0 <= e <= 512.
Proof.
  unfold ext_postdiv0. destruct (ext_postdiv_bound 0 (regs w (base c + PLL_CNTL_5_OFFSET)) (regs w (base c + PLL_USE_POSTDIV_OFFSET)))
    as (e' & -> & He); [lia|]. by intros [= <-].
Qed.

Lemma divider_range e w d : clock_wf c d w -> ext_postdiv0 w = Some e -> e <> 0 -> 0 < divider e w < 2 ^ 17.
Proof.
  intros Hwf He Hne. pose proof (ext_postdiv0_bound e w He). pose proof (kw_refdiv _ _ _ Hwf) as Hr. unfold divider.
  pose proof (bits_get_range 0 8 (regs w (base c + PLL_CNTL_1_OFFSET)) ltac:(lia) ltac:(lia)) as Hr8.
  fold (refdiv (regs w (base c + PLL_CNTL_1_OFFSET))) in Hr8. unwrap. nia.
Qed.

Lemma aiclk_target_value rate e w d :
  clock_wf c d w -> config_wf c -> ext_postdiv0 w = Some e -> e <> 0 -> 0 <= rate -> rate * divider e w < 2 ^ 32 ->
  aiclk_target c rate w = Some (rate * divider e w / refclk_rate c).
Proof.
  intros Hwf Hcfg He Hne Hr Hlt. unfold aiclk_target, clock_control_tt_bh_calculate_fbdiv. unfold ext_postdiv0 in He. rewrite He.
  pose proof (divider_range e w d Hwf He Hne) as Hd. pose proof (cw_refclk c Hcfg). pose proof (ext_postdiv0_bound e w He).
  cbn [mbind option_bind]. destruct (Z.eqb_spec e 0); [lia|]. unfold divider in *. pose proof (kw_refdiv _ _ _ Hwf).
  set (rd := refdiv _) in *. unfold udiv. destruct (Z.eqb_spec (refclk_rate c) 0); [lia|].
  rewrite (wrap_small 32 rate) by (unwrap; nia). rewrite (wrap_small 32 (rate * rd)) by (unwrap; nia).
  rewrite wrap_small by (unwrap; nia). f_equal. f_equal. lia.
Qed.

(** Only the feedback divider moves, so everything a rate depends on stays. *)
Lemma steps_keep n (up : bool) w w' e target :
  target = (if up then fbdiv (regs w (base c + PLL_CNTL_1_OFFSET)) + Z.of_nat n else fbdiv (regs w (base c + PLL_CNTL_1_OFFSET)) - Z.of_nat n) ->
  is_u16 target ->
  did w (step_events c n up (regs w (base c + PLL_CNTL_1_OFFSET))) w' -> ext_postdiv0 w = Some e ->
  ext_postdiv0 w' = Some e /\ divider e w' = divider e w /\ fbdiv (regs w' (base c + PLL_CNTL_1_OFFSET)) = target.
Proof.
  intros -> Ht D He. destruct (steps_safe c n up (regs w) 100 Ht) as (_ & H1 & H2); [done|]. destruct D as [_ DR _].
  unfold ext_postdiv0, divider in *. rewrite !DR, H1, !H2 by (unfold PLL_CNTL_1_OFFSET, PLL_CNTL_5_OFFSET, PLL_USE_POSTDIV_OFFSET; lia).
  rewrite refdiv_set, fbdiv_set by done. done.
Qed.

(** Rounding down twice loses less than one reference step and one MHz. *)
Lemma floor_rate r D K : 0 < D -> 0 < K -> 0 <= r -> let f := K * (r * D / K) / D in f <= r /\ r * D - K - D < f * D.
Proof.
  intros HD HK Hr f. subst f. pose proof (Z.div_mod (r * D) K). pose proof (Z.mod_pos_bound (r * D) K).
  set (q := r * D / K) in *. pose proof (Z.div_mod (K * q) D). pose proof (Z.mod_pos_bound (K * q) D).
  set (f := K * q / D) in *. nia.
Qed.

(** Setting the AI clock.  If the clock is enabled and the divider it needs
    fits, the call returns 0 and does nothing but move the feedback divider to
    its target one step at a time; the rate read back afterwards is at most the
    one asked for, and short of it by less than one step of the divider
    ([refclk / (refdiv * postdiv)]) plus 1 MHz of rounding. *)
Theorem aiclk_set_then_get fuel rate e d w :
  config_wf c -> lock_fuel <= Z.of_nat fuel -> clock_wf c d w -> lock d = false ->
  ext_postdiv0 w = Some e -> e <> 0 -> 0 <= rate -> rate * divider e w < 2 ^ 16 * refclk_rate c ->
  let r := regs w (base c + PLL_CNTL_1_OFFSET) in
  let target := rate * divider e w / refclk_rate c in
  exists w' f w'', clock_control_tt_bh_set_rate fuel c CLOCK_CONTROL_TT_BH_CLOCK_AICLK rate d w = Some (0, d, w') /\
    did w (step_events c (Z.to_nat (Z.abs (target - fbdiv r))) (fbdiv r <? target) r) w' /\
    clock_control_tt_bh_get_rate c CLOCK_CONTROL_TT_BH_CLOCK_AICLK d w' = Some (0, Some f, d, w'') /\
    f <= rate /\ rate * divider e w - refclk_rate c - divider e w < f * divider e w.
Proof.
  intros Hcfg Hfuel Hwf Hl He Hne Hr Hlt r target. pose proof (cw_refclk c Hcfg) as Hc.
  assert (Et : aiclk_target c rate w = Some target) by (apply (aiclk_target_value rate e w d); try done; clear -Hlt Hc; unwrap; nia).
  pose proof (divider_range e w d Hwf He Hne) as Hd.
  assert (Ht : is_u16 target) by (unfold target; clear -Hlt Hr Hd Hc; split; [apply Z.div_pos; nia|apply Z.div_lt_upper_bound; lia]).
  destruct (set_aiclk_did c Hcfg fuel Hfuel rate target w Et Ht) as (w' & E & D). cbv zeta in D. fold r in D.
  set (n := Z.to_nat (Z.abs (target - fbdiv r))) in *. set (up := fbdiv r <? target) in *.
  assert (Htn : target = if up then fbdiv r + Z.of_nat n else fbdiv r - Z.of_nat n)
    by (unfold up, n; destruct (Z.ltb_spec (fbdiv r) target); lia).
  destruct (steps_keep n up w w' e target Htn Ht D He) as (He' & Hd' & Hf').
  assert (Hop : op_ok c (OpSetRate CLOCK_CONTROL_TT_BH_CLOCK_AICLK rate) w) by (exists target; split; [done|apply Ht]).
  assert (Ed : set_lock false (set_lock true d) = d) by (destruct d; cbn in Hl; by subst).
  assert (Es : clock_control_tt_bh_set_rate fuel c CLOCK_CONTROL_TT_BH_CLOCK_AICLK rate d w = Some (0, d, w')).
  { unfold clock_control_tt_bh_set_rate. rewrite Hl, E. cbn [mbind option_bind]. by rewrite Ed. }
  destruct (clock_state_typed c fuel (OpSetRate CLOCK_CONTROL_TT_BH_CLOCK_AICLK rate) d w Hcfg Hfuel Hwf Hop) as (rc & d1 & w1 & ? & E1 & _ & Hwf' & _).
  cbn [run_op] in E1. rewrite Es in E1. injection E1 as _ <- <-.
  destruct (get_freq_did c Hcfg 0 d w') as (f & w'' & Ef & _ & e' & Ee' & Hf); [lia|done|].
  unfold ext_postdiv0 in He'. rewrite He' in Ee'. injection Ee' as <-. destruct (Z.eqb_spec e 0); [lia|].
  exists w', f, w''. split; [done|]. split; [done|]. split.
  - unfold clock_control_tt_bh_get_rate. rewrite Hl. cbn [clock_index]. rewrite Ef. cbn [mbind option_bind]. by rewrite Ed.
  - rewrite Hf' in Hf. unfold divider in Hd' at 1. rewrite Hd' in Hf. subst f. apply floor_rate; lia.
Qed.

(** Two rates the driver mishandles.  A rate whose divider does not fit 16 bits
    keeps the loop running for ever; and on a disabled clock any rate moves the
    feedback divider, step by step, to zero. *)
Theorem aiclk_set_rate_edges fuel rate d w :
  lock d = false ->
  (forall t, aiclk_target c rate w = Some t -> 2 ^ 16 <= t -> config_wf c ->
     clock_control_tt_bh_set_rate fuel c CLOCK_CONTROL_TT_BH_CLOCK_AICLK rate d w = None) /\
  (ext_postdiv0 w = Some 0 -> config_wf c -> lock_fuel <= Z.of_nat fuel ->
     exists w', clock_control_tt_bh_set_rate fuel c CLOCK_CONTROL_TT_BH_CLOCK_AICLK rate d w = Some (0, d, w') /\
       fbdiv (regs w' (base c + PLL_CNTL_1_OFFSET)) = 0).
Proof.
  intros Hl. split.
  - intros t Et Ht Hcfg. unfold clock_control_tt_bh_set_rate. rewrite Hl. unfold set_aiclk.
    destruct (read_three c Hcfg w) as (w1 & w2 & w3 & -> & -> & -> & _). unfold aiclk_target in Et. rewrite Et. cbn [mbind option_bind].
    by rewrite aiclk_loop_diverges.
  - intros He Hcfg Hfuel.
    assert (Et : aiclk_target c rate w = Some 0)
      by (unfold aiclk_target, clock_control_tt_bh_calculate_fbdiv; unfold ext_postdiv0 in He; by rewrite He).
    destruct (set_aiclk_did c Hcfg fuel Hfuel rate 0 w Et) as (w' & E & D); [by unwrap|]. cbv zeta in D.
    exists w'. split.
    + unfold clock_control_tt_bh_set_rate. rewrite Hl, E. cbn [mbind option_bind]. destruct d; cbn in Hl; by subst.
    + pose proof (fbdiv_range (regs w (base c + PLL_CNTL_1_OFFSET))) as Hr.
      refine (proj2 (proj2 (steps_keep _ _ w w' 0 0 _ _ D He))); [|by unwrap].
      set (f := fbdiv _) in *. destruct (Z.ltb_spec f 0); unwrap; lia.
Qed.
End aiclk.

(** ** A simulated PLL *)

(** It locks at the time [sim_lock]; every access takes 10 ns. *)
Record sim := MkSim { sim_regs : Z -> Z; sim_log : list pll_event; sim_ns : Z; sim_lock : Z }.
Definition sim_tick (n : Z) (w : sim) : sim := MkSim (sim_regs w) (sim_log w) (sim_ns w + Z.max 0 n) (sim_lock w).
Definition sim_event (e : pll_event) (w : sim) : sim := MkSim (event_regs e (sim_regs w)) (e :: sim_log w) (sim_ns w) (sim_lock w).

#[export] Instance sim_hw : PllHw sim := {
  sys_read32 a w := (if a =? PLL_CNTL_WRAPPER_PLL_LOCK_REG_ADDR then (if sim_lock w <=? sim_ns w then 31 else 0) else sim_regs w a, sim_tick 10 w);
  sys_write32 v a w := sim_tick 10 (sim_event (EvWrite a v) w);
  k_uptime_get w := (sim_ns w / 1000000, w);
  k_busy_wait u w := sim_tick (1000 * u) (sim_event (EvWait (1000 * u)) w);
  k_busy_wait_ns n w := sim_tick n (sim_event (EvWait n) w)
}.

#[export] Program Instance sim_laws : PllHwLaws sim := { regs := sim_regs; log := sim_log; ns := sim_ns }.
Next Obligation. intros a w Ha. cbn. by destruct (Z.eqb_spec a PLL_CNTL_WRAPPER_PLL_LOCK_REG_ADDR). Qed.
Next Obligation. done. Qed.
Next Obligation. done. Qed.
Next Obligation. intros a w. cbn. lia. Qed.
Next Obligation. done. Qed.
Next Obligation. done. Qed.
Next Obligation. intros v a w. cbn. lia. Qed.
Next Obligation. done. Qed.
Next Obligation. done. Qed.
Next Obligation. done. Qed.
Next Obligation. intros w. cbn. lia. Qed.
Next Obligation. done. Qed.
Next Obligation. done. Qed.
Next Obligation. intros u w. cbn. lia. Qed.
Next Obligation. done. Qed.
Next Obligation. done. Qed.
Next Obligation. intros n w. cbn. lia. Qed.

(** The PLLs of [dts/vendor/tenstorrent/tt_blackhole_smc.dtsi]. *)
Definition pll0 : clock_control_tt_bh_config := MkConfig 0 50 0x80020100 (init_settings_of 2 1 128 0x18 1 (3, 0, 0, 0) (1, 1, 1, 1)).
Definition pll1 : clock_control_tt_bh_config := MkConfig 1 50 0x80020200 (init_settings_of 2 1 192 0x18 1 (5, 4, 23, 0) (1, 1, 1, 1)).
Definition pll3 : clock_control_tt_bh_config := MkConfig 3 50 0x80020400 (init_settings_of 2 1 120 0x18 1 (3, 0, 0, 0) (1, 1, 1, 1)).

(** A PLL running with its initial settings. *)
Definition running (c : clock_control_tt_bh_config) (t lock_at : Z) : sim :=
  MkSim (replay (update_events c (init_settings c) 0) (fun _ => 0)) [] t lock_at.
Definition data_of (c : clock_control_tt_bh_config) : clock_control_tt_bh_data := MkData (init_settings c) false.

Definition rate_now (c : clock_control_tt_bh_config) (sys : clock_control_tt_bh_clock) : option (Z * option Z) :=
  '(rc, rate, _, _) ← clock_control_tt_bh_get_rate c sys (data_of c) (running c 0 0); Some (rc, rate).

(** The rates the comments of [pll.c] give for these settings. *)
Example initial_rates :
  map (rate_now pll1) [CLOCK_CONTROL_TT_BH_CLOCK_ARCCLK; CLOCK_CONTROL_TT_BH_CLOCK_AXICLK; CLOCK_CONTROL_TT_BH_CLOCK_APBCLK] =
    [Some (0, Some 800); Some (0, Some 960); Some (0, Some 100)] /\
  rate_now pll0 CLOCK_CONTROL_TT_BH_CLOCK_AICLK = Some (0, Some 800) /\
  rate_now pll3 CLOCK_CONTROL_TT_BH_CLOCK_GDDRMEMCLK = Some (0, Some 750).
Proof. vm_compute. done. Qed.

Lemma cfg_ok_range c : 0x80020100 <= base c -> cfg_ok c.
Proof. intros Hb off Ho. unfold PLL_CNTL_WRAPPER_PLL_LOCK_REG_ADDR, PLL_CNTL_WRAPPER_REFCLK_PERIOD_REG_ADDR, CLK_COUNTER_EN_OFFSET in *. lia. Qed.

Lemma pll0_wf : config_wf pll0.
Proof. split; [by apply cfg_ok_range|done|]. by repeat split. Qed.

Lemma pll0_running t lock_at : 0 <= t -> clock_wf pll0 (data_of pll0) (running pll0 t lock_at).
Proof.
  intros Ht. split; [apply pll0_wf| |done|done].
  intros off Ho. apply replay_u32_at; [|done]. by apply update_u32; [apply pll0_wf|].
Qed.

Definition big_fuel : nat := Z.to_nat lock_fuel.
Lemma big_fuel_enough : lock_fuel <= Z.of_nat big_fuel.
Proof. unfold big_fuel. rewrite Z2Nat.id; [done|by vm_compute]. Qed.


Lemma clock_state_typed_witness :
  exists rc d' w' evs, run_op big_fuel pll0 OpInit (data_of pll0) (running pll0 0 5000) = Some (rc, d', w') /\
    did (running pll0 0 5000) evs w' /\ clock_wf pll0 d' w' /\ Forall event_u32 evs /\
    (lock d' = lock (data_of pll0) \/ OpInit = OpInit /\ rc = - ETIMEDOUT /\ lock d' = true).
Proof.
  apply (clock_state_typed pll0 big_fuel OpInit (data_of pll0) (running pll0 0 5000) pll0_wf big_fuel_enough).
  - by apply pll0_running.
  - exact I.
Defined.

(** A PLL that never locks, on a board whose time runs a thousand times faster: 410
    polls are enough to see the timeout. *)
Record slow := MkSlow { slow_polls : Z; slow_regs : Z -> Z }.
#[export] Instance slow_hw : PllHw slow := {
  sys_read32 a w := (if a =? PLL_CNTL_WRAPPER_PLL_LOCK_REG_ADDR then 0 else slow_regs w a, w);
  sys_write32 v a w := MkSlow (slow_polls w) (fun a' => if a' =? a then v else slow_regs w a');
  k_uptime_get w := (slow_polls w, MkSlow (slow_polls w + 1) (slow_regs w));
  k_busy_wait _ w := w;
  k_busy_wait_ns _ w := w
}.

Lemma failed_init_locks_out_witness :
  exists d' w', run_op 500 pll0 OpInit (data_of pll0) (MkSlow 0 (fun _ => 0)) = Some (- ETIMEDOUT, d', w') /\
    run_op 500 pll0 (OpSetRate CLOCK_CONTROL_TT_BH_CLOCK_AICLK 800) d' w' = Some (- EBUSY, d', w').
Proof.
  destruct (run_op 500 pll0 OpInit (data_of pll0) (MkSlow 0 (fun _ => 0))) as [[[rc d'] w']|] eqn:E; [|vm_compute in E; discriminate E].
  exists d', w'. assert (Hrc : rc = - ETIMEDOUT).
  { assert (E' : option_map (fun x => x.1.1) (run_op 500 pll0 OpInit (data_of pll0) (MkSlow 0 (fun _ => 0))) = Some (- ETIMEDOUT)) by (vm_compute; reflexivity).
    rewrite E in E'. injection E' as ->. reflexivity. }
  split; [rewrite Hrc; reflexivity|].
  apply (failed_init_locks_out pll0 500 (data_of pll0) (MkSlow 0 (fun _ => 0)) d' w' rc w' E); [rewrite Hrc; reflexivity|exact I].
Defined.

Lemma aiclk_set_then_get_witness :
  exists w' f w'', clock_control_tt_bh_set_rate big_fuel pll0 CLOCK_CONTROL_TT_BH_CLOCK_AICLK 1003 (data_of pll0) (running pll0 0 0) =
      Some (0, data_of pll0, w') /\
    clock_control_tt_bh_get_rate pll0 CLOCK_CONTROL_TT_BH_CLOCK_AICLK (data_of pll0) w' = Some (0, Some f, data_of pll0, w'') /\
    f <= 1003 /\ 1003 * 8 - 50 - 8 < f * 8.
Proof.
  destruct (aiclk_set_then_get pll0 big_fuel 1003 4 (data_of pll0) (running pll0 0 0) pll0_wf big_fuel_enough)
    as (w' & f & w'' & E1 & _ & E2 & H1 & H2); [by apply pll0_running|reflexivity|reflexivity|discriminate|discriminate|reflexivity|].
  exists w', f, w''. exact (conj E1 (conj E2 (conj H1 H2))).
Defined.

Lemma aiclk_set_rate_edges_witness :
  clock_control_tt_bh_set_rate 70000 pll0 CLOCK_CONTROL_TT_BH_CLOCK_AICLK 409600 (data_of pll0) (running pll0 0 0) = None.
Proof.
  refine (proj1 (aiclk_set_rate_edges pll0 70000 409600 (data_of pll0) (running pll0 0 0) eq_refl) 65536 _ _ pll0_wf).
  - vm_compute. reflexivity.
  - discriminate.
Defined.
