(* ===== verification/DvfsPll.v ===== *)
(** * DVFS down to the PLL ([dvfs.c], [voltage.c], [aiclk_ppm.c] over [clock_control_tt_bh.c])

    A DVFS step is a short list of clock and regulator requests ([hw_op]).  Each
    clock request is a walk of the PLL's feedback divider, during which the clock
    passes through every rate in between.  Here the two are put together: if the
    voltage is enough at every request ([hw_safe], what [Dvfs] shows of a step),
    it is enough after every single register write of the PLL driver. *)

From S2P Require Import Prelude Aiclk Dvfs ClockControl.
Open Scope Z_scope.

(** ** The rate the registers stand for *)

Section rate.
Variable c : clock_control_tt_bh_config.

Definition reg_1 (r : Z -> Z) : Z := r (base c + PLL_CNTL_1_OFFSET).
Definition postdiv_of (r : Z -> Z) : option Z :=
  clock_control_tt_bh_get_ext_postdiv 0 (r (base c + PLL_CNTL_5_OFFSET)) (r (base c + PLL_USE_POSTDIV_OFFSET)).

(** What [clock_control_tt_bh_get_freq] would read. *)
Definition pll_rate (r : Z -> Z) : Z :=
  match postdiv_of r with
  | Some e => if e =? 0 then 0 else refclk_rate c * fbdiv (reg_1 r) / (refdiv (reg_1 r) * e)
  | None => 0
  end.

(** [r'] is [r] with another feedback divider. *)
Record moved (r r' : Z -> Z) (f : Z) : Prop := {
  mv_1 : reg_1 r' = set_fbdiv f (reg_1 r);
  mv_other : forall a, a <> base c + PLL_CNTL_1_OFFSET -> r' a = r a
}.

Lemma moved_postdiv r r' f : moved r r' f -> postdiv_of r' = postdiv_of r.
Proof.
  intros [_ H]. unfold postdiv_of. by rewrite !H by (unfold PLL_CNTL_1_OFFSET, PLL_CNTL_5_OFFSET, PLL_USE_POSTDIV_OFFSET; lia).
Qed.

Lemma moved_rate r r' f e :
  moved r r' f -> is_u16 f -> postdiv_of r = Some e -> e <> 0 ->
  pll_rate r' = refclk_rate c * f / (refdiv (reg_1 r) * e).
Proof.
  intros Hm Hf He Hne. unfold pll_rate. rewrite (moved_postdiv _ _ _ Hm), He, (mv_1 _ _ _ Hm), refdiv_set, fbdiv_set by done.
  by destruct (Z.eqb_spec e 0).
Qed.
End rate.

(** ** Events of the two rails *)

Inductive chip_event := Pll (e : pll_event) | Vcore (mv : Z).

(** The voltage is enough for the rate of the registers before the events and after
    each of them. *)
Fixpoint chip_safe (need : Z -> Z) (c : clock_control_tt_bh_config) (r : Z -> Z) (mv : Z) (evs : list chip_event) : Prop :=
  need (pll_rate c r) <= mv /\
  match evs with
  | [] => True
  | Pll e :: evs => chip_safe need c (event_regs e r) mv evs
  | Vcore mv :: evs => chip_safe need c r mv evs
  end.

(** The state after some events. *)
Fixpoint chip_after (r : Z -> Z) (mv : Z) (evs : list chip_event) : (Z -> Z) * Z :=
  match evs with
  | [] => (r, mv)
  | Pll e :: evs => chip_after (event_regs e r) mv evs
  | Vcore mv :: evs => chip_after r mv evs
  end.

Lemma chip_safe_head need c r mv evs : chip_safe need c r mv evs -> need (pll_rate c r) <= mv.
Proof. destruct evs as [|[]]; by intros [? _]. Qed.

Lemma chip_safe_app need c r mv e1 e2 :
  chip_safe need c r mv e1 -> chip_safe need c (chip_after r mv e1).1 (chip_after r mv e1).2 e2 ->
  chip_safe need c r mv (e1 ++ e2).
Proof.
  revert r mv. induction e1 as [|e e1 IH]; intros r mv H1 H2; [exact H2|].
  destruct e; cbn [chip_safe app chip_after] in *; destruct H1 as [H1 H1']; split; auto.
Qed.

Lemma chip_after_pll r mv evs : chip_after r mv (map Pll evs) = (replay evs r, mv).
Proof. revert r. induction evs as [|e evs IH]; intros r; [done|]. apply IH. Qed.

Lemma pll_rate_ext c r r' : (forall a, r a = r' a) -> pll_rate c r = pll_rate c r'.
Proof. intros E. unfold pll_rate, postdiv_of, reg_1. by rewrite !E. Qed.

Lemma chip_safe_ext need c r r' mv evs : (forall a, r a = r' a) -> chip_safe need c r mv evs -> chip_safe need c r' mv evs.
Proof.
  revert r r' mv. induction evs as [|e evs IH]; intros r r' mv E [H1 H2]; (split; [by rewrite <- (pll_rate_ext c r r' E)|]); [done|].
  destruct e as [e|mv']; [|by apply (IH r)]. apply (IH (event_regs e r)); [|done]. intros a. destruct e; cbn; [by rewrite E|apply E].
Qed.

(** A walk of the divider passes only through dividers between its ends. *)
Lemma steps_along need c n (up : bool) r mv :
  let f k := if up then fbdiv (reg_1 c r) + k else fbdiv (reg_1 c r) - k in
  is_u16 (f (Z.of_nat n)) ->
  (forall k r', 0 <= k <= Z.of_nat n -> moved c r r' (f k) -> need (pll_rate c r') <= mv) ->
  chip_safe need c r mv (map Pll (step_events c n up (reg_1 c r))).
Proof.
  revert r. induction n as [|n IH]; intros r f Ht Hall.
  - split; [|done]. apply (Hall 0); [lia|]. split; [|done]. unfold f. replace (if up then _ else _) with (fbdiv (reg_1 c r)) by (destruct up; lia).
    by rewrite set_fbdiv_same.
  - pose proof (fbdiv_range (reg_1 c r)) as Hr. set (v := set_fbdiv (f 1) (reg_1 c r)).
    assert (Hf1 : is_u16 (f 1)) by (clear -Ht Hr; unfold f in *; unwrap; destruct up; lia).
    set (r1 := event_regs (EvWrite (base c + PLL_CNTL_1_OFFSET) v) r).
    assert (Hr1 : reg_1 c r1 = v) by (unfold reg_1, r1; cbn [event_regs]; by rewrite Z.eqb_refl).
    assert (Hfv : fbdiv v = f 1) by (by apply fbdiv_set).
    assert (Hmove : forall k r', moved c r1 r' (if up then f 1 + k else f 1 - k) -> moved c r r' (f (k + 1))).
    { intros k r' [M1 M2]. split.
      - rewrite M1, Hr1. unfold v. rewrite set_fbdiv_twice. f_equal. unfold f. destruct up; lia.
      - intros a Ha. rewrite M2 by done. unfold r1. cbn [event_regs]. by rewrite (proj2 (Z.eqb_neq _ _) Ha). }
    assert (Hsafe : chip_safe need c r1 mv (map Pll (step_events c n up (reg_1 c r1)))).
    { apply IH.
      - rewrite Hr1, Hfv. unfold f in *. clear -Ht. destruct up; unwrap; lia.
      - intros k r' Hk M. apply (Hall (k + 1)); [lia|]. apply Hmove. by rewrite Hr1, Hfv in M. }
    rewrite Hr1 in Hsafe. cbn [step_events app map]. change (set_fbdiv _ (reg_1 c r)) with v.
    assert (H0 : need (pll_rate c r) <= mv).
    { apply (Hall 0); [lia|]. split; [|done]. unfold f. replace (if up then _ else _) with (fbdiv (reg_1 c r)) by (destruct up; lia).
      by rewrite set_fbdiv_same. }
    split; [done|]. split; [by apply (chip_safe_head _ _ _ _ _ Hsafe)|]. exact Hsafe.
Qed.

(** ** Carrying out the requests *)

Section run.
Context {W : Type} `{PllHwLaws W}.
Variable fuel : nat.
Variable c : clock_control_tt_bh_config.
Implicit Types (w : W) (d : clock_control_tt_bh_data).

(** The requests of a DVFS step on the AI clock's PLL and the core rail, with the
    events they cause. *)
Inductive chip_runs : list hw_op -> clock_control_tt_bh_data -> W -> list chip_event -> clock_control_tt_bh_data -> W -> Prop :=
| runs_nil d w : chip_runs [] d w [] d w
| runs_rate f ops d w rc d1 w1 evs evs' d2 w2 :
    clock_control_tt_bh_set_rate fuel c CLOCK_CONTROL_TT_BH_CLOCK_AICLK f d w = Some (rc, d1, w1) -> did w evs w1 ->
    chip_runs ops d1 w1 evs' d2 w2 -> chip_runs (SetRate f :: ops) d w (map Pll evs ++ evs') d2 w2
| runs_vcore mv ops d w evs d' w' : chip_runs ops d w evs d' w' -> chip_runs (SetVcore mv :: ops) d w (Vcore mv :: evs) d' w'
| runs_vcorem mv ops d w evs d' w' : chip_runs ops d w evs d' w' -> chip_runs (SetVcorem mv :: ops) d w evs d' w'.

Definition last_rate (f : Z) (ops : list hw_op) : Z := fold_left (fun f op => match op with SetRate f' => f' | _ => f end) ops f.

(** The AI clock is on and its largest rate fits the divider. *)
Record aiclk_ready (e : Z) d w : Prop := {
  ar_wf : clock_wf c d w;
  ar_free : lock d = false;
  ar_on : ext_postdiv0 c w = Some e /\ e <> 0;
  ar_fits : AICLK_FMAX_MAX * divider c e w < 2 ^ 16 * refclk_rate c
}.

Lemma aiclk_walk e d w f :
  config_wf c -> lock_fuel <= Z.of_nat fuel -> aiclk_ready e d w -> 0 <= f <= AICLK_FMAX_MAX ->
  exists n (up : bool) w', clock_control_tt_bh_set_rate fuel c CLOCK_CONTROL_TT_BH_CLOCK_AICLK f d w = Some (0, d, w') /\
    did w (step_events c n up (reg_1 c (regs w))) w' /\ aiclk_ready e d w' /\
    let target := f * divider c e w / refclk_rate c in
    target = (if up then fbdiv (reg_1 c (regs w)) + Z.of_nat n else fbdiv (reg_1 c (regs w)) - Z.of_nat n) /\ is_u16 target /\
    moved c (regs w) (regs w') target.
Proof.
  intros Hcfg Hfuel [Hwf Hl [He Hne] Hfit] Hf. pose proof (cw_refclk c Hcfg) as Hc.
  pose proof (divider_range c e w d Hwf He Hne) as Hd. set (target := f * divider c e w / refclk_rate c).
  assert (Hlt : f * divider c e w < 2 ^ 16 * refclk_rate c) by (clear -Hfit Hf Hd; nia).
  assert (Et : aiclk_target c f w = Some target) by (apply (aiclk_target_value c f e w d); try done; [lia|clear -Hlt Hc; unwrap; nia]).
  assert (Ht : is_u16 target) by (unfold target; clear -Hlt Hf Hd Hc; split; [apply Z.div_pos; nia|apply Z.div_lt_upper_bound; lia]).
  destruct (set_aiclk_did c Hcfg fuel Hfuel f target w Et Ht) as (w' & E & D). cbv zeta in D.
  change (regs w (base c + PLL_CNTL_1_OFFSET)) with (reg_1 c (regs w)) in D. set (r := reg_1 c (regs w)) in *.
  set (n := Z.to_nat (Z.abs (target - fbdiv r))) in *. set (up := fbdiv r <? target) in *.
  assert (Htn : target = if up then fbdiv r + Z.of_nat n else fbdiv r - Z.of_nat n)
    by (unfold up, n; destruct (Z.ltb_spec (fbdiv r) target); lia).
  assert (Ed : set_lock false (set_lock true d) = d) by (destruct d; cbn in Hl; by subst).
  assert (Es : clock_control_tt_bh_set_rate fuel c CLOCK_CONTROL_TT_BH_CLOCK_AICLK f d w = Some (0, d, w'))
    by (unfold clock_control_tt_bh_set_rate; rewrite Hl, E; cbn [mbind option_bind]; by rewrite Ed).
  assert (Hm : moved c (regs w) (regs w') target).
  { destruct (ClockControl.steps_safe c n up (regs w) 100) as (_ & H1 & H2).
    { fold (reg_1 c (regs w)). fold r. by rewrite <- Htn. }
    { done. }
    destruct D as [_ DR _]. split.
    - unfold reg_1. rewrite DR. unfold r in *. rewrite Htn. exact H1.
    - intros a Ha. rewrite DR. unfold r in *. by apply H2. }
  exists n, up, w'. split; [done|]. split; [done|]. split; [|done].
  destruct (ClockControl.steps_keep c n up w w' e target Htn Ht D He) as (He' & Hd' & _).
  split; [|done|done|by rewrite Hd'].
  destruct (run_op_shape c Hcfg fuel Hfuel (OpSetRate CLOCK_CONTROL_TT_BH_CLOCK_AICLK f) d w Hwf) as (rc & d1 & w1 & evs & E1 & D1 & Hs).
  { exists target. split; [done|apply Ht]. }
  destruct Hm as [M1 M2]. destruct Hwf as [K1 K2 K3 K4]. split; [done| | |destruct D; lia].
  - intros off Ho. destruct (decide (base c + off = base c + PLL_CNTL_1_OFFSET)) as [->|Hne'].
    + change (regs w' (base c + PLL_CNTL_1_OFFSET)) with (reg_1 c (regs w')). rewrite M1. apply bits_set_u32; try lia. by apply K2.
    + rewrite M2 by done. by apply K2.
  - change (regs w' (base c + PLL_CNTL_1_OFFSET)) with (reg_1 c (regs w')). by rewrite M1, refdiv_set.
Qed.

Lemma divider_is e d w : aiclk_ready e d w -> postdiv_of c (regs w) = Some e /\ e <> 0 /\ 0 < refdiv (reg_1 c (regs w)) * e.
Proof.
  intros [Hwf _ [He Hne] _]. split; [exact He|]. split; [done|]. by destruct (divider_range c e w d Hwf He Hne).
Qed.

(** The rate between two dividers is at most the larger of their rates. *)
Lemma rate_between e d w r' g lo hi f f' :
  config_wf c -> aiclk_ready e d w -> moved c (regs w) r' g -> is_u16 g -> lo <= g <= hi \/ hi <= g <= lo ->
  refclk_rate c * lo / (refdiv (reg_1 c (regs w)) * e) <= f -> refclk_rate c * hi / (refdiv (reg_1 c (regs w)) * e) <= f' ->
  0 <= pll_rate c r' <= Z.max f f'.
Proof.
  intros Hcfg Hr Hm Hg Hb Hlo Hhi. destruct (divider_is e d w Hr) as (He & Hne & Hd). pose proof (cw_refclk c Hcfg).
  rewrite (moved_rate c (regs w) r' g e) by done. split; [apply Z.div_pos; [unwrap; nia|done]|].
  destruct Hb as [Hb|Hb]; [etrans; [|etrans; [exact Hhi|lia]]|etrans; [|etrans; [exact Hlo|lia]]]; apply Z.div_le_mono; nia.
Qed.

Lemma moved_refl r : moved c r r (fbdiv (reg_1 c r)).
Proof. split; [by rewrite set_fbdiv_same|done]. Qed.

Lemma rate_nonneg e d w : config_wf c -> aiclk_ready e d w -> 0 <= pll_rate c (regs w).
Proof.
  intros Hcfg Hr. pose proof (moved_refl (regs w)) as M. pose proof (fbdiv_range (reg_1 c (regs w))).
  by destruct (rate_between e d w (regs w) (fbdiv (reg_1 c (regs w))) _ _ _ _ Hcfg Hr M ltac:(done) (or_introl (conj (Z.le_refl _) (Z.le_refl _))) (Z.le_refl _) (Z.le_refl _)).
Qed.

Lemma last_rate_cons f op ops : last_rate f (op :: ops) = last_rate (match op with SetRate f' => f' | _ => f end) ops.
Proof. done. Qed.

Lemma hw_head need f mv ops : hw_safe need f mv ops -> need f <= mv.
Proof. destruct ops; by intros [? _]. Qed.

End run.

(** ** Witness: 800 to 1000 MHz on PLL 0, the voltage first *)

Definition need0 (f : Z) : Z := if f <=? 900 then 700 else 820.

Lemma pll0_ready : aiclk_ready pll0 4 (data_of pll0) (running pll0 0 0).
Proof. split; [by apply pll0_running|done|by split|by vm_compute]. Qed.

