(* ===== verification/I2c.v ===== *)
(** * The I2C master ([lib/tenstorrent/bh_arc/dw_apb_i2c.c])

    The driver of the three DesignWare I2C controllers: initialisation, bus
    recovery, and the SMBus transactions built from one FIFO register.  A read of
    a register may change the controller (it pops a FIFO or clears an error), so
    the class [I2cHw] gives it a new world.  [timeout] is
    CONFIG_TT_BH_ARC_I2C_TIMEOUT_DURATION when the option is on.  [None] is an
    access outside a buffer, or a wait that outlives its fuel. *)

From S2P Require Import Prelude.

Definition DW_APB_I2C_REG_MAP_BASE_ADDR : Z := 0x80060000.
Definition DW_APB_I2C1_REG_MAP_BASE_ADDR : Z := 0x80090000.
Definition DW_APB_I2C2_REG_MAP_BASE_ADDR : Z := 0x800A0000.
Definition RESET_UNIT_I2C_PAD_CNTL_REG_ADDR : Z := 0x800301C0.
Definition RESET_UNIT_I2C1_PAD_CNTL_REG_ADDR : Z := 0x800305CC.
Definition RESET_UNIT_I2C2_PAD_CNTL_REG_ADDR : Z := 0x800305D8.
Definition RESET_UNIT_I2C_PAD_DATA_REG_ADDR : Z := 0x800301C4.
Definition RESET_UNIT_I2C1_PAD_DATA_REG_ADDR : Z := 0x800305D0.
Definition RESET_UNIT_I2C2_PAD_DATA_REG_ADDR : Z := 0x800305DC.
Definition RESET_UNIT_I2C_CNTL_REG_ADDR : Z := 0x800300F0.

Definition IC_CON : Z := 0x00.
Definition IC_TAR : Z := 0x04.
Definition IC_SAR : Z := 0x08.
Definition IC_DATA_CMD : Z := 0x10.
Definition IC_SS_SCL_HCNT : Z := 0x14.
Definition IC_SS_SCL_LCNT : Z := 0x18.
Definition IC_FS_SCL_HCNT : Z := 0x1C.
Definition IC_FS_SCL_LCNT : Z := 0x20.
Definition IC_CLR_TX_ABRT : Z := 0x54.
Definition IC_ENABLE : Z := 0x6C.
Definition IC_STATUS : Z := 0x70.
Definition IC_SDA_HOLD : Z := 0x7C.
Definition IC_TX_ABRT_SOURCE : Z := 0x80.
Definition IC_FS_SPKLEN : Z := 0xA0.
Definition IC_SMBUS_THIGH_MAX_IDLE_COUNT : Z := 0xC4.

Definition DW_APB_I2C_IC_CON_MASTER_MODE_MASK : Z := 0x1.
Definition DW_APB_I2C_IC_STATUS_TFE_MASK : Z := 0x4.
Definition DW_APB_I2C_IC_STATUS_TFNF_MASK : Z := 0x2.
Definition DW_APB_I2C_IC_STATUS_RFNE_MASK : Z := 0x8.
Definition DW_APB_I2C_IC_STATUS_MST_ACTIVITY_MASK : Z := 0x20.
Definition RESET_UNIT_I2C_PAD_CTRL_TRIEN_SCL_MASK : Z := 0x1.
Definition RESET_UNIT_I2C_PAD_CTRL_TRIEN_SDA_MASK : Z := 0x2.
Definition RESET_UNIT_I2C_PAD_CNTL_RXEN_MASK : Z := 0xC0.
Definition RESET_UNIT_I2C_PAD_CNTL_TRIEN_MASK : Z := 0x3.
Definition DW_APB_I2C_IC_TAR_IC_TAR_MASK : Z := 0x3FF.
Definition DW_APB_I2C_IC_SAR_IC_SAR_MASK : Z := 0x3FF.
Definition DW_APB_I2C_IC_CON_IC_RESTART_EN_MASK : Z := 0x20.
Definition DW_APB_I2C_IC_CON_IC_SLAVE_DISABLE_MASK : Z := 0x40.
Definition RESET_UNIT_I2C_PAD_CNTL_DRV_SHIFT : Z := 10.
Definition IC_TX_ABRT_SOURCE_MASK : Z := 0xFFFFF.
Definition IC_DATA_READ : Z := 0x100.
Definition IC_DATA_WRITE : Z := 0.
Definition IC_DATA_STOP : Z := 0x200.
Definition IC_ABRT_A3_STATE : Z := BIT 21.
Definition IC_VERIFY_FAIL : Z := BIT 22.
Definition ETIMEDOUT : Z := 116.
Definition WAIT_1US : Z := 50.
Definition WAIT_1MS : Z := 50000.

Inductive I2CMode := I2CMst | I2CSlv.
Inductive I2CSpeedMode := I2CStandardMode | I2CFastMode.
Definition speed_code (s : I2CSpeedMode) : Z := match s with I2CStandardMode => 1 | I2CFastMode => 2 end.

Definition GetI2CBaseAddress (id : Z) : Z :=
  if id =? 0 then DW_APB_I2C_REG_MAP_BASE_ADDR
  else if id =? 1 then DW_APB_I2C1_REG_MAP_BASE_ADDR
  else if id =? 2 then DW_APB_I2C2_REG_MAP_BASE_ADDR
  else 0.
Definition IsValidI2CMasterId (id : Z) : bool := negb (GetI2CBaseAddress id =? 0).
Definition GetI2CRegAddr (id offset : Z) : Z := GetI2CBaseAddress id + offset.
Definition GetI2CPadCntlAddr (id : Z) : Z :=
  if id =? 0 then RESET_UNIT_I2C_PAD_CNTL_REG_ADDR
  else if id =? 1 then RESET_UNIT_I2C1_PAD_CNTL_REG_ADDR
  else if id =? 2 then RESET_UNIT_I2C2_PAD_CNTL_REG_ADDR
  else 0.
Definition GetI2CPadDataAddr (id : Z) : Z :=
  if id =? 0 then RESET_UNIT_I2C_PAD_DATA_REG_ADDR
  else if id =? 1 then RESET_UNIT_I2C1_PAD_DATA_REG_ADDR
  else if id =? 2 then RESET_UNIT_I2C2_PAD_DATA_REG_ADDR
  else 0.

(** The slave configuration of a controller: master mode 0, the slave enabled. *)
Definition slave_con (speed : I2CSpeedMode) : Z := bits_set 9 1 1 (bits_set 7 1 1 (bits_set 1 2 (speed_code speed) 0)).

Definition drive_pads : Z :=
  Z.lor (Z.lor (Z.shiftl 0x7F RESET_UNIT_I2C_PAD_CNTL_DRV_SHIFT) RESET_UNIT_I2C_PAD_CNTL_RXEN_MASK) RESET_UNIT_I2C_PAD_CNTL_TRIEN_MASK.

(** Bytes of a buffer reversed ([util.h]). *)
Fixpoint flip_loop (n : nat) (i : Z) (buf : list Z) : option (list Z) :=
  match n with
  | O => Some buf
  | S n =>
      let j := len buf - 1 - i in
      temp ← aget buf i;
      x ← aget buf j;
      buf ← aset buf i x;
      buf ← aset buf j temp;
      flip_loop n (i + 1) buf
  end.
Definition FlipBytes (buf : list Z) : option (list Z) := flip_loop (Z.to_nat (len buf / 2)) 0 buf.

Class I2cHw (W : Type) := {
  ReadReg : Z -> W -> Z * W;
  WriteReg : Z -> Z -> W -> W;      (** address, value *)
  k_uptime_get : W -> Z * W;
  Wait : Z -> W -> W                (** reference clock ticks *)
}.

Section driver.
Context {W : Type} `{I2cHw W}.
Variable timeout : option Z.
Variable fuel : nat.
(** [asic_state == A3State]. *)
Variable a3 : bool.
Implicit Types w : W.

(** *** Bus recovery *)

Fixpoint toggle_scl (n : nat) (id i2c_cntl : Z) w : Z * W :=
  match n with
  | O => (i2c_cntl, w)
  | S n =>
      let i2c_cntl := Z.lxor i2c_cntl RESET_UNIT_I2C_PAD_CTRL_TRIEN_SCL_MASK in
      let w := WriteReg (GetI2CPadCntlAddr id) i2c_cntl w in
      toggle_scl n id i2c_cntl (Wait (100 * WAIT_1US) w)
  end.

Definition I2CRecoverBus (id : Z) w : W :=
  let i2c_cntl := Z.lor (Z.shiftl 0x7F RESET_UNIT_I2C_PAD_CNTL_DRV_SHIFT) RESET_UNIT_I2C_PAD_CNTL_TRIEN_MASK in
  let '(i2c_rst_cntl, w) := ReadReg RESET_UNIT_I2C_CNTL_REG_ADDR w in
  let w := WriteReg (GetI2CRegAddr id IC_ENABLE) 0 w in
  let w := WriteReg RESET_UNIT_I2C_CNTL_REG_ADDR (Z.land i2c_rst_cntl (u32 (Z.lnot (BIT id)))) w in
  let w := WriteReg (GetI2CPadCntlAddr id) i2c_cntl w in
  let w := WriteReg (GetI2CPadDataAddr id) 0 w in
  let i2c_cntl := Z.lxor i2c_cntl RESET_UNIT_I2C_PAD_CTRL_TRIEN_SCL_MASK in
  let w := WriteReg (GetI2CPadCntlAddr id) i2c_cntl w in
  let w := Wait (150 * WAIT_1MS) w in
  let '(_, w) := toggle_scl 32 id i2c_cntl w in
  let w := WriteReg (GetI2CPadCntlAddr id) RESET_UNIT_I2C_PAD_CTRL_TRIEN_SCL_MASK w in
  let w := Wait (100 * WAIT_1US) w in
  let w := WriteReg (GetI2CPadCntlAddr id)
    (Z.lor RESET_UNIT_I2C_PAD_CTRL_TRIEN_SCL_MASK RESET_UNIT_I2C_PAD_CTRL_TRIEN_SDA_MASK) w in
  let w := Wait (100 * WAIT_1US) w in
  let w := WriteReg (GetI2CPadCntlAddr id) drive_pads w in
  let w := WriteReg RESET_UNIT_I2C_CNTL_REG_ADDR (Z.lor i2c_rst_cntl (BIT id)) w in
  WriteReg (GetI2CRegAddr id IC_ENABLE) 1 w.

(** *** Waiting *)

(** Has the wait that began at [ts] lasted too long? *)
Definition timed_out (ts : Z) w : bool * W :=
  match timeout with
  | Some limit => let '(now, w) := k_uptime_get w in (limit <? u64 (now - ts), w)
  | None => (false, w)
  end.

(** The loop of the three status waits: until [over] holds of the status, or the timeout. *)
Fixpoint wait_status (fuel : nat) (over : Z -> bool) (id ts : Z) w : option W :=
  match fuel with
  | O => None
  | S fuel =>
      let '(ic_status, w) := ReadReg (GetI2CRegAddr id IC_STATUS) w in
      let '(late, w) := timed_out ts w in
      if late then Some (I2CRecoverBus id w)
      else if over ic_status then Some w
      else wait_status fuel over id ts w
  end.
Definition has (mask ic_status : Z) : bool := negb (Z.land ic_status mask =? 0).

Definition WaitTxFifoEmpty (id : Z) w : option W :=
  let '(ts, w) := k_uptime_get w in wait_status fuel (has DW_APB_I2C_IC_STATUS_TFE_MASK) id ts w.
Definition WaitTxFifoNotFull (id : Z) w : option W :=
  let '(ts, w) := k_uptime_get w in wait_status fuel (has DW_APB_I2C_IC_STATUS_TFNF_MASK) id ts w.
Definition WaitMasterIdle (id : Z) w : option W :=
  let '(ts, w) := k_uptime_get w in
  wait_status fuel (fun s => negb (has DW_APB_I2C_IC_STATUS_MST_ACTIVITY_MASK s)) id ts w.

Definition WriteTxFifo (id data : Z) w : option W :=
  w ← WaitTxFifoNotFull id w;
  Some (WriteReg (GetI2CRegAddr id IC_DATA_CMD) data w).

Definition CheckTxAbrt (id : Z) w : Z * W :=
  let '(tx_abrt_source, w) := ReadReg (GetI2CRegAddr id IC_TX_ABRT_SOURCE) w in
  let ic_error := Z.land tx_abrt_source IC_TX_ABRT_SOURCE_MASK in
  if negb (ic_error =? 0) then let '(_, w) := ReadReg (GetI2CRegAddr id IC_CLR_TX_ABRT) w in (ic_error, w)
  else (0, w).

(** The loop of [WaitAllTxDone] and [I2CReadRxFifo]. *)
Fixpoint wait_no_abort (fuel : nat) (over : Z -> bool) (id ts : Z) w : option (Z * W) :=
  match fuel with
  | O => None
  | S fuel =>
      let '(ic_error, w) := CheckTxAbrt id w in
      if negb (ic_error =? 0) then Some (ic_error, w)
      else
        let '(ic_status, w) := ReadReg (GetI2CRegAddr id IC_STATUS) w in
        let '(late, w) := timed_out ts w in
        if late then Some (u32 (- ETIMEDOUT), I2CRecoverBus id w)
        else if over ic_status then Some (0, w)
        else wait_no_abort fuel over id ts w
  end.
Definition WaitAllTxDone (id : Z) w : option (Z * W) :=
  let '(ts, w) := k_uptime_get w in
  wait_no_abort fuel
    (fun s => negb (has DW_APB_I2C_IC_STATUS_MST_ACTIVITY_MASK s || negb (has DW_APB_I2C_IC_STATUS_TFE_MASK s))) id ts w.

(** The error, and the byte read when there is none. *)
Definition I2CReadRxFifo (id : Z) w : option (Z * Z * W) :=
  let '(ts, w) := k_uptime_get w in
  '(ic_error, w) ← wait_no_abort fuel (has DW_APB_I2C_IC_STATUS_RFNE_MASK) id ts w;
  if negb (ic_error =? 0) then Some (ic_error, 0, w)
  else let '(x, w) := ReadReg (GetI2CRegAddr id IC_DATA_CMD) w in Some (0, u8 x, w).

(** *** Initialisation *)

Definition I2CInitGPIO (id : Z) w : W :=
  let w := WriteReg (GetI2CPadCntlAddr id) drive_pads w in
  let w := WriteReg (GetI2CPadDataAddr id) 0 w in
  let '(i2c_cntl, w) := ReadReg RESET_UNIT_I2C_CNTL_REG_ADDR w in
  WriteReg RESET_UNIT_I2C_CNTL_REG_ADDR (Z.lor i2c_cntl (Z.shiftl 1 id)) w.

(** The target configuration that slave mode fills for Zephyr is left out. *)
Definition I2CInit (mode : I2CMode) (slave_addr : Z) (speed : I2CSpeedMode) (id : Z) w : option W :=
  if a3 then Some w
  else
    w ← WaitTxFifoEmpty id w;
    w ← WaitMasterIdle id w;
    let wr off v w := WriteReg (GetI2CRegAddr id off) v w in
    let w := I2CInitGPIO id w in
    let w := Wait (10 * WAIT_1US) (wr IC_ENABLE 0 w) in
    let w := wr IC_SMBUS_THIGH_MAX_IDLE_COUNT 0xf w in
    let w :=
      match mode with
      | I2CMst =>
          let w := wr IC_TAR (Z.land slave_addr DW_APB_I2C_IC_TAR_IC_TAR_MASK) w in
          wr IC_CON (Z.lor (Z.lor (Z.lor DW_APB_I2C_IC_CON_MASTER_MODE_MASK (Z.shiftl (speed_code speed) 1))
            DW_APB_I2C_IC_CON_IC_RESTART_EN_MASK) DW_APB_I2C_IC_CON_IC_SLAVE_DISABLE_MASK) w
      | I2CSlv =>
          let w := wr IC_SAR (Z.land slave_addr DW_APB_I2C_IC_SAR_IC_SAR_MASK) w in
          wr IC_CON (slave_con speed) w
      end in
    let w :=
      match speed with
      | I2CStandardMode => wr IC_SDA_HOLD 15 (wr IC_FS_SPKLEN 3 (wr IC_SS_SCL_LCNT 235 (wr IC_SS_SCL_HCNT 200 w)))
      | I2CFastMode => wr IC_SDA_HOLD 15 (wr IC_FS_SPKLEN 3 (wr IC_FS_SCL_LCNT 65 (wr IC_FS_SCL_HCNT 30 w)))
      end in
    let w := wr IC_ENABLE 1 w in
    Some (Wait (10 * WAIT_1US) w).

(** *** Transactions *)

(** The bytes [l] into the FIFO, the last with a stop if [stop]. *)
Fixpoint write_bytes (id : Z) (l : list Z) (stop : bool) w : option W :=
  match l with
  | [] => Some w
  | b :: l =>
      let last_byte_flag := if stop && bool_decide (l = []) then IC_DATA_STOP else 0 in
      w ← WriteTxFifo id (Z.lor (Z.lor b IC_DATA_WRITE) last_byte_flag) w;
      write_bytes id l stop w
  end.

(** The error and the bytes read before it. *)
Fixpoint read_bytes (id : Z) (n : nat) w : option (Z * list Z * W) :=
  match n with
  | O => Some (0, [], w)
  | S n =>
      let last_byte_flag := if (n =? 0)%nat then IC_DATA_STOP else 0 in
      w ← WriteTxFifo id (Z.lor IC_DATA_READ last_byte_flag) w;
      '(ic_error, x, w) ← I2CReadRxFifo id w;
      if negb (ic_error =? 0) then Some (ic_error, [], w)
      else '(ic_error, l, w) ← read_bytes id n w; Some (ic_error, x :: l, w)
  end.

Definition I2CTransaction (id : Z) (write_data : list Z) (read_len : nat) w : option (Z * list Z * W) :=
  if a3 then Some (IC_ABRT_A3_STATE, [], w)
  else
    w ← write_bytes id write_data (read_len =? 0)%nat w;
    if (read_len =? 0)%nat then '(ic_error, w) ← WaitAllTxDone id w; Some (ic_error, [], w)
    else read_bytes id read_len w.

(** [command_byte_size] bytes of the 16-bit command; [p_write_buf] is not NULL here. *)
Definition I2CWriteBytes (id command : Z) (command_byte_size : nat) (p_write_buf : list Z) w : option (Z * W) :=
  if a3 then Some (IC_ABRT_A3_STATE, w)
  else if (2 <? command_byte_size)%nat then None
  else
    w ← write_bytes id (take command_byte_size (bytes_of_le 2 command)) (bool_decide (p_write_buf = [])) w;
    w ← write_bytes id p_write_buf true w;
    if (0 <? command_byte_size)%nat || (0 <? length p_write_buf)%nat then WaitAllTxDone id w else Some (0, w).

(** Without an error, [data_byte_size] bytes. *)
Definition I2CReadBytes (id command : Z) (command_byte_size data_byte_size : nat) (flip_bytes : bool) w
    : option (Z * list Z * W) :=
  if (2 <? command_byte_size)%nat then None
  else
    '(ic_error, buf, w) ← I2CTransaction id (take command_byte_size (bytes_of_le 2 command)) data_byte_size w;
    if (ic_error =? 0) && flip_bytes then buf ← FlipBytes buf; Some (ic_error, buf, w)
    else Some (ic_error, buf, w).

Definition merge_byte (old data mask : Z) : Z := Z.lor (Z.land old (u8 (Z.lnot mask))) (Z.land data mask).
Fixpoint merge (old data mask : list Z) : list Z :=
  match old, data, mask with
  | o :: old, d :: data, m :: mask => merge_byte o d m :: merge old data mask
  | _, _, _ => []
  end.
Fixpoint verified (buf data mask : list Z) : bool :=
  match buf, data, mask with
  | b :: buf, d :: data, m :: mask => (Z.land b m =? Z.land d m) && verified buf data mask
  | _, _, _ => true
  end.

(** Read, modify, write, verify; the two arrays must have [data_byte_size] bytes. *)
Definition I2CRMWV (id command : Z) (command_byte_size : nat) (p_data p_mask : list Z) (data_byte_size : nat) w : option (Z * W) :=
  if (length p_data <? data_byte_size)%nat || (length p_mask <? data_byte_size)%nat then None
  else
    '(ic_error, buffer, w) ← I2CReadBytes id command command_byte_size data_byte_size false w;
    if negb (ic_error =? 0) then Some (ic_error, w)
    else
      let buffer := merge buffer p_data p_mask in
      '(ic_error, w) ← I2CWriteBytes id command command_byte_size buffer w;
      if negb (ic_error =? 0) then Some (ic_error, w)
      else
        '(ic_error, buffer, w) ← I2CReadBytes id command command_byte_size data_byte_size false w;
        if negb (ic_error =? 0) then Some (ic_error, w)
        else Some (if verified buffer p_data p_mask then 0 else IC_VERIFY_FAIL, w).
(** [i2c_message_handler] ([i2c_messages.c]): the response code, and the bytes put
    into the response after its first word. *)
Definition DATA_TOO_LARGE : Z := 1.
Definition i2c_message_handler (i2c_mst_id i2c_slave_address num_write_bytes num_read_bytes : Z) (write_data : list Z) w
    : option (Z * list Z * W) :=
  if negb (IsValidI2CMasterId i2c_mst_id) then Some (1, [], w)
  else
    let I2C_slave_address := Z.land i2c_slave_address 0x7F in
    let remaining_write_size := 24 in
    let remaining_read_size := 8 * 4 - 1 * 4 in
    if (remaining_write_size <? num_write_bytes) || (remaining_read_size <? num_read_bytes) then Some (DATA_TOO_LARGE, [], w)
    else
      w ← I2CInit I2CMst I2C_slave_address I2CStandardMode i2c_mst_id w;
      '(status, read_data, w) ← I2CTransaction i2c_mst_id (take (Z.to_nat num_write_bytes) write_data) (Z.to_nat num_read_bytes) w;
      Some (if status =? 0 then 0 else 1, read_data, w).
End driver.

(** ** The specification: a bus of SMBus devices *)

(** [cur] is what the master has written since the last stop, [pos] how many bytes
    it has read since, [rx] the receive FIFO. *)
Record i2c_bus := MkBus {
  target : Z;
  dev : Z -> Z -> list Z;          (** address, command *)
  cur : list Z;
  pos : nat;
  rx : list Z
}.

Definition dev_set (a c : Z) (v : list Z) (d : Z -> Z -> list Z) : Z -> Z -> list Z :=
  fun a' c' => if (a' =? a) && (c' =? c) then v else d a' c'.

(** A quiet bus. *)
Definition idle (a : Z) (d : Z -> Z -> list Z) : i2c_bus := MkBus a d [] 0 [].

(** A word written to IC_DATA_CMD; [store] is what a device keeps of a write to one
    of its registers: address, command, the old and the new bytes. *)
Definition bus_cmd (store : Z -> Z -> list Z -> list Z -> list Z) (d : Z) (b : i2c_bus) : i2c_bus :=
  if Z.testbit d 8 then
    let reg := match cur b with cmd :: _ => dev b (target b) cmd | [] => [] end in
    let rx' := rx b ++ [nth (pos b) reg 255] in
    if Z.testbit d 9 then MkBus (target b) (dev b) [] 0 rx' else MkBus (target b) (dev b) (cur b) (S (pos b)) rx'
  else
    let cur' := cur b ++ [Z.land d 255] in
    if Z.testbit d 9 then
      match cur' with
      | cmd :: ((_ :: _) as data) =>
          MkBus (target b) (dev_set (target b) cmd (store (target b) cmd (dev b (target b) cmd) data) (dev b)) [] 0 (rx b)
      | _ => MkBus (target b) (dev b) [] 0 (rx b)
      end
    else MkBus (target b) (dev b) cur' (pos b) (rx b).

(** A controller that is always ready, never aborts, and whose accesses take at
    most a millisecond. *)
Class I2cLaws (W : Type) (id : Z) `{I2cHw W} := {
  bus : W -> i2c_bus;
  store : Z -> Z -> list Z -> list Z -> list Z;
  now : W -> Z;
  write_data d w : bus (WriteReg (GetI2CRegAddr id IC_DATA_CMD) d w) = bus_cmd store d (bus w);
  write_tar a w : bus (WriteReg (GetI2CRegAddr id IC_TAR) a w) = MkBus a (dev (bus w)) (cur (bus w)) (pos (bus w)) (rx (bus w));
  write_other r v w : r <> GetI2CRegAddr id IC_DATA_CMD -> r <> GetI2CRegAddr id IC_TAR -> bus (WriteReg r v w) = bus w;
  read_status w : let s := (ReadReg (GetI2CRegAddr id IC_STATUS) w).1 in
    has DW_APB_I2C_IC_STATUS_TFE_MASK s = true /\ has DW_APB_I2C_IC_STATUS_TFNF_MASK s = true /\
    has DW_APB_I2C_IC_STATUS_MST_ACTIVITY_MASK s = false /\
    has DW_APB_I2C_IC_STATUS_RFNE_MASK s = negb (bool_decide (rx (bus w) = []));
  read_abort w : Z.land (ReadReg (GetI2CRegAddr id IC_TX_ABRT_SOURCE) w).1 IC_TX_ABRT_SOURCE_MASK = 0;
  read_keeps r w : r <> GetI2CRegAddr id IC_DATA_CMD -> bus (ReadReg r w).2 = bus w;
  read_pops x l w : rx (bus w) = x :: l -> is_u8 x ->
    (ReadReg (GetI2CRegAddr id IC_DATA_CMD) w).1 = x /\
    bus (ReadReg (GetI2CRegAddr id IC_DATA_CMD) w).2 = MkBus (target (bus w)) (dev (bus w)) (cur (bus w)) (pos (bus w)) l;
  read_now r w : now w <= now (ReadReg r w).2 <= now w + 1;
  uptime_now w : (k_uptime_get w).1 = now w /\ now w <= now (k_uptime_get w).2 <= now w + 1;
  uptime_bus w : bus (k_uptime_get w).2 = bus w;
  wait_bus n w : bus (Wait n w) = bus w
}.

Lemma reg_addr_ne id off off' : off <> off' -> GetI2CRegAddr id off <> GetI2CRegAddr id off'.
Proof. unfold GetI2CRegAddr. lia. Qed.

Section healthy.
Context {W : Type} (id : Z) `{I2cLaws W id}.
Variable timeout : option Z.
Variable fuel : nat.
Hypothesis Hid : 0 <= id <= 2.
Hypothesis Htimeout : match timeout with Some limit => 5 <= limit | None => True end.
Implicit Types w : W.

Lemma not_late ts w : ts <= now w <= ts + 4 -> exists w', timed_out timeout ts w = (false, w') /\ bus w' = bus w.
Proof.
  intros Hts. unfold timed_out. destruct timeout as [limit|]; [|by exists w].
  pose proof (uptime_now w) as [E _]. pose proof (uptime_bus w) as B. destruct (k_uptime_get w) as [n w']. cbn [fst snd] in *. subst n.
  exists w'. split; [|done]. f_equal. apply Z.ltb_ge. rewrite wrap_small by (unwrap; lia). lia.
Qed.

(** A wait whose condition already holds. *)
Lemma wait_status_ok over ts w :
  (forall w, let s := (ReadReg (GetI2CRegAddr id IC_STATUS) w).1 in over s = true) -> ts <= now w <= ts + 1 ->
  exists w', wait_status timeout (S fuel) over id ts w = Some w' /\ bus w' = bus w.
Proof.
  intros Hover Hts. cbn [wait_status].
  specialize (Hover w). pose proof (read_now (GetI2CRegAddr id IC_STATUS) w) as N.
  pose proof (read_keeps (GetI2CRegAddr id IC_STATUS) w (reg_addr_ne id IC_STATUS IC_DATA_CMD ltac:(done))) as B.
  destruct (ReadReg (GetI2CRegAddr id IC_STATUS) w) as [s w1]. cbn [fst snd] in *.
  destruct (not_late ts w1) as (w2 & -> & B2); [lia|]. rewrite Hover. exists w2. split; [done|congruence].
Qed.

Lemma after_uptime w : exists ts w1, k_uptime_get w = (ts, w1) /\ bus w1 = bus w /\ ts <= now w1 <= ts + 1.
Proof.
  pose proof (uptime_now w) as [E N]. pose proof (uptime_bus w) as B. destruct (k_uptime_get w) as [ts w1]. cbn [fst snd] in *. subst ts.
  by exists (now w), w1.
Qed.

Lemma WriteTxFifo_ok d w : exists w', WriteTxFifo timeout (S fuel) id d w = Some w' /\ bus w' = bus_cmd store d (bus w).
Proof.
  unfold WriteTxFifo, WaitTxFifoNotFull. destruct (after_uptime w) as (ts & w1 & -> & B1 & Hts).
  destruct (wait_status_ok (has DW_APB_I2C_IC_STATUS_TFNF_MASK) ts w1) as (w2 & -> & B2); [intros w'; by destruct (read_status w') as (_ & ? & _)|done|].
  cbn [mbind option_bind]. eexists. split; [reflexivity|]. rewrite write_data. congruence.
Qed.

Lemma CheckTxAbrt_ok w : exists w', CheckTxAbrt id w = (0, w') /\ bus w' = bus w /\ now w <= now w' <= now w + 1.
Proof.
  unfold CheckTxAbrt. pose proof (read_abort w) as A. pose proof (read_now (GetI2CRegAddr id IC_TX_ABRT_SOURCE) w) as N.
  pose proof (read_keeps (GetI2CRegAddr id IC_TX_ABRT_SOURCE) w (reg_addr_ne id IC_TX_ABRT_SOURCE IC_DATA_CMD ltac:(done))) as B.
  destruct (ReadReg (GetI2CRegAddr id IC_TX_ABRT_SOURCE) w) as [s w1]. cbn [fst snd] in *. rewrite A. by exists w1.
Qed.

Lemma wait_no_abort_ok over ts w :
  (forall w', bus w' = bus w -> over (ReadReg (GetI2CRegAddr id IC_STATUS) w').1 = true) -> ts <= now w <= ts + 1 ->
  exists w', wait_no_abort timeout (S fuel) over id ts w = Some (0, w') /\ bus w' = bus w.
Proof.
  intros Hover Hts. cbn [wait_no_abort]. destruct (CheckTxAbrt_ok w) as (w1 & -> & B1 & N1). cbn [Z.eqb negb].
  specialize (Hover w1 B1). pose proof (read_now (GetI2CRegAddr id IC_STATUS) w1) as N.
  pose proof (read_keeps (GetI2CRegAddr id IC_STATUS) w1 (reg_addr_ne id IC_STATUS IC_DATA_CMD ltac:(done))) as B.
  destruct (ReadReg (GetI2CRegAddr id IC_STATUS) w1) as [s w2]. cbn [fst snd] in *.
  destruct (not_late ts w2) as (w3 & -> & B3); [lia|]. rewrite Hover. exists w3. split; [done|congruence].
Qed.

Lemma WaitAllTxDone_ok w : exists w', WaitAllTxDone timeout (S fuel) id w = Some (0, w') /\ bus w' = bus w.
Proof.
  unfold WaitAllTxDone. destruct (after_uptime w) as (ts & w1 & -> & B1 & Hts).
  destruct (wait_no_abort_ok (fun s => negb (has DW_APB_I2C_IC_STATUS_MST_ACTIVITY_MASK s || negb (has DW_APB_I2C_IC_STATUS_TFE_MASK s))) ts w1)
    as (w2 & -> & B2); [|done|].
  - intros w' _. destruct (read_status w') as (-> & _ & -> & _). done.
  - exists w2. split; [done|congruence].
Qed.

Lemma I2CReadRxFifo_ok x l w :
  rx (bus w) = x :: l -> is_u8 x ->
  exists w', I2CReadRxFifo timeout (S fuel) id w = Some (0, x, w') /\
    bus w' = MkBus (target (bus w)) (dev (bus w)) (cur (bus w)) (pos (bus w)) l.
Proof.
  intros Hrx Hx. unfold I2CReadRxFifo. destruct (after_uptime w) as (ts & w1 & -> & B1 & Hts).
  destruct (wait_no_abort_ok (has DW_APB_I2C_IC_STATUS_RFNE_MASK) ts w1) as (w2 & -> & B2); [|done|].
  - intros w' B. destruct (read_status w') as (_ & _ & _ & ->). by rewrite B, B1, Hrx.
  - cbn [mbind option_bind Z.eqb negb]. destruct (read_pops x l w2) as [V B]; [by rewrite B2, B1|done|].
    destruct (ReadReg (GetI2CRegAddr id IC_DATA_CMD) w2) as [y w3]. cbn [fst snd] in *. subst y.
    exists w3. split; [by rewrite (wrap_small 8 x)|]. by rewrite B, B2, B1.
Qed.
End healthy.

(** *** Words of the FIFO *)

Lemma write_word_bits b stop : is_u8 b ->
  let d := Z.lor (Z.lor b IC_DATA_WRITE) (if stop : bool then IC_DATA_STOP else 0) in
  Z.testbit d 8 = false /\ Z.testbit d 9 = stop /\ Z.land d 255 = b.
Proof.
  intros Hb d. subst d. unfold IC_DATA_WRITE, IC_DATA_STOP. rewrite Z.lor_0_r.
  assert (Hhi : forall i, 8 <= i -> Z.testbit b i = false) by (intros; by apply (testbit_above b 8)).
  rewrite !Z.lor_spec, !Hhi by lia. split; [by destruct stop|]. split; [by destruct stop|].
  apply Z.bits_inj'. intros i Hi. change 255 with (Z.ones 8). rewrite Z.land_spec, Z.lor_spec, testbit_ones_in by lia.
  destruct (Z.ltb_spec i 8); [|by rewrite andb_false_r, Hhi by lia]. rewrite andb_true_r.
  destruct stop; [|by rewrite Z.bits_0, orb_false_r]. change 512 with (2 ^ 9). rewrite Z.pow2_bits_false by lia. by rewrite orb_false_r.
Qed.

(** A data byte, and the last one. *)
Lemma bus_cmd_write st b u : is_u8 b -> bus_cmd st (Z.lor (Z.lor b IC_DATA_WRITE) 0) u = MkBus (target u) (dev u) (cur u ++ [b]) (pos u) (rx u).
Proof. intros Hb. destruct (write_word_bits b false Hb) as (E1 & E2 & E3). unfold bus_cmd. by rewrite E1, E2, E3. Qed.

Lemma bus_cmd_last st b a d cmd l :
  is_u8 b -> bus_cmd st (Z.lor (Z.lor b IC_DATA_WRITE) IC_DATA_STOP) (MkBus a d (cmd :: l) 0 []) =
    idle a (dev_set a cmd (st a cmd (d a cmd) (l ++ [b])) d).
Proof.
  intros Hb. destruct (write_word_bits b true Hb) as (E1 & E2 & E3). unfold bus_cmd. rewrite E1, E2, E3.
  cbn [cur app target dev pos rx]. by destruct l.
Qed.

Section transactions.
Context {W : Type} (id : Z) `{I2cLaws W id}.
Variable timeout : option Z.
Variable fuel : nat.
Hypothesis Htimeout : match timeout with Some limit => 5 <= limit | None => True end.
Implicit Types w : W.

Abbreviation tx := (WriteTxFifo_ok id timeout fuel Htimeout).

Lemma write_bytes_ok l w :
  Forall is_u8 l -> exists w', write_bytes timeout (S fuel) id l false w = Some w' /\
    bus w' = MkBus (target (bus w)) (dev (bus w)) (cur (bus w) ++ l) (pos (bus w)) (rx (bus w)).
Proof.
  revert w. induction l as [|b l IH]; intros w HF; cbn [write_bytes].
  - exists w. split; [done|]. rewrite app_nil_r. by destruct (bus w).
  - apply Forall_cons in HF as [Hb HF]. destruct (tx (Z.lor (Z.lor b IC_DATA_WRITE) 0) w) as (w1 & E1 & B1). cbn [andb]. rewrite E1. cbn [mbind option_bind].
    destruct (IH w1 HF) as (w2 & -> & B2). exists w2. split; [done|]. rewrite B2, B1, bus_cmd_write by done.
    cbn [target dev cur pos rx]. by rewrite <- app_assoc.
Qed.

(** The payload of a write, with the stop: the device stores it. *)
Lemma write_payload_ok l w a d cmd pre :
  Forall is_u8 l -> l <> [] -> bus w = MkBus a d (cmd :: pre) 0 [] ->
  exists w', write_bytes timeout (S fuel) id l true w = Some w' /\
    bus w' = idle a (dev_set a cmd (store a cmd (d a cmd) (pre ++ l)) d).
Proof.
  revert w pre. induction l as [|b l IH]; intros w pre HF Hne Bw; [done|]. cbn [write_bytes andb].
  apply Forall_cons in HF as [Hb HF]. destruct (decide (l = [])) as [->|Hl].
  - rewrite bool_decide_eq_true_2 by done. destruct (tx (Z.lor (Z.lor b IC_DATA_WRITE) IC_DATA_STOP) w) as (w1 & -> & B1).
    cbn [mbind option_bind write_bytes]. exists w1. split; [done|]. by rewrite B1, Bw, bus_cmd_last.
  - rewrite bool_decide_eq_false_2 by done. destruct (tx (Z.lor (Z.lor b IC_DATA_WRITE) 0) w) as (w1 & -> & B1). cbn [mbind option_bind].
    destruct (IH w1 (pre ++ [b]) HF Hl) as (w2 & -> & B2); [by rewrite B1, Bw, bus_cmd_write|].
    exists w2. split; [done|]. by rewrite B2, <- app_assoc.
Qed.

(** Reading to the end of a register. *)
Lemma read_bytes_ok l w a d cmd pre :
  l <> [] -> Forall is_u8 l -> d a cmd = pre ++ l -> bus w = MkBus a d [cmd] (length pre) [] ->
  exists w', read_bytes timeout (S fuel) id (length l) w = Some (0, l, w') /\ bus w' = idle a d.
Proof.
  revert w pre. induction l as [|x l IH]; intros w pre Hne HF Hd Bw; [done|]. cbn [read_bytes length].
  apply Forall_cons in HF as [Hx HF].
  assert (Hnth : nth (length pre) (d a cmd) 255 = x) by (rewrite Hd; apply nth_middle).
  destruct l as [|y l].
  - cbn [length Nat.eqb]. destruct (tx (Z.lor IC_DATA_READ IC_DATA_STOP) w) as (w1 & -> & B1). cbn [mbind option_bind].
    rewrite Bw in B1. change (Z.lor IC_DATA_READ IC_DATA_STOP) with 768 in B1. cbn -[nth] in B1. rewrite Hnth in B1.
    destruct (I2CReadRxFifo_ok id timeout fuel Htimeout x [] w1) as (w2 & -> & B2); [by rewrite B1|done|].
    cbn [mbind option_bind Z.eqb negb read_bytes]. exists w2. split; [done|]. by rewrite B2, B1.
  - cbn [length Nat.eqb]. destruct (tx (Z.lor IC_DATA_READ 0) w) as (w1 & -> & B1). cbn [mbind option_bind].
    rewrite Bw in B1. change (Z.lor IC_DATA_READ 0) with 256 in B1. cbn -[nth] in B1. rewrite Hnth in B1.
    destruct (I2CReadRxFifo_ok id timeout fuel Htimeout x [] w1) as (w2 & -> & B2); [by rewrite B1|done|].
    cbn [mbind option_bind Z.eqb negb].
    destruct (IH w2 (pre ++ [x])) as (w3 & E & B3); [done|done|by rewrite Hd, <- app_assoc|rewrite B2, B1; cbn; by rewrite length_app, Nat.add_comm|].
    cbn [length] in E. rewrite E. cbn [mbind option_bind]. by exists w3.
Qed.

Lemma command_bytes cmd : is_u8 cmd -> take 1 (bytes_of_le 2 cmd) = [cmd].
Proof. intros. cbn. f_equal. unwrap. apply Z.mod_small. lia. Qed.

(** An SMBus read of a register, of the register's length. *)
Lemma I2CReadBytes_ok cmd a d w :
  is_u8 cmd -> d a cmd <> [] -> Forall is_u8 (d a cmd) -> bus w = idle a d ->
  exists w', I2CReadBytes timeout (S fuel) false id cmd 1 (length (d a cmd)) false w = Some (0, d a cmd, w') /\ bus w' = idle a d.
Proof.
  intros Hc Hne HF Bw. unfold I2CReadBytes, I2CTransaction. cbn [Nat.ltb Nat.leb]. rewrite command_bytes by done.
  destruct (length (d a cmd) =? 0)%nat eqn:El; [by apply Nat.eqb_eq, nil_length_inv in El|].
  destruct (write_bytes_ok [cmd] w) as (w1 & -> & B1); [by apply Forall_singleton|]. cbn [mbind option_bind].
  destruct (read_bytes_ok (d a cmd) w1 a d cmd []) as (w2 & -> & B2); [done|done|done|by rewrite B1, Bw|].
  cbn [mbind option_bind]. rewrite andb_false_r. by exists w2.
Qed.

(** An SMBus write to a register. *)
Lemma I2CWriteBytes_ok cmd l a d w :
  is_u8 cmd -> l <> [] -> Forall is_u8 l -> bus w = idle a d ->
  exists w', I2CWriteBytes timeout (S fuel) false id cmd 1 l w = Some (0, w') /\ bus w' = idle a (dev_set a cmd (store a cmd (d a cmd) l) d).
Proof.
  intros Hc Hne HF Bw. unfold I2CWriteBytes. cbn [Nat.ltb Nat.leb]. rewrite command_bytes by done.
  rewrite bool_decide_eq_false_2 by done.
  destruct (write_bytes_ok [cmd] w) as (w1 & -> & B1); [by apply Forall_singleton|]. cbn [mbind option_bind].
  destruct (write_payload_ok l w1 a d cmd []) as (w2 & -> & B2); [done|done|by rewrite B1, Bw|]. cbn [mbind option_bind orb].
  destruct (WaitAllTxDone_ok id timeout fuel Htimeout w2) as (w3 & -> & B3). exists w3. split; [done|]. by rewrite B3, B2.
Qed.
End transactions.

(** ** Read-modify-write-verify *)

Lemma merge_length old data mask : length data = length old -> length mask = length old -> length (merge old data mask) = length old.
Proof.
  revert data mask. induction old as [|o old IH]; intros [|d data] [|m mask] Hd Hm; try discriminate; [done|].
  cbn. f_equal. apply IH; cbn in *; lia.
Qed.

Lemma merge_byte_u8 o d m : is_u8 o -> is_u8 d -> is_u8 (merge_byte o d m).
Proof.
  intros Ho Hd. unfold merge_byte. assert (0 <= Z.lor (Z.land o (u8 (Z.lnot m))) (Z.land d m)).
  { apply Z.lor_nonneg. split; apply Z.land_nonneg; left; unwrap; lia. }
  split; [done|]. apply (bits_lt_pow2 _ 8); [done|lia|]. intros i Hi. destruct (Z.lt_ge_cases i 8); [done|].
  rewrite Z.lor_spec, !Z.land_spec, (testbit_above o 8), (testbit_above d 8) in Hi by (done || lia). done.
Qed.

Lemma merge_u8 old data mask : Forall is_u8 old -> Forall is_u8 data -> Forall is_u8 (merge old data mask).
Proof.
  intros Ho. revert data mask. induction Ho as [|o old Ho _ IH]; intros data mask Hd; [by apply Forall_nil|].
  destruct Hd as [|d data Hd HF]; [by apply Forall_nil|]. destruct mask; [by apply Forall_nil|]. apply Forall_cons. split; [by apply merge_byte_u8|by apply IH].
Qed.

(** What the merge writes passes the verification... *)
Lemma merge_verified old data mask : Forall is_u8 mask -> verified (merge old data mask) data mask = true.
Proof.
  intros Hm. revert old data. induction Hm as [|m mask Hm _ IH]; intros [|o old] [|d data]; try done.
  cbn [merge verified]. rewrite IH, andb_true_r. apply Z.eqb_eq. unfold merge_byte. apply Z.bits_inj'. intros i Hi.
  rewrite !Z.land_spec, Z.lor_spec, !Z.land_spec. unfold wrap. rewrite <- Z.land_ones, Z.land_spec, Z.lnot_spec by lia.
  destruct (Z.testbit m i); cbn; [|by rewrite !andb_false_r]. by rewrite !andb_false_r, !andb_true_r.
Qed.

(** ... and keeps every bit outside the mask. *)
Lemma merge_outside o d m i : is_u8 o -> 0 <= i -> Z.testbit m i = false -> Z.testbit (merge_byte o d m) i = Z.testbit o i.
Proof.
  intros Ho Hi Hm. unfold merge_byte. rewrite Z.lor_spec, !Z.land_spec, Hm, andb_false_r, orb_false_r.
  unfold wrap. rewrite <- Z.land_ones, Z.land_spec, Z.lnot_spec, Hm, testbit_ones_in by lia. cbn.
  destruct (Z.ltb_spec i 8); [by rewrite andb_true_r|]. rewrite (testbit_above o 8) by (done || lia). done.
Qed.

(** The registers after one entry has been applied once. *)
Definition rmw_dev (st : Z -> Z -> list Z -> list Z -> list Z) (a cmd : Z) (data mask : list Z) (d : Z -> Z -> list Z) : Z -> Z -> list Z :=
  dev_set a cmd (st a cmd (d a cmd) (merge (d a cmd) data mask)) d.

Lemma dev_set_same a c v d : dev_set a c v d a c = v.
Proof. unfold dev_set. by rewrite !Z.eqb_refl. Qed.

(** A register that can be read and written as bytes of a fixed number. *)
Definition reg_ok (d : Z -> Z -> list Z) (a cmd : Z) (n : nat) : Prop := length (d a cmd) = n /\ Forall is_u8 (d a cmd).

Section rmwv.
Context {W : Type} (id : Z) `{I2cLaws W id}.
Variable timeout : option Z.
Variable fuel : nat.
Hypothesis Htimeout : match timeout with Some limit => 5 <= limit | None => True end.
Implicit Types w : W.

(** Read-modify-write-verify on a healthy bus.  For a register of any device,
    [I2CRMWV] completes and the device is left with what it makes of the old
    bytes with the masked bits replaced by the data (the others as they were
    read); the result is 0 when the masked bits then read back as asked, and
    IC_VERIFY_FAIL otherwise; no other register of any device changes. *)
Lemma I2CRMWV_ok cmd data mask a d w :
  is_u8 cmd -> data <> [] -> Forall is_u8 data -> length mask = length data ->
  reg_ok d a cmd (length data) -> reg_ok (rmw_dev store a cmd data mask d) a cmd (length data) -> bus w = idle a d ->
  exists w', I2CRMWV timeout (S fuel) false id cmd 1 data mask (length data) w =
      Some (if verified (rmw_dev store a cmd data mask d a cmd) data mask then 0 else IC_VERIFY_FAIL, w') /\
    bus w' = idle a (rmw_dev store a cmd data mask d).
Proof.
  intros Hc Hne Hd Hm [Hl Hu] [Hl' Hu'] Bw. unfold I2CRMWV. rewrite Hm, Nat.ltb_irrefl. cbn [orb].
  assert (Hnz : forall l : list Z, length l = length data -> l <> []) by (intros l El ->; by destruct data).
  destruct (I2CReadBytes_ok id timeout fuel Htimeout cmd a d w) as (w1 & E1 & B1); [done|by apply Hnz|done|done|].
  rewrite Hl in E1. rewrite E1. cbn [mbind option_bind Z.eqb negb].
  assert (Hml : length (merge (d a cmd) data mask) = length data) by (rewrite merge_length by lia; done).
  destruct (I2CWriteBytes_ok id timeout fuel Htimeout cmd (merge (d a cmd) data mask) a d w1) as (w2 & -> & B2);
    [done|by apply Hnz|by apply merge_u8|done|].
  cbn [mbind option_bind Z.eqb negb]. fold (rmw_dev store a cmd data mask d) in B2.
  destruct (I2CReadBytes_ok id timeout fuel Htimeout cmd a (rmw_dev store a cmd data mask d) w2) as (w3 & E3 & B3); [done|by apply Hnz|done|done|].
  rewrite Hl' in E3. rewrite E3. cbn [mbind option_bind Z.eqb negb]. exists w3. done.
Qed.
End rmwv.

(** ** Initialisation and recovery leave the devices alone *)

Section setup.
Context {W : Type} (id : Z) `{I2cLaws W id}.
Variable timeout : option Z.
Variable fuel : nat.
Hypothesis Hid : 0 <= id <= 2.
Hypothesis Htimeout : match timeout with Some limit => 5 <= limit | None => True end.
Implicit Types w : W.

(** A register that is neither the FIFO nor the target address. *)
Definition plain (r : Z) : Prop := r <> GetI2CRegAddr id IC_DATA_CMD /\ r <> GetI2CRegAddr id IC_TAR.

Lemma plain_own off : off <> IC_DATA_CMD -> off <> IC_TAR -> plain (GetI2CRegAddr id off).
Proof. intros. split; unfold GetI2CRegAddr; lia. Qed.

Lemma plain_pads : plain (GetI2CPadCntlAddr id) /\ plain (GetI2CPadDataAddr id) /\ plain RESET_UNIT_I2C_CNTL_REG_ADDR.
Proof.
  assert (Hc : id = 0 \/ id = 1 \/ id = 2) by lia. unfold plain. destruct Hc as [-> | [-> | ->]]; vm_compute; repeat split; discriminate.
Qed.

Lemma bus_write r v w : plain r -> bus (WriteReg r v w) = bus w.
Proof. intros [H1 H2]. by apply write_other. Qed.

Ltac quiet := repeat first [rewrite wait_bus|rewrite bus_write by (apply plain_own; done)|rewrite bus_write by apply plain_pads].

Lemma toggle_bus n cntl w : bus (toggle_scl n id cntl w).2 = bus w.
Proof.
  revert cntl w. induction n as [|n IH]; intros cntl w; cbn [toggle_scl]; [done|]. rewrite IH. by quiet.
Qed.

Lemma I2CRecoverBus_bus w : bus (I2CRecoverBus id w) = bus w.
Proof.
  unfold I2CRecoverBus. pose proof (read_keeps RESET_UNIT_I2C_CNTL_REG_ADDR w (proj1 (proj2 (proj2 plain_pads)))) as B.
  destruct (ReadReg RESET_UNIT_I2C_CNTL_REG_ADDR w) as [v w1]. cbn [snd] in B.
  match goal with |- context [toggle_scl 32 id ?c ?x] => pose proof (toggle_bus 32 c x) as T; destruct (toggle_scl 32 id c x) as [c' w2] end.
  cbn [snd] in T. quiet. rewrite T. quiet. done.
Qed.

Lemma I2CInitGPIO_bus w : bus (I2CInitGPIO id w) = bus w.
Proof.
  unfold I2CInitGPIO. 
  match goal with |- context [ReadReg ?r ?x] => pose proof (read_keeps r x (proj1 (proj2 (proj2 plain_pads)))) as B; destruct (ReadReg r x) as [v w1] end.
  cbn [snd] in B. quiet. rewrite B. by quiet.
Qed.

(** Master mode: the next transactions go to [addr]. *)
Lemma I2CInit_ok addr speed w :
  0 <= addr < 1024 ->
  exists w', I2CInit timeout (S fuel) false I2CMst addr speed id w = Some w' /\
    bus w' = MkBus addr (dev (bus w)) (cur (bus w)) (pos (bus w)) (rx (bus w)).
Proof.
  intros Ha. unfold I2CInit, WaitTxFifoEmpty, WaitMasterIdle.
  destruct (after_uptime id w) as (ts & w1 & -> & B1 & Hts).
  destruct (wait_status_ok id timeout fuel Htimeout (has DW_APB_I2C_IC_STATUS_TFE_MASK) ts w1) as (w2 & -> & B2);
    [intros w'; by destruct (read_status w')|done|]. cbn [mbind option_bind].
  destruct (after_uptime id w2) as (ts' & w3 & -> & B3 & Hts').
  destruct (wait_status_ok id timeout fuel Htimeout (fun s => negb (has DW_APB_I2C_IC_STATUS_MST_ACTIVITY_MASK s)) ts' w3) as (w4 & -> & B4);
    [intros w'; destruct (read_status w') as (_ & _ & E & _); cbv zeta in *; by rewrite E|done|]. cbn [mbind option_bind].
  eexists. split; [reflexivity|].
  assert (Hm : Z.land addr DW_APB_I2C_IC_TAR_IC_TAR_MASK = addr).
  { change DW_APB_I2C_IC_TAR_IC_TAR_MASK with (Z.ones 10). rewrite Z.land_ones by lia. apply Z.mod_small. lia. }
  destruct speed; quiet; rewrite write_tar; quiet; rewrite I2CInitGPIO_bus, B4, B3, B2, B1; by rewrite Hm.
Qed.
End setup.

(** ** Every wait ends when the timeout is enabled *)

(** Time in nanoseconds: a register read takes some, but less than a second. *)
Class I2cTime (W : Type) `{I2cHw W} := {
  ns : W -> Z;
  ns_pos w : 0 <= ns w;
  read_ns r w : ns w < ns (ReadReg r w).2 <= ns w + 1000000000;
  uptime_ns w : (k_uptime_get w).1 = ns w / 1000000 /\ ns w <= ns (k_uptime_get w).2 <= ns w + 1000000000
}.

(** No more than one poll per nanosecond. *)
Definition wait_fuel (limit : Z) : Z := (limit + 2) * 1000000.

Section totality.
Context {W : Type} `{I2cTime W}.
Variable limit : Z.
Hypothesis Hlimit : 0 <= limit < 2 ^ 32.
Implicit Types w : W.

(** A check that is not yet late leaves time; the clock does not jump. *)
Lemma check_time ts w w0 :
  0 <= ts -> ts * 1000000 <= ns w0 <= (ts + limit + 5000) * 1000000 -> ns w0 < ns w <= ns w0 + 3000000000 ->
  exists late w', timed_out (Some limit) ts w = (late, w') /\ ns w <= ns w' <= ns w + 1000000000 /\
    (late = false -> ns w < (ts + limit + 1) * 1000000).
Proof.
  intros Hts Hw Hr. unfold timed_out. pose proof (uptime_ns w) as [V N]. destruct (k_uptime_get w) as [n w']. cbn [fst snd] in *. subst n.
  pose proof (Z.div_mod (ns w) 1000000). pose proof (Z.mod_pos_bound (ns w) 1000000).
  eexists _, w'. split; [reflexivity|]. split; [done|]. rewrite wrap_small by (unwrap; lia). intros Hl. apply Z.ltb_ge in Hl. lia.
Qed.

Lemma wait_status_total over id ts fuel w :
  0 <= ts -> ts * 1000000 <= ns w <= (ts + limit + 3000) * 1000000 ->
  Z.max 0 ((ts + limit + 1) * 1000000 - ns w) < Z.of_nat fuel -> exists w', wait_status (Some limit) fuel over id ts w = Some w'.
Proof.
  revert w. induction fuel as [|fuel IH]; intros w Hts Hw Hf; [lia|]. cbn [wait_status].
  pose proof (read_ns (GetI2CRegAddr id IC_STATUS) w) as N. destruct (ReadReg _ w) as [s w1]. cbn [snd] in N.
  destruct (check_time ts w1 w) as (late & w2 & -> & N2 & Hl); [done|lia|lia|]. destruct late; [by eexists|]. destruct (over s); [by eexists|].
  specialize (Hl eq_refl). apply IH; lia.
Qed.

Lemma CheckTxAbrt_time id w : exists e w', CheckTxAbrt id w = (e, w') /\ ns w < ns w' <= ns w + 2000000000.
Proof.
  unfold CheckTxAbrt. pose proof (read_ns (GetI2CRegAddr id IC_TX_ABRT_SOURCE) w) as N. destruct (ReadReg _ w) as [s w1]. cbn [snd] in N.
  destruct (negb _); [|eexists _, w1; split; [reflexivity|lia] ].
  pose proof (read_ns (GetI2CRegAddr id IC_CLR_TX_ABRT) w1) as N1. destruct (ReadReg (GetI2CRegAddr id IC_CLR_TX_ABRT) w1) as [s2 w2]. cbn [snd] in N1.
  eexists _, w2. split; [reflexivity|lia].
Qed.

Lemma wait_no_abort_total over id ts fuel w :
  0 <= ts -> ts * 1000000 <= ns w <= (ts + limit + 5000) * 1000000 ->
  Z.max 0 ((ts + limit + 1) * 1000000 - ns w) < Z.of_nat fuel -> exists r, wait_no_abort (Some limit) fuel over id ts w = Some r.
Proof.
  revert w. induction fuel as [|fuel IH]; intros w Hts Hw Hf; [lia|]. cbn [wait_no_abort].
  destruct (CheckTxAbrt_time id w) as (e & w1 & -> & N1). destruct (negb (e =? 0)); [by eexists|].
  pose proof (read_ns (GetI2CRegAddr id IC_STATUS) w1) as N. destruct (ReadReg _ w1) as [s w2]. cbn [snd] in N.
  destruct (check_time ts w2 w) as (late & w3 & -> & N3 & Hl); [done|lia|lia|]. destruct late; [by eexists|]. destruct (over s); [by eexists|].
  specialize (Hl eq_refl). apply IH; lia.
Qed.

Variable fuel : nat.
Hypothesis Hfuel : wait_fuel limit <= Z.of_nat fuel.

Lemma started w : exists ts w', k_uptime_get w = (ts, w') /\ 0 <= ts /\ ts * 1000000 <= ns w' <= (ts + limit + 3000) * 1000000 /\
  Z.max 0 ((ts + limit + 1) * 1000000 - ns w') < Z.of_nat fuel.
Proof.
  pose proof (uptime_ns w) as [V N]. pose proof (ns_pos w). destruct (k_uptime_get w) as [ts w']. cbn [fst snd] in *. subst ts. unfold wait_fuel in Hfuel.
  pose proof (Z.div_mod (ns w) 1000000). pose proof (Z.mod_pos_bound (ns w) 1000000). eexists _, w'. split; [reflexivity|]. lia.
Qed.

Lemma WriteTxFifo_total id d w : exists w', WriteTxFifo (Some limit) fuel id d w = Some w'.
Proof.
  unfold WriteTxFifo, WaitTxFifoNotFull. destruct (started w) as (ts & w1 & -> & H1 & H2 & H3).
  destruct (wait_status_total (has DW_APB_I2C_IC_STATUS_TFNF_MASK) id ts fuel w1 H1 H2 H3) as [w2 ->]. by eexists.
Qed.

Lemma WaitAllTxDone_total id w : exists r, WaitAllTxDone (Some limit) fuel id w = Some r.
Proof.
  unfold WaitAllTxDone. destruct (started w) as (ts & w1 & -> & H1 & H2 & H3). apply wait_no_abort_total; [done|lia|done].
Qed.

Lemma I2CReadRxFifo_total id w : exists r, I2CReadRxFifo (Some limit) fuel id w = Some r.
Proof.
  unfold I2CReadRxFifo. destruct (started w) as (ts & w1 & -> & H1 & H2 & H3).
  destruct (wait_no_abort_total (has DW_APB_I2C_IC_STATUS_RFNE_MASK) id ts fuel w1) as [[e w2] ->]; [done|lia|done|].
  cbn [mbind option_bind]. destruct (negb _); [by eexists|]. destruct (ReadReg _ w2). by eexists.
Qed.

Lemma write_bytes_total id l stop w : exists w', write_bytes (Some limit) fuel id l stop w = Some w'.
Proof.
  revert w. induction l as [|b l IH]; intros w; cbn [write_bytes]; [by eexists|].
  match goal with |- context [WriteTxFifo _ _ _ ?d w] => destruct (WriteTxFifo_total id d w) as [w1 ->] end. apply IH.
Qed.

Lemma read_bytes_total id n w : exists e l w', read_bytes (Some limit) fuel id n w = Some (e, l, w') /\ (length l <= n)%nat /\ (e = 0 -> length l = n).
Proof.
  revert w. induction n as [|n IH]; intros w; cbn [read_bytes]; [by exists 0, [], w|].
  match goal with |- context [WriteTxFifo _ _ _ ?d w] => destruct (WriteTxFifo_total id d w) as [w1 ->] end. cbn [mbind option_bind].
  destruct (I2CReadRxFifo_total id w1) as [[[e x] w2] ->]. cbn [mbind option_bind].
  destruct (Z.eqb_spec e 0) as [->|He]; cbn [negb]; [|exists e, [], w2; split; [done|]; split; [cbn; lia|done] ].
  destruct (IH w2) as (e' & l & w3 & -> & Hb & Hl). cbn [mbind option_bind]. eexists _, _, _. split; [reflexivity|]. split; [cbn; lia|]. intros E. cbn. by rewrite Hl.
Qed.

Lemma I2CTransaction_total a3 id out n w :
  exists e l w', I2CTransaction (Some limit) fuel a3 id out n w = Some (e, l, w') /\ (length l <= n)%nat /\ (e = 0 -> length l = n).
Proof.
  unfold I2CTransaction. destruct a3; [eexists _, _, _; split; [done|]; split; [cbn; lia|done] |].
  destruct (write_bytes_total id out (n =? 0)%nat w) as [w1 ->]. cbn [mbind option_bind]. destruct n as [|n]; cbn [Nat.eqb].
  - destruct (WaitAllTxDone_total id w1) as [[e w2] ->]. cbn [mbind option_bind]. eexists _, _, _. split; [done|]. by split.
  - apply read_bytes_total.
Qed.

Lemma I2CReadBytes_total a3 id cmd n w :
  exists e l w', I2CReadBytes (Some limit) fuel a3 id cmd 1 n false w = Some (e, l, w') /\ (e = 0 -> length l = n).
Proof.
  unfold I2CReadBytes. cbn [Nat.ltb Nat.leb].
  match goal with |- context [I2CTransaction ?t ?f ?a ?i ?o ?n w] => destruct (I2CTransaction_total a i o n w) as (e & l & w' & -> & _ & Hl) end.
  cbn [mbind option_bind]. rewrite andb_false_r. by eexists _, _, _.
Qed.

Lemma I2CInit_total a3 mode addr speed id w : exists w', I2CInit (Some limit) fuel a3 mode addr speed id w = Some w'.
Proof.
  unfold I2CInit, WaitTxFifoEmpty, WaitMasterIdle. destruct a3; [by eexists|].
  destruct (started w) as (ts & w1 & -> & H1 & H2 & H3).
  destruct (wait_status_total (has DW_APB_I2C_IC_STATUS_TFE_MASK) id ts fuel w1 H1 H2 H3) as [w2 ->]. cbn [mbind option_bind].
  destruct (started w2) as (ts' & w3 & -> & H1' & H2' & H3').
  destruct (wait_status_total (fun s => negb (has DW_APB_I2C_IC_STATUS_MST_ACTIVITY_MASK s)) id ts' fuel w3 H1' H2' H3') as [w4 ->]. by eexists.
Qed.

Lemma I2CWriteBytes_total a3 id cmd l w : exists r, I2CWriteBytes (Some limit) fuel a3 id cmd 1 l w = Some r.
Proof.
  unfold I2CWriteBytes. destruct a3; [by eexists|]. cbn [Nat.ltb Nat.leb].
  match goal with |- context [write_bytes ?t ?f ?i ?l ?s w] => destruct (write_bytes_total i l s w) as [w1 ->] end. cbn [mbind option_bind].
  destruct (write_bytes_total id l true w1) as [w2 ->]. cbn [mbind option_bind orb]. apply WaitAllTxDone_total.
Qed.

(** No bus can hang the firmware once the timeout is configured.  Whatever the
    controller and the devices answer -- stuck lines, aborts, FIFOs that never
    drain -- a read-modify-write-verify returns, provided only that register
    reads take time, and less than a second each. *)
Theorem I2CRMWV_returns a3 id cmd data mask w :
  length mask = length data ->
  exists rc w', I2CRMWV (Some limit) fuel a3 id cmd 1 data mask (length data) w = Some (rc, w').
Proof.
  intros Hm. unfold I2CRMWV. rewrite Hm, Nat.ltb_irrefl. cbn [orb].
  destruct (I2CReadBytes_total a3 id cmd (length data) w) as (e & l & w1 & -> & _). cbn [mbind option_bind].
  destruct (negb (e =? 0)); [by eexists _, _|].
  destruct (I2CWriteBytes_total a3 id cmd (merge l data mask) w1) as [[e2 w2] ->]. cbn [mbind option_bind].
  destruct (negb (e2 =? 0)); [by eexists _, _|].
  destruct (I2CReadBytes_total a3 id cmd (length data) w2) as (e3 & l3 & w3 & -> & _). cbn [mbind option_bind].
  destruct (negb (e3 =? 0)); by eexists _, _.
Qed.

(** A host may send any I2C message.  Whatever its fields and whatever the bus
    does, the handler returns; an unknown controller and lengths beyond the two
    buffers are refused before the hardware is touched; otherwise no more bytes
    than asked for, and never more than the 28 that follow the response's first
    word, are written to it, and exactly that many when the code is 0. *)
Theorem i2c_message_handler_bounded a3 i2c_mst_id addr num_write_bytes num_read_bytes write_data w :
  is_u8 num_write_bytes -> is_u8 num_read_bytes -> length write_data = 24%nat ->
  exists rc l w', i2c_message_handler (Some limit) fuel a3 i2c_mst_id addr num_write_bytes num_read_bytes write_data w = Some (rc, l, w') /\
    (rc = 0 \/ rc = 1) /\ len l <= num_read_bytes /\ len l <= 28 /\ (rc = 0 -> len l = num_read_bytes) /\
    (~ (0 <= i2c_mst_id <= 2) \/ 24 < num_write_bytes \/ 28 < num_read_bytes -> rc = 1 /\ l = [] /\ w' = w).
Proof.
  intros Hw Hr Hl. unfold i2c_message_handler.
  assert (Hid : IsValidI2CMasterId i2c_mst_id = bool_decide (0 <= i2c_mst_id <= 2)).
  { unfold IsValidI2CMasterId, GetI2CBaseAddress.
    destruct (Z.eqb_spec i2c_mst_id 0) as [->|]; [done|]. destruct (Z.eqb_spec i2c_mst_id 1) as [->|]; [done|].
    destruct (Z.eqb_spec i2c_mst_id 2) as [->|]; [done|]. symmetry. apply bool_decide_eq_false_2. lia. }
  rewrite Hid. destruct (decide (0 <= i2c_mst_id <= 2)) as [Hv|Hv].
  2: { rewrite bool_decide_eq_false_2 by done. cbn [negb]. eexists _, _, _. split; [done|]. cbn. unwrap. split_and!; [by right|lia|lia|done|done]. }
  rewrite bool_decide_eq_true_2 by done. cbn [negb]. change (8 * 4 - 1 * 4) with 28.
  destruct (Z.ltb_spec 24 num_write_bytes); cbn [orb].
  1: { eexists _, _, _. split; [done|]. cbn. unwrap. split_and!; [by right|lia|lia|done|done]. }
  destruct (Z.ltb_spec 28 num_read_bytes).
  1: { eexists _, _, _. split; [done|]. cbn. unwrap. split_and!; [by right|lia|lia|done|done]. }
  match goal with |- context [I2CInit ?t ?f ?a ?m ?ad ?s ?i w] => destruct (I2CInit_total a m ad s i w) as [w1 ->] end. cbn [mbind option_bind].
  match goal with |- context [I2CTransaction ?t ?f ?a ?i ?o ?n w1] => destruct (I2CTransaction_total a i o n w1) as (e & l & w' & -> & Hb & He) end.
  cbn [mbind option_bind]. eexists _, l, w'. split; [done|]. unwrap. destruct (Z.eqb_spec e 0) as [->|].
  - specialize (He eq_refl). split_and!; [by left|lia|lia|lia|lia].
  - split_and!; [by right|lia|lia|done|lia].
Qed.
End totality.

(** ** Hardware to run on *)

(** Controller 1 with a bus of devices; a register read takes 20ns. *)
Record sim := MkSim { sim_bus : i2c_bus; sim_regs : Z -> Z; sim_ns : N }.

Definition tick (w : sim) : sim := MkSim (sim_bus w) (sim_regs w) (sim_ns w + 20).
Definition with_bus (b : i2c_bus) (w : sim) : sim := MkSim b (sim_regs w) (sim_ns w).
Definition keep_new (a c : Z) (old new : list Z) : list Z := new.

Definition sim_read (r : Z) (w : sim) : Z * sim :=
  if r =? GetI2CRegAddr 1 IC_STATUS then (if bool_decide (rx (sim_bus w) = []) then 6 else 14, tick w)
  else if r =? GetI2CRegAddr 1 IC_TX_ABRT_SOURCE then (0, tick w)
  else if r =? GetI2CRegAddr 1 IC_DATA_CMD then
    let b := sim_bus w in
    match rx b with
    | x :: l => (x, tick (with_bus (MkBus (target b) (dev b) (cur b) (pos b) l) w))
    | [] => (0, tick w)
    end
  else (sim_regs w r, tick w).
Definition sim_write (r v : Z) (w : sim) : sim :=
  let b := sim_bus w in
  if r =? GetI2CRegAddr 1 IC_DATA_CMD then with_bus (bus_cmd keep_new v b) w
  else if r =? GetI2CRegAddr 1 IC_TAR then with_bus (MkBus v (dev b) (cur b) (pos b) (rx b)) w
  else MkSim b (fun r' => if r' =? r then v else sim_regs w r') (sim_ns w).

#[export] Instance sim_hw : I2cHw sim := {
  ReadReg := sim_read; WriteReg := sim_write; k_uptime_get w := (Z.of_N (sim_ns w) / 1000000, w);
  Wait n w := MkSim (sim_bus w) (sim_regs w) (sim_ns w + 20 * Z.to_N n)
}.

Lemma sim_read_ns r w : sim_ns (sim_read r w).2 = (sim_ns w + 20)%N.
Proof. unfold sim_read. repeat case_match; done. Qed.

Lemma sim_read_now r w : let now w := Z.of_N (sim_ns w) / 1000000 in now w <= now (sim_read r w).2 <= now w + 1.
Proof. cbv beta zeta. rewrite sim_read_ns, N2Z.inj_add. pose proof (N2Z.is_nonneg (sim_ns w)). Z.to_euclidean_division_equations. lia. Qed.

#[export] Program Instance sim_laws : I2cLaws sim 1 := {
  bus := sim_bus; store := keep_new; now w := Z.of_N (sim_ns w) / 1000000
}.
Next Obligation. done. Qed.
Next Obligation. done. Qed.
Next Obligation. intros r v w H1 H2. cbn. unfold sim_write. by rewrite (proj2 (Z.eqb_neq _ _) H1), (proj2 (Z.eqb_neq _ _) H2). Qed.
Next Obligation. intros w. unfold ReadReg. cbn [sim_hw]. unfold sim_read. rewrite Z.eqb_refl. by destruct (bool_decide _). Qed.
Next Obligation. done. Qed.
Next Obligation. intros r w Hr. cbn. unfold sim_read. rewrite (proj2 (Z.eqb_neq _ _) Hr). by repeat case_match. Qed.
Next Obligation. intros x l w Hrx _. cbn. unfold sim_read. cbn. by rewrite Hrx. Qed.
Next Obligation. intros r w. apply sim_read_now. Qed.
Next Obligation. intros w. cbn. lia. Qed.
Next Obligation. done. Qed.
Next Obligation. done. Qed.

#[export] Program Instance sim_time : I2cTime sim := { ns w := Z.of_N (sim_ns w) }.
Next Obligation. intros w. cbn. lia. Qed.
Next Obligation. intros r w. cbn. rewrite sim_read_ns. lia. Qed.
Next Obligation. intros w. cbn. lia. Qed.

(** A controller that says busy for ever. *)
Record dead := MkDead { dead_ns : N }.
#[export] Instance dead_hw : I2cHw dead := {
  ReadReg r w := (if r =? GetI2CRegAddr 1 IC_STATUS then DW_APB_I2C_IC_STATUS_MST_ACTIVITY_MASK else 0, MkDead (dead_ns w + 20));
  WriteReg r v w := w; k_uptime_get w := (Z.of_N (dead_ns w) / 1000000, w); Wait n w := w
}.
#[export] Program Instance dead_time : I2cTime dead := { ns w := Z.of_N (dead_ns w) }.
Next Obligation. intros w. cbn. lia. Qed.
Next Obligation. intros r w. cbn. lia. Qed.
Next Obligation. intros w. cbn. lia. Qed.

Lemma I2CRMWV_returns_witness :
  exists rc w', I2CRMWV (Some 500) (Z.to_nat (wait_fuel 500)) false 1 0x21 1 [1; 2] [255; 255] 2 (MkDead 0) = Some (rc, w').
Proof.
  apply (I2CRMWV_returns 500 ltac:(lia) (Z.to_nat (wait_fuel 500)) ltac:(rewrite Z2Nat.id by (unfold wait_fuel; lia); reflexivity)
    false 1 0x21 [1; 2] [255; 255] (MkDead 0) eq_refl).
Defined.

(** 28 bytes from a dead bus: the handler gives up. *)
Lemma i2c_message_handler_bounded_witness :
  exists rc l w', i2c_message_handler (Some 25) (Z.to_nat (wait_fuel 25)) false 1 0x64 1 28 (replicate 24 0) (MkDead 0) = Some (rc, l, w') /\ len l <= 28.
Proof.
  destruct (i2c_message_handler_bounded 25 ltac:(lia) (Z.to_nat (wait_fuel 25)) ltac:(rewrite Z2Nat.id by (unfold wait_fuel; lia); reflexivity)
    false 1 0x64 1 28 (replicate 24 0) (MkDead 0) ltac:(done) ltac:(done) eq_refl) as (rc & l & w' & E & _ & Hl & _).
  exists rc, l, w'. split; [exact E|exact Hl].
Defined.
