(* ===== verification/Avs.v ===== *)
(** * The AVS bus ([lib/tenstorrent/bh_arc/avs.c])

    The controller that sends voltage commands to the core regulator and reads
    back its acknowledgements.  It uses the register access of [I2c].  A wait
    for a FIFO has no timeout in the code: it is a loop with fuel, and [None]
    means that it did not end.  The frequency of the APB clock that [AVSInit]
    asks of the clock driver is an argument; the conversions to floating point
    of [AVSReadCurrent] and [AVSReadTemp] are left out, their results are the
    16-bit readings. *)

From S2P Require Import Prelude I2c.

Definition APB2AVSBUS_AVS_INTERRUPT_MASK_REG_ADDR : Z := 0x80100034.
Definition APB2AVSBUS_AVS_CFG_1_REG_ADDR : Z := 0x80100054.
Definition APB2AVSBUS_AVS_FIFOS_STATUS_REG_ADDR : Z := 0x80100028.
Definition APB2AVSBUS_AVS_CFG_0_REG_ADDR : Z := 0x80100050.
Definition APB2AVSBUS_AVS_READBACK_REG_ADDR : Z := 0x80100004.
Definition APB2AVSBUS_AVS_CMD_REG_ADDR : Z := 0x80100000.

Definition APB2AVSBUS_AVS_CMD_CMD_GRP_MASK : Z := 0x8000000.
Definition APB2AVSBUS_AVS_CMD_CMD_CODE_MASK : Z := 0x7800000.
Definition APB2AVSBUS_AVS_CMD_RAIL_SEL_MASK : Z := 0x780000.
Definition APB2AVSBUS_AVS_READBACK_CMD_DATA_MASK : Z := 0xFFFF00.
Definition APB2AVSBUS_AVS_FIFOS_STATUS_CMD_FIFO_VACANT_SLOTS_MASK : Z := 0xF00.
Definition APB2AVSBUS_AVS_FIFOS_STATUS_READBACK_FIFO_OCCUPIED_SLOTS_MASK : Z := 0xF0000.

Definition APB2AVSBUS_AVS_CMD_CMD_DATA_SHIFT : Z := 3.
Definition APB2AVSBUS_AVS_READBACK_CMD_DATA_SHIFT : Z := 8.
Definition APB2AVSBUS_AVS_CMD_RAIL_SEL_SHIFT : Z := 19.
Definition APB2AVSBUS_AVS_CMD_CMD_CODE_SHIFT : Z := 23.
Definition APB2AVSBUS_AVS_CMD_CMD_GRP_SHIFT : Z := 27.
Definition APB2AVSBUS_AVS_CMD_R_OR_W_SHIFT : Z := 28.
Definition APB2AVSBUS_AVS_READBACK_SLAVE_ACK_SHIFT : Z := 30.

Definition AVS_RD_CMD_DATA : Z := 0xffff.
Definition AVS_FORCE_RESET_DATA : Z := 0x0.
Definition AVS_RAIL_SEL_BROADCAST : Z := 0xf.
Definition AVS_ERR_RB_DATA : Z := 0xffff.
Definition AVSCLK_FREQ_MHZ : Z := 20.
Definition APB2AVSBUS_AVS_CFG_1_REG_DEFAULT : Z := 0x800A0000.
Definition AVS_VCORE_RAIL : Z := 0.
Definition AVS_VCOREM_RAIL : Z := 1.

(** Command code and command group. *)
Definition avs_cmd : Type := Z * Z.
Definition AVS_CMD_VOLTAGE : avs_cmd := (0x0, 0).
Definition AVS_CMD_VOUT_TRANS_RATE : avs_cmd := (0x1, 0).
Definition AVS_CMD_CURRENT_READ : avs_cmd := (0x2, 0).
Definition AVS_CMD_TEMP_READ : avs_cmd := (0x3, 0).
Definition AVS_CMD_FORCE_RESET : avs_cmd := (0x4, 0).
Definition AVS_CMD_POWER_MODE : avs_cmd := (0x5, 0).
Definition AVS_CMD_STATUS : avs_cmd := (0xe, 0).
Definition AVS_CMD_VERSION_READ : avs_cmd := (0xf, 0).
Definition AVS_CMD_SYS_INPUT_CURRENT_READ : avs_cmd := (0x0, 1).

Inductive AVSReadWriteType := AVSCommitWrite | AVSHoldWrite | AVSRead.
Definition rw_code (r_or_w : AVSReadWriteType) : Z :=
  match r_or_w with AVSCommitWrite => 0 | AVSHoldWrite => 1 | AVSRead => 3 end.

(** The statuses are the two acknowledge bits of a readback word. *)
Definition AVSOk : Z := 0.

(** [APB2AVSBUS_AVS_CFG_1_reg_t]. *)
Definition set_avs_clock_select (v r : Z) : Z := bits_set 0 2 v r.
Definition set_stop_avs_clock_on_idle (v r : Z) : Z := bits_set 8 1 v r.
Definition set_turn_off_all_premux_clocks (v r : Z) : Z := bits_set 10 1 v r.
Definition set_clk_divider_value (v r : Z) : Z := bits_set 16 8 v r.
Definition DIV_ROUND_UP (n d : Z) : Z := u32 (n + d - 1) / d.

(** The word [SendCmd] writes. *)
Definition avs_frame (cmd_data rail_sel : Z) (cmd : avs_cmd) (r_or_w : AVSReadWriteType) : Z :=
  let '(cmd_code, cmd_grp) := cmd in
  let cmd_data_pos := u32 (Z.shiftl cmd_data APB2AVSBUS_AVS_CMD_CMD_DATA_SHIFT) in
  let rail_sel_pos := Z.land (Z.shiftl rail_sel APB2AVSBUS_AVS_CMD_RAIL_SEL_SHIFT) APB2AVSBUS_AVS_CMD_RAIL_SEL_MASK in
  let cmd_code_pos := Z.land (Z.shiftl cmd_code APB2AVSBUS_AVS_CMD_CMD_CODE_SHIFT) APB2AVSBUS_AVS_CMD_CMD_CODE_MASK in
  let cmd_grp_pos := Z.land (Z.shiftl cmd_grp APB2AVSBUS_AVS_CMD_CMD_GRP_SHIFT) APB2AVSBUS_AVS_CMD_CMD_GRP_MASK in
  let r_or_w_pos := u32 (Z.shiftl (rw_code r_or_w) APB2AVSBUS_AVS_CMD_R_OR_W_SHIFT) in
  Z.lor (Z.lor (Z.lor (Z.lor cmd_data_pos rail_sel_pos) cmd_code_pos) cmd_grp_pos) r_or_w_pos.

Section avs.
Context {W : Type} `{I2cHw W}.
Implicit Types w : W.

(** The two waits: until a field of the FIFO status is not zero. *)
Fixpoint wait_fifo (fuel : nat) (mask : Z) w : option W :=
  match fuel with
  | O => None
  | S fuel =>
      let '(status, w) := ReadReg APB2AVSBUS_AVS_FIFOS_STATUS_REG_ADDR w in
      if Z.land status mask =? 0 then wait_fifo fuel mask w else Some w
  end.
Definition WaitCmdFifoNotFull (fuel : nat) w : option W :=
  wait_fifo fuel APB2AVSBUS_AVS_FIFOS_STATUS_CMD_FIFO_VACANT_SLOTS_MASK w.
Definition WaitRxFifoNotEmpty (fuel : nat) w : option W :=
  wait_fifo fuel APB2AVSBUS_AVS_FIFOS_STATUS_READBACK_FIFO_OCCUPIED_SLOTS_MASK w.

(** The loop of [ReadRxFifo]: the last readback word. *)
Fixpoint read_loop (fuel : nat) (max_retries num_tries : Z) w : option (Z * W) :=
  match fuel with
  | O => None
  | S fuel' =>
      w ← WaitRxFifoNotEmpty fuel w;
      let '(readback_data, w) := ReadReg APB2AVSBUS_AVS_READBACK_REG_ADDR w in
      let slave_ack := Z.shiftr readback_data APB2AVSBUS_AVS_READBACK_SLAVE_ACK_SHIFT in
      let num_tries := u8 (num_tries + 1) in
      if negb (slave_ack =? AVSOk) && (num_tries <=? max_retries) then read_loop fuel' max_retries num_tries w
      else Some (readback_data, w)
  end.

(** The status and the response. *)
Definition ReadRxFifo (fuel : nat) w : option (Z * Z * W) :=
  let '(cfg_0, w) := ReadReg APB2AVSBUS_AVS_CFG_0_REG_ADDR w in
  let max_retries := u8 cfg_0 in
  '(readback_data, w) ← read_loop fuel max_retries 0 w;
  let slave_ack := Z.shiftr readback_data APB2AVSBUS_AVS_READBACK_SLAVE_ACK_SHIFT in
  let response :=
    if negb (slave_ack =? AVSOk) then AVS_ERR_RB_DATA
    else Z.shiftr (Z.land readback_data APB2AVSBUS_AVS_READBACK_CMD_DATA_MASK) APB2AVSBUS_AVS_READBACK_CMD_DATA_SHIFT in
  Some (slave_ack, response, w).

Definition SendCmd (fuel : nat) (cmd_data rail_sel : Z) (cmd : avs_cmd) (r_or_w : AVSReadWriteType) w : option W :=
  w ← WaitCmdFifoNotFull fuel w;
  Some (WriteReg APB2AVSBUS_AVS_CMD_REG_ADDR (avs_frame cmd_data rail_sel cmd r_or_w) w).

Definition AVSInit (apb_clk_freq : Z) w : W :=
  let avs_cfg_1 := set_turn_off_all_premux_clocks 1 APB2AVSBUS_AVS_CFG_1_REG_DEFAULT in
  let w := WriteReg APB2AVSBUS_AVS_CFG_1_REG_ADDR avs_cfg_1 w in
  let avs_cfg_1 := set_clk_divider_value (DIV_ROUND_UP apb_clk_freq AVSCLK_FREQ_MHZ) avs_cfg_1 in
  let avs_cfg_1 := set_avs_clock_select 1 avs_cfg_1 in
  let w := WriteReg APB2AVSBUS_AVS_CFG_1_REG_ADDR avs_cfg_1 w in
  let avs_cfg_1 := set_turn_off_all_premux_clocks 0 avs_cfg_1 in
  let w := WriteReg APB2AVSBUS_AVS_CFG_1_REG_ADDR avs_cfg_1 w in
  let avs_cfg_1 := set_stop_avs_clock_on_idle 1 avs_cfg_1 in
  let w := WriteReg APB2AVSBUS_AVS_CFG_1_REG_ADDR avs_cfg_1 w in
  let w := Wait WAIT_1US w in
  WriteReg APB2AVSBUS_AVS_INTERRUPT_MASK_REG_ADDR 0 w.

(** A command and its answer. *)
Definition avs_read (fuel : nat) (rail_sel : Z) (cmd : avs_cmd) w : option (Z * Z * W) :=
  w ← SendCmd fuel AVS_RD_CMD_DATA rail_sel cmd AVSRead w; ReadRxFifo fuel w.
Definition avs_write (fuel : nat) (cmd_data rail_sel : Z) (cmd : avs_cmd) w : option (Z * W) :=
  w ← SendCmd fuel cmd_data rail_sel cmd AVSCommitWrite w;
  '(status, _, w) ← ReadRxFifo fuel w; Some (status, w).

Definition AVSReadVoltage fuel (rail_sel : Z) w : option (Z * Z * W) := avs_read fuel rail_sel AVS_CMD_VOLTAGE w.
Definition AVSWriteVoltage fuel (voltage_in_mV rail_sel : Z) w : option (Z * W) :=
  '(status, w) ← avs_write fuel (u16 voltage_in_mV) rail_sel AVS_CMD_VOLTAGE w;
  Some (status, Wait (150 * WAIT_1US) w).
(** The status, the rise rate and the fall rate. *)
Definition AVSReadVoutTransRate fuel (rail_sel : Z) w : option (Z * Z * Z * W) :=
  '(status, trans_rate, w) ← avs_read fuel rail_sel AVS_CMD_VOUT_TRANS_RATE w;
  Some (status, u8 (Z.shiftr trans_rate 8), Z.land trans_rate 0xff, w).
Definition AVSWriteVoutTransRate fuel (rise_rate fall_rate rail_sel : Z) w : option (Z * W) :=
  let trans_rate := u16 (Z.lor (Z.shiftl rise_rate 8) fall_rate) in
  avs_write fuel trans_rate rail_sel AVS_CMD_VOUT_TRANS_RATE w.
Definition AVSReadCurrent fuel (rail_sel : Z) w : option (Z * Z * W) := avs_read fuel rail_sel AVS_CMD_CURRENT_READ w.
Definition AVSReadTemp fuel (rail_sel : Z) w : option (Z * Z * W) := avs_read fuel rail_sel AVS_CMD_TEMP_READ w.
Definition AVSForceVoltageReset fuel (rail_sel : Z) w : option (Z * W) := avs_write fuel AVS_FORCE_RESET_DATA rail_sel AVS_CMD_FORCE_RESET w.
Definition AVSReadPowerMode fuel (rail_sel : Z) w : option (Z * Z * W) := avs_read fuel rail_sel AVS_CMD_POWER_MODE w.
Definition AVSWritePowerMode fuel (power_mode rail_sel : Z) w : option (Z * W) := avs_write fuel (u16 power_mode) rail_sel AVS_CMD_POWER_MODE w.
Definition AVSReadStatus fuel (rail_sel : Z) w : option (Z * Z * W) := avs_read fuel rail_sel AVS_CMD_STATUS w.
Definition AVSWriteStatus fuel (status rail_sel : Z) w : option (Z * W) := avs_write fuel status rail_sel AVS_CMD_STATUS w.
Definition AVSReadVersion fuel w : option (Z * Z * W) := avs_read fuel AVS_RAIL_SEL_BROADCAST AVS_CMD_VERSION_READ w.
Definition AVSReadSystemInputCurrent fuel w : option (Z * Z * W) := avs_read fuel 0x0 AVS_CMD_SYS_INPUT_CURRENT_READ w.
End avs.

(** ** The frame *)

(** A field that the code masks before it is placed. *)
Lemma placed_field x len s : 0 <= len -> 0 <= s -> Z.land (Z.shiftl x s) (Z.shiftl (Z.ones len) s) = Z.shiftl (x mod 2 ^ len) s.
Proof. intros. by rewrite <- Z.shiftl_land, Z.land_ones by lia. Qed.

Lemma frame_fields cmd_data rail_sel cmd_code cmd_grp r_or_w : is_u16 cmd_data ->
  avs_frame cmd_data rail_sel (cmd_code, cmd_grp) r_or_w =
    Z.lor (Z.lor (Z.lor (Z.lor (Z.shiftl cmd_data 3) (Z.shiftl (rail_sel mod 2 ^ 4) 19)) (Z.shiftl (cmd_code mod 2 ^ 4) 23))
      (Z.shiftl (cmd_grp mod 2 ^ 1) 27)) (Z.shiftl (rw_code r_or_w) 28).
Proof.
  intros Hd. unfold avs_frame.
  change APB2AVSBUS_AVS_CMD_RAIL_SEL_MASK with (Z.shiftl (Z.ones 4) 19). change APB2AVSBUS_AVS_CMD_CMD_CODE_MASK with (Z.shiftl (Z.ones 4) 23).
  change APB2AVSBUS_AVS_CMD_CMD_GRP_MASK with (Z.shiftl (Z.ones 1) 27). rewrite !placed_field by lia.
  rewrite (wrap_small 32 (Z.shiftl cmd_data _)), (wrap_small 32 (Z.shiftl (rw_code _) _)); [done|by destruct r_or_w|].
  rewrite Z.shiftl_mul_pow2 by done. unfold APB2AVSBUS_AVS_CMD_CMD_DATA_SHIFT. unwrap. lia.
Qed.

(** What a slave reads back from a frame. *)
Record avs_fields := MkFields { f_data : Z; f_rail : Z; f_code : Z; f_grp : Z; f_rw : Z }.
Definition avs_decode (d : Z) : avs_fields := MkFields (bits_get 3 16 d) (bits_get 19 4 d) (bits_get 23 4 d) (bits_get 27 1 d) (bits_get 28 2 d).

Lemma avs_decode_frame cmd_data rail_sel cmd_code cmd_grp r_or_w : is_u16 cmd_data ->
  avs_decode (avs_frame cmd_data rail_sel (cmd_code, cmd_grp) r_or_w) =
    MkFields cmd_data (rail_sel mod 16) (cmd_code mod 16) (cmd_grp mod 2) (rw_code r_or_w).
Proof.
  intros Hd. rewrite frame_fields by done.
  assert (H4 : forall x, in_width 4 (x mod 2 ^ 4)) by (intros x; apply Z.mod_pos_bound; lia).
  assert (H1 : forall x, in_width 1 (x mod 2 ^ 1)) by (intros x; apply Z.mod_pos_bound; lia).
  assert (H2 : in_width 2 (rw_code r_or_w)) by (by destruct r_or_w).
  unfold avs_decode. rewrite !bits_get_lor.
  f_equal; repeat (rewrite bits_get_shiftl_same by (done || lia || apply H4 || apply H1));
    repeat first [erewrite (bits_get_shiftl_other _ _ 3 16) by (done || lia) | erewrite (bits_get_shiftl_other _ _ 19 4) by (done || lia || apply H4)
      | erewrite (bits_get_shiftl_other _ _ 23 4) by (done || lia || apply H4) | erewrite (bits_get_shiftl_other _ _ 27 1) by (done || lia || apply H1)
      | erewrite (bits_get_shiftl_other _ _ 28 2) by (done || lia)]; by rewrite ?Z.lor_0_r, ?Z.lor_0_l.
Qed.

(** ** The specification: a slave that answers every command *)

Definition ack (readback_data : Z) : Z := Z.shiftr readback_data APB2AVSBUS_AVS_READBACK_SLAVE_ACK_SHIFT.
Definition response_of (readback_data : Z) : Z := if ack readback_data =? 0 then bits_get 8 16 readback_data else AVS_ERR_RB_DATA.

(** The answers up to the first good one, or the last retry: that answer and the rest. *)
Fixpoint settle (retries : nat) (l : list Z) : option (Z * list Z) :=
  match l with
  | [] => None
  | x :: l =>
      if ack x =? 0 then Some (x, l)
      else match retries with O => Some (x, l) | S retries => settle retries l end
  end.

(** [sent] is the log of commands, the latest first; [reply] what the slave will answer. *)
Class AvsLaws (W : Type) `{I2cHw W} := {
  readbacks : W -> list Z;
  sent : W -> list Z;
  reply : W -> Z -> list Z;
  max_retries : Z;
  avs_cmd_write d w : sent (WriteReg APB2AVSBUS_AVS_CMD_REG_ADDR d w) = d :: sent w /\
    readbacks (WriteReg APB2AVSBUS_AVS_CMD_REG_ADDR d w) = readbacks w ++ reply w d;
  avs_status w : let s := (ReadReg APB2AVSBUS_AVS_FIFOS_STATUS_REG_ADDR w).1 in
    Z.land s APB2AVSBUS_AVS_FIFOS_STATUS_CMD_FIFO_VACANT_SLOTS_MASK <> 0 /\
    (readbacks w <> [] -> Z.land s APB2AVSBUS_AVS_FIFOS_STATUS_READBACK_FIFO_OCCUPIED_SLOTS_MASK <> 0);
  avs_retries w : u8 (ReadReg APB2AVSBUS_AVS_CFG_0_REG_ADDR w).1 = max_retries;
  avs_read_keeps r w : r <> APB2AVSBUS_AVS_READBACK_REG_ADDR ->
    readbacks (ReadReg r w).2 = readbacks w /\ sent (ReadReg r w).2 = sent w /\ reply (ReadReg r w).2 = reply w;
  avs_pop x l w : readbacks w = x :: l ->
    (ReadReg APB2AVSBUS_AVS_READBACK_REG_ADDR w).1 = x /\ readbacks (ReadReg APB2AVSBUS_AVS_READBACK_REG_ADDR w).2 = l /\
    sent (ReadReg APB2AVSBUS_AVS_READBACK_REG_ADDR w).2 = sent w;
  avs_wait n w : readbacks (Wait n w) = readbacks w /\ sent (Wait n w) = sent w
}.

Section exchange.
Context {W : Type} `{AvsLaws W}.
Implicit Types w : W.
Hypothesis Hretries : 0 <= max_retries < 255.

Lemma read_loop_ok n l x rest w fuel :
  settle n l = Some (x, rest) -> readbacks w = l -> (n < fuel)%nat -> Z.of_nat n <= max_retries ->
  exists w', read_loop fuel max_retries (max_retries - Z.of_nat n) w = Some (x, w') /\ readbacks w' = rest /\ sent w' = sent w.
Proof.
  revert l w fuel. induction n as [|n IH]; intros [|y l] w [|fuel] Hs Hl Hf Hn; try done || lia; cbn [read_loop settle] in *.
  all: unfold WaitRxFifoNotEmpty; cbn [wait_fifo]; destruct (avs_status w) as [_ S]; specialize (S ltac:(by rewrite Hl)).
  all: destruct (avs_read_keeps APB2AVSBUS_AVS_FIFOS_STATUS_REG_ADDR w) as (R & T & _); [done|].
  all: destruct (ReadReg APB2AVSBUS_AVS_FIFOS_STATUS_REG_ADDR w) as [s w1]; cbn [fst snd] in *; rewrite (proj2 (Z.eqb_neq _ _) S); cbn [mbind option_bind].
  all: destruct (avs_pop y l w1) as (V & R2 & T2); [by rewrite R|].
  all: destruct (ReadReg APB2AVSBUS_AVS_READBACK_REG_ADDR w1) as [v w2]; cbn [fst snd] in *; subst v; fold (ack y) in *; unfold AVSOk in *.
  - replace (u8 _) with (max_retries + 1) by (rewrite wrap_small; [lia|unwrap; lia]). rewrite (proj2 (Z.leb_gt _ _)) by lia. rewrite andb_false_r.
    exists w2. assert (x = y /\ rest = l) as [-> ->] by (destruct (ack y =? 0); by simplify_eq). split; [done|]. by rewrite T2.
  - replace (u8 _) with (max_retries - Z.of_nat n) by (rewrite wrap_small; [lia|unwrap; lia]). rewrite (proj2 (Z.leb_le _ _)) by lia. rewrite andb_true_r.
    destruct (ack y =? 0); cbn [negb].
    + simplify_eq. exists w2. split; [done|]. by rewrite T2.
    + destruct (IH l w2 fuel) as (w3 & -> & R3 & T3); [done|done|lia|lia|]. exists w3. split; [done|]. split; [done|congruence].
Qed.

Lemma ReadRxFifo_ok x rest w fuel :
  settle (Z.to_nat max_retries) (readbacks w) = Some (x, rest) -> (Z.to_nat max_retries < fuel)%nat ->
  exists w', ReadRxFifo fuel w = Some (ack x, response_of x, w') /\ readbacks w' = rest /\ sent w' = sent w.
Proof.
  intros Hs Hf. unfold ReadRxFifo. pose proof (avs_retries w) as E. destruct (avs_read_keeps APB2AVSBUS_AVS_CFG_0_REG_ADDR w) as (R & T & _); [done|].
  destruct (ReadReg APB2AVSBUS_AVS_CFG_0_REG_ADDR w) as [c w1]. cbn [fst snd] in *. rewrite E, <- R in *.
  destruct (read_loop_ok (Z.to_nat max_retries) (readbacks w1) x rest w1 fuel) as (w2 & L & R2 & T2); [done|done|done|lia|].
  replace (max_retries - _) with 0 in L by lia. rewrite L. cbn [mbind option_bind]. fold (ack x). exists w2. split; [|by rewrite T2].
  do 3 f_equal. unfold response_of, AVSOk. destruct (ack x =? 0); [|done]. cbn [negb]. unfold bits_get.
  change APB2AVSBUS_AVS_READBACK_CMD_DATA_MASK with (Z.shiftl (Z.ones 16) 8). unfold APB2AVSBUS_AVS_READBACK_CMD_DATA_SHIFT.
  by rewrite Z.shiftr_land, Z.shiftr_shiftl_l, Z.sub_diag, Z.shiftl_0_r by lia.
Qed.

Lemma SendCmd_ok cmd_data rail_sel cmd r_or_w w fuel :
  readbacks w = [] -> (0 < fuel)%nat -> let d := avs_frame cmd_data rail_sel cmd r_or_w in
  exists w', SendCmd fuel cmd_data rail_sel cmd r_or_w w = Some w' /\ sent w' = d :: sent w /\ readbacks w' = reply w d.
Proof.
  intros Hr Hf d. destruct fuel as [|fuel]; [lia|]. unfold SendCmd, WaitCmdFifoNotFull. cbn [wait_fifo]. destruct (avs_status w) as [S _].
  destruct (avs_read_keeps APB2AVSBUS_AVS_FIFOS_STATUS_REG_ADDR w) as (R & T & P); [done|].
  destruct (ReadReg APB2AVSBUS_AVS_FIFOS_STATUS_REG_ADDR w) as [s w1]. cbn [fst snd] in *. rewrite (proj2 (Z.eqb_neq _ _) S). cbn [mbind option_bind].
  exists (WriteReg APB2AVSBUS_AVS_CMD_REG_ADDR d w1). split; [done|]. destruct (avs_cmd_write d w1) as [-> ->]. by rewrite T, R, P, Hr.
Qed.

(** A write: one frame on the bus, and the acknowledgement of the answer it settles on. *)
Lemma avs_write_ok cmd_data rail_sel cmd w fuel x rest :
  let d := avs_frame cmd_data rail_sel cmd AVSCommitWrite in
  readbacks w = [] -> settle (Z.to_nat max_retries) (reply w d) = Some (x, rest) -> (Z.to_nat max_retries < fuel)%nat ->
  exists w', avs_write fuel cmd_data rail_sel cmd w = Some (ack x, w') /\ sent w' = d :: sent w /\ readbacks w' = rest.
Proof.
  intros d Hr Hs Hf. unfold avs_write. destruct (SendCmd_ok cmd_data rail_sel cmd AVSCommitWrite w fuel Hr) as (w1 & -> & T & R); [lia|]. cbn [mbind option_bind].
  fold d in T, R. rewrite <- R in Hs. destruct (ReadRxFifo_ok x rest w1 fuel Hs Hf) as (w2 & -> & R2 & T2). cbn [mbind option_bind].
  exists w2. split; [done|]. by rewrite T2.
Qed.

Lemma avs_read_ok rail_sel cmd w fuel x rest :
  let d := avs_frame AVS_RD_CMD_DATA rail_sel cmd AVSRead in
  readbacks w = [] -> settle (Z.to_nat max_retries) (reply w d) = Some (x, rest) -> (Z.to_nat max_retries < fuel)%nat ->
  exists w', avs_read fuel rail_sel cmd w = Some (ack x, response_of x, w') /\ sent w' = d :: sent w /\ readbacks w' = rest.
Proof.
  intros d Hr Hs Hf. unfold avs_read. destruct (SendCmd_ok AVS_RD_CMD_DATA rail_sel cmd AVSRead w fuel Hr) as (w1 & -> & T & R); [lia|]. cbn [mbind option_bind].
  fold d in T, R. rewrite <- R in Hs. destruct (ReadRxFifo_ok x rest w1 fuel Hs Hf) as (w2 & -> & R2 & T2). exists w2. split; [done|]. by rewrite T2.
Qed.
End exchange.

(** What an AVS command does, whatever it is.  Exactly one frame goes to the
    bus; the slave that decodes it sees the data word, the rail, the command and
    the direction that were asked for; and the code then takes the slave's answers
    until the first good one or the last of its retries, returning that answer's
    acknowledgement and, for a good one, its 16 data bits (0xffff for a bad one).
    The 32-bit millivolts given to [AVSWriteVoltage] lose their upper half on the way. *)
Theorem avs_commands_ok {W : Type} `{AvsLaws W} rail_sel code grp cmd_data w fuel :
  0 <= max_retries < 255 -> 0 <= rail_sel < 16 -> 0 <= code < 16 -> 0 <= grp < 2 -> is_u16 cmd_data ->
  readbacks w = [] -> (Z.to_nat max_retries < fuel)%nat ->
  let wd := avs_frame cmd_data rail_sel (code, grp) AVSCommitWrite in
  let rd := avs_frame AVS_RD_CMD_DATA rail_sel (code, grp) AVSRead in
  avs_decode wd = MkFields cmd_data rail_sel code grp 0 /\ avs_decode rd = MkFields 0xffff rail_sel code grp 3 /\
  (forall x rest, settle (Z.to_nat max_retries) (reply w wd) = Some (x, rest) ->
    exists w', avs_write fuel cmd_data rail_sel (code, grp) w = Some (ack x, w') /\ sent w' = wd :: sent w /\ readbacks w' = rest) /\
  (forall x rest, settle (Z.to_nat max_retries) (reply w rd) = Some (x, rest) ->
    exists w', avs_read fuel rail_sel (code, grp) w = Some (ack x, response_of x, w') /\ sent w' = rd :: sent w /\ readbacks w' = rest) /\
  (forall mv, AVSWriteVoltage fuel mv rail_sel w = AVSWriteVoltage fuel (mv mod 65536) rail_sel w).
Proof.
  intros Hm Hr Hc Hg Hd Hw Hf wd rd. unfold wd, rd. rewrite !avs_decode_frame by (done || (unfold AVS_RD_CMD_DATA; unwrap; lia)).
  rewrite !Z.mod_small by lia. split_and!; [done|done| | |].
  - intros x rest Hs. by apply avs_write_ok.
  - intros x rest Hs. by apply avs_read_ok.
  - intros mv. unfold AVSWriteVoltage. by change (mv mod 65536) with (u16 mv); rewrite wrap_wrap.
Qed.

(** ** A slave that never acknowledges *)

Section never.
Context {W : Type} `{I2cHw W}.
Variable stuck : W -> Prop.
Hypothesis stuck_read : forall r w, stuck w -> stuck (ReadReg r w).2.
Hypothesis stuck_write : forall r v w, stuck w -> stuck (WriteReg r v w).
Hypothesis stuck_ack : forall w, stuck w -> ack (ReadReg APB2AVSBUS_AVS_READBACK_REG_ADDR w).1 <> AVSOk.

Lemma wait_fifo_stuck fuel mask w w' : stuck w -> wait_fifo fuel mask w = Some w' -> stuck w'.
Proof.
  revert w. induction fuel as [|fuel IH]; intros w Hw E; cbn [wait_fifo] in E; [done|].
  pose proof (stuck_read APB2AVSBUS_AVS_FIFOS_STATUS_REG_ADDR w Hw) as S. destruct (ReadReg _ w) as [s w1]. cbn [snd] in S.
  destruct (_ =? 0); [by apply (IH w1)|by simplify_eq].
Qed.

Lemma read_loop_255 fuel n w : stuck w -> read_loop fuel 255 n w = None.
Proof.
  revert n w. induction fuel as [|fuel IH]; intros n w Hw; [done|]. cbn [read_loop].
  destruct (WaitRxFifoNotEmpty (S fuel) w) as [w1|] eqn:E; [|done]. cbn [mbind option_bind]. apply wait_fifo_stuck in E; [|done].
  pose proof (stuck_read APB2AVSBUS_AVS_READBACK_REG_ADDR w1 E) as S. pose proof (stuck_ack w1 E) as A.
  destruct (ReadReg APB2AVSBUS_AVS_READBACK_REG_ADDR w1) as [v w2]. cbn [fst snd] in *. fold (ack v).
  rewrite (proj2 (Z.eqb_neq _ _) A). cbn [negb andb]. pose proof (u8_range (n + 1)). rewrite (proj2 (Z.leb_le _ _)) by (unwrap; lia). by apply IH.
Qed.

(** The retry counter of [ReadRxFifo] is 8 bits wide and is compared with an
    8-bit limit by [<=].  With the limit 255 in CFG_0 every count passes, and against a
    slave that keeps refusing no command ever returns. *)
Theorem avs_retry_limit_255 fuel cmd_data rail_sel cmd w :
  stuck w -> (forall w, stuck w -> u8 (ReadReg APB2AVSBUS_AVS_CFG_0_REG_ADDR w).1 = 255) ->
  avs_write fuel cmd_data rail_sel cmd w = None /\ avs_read fuel rail_sel cmd w = None.
Proof.
  intros Hw Hcfg.
  assert (Hrx : forall w, stuck w -> ReadRxFifo fuel w = None).
  { intros w1 H1. unfold ReadRxFifo. pose proof (stuck_read APB2AVSBUS_AVS_CFG_0_REG_ADDR w1 H1) as S. specialize (Hcfg w1 H1).
    destruct (ReadReg APB2AVSBUS_AVS_CFG_0_REG_ADDR w1) as [c w2]. cbn [fst snd] in *. by rewrite Hcfg, read_loop_255. }
  assert (Hcmd : forall x r w1, SendCmd fuel x rail_sel cmd r w = Some w1 -> stuck w1).
  { intros x r w1 E. unfold SendCmd in E. destruct (WaitCmdFifoNotFull fuel w) as [w2|] eqn:E2; [|done]. cbn [mbind option_bind] in E. simplify_eq.
    apply stuck_write. by apply wait_fifo_stuck in E2. }
  unfold avs_write, avs_read. split.
  - destruct (SendCmd fuel cmd_data rail_sel cmd AVSCommitWrite w) as [w1|] eqn:E; [|done]. cbn [mbind option_bind]. by rewrite Hrx by (by eapply Hcmd).
  - destruct (SendCmd fuel AVS_RD_CMD_DATA rail_sel cmd AVSRead w) as [w1|] eqn:E; [|done]. cbn [mbind option_bind]. by apply Hrx, (Hcmd _ _ _ E).
Qed.
End never.

(** ** Hardware to run on *)

(** A slave that refuses a command once and then accepts it with the data 0x1234;
    two retries. *)
Record avs_sim := MkAvs { sim_rx : list Z; sim_sent : list Z }.
#[export] Instance avs_sim_hw : I2cHw avs_sim := {
  ReadReg r w :=
    if r =? APB2AVSBUS_AVS_FIFOS_STATUS_REG_ADDR then (if bool_decide (sim_rx w = []) then 0xF00 else 0xF0F00, w)
    else if r =? APB2AVSBUS_AVS_CFG_0_REG_ADDR then (2, w)
    else if r =? APB2AVSBUS_AVS_READBACK_REG_ADDR then
      match sim_rx w with x :: l => (x, MkAvs l (sim_sent w)) | [] => (0, w) end
    else (0, w);
  WriteReg r v w := if r =? APB2AVSBUS_AVS_CMD_REG_ADDR then MkAvs (sim_rx w ++ [0x40000000; 0x123400]) (v :: sim_sent w) else w;
  k_uptime_get w := (0, w);
  Wait n w := w
}.
#[export] Program Instance avs_sim_laws : AvsLaws avs_sim :=
  {| readbacks := sim_rx; sent := sim_sent; reply w d := [0x40000000; 0x123400]; max_retries := 2 |}.
Next Obligation. done. Qed.
Next Obligation. intros w. unfold ReadReg. cbn [avs_sim_hw]. rewrite Z.eqb_refl. destruct (decide (sim_rx w = [])) as [E|E]; [rewrite bool_decide_eq_true_2 by done|rewrite bool_decide_eq_false_2 by done]; done. Qed.
Next Obligation. done. Qed.
Next Obligation. intros r w Hr. unfold ReadReg. cbn [avs_sim_hw]. rewrite (proj2 (Z.eqb_neq _ _) Hr). by repeat case_match. Qed.
Next Obligation. intros x l w E. cbn in *. by rewrite E. Qed.
Next Obligation. done. Qed.

Lemma avs_commands_ok_witness :
  avs_decode (avs_frame 850 0 AVS_CMD_VOLTAGE AVSCommitWrite) = MkFields 850 0 0 0 0 /\
  exists w', avs_write 3 850 0 AVS_CMD_VOLTAGE (MkAvs [] []) = Some (0, w').
Proof.
  destruct (avs_commands_ok 0 0 0 850 (MkAvs [] []) 3 ltac:(done) ltac:(done) ltac:(done) ltac:(done) ltac:(done) eq_refl ltac:(cbn; lia)) as (E & _ & Hw & _).
  split; [exact E|]. destruct (Hw 0x123400 [] ltac:(reflexivity)) as (w' & Hw' & _). exists w'. exact Hw'.
Defined.

(** A slave that refuses everything, and the limit 255. *)
Definition avs_refuses : I2cHw unit := {|
  ReadReg r w := (if r =? APB2AVSBUS_AVS_CFG_0_REG_ADDR then 0xff else 0xFFFFFFFF, w);
  WriteReg r v w := w; k_uptime_get w := (0, w); Wait n w := w |}.

Lemma avs_retry_limit_255_witness : avs_write (H := avs_refuses) 100 850 0 AVS_CMD_VOLTAGE tt = None.
Proof.
  refine (proj1 (avs_retry_limit_255 (H := avs_refuses) (fun _ => True) _ _ _ 100 850 0 AVS_CMD_VOLTAGE tt I _)); [done|done|done|done].
Defined.
