(* ===== verification/Regulator.v ===== *)
(** * The regulators ([lib/tenstorrent/bh_arc/regulator.c], [regulator_config.c])

    The settings of each board's regulators, their programming at boot, and the
    core voltage requests, which go over I2C or over AVS depending on who the
    core regulator has been told to listen to.  [rnd] rounds a float
    operation, as in [Aiclk]; [uninit] is what an uninitialised local variable
    holds before a read fills it. *)

From Stdlib Require Import QArith Qround.
From S2P Require Import Prelude Aiclk Throttler I2c Avs.
#[global] Open Scope Z_scope.

Definition SERDES_VDDL_ADDR : Z := 0x30.
Definition SERDES_VDD_ADDR : Z := 0x31.
Definition SERDES_VDDH_ADDR : Z := 0x32.
Definition GDDR_VDDR_ADDR : Z := 0x33.
Definition GDDRIO_WEST_ADDR : Z := 0x36.
Definition GDDRIO_EAST_ADDR : Z := 0x37.
Definition CB_GDDR_VDDR_WEST_ADDR : Z := 0x54.
Definition CB_GDDR_VDDR_EAST_ADDR : Z := 0x55.
Definition P0V8_VCORE_ADDR : Z := 0x64.
Definition P0V8_VCOREM_ADDR : Z := 0x65.

(** [enum VoltageCmdSource]. *)
Definition VoutCommand : Z := 0.
Definition AVSVoutCommand : Z := 3.

Definition PMBUS_MST_ID : Z := 1.
Definition VOUT_COMMAND : Z := 0x21.
Definition READ_VOUT : Z := 0x8B.
Definition READ_IOUT : Z := 0x8C.
Definition READ_POUT : Z := 0x96.
Definition OPERATION : Z := 0x1.
Definition PMBUS_CMD_BYTE_SIZE : nat := 1.
Definition READ_IOUT_DIRECT_MASK : Z := 0x3FFF.
Definition ENOTSUP : Z := 134.

Inductive PcbType := PcbTypeOrionSLT | PcbTypeP100 | PcbTypeP150 | PcbTypeP300 | PcbTypeUBB | PcbTypeUnknown.

(** ** The settings *)

Record regulator_data := REGULATOR_DATA { cmd : Z; data : list Z; mask : list Z }.
Record regulator_config := MkRegulator { address : Z; regulator_data_of : list regulator_data }.

Definition p1x0_vcore_b0_data : list Z := [0x00; 0x00; 0x00; 0x00; 0x00; 0x02; 0x00; 0x00; 0x11; 0x00; 0x00;
  0x00; 0x00; 0x41; 0x00; 0x00; 0x00; 0x00; 0x00; 0x00; 0x00; 0x00].
Definition p1x0_vcore_b0_mask : list Z := [0x00; 0x00; 0x00; 0x00; 0x00; 0x1f; 0x00; 0x00; 0x1f; 0x00; 0x00;
  0x00; 0x00; 0x7f; 0x00; 0x00; 0x00; 0x00; 0x00; 0x00; 0x00; 0x00].
Definition p1x0_vcore_cb_data : list Z := [0x00; 0x00; 0x00; 0x00; 0x00; 0x00].
Definition p1x0_vcore_cb_mask : list Z := [0x00; 0x07; 0x00; 0x00; 0x00; 0x00].
Definition p1x0_vcore_d3_data : list Z := [0x00].
Definition p1x0_vcore_d3_mask : list Z := [0x80].
Definition p1x0_vcore_ca_data : list Z := [0x00; 0x78; 0x00; 0x00; 0x00].
Definition p1x0_vcore_ca_mask : list Z := [0x00; 0xff; 0x00; 0x00; 0x00].
Definition p1x0_vcore_38_data : list Z := [0x08; 0x00].
Definition p1x0_vcore_38_mask : list Z := [0xff; 0x07].
Definition p1x0_vcore_39_data : list Z := [0x0c; 0x00].
Definition p1x0_vcore_39_mask : list Z := [0xff; 0x07].
Definition p1x0_vcore_e7_data : list Z := [0x01].
Definition p1x0_vcore_e7_mask : list Z := [0x07].
Definition p1x0_vcorem_b0_data : list Z := [0x00; 0x00; 0x2b; 0x00; 0x00; 0x07; 0x00; 0x00; 0x09; 0x00; 0x09;
  0x00; 0x00; 0x00; 0x00; 0x00].
Definition p1x0_vcorem_b0_mask : list Z := [0x00; 0x00; 0x3f; 0x00; 0x00; 0x1f; 0x00; 0x00; 0x1f; 0x00; 0x0f;
  0x00; 0x00; 0x00; 0x00; 0x00].
Definition p1x0_vcorem_38_data : list Z := [0x08; 0x00].
Definition p1x0_vcorem_38_mask : list Z := [0xff; 0x07].
Definition p1x0_vcorem_39_data : list Z := [0x0c; 0x00].
Definition p1x0_vcorem_39_mask : list Z := [0xff; 0x07].
Definition p1x0_vcorem_e7_data : list Z := [0x04].
Definition p1x0_vcorem_e7_mask : list Z := [0x07].
Definition p300_vcore_b0_data : list Z := [0x00; 0x00; 0x3c; 0x00; 0x00; 0x03; 0x00; 0x00; 0x11; 0x00; 0x00;
  0x00; 0x00; 0x00; 0x00; 0x00; 0x00; 0x00; 0x00; 0x00; 0x00; 0x00].
Definition p300_vcore_b0_mask : list Z := [0x00; 0x00; 0x3f; 0x00; 0x00; 0x1f; 0x00; 0x00; 0x1f; 0x00; 0x00;
  0x00; 0x00; 0x00; 0x00; 0x00; 0x00; 0x00; 0x00; 0x00; 0x00; 0x00].
Definition p300_vcore_cb_data : list Z := [0x00; 0x00; 0x00; 0x00; 0x00; 0x00].
Definition p300_vcore_cb_mask : list Z := [0x00; 0x07; 0x00; 0x00; 0x00; 0x00].
Definition p300_vcore_38_data : list Z := [0x02; 0x00].
Definition p300_vcore_38_mask : list Z := [0xff; 0x07].
Definition p300_vcore_39_data : list Z := [0x02; 0x00].
Definition p300_vcore_39_mask : list Z := [0xff; 0x07].
Definition p300_vcore_e7_data : list Z := [0x01].
Definition p300_vcore_e7_mask : list Z := [0x07].
Definition p300_vcorem_b0_data : list Z := [0x00; 0x00; 0x2b; 0x00; 0x00; 0x07; 0x00; 0x00; 0x09; 0x00; 0x09;
  0x00; 0x00; 0x00; 0x00; 0x00].
Definition p300_vcorem_b0_mask : list Z := [0x00; 0x00; 0x3f; 0x00; 0x00; 0x1f; 0x00; 0x00; 0x1f; 0x00; 0x0f;
  0x00; 0x00; 0x00; 0x00; 0x00].
Definition p300_vcorem_38_data : list Z := [0x08; 0x00].
Definition p300_vcorem_38_mask : list Z := [0xff; 0x07].
Definition p300_vcorem_39_data : list Z := [0x0c; 0x00].
Definition p300_vcorem_39_mask : list Z := [0xff; 0x07].
Definition p300_vcorem_e7_data : list Z := [0x04].
Definition p300_vcorem_e7_mask : list Z := [0x07].
Definition ubb_vcore_b0_data : list Z := [0x00; 0x00; 0x00; 0x00; 0x00; 0x02; 0x06; 0x00; 0x11; 0x00; 0x00;
  0x00; 0x00; 0x00; 0x00; 0x00; 0x00; 0x00; 0x00; 0x00; 0x00; 0x00].
Definition ubb_vcore_b0_mask : list Z := [0x00; 0x00; 0x00; 0x00; 0x00; 0x1f; 0x0f; 0x00; 0x1f; 0x00; 0x00;
  0x00; 0x00; 0x00; 0x00; 0x00; 0x00; 0x00; 0x00; 0x00; 0x00; 0x00].
Definition ubb_vcore_cb_data : list Z := [0x00; 0x00; 0x00; 0x00; 0x00; 0x00].
Definition ubb_vcore_cb_mask : list Z := [0x00; 0x07; 0x00; 0x00; 0x00; 0x00].
Definition ubb_vcore_d3_data : list Z := [0x00].
Definition ubb_vcore_d3_mask : list Z := [0x80].
Definition ubb_vcore_ca_data : list Z := [0x00; 0x78; 0x00; 0x00; 0x00].
Definition ubb_vcore_ca_mask : list Z := [0x00; 0xff; 0x00; 0x00; 0x00].
Definition ubb_vcore_38_data : list Z := [0x02; 0x00].
Definition ubb_vcore_38_mask : list Z := [0xff; 0x07].
Definition ubb_vcore_39_data : list Z := [0x02; 0x00].
Definition ubb_vcore_39_mask : list Z := [0xff; 0x07].
Definition ubb_vcore_e7_data : list Z := [0x01].
Definition ubb_vcore_e7_mask : list Z := [0x07].
Definition ubb_vcorem_b0_data : list Z := [0x00; 0x00; 0x2b; 0x00; 0x00; 0x07; 0x00; 0x00; 0x09; 0x00; 0x09;
  0x00; 0x00; 0x00; 0x00; 0x00].
Definition ubb_vcorem_b0_mask : list Z := [0x00; 0x00; 0x3f; 0x00; 0x00; 0x1f; 0x00; 0x00; 0x1f; 0x00; 0x0f;
  0x00; 0x00; 0x00; 0x00; 0x00].
Definition ubb_vcorem_e7_data : list Z := [0x04].
Definition ubb_vcorem_e7_mask : list Z := [0x07].
Definition ubb_gddrio_29_data : list Z := [0xbc; 0x01].
Definition ubb_gddrio_29_mask : list Z := [0xff; 0xff].
Definition ubb_gddrio_21_data : list Z := [0xa3; 0x02].
Definition ubb_gddrio_21_mask : list Z := [0xff; 0xff].
Definition serdes_vr_d2_data : list Z := [0x07].
Definition serdes_vr_d2_mask : list Z := [0xff].
Definition p1x0_vcore_data : list regulator_data := [REGULATOR_DATA 0xb0 p1x0_vcore_b0_data p1x0_vcore_b0_mask;
  REGULATOR_DATA 0xcb p1x0_vcore_cb_data p1x0_vcore_cb_mask;
  REGULATOR_DATA 0xd3 p1x0_vcore_d3_data p1x0_vcore_d3_mask;
  REGULATOR_DATA 0xca p1x0_vcore_ca_data p1x0_vcore_ca_mask;
  REGULATOR_DATA 0x38 p1x0_vcore_38_data p1x0_vcore_38_mask;
  REGULATOR_DATA 0x39 p1x0_vcore_39_data p1x0_vcore_39_mask;
  REGULATOR_DATA 0xe7 p1x0_vcore_e7_data p1x0_vcore_e7_mask].
Definition p1x0_vcorem_data : list regulator_data := [REGULATOR_DATA 0xb0 p1x0_vcorem_b0_data p1x0_vcorem_b0_mask;
  REGULATOR_DATA 0x38 p1x0_vcorem_38_data p1x0_vcorem_38_mask;
  REGULATOR_DATA 0x39 p1x0_vcorem_39_data p1x0_vcorem_39_mask;
  REGULATOR_DATA 0xe7 p1x0_vcorem_e7_data p1x0_vcorem_e7_mask].
Definition p300_vcore_data : list regulator_data := [REGULATOR_DATA 0xb0 p300_vcore_b0_data p300_vcore_b0_mask;
  REGULATOR_DATA 0xcb p300_vcore_cb_data p300_vcore_cb_mask;
  REGULATOR_DATA 0x38 p300_vcore_38_data p300_vcore_38_mask;
  REGULATOR_DATA 0x39 p300_vcore_39_data p300_vcore_39_mask;
  REGULATOR_DATA 0xe7 p300_vcore_e7_data p300_vcore_e7_mask].
Definition p300_vcorem_data : list regulator_data := [REGULATOR_DATA 0xb0 p300_vcorem_b0_data p300_vcorem_b0_mask;
  REGULATOR_DATA 0x38 p300_vcorem_38_data p300_vcorem_38_mask;
  REGULATOR_DATA 0x39 p300_vcorem_39_data p300_vcorem_39_mask;
  REGULATOR_DATA 0xe7 p300_vcorem_e7_data p300_vcorem_e7_mask].
Definition ubb_vcore_data : list regulator_data := [REGULATOR_DATA 0xb0 ubb_vcore_b0_data ubb_vcore_b0_mask;
  REGULATOR_DATA 0xcb ubb_vcore_cb_data ubb_vcore_cb_mask;
  REGULATOR_DATA 0xd3 ubb_vcore_d3_data ubb_vcore_d3_mask;
  REGULATOR_DATA 0xca ubb_vcore_ca_data ubb_vcore_ca_mask;
  REGULATOR_DATA 0x38 ubb_vcore_38_data ubb_vcore_38_mask;
  REGULATOR_DATA 0x39 ubb_vcore_39_data ubb_vcore_39_mask;
  REGULATOR_DATA 0xe7 ubb_vcore_e7_data ubb_vcore_e7_mask].
Definition ubb_vcorem_data : list regulator_data := [REGULATOR_DATA 0xb0 ubb_vcorem_b0_data ubb_vcorem_b0_mask;
  REGULATOR_DATA 0xe7 ubb_vcorem_e7_data ubb_vcorem_e7_mask].
Definition ubb_gddrio_data : list regulator_data := [REGULATOR_DATA 0x29 ubb_gddrio_29_data ubb_gddrio_29_mask;
  REGULATOR_DATA 0x21 ubb_gddrio_21_data ubb_gddrio_21_mask].
Definition serdes_vr_data : list regulator_data := [REGULATOR_DATA 0xd2 serdes_vr_d2_data serdes_vr_d2_mask].
Definition p150_config : list regulator_config := [MkRegulator P0V8_VCORE_ADDR p1x0_vcore_data;
  MkRegulator P0V8_VCOREM_ADDR p1x0_vcorem_data;
  MkRegulator SERDES_VDDL_ADDR serdes_vr_data;
  MkRegulator SERDES_VDD_ADDR serdes_vr_data;
  MkRegulator SERDES_VDDH_ADDR serdes_vr_data].
Definition p300_left_config : list regulator_config := [MkRegulator P0V8_VCORE_ADDR p300_vcore_data;
  MkRegulator P0V8_VCOREM_ADDR p300_vcorem_data;
  MkRegulator SERDES_VDDL_ADDR serdes_vr_data;
  MkRegulator SERDES_VDDH_ADDR serdes_vr_data].
Definition p300_right_config : list regulator_config := [MkRegulator P0V8_VCORE_ADDR p300_vcore_data;
  MkRegulator P0V8_VCOREM_ADDR p300_vcorem_data;
  MkRegulator SERDES_VDDL_ADDR serdes_vr_data;
  MkRegulator SERDES_VDD_ADDR serdes_vr_data;
  MkRegulator SERDES_VDDH_ADDR serdes_vr_data].
Definition ubb_config : list regulator_config := [MkRegulator P0V8_VCORE_ADDR ubb_vcore_data;
  MkRegulator P0V8_VCOREM_ADDR ubb_vcorem_data;
  MkRegulator GDDRIO_WEST_ADDR ubb_gddrio_data;
  MkRegulator GDDRIO_EAST_ADDR ubb_gddrio_data;
  MkRegulator SERDES_VDDL_ADDR serdes_vr_data;
  MkRegulator SERDES_VDD_ADDR serdes_vr_data;
  MkRegulator SERDES_VDDH_ADDR serdes_vr_data].
Definition p150_regulators_config : list regulator_config := p150_config.
Definition p300_left_regulators_config : list regulator_config := p300_left_config.
Definition p300_right_regulators_config : list regulator_config := p300_right_config.
Definition ubb_regulators_config : list regulator_config := ubb_config.

(** ** Programming *)

(** [struct OperationBits]. *)
Definition set_transition_control (v b : Z) : Z := bits_set 1 1 v b.
Definition set_voltage_command_source (v b : Z) : Z := bits_set 4 2 v b.
Definition voltage_command_source (b : Z) : Z := bits_get 4 2 b.

Section regulator.
Context {W : Type} `{I2cHw W}.
Variable timeout : option Z.
Variable fuel : nat.
(** [asic_state == A3State]. *)
Variable a3 : bool.
Variable rnd : Q -> Q.
Variable uninit : list Z.
Implicit Types w : W.

Abbreviation I2CInit := (I2CInit timeout fuel a3).
Abbreviation I2CReadBytes := (I2CReadBytes timeout fuel a3).
Abbreviation I2CWriteBytes := (I2CWriteBytes timeout fuel a3).
Abbreviation I2CRMWV := (I2CRMWV timeout fuel a3).
Definition WaitUs (us : Z) w : W := Wait (us * WAIT_1US) w.

(** *** Readings *)

(** [n] bytes of a register into a variable that holds [init]; the error is not looked at. *)
Definition read_into (init : list Z) (slave_addr command : Z) w : option (list Z * W) :=
  w ← I2CInit I2CMst slave_addr I2CFastMode PMBUS_MST_ID w;
  '(_, buf, w) ← I2CReadBytes PMBUS_MST_ID command PMBUS_CMD_BYTE_SIZE (length init) false w;
  Some (buf ++ drop (length buf) init, w).
Definition read_word (init : list Z) (slave_addr command : Z) w : option (Z * W) :=
  '(buf, w) ← read_into init slave_addr command w; Some (le_of_bytes buf, w).

(** [ldexp] of the mantissa. *)
Definition ConvertLinear11ToFloat (value : Z) : Q :=
  let exponent := Z.land (Z.shiftr value 11) 0x1f in
  let mantissa := Z.land value 0x7ff in
  let exponent := if Z.shiftr exponent 4 =? 1 then exponent - 32 else exponent in
  rnd (inject_Z mantissa * Qpower 2 exponent)%Q.
Definition ConvertGddrIoCurrentToFloat (value : Z) : Q :=
  fmul rnd (of_u32 (Z.land value READ_IOUT_DIRECT_MASK)) (1 # 16)%Q.

Definition GetVcoreCurrent w : option (Q * W) :=
  '(iout, w) ← read_word uninit P0V8_VCORE_ADDR READ_IOUT w; Some (ConvertLinear11ToFloat iout, w).
Definition GetGddrWestIoCurrent w : option (Q * W) :=
  '(iout, w) ← read_word uninit GDDRIO_WEST_ADDR READ_IOUT w; Some (ConvertGddrIoCurrentToFloat iout, w).
Definition GetGddrEastIoCurrent w : option (Q * W) :=
  '(iout, w) ← read_word uninit GDDRIO_EAST_ADDR READ_IOUT w; Some (ConvertGddrIoCurrentToFloat iout, w).
Definition GDDR_IO_RAIL_VOLTAGE : Q := rnd (135 # 100)%Q.
Definition GetGddrWestIoPower w : option (Q * W) :=
  '(i, w) ← GetGddrWestIoCurrent w; Some (fmul rnd i GDDR_IO_RAIL_VOLTAGE, w).
Definition GetGddrEastIoPower w : option (Q * W) :=
  '(i, w) ← GetGddrEastIoCurrent w; Some (fmul rnd i GDDR_IO_RAIL_VOLTAGE, w).
Definition GetVcorePower w : option (Q * W) :=
  '(pout, w) ← read_word uninit P0V8_VCORE_ADDR READ_POUT w; Some (ConvertLinear11ToFloat pout, w).

(** *** Voltages *)

(** The word [vout_cmd] to VOUT_COMMAND; the error is not looked at. *)
Definition write_vout (slave_addr vout_cmd : Z) w : option W :=
  w ← I2CInit I2CMst slave_addr I2CFastMode PMBUS_MST_ID w;
  '(_, w) ← I2CWriteBytes PMBUS_MST_ID VOUT_COMMAND PMBUS_CMD_BYTE_SIZE (bytes_of_le 2 vout_cmd) w;
  Some (WaitUs 250 w).

(** A float converted to [uint16_t]; undefined when it does not fit. *)
Definition to_u16 (q : Q) : option Z := if (0 <=? Qfloor q) && (Qfloor q <? 65536) then Some (Qfloor q) else None.

(** [1 + rfb1 / rfb2]; the resistors are float literals. *)
Definition feedback (rfb1 rfb2 : Q) : Q := fadd rnd 1 (fdiv rnd (rnd rfb1) (rnd rfb2)).
Definition set_max20730 (slave_addr voltage_in_mv : Z) (rfb1 rfb2 : Q) w : option W :=
  let vref := fdiv rnd (of_u32 voltage_in_mv) (feedback rfb1 rfb2) in
  vout_cmd ← to_u16 (fmul rnd (fmul rnd vref 512) (rnd (1 # 1000)));
  write_vout slave_addr vout_cmd w.
Definition set_mpm3695 (slave_addr voltage_in_mv : Z) (rfb1 rfb2 : Q) w : option W :=
  vout_cmd ← to_u16 (fdiv rnd (fdiv rnd (fmul rnd (of_u32 voltage_in_mv) (1 # 2)) (rnd (335 # 1000))) (feedback rfb1 rfb2));
  write_vout slave_addr vout_cmd w.
Definition set_gddr_vddr (board_type : PcbType) (voltage_in_mv : Z) w : option W :=
  match board_type with
  | PcbTypeOrionSLT =>
      w ← set_max20730 CB_GDDR_VDDR_WEST_ADDR voltage_in_mv (137 # 100) (432 # 100) w;
      set_max20730 CB_GDDR_VDDR_EAST_ADDR voltage_in_mv (137 # 100) (432 # 100) w
  | _ => set_mpm3695 GDDR_VDDR_ADDR voltage_in_mv (422 # 1000) 1 w
  end.

Definition i2c_set_max20816 (slave_addr voltage_in_mv : Z) w : option W := write_vout slave_addr (u16 (2 * voltage_in_mv)) w.
(** In half millivolts times two: the callers convert the float back to an integer. *)
Definition i2c_get_max20816 (slave_addr : Z) w : option (Q * W) :=
  '(vout_cmd, w) ← read_word [0; 0] slave_addr READ_VOUT w;
  Some (fmul rnd (of_u32 vout_cmd) (1 # 2)%Q, w).

(** [vout_cmd_source] is the driver's record of the regulator's source. *)
Definition set_vcore (vout_cmd_source voltage_in_mv : Z) w : option W :=
  if vout_cmd_source =? AVSVoutCommand then '(_, w) ← AVSWriteVoltage fuel voltage_in_mv AVS_VCORE_RAIL w; Some w
  else i2c_set_max20816 P0V8_VCORE_ADDR voltage_in_mv w.
Definition get_vcore w : option (Z * W) := '(v, w) ← i2c_get_max20816 P0V8_VCORE_ADDR w; Some (to_u32 v, w).
Definition set_vcorem (voltage_in_mv : Z) w : option W := i2c_set_max20816 P0V8_VCOREM_ADDR voltage_in_mv w.
Definition get_vcorem w : option (Z * W) := '(v, w) ← i2c_get_max20816 P0V8_VCOREM_ADDR w; Some (to_u32 v, w).

(** The new record of the source; [operation] is not initialised. *)
Definition SwitchVoutControl (source : Z) w : option (Z * W) :=
  '(buf, w) ← read_into (take 1 uninit) P0V8_VCORE_ADDR OPERATION w;
  operation ← aget buf 0;
  let operation := set_transition_control 1 operation in
  let operation := set_voltage_command_source source operation in
  '(_, w) ← I2CWriteBytes PMBUS_MST_ID OPERATION PMBUS_CMD_BYTE_SIZE [operation] w;
  Some (u8 source, WaitUs 100 w).

(** *** Initialisation *)

(** One setting, with its retry: the error that remains. *)
Definition apply_setting (d : regulator_data) w : option (Z * W) :=
  let rmw w := I2CRMWV PMBUS_MST_ID (cmd d) PMBUS_CMD_BYTE_SIZE (data d) (mask d) (length (data d)) w in
  '(i2c_error, w) ← rmw w;
  if negb (i2c_error =? 0) then rmw (I2CRecoverBus PMBUS_MST_ID w) else Some (0, w).
Fixpoint apply_settings (l : list regulator_data) (aggregate_i2c_errors : Z) w : option (Z * W) :=
  match l with
  | [] => Some (aggregate_i2c_errors, w)
  | d :: l => '(i2c_error, w) ← apply_setting d w; apply_settings l (Z.lor aggregate_i2c_errors i2c_error) w
  end.
Fixpoint apply_regulators (l : list regulator_config) (aggregate_i2c_errors : Z) w : option (Z * W) :=
  match l with
  | [] => Some (aggregate_i2c_errors, w)
  | r :: l =>
      w ← I2CInit I2CMst (address r) I2CFastMode PMBUS_MST_ID w;
      '(aggregate_i2c_errors, w) ← apply_settings (regulator_data_of r) aggregate_i2c_errors w;
      apply_regulators l aggregate_i2c_errors w
  end.

(** The settings of a board: [None] if it is not supported. *)
Definition regulators_config (board_type : PcbType) (p300_left : bool) : option (list regulator_config) :=
  match board_type with
  | PcbTypeP150 => Some p150_regulators_config
  | PcbTypeP300 => Some (if p300_left then p300_left_regulators_config else p300_right_regulators_config)
  | PcbTypeUBB => Some ubb_regulators_config
  | PcbTypeOrionSLT => Some []
  | PcbTypeP100 | PcbTypeUnknown => None
  end.
Definition RegulatorInit (board_type : PcbType) (p300_left : bool) w : option (Z * W) :=
  match regulators_config board_type p300_left with
  | None => Some (u32 (- ENOTSUP), w)
  | Some l => apply_regulators l 0 w
  end.

(** *** Messages *)

Definition set_voltage_handler (vout_cmd_source slave_addr voltage_in_mv : Z) w : option (Z * W) :=
  if slave_addr =? P0V8_VCORE_ADDR then w ← set_vcore vout_cmd_source voltage_in_mv w; Some (0, w)
  else if slave_addr =? P0V8_VCOREM_ADDR then w ← set_vcorem voltage_in_mv w; Some (0, w)
  else Some (1, w).
(** The status and [response->data[1]], when it is set. *)
Definition get_voltage_handler (slave_addr : Z) w : option (Z * option Z * W) :=
  if slave_addr =? P0V8_VCORE_ADDR then '(v, w) ← get_vcore w; Some (0, Some v, w)
  else if slave_addr =? P0V8_VCOREM_ADDR then '(v, w) ← get_vcorem w; Some (0, Some v, w)
  else Some (1, None, w).
Definition switch_vout_control_handler (source : Z) w : option (Z * Z * W) :=
  '(vout_cmd_source, w) ← SwitchVoutControl source w; Some (0, vout_cmd_source, w).
(** [avs_init]: the interface, then the core regulator listens to it; [recovery]
    is TT_SMC_RECOVERY, [apb_clk_freq] the rate the clock driver reports. *)
Definition avs_init (recovery : bool) (apb_clk_freq vout_cmd_source : Z) w : option (Z * W) :=
  if recovery then Some (vout_cmd_source, w) else SwitchVoutControl AVSVoutCommand (AVSInit apb_clk_freq w).
End regulator.

(** ** The specification of the programming at boot *)

(** The registers after one setting on address [a], and the error that remains. *)
Definition setting_ref (st : Z -> Z -> list Z -> list Z -> list Z) (a : Z) (d : regulator_data) (regs : Z -> Z -> list Z) : Z * (Z -> Z -> list Z) :=
  let once := rmw_dev st a (cmd d) (data d) (mask d) in
  let done regs := verified (regs a (cmd d)) (data d) (mask d) in
  if done (once regs) then (0, once regs)
  else (if done (once (once regs)) then 0 else IC_VERIFY_FAIL, once (once regs)).
Fixpoint settings_ref st (a : Z) (l : list regulator_data) (err : Z) (regs : Z -> Z -> list Z) : Z * (Z -> Z -> list Z) :=
  match l with
  | [] => (err, regs)
  | d :: l => let '(e, regs) := setting_ref st a d regs in settings_ref st a l (Z.lor err e) regs
  end.
Fixpoint regulators_ref st (l : list regulator_config) (err : Z) (regs : Z -> Z -> list Z) : Z * (Z -> Z -> list Z) :=
  match l with
  | [] => (err, regs)
  | r :: l => let '(err, regs) := settings_ref st (address r) (regulator_data_of r) err regs in regulators_ref st l err regs
  end.

(** A table that can be programmed. *)
Definition setting_ok (d : regulator_data) : Prop :=
  is_u8 (cmd d) /\ data d <> [] /\ Forall is_u8 (data d) /\ Forall is_u8 (mask d) /\ length (mask d) = length (data d).
Definition table_ok (l : list regulator_config) : Prop :=
  Forall (fun r => 0 <= address r < 1024 /\ Forall setting_ok (regulator_data_of r)) l.

Definition u8_list (l : list Z) : bool := forallb (fun b => (0 <=? b) && (b <? 256)) l.
Definition setting_okb (d : regulator_data) : bool :=
  u8_list [cmd d] && negb (bool_decide (data d = [])) && u8_list (data d) && u8_list (mask d) && (length (mask d) =? length (data d))%nat.
Definition table_okb (l : list regulator_config) : bool :=
  forallb (fun r => (0 <=? address r) && (address r <? 1024) && forallb setting_okb (regulator_data_of r)) l.

Lemma u8_list_spec l : u8_list l = true -> Forall is_u8 l.
Proof. unfold u8_list. intros H. apply Forall_forall. intros x Hx%list_elem_of_In. rewrite forallb_forall in H. specialize (H x Hx). unwrap. lia. Qed.

Lemma setting_okb_spec d : setting_okb d = true -> setting_ok d.
Proof.
  unfold setting_okb. rewrite !andb_true_iff. intros [[[[Hc Hn] Hd] Hm] Hl]. apply u8_list_spec in Hc, Hd, Hm.
  split; [by apply (Forall_singleton is_u8) in Hc|]. split; [intros E; by rewrite bool_decide_eq_true_2 in Hn|]. by apply Nat.eqb_eq in Hl.
Qed.

Lemma table_okb_spec l : table_okb l = true -> table_ok l.
Proof.
  unfold table_okb, table_ok. intros H. apply Forall_forall. intros r Hr%list_elem_of_In. rewrite forallb_forall in H. specialize (H r Hr).
  rewrite !andb_true_iff in H. destruct H as [[H1 H2] H3]. split; [lia|]. apply Forall_forall. intros d Hd%list_elem_of_In.
  rewrite forallb_forall in H3. by apply setting_okb_spec, H3.
Qed.

Lemma tables_ok board left l : regulators_config board left = Some l -> table_ok l.
Proof. intros E. apply table_okb_spec. destruct board, left; try discriminate E; injection E as <-; by vm_compute. Qed.

(** Devices that keep the size of their registers. *)
Definition store_ok (st : Z -> Z -> list Z -> list Z -> list Z) : Prop :=
  forall a c old new, length new = length old -> Forall is_u8 old -> Forall is_u8 new -> length (st a c old new) = length old /\ Forall is_u8 (st a c old new).
Definition sized_settings (a : Z) (l : list regulator_data) (regs : Z -> Z -> list Z) : Prop :=
  Forall (fun d => reg_ok regs a (cmd d) (length (data d))) l.
Definition sized (l : list regulator_config) (regs : Z -> Z -> list Z) : Prop :=
  Forall (fun r => sized_settings (address r) (regulator_data_of r) regs) l.

Lemma dev_set_other a c v d a' c' : (a', c') <> (a, c) -> dev_set a c v d a' c' = d a' c'.
Proof.
  intros Hne. unfold dev_set. destruct (Z.eqb_spec a' a) as [->|]; [|done]. destruct (Z.eqb_spec c' c) as [->|]; [|done]. done.
Qed.

(** Programming one register keeps the size of every register. *)
Lemma rmw_reg_ok st a d regs a' c' n :
  store_ok st -> setting_ok d -> reg_ok regs a (cmd d) (length (data d)) -> reg_ok regs a' c' n ->
  reg_ok (rmw_dev st a (cmd d) (data d) (mask d) regs) a' c' n.
Proof.
  intros Hst (_ & _ & Hd & _ & Hm) [Hl Hu] [Hl' Hu']. unfold rmw_dev, reg_ok.
  destruct (decide ((a', c') = (a, cmd d))) as [E|E]; [simplify_eq|by rewrite dev_set_other].
  rewrite dev_set_same. assert (Hml : length (merge (regs a (cmd d)) (data d) (mask d)) = length (regs a (cmd d))) by (apply merge_length; lia).
  destruct (Hst a (cmd d) (regs a (cmd d)) (merge (regs a (cmd d)) (data d) (mask d)) Hml Hu) as [E1 E2]; [by apply merge_u8|]. split; [lia|done].
Qed.

Lemma setting_reg_ok st a d regs a' c' n :
  store_ok st -> setting_ok d -> reg_ok regs a (cmd d) (length (data d)) -> reg_ok regs a' c' n -> reg_ok (setting_ref st a d regs).2 a' c' n.
Proof.
  intros Hst Hd Hr Hn. unfold setting_ref. assert (H1 := rmw_reg_ok st a d regs a' c' n Hst Hd Hr Hn).
  assert (H2 := rmw_reg_ok st a d regs a (cmd d) _ Hst Hd Hr Hr). cbv zeta. destruct (verified _ _ _); [done|]. cbn [snd]. by apply rmw_reg_ok.
Qed.

Lemma settings_reg_ok st a l err regs a' c' n :
  store_ok st -> Forall setting_ok l -> sized_settings a l regs -> reg_ok regs a' c' n -> reg_ok (settings_ref st a l err regs).2 a' c' n.
Proof.
  intros Hst Hl. revert err regs. induction Hl as [|d l Hd _ IH]; intros err regs Hs Hn; cbn [settings_ref]; [done|].
  apply Forall_cons in Hs as [Hr Hs]. pose proof (setting_reg_ok st a d regs a' c' n Hst Hd Hr Hn) as H1.
  assert (Hs' : sized_settings a l (setting_ref st a d regs).2) by (apply (Forall_impl _ _ _ Hs); intros e He; by apply setting_reg_ok).
  destruct (setting_ref st a d regs) as [e regs']. by apply IH.
Qed.

Section boot.
Context {W : Type} `{I2cLaws W PMBUS_MST_ID}.
Variable timeout : option Z.
Variable fuel : nat.
Hypothesis Htimeout : match timeout with Some limit => 5 <= limit | None => True end.
Hypothesis Hstore : store_ok store.
Implicit Types w : W.

Lemma apply_setting_ok a d regs w :
  setting_ok d -> reg_ok regs a (cmd d) (length (data d)) -> bus w = idle a regs ->
  exists w', apply_setting timeout (S fuel) false d w = Some ((setting_ref store a d regs).1, w') /\ bus w' = idle a (setting_ref store a d regs).2.
Proof.
  intros Hd Hr Bw. pose proof Hd as (Hc & Hne & Hdu & Hmu & Hml). unfold apply_setting, setting_ref, PMBUS_CMD_BYTE_SIZE. cbv zeta.
  pose proof (rmw_reg_ok store a d regs a (cmd d) _ Hstore Hd Hr Hr) as H1.
  destruct (I2CRMWV_ok PMBUS_MST_ID timeout fuel Htimeout (cmd d) (data d) (mask d) a regs w) as (w1 & -> & B1); [done..|].
  cbn [mbind option_bind]. set (r1 := rmw_dev store a (cmd d) (data d) (mask d) regs) in *.
  destruct (verified (r1 a (cmd d)) (data d) (mask d)); cbn [Z.eqb negb]; [by exists w1|].
  change (negb (IC_VERIFY_FAIL =? 0)) with true. cbn iota.
  destruct (I2CRMWV_ok PMBUS_MST_ID timeout fuel Htimeout (cmd d) (data d) (mask d) a r1 (I2CRecoverBus PMBUS_MST_ID w1)) as (w2 & -> & B2);
    [done..|by apply rmw_reg_ok|by rewrite I2CRecoverBus_bus by done|]. by exists w2.
Qed.

Lemma apply_settings_ok a l err regs w :
  Forall setting_ok l -> sized_settings a l regs -> bus w = idle a regs ->
  exists w', apply_settings timeout (S fuel) false l err w = Some ((settings_ref store a l err regs).1, w') /\ bus w' = idle a (settings_ref store a l err regs).2.
Proof.
  intros Hl. revert err regs w. induction Hl as [|d l Hd _ IH]; intros err regs w Hs Bw; cbn [apply_settings settings_ref]; [by exists w|].
  apply Forall_cons in Hs as [Hr Hs]. destruct (apply_setting_ok a d regs w Hd Hr Bw) as (w1 & -> & B1). cbn [mbind option_bind].
  assert (Hs' : sized_settings a l (setting_ref store a d regs).2) by (apply (Forall_impl _ _ _ Hs); intros e He; by apply setting_reg_ok).
  destruct (setting_ref store a d regs) as [e regs']. by apply IH.
Qed.

Lemma apply_regulators_ok l err regs a w :
  table_ok l -> sized l regs -> bus w = idle a regs ->
  exists a' w', apply_regulators timeout (S fuel) false l err w = Some ((regulators_ref store l err regs).1, w') /\ bus w' = idle a' (regulators_ref store l err regs).2.
Proof.
  intros Hl. revert err regs a w. induction Hl as [|r l [Ha Hd] _ IH]; intros err regs a w Hs Bw; cbn [apply_regulators regulators_ref]; [by exists a, w|].
  apply Forall_cons in Hs as [Hr Hs].
  destruct (I2CInit_ok PMBUS_MST_ID timeout fuel ltac:(done) Htimeout (address r) I2CFastMode w Ha) as (w1 & -> & B1). cbn [mbind option_bind].
  rewrite Bw in B1. cbn [dev cur pos rx idle] in B1.
  destruct (apply_settings_ok (address r) (regulator_data_of r) err regs w1 Hd Hr B1) as (w2 & -> & B2). cbn [mbind option_bind].
  assert (Hs' : sized l (settings_ref store (address r) (regulator_data_of r) err regs).2).
  { apply (Forall_impl _ _ _ Hs). intros r' Hr'. apply (Forall_impl _ _ _ Hr'). intros e He. by apply settings_reg_ok. }
  destruct (settings_ref store (address r) (regulator_data_of r) err regs) as [err' regs']. by apply (IH err' regs' (address r) w2).
Qed.
End boot.


(** ** Devices that keep what they are given *)

Definition flat (l : list regulator_config) : list (Z * regulator_data) := l ≫= fun r => (fun d => (address r, d)) <$> regulator_data_of r.
Definition key (e : Z * regulator_data) : Z * Z := (e.1, cmd e.2).
Definition merge_at (regs : Z -> Z -> list Z) (e : Z * regulator_data) : list Z := merge (regs e.1 (cmd e.2)) (data e.2) (mask e.2).
Definition apply_flat st (l : list (Z * regulator_data)) (regs : Z -> Z -> list Z) : Z -> Z -> list Z :=
  foldl (fun regs e => rmw_dev st e.1 (cmd e.2) (data e.2) (mask e.2) regs) regs l.

Lemma apply_flat_cons st e l regs : apply_flat st (e :: l) regs = apply_flat st l (rmw_dev st e.1 (cmd e.2) (data e.2) (mask e.2) regs).
Proof. done. Qed.

Section keeping.
Variable st : Z -> Z -> list Z -> list Z -> list Z.
Hypothesis Hkeep : forall a c old new, st a c old new = new.

Lemma setting_ref_keeps a d regs : setting_ok d ->
  setting_ref st a d regs = (0, rmw_dev st a (cmd d) (data d) (mask d) regs).
Proof.
  intros (_ & _ & _ & Hm & _). unfold setting_ref. cbv zeta. unfold rmw_dev at 1. by rewrite dev_set_same, Hkeep, merge_verified.
Qed.

Lemma settings_ref_keeps a l err regs : Forall setting_ok l ->
  settings_ref st a l err regs = (err, apply_flat st ((fun d => (a, d)) <$> l) regs).
Proof.
  intros Hl. revert regs. induction Hl as [|d l Hd _ IH]; intros regs; cbn [settings_ref]; [done|].
  rewrite setting_ref_keeps by done. rewrite Z.lor_0_r. by rewrite IH.
Qed.

Lemma regulators_ref_keeps l err regs : table_ok l -> regulators_ref st l err regs = (err, apply_flat st (flat l) regs).
Proof.
  intros Hl. revert regs. induction Hl as [|r l [_ Hd] _ IH]; intros regs; cbn [regulators_ref]; [done|].
  rewrite settings_ref_keeps by done. rewrite IH. unfold flat at 2. cbn [mbind list_bind]. fold (flat l). unfold apply_flat. by rewrite foldl_app.
Qed.

Lemma apply_flat_other l regs a c : (a, c) ∉ key <$> l -> apply_flat st l regs a c = regs a c.
Proof.
  revert regs. induction l as [|e l IH]; intros regs Hn; [done|]. cbn [fmap list_fmap] in Hn. apply not_elem_of_cons in Hn as [Hne Hn].
  rewrite apply_flat_cons. rewrite IH by done. unfold rmw_dev. by rewrite dev_set_other.
Qed.

Lemma apply_flat_at l regs e : NoDup (key <$> l) -> e ∈ l -> apply_flat st l regs e.1 (cmd e.2) = merge_at regs e.
Proof.
  revert regs. induction l as [|e' l IH]; intros regs Hnd He; [by apply not_elem_of_nil in He|]. cbn [fmap list_fmap] in Hnd.
  apply NoDup_cons in Hnd as [Hn Hnd]. rewrite apply_flat_cons. apply elem_of_cons in He as [->|He].
  - rewrite apply_flat_other by done. unfold rmw_dev. by rewrite dev_set_same, Hkeep.
  - rewrite IH by done. unfold merge_at, rmw_dev. rewrite dev_set_other; [done|]. intros E. apply Hn. change (e'.1, cmd e'.2) with (key e') in E.
    rewrite <- E. apply list_elem_of_fmap. by exists e.
Qed.
End keeping.

Lemma tables_NoDup board left l : regulators_config board left = Some l -> NoDup (key <$> flat l).
Proof. intros E. destruct board, left; try discriminate E; injection E as <-; apply (bool_decide_unpack _); by vm_compute. Qed.

Lemma tables_verified board left l e regs :
  regulators_config board left = Some l -> e ∈ flat l -> verified (merge_at regs e) (data e.2) (mask e.2) = true.
Proof.
  intros El He. apply merge_verified. pose proof (tables_ok _ _ _ El) as Hl. unfold flat in He.
  apply list_elem_of_bind in He as (r & He & Hr). apply list_elem_of_fmap in He as (d & -> & Hd). cbn [snd].
  unfold table_ok in Hl. rewrite Forall_forall in Hl. destruct (Hl r Hr) as [_ Hl']. rewrite Forall_forall in Hl'. by destruct (Hl' d Hd) as (_ & _ & _ & Hm & _).
Qed.

(** The boot settings of the supported boards take effect.  When the devices keep
    what is written to them, initialisation reports no error; every register the
    board's table names ends with its masked bits as the table has them and the
    others as they were; every other register of every device is untouched; and
    a board without a table is refused before anything is written. *)
Theorem RegulatorInit_configures {W : Type} `{I2cLaws W PMBUS_MST_ID} timeout fuel board left a regs w :
  match timeout with Some limit => 5 <= limit | None => True end ->
  (forall a c old new, store a c old new = new) -> bus w = idle a regs ->
  match regulators_config board left with
  | None => RegulatorInit timeout (S fuel) false board left w = Some (2 ^ 32 - ENOTSUP, w)
  | Some l => sized l regs ->
      exists a' regs' w', RegulatorInit timeout (S fuel) false board left w = Some (0, w') /\ bus w' = idle a' regs' /\
        (forall e, e ∈ flat l -> regs' e.1 (cmd e.2) = merge_at regs e /\ verified (regs' e.1 (cmd e.2)) (data e.2) (mask e.2) = true) /\
        (forall a c, (a, c) ∉ key <$> flat l -> regs' a c = regs a c)
  end.
Proof.
  intros Ht Hkeep Bw. destruct (regulators_config board left) as [l|] eqn:El; [|unfold RegulatorInit; by rewrite El].
  intros Hs. unfold RegulatorInit. rewrite El.
  destruct (apply_regulators_ok timeout fuel Ht (fun a c old new Hl _ Hn => ltac:(by rewrite Hkeep)) l 0 regs a w (tables_ok _ _ _ El) Hs Bw) as (a' & w' & -> & B).
  rewrite regulators_ref_keeps in * by (done || by eapply tables_ok). cbn [fst snd] in *.
  exists a', (apply_flat store (flat l) regs), w'. split; [done|]. split; [done|]. split.
  - intros e He. rewrite apply_flat_at by (done || by eapply tables_NoDup). split; [done|]. by eapply tables_verified.
  - intros a0 c Hn. by apply apply_flat_other.
Qed.

(** ** Voltage requests *)

Section voltage.
Context {W : Type} `{I2cLaws W PMBUS_MST_ID}.
Variable timeout : option Z.
Variable fuel : nat.
Hypothesis Htimeout : match timeout with Some limit => 5 <= limit | None => True end.
Implicit Types w : W.

Lemma address_master addr w a regs : 0 <= addr < 1024 -> bus w = idle a regs ->
  exists w', I2CInit timeout (S fuel) false I2CMst addr I2CFastMode PMBUS_MST_ID w = Some w' /\ bus w' = idle addr regs.
Proof.
  intros Ha Bw. destruct (I2CInit_ok PMBUS_MST_ID timeout fuel ltac:(done) Htimeout addr I2CFastMode w Ha) as (w1 & E & B).
  exists w1. split; [done|]. by rewrite B, Bw.
Qed.

Lemma read_into_ok init addr c w a regs :
  0 <= addr < 1024 -> is_u8 c -> init <> [] -> reg_ok regs addr c (length init) -> bus w = idle a regs ->
  exists w', read_into timeout (S fuel) false init addr c w = Some (regs addr c, w') /\ bus w' = idle addr regs.
Proof.
  intros Ha Hc Hne [Hl Hu] Bw. unfold read_into. destruct (address_master addr w a regs Ha Bw) as (w1 & -> & B1). cbn [mbind option_bind].
  destruct (I2CReadBytes_ok PMBUS_MST_ID timeout fuel Htimeout c addr regs w1 Hc) as (w2 & E & B2); [by intros E; rewrite E in Hl; destruct init|done|done|].
  rewrite Hl in E. unfold PMBUS_CMD_BYTE_SIZE. rewrite E. cbn [mbind option_bind]. exists w2. split; [|done].
  by rewrite Hl, drop_all, app_nil_r.
Qed.

Lemma write_vout_ok addr v w a regs :
  0 <= addr < 1024 -> bus w = idle a regs ->
  exists w', write_vout timeout (S fuel) false addr v w = Some w' /\
    bus w' = idle addr (dev_set addr VOUT_COMMAND (store addr VOUT_COMMAND (regs addr VOUT_COMMAND) (bytes_of_le 2 v)) regs).
Proof.
  intros Ha Bw. unfold write_vout. destruct (address_master addr w a regs Ha Bw) as (w1 & -> & B1). cbn [mbind option_bind].
  destruct (I2CWriteBytes_ok PMBUS_MST_ID timeout fuel Htimeout VOUT_COMMAND (bytes_of_le 2 v) addr regs w1) as (w2 & E & B2);
    [done|done|apply bytes_of_le_bytes|done|].
  unfold PMBUS_CMD_BYTE_SIZE. rewrite E. cbn [mbind option_bind]. eexists. split; [reflexivity|]. unfold WaitUs. by rewrite wait_bus.
Qed.
End voltage.

(** The voltage a MAX20816 makes of its VOUT_COMMAND register, in half millivolts. *)
Definition vout_half_mv (regs : Z -> Z -> list Z) (a : Z) : Z := le_of_bytes (regs a VOUT_COMMAND).

(** A host's voltage request over I2C.  The two core rails, and only they, are
    accepted; the request ends in the VOUT_COMMAND register of the addressed
    regulator and in no other register, as twice the millivolts modulo 2^16: the
    rail is asked for exactly the requested voltage below 32768 mV, and for 32768 mV
    less at 32768 mV, while the response says success. *)
Theorem set_voltage_over_i2c {W : Type} `{I2cLaws W PMBUS_MST_ID} timeout fuel source slave_addr mv a regs w :
  match timeout with Some limit => 5 <= limit | None => True end ->
  (forall a c old new, store a c old new = new) -> source <> AVSVoutCommand -> is_u32 mv -> bus w = idle a regs ->
  if (slave_addr =? P0V8_VCORE_ADDR) || (slave_addr =? P0V8_VCOREM_ADDR) then
    exists regs' w', set_voltage_handler timeout (S fuel) false source slave_addr mv w = Some (0, w') /\ bus w' = idle slave_addr regs' /\
      vout_half_mv regs' slave_addr = (2 * mv) mod 65536 /\ (mv < 32768 -> vout_half_mv regs' slave_addr = 2 * mv) /\
      (forall a c, (a, c) <> (slave_addr, VOUT_COMMAND) -> regs' a c = regs a c)
  else set_voltage_handler timeout (S fuel) false source slave_addr mv w = Some (1, w).
Proof.
  intros Ht Hkeep Hsrc Hmv Bw.
  assert (Hset : forall addr, 0 <= addr < 1024 -> exists regs' w', i2c_set_max20816 timeout (S fuel) false addr mv w = Some w' /\ bus w' = idle addr regs' /\
    vout_half_mv regs' addr = (2 * mv) mod 65536 /\ (mv < 32768 -> vout_half_mv regs' addr = 2 * mv) /\
    (forall a c, (a, c) <> (addr, VOUT_COMMAND) -> regs' a c = regs a c)).
  { intros addr Ha. unfold i2c_set_max20816. destruct (write_vout_ok timeout fuel Ht addr (u16 (2 * mv)) w a regs Ha Bw) as (w' & -> & B).
    rewrite Hkeep in B. eexists _, w'. split; [done|]. split; [exact B|].
    assert (E : vout_half_mv (dev_set addr VOUT_COMMAND (bytes_of_le 2 (u16 (2 * mv))) regs) addr = (2 * mv) mod 65536).
    { unfold vout_half_mv. rewrite dev_set_same, le_of_bytes_of_le. change (256 ^ Z.of_nat 2) with 65536. apply Z.mod_small. apply Z.mod_pos_bound. lia. }
    split; [done|]. split; [intros Hlt; rewrite E; apply Z.mod_small; unwrap; lia|]. intros a0 c Hne. by apply dev_set_other. }
  unfold set_voltage_handler, set_vcore, set_vcorem. rewrite (proj2 (Z.eqb_neq _ _) Hsrc).
  destruct (Z.eqb_spec slave_addr P0V8_VCORE_ADDR) as [->|]; cbn [orb].
  - destruct (Hset P0V8_VCORE_ADDR ltac:(done)) as (regs' & w' & -> & Hr). exists regs', w'. by split.
  - destruct (Z.eqb_spec slave_addr P0V8_VCOREM_ADDR) as [->|]; [|done].
    destruct (Hset P0V8_VCOREM_ADDR ltac:(done)) as (regs' & w' & -> & Hr). exists regs', w'. by split.
Qed.

(** The byte the switch writes back. *)
Lemma operation_after source op : is_u8 op -> let op' := set_voltage_command_source source (set_transition_control 1 op) in
  is_u8 op' /\ voltage_command_source op' = source mod 4 /\ Z.testbit op' 1 = true /\
  (forall i, 0 <= i -> i <> 1 -> i <> 4 -> i <> 5 -> Z.testbit op' i = Z.testbit op i).
Proof.
  intros Hop op'. unfold op', set_voltage_command_source, set_transition_control. split_and!.
  - repeat apply bits_set_width; try lia. done.
  - unfold voltage_command_source. by rewrite bits_get_set_same by lia.
  - by rewrite !bits_set_spec by lia.
  - intros i Hi H1 H4 H5. rewrite !bits_set_spec by lia.
    destruct (Z.leb_spec 4 i), (Z.ltb_spec i (4 + 2)), (Z.leb_spec 1 i), (Z.ltb_spec i (1 + 1)); try lia; done.
Qed.

(** Who commands the core regulator.  The switch message changes two fields of the
    OPERATION register and nothing else: the source, and copying on a hand-over.
    For the four sources the driver's record and the regulator agree about AVS;
    the message does not check its argument, and another value that ends in the
    bits 11 makes the regulator listen to AVS while [set_vcore] keeps writing to it over I2C. *)
Theorem switch_vout_control_ok {W : Type} `{I2cLaws W PMBUS_MST_ID} timeout fuel uninit source a regs w op :
  match timeout with Some limit => 5 <= limit | None => True end ->
  (forall a c old new, store a c old new = new) -> uninit <> [] -> is_u32 source ->
  regs P0V8_VCORE_ADDR OPERATION = [op] -> is_u8 op -> bus w = idle a regs ->
  exists op' w', switch_vout_control_handler timeout (S fuel) false uninit source w = Some (0, source mod 256, w') /\
    bus w' = idle P0V8_VCORE_ADDR (dev_set P0V8_VCORE_ADDR OPERATION [op'] regs) /\
    voltage_command_source op' = source mod 4 /\ Z.testbit op' 1 = true /\
    (forall i, 0 <= i -> i <> 1 -> i <> 4 -> i <> 5 -> Z.testbit op' i = Z.testbit op i) /\
    (source < 4 -> (source mod 256 = AVSVoutCommand <-> voltage_command_source op' = AVSVoutCommand)) /\
    (source mod 256 <> AVSVoutCommand -> forall fuel' mv,
      set_vcore timeout fuel' false (source mod 256) mv w' = i2c_set_max20816 timeout fuel' false P0V8_VCORE_ADDR mv w').
Proof.
  intros Ht Hkeep Hun Hs Hop Hopu Bw. unfold switch_vout_control_handler, SwitchVoutControl.
  destruct uninit as [|u uninit]; [done|]. change (take 1 (u :: uninit)) with [u].
  destruct (read_into_ok timeout fuel Ht [u] P0V8_VCORE_ADDR OPERATION w a regs) as (w1 & -> & B1);
    [done|done|done|unfold reg_ok; rewrite Hop; split; [done|by apply Forall_singleton]|done|].
  cbn [mbind option_bind]. rewrite Hop. change (aget [op] 0) with (Some op). cbn [mbind option_bind].
  destruct (operation_after source op Hopu) as (Hu & Hsrc & H1 & Hrest).
  set (op' := set_voltage_command_source source (set_transition_control 1 op)) in *.
  destruct (I2CWriteBytes_ok PMBUS_MST_ID timeout fuel Ht OPERATION [op'] P0V8_VCORE_ADDR regs w1) as (w2 & E & B2); [done|done|by apply Forall_singleton|done|].
  unfold PMBUS_CMD_BYTE_SIZE. fold op'. rewrite E. cbn [mbind option_bind]. rewrite Hkeep in B2.
  exists op', (WaitUs 100 w2). split; [done|]. split; [unfold WaitUs; by rewrite wait_bus|].
  split_and!; [done|done|done| |].
  - intros Hlt. rewrite Hsrc. unfold AVSVoutCommand. unwrap. rewrite !Z.mod_small by lia. done.
  - intros Hne fuel' mv. unfold set_vcore. by rewrite (proj2 (Z.eqb_neq _ _) Hne).
Qed.

(** ** Witnesses *)


(** Registers that are zero and as long as the table of the UBB board needs. *)
Definition ubb_size (a c : Z) : nat :=
  match list_find (fun e => key e = (a, c)) (flat ubb_config) with Some (_, e) => length (data e.2) | None => 1 end.
Definition ubb_regs (a c : Z) : list Z := replicate (ubb_size a c) 0.
Definition ubb_world : sim := MkSim (idle 0 ubb_regs) (fun _ => 0) 0.

Lemma ubb_sized : sized ubb_config ubb_regs.
Proof.
  assert (E : forallb (fun r => forallb (fun d => ubb_size (address r) (cmd d) =? length (data d))%nat (regulator_data_of r)) ubb_config = true) by (by vm_compute).
  rewrite forallb_forall in E. apply Forall_forall. intros r Hr%list_elem_of_In. specialize (E r Hr). rewrite forallb_forall in E.
  apply Forall_forall. intros d Hd%list_elem_of_In. specialize (E d Hd). apply Nat.eqb_eq in E. unfold reg_ok, ubb_regs. rewrite E, length_replicate.
  split; [done|]. apply Forall_replicate. done.
Qed.


(** The GDDR I/O voltage of a UBB board: VOUT_COMMAND is 675. *)
Lemma RegulatorInit_configures_witness :
  exists regs' w', RegulatorInit (Some 500) 1 false PcbTypeUBB true ubb_world = Some (0, w') /\ dev (sim_bus w') = regs' /\
    le_of_bytes (regs' GDDRIO_EAST_ADDR VOUT_COMMAND) = 675.
Proof.
  destruct (RegulatorInit_configures (Some 500) 0 PcbTypeUBB true 0 ubb_regs ubb_world ltac:(done) ltac:(done) ltac:(done) ubb_sized)
    as (a' & regs' & w' & E & B & Hin & _).
  exists regs', w'. split; [exact E|]. split; [exact (f_equal dev B)|].
  destruct (Hin (GDDRIO_EAST_ADDR, REGULATOR_DATA 0x21 ubb_gddrio_21_data ubb_gddrio_21_mask)) as [R _];
    [apply (list_elem_of_lookup_2 _ 12); by vm_compute|].
  cbn [fst snd cmd] in R. change VOUT_COMMAND with 0x21. rewrite R. by vm_compute.
Defined.

(** 33 V are accepted and asked for as 232 mV. *)
Lemma set_voltage_over_i2c_witness :
  exists regs' w', set_voltage_handler (Some 500) 1 false VoutCommand P0V8_VCORE_ADDR 33000 ubb_world = Some (0, w') /\ dev (sim_bus w') = regs' /\
    vout_half_mv regs' P0V8_VCORE_ADDR = 2 * 232.
Proof.
  destruct (set_voltage_over_i2c (Some 500) 0 VoutCommand P0V8_VCORE_ADDR 33000 0 ubb_regs ubb_world ltac:(done) ltac:(done) ltac:(done) ltac:(done) ltac:(done))
    as (regs' & w' & E & B & V & _).
  exists regs', w'. split; [exact E|]. split; [exact (f_equal dev B)|exact V].
Defined.

(** Source 7: the regulator listens to AVS, and the driver writes over I2C. *)
Lemma switch_vout_control_ok_witness :
  exists op' w', switch_vout_control_handler (Some 500) 1 false [0; 0] 7 ubb_world = Some (0, 7, w') /\
    voltage_command_source op' = AVSVoutCommand /\ dev (sim_bus w') P0V8_VCORE_ADDR OPERATION = [op'] /\
    set_vcore (Some 500) 1 false 7 850 w' = i2c_set_max20816 (Some 500) 1 false P0V8_VCORE_ADDR 850 w'.
Proof.
  destruct (switch_vout_control_ok (Some 500) 0 [0; 0] 7 0 ubb_regs ubb_world 0 ltac:(done) ltac:(done) ltac:(done) ltac:(done) ltac:(by vm_compute) ltac:(done) ltac:(done))
    as (op' & w' & E & B & V & _ & _ & _ & S).
  exists op', w'. split; [exact E|]. split; [exact V|]. split; [|exact (S ltac:(done) 1%nat 850)].
  transitivity (dev (idle P0V8_VCORE_ADDR (dev_set P0V8_VCORE_ADDR OPERATION [op'] ubb_regs)) P0V8_VCORE_ADDR OPERATION); [by rewrite <- B|apply dev_set_same].
Defined.
