(* ===== verification/Pdr.v ===== *)
(** * The PLDM sensor record repository ([drivers/pmci/pldm/pldm_pdr.c])

    The repository of platform descriptor records is built once from the sensors
    of the devicetree and is then read by hosts in chunks (GetPDR).  libpldm is
    not part of the repository: its message constants, the layout of its packed
    structures and its CRC are the class [Libpldm], with the documented
    properties the code relies on as [LibpldmLaws].  [size_t] has 32 bits; a
    device is ready or not, and no pointer is NULL; a floating-point number is
    its IEEE word. *)

From S2P Require Import Prelude.

Definition EINVAL : Z := 22.
Definition ENODEV : Z := 19.
Definition ENOENT : Z := 2.
Definition ENOMEM : Z := 12.
Definition ERANGE : Z := 34.
Definition EBADMSG : Z := 77.
Definition EOPNOTSUPP : Z := 95.
Definition EOVERFLOW : Z := 139.

Definition PLDM_PDR_TERMINUS_HANDLE : Z := 1.
Definition PLDM_PDR_RECORD_HANDLE : Z := 1.
(** "en". *)
Definition PLDM_PDR_SENSOR_AUX_LANG : list Z := [0x65; 0x6e].
Definition PLDM_PDR_RECORD_CHANGE_NUM : Z := 0.
Definition UINT16_MAX : Z := 65535.
Definition FLOAT_ONE : Z := 0x3F800000.
Definition INT32_MAX : Z := 0x7FFFFFFF.
Definition INT32_MIN : Z := -0x80000000.

(** ** Data *)

(** [struct pldm_pdr_hdr], [pldm_terminus_locator_pdr] and the fixed part of
    [pldm_sensor_auxiliary_names_pdr]: the fields the code sets. *)
Record pldm_pdr_hdr := MkHdr { hdr_record_handle : Z; hdr_version : Z; hdr_type : Z; hdr_record_change_num : Z; hdr_length : Z }.
Record terminus_locator_pdr := MkTl {
  tl_hdr : pldm_pdr_hdr;
  tl_terminus_handle : Z;
  tl_validity : Z;
  tl_tid : Z;
  tl_container_id : Z;
  tl_terminus_locator_type : Z;
  tl_terminus_locator_value_size : Z;
  tl_terminus_locator_value : Z
}.
Record auxiliary_names_pdr := MkAux { aux_hdr : pldm_pdr_hdr; aux_terminus_handle : Z; aux_sensor_id : Z; aux_sensor_count : Z }.

Class Libpldm := {
  PLDM_GET_FIRSTPART : Z;
  PLDM_GET_NEXTPART : Z;
  PLDM_START : Z;
  PLDM_MIDDLE : Z;
  PLDM_END : Z;
  PLDM_START_AND_END : Z;
  PLDM_TERMINUS_LOCATOR_PDR : Z;
  PLDM_NUMERIC_SENSOR_PDR : Z;
  PLDM_SENSOR_AUXILIARY_NAMES_PDR : Z;
  PLDM_TL_PDR_VALID : Z;
  PLDM_TERMINUS_LOCATOR_TYPE_MCTP_EID : Z;
  PLDM_NO_INIT : Z;
  PLDM_RATE_UNIT_NONE : Z;
  PLDM_SENSOR_UNIT_NONE : Z;
  PLDM_SENSOR_DATA_SIZE_SINT32 : Z;
  PLDM_RANGE_FIELD_FORMAT_SINT32 : Z;
  PLDM_PDR_NUMERIC_SENSOR_PDR_FIXED_LENGTH : Z;
  sizeof_pldm_pdr_hdr : Z;
  sizeof_pldm_terminus_locator_pdr : Z;
  sizeof_pldm_sensor_auxiliary_names_pdr : Z;
  pldm_edac_crc8 : list Z -> Z;
  terminus_locator_bytes : terminus_locator_pdr -> list Z;
  terminus_locator_type : list Z -> Z;                 (** the field [hdr.type] of the bytes *)
  terminus_locator_set : Z -> Z -> list Z -> list Z;   (** the fields [tid] and [terminus_locator_value[0]] *)
  auxiliary_names_bytes : auxiliary_names_pdr -> list Z  (** all but [names] *)
}.

(** [struct pldm_numeric_sensor_value_pdr]. *)
Record numeric_sensor_value_pdr := MkNumeric {
  ns_hdr : pldm_pdr_hdr;
  ns_terminus_handle : Z;
  ns_sensor_id : Z;
  ns_entity_type : Z;
  ns_entity_instance : Z;
  ns_container_id : Z;
  ns_sensor_init : Z;
  ns_sensor_auxiliary_names_pdr : bool;
  ns_base_unit : Z;
  ns_unit_modifier : Z;
  ns_rate_unit : Z;
  ns_base_oem_unit_handle : Z;
  ns_aux_unit : Z;
  ns_aux_unit_modifier : Z;
  ns_aux_rate_unit : Z;
  ns_rel : Z;
  ns_aux_oem_unit_handle : Z;
  ns_is_linear : bool;
  ns_sensor_data_size : Z;
  ns_resolution : Z;
  ns_offset : Z;
  ns_accuracy : Z;
  ns_plus_tolerance : Z;
  ns_minus_tolerance : Z;
  ns_hysteresis : Z;
  ns_supported_thresholds : Z;
  ns_threshold_and_hysteresis_volatility : Z;
  ns_state_transition_interval : Z;
  ns_update_interval : Z;
  ns_max_readable : Z;
  ns_min_readable : Z;
  ns_range_field_format : Z;
  ns_range_field_support : Z;
  ns_nominal_value : Z;
  ns_normal_max : Z;
  ns_normal_min : Z;
  ns_warning_high : Z;
  ns_warning_low : Z;
  ns_critical_high : Z;
  ns_critical_low : Z;
  ns_fatal_high : Z;
  ns_fatal_low : Z
}.

(** [struct pldm_pdr_numeric_sensor_desc]; a name is its characters. *)
Record numeric_sensor_desc := MkSensor {
  channel_type : Z;
  channel_index : Z;
  sensor_id : Z;
  entity_type : Z;
  entity_instance : Z;
  container_id : Z;
  base_unit : Z;
  unit_modifier : Z;
  aux_name : option (list Z)
}.

Record pldm_pdr_record_info := MkInfo { handle : Z; offset : Z; length_of : Z }.

(** The arrays of [pldm_pdr_provider_config] and [pldm_pdr_provider_data]. *)
Record pdr_provider := MkPdr {
  pdr_records : list pldm_pdr_record_info;
  pdr_repo : list Z;
  pdr_record_count : Z;
  pdr_repo_size : Z;
  pdr_largest_record_size : Z;
  transfer_active : bool;
  transfer_record_handle : Z;
  transfer_record_index : Z;
  transfer_next_data_handle : Z
}.

Definition set_repo (v : list Z) (s : pdr_provider) : pdr_provider :=
  MkPdr (pdr_records s) v (pdr_record_count s) (pdr_repo_size s) (pdr_largest_record_size s)
    (transfer_active s) (transfer_record_handle s) (transfer_record_index s) (transfer_next_data_handle s).
Definition set_transfer (active : bool) (record_handle record_index next_data_handle : Z) (s : pdr_provider) : pdr_provider :=
  MkPdr (pdr_records s) (pdr_repo s) (pdr_record_count s) (pdr_repo_size s) (pdr_largest_record_size s)
    active record_handle record_index next_data_handle.

(** ** Writing into the repository *)

(** [memcpy] to an offset of a buffer. *)
Definition put_at (off : Z) (src buf : list Z) : option (list Z) :=
  if (0 <=? off) && (off + len src <=? len buf)
  then Some (take (Z.to_nat off) buf ++ src ++ drop (Z.to_nat (off + len src)) buf) else None.

(** The table entry and the counters of a record of [record_len] bytes that is already in place. *)
Definition add_record (record_handle record_len : Z) (s : pdr_provider) : option pdr_provider :=
  records ← aset (pdr_records s) (pdr_record_count s) (MkInfo record_handle (pdr_repo_size s) record_len);
  Some (MkPdr records (pdr_repo s) (u32 (pdr_record_count s + 1)) (u32 (pdr_repo_size s + record_len))
    (Z.max (pdr_largest_record_size s) record_len)
    (transfer_active s) (transfer_record_handle s) (transfer_record_index s) (transfer_next_data_handle s)).

Definition pldm_pdr_append_record (record_handle : Z) (record_data : list Z) (s : pdr_provider) : option (Z * pdr_provider) :=
  if len (pdr_records s) <=? pdr_record_count s then Some (- ENOMEM, s)
  else if len (pdr_repo s) <? u32 (pdr_repo_size s + len record_data) then Some (- ENOMEM, s)
  else
    repo ← put_at (pdr_repo_size s) record_data (pdr_repo s);
    s ← add_record record_handle (len record_data) (set_repo repo s);
    Some (0, s).

(** The bytes written to [dst], and the length returned: 0 when [dst_len] is too small. *)
Fixpoint encode_utf16 (src : list Z) (out dst_len : Z) : Z * list Z :=
  if dst_len <? out + 2 then (0, [])
  else
    match src with
    | [] => (out + 2, [0; 0])
    | c :: src => let '(n, bytes) := encode_utf16 src (out + 2) dst_len in (n, 0 :: u8 c :: bytes)
    end.
Definition pldm_pdr_encode_utf16be_terminated (src : list Z) (dst_len : Z) : Z * list Z := encode_utf16 src 0 dst_len.

(** The [pldm_pdr_buf_append] functions: [n] little-endian bytes of a value at the cursor;
    the bytes written and the room that remains. *)
Definition buf_append (n : nat) (value : Z) (b : list Z * Z) : Z + (list Z * Z) :=
  if b.2 <? Z.of_nat n then inl (- EOVERFLOW) else inr (b.1 ++ bytes_of_le n value, b.2 - Z.of_nat n).
Fixpoint append_all (l : list (nat * Z)) (b : list Z * Z) : Z + (list Z * Z) :=
  match l with
  | [] => inr b
  | (n, v) :: l => match buf_append n v b with inl rc => inl rc | inr b => append_all l b end
  end.

(** The fields in wire order, each with its width in bytes. *)
Definition numeric_sensor_fields (p : numeric_sensor_value_pdr) : list (nat * Z) :=
  let h := ns_hdr p in
  [(4%nat, hdr_record_handle h); (1%nat, hdr_version h); (1%nat, hdr_type h); (2%nat, hdr_record_change_num h); (2%nat, hdr_length h);
   (2%nat, ns_terminus_handle p); (2%nat, ns_sensor_id p); (2%nat, ns_entity_type p); (2%nat, ns_entity_instance p);
   (2%nat, ns_container_id p); (1%nat, ns_sensor_init p); (1%nat, Z.b2z (ns_sensor_auxiliary_names_pdr p));
   (1%nat, ns_base_unit p); (1%nat, u8 (ns_unit_modifier p)); (1%nat, ns_rate_unit p); (1%nat, ns_base_oem_unit_handle p);
   (1%nat, ns_aux_unit p); (1%nat, u8 (ns_aux_unit_modifier p)); (1%nat, ns_aux_rate_unit p); (1%nat, ns_rel p);
   (1%nat, ns_aux_oem_unit_handle p); (1%nat, Z.b2z (ns_is_linear p)); (1%nat, ns_sensor_data_size p);
   (4%nat, ns_resolution p); (4%nat, ns_offset p); (2%nat, ns_accuracy p); (1%nat, ns_plus_tolerance p); (1%nat, ns_minus_tolerance p);
   (4%nat, u32 (ns_hysteresis p)); (1%nat, ns_supported_thresholds p); (1%nat, ns_threshold_and_hysteresis_volatility p);
   (4%nat, ns_state_transition_interval p); (4%nat, ns_update_interval p); (4%nat, u32 (ns_max_readable p)); (4%nat, u32 (ns_min_readable p));
   (1%nat, ns_range_field_format p); (1%nat, ns_range_field_support p); (4%nat, u32 (ns_nominal_value p));
   (4%nat, u32 (ns_normal_max p)); (4%nat, u32 (ns_normal_min p)); (4%nat, u32 (ns_warning_high p)); (4%nat, u32 (ns_warning_low p));
   (4%nat, u32 (ns_critical_high p)); (4%nat, u32 (ns_critical_low p)); (4%nat, u32 (ns_fatal_high p)); (4%nat, u32 (ns_fatal_low p))].
Definition pldm_pdr_encode_numeric_sensor_record (p : numeric_sensor_value_pdr) (dst_len : Z) : Z + list Z :=
  match append_all (numeric_sensor_fields p) ([], dst_len) with inl rc => inl rc | inr b => inr b.1 end.

Section repository.
Context `{Libpldm}.

Definition PLDM_PDR_NUMERIC_SENSOR_RECORD_WIRE_SIZE : Z := PLDM_PDR_NUMERIC_SENSOR_PDR_FIXED_LENGTH + 3 * 4 + 9 * 4.

Definition pldm_pdr_append_sensor_aux_name_record (record_handle sensor_id : Z) (sensor_name : list Z) (s : pdr_provider)
    : option (Z * pdr_provider) :=
  let size := sizeof_pldm_sensor_auxiliary_names_pdr in
  let lang_len := len PLDM_PDR_SENSOR_AUX_LANG in
  let names_prefix_len := 1 + lang_len + 1 in
  if len (pdr_records s) <=? pdr_record_count s then Some (- ENOMEM, s)
  else if len (pdr_repo s) <? pdr_repo_size s then Some (- ENOMEM, s)
  else
    let remaining_repo_len := len (pdr_repo s) - pdr_repo_size s in
    if remaining_repo_len <? size then Some (- ENOMEM, s)
    else
      let max_names_len := remaining_repo_len - (size - 1) in
      if max_names_len <? names_prefix_len then Some (- ENOMEM, s)
      else
        let names_off := pdr_repo_size s + (size - 1) in
        repo ← put_at names_off (1 :: PLDM_PDR_SENSOR_AUX_LANG ++ [0]) (pdr_repo s);
        let '(utf16_len, bytes) := pldm_pdr_encode_utf16be_terminated sensor_name (max_names_len - names_prefix_len) in
        repo ← put_at (names_off + names_prefix_len) bytes repo;
        if utf16_len =? 0 then Some (- ENOMEM, set_repo repo s)
        else
          let names_len := names_prefix_len + utf16_len in
          let record_len := size - 1 + names_len in
          let pdr_payload_len := size - sizeof_pldm_pdr_hdr - 1 + names_len in
          if UINT16_MAX <? pdr_payload_len then Some (- EOVERFLOW, set_repo repo s)
          else
            let hdr := MkHdr record_handle 1 PLDM_SENSOR_AUXILIARY_NAMES_PDR PLDM_PDR_RECORD_CHANGE_NUM (u16 pdr_payload_len) in
            repo ← put_at (pdr_repo_size s) (auxiliary_names_bytes (MkAux hdr PLDM_PDR_TERMINUS_HANDLE sensor_id 1)) repo;
            s ← add_record record_handle record_len (set_repo repo s);
            Some (0, s).

(** ** Building it *)

Definition has_aux_name (sensor : numeric_sensor_desc) : bool :=
  match aux_name sensor with Some (_ :: _) => true | _ => false end.

Definition numeric_sensor_pdr (record_handle : Z) (sensor : numeric_sensor_desc) : numeric_sensor_value_pdr := {|
  ns_hdr := MkHdr record_handle 1 PLDM_NUMERIC_SENSOR_PDR PLDM_PDR_RECORD_CHANGE_NUM
    (u16 (PLDM_PDR_NUMERIC_SENSOR_RECORD_WIRE_SIZE - sizeof_pldm_pdr_hdr));
  ns_terminus_handle := PLDM_PDR_TERMINUS_HANDLE;
  ns_sensor_id := sensor_id sensor;
  ns_entity_type := entity_type sensor;
  ns_entity_instance := entity_instance sensor;
  ns_container_id := container_id sensor;
  ns_sensor_init := PLDM_NO_INIT;
  ns_sensor_auxiliary_names_pdr := has_aux_name sensor;
  ns_base_unit := base_unit sensor;
  ns_unit_modifier := unit_modifier sensor;
  ns_rate_unit := PLDM_RATE_UNIT_NONE;
  ns_base_oem_unit_handle := 0;
  ns_aux_unit := PLDM_SENSOR_UNIT_NONE;
  ns_aux_unit_modifier := 0;
  ns_aux_rate_unit := PLDM_RATE_UNIT_NONE;
  ns_rel := 0;
  ns_aux_oem_unit_handle := 0;
  ns_is_linear := true;
  ns_sensor_data_size := PLDM_SENSOR_DATA_SIZE_SINT32;
  ns_resolution := FLOAT_ONE;
  ns_offset := 0;
  ns_accuracy := 0;
  ns_plus_tolerance := 0;
  ns_minus_tolerance := 0;
  ns_hysteresis := 0;
  ns_supported_thresholds := 0;
  ns_threshold_and_hysteresis_volatility := 0;
  ns_state_transition_interval := 0;
  ns_update_interval := 0;
  ns_max_readable := INT32_MAX;
  ns_min_readable := INT32_MIN;
  ns_range_field_format := PLDM_RANGE_FIELD_FORMAT_SINT32;
  ns_range_field_support := 0;
  ns_nominal_value := 0;
  ns_normal_max := 0;
  ns_normal_min := 0;
  ns_warning_high := 0;
  ns_warning_low := 0;
  ns_critical_high := 0;
  ns_critical_low := 0;
  ns_fatal_high := 0;
  ns_fatal_low := 0
|}.

Definition terminus_locator (record_handle : Z) : terminus_locator_pdr :=
  MkTl (MkHdr record_handle 1 PLDM_TERMINUS_LOCATOR_PDR PLDM_PDR_RECORD_CHANGE_NUM
      (u16 (sizeof_pldm_terminus_locator_pdr - sizeof_pldm_pdr_hdr)))
    PLDM_PDR_TERMINUS_HANDLE PLDM_TL_PDR_VALID 0 0 PLDM_TERMINUS_LOCATOR_TYPE_MCTP_EID 1 0.

(** The loop over the sensors; [record_handle] is the last handle given. *)
Fixpoint add_sensors (l : list numeric_sensor_desc) (record_handle : Z) (s : pdr_provider) : option (Z * pdr_provider) :=
  match l with
  | [] => Some (0, s)
  | sensor :: l =>
      let record_handle := u32 (record_handle + 1) in
      match pldm_pdr_encode_numeric_sensor_record (numeric_sensor_pdr record_handle sensor) PLDM_PDR_NUMERIC_SENSOR_RECORD_WIRE_SIZE with
      | inl rc => Some (rc, s)
      | inr pdr_record =>
          if negb (len pdr_record =? PLDM_PDR_NUMERIC_SENSOR_RECORD_WIRE_SIZE) then Some (- EOVERFLOW, s)
          else
            '(rc, s) ← pldm_pdr_append_record record_handle pdr_record s;
            if negb (rc =? 0) then Some (rc, s)
            else
              match aux_name sensor with
              | Some ((_ :: _) as name) =>
                  let record_handle := u32 (record_handle + 1) in
                  '(rc, s) ← pldm_pdr_append_sensor_aux_name_record record_handle (sensor_id sensor) name s;
                  if negb (rc =? 0) then Some (rc, s) else add_sensors l record_handle s
              | _ => add_sensors l record_handle s
              end
      end
  end.
Definition pldm_pdr_provider_init (sensors : list numeric_sensor_desc) (s : pdr_provider) : option (Z * pdr_provider) :=
  let record_handle := PLDM_PDR_RECORD_HANDLE in
  '(rc, s) ← pldm_pdr_append_record record_handle (terminus_locator_bytes (terminus_locator record_handle)) s;
  if negb (rc =? 0) then Some (rc, s) else add_sensors sensors record_handle s.

(** The arrays the driver is instantiated with: [PLDM_PDR_RECORD_COUNT] and [PLDM_PDR_REPO_SIZE]. *)
Definition PLDM_PDR_AUX_NAME_RECORD_SIZE (name : list Z) : Z :=
  (sizeof_pldm_sensor_auxiliary_names_pdr - 1) + (1 + (len PLDM_PDR_SENSOR_AUX_LANG + 1) + 2 * (len name + 1)).
Definition PLDM_PDR_RECORD_COUNT (sensors : list numeric_sensor_desc) : Z :=
  1 + len sensors + len (filter (fun d => aux_name d <> None) sensors).
Definition PLDM_PDR_REPO_SIZE (sensors : list numeric_sensor_desc) : Z :=
  sizeof_pldm_terminus_locator_pdr + fold_right (fun d n => PLDM_PDR_NUMERIC_SENSOR_RECORD_WIRE_SIZE + n) 0 sensors +
  fold_right (fun d n => match aux_name d with Some name => PLDM_PDR_AUX_NAME_RECORD_SIZE name | None => 0 end + n) 0 sensors.
Definition pdr_instance (sensors : list numeric_sensor_desc) : pdr_provider :=
  MkPdr (replicate (Z.to_nat (PLDM_PDR_RECORD_COUNT sensors)) (MkInfo 0 0 0)) (replicate (Z.to_nat (PLDM_PDR_REPO_SIZE sensors)) 0)
    0 0 0 false 0 0 0.

(** ** Reading it *)

Definition pldm_pdr_update_tid_eid (ready : bool) (tid endpoint_id : Z) (s : pdr_provider) : option (Z * pdr_provider) :=
  if negb ready then Some (- ENODEV, s)
  else
    tl_record ← aget (pdr_records s) 0;
    let size := sizeof_pldm_terminus_locator_pdr in
    if (length_of tl_record <? size) || (len (pdr_repo s) <? size) || (len (pdr_repo s) - size <? offset tl_record) then Some (- EINVAL, s)
    else
      let tl := take (Z.to_nat size) (drop (Z.to_nat (offset tl_record)) (pdr_repo s)) in
      if negb (terminus_locator_type tl =? PLDM_TERMINUS_LOCATOR_PDR) then Some (- EINVAL, s)
      else
        repo ← put_at (offset tl_record) (terminus_locator_set tid endpoint_id tl) (pdr_repo s);
        Some (0, set_repo repo s).

(** Record count, size, largest record. *)
Definition pldm_pdr_get_repository_info (ready : bool) (s : pdr_provider) : Z * option (Z * Z * Z) :=
  if negb ready then (- ENODEV, None) else (0, Some (pdr_record_count s, pdr_repo_size s, pdr_largest_record_size s)).

Fixpoint find_handle (n : nat) (i record_handle : Z) (s : pdr_provider) : option (Z + Z) :=
  match n with
  | O => Some (inl (- ENOENT))
  | S n => r ← aget (pdr_records s) i; if handle r =? record_handle then Some (inr i) else find_handle n (i + 1) record_handle s
  end.
(** An error, or the index. *)
Definition pldm_pdr_find_record_index (ready : bool) (record_handle : Z) (s : pdr_provider) : option (Z + Z) :=
  if negb ready then Some (inl (- ENODEV)) else find_handle (Z.to_nat (pdr_record_count s)) 0 record_handle s.

Record record_metadata := MkMeta { record_handle : Z; record_data : list Z; next_record_handle : Z }.
Definition pldm_pdr_get_record_at_index (ready : bool) (record_index : Z) (s : pdr_provider) : option (Z + record_metadata) :=
  if negb ready then Some (inl (- ENODEV))
  else if pdr_record_count s <=? record_index then Some (inl (- ERANGE))
  else
    r ← aget (pdr_records s) record_index;
    if (len (pdr_repo s) <? offset r) || (len (pdr_repo s) - offset r <? length_of r) then Some (inl (- EINVAL))
    else
      next ← if u32 (record_index + 1) <? pdr_record_count s then r' ← aget (pdr_records s) (u32 (record_index + 1)); Some (handle r') else Some 0;
      Some (inr (MkMeta (handle r) (take (Z.to_nat (length_of r)) (drop (Z.to_nat (offset r)) (pdr_repo s))) next)).

Definition pldm_pdr_find_numeric_sensor_by_id (ready : bool) (id : Z) (sensors : list numeric_sensor_desc) : option numeric_sensor_desc :=
  if negb ready then None else snd <$> list_find (fun d => sensor_id d = id) sensors.

Record get_chunk_request := MkReq {
  rq_record_handle : Z;
  rq_data_transfer_handle : Z;
  transfer_op_flag : Z;
  request_count : Z;
  max_response_count : Z
}.
Record get_chunk_response := MkResp {
  rs_next_record_handle : Z;
  rs_next_data_transfer_handle : Z;
  transfer_flag : Z;
  rs_record_data : list Z;      (** [response_count] bytes *)
  transfer_crc : Z
}.

Definition pldm_pdr_build_chunk (ready : bool) (record_index off : Z) (req : get_chunk_request) (s : pdr_provider)
    : option ((Z + get_chunk_response) * pdr_provider) :=
  meta ← pldm_pdr_get_record_at_index ready record_index s;
  match meta with
  | inl rc => Some (inl rc, s)
  | inr m =>
      let record_len := len (record_data m) in
      if record_len <=? off then Some (inl (- ERANGE), s)
      else
        let response_count := Z.min (Z.min (request_count req) (record_len - off)) (max_response_count req) in
        let is_first := off =? 0 in
        let is_last := record_len <=? off + response_count in
        let flag := if is_first && is_last then PLDM_START_AND_END else if is_first then PLDM_START else if is_last then PLDM_END else PLDM_MIDDLE in
        let next := if is_last then 0 else u32 (off + response_count) in
        let s := set_transfer (negb is_last) (if is_last then 0 else record_handle m) (if is_last then 0 else record_index) next s in
        Some (inr (MkResp (next_record_handle m) next flag
          (take (Z.to_nat response_count) (drop (Z.to_nat off) (record_data m)))
          (if is_last then pldm_edac_crc8 (record_data m) else 0)), s)
  end.

Definition pldm_pdr_get_chunk (ready : bool) (req : get_chunk_request) (s : pdr_provider) : option ((Z + get_chunk_response) * pdr_provider) :=
  if (request_count req =? 0) || (max_response_count req =? 0) then Some (inl (- EINVAL), s)
  else if negb ready then Some (inl (- ENODEV), s)
  else if transfer_op_flag req =? PLDM_GET_FIRSTPART then
    record_index ← if rq_record_handle req =? 0 then Some (inr 0) else pldm_pdr_find_record_index ready (rq_record_handle req) s;
    match record_index with
    | inl rc => Some (inl rc, s)
    | inr record_index => pldm_pdr_build_chunk ready record_index 0 req s
    end
  else if transfer_op_flag req =? PLDM_GET_NEXTPART then
    if negb (transfer_active s) || negb (rq_record_handle req =? transfer_record_handle s)
      || negb (rq_data_transfer_handle req =? transfer_next_data_handle s) then Some (inl (- EBADMSG), s)
    else pldm_pdr_build_chunk ready (transfer_record_index s) (rq_data_transfer_handle req) req s
  else Some (inl (- EOPNOTSUPP), s).
End repository.

(** ** The specification: a list of records *)

(** What the code relies on of libpldm and of the DMTF layouts it implements. *)
Class LibpldmLaws `{Libpldm} := {
  first_not_next : PLDM_GET_FIRSTPART <> PLDM_GET_NEXTPART;
  flags_differ : NoDup [PLDM_START; PLDM_MIDDLE; PLDM_END; PLDM_START_AND_END];
  fixed_length : PLDM_PDR_NUMERIC_SENSOR_PDR_FIXED_LENGTH = 57;
  terminus_locator_len t : len (terminus_locator_bytes t) = sizeof_pldm_terminus_locator_pdr;
  terminus_locator_size : 0 < sizeof_pldm_terminus_locator_pdr < 65536;
  terminus_locator_type_bytes t : terminus_locator_type (terminus_locator_bytes t) = hdr_type (tl_hdr t);
  terminus_locator_set_bytes tid eid t : terminus_locator_set tid eid (terminus_locator_bytes t) =
    terminus_locator_bytes (MkTl (tl_hdr t) (tl_terminus_handle t) (tl_validity t) tid (tl_container_id t)
      (tl_terminus_locator_type t) (tl_terminus_locator_value_size t) eid);
  auxiliary_names_len a : len (auxiliary_names_bytes a) = sizeof_pldm_sensor_auxiliary_names_pdr - 1;
  auxiliary_names_size : sizeof_pldm_pdr_hdr < sizeof_pldm_sensor_auxiliary_names_pdr < 1000 /\ 0 <= sizeof_pldm_pdr_hdr
}.

(** A record: its handle and its bytes. *)
Abbreviation record := (Z * list Z)%type.
Definition bytes_of (rs : list record) : list Z := concat (snd <$> rs).
(** The table entries of records that start at an offset. *)
Fixpoint infos (off : Z) (rs : list record) : list pldm_pdr_record_info :=
  match rs with
  | [] => []
  | (h, b) :: rs => MkInfo h off (len b) :: infos (off + len b) rs
  end.
Definition largest (rs : list record) : Z := fold_left (fun n r => Z.max n (len r.2)) rs 0.

(** The repository holds exactly these records, back to back, in this order. *)
Record represents (s : pdr_provider) (rs : list record) : Prop := {
  rep_count : pdr_record_count s = len rs;
  rep_repo : exists rest, pdr_repo s = bytes_of rs ++ rest;
  rep_size : pdr_repo_size s = len (bytes_of rs);
  rep_records : exists rest, pdr_records s = infos 0 rs ++ rest;
  rep_largest : pdr_largest_record_size s = largest rs;
  rep_small : len (pdr_repo s) < 2 ^ 32 /\ len (pdr_records s) < 2 ^ 32
}.

Lemma len_app {A} (l k : list A) : len (l ++ k) = len l + len k.
Proof. rewrite length_app. lia. Qed.
Lemma len_nonneg {A} (l : list A) : 0 <= len l.
Proof. lia. Qed.
Lemma len_cons {A} (x : A) (l : list A) : len (x :: l) = 1 + len l.
Proof. cbn. lia. Qed.
Lemma len_nil {A} : len (@nil A) = 0.
Proof. done. Qed.
Create HintDb pdr.
#[export] Hint Rewrite @len_app @len_cons @len_nil : pdr.

Lemma bytes_of_app rs rs' : bytes_of (rs ++ rs') = bytes_of rs ++ bytes_of rs'.
Proof. unfold bytes_of. by rewrite fmap_app, concat_app. Qed.

Lemma infos_length off rs : length (infos off rs) = length rs.
Proof. revert off. induction rs as [|[h b] rs IH]; intros off; cbn; [done|]. by rewrite IH. Qed.

Lemma infos_snoc off rs h b : infos off (rs ++ [(h, b)]) = infos off rs ++ [MkInfo h (off + len (bytes_of rs)) (len b)].
Proof.
  revert off. induction rs as [|[h' b'] rs IH]; intros off; cbn [infos app].
  - unfold bytes_of. cbn. by rewrite Z.add_0_r.
  - rewrite IH. unfold bytes_of at 2. cbn [fmap list_fmap concat snd]. fold (bytes_of rs). rewrite len_app. do 3 f_equal. f_equal. lia.
Qed.

Lemma put_at_middle (a x b src : list Z) : len src = len x -> put_at (len a) src (a ++ x ++ b) = Some (a ++ src ++ b).
Proof.
  intros Hl. unfold put_at. autorewrite with pdr. pose proof (len_nonneg a). pose proof (len_nonneg b).
  rewrite (proj2 (Z.leb_le 0 _)), (proj2 (Z.leb_le _ _)) by lia. cbn [andb]. 
  rewrite Nat2Z.id, take_app_length. do 2 f_equal. f_equal.
  replace (Z.to_nat _) with (length (a ++ x)) by (rewrite length_app; lia). by rewrite app_assoc, drop_app_length.
Qed.

(** A list splits at any offset inside it. *)
Lemma split_len {A} (l : list A) n : 0 <= n <= len l -> exists x y, l = x ++ y /\ len x = n.
Proof.
  intros Hn. exists (take (Z.to_nat n) l), (drop (Z.to_nat n) l). split; [by rewrite take_drop|].  rewrite length_take. lia.
Qed.

(** What appending leaves alone. *)
Definition same_arrays (s s' : pdr_provider) : Prop :=
  len (pdr_repo s') = len (pdr_repo s) /\ len (pdr_records s') = len (pdr_records s) /\ transfer_active s' = transfer_active s.

(** A record whose bytes are in place becomes part of the repository. *)
Lemma add_record_ok s rs repo h b rest :
  represents s rs -> len rs < len (pdr_records s) -> repo = bytes_of rs ++ b ++ rest -> len repo = len (pdr_repo s) ->
  exists s', add_record h (len b) (set_repo repo s) = Some s' /\ represents s' (rs ++ [(h, b)]) /\ same_arrays s s'.
Proof.
  intros [Rc _ Rs [tl Rr] Rl [Hs1 Hs2]] Hroom -> Hlen. unfold add_record. cbn [pdr_records set_repo pdr_record_count pdr_repo_size].
  rewrite Rc, Rr in *. rewrite len_app in Hroom.
  assert (Hil : len (infos 0 rs) = len rs) by (by rewrite infos_length). rewrite Hil in Hroom.
  destruct tl as [|t tl]; [rewrite len_nil in Hroom; lia|].
  rewrite aset_in by (rewrite len_app, len_cons, Hil; pose proof (len_nonneg rs); pose proof (len_nonneg tl); lia).
  cbn [mbind option_bind]. eexists. split; [reflexivity|].
  replace (Z.to_nat (len rs)) with (length (infos 0 rs) + 0)%nat by (rewrite infos_length; lia).
  rewrite insert_app_r. cbn [insert list_insert]. autorewrite with pdr in *.
  pose proof (len_nonneg rs). pose proof (len_nonneg tl). pose proof (len_nonneg (bytes_of rs)). pose proof (len_nonneg rest). pose proof (len_nonneg b).
  split; [split|split_and!]; cbn [pdr_record_count pdr_repo pdr_repo_size pdr_records pdr_largest_record_size].
  - rewrite wrap_small by (unwrap; lia). autorewrite with pdr. lia.
  - exists rest. rewrite bytes_of_app. unfold bytes_of at 3. cbn. by rewrite app_nil_r, <- app_assoc.
  - rewrite wrap_small by (unwrap; lia). rewrite bytes_of_app, len_app, Rs. unfold bytes_of at 3. cbn. by rewrite app_nil_r.
  - exists tl. rewrite infos_snoc, <- app_assoc, Rs. by rewrite Z.add_0_l.
  - cbn [set_repo pdr_largest_record_size]. rewrite Rl. unfold largest. by rewrite fold_left_app.
  - cbn [pdr_repo set_repo]. autorewrite with pdr. lia.
  - cbn. autorewrite with pdr. lia.
  - cbn. rewrite Rr. autorewrite with pdr. lia.
  - done.
Qed.

Lemma append_record_ok s rs h b :
  represents s rs -> len rs < len (pdr_records s) -> len (bytes_of rs) + len b <= len (pdr_repo s) ->
  exists s', pldm_pdr_append_record h b s = Some (0, s') /\ represents s' (rs ++ [(h, b)]) /\ same_arrays s s'.
Proof.
  intros R Hroom Hlen. pose proof R as [Rc [rest Rp] Rs _ _ [Hs1 Hs2]]. unfold pldm_pdr_append_record.
  rewrite (proj2 (Z.leb_gt _ _)) by lia. pose proof (len_nonneg (bytes_of rs)). pose proof (len_nonneg b).
  rewrite Rs, wrap_small by (unwrap; lia). rewrite (proj2 (Z.ltb_ge _ _)) by lia. rewrite Rp in *. autorewrite with pdr in *.
  destruct (split_len rest (len b)) as (x & y & -> & Hx); [lia|]. rewrite put_at_middle by done. cbn [mbind option_bind].
  destruct (add_record_ok s rs (bytes_of rs ++ b ++ y) h b y R) as (s' & -> & R' & Sa); [lia|done|rewrite Rp; autorewrite with pdr; lia|].
  by exists s'.
Qed.

(** *** Encoding *)

Definition field_bytes (l : list (nat * Z)) : list Z := l ≫= fun f => bytes_of_le f.1 f.2.
Definition fields_size (l : list (nat * Z)) : Z := fold_right (fun f n => Z.of_nat f.1 + n) 0 l.

Lemma field_bytes_len l : len (field_bytes l) = fields_size l.
Proof.
  induction l as [|[n v] l IH]; [done|]. cbn [field_bytes mbind list_bind fst snd fields_size fold_right]. fold (field_bytes l) (fields_size l).
  change (list_bind _ _ _ l) with (field_bytes l). by rewrite len_app, bytes_of_le_length, IH.
Qed.

Lemma append_all_ok l out room :
  fields_size l <= room -> append_all l (out, room) = inr (out ++ field_bytes l, room - fields_size l).
Proof.
  revert out room. induction l as [|[n v] l IH]; intros out room Hr; cbn [append_all].
  - cbn. by rewrite app_nil_r, Z.sub_0_r.
  - cbn [fields_size fold_right fst] in *. fold (fields_size l) in *. assert (0 <= fields_size l) by (rewrite <- field_bytes_len; apply len_nonneg).
    unfold buf_append. cbn [fst snd]. rewrite (proj2 (Z.ltb_ge _ _)) by lia. rewrite IH by lia.
    cbn [field_bytes mbind list_bind fst snd]. change (list_bind _ _ _ l) with (field_bytes l). rewrite <- app_assoc. do 2 f_equal. lia.
Qed.

(** The bytes of a name: each character, high byte first, and a terminator. *)
Definition utf16be (name : list Z) : list Z := (name ≫= fun c => [0; u8 c]) ++ [0; 0].

Lemma utf16be_len name : len (utf16be name) = 2 * (len name + 1).
Proof.
  unfold utf16be. rewrite len_app. enough (len (name ≫= fun c => [0; u8 c]) = 2 * len name) by (autorewrite with pdr; lia).
  induction name as [|c name IH]; [done|]. cbn [mbind list_bind app]. autorewrite with pdr.
  change (list_bind _ _ _ name) with (name ≫= fun c => [0; u8 c]). lia.
Qed.

Lemma encode_utf16_ok name out dst_len :
  out + 2 * (len name + 1) <= dst_len -> encode_utf16 name out dst_len = (out + 2 * (len name + 1), utf16be name).
Proof.
  revert out. induction name as [|c name IH]; intros out Hr; cbn [encode_utf16]; autorewrite with pdr in *.
  - rewrite (proj2 (Z.ltb_ge _ _)) by lia. done.
  - pose proof (len_nonneg name). rewrite (proj2 (Z.ltb_ge _ _)) by lia. rewrite IH by lia. f_equal. lia.
Qed.

Section build.
Context `{LibpldmLaws}.

Abbreviation numeric_bytes h d := (field_bytes (numeric_sensor_fields (numeric_sensor_pdr h d))).

(** The bytes of the name record. *)
Definition aux_name_bytes (h id : Z) (name : list Z) : list Z :=
  let payload := sizeof_pldm_sensor_auxiliary_names_pdr - sizeof_pldm_pdr_hdr - 1 + 4 + len (utf16be name) in
  auxiliary_names_bytes (MkAux (MkHdr h 1 PLDM_SENSOR_AUXILIARY_NAMES_PDR PLDM_PDR_RECORD_CHANGE_NUM payload) PLDM_PDR_TERMINUS_HANDLE id 1)
    ++ (1 :: PLDM_PDR_SENSOR_AUX_LANG ++ [0]) ++ utf16be name.

Lemma wire_size h d : len (numeric_bytes h d) = PLDM_PDR_NUMERIC_SENSOR_RECORD_WIRE_SIZE.
Proof. rewrite field_bytes_len. unfold PLDM_PDR_NUMERIC_SENSOR_RECORD_WIRE_SIZE. by rewrite fixed_length. Qed.

Lemma encode_numeric h d :
  pldm_pdr_encode_numeric_sensor_record (numeric_sensor_pdr h d) PLDM_PDR_NUMERIC_SENSOR_RECORD_WIRE_SIZE = inr (numeric_bytes h d).
Proof.
  unfold pldm_pdr_encode_numeric_sensor_record. rewrite append_all_ok; [done|]. by rewrite <- field_bytes_len, wire_size.
Qed.

Lemma aux_name_bytes_len h id name : len (aux_name_bytes h id name) = PLDM_PDR_AUX_NAME_RECORD_SIZE name.
Proof.
  unfold aux_name_bytes, PLDM_PDR_AUX_NAME_RECORD_SIZE, PLDM_PDR_SENSOR_AUX_LANG. cbn [app]. autorewrite with pdr. rewrite auxiliary_names_len, utf16be_len. lia.
Qed.

Lemma append_aux_ok s rs h id name :
  represents s rs -> len rs < len (pdr_records s) -> len (bytes_of rs) + PLDM_PDR_AUX_NAME_RECORD_SIZE name <= len (pdr_repo s) -> len name < 30000 ->
  exists s', pldm_pdr_append_sensor_aux_name_record h id name s = Some (0, s') /\ represents s' (rs ++ [(h, aux_name_bytes h id name)]) /\ same_arrays s s'.
Proof.
  intros R Hroom Hlen Hname. pose proof R as [Rc [rest Rp] Rs _ _ [Hs1 Hs2]]. unfold pldm_pdr_append_sensor_aux_name_record.
  pose proof auxiliary_names_size as [Hsz Hh]. rewrite <- (aux_name_bytes_len h id) in Hlen.
  assert (Haux : len (aux_name_bytes h id name) = sizeof_pldm_sensor_auxiliary_names_pdr - 1 + 4 + 2 * (len name + 1)).
  { rewrite aux_name_bytes_len. unfold PLDM_PDR_AUX_NAME_RECORD_SIZE, PLDM_PDR_SENSOR_AUX_LANG. autorewrite with pdr. lia. }
  set (size := sizeof_pldm_sensor_auxiliary_names_pdr) in *. change (1 + len PLDM_PDR_SENSOR_AUX_LANG + 1) with 4. change (1 :: PLDM_PDR_SENSOR_AUX_LANG ++ [0]) with [1; 0x65; 0x6e; 0].
  pose proof (len_nonneg (bytes_of rs)). pose proof (len_nonneg name).
  rewrite Rs, Rp in *. autorewrite with pdr in *.
  rewrite (proj2 (Z.leb_gt _ _)), (proj2 (Z.ltb_ge _ (len (bytes_of rs)))), (proj2 (Z.ltb_ge _ size)), (proj2 (Z.ltb_ge _ 4)) by lia.
  destruct (split_len rest (size - 1)) as (x & r1 & -> & Hx); [lia|]. autorewrite with pdr in *.
  destruct (split_len r1 4) as (y & r2 & -> & Hy); [lia|]. autorewrite with pdr in *.
  destruct (split_len r2 (2 * (len name + 1))) as (z & r3 & -> & Hz); [lia|]. autorewrite with pdr in *.
  replace (len (bytes_of rs) + (size - 1)) with (len (bytes_of rs ++ x)) by (autorewrite with pdr; lia).
  rewrite (app_assoc (bytes_of rs)), put_at_middle by done. cbn [mbind option_bind].
  unfold pldm_pdr_encode_utf16be_terminated. rewrite encode_utf16_ok by lia.
  replace (len (bytes_of rs ++ x) + 4) with (len ((bytes_of rs ++ x) ++ [1; 0x65; 0x6e; 0])) by (autorewrite with pdr; lia).
  rewrite (app_assoc (bytes_of rs ++ x)), put_at_middle by (by rewrite utf16be_len). cbn [mbind option_bind]. rewrite Z.add_0_l.
  rewrite (proj2 (Z.eqb_neq (2 * _) 0)) by lia. unfold UINT16_MAX. rewrite (proj2 (Z.ltb_ge 65535 _)) by lia.
  rewrite <- !app_assoc. rewrite put_at_middle by (by rewrite auxiliary_names_len). cbn [mbind option_bind].
  rewrite (wrap_small 16) by (unwrap; lia).
  destruct (add_record_ok s rs (bytes_of rs ++ aux_name_bytes h id name ++ r3) h (aux_name_bytes h id name) r3 R) as (s' & E & R' & Sa);
    [lia|done|rewrite Rp; autorewrite with pdr; lia|].
  exists s'. split; [|done]. rewrite Haux in E. unfold aux_name_bytes in E at 1. rewrite utf16be_len in E. fold size in E.
  replace (size - sizeof_pldm_pdr_hdr - 1 + 4 + 2 * (len name + 1)) with (size - sizeof_pldm_pdr_hdr - 1 + (4 + 2 * (len name + 1))) in E by lia.
  replace (size - 1 + 4 + 2 * (len name + 1)) with (size - 1 + (4 + 2 * (len name + 1))) in E by lia.
  change (1 :: PLDM_PDR_SENSOR_AUX_LANG ++ [0]) with [1; 0x65; 0x6e; 0] in E. rewrite <- !app_assoc in E. by rewrite E.
Qed.

(** *** The repository of a list of sensors *)

(** The records of the sensors, [h] being the last handle given. *)
Fixpoint sensor_records (l : list numeric_sensor_desc) (h : Z) : list record :=
  match l with
  | [] => []
  | d :: l =>
      (h + 1, numeric_bytes (h + 1) d) ::
      match aux_name d with
      | Some ((_ :: _) as name) => (h + 2, aux_name_bytes (h + 2) (sensor_id d) name) :: sensor_records l (h + 2)
      | _ => sensor_records l (h + 1)
      end
  end.
Definition repository (sensors : list numeric_sensor_desc) : list record :=
  (PLDM_PDR_RECORD_HANDLE, terminus_locator_bytes (terminus_locator PLDM_PDR_RECORD_HANDLE)) :: sensor_records sensors PLDM_PDR_RECORD_HANDLE.

Definition name_ok (d : numeric_sensor_desc) : Prop := match aux_name d with Some name => len name < 30000 | None => True end.

Lemma bytes_of_cons h b rs : bytes_of ((h, b) :: rs) = b ++ bytes_of rs.
Proof. done. Qed.

Lemma snoc_len (rs : list record) h b : len (rs ++ [(h, b)]) = len rs + 1 /\ len (bytes_of (rs ++ [(h, b)])) = len (bytes_of rs) + len b.
Proof. rewrite bytes_of_app. autorewrite with pdr. unfold bytes_of at 2. cbn [fmap list_fmap concat snd]. rewrite app_nil_r. lia. Qed.

(** Room for more records. *)
Definition room (s : pdr_provider) (rs more : list record) : Prop :=
  len rs + len more <= len (pdr_records s) /\ len (bytes_of rs) + len (bytes_of more) <= len (pdr_repo s).

Lemma room_cons s s' rs h b more : room s rs ((h, b) :: more) -> same_arrays s s' ->
  (len rs < len (pdr_records s) /\ len (bytes_of rs) + len b <= len (pdr_repo s)) /\ room s' (rs ++ [(h, b)]) more.
Proof.
  unfold room. intros [H1 H2] (E1 & E2 & _). rewrite bytes_of_cons, len_app in H2. rewrite len_cons in H1. destruct (snoc_len rs h b) as [-> ->].
  rewrite E1, E2. pose proof (len_nonneg more). pose proof (len_nonneg (bytes_of more)). lia.
Qed.

Lemma same_arrays_refl s : same_arrays s s.
Proof. by split_and!. Qed.
Lemma same_arrays_trans s s' s'' : same_arrays s s' -> same_arrays s' s'' -> same_arrays s s''.
Proof. intros (A1 & A2 & A3) (B1 & B2 & B3). split_and!; congruence. Qed.

Lemma add_sensors_ok l h s rs :
  Forall name_ok l -> represents s rs -> 0 <= h -> h + len (sensor_records l h) < 2 ^ 32 -> room s rs (sensor_records l h) ->
  exists s', add_sensors l h s = Some (0, s') /\ represents s' (rs ++ sensor_records l h) /\ same_arrays s s'.
Proof.
  intros HF. revert h s rs. induction HF as [|d l Hd _ IH]; intros h s rs R Hh Hmax Hroom; cbn [add_sensors sensor_records] in *.
  { exists s. rewrite app_nil_r. split; [done|]. split; [done|apply same_arrays_refl]. }
  rewrite len_cons in Hmax. match type of Hmax with _ + (1 + len ?k) < _ => pose proof (len_nonneg k) end.
  rewrite (wrap_small 32 (h + 1)) by (unwrap; lia). rewrite encode_numeric, wire_size, Z.eqb_refl. cbn [negb].
  destruct (room_cons _ s _ _ _ _ Hroom (same_arrays_refl s)) as [ [Hc Hb] _].
  destruct (append_record_ok s rs (h + 1) (numeric_bytes (h + 1) d) R Hc Hb) as (s1 & -> & R1 & S1). cbn [mbind option_bind Z.eqb negb].
  apply (room_cons s s1) in Hroom as [_ Hroom]; [|done]. clear Hc Hb R. unfold name_ok in Hd.
  set (rs1 := rs ++ [(h + 1, numeric_bytes (h + 1) d)]) in *.
  rewrite (cons_middle (h + 1, numeric_bytes (h + 1) d)), app_assoc. fold rs1.
  destruct (aux_name d) as [ [|c name]|].
  2: { rewrite len_cons in *. match type of Hmax with _ + (1 + (1 + len ?k)) < _ => pose proof (len_nonneg k) end.
    replace (h + 1 + 1) with (h + 2) by lia. rewrite (wrap_small 32 (h + 2)) by (unwrap; lia).
    destruct (room_cons _ s1 _ _ _ _ Hroom (same_arrays_refl s1)) as [ [Hc Hb] _]. rewrite aux_name_bytes_len in Hb.
    destruct (append_aux_ok s1 rs1 (h + 2) (sensor_id d) (c :: name) R1 Hc Hb Hd) as (s2 & -> & R2 & S2). cbn [mbind option_bind Z.eqb negb].
    apply (room_cons s1 s2) in Hroom as [_ Hroom]; [|done].
    destruct (IH (h + 2) s2 _ R2 ltac:(lia) ltac:(lia) Hroom) as (s3 & -> & R3 & S3). exists s3. split; [done|]. split; [by rewrite <- app_assoc in R3|].
    eapply same_arrays_trans; [done|]. by eapply same_arrays_trans. }
  all: destruct (IH (h + 1) s1 rs1 R1 ltac:(lia) ltac:(lia) Hroom) as (s3 & -> & R3 & S3);
    exists s3; split; [done|]; split; [done|by eapply same_arrays_trans].
Qed.

Lemma sensor_records_count l h : len (sensor_records l h) <= len l + len (filter (fun d => aux_name d <> None) l).
Proof.
  revert h. induction l as [|d l IH]; intros h; cbn [sensor_records]; [done|]. rewrite filter_cons, !len_cons.
  destruct (aux_name d) as [ [|c name]|]; case_decide; try done; rewrite ?len_cons; pose proof (IH (h + 1)); pose proof (IH (h + 2)); lia.
Qed.

Lemma aux_size_nonneg name : 0 <= PLDM_PDR_AUX_NAME_RECORD_SIZE name.
Proof. rewrite <- (aux_name_bytes_len 0 0). apply len_nonneg. Qed.

Lemma sensor_records_size l h :
  len (bytes_of (sensor_records l h)) <= fold_right (fun d n => PLDM_PDR_NUMERIC_SENSOR_RECORD_WIRE_SIZE + n) 0 l +
    fold_right (fun d n => match aux_name d with Some name => PLDM_PDR_AUX_NAME_RECORD_SIZE name | None => 0 end + n) 0 l.
Proof.
  revert h. induction l as [|d l IH]; intros h; cbn [sensor_records fold_right]; [done|]. rewrite bytes_of_cons, len_app, wire_size.
  pose proof (IH (h + 1)). pose proof (IH (h + 2)). destruct (aux_name d) as [ [|c name]|]; [| |lia].
  - pose proof (aux_size_nonneg []). lia.
  - rewrite bytes_of_cons, len_app, aux_name_bytes_len. lia.
Qed.

Lemma represents_empty s :
  pdr_record_count s = 0 -> pdr_repo_size s = 0 -> pdr_largest_record_size s = 0 -> len (pdr_repo s) < 2 ^ 32 -> len (pdr_records s) < 2 ^ 32 -> represents s [].
Proof. intros. split; [done|by eexists|done|by eexists|done|done]. Qed.

Lemma provider_init_ok sensors s :
  Forall name_ok sensors -> represents s [] -> len (repository sensors) <= len (pdr_records s) -> len (bytes_of (repository sensors)) <= len (pdr_repo s) ->
  exists s', pldm_pdr_provider_init sensors s = Some (0, s') /\ represents s' (repository sensors) /\ same_arrays s s'.
Proof.
  intros HF R Hc Hs. pose proof (rep_small _ _ R) as [_ Hsm]. unfold repository, pldm_pdr_provider_init, PLDM_PDR_RECORD_HANDLE in *. cbv zeta.
  rewrite len_cons in Hc. rewrite bytes_of_cons, len_app in Hs. pose proof (len_nonneg (sensor_records sensors 1)). pose proof (len_nonneg (bytes_of (sensor_records sensors 1))).
  destruct (append_record_ok s [] 1 (terminus_locator_bytes (terminus_locator 1)) R) as (s1 & -> & R1 & (L1 & C1 & T1)); [cbn in *; lia|cbn in *; lia|].
  cbn [mbind option_bind Z.eqb negb app] in *.
  destruct (add_sensors_ok sensors 1 s1 _ HF R1) as (s2 & -> & R2 & (L2 & C2 & T2)); [lia|lia| |].
  { unfold room. rewrite bytes_of_cons, len_app, len_cons. change (len (bytes_of [])) with 0. rewrite len_nil, L1, C1. lia. }
  exists s2. split; [done|]. split; [done|]. split_and!; congruence.
Qed.
End build.

(** ** Reading *)

Lemma infos_lookup off rs i h b :
  rs !! i = Some (h, b) -> infos off rs !! i = Some (MkInfo h (off + len (bytes_of (take i rs))) (len b)).
Proof.
  revert off rs. induction i as [|i IH]; intros off [|[h' b'] rs] E; try done; cbn [lookup list_lookup infos take] in *.
  - simplify_eq. change (len (bytes_of [])) with 0. by rewrite Z.add_0_r.
  - rewrite (IH _ _ E), bytes_of_cons, len_app. do 2 f_equal. lia.
Qed.

(** The bytes of a record inside the repository. *)
Lemma slice_ok rs i h b rest :
  rs !! i = Some (h, b) ->
  exists a c, bytes_of rs ++ rest = a ++ b ++ c /\ len a = len (bytes_of (take i rs)).
Proof.
  intros E. exists (bytes_of (take i rs)), (bytes_of (drop (S i) rs) ++ rest). split; [|done].
  rewrite <- (take_drop_middle rs i (h, b) E) at 1. rewrite bytes_of_app, bytes_of_cons. by rewrite <- !app_assoc.
Qed.

Lemma rep_lookup s rs i h b :
  represents s rs -> 0 <= i -> rs !! Z.to_nat i = Some (h, b) ->
  i < len rs /\ aget (pdr_records s) i = Some (MkInfo h (len (bytes_of (take (Z.to_nat i) rs))) (len b)).
Proof.
  intros [_ _ _ [tl Rr] _ _] Hi E. pose proof (lookup_lt_Some _ _ _ E). split; [lia|].
  rewrite aget_nat, Rr by done. rewrite lookup_app_l by (by rewrite infos_length). rewrite (infos_lookup 0 _ _ _ _ E). by rewrite Z.add_0_l.
Qed.

(** The handle that follows record [i]: 0 after the last. *)
Definition next_handle (rs : list record) (i : Z) : Z := match rs !! Z.to_nat (i + 1) with Some (h, _) => h | None => 0 end.

Lemma get_record_ok s rs i h b :
  represents s rs -> 0 <= i -> rs !! Z.to_nat i = Some (h, b) ->
  pldm_pdr_get_record_at_index true i s = Some (inr (MkMeta h b (next_handle rs i))).
Proof.
  intros R Hi E. destruct (rep_lookup s rs i h b R Hi E) as [Hlt Eg]. pose proof R as [Rc [rest Rp] _ [tl Rr] _ [Hs1 Hs2]].
  assert (Hlen : len rs <= len (pdr_records s)) by (rewrite Rr, len_app, infos_length; lia).
  unfold pldm_pdr_get_record_at_index. rewrite Rc, (proj2 (Z.leb_gt _ _)) by lia. cbn [negb]. rewrite Eg. cbn [mbind option_bind offset length_of handle].
  destruct (slice_ok rs (Z.to_nat i) h b rest E) as (a & c & Eb & Ha). rewrite Rp, Eb. autorewrite with pdr. rewrite <- Ha.
  pose proof (len_nonneg b). pose proof (len_nonneg c). rewrite (proj2 (Z.ltb_ge _ _)), (proj2 (Z.ltb_ge _ (len b))) by lia. cbn [orb].
  rewrite wrap_small by (unwrap; lia). unfold next_handle.
  assert (Eslice : take (Z.to_nat (len b)) (drop (Z.to_nat (len a)) (a ++ b ++ c)) = b) by (rewrite !Nat2Z.id, drop_app_length, take_app_length; done).
  rewrite Eslice. destruct (Z.ltb_spec (i + 1) (len rs)) as [Hl|Hl].
  - destruct (lookup_lt_is_Some_2 rs (Z.to_nat (i + 1))) as [[h' b'] E']; [lia|]. destruct (rep_lookup s rs (i + 1) h' b' R) as [_ ->]; [lia|done|].
    cbn [mbind option_bind]. by rewrite E'.
  - cbn [mbind option_bind]. by rewrite lookup_ge_None_2 by lia.
Qed.

Lemma get_record_out s rs i : represents s rs -> len rs <= i -> pldm_pdr_get_record_at_index true i s = Some (inl (- ERANGE)).
Proof. intros [Rc _ _ _ _ _] Hi. unfold pldm_pdr_get_record_at_index. by rewrite Rc, (proj2 (Z.leb_le _ _)) by lia. Qed.

(** The index found is that of the first record with the handle. *)
Lemma find_handle_ok s rs h n i :
  represents s rs -> 0 <= i -> Z.of_nat n + i = len rs ->
  (exists j b, i <= j /\ rs !! Z.to_nat j = Some (h, b) /\ find_handle n i h s = Some (inr j)) \/
  (find_handle n i h s = Some (inl (- ENOENT)) /\ forall j b, i <= j -> rs !! Z.to_nat j <> Some (h, b)).
Proof.
  intros R. revert i. induction n as [|n IH]; intros i Hi Hn; cbn [find_handle].
  - right. split; [done|]. intros j b Hj E. apply lookup_lt_Some in E. lia.
  - destruct (lookup_lt_is_Some_2 rs (Z.to_nat i)) as [[h' b'] E]; [lia|]. destruct (rep_lookup s rs i h' b' R Hi E) as [_ ->].
    cbn [mbind option_bind handle]. destruct (Z.eqb_spec h' h) as [->|Hne].
    + left. by exists i, b'.
    + destruct (IH (i + 1) ltac:(lia) ltac:(lia)) as [(j & b & Hj & Ej & ->)|[-> Hno]]; [left; exists j, b; split_and!; [lia|done|done]|right].
      split; [done|]. intros j b Hj Ej. destruct (Z.eq_dec j i) as [->|]; [congruence|]. apply (Hno j b); [lia|done].
Qed.

Section reading.
Context `{LibpldmLaws}.

(** The answer that record [i], from offset [off] on, gives to a request. *)
Definition chunk (rs : list record) (i : Z) (b : list Z) (off : Z) (req : get_chunk_request) : get_chunk_response :=
  let n := Z.min (Z.min (request_count req) (len b - off)) (max_response_count req) in
  let last := off + n =? len b in
  MkResp (next_handle rs i) (if last then 0 else off + n)
    (if off =? 0 then if last then PLDM_START_AND_END else PLDM_START else if last then PLDM_END else PLDM_MIDDLE)
    (take (Z.to_nat n) (drop (Z.to_nat off) b)) (if last then pldm_edac_crc8 b else 0).

(** The transfer in progress, if any, is inside the record it names. *)
Definition transfer_ok (s : pdr_provider) (rs : list record) : Prop :=
  transfer_active s = true -> exists b, 0 <= transfer_record_index s /\
    rs !! Z.to_nat (transfer_record_index s) = Some (transfer_record_handle s, b) /\ 0 < transfer_next_data_handle s < len b.

(** The state after a chunk. *)
Definition after_chunk (i h : Z) (r : get_chunk_response) (s : pdr_provider) : pdr_provider :=
  let more := negb (rs_next_data_transfer_handle r =? 0) in
  set_transfer more (if more then h else 0) (if more then i else 0) (rs_next_data_transfer_handle r) s.

Lemma represents_transfer s rs a h i n : represents s rs -> represents (set_transfer a h i n s) rs.
Proof. by intros []. Qed.

Lemma build_chunk_ok s rs i h b off req :
  represents s rs -> 0 <= i -> rs !! Z.to_nat i = Some (h, b) -> 0 <= off < len b -> 0 < request_count req -> 0 < max_response_count req ->
  let r := chunk rs i b off req in let s' := after_chunk i h r s in
  pldm_pdr_build_chunk true i off req s = Some (inr r, s') /\ represents s' rs /\ transfer_ok s' rs.
Proof.
  intros R Hi E Hoff Hc Hm r s'. pose proof (rep_small _ _ R) as [Hs _]. destruct (rep_repo _ _ R) as [rest Rp].
  assert (Hb : len b <= len (pdr_repo s)).
  { destruct (slice_ok rs _ _ _ rest E) as (a & c & Eb & _). rewrite Rp, Eb. autorewrite with pdr. pose proof (len_nonneg a). pose proof (len_nonneg c). lia. }
  unfold pldm_pdr_build_chunk. rewrite (get_record_ok s rs i h b R Hi E). cbn [mbind option_bind record_data record_handle next_record_handle].
  rewrite (proj2 (Z.leb_gt _ _)) by lia. unfold s', r, after_chunk, chunk. cbn [rs_next_data_transfer_handle].
  set (n := Z.min (Z.min (request_count req) (len b - off)) (max_response_count req)).
  assert (Hn : 0 < n <= len b - off) by lia.
  replace (len b <=? off + n) with (off + n =? len b) by (destruct (Z.eqb_spec (off + n) (len b)), (Z.leb_spec (len b) (off + n)); try done; lia).
  destruct (Z.eqb_spec (off + n) (len b)) as [Hl|Hl]; cbn [negb Z.eqb].
  - rewrite !andb_true_r. split; [by destruct (off =? 0)|]. split; [by apply represents_transfer|done].
  - rewrite andb_false_r. rewrite wrap_small by (unwrap; lia). rewrite (proj2 (Z.eqb_neq (off + n) 0)) by lia. cbn [negb].
    split; [by destruct (off =? 0)|]. split; [by apply represents_transfer|]. intros _. exists b. cbn [set_transfer transfer_record_index transfer_record_handle transfer_next_data_handle]. split; [done|]. split; [done|lia].
Qed.

(** The record a first request starts at. *)
Definition starts (rs : list record) (i h : Z) (b : list Z) (req : get_chunk_request) : Prop :=
  0 <= i /\ rs !! Z.to_nat i = Some (h, b) /\ (rq_record_handle req = h \/ rq_record_handle req = 0 /\ i = 0).

Definition served (rs : list record) (s : pdr_provider) (req : get_chunk_request) (r : get_chunk_response) (s' : pdr_provider) : Prop :=
  exists i h b off, rs !! Z.to_nat i = Some (h, b) /\ 0 <= i /\ 0 <= off < len b /\ r = chunk rs i b off req /\ s' = after_chunk i h r s /\
    (transfer_op_flag req = PLDM_GET_FIRSTPART /\ off = 0 /\ starts rs i h b req \/
     transfer_op_flag req = PLDM_GET_NEXTPART /\ off = rq_data_transfer_handle req /\ h = rq_record_handle req /\
       transfer_active s = true /\ i = transfer_record_index s).
Definition refused (rs : list record) (s : pdr_provider) (ready : bool) (req : get_chunk_request) (rc : Z) : Prop :=
  rc = - EINVAL /\ (request_count req = 0 \/ max_response_count req = 0) \/
  rc = - ENODEV /\ ready = false \/
  rc = - ENOENT /\ transfer_op_flag req = PLDM_GET_FIRSTPART /\ (forall b, (rq_record_handle req, b) ∉ rs) \/
  rc = - EBADMSG /\ transfer_op_flag req = PLDM_GET_NEXTPART /\
    (transfer_active s = false \/ rq_record_handle req <> transfer_record_handle s \/ rq_data_transfer_handle req <> transfer_next_data_handle s) \/
  rc = - EOPNOTSUPP /\ transfer_op_flag req <> PLDM_GET_FIRSTPART /\ transfer_op_flag req <> PLDM_GET_NEXTPART.

Lemma get_chunk_ok s rs ready req :
  represents s rs -> transfer_ok s rs -> rs <> [] -> Forall (fun r => r.2 <> []) rs -> 0 <= request_count req -> 0 <= max_response_count req ->
  (exists r s', pldm_pdr_get_chunk ready req s = Some (inr r, s') /\ represents s' rs /\ transfer_ok s' rs /\ served rs s req r s') \/
  (exists rc, pldm_pdr_get_chunk ready req s = Some (inl rc, s) /\ refused rs s ready req rc).
Proof.
  intros R T Hne HF Hc Hm. unfold pldm_pdr_get_chunk, refused.
  destruct (Z.eqb_spec (request_count req) 0); cbn [orb]; [right; eexists; split; [done|auto]|].
  destruct (Z.eqb_spec (max_response_count req) 0); cbn [orb]; [right; eexists; split; [done|auto]|].
  destruct ready; cbn [negb]; [|right; eexists; split; [done|auto] ].
  assert (Hpos : forall i h b, rs !! i = Some (h, b) -> 0 < len b).
  { intros i h b E. rewrite Forall_lookup in HF. specialize (HF _ _ E). cbn in HF. destruct b; [done|]. rewrite len_cons. pose proof (len_nonneg b). lia. }
  assert (Hbuild : forall i h b off, 0 <= i -> rs !! Z.to_nat i = Some (h, b) -> 0 <= off < len b ->
    (transfer_op_flag req = PLDM_GET_FIRSTPART /\ off = 0 /\ starts rs i h b req \/ transfer_op_flag req = PLDM_GET_NEXTPART /\
      off = rq_data_transfer_handle req /\ h = rq_record_handle req /\ transfer_active s = true /\ i = transfer_record_index s) ->
    exists r s', pldm_pdr_build_chunk true i off req s = Some (inr r, s') /\ represents s' rs /\ transfer_ok s' rs /\ served rs s req r s').
  { intros i h b off Hi E Ho Hor. destruct (build_chunk_ok s rs i h b off req R Hi E Ho) as (Eb & R' & T'); [lia|lia|].
    eexists _, _. split; [exact Eb|]. split; [done|]. split; [done|]. by exists i, h, b, off. }
  destruct (Z.eqb_spec (transfer_op_flag req) PLDM_GET_FIRSTPART) as [Ef|Ef].
  - destruct (Z.eqb_spec (rq_record_handle req) 0) as [E0|E0].
    + cbn [mbind option_bind]. destruct rs as [|[h b] rs']; [done|]. left. apply (Hbuild 0 h b 0); [done|done|pose proof (Hpos 0%nat h b eq_refl); lia|].
      left. split_and!; [done|done|]. split; [done|]. split; [done|by right].
    + unfold pldm_pdr_find_record_index. cbn [negb].
      destruct (find_handle_ok s rs (rq_record_handle req) (Z.to_nat (pdr_record_count s)) 0 R) as [(i & b & Hi & E & ->)|[-> Hno]];
        [done|rewrite (rep_count _ _ R); lia| |]; cbn [mbind option_bind].
      * left. apply (Hbuild i (rq_record_handle req) b 0); [done|done|pose proof (Hpos _ _ _ E); lia|]. left. split_and!; [done|done|]. split; [done|]. split; [done|by left].
      * right. eexists. split; [done|]. right; right; left. split; [done|]. split; [done|]. intros b Hin. apply list_elem_of_lookup in Hin as [j Ej].
        apply (Hno (Z.of_nat j) b); [lia|]. by rewrite Nat2Z.id.
  - destruct (Z.eqb_spec (transfer_op_flag req) PLDM_GET_NEXTPART) as [En|En]; [|right; eexists; split; [done|by do 4 right] ].
    destruct (transfer_active s) eqn:Ea; cbn [negb orb]; [|right; eexists; split; [done|]; do 3 right; left; split_and!; [done|done|by left] ].
    destruct (Z.eqb_spec (rq_record_handle req) (transfer_record_handle s)) as [Eh|Eh]; cbn [negb orb];
      [|right; eexists; split; [done|]; do 3 right; left; split_and!; [done|done|by right; left] ].
    destruct (Z.eqb_spec (rq_data_transfer_handle req) (transfer_next_data_handle s)) as [Ed|Ed]; cbn [negb];
      [|right; eexists; split; [done|]; do 3 right; left; split_and!; [done|done|by right; right] ].
    left. destruct (T Ea) as (b & Hi & E & Ho). rewrite <- Ed in Ho. rewrite <- Eh in E. apply (Hbuild _ _ b _ Hi E); [lia|]. right. by split_and!.
Qed.
End reading.

(** ** The properties *)

Section properties.
Context `{LibpldmLaws}.

Lemma sensor_handles l h : 0 <= h -> fst <$> sensor_records l h = seqZ (h + 1) (len (sensor_records l h)).
Proof.
  revert h. induction l as [|d l IH]; intros h Hh; cbn [sensor_records fmap list_fmap]; [done|].
  assert (Hc : forall (r : record) k, len (r :: k) = Z.succ (len k)) by (intros; rewrite len_cons; lia).
  destruct (aux_name d) as [ [|c name]|]; cbn [fmap list_fmap fst]; rewrite !Hc.
  2: { rewrite (seqZ_cons (h + 1)), (seqZ_cons (Z.succ (h + 1))) by (pose proof (len_nonneg (sensor_records l (h + 2))); lia).
    change (list_fmap _ _ fst ?x) with (fst <$> x). rewrite IH by lia. f_equal. f_equal; [lia|]. f_equal; lia. }
  all: rewrite (seqZ_cons (h + 1)) by (pose proof (len_nonneg (sensor_records l (h + 1))); lia); change (list_fmap _ _ fst ?x) with (fst <$> x);
    rewrite IH by lia; f_equal; f_equal; lia.
Qed.

Lemma repository_handles sensors : fst <$> repository sensors = seqZ 1 (len (repository sensors)).
Proof.
  unfold repository. cbn [fmap list_fmap fst]. rewrite len_cons. replace (1 + len (sensor_records sensors PLDM_PDR_RECORD_HANDLE)) with (Z.succ (len (sensor_records sensors PLDM_PDR_RECORD_HANDLE))) by lia.
  rewrite seqZ_cons by (pose proof (len_nonneg (sensor_records sensors PLDM_PDR_RECORD_HANDLE)); lia). f_equal. rewrite Z.pred_succ. by apply sensor_handles.
Qed.

(** Room in the arrays of the instance. *)
Lemma instance_room sensors :
  len (repository sensors) <= PLDM_PDR_RECORD_COUNT sensors /\ len (bytes_of (repository sensors)) <= PLDM_PDR_REPO_SIZE sensors.
Proof.
  unfold repository, PLDM_PDR_RECORD_COUNT, PLDM_PDR_REPO_SIZE. rewrite len_cons, bytes_of_cons, len_app, terminus_locator_len.
  pose proof (sensor_records_count sensors PLDM_PDR_RECORD_HANDLE). pose proof (sensor_records_size sensors PLDM_PDR_RECORD_HANDLE). lia.
Qed.

Lemma update_tid_eid_ok s rs t tid eid :
  represents s ((1, terminus_locator_bytes t) :: rs) -> hdr_type (tl_hdr t) = PLDM_TERMINUS_LOCATOR_PDR ->
  exists s', pldm_pdr_update_tid_eid true tid eid s = Some (0, s') /\
    represents s' ((1, terminus_locator_set tid eid (terminus_locator_bytes t)) :: rs) /\ transfer_active s' = transfer_active s.
Proof.
  intros R Ht. pose proof R as [Rc [rest Rp] Rs [tl Rr] Rl Rsm]. unfold pldm_pdr_update_tid_eid. cbn [negb].
  rewrite Rr. cbn [infos app]. rewrite aget_nat by done. change (Z.to_nat 0) with 0%nat. cbn [lookup list_lookup mbind option_bind offset length_of].
  rewrite bytes_of_cons in Rp. rewrite terminus_locator_len. pose proof terminus_locator_size as Hsz.
  pose proof (terminus_locator_len t) as Hl. pose proof (len_nonneg (bytes_of rs)). pose proof (len_nonneg rest).
  cbv zeta. rewrite Rp. rewrite !len_app, Hl. rewrite Z.ltb_irrefl, (proj2 (Z.ltb_ge _ _)), (proj2 (Z.ltb_ge _ 0)) by lia. cbn [orb].
  change (Z.to_nat 0) with 0%nat. rewrite drop_0, <- !app_assoc, take_app_length' by lia.
  rewrite terminus_locator_type_bytes, Ht, Z.eqb_refl. cbn [negb].
  assert (Hl' : len (terminus_locator_set tid eid (terminus_locator_bytes t)) = len (terminus_locator_bytes t)) by (by rewrite terminus_locator_set_bytes, !terminus_locator_len).
  pose proof (put_at_middle [] (terminus_locator_bytes t) (bytes_of rs ++ rest) _ Hl') as Hput. cbn [app] in Hput. change (len (@nil Z)) with 0 in Hput.
  rewrite Hput. cbn [mbind option_bind].
  eexists. split; [reflexivity|]. split; [|done]. split; cbn [pdr_record_count pdr_repo pdr_repo_size pdr_records pdr_largest_record_size set_repo].
  - by rewrite Rc.
  - exists rest. by rewrite bytes_of_cons, <- app_assoc.
  - rewrite Rs, !bytes_of_cons, !len_app. by rewrite Hl'.
  - exists tl. rewrite Rr. cbn [infos app]. by rewrite Hl'.
  - rewrite Rl. unfold largest. cbn [fold_left snd]. by rewrite Hl'.
  - rewrite Rp, Rr in Rsm. rewrite !len_app, Hl in Rsm. rewrite Rr, !len_app, Hl', Hl. by rewrite Z.add_assoc.
Qed.

(** C40: the repository is built as the devicetree describes it.  On the arrays the
    driver is instantiated with, whatever the sensors, initialisation succeeds
    -- the sizes computed by the preprocessor are enough -- and the repository
    holds, back to back, the terminus locator, and for each sensor in order its
    record and, if it has a name, its name; the handles count up from 1, no transfer
    is open; and setting the runtime identifiers replaces them in the first record and nothing else. *)
Theorem pdr_repository_built sensors :
  Forall name_ok sensors -> PLDM_PDR_RECORD_COUNT sensors < 2 ^ 32 -> PLDM_PDR_REPO_SIZE sensors < 2 ^ 32 ->
  exists s, pldm_pdr_provider_init sensors (pdr_instance sensors) = Some (0, s) /\ represents s (repository sensors) /\
    fst <$> repository sensors = seqZ 1 (len (repository sensors)) /\ transfer_active s = false /\
    forall tid eid, exists s', pldm_pdr_update_tid_eid true tid eid s = Some (0, s') /\ transfer_active s' = false /\
      represents s' ((1, terminus_locator_bytes (MkTl (tl_hdr (terminus_locator 1)) PLDM_PDR_TERMINUS_HANDLE PLDM_TL_PDR_VALID tid 0
        PLDM_TERMINUS_LOCATOR_TYPE_MCTP_EID 1 eid)) :: sensor_records sensors 1).
Proof.
  intros HF Hc Hs. destruct (instance_room sensors) as [Hr1 Hr2]. pose proof (len_nonneg (repository sensors)). pose proof (len_nonneg (bytes_of (repository sensors))).
  assert (L1 : len (pdr_records (pdr_instance sensors)) = PLDM_PDR_RECORD_COUNT sensors) by (cbn [pdr_records pdr_instance]; rewrite length_replicate; lia).
  assert (L2 : len (pdr_repo (pdr_instance sensors)) = PLDM_PDR_REPO_SIZE sensors) by (cbn [pdr_repo pdr_instance]; rewrite length_replicate; lia).
  destruct (provider_init_ok sensors (pdr_instance sensors) HF) as (s & E & R & (_ & _ & Ta)); [by apply represents_empty; rewrite ?L1, ?L2|lia|lia|].
  exists s. split; [done|]. split; [done|]. split; [apply repository_handles|]. split; [done|]. intros tid eid.
  destruct (update_tid_eid_ok s (sensor_records sensors 1) (terminus_locator 1) tid eid R eq_refl) as (s' & E' & R' & Ta').
  exists s'. split; [done|]. split; [by rewrite Ta', Ta|]. by rewrite terminus_locator_set_bytes in R'.
Qed.

(** *** Hosts *)

(** Requests as they arrive, whoever sends them; each with the readiness of the device. *)
Fixpoint pdr_run (reqs : list (bool * get_chunk_request)) (s : pdr_provider) : option (list (Z + get_chunk_response) * pdr_provider) :=
  match reqs with
  | [] => Some ([], s)
  | (ready, req) :: reqs => '(r, s) ← pldm_pdr_get_chunk ready req s; '(l, s) ← pdr_run reqs s; Some (r :: l, s)
  end.

(** What any host can rely on, from its request alone. *)
Definition answered (rs : list record) (req : get_chunk_request) (a : Z + get_chunk_response) : Prop :=
  match a with
  | inl rc =>
      rc = - EINVAL /\ (request_count req = 0 \/ max_response_count req = 0) \/
      rc = - ENODEV \/
      rc = - ENOENT /\ transfer_op_flag req = PLDM_GET_FIRSTPART /\ (forall b, (rq_record_handle req, b) ∉ rs) \/
      rc = - EBADMSG /\ transfer_op_flag req = PLDM_GET_NEXTPART \/
      rc = - EOPNOTSUPP /\ transfer_op_flag req <> PLDM_GET_FIRSTPART /\ transfer_op_flag req <> PLDM_GET_NEXTPART
  | inr r => exists i h b off, rs !! Z.to_nat i = Some (h, b) /\ 0 <= i /\ 0 <= off < len b /\ r = chunk rs i b off req /\
      (transfer_op_flag req = PLDM_GET_FIRSTPART /\ off = 0 /\ (rq_record_handle req = h \/ rq_record_handle req = 0 /\ i = 0) \/
       transfer_op_flag req = PLDM_GET_NEXTPART /\ off = rq_data_transfer_handle req /\ h = rq_record_handle req)
  end.

(** Chunks are never mixed up.  Whatever requests arrive, in any order and from any
    number of hosts that interrupt one another, every one is answered without an
    access outside the repository; and every successful answer carries exactly
    the bytes of the record it was asked for, from the offset it was asked for, as
    many as both sides allow, with the flag, the next offset, the next record
    and the CRC that belong to them; all other requests are refused. *)
Theorem pdr_requests_sound reqs s rs :
  represents s rs -> transfer_active s = false -> rs <> [] -> Forall (fun r => r.2 <> []) rs ->
  Forall (fun q => 0 <= request_count q.2 /\ 0 <= max_response_count q.2) reqs ->
  exists l s', pdr_run reqs s = Some (l, s') /\ Forall2 (fun q a => answered rs q.2 a) reqs l /\ represents s' rs.
Proof.
  intros R Ta Hne Hbs HF. assert (T : transfer_ok s rs) by (intros E; congruence). clear Ta. revert s R T.
  induction HF as [|[ready req] reqs [Hc Hm] _ IH]; intros s R T; cbn [pdr_run]; [by exists [], s|].
  destruct (get_chunk_ok s rs ready req R T Hne Hbs Hc Hm) as [(r & s1 & -> & R1 & T1 & Hs)|(rc & -> & Hr)]; cbn [mbind option_bind].
  - destruct (IH s1 R1 T1) as (l & s2 & -> & F2 & R2). cbn [mbind option_bind]. exists (inr r :: l), s2. split; [done|]. split; [|done].
    apply Forall2_cons. split; [|done]. destruct Hs as (i & h & b & off & E & Hi & Ho & Er & _ & Hk). exists i, h, b, off.
    split_and!; [done|done|lia|lia|done|]. destruct Hk as [(? & ? & _ & _ & ?)|(? & ? & ? & _)]; [by left|by right].
  - destruct (IH s R T) as (l & s2 & -> & F2 & R2). cbn [mbind option_bind]. exists (inl rc :: l), s2. split; [done|]. split; [|done].
    apply Forall2_cons. split; [|done]. unfold refused in Hr. cbn. tauto.
Qed.
End properties.

(** ** A host that reads the repository *)

Section host.
Context `{LibpldmLaws}.
(** How much the host asks for in its requests, and the room there is for the answer. *)
Variable ask : nat -> Z * Z.
Hypothesis Hask : forall k, 0 < (ask k).1 /\ 0 < (ask k).2.

(** One record: parts until the last; its bytes, its CRC and the next record. *)
Fixpoint fetch (fuel k : nat) (h op off : Z) (acc : list Z) (s : pdr_provider) : option (list Z * Z * Z * pdr_provider) :=
  match fuel with
  | O => None
  | S fuel =>
      '(r, s) ← pldm_pdr_get_chunk true (MkReq h off op (ask k).1 (ask k).2) s;
      match r with
      | inl _ => None
      | inr r =>
          let acc := acc ++ rs_record_data r in
          if (transfer_flag r =? PLDM_END) || (transfer_flag r =? PLDM_START_AND_END) then Some (acc, transfer_crc r, rs_next_record_handle r, s)
          else fetch fuel (S k) h PLDM_GET_NEXTPART (rs_next_data_transfer_handle r) acc s
      end
  end.
(** All records from one on, each with a CRC that matches. *)
Fixpoint fetch_all (n fuel : nat) (h : Z) (s : pdr_provider) : option (list record * pdr_provider) :=
  match n with
  | O => None
  | S n =>
      '(b, crc, next, s) ← fetch fuel 0 h PLDM_GET_FIRSTPART 0 [] s;
      if negb (crc =? pldm_edac_crc8 b) then None
      else if next =? 0 then Some ([(h, b)], s)
      else '(l, s) ← fetch_all n fuel next s; Some ((h, b) :: l, s)
  end.

Lemma flags : PLDM_START <> PLDM_END /\ PLDM_START <> PLDM_START_AND_END /\ PLDM_MIDDLE <> PLDM_END /\ PLDM_MIDDLE <> PLDM_START_AND_END.
Proof.
  pose proof flags_differ as F. repeat (apply NoDup_cons in F as [? F]). set_solver.
Qed.

(** The part of a record from [off] on; [op] is right for it. *)
Lemma fetch_from fuel k rs i h b op off acc s :
  represents s rs -> 0 <= i -> rs !! Z.to_nat i = Some (h, b) -> 0 <= off < len b -> len b - off <= Z.of_nat fuel ->
  pldm_pdr_get_chunk true (MkReq h off op (ask k).1 (ask k).2) s = pldm_pdr_build_chunk true i off (MkReq h off op (ask k).1 (ask k).2) s ->
  exists s', fetch fuel k h op off acc s = Some (acc ++ drop (Z.to_nat off) b, pldm_edac_crc8 b, next_handle rs i, s') /\
    represents s' rs /\ transfer_active s' = false.
Proof.
  revert k op off acc s. induction fuel as [|fuel IH]; intros k op off acc s R Hi E Ho Hf Hop; [lia|]. cbn [fetch]. rewrite Hop.
  destruct (build_chunk_ok s rs i h b off (MkReq h off op (ask k).1 (ask k).2) R Hi E Ho) as (Eb & R' & T'); [apply Hask..|].
  rewrite Eb. cbn [mbind option_bind]. clear Hop Eb. revert R' T'. unfold after_chunk, chunk. cbn [rs_next_data_transfer_handle request_count max_response_count].
  destruct (Hask k) as [Hk1 Hk2]. set (n := Z.min (Z.min (ask k).1 (len b - off)) (ask k).2). assert (Hn : 0 < n <= len b - off) by lia.
  destruct flags as (F1 & F2 & F3 & F4).
  destruct (Z.eqb_spec (off + n) (len b)) as [Hl|Hl]; cbn [Z.eqb negb transfer_flag transfer_crc rs_next_record_handle rs_record_data rs_next_data_transfer_handle]; intros R' T'.
  - replace (((if off =? 0 then PLDM_START_AND_END else PLDM_END) =? PLDM_END) || _) with true by (destruct (off =? 0); by rewrite ?Z.eqb_refl, ?orb_true_r).
    eexists. split; [|by split]. do 4 f_equal. f_equal. apply take_ge. rewrite length_drop. lia.
  - rewrite (proj2 (Z.eqb_neq (off + n) 0)) in * by lia. cbn [negb] in *.
    replace (((if off =? 0 then PLDM_START else PLDM_MIDDLE) =? PLDM_END) || _) with false
      by (destruct (off =? 0); by rewrite !(proj2 (Z.eqb_neq _ _)) by done).
    destruct (IH (S k) PLDM_GET_NEXTPART (off + n) (acc ++ take (Z.to_nat n) (drop (Z.to_nat off) b)) _ R' Hi E) as (s' & -> & R2 & T2); [lia|lia| |].
    + unfold pldm_pdr_get_chunk. cbn [request_count max_response_count transfer_op_flag rq_record_handle rq_data_transfer_handle set_transfer transfer_active
        transfer_record_handle transfer_record_index transfer_next_data_handle]. destruct (Hask (S k)) as [Hk1' Hk2'].
      rewrite !(proj2 (Z.eqb_neq _ 0)) by lia. cbn [orb negb]. rewrite (proj2 (Z.eqb_neq PLDM_GET_NEXTPART _)) by (intros ?; by apply first_not_next).
      rewrite !Z.eqb_refl. done.
    + exists s'. split; [|done]. do 4 f_equal. rewrite <- app_assoc. f_equal.
      replace (Z.to_nat (off + n)) with (Z.to_nat off + Z.to_nat n)%nat by lia. by rewrite <- drop_drop, take_drop.
Qed.

(** A record by its handle. *)
Lemma fetch_record fuel rs i h b s :
  represents s rs -> NoDup (fst <$> rs) -> 0 <= i -> rs !! Z.to_nat i = Some (h, b) -> h <> 0 -> 0 < len b <= Z.of_nat fuel ->
  exists s', fetch fuel 0 h PLDM_GET_FIRSTPART 0 [] s = Some (b, pldm_edac_crc8 b, next_handle rs i, s') /\ represents s' rs /\ transfer_active s' = false.
Proof.
  intros R Hnd Hi E Hh Hb. destruct (fetch_from fuel 0 rs i h b PLDM_GET_FIRSTPART 0 [] s R Hi E) as (s' & Es & Rs); [lia|lia| |by exists s'].
  unfold pldm_pdr_get_chunk. cbn [request_count max_response_count transfer_op_flag rq_record_handle]. destruct (Hask 0) as [H1 H2].
  rewrite !(proj2 (Z.eqb_neq _ 0)) by lia. cbn [orb negb]. rewrite Z.eqb_refl.
  unfold pldm_pdr_find_record_index. cbn [negb].
  destruct (find_handle_ok s rs h (Z.to_nat (pdr_record_count s)) 0 R) as [(j & b' & Hj & Ej & ->)|[_ Hno]];
    [done|rewrite (rep_count _ _ R); lia| |by destruct (Hno i b)]. cbn [mbind option_bind].
  assert (Z.to_nat j = Z.to_nat i) by (eapply (NoDup_lookup (fst <$> rs)); [done|by rewrite list_lookup_fmap, Ej|by rewrite list_lookup_fmap, E]).
  by replace j with i by lia.
Qed.

Lemma fetch_all_from n fuel rs i h b s :
  represents s rs -> NoDup (fst <$> rs) -> Forall (fun r => r.1 <> 0 /\ 0 < len r.2 <= Z.of_nat fuel) rs ->
  0 <= i -> rs !! Z.to_nat i = Some (h, b) -> len rs - i <= Z.of_nat n ->
  exists s', fetch_all n fuel h s = Some (drop (Z.to_nat i) rs, s') /\ represents s' rs.
Proof.
  intros R Hnd HF. revert i h b s R. induction n as [|n IH]; intros i h b s R Hi E Hn; [apply lookup_lt_Some in E; lia|]. cbn [fetch_all].
  pose proof HF as HF'. rewrite Forall_lookup in HF'. destruct (HF' _ _ E) as [Hh Hb]. cbn [fst snd] in Hh, Hb.
  destruct (fetch_record fuel rs i h b s R Hnd Hi E Hh Hb) as (s1 & -> & R1 & _). cbn [mbind option_bind]. rewrite Z.eqb_refl. cbn [negb].
  rewrite (drop_S _ _ _ E). unfold next_handle. replace (Z.to_nat (i + 1)) with (S (Z.to_nat i)) by lia.
  destruct (rs !! S (Z.to_nat i)) as [[h' b']|] eqn:E'.
  - destruct (HF' _ _ E') as [Hh' _]. cbn [fst] in Hh'. rewrite (proj2 (Z.eqb_neq _ _)) by done.
    replace (S (Z.to_nat i)) with (Z.to_nat (i + 1)) in * by lia.
    destruct (IH (i + 1) h' b' s1 R1 ltac:(lia) E' ltac:(lia)) as (s2 & -> & R2). cbn [mbind option_bind]. by exists s2.
  - cbn [Z.eqb]. exists s1. split; [|done]. apply lookup_ge_None in E'. rewrite drop_ge by lia. done.
Qed.

Lemma repository_nonempty sensors : Forall (fun r => r.1 <> 0 /\ 0 < len r.2) (repository sensors).
Proof.
  unfold repository. apply Forall_cons. split; [split; [done|]; cbn [snd]; rewrite terminus_locator_len; pose proof terminus_locator_size; lia|].
  assert (Hh : 1 <= PLDM_PDR_RECORD_HANDLE) by done. generalize dependent PLDM_PDR_RECORD_HANDLE. induction sensors as [|d l IH]; intros h Hh; cbn [sensor_records]; [by apply Forall_nil|].
  apply Forall_cons. split; [split; cbn [fst snd]; [lia|rewrite wire_size; unfold PLDM_PDR_NUMERIC_SENSOR_RECORD_WIRE_SIZE; rewrite fixed_length; lia]|].
  destruct (aux_name d) as [ [|c name]|]; [by apply IH; lia| |by apply IH; lia].
  apply Forall_cons. split; [|by apply IH; lia]. split; cbn [fst snd]; [lia|]. rewrite aux_name_bytes_len. unfold PLDM_PDR_AUX_NAME_RECORD_SIZE, PLDM_PDR_SENSOR_AUX_LANG.
  pose proof auxiliary_names_size. pose proof (len_nonneg (c :: name)). autorewrite with pdr in *. lia.
Qed.

(** A host can read all of it.  A host that starts with handle 1, asks for parts of
    whatever positive sizes, goes on with the offsets and handles it is given and
    stops where it is told to, ends with exactly the records of the repository,
    in order, each with a CRC that matches, even if another host left a transfer half done. *)
Theorem pdr_host_reads_all sensors s n fuel :
  represents s (repository sensors) -> len (repository sensors) <= Z.of_nat n ->
  Forall (fun r => len r.2 <= Z.of_nat fuel) (repository sensors) ->
  exists s', fetch_all n fuel PLDM_PDR_RECORD_HANDLE s = Some (repository sensors, s') /\ represents s' (repository sensors).
Proof.
  intros R Hn Hf. eapply (fetch_all_from n fuel (repository sensors) 0); [done| | |done|reflexivity|lia].
  - rewrite repository_handles. apply NoDup_seqZ.
  - apply Forall_and. split; [apply (Forall_impl _ _ _ (repository_nonempty sensors)); by intros r []|].
    apply Forall_and. split; [apply (Forall_impl _ _ _ (repository_nonempty sensors)); by intros r []|]. done.
Qed.

End host.

Section zero.
Context `{LibpldmLaws}.

(** A transfer begun with record handle 0 cannot be continued with it.  Handle 0 asks
    for the first record, and the answer says how to ask for its next part; but
    if the record did not fit, asking so with handle 0 is refused, and the
    transfer is stuck until the host uses the record's own handle. *)
Theorem first_by_zero_cannot_continue s rs h b count max next :
  represents s ((h, b) :: rs) -> h <> 0 -> 0 < count < len b -> 0 < max ->
  exists r s', pldm_pdr_get_chunk true (MkReq 0 0 PLDM_GET_FIRSTPART count max) s = Some (inr r, s') /\
    transfer_flag r = PLDM_START /\ rs_record_data r = take (Z.to_nat (Z.min count max)) b /\
    pldm_pdr_get_chunk true (MkReq 0 next PLDM_GET_NEXTPART count max) s' = Some (inl (- EBADMSG), s') /\
    exists r' s'', pldm_pdr_get_chunk true (MkReq h (rs_next_data_transfer_handle r) PLDM_GET_NEXTPART count max) s' = Some (inr r', s'').
Proof.
  intros R Hh Hc Hm. set (q := MkReq 0 0 PLDM_GET_FIRSTPART count max). pose proof (len_nonneg b).
  destruct (build_chunk_ok s _ 0 h b 0 q R ltac:(done) eq_refl ltac:(lia) ltac:(cbn; lia) ltac:(cbn; lia)) as (Eb & R' & T').
  set (r := chunk _ 0 b 0 q) in *. assert (Hr : rs_next_data_transfer_handle r = Z.min count max /\ transfer_flag r = PLDM_START /\ rs_record_data r = take (Z.to_nat (Z.min count max)) b).
  { unfold r, chunk, q. cbn [request_count max_response_count Z.eqb]. replace (Z.min (Z.min count (len b - 0)) max) with (Z.min count max) by lia.
    rewrite (proj2 (Z.eqb_neq (0 + Z.min count max) _)) by lia. cbn [rs_next_data_transfer_handle transfer_flag rs_record_data]. by rewrite Z.add_0_l, drop_0. }
  destruct Hr as (Hn & Hf & Hd). unfold after_chunk in *. rewrite Hn in *. rewrite (proj2 (Z.eqb_neq (Z.min count max) 0)) in * by lia. cbn [negb] in *.
  assert (Hgo : forall q' s', transfer_op_flag q' = PLDM_GET_NEXTPART -> request_count q' = count -> max_response_count q' = max ->
    pldm_pdr_get_chunk true q' s' = if negb (transfer_active s') || negb (rq_record_handle q' =? transfer_record_handle s')
      || negb (rq_data_transfer_handle q' =? transfer_next_data_handle s') then Some (inl (- EBADMSG), s')
      else pldm_pdr_build_chunk true (transfer_record_index s') (rq_data_transfer_handle q') q' s').
  { intros q' s' E1 E2 E3. unfold pldm_pdr_get_chunk. rewrite E1, E2, E3, !(proj2 (Z.eqb_neq _ 0)) by lia. cbn [orb negb].
    rewrite (proj2 (Z.eqb_neq PLDM_GET_NEXTPART _)) by (intros ?; by apply first_not_next). by rewrite Z.eqb_refl. }
  eexists r, _. split; [|split; [done|]; split; [done|]; split].
  - unfold pldm_pdr_get_chunk, q. cbn [request_count max_response_count transfer_op_flag rq_record_handle]. rewrite !(proj2 (Z.eqb_neq _ 0)) by lia. cbn [orb negb].
    rewrite Z.eqb_refl. cbn [Z.eqb mbind option_bind]. exact Eb.
  - rewrite Hgo by done. cbn [rq_record_handle set_transfer transfer_active transfer_record_handle negb orb]. by rewrite (proj2 (Z.eqb_neq 0 h)) by done.
  - rewrite Hgo by done. cbn [rq_record_handle rq_data_transfer_handle set_transfer transfer_active transfer_record_handle transfer_next_data_handle transfer_record_index negb orb]. rewrite Hn, !Z.eqb_refl. cbn [negb].
    destruct (build_chunk_ok _ _ 0 h b (Z.min count max) (MkReq h (Z.min count max) PLDM_GET_NEXTPART count max) R' ltac:(done) eq_refl ltac:(lia) ltac:(cbn; lia) ltac:(cbn; lia)) as (E2 & _).
    eexists _, _. exact E2.
Qed.
End zero.

(** ** The sensor records decoded *)

(** What a host makes of a record: little-endian fields of known widths. *)
Fixpoint parse_fields (widths : list nat) (b : list Z) : option (list Z) :=
  match widths with
  | [] => if bool_decide (b = []) then Some [] else None
  | n :: widths => if (length b <? n)%nat then None else l ← parse_fields widths (drop n b); Some (le_of_bytes (take n b) :: l)
  end.

Lemma parse_field_bytes (l : list (nat * Z)) : parse_fields (fst <$> l) (field_bytes l) = Some ((fun f => f.2 mod 256 ^ Z.of_nat f.1) <$> l).
Proof.
  induction l as [|[n v] l IH]; [done|]. change (parse_fields (n :: (fst <$> l)) (bytes_of_le n v ++ field_bytes l) = Some (v mod 256 ^ Z.of_nat n :: ((fun f => f.2 mod 256 ^ Z.of_nat f.1) <$> l))).
  cbn [parse_fields].
  rewrite length_app, bytes_of_le_length. rewrite (proj2 (Nat.ltb_ge _ _)) by lia.
  rewrite drop_app_length' by (by rewrite bytes_of_le_length). rewrite IH. cbn [mbind option_bind].
  rewrite take_app_length' by (by rewrite bytes_of_le_length). by rewrite le_of_bytes_of_le.
Qed.

(** UTF-16BE text up to its terminator; [None] for anything else. *)
Fixpoint parse_utf16 (fuel : nat) (b : list Z) : option (list Z) :=
  match fuel, b with
  | _, [0; 0] => Some []
  | S fuel, hi :: lo :: b => l ← parse_utf16 fuel b; Some (256 * hi + lo :: l)
  | _, _ => None
  end.

Lemma parse_utf16be name n : Forall (fun c => 0 < c < 256) name -> (length name <= n)%nat -> parse_utf16 n (utf16be name) = Some name.
Proof.
  intros HF. revert n. induction HF as [|c name Hc HF IH]; intros [|n] Hn; cbn [length] in Hn; try done || lia.
  unfold utf16be. cbn [mbind list_bind app]. change (list_bind _ _ _ name) with (name ≫= fun c => [0; u8 c]).
  fold (utf16be name). rewrite wrap_small by (unwrap; lia).
  assert (E : parse_utf16 (S n) (0 :: c :: utf16be name) = l ← parse_utf16 n (utf16be name); Some (256 * 0 + c :: l)).
  { cbn [parse_utf16]. destruct (utf16be name) as [|x t] eqn:Eu; [|by destruct c]. by destruct name. }
  rewrite E, IH by lia. cbn [mbind option_bind]. by rewrite Z.add_0_l.
Qed.

Definition numeric_sensor_widths : list nat :=
  [4; 1; 1; 2; 2; 2; 2; 2; 2; 2; 1; 1; 1; 1; 1; 1; 1; 1; 1; 1; 1; 1; 1; 4; 4; 2; 1; 1; 4; 1; 1; 4; 4; 4; 4; 1; 1; 4; 4; 4; 4; 4; 4; 4; 4; 4]%nat.

Section decoding.
Context `{LibpldmLaws}.

Lemma sensor_in_records d l h : d ∈ l -> 0 <= h ->
  exists h', h < h' <= h + len (sensor_records l h) /\ (h', field_bytes (numeric_sensor_fields (numeric_sensor_pdr h' d))) ∈ sensor_records l h /\
    forall c name, aux_name d = Some (c :: name) -> (h' + 1, aux_name_bytes (h' + 1) (sensor_id d) (c :: name)) ∈ sensor_records l h.
Proof.
  revert h. induction l as [|d' l IH]; intros h Hin Hh; [by apply not_elem_of_nil in Hin|]. cbn [sensor_records]. rewrite len_cons.
  match goal with |- context [_ <= h + (1 + len ?t)] => pose proof (len_nonneg t) end.
  apply elem_of_cons in Hin as [->|Hin].
  - exists (h + 1). split; [lia|]. split; [by apply list_elem_of_here|]. intros c name ->. replace (h + 1 + 1) with (h + 2) by lia.
    apply list_elem_of_further, list_elem_of_here.
  - destruct (aux_name d') as [ [|c name]|].
    2: { destruct (IH (h + 2) Hin ltac:(lia)) as (h' & Hr & M1 & M2). exists h'. rewrite len_cons. split; [lia|].
      split; [by do 2 apply list_elem_of_further|]. intros c' name' E. by do 2 apply list_elem_of_further; eapply M2. }
    all: destruct (IH (h + 1) Hin ltac:(lia)) as (h' & Hr & M1 & M2); exists h'; split; [lia|];
      split; [by apply list_elem_of_further|]; intros c' name' E; by apply list_elem_of_further, M2.
Qed.

(** Every sensor can be recognised by its record.  Each sensor of the devicetree
    whose values fit the format has a record from which a host, cutting it into
    the fields of the format, recovers the handle it was fetched by, the
    record's type and the sensor's id, entity, container, unit and modifier, and
    whether a name follows; the name, if any, is the next record's text. *)
Theorem pdr_sensor_records_decode sensors d :
  d ∈ sensors -> len (repository sensors) < 2 ^ 32 -> is_u8 PLDM_NUMERIC_SENSOR_PDR ->
  is_u16 (sensor_id d) -> is_u16 (entity_type d) -> is_u16 (entity_instance d) -> is_u16 (container_id d) -> is_u8 (base_unit d) ->
  exists h b v, (h, b) ∈ repository sensors /\ parse_fields numeric_sensor_widths b = Some v /\
    v !! 0%nat = Some h /\ v !! 2%nat = Some PLDM_NUMERIC_SENSOR_PDR /\ v !! 6%nat = Some (sensor_id d) /\ v !! 7%nat = Some (entity_type d) /\
    v !! 8%nat = Some (entity_instance d) /\ v !! 9%nat = Some (container_id d) /\ v !! 11%nat = Some (Z.b2z (has_aux_name d)) /\
    v !! 12%nat = Some (base_unit d) /\ v !! 13%nat = Some (unit_modifier d mod 256) /\
    (forall name, has_aux_name d = true -> aux_name d = Some name -> Forall (fun c => 0 < c < 256) name ->
      exists nb, (h + 1, nb) ∈ repository sensors /\
        parse_utf16 (length name) (drop (Z.to_nat (sizeof_pldm_sensor_auxiliary_names_pdr + 3)) nb) = Some name).
Proof.
  intros Hin Hlen Ht Hi Het Hei Hc Hbu. unfold repository in *. rewrite len_cons in Hlen.
  destruct (sensor_in_records d sensors PLDM_PDR_RECORD_HANDLE Hin ltac:(done)) as (h & Hh & Hr & Hn). unfold PLDM_PDR_RECORD_HANDLE in Hh, Hlen.
  exists h, (field_bytes (numeric_sensor_fields (numeric_sensor_pdr h d))). eexists. split; [by apply list_elem_of_further|]. split; [exact (parse_field_bytes (numeric_sensor_fields (numeric_sensor_pdr h d)))|].
  assert (Hu : forall x n, in_width (8 * Z.of_nat n) x -> x mod 256 ^ Z.of_nat n = x).
  { intros x n Hx. apply Z.mod_small. unfold in_width in Hx. change 256 with (2 ^ 8). rewrite <- Z.pow_mul_r by lia. done. }
  split_and!; try (cbn [fmap list_fmap lookup list_lookup numeric_sensor_fields numeric_sensor_pdr ns_hdr hdr_record_handle hdr_type ns_sensor_id
    ns_entity_type ns_entity_instance ns_container_id ns_sensor_auxiliary_names_pdr ns_base_unit fst snd]; f_equal; apply Hu; done).
  - cbn. f_equal. apply (Hu h 4%nat). unwrap. lia.
  - change (Some (Z.b2z (has_aux_name d) mod 256 ^ Z.of_nat 1) = Some (Z.b2z (has_aux_name d))). f_equal. by destruct (has_aux_name d).
  - change (Some (u8 (unit_modifier d) mod 256 ^ Z.of_nat 1) = Some (unit_modifier d mod 256)). f_equal. apply (Hu _ 1%nat). apply u8_range.
  - intros name Ha E HF. unfold has_aux_name in Ha. rewrite E in Ha. destruct name as [|c name]; [done|].
    eexists. split; [apply list_elem_of_further, (Hn c name E)|]. unfold aux_name_bytes, PLDM_PDR_SENSOR_AUX_LANG. cbn [app].
    match goal with |- context [drop _ (auxiliary_names_bytes ?a ++ ?l)] => pose proof (auxiliary_names_len a) as Hal;
      change (auxiliary_names_bytes a ++ l) with (auxiliary_names_bytes a ++ [1; 0x65; 0x6e; 0] ++ utf16be (c :: name)) end.
    rewrite app_assoc, drop_app_length' by (pose proof auxiliary_names_size; rewrite length_app; cbn [length]; lia).
    by apply parse_utf16be.
Qed.
End decoding.

(** ** Witnesses: the layouts of DSP0248 *)

Definition hdr_bytes (h : pldm_pdr_hdr) : list Z :=
  bytes_of_le 4 (hdr_record_handle h) ++ [hdr_version h; hdr_type h] ++ bytes_of_le 2 (hdr_record_change_num h) ++ bytes_of_le 2 (hdr_length h).
Definition tl_bytes (t : terminus_locator_pdr) : list Z :=
  hdr_bytes (tl_hdr t) ++ bytes_of_le 2 (tl_terminus_handle t) ++ [tl_validity t; tl_tid t] ++ bytes_of_le 2 (tl_container_id t) ++
    [tl_terminus_locator_type t; tl_terminus_locator_value_size t; tl_terminus_locator_value t].
#[export] Instance dsp0248 : Libpldm := {|
  PLDM_GET_FIRSTPART := 1; PLDM_GET_NEXTPART := 0; PLDM_START := 0; PLDM_MIDDLE := 1; PLDM_END := 4; PLDM_START_AND_END := 5;
  PLDM_TERMINUS_LOCATOR_PDR := 1; PLDM_NUMERIC_SENSOR_PDR := 2; PLDM_SENSOR_AUXILIARY_NAMES_PDR := 6;
  PLDM_TL_PDR_VALID := 1; PLDM_TERMINUS_LOCATOR_TYPE_MCTP_EID := 1; PLDM_NO_INIT := 0; PLDM_RATE_UNIT_NONE := 0; PLDM_SENSOR_UNIT_NONE := 0;
  PLDM_SENSOR_DATA_SIZE_SINT32 := 5; PLDM_RANGE_FIELD_FORMAT_SINT32 := 5; PLDM_PDR_NUMERIC_SENSOR_PDR_FIXED_LENGTH := 57;
  sizeof_pldm_pdr_hdr := 10; sizeof_pldm_terminus_locator_pdr := 19; sizeof_pldm_sensor_auxiliary_names_pdr := 16;
  pldm_edac_crc8 b := fold_left Z.lxor b 0;
  terminus_locator_bytes := tl_bytes;
  terminus_locator_type b := nth 5 b 0;
  terminus_locator_set tid eid b := take 13 b ++ [tid] ++ take 4 (drop 14 b) ++ [eid];
  auxiliary_names_bytes a := hdr_bytes (aux_hdr a) ++ bytes_of_le 2 (aux_terminus_handle a) ++ bytes_of_le 2 (aux_sensor_id a) ++ [aux_sensor_count a]
|}.
#[export] Instance dsp0248_laws : LibpldmLaws.
Proof.
  split; try done.
  apply (bool_decide_unpack _). by vm_compute.
Qed.

(** A temperature sensor with a name and a voltage sensor without. *)
Definition two_sensors : list numeric_sensor_desc :=
  [MkSensor 14 0 1 135 1 0 2 (-3) (Some [0x41; 0x53; 0x49; 0x43]); MkSensor 16 1 2 135 2 0 5 (-3) None].
Definition two_sensor_repo : pdr_provider := default (pdr_instance []) (snd <$> pldm_pdr_provider_init two_sensors (pdr_instance two_sensors)).

Lemma two_sensors_built : pldm_pdr_provider_init two_sensors (pdr_instance two_sensors) = Some (0, two_sensor_repo) /\ represents two_sensor_repo (repository two_sensors) /\
  transfer_active two_sensor_repo = false.
Proof.
  destruct (instance_room two_sensors) as [H1 H2].
  destruct (provider_init_ok two_sensors (pdr_instance two_sensors)) as (s & E & R & (_ & _ & T)); [by repeat constructor|by apply represents_empty|done|done|].
  unfold two_sensor_repo. rewrite E. by split_and!.
Qed.

Lemma pdr_repository_built_witness : exists s, pldm_pdr_provider_init two_sensors (pdr_instance two_sensors) = Some (0, s) /\ represents s (repository two_sensors).
Proof.
  destruct (pdr_repository_built two_sensors ltac:(by repeat constructor) ltac:(done) ltac:(done)) as (s & E & R & _). exists s. exact (conj E R).
Defined.

Lemma pdr_requests_sound_witness : exists l s',
  pdr_run [(true, MkReq 2 0 1 50 64); (true, MkReq 4 0 1 200 64); (true, MkReq 2 50 0 50 64)] two_sensor_repo = Some (l, s') /\ length l = 3%nat.
Proof.
  destruct two_sensors_built as (_ & R & T).
  destruct (pdr_requests_sound [(true, MkReq 2 0 1 50 64); (true, MkReq 4 0 1 200 64); (true, MkReq 2 50 0 50 64)] two_sensor_repo (repository two_sensors) R T)
    as (l & s' & E & F & _); [done|repeat constructor; done|repeat constructor; done|].
  exists l, s'. split; [exact E|]. by rewrite <- (Forall2_length _ _ _ F).
Defined.

Lemma pdr_host_reads_all_witness : exists s', fetch_all (fun k => (16, 32)) 4 105 1 two_sensor_repo = Some (repository two_sensors, s').
Proof.
  destruct two_sensors_built as (_ & R & _).
  destruct (pdr_host_reads_all (fun k => (16, 32)) ltac:(done) two_sensors two_sensor_repo 4 105 R ltac:(done)) as (s' & E & _); [repeat constructor; done|].
  exists s'. exact E.
Defined.

Lemma first_by_zero_cannot_continue_witness : exists s',
  pldm_pdr_get_chunk true (MkReq 0 10 0 10 32) s' = Some (inl (- EBADMSG), s').
Proof.
  destruct two_sensors_built as (_ & R & _).
  destruct (first_by_zero_cannot_continue two_sensor_repo _ 1 _ 10 32 10 R ltac:(done) ltac:(done) ltac:(done)) as (r & s' & _ & _ & _ & E & _).
  exists s'. exact E.
Defined.

Lemma pdr_sensor_records_decode_witness : exists h b v,
  (h, b) ∈ repository two_sensors /\ parse_fields numeric_sensor_widths b = Some v /\ v !! 6%nat = Some 2.
Proof.
  destruct (pdr_sensor_records_decode two_sensors (MkSensor 16 1 2 135 2 0 5 (-3) None)) as (h & b & v & Hin & E & _ & _ & Hid & _); [|done..|].
  - apply list_elem_of_further, list_elem_of_here.
  - exists h, b, v. split; [exact Hin|]. split; [exact E|exact Hid].
Defined.
