(* ===== verification/Dma.v ===== *)
(** * The ARC HS DMA driver ([drivers/dma/dma_arc_hs.c])

    The driver of the DMA engine in the ARC core: channels, block lists, linked
    channels, completion by interrupt or by polling, and the blocking transfer.
    The engine is the class [ArcDma]: auxiliary registers that may change at every
    access, the client's memory holding block lists, and the kernel's clock.  A
    block pointer says which object it points into, so that the copy of the first
    block that [dma_arc_hs_config] makes, and the one array that all transfers of a
    device share, alias as they do in C.  [callbacks] is what the clients'
    completion callbacks do: anything, the driver's own calls included.  Spinlocks
    are left out: every operation below runs alone. *)

From S2P Require Import Prelude.

Definition EINVAL : Z := 22.
Definition ENODEV : Z := 19.
Definition ENOTSUP : Z := 134.
Definition ETIMEDOUT : Z := 116.

Definition DMA_C_CTRL_AUX : Z := 0xd00 + 0x0.
Definition DMA_C_CHAN_AUX : Z := 0xd00 + 0x1.
Definition DMA_C_SRC_AUX : Z := 0xd00 + 0x2.
Definition DMA_C_DST_AUX : Z := 0xd00 + 0x4.
Definition DMA_C_ATTR_AUX : Z := 0xd00 + 0x6.
Definition DMA_C_LEN_AUX : Z := 0xd00 + 0x7.
Definition DMA_C_HANDLE_AUX : Z := 0xd00 + 0x8.
Definition DMA_C_STAT_AUX : Z := 0xd00 + 0xc.
Definition DMA_C_INTSTAT_AUX : Z := 0xd00 + 0xd.
Definition DMA_C_INTSTAT_CLR_AUX : Z := 0xd00 + 0xe.
Definition DMA_C_INTSTAT_DONE : Z := BIT 0.
Definition DMA_S_CTRL_AUX : Z := 0xd00 + 0x10.
Definition DMA_S_BASEC_AUX (ch : Z) : Z := 0xd00 + 0x83 + ch * 8.
Definition DMA_S_LASTC_AUX (ch : Z) : Z := 0xd00 + 0x84 + ch * 8.
Definition DMA_S_STATC_AUX (ch : Z) : Z := 0xd00 + 0x86 + ch * 8.
Definition DMA_S_DONESTATD_AUX (d : Z) : Z := 0xd00 + 0x20 + d.
Definition DMA_S_DONESTATD_CLR_AUX (d : Z) : Z := 0xd00 + 0x40 + d.

Definition DMA_ARC_HS_GET_GROUP (handle : Z) : Z := Z.shiftr handle 5.
Definition DMA_ARC_HS_GET_BIT_POS (handle : Z) : Z := Z.land handle 0x1f.
Definition DMA_ARC_HS_BITMASK (handle : Z) : Z := BIT (DMA_ARC_HS_GET_BIT_POS handle).

Definition ARC_DMA_NP_ATTR : Z := BIT 3.
Definition ARC_DMA_SET_DONE_ATTR : Z := BIT 0.
Definition ARC_DMA_INT_EN_ATTR : Z := BIT 1.

(** *** Data *)

Inductive arc_dma_channel_state :=
  | ARC_DMA_FREE | ARC_DMA_IDLE | ARC_DMA_PREPARED | ARC_DMA_ACTIVE | ARC_DMA_SUSPENDED.
#[export] Instance channel_state_eq : EqDecision arc_dma_channel_state.
Proof. solve_decision. Defined.

(** A pointer to a block: NULL, the copy in channel [ch], an element of
    [transfer_blocks], or an object of the client. *)
Inductive block_ptr := BNull | BChan (ch : Z) | BBuf (i : Z) | BMem (a : Z).
#[export] Instance block_ptr_eq : EqDecision block_ptr.
Proof. solve_decision. Defined.

Inductive dma_channel_direction := MEMORY_TO_MEMORY | OTHER_DIRECTION.
#[export] Instance direction_eq : EqDecision dma_channel_direction.
Proof. solve_decision. Defined.

(** Zephyr's structures, with the fields the driver uses. *)
Record dma_block_config := MkBlock {
  source_address : Z; dest_address : Z; block_size : Z; next_block : block_ptr }.
Record dma_config := MkDmaConfig {
  channel_direction : dma_channel_direction;
  block_count : Z;
  head_block : block_ptr;
  source_chaining_en : bool;
  dest_chaining_en : bool;
  linked_channel : Z;
  source_burst_length : Z;
  dma_callback : option Z;      (** NULL, or the name of the function *)
  user_data : Z }.
Record dma_status := MkStatus { busy : bool; pending_length : Z }.

Record arc_dma_channel := MkChan {
  state : arc_dma_channel_state;
  callback : option Z;
  callback_arg : Z;
  config : dma_config;
  block_config : dma_block_config;
  handle : Z;
  chan_block_count : Z }.

#[export] Instance block_config_eq : EqDecision dma_block_config.
Proof. solve_decision. Defined.
#[export] Instance config_eq : EqDecision dma_config.
Proof. solve_decision. Defined.
#[export] Instance channel_eq : EqDecision arc_dma_channel.
Proof. solve_decision. Defined.

Record arc_dma_config := MkDevConfig {
  channels : Z;
  descriptors : Z;
  max_block_size : Z;
  buffer_address_alignment : Z;
  interrupts_available : bool }.

Definition set_state (st : arc_dma_channel_state) (c : arc_dma_channel) : arc_dma_channel :=
  MkChan st (callback c) (callback_arg c) (config c) (block_config c) (handle c) (chan_block_count c).
(** [chan->handle = h; chan->state = ARC_DMA_ACTIVE; chan->block_count = chan->config.block_count] *)
Definition activate (h : Z) (c : arc_dma_channel) : arc_dma_channel :=
  MkChan ARC_DMA_ACTIVE (callback c) (callback_arg c) (config c) (block_config c) h (block_count (config c)).
Definition set_head (p : block_ptr) (c : dma_config) : dma_config :=
  MkDmaConfig (channel_direction c) (block_count c) p (source_chaining_en c) (dest_chaining_en c)
    (linked_channel c) (source_burst_length c) (dma_callback c) (user_data c).

Definition chained (c : arc_dma_channel) : bool := source_chaining_en (config c) || dest_chaining_en (config c).
Definition is_state (st : arc_dma_channel_state) (c : arc_dma_channel) : bool := bool_decide (state c = st).

Class ArcDma (W : Type) := {
  z_arc_v2_aux_reg_read : Z -> W -> Z * W;
  z_arc_v2_aux_reg_write : Z -> Z -> W -> W;      (** register, value *)
  client_block : W -> Z -> option dma_block_config;
  device_is_ready : W -> bool;
  irq_config : W -> W;
  k_busy_wait : Z -> W -> W;
  sys_timepoint_calc : Z -> W -> Z;               (** timeout; a point in time *)
  sys_timepoint_timeout : Z -> W -> Z;            (** the remaining timeout *)
  K_NO_WAIT : Z
}.

(** [transfer_blocks] of the device, and the driver with the world around it;
    [completion_work] says whether the polling work is scheduled. *)
Record dma (W : Type) := MkDma {
  chans : list arc_dma_channel;
  channels_atomic : Z;
  transfer_blocks : list dma_block_config;
  completion_work : bool;
  hw : W }.
Arguments MkDma {W}.
Arguments chans {W}.
Arguments channels_atomic {W}.
Arguments transfer_blocks {W}.
Arguments completion_work {W}.
Arguments hw {W}.

Section driver.
Context {W : Type} `{ArcDma W}.
Variable dev_config : arc_dma_config.
(** What the callback [f] does, called as [f(dev, arg, channel, status)]. *)
Variable callbacks : Z -> Z -> Z -> Z -> dma W -> option (dma W).
Implicit Types s : dma W.
Implicit Types w : W.

Definition set_chans (cs : list arc_dma_channel) s : dma W :=
  MkDma cs (channels_atomic s) (transfer_blocks s) (completion_work s) (hw s).
Definition set_hw w s : dma W := MkDma (chans s) (channels_atomic s) (transfer_blocks s) (completion_work s) w.
Definition set_work (b : bool) s : dma W := MkDma (chans s) (channels_atomic s) (transfer_blocks s) b (hw s).
Definition set_blocks (bs : list dma_block_config) s : dma W :=
  MkDma (chans s) (channels_atomic s) bs (completion_work s) (hw s).

(** [data->channels[ch]] updated. *)
Definition upd_chan (ch : Z) (f : arc_dma_channel -> arc_dma_channel) s : option (dma W) :=
  c ← aget (chans s) ch;
  cs ← aset (chans s) ch (f c);
  Some (set_chans cs s).

Definition deref (p : block_ptr) s : option dma_block_config :=
  match p with
  | BNull => None
  | BChan ch => c ← aget (chans s) ch; Some (block_config c)
  | BBuf i => aget (transfer_blocks s) i
  | BMem a => client_block (hw s) a
  end.

(** *** Registers *)

Definition dma_arc_hs_config_hw w : W :=
  z_arc_v2_aux_reg_write DMA_S_CTRL_AUX (Z.lor (Z.shiftl 0xf 4) (Z.shiftl 0x4 8)) w.

Definition dma_arc_hs_init_channel_hw (dma_ch base last : Z) w : W :=
  let w := z_arc_v2_aux_reg_write (DMA_S_BASEC_AUX dma_ch) base w in
  let w := z_arc_v2_aux_reg_write (DMA_S_LASTC_AUX dma_ch) last w in
  z_arc_v2_aux_reg_write (DMA_S_STATC_AUX dma_ch) 0x1 w.

Definition dma_arc_hs_next_hw (p_src p_dst length attr : Z) w : W :=
  let w := z_arc_v2_aux_reg_write DMA_C_SRC_AUX (u32 p_src) w in
  let w := z_arc_v2_aux_reg_write DMA_C_DST_AUX (u32 p_dst) w in
  let w := z_arc_v2_aux_reg_write DMA_C_ATTR_AUX attr w in
  z_arc_v2_aux_reg_write DMA_C_LEN_AUX length w.

Definition dma_arc_hs_start_hw (dma_ch p_src p_dst length attr : Z) w : W :=
  let w := z_arc_v2_aux_reg_write DMA_C_CHAN_AUX dma_ch w in
  let w := z_arc_v2_aux_reg_write DMA_C_SRC_AUX (u32 p_src) w in
  let w := z_arc_v2_aux_reg_write DMA_C_DST_AUX (u32 p_dst) w in
  let w := z_arc_v2_aux_reg_write DMA_C_ATTR_AUX attr w in
  z_arc_v2_aux_reg_write DMA_C_LEN_AUX length w.

Definition dma_arc_hs_get_handle_hw w : Z * W := z_arc_v2_aux_reg_read DMA_C_HANDLE_AUX w.

Definition dma_arc_hs_clear_done_hw (h : Z) w : W :=
  z_arc_v2_aux_reg_write (DMA_S_DONESTATD_CLR_AUX (DMA_ARC_HS_GET_GROUP h)) (DMA_ARC_HS_BITMASK h) w.

Definition dma_arc_hs_get_done_hw (h : Z) w : Z * W :=
  let '(v, w) := z_arc_v2_aux_reg_read (DMA_S_DONESTATD_AUX (Z.land (DMA_ARC_HS_GET_GROUP h) 0x7)) w in
  (Z.land (Z.shiftr v (DMA_ARC_HS_GET_BIT_POS h)) 0x1, w).

(** The attributes of every transfer. *)
Definition transfer_attr : Z :=
  if interrupts_available dev_config then Z.lor ARC_DMA_INT_EN_ATTR ARC_DMA_NP_ATTR
  else Z.lor ARC_DMA_SET_DONE_ATTR ARC_DMA_NP_ATTR.

(** *** Configuring *)

Definition configure (channel : Z) (c : dma_config) (b : dma_block_config) (chan : arc_dma_channel) : arc_dma_channel :=
  MkChan ARC_DMA_PREPARED (dma_callback c) (user_data c) (set_head (BChan channel) c) b
    (handle chan) (chan_block_count chan).

Definition dma_arc_hs_config (channel : Z) (c : dma_config) s : option (Z * dma W) :=
  if channels dev_config <=? channel then Some (- EINVAL, s)
  else if block_count c =? 0 then Some (- EINVAL, s)
  else if descriptors dev_config <? block_count c then Some (- EINVAL, s)
  else if negb (bool_decide (channel_direction c = MEMORY_TO_MEMORY)) then Some (- ENOTSUP, s)
  else if bool_decide (head_block c = BNull) then Some (- EINVAL, s)
  else
    chan ← aget (chans s) channel;
    let s := if is_state ARC_DMA_FREE chan
             then MkDma (chans s) (Z.lor (channels_atomic s) (BIT channel)) (transfer_blocks s) (completion_work s) (hw s)
             else s in
    b ← deref (head_block c) s;
    s ← upd_chan channel (configure channel c b) s;
    Some (0, s).

(** *** Starting *)

(** The walk over the linked channels: [Some true] at the end of the chain,
    [Some false] at a channel that is not allocated. *)
Fixpoint walk_chain (fuel : nat) (current_channel : Z) s : option bool :=
  match fuel with
  | O => None
  | S fuel =>
      chan ← aget (chans s) current_channel;
      if is_state ARC_DMA_FREE chan then Some false
      else if chained chan then walk_chain fuel (linked_channel (config chan)) s
      else Some true
  end.

(** [while (block != NULL && block_idx < block_count)], [n] being what is left of the count. *)
Fixpoint queue_blocks (n : nat) (block : block_ptr) s : option (dma W) :=
  match n with
  | O => Some s
  | S n =>
      if bool_decide (block = BNull) then Some s
      else
        b ← deref block s;
        let s := set_hw (dma_arc_hs_next_hw (source_address b) (dest_address b) (block_size b) transfer_attr (hw s)) s in
        queue_blocks n (next_block b) s
  end.

Definition dma_arc_hs_start (fuel : nat) (channel : Z) s : option (Z * dma W) :=
  if channels dev_config <=? channel then Some (- EINVAL, s)
  else
    chain ← walk_chain fuel channel s;
    if negb chain then Some (- EINVAL, s)
    else
      chan ← aget (chans s) channel;
      if is_state ARC_DMA_ACTIVE chan then Some (0, s)
      else if bool_decide (head_block (config chan) = BNull) then Some (- EINVAL, s)
      else
        block ← deref (head_block (config chan)) s;
        let s := set_hw (dma_arc_hs_start_hw channel (source_address block) (dest_address block)
                           (block_size block) transfer_attr (hw s)) s in
        s ← queue_blocks (Z.to_nat (block_count (config chan) - 1)) (next_block block) s;
        let '(h, w) := dma_arc_hs_get_handle_hw (hw s) in
        s ← upd_chan channel (activate h) (set_hw w s);
        let s := if negb (interrupts_available dev_config) then set_work true s else s in
        Some (0, s).

Definition dma_arc_hs_stop (channel : Z) s : option (Z * dma W) :=
  if channels dev_config <=? channel then Some (- EINVAL, s)
  else
    chan ← aget (chans s) channel;
    if is_state ARC_DMA_FREE chan then Some (- EINVAL, s)
    else if negb (is_state ARC_DMA_ACTIVE chan) then Some (0, s)
    else
      s ← upd_chan channel (set_state ARC_DMA_IDLE) s;
      Some (0, set_hw (dma_arc_hs_clear_done_hw (handle chan) (hw s)) s).

(** *** Linked channels *)

Definition one_burst (block : dma_block_config) (burst_len : Z) : Z :=
  if block_size block <? burst_len then block_size block else burst_len.

Definition dma_arc_hs_calc_linked_transfer_size (chan : arc_dma_channel) (block : dma_block_config) (burst_len : Z) : option Z :=
  if source_chaining_en (config chan) && dest_chaining_en (config chan) then Some (block_size block)
  else if source_chaining_en (config chan) then
    if burst_len =? 0 then None
    else
      let num_bursts := block_size block / burst_len in
      let transfer_size := u32 (u32 (num_bursts - 1) * burst_len) in
      Some (if transfer_size =? 0 then burst_len else transfer_size)
  else if dest_chaining_en (config chan) then Some (one_burst block burst_len)
  else Some (one_burst block burst_len).

Definition dma_arc_hs_trigger_linked_channel (triggering_chan : arc_dma_channel) (linked_ch_id : Z) s : option (dma W) :=
  linked_chan ← aget (chans s) linked_ch_id;
  if negb (is_state ARC_DMA_PREPARED linked_chan) then Some s
  else
    block ← deref (head_block (config linked_chan)) s;
    transfer_size ← dma_arc_hs_calc_linked_transfer_size triggering_chan block (source_burst_length (config linked_chan));
    let s := set_hw (dma_arc_hs_start_hw linked_ch_id (source_address block) (dest_address block)
                       transfer_size transfer_attr (hw s)) s in
    let '(h, w) := dma_arc_hs_get_handle_hw (hw s) in
    upd_chan linked_ch_id (activate h) (set_hw w s).

(** A channel is done: its callback, with status 0, then the channel linked to
    it.  [chan] is the channel as it was captured; the trigger reads it again. *)
Definition complete (channel : Z) (chan : arc_dma_channel) s : option (dma W) :=
  s ← match callback chan with
      | Some f => callbacks f (callback_arg chan) channel 0 s
      | None => Some s
      end;
  if chained chan && (linked_channel (config chan) <? channels dev_config) then
    now ← aget (chans s) channel;
    dma_arc_hs_trigger_linked_channel now (linked_channel (config chan)) s
  else Some s.

(** *** Completion by polling *)

Definition dma_arc_hs_status_poll (channel : Z) (stat : dma_status) s : option (Z * dma_status * dma W) :=
  chan ← aget (chans s) channel;
  let '(done_status, w) := dma_arc_hs_get_done_hw (handle chan) (hw s) in
  let s := set_hw w s in
  if done_status =? 0 then
    if bool_decide (head_block (config chan) = BNull) then Some (0, MkStatus true (pending_length stat), s)
    else b ← deref (head_block (config chan)) s; Some (0, MkStatus true (block_size b), s)
  else
    let s := set_hw (dma_arc_hs_clear_done_hw (handle chan) (hw s)) s in
    s ← upd_chan channel (set_state ARC_DMA_IDLE) s;
    s ← complete channel chan s;
    Some (0, MkStatus false (pending_length stat), s).

Definition dma_arc_hs_get_status (channel : Z) s : option (Z * dma_status * dma W) :=
  let stat := MkStatus false 0 in
  if channels dev_config <=? channel then Some (- EINVAL, stat, s)
  else
    chan ← aget (chans s) channel;
    if is_state ARC_DMA_FREE chan then Some (- EINVAL, stat, s)
    else if negb (is_state ARC_DMA_ACTIVE chan) then Some (0, stat, s)
    else if interrupts_available dev_config then
      if bool_decide (head_block (config chan) = BNull) then Some (0, MkStatus true 0, s)
      else b ← deref (head_block (config chan)) s; Some (0, MkStatus true (block_size b), s)
    else dma_arc_hs_status_poll channel stat s.

Definition dma_arc_hs_check_completion (channel : Z) s : option (dma W) :=
  chan ← aget (chans s) channel;
  if negb (is_state ARC_DMA_ACTIVE chan) then Some s
  else
    let '(done_status, w) := dma_arc_hs_get_done_hw (handle chan) (hw s) in
    let s := set_hw w s in
    if done_status =? 0 then Some s
    else
      let s := set_hw (dma_arc_hs_clear_done_hw (handle chan) (hw s)) s in
      s ← upd_chan channel (set_state ARC_DMA_IDLE) s;
      complete channel chan s.

Definition dma_arc_hs_completion_work_handler s : option (dma W) :=
  '(any_active, s) ← for_loop (Z.to_nat (channels dev_config)) 0 (fun i '(any_active, s) =>
    chan ← aget (chans s) i;
    if is_state ARC_DMA_ACTIVE chan then
      s ← dma_arc_hs_check_completion i s;
      Some (true, s)
    else Some (any_active, s)) (false, s);
  Some (if (any_active : bool) then set_work true s else s).

(** *** Completion by interrupt *)

(** The channels from [ch], [n] of them. *)
Fixpoint process_handle_from (n : nat) (ch h : Z) s : option (dma W) :=
  match n with
  | O => Some s
  | S n =>
      chan ← aget (chans s) ch;
      if negb (is_state ARC_DMA_ACTIVE chan) || negb (handle chan =? h) then process_handle_from n (ch + 1) h s
      else
        s ← upd_chan ch (set_state ARC_DMA_IDLE) s;
        s ← match callback chan with
            | Some f => callbacks f (callback_arg chan) ch 0 s
            | None => Some s
            end;
        now ← aget (chans s) ch;
        if chained now then
          let linked_ch := linked_channel (config now) in
          if linked_ch <? channels dev_config then dma_arc_hs_trigger_linked_channel now linked_ch s else Some s
        else Some s
  end.
Definition dma_arc_hs_process_handle (h : Z) s : option (dma W) :=
  process_handle_from (Z.to_nat (channels dev_config)) 0 h s.

(** [while (bits_to_clear != 0)], a bit at a time from the lowest. *)
Fixpoint process_bits (n : nat) (group bits_to_clear : Z) s : option (dma W) :=
  if bits_to_clear =? 0 then Some s
  else
    match n with
    | O => None
    | S n =>
        let bit := LOG2 (LSB_GET bits_to_clear) in
        s ← dma_arc_hs_process_handle (u32 (group * 32 + bit)) s;
        process_bits n group (Z.land bits_to_clear (Z.lnot (BIT bit))) s
    end.

Definition DIV_ROUND_UP (n d : Z) : Z := (n + d - 1) / d.
Definition num_groups : Z := DIV_ROUND_UP (descriptors dev_config) 32.

Definition isr_group (group : Z) s : option (dma W) :=
  let '(bits_to_clear, w) := z_arc_v2_aux_reg_read (DMA_S_DONESTATD_AUX group) (hw s) in
  let s := set_hw w s in
  if bits_to_clear =? 0 then Some s
  else process_bits 32 group bits_to_clear
         (set_hw (z_arc_v2_aux_reg_write (DMA_S_DONESTATD_CLR_AUX group) bits_to_clear (hw s)) s).

Fixpoint dma_arc_hs_isr (fuel : nat) s : option (dma W) :=
  match fuel with
  | O => None
  | S fuel =>
      let '(int_status, w) := z_arc_v2_aux_reg_read DMA_C_INTSTAT_AUX (hw s) in
      let s := set_hw w s in
      if int_status =? 0 then Some s
      else
        let s := set_hw (z_arc_v2_aux_reg_write DMA_C_INTSTAT_CLR_AUX int_status (hw s)) s in
        if Z.land int_status DMA_C_INTSTAT_DONE =? 0 then Some s
        else
          s ← for_loop (Z.to_nat num_groups) 0 isr_group s;
          dma_arc_hs_isr fuel s
  end.

(** *** The blocking transfer *)

(** Block [i] of the split: [remaining] bytes are left, from [src_addr] to [dst_addr]. *)
Definition split_block (num_blocks : Z) (i : Z) (st : list dma_block_config * Z * Z * Z)
  : option (list dma_block_config * Z * Z * Z) :=
  let '(blocks, src_addr, dst_addr, remaining) := st in
  let block_len := if max_block_size dev_config <? remaining then max_block_size dev_config else remaining in
  blocks ← aset blocks i (MkBlock src_addr dst_addr block_len (if i <? num_blocks - 1 then BBuf (i + 1) else BNull));
  Some (blocks, u32 (src_addr + block_len), u32 (dst_addr + block_len), remaining - block_len).

(** What interrupts and other threads do to the device during a busy wait. *)
Variable interrupted : dma W -> option (dma W).

(** The poll, [fuel] times at most. *)
Fixpoint wait_done (fuel : nat) (channel end_time : Z) s : option (Z * dma W) :=
  match fuel with
  | O => None
  | S fuel =>
      '(rc, stat, s) ← dma_arc_hs_get_status channel s;
      if (rc =? 0) && negb (busy stat) then
        '(_, s) ← dma_arc_hs_stop channel s;
        Some (0, s)
      else
        let timeout := sys_timepoint_timeout end_time (hw s) in
        if negb (timeout =? K_NO_WAIT) then
          s ← interrupted (set_hw (k_busy_wait 100 (hw s)) s);
          wait_done fuel channel end_time s
        else
          '(_, s) ← dma_arc_hs_stop channel s;
          Some (- ETIMEDOUT, s)
  end.

Definition transfer_config (num_blocks : Z) : dma_config :=
  MkDmaConfig MEMORY_TO_MEMORY num_blocks (BBuf 0) false false 0 0 None 0.

Definition dma_arc_hs_transfer (fuel : nat) (channel src dst length timeout : Z) s : option (Z * dma W) :=
  if negb (device_is_ready (hw s)) then Some (- ENODEV, s)
  else if length =? 0 then Some (0, s)
  else
    let alignment_mask := u32 (buffer_address_alignment dev_config - 1) in
    if negb (Z.land src alignment_mask =? 0) || negb (Z.land dst alignment_mask =? 0) then Some (- EINVAL, s)
    else if channels dev_config <=? channel then Some (- EINVAL, s)
    else if max_block_size dev_config =? 0 then None
    else
      let num_blocks := u32 (length + max_block_size dev_config - 1) / max_block_size dev_config in
      if descriptors dev_config <? num_blocks then Some (- EINVAL, s)
      else
        '(blocks, _, _, _) ← for_loop (Z.to_nat num_blocks) 0 (split_block num_blocks) (transfer_blocks s, src, dst, length);
        let s := set_blocks blocks s in
        '(rc, s) ← dma_arc_hs_config channel (transfer_config num_blocks) s;
        if rc <? 0 then Some (rc, s)
        else
          '(rc, s) ← dma_arc_hs_start fuel channel s;
          if rc <? 0 then Some (rc, s)
          else
            let end_time := sys_timepoint_calc timeout (hw s) in
            wait_done fuel channel end_time s.

(** *** Initialisation *)

Definition free_channel (c : arc_dma_channel) : arc_dma_channel :=
  MkChan ARC_DMA_FREE None 0 (config c) (block_config c) (handle c) 0.

Definition dma_arc_hs_init s : option (Z * dma W) :=
  let n := Z.to_nat (channels dev_config) in
  let s := MkDma (chans s) 0 (transfer_blocks s) (completion_work s) (hw s) in
  s ← for_loop n 0 (fun i s => upd_chan i free_channel s) s;
  s ← for_loop (Z.to_nat num_groups) 0 (fun group s =>
        Some (set_hw (z_arc_v2_aux_reg_write (DMA_S_DONESTATD_CLR_AUX group) 0xFFFFFFFF (hw s)) s)) s;
  s ← for_loop n 0 (fun i s => Some (set_hw (z_arc_v2_aux_reg_write (DMA_S_STATC_AUX i) 0x0 (hw s)) s)) s;
  let s := set_hw (dma_arc_hs_config_hw (hw s)) s in
  s ← for_loop n 0 (fun i s => Some (set_hw (dma_arc_hs_init_channel_hw i 0 (descriptors dev_config - 1) (hw s)) s)) s;
  let s := if interrupts_available dev_config then set_hw (irq_config (hw s)) s else set_work false s in
  Some (0, s).
End driver.

(** ** Chains of linked channels *)

Section chain.
Context {W : Type} `{ArcDma W}.
Implicit Types s : dma W.

(** A chain ends: at a free channel ([false]) or at one without a link ([true]). *)
Inductive chain_ends s : Z -> bool -> Prop :=
  | ends_free ch c : aget (chans s) ch = Some c -> is_state ARC_DMA_FREE c = true -> chain_ends s ch false
  | ends_here ch c :
      aget (chans s) ch = Some c -> is_state ARC_DMA_FREE c = false -> chained c = false -> chain_ends s ch true
  | ends_link ch c b :
      aget (chans s) ch = Some c -> is_state ARC_DMA_FREE c = false -> chained c = true ->
      chain_ends s (linked_channel (config c)) b -> chain_ends s ch b.

Lemma walk_chain_sound fuel ch s b : walk_chain fuel ch s = Some b -> chain_ends s ch b.
Proof.
  revert ch. induction fuel as [|fuel IH]; intros ch; simpl; [done|].
  destruct (aget (chans s) ch) as [c|] eqn:Ec; simpl; [|done].
  destruct (is_state _ c) eqn:Ef; [intros [= <-]; by econstructor|].
  destruct (chained c) eqn:El; [intros ?%IH; by eapply ends_link|].
  intros [= <-]. by eapply ends_here.
Qed.

Lemma walk_chain_mono fuel fuel' ch s b :
  (fuel <= fuel')%nat -> walk_chain fuel ch s = Some b -> walk_chain fuel' ch s = Some b.
Proof.
  revert fuel' ch. induction fuel as [|fuel IH]; intros [|fuel'] ch Hle; simpl; try done || lia.
  destruct (aget (chans s) ch) as [c|]; simpl; [|done].
  destruct (is_state _ c); [done|]. destruct (chained c); [|done]. apply IH. lia.
Qed.

(** The channels a walk visits before it ends, in order: each needs one step
    more than the one after it. *)
Definition least_fuel s (ch : Z) (k : nat) (b : bool) : Prop :=
  walk_chain k ch s = Some b /\ walk_chain (Nat.pred k) ch s = None.

Lemma least_fuel_unique s ch k k' b b' : least_fuel s ch k b -> least_fuel s ch k' b' -> k = k'.
Proof.
  intros [H1 H1'] [H2 H2']. destruct (Nat.lt_trichotomy k k') as [Hlt|[->|Hlt]]; [|done|].
  - rewrite (walk_chain_mono k (Nat.pred k') ch s b) in H2' by (lia || done). done.
  - rewrite (walk_chain_mono k' (Nat.pred k) ch s b') in H1' by (lia || done). done.
Qed.

Lemma chain_visits s ch b :
  chain_ends s ch b ->
  exists l, least_fuel s ch (length l) b /\ (l <> []) /\
            forall i c, l !! i = Some c -> least_fuel s c (length l - i) b /\ 0 <= c < len (chans s).
Proof.
  induction 1 as [ch c Hc Hf|ch c Hc Hf Hl|ch c b Hc Hf Hl _ (l & Hk & Hne & Hl')].
  1, 2: exists [ch]; assert (Hk : least_fuel s ch 1 _) by (split; simpl; [by rewrite Hc; simpl; rewrite Hf; try rewrite Hl|done]);
    split_and!; [done..|]; intros [|] ? [= <-]; split; [done|by eapply aget_range].
  exists (ch :: l). cbn [length].
  assert (Hk' : least_fuel s ch (S (length l)) b).
  { destruct Hk as [Hk1 Hk2]. split; simpl.
    - by rewrite Hc; simpl; rewrite Hf, Hl.
    - destruct l as [|x l]; [done|]. simpl in Hk2 |- *. by rewrite Hc; simpl; rewrite Hf, Hl. }
  split_and!; [done..|]. intros [|i] x Hx; simpl in Hx.
  - injection Hx as [= <-]. split; [done|by eapply aget_range].
  - apply Hl' in Hx. done.
Qed.

(** A walk that ends makes at most one step per channel. *)
Lemma chain_ends_walk s ch b : chain_ends s ch b -> walk_chain (length (chans s)) ch s = Some b.
Proof.
  intros Hends. destruct (chain_visits s ch b Hends) as (l & [Hk _] & _ & Hl).
  apply (walk_chain_mono (length l)); [|done].
  assert (Hsub : l ⊆ seqZ 0 (len (chans s))).
  { intros x [i Hi]%list_elem_of_lookup. apply elem_of_seqZ. apply Hl in Hi. lia. }
  assert (Hnd : NoDup l).
  { apply NoDup_alt. intros i j x Hi Hj. destruct (Hl i x Hi) as [H1 _], (Hl j x Hj) as [H2 _].
    pose proof (least_fuel_unique s x _ _ b b H1 H2). apply lookup_lt_Some in Hi, Hj. lia. }
  pose proof (submseteq_length l (seqZ 0 (len (chans s)))) as Hlen. rewrite length_seqZ in Hlen.
  specialize (Hlen (NoDup_submseteq _ _ Hnd Hsub)). lia.
Qed.

Lemma walk_chain_iff s ch b : walk_chain (length (chans s)) ch s = Some b <-> chain_ends s ch b.
Proof. split; [apply walk_chain_sound|apply chain_ends_walk]. Qed.
End chain.

(** ** The channels' state machine *)

Section invariant.
Context {W : Type} `{ArcDma W}.
Variable dev_config : arc_dma_config.
Variable callbacks : Z -> Z -> Z -> Z -> dma W -> option (dma W).
Implicit Types s : dma W.

(** A channel is allocated in the framework's bitmap exactly when it is not free,
    and then holds its own copy of the first block and a checked configuration. *)
Definition chan_ok (atomic ch : Z) (c : arc_dma_channel) : Prop :=
  (state c <> ARC_DMA_FREE <-> Z.testbit atomic ch = true) /\
  (state c <> ARC_DMA_FREE ->
   head_block (config c) = BChan ch /\ 1 <= block_count (config c) <= descriptors dev_config /\
   channel_direction (config c) = MEMORY_TO_MEMORY).
Definition dma_ok s : Prop :=
  len (chans s) = channels dev_config /\
  forall ch c, aget (chans s) ch = Some c -> chan_ok (channels_atomic s) ch c.

Lemma dma_ok_set_hw w s : dma_ok (set_hw w s) <-> dma_ok s.
Proof. done. Qed.

(** What an update leaves: the channel updated, the others as they were. *)
Lemma upd_chan_Some ch f s s' :
  upd_chan ch f s = Some s' ->
  exists c, aget (chans s) ch = Some c /\ aget (chans s') ch = Some (f c) /\
    (forall ch', ch' <> ch -> aget (chans s') ch' = aget (chans s) ch') /\
    len (chans s') = len (chans s) /\ channels_atomic s' = channels_atomic s /\
    transfer_blocks s' = transfer_blocks s /\ completion_work s' = completion_work s /\ hw s' = hw s.
Proof.
  unfold upd_chan. destruct (aget (chans s) ch) as [c|] eqn:Ec; simpl; [|done].
  destruct (aset (chans s) ch (f c)) as [cs|] eqn:Es; simpl; [|done]. intros [= <-].
  exists c. cbn. split_and!; try done.
  - erewrite aget_aset by done. by rewrite Z.eqb_refl.
  - intros ch' Hne. erewrite aget_aset by done. by rewrite (proj2 (Z.eqb_neq _ _)).
  - by erewrite aset_length.
Qed.

Lemma upd_chan_in ch f s : 0 <= ch < len (chans s) -> exists s', upd_chan ch f s = Some s'.
Proof.
  intros Hr. unfold upd_chan. destruct (aget_in (chans s) ch Hr) as [c ->]. simpl.
  rewrite aset_in by done. simpl. eauto.
Qed.

(** An update that keeps a channel allocated and configured keeps the invariant. *)
Lemma upd_chan_ok ch f s s' :
  upd_chan ch f s = Some s' -> dma_ok s ->
  (forall c, aget (chans s) ch = Some c -> config (f c) = config c /\ state c <> ARC_DMA_FREE /\ state (f c) <> ARC_DMA_FREE) ->
  dma_ok s'.
Proof.
  intros (c & Hc & Hc' & Hoth & Hlen & Ha & _)%upd_chan_Some [Hl Hok] Hf.
  destruct (Hf c Hc) as (Ecfg & Hs & Hs'). destruct (Hok ch c Hc) as [H1 H2].
  split; [lia|]. intros ch' d Hd. rewrite Ha. destruct (Z.eq_dec ch' ch) as [->|Hne].
  - replace d with (f c) by congruence. split; [tauto|]. intros _. rewrite Ecfg. by apply H2.
  - rewrite Hoth in Hd by done. by apply Hok.
Qed.

Lemma is_state_true st c : is_state st c = true <-> state c = st.
Proof. unfold is_state. apply bool_decide_eq_true. Qed.
Lemma is_state_false st c : is_state st c = false <-> state c <> st.
Proof. unfold is_state. apply bool_decide_eq_false. Qed.

Lemma config_ok ch c s rc s' :
  0 <= ch -> 0 <= block_count c -> dma_ok s -> dma_arc_hs_config dev_config ch c s = Some (rc, s') -> dma_ok s'.
Proof.
  intros Hch Hbc Hok. unfold dma_arc_hs_config.
  destruct (Z.leb_spec (channels dev_config) ch); [by intros [= _ <-]|].
  destruct (Z.eqb_spec (block_count c) 0); [by intros [= _ <-]|].
  destruct (Z.ltb_spec (descriptors dev_config) (block_count c)); [by intros [= _ <-]|].
  case_bool_decide as Hdir; simpl; [|by intros [= _ <-]].
  case_bool_decide; [by intros [= _ <-]|].
  destruct (aget (chans s) ch) as [chan|] eqn:Ech; simpl; [|done].
  set (s1 := if is_state _ _ then _ else _).
  destruct (deref _ s1) as [b|]; simpl; [|done].
  destruct (upd_chan _ _ s1) as [s2|] eqn:Eu; simpl; [|done]. intros [= _ <-].
  apply upd_chan_Some in Eu as (c1 & Hc1 & Hc2 & Hoth & Hlen & Ha & _).
  assert (Es1 : chans s1 = chans s /\ channels_atomic s1 = Z.lor (channels_atomic s) (if is_state ARC_DMA_FREE chan then BIT ch else 0)).
  { subst s1. destruct (is_state _ _); simpl; [done|]. by rewrite Z.lor_0_r. }
  destruct Es1 as [Es1 Es2]. rewrite Es1 in *. destruct Hok as [Hl Hok]. split; [lia|].
  intros ch' d Hd. unfold chan_ok. rewrite Ha, Es2, Z.lor_spec.
  destruct (Z.eq_dec ch' ch) as [->|Hne].
  - replace d with (configure ch c b c1) by congruence. cbn. split; [|intros _; split_and!; done || lia].
    split; [intros _|done]. destruct (Hok ch chan Ech) as [Hb _].
    destruct (is_state ARC_DMA_FREE chan) eqn:Ef.
    + unfold BIT. rewrite Z.shiftl_1_l, Z.pow2_bits_true by done. apply orb_true_r.
    + apply is_state_false in Ef. rewrite (proj1 Hb) by done. done.
  - rewrite Hoth in Hd by done. destruct (Hok ch' d Hd) as [Hb Hc]. split; [|done]. rewrite Hb.
    destruct (is_state ARC_DMA_FREE chan); [|by rewrite Z.bits_0, orb_false_r].
    rewrite bit_BIT by lia.
    rewrite (proj2 (Z.eqb_neq ch ch')) by lia. by rewrite orb_false_r.
Qed.

Lemma queue_blocks_frame n p s s' :
  queue_blocks dev_config n p s = Some s' ->
  chans s' = chans s /\ channels_atomic s' = channels_atomic s /\ transfer_blocks s' = transfer_blocks s /\
  completion_work s' = completion_work s.
Proof.
  revert p s. induction n as [|n IH]; intros p s; simpl; [by intros [= <-]|].
  case_bool_decide; [by intros [= <-]|]. destruct (deref p s) as [b|]; simpl; [|done].
  intros E%IH. done.
Qed.

Lemma dma_ok_ext s s' : chans s' = chans s -> channels_atomic s' = channels_atomic s -> dma_ok s -> dma_ok s'.
Proof. unfold dma_ok. by intros -> ->. Qed.

Lemma activate_ok ch h s s' :
  upd_chan ch (activate h) s = Some s' -> dma_ok s ->
  (forall c, aget (chans s) ch = Some c -> state c <> ARC_DMA_FREE) -> dma_ok s'.
Proof. intros E Hok Hf. eapply upd_chan_ok; [done..|]. intros c Hc. specialize (Hf c Hc). done. Qed.

Lemma idle_ok ch s s' c0 :
  upd_chan ch (set_state ARC_DMA_IDLE) s = Some s' -> aget (chans s) ch = Some c0 -> is_state ARC_DMA_ACTIVE c0 = true ->
  dma_ok s -> dma_ok s'.
Proof.
  intros E Hc0 Ha%is_state_true Hok. eapply upd_chan_ok; [done..|]. intros c Hc.
  replace c with c0 by congruence. cbn. split_and!; congruence.
Qed.

Lemma start_ok fuel ch s rc s' :
  dma_ok s -> dma_arc_hs_start dev_config fuel ch s = Some (rc, s') -> dma_ok s'.
Proof.
  intros Hok. unfold dma_arc_hs_start.
  destruct (channels dev_config <=? ch); [by intros [= _ <-]|].
  destruct (walk_chain fuel ch s) as [[]|] eqn:Ew; simpl; [|by intros [= _ <-]|done].
  destruct (aget (chans s) ch) as [c|] eqn:Ec; simpl; [|done].
  assert (Hf : state c <> ARC_DMA_FREE).
  { destruct fuel; [done|]. simpl in Ew. rewrite Ec in Ew. simpl in Ew.
    destruct (is_state ARC_DMA_FREE c) eqn:E; [done|]. by apply is_state_false. }
  destruct (is_state ARC_DMA_ACTIVE c); [by intros [= _ <-]|].
  case_bool_decide; [by intros [= _ <-]|].
  destruct (deref _ s) as [b|]; simpl; [|done].
  destruct (queue_blocks _ _ _ _) as [s1|] eqn:Eq; simpl; [|done].
  apply queue_blocks_frame in Eq as (E1 & E2 & _). cbn in E1, E2.
  destruct (dma_arc_hs_get_handle_hw (hw s1)) as [h w].
  destruct (upd_chan _ _ _) as [s2|] eqn:Eu; simpl; [|done].
  assert (Hok2 : dma_ok s2).
  { eapply activate_ok; [done| |].
    - by apply (dma_ok_ext s).
    - cbn. rewrite E1. intros ? ?. congruence. }
  by destruct (negb _); intros [= _ <-].
Qed.

Lemma stop_ok ch s rc s' : dma_ok s -> dma_arc_hs_stop dev_config ch s = Some (rc, s') -> dma_ok s'.
Proof.
  intros Hok. unfold dma_arc_hs_stop.
  destruct (channels dev_config <=? ch); [by intros [= _ <-]|].
  destruct (aget (chans s) ch) as [c|] eqn:Ec; simpl; [|done].
  destruct (is_state ARC_DMA_FREE c); [by intros [= _ <-]|].
  destruct (is_state ARC_DMA_ACTIVE c) eqn:Ea; simpl; [|by intros [= _ <-]].
  destruct (upd_chan _ _ _) as [s1|] eqn:Eu; simpl; [|done]. intros [= _ <-].
  apply dma_ok_set_hw. by eapply idle_ok.
Qed.

Lemma trigger_ok c ch s s' : dma_ok s -> dma_arc_hs_trigger_linked_channel dev_config c ch s = Some s' -> dma_ok s'.
Proof.
  intros Hok. unfold dma_arc_hs_trigger_linked_channel.
  destruct (aget (chans s) ch) as [l|] eqn:El; simpl; [|done].
  destruct (is_state ARC_DMA_PREPARED l) eqn:Ep; simpl; [|by intros [= <-]].
  destruct (deref _ s) as [b|]; simpl; [|done].
  destruct (dma_arc_hs_calc_linked_transfer_size _ _ _) as [z|]; simpl; [|done].
  destruct (dma_arc_hs_get_handle_hw _) as [h w]. intros Eu.
  eapply activate_ok; [done|by apply dma_ok_set_hw|].
  intros c'. cbn. apply is_state_true in Ep. intros ?. congruence.
Qed.

(** What holds for any callbacks that respect the driver's invariant. *)
Hypothesis callbacks_ok : forall f arg ch st s s', dma_ok s -> callbacks f arg ch st s = Some s' -> dma_ok s'.

Lemma run_callback_ok cb arg ch s s' :
  dma_ok s -> match cb with Some f => callbacks f arg ch 0 s | None => Some s end = Some s' -> dma_ok s'.
Proof. intros Hok. destruct cb; [by apply callbacks_ok|by intros [= <-]]. Qed.

Lemma complete_ok ch c s s' : dma_ok s -> complete dev_config callbacks ch c s = Some s' -> dma_ok s'.
Proof.
  intros Hok. unfold complete.
  destruct (match callback c with Some _ => _ | None => _ end) as [s1|] eqn:E1; simpl; [|done].
  apply run_callback_ok in E1; [|done].
  destruct (chained c && _); [|by intros [= <-]].
  destruct (aget (chans s1) ch) as [now|]; simpl; [|done]. by apply trigger_ok.
Qed.

Lemma status_poll_ok ch stat s rc st s' :
  dma_ok s -> (forall c, aget (chans s) ch = Some c -> is_state ARC_DMA_ACTIVE c = true) ->
  dma_arc_hs_status_poll dev_config callbacks ch stat s = Some (rc, st, s') -> dma_ok s'.
Proof.
  intros Hok Hact. unfold dma_arc_hs_status_poll.
  destruct (aget (chans s) ch) as [c|] eqn:Ec; simpl; [|done].
  destruct (dma_arc_hs_get_done_hw _ _) as [v w].
  destruct (v =? 0).
  - case_bool_decide; [by intros [= _ _ <-]|].
    destruct (deref _ _) as [b|]; simpl; [|done]. by intros [= _ _ <-].
  - destruct (upd_chan _ _ _) as [s1|] eqn:Eu; simpl; [|done].
    destruct (complete _ _ _ _ _) as [s2|] eqn:E2; simpl; [|done]. intros [= _ _ <-].
    eapply complete_ok; [|done]. eapply idle_ok; [done| |by apply Hact|by apply (dma_ok_ext s)]. done.
Qed.

Lemma get_status_ok ch s rc st s' :
  dma_ok s -> dma_arc_hs_get_status dev_config callbacks ch s = Some (rc, st, s') -> dma_ok s'.
Proof.
  intros Hok. unfold dma_arc_hs_get_status.
  destruct (channels dev_config <=? ch); [by intros [= _ _ <-]|].
  destruct (aget (chans s) ch) as [c|] eqn:Ec; simpl; [|done].
  destruct (is_state ARC_DMA_FREE c); [by intros [= _ _ <-]|].
  destruct (is_state ARC_DMA_ACTIVE c) eqn:Ea; simpl; [|by intros [= _ _ <-]].
  destruct (interrupts_available dev_config).
  - case_bool_decide; [by intros [= _ _ <-]|].
    destruct (deref _ _) as [b|]; simpl; [|done]. by intros [= _ _ <-].
  - apply status_poll_ok; [done|]. rewrite Ec. by intros ? [= <-].
Qed.

Lemma check_completion_ok ch s s' :
  dma_ok s -> dma_arc_hs_check_completion dev_config callbacks ch s = Some s' -> dma_ok s'.
Proof.
  intros Hok. unfold dma_arc_hs_check_completion.
  destruct (aget (chans s) ch) as [c|] eqn:Ec; simpl; [|done].
  destruct (is_state ARC_DMA_ACTIVE c) eqn:Ea; simpl; [|by intros [= <-]].
  destruct (dma_arc_hs_get_done_hw _ _) as [v w].
  destruct (v =? 0); [by intros [= <-]|].
  destruct (upd_chan _ _ _) as [s1|] eqn:Eu; simpl; [|done].
  apply complete_ok. eapply idle_ok; [done| |done|by apply (dma_ok_ext s)]. done.
Qed.

Lemma for_loop_ok n lo body s s' :
  (forall i s s', dma_ok s -> body i s = Some s' -> dma_ok s') -> dma_ok s -> for_loop n lo body s = Some s' -> dma_ok s'.
Proof.
  intros Hb. revert lo s. induction n as [|n IH]; intros lo s Hok; simpl; [by intros [= <-]|].
  destruct (body lo s) as [s1|] eqn:E; simpl; [|done]. apply IH. by eapply Hb.
Qed.

Lemma work_ok s s' : dma_ok s -> dma_arc_hs_completion_work_handler dev_config callbacks s = Some s' -> dma_ok s'.
Proof.
  unfold dma_arc_hs_completion_work_handler. intros Hok. generalize (Z.to_nat (channels dev_config)) as n.
  intros n. generalize false as any. generalize 0 as lo. revert s Hok. induction n as [|n IH]; intros s Hok lo any; simpl.
  - destruct any; intros [= <-]; done.
  - destruct (aget (chans s) lo) as [c|]; simpl; [|done].
    destruct (is_state ARC_DMA_ACTIVE c); [|by apply IH].
    destruct (dma_arc_hs_check_completion _ _ _ _) as [s1|] eqn:E; simpl; [|done].
    apply IH. by eapply check_completion_ok.
Qed.

Lemma process_handle_ok n ch h s s' :
  dma_ok s -> process_handle_from dev_config callbacks n ch h s = Some s' -> dma_ok s'.
Proof.
  revert ch. induction n as [|n IH]; intros ch Hok; simpl; [by intros [= <-]|].
  destruct (aget (chans s) ch) as [c|] eqn:Ec; simpl; [|done].
  destruct (is_state ARC_DMA_ACTIVE c) eqn:Ea; simpl; [|by apply IH].
  destruct (handle c =? h); simpl; [|by apply IH].
  destruct (upd_chan _ _ _) as [s1|] eqn:Eu; simpl; [|done].
  assert (Hok1 : dma_ok s1) by (by eapply idle_ok).
  destruct (match callback c with Some _ => _ | None => _ end) as [s2|] eqn:E2; simpl; [|done].
  apply run_callback_ok in E2; [|done].
  destruct (aget (chans s2) ch) as [now|]; simpl; [|done].
  destruct (chained now); [|by intros [= <-]].
  destruct (_ <? _); [by apply trigger_ok|by intros [= <-]].
Qed.

Lemma process_bits_ok n g bits s s' : dma_ok s -> process_bits dev_config callbacks n g bits s = Some s' -> dma_ok s'.
Proof.
  revert bits s. induction n as [|n IH]; intros bits s Hok; simpl; (destruct (bits =? 0); [by intros [= <-]|]); [done|].
  destruct (dma_arc_hs_process_handle _ _ _ _) as [s1|] eqn:E; simpl; [|done]. apply IH. by eapply process_handle_ok.
Qed.

Lemma isr_group_ok g s s' : dma_ok s -> isr_group dev_config callbacks g s = Some s' -> dma_ok s'.
Proof.
  intros Hok. unfold isr_group. destruct (z_arc_v2_aux_reg_read _ _) as [bits w].
  destruct (bits =? 0); [by intros [= <-]|]. by apply process_bits_ok.
Qed.

Lemma isr_ok fuel s s' : dma_ok s -> dma_arc_hs_isr dev_config callbacks fuel s = Some s' -> dma_ok s'.
Proof.
  revert s. induction fuel as [|fuel IH]; intros s Hok; cbn [dma_arc_hs_isr]; [done|].
  destruct (z_arc_v2_aux_reg_read _ _) as [st w]. destruct (st =? 0); [by intros [= <-]|].
  destruct (Z.land st _ =? 0); [by intros [= <-]; apply dma_ok_set_hw|].
  destruct (for_loop _ _ _ _) as [s1|] eqn:E; simpl; [|done]. apply IH.
  refine (for_loop_ok _ _ _ _ _ _ _ E); [|by apply dma_ok_set_hw, dma_ok_set_hw].
  intros i t t' Ht E'. by eapply isr_group_ok.
Qed.

(** Everything that can happen to an initialised device: its clients' calls, the
    completion work, the interrupt, and the world around it. *)
Inductive dma_step : dma W -> dma W -> Prop :=
  | step_config ch c s rc s' :
      0 <= ch -> 0 <= block_count c -> dma_arc_hs_config dev_config ch c s = Some (rc, s') -> dma_step s s'
  | step_start fuel ch s rc s' : dma_arc_hs_start dev_config fuel ch s = Some (rc, s') -> dma_step s s'
  | step_stop ch s rc s' : dma_arc_hs_stop dev_config ch s = Some (rc, s') -> dma_step s s'
  | step_status ch s rc st s' : dma_arc_hs_get_status dev_config callbacks ch s = Some (rc, st, s') -> dma_step s s'
  | step_work s s' :
      dma_arc_hs_completion_work_handler dev_config callbacks (set_work false s) = Some s' -> dma_step s s'
  | step_isr fuel s s' : dma_arc_hs_isr dev_config callbacks fuel s = Some s' -> dma_step s s'
  | step_blocks bs s : dma_step s (set_blocks bs s)
  | step_world w s : dma_step s (set_hw w s).

Lemma dma_step_ok s s' : dma_step s s' -> dma_ok s -> dma_ok s'.
Proof.
  destruct 1; intros Hok.
  - by apply (config_ok ch c s rc).
  - by eapply start_ok.
  - by eapply stop_ok.
  - by eapply get_status_ok.
  - by apply (work_ok (set_work false s)).
  - by eapply isr_ok.
  - done.
  - done.
Qed.
End invariant.

(** ** Initialisation *)

Section init.
Context {W : Type} `{ArcDma W}.
Variable dev_config : arc_dma_config.
Implicit Types s : dma W.

Lemma free_loop n s :
  0 <= n <= len (chans s) ->
  exists s', for_loop (Z.to_nat n) 0 (fun i s => upd_chan i free_channel s) s = Some s' /\
    chans s' = map free_channel (take (Z.to_nat n) (chans s)) ++ drop (Z.to_nat n) (chans s) /\
    channels_atomic s' = channels_atomic s /\ hw s' = hw s.
Proof.
  intros Hn.
  destruct (for_loop_inv (fun i s' =>
    0 <= i /\ chans s' = map free_channel (take (Z.to_nat i) (chans s)) ++ drop (Z.to_nat i) (chans s) /\
    channels_atomic s' = channels_atomic s /\ hw s' = hw s) (Z.to_nat n) 0 (fun i s => upd_chan i free_channel s) s)
    as (s' & E & HI); [done| |].
  - intros i t Hi (_ & Ec & Ea & Eh).
    assert (Hi' : (Z.to_nat i < length (chans s))%nat) by lia.
    destruct (lookup_lt_is_Some_2 _ _ Hi') as [c Hc].
    assert (Hlk : chans t !! Z.to_nat i = Some c).
    { rewrite Ec, lookup_app_r; rewrite length_map, length_take; [|lia].
      rewrite lookup_drop, <- Hc. f_equal. lia. }
    unfold upd_chan. rewrite aget_nat, Hlk by lia. simpl.
    rewrite aset_in by (apply lookup_lt_Some in Hlk; lia). simpl. eexists. split; [done|]. cbn.
    split_and!; [lia| |done..]. rewrite Ec.
    replace (Z.to_nat (i + 1)) with (S (Z.to_nat i)) by lia.
    rewrite insert_app_r_alt by (rewrite length_map, length_take; lia).
    rewrite length_map, length_take. replace (Z.to_nat i - _)%nat with 0%nat by lia.
    rewrite (take_S_r _ _ c), map_app, (drop_S _ c) by done. simpl. by rewrite <- app_assoc.
  - exists s'. split; [done|]. replace (0 + Z.of_nat (Z.to_nat n)) with n in HI by lia. tauto.
Qed.

Lemma for_loop_hw n lo (f : Z -> W -> W) s :
  exists w, for_loop n lo (fun i s => Some (set_hw (f i (hw s)) s)) s = Some (set_hw w s).
Proof.
  revert lo s. induction n as [|n IH]; intros lo s; simpl.
  - exists (hw s). by destruct s.
  - destruct (IH (lo + 1) (set_hw (f lo (hw s)) s)) as [w E]. exists w. rewrite E. done.
Qed.

Lemma init_free s :
  0 <= channels dev_config -> len (chans s) = channels dev_config ->
  exists s', dma_arc_hs_init dev_config s = Some (0, s') /\ chans s' = map free_channel (chans s) /\ channels_atomic s' = 0.
Proof.
  intros Hn Hlen. unfold dma_arc_hs_init.
  set (s1 := MkDma (chans s) 0 _ _ _).
  destruct (free_loop (channels dev_config) s1) as (s2 & E2 & Ec & Ea & _); [cbn; lia|]. rewrite E2. cbn [mbind option_bind].
  destruct (for_loop_hw (Z.to_nat (num_groups dev_config)) 0 (fun g w => z_arc_v2_aux_reg_write (DMA_S_DONESTATD_CLR_AUX g) 0xFFFFFFFF w) s2) as [w3 ->].
  cbn [mbind option_bind].
  destruct (for_loop_hw (Z.to_nat (channels dev_config)) 0 (fun i w => z_arc_v2_aux_reg_write (DMA_S_STATC_AUX i) 0x0 w) (set_hw w3 s2)) as [w4 ->].
  cbn [mbind option_bind].
  edestruct (for_loop_hw (Z.to_nat (channels dev_config)) 0 (fun i w => dma_arc_hs_init_channel_hw i 0 (descriptors dev_config - 1) w)) as [w5 E5].
  rewrite E5. cbn [mbind option_bind]. eexists. split; [done|].
  cbn in Ec. rewrite take_ge, drop_ge, app_nil_r in Ec by lia.
  by destruct (interrupts_available dev_config); cbn; rewrite Ec, Ea.
Qed.

Lemma dma_init_ok s :
  0 <= channels dev_config -> len (chans s) = channels dev_config ->
  exists s', dma_arc_hs_init dev_config s = Some (0, s') /\ dma_ok dev_config s'.
Proof.
  intros Hn Hlen. destruct (init_free s Hn Hlen) as (s' & E & Ec & Ea). exists s'. split; [done|].
  split; [by rewrite Ec, length_map|].
  intros ch c. rewrite Ec. intros Hc. pose proof (aget_range _ _ _ Hc).
  rewrite aget_nat, list_lookup_fmap in Hc by lia. destruct (chans s !! _) as [c'|]; [|done].
  injection Hc as [= <-]. unfold chan_ok. rewrite Ea, Z.bits_0. by cbn.
Qed.

(** After initialisation, whatever the clients call, the interrupt and the
    completion work do, in any order and with any hardware, a channel is in the
    framework's bitmap exactly when it is allocated, and an allocated channel holds
    a checked configuration whose first block is its own copy. *)
Theorem dma_channels_sound (callbacks : Z -> Z -> Z -> Z -> dma W -> option (dma W)) s
    (Hn : 0 <= channels dev_config) (Hlen : len (chans s) = channels dev_config)
    (Hcb : forall f arg ch st s s', dma_ok dev_config s -> callbacks f arg ch st s = Some s' -> dma_ok dev_config s') :
  exists s0, dma_arc_hs_init dev_config s = Some (0, s0) /\
    forall s', rtc (dma_step dev_config callbacks) s0 s' -> dma_ok dev_config s'.
Proof.
  destruct (dma_init_ok s Hn Hlen) as (s0 & E & Hok). exists s0. split; [done|].
  intros s' Hr. clear E. induction Hr as [|s1 s2 s3 Hst _ IH]; [done|]. apply IH. by apply (dma_step_ok dev_config callbacks Hcb s1).
Qed.
End init.

(** ** What a transfer moves *)

(** A transfer given to the engine, and what performing it does to memory. *)
Record xfer := MkXfer { x_chan : Z; x_src : Z; x_dst : Z; x_attr : Z; x_len : Z }.

Definition copy (src dst n : Z) (m : Z -> Z) : Z -> Z :=
  fun a => if (dst <=? a) && (a <? dst + n) then m (src + (a - dst)) else m a.
Definition run_xfer (m : Z -> Z) (x : xfer) : Z -> Z := copy (x_src x) (x_dst x) (x_len x) m.
Definition run_xfers (xs : list xfer) (m : Z -> Z) : Z -> Z := fold_left run_xfer xs m.

Lemma run_xfers_app xs ys m : run_xfers (xs ++ ys) m = run_xfers ys (run_xfers xs m).
Proof. apply fold_left_app. Qed.

Lemma run_xfers_ext xs m m' : (forall a, m a = m' a) -> forall a, run_xfers xs m a = run_xfers xs m' a.
Proof.
  revert m m'. induction xs as [|x xs IH]; intros m m' Hm; [done|]. apply IH.
  intros a. unfold run_xfer, copy. case_match; apply Hm.
Qed.

(** The split of a transfer: block [i] of [n]. *)
Definition chunk (max ch attr src dst n i : Z) : xfer :=
  MkXfer ch (src + i * max) (dst + i * max) attr (Z.min max (n - i * max)).
Definition chunks (max ch attr src dst n : Z) (k : nat) : list xfer := map (chunk max ch attr src dst n) (seqZ 0 (Z.of_nat k)).

Definition disjoint_ranges (a b n : Z) : Prop := a + n <= b \/ b + n <= a.

(** The chunks of a transfer, performed one after the other, copy what one copy of
    the whole does. *)
Lemma run_chunks max ch attr src dst n (k : nat) m a :
  0 < max -> 0 <= n -> disjoint_ranges src dst n -> (Z.of_nat k - 1) * max < n ->
  run_xfers (chunks max ch attr src dst n k) m a = copy src dst (Z.min n (Z.of_nat k * max)) m a.
Proof.
  intros Hmax Hn Hd. revert a. induction k as [|k IH]; intros a Hk.
  - unfold chunks, copy. simpl. destruct (Z.leb_spec dst a), (Z.ltb_spec a (dst + Z.min n (Z.of_nat 0 * max))); simpl; done || lia.
  - assert (Hlt : Z.of_nat k * max < n) by lia.
    assert (IH' : forall a, run_xfers (chunks max ch attr src dst n k) m a = copy src dst (Z.of_nat k * max) m a).
    { intros b. rewrite IH by lia. f_equal. lia. }
    unfold chunks. rewrite seqZ_S, map_app, run_xfers_app.
    cbn [map run_xfers fold_left]. fold (chunks max ch attr src dst n k).
    unfold run_xfer, copy at 1. cbn [x_src x_dst x_len chunk]. rewrite !IH'. unfold copy. unfold disjoint_ranges in Hd.
    rewrite Z.add_0_l. replace (Z.of_nat (S k) * max) with (Z.of_nat k * max + max) by lia.
    assert (0 <= Z.of_nat k * max) by nia. set (q := Z.of_nat k * max) in *.
    destruct (Z.leb_spec (dst + q) a), (Z.ltb_spec a (dst + q + Z.min max (n - q)));
      destruct (Z.leb_spec dst a), (Z.ltb_spec a (dst + q)), (Z.ltb_spec a (dst + Z.min n (q + max))); simpl; try done; try lia.
    destruct (Z.leb_spec dst (src + q + (a - (dst + q)))), (Z.ltb_spec (src + q + (a - (dst + q))) (dst + q)); simpl; try lia.
    all: f_equal; lia.
Qed.

Lemma ceil_div_bounds n d : 0 < d -> 0 < n -> 0 < (n + d - 1) / d /\ ((n + d - 1) / d - 1) * d < n <= (n + d - 1) / d * d.
Proof. intros. Z.to_euclidean_division_equations. nia. Qed.

(** ** The engine *)

(** The engine performs the transfers it is given in order, at any time.  From the
    transfers [t] and memory [m] it has reached [w] when some are done and the
    others are left. *)
Class ArcDmaState (W : Type) := {
  latch : W -> Z -> Z;          (** what was last written to a register *)
  todo : W -> list xfer;
  mem : W -> Z -> Z;
  last_handle : W -> Z;
  expires : Z -> W -> nat       (** busy waits before a point in time *)
}.

Definition reached {W} `{ArcDmaState W} (t : list xfer) (m : Z -> Z) (w : W) : Prop :=
  exists k, (k <= length t)%nat /\ todo w = drop k t /\ forall a, mem w a = run_xfers (take k t) m a.

Definition is_latch (r : Z) : Prop :=
  r = DMA_C_CHAN_AUX \/ r = DMA_C_SRC_AUX \/ r = DMA_C_DST_AUX \/ r = DMA_C_ATTR_AUX.

(** What the driver relies on: the four latches hold what is written; a write of
    the length submits a transfer; the handle register names the last one
    submitted; its done bit is set only when nothing is left; no other access
    submits anything; time passes. *)
Class ArcDmaLaws (W : Type) `{ArcDma W} `{ArcDmaState W} := {
  write_latch r v w r' : is_latch r' -> latch (z_arc_v2_aux_reg_write r v w) r' = if r' =? r then v else latch w r';
  write_len v w :
    reached (todo w ++ [MkXfer (latch w DMA_C_CHAN_AUX) (latch w DMA_C_SRC_AUX) (latch w DMA_C_DST_AUX)
                          (latch w DMA_C_ATTR_AUX) v]) (mem w) (z_arc_v2_aux_reg_write DMA_C_LEN_AUX v w);
  write_runs r v w : r <> DMA_C_LEN_AUX -> reached (todo w) (mem w) (z_arc_v2_aux_reg_write r v w);
  write_handle r v w : r <> DMA_C_LEN_AUX -> last_handle (z_arc_v2_aux_reg_write r v w) = last_handle w;
  write_expires e r v w : (expires e (z_arc_v2_aux_reg_write r v w) <= expires e w)%nat;
  read_runs r w : reached (todo w) (mem w) (snd (z_arc_v2_aux_reg_read r w));
  read_handle r w : last_handle (snd (z_arc_v2_aux_reg_read r w)) = last_handle w;
  read_expires e r w : (expires e (snd (z_arc_v2_aux_reg_read r w)) <= expires e w)%nat;
  read_last w : fst (z_arc_v2_aux_reg_read DMA_C_HANDLE_AUX w) = last_handle w;
  last_range w : 0 <= last_handle w < 256;
  read_done w :
    Z.testbit (fst (z_arc_v2_aux_reg_read (DMA_S_DONESTATD_AUX (last_handle w / 32)) w)) (last_handle w mod 32) = true ->
    todo (snd (z_arc_v2_aux_reg_read (DMA_S_DONESTATD_AUX (last_handle w / 32)) w)) = [];
  wait_runs n w : reached (todo w) (mem w) (k_busy_wait n w);
  wait_handle n w : last_handle (k_busy_wait n w) = last_handle w;
  wait_expires e n w :
    sys_timepoint_timeout e w <> K_NO_WAIT -> (expires e (k_busy_wait n w) < expires e w)%nat
}.

Section reached.
Context {W : Type} `{ArcDmaState W}.
Implicit Types w : W.

Lemma reached_refl w : reached (todo w) (mem w) w.
Proof. exists 0%nat. split_and!; [lia|by rewrite drop_0|done]. Qed.

Lemma reached_step t m w w' y :
  reached t m w -> reached (todo w ++ y) (mem w) w' -> reached (t ++ y) m w'.
Proof.
  intros (k & Hk & Et & Em) (j & Hj & Et' & Em'). rewrite Et in *. exists (k + j)%nat.
  rewrite length_app, length_drop in *.
  assert (Ea : drop k t ++ y = drop k (t ++ y)) by (by rewrite drop_app_le).
  split_and!; [lia| |].
  - by rewrite Et', Ea, drop_drop.
  - intros a. rewrite Em', Ea.
    rewrite (run_xfers_ext _ (mem w) (run_xfers (take k t) m)) by done.
    rewrite <- run_xfers_app. f_equal. rewrite <- (take_app_le t y k) by lia. symmetry.
    by rewrite <- take_take_drop.
Qed.

Lemma reached_trans t m w w' : reached t m w -> reached (todo w) (mem w) w' -> reached t m w'.
Proof. intros H1 H2. rewrite <- (app_nil_r t). eapply reached_step; [done|]. by rewrite app_nil_r. Qed.

Lemma reached_all t m w : reached t m w -> todo w = [] -> forall a, mem w a = run_xfers t m a.
Proof.
  intros (k & Hk & Et & Em) E a. rewrite Em. rewrite E in Et. f_equal. apply take_ge.
  apply (f_equal length) in Et. rewrite length_drop in Et. simpl in Et. lia.
Qed.
End reached.

Section transfer.
Context {W : Type} `{Hlaws : ArcDmaLaws W}.
Variable dev_config : arc_dma_config.
Variable callbacks : Z -> Z -> Z -> Z -> dma W -> option (dma W).
Implicit Types s : dma W.
Implicit Types w : W.

Lemma write_reached t m r v w : r <> DMA_C_LEN_AUX -> reached t m w -> reached t m (z_arc_v2_aux_reg_write r v w).
Proof. intros. eapply reached_trans; [done|]. by apply write_runs. Qed.
Lemma read_reached t m r w : reached t m w -> reached t m (snd (z_arc_v2_aux_reg_read r w)).
Proof. intros. eapply reached_trans; [done|]. apply read_runs. Qed.

(** A submission on the selected channel. *)
Lemma next_hw_submits t m ch src dst n attr w :
  reached t m w -> latch w DMA_C_CHAN_AUX = ch -> is_u32 src -> is_u32 dst ->
  reached (t ++ [MkXfer ch src dst attr n]) m (dma_arc_hs_next_hw src dst n attr w) /\
  latch (dma_arc_hs_next_hw src dst n attr w) DMA_C_CHAN_AUX = ch.
Proof.
  intros Hr Hch Hs Hd. unfold dma_arc_hs_next_hw. rewrite (wrap_small 32 src), (wrap_small 32 dst) by done.
  assert (L : forall x, is_latch x -> x = DMA_C_CHAN_AUX \/ x = DMA_C_SRC_AUX \/ x = DMA_C_DST_AUX \/ x = DMA_C_ATTR_AUX) by done.
  split.
  - eapply reached_step; [|].
    2:{ pose proof (write_len n (z_arc_v2_aux_reg_write DMA_C_ATTR_AUX attr
          (z_arc_v2_aux_reg_write DMA_C_DST_AUX dst (z_arc_v2_aux_reg_write DMA_C_SRC_AUX src w)))) as Hl.
        rewrite !write_latch in Hl by (unfold is_latch; tauto). cbn in Hl. rewrite Hch in Hl. exact Hl. }
    by repeat apply write_reached.
  - rewrite !write_latch by (unfold is_latch; tauto). done.
Qed.

Lemma start_hw_submits t m ch src dst n attr w :
  reached t m w -> is_u32 src -> is_u32 dst ->
  reached (t ++ [MkXfer ch src dst attr n]) m (dma_arc_hs_start_hw ch src dst n attr w) /\
  latch (dma_arc_hs_start_hw ch src dst n attr w) DMA_C_CHAN_AUX = ch.
Proof.
  intros Hr Hs Hd. apply (next_hw_submits t m ch src dst n attr (z_arc_v2_aux_reg_write DMA_C_CHAN_AUX ch w)); try done.
  - by apply write_reached.
  - by rewrite write_latch by (unfold is_latch; tauto).
Qed.

(** *** Splitting *)

Definition block_at (nb src dst n i : Z) : dma_block_config :=
  MkBlock (src + i * max_block_size dev_config) (dst + i * max_block_size dev_config)
    (Z.min (max_block_size dev_config) (n - i * max_block_size dev_config)) (if i <? nb - 1 then BBuf (i + 1) else BNull).
Definition blocks_from (nb src dst n : Z) (bs : list dma_block_config) : Prop :=
  forall j, 0 <= j < nb -> aget bs j = Some (block_at nb src dst n j).

Lemma split_blocks nb src dst n blocks :
  let max := max_block_size dev_config in
  0 < max -> 0 < nb -> (nb - 1) * max < n <= nb * max -> nb <= len blocks ->
  0 <= src -> 0 <= dst -> src + n <= 2 ^ 32 -> dst + n <= 2 ^ 32 ->
  exists bs a b r, for_loop (Z.to_nat nb) 0 (split_block dev_config nb) (blocks, src, dst, n) = Some (bs, a, b, r) /\
    len bs = len blocks /\ blocks_from nb src dst n bs.
Proof.
  intros max Hmax Hnb Hn Hlen Hs Hd Hs' Hd'.
  destruct (for_loop_inv (fun i st => let '(bs, a, b, r) := st in
    len bs = len blocks /\ (i < nb -> a = src + i * max /\ b = dst + i * max /\ r = n - i * max) /\
    (forall j, 0 <= j < i -> aget bs j = Some (block_at nb src dst n j))) (Z.to_nat nb) 0
    (split_block dev_config nb) (blocks, src, dst, n)) as ([[[bs a] b] r] & E & HI).
  - split_and!; [done|lia|lia].
  - intros i [[[bs a] b] r] Hi (Hl & Ha & Hb). destruct Ha as (-> & -> & ->); [lia|].
    unfold split_block. fold max. rewrite aset_in by lia. cbn [mbind option_bind]. eexists. split; [done|].
    assert (Hmin : (if max <? n - i * max then max else n - i * max) = Z.min max (n - i * max))
      by (destruct (Z.ltb_spec max (n - i * max)); lia).
    rewrite Hmin. split_and!; [by rewrite length_insert| |].
    + intros Hlt. assert (max <= n - i * max) by nia. rewrite Z.min_l by lia.
      rewrite !wrap_small by (unfold in_width; nia). lia.
    + intros j Hj. destruct (Z.eq_dec j i) as [->|].
      * rewrite aget_insert by lia. done.
      * rewrite aget_insert_ne by lia. apply Hb. lia.
  - rewrite Z2Nat.id in HI by lia. destruct HI as (Hl & _ & Hb). by exists bs, a, b, r.
Qed.

(** *** Submitting *)

Lemma queue_submits nb src dst n ch attr t m :
  let max := max_block_size dev_config in
  0 < max -> (nb - 1) * max < n -> 0 <= src -> 0 <= dst -> src + n <= 2 ^ 32 -> dst + n <= 2 ^ 32 ->
  attr = transfer_attr dev_config ->
  forall k j s, Z.of_nat k = nb - j -> 0 <= j -> blocks_from nb src dst n (transfer_blocks s) ->
  reached t m (hw s) -> latch (hw s) DMA_C_CHAN_AUX = ch ->
  exists s', queue_blocks dev_config k (if j <? nb then BBuf j else BNull) s = Some s' /\
    reached (t ++ map (chunk max ch attr src dst n) (seqZ j (nb - j))) m (hw s') /\
    chans s' = chans s /\ channels_atomic s' = channels_atomic s.
Proof.
  intros max Hmax Hn Hs Hd Hs' Hd' Hattr k. revert t. induction k as [|k IH]; intros t j s Hk Hj Hbs Hr Hl.
  - exists s. replace (nb - j) with 0 by lia. simpl. by rewrite app_nil_r.
  - simpl queue_blocks. destruct (Z.ltb_spec j nb); [|lia].
    rewrite bool_decide_false by done. cbn [deref]. rewrite Hbs by lia. cbn [mbind option_bind block_at source_address dest_address block_size next_block].
    fold max. assert (0 <= j * max) by nia. assert (j * max < n) by nia.
    destruct (next_hw_submits t m ch (src + j * max) (dst + j * max) (Z.min max (n - j * max)) attr (hw s)) as [Hr1 Hl1];
      [done|done|unfold in_width; lia..|]. rewrite <- Hattr.
    set (s1 := set_hw _ s).
    destruct (IH (t ++ [chunk max ch attr src dst n j]) (j + 1) s1) as (s' & E & Hr' & Hc' & Ha'); [lia|lia|done|done|done|].
    exists s'. split_and!; [|  |done..].
    + rewrite <- E. f_equal. destruct (Z.ltb_spec j (nb - 1)), (Z.ltb_spec (j + 1) nb); done || lia.
    + rewrite <- app_assoc in Hr'. rewrite (seqZ_cons j) by lia. simpl in Hr' |- *.
      by replace (Z.succ j) with (j + 1) by lia; replace (Z.pred (nb - j)) with (nb - (j + 1)) by lia.
Qed.

(** *** Waiting *)

(** No running channel has a callback or a link. *)
Definition quiet s : Prop :=
  len (chans s) = channels dev_config /\
  forall ch c, aget (chans s) ch = Some c -> state c = ARC_DMA_ACTIVE -> chained c = false /\ callback c = None.

(** What interrupts and other threads may do meanwhile: finish running channels,
    each only when the engine says so. *)
Definition finishes s s' (c c' : arc_dma_channel) : Prop :=
  c' = c \/
  (state c = ARC_DMA_ACTIVE /\ c' = set_state ARC_DMA_IDLE c /\ (handle c = last_handle (hw s) -> todo (hw s') = [])).
Definition calm s s' : Prop :=
  len (chans s') = len (chans s) /\
  (forall ch c, aget (chans s) ch = Some c -> exists c', aget (chans s') ch = Some c' /\ finishes s s' c c') /\
  reached (todo (hw s)) (mem (hw s)) (hw s') /\
  last_handle (hw s') = last_handle (hw s) /\
  (forall e, expires e (hw s') <= expires e (hw s))%nat.

(** The transfers [t] on channel [ch], from memory [m]: under way, or all done. *)
Definition waiting (t : list xfer) (m : Z -> Z) (ch : Z) s : Prop :=
  quiet s /\ reached t m (hw s) /\
  exists c, aget (chans s) ch = Some c /\ head_block (config c) = BChan ch /\
    ((state c = ARC_DMA_ACTIVE /\ handle c = last_handle (hw s)) \/ (state c = ARC_DMA_IDLE /\ todo (hw s) = [])).

Lemma quiet_calm s s' : quiet s -> calm s s' -> quiet s'.
Proof.
  intros [Hl Hq] (Hlen & Hc & _). split; [lia|]. intros ch c' Hc' Ha.
  destruct (aget_in (chans s) ch) as [c Ec]; [apply aget_range in Hc'; lia|].
  destruct (Hc ch c Ec) as (c1 & E1 & [->|(Hs & -> & _)]); [replace c' with c in * by congruence; by apply (Hq ch)|].
  replace c' with (set_state ARC_DMA_IDLE c) in * by congruence. done.
Qed.

Lemma reached_done w w' : reached (todo w) (mem w) w' -> todo w = [] -> todo w' = [].
Proof. intros (k & _ & E & _) E0. by rewrite E, E0, drop_nil. Qed.

Lemma waiting_calm t m ch s s' : waiting t m ch s -> calm s s' -> waiting t m ch s'.
Proof.
  intros (Hq & Hr & c & Hc & Hh & Hst) Hcalm. pose proof Hcalm as (_ & Hcs & Hr' & Hlh & _).
  split; [by eapply quiet_calm|]. split; [by eapply reached_trans|].
  destruct (Hcs ch c Hc) as (c' & Hc' & Hf). exists c'. split; [done|]. destruct Hf as [->|(Ha & -> & Hd)].
  - split; [done|]. destruct Hst as [[? ?]|[? ?]]; [left; split; congruence|right; split; [done|by apply (reached_done (hw s))]].
  - split; [done|]. right. split; [done|]. apply Hd. destruct Hst as [[? ?]|[? ?]]; congruence.
Qed.

Lemma done_flag h w :
  0 <= h < 256 ->
  exists v w', z_arc_v2_aux_reg_read (DMA_S_DONESTATD_AUX (h / 32)) w = (v, w') /\
    dma_arc_hs_get_done_hw h w = (if Z.testbit v (h mod 32) then 1 else 0, w').
Proof.
  intros Hh. unfold dma_arc_hs_get_done_hw, DMA_ARC_HS_GET_GROUP, DMA_ARC_HS_GET_BIT_POS.
  rewrite Z.shiftr_div_pow2 by lia. change (2 ^ 5) with 32.
  change 0x1f with (Z.ones 5). change 0x7 with (Z.ones 3). rewrite !Z.land_ones by lia. change (2 ^ 5) with 32. change (2 ^ 3) with 8.
  rewrite (Z.mod_small (h / 32)) by (Z.to_euclidean_division_equations; lia).
  destruct (z_arc_v2_aux_reg_read _ w) as [v w']. exists v, w'. split; [done|]. f_equal.
  change 1 with (Z.ones 1) at 1. rewrite Z.land_ones by lia. change (2 ^ 1) with 2.
  rewrite <- Z.bit0_mod, Z.shiftr_spec by lia. rewrite Z.add_0_l. by destruct (Z.testbit v _).
Qed.

Lemma clear_done_reached t m h w : 0 <= h -> reached t m w -> reached t m (dma_arc_hs_clear_done_hw h w).
Proof.
  intros Hh. apply write_reached. unfold DMA_S_DONESTATD_CLR_AUX, DMA_ARC_HS_GET_GROUP, DMA_C_LEN_AUX.
  rewrite Z.shiftr_div_pow2 by lia. Z.to_euclidean_division_equations. lia.
Qed.

(** The channel found done: idle, and nothing else changes. *)
Lemma finish_waiting t m ch c s w' :
  waiting t m ch s -> aget (chans s) ch = Some c -> state c = ARC_DMA_ACTIVE -> 0 <= handle c ->
  reached t m w' -> todo w' = [] ->
  exists s', upd_chan ch (set_state ARC_DMA_IDLE) (set_hw (dma_arc_hs_clear_done_hw (handle c) w') (set_hw w' s)) = Some s' /\
    complete dev_config callbacks ch c s' = Some s' /\ waiting t m ch s' /\
    hw s' = dma_arc_hs_clear_done_hw (handle c) w' /\ todo (hw s') = [] /\ aget (chans s') ch = Some (set_state ARC_DMA_IDLE c).
Proof.
  intros ((Hl & Hq) & _ & c' & Hc' & Hh & _) Hc Ha Hrange Hr' Ht. replace c' with c in * by congruence. clear Hc' c'.
  destruct (upd_chan_in ch (set_state ARC_DMA_IDLE) (set_hw (dma_arc_hs_clear_done_hw (handle c) w') (set_hw w' s)))
    as [s1 E1]; [cbn; by eapply aget_range|].
  exists s1. split; [done|]. apply upd_chan_Some in E1 as (c0 & Hc0 & Hc1 & Hoth & Hlen & _ & _ & _ & Hhw).
  cbn in Hc0, Hoth, Hlen, Hhw. replace c0 with c in * by congruence. clear Hc0 c0.
  destruct (Hq ch c Hc Ha) as [Hnc Hncb].
  assert (Hr1 : reached t m (hw s1)) by (rewrite Hhw; by apply clear_done_reached).
  assert (Ht1 : todo (hw s1) = []).
  { rewrite Hhw. apply (reached_done w'); [|done]. apply clear_done_reached; [done|apply reached_refl]. }
  split_and!; [by unfold complete; rewrite Hncb, Hnc| |done..].
  split_and!; [|done|exists (set_state ARC_DMA_IDLE c); auto].
  split; [lia|]. intros ch' d Hd Hda. destruct (Z.eq_dec ch' ch) as [->|Hne].
  - replace d with (set_state ARC_DMA_IDLE c) in * by congruence. done.
  - rewrite Hoth in Hd by done. by apply (Hq ch').
Qed.

(** A poll: still running, or all done. *)
Lemma poll_status t m ch s :
  0 <= ch < channels dev_config -> waiting t m ch s ->
  exists st s', dma_arc_hs_get_status dev_config callbacks ch s = Some (0, st, s') /\
    waiting t m ch s' /\ (forall e, expires e (hw s') <= expires e (hw s))%nat /\
    (busy st = false -> todo (hw s') = [] /\ exists c, aget (chans s') ch = Some c /\ state c = ARC_DMA_IDLE).
Proof.
  intros Hch Hwait. pose proof Hwait as (Hq & Hr & c & Hc & Hh & Hst). unfold dma_arc_hs_get_status.
  rewrite (proj2 (Z.leb_gt (channels dev_config) ch)) by lia. rewrite Hc. cbn [mbind option_bind].
  rewrite (proj2 (is_state_false ARC_DMA_FREE c)) by (destruct Hst as [[-> _]|[-> _]]; done).
  destruct Hst as [[Ha Ehd]|[Hi Ht]].
  2:{ rewrite (proj2 (is_state_false ARC_DMA_ACTIVE c)) by (rewrite Hi; done). cbn [negb].
      eexists _, s. split; [done|]. split; [done|]. split; [done|]. eauto. }
  rewrite (proj2 (is_state_true ARC_DMA_ACTIVE c)) by done. cbn [negb].
  rewrite Hh, bool_decide_false by done. cbn [deref]. rewrite Hc. cbn [mbind option_bind].
  destruct (interrupts_available dev_config).
  { eexists _, s. split; [done|]. split_and!; [done|done|]. by cbn. }
  unfold dma_arc_hs_status_poll. rewrite Hc. cbn [mbind option_bind].
  pose proof (last_range (hw s)) as Hrange.
  destruct (done_flag (handle c) (hw s)) as (v & w' & Ev & ->); [by rewrite Ehd|].
  assert (Hw' : w' = snd (z_arc_v2_aux_reg_read (DMA_S_DONESTATD_AUX (handle c / 32)) (hw s))) by (by rewrite Ev).
  assert (Hr' : reached t m w') by (rewrite Hw'; by apply read_reached).
  assert (Hlh : last_handle w' = last_handle (hw s)) by (rewrite Hw'; apply read_handle).
  assert (Hex : forall e, (expires e w' <= expires e (hw s))%nat) by (intros; rewrite Hw'; apply read_expires).
  destruct (Z.testbit v (handle c mod 32)) eqn:Eb; cbn [Z.eqb].
  - assert (Ht : todo w' = []) by (rewrite Hw', Ehd; apply read_done; by rewrite <- Ehd, Ev).
    destruct (finish_waiting t m ch c s w') as (s1 & E1 & E2 & Hw1 & Hhw & Ht1 & Hc1); [done|done|done|lia|done|done|].
    change (hw (set_hw w' s)) with w'. rewrite E1. cbn [mbind option_bind]. rewrite E2. cbn [mbind option_bind].
    eexists _, s1. split; [done|]. split_and!; [done| |eauto].
    intros e. rewrite Hhw. unfold dma_arc_hs_clear_done_hw. etransitivity; [apply write_expires|apply Hex].
  - rewrite Hh, bool_decide_false by done. cbn [deref chans set_hw]. rewrite Hc. cbn [mbind option_bind].
    eexists _, (set_hw w' s). split; [done|]. split_and!; [|done|by cbn].
    split_and!; [done|done|]. exists c. split_and!; [done|done|]. left. cbn. split; congruence.
Qed.

Lemma stop_waiting t m ch s :
  0 <= ch < channels dev_config -> waiting t m ch s ->
  exists s', dma_arc_hs_stop dev_config ch s = Some (0, s') /\ reached t m (hw s') /\
    (todo (hw s) = [] -> todo (hw s') = []) /\ exists c, aget (chans s') ch = Some c /\ state c = ARC_DMA_IDLE.
Proof.
  intros Hch (Hq & Hr & c & Hc & Hh & Hst). unfold dma_arc_hs_stop.
  rewrite (proj2 (Z.leb_gt (channels dev_config) ch)) by lia. rewrite Hc. cbn [mbind option_bind].
  rewrite (proj2 (is_state_false ARC_DMA_FREE c)) by (destruct Hst as [[-> _]|[-> _]]; done).
  destruct Hst as [[Ha Ehd]|[Hi Ht]].
  - rewrite (proj2 (is_state_true ARC_DMA_ACTIVE c)) by done. cbn [negb].
    destruct (upd_chan_in ch (set_state ARC_DMA_IDLE) s) as [s1 E1]; [by eapply aget_range|].
    rewrite E1. cbn [mbind option_bind]. eexists. split; [done|].
    apply upd_chan_Some in E1 as (c0 & Hc0 & Hc1 & _ & _ & _ & _ & _ & Hhw). cbn. rewrite Hhw.
    pose proof (last_range (hw s)). split_and!.
    + apply clear_done_reached; [lia|done].
    + apply reached_done, clear_done_reached; [lia|apply reached_refl].
    + eexists. split; [done|]. done.
  - rewrite (proj2 (is_state_false ARC_DMA_ACTIVE c)) by (rewrite Hi; done). cbn [negb].
    exists s. split_and!; [done..|]. by exists c.
Qed.

Variable interrupted : dma W -> option (dma W).
Hypothesis interrupted_calm : forall s, quiet s -> exists s', interrupted s = Some s' /\ calm s s'.

Lemma wait_done_ends fuel t m ch e s :
  0 <= ch < channels dev_config -> waiting t m ch s -> (expires e (hw s) < fuel)%nat ->
  exists rc s', wait_done dev_config callbacks interrupted fuel ch e s = Some (rc, s') /\
    reached t m (hw s') /\ ((rc = 0 /\ todo (hw s') = []) \/ rc = - ETIMEDOUT) /\
    exists c, aget (chans s') ch = Some c /\ state c = ARC_DMA_IDLE.
Proof.
  intros Hch. revert s. induction fuel as [|fuel IH]; intros s Hw Hf; [lia|]. cbn [wait_done].
  destruct (poll_status t m ch s Hch Hw) as (st & s1 & -> & Hw1 & Hex & Hd). cbn [mbind option_bind].
  destruct (busy st) eqn:Eb; cbn [negb andb Z.eqb].
  - destruct (Z.eqb_spec (sys_timepoint_timeout e (hw s1)) K_NO_WAIT) as [E|Hne]; cbn [negb].
    + destruct (stop_waiting t m ch s1 Hch Hw1) as (s2 & -> & Hr & _ & Hc). cbn [mbind option_bind].
      eexists _, s2. split_and!; [done|done|by right|done].
    + set (s2 := set_hw (k_busy_wait 100 (hw s1)) s1).
      assert (Hw2 : waiting t m ch s2).
      { destruct Hw1 as (Hq & Hr & c & Hc & Hh & Hst). split; [done|].
        split; [eapply reached_trans; [done|apply wait_runs]|].
        exists c. split_and!; [done|done|]. subst s2. cbn. rewrite wait_handle.
        destruct Hst as [?|[? Ht]]; [by left|right]. split; [done|]. by apply (reached_done (hw s1)); [apply wait_runs|]. }
      destruct (interrupted_calm s2) as (s3 & -> & Hcalm); [apply Hw2|]. cbn [mbind option_bind].
      apply IH; [by eapply waiting_calm|].
      destruct Hcalm as (_ & _ & _ & _ & He3). specialize (He3 e). specialize (Hex e).
      pose proof (wait_expires e 100 (hw s1) Hne). subst s2. cbn in He3. lia.
  - destruct (Hd eq_refl) as [Ht _].
    destruct (stop_waiting t m ch s1 Hch Hw1) as (s2 & -> & Hr & Hs & Hc). cbn [mbind option_bind].
    eexists _, s2. split_and!; [done|done|left; split; [done|by apply Hs]|done].
Qed.

(** *** The whole transfer *)

Definition transfer_inputs_ok (ch src dst n : Z) s : Prop :=
  device_is_ready (hw s) = true /\ 0 <= ch < channels dev_config /\
  Z.land src (u32 (buffer_address_alignment dev_config - 1)) = 0 /\
  Z.land dst (u32 (buffer_address_alignment dev_config - 1)) = 0 /\
  0 < n /\ 0 < max_block_size dev_config /\ n <= descriptors dev_config * max_block_size dev_config /\
  n + max_block_size dev_config - 1 < 2 ^ 32 /\
  0 <= src /\ 0 <= dst /\ src + n <= 2 ^ 32 /\ dst + n <= 2 ^ 32.

(** The number of blocks, and why they fit. *)
Lemma transfer_blocks_fit ch src dst n s :
  transfer_inputs_ok ch src dst n s ->
  let max := max_block_size dev_config in
  let nb := (n + max - 1) / max in
  0 < nb <= descriptors dev_config /\ (nb - 1) * max < n <= nb * max.
Proof.
  intros (_ & _ & _ & _ & Hn & Hmax & Hcap & _) max nb. fold max in Hmax, Hcap.
  destruct (ceil_div_bounds n max) as (Hnb & Hb); [done|done|]. fold nb in Hnb, Hb. split; [|done].
  destruct (Z.le_gt_cases nb (descriptors dev_config)); [lia|nia].
Qed.

(** The configuration step of a transfer. *)
Lemma transfer_configures ch src dst n nb bs s :
  0 <= ch < channels dev_config -> quiet s -> 0 < nb <= descriptors dev_config -> blocks_from nb src dst n bs ->
  exists s1 c, dma_arc_hs_config dev_config ch (transfer_config nb) (set_blocks bs s) = Some (0, s1) /\
    aget (chans s1) ch = Some c /\ state c = ARC_DMA_PREPARED /\ config c = set_head (BChan ch) (transfer_config nb) /\
    block_config c = block_at nb src dst n 0 /\ callback c = None /\
    transfer_blocks s1 = bs /\ hw s1 = hw s /\ quiet s1.
Proof.
  intros Hch [Hl Hq] Hnb Hbs. destruct (aget_in (chans s) ch) as [c0 Hc0]; [lia|].
  set (atomic := if is_state ARC_DMA_FREE c0 then Z.lor (channels_atomic s) (BIT ch) else channels_atomic s).
  set (s0 := MkDma (chans s) atomic bs (completion_work s) (hw s)).
  destruct (upd_chan_in ch (configure ch (transfer_config nb) (block_at nb src dst n 0)) s0) as [s1 E1]; [cbn; lia|].
  exists s1, (configure ch (transfer_config nb) (block_at nb src dst n 0) c0). split.
  { unfold dma_arc_hs_config. rewrite (proj2 (Z.leb_gt (channels dev_config) ch)) by lia.
    cbn [transfer_config block_count channel_direction head_block].
    rewrite (proj2 (Z.eqb_neq nb 0)), (proj2 (Z.ltb_ge (descriptors dev_config) nb)) by lia.
    rewrite bool_decide_true, bool_decide_false by done. cbn [negb chans set_blocks]. rewrite Hc0. cbn [mbind option_bind].
    replace (if is_state ARC_DMA_FREE c0 then _ else _) with s0 by (subst s0 atomic; by destruct (is_state _ _)).
    cbn [deref transfer_blocks s0]. rewrite Hbs by lia. cbn [mbind option_bind]. fold (transfer_config nb). by rewrite E1. }
  apply upd_chan_Some in E1 as (c1 & Hc1 & Hc & Hoth & Hlen1 & _ & Htb & _ & Hhw). cbn in Hc1, Hoth, Hlen1, Htb, Hhw.
  replace c1 with c0 in * by congruence. split_and!; try done. split; [lia|].
  intros ch' d Hd Hda. destruct (Z.eq_dec ch' ch) as [->|Hne]; [by simplify_eq|].
  rewrite Hoth in Hd by done. by apply (Hq ch').
Qed.

(** The start of a transfer that has been configured: every block is submitted. *)
Lemma transfer_starts ch src dst n s c :
  let max := max_block_size dev_config in
  let nb := (n + max - 1) / max in
  transfer_inputs_ok ch src dst n s -> quiet s -> todo (hw s) = [] -> blocks_from nb src dst n (transfer_blocks s) ->
  aget (chans s) ch = Some c -> state c = ARC_DMA_PREPARED -> config c = set_head (BChan ch) (transfer_config nb) ->
  block_config c = block_at nb src dst n 0 -> callback c = None ->
  exists s', (forall fuel, dma_arc_hs_start dev_config (S fuel) ch s = Some (0, s')) /\
    waiting (chunks max ch (transfer_attr dev_config) src dst n (Z.to_nat nb)) (mem (hw s)) ch s'.
Proof.
  intros max nb Hin [Hl Hq] Ht Hbs Hc Hst Hcfg Hblk Hcb. pose proof (transfer_blocks_fit _ _ _ _ _ Hin) as [Hnb [Hlo Hhi]].
  fold max in Hnb, Hlo, Hhi. fold nb in Hnb, Hlo, Hhi.
  destruct Hin as (_ & Hch & _ & _ & Hn & Hmax & _ & Hov & Hs & Hd & Hs' & Hd'). fold max in Hmax, Hov.
  set (attr := transfer_attr dev_config).
  destruct (start_hw_submits [] (mem (hw s)) ch src dst (Z.min max n) attr (hw s)) as [Hr1 Hlat];
    [rewrite <- Ht; apply reached_refl|unfold in_width; lia..|].
  destruct (queue_submits nb src dst n ch attr [MkXfer ch src dst attr (Z.min max n)] (mem (hw s)) Hmax Hlo Hs Hd Hs' Hd' eq_refl
    (Z.to_nat (nb - 1)) 1 (set_hw (dma_arc_hs_start_hw ch src dst (Z.min max n) attr (hw s)) s))
    as (s2 & E2 & Hr2 & Hch2 & _); [lia|lia|done|exact Hr1|exact Hlat|]. cbn in Hch2.
  destruct (dma_arc_hs_get_handle_hw (hw s2)) as [h w] eqn:Eh. unfold dma_arc_hs_get_handle_hw in Eh.
  assert (Hw : w = snd (z_arc_v2_aux_reg_read DMA_C_HANDLE_AUX (hw s2))) by (by rewrite Eh).
  assert (Hh : h = last_handle w) by (by rewrite Hw, read_handle, <- read_last, Eh).
  destruct (upd_chan_in ch (activate h) (set_hw w s2)) as [s3 E3]; [cbn; rewrite Hch2; lia|].
  exists (if negb (interrupts_available dev_config) then set_work true s3 else s3). split.
  { intros fuel. unfold dma_arc_hs_start. rewrite (proj2 (Z.leb_gt (channels dev_config) ch)) by lia.
    simpl walk_chain. rewrite Hc. cbn [mbind option_bind]. unfold is_state. rewrite Hst, !bool_decide_false by done.
    unfold chained. rewrite Hcfg. cbn [set_head transfer_config source_chaining_en dest_chaining_en orb negb head_block block_count].
    rewrite bool_decide_false by done. cbn [deref]. rewrite Hc. cbn [mbind option_bind]. rewrite Hblk.
    cbn [block_at source_address dest_address block_size next_block].
    fold max attr. rewrite !Z.mul_0_l, !Z.add_0_r, Z.sub_0_r.
    replace (if 0 <? nb - 1 then BBuf (0 + 1) else BNull) with (if 1 <? nb then BBuf 1 else BNull)
      by (destruct (Z.ltb_spec 0 (nb - 1)), (Z.ltb_spec 1 nb); done || lia).
    rewrite E2. cbn [mbind option_bind]. unfold dma_arc_hs_get_handle_hw. by rewrite Eh, E3. }
  apply upd_chan_Some in E3 as (c3 & Hc3 & Hc3' & Hoth3 & Hlen3 & _ & _ & _ & Hhw3). cbn in Hc3, Hoth3, Hlen3, Hhw3.
  rewrite Hch2 in Hc3, Hoth3, Hlen3. replace c3 with c in * by congruence.
  assert (Hgoal : waiting (chunks max ch attr src dst n (Z.to_nat nb)) (mem (hw s)) ch s3); [|by destruct (negb _)].
  split; [|split].
  - split; [lia|]. intros ch' d Hd1 Hda. destruct (Z.eq_dec ch' ch) as [->|Hne]; [|rewrite Hoth3 in Hd1 by done; by apply (Hq ch')].
    replace d with (activate h c) in * by congruence. unfold chained. cbn. by rewrite Hcfg.
  - rewrite Hhw3, Hw. apply read_reached.
    unfold chunks. rewrite Z2Nat.id by lia. rewrite (seqZ_cons 0) by lia. cbn [map].
    replace (chunk max ch attr src dst n 0) with (MkXfer ch src dst attr (Z.min max n)) by (unfold chunk; f_equal; lia).
    change (Z.succ 0) with 1. rewrite <- Z.sub_1_r. exact Hr2.
  - exists (activate h c). cbn. rewrite Hcfg. split_and!; [done|done|]. left. split; [done|]. by rewrite Hhw3.
Qed.

(** C20: a transfer of any length that fits the descriptors, between ranges that do
    not overlap, ends, and with 0 only when the engine has left in memory exactly
    what one copy of the whole leaves; otherwise it has timed out, with a prefix of
    the blocks copied.  The channel is idle again either way. *)
Theorem dma_transfer_copies (fuel : nat) ch src dst n timeout s
    (Hin : transfer_inputs_ok ch src dst n s) (Hq : quiet s) (Hd : disjoint_ranges src dst n)
    (Hlen : descriptors dev_config <= len (transfer_blocks s)) (Hidle : todo (hw s) = [])
    (Hfuel : forall w, (expires (sys_timepoint_calc timeout w) w < fuel)%nat) :
  exists rc s', dma_arc_hs_transfer dev_config callbacks interrupted fuel ch src dst n timeout s = Some (rc, s') /\
    ((rc = 0 /\ todo (hw s') = [] /\ forall a, mem (hw s') a = copy src dst n (mem (hw s)) a) \/
     (rc = - ETIMEDOUT /\ exists k : nat, forall a,
        mem (hw s') a = copy src dst (Z.min n (Z.of_nat k * max_block_size dev_config)) (mem (hw s)) a)) /\
    exists c, aget (chans s') ch = Some c /\ state c = ARC_DMA_IDLE.
Proof.
  pose proof (transfer_blocks_fit _ _ _ _ _ Hin) as [Hnb [Hlo Hhi]].
  set (max := max_block_size dev_config) in *. set (nb := (n + max - 1) / max) in *.
  pose proof Hin as (Hrdy & Hch & Has & Had & Hn & Hmax & Hcap & Hov & Hs & Hdst & Hs' & Hdst'). fold max in Hmax, Hcap, Hov.
  destruct (split_blocks nb src dst n (transfer_blocks s)) as (bs & a & b & r & E & Hbl & Hbs); [done|lia|done|lia|done..|].
  destruct (transfer_configures ch src dst n nb bs s Hch Hq Hnb Hbs) as (s1 & c & E1 & Hc & Hst & Hcfg & Hblk & Hcb & Htb & Hhw & Hq1).
  destruct (transfer_starts ch src dst n s1 c) as (s2 & E2 & Hw); try done.
  { unfold transfer_inputs_ok. by rewrite Hhw. }
  { by rewrite Hhw. }
  { by rewrite Htb. }
  destruct fuel as [|fuel]; [by specialize (Hfuel (hw s)); lia|].
  destruct (wait_done_ends (S fuel) _ _ ch (sys_timepoint_calc timeout (hw s2)) s2 Hch Hw (Hfuel _))
    as (rc & s' & E3 & Hr & Hrc & Hc').
  exists rc, s'. split; [|split; [|done]].
  - unfold dma_arc_hs_transfer. rewrite Hrdy. cbn [negb]. rewrite (proj2 (Z.eqb_neq n 0)) by lia.
    rewrite Has, Had. cbn [Z.eqb negb orb]. rewrite (proj2 (Z.leb_gt (channels dev_config) ch)) by lia.
    fold max. rewrite (proj2 (Z.eqb_neq max 0)) by lia. rewrite wrap_small by (unfold in_width; lia). fold nb.
    rewrite (proj2 (Z.ltb_ge (descriptors dev_config) nb)) by lia. rewrite E. cbn [mbind option_bind].
    rewrite E1. cbn [mbind option_bind Z.ltb Z.compare]. rewrite E2. cbn [mbind option_bind Z.ltb Z.compare]. done.
  - rewrite Hhw in Hr. fold max nb in Hr. destruct Hrc as [[-> Ht]| ->]; [left|right].
    + split_and!; [done|done|]. intros x. rewrite (reached_all _ _ _ Hr Ht).
      rewrite run_chunks; [|done|lia|done|by rewrite Z2Nat.id by lia]. rewrite Z2Nat.id by lia. f_equal. lia.
    + split; [done|]. destruct Hr as (k & Hk & _ & Em). exists k. intros x. rewrite Em.
      unfold chunks in Hk |- *. rewrite length_map, length_seqZ in Hk. rewrite Z2Nat.id by lia.
      replace (seqZ 0 nb) with (seqZ 0 (Z.of_nat k) ++ seqZ (0 + Z.of_nat k) (nb - Z.of_nat k))
        by (rewrite <- seqZ_app by lia; f_equal; lia).
      rewrite map_app, take_app_length' by (rewrite length_map, length_seqZ; lia).
      fold (chunks max ch (transfer_attr dev_config) src dst n k). by rewrite run_chunks by (done || nia).
Qed.
End transfer.

(** ** The interrupt handler *)

(** What the driver relies on of interrupts: the done bits and the pending flag may
    change at any access, but a completion that arrives raises the interrupt. *)
Class ArcDmaIrq (W : Type) `{ArcDma W} := {
  isdone : W -> Z -> bool;
  pending : W -> bool
}.

Definition evolves {W} `{ArcDmaIrq W} (w w' : W) : Prop :=
  (forall h, isdone w' h = true -> isdone w h = true \/ pending w' = true) /\ (pending w = true -> pending w' = true).

Class ArcDmaIrqLaws (W : Type) `{ArcDmaIrq W} : Prop := {
  read_evolves r w : evolves w (snd (z_arc_v2_aux_reg_read r w));
  write_evolves r v w : r <> DMA_C_INTSTAT_CLR_AUX -> evolves w (z_arc_v2_aux_reg_write r v w);
  read_pending w : Z.testbit (fst (z_arc_v2_aux_reg_read DMA_C_INTSTAT_AUX w)) 0 = pending w;
  clear_pending v w :
    (forall h, isdone (z_arc_v2_aux_reg_write DMA_C_INTSTAT_CLR_AUX v w) h = true ->
       isdone w h = true \/ pending (z_arc_v2_aux_reg_write DMA_C_INTSTAT_CLR_AUX v w) = true) /\
    (Z.testbit v 0 = false -> pending w = true -> pending (z_arc_v2_aux_reg_write DMA_C_INTSTAT_CLR_AUX v w) = true);
  read_isdone w h :
    0 <= h -> Z.testbit (fst (z_arc_v2_aux_reg_read (DMA_S_DONESTATD_AUX (h / 32)) w)) (h mod 32) = isdone w h;
  clear_isdone v w h :
    0 <= h -> Z.testbit v (h mod 32) = true ->
    isdone (z_arc_v2_aux_reg_write (DMA_S_DONESTATD_CLR_AUX (h / 32)) v w) h = true ->
    pending (z_arc_v2_aux_reg_write (DMA_S_DONESTATD_CLR_AUX (h / 32)) v w) = true
}.

Section evolves.
Context {W : Type} `{Hlaws : ArcDmaIrqLaws W}.
Implicit Types w : W.

#[export] Instance evolves_preorder : PreOrder (evolves (W := W)).
Proof.
  split; [by intros w; split; auto|]. intros w1 w2 w3 [A1 A2] [B1 B2]. split; [|auto].
  intros h [H1|H1]%B1; [|by right]. apply A1 in H1 as [H1|H1]; [by left|right; auto].
Qed.

Lemma next_hw_evolves src dst n attr w : evolves w (dma_arc_hs_next_hw src dst n attr w).
Proof. unfold dma_arc_hs_next_hw. repeat (etransitivity; [|by apply write_evolves]). reflexivity. Qed.
Lemma start_hw_evolves ch src dst n attr w : evolves w (dma_arc_hs_start_hw ch src dst n attr w).
Proof. unfold dma_arc_hs_start_hw. repeat (etransitivity; [|by apply write_evolves]). reflexivity. Qed.
End evolves.

Section isr.
Context {W : Type} `{Hlaws : ArcDmaIrqLaws W}.
Variable dev_config : arc_dma_config.
Variable callbacks : Z -> Z -> Z -> Z -> dma W -> option (dma W).
Implicit Types s : dma W.
Implicit Types w : W.

(** Nothing is lost: a completion not yet taken has its interrupt pending. *)
Definition none_lost w : Prop := forall h, isdone w h = true -> pending w = true.

Hypothesis callbacks_evolve : forall f arg ch st s s', callbacks f arg ch st s = Some s' -> evolves (hw s) (hw s').
Hypothesis isdone_range : forall w h, isdone w h = true -> 0 <= h < descriptors dev_config.

Lemma upd_chan_hw ch f s s' : upd_chan ch f s = Some s' -> hw s' = hw s.
Proof. intros E. apply upd_chan_Some in E as (? & ? & ? & ? & ? & ? & ? & ? & ?). done. Qed.

Lemma trigger_evolves c ch s s' :
  dma_arc_hs_trigger_linked_channel dev_config c ch s = Some s' -> evolves (hw s) (hw s').
Proof.
  unfold dma_arc_hs_trigger_linked_channel. destruct (aget (chans s) ch) as [l|]; simpl; [|done].
  destruct (negb _); [by intros [= <-]|]. destruct (deref _ s) as [b|]; simpl; [|done].
  destruct (dma_arc_hs_calc_linked_transfer_size _ _ _) as [z|]; simpl; [|done].
  unfold dma_arc_hs_get_handle_hw. destruct (z_arc_v2_aux_reg_read _ _) as [h w] eqn:E. intros E'%upd_chan_hw.
  rewrite E'. cbn. replace w with (snd (z_arc_v2_aux_reg_read DMA_C_HANDLE_AUX (dma_arc_hs_start_hw ch (source_address b) (dest_address b) z
    (transfer_attr dev_config) (hw s)))) by (by rewrite E).
  etransitivity; [apply start_hw_evolves|apply read_evolves].
Qed.

Lemma process_handle_evolves n ch h s s' :
  process_handle_from dev_config callbacks n ch h s = Some s' -> evolves (hw s) (hw s').
Proof.
  revert ch. induction n as [|n IH]; intros ch; simpl; [by intros [= <-]|].
  destruct (aget (chans s) ch) as [c|]; simpl; [|done].
  destruct (negb _ || _); [by apply IH|].
  destruct (upd_chan _ _ _) as [s1|] eqn:Eu; simpl; [|done]. apply upd_chan_hw in Eu. rewrite <- Eu.
  destruct (match callback c with Some _ => _ | None => _ end) as [s2|] eqn:E2; simpl; [|done].
  assert (E12 : evolves (hw s1) (hw s2)) by (destruct (callback c); [by eapply callbacks_evolve|by simplify_eq]).
  destruct (aget (chans s2) ch) as [now|]; simpl; [|done].
  destruct (chained now); [|by intros [= <-]].
  destruct (_ <? _); [|by intros [= <-]]. intros E3%trigger_evolves. by etransitivity.
Qed.

Lemma process_bits_evolves n g bits s s' :
  process_bits dev_config callbacks n g bits s = Some s' -> evolves (hw s) (hw s').
Proof.
  revert bits s. induction n as [|n IH]; intros bits s; simpl; (destruct (bits =? 0); [by intros [= <-]|]); [done|].
  destruct (dma_arc_hs_process_handle _ _ _ _) as [s1|] eqn:E; simpl; [|done].
  intros E'%IH. apply process_handle_evolves in E. by etransitivity.
Qed.

(** Of the groups from [g] on, completions may be waiting to be read. *)
Definition lost_none_below (g : Z) w : Prop := forall h, isdone w h = true -> pending w = true \/ g <= h / 32.

Lemma lost_none_evolves g w w' : evolves w w' -> lost_none_below g w -> lost_none_below g w'.
Proof.
  intros [E1 E2] Hl h Hd. destruct (E1 h Hd) as [Hd'|]; [|by left].
  destruct (Hl h Hd'); [left; auto|by right].
Qed.

Lemma group_not_clr g : 0 <= g -> DMA_S_DONESTATD_CLR_AUX g <> DMA_C_INTSTAT_CLR_AUX.
Proof. unfold DMA_S_DONESTATD_CLR_AUX, DMA_C_INTSTAT_CLR_AUX. lia. Qed.

Lemma isr_group_lost_none g s s' :
  0 <= g -> isr_group dev_config callbacks g s = Some s' -> lost_none_below g (hw s) -> lost_none_below (g + 1) (hw s').
Proof.
  intros Hg. unfold isr_group. destruct (z_arc_v2_aux_reg_read _ _) as [bits w] eqn:E. cbn [hw set_hw].
  assert (Ew : w = snd (z_arc_v2_aux_reg_read (DMA_S_DONESTATD_AUX g) (hw s))) by (by rewrite E).
  pose proof (read_evolves (DMA_S_DONESTATD_AUX g) (hw s)) as Hev. rewrite <- Ew in Hev.
  assert (Hbits : forall h, 0 <= h -> h / 32 = g -> Z.testbit bits (h mod 32) = isdone (hw s) h)
    by (intros h Hh <-; rewrite <- read_isdone by done; by rewrite E).
  intros Hs' Hl.
  assert (Hl1 : forall w1, evolves w w1 -> (forall h, 0 <= h -> h / 32 = g -> Z.testbit bits (h mod 32) = true ->
            isdone w1 h = true -> pending w1 = true) -> lost_none_below (g + 1) w1).
  { intros w1 [E1 E2] Hc h Hd. pose proof (isdone_range _ _ Hd) as [Hh _].
    destruct (E1 h Hd) as [Hd1|]; [|by left]. destruct Hev as [V1 V2].
    destruct (V1 h Hd1) as [Hd2|]; [|left; auto]. destruct (Hl h Hd2); [left; auto|].
    destruct (Z.eq_dec (h / 32) g) as [Eg|]; [|right; lia]. left. apply (Hc h); [done|done| |done]. by rewrite Hbits. }
  destruct (Z.eqb_spec bits 0) as [->|Hnz].
  - injection Hs' as [= <-]. apply Hl1; [reflexivity|]. intros h _ _. by rewrite Z.bits_0.
  - apply process_bits_evolves in Hs'. eapply lost_none_evolves; [done|]. cbn.
    apply Hl1; [by apply write_evolves, group_not_clr|]. intros h Hh <- Hb. by apply clear_isdone.
Qed.

Lemma isr_groups_lost_none n lo s s' :
  0 <= lo -> for_loop n lo (isr_group dev_config callbacks) s = Some s' -> lost_none_below lo (hw s) ->
  lost_none_below (lo + Z.of_nat n) (hw s').
Proof.
  revert lo s. induction n as [|n IH]; intros lo s Hlo; simpl.
  - intros [= <-]. by rewrite Z.add_0_r.
  - destruct (isr_group _ _ lo s) as [s1|] eqn:E; simpl; [|done]. intros E' Hl.
    replace (lo + Z.of_nat (S n)) with (lo + 1 + Z.of_nat n) by lia. eapply IH; [lia|done|]. by eapply isr_group_lost_none.
Qed.

(** Completions may arrive at any register access and callbacks may use the driver:
    when the handler returns, a done bit that is still set has its interrupt pending. *)
Lemma isr_none_lost fuel s s' :
  dma_arc_hs_isr dev_config callbacks fuel s = Some s' -> none_lost (hw s) -> none_lost (hw s').
Proof.
  intros Hisr Hstart. revert s Hisr Hstart. induction fuel as [|fuel IH]; intros s Hisr Hstart; [done|].
  cbn [dma_arc_hs_isr] in Hisr. pose proof (read_pending (hw s)) as Hp. pose proof (read_evolves DMA_C_INTSTAT_AUX (hw s)) as [V1 V2].
  destruct (z_arc_v2_aux_reg_read DMA_C_INTSTAT_AUX (hw s)) as [st w]. cbn [fst snd] in Hp, V1, V2.
  assert (Hw : none_lost w) by (intros h Hd; destruct (V1 h Hd) as [?%Hstart|]; auto).
  destruct (Z.eqb_spec st 0) as [->|Hnz]; [by injection Hisr as [= <-]|].
  destruct (clear_pending st w) as [C1 C2]. cbn [hw set_hw] in Hisr. unfold DMA_C_INTSTAT_DONE in Hisr.
  rewrite land_BIT_eqb in Hisr by lia.
  destruct (Z.testbit st 0) eqn:Eb; cbn [negb] in Hisr.
  - destruct (for_loop _ _ _ _) as [s1|] eqn:El; simpl in Hisr; [|done]. eapply IH; [done|].
    apply isr_groups_lost_none in El; [|lia|].
    + intros h Hd. destruct (El h Hd) as [|Hge]; [done|]. pose proof (isdone_range _ _ Hd) as Hr.
      unfold num_groups, DIV_ROUND_UP in Hge. Z.to_euclidean_division_equations. lia.
    + intros h Hd. pose proof (isdone_range _ _ Hd). right. cbn. Z.to_euclidean_division_equations. lia.
  - injection Hisr as [= <-]. intros h Hd. cbn in Hd |- *. destruct (C1 h Hd) as [?%Hw|]; auto.
Qed.
End isr.

(** ** Which channels an interrupt serves *)

Section serve.
Context {W : Type} `{ArcDma W}.
Variable dev_config : arc_dma_config.
(** Callbacks that leave the driver alone, [run] being what they do elsewhere. *)
Variable run : Z -> Z -> Z -> Z -> W -> W.
Definition plain_callbacks (f arg ch st : Z) (s : dma W) : option (dma W) := Some (set_hw (run f arg ch st (hw s)) s).
Implicit Types s : dma W.
Implicit Types cs : list arc_dma_channel.

(** The running channels, none linked, have handles of their own. *)
Definition is_active (c : arc_dma_channel) : Prop := state c = ARC_DMA_ACTIVE.
#[export] Instance is_active_dec c : Decision (is_active c).
Proof. unfold is_active. apply _. Defined.
Definition distinct_handles cs : Prop :=
  forall i j c d, aget cs i = Some c -> aget cs j = Some d -> is_active c -> is_active d -> handle c = handle d -> i = j.
Definition unlinked cs : Prop := forall i c, aget cs i = Some c -> is_active c -> chained c = false.

(** The channel that runs under handle [h], found from channel [ch] on. *)
Fixpoint runner (h ch : Z) cs : option (Z * arc_dma_channel) :=
  match cs with
  | [] => None
  | c :: cs => if decide (is_active c) then if handle c =? h then Some (ch, c) else runner h (ch + 1) cs else runner h (ch + 1) cs
  end.
Definition call (w : W) (r : Z * arc_dma_channel) : W :=
  match callback r.2 with Some f => run f (callback_arg r.2) r.1 0 w | None => w end.

Definition served (P : Z -> bool) (c : arc_dma_channel) : arc_dma_channel :=
  if decide (is_active c) then if P (handle c) then set_state ARC_DMA_IDLE c else c else c.

Lemma served_active P c : is_active (served P c) -> served P c = c /\ P (handle c) = false.
Proof. unfold served. destruct (decide (is_active c)); [|done]. destruct (P (handle c)); done. Qed.

Lemma runner_spec h ch cs i c : runner h ch cs = Some (i, c) -> cs !! Z.to_nat (i - ch) = Some c /\ ch <= i /\ is_active c /\ handle c = h.
Proof.
  revert ch. induction cs as [|d cs IH]; intros ch; [done|]. simpl.
  assert (Hrec : runner h (ch + 1) cs = Some (i, c) -> (d :: cs) !! Z.to_nat (i - ch) = Some c /\ ch <= i /\ is_active c /\ handle c = h).
  { intros (E & ? & ? & ?)%IH. replace (Z.to_nat (i - ch)) with (S (Z.to_nat (i - (ch + 1)))) by lia. split_and!; [done|lia|done..]. }
  case_decide; [|done]. destruct (Z.eqb_spec (handle d) h) as [E|]; [|done].
  intros [= <- <-]. rewrite Z.sub_diag. split_and!; [done|lia|done..].
Qed.

Lemma runner_None h ch cs c : runner h ch cs = None -> c ∈ cs -> is_active c -> handle c <> h.
Proof.
  revert ch. induction cs as [|d cs IH]; intros ch; simpl; [set_solver|].
  case_decide as Hd.
  - destruct (Z.eqb_spec (handle d) h) as [|Hne]; [done|]. intros E [->|Hin]%elem_of_cons Ha; [done|by eapply IH].
  - intros E [->|Hin]%elem_of_cons Ha; [done|by eapply IH].
Qed.

Lemma list_omap_ext_in {A B} (f g : A -> option B) (l : list A) : (forall x, x ∈ l -> f x = g x) -> omap f l = omap g l.
Proof.
  induction l as [|x l IH]; intros Hl; [done|]. cbn [omap list_omap]. rewrite Hl by set_solver.
  destruct (g x); rewrite IH by set_solver; done.
Qed.

(** A handle that was not served finds the same channel afterwards. *)
Lemma runner_served P h ch cs : P h = false -> runner h ch (map (served P) cs) = runner h ch cs.
Proof.
  intros HP. revert ch. induction cs as [|c cs IH]; intros ch; [done|]. simpl. rewrite !IH. unfold served.
  destruct (decide (is_active c)) as [Ha|Ha].
  - destruct (Z.eqb_spec (handle c) h) as [E|Hne].
    + rewrite E, HP, decide_True by done. by rewrite E, Z.eqb_refl.
    + destruct (P (handle c)); [by rewrite decide_False by done|].
      rewrite decide_True by done. by rewrite (proj2 (Z.eqb_neq (handle c) h)).
  - by rewrite decide_False by done.
Qed.

Lemma served_served P Q cs : map (served P) (map (served Q) cs) = map (served (fun h => P h || Q h)) cs.
Proof.
  rewrite map_map. apply map_ext. intros c. unfold served. destruct (decide (is_active c)) as [Ha|Ha].
  - destruct (Q (handle c)).
    + rewrite orb_true_r. by rewrite decide_False.
    + rewrite orb_false_r. by rewrite decide_True.
  - by rewrite decide_False.
Qed.

Lemma served_aget P cs i c' : aget (map (served P) cs) i = Some c' -> exists c, aget cs i = Some c /\ c' = served P c.
Proof.
  intros E. pose proof (aget_range _ _ _ E). rewrite aget_nat, list_lookup_fmap in E by lia. rewrite aget_nat by lia.
  destruct (cs !! _) as [c|]; [|done]. injection E as [= <-]. eauto.
Qed.

Lemma served_distinct P cs : distinct_handles cs -> distinct_handles (map (served P) cs).
Proof.
  intros Hd i j c d (c0 & Hc & ->)%served_aget (d0 & Hd0 & ->)%served_aget Ha Hb.
  destruct (served_active P c0 Ha) as [Ec _], (served_active P d0 Hb) as [Ed _]. rewrite Ec, Ed in *. by apply Hd.
Qed.

Lemma served_unlinked P cs : unlinked cs -> unlinked (map (served P) cs).
Proof.
  intros Hu i c (c0 & Hc & ->)%served_aget Ha. destruct (served_active P c0 Ha) as [Ec _]. rewrite Ec in *. by apply (Hu i).
Qed.

Lemma served_none P cs : (forall i c, aget cs i = Some c -> is_active c -> P (handle c) = false) -> map (served P) cs = cs.
Proof.
  intros Hn. apply list_eq. intros i. rewrite list_lookup_fmap. destruct (cs !! i) as [c|] eqn:Ec; [|done]. simpl. f_equal.
  unfold served. case_decide as Ha; [|done]. rewrite (Hn (Z.of_nat i) c); [done| |done]. by rewrite aget_nat, Nat2Z.id by lia.
Qed.

(** With distinct handles, one channel at most is served. *)
Lemma served_one h cs ch c :
  distinct_handles cs -> aget cs ch = Some c -> is_active c -> handle c = h ->
  map (served (Z.eqb h)) cs = <[Z.to_nat ch := set_state ARC_DMA_IDLE c]> cs.
Proof.
  intros Hd Hc Ha Eh. pose proof (aget_range _ _ _ Hc). apply list_eq. intros i. rewrite list_lookup_fmap.
  destruct (decide (Z.to_nat ch = i)) as [<-|Hne].
  - rewrite list_lookup_insert_eq by lia. rewrite <- aget_nat, Hc by lia. simpl. f_equal.
    unfold served. by rewrite decide_True, Eh, Z.eqb_refl by done.
  - rewrite list_lookup_insert_ne by done. destruct (cs !! i) as [d|] eqn:Ed; [|done]. simpl. f_equal.
    unfold served. case_decide as Hda; [|done]. destruct (Z.eqb_spec h (handle d)) as [E|]; [|done].
    exfalso. apply Hne. rewrite (Hd ch (Z.of_nat i) c d); [lia|done| |done|done|congruence].
    by rewrite aget_nat, Nat2Z.id by lia.
Qed.

(** Serving one handle. *)
Definition serve1 (h : Z) s : dma W :=
  MkDma (map (served (Z.eqb h)) (chans s)) (channels_atomic s) (transfer_blocks s) (completion_work s)
    (default (hw s) (call (hw s) <$> runner h 0 (chans s))).

Lemma process_from_serves h s n ch :
  unlinked (chans s) -> distinct_handles (chans s) -> Z.of_nat n + ch = len (chans s) -> 0 <= ch ->
  (forall i c, i < ch -> aget (chans s) i = Some c -> is_active c -> handle c <> h) ->
  process_handle_from dev_config plain_callbacks n ch h s =
    Some (MkDma (map (served (Z.eqb h)) (chans s)) (channels_atomic s) (transfer_blocks s) (completion_work s)
      (default (hw s) (call (hw s) <$> runner h ch (drop (Z.to_nat ch) (chans s))))).
Proof.
  intros Hu Hd. revert ch. induction n as [|n IH]; intros ch Hn Hch Hno.
  - rewrite drop_ge by lia. cbn. rewrite served_none; [by destruct s|].
    intros i c Hc Ha. apply Z.eqb_neq. intros E. apply (Hno i c); [apply aget_range in Hc; lia|done|done|done].
  - destruct (aget_in (chans s) ch) as [c Hc]; [lia|]. cbn [process_handle_from]. rewrite Hc. cbn [mbind option_bind].
    rewrite (drop_S _ c) by (by rewrite <- aget_nat by lia). replace (S (Z.to_nat ch)) with (Z.to_nat (ch + 1)) by lia.
    cbn [runner]. unfold is_state.
    assert (Hskip : ~ (is_active c /\ handle c = h) ->
      forall i d, i < ch + 1 -> aget (chans s) i = Some d -> is_active d -> handle d <> h).
    { intros Hc' i d Hi Hdi Hda E. destruct (Z.eq_dec i ch) as [->|]; [|apply (Hno i d); [lia|done..]].
      apply Hc'. by replace c with d by congruence. }
    case_decide as Ha; [rewrite bool_decide_true by done|rewrite bool_decide_false by done; apply IH; [lia|lia|apply Hskip; tauto]].
    cbn [negb orb]. destruct (Z.eqb_spec (handle c) h) as [Eh|Hne]; cbn [negb]; [|apply IH; [lia|lia|apply Hskip; tauto]].
    unfold upd_chan at 1. rewrite Hc. cbn [mbind option_bind]. rewrite aset_in by lia. cbn [mbind option_bind].
    rewrite (served_one h _ ch c) by done. cbn [fmap option_fmap option_map default]. unfold call. cbn [fst snd].
    set (s1 := set_chans _ s).
    assert (E2 : match callback c with Some f => plain_callbacks f (callback_arg c) ch 0 s1 | None => Some s1 end =
      Some (set_hw (match callback c with Some f => run f (callback_arg c) ch 0 (hw s) | None => hw s end) s1)).
    { destruct (callback c); [done|]. by destruct s. }
    rewrite E2. cbn [mbind option_bind chans set_hw set_chans s1]. rewrite aget_insert by lia. cbn [mbind option_bind].
    replace (chained (set_state ARC_DMA_IDLE c)) with (chained c) by done. by rewrite (Hu ch c).
Qed.

Definition group_served (g bits : Z) (h : Z) : bool := (h / 32 =? g) && Z.testbit bits (h mod 32).
Definition group_runners (g bits : Z) cs : list (Z * arc_dma_channel) := omap (fun b => runner (32 * g + b) 0 cs) (bits_of bits).

Lemma process_bits_serves n g bits s :
  len (chans s) = channels dev_config -> unlinked (chans s) -> distinct_handles (chans s) ->
  0 <= g < 2 ^ 27 -> is_u32 bits -> (length (bits_of bits) <= n)%nat ->
  process_bits dev_config plain_callbacks n g bits s =
    Some (MkDma (map (served (group_served g bits)) (chans s)) (channels_atomic s) (transfer_blocks s) (completion_work s)
      (fold_left call (group_runners g bits (chans s)) (hw s))).
Proof.
  revert bits s. induction n as [|n IH]; intros bits s Hlen Hu Hd Hg Hb Hn; cbn [process_bits].
  all: destruct (Z.eqb_spec bits 0) as [->|Hnz].
  1, 3: unfold group_runners; rewrite bits_of_0; cbn; rewrite served_none; [by destruct s|];
    intros; unfold group_served; rewrite Z.bits_0; apply andb_false_r.
  1: exfalso; rewrite bits_of_pop in Hn by (unfold in_width in Hb; lia); simpl in Hn; lia.
  assert (Hpos : 0 < bits < 2 ^ 32) by (unfold in_width in Hb; lia).
  pose proof (bits_of_pop bits Hpos) as Hpop. destruct (lsb_get_pow2 bits Hpos) as (k & Hk & Elsb & Elog & Hbit & Hlow).
  rewrite Elog in *. rewrite (wrap_small 32) by (unfold in_width; lia).
  unfold dma_arc_hs_process_handle. rewrite process_from_serves; [|done|done|lia|lia|].
  2:{ intros i c Hi Hc. apply aget_range in Hc. lia. }
  rewrite drop_0. cbn [mbind option_bind]. change (BIT k) with (Z.shiftl 1 k). rewrite Z.shiftl_1_l, <- Elsb.
  rewrite Hpop in Hn. simpl in Hn.
  rewrite IH; cbn [chans hw channels_atomic transfer_blocks completion_work]; [|by rewrite length_map|by apply served_unlinked|by apply served_distinct|done| |lia].
  2:{ unfold in_width. split; [apply Z.land_nonneg; lia|]. rewrite Elsb. apply bits_lt_pow2; [apply Z.land_nonneg; lia|lia|].
      intros i Hi. destruct (Z.lt_ge_cases i 0); [lia|]. rewrite clear_bit_spec in Hi by lia. apply andb_true_iff in Hi as [Hi _].
      destruct (Z.lt_ge_cases i 32); [done|]. rewrite (testbit_above bits 32) in Hi by done. done. }
  f_equal. f_equal.
  - rewrite served_served. apply map_ext. intros c. unfold served. case_decide; [|done].
    enough (group_served g (Z.land bits (Z.lnot (LSB_GET bits))) (handle c) || (g * 32 + k =? handle c) = group_served g bits (handle c)) as -> by done.
    unfold group_served. rewrite Elsb, clear_bit_spec by (try apply Z.mod_pos_bound; lia).
    destruct (Z.eqb_spec (g * 32 + k) (handle c)) as [E|Hne].
    + replace (handle c / 32) with g by (Z.to_euclidean_division_equations; lia).
      replace (handle c mod 32) with k by (Z.to_euclidean_division_equations; lia). rewrite Z.eqb_refl, Hbit. apply orb_true_r.
    + rewrite orb_false_r. destruct (Z.eqb_spec (handle c / 32) g); [|done].
      rewrite (proj2 (Z.eqb_neq k (handle c mod 32))); [by rewrite andb_true_r|]. Z.to_euclidean_division_equations. lia.
  - unfold group_runners. rewrite Hpop. cbn [omap list_omap].
    replace (g * 32 + k) with (32 * g + k) by lia.
    assert (Eom : omap (fun b => runner (32 * g + b) 0 (map (served (Z.eqb (32 * g + k))) (chans s))) (bits_of (Z.land bits (Z.lnot (LSB_GET bits)))) =
      omap (fun b => runner (32 * g + b) 0 (chans s)) (bits_of (Z.land bits (Z.lnot (LSB_GET bits))))).
    { apply list_omap_ext_in. intros b [Hb' Hrng]%elem_of_bits_of. apply runner_served. apply Z.eqb_neq.
      rewrite Elsb, clear_bit_spec in Hb' by lia. apply andb_true_iff in Hb' as [_ Hb'%negb_true_iff%Z.eqb_neq]. lia. }
    rewrite Eom. destruct (runner (32 * g + k) 0 (chans s)) as [r|]; done.
Qed.

Lemma runner_found h cs ch c :
  distinct_handles cs -> aget cs ch = Some c -> is_active c -> handle c = h -> runner h 0 cs = Some (ch, c).
Proof.
  intros Hd Hc Ha Eh. pose proof (aget_range _ _ _ Hc).
  destruct (runner h 0 cs) as [[i d]|] eqn:E.
  - apply runner_spec in E as (E & Hi & Hda & Ehd). rewrite Z.sub_0_r, <- aget_nat in E by done.
    rewrite (Hd i ch d c) in * by (done || congruence). congruence.
  - exfalso. apply (runner_None _ _ _ c) in E; [done| |done]. rewrite aget_nat in Hc by lia. by apply list_elem_of_lookup_2 in Hc.
Qed.

Lemma group_runners_elem g bits cs ch c :
  distinct_handles cs -> 0 <= g -> is_u32 bits ->
  (ch, c) ∈ group_runners g bits cs <-> aget cs ch = Some c /\ is_active c /\ group_served g bits (handle c) = true.
Proof.
  intros Hd Hg Hb. unfold group_runners, group_served. rewrite list_elem_of_omap. split.
  - intros (b & [Hbit Hrng]%elem_of_bits_of & (E & Hi & Ha & Eh)%runner_spec).
    rewrite Z.sub_0_r, <- aget_nat in E by done. split_and!; [done|done|]. rewrite Eh.
    replace ((32 * g + b) / 32) with g by (Z.to_euclidean_division_equations; lia).
    replace ((32 * g + b) mod 32) with b by (Z.to_euclidean_division_equations; lia). by rewrite Z.eqb_refl.
  - intros (Hc & Ha & [Eg%Z.eqb_eq Hbit]%andb_true_iff). exists (handle c mod 32). split.
    + apply elem_of_bits_of. split; [done|]. apply Z.mod_pos_bound. lia.
    + apply runner_found; [done..|]. Z.to_euclidean_division_equations. lia.
Qed.

Lemma group_runners_NoDup g bits cs : NoDup (group_runners g bits cs).
Proof.
  unfold group_runners. pose proof (bits_of_NoDup bits) as Hnd. induction Hnd as [|b l Hin Hnd IH]; [constructor|].
  cbn [omap list_omap]. destruct (runner (32 * g + b) 0 cs) as [[i c]|] eqn:E; [|done]. constructor; [|done].
  rewrite list_elem_of_omap. intros (b' & Hb' & E').
  apply runner_spec in E as (_ & _ & _ & E), E' as (_ & _ & _ & E'). apply Hin. by replace b with b' by lia.
Qed.

(** A group of completions: every running channel whose done bit is read is made
    idle and its callback called, once each and in the order of the bits; no other
    channel is touched. *)
Theorem dma_isr_group_serves g s bits w
    (Hread : z_arc_v2_aux_reg_read (DMA_S_DONESTATD_AUX g) (hw s) = (bits, w)) (Hg : 0 <= g < 2 ^ 27) (Hbits : is_u32 bits)
    (Hlen : len (chans s) = channels dev_config) (Hu : unlinked (chans s)) (Hd : distinct_handles (chans s)) :
  exists l s', isr_group dev_config plain_callbacks g s = Some s' /\ NoDup l /\
    (forall ch c, (ch, c) ∈ l <-> aget (chans s) ch = Some c /\ is_active c /\ handle c / 32 = g /\ Z.testbit bits (handle c mod 32) = true) /\
    (forall ch c, aget (chans s) ch = Some c ->
       aget (chans s') ch = Some (if decide ((ch, c) ∈ l) then set_state ARC_DMA_IDLE c else c)) /\
    hw s' = fold_left call l (if bits =? 0 then w else z_arc_v2_aux_reg_write (DMA_S_DONESTATD_CLR_AUX g) bits w).
Proof.
  assert (Hl : forall ch c, (ch, c) ∈ group_runners g bits (chans s) <->
    aget (chans s) ch = Some c /\ is_active c /\ handle c / 32 = g /\ Z.testbit bits (handle c mod 32) = true).
  { intros ch c. rewrite group_runners_elem by (done || lia). unfold group_served. by rewrite andb_true_iff, Z.eqb_eq. }
  assert (Hn : (length (bits_of bits) <= 32)%nat).
  { unfold bits_of. etransitivity; [apply length_filter|]. by rewrite length_seqZ. }
  set (w1 := if bits =? 0 then w else z_arc_v2_aux_reg_write (DMA_S_DONESTATD_CLR_AUX g) bits w).
  exists (group_runners g bits (chans s)), (MkDma (map (served (group_served g bits)) (chans s)) (channels_atomic s)
    (transfer_blocks s) (completion_work s) (fold_left call (group_runners g bits (chans s)) w1)).
  split; [|split; [apply group_runners_NoDup|split; [done|split; [|done]]]].
  - unfold isr_group. rewrite Hread. pose proof (process_bits_serves 32 g bits (set_hw w1 s)) as E.
    cbn [chans hw set_hw channels_atomic transfer_blocks completion_work] in E. rewrite <- E by done. subst w1.
    destruct (Z.eqb_spec bits 0) as [->|]; done.
  - intros ch c Hc. cbn. pose proof (aget_range _ _ _ Hc). rewrite aget_nat in Hc |- * by lia.
    rewrite list_lookup_fmap, Hc. cbn. f_equal. rewrite <- aget_nat in Hc by lia. unfold served.
    destruct (decide ((ch, c) ∈ _)) as [Hin|Hnin].
    + apply group_runners_elem in Hin as (_ & Ha & ->); [|done|lia|done]. by rewrite decide_True.
    + case_decide as Ha; [|done]. destruct (group_served g bits (handle c)) eqn:E; [|done].
      exfalso. apply Hnin, group_runners_elem; done || lia.
Qed.
End serve.

(** ** No channel is forgotten *)

(** What the engine knows: the transfer under a handle has finished.  It sets the
    done bit then, and nothing but a write to the group's clear register resets it. *)
Class ArcDmaFinished (W : Type) `{ArcDmaIrq W} := {
  finished : W -> Z -> bool;
  read_keeps r w h :
    (finished (snd (z_arc_v2_aux_reg_read r w)) h = true ->
     finished w h = true \/ isdone (snd (z_arc_v2_aux_reg_read r w)) h = true) /\
    (isdone w h = true -> isdone (snd (z_arc_v2_aux_reg_read r w)) h = true);
  write_keeps r v w h :
    r <> DMA_C_LEN_AUX ->
    (finished (z_arc_v2_aux_reg_write r v w) h = true ->
     finished w h = true \/ isdone (z_arc_v2_aux_reg_write r v w) h = true) /\
    (isdone w h = true -> (forall g, r = DMA_S_DONESTATD_CLR_AUX g -> 0 <= g < 8 -> h / 32 = g -> Z.testbit v (h mod 32) = false) ->
     isdone (z_arc_v2_aux_reg_write r v w) h = true);
  done_u32 r w : is_u32 (fst (z_arc_v2_aux_reg_read r w))
}.

Section forget.
Context {W : Type} `{Hlaws : ArcDmaIrqLaws W} `{!ArcDmaFinished W}.
Variable dev_config : arc_dma_config.
Variable run : Z -> Z -> Z -> Z -> W -> W.
Implicit Types s : dma W.
Implicit Types w : W.

Definition keeps w w' : Prop :=
  forall h, (finished w' h = true -> finished w h = true \/ isdone w' h = true) /\ (isdone w h = true -> isdone w' h = true).

Hypothesis run_evolves : forall f arg ch st w, evolves w (run f arg ch st w).
Hypothesis run_keeps : forall f arg ch st w, keeps w (run f arg ch st w).
Hypothesis isdone_range : forall w h, isdone w h = true -> 0 <= h < descriptors dev_config.
Hypothesis descriptors_max : descriptors dev_config <= 256.

(** Of the running channels, those whose transfer has finished have their bit set. *)
Definition noticed s : Prop :=
  forall ch c, aget (chans s) ch = Some c -> is_active c -> finished (hw s) (handle c) = true -> isdone (hw s) (handle c) = true.
Definition linked_free s : Prop :=
  len (chans s) = channels dev_config /\ unlinked (chans s) /\ distinct_handles (chans s).

Lemma keeps_trans w1 w2 w3 : keeps w1 w2 -> keeps w2 w3 -> keeps w1 w3.
Proof.
  intros A B h. destruct (A h) as [A1 A2], (B h) as [B1 B2]. split; [|auto].
  intros H1. destruct (B1 H1) as [H2|]; [|by right]. destruct (A1 H2); [by left|right; auto].
Qed.

Lemma fold_call_keeps l w : keeps w (fold_left (call run) l w).
Proof.
  revert w. induction l as [|[ch c] l IH]; intros w; simpl; [by intros h; split; auto|].
  eapply keeps_trans; [|apply IH]. unfold call. cbn. destruct (callback c); [apply run_keeps|by intros h; split; auto].
Qed.

Lemma noticed_keeps w s : keeps (hw s) w -> noticed s -> noticed (set_hw w s).
Proof.
  intros Hk Hn ch c Hc Ha Hf. cbn in *. destruct (Hk (handle c)) as [K1 K2]. destruct (K1 Hf); [|done]. apply K2. by apply (Hn ch c).
Qed.

Lemma isr_group_noticed g s :
  0 <= g < 8 -> linked_free s -> noticed s ->
  exists s', isr_group dev_config (plain_callbacks run) g s = Some s' /\ linked_free s' /\ noticed s'.
Proof.
  intros Hg (Hl & Hu & Hd) Hn. unfold isr_group. pose proof (read_keeps (DMA_S_DONESTATD_AUX g) (hw s)) as Hk.
  pose proof (done_u32 (DMA_S_DONESTATD_AUX g) (hw s)) as Hb.
  destruct (z_arc_v2_aux_reg_read _ _) as [bits w]. cbn [fst snd] in Hk, Hb. cbn [hw set_hw].
  pose proof (noticed_keeps w s Hk Hn) as Hn1.
  destruct (Z.eqb_spec bits 0) as [->|Hnz]; [by exists (set_hw w s)|].
  rewrite process_bits_serves; [|done|done|done|lia|done|].
  2:{ unfold bits_of. etransitivity; [apply length_filter|]. by rewrite length_seqZ. }
  eexists. split; [done|]. cbn [chans set_hw]. split.
  { split_and!; [cbn; by rewrite length_map|by apply served_unlinked|by apply served_distinct]. }
  intros ch c' Hc' Ha Hf. cbn [chans hw set_hw] in *. apply served_aget in Hc' as (c & Hc & ->).
  destruct (served_active _ _ Ha) as [Es Hns]. rewrite Es in *.
  destruct (fold_call_keeps (group_runners g bits (chans s)) (z_arc_v2_aux_reg_write (DMA_S_DONESTATD_CLR_AUX g) bits w) (handle c)) as [F1 F2].
  destruct (F1 Hf) as [Hf2|]; [|done]. apply F2.
  destruct (write_keeps (DMA_S_DONESTATD_CLR_AUX g) bits w (handle c)) as [W1 W2];
    [unfold DMA_S_DONESTATD_CLR_AUX, DMA_C_LEN_AUX; lia|].
  destruct (W1 Hf2) as [Hf1|]; [|done]. apply W2; [by apply (Hn1 ch c)|].
  intros g' Eg _ Eh. assert (g' = g) as -> by (unfold DMA_S_DONESTATD_CLR_AUX in Eg; lia).
  unfold group_served in Hns. rewrite Eh, Z.eqb_refl in Hns. done.
Qed.

Lemma isr_noticed fuel s s' :
  dma_arc_hs_isr dev_config (plain_callbacks run) fuel s = Some s' -> linked_free s -> noticed s -> linked_free s' /\ noticed s'.
Proof.
  revert s. induction fuel as [|fuel IH]; intros s; [done|]. cbn [dma_arc_hs_isr].
  pose proof (read_keeps DMA_C_INTSTAT_AUX (hw s)) as Hk. destruct (z_arc_v2_aux_reg_read _ _) as [st w]. cbn [fst snd hw set_hw] in *.
  intros E Hlf Hn. pose proof (noticed_keeps w s Hk Hn) as Hn1.
  destruct (st =? 0); [by injection E as [= <-]|].
  assert (Hk2 : keeps w (z_arc_v2_aux_reg_write DMA_C_INTSTAT_CLR_AUX st w)).
  { intros h. destruct (write_keeps DMA_C_INTSTAT_CLR_AUX st w h) as [W1 W2]; [done|]. split; [done|]. intros Hd. apply W2; [done|].
    unfold DMA_C_INTSTAT_CLR_AUX, DMA_S_DONESTATD_CLR_AUX. lia. }
  pose proof (noticed_keeps _ (set_hw w s) Hk2 Hn1) as Hn2. set (s2 := set_hw _ (set_hw w s)) in *.
  destruct (Z.land st DMA_C_INTSTAT_DONE =? 0); [by injection E as [= <-]|].
  destruct (for_loop_inv (fun i t => 0 <= i /\ linked_free t /\ noticed t)
    (Z.to_nat (num_groups dev_config)) 0 (isr_group dev_config (plain_callbacks run)) s2) as (s3 & E3 & _ & Hlf3 & Hn3); [done| |].
  - intros i t Hi (_ & Hlt & Hnt). unfold num_groups, DIV_ROUND_UP in Hi.
    destruct (isr_group_noticed i t) as (t' & Et & ? & ?); [Z.to_euclidean_division_equations; lia|done|done|]. exists t'. split_and!; done || lia.
  - rewrite E3 in E. cbn [mbind option_bind] in E. by apply (IH s3).
Qed.

End forget.

(** ** The interrupt during a transfer *)

(** Interrupt rounds are finite: each needs a status that was raised. *)
Class ArcDmaRounds (W : Type) `{ArcDma W} := {
  rounds : W -> nat;
  read_rounds r w : (rounds (snd (z_arc_v2_aux_reg_read r w)) <= rounds w)%nat;
  write_rounds r v w : (rounds (z_arc_v2_aux_reg_write r v w) <= rounds w)%nat;
  clear_rounds w :
    let '(v, w') := z_arc_v2_aux_reg_read DMA_C_INTSTAT_AUX w in
    v <> 0 -> (rounds (z_arc_v2_aux_reg_write DMA_C_INTSTAT_CLR_AUX v w') < rounds w)%nat;
  done_word g w : is_u32 (fst (z_arc_v2_aux_reg_read (DMA_S_DONESTATD_AUX g) w))
}.

Section calm_isr.
Context {W : Type} `{Hlaws : ArcDmaLaws W} `{!ArcDmaRounds W}.
Variable dev_config : arc_dma_config.
Variable callbacks : Z -> Z -> Z -> Z -> dma W -> option (dma W).
Implicit Types s : dma W.
Implicit Types w : W.
Notation quiet := (quiet dev_config).
Hypothesis descriptors_small : descriptors dev_config < 2 ^ 31.

(** What the engine may do meanwhile, and the rounds left. *)
Definition passes w w' : Prop :=
  reached (todo w) (mem w) w' /\ last_handle w' = last_handle w /\ (forall e, expires e w' <= expires e w)%nat /\
  (rounds w' <= rounds w)%nat.

Lemma passes_refl w : passes w w.
Proof. split_and!; [apply reached_refl|done|done|done]. Qed.
Lemma passes_trans w1 w2 w3 : passes w1 w2 -> passes w2 w3 -> passes w1 w3.
Proof.
  intros (A1 & A2 & A3 & A4) (B1 & B2 & B3 & B4). split_and!; [by eapply reached_trans|congruence| |lia].
  intros e. etransitivity; [apply B3|apply A3].
Qed.
Lemma passes_read r w : passes w (snd (z_arc_v2_aux_reg_read r w)).
Proof. split_and!; [apply read_runs|apply read_handle|intros; apply read_expires|apply read_rounds]. Qed.
Lemma passes_write r v w : r <> DMA_C_LEN_AUX -> passes w (z_arc_v2_aux_reg_write r v w).
Proof. intros. split_and!; [by apply write_runs|by apply write_handle|intros; apply write_expires|apply write_rounds]. Qed.

Lemma calm_passes w s : passes (hw s) w -> calm s (set_hw w s).
Proof.
  intros (A1 & A2 & A3 & _). split_and!; [done| |done..]. intros ch c Hc. exists c. split; [done|by left].
Qed.

Lemma calm_trans s1 s2 s3 : calm s1 s2 -> calm s2 s3 -> calm s1 s3.
Proof.
  intros (A1 & A2 & A3 & A4 & A5) (B1 & B2 & B3 & B4 & B5).
  split_and!; [congruence| |by eapply reached_trans|congruence|intros e; etransitivity; [apply B5|apply A5]].
  intros ch c Hc. destruct (A2 ch c Hc) as (c' & Hc' & F1). destruct (B2 ch c' Hc') as (c'' & Hc'' & F2).
  exists c''. split; [done|]. destruct F1 as [->|(Ha & -> & Ht)].
  - destruct F2 as [->|(Ha & -> & Ht)]; [by left|]. right. split_and!; [done|done|]. intros E. apply Ht. congruence.
  - destruct F2 as [->|(Hf & _)]; [|done]. right. split_and!; [done|done|]. intros E.
    by apply (reached_done (hw s2)), Ht.
Qed.

(** A handle that may be served: if it is the last one, nothing is left. *)
Definition servable (h : Z) w : Prop := h = last_handle w -> todo w = [].

Lemma process_from_calm n ch h s :
  quiet s -> Z.of_nat n + ch = len (chans s) -> 0 <= ch -> servable h (hw s) ->
  exists s', process_handle_from dev_config callbacks n ch h s = Some s' /\ hw s' = hw s /\ quiet s' /\ calm s s'.
Proof.
  intros Hq. revert ch. induction n as [|n IH]; intros ch Hn Hch Hsv; cbn [process_handle_from].
  { exists s. split_and!; [done|done|done|]. pose proof (calm_passes (hw s) s (passes_refl _)) as Hc. by destruct s. }
  destruct (aget_in (chans s) ch) as [c Hc]; [lia|]. rewrite Hc. cbn [mbind option_bind].
  destruct (is_state ARC_DMA_ACTIVE c) eqn:Ea; cbn [negb orb]; [|apply IH; lia || done].
  destruct (Z.eqb_spec (handle c) h) as [Eh|]; cbn [negb]; [|apply IH; lia || done].
  apply is_state_true in Ea. destruct Hq as [Hl Hq]. destruct (Hq ch c Hc Ea) as [Hnc Hcb].
  destruct (upd_chan_in ch (set_state ARC_DMA_IDLE) s) as [s1 E1]; [by eapply aget_range|]. rewrite E1. cbn [mbind option_bind].
  rewrite Hcb. cbn [mbind option_bind].
  apply upd_chan_Some in E1 as (c0 & Hc0 & Hc1 & Hoth & Hlen & _ & _ & _ & Hhw). replace c0 with c in * by congruence.
  rewrite Hc1. cbn [mbind option_bind]. replace (chained (set_state ARC_DMA_IDLE c)) with (chained c) by done. rewrite Hnc.
  assert (Hcalm : calm s s1).
  { split_and!; [done| |rewrite Hhw; apply reached_refl|by rewrite Hhw|by intros; rewrite Hhw].
    intros ch' d Hd. destruct (Z.eq_dec ch' ch) as [->|Hne].
    - replace d with c in * by congruence. exists (set_state ARC_DMA_IDLE c). split; [done|]. right. split_and!; [done|done|].
      rewrite Hhw, Eh. apply Hsv.
    - exists d. rewrite Hoth by done. split; [done|by left]. }
  exists s1. split_and!; [done|done| |done]. by apply (quiet_calm dev_config s).
Qed.

Lemma process_bits_calm n g bits s :
  quiet s -> 0 <= g < 2 ^ 26 -> is_u32 bits -> (length (bits_of bits) <= n)%nat ->
  (forall b, Z.testbit bits b = true -> servable (g * 32 + b) (hw s)) ->
  exists s', process_bits dev_config callbacks n g bits s = Some s' /\ hw s' = hw s /\ quiet s' /\ calm s s'.
Proof.
  intros Hq Hg. revert bits s Hq. induction n as [|n IH]; intros bits s Hq Hb Hn Hsv; cbn [process_bits].
  all: destruct (Z.eqb_spec bits 0) as [->|Hnz].
  1, 3: exists s; split_and!; [done|done|done|]; pose proof (calm_passes (hw s) s (passes_refl _)); by destruct s.
  1: exfalso; rewrite bits_of_pop in Hn by (unfold in_width in Hb; lia); simpl in Hn; lia.
  assert (Hpos : 0 < bits < 2 ^ 32) by (unfold in_width in Hb; lia).
  rewrite bits_of_pop in Hn by done. simpl in Hn.
  destruct (lsb_get_pow2 bits Hpos) as (k & Hk & Elsb & Elog & Hbit & _). rewrite Elog in *.
  rewrite (wrap_small 32) by (unfold in_width; lia).
  destruct (process_from_calm (Z.to_nat (channels dev_config)) 0 (g * 32 + k) s) as (s1 & E1 & Hhw & Hq1 & Hc1);
    [done|destruct Hq; lia|lia|by apply Hsv|].
  unfold dma_arc_hs_process_handle. rewrite E1. cbn [mbind option_bind]. unfold BIT. rewrite Z.shiftl_1_l, <- Elsb.
  assert (Hsub : forall b, Z.testbit (Z.land bits (Z.lnot (LSB_GET bits))) b = true -> Z.testbit bits b = true).
  { intros b Hb'. rewrite Z.land_spec in Hb'. by apply andb_true_iff in Hb' as [? _]. }
  destruct (IH (Z.land bits (Z.lnot (LSB_GET bits))) s1) as (s2 & E2 & Hhw2 & Hq2 & Hc2); [done| |lia| |].
  - split; [apply Z.land_nonneg; lia|]. apply bits_lt_pow2; [apply Z.land_nonneg; lia|lia|].
    intros i Hi%Hsub. destruct (Z.lt_ge_cases i 32); [done|]. rewrite (testbit_above bits 32) in Hi; done.
  - intros b Hb'%Hsub. rewrite Hhw. by apply Hsv.
  - exists s2. split_and!; [done|congruence|done|by eapply calm_trans].
Qed.

Lemma isr_group_calm g s :
  quiet s -> 0 <= g < 2 ^ 26 ->
  exists s', isr_group dev_config callbacks g s = Some s' /\ quiet s' /\ calm s s' /\ (rounds (hw s') <= rounds (hw s))%nat.
Proof.
  intros Hq Hg. unfold isr_group. pose proof (passes_read (DMA_S_DONESTATD_AUX g) (hw s)) as Hp.
  pose proof (done_word g (hw s)) as Hb. pose proof (read_done (hw s)) as Hd.
  assert (Hbd : forall bits w, z_arc_v2_aux_reg_read (DMA_S_DONESTATD_AUX g) (hw s) = (bits, w) ->
    forall b, Z.testbit bits b = true -> 0 <= b < 32 -> servable (g * 32 + b) w).
  { intros bits w E b Hbit Hr Elast. pose proof (read_handle (DMA_S_DONESTATD_AUX g) (hw s)) as Hh. rewrite E in Hh. cbn in Hh.
    rewrite Hh in Elast. rewrite <- Elast in Hd.
    replace ((g * 32 + b) / 32) with g in Hd by (Z.to_euclidean_division_equations; lia).
    replace ((g * 32 + b) mod 32) with b in Hd by (Z.to_euclidean_division_equations; lia). rewrite E in Hd. by apply Hd. }
  destruct (z_arc_v2_aux_reg_read _ (hw s)) as [bits w]. cbn [fst snd] in *. specialize (Hbd bits w eq_refl). cbn [hw set_hw].
  assert (Hq1 : quiet (set_hw w s)) by done.
  destruct (bits =? 0).
  { exists (set_hw w s). split_and!; [done|done|by apply calm_passes|apply Hp]. }
  pose proof (passes_write (DMA_S_DONESTATD_CLR_AUX g) bits w) as Hp2.
  set (w2 := z_arc_v2_aux_reg_write _ bits w) in *.
  assert (Hp3 : passes w w2) by (apply Hp2; unfold DMA_S_DONESTATD_CLR_AUX, DMA_C_LEN_AUX; lia).
  destruct (process_bits_calm 32 g bits (set_hw w2 (set_hw w s))) as (s' & E & Hhw & Hq' & Hc'); [done|done|done| | |].
  - unfold bits_of. etransitivity; [apply length_filter|]. by rewrite length_seqZ.
  - intros b Hbit. destruct (Z.lt_ge_cases b 0); [by rewrite Z.testbit_neg_r in Hbit by lia|].
    destruct (Z.lt_ge_cases b 32); [|by rewrite (testbit_above bits 32) in Hbit].
    intros E. destruct Hp3 as (Hr & Hlh & _). cbn in E. rewrite Hlh in E. apply (reached_done w); [done|]. by apply (Hbd b).
  - exists s'. split_and!; [done|done| |].
    + eapply calm_trans; [by apply (calm_passes w)|]. eapply calm_trans; [by apply (calm_passes w2)|done].
    + rewrite Hhw. cbn. destruct Hp as (_ & _ & _ & ?), Hp3 as (_ & _ & _ & ?). lia.
Qed.

(** The handler ends, and is calm. *)
Lemma isr_calm fuel s :
  quiet s -> (rounds (hw s) < fuel)%nat ->
  exists s', dma_arc_hs_isr dev_config callbacks fuel s = Some s' /\ calm s s'.
Proof.
  revert s. induction fuel as [|fuel IH]; intros s Hq Hf; [lia|]. cbn [dma_arc_hs_isr].
  pose proof (passes_read DMA_C_INTSTAT_AUX (hw s)) as Hp. pose proof (clear_rounds (hw s)) as Hcr.
  destruct (z_arc_v2_aux_reg_read DMA_C_INTSTAT_AUX (hw s)) as [st w]. cbn [fst snd hw set_hw] in *.
  pose proof (calm_passes w s Hp) as Hc1.
  destruct (Z.eqb_spec st 0) as [|Hnz]; [eauto|]. specialize (Hcr Hnz).
  pose proof (passes_write DMA_C_INTSTAT_CLR_AUX st w) as Hp2. set (w2 := z_arc_v2_aux_reg_write _ st w) in *.
  assert (Hc2 : calm s (set_hw w2 (set_hw w s))) by (eapply calm_trans; [done|by apply (calm_passes w2), Hp2]).
  destruct (Z.land st DMA_C_INTSTAT_DONE =? 0); [eauto|].
  destruct (for_loop_inv (fun i t => 0 <= i /\ quiet t /\ calm s t /\ (rounds (hw t) < rounds (hw s))%nat)
    (Z.to_nat (num_groups dev_config)) 0 (isr_group dev_config callbacks) (set_hw w2 (set_hw w s))) as (s3 & E3 & _ & Hq3 & Hc3 & Hr3).
  - split_and!; [done|done|done|done].
  - intros i t Hi (_ & Hqt & Hct & Hrt). unfold num_groups, DIV_ROUND_UP in Hi.
    destruct (isr_group_calm i t) as (t' & E & Hq' & Hc' & Hr'); [done|Z.to_euclidean_division_equations; lia|].
    exists t'. split_and!; [done|lia|done|by eapply calm_trans|lia].
  - rewrite E3. cbn [mbind option_bind]. destruct (IH s3) as (s' & E' & Hc'); [done|lia|]. exists s'. split; [done|by eapply calm_trans].
Qed.
End calm_isr.

(** ** Starting, refusing, and the size of a linked transfer *)

Section edges.
Context {W : Type} `{ArcDma W}.
Variable dev_config : arc_dma_config.
Variable callbacks : Z -> Z -> Z -> Z -> dma W -> option (dma W).
Variable interrupted : dma W -> option (dma W).
Implicit Types s : dma W.

(** Channels whose links never leave the set. *)
Definition ring s (R : Z -> Prop) : Prop :=
  forall ch, R ch -> exists c, aget (chans s) ch = Some c /\ is_state ARC_DMA_FREE c = false /\ chained c = true /\
    R (linked_channel (config c)).

Lemma ring_never_ends s R ch b : ring s R -> R ch -> ~ chain_ends s ch b.
Proof.
  intros HR Hch Hends. induction Hends as [ch c Hc Hf|ch c Hc Hf Hl|ch c b Hc Hf Hl _ IH].
  - destruct (HR ch Hch) as (c' & Hc' & Hf' & _). congruence.
  - destruct (HR ch Hch) as (c' & Hc' & _ & Hl' & _). congruence.
  - destruct (HR ch Hch) as (c' & Hc' & _ & _ & Hn). apply IH. by replace c with c' by congruence.
Qed.

Lemma start_none fuel ch s : 0 <= ch < channels dev_config -> walk_chain fuel ch s = None -> dma_arc_hs_start dev_config fuel ch s = None.
Proof.
  intros Hch E. unfold dma_arc_hs_start. rewrite (proj2 (Z.leb_gt (channels dev_config) ch)) by lia. by rewrite E.
Qed.

(** Starting a channel returns only if its chain of links ends, and then one
    step of the walk per channel is enough; a chain with a channel that is not
    allocated is refused and nothing is touched; a ring of linked channels, a channel
    linked to itself included, is walked for ever under the device's spinlock. *)
Theorem dma_start_returns_iff_chain_ends ch s (Hch : 0 <= ch < channels dev_config) :
  (forall fuel r, dma_arc_hs_start dev_config fuel ch s = Some r ->
     (exists b, chain_ends s ch b) /\ dma_arc_hs_start dev_config (length (chans s)) ch s = Some r) /\
  (chain_ends s ch false -> dma_arc_hs_start dev_config (length (chans s)) ch s = Some (- EINVAL, s)) /\
  (forall R, ring s R -> R ch -> forall fuel, dma_arc_hs_start dev_config fuel ch s = None).
Proof.
  split_and!.
  - intros fuel r Hr. destruct (walk_chain fuel ch s) as [b|] eqn:E; [|by rewrite (start_none fuel ch s) in Hr].
    pose proof (walk_chain_sound fuel ch s b E) as Hends. split; [by exists b|].
    rewrite <- Hr. unfold dma_arc_hs_start. by rewrite E, (chain_ends_walk s ch b).
  - intros Hends%chain_ends_walk. unfold dma_arc_hs_start.
    rewrite (proj2 (Z.leb_gt (channels dev_config) ch)) by lia. by rewrite Hends.
  - intros R HR Hin fuel. apply start_none; [done|]. destruct (walk_chain fuel ch s) as [b|] eqn:E; [|done].
    exfalso. by eapply ring_never_ends, walk_chain_sound.
Qed.

(** A transfer that cannot be done is refused before the engine or any channel
    is touched: a device that is not ready, a misaligned address, no such channel,
    more blocks than descriptors -- a length whose block count overflows 32 bits
    included.  An empty transfer succeeds at once. *)
Theorem dma_transfer_refuses (fuel : nat) ch src dst n timeout s
    (Hn : is_u32 n) (Hch : 0 <= ch) (Hmax : 0 < max_block_size dev_config < 2 ^ 32) :
  let transfer := dma_arc_hs_transfer dev_config callbacks interrupted fuel ch src dst n timeout s in
  let misaligned a := Z.land a (u32 (buffer_address_alignment dev_config - 1)) <> 0 in
  let ready := device_is_ready (hw s) = true in
  (~ ready -> transfer = Some (- ENODEV, s)) /\
  (ready -> n = 0 -> transfer = Some (0, s)) /\
  (ready -> n <> 0 -> misaligned src \/ misaligned dst \/ channels dev_config <= ch \/
     descriptors dev_config * max_block_size dev_config < n ->
   exists s', transfer = Some (- EINVAL, s') /\ hw s' = hw s /\ chans s' = chans s /\ transfer_blocks s' = transfer_blocks s).
Proof.
  intros transfer misaligned ready. subst transfer misaligned ready. cbv beta. unfold dma_arc_hs_transfer. split_and!.
  - intros Hr%not_true_is_false. by rewrite Hr.
  - intros -> ->. done.
  - intros -> Hn0 Hbad. cbn [negb]. rewrite (proj2 (Z.eqb_neq n 0)) by done.
    set (mask := u32 _) in *.
    destruct (Z.eqb_spec (Z.land src mask) 0), (Z.eqb_spec (Z.land dst mask) 0); cbn [negb orb]; eauto.
    destruct (Z.leb_spec (channels dev_config) ch); [eauto|].
    destruct Hbad as [|[|[|Hbig]]]; [done|done|lia|].
    set (max := max_block_size dev_config) in *. rewrite (proj2 (Z.eqb_neq max 0)) by lia.
    destruct (Z.ltb_spec (descriptors dev_config) (u32 (n + max - 1) / max)) as [|Hfit]; [eauto|].
    assert (Hnb : u32 (n + max - 1) / max = 0).
    { unfold in_width in Hn. destruct (Z.lt_ge_cases (n + max - 1) (2 ^ 32)) as [Hlt|Hge].
      - exfalso. rewrite wrap_small in Hfit by (unfold in_width; lia).
        destruct (ceil_div_bounds n max) as (_ & _ & Hhi); [lia|lia|]. nia.
      - apply Z.div_small. unfold wrap. change (2 ^ 32) with 4294967296 in *. Z.to_euclidean_division_equations. lia. }
    rewrite Hnb. cbn [Z.to_nat for_loop mbind option_bind]. unfold dma_arc_hs_config.
    rewrite (proj2 (Z.leb_gt (channels dev_config) ch)) by lia. cbn [transfer_config block_count Z.eqb mbind option_bind].
    change (- EINVAL <? 0) with true. eauto.
Qed.
End edges.

(** The size of the transfer started on a linked channel.  With both links it is
    the whole block and with the major link one burst; with the minor link all bursts
    but the last, and never past the block -- unless the block is shorter than a
    burst, where the count of bursts wraps and almost 4 GiB are transferred. *)
Theorem dma_linked_transfer_size c block burst
    (Hburst : 0 < burst < 2 ^ 16) (Hsize : is_u32 (block_size block)) :
  let minor_only := source_chaining_en (config c) && negb (dest_chaining_en (config c)) in
  exists n, dma_arc_hs_calc_linked_transfer_size c block burst = Some n /\
    (minor_only = false \/ burst <= block_size block ->
       0 <= n <= block_size block /\ (0 < block_size block -> 0 < n) /\
       (source_chaining_en (config c) && dest_chaining_en (config c) = true -> n = block_size block) /\
       (source_chaining_en (config c) = false -> n = Z.min (block_size block) burst) /\
       (minor_only = true -> n mod burst = 0 /\ (2 * burst <= block_size block -> n = (block_size block / burst - 1) * burst))) /\
    (minor_only = true -> block_size block < burst -> n = 2 ^ 32 - burst).
Proof.
  intros minor_only. subst minor_only. unfold dma_arc_hs_calc_linked_transfer_size, in_width in *.
  assert (Hone : one_burst block burst = Z.min (block_size block) burst)
    by (unfold one_burst; destruct (Z.ltb_spec (block_size block) burst); lia).
  set (size := block_size block) in *.
  destruct (source_chaining_en (config c)), (dest_chaining_en (config c)); cbn [andb negb].
  - exists size. split; [done|]. split; [|done]. intros _. split_and!; done || lia.
  - rewrite (proj2 (Z.eqb_neq burst 0)) by lia. eexists. split; [done|].
    destruct (Z.lt_ge_cases size burst) as [Hlt|Hge].
    + rewrite (Z.div_small size burst) by lia.
      assert (E : u32 (u32 (0 - 1) * burst) = 2 ^ 32 - burst).
      { change (u32 (0 - 1)) with (2 ^ 32 - 1). unfold wrap. change (2 ^ 32) with 4294967296 in *. change (2 ^ 16) with 65536 in *.
        Z.to_euclidean_division_equations. lia. }
      rewrite E. change (2 ^ 32) with 4294967296 in *. change (2 ^ 16) with 65536 in *.
      destruct (Z.eqb_spec (4294967296 - burst) 0); [lia|]. split; [lia|done].
    + assert (Hq : 1 <= size / burst) by (apply Z.div_le_lower_bound; lia).
      assert (Hqb : size / burst * burst <= size) by (rewrite Z.mul_comm; apply Z.mul_div_le; lia).
      assert (Hqs : size / burst <= size) by nia.
      rewrite (wrap_small 32 (size / burst - 1)) by (unfold in_width; lia).
      rewrite wrap_small by (unfold in_width; split; [nia|lia]).
      destruct (Z.eqb_spec ((size / burst - 1) * burst) 0) as [E|Hne].
      * split; [|lia]. intros _. split; [lia|]. do 2 (split; [done||lia|]). split; [done|]. intros _. split; [apply Z_mod_same_full|]. intros H2.
        assert (2 <= size / burst) by (apply Z.div_le_lower_bound; lia). nia.
      * split; [|lia]. intros _. split; [nia|]. do 2 (split; [done||nia|]). split; [done|]. intros _. split; [apply Z_mod_mult|done].
  - rewrite Hone. eexists. split; [done|]. split; [|done]. intros _. split_and!; done || lia.
  - rewrite Hone. eexists. split; [done|]. split; [|done]. intros _. split_and!; done || lia.
Qed.

(** ** A simple engine

    It performs what it was given during the next busy wait. *)

Record sim := MkSim {
  sim_latch : Z -> Z;
  sim_jobs : list (xfer * Z);     (** submitted, with handles *)
  sim_stored : Z;                 (** the last handle when no job is left *)
  sim_mem : Z -> Z;
  sim_done : list Z;
  sim_pending : bool;
  sim_now : Z;
  sim_log : list (Z * Z);         (** callbacks: the argument and the channel *)
  sim_fin : list Z                (** handles performed *)
}.

Definition job_handle (j : xfer * Z) : Z := j.2 mod 256.
Definition sim_last (w : sim) : Z :=
  match last (sim_jobs w) with Some j => j.2 mod 256 | None => sim_stored w mod 256 end.
Definition sim_isdone (w : sim) (h : Z) : bool :=
  bool_decide (0 <= h < 256) && bool_decide (h ∈ sim_done w) && negb (bool_decide (h ∈ job_handle <$> sim_jobs w)).

(** The word of the bits where [P] holds. *)
Definition word_of (P : Z -> bool) : Z := foldr (fun b acc => if P b then Z.lor acc (2 ^ b) else acc) 0 (seqZ 0 32).

Lemma word_bits (P : Z -> bool) (l : list Z) i :
  Forall (fun b : Z => 0 <= b) l -> 0 <= i ->
  Z.testbit (foldr (fun b acc => if P b then Z.lor acc (2 ^ b) else acc) 0 l) i = bool_decide (i ∈ l) && P i.
Proof.
  induction 1 as [|b l Hb _ IH]; intros Hi; [by rewrite Z.bits_0, bool_decide_false by set_solver|]. simpl.
  assert (E : bool_decide (i ∈ b :: l) = (b =? i) || bool_decide (i ∈ l)).
  { destruct (Z.eqb_spec b i) as [->|]; [by rewrite bool_decide_true by set_solver|].
    apply bool_decide_ext. set_solver. }
  rewrite E. destruct (P b) eqn:Eb.
  - rewrite Z.lor_spec, Z.pow2_bits_eqb, IH by lia. destruct (Z.eqb_spec b i) as [->|]; simpl.
    + by rewrite Eb, orb_true_r.
    + by rewrite orb_false_r.
  - rewrite IH by lia. destruct (Z.eqb_spec b i) as [->|]; [|done]. by rewrite Eb, !andb_false_r.
Qed.

Lemma word_of_bit P i : Z.testbit (word_of P) i = bool_decide (0 <= i < 32) && P i.
Proof.
  destruct (Z.lt_ge_cases i 0); [by rewrite Z.testbit_neg_r, bool_decide_false by lia|].
  unfold word_of. rewrite word_bits; [|apply Forall_forall; intros b Hb%elem_of_seqZ; lia|done].
  f_equal. apply bool_decide_ext. rewrite elem_of_seqZ. lia.
Qed.

Lemma word_of_u32 P : is_u32 (word_of P).
Proof.
  assert (H0 : 0 <= word_of P).
  { unfold word_of. induction (seqZ 0 32) as [|b l IH]; [done|]. simpl. destruct (P b); [|done].
    apply Z.lor_nonneg. split; [done|]. destruct (Z.lt_ge_cases b 0); [by rewrite Z.pow_neg_r|]. apply Z.pow_nonneg. lia. }
  split; [done|]. apply bits_lt_pow2; [done|lia|]. intros i Hi. rewrite word_of_bit in Hi.
  apply andb_true_iff in Hi as [Hi%bool_decide_eq_true _]. lia.
Qed.

Definition in_group (base r : Z) : bool := (base <=? r) && (r <? base + 8).

Definition sim_read (r : Z) (w : sim) : Z :=
  if r =? DMA_C_HANDLE_AUX then sim_last w
  else if r =? DMA_C_INTSTAT_AUX then if sim_pending w then 1 else 0
  else if in_group 0xd20 r then word_of (fun b => sim_isdone w (32 * (r - 0xd20) + b))
  else 0.

Definition sim_write (r v : Z) (w : sim) : sim :=
  let '(MkSim lt jobs st m dn p now lg fin) := w in
  if r =? DMA_C_LEN_AUX then
    MkSim lt (jobs ++ [(MkXfer (lt DMA_C_CHAN_AUX) (lt DMA_C_SRC_AUX) (lt DMA_C_DST_AUX) (lt DMA_C_ATTR_AUX) v, sim_last w + 1)])
      st m dn p now lg fin
  else if r =? DMA_C_INTSTAT_CLR_AUX then MkSim lt jobs st m dn (p && negb (Z.testbit v 0)) now lg fin
  else if in_group 0xd40 r then
    MkSim lt jobs st m (filter (fun h => ~ (h / 32 = r - 0xd40 /\ Z.testbit v (h mod 32) = true)) dn) p now lg fin
  else MkSim (fun r' => if r' =? r then v else lt r') jobs st m dn p now lg fin.

Definition sim_wait (w : sim) : sim :=
  MkSim (sim_latch w) [] (sim_last w) (run_xfers (sim_jobs w).*1 (sim_mem w))
    ((job_handle <$> sim_jobs w) ++ sim_done w)
    (match sim_jobs w with [] => sim_pending w | _ => true end) (sim_now w + 1) (sim_log w)
    ((job_handle <$> sim_jobs w) ++ sim_fin w).

#[export] Instance sim_dma : ArcDma sim := {|
  z_arc_v2_aux_reg_read r w := (sim_read r w, w);
  z_arc_v2_aux_reg_write := sim_write;
  client_block _ _ := None;
  device_is_ready _ := true;
  irq_config w := w;
  k_busy_wait _ := sim_wait;
  sys_timepoint_calc t w := sim_now w + t;
  sys_timepoint_timeout e w := Z.max 0 (e - sim_now w);
  K_NO_WAIT := 0 |}.

#[export] Instance sim_state : ArcDmaState sim := {|
  latch := sim_latch;
  todo w := (sim_jobs w).*1;
  mem := sim_mem;
  last_handle := sim_last;
  expires e w := Z.to_nat (e - sim_now w) |}.

(** A write other than of the length leaves jobs, memory and time alone. *)
Lemma sim_write_frame r v w :
  r <> DMA_C_LEN_AUX ->
  sim_jobs (sim_write r v w) = sim_jobs w /\ sim_mem (sim_write r v w) = sim_mem w /\
  sim_stored (sim_write r v w) = sim_stored w /\ sim_now (sim_write r v w) = sim_now w.
Proof.
  intros Hr. destruct w as [lt jobs st m dn p now lg fin]. unfold sim_write. rewrite (proj2 (Z.eqb_neq r _)) by done.
  destruct (r =? DMA_C_INTSTAT_CLR_AUX); [done|]. by destruct (in_group 0xd40 r).
Qed.

Lemma sim_last_ext w w' : sim_jobs w' = sim_jobs w -> sim_stored w' = sim_stored w -> sim_last w' = sim_last w.
Proof. unfold sim_last. by intros -> ->. Qed.

Lemma sim_last_not_done w : sim_jobs w <> [] -> sim_isdone w (sim_last w) = false.
Proof.
  intros Hj. unfold sim_isdone, sim_last. destruct (last (sim_jobs w)) as [j|] eqn:E; [|by apply last_None in E].
  rewrite (bool_decide_true (_ ∈ job_handle <$> sim_jobs w)); [by rewrite andb_false_r|].
  apply list_elem_of_fmap. exists j. split; [done|]. by apply last_Some_elem_of.
Qed.

Lemma sim_done_bit w h :
  0 <= h -> Z.testbit (sim_read (DMA_S_DONESTATD_AUX (h / 32)) w) (h mod 32) = sim_isdone w h.
Proof.
  intros Hh. unfold sim_read, DMA_S_DONESTATD_AUX. pose proof (Z.mod_pos_bound h 32).
  rewrite (proj2 (Z.eqb_neq _ DMA_C_HANDLE_AUX)) by (unfold DMA_C_HANDLE_AUX; Z.to_euclidean_division_equations; lia).
  rewrite (proj2 (Z.eqb_neq _ DMA_C_INTSTAT_AUX)) by (unfold DMA_C_INTSTAT_AUX; Z.to_euclidean_division_equations; lia).
  unfold in_group. destruct (Z.leb_spec 0xd20 (0xd00 + 0x20 + h / 32)); [|Z.to_euclidean_division_equations; lia].
  destruct (Z.ltb_spec (0xd00 + 0x20 + h / 32) (0xd20 + 8)); cbn [andb].
  - rewrite word_of_bit, bool_decide_true by lia. simpl. f_equal. Z.to_euclidean_division_equations. lia.
  - rewrite Z.bits_0. symmetry. unfold sim_isdone. rewrite bool_decide_false; [done|]. Z.to_euclidean_division_equations. lia.
Qed.

Lemma sim_read_u32 r w : is_u32 (sim_read r w).
Proof.
  unfold sim_read. destruct (r =? _).
  { unfold sim_last. destruct (last _) as [j|]; [pose proof (Z.mod_pos_bound j.2 256)|pose proof (Z.mod_pos_bound (sim_stored w) 256)]; unfold in_width; lia. }
  destruct (r =? _); [by destruct (sim_pending w)|]. destruct (in_group _ _); [apply word_of_u32|done].
Qed.

#[export] Instance sim_laws : ArcDmaLaws sim.
Proof.
  split; cbn.
  - intros r v [lt jobs st m dn p now lg fin] r' Hr'. unfold sim_write.
    assert (Hne : r' <> DMA_C_LEN_AUX /\ r' <> DMA_C_INTSTAT_CLR_AUX /\ in_group 0xd40 r' = false)
      by (destruct Hr' as [->|[->|[->| ->]]]; done).
    destruct Hne as (H1 & H2 & H3).
    destruct (Z.eqb_spec r DMA_C_LEN_AUX) as [->|]; [by rewrite (proj2 (Z.eqb_neq _ _))|].
    destruct (Z.eqb_spec r DMA_C_INTSTAT_CLR_AUX) as [->|]; [by rewrite (proj2 (Z.eqb_neq _ _))|].
    destruct (in_group 0xd40 r) eqn:E; [|done]. destruct (Z.eqb_spec r' r) as [->|]; [congruence|done].
  - intros v [lt jobs st m dn p now lg fin]. exists 0%nat. cbn. split_and!; [lia| |done].
    rewrite drop_0. unfold sim_write. rewrite Z.eqb_refl. exact (fmap_app fst _ _).
  - intros r v w Hr. destruct (sim_write_frame r v w Hr) as (E1 & E2 & _). exists 0%nat. cbn. rewrite E1, E2. split_and!; [lia|by rewrite drop_0|done].
  - intros r v w Hr. destruct (sim_write_frame r v w Hr) as (E1 & _ & E3 & _). by apply sim_last_ext.
  - intros e r v w. destruct (Z.eq_dec r DMA_C_LEN_AUX) as [->|Hr]; [by destruct w|].
    by destruct (sim_write_frame r v w Hr) as (_ & _ & _ & ->).
  - intros r w. exact (reached_refl w).
  - done.
  - done.
  - done.
  - intros w. unfold sim_last. destruct (last _) as [j|]; apply Z.mod_pos_bound; lia.
  - intros w Hd. assert (0 <= sim_last w) by (unfold sim_last; destruct (last _) as [j|]; apply Z.mod_pos_bound; lia).
    rewrite sim_done_bit in Hd by done. destruct (sim_jobs w) as [|j l] eqn:E; [done|].
    rewrite sim_last_not_done in Hd; [done|]. by rewrite E.
  - intros n w. exists (length (sim_jobs w).*1). split_and!; [done|by rewrite drop_ge|by rewrite take_ge].
  - intros n w. unfold sim_last at 1. cbn. unfold sim_last. destruct (last _) as [j|]; by rewrite Z.mod_mod.
  - intros e n w Hne. lia.
Qed.

#[export] Instance sim_irq : ArcDmaIrq sim := {| isdone := sim_isdone; pending := sim_pending |}.

#[export] Instance sim_irq_laws : ArcDmaIrqLaws sim.
Proof.
  split; cbn.
  - intros r w. reflexivity.
  - intros r v [lt jobs st m dn p now lg fin] Hr. unfold sim_write. rewrite (proj2 (Z.eqb_neq r DMA_C_INTSTAT_CLR_AUX)) by done.
    destruct (r =? DMA_C_LEN_AUX); [|destruct (in_group 0xd40 r)]; (split; [|done]); intros h; cbn; unfold sim_isdone; cbn; intros Hd; left.
    + rewrite (fmap_app job_handle jobs) in Hd. revert Hd. rewrite !andb_true_iff, !negb_true_iff, !bool_decide_eq_true, !bool_decide_eq_false. set_solver.
    + revert Hd. rewrite !andb_true_iff, !negb_true_iff, !bool_decide_eq_true, !bool_decide_eq_false. rewrite list_elem_of_filter. tauto.
    + done.
  - intros w. unfold sim_read. cbn. by destruct (sim_pending w).
  - intros v [lt jobs st m dn p now lg fin]. cbn. split; [by left|]. by intros -> ->.
  - intros w h Hh. by apply sim_done_bit.
  - intros v [lt jobs st m dn p now lg fin] h Hh Hbit. unfold sim_write, DMA_S_DONESTATD_CLR_AUX. pose proof (Z.mod_pos_bound h 32).
    rewrite (proj2 (Z.eqb_neq _ DMA_C_LEN_AUX)) by (unfold DMA_C_LEN_AUX; Z.to_euclidean_division_equations; lia).
    rewrite (proj2 (Z.eqb_neq _ DMA_C_INTSTAT_CLR_AUX)) by (unfold DMA_C_INTSTAT_CLR_AUX; Z.to_euclidean_division_equations; lia).
    unfold in_group. destruct (Z.leb_spec 0xd40 (0xd00 + 0x40 + h / 32)); [|Z.to_euclidean_division_equations; lia].
    destruct (Z.ltb_spec (0xd00 + 0x40 + h / 32) (0xd40 + 8)); cbn [andb]; unfold sim_isdone; cbn [sim_done sim_jobs].
    + rewrite (bool_decide_false (h ∈ filter _ _)); [by rewrite andb_false_r|]. rewrite list_elem_of_filter. intros [Hn _].
      apply Hn. split; [lia|done].
    + rewrite bool_decide_false; [done|]. Z.to_euclidean_division_equations. lia.
Qed.

#[export] Instance sim_finished : ArcDmaFinished sim.
Proof.
  refine {| finished w h := bool_decide (h ∈ sim_fin w) |}; cbn.
  - intros r w h. split; [by left|done].
  - intros r v [lt jobs st m dn p now lg fin] h Hr. unfold sim_write. rewrite (proj2 (Z.eqb_neq r DMA_C_LEN_AUX)) by done.
    destruct (r =? DMA_C_INTSTAT_CLR_AUX); [split; [by left|done]|].
    destruct (in_group 0xd40 r) eqn:Eg; [|split; [by left|done]]. split; [by left|]. unfold sim_isdone. cbn.
    rewrite !andb_true_iff, !bool_decide_eq_true. intros [[Hh Hin] Hj] Hclr. split_and!; [lia|lia| |done].
    apply list_elem_of_filter. split; [|done]. intros [E Hb]. unfold in_group in Eg. apply andb_true_iff in Eg as [E1 E2].
    rewrite (Hclr (r - 0xd40)) in Hb; [done|unfold DMA_S_DONESTATD_CLR_AUX; lia|lia|done].
  - intros r w. apply sim_read_u32.
Defined.

#[export] Instance sim_rounds : ArcDmaRounds sim.
Proof.
  refine {| rounds w := if sim_pending w then 1%nat else 0%nat |}; cbn.
  - done.
  - intros r v [lt jobs st m dn p now lg fin]. unfold sim_write.
    destruct (r =? _); [done|]. destruct (r =? _); [cbn [sim_pending]; destruct p, (Z.testbit v 0); cbn [andb negb]; lia|]. by destruct (in_group _ _).
  - intros w. change (sim_read DMA_C_INTSTAT_AUX w) with (if sim_pending w then 1 else 0).
    destruct w as [lt jobs st m dn [] now lg fin]; cbn [sim_pending]; [intros _; apply Nat.lt_0_1|done].
  - intros g w. apply sim_read_u32.
Defined.

(** ** Concrete runs *)

Definition sim0 : sim := MkSim (fun _ => 0) [] 7 (fun a => a mod 251) [] false 0 [] [].
Definition example_config (irq : bool) : arc_dma_config := MkDevConfig 2 4 16 4 irq.
Definition no_config : dma_config := MkDmaConfig OTHER_DIRECTION 0 BNull false false 0 0 None 0.
Definition no_block : dma_block_config := MkBlock 0 0 0 BNull.
Definition chan0 : arc_dma_channel := MkChan ARC_DMA_FREE None 0 no_config no_block 0 0.
Definition dma0 : dma sim := MkDma [chan0; chan0] 0 (replicate 4 no_block) false sim0.
(** A callback notes its argument and channel. *)
Definition note (f arg ch st : Z) (w : sim) : sim :=
  MkSim (sim_latch w) (sim_jobs w) (sim_stored w) (sim_mem w) (sim_done w) (sim_pending w) (sim_now w) (sim_log w ++ [(arg, ch)]) (sim_fin w).
Definition isr_runs (s : dma sim) : option (dma sim) :=
  dma_arc_hs_isr (example_config true) (plain_callbacks note) (S (rounds (hw s))) s.

Definition result {A} (r : option (Z * dma sim)) (f : dma sim -> A) : option (Z * A) := '(rc, s) ← r; Some (rc, f s).

(** 50 bytes in blocks of 16, by interrupt and by polling. *)
Example transfer_runs irq :
  result (dma_arc_hs_transfer (example_config irq) (plain_callbacks note) isr_runs 20 1 0x1000 0x2000 50 10 dma0)
    (fun s => (map (fun i => mem (hw s) (0x2000 + i)) (seqZ 0 51), state <$> chans s !! 1%nat)) =
  Some (0, (map (fun i => (0x1000 + i) mod 251) (seqZ 0 50) ++ [(0x2000 + 50) mod 251], Some ARC_DMA_IDLE)).
Proof. destruct irq; vm_compute; reflexivity. Qed.

Lemma dma0_quiet irq : quiet (example_config irq) dma0.
Proof. split; [done|]. intros ch c Hc Ha. pose proof (aget_range _ _ _ Hc). rewrite aget_nat in Hc by lia.
  simpl in Hc. destruct (Z.to_nat ch) as [|[|n]]; simplify_eq/=; discriminate.
Qed.

Lemma isr_runs_calm s : quiet (example_config true) s -> exists s', isr_runs s = Some s' /\ calm s s'.
Proof. intros Hq. apply isr_calm; [done|done|lia]. Qed.

Lemma dma_transfer_copies_witness :
  exists rc s', dma_arc_hs_transfer (example_config true) (plain_callbacks note) isr_runs 20 1 0x1000 0x2000 50 10 dma0 = Some (rc, s') /\
    ((rc = 0 /\ todo (hw s') = [] /\ forall a, mem (hw s') a = copy 0x1000 0x2000 50 (mem sim0) a) \/
     (rc = - ETIMEDOUT /\ exists k : nat, forall a, mem (hw s') a = copy 0x1000 0x2000 (Z.min 50 (Z.of_nat k * 16)) (mem sim0) a)) /\
    exists c, aget (chans s') 1 = Some c /\ state c = ARC_DMA_IDLE.
Proof.
  apply (dma_transfer_copies (example_config true) (plain_callbacks note) isr_runs isr_runs_calm 20 1 0x1000 0x2000 50 10 dma0).
  - unfold transfer_inputs_ok. split_and!; vm_compute; done.
  - apply dma0_quiet.
  - left. lia.
  - vm_compute. done.
  - done.
  - intros w. cbn. lia.
Defined.

Lemma dma_channels_sound_witness :
  exists s0, dma_arc_hs_init (example_config true) dma0 = Some (0, s0) /\
    forall s', rtc (dma_step (example_config true) (plain_callbacks note)) s0 s' -> dma_ok (example_config true) s'.
Proof.
  apply dma_channels_sound; [done|done|]. intros f arg ch st s s' Hok [= <-]. exact Hok.
Defined.

(** Two channels have finished: their completions wait in the engine. *)
Definition run_chan (h arg : Z) : arc_dma_channel := MkChan ARC_DMA_ACTIVE (Some 1) arg no_config no_block h 1.
Definition sim2 : sim :=
  sim_wait (dma_arc_hs_start_hw 1 64 96 4 0 (dma_arc_hs_start_hw 0 8 16 4 0 sim0)).
Definition dma2 : dma sim := MkDma [run_chan 8 100; run_chan 9 200] 3 [] false sim2.

Example isr_runs_dma2 :
  (fun s => (map state (chans s), sim_log (hw s), sim_pending (hw s))) <$> isr_runs dma2 =
  Some ([ARC_DMA_IDLE; ARC_DMA_IDLE], [(100, 0); (200, 1)], false).
Proof. vm_compute. reflexivity. Qed.

(** Done bits of the simple engine beyond the configured descriptors do not occur. *)
Lemma sim_range w h : isdone w h = true -> 0 <= h < 256.
Proof. cbn. unfold sim_isdone. rewrite !andb_true_iff, bool_decide_eq_true. tauto. Qed.

Definition wide_config : arc_dma_config := MkDevConfig 2 256 16 4 true.

Lemma dma2_chan ch c : aget (chans dma2) ch = Some c -> (ch = 0 /\ c = run_chan 8 100) \/ (ch = 1 /\ c = run_chan 9 200).
Proof.
  intros Hc. pose proof (aget_range _ _ _ Hc). rewrite aget_nat in Hc by lia. cbn in H.
  assert (Hch : ch = 0 \/ ch = 1) by lia. destruct Hch as [->| ->]; [left|right]; split; try done; by injection Hc as [= <-].
Qed.


Lemma dma_isr_group_serves_witness :
  exists l s', isr_group wide_config (plain_callbacks note) 0 dma2 = Some s' /\ NoDup l /\
    (forall ch c, (ch, c) ∈ l <-> aget (chans dma2) ch = Some c /\ is_active c /\ handle c / 32 = 0 /\
       Z.testbit (sim_read (DMA_S_DONESTATD_AUX 0) sim2) (handle c mod 32) = true) /\
    (forall ch c, aget (chans dma2) ch = Some c ->
       aget (chans s') ch = Some (if decide ((ch, c) ∈ l) then set_state ARC_DMA_IDLE c else c)) /\
    hw s' = fold_left (call note) l (if sim_read (DMA_S_DONESTATD_AUX 0) sim2 =? 0 then sim2
      else z_arc_v2_aux_reg_write (DMA_S_DONESTATD_CLR_AUX 0) (sim_read (DMA_S_DONESTATD_AUX 0) sim2) sim2).
Proof.
  apply (dma_isr_group_serves wide_config note 0 dma2); [reflexivity|lia|apply sim_read_u32|reflexivity| |].
  - intros i c [[-> ->]|[-> ->]]%dma2_chan _; reflexivity.
  - intros i j c d [[-> ->]|[-> ->]]%dma2_chan [[-> ->]|[-> ->]]%dma2_chan _ _; (reflexivity || discriminate).
Defined.

(** A channel linked to itself. *)
Definition self_linked : arc_dma_channel :=
  MkChan ARC_DMA_PREPARED None 0 (MkDmaConfig MEMORY_TO_MEMORY 1 (BChan 0) true false 0 4 None 0) no_block 0 0.

Lemma dma_start_returns_iff_chain_ends_witness :
  ring (MkDma [self_linked; chan0] 1 [] false sim0) (fun ch => ch = 0) /\
  forall fuel, dma_arc_hs_start wide_config fuel 0 (MkDma [self_linked; chan0] 1 [] false sim0) = None.
Proof.
  assert (Hr : ring (MkDma [self_linked; chan0] 1 [] false sim0) (fun ch => ch = 0))
    by (intros ch ->; exists self_linked; split_and!; reflexivity).
  split; [exact Hr|]. intros fuel.
  refine (proj2 (proj2 (dma_start_returns_iff_chain_ends wide_config 0 _ _)) (fun ch => ch = 0) Hr eq_refl fuel). done.
Defined.

Lemma dma_transfer_refuses_witness :
  exists s', dma_arc_hs_transfer (example_config true) (plain_callbacks note) isr_runs 20 1 0x1000 0x2000 0xFFFFFFFF 10 dma0 =
    Some (- EINVAL, s') /\ hw s' = hw dma0 /\ chans s' = chans dma0 /\ transfer_blocks s' = transfer_blocks dma0.
Proof.
  refine (proj2 (proj2 (dma_transfer_refuses (example_config true) (plain_callbacks note) isr_runs 20 1 0x1000 0x2000 0xFFFFFFFF 10 dma0 _ _ _)) _ _ _);
    [unfold in_width; lia|lia|cbn; lia|reflexivity|lia|]. right. right. right. cbn. lia.
Defined.

Lemma dma_linked_transfer_size_witness :
  dma_arc_hs_calc_linked_transfer_size self_linked (MkBlock 0 0 3 BNull) 4 = Some (2 ^ 32 - 4).
Proof.
  destruct (dma_linked_transfer_size self_linked (MkBlock 0 0 3 BNull) 4) as (n & E & _ & Hn); [lia|unfold in_width; cbn; lia|].
  rewrite E. f_equal. apply Hn; [reflexivity|cbn; lia].
Defined.
