(* ===== verification/Noc.v ===== *)
(** * NOC coordinates and TLB windows ([lib/tenstorrent/bh_arc]: [noc.c], [noc2axi.c])

    The chip is a 17 by 12 grid of nodes with three coordinate systems: physical,
    NOC 0 and NOC 1.  The ARC reaches another node's registers through a window
    of its address space whose target a TLB entry selects.  Register accesses go
    to the hardware, the class [NocHw]. *)

From S2P Require Import Prelude.

(** ** Coordinates ([noc.c]) *)

Definition NOC_X_SIZE : Z := 17.
Definition NOC_Y_SIZE : Z := 12.
Definition NUM_TENSIX_X : Z := 14.
Definition NUM_TENSIX_Y : Z := 10.
Definition NUM_NOCS : Z := 2.

Definition NOC0_X_TO_NOC1 (x : Z) : Z := NOC_X_SIZE - x - 1.
Definition NOC0_Y_TO_NOC1 (y : Z) : Z := NOC_Y_SIZE - y - 1.

Inductive NocNodeType := kTensixNode | kNoc2AxiNode | kGddrNode | kExtraNode.

(** The rows of [kNodeTypes], physical row 11 first. *)
Definition kNodeTypes : list (list NocNodeType) :=
  let T := kTensixNode in let A := kNoc2AxiNode in let G := kGddrNode in let X := kExtraNode in
  let tensix_row n := [G] ++ replicate 14 T ++ [n; G] in
  map tensix_row [X; A; A; X; X; A; A; X; A; X; X] ++ [[G; X; X; A; X; X; X; X; X; X; X; X; A; X; X; A; G]].

Definition kPhysXToNoc0 : list Z := [0; 1; 16; 2; 15; 3; 14; 4; 13; 5; 12; 6; 11; 7; 10; 8; 9].
Definition kPhysYToNoc0 : list Z := [0; 1; 11; 2; 10; 3; 9; 4; 8; 5; 7; 6].
Definition kNoc0XToPhys : list Z := [0; 1; 3; 5; 7; 9; 11; 13; 15; 16; 14; 12; 10; 8; 6; 4; 2].
Definition kNoc0YToPhys : list Z := [0; 1; 3; 5; 7; 9; 11; 10; 8; 6; 4; 2].

Definition GetNodeType (px py : Z) : option NocNodeType :=
  let flipped_py := u8 (NOC_Y_SIZE - py - 1) in
  row ← aget kNodeTypes flipped_py; aget row px.

Definition NOC_REGS_START_ADDR : Z := 0xFFB20000.
Definition NOC_INSTANCE_OFFSET_BIT : Z := 16.
Definition NOC_OVERLAY_START_ADDR : Z := 0xFFB40000.

Definition NiuRegsBase (px py noc_id : Z) : option Z :=
  t ← GetNodeType px py;
  Some match t with
       | kTensixNode | kGddrNode => NOC_REGS_START_ADDR + Z.shiftl noc_id NOC_INSTANCE_OFFSET_BIT
       | kNoc2AxiNode => 0xFFFFFFFFFF000000
       | kExtraNode => 0xFF000000
       end.

Definition OverlayRegsBase (px py : Z) : option Z :=
  t ← GetNodeType px py;
  Some match t with kTensixNode | kGddrNode => NOC_OVERLAY_START_ADDR | _ => 0 end.

Definition PhysXToNoc (px noc_id : Z) : option Z :=
  noc0_x ← aget kPhysXToNoc0 px;
  Some (if noc_id =? 0 then noc0_x else u8 (NOC0_X_TO_NOC1 noc0_x)).

Definition PhysYToNoc (py noc_id : Z) : option Z :=
  noc0_y ← aget kPhysYToNoc0 py;
  Some (if noc_id =? 0 then noc0_y else u8 (NOC0_Y_TO_NOC1 noc0_y)).

Definition TensixPhysXToNoc (px noc_id : Z) : option Z := PhysXToNoc (u8 (px + 1)) noc_id.
Definition TensixPhysYToNoc (py noc_id : Z) : option Z := PhysYToNoc (u8 (py + 2)) noc_id.

(** The [for] loop of the two searches: the first index below [hi] whose
    coordinate is [x], or 0xFF. *)
Fixpoint find_coord (coord : Z -> option Z) (n : nat) (i x : Z) : option Z :=
  match n with
  | O => Some 0xFF
  | S n => c ← coord i; if c =? x then Some i else find_coord coord n (i + 1) x
  end.

Definition NocToTensixPhysX (x noc_id : Z) : option Z :=
  find_coord (fun i => TensixPhysXToNoc i noc_id) (Z.to_nat NUM_TENSIX_X) 0 x.
Definition NocToTensixPhysY (y noc_id : Z) : option Z :=
  find_coord (fun i => TensixPhysYToNoc i noc_id) (Z.to_nat NUM_TENSIX_Y) 0 y.

Definition NocToPhysX (nx noc_id : Z) : option Z :=
  aget kNoc0XToPhys (if noc_id =? 0 then nx else u8 (NOC0_X_TO_NOC1 nx)).
Definition NocToPhysY (ny noc_id : Z) : option Z :=
  aget kNoc0YToPhys (if noc_id =? 0 then ny else u8 (NOC0_Y_TO_NOC1 ny)).

Definition GetGddrNocCoords (gddr_inst noc2axi_port noc_id : Z) : option (Z * Z) :=
  let right_gddr_column := negb (gddr_inst / 4 =? 0) in
  let phys_x := if right_gddr_column then 16 else 0 in
  let phys_y := u8 ((gddr_inst mod 4) * 3) in
  let phys_y := u8 (phys_y + (if right_gddr_column then 2 - noc2axi_port else noc2axi_port)) in
  x ← PhysXToNoc phys_x noc_id;
  y ← PhysYToNoc phys_y noc_id;
  Some (x, y).

Definition GetEthNocCoords (eth_inst noc_id : Z) : option (Z * Z) :=
  x ← PhysXToNoc (u8 (eth_inst + 1)) noc_id;
  y ← PhysYToNoc 1 noc_id;
  Some (x, y).

Definition GetSerdesNocCoords (serdes_inst noc_id : Z) : option (Z * Z) :=
  let phys_x := if serdes_inst <? 3 then 3 else 12 in
  x ← PhysXToNoc phys_x noc_id;
  y ← PhysYToNoc 0 noc_id;
  Some (x, y).

(** ** The hardware *)

(** A register access of the ARC.  Reads of the registers used here have no side effect. *)
Class NocHw (W : Type) := {
  ReadReg : Z -> W -> Z;
  WriteReg : Z -> Z -> W -> W
}.

(** ** TLB windows ([noc2axi.c], [noc2axi.h]) *)

Definition ARC_NOC0_BASE_ADDR : Z := 0xC0000000.
Definition ARC_NOC1_BASE_ADDR : Z := 0xE0000000.
Definition NOC_TLB_LOG_SIZE : Z := 24.
Definition NOC_TLB_WINDOW_ADDR_MASK : Z := Z.ones NOC_TLB_LOG_SIZE.
Definition NOC2AXI_NUM_TLB_PER_RING : Z := 16.
Definition NIU_0_A_REG_MAP_BASE_ADDR : Z := 0x80050000.
Definition RING0_TLB_REG_OFFSET : Z := 0x1000.
Definition AXI2NOC_RING_SEL_BIT : Z := 15.
Definition kNoc2AxiOrderingStrict : Z := 1.

Section windows.
Context {W : Type} `{NocHw W}.

Definition GetTlbRegStartAddr (ring : Z) : Z :=
  Z.lor (NIU_0_A_REG_MAP_BASE_ADDR + RING0_TLB_REG_OFFSET) (Z.shiftl ring AXI2NOC_RING_SEL_BIT).

(** [noc2axi_tlb] is an array of 32-bit words. *)
Definition WriteTlbSetup (ring tlb_num tlb0 tlb1 tlb2 tlb3 : Z) (w : W) : W :=
  let noc2axi_tlb := GetTlbRegStartAddr ring in
  let w := WriteReg (noc2axi_tlb + 4 * (tlb_num * 2)) tlb0 w in
  let w := WriteReg (noc2axi_tlb + 4 * (tlb_num * 2 + 1)) tlb1 w in
  let w := WriteReg (noc2axi_tlb + 4 * (tlb_num + NOC2AXI_NUM_TLB_PER_RING * 2)) tlb2 w in
  WriteReg (noc2axi_tlb + 4 * (tlb_num + NOC2AXI_NUM_TLB_PER_RING * 3)) tlb3 w.

(** The fields of [NOC2AXITlb0RegT] and [NOC2AXITlb2RegT]. *)
Definition tlb0_word (addr : Z) : Z := bits_set 24 8 (Z.shiftr addr 24) 0.
Definition tlb2_word (x_end y_end x_start y_start multicast_en ordering_mode : Z) : Z :=
  bits_set 25 2 ordering_mode (bits_set 24 1 multicast_en (bits_set 18 6 y_start
    (bits_set 12 6 x_start (bits_set 6 6 y_end (bits_set 0 6 x_end 0))))).

Definition NOC2AXITlbSetup (ring tlb_num x y addr : Z) (w : W) : W :=
  WriteTlbSetup ring tlb_num (tlb0_word addr) (u32 (Z.shiftr addr 32))
    (tlb2_word x y 0 0 0 kNoc2AxiOrderingStrict) 0 w.

Definition NOC2AXIMulticastTlbSetup (ring tlb_num x_start y_start x_end y_end addr ordering : Z) (w : W) : W :=
  WriteTlbSetup ring tlb_num (tlb0_word addr) (u32 (Z.shiftr addr 32))
    (tlb2_word x_end y_end x_start y_start 1 ordering) 0 w.

Definition GetTlbWindowAddr (noc_id tlb_entry addr : Z) : Z :=
  let noc_base_addr := if noc_id =? 0 then ARC_NOC0_BASE_ADDR else ARC_NOC1_BASE_ADDR in
  u32 (noc_base_addr + Z.shiftl tlb_entry NOC_TLB_LOG_SIZE + Z.land addr NOC_TLB_WINDOW_ADDR_MASK).

Definition NOC2AXIWrite32 (noc_id tlb_entry addr data : Z) (w : W) : W :=
  WriteReg (GetTlbWindowAddr noc_id tlb_entry addr) data w.

(** [translated] is [IsNocTranslationEnabled()]. *)
Definition NOC2AXITensixBroadcastTlbSetup (translated : bool) (ring tlb_num addr ordering : Z) (w : W) : W :=
  let '(x_start, y_start, x_end, y_end) :=
    if ring =? 0 then (2, 2, 1, 11)
    else if translated then (1, 11, 2, 2)
    else (0, 0, 16, 10) in
  NOC2AXIMulticastTlbSetup ring tlb_num x_start y_start x_end y_end addr ordering w.
End windows.

(** ** Coordinates are a bijection *)

Definition phys_on_grid (px py : Z) : Prop := 0 <= px < NOC_X_SIZE /\ 0 <= py < NOC_Y_SIZE.

(** The coordinate of a physical column or row on a ring. *)
Definition ring_x (px ring : Z) : Z := default 0 (PhysXToNoc px ring).
Definition ring_y (py ring : Z) : Z := default 0 (PhysYToNoc py ring).

(** A boolean property of all columns and rings, checked one by one. *)
Lemma forall_grid (n : Z) (P : Z -> Z -> bool) :
  forallb (fun p => P p 0 && P p 1) (seqZ 0 n) = true ->
  forall p ring, 0 <= p < n -> 0 <= ring < NUM_NOCS -> P p ring = true.
Proof.
  rewrite forallb_forall. intros H p ring Hp Hr. change NUM_NOCS with 2 in Hr.
  assert (Hin : In p (seqZ 0 n)) by (apply list_elem_of_In, elem_of_seqZ; lia).
  apply H, andb_true_iff in Hin as [H0 H1].
  assert (ring = 0 \/ ring = 1) as [-> | ->] by lia; done.
Qed.

Definition some_eqb (o : option Z) (v : Z) : bool := match o with Some u => u =? v | None => false end.

Lemma some_eqb_true o v : some_eqb o v = true -> o = Some v.
Proof. unfold some_eqb. destruct o as [u|]; [|done]. by intros ->%Z.eqb_eq. Qed.

Section bijection.
Variables (px py ring : Z).
Hypothesis Hring : 0 <= ring < NUM_NOCS.

Lemma phys_x_to_noc : 0 <= px < NOC_X_SIZE ->
  PhysXToNoc px ring = Some (ring_x px ring) /\ 0 <= ring_x px ring < NOC_X_SIZE /\
  NocToPhysX (ring_x px ring) ring = Some px.
Proof.
  intros Hp.
  pose proof (forall_grid NOC_X_SIZE (fun p r => some_eqb (PhysXToNoc p r) (ring_x p r) && (0 <=? ring_x p r) &&
    (ring_x p r <? NOC_X_SIZE) && some_eqb (NocToPhysX (ring_x p r) r) p) eq_refl px ring Hp Hring) as H. cbv beta in H.
  repeat (apply andb_true_iff in H as [H ?]). split_and!; try by apply some_eqb_true. all: bool_cases; lia.
Qed.

Lemma phys_y_to_noc : 0 <= py < NOC_Y_SIZE ->
  PhysYToNoc py ring = Some (ring_y py ring) /\ 0 <= ring_y py ring < NOC_Y_SIZE /\
  NocToPhysY (ring_y py ring) ring = Some py.
Proof.
  intros Hp.
  pose proof (forall_grid NOC_Y_SIZE (fun p r => some_eqb (PhysYToNoc p r) (ring_y p r) && (0 <=? ring_y p r) &&
    (ring_y p r <? NOC_Y_SIZE) && some_eqb (NocToPhysY (ring_y p r) r) p) eq_refl py ring Hp Hring) as H. cbv beta in H.
  repeat (apply andb_true_iff in H as [H ?]). split_and!; try by apply some_eqb_true. all: bool_cases; lia.
Qed.

(** The register base of a node is one of four addresses. *)
Lemma niu_regs_base : phys_on_grid px py ->
  exists b, NiuRegsBase px py ring = Some b /\ b ∈ [0xFFB20000; 0xFFB30000; 0xFFFFFFFFFF000000; 0xFF000000].
Proof.
  intros [Hx Hy]. unfold NiuRegsBase, GetNodeType.
  assert (Hrow : forallb (fun y => forallb (fun x => match (row ← aget kNodeTypes (u8 (NOC_Y_SIZE - y - 1)); aget row x) with
            Some _ => true | None => false end) (seqZ 0 NOC_X_SIZE)) (seqZ 0 NOC_Y_SIZE) = true) by reflexivity.
  assert (Hpy : In py (seqZ 0 NOC_Y_SIZE)) by (apply list_elem_of_In, elem_of_seqZ; lia).
  assert (Hpx : In px (seqZ 0 NOC_X_SIZE)) by (apply list_elem_of_In, elem_of_seqZ; lia).
  rewrite forallb_forall in Hrow. apply Hrow in Hpy. rewrite forallb_forall in Hpy. apply Hpy in Hpx.
  destruct (_ ≫= _) as [t|]; [|done]. cbn [mbind option_bind]. change NUM_NOCS with 2 in Hring.
  assert (ring = 0 \/ ring = 1) as [-> | ->] by lia; destruct t; eexists; (split; [reflexivity|set_solver]).
Qed.
End bijection.

Lemma ring_x_inj px px' ring :
  0 <= ring < NUM_NOCS -> 0 <= px < NOC_X_SIZE -> 0 <= px' < NOC_X_SIZE -> ring_x px ring = ring_x px' ring -> px = px'.
Proof.
  intros Hr Hp Hp' E. destruct (phys_x_to_noc px ring Hr Hp) as (_ & _ & H1).
  destruct (phys_x_to_noc px' ring Hr Hp') as (_ & _ & H2). rewrite E in H1. congruence.
Qed.

Lemma ring_y_inj py py' ring :
  0 <= ring < NUM_NOCS -> 0 <= py < NOC_Y_SIZE -> 0 <= py' < NOC_Y_SIZE -> ring_y py ring = ring_y py' ring -> py = py'.
Proof.
  intros Hr Hp Hp' E. destruct (phys_y_to_noc py ring Hr Hp) as (_ & _ & H1).
  destruct (phys_y_to_noc py' ring Hr Hp') as (_ & _ & H2). rewrite E in H1. congruence.
Qed.

(** ** What the hardware promises *)

(** The ARC's node. *)
Definition ARC_PX : Z := 15.
Definition ARC_PY : Z := 0.

Definition tlb_reg_addr (ring k : Z) : Z := GetTlbRegStartAddr ring + 4 * k.
Definition window_addr (ring idx off : Z) : Z :=
  (if ring =? 0 then ARC_NOC0_BASE_ADDR else ARC_NOC1_BASE_ADDR) + Z.shiftl idx NOC_TLB_LOG_SIZE + off.
(** [NIU_CFG_0] of the ARC's own node, in its local address space. *)
Definition direct_addr (ring : Z) : Z := if ring =? 0 then 0x80050100 else 0x80058100.

(** Offset [off] of window [idx], with TLB registers [tlb] and routing [rt],
    is configuration register [i] of node [(px, py)]. *)
Definition window_hits (tlb : Z -> Z -> Z) (rt : Z * Z -> Z * Z) (ring idx off px py i : Z) : Prop :=
  0 <= ring < NUM_NOCS /\ 0 <= idx < NOC2AXI_NUM_TLB_PER_RING /\ 0 <= off < 2 ^ NOC_TLB_LOG_SIZE /\
  phys_on_grid px py /\ 0 <= i < 32 /\
  let tlb2 := tlb ring (idx + 2 * NOC2AXI_NUM_TLB_PER_RING) in
  bits_get 24 1 tlb2 = 0 /\
  rt (bits_get 0 6 tlb2, bits_get 6 6 tlb2) = (ring_x px ring, ring_y py ring) /\
  exists b, NiuRegsBase px py ring = Some b /\
    b + 0x100 + 4 * i = Z.shiftl (tlb ring (idx * 2 + 1)) 32 + Z.shiftl (bits_get 24 8 (tlb ring (idx * 2))) 24 + off.

Definition same_reg (r x y i r' x' y' i' : Z) : bool := (r =? r') && (x =? x') && (y =? y') && (i =? i').

(** The hardware as the code relies on it: [niu w ring x y i] is configuration
    register [i] of the node at ring coordinate [(x, y)], [tlb_reg] the TLB
    registers, [route] where a unicast of the ARC arrives.  A node whose
    translation is off sends to the coordinate it is given. *)
Class NocHwLaws (W : Type) `{NocHw W} := {
  niu : W -> Z -> Z -> Z -> Z -> Z;
  tlb_reg : W -> Z -> Z -> Z;
  route : W -> Z -> Z * Z -> Z * Z;
  niu_u32 w ring x y i : is_u32 (niu w ring x y i);
  route_off w ring c :
    0 <= ring < NUM_NOCS ->
    Z.testbit (niu w ring (ring_x ARC_PX ring) (ring_y ARC_PY ring) 0) 14 = false -> route w ring c = c;
  write_tlb w ring k v :
    0 <= ring < NUM_NOCS -> 0 <= k < 64 ->
    (forall r x y i, niu (WriteReg (tlb_reg_addr ring k) v w) r x y i = niu w r x y i) /\
    (forall r j, tlb_reg (WriteReg (tlb_reg_addr ring k) v w) r j =
                 if (ring =? r) && (k =? j) then v else tlb_reg w r j);
  read_window w ring idx off px py i :
    window_hits (tlb_reg w) (route w ring) ring idx off px py i ->
    ReadReg (window_addr ring idx off) w = niu w ring (ring_x px ring) (ring_y py ring) i;
  write_window w ring idx off px py i v :
    window_hits (tlb_reg w) (route w ring) ring idx off px py i -> is_u32 v ->
    (forall r x y j, niu (WriteReg (window_addr ring idx off) v w) r x y j =
       if same_reg ring (ring_x px ring) (ring_y py ring) i r x y j then v else niu w r x y j) /\
    (forall r j, tlb_reg (WriteReg (window_addr ring idx off) v w) r j = tlb_reg w r j);
  read_direct w ring :
    0 <= ring < NUM_NOCS ->
    ReadReg (direct_addr ring) w = niu w ring (ring_x ARC_PX ring) (ring_y ARC_PY ring) 0;
  write_direct w ring v :
    0 <= ring < NUM_NOCS -> is_u32 v ->
    forall r x y j, niu (WriteReg (direct_addr ring) v w) r x y j =
      if same_reg ring (ring_x ARC_PX ring) (ring_y ARC_PY ring) 0 r x y j then v else niu w r x y j
}.

(** ** Through the window *)

Section through_window.
Context {W : Type} `{NocHwLaws W}.

(** The ARC's translation on a ring is off. *)
Definition arc_off (w : W) (ring : Z) : Prop :=
  Z.testbit (niu w ring (ring_x ARC_PX ring) (ring_y ARC_PY ring) 0) 14 = false.

(** Window 0 of the ring points at the node. *)
Definition points_to (w : W) (ring px py b : Z) : Prop :=
  NiuRegsBase px py ring = Some b /\
  tlb_reg w ring 0 = tlb0_word b /\ tlb_reg w ring 1 = u32 (Z.shiftr b 32) /\
  tlb_reg w ring 32 = tlb2_word (ring_x px ring) (ring_y py ring) 0 0 0 kNoc2AxiOrderingStrict.

Lemma tlb2_word_fields x y : 0 <= x < 64 -> 0 <= y < 64 ->
  bits_get 24 1 (tlb2_word x y 0 0 0 kNoc2AxiOrderingStrict) = 0 /\
  bits_get 0 6 (tlb2_word x y 0 0 0 kNoc2AxiOrderingStrict) = x /\
  bits_get 6 6 (tlb2_word x y 0 0 0 kNoc2AxiOrderingStrict) = y.
Proof.
  intros Hx Hy. unfold tlb2_word. split_and!.
  - rewrite bits_get_set_other, bits_get_set_same by lia. done.
  - do 5 (rewrite bits_get_set_other by lia). rewrite bits_get_set_same by lia. apply wrap_small. done.
  - do 4 (rewrite bits_get_set_other by lia). rewrite bits_get_set_same by lia. apply wrap_small. done.
Qed.

Lemma tlb_setup_points w ring px py b :
  0 <= ring < NUM_NOCS -> phys_on_grid px py -> NiuRegsBase px py ring = Some b ->
  let w' := NOC2AXITlbSetup ring 0 (ring_x px ring) (ring_y py ring) b w in
  points_to w' ring px py b /\ forall r x y i, niu w' r x y i = niu w r x y i.
Proof.
  intros Hr Hg Hb. cbv zeta. unfold NOC2AXITlbSetup, WriteTlbSetup.
  repeat match goal with |- context [WriteReg (GetTlbRegStartAddr ring + 4 * ?k)] =>
    change (GetTlbRegStartAddr ring + 4 * k) with (tlb_reg_addr ring k) end.
  change NOC2AXI_NUM_TLB_PER_RING with 16.
  set (w1 := WriteReg (tlb_reg_addr ring (0 * 2)) _ w).
  set (w2 := WriteReg _ _ w1). set (w3 := WriteReg _ _ w2).
  destruct (write_tlb w ring (0 * 2) (tlb0_word b)) as [N1 T1]; [done|lia|].
  destruct (write_tlb w1 ring (0 * 2 + 1) (u32 (Z.shiftr b 32))) as [N2 T2]; [done|lia|].
  destruct (write_tlb w2 ring (0 + 16 * 2) (tlb2_word (ring_x px ring) (ring_y py ring) 0 0 0 kNoc2AxiOrderingStrict))
    as [N3 T3]; [done|lia|].
  destruct (write_tlb w3 ring (0 + 16 * 3) 0) as [N4 T4]; [done|lia|].
  split.
  - unfold points_to. rewrite !T4, !T3, !T2, !T1, !Z.eqb_refl. done.
  - intros r x y i. by rewrite N4, N3, N2, N1.
Qed.

(** Register [i] of the node the window points at. *)
Lemma points_to_hits w ring px py b i :
  0 <= ring < NUM_NOCS -> phys_on_grid px py -> arc_off w ring -> points_to w ring px py b -> 0 <= i < 32 ->
  exists off, window_hits (tlb_reg w) (route w ring) ring 0 off px py i /\
    u32 (GetTlbWindowAddr ring 0 b + 4 * (64 + i)) = window_addr ring 0 off.
Proof.
  intros Hr Hg Hoff (Hb & T0 & T1 & T2) Hi. pose proof Hg as [Hx Hy].
  destruct (phys_x_to_noc px ring Hr Hx) as (_ & Hrx & _). destruct (phys_y_to_noc py ring Hr Hy) as (_ & Hry & _).
  change NOC_X_SIZE with 17 in Hrx. change NOC_Y_SIZE with 12 in Hry.
  destruct (tlb2_word_fields (ring_x px ring) (ring_y py ring)) as (F1 & F2 & F3); [lia|lia|].
  exists (Z.land b NOC_TLB_WINDOW_ADDR_MASK + 0x100 + 4 * i).
  destruct (niu_regs_base px py ring Hr Hg) as (b' & Hb' & Hin). rewrite Hb in Hb'. injection Hb' as <-.
  split.
  - unfold window_hits. change (0 + 2 * NOC2AXI_NUM_TLB_PER_RING) with 32. cbv zeta.
    rewrite T2, F1, F2, F3. change (0 * 2 + 1) with 1. change (0 * 2) with 0. rewrite T0, T1.
    split_and!; try done; try lia.
    + assert (0 <= Z.land b NOC_TLB_WINDOW_ADDR_MASK) by (apply Z.land_nonneg; by right). lia.
    + repeat (apply elem_of_cons in Hin as [-> |Hin]); [..|by apply elem_of_nil in Hin];
        match goal with |- context [Z.land ?a ?m] => let v := eval vm_compute in (Z.land a m) in change (Z.land a m) with v end;
        change (2 ^ NOC_TLB_LOG_SIZE) with 16777216; lia.
    + apply Hoff || by apply route_off.
    + exists b. split; [done|].
      repeat (apply elem_of_cons in Hin as [-> |Hin]); [..|by apply elem_of_nil in Hin];
        repeat match goal with |- context [Z.land ?a NOC_TLB_WINDOW_ADDR_MASK] =>
          let v := eval vm_compute in (Z.land a NOC_TLB_WINDOW_ADDR_MASK) in change (Z.land a NOC_TLB_WINDOW_ADDR_MASK) with v end;
        match goal with |- context [Z.shiftl ?a 32 + Z.shiftl ?c 24] =>
          let v := eval vm_compute in (Z.shiftl a 32 + Z.shiftl c 24) in change (Z.shiftl a 32 + Z.shiftl c 24) with v end; lia.
  - unfold window_addr, GetTlbWindowAddr. change NUM_NOCS with 2 in Hr.
    assert (ring = 0 \/ ring = 1) as [-> | ->] by lia; cbn [Z.eqb];
    repeat (apply elem_of_cons in Hin as [-> |Hin]); try (by apply elem_of_nil in Hin);
      repeat match goal with |- context [Z.land ?a NOC_TLB_WINDOW_ADDR_MASK] =>
        let v := eval vm_compute in (Z.land a NOC_TLB_WINDOW_ADDR_MASK) in change (Z.land a NOC_TLB_WINDOW_ADDR_MASK) with v end;
      change (Z.shiftl 0 NOC_TLB_LOG_SIZE) with 0;
      unfold ARC_NOC0_BASE_ADDR, ARC_NOC1_BASE_ADDR; rewrite (wrap_small 32) by (unwrap; rewrite ?Z.mod_small; lia);
      rewrite ?(wrap_small 32) by (unwrap; lia); lia.
Qed.
End through_window.
