(* ===== verification/Tile.v ===== *)
(** * Tiles behind the TLB windows ([lib/tenstorrent/bh_arc/noc2axi.c], [noc2axi.h])

    The ARC reaches the memory and registers of a tile through a window of its address
    space that a TLB entry points at a node.  Here is what the drivers of tiles
    ([Gddr], [Eth], [Reset]) rely on: a window that has been set up reads and writes the
    words of its node.  Ring 0, which they use. *)

From S2P Require Import Prelude Noc.
#[local] Open Scope Z_scope.

(** The start of the window that a setup for [addr] opens. *)
Definition window_base (addr : Z) : Z := Z.shiftl (Z.shiftr addr 24) 24.

(** The TLB registers of ring 0. *)
Class TlbRegs (W : Type) `{NocHw W} := {
  tlb : W -> Z -> Z;
  law_tlb w k v : 0 <= k < 64 -> forall j, tlb (WriteReg (tlb_reg_addr 0 k) v w) j = if k =? j then v else tlb w j
}.

(** [word] are the memory and the registers of the nodes; a write through the window [k]
    changes the word under it. *)
Class TileLaws (W : Type) `{NocHw W} `{!TlbRegs W} := {
  word : W -> Z * Z -> Z -> Z;
  law_tlb_word w k v : 0 <= k < 64 -> forall n a, word (WriteReg (tlb_reg_addr 0 k) v w) n a = word w n a;
  law_read w k x y addr off :
    0 <= k < 16 -> 0 <= addr < 2 ^ 64 -> 0 <= x < 64 -> 0 <= y < 64 ->
    tlb w (k * 2) = tlb0_word addr -> tlb w (k * 2 + 1) = u32 (Z.shiftr addr 32) ->
    tlb w (k + 32) = tlb2_word x y 0 0 0 kNoc2AxiOrderingStrict ->
    0 <= off < 2 ^ 24 -> ReadReg (window_addr 0 k off) w = word w (x, y) (window_base addr + off);
  law_write w k x y addr off v :
    0 <= k < 16 -> 0 <= addr < 2 ^ 64 -> 0 <= x < 64 -> 0 <= y < 64 ->
    tlb w (k * 2) = tlb0_word addr -> tlb w (k * 2 + 1) = u32 (Z.shiftr addr 32) ->
    tlb w (k + 32) = tlb2_word x y 0 0 0 kNoc2AxiOrderingStrict ->
    0 <= off < 2 ^ 24 ->
    let w' := WriteReg (window_addr 0 k off) v w in
    (forall j, tlb w' j = tlb w j) /\
    (forall n a, word w' n a = if decide (n = (x, y) /\ a = window_base addr + off) then v else word w n a)
}.

(** A word of a node replaced. *)
Definition put (n : Z * Z) (a v : Z) (f : Z * Z -> Z -> Z) (n' : Z * Z) (a' : Z) : Z := if decide (n' = n /\ a' = a) then v else f n' a'.

Section setup.
Context {W : Type} `{TlbRegs W}.

(** Window [k] points at the node [n], at [addr]. *)
Definition opened (k : Z) (n : Z * Z) (addr : Z) (w : W) : Prop :=
  tlb w (k * 2) = tlb0_word addr /\ tlb w (k * 2 + 1) = u32 (Z.shiftr addr 32) /\
  tlb w (k + 32) = tlb2_word n.1 n.2 0 0 0 kNoc2AxiOrderingStrict.

Definition node_bounds (n : Z * Z) : Prop := 0 <= n.1 < 64 /\ 0 <= n.2 < 64.

(** A setup is four writes of TLB registers: what they keep, it keeps. *)
Lemma WriteTlbSetup_rel (R : relation W) `{!PreOrder R} k t0 t1 t2 t3 w :
  0 <= k < 16 -> (forall j v w, 0 <= j < 64 -> R w (WriteReg (tlb_reg_addr 0 j) v w)) -> R w (WriteTlbSetup 0 k t0 t1 t2 t3 w).
Proof.
  intros Hk HR. unfold WriteTlbSetup.
  repeat match goal with |- context [WriteReg (GetTlbRegStartAddr 0 + 4 * ?j)] =>
    change (GetTlbRegStartAddr 0 + 4 * j) with (tlb_reg_addr 0 j) end. change NOC2AXI_NUM_TLB_PER_RING with 16.
  do 3 (etransitivity; [|apply HR; lia]). apply HR. lia.
Qed.
Lemma NOC2AXITlbSetup_rel (R : relation W) `{!PreOrder R} k x y addr w :
  0 <= k < 16 -> (forall j v w, 0 <= j < 64 -> R w (WriteReg (tlb_reg_addr 0 j) v w)) -> R w (NOC2AXITlbSetup 0 k x y addr w).
Proof. apply WriteTlbSetup_rel. done. Qed.

Lemma WriteTlbSetup_tlb k t0 t1 t2 t3 w : 0 <= k < 16 -> let w' := WriteTlbSetup 0 k t0 t1 t2 t3 w in
  tlb w' (k * 2) = t0 /\ tlb w' (k * 2 + 1) = t1 /\ tlb w' (k + 32) = t2.
Proof.
  intros Hk. unfold WriteTlbSetup. cbv zeta.
  repeat match goal with |- context [WriteReg (GetTlbRegStartAddr 0 + 4 * ?j)] =>
    change (GetTlbRegStartAddr 0 + 4 * j) with (tlb_reg_addr 0 j) end. change NOC2AXI_NUM_TLB_PER_RING with 16.
  rewrite !law_tlb by lia.
  repeat match goal with |- context [?a =? ?b] => destruct (Z.eqb_spec a b); [lia| |..] || destruct (Z.eqb_spec a b) end; try lia; done.
Qed.
Lemma setup_opened k x y addr w : 0 <= k < 16 -> opened k (x, y) addr (NOC2AXITlbSetup 0 k x y addr w).
Proof. intros Hk. by apply WriteTlbSetup_tlb. Qed.
End setup.

Section windows.
Context {W : Type} `{TileLaws W}.

Definition same_words (w w' : W) : Prop := forall n a, word w' n a = word w n a.
#[export] Instance same_words_preorder : PreOrder same_words.
Proof. split; [done|]. intros w1 w2 w3 E E' n a. by rewrite E'. Qed.
Lemma NOC2AXITlbSetup_ok k x y addr w :
  0 <= k < 16 -> let w' := NOC2AXITlbSetup 0 k x y addr w in
  opened k (x, y) addr w' /\ forall n a, word w' n a = word w n a.
Proof.
  intros Hk. split; [by apply setup_opened|].
  apply (NOC2AXITlbSetup_rel same_words); [done|]. intros j v w' Hj n a. by apply law_tlb_word.
Qed.

Lemma window_addr_of k addr : 0 <= k < 16 -> GetTlbWindowAddr 0 k addr = window_addr 0 k (addr mod 2 ^ 24).
Proof.
  intros Hk. unfold GetTlbWindowAddr, window_addr, NOC_TLB_WINDOW_ADDR_MASK. cbn [Z.eqb]. rewrite Z.land_ones by done.
  change NOC_TLB_LOG_SIZE with 24. rewrite Z.shiftl_mul_pow2 by done.
  pose proof (Z.mod_pos_bound addr (2 ^ 24) ltac:(done)). change ARC_NOC0_BASE_ADDR with 0xC0000000.
  apply wrap_small. unfold in_width. lia.
Qed.

Lemma window_base_off addr addr' : Z.shiftr addr 24 = Z.shiftr addr' 24 -> window_base addr + addr' mod 2 ^ 24 = addr'.
Proof.
  intros E. unfold window_base. rewrite E, Z.shiftl_mul_pow2, Z.shiftr_div_pow2 by done.
  pose proof (Z.div_mod addr' (2 ^ 24)). lia.
Qed.

Lemma opened_read k n addr addr' w :
  0 <= k < 16 -> node_bounds n -> 0 <= addr < 2 ^ 64 -> opened k n addr w -> Z.shiftr addr 24 = Z.shiftr addr' 24 ->
  ReadReg (GetTlbWindowAddr 0 k addr') w = word w n addr'.
Proof.
  intros Hk [Hx Hy] Haddr (T1 & T2 & T3) E. rewrite window_addr_of by done.
  rewrite (law_read w k n.1 n.2 addr); [|done..|by apply Z.mod_pos_bound].
  rewrite (window_base_off addr addr' E). by destruct n.
Qed.

Lemma opened_write k n addr addr' v w :
  0 <= k < 16 -> node_bounds n -> 0 <= addr < 2 ^ 64 -> opened k n addr w -> Z.shiftr addr 24 = Z.shiftr addr' 24 ->
  let w' := WriteReg (GetTlbWindowAddr 0 k addr') v w in
  opened k n addr w' /\ forall n' a, word w' n' a = put n addr' v (word w) n' a.
Proof.
  intros Hk [Hx Hy] Haddr (T1 & T2 & T3) E. cbv zeta. rewrite window_addr_of by done.
  destruct (law_write w k n.1 n.2 addr (addr' mod 2 ^ 24) v Hk Haddr Hx Hy T1 T2 T3 ltac:(by apply Z.mod_pos_bound)) as [Ht Hw].
  split; [unfold opened; by rewrite !Ht|]. intros n' a. rewrite Hw, (window_base_off addr addr' E). unfold put. by destruct n.
Qed.
End windows.

(** ** A network: TLB registers and the words of every node *)

Record fabric := MkFabric { f_tlb : Z -> Z; f_word : Z * Z -> Z -> Z }.

Definition fabric_window (f : fabric) (a : Z) : option ((Z * Z) * Z) :=
  let d := a - ARC_NOC0_BASE_ADDR in
  if (0 <=? d) && (d <? 2 ^ 28) then
    let k := d / 2 ^ 24 in
    Some ((bits_get 0 6 (f_tlb f (k + 32)), bits_get 6 6 (f_tlb f (k + 32))),
          Z.shiftl (f_tlb f (k * 2 + 1)) 32 + f_tlb f (k * 2) + d mod 2 ^ 24)
  else None.
Definition tlb_index (a : Z) : Z := (a - tlb_reg_addr 0 0) / 4.
Definition is_tlb (a : Z) : bool := (0 <=? tlb_index a) && (tlb_index a <? 64).

Definition fabric_read (a : Z) (f : fabric) : Z := match fabric_window f a with Some (n, x) => f_word f n x | None => 0 end.
Definition fabric_write (a v : Z) (f : fabric) : fabric :=
  if is_tlb a then MkFabric (fun j => if tlb_index a =? j then v else f_tlb f j) (f_word f)
  else match fabric_window f a with Some (n, x) => MkFabric (f_tlb f) (put n x v (f_word f)) | None => f end.

Lemma bits_set_zero lo w v : bits_set lo w v 0 = Z.shiftl (Z.land v (Z.ones w)) lo.
Proof. unfold bits_set. by rewrite Z.land_0_l, Z.lor_0_l. Qed.

Lemma window_base_words addr :
  0 <= addr < 2 ^ 64 -> window_base addr = Z.shiftl (u32 (Z.shiftr addr 32)) 32 + tlb0_word addr.
Proof.
  intros Ha. unfold window_base, tlb0_word. rewrite bits_set_zero, Z.land_ones, !Z.shiftl_mul_pow2, !Z.shiftr_div_pow2 by done.
  assert (0 <= addr / 2 ^ 32 < 2 ^ 32) by (split; [apply Z.div_pos; lia|apply Z.div_lt_upper_bound; lia]).
  rewrite wrap_small by done. replace (addr / 2 ^ 32) with (addr / 2 ^ 24 / 2 ^ 8) by (rewrite Z.div_div by done; done).
  pose proof (Z.div_mod (addr / 2 ^ 24) (2 ^ 8) ltac:(done)). lia.
Qed.

Lemma window_addr_0 k off : window_addr 0 k off = ARC_NOC0_BASE_ADDR + (k * 2 ^ 24 + off).
Proof. unfold window_addr. cbn [Z.eqb]. rewrite Z.shiftl_mul_pow2 by done. change NOC_TLB_LOG_SIZE with 24. lia. Qed.

Lemma fabric_window_open (f : fabric) k x y addr off :
  0 <= k < 16 -> 0 <= addr < 2 ^ 64 -> 0 <= x < 64 -> 0 <= y < 64 ->
  f_tlb f (k * 2) = tlb0_word addr -> f_tlb f (k * 2 + 1) = u32 (Z.shiftr addr 32) ->
  f_tlb f (k + 32) = tlb2_word x y 0 0 0 kNoc2AxiOrderingStrict ->
  0 <= off < 2 ^ 24 -> fabric_window f (window_addr 0 k off) = Some ((x, y), window_base addr + off).
Proof.
  intros Hk Ha Hx Hy T1 T2 T3 Ho. unfold fabric_window. cbv zeta. rewrite window_addr_0.
  replace (ARC_NOC0_BASE_ADDR + (k * 2 ^ 24 + off) - ARC_NOC0_BASE_ADDR) with (k * 2 ^ 24 + off) by lia.
  rewrite (proj2 (Z.leb_le 0 _)), (proj2 (Z.ltb_lt _ (2 ^ 28))) by lia. cbn [andb].
  rewrite (Z.add_comm (k * 2 ^ 24)), Z.div_add, Z.div_small, Z.add_0_l, Z.mod_add, Z.mod_small by (done || lia).
  destruct (tlb2_word_fields x y Hx Hy) as (_ & F1 & F2). by rewrite T1, T2, T3, F1, F2, window_base_words.
Qed.

Lemma window_not_tlb k off : 0 <= k < 16 -> 0 <= off < 2 ^ 24 -> is_tlb (window_addr 0 k off) = false.
Proof.
  intros Hk Ho. apply andb_false_iff. right. apply Z.ltb_ge. unfold tlb_index. rewrite window_addr_0.
  apply Z.div_le_lower_bound; [done|]. change (tlb_reg_addr 0 0) with 0x80051000. change ARC_NOC0_BASE_ADDR with 0xC0000000. lia.
Qed.

Lemma tlb_index_of k : tlb_index (tlb_reg_addr 0 k) = k.
Proof. unfold tlb_index, tlb_reg_addr. replace (_ - _) with (k * 4) by lia. by apply Z.div_mul. Qed.

Lemma fabric_law_tlb f k v : 0 <= k < 64 ->
  let f' := fabric_write (tlb_reg_addr 0 k) v f in
  (forall j, f_tlb f' j = if k =? j then v else f_tlb f j) /\ (forall n a, f_word f' n a = f_word f n a).
Proof.
  intros Hk. unfold fabric_write, is_tlb. rewrite tlb_index_of. by rewrite (proj2 (Z.leb_le 0 k)), (proj2 (Z.ltb_lt k 64)) by lia.
Qed.
Lemma fabric_law_read f k x y addr off :
  0 <= k < 16 -> 0 <= addr < 2 ^ 64 -> 0 <= x < 64 -> 0 <= y < 64 ->
  f_tlb f (k * 2) = tlb0_word addr -> f_tlb f (k * 2 + 1) = u32 (Z.shiftr addr 32) ->
  f_tlb f (k + 32) = tlb2_word x y 0 0 0 kNoc2AxiOrderingStrict ->
  0 <= off < 2 ^ 24 -> fabric_read (window_addr 0 k off) f = f_word f (x, y) (window_base addr + off).
Proof. intros. unfold fabric_read. by rewrite (fabric_window_open f k x y addr). Qed.
Lemma fabric_law_write f k x y addr off v :
  0 <= k < 16 -> 0 <= addr < 2 ^ 64 -> 0 <= x < 64 -> 0 <= y < 64 ->
  f_tlb f (k * 2) = tlb0_word addr -> f_tlb f (k * 2 + 1) = u32 (Z.shiftr addr 32) ->
  f_tlb f (k + 32) = tlb2_word x y 0 0 0 kNoc2AxiOrderingStrict ->
  0 <= off < 2 ^ 24 ->
  let f' := fabric_write (window_addr 0 k off) v f in
  (forall j, f_tlb f' j = f_tlb f j) /\
  (forall n a, f_word f' n a = if decide (n = (x, y) /\ a = window_base addr + off) then v else f_word f n a).
Proof. intros. unfold f', fabric_write. rewrite window_not_tlb, (fabric_window_open f k x y addr) by done. done. Qed.
