(* ===== verification/NocDma.v ===== *)
(** * The NOC DMA driver ([drivers/dma/dma_tt_bh_noc.c], [dma_tt_bh_noc.h])

    Transfers between the memories of nodes, done by the NOC interface of a node on the
    ARC's command.  The commands go through TLB window 0 of ring 0 ([Noc]); what the
    interface does with them is the class [NiuLaws].  A transfer is only started here:
    its end shows in counters that the driver polls. *)

From S2P Require Import Prelude StateM Noc Tile.
#[local] Open Scope Z_scope.

Definition EINVAL : Z := 22.
Definition EIO : Z := 5.
Definition ENOSYS : Z := 88.
Definition ETIMEDOUT : Z := 116.

Definition NOC_DMA_TLB : Z := 0.
Definition NOC_DMA_NOC_ID : Z := 0.
Definition NOC_DMA_TIMEOUT_MS : Z := 50.
Definition NOC_MAX_BURST_SIZE : Z := 16384.
Definition DMA_MAX_TRANSFER_BLOCKS : Z := 4.

Definition NOC_CMD_CPY : Z := Z.shiftl 0 0.
Definition NOC_CMD_RD : Z := Z.shiftl 0 1.
Definition NOC_CMD_WR : Z := Z.shiftl 1 1.
Definition NOC_CMD_RESP_MARKED : Z := Z.shiftl 1 4.
Definition NOC_CMD_BRCST_PACKET : Z := Z.shiftl 1 5.
Definition NOC_CMD_PATH_RESERVE : Z := Z.shiftl 1 8.
Definition NOC_CMD_BRCST_SRC_INCLUDE : Z := Z.shiftl 1 17.

Definition TARGET_ADDR_LO : Z := 0xFFB20000.
Definition TARGET_ADDR_MID : Z := 0xFFB20004.
Definition TARGET_ADDR_HI : Z := 0xFFB20008.
Definition RET_ADDR_LO : Z := 0xFFB2000C.
Definition RET_ADDR_MID : Z := 0xFFB20010.
Definition RET_ADDR_HI : Z := 0xFFB20014.
Definition PACKET_TAG : Z := 0xFFB20018.
Definition CMD_BRCST : Z := 0xFFB2001C.
Definition AT_LEN : Z := 0xFFB20020.
Definition AT_LEN_1 : Z := 0xFFB20024.
Definition AT_DATA : Z := 0xFFB20028.
Definition BRCST_EXCLUDE : Z := 0xFFB2002C.
Definition CMD_CTRL : Z := 0xFFB20040.
Definition NIU_MST_WR_ACK_RECEIVED : Z := 0xFFB20204.
Definition NIU_MST_RD_RESP_RECEIVED : Z := 0xFFB20208.
Definition DMA_CHANNEL_INVALID : Z := 0xFFFFFFFF.

(** ** Data *)

(** What the driver reads of Zephyr's [struct dma_block_config] and [struct dma_config]:
    the list from [head_block] on, and whether there is a callback. *)
Record dma_block_config := MkBlock { source_address : Z; dest_address : Z; block_size : Z }.
Inductive dma_channel_direction :=
  MEMORY_TO_MEMORY | MEMORY_TO_PERIPHERAL | PERIPHERAL_TO_MEMORY | TT_BH_DMA_NOC_CHANNEL_DIRECTION_BROADCAST | OTHER_DIRECTION.
Record dma_config := MkConfig {
  channel_direction : dma_channel_direction; complete_callback_en : bool; error_callback_dis : bool;
  source_chaining_en : bool; dest_chaining_en : bool; linked_channel : Z;
  block_count : Z; head_block : list dma_block_config; dma_callback : bool }.
Record tt_bh_dma_noc_coords := MkCoords { source_x : Z; source_y : Z; dest_x : Z; dest_y : Z }.
Record tt_bh_dma_channel_resettable_data := MkState {
  last_noc_cmd : Z; last_expected_acks : Z; block_index : Z; st_block_count : Z; configured : bool }.
Record tt_bh_dma_channel_data := MkChannel {
  blocks : list dma_block_config; coords : tt_bh_dma_noc_coords; config : dma_config; state : tt_bh_dma_channel_resettable_data }.

Definition noc_coords_source (c : tt_bh_dma_noc_coords) : Z * Z := (source_x c, source_y c).
Definition noc_coords_dest (c : tt_bh_dma_noc_coords) : Z * Z := (dest_x c, dest_y c).

Definition set_index (i : Z) (c : tt_bh_dma_channel_data) : tt_bh_dma_channel_data :=
  MkChannel (blocks c) (coords c) (config c)
    (MkState (last_noc_cmd (state c)) (last_expected_acks (state c)) i (st_block_count (state c)) (configured (state c))).
Definition set_tracking (cmd acks : Z) (c : tt_bh_dma_channel_data) : tt_bh_dma_channel_data :=
  MkChannel (blocks c) (coords c) (config c) (MkState cmd acks (block_index (state c)) (st_block_count (state c)) (configured (state c))).
Definition set_blocks (l : list dma_block_config) (c : tt_bh_dma_channel_data) : tt_bh_dma_channel_data :=
  MkChannel l (coords c) (config c) (state c).

(** ** Arithmetic *)

Definition low32 (val : Z) : Z := Z.land val 0xFFFFFFFF.
Definition high32 (val : Z) : Z := u32 (Z.shiftr val 32).
Definition DIV_ROUND_UP (n d : Z) : Z := (n + d - 1) / d.

Definition is_behind (current target : Z) : bool := s32 (current - target) <? 0.
Definition noc_coord_encode (x y : Z) : Z := Z.lor (u32 (Z.shiftl y 6)) x.
Definition noc_coord_encode_range (start_x start_y end_x end_y : Z) : Z :=
  Z.lor (Z.lor (Z.lor (u32 (Z.shiftl start_y 18)) (u32 (Z.shiftl start_y 12))) (u32 (Z.shiftl end_y 6))) end_x.

(** ** The driver *)

(** Time, and the callback of a channel with its status ([DMA_STATUS_BLOCK] and
    [DMA_STATUS_COMPLETE] are 1 and 0, a code below 0 is an error). *)
Class NocDmaHw (W : Type) := {
  sys_timepoint_calc : Z -> W -> Z;
  sys_timepoint_expired : Z -> W -> bool * W;
  run_callback : Z -> Z -> W -> W
}.
Definition DMA_STATUS_COMPLETE : Z := 0.
Definition DMA_STATUS_BLOCK : Z := 1.

Record noc_dma (W : Type) := MkNocDma { channels : list tt_bh_dma_channel_data; hw : W }.
Arguments MkNocDma {W} _ _.
Arguments channels {W} _.
Arguments hw {W} _.
Abbreviation M W := (StateM.M (noc_dma W)).

Definition with_hw {W A} (f : W -> A * W) : M W A := fun s => let '(a, w) := f (hw s) in Some (a, MkNocDma (channels s) w).
Definition on_hw {W} (f : W -> W) : M W unit := with_hw (fun w => (tt, f w)).
Definition get_channel {W} (channel : Z) : M W tt_bh_dma_channel_data := fun s => c ← aget (channels s) channel; Some (c, s).
Definition put_channel {W} (channel : Z) (c : tt_bh_dma_channel_data) : M W unit :=
  fun s => l ← aset (channels s) channel c; Some (tt, MkNocDma l (hw s)).
Definition update {W} (channel : Z) (f : tt_bh_dma_channel_data -> tt_bh_dma_channel_data) : M W unit :=
  c ← get_channel channel; put_channel channel (f c).
Definition num_channels {W} : M W Z := fun s => Some (len (channels s), s).

Section driver.
Context {W : Type} `{NocHw W} `{NocDmaHw W}.

Definition Read32 (addr : Z) : M W Z := with_hw (fun w => (ReadReg (GetTlbWindowAddr NOC_DMA_NOC_ID NOC_DMA_TLB addr) w, w)).
Definition Write32 (addr v : Z) : M W unit := on_hw (NOC2AXIWrite32 NOC_DMA_NOC_ID NOC_DMA_TLB addr v).
Definition TlbSetup (x y addr : Z) : M W unit := on_hw (NOC2AXITlbSetup NOC_DMA_NOC_ID NOC_DMA_TLB x y addr).

Fixpoint wait_cmd (fuel : nat) (timeout : Z) : M W bool :=
  match fuel with
  | O => lift None
  | S fuel =>
      cmd_ctrl ← Read32 CMD_CTRL;
      if cmd_ctrl =? 0 then mret true else
      expired ← with_hw (sys_timepoint_expired timeout);
      if (expired : bool) then mret false else wait_cmd fuel timeout
  end.
Definition noc_wait_cmd_ready (fuel : nat) : M W bool :=
  timeout ← with_hw (fun w => (sys_timepoint_calc NOC_DMA_TIMEOUT_MS w, w)); wait_cmd fuel timeout.

Definition ack_reg (noc_cmd : Z) : Z :=
  if negb (Z.land noc_cmd NOC_CMD_WR =? 0) then NIU_MST_WR_ACK_RECEIVED else NIU_MST_RD_RESP_RECEIVED.
Definition get_expected_acks (noc_cmd size : Z) : M W Z :=
  packet_received ← Read32 (ack_reg noc_cmd);
  mret (u32 (packet_received + DIV_ROUND_UP size NOC_MAX_BURST_SIZE)).

Definition handle_transfer_callbacks (chan_data : tt_bh_dma_channel_data) (channel transfer_ret : Z) (is_final_block : bool) : M W unit :=
  if negb (dma_callback (config chan_data)) then mret tt else
  if transfer_ret =? 0 then
    _ ← (if complete_callback_en (config chan_data) && negb is_final_block then on_hw (run_callback channel DMA_STATUS_BLOCK) else mret tt);
    if is_final_block then on_hw (run_callback channel DMA_STATUS_COMPLETE) else mret tt
  else if negb (error_callback_dis (config chan_data)) then on_hw (run_callback channel (- EIO)) else mret tt.

(** The control word of a command. *)
Definition control (cmd : Z) (multicast include_self : bool) : Z :=
  let noc_ctrl := Z.lor NOC_CMD_CPY cmd in
  let noc_ctrl :=
    if multicast then
      let c := Z.lor noc_ctrl (Z.lor NOC_CMD_PATH_RESERVE NOC_CMD_BRCST_PACKET) in
      if include_self then Z.lor c NOC_CMD_BRCST_SRC_INCLUDE else c
    else noc_ctrl in
  Z.lor noc_ctrl NOC_CMD_RESP_MARKED.
Definition registers (noc_ctrl ret_coord ret_addr targ_coord targ_addr size transaction_id : Z) : list (Z * Z) :=
  [(TARGET_ADDR_LO, low32 targ_addr); (TARGET_ADDR_MID, high32 targ_addr); (TARGET_ADDR_HI, targ_coord);
   (RET_ADDR_LO, low32 ret_addr); (RET_ADDR_MID, high32 ret_addr); (RET_ADDR_HI, ret_coord);
   (PACKET_TAG, u32 (Z.shiftl transaction_id 10)); (AT_LEN, size); (AT_LEN_1, 0); (AT_DATA, 0); (BRCST_EXCLUDE, 0);
   (CMD_BRCST, noc_ctrl)].
Fixpoint write_all (l : list (Z * Z)) : M W unit :=
  match l with [] => mret tt | (a, v) :: l => _ ← Write32 a v; write_all l end.

(** [*noc_cmd_out] and [*expected_acks_out] are the tracking fields of the channel. *)
Definition noc_dma_transfer (fuel : nat) (channel cmd ret_coord ret_addr targ_coord targ_addr size : Z) (multicast : bool)
    (transaction_id : Z) (include_self : bool) : M W Z :=
  let noc_ctrl := control cmd multicast include_self in
  expected_acks ← get_expected_acks noc_ctrl size;
  _ ← update channel (set_tracking noc_ctrl expected_acks);
  ready ← noc_wait_cmd_ready fuel;
  if negb (ready : bool) then mret (- ETIMEDOUT) else
  _ ← write_all (registers noc_ctrl ret_coord ret_addr targ_coord targ_addr size transaction_id);
  _ ← Write32 CMD_CTRL 1;
  mret 0.

(** The blocks of the list over those kept from before. *)
Fixpoint copy_blocks (n : nat) (src : list dma_block_config) (old : list dma_block_config) : list dma_block_config :=
  match n, src, old with
  | S n, b :: src, _ :: old => b :: copy_blocks n src old
  | _, _, _ => old
  end.

Definition tt_bh_dma_noc_config (channel : Z) (cfg : dma_config) (c : tt_bh_dma_noc_coords) : M W Z :=
  if block_count cfg =? 0 then mret (- EINVAL) else
  if DMA_MAX_TRANSFER_BLOCKS <? block_count cfg then mret (- EINVAL) else
  n ← num_channels;
  if n <=? channel then mret (- EINVAL) else
  chan_data ← get_channel channel;
  _ ← put_channel channel (MkChannel (copy_blocks (Z.to_nat (block_count cfg)) (head_block cfg) (blocks chan_data)) c cfg
                             (MkState 0 0 0 (block_count cfg) true));
  mret 0.

(** [enabled_tensix] is the result of [GetEnabledTensix]. *)
Definition tt_bh_dma_noc_base_config (enabled_tensix : Z * Z) (channel : Z) (cfg : dma_config) : M W Z :=
  tt_bh_dma_noc_config channel cfg (MkCoords enabled_tensix.1 enabled_tensix.2 8 0).

(** [cfg] or [coords] may be NULL. *)
Definition tt_dma_config (channel : Z) (cfg : option dma_config) (c : option tt_bh_dma_noc_coords) : M W Z :=
  match cfg, c with
  | Some cfg, Some c => tt_bh_dma_noc_config channel cfg c
  | _, _ => mret (- EINVAL)
  end.

Definition noc_dma_write_multicast (fuel : nat) (channel local_x local_y local_addr remote_start_x remote_start_y remote_end_x remote_end_y
    remote_addr size : Z) (include_self : bool) : M W Z :=
  let ret_coord := noc_coord_encode_range remote_start_x remote_start_y remote_end_x remote_end_y in
  let targ_coord := noc_coord_encode local_x local_y in
  _ ← TlbSetup local_x local_y TARGET_ADDR_LO;
  noc_dma_transfer fuel channel NOC_CMD_WR ret_coord remote_addr targ_coord local_addr size true 0 include_self.

(** [chan_data->blocks[chan_data->state.block_index]] *)
Definition current_block (chan_data : tt_bh_dma_channel_data) : M W dma_block_config := lift (aget (blocks chan_data) (block_index (state chan_data))).

Definition tt_bh_dma_noc_start_mem_to_per (fuel : nat) (channel : Z) : M W Z :=
  chan_data ← get_channel channel;
  b ← current_block chan_data;
  let c := coords chan_data in
  let ret_coord := noc_coord_encode (source_x c) (source_y c) in
  let targ_coord := noc_coord_encode (dest_x c) (dest_y c) in
  _ ← TlbSetup (source_x c) (source_y c) TARGET_ADDR_LO;
  noc_dma_transfer fuel channel NOC_CMD_RD ret_coord (source_address b) targ_coord (dest_address b) (block_size b) false 0 false.

Definition tt_bh_dma_noc_start_per_to_mem (fuel : nat) (channel : Z) : M W Z :=
  chan_data ← get_channel channel;
  b ← current_block chan_data;
  let c := coords chan_data in
  let ret_coord := noc_coord_encode (dest_x c) (dest_y c) in
  let targ_coord := noc_coord_encode (source_x c) (source_y c) in
  _ ← TlbSetup (source_x c) (source_y c) TARGET_ADDR_LO;
  noc_dma_transfer fuel channel NOC_CMD_WR ret_coord (dest_address b) targ_coord (source_address b) (block_size b) false 0 false.

(** The code, and [status->busy]. *)
Definition tt_bh_dma_noc_get_status (channel : Z) : M W (Z * option bool) :=
  n ← num_channels;
  if n <=? channel then mret (- EINVAL, None) else
  chan_data ← get_channel channel;
  ack_received ← Read32 (ack_reg (last_noc_cmd (state chan_data)));
  mret (0, Some (is_behind ack_received (last_expected_acks (state chan_data)))).

Fixpoint poll_status (fuel : nat) (channel timeout : Z) : M W unit :=
  match fuel with
  | O => lift None
  | S fuel =>
      status ← tt_bh_dma_noc_get_status channel;
      match status.2 with
      | Some false => mret tt
      | Some true =>
          expired ← with_hw (sys_timepoint_expired timeout);
          if (expired : bool) then mret tt else poll_status fuel channel timeout
      | None => lift None
      end
  end.
(** A wait for the transfer under way, and the look at the clock after it. *)
Definition wait_transfer (fuel : nat) (channel : Z) : M W bool :=
  timeout ← with_hw (fun w => (sys_timepoint_calc NOC_DMA_TIMEOUT_MS w, w));
  _ ← poll_status fuel channel timeout;
  with_hw (sys_timepoint_expired timeout).

(** Replace the current block. *)
Definition set_current (channel : Z) (f : dma_block_config -> dma_block_config) : M W unit :=
  chan_data ← get_channel channel;
  b ← current_block chan_data;
  l ← lift (aset (blocks chan_data) (block_index (state chan_data)) (f b));
  put_channel channel (set_blocks l chan_data).

(** One block from memory to memory, by way of address 0 of the source node: [None] when
    it is done, or the code to return.  [dest_address_] is an [int]. *)
Definition memory_to_memory (fuel : nat) (channel : Z) : M W (option Z) :=
  chan_data ← get_channel channel;
  b ← current_block chan_data;
  let dest_address_ := s32 (dest_address b) in
  _ ← set_current channel (fun b => MkBlock 0 (source_address b) (block_size b));
  ret ← tt_bh_dma_noc_start_mem_to_per fuel channel;
  if negb (ret =? 0) then mret (Some ret) else
  _ ← set_current channel (fun b => MkBlock (source_address b) (u32 dest_address_) (block_size b));
  late ← wait_transfer fuel channel;
  if (late : bool) then mret (Some (- ETIMEDOUT)) else
  ret ← tt_bh_dma_noc_start_per_to_mem fuel channel;
  if negb (ret =? 0) then mret (Some ret) else
  late ← wait_transfer fuel channel;
  if (late : bool) then mret (Some (- ETIMEDOUT)) else
  chan_data ← get_channel channel;
  _ ← handle_transfer_callbacks chan_data channel 0 (block_index (state chan_data) + 1 =? st_block_count (state chan_data));
  mret None.

(** The linked channel is started after a block ([start] is the driver's own). *)
Definition start_linked (start : Z -> M W Z) (chan_data : tt_bh_dma_channel_data) : M W unit :=
  let linked_chan := linked_channel (config chan_data) in
  if negb (linked_chan =? DMA_CHANNEL_INVALID) then
    n ← num_channels;
    if linked_chan <? n then
      linked ← get_channel linked_chan;
      if configured (state linked) && (dest_chaining_en (config chan_data) || source_chaining_en (config chan_data))
      then _ ← start linked_chan; mret tt else mret tt
    else mret tt
  else mret tt.

(** The loop over the blocks; [rest] bounds the blocks that are left. *)
Fixpoint blocks_loop (rest fuel : nat) (start : Z -> M W Z) (channel : Z) : M W Z :=
  chan_data ← get_channel channel;
  if negb (block_index (state chan_data) <? st_block_count (state chan_data)) then mret 0 else
  match rest with
  | O => lift None
  | S rest =>
      match channel_direction (config chan_data) with
      | MEMORY_TO_MEMORY =>
          r ← memory_to_memory fuel channel;
          match r with
          | Some ret => mret ret
          | None =>
              _ ← start_linked start chan_data;
              _ ← update channel (fun c => set_index (u16 (block_index (state c) + 1)) c);
              blocks_loop rest fuel start channel
          end
      | MEMORY_TO_PERIPHERAL => tt_bh_dma_noc_start_mem_to_per fuel channel
      | PERIPHERAL_TO_MEMORY => tt_bh_dma_noc_start_per_to_mem fuel channel
      | TT_BH_DMA_NOC_CHANNEL_DIRECTION_BROADCAST =>
          b ← current_block chan_data;
          let c := coords chan_data in
          noc_dma_write_multicast fuel channel (dest_x c) (dest_y c) (source_address b) 2 2 1 11 (dest_address b) (block_size b) false
      | OTHER_DIRECTION => mret (- EINVAL)
      end
  end.

(** [depth] bounds the nesting of linked channels. *)
Fixpoint tt_bh_dma_noc_start (depth fuel : nat) (channel : Z) : M W Z :=
  match depth with
  | O => lift None
  | S depth =>
      n ← num_channels;
      if n <=? channel then mret (- EINVAL) else
      chan_data ← get_channel channel;
      if negb (configured (state chan_data)) then mret (- EINVAL) else
      _ ← update channel (set_index 0);
      blocks_loop (Z.to_nat DMA_MAX_TRANSFER_BLOCKS) fuel (tt_bh_dma_noc_start depth fuel) channel
  end.

Definition tt_bh_dma_noc_stop : M W Z := mret 0.
Definition tt_bh_dma_noc_init : M W Z := mret 0.
End driver.

(** ** What the network interfaces do *)

Definition is_write (ctrl : Z) : bool := Z.testbit ctrl 1.
Definition node_of_coord (c : Z) : Z * Z := (bits_get 0 6 c, bits_get 6 6 c).
(** The node and the address where a command starts, and where it ends. *)
Record command := MkCommand { c_ctrl : Z; c_src : Z * Z; c_src_addr : Z; c_dst : Z; c_dst_addr : Z; c_size : Z }.
Definition command_of (r : Z -> Z) : command :=
  MkCommand (r CMD_BRCST) (node_of_coord (r TARGET_ADDR_HI)) (Z.shiftl (r TARGET_ADDR_MID) 32 + r TARGET_ADDR_LO)
    (r RET_ADDR_HI) (Z.shiftl (r RET_ADDR_MID) 32 + r RET_ADDR_LO) (r AT_LEN).
(** The nodes of the rectangle of a multicast are a matter of the network ([group]). *)
Definition receives (group : Z -> Z * Z -> bool) (c : command) (n : Z * Z) : bool :=
  if Z.testbit (c_ctrl c) 5 then group (c_dst c) n && (negb (bool_decide (n = c_src c)) || Z.testbit (c_ctrl c) 17)
  else bool_decide (n = node_of_coord (c_dst c)).
Definition in_range (a start size : Z) : bool := (start <=? a) && (a <? start + size).
Definition carry_out (group : Z -> Z * Z -> bool) (c : command) (m : Z * Z -> Z -> Z) (n : Z * Z) (a : Z) : Z :=
  if receives group c n && in_range a (c_dst_addr c) (c_size c) then m (c_src c) (c_src_addr c + (a - c_dst_addr c)) else m n a.
(** A command that an interface understands: a write starts at it, a read ends at it, and the
    ranges do not overlap. *)
Definition understood (n : Z * Z) (c : command) : Prop :=
  0 <= c_size c /\ (if is_write (c_ctrl c) then c_src c = n else Z.testbit (c_ctrl c) 5 = false /\ node_of_coord (c_dst c) = n) /\
  (Z.testbit (c_ctrl c) 5 = true \/ c_src c <> node_of_coord (c_dst c) \/
   c_src_addr c + c_size c <= c_dst_addr c \/ c_dst_addr c + c_size c <= c_src_addr c).

Definition packets (size : Z) : Z := DIV_ROUND_UP size NOC_MAX_BURST_SIZE.
Definition command_regs : list Z :=
  [TARGET_ADDR_LO; TARGET_ADDR_MID; TARGET_ADDR_HI; RET_ADDR_LO; RET_ADDR_MID; RET_ADDR_HI; PACKET_TAG; CMD_BRCST; AT_LEN; AT_LEN_1;
   AT_DATA; BRCST_EXCLUDE].

(** [niu_reg] are the command registers of an interface; [niu_mem] the memories of the nodes
    once all commands given so far are carried out, in order; [sent] and [got] count the
    responses that the writes (true) and the reads of an interface are due and have
    come.  Only the clock and the callbacks let responses come. *)
Class NiuLaws (W : Type) `{NocHw W} `{NocDmaHw W} `{!TlbRegs W} := {
  niu_reg : W -> Z * Z -> Z -> Z;
  niu_mem : W -> Z * Z -> Z -> Z;
  sent : W -> Z * Z -> bool -> Z;
  got : W -> Z * Z -> bool -> Z;
  group : Z -> Z * Z -> bool;
  time_left : Z -> W -> nat;
  law_got w n d : 0 <= got w n d <= sent w n d;
  law_setup w k v : 0 <= k < 64 ->
    let w' := WriteReg (tlb_reg_addr 0 k) v w in
    niu_reg w' = niu_reg w /\ niu_mem w' = niu_mem w /\ sent w' = sent w /\ got w' = got w /\
    forall t, time_left t w' = time_left t w;
  law_count w n (d : bool) : node_bounds n -> opened 0 n TARGET_ADDR_LO w ->
    ReadReg (GetTlbWindowAddr 0 0 (if d then NIU_MST_WR_ACK_RECEIVED else NIU_MST_RD_RESP_RECEIVED)) w = u32 (got w n d);
  law_reg w n a v : node_bounds n -> opened 0 n TARGET_ADDR_LO w -> a ∈ command_regs ->
    let w' := WriteReg (GetTlbWindowAddr 0 0 a) v w in
    tlb w' = tlb w /\ niu_mem w' = niu_mem w /\ sent w' = sent w /\ got w' = got w /\ (forall t, time_left t w' = time_left t w) /\
    forall b, niu_reg w' n b = if b =? a then v else niu_reg w n b;
  law_go w n : node_bounds n -> opened 0 n TARGET_ADDR_LO w -> understood n (command_of (niu_reg w n)) ->
    let w' := WriteReg (GetTlbWindowAddr 0 0 CMD_CTRL) 1 w in
    let c := command_of (niu_reg w n) in
    tlb w' = tlb w /\ (forall t, time_left t w' = time_left t w) /\ (forall n d, got w' n d = got w n d) /\
    (forall n' a, niu_mem w' n' a = carry_out group c (niu_mem w) n' a) /\
    (forall n' d, sent w' n' d = sent w n' d + (if decide (n' = n) then if Bool.eqb d (is_write (c_ctrl c)) then packets (c_size c) else 0 else 0));
  law_expired t w b w' : sys_timepoint_expired t w = (b, w') ->
    tlb w' = tlb w /\ niu_mem w' = niu_mem w /\ sent w' = sent w /\ (forall n d, got w n d <= got w' n d) /\
    (forall t, (time_left t w' <= time_left t w)%nat) /\ (b = false -> (time_left t w' < time_left t w)%nat) /\
    (b = true -> time_left t w' = 0%nat);
  law_callback ch st w : let w' := run_callback ch st w in
    tlb w' = tlb w /\ niu_mem w' = niu_mem w /\ sent w' = sent w /\ (forall n d, got w n d <= got w' n d)
}.

(** ** The counters *)

(** The comparison of two counters that are closer than half their range, of the values they
    have lost their upper bits of. *)
Lemma is_behind_exact c t : - 2 ^ 31 <= c - t < 2 ^ 31 -> is_behind (u32 c) (u32 t) = (c <? t).
Proof.
  intros Hd. unfold is_behind, swrap. change (2 ^ (32 - 1)) with 2147483648.
  destruct (Z.ltb_spec c t), (Z.ltb_spec ((u32 c - u32 t + 2147483648) mod 2 ^ 32 - 2147483648) 0); try done; exfalso;
    unwrap; Z.to_euclidean_division_equations; lia.
Qed.
Lemma is_behind_u32 c t : is_u32 t -> is_behind (u32 c) t = is_behind (u32 c) (u32 t).
Proof. intros Ht. by rewrite (wrap_small 32 t). Qed.

Lemma coord_decodes x y : 0 <= x < 64 -> 0 <= y < 64 -> node_of_coord (noc_coord_encode x y) = (x, y).
Proof.
  intros Hx Hy. unfold node_of_coord, noc_coord_encode.
  assert (E : Z.lor (u32 (Z.shiftl y 6)) x = y * 64 + x).
  { rewrite wrap_small by (unfold in_width; rewrite Z.shiftl_mul_pow2 by done; lia).
    rewrite Z.shiftl_mul_pow2 by done. change (2 ^ 6) with 64. rewrite <- Z.add_lor_land.
    assert (Z.land (y * 64) x = 0) as ->; [|lia]. apply Z.bits_inj'. intros i Hi. rewrite Z.land_spec, Z.bits_0.
    change 64 with (2 ^ 6). rewrite Z.mul_pow2_bits by lia. destruct (Z.lt_ge_cases i 6); [by rewrite Z.testbit_neg_r by lia|].
    rewrite (testbit_above x 6 i) by (change (2 ^ 6) with 64; lia). apply andb_false_r. }
  rewrite E, !bits_get_div by lia. change (2 ^ 0) with 1. change (2 ^ 6) with 64. f_equal; Z.to_euclidean_division_equations; lia.
Qed.

(** The multicast's range forgets its first column: the first row is written in its place. *)
Lemma coord_range_drops_column sx sx' sy ex ey : noc_coord_encode_range sx sy ex ey = noc_coord_encode_range sx' sy ex ey.
Proof. done. Qed.

(** ** Transfers *)

Section transfers.
Context {W : Type} `{NiuLaws W}.

(** Nothing has been commanded; time may have passed. *)
Definition later (w w' : W) : Prop :=
  tlb w' = tlb w /\ niu_mem w' = niu_mem w /\ sent w' = sent w /\ forall n d, got w n d <= got w' n d.
#[export] Instance later_preorder : PreOrder later.
Proof. split; [intros w; split_and!; (done || intros; lia)|]. intros w1 w2 w3 (A & B & C & D) (A' & B' & C' & D'). split_and!; [congruence..|]. intros n d. etransitivity; [apply D|apply D']. Qed.

Definition less_time (w w' : W) : Prop := forall t, (time_left t w' <= time_left t w)%nat.
#[export] Instance less_time_preorder : PreOrder less_time.
Proof. split; [by intros w t|]. intros w1 w2 w3 A B t. etransitivity; [apply B|apply A]. Qed.

(** The memory, the counters, and time after a window's setup. *)
Definition aside (w w' : W) : Prop :=
  niu_mem w' = niu_mem w /\ sent w' = sent w /\ got w' = got w /\ forall t, time_left t w' = time_left t w.
#[export] Instance aside_preorder : PreOrder aside.
Proof. split; [intros w; split_and!; (done || intros; lia)|]. intros w1 w2 w3 (A & B & C & D) (A' & B' & C' & D'). split_and!; [congruence..|]. intros t. by rewrite D'. Qed.

Lemma TlbSetup_ok x y s :
  does (TlbSetup x y TARGET_ADDR_LO) s (fun _ s' => channels s' = channels s /\ opened 0 (x, y) TARGET_ADDR_LO (hw s') /\ aside (hw s) (hw s')).
Proof.
  eexists tt, _. split; [done|]. split; [done|]. split; [by apply setup_opened|].
  apply (NOC2AXITlbSetup_rel aside); [done|]. intros j v w' Hj. by apply law_setup.
Qed.

Lemma opened_tlb k n a (w w' : W) : tlb w' = tlb w -> opened k n a w -> opened k n a w'.
Proof. intros E. unfold opened. by rewrite E. Qed.

Lemma wait_cmd_ok fuel t : forall s, (time_left t (hw s) < fuel)%nat ->
  does (wait_cmd fuel t) s (fun _ s' => channels s' = channels s /\ later (hw s) (hw s') /\ less_time (hw s) (hw s')).
Proof.
  induction fuel as [|fuel IH]; intros s Hf; [lia|]. cbn [wait_cmd].
  eapply (does_bind _ _ _ _ (fun _ s1 => s1 = s)). { eexists _, _. split; [done|]. by destruct s. }
  intros v ? ->. destruct (v =? 0). { by apply does_ret. }
  eapply (does_bind _ _ _ _ (fun b s1 => channels s1 = channels s /\ later (hw s) (hw s1) /\ less_time (hw s) (hw s1) /\
    (b = false -> (time_left t (hw s1) < time_left t (hw s))%nat))).
  { unfold with_hw. destruct (sys_timepoint_expired t (hw s)) as [b w] eqn:E. destruct (law_expired _ _ _ _ E) as (A & B & C & D & F & G & _).
    eexists _, _. split; [by rewrite E|]. done. }
  intros b s1 (C1 & L1 & T1 & Hlt). destruct b; [by apply does_ret|]. specialize (Hlt eq_refl).
  eapply does_mono; [apply IH; lia|]. intros r s2 (C2 & L2 & T2). split_and!; [congruence|by etransitivity|by etransitivity].
Qed.

(** The registers after a list of writes. *)
Definition written_regs (l : list (Z * Z)) (r : Z -> Z) : Z -> Z := fold_left (fun r p b => if b =? p.1 then p.2 else r b) l r.
Lemma written_regs_ext l : forall r r', (forall b, r b = r' b) -> forall b, written_regs l r b = written_regs l r' b.
Proof. induction l as [|p l IH]; intros r r' E b; [apply E|]. cbn. apply IH. intros b'. by rewrite E. Qed.

Lemma write_all_ok n l : node_bounds n -> forall s, opened 0 n TARGET_ADDR_LO (hw s) -> Forall (fun p => p.1 ∈ command_regs) l ->
  does (write_all l) s (fun _ s' => channels s' = channels s /\ tlb (hw s') = tlb (hw s) /\ aside (hw s) (hw s') /\
    forall b, niu_reg (hw s') n b = written_regs l (niu_reg (hw s) n) b).
Proof.
  intros Hn. induction l as [|[a v] l IH]; intros s Ho Hl; cbn [write_all]; [by apply does_ret|]. apply Forall_cons in Hl as [Ha Hl].
  destruct (law_reg (hw s) n a v Hn Ho Ha) as (T & M & S & G & L & R).
  eapply (does_bind _ _ _ _ (fun _ s1 => s1 = MkNocDma (channels s) (WriteReg (GetTlbWindowAddr 0 0 a) v (hw s)))); [by eexists tt, _|].
  intros _ ? ->. eapply does_mono; [apply IH; [by apply (opened_tlb _ _ _ (hw s))|done]|]. intros _ s2 (C2 & T2 & A2 & R2). cbn [channels hw] in *.
  split_and!; [done|congruence|by etransitivity; [|exact A2]|]. intros b. rewrite R2. cbn. by apply written_regs_ext.
Qed.

Lemma update_ok ch f (s : noc_dma W) c : aget (channels s) ch = Some c ->
  does (update ch f) s (fun _ s' => aset (channels s) ch (f c) = Some (channels s') /\ hw s' = hw s).
Proof.
  intros E. pose proof (aget_range _ _ _ E) as Hr. unfold update, get_channel, put_channel. unfold does, mbind, M_bind. rewrite E. cbn [mbind option_bind].
  rewrite aset_in by done. eexists tt, _. done.
Qed.

(** A command was given: its effect on the memories, and the responses it is due. *)
Definition commanded (n : Z * Z) (c : command) (w w' : W) : Prop :=
  tlb w' = tlb w /\ (forall n' a, niu_mem w' n' a = carry_out group c (niu_mem w) n' a) /\
  (forall n' d, sent w' n' d = sent w n' d + (if decide (n' = n) then if Bool.eqb d (is_write (c_ctrl c)) then packets (c_size c) else 0 else 0)) /\
  forall n d, got w n d <= got w' n d.

Lemma ack_reg_exact ctrl : ack_reg ctrl = if is_write ctrl then NIU_MST_WR_ACK_RECEIVED else NIU_MST_RD_RESP_RECEIVED.
Proof. unfold ack_reg, is_write. change NOC_CMD_WR with (BIT 1). rewrite land_BIT_eqb by done. by rewrite negb_involutive. Qed.

Lemma address_halves a : 0 <= a < 2 ^ 64 -> Z.shiftl (high32 a) 32 + low32 a = a.
Proof.
  intros Ha. unfold high32, low32. change 0xFFFFFFFF with (Z.ones 32). rewrite Z.land_ones, Z.shiftl_mul_pow2, Z.shiftr_div_pow2 by done.
  rewrite wrap_small; [pose proof (Z.div_mod a (2 ^ 32)); lia|]. split; [apply Z.div_pos; lia|apply Z.div_lt_upper_bound; lia].
Qed.

Variable fuel : nat.
Hypothesis Hfuel : forall w, (time_left (sys_timepoint_calc NOC_DMA_TIMEOUT_MS w) w < fuel)%nat.

(** The interface of [n] was not ready for a command within the timeout. *)
Definition not_ready (n : Z * Z) : Prop :=
  exists s s' : noc_dma W, opened 0 n TARGET_ADDR_LO (hw s) /\ noc_wait_cmd_ready fuel s = Some (false, s').

(** The command of a transfer. *)
Definition transfer_command (cmd ret_coord ret_addr targ_coord targ_addr size : Z) (multicast include_self : bool) : command :=
  MkCommand (control cmd multicast include_self) (node_of_coord targ_coord) targ_addr ret_coord ret_addr size.

Lemma wait_ready_ok s : does (noc_wait_cmd_ready fuel) s (fun _ s' => channels s' = channels s /\ later (hw s) (hw s')).
Proof.
  unfold noc_wait_cmd_ready. eapply (does_bind _ _ _ _ (fun t s2 => t = sys_timepoint_calc NOC_DMA_TIMEOUT_MS (hw s) /\ s2 = s)).
  - eexists _, _. split; [done|]. by destruct s.
  - intros t ? [-> ->]. eapply does_mono; [apply wait_cmd_ok, Hfuel|]. intros r s' (C & L & _). done.
Qed.

Lemma noc_dma_transfer_ok ch cmd ret_coord ret_addr targ_coord targ_addr size multicast include_self n s chan :
  let c := transfer_command cmd ret_coord ret_addr targ_coord targ_addr size multicast include_self in
  let ctrl := control cmd multicast include_self in
  aget (channels s) ch = Some chan -> node_bounds n -> opened 0 n TARGET_ADDR_LO (hw s) -> understood n c ->
  0 <= ret_addr < 2 ^ 64 -> 0 <= targ_addr < 2 ^ 64 ->
  does (noc_dma_transfer fuel ch cmd ret_coord ret_addr targ_coord targ_addr size multicast 0 include_self) s (fun rc s' =>
    aset (channels s) ch (set_tracking ctrl (u32 (u32 (got (hw s) n (is_write ctrl)) + packets size)) chan) = Some (channels s') /\
    ((rc = - ETIMEDOUT /\ not_ready n /\ later (hw s) (hw s')) \/ (rc = 0 /\ commanded n c (hw s) (hw s')))).
Proof.
  intros c ctrl Hch Hn Ho Hu Hr Ht. unfold noc_dma_transfer. fold ctrl. unfold get_expected_acks.
  eapply (does_bind _ _ _ _ (fun v s1 => v = u32 (u32 (got (hw s) n (is_write ctrl)) + packets size) /\ s1 = s)).
  { eexists _, _. split; [done|]. split; [|by destruct s]. cbn. rewrite ack_reg_exact.
    pose proof (law_count (hw s) n (is_write ctrl) Hn Ho) as E. unfold NOC_DMA_NOC_ID, NOC_DMA_TLB. by rewrite E. }
  intros v ? [-> ->]. eapply does_bind; [by apply (update_ok _ _ _ chan)|]. intros _ s1 [Ec Eh].
  eapply (does_bind _ _ _ _ (fun ready s2 => (channels s2 = channels s1 /\ later (hw s1) (hw s2)) /\ noc_wait_cmd_ready fuel s1 = Some (ready, s2))).
  { destruct (wait_ready_ok s1) as (ready & s2 & E2 & C2 & L2). exists ready, s2. auto. }
  intros ready s2 ((C2 & L2) & Er). rewrite Eh in L2. rewrite <- C2 in Ec. destruct ready; cbn [negb].
  2: { apply does_ret. split; [done|]. left. split; [done|]. split; [|done]. exists s1, s2. split; [by rewrite Eh|done]. }
  pose proof L2 as (T2 & M2 & S2 & G2).
  eapply does_bind; [apply (write_all_ok n); [done|by apply (opened_tlb _ _ _ (hw s))|repeat constructor; set_solver]|].
  intros _ s3 (C3 & T3 & (M3 & S3 & G3 & _) & R3).
  assert (Ecmd : command_of (niu_reg (hw s3) n) = c).
  { unfold command_of. rewrite !R3. cbn. rewrite !address_halves by done. done. }
  destruct (law_go (hw s3) n Hn) as (T4 & _ & G4 & M4 & S4); [by apply (opened_tlb _ _ _ (hw s)); [congruence|]|by rewrite Ecmd|].
  rewrite Ecmd in M4, S4.
  eapply (does_bind _ _ _ _ (fun _ s4 => s4 = MkNocDma (channels s3) (WriteReg (GetTlbWindowAddr 0 0 CMD_CTRL) 1 (hw s3)))); [by eexists tt, _|].
  intros _ ? ->. apply does_ret. cbn [channels hw]. rewrite C3. split; [done|]. right. split; [done|]. split_and!; [congruence| | |].
  - intros n' a. by rewrite M4, M3, M2.
  - intros n' d. by rewrite S4, S3, S2.
  - intros n' d. rewrite G4, G3. apply G2.
Qed.

(** *** Copies from one range to another *)

Definition copied (src : Z * Z) (src_addr : Z) (dst : Z * Z) (dst_addr size : Z) (m : Z * Z -> Z -> Z) (n : Z * Z) (a : Z) : Z :=
  if bool_decide (n = dst) && in_range a dst_addr size then m src (src_addr + (a - dst_addr)) else m n a.

Definition block_ok (b : dma_block_config) : Prop :=
  is_u32 (source_address b) /\ is_u32 (dest_address b) /\ is_u32 (block_size b).
Definition coords_ok (c : tt_bh_dma_noc_coords) : Prop := node_bounds (noc_coords_source c) /\ node_bounds (noc_coords_dest c).
(** The two ends of a block do not overlap. *)
Definition apart (src : Z * Z) (src_addr : Z) (dst : Z * Z) (dst_addr size : Z) : Prop :=
  src <> dst \/ src_addr + size <= dst_addr \/ dst_addr + size <= src_addr.

(** A copy was commanded at the node [n]. *)
Definition copy_commanded (n : Z * Z) (wr : bool) (src : Z * Z) (src_addr : Z) (dst : Z * Z) (dst_addr size : Z) (w w' : W) : Prop :=
  tlb w' = tlb w /\ (forall n' a, niu_mem w' n' a = copied src src_addr dst dst_addr size (niu_mem w) n' a) /\
  (forall n' d, sent w' n' d = sent w n' d + (if decide (n' = n) then if Bool.eqb d wr then packets size else 0 else 0)) /\
  forall n d, got w n d <= got w' n d.

(** A start of one transfer: the channel's tracking, and the outcome. *)
Definition started (ch : Z) (chan : tt_bh_dma_channel_data) (n : Z * Z) (ctrl size : Z) (P : W -> W -> Prop) (s : noc_dma W) (rc : Z) (s' : noc_dma W) : Prop :=
  aset (channels s) ch (set_tracking ctrl (u32 (u32 (got (hw s) n (is_write ctrl)) + packets size)) chan) = Some (channels s') /\
  opened 0 n TARGET_ADDR_LO (hw s') /\ exists w1, aside (hw s) w1 /\ ((rc = - ETIMEDOUT /\ not_ready n /\ later w1 (hw s')) \/ (rc = 0 /\ P w1 (hw s'))).

Lemma u32_in_64 a : is_u32 a -> 0 <= a < 2 ^ 64.
Proof. unfold in_width. lia. Qed.

Lemma transfer_started ch cmd ret_coord ret_addr targ_coord targ_addr size multicast include_self x y s chan :
  let c := transfer_command cmd ret_coord ret_addr targ_coord targ_addr size multicast include_self in
  aget (channels s) ch = Some chan -> node_bounds (x, y) -> understood (x, y) c -> is_u32 ret_addr -> is_u32 targ_addr ->
  does (_ ← TlbSetup x y TARGET_ADDR_LO; noc_dma_transfer fuel ch cmd ret_coord ret_addr targ_coord targ_addr size multicast 0 include_self) s
    (started ch chan (x, y) (control cmd multicast include_self) size (commanded (x, y) c) s).
Proof.
  intros c Hch Hn Hu Hr Ht. eapply does_bind; [apply TlbSetup_ok|]. intros _ s1 (C1 & O1 & A1). rewrite <- C1 in Hch.
  eapply does_mono; [apply (noc_dma_transfer_ok _ _ _ _ _ _ _ _ _ (x, y) s1 chan); (done || by apply u32_in_64)|].
  intros rc s2 (C2 & Hrc). pose proof A1 as (_ & _ & G1 & _). unfold started. rewrite <- G1, <- C1. split; [exact C2|].
  split; [|by exists (hw s1)]. destruct Hrc as [(_ & _ & T2 & _)|(_ & T2 & _)]; by apply (opened_tlb _ _ _ (hw s1)).
Qed.

(** A copy by the interface at its start, for a write, or at its end. *)
Lemma unicast_started ch (wr : bool) src sa dst da size s chan :
  let n := if wr then src else dst in
  aget (channels s) ch = Some chan -> node_bounds src -> node_bounds dst -> is_u32 sa -> is_u32 da -> is_u32 size -> apart src sa dst da size ->
  let cmd := if wr then NOC_CMD_WR else NOC_CMD_RD in
  does (_ ← TlbSetup n.1 n.2 TARGET_ADDR_LO;
        noc_dma_transfer fuel ch cmd (noc_coord_encode dst.1 dst.2) da (noc_coord_encode src.1 src.2) sa size false 0 false) s
    (started ch chan n (control cmd false false) size (copy_commanded n wr src sa dst da size) s).
Proof.
  intros n Hch [Sx Sy] [Dx Dy] Hs Hd Hz Ha cmd.
  pose proof (coord_decodes src.1 src.2 Sx Sy) as Es. pose proof (coord_decodes dst.1 dst.2 Dx Dy) as Ed. rewrite <- !surjective_pairing in Es, Ed.
  assert (Hn : node_bounds (n.1, n.2)) by (unfold n; by destruct wr).
  assert (En : (n.1, n.2) = n) by (by destruct n).
  eapply does_mono; [apply (transfer_started _ _ _ _ _ _ _ _ _ n.1 n.2 s chan); [done|done| |done|done]|].
  - rewrite En. unfold understood. cbn [transfer_command c_ctrl c_dst c_src c_src_addr c_dst_addr c_size]. rewrite Es, Ed. split; [unfold in_width in Hz; lia|]. split; [by destruct wr|]. right.
    destruct Ha as [Ha|Ha]; auto.
  - rewrite En. intros rc s' (C & O & w1 & A1 & Hrc). split; [exact C|]. split; [exact O|]. exists w1. split; [done|].
    destruct Hrc as [?|(E & T & M & S & G)]; [auto|]. right. split; [done|]. split_and!; [done| | |done].
    + intros n' a. rewrite M. unfold carry_out, receives. cbn [transfer_command c_ctrl c_dst c_src c_src_addr c_dst_addr c_size]. rewrite Es, Ed. by destruct wr.
    + intros n' d. rewrite S. by destruct wr.
Qed.

Lemma does_get_channel ch chan (s : noc_dma W) : aget (channels s) ch = Some chan -> does (get_channel ch) s (fun x s1 => x = chan /\ s1 = s).
Proof. intros E. eexists _, _. unfold get_channel. by rewrite E. Qed.
Lemma does_current chan b (s : noc_dma W) : aget (blocks chan) (block_index (state chan)) = Some b -> does (current_block chan) s (fun x s1 => x = b /\ s1 = s).
Proof. intros E. unfold current_block. rewrite E. by apply does_lift. Qed.

Section channel.
Variables (ch : Z) (chan : tt_bh_dma_channel_data) (b : dma_block_config).
Notation src := (noc_coords_source (coords chan)).
Notation dst := (noc_coords_dest (coords chan)).
Hypothesis Hb : aget (blocks chan) (block_index (state chan)) = Some b.
Hypothesis Hok : block_ok b.
Hypothesis Hc : coords_ok (coords chan).

Lemma mem_to_per_ok s : aget (channels s) ch = Some chan -> apart dst (dest_address b) src (source_address b) (block_size b) ->
  does (tt_bh_dma_noc_start_mem_to_per fuel ch) s
    (started ch chan src (control NOC_CMD_RD false false) (block_size b)
       (copy_commanded src false dst (dest_address b) src (source_address b) (block_size b)) s).
Proof.
  intros Hch Ha. destruct Hok as (B1 & B2 & B3), Hc as [Hs Hd]. unfold tt_bh_dma_noc_start_mem_to_per.
  eapply does_bind; [by apply does_get_channel|]. intros ? ? [-> ->]. eapply does_bind; [by apply does_current|]. intros ? ? [-> ->].
  by apply (unicast_started ch false dst (dest_address b) src (source_address b) (block_size b) s chan).
Qed.
Lemma per_to_mem_ok s : aget (channels s) ch = Some chan -> apart src (source_address b) dst (dest_address b) (block_size b) ->
  does (tt_bh_dma_noc_start_per_to_mem fuel ch) s
    (started ch chan src (control NOC_CMD_WR false false) (block_size b)
       (copy_commanded src true src (source_address b) dst (dest_address b) (block_size b)) s).
Proof.
  intros Hch Ha. destruct Hok as (B1 & B2 & B3), Hc as [Hs Hd]. unfold tt_bh_dma_noc_start_per_to_mem.
  eapply does_bind; [by apply does_get_channel|]. intros ? ? [-> ->]. eapply does_bind; [by apply does_current|]. intros ? ? [-> ->].
  by apply (unicast_started ch true src (source_address b) dst (dest_address b) (block_size b) s chan).
Qed.
End channel.

(** *** Waiting *)

Definition waiting (n : Z * Z) (d : bool) (s s' : noc_dma W) : Prop :=
  channels s' = channels s /\ later (hw s) (hw s') /\ opened 0 n TARGET_ADDR_LO (hw s').

Section wait.
Variables (ch n1 n2 due : Z) (chan : tt_bh_dma_channel_data).
Let n := (n1, n2).
Let d := is_write (last_noc_cmd (state chan)).
Hypothesis Hn : node_bounds n.
Hypothesis Hexp : last_expected_acks (state chan) = u32 due.

Lemma noc_status_ok s : aget (channels s) ch = Some chan -> opened 0 n TARGET_ADDR_LO (hw s) -> sent (hw s) n d = due -> due - got (hw s) n d < 2 ^ 31 ->
  tt_bh_dma_noc_get_status ch s = Some ((0, Some (got (hw s) n d <? due)), s).
Proof.
  intros Hch Ho Hs Hlt. unfold tt_bh_dma_noc_get_status, num_channels. unfold mbind, M_bind. rewrite (proj2 (Z.leb_gt _ _)) by (by apply (aget_range _ _ _ Hch)).
  unfold get_channel. rewrite Hch. cbn [mbind option_bind]. unfold Read32, with_hw. pose proof (law_count (hw s) n d Hn Ho) as E.
  rewrite ack_reg_exact. fold d. unfold NOC_DMA_NOC_ID, NOC_DMA_TLB. rewrite E, Hexp, is_behind_exact; [by destruct s|].
  pose proof (law_got (hw s) n d). lia.
Qed.

Lemma poll_status_ok k t : forall s, (time_left t (hw s) < k)%nat -> aget (channels s) ch = Some chan -> opened 0 n TARGET_ADDR_LO (hw s) ->
  sent (hw s) n d = due -> due - got (hw s) n d < 2 ^ 31 ->
  does (poll_status k ch t) s (fun _ s' => waiting n d s s' /\ (got (hw s') n d = due \/ time_left t (hw s') = 0%nat)).
Proof.
  induction k as [|k IH]; intros s Ht Hch Ho Hs Hlt; [lia|]. cbn [poll_status].
  eapply (does_bind _ _ _ _ (fun r s1 => r = (0, Some (got (hw s) n d <? due)) /\ s1 = s)); [eexists _, _; split; [by apply noc_status_ok|done]|].
  intros ? ? [-> ->]. cbn [snd]. destruct (Z.ltb_spec (got (hw s) n d) due) as [Hg|Hg].
  2: { apply does_ret. split; [split_and!; [done|reflexivity|done]|]. left. pose proof (law_got (hw s) n d). lia. }
  unfold with_hw at 1. destruct (sys_timepoint_expired t (hw s)) as [e w] eqn:E. destruct (law_expired _ _ _ _ E) as (A & B & C & D & F & G & G').
  eapply (does_bind _ _ _ _ (fun x s1 => x = e /\ s1 = MkNocDma (channels s) w)); [eexists _, _; split; [by rewrite E|done]|].
  intros ? ? [-> ->]. assert (L : later (hw s) w) by done. destruct e.
  { apply does_ret. split; [split_and!; [done|done|by apply (opened_tlb _ _ _ (hw s))]|]. right. by apply G'. }
  specialize (D n d). eapply does_mono; [apply IH; cbn [hw channels]; [specialize (G eq_refl); lia|done|by apply (opened_tlb _ _ _ (hw s))|by rewrite C|lia]|].
  intros _ s2 [(C2 & L2 & O2) Hp]. split; [|done]. split_and!; [done|by etransitivity; [|exact L2]|done].
Qed.

Lemma wait_transfer_ok s : aget (channels s) ch = Some chan -> opened 0 n TARGET_ADDR_LO (hw s) ->
  sent (hw s) n d = due -> due - got (hw s) n d < 2 ^ 31 ->
  does (wait_transfer fuel ch) s (fun late s' => waiting n d s s' /\ (late = false -> got (hw s') n d = due)).
Proof.
  intros Hch Ho Hs Hlt. unfold wait_transfer.
  eapply (does_bind _ _ _ _ (fun t s2 => t = sys_timepoint_calc NOC_DMA_TIMEOUT_MS (hw s) /\ s2 = s)). { eexists _, _. split; [done|]. by destruct s. }
  intros t ? [-> ->]. set (t := sys_timepoint_calc _ _). eapply does_bind; [apply (poll_status_ok fuel t); (done || apply Hfuel)|].
  intros _ s1 [(C1 & L1 & O1) Hp]. unfold with_hw. destruct (sys_timepoint_expired t (hw s1)) as [e w] eqn:E.
  destruct (law_expired _ _ _ _ E) as (A & B & C & D & F & G & _). eexists _, _. split; [by rewrite E|]. cbn [hw channels].
  split; [split_and!; [done|etransitivity; [exact L1|done]|by apply (opened_tlb _ _ _ (hw s1))]|].
  intros ->. specialize (G eq_refl). destruct Hp as [Hp|Hp]; [|lia]. pose proof (law_got w n d) as Hw. specialize (D n d). rewrite C in Hw.
  destruct L1 as (_ & _ & -> & _) in Hw. lia.
Qed.
End wait.

(** *** From memory to memory *)

Lemma wrap_add_l w a b : wrap w (wrap w a + b) = wrap w (a + b).
Proof. unfold wrap. apply Zplus_mod_idemp_l. Qed.
Lemma copied_ext src sa dst da size m m' : (forall n a, m n a = m' n a) -> forall n a, copied src sa dst da size m n a = copied src sa dst da size m' n a.
Proof. intros E n a. unfold copied. by rewrite !E. Qed.
Lemma packets_bound size : is_u32 size -> 0 <= packets size < 2 ^ 31.
Proof. unfold packets, DIV_ROUND_UP, in_width. change NOC_MAX_BURST_SIZE with 16384. intros. split; [apply Z.div_pos; lia|apply Z.div_lt_upper_bound; lia]. Qed.

(** All responses due to an interface have come. *)
Definition idle (n : Z * Z) (w : W) : Prop := forall d, got w n d = sent w n d.
(** A channel as it was configured, but for its tracking and the block [i]. *)
Definition kept (i : Z) (c c' : tt_bh_dma_channel_data) : Prop :=
  coords c' = coords c /\ config c' = config c /\ block_index (state c') = block_index (state c) /\
  st_block_count (state c') = st_block_count (state c) /\ configured (state c') = configured (state c) /\
  len (blocks c') = len (blocks c) /\ forall j, j <> i -> aget (blocks c') j = aget (blocks c) j.
Lemma kept_trans i c1 c2 c3 : kept i c1 c2 -> kept i c2 c3 -> kept i c1 c3.
Proof. intros (A & B & C & D & E & F & G) (A' & B' & C' & D' & E' & F' & G'). split_and!; [congruence..|]. intros j Hj. by rewrite G', G. Qed.

(** The channel [ch] is now [chan']. *)
Definition replaced (ch : Z) (chan' : tt_bh_dma_channel_data) (s s' : noc_dma W) : Prop := aset (channels s) ch chan' = Some (channels s').
Lemma replaced_get ch c s s' : replaced ch c s s' -> aget (channels s') ch = Some c.
Proof. intros E. rewrite (aget_aset _ _ _ _ ch E). by rewrite Z.eqb_refl. Qed.
Lemma replaced_twice ch c c' s s1 s2 : replaced ch c s s1 -> replaced ch c' s1 s2 -> replaced ch c' s s2.
Proof.
  unfold replaced. intros E E'. pose proof (aset_Some _ _ _ _ E) as [Hr Ec]. rewrite Ec, aset_insert in E' by done.
  by rewrite aset_in.
Qed.

Lemma set_current_ok ch chan b f s : aget (channels s) ch = Some chan -> aget (blocks chan) (block_index (state chan)) = Some b ->
  does (set_current ch f) s (fun _ s' => hw s' = hw s /\ exists c', replaced ch c' s s' /\ kept (block_index (state chan)) chan c' /\
    aget (blocks c') (block_index (state chan)) = Some (f b) /\ state c' = state chan).
Proof.
  intros Hch Hb. pose proof (aget_range _ _ _ Hb) as Hr. pose proof (aget_range _ _ _ Hch) as Hrc. unfold set_current.
  eapply does_bind; [by apply does_get_channel|]. intros ? ? [-> ->]. eapply does_bind; [by apply does_current|]. intros ? ? [-> ->].
  rewrite aset_in by done. eapply does_bind; [apply (does_lift _ s (fun x s1 => x = <[Z.to_nat (block_index (state chan)) := f b]> (blocks chan) /\ s1 = s)); done|].
  intros ? ? [-> ->]. eexists tt, _. split; [unfold put_channel; rewrite aset_in by done; done|]. split; [done|].
  eexists. split; [unfold replaced; by apply aset_in|]. cbn. split_and!; [..|by rewrite aget_insert|done].
  split_and!; try done; cbn; [by rewrite length_insert|]. intros j Hj. by rewrite aget_insert_ne.
Qed.

(** What the two halves of a block do to the memories. *)
Definition bounced (src dst : Z * Z) (b : dma_block_config) (m : Z * Z -> Z -> Z) : Z * Z -> Z -> Z :=
  copied dst (source_address b) src 0 (block_size b) m.
Definition block_copied (src dst : Z * Z) (b : dma_block_config) (m : Z * Z -> Z -> Z) : Z * Z -> Z -> Z :=
  copied src 0 dst (dest_address b) (block_size b) (bounced src dst b m).

Definition mem_is (w : W) (m : Z * Z -> Z -> Z) : Prop := forall n a, niu_mem w n a = m n a.

Lemma replaced_kept ch i chan s s1 c1 s2 c2 : replaced ch c1 s s1 -> kept i chan c1 -> replaced ch c2 s1 s2 -> kept i c1 c2 ->
  replaced ch c2 s s2 /\ kept i chan c2.
Proof. intros A B C D. split; [by eapply replaced_twice|by eapply kept_trans]. Qed.
Lemma kept_tracking i c x y : kept i c (set_tracking x y c).
Proof. by split_and!. Qed.

(** A wait for a command that was given while the interface was idle. *)
Lemma copy_then_wait ch (wr : bool) src0 sa dst0 da size x y s0 w1 s chan :
  node_bounds (x, y) -> is_u32 size -> idle (x, y) (hw s0) -> aside (hw s0) w1 ->
  copy_commanded (x, y) wr src0 sa dst0 da size w1 (hw s) -> opened 0 (x, y) TARGET_ADDR_LO (hw s) ->
  aget (channels s) ch = Some chan -> is_write (last_noc_cmd (state chan)) = wr ->
  last_expected_acks (state chan) = u32 (u32 (got (hw s0) (x, y) wr) + packets size) ->
  does (wait_transfer fuel ch) s (fun late s' => channels s' = channels s /\ opened 0 (x, y) TARGET_ADDR_LO (hw s') /\
    mem_is (hw s') (copied src0 sa dst0 da size (niu_mem (hw s0))) /\ (late = false -> idle (x, y) (hw s'))).
Proof.
  intros Hn Hsz Hi (M0 & S0 & G0 & _) (T & M & S & G) Ho Hch Hwr Hexp. set (n := (x, y)) in *. pose proof (packets_bound size Hsz) as Hp.
  assert (Hdue : sent (hw s) n wr = got (hw s0) n wr + packets size).
  { rewrite S, S0. rewrite decide_True by done. rewrite Bool.eqb_reflx. by rewrite <- (Hi wr). }
  rewrite wrap_add_l in Hexp.
  eapply does_mono; [apply (wait_transfer_ok ch x y (got (hw s0) n wr + packets size) chan Hn Hexp s Hch Ho)|].
  - by rewrite Hwr.
  - rewrite Hwr. fold n. specialize (G n wr). rewrite G0 in G. lia.
  - intros late s' [(C & (T' & M' & S' & G') & O) Hl]. rewrite Hwr in Hl. fold n in Hl. split_and!; [done|done| |].
    + intros n' a. rewrite M', M. by rewrite M0.
    + intros E d. specialize (Hl E). rewrite S'. destruct (Bool.bool_dec d wr) as [->|Hd]; [by rewrite Hl, Hdue|].
      pose proof (law_got (hw s') n d) as Hb. specialize (G' n d). specialize (G n d). rewrite S', S, S0 in Hb. rewrite S, S0. rewrite G0 in G.
      rewrite decide_True in Hb |- * by done. rewrite (proj2 (Bool.eqb_false_iff d wr)) in Hb |- * by done. rewrite <- (Hi d) in Hb |- *. lia.
Qed.

Section m2m.
Variables (ch : Z) (chan : tt_bh_dma_channel_data) (b : dma_block_config).
Notation src := (noc_coords_source (coords chan)).
Notation dst := (noc_coords_dest (coords chan)).
Notation i := (block_index (state chan)).
Hypothesis Hb : aget (blocks chan) i = Some b.
Hypothesis Hok : block_ok b.
Hypothesis Hc : coords_ok (coords chan).
Hypothesis Hne : src <> dst.

Definition m2m_outcome (s : noc_dma W) (r : option Z) (s' : noc_dma W) : Prop :=
  (exists c', replaced ch c' s s' /\ kept i chan c') /\
  match r with
  | None => idle src (hw s') /\ mem_is (hw s') (block_copied src dst b (niu_mem (hw s)))
  | Some rc => rc = - ETIMEDOUT /\ (mem_is (hw s') (niu_mem (hw s)) \/ mem_is (hw s') (bounced src dst b (niu_mem (hw s))) \/
                                   mem_is (hw s') (block_copied src dst b (niu_mem (hw s))))
  end.

Lemma callbacks_later c final s : does (handle_transfer_callbacks c ch 0 final) s (fun _ s' => channels s' = channels s /\ later (hw s) (hw s')).
Proof.
  unfold handle_transfer_callbacks. assert (Hcb : forall st s, does (on_hw (run_callback ch st)) s (fun _ s' => channels s' = channels s /\ later (hw s) (hw s'))).
  { intros st s1. eexists tt, _. split; [done|]. split; [done|]. apply law_callback. }
  destruct (dma_callback (config c)); cbn [negb]; [|by apply does_ret]. cbn [Z.eqb].
  eapply (does_bind _ _ _ _ (fun _ s1 => channels s1 = channels s /\ later (hw s) (hw s1))).
  { destruct (_ && _); [apply Hcb|by apply does_ret]. }
  intros _ s1 [C1 L1]. destruct final; [|by apply does_ret]. eapply does_mono; [apply Hcb|]. intros _ s2 [C2 L2]. split; [congruence|by etransitivity].
Qed.

Lemma memory_to_memory_ok s : aget (channels s) ch = Some chan -> idle src (hw s) ->
  does (memory_to_memory fuel ch) s (m2m_outcome s).
Proof.
  intros Hch Hi. destruct Hok as (B1 & B2 & B3), Hc as [Hs Hd]. unfold memory_to_memory.
  eapply does_bind; [by apply does_get_channel|]. intros ? ? [-> ->]. eapply does_bind; [by apply does_current|]. intros ? ? [-> ->].
  eapply does_bind; [by apply (set_current_ok ch chan b)|]. intros _ s1 (E1 & c1 & R1 & K1 & Hb1 & St1).
  pose proof K1 as (Kc1 & _ & Ki1 & _).
  eapply does_bind.
  { apply (mem_to_per_ok ch c1 (MkBlock 0 (source_address b) (block_size b))); [by rewrite Ki1|split_and!; (done || cbn; unfold in_width; lia)|by rewrite Kc1|by eapply replaced_get|].
    left. rewrite Kc1. done. }
  rewrite Kc1. cbn [source_address dest_address block_size]. intros ret s2 (R2 & O2 & w1 & A1 & Hret). rewrite E1 in A1, R2.
  destruct (replaced_kept ch i chan _ _ _ _ _ R1 K1 R2 (kept_tracking _ _ _ _)) as [R2' K2].
  destruct Hret as [(-> & _ & _ & M2 & _)|[-> Cmd2]]; cbn [Z.eqb negb].
  { apply does_ret. split; [by eexists|]. split; [done|]. left. intros n a. rewrite M2. by rewrite (proj1 A1). }
  match type of R2' with replaced _ ?c _ _ => set (c2 := c) in * end.
  eapply does_bind; [apply (set_current_ok ch c2 (MkBlock 0 (source_address b) (block_size b)) _ s2); [by eapply replaced_get|cbn; by rewrite Ki1]|].
  cbn [c2 set_tracking state block_index last_noc_cmd last_expected_acks source_address]. rewrite Ki1. intros _ s3 (E3 & c3 & R3 & K3 & Hb3 & St3).
  destruct (replaced_kept ch i chan _ _ _ _ _ R2' K2 R3 K3) as [R3' K3']. clear R3 K3. pose proof K3' as (Kc3 & _ & Ki3 & _).
  eapply does_bind.
  { apply (copy_then_wait ch false dst (source_address b) src 0 (block_size b) (source_x (coords chan)) (source_y (coords chan)) s w1 s3 c3);
      try done; [by rewrite E3|by rewrite E3|by eapply replaced_get|by rewrite St3|by rewrite St3]. }
  intros late s4 (C4 & O4 & M4 & I4). destruct late.
  { apply does_ret. split; [exists c3; split; [unfold replaced; by rewrite C4|done]|]. split; [done|]. right. left. exact M4. }
  specialize (I4 eq_refl). assert (G4 : aget (channels s4) ch = Some c3) by (rewrite C4; by eapply replaced_get).
  assert (Edst : u32 (s32 (dest_address b)) = dest_address b).
  { unfold swrap. change (2 ^ (32 - 1)) with 2147483648. unfold in_width in B2. word_lia. }
  rewrite Edst in Hb3. cbn [block_size] in Hb3.
  eapply does_bind.
  { apply (per_to_mem_ok ch c3 (MkBlock 0 (dest_address b) (block_size b))); [by rewrite Ki3|split_and!; (done || cbn; unfold in_width; lia)|by rewrite Kc3|done|].
    left. by rewrite Kc3. }
  rewrite Kc3. cbn [source_address dest_address block_size]. intros ret s5 (R5 & O5 & w4 & A4 & Hret).
  assert (R4 : replaced ch c3 s s4) by (unfold replaced; by rewrite C4).
  destruct (replaced_kept ch i chan _ _ _ _ _ R4 K3' R5 (kept_tracking _ _ _ _)) as [R5' K5].
  destruct Hret as [(-> & _ & _ & M5 & _)|[-> Cmd5]]; cbn [Z.eqb negb].
  { apply does_ret. split; [by eexists|]. split; [done|]. right. left. intros n a. rewrite M5, (proj1 A4). apply M4. }
  eapply does_bind.
  { apply (copy_then_wait ch true src 0 dst (dest_address b) (block_size b) (source_x (coords chan)) (source_y (coords chan)) s4 w4 s5
      (set_tracking (control NOC_CMD_WR false false) (u32 (u32 (got (hw s4) src (is_write (control NOC_CMD_WR false false))) + packets (block_size b))) c3)); try done.
    by eapply replaced_get. }
  intros late s6 (C6 & O6 & M6 & I6).
  assert (M6' : mem_is (hw s6) (block_copied src dst b (niu_mem (hw s)))).
  { intros n a. rewrite M6. apply copied_ext. exact M4. }
  destruct late. { apply does_ret. split; [eexists; split; [unfold replaced; by rewrite C6|done]|]. auto. }
  specialize (I6 eq_refl). eapply does_bind; [apply does_get_channel; rewrite C6; by eapply replaced_get|]. intros ? ? [-> ->].
  eapply does_bind; [apply callbacks_later|]. intros _ s7 (C7 & (_ & M7 & S7 & G7)). apply does_ret.
  split; [eexists; split; [unfold replaced; by rewrite C7, C6|done]|]. split.
  - intros d. pose proof (law_got (hw s7) src d) as Hg. specialize (G7 src d). rewrite S7 in Hg |- *.
    pose proof (I6 d : got (hw s6) src d = sent (hw s6) src d). lia.
  - intros n a. rewrite M7. apply M6'.
Qed.
End m2m.

(** *** A whole transfer *)

(** A block in one step: the destination holds what the source held, and so does the
    node in between, from address 0 on. *)
Definition moved (src dst : Z * Z) (m : Z * Z -> Z -> Z) (b : dma_block_config) (n : Z * Z) (a : Z) : Z :=
  if bool_decide (n = dst) && in_range a (dest_address b) (block_size b) then m dst (source_address b + (a - dest_address b))
  else if bool_decide (n = src) && in_range a 0 (block_size b) then m dst (source_address b + a) else m n a.
Lemma block_copied_moved src dst b m n a : block_copied src dst b m n a = moved src dst m b n a.
Proof.
  unfold block_copied, bounced, copied, moved, in_range. rewrite (bool_decide_true (src = src)) by done. cbn [andb].
  destruct (bool_decide (n = dst) && _) eqn:E.
  - apply andb_true_iff in E as [_ E]. apply andb_true_iff in E as [E1 E2]. bool_cases.
    rewrite (proj2 (Z.leb_le _ _)), (proj2 (Z.ltb_lt _ _)) by lia. cbn [andb]. f_equal; lia.
  - destruct (bool_decide (n = src) && _); [|done]. f_equal; lia.
Qed.
Lemma moved_ext src dst b m m' : (forall n a, m n a = m' n a) -> forall n a, moved src dst m b n a = moved src dst m' b n a.
Proof. intros E n a. unfold moved. by rewrite !E. Qed.
Lemma moved_all_ext src dst l : forall m m', (forall n a, m n a = m' n a) -> forall n a, fold_left (moved src dst) l m n a = fold_left (moved src dst) l m' n a.
Proof. induction l as [|b l IH]; intros m m' E n a; [apply E|]. cbn. apply IH. by apply moved_ext. Qed.

(** What a transfer of the blocks [l] may have done when it returns [rc]. *)
Definition m2m_result (src dst : Z * Z) (l : list dma_block_config) (w : W) (rc : Z) (w' : W) : Prop :=
  (rc = 0 /\ mem_is w' (fold_left (moved src dst) l (niu_mem w)) /\ idle src w') \/
  (rc = - ETIMEDOUT /\ exists k b, l !! k = Some b /\
    let m := fold_left (moved src dst) (take k l) (niu_mem w) in
    (mem_is w' m \/ mem_is w' (bounced src dst b m) \/ mem_is w' (moved src dst m b))).

Lemma bounced_ext src dst b m m' : (forall n a, m n a = m' n a) -> forall n a, bounced src dst b m n a = bounced src dst b m' n a.
Proof. apply copied_ext. Qed.

(** The channel is set up for a transfer of blocks without a link. *)
Definition m2m_channel (chan : tt_bh_dma_channel_data) : Prop :=
  channel_direction (config chan) = MEMORY_TO_MEMORY /\ source_chaining_en (config chan) = false /\ dest_chaining_en (config chan) = false /\
  coords_ok (coords chan) /\ noc_coords_source (coords chan) <> noc_coords_dest (coords chan) /\ 0 <= linked_channel (config chan).

Lemma start_linked_none start chan (s : noc_dma W) :
  source_chaining_en (config chan) = false -> dest_chaining_en (config chan) = false -> 0 <= linked_channel (config chan) ->
  does (start_linked start chan) s (fun _ s' => s' = s).
Proof.
  intros E1 E2 Hl. unfold start_linked. rewrite E1, E2. destruct (negb _); [|by apply does_ret].
  eapply (does_bind _ _ _ _ (fun n s1 => n = len (channels s) /\ s1 = s)); [by eexists _, _|]. intros ? ? [-> ->].
  destruct (Z.ltb_spec (linked_channel (config chan)) (len (channels s))) as [Hlt|]; [|by apply does_ret].
  destruct (aget_in (channels s) (linked_channel (config chan))) as [c Ec]; [lia|].
  eapply does_bind; [by apply does_get_channel|]. intros ? ? [-> ->]. rewrite andb_false_r. by apply does_ret.
Qed.

Lemma blocks_loop_ok start rest : forall ch chan s l,
  aget (channels s) ch = Some chan -> m2m_channel chan -> idle (noc_coords_source (coords chan)) (hw s) ->
  0 <= block_index (state chan) -> st_block_count (state chan) = block_index (state chan) + len l -> st_block_count (state chan) < 2 ^ 16 ->
  (length l <= rest)%nat -> Forall block_ok l -> (forall k b, l !! k = Some b -> aget (blocks chan) (block_index (state chan) + Z.of_nat k) = Some b) ->
  does (blocks_loop rest fuel start ch) s (fun rc s' => m2m_result (noc_coords_source (coords chan)) (noc_coords_dest (coords chan)) l (hw s) rc (hw s')).
Proof.
  induction rest as [|rest IH]; intros ch chan s l Hch Hm Hi Hi0 Hcnt Hc16 Hl Hok Hbl; cbn [blocks_loop];
    (eapply does_bind; [by apply does_get_channel|]; intros ? ? [-> ->]); destruct l as [|b l]; cbn [length] in *; try lia.
  1, 2: rewrite (proj2 (Z.ltb_ge _ _)) by lia; cbn [negb]; apply does_ret; left; split_and!; done.
  rewrite (proj2 (Z.ltb_lt _ _)) by lia. cbn [negb]. pose proof Hm as (E1 & E2 & E3 & Hc & Hne & Hlk). rewrite E1.
  apply Forall_cons in Hok as [Hb Hok]. pose proof (Hbl 0%nat b eq_refl) as Eb. rewrite Z.add_0_r in Eb.
  set (src := noc_coords_source (coords chan)) in *. set (dst := noc_coords_dest (coords chan)) in *.
  eapply does_bind; [by apply (memory_to_memory_ok ch chan b)|]. intros r s1 ((c1 & R1 & K1) & Hr). destruct r as [rc|].
  { apply does_ret. right. destruct Hr as (-> & Hr). split; [done|]. exists 0%nat, b. split; [done|]. cbn [take fold_left].
    destruct Hr as [Hr|[Hr|Hr]]; [auto|auto|]. right. right. intros n a. rewrite Hr. apply block_copied_moved. }
  destruct Hr as (Hi1 & M1). eapply does_bind; [by apply start_linked_none|]. intros _ ? ->.
  pose proof K1 as (Kc & Kg & Ki & Kn & _ & Kl & Kb).
  eapply does_bind; [by eapply update_ok, replaced_get|]. intros _ s2 [R2 E2'].
  set (c2 := set_index (u16 (block_index (state c1) + 1)) c1) in *.
  assert (Ei2 : block_index (state c2) = block_index (state chan) + 1) by (cbn; rewrite Ki; apply wrap_small; unfold in_width; lia).
  eapply does_mono; [apply (IH ch c2 s2 l); [by eapply replaced_get| | | | |cbn; lia|lia|done|]|].
  - unfold m2m_channel. cbn. by rewrite Kc, Kg.
  - cbn. by rewrite E2', Kc.
  - lia.
  - rewrite Ei2. cbn. lia.
  - intros k b' Hk. rewrite Ei2. cbn. rewrite Kb by lia. rewrite <- (Hbl (S k) b' Hk). f_equal. lia.
  - cbn. rewrite Kc. fold src dst. intros rc s3 Hres. rewrite E2' in Hres.
    assert (M1' : forall n a, niu_mem (hw s1) n a = moved src dst (niu_mem (hw s)) b n a) by (intros; by rewrite M1, block_copied_moved).
    destruct Hres as [(-> & M3 & I3)|(-> & k & b' & Hk & M3)].
    + left. split_and!; [done| |done]. intros n a. rewrite M3. cbn [fold_left]. by apply moved_all_ext.
    + right. split; [done|]. exists (S k), b'. split; [done|]. cbn [take fold_left]. cbv zeta in M3 |- *.
      pose proof (moved_all_ext src dst (take k l) _ _ M1') as Em.
      destruct M3 as [M3|[M3|M3]]; [left|right; left|right; right]; intros n a; rewrite M3; [apply Em|by apply bounced_ext|by apply moved_ext].
Qed.

Lemma copy_blocks_lookup n : forall src old k b, (n <= length src)%nat -> (n <= length old)%nat -> (k < n)%nat -> src !! k = Some b ->
  copy_blocks n src old !! k = Some b.
Proof.
  induction n as [|n IH]; intros src old k b Hs Ho Hk E; [lia|]. destruct src as [|x src], old as [|y old]; cbn in Hs, Ho; try lia.
  destruct k as [|k]; [done|]. cbn. apply IH; (done || lia).
Qed.
Lemma copy_blocks_length n : forall src old, length (copy_blocks n src old) = length old.
Proof. induction n as [|n IH]; intros [|x src] [|y old]; cbn; auto. Qed.

(** C25: a transfer from memory to memory that was configured and started while the
    interface was idle always returns.  When it returns 0, every block was moved, in
    order, by way of address 0 of the source node: the destination ranges hold what the
    source ranges held, nothing else changed but the start of that node's memory,
    and all responses have come.  Otherwise it returns [-ETIMEDOUT] with the blocks
    before some block moved and, of that block, nothing, the first half or all. *)
Theorem memory_to_memory_copies (depth : nat) ch cfg c old s
    (Hch : aget (channels s) ch = Some old) (Hlen : length (blocks old) = 4%nat)
    (Hcount : 1 <= block_count cfg <= DMA_MAX_TRANSFER_BLOCKS) (Hlist : block_count cfg <= len (head_block cfg))
    (Hblocks : Forall block_ok (head_block cfg)) (Hdir : channel_direction cfg = MEMORY_TO_MEMORY)
    (Hlink : source_chaining_en cfg = false /\ dest_chaining_en cfg = false /\ 0 <= linked_channel cfg)
    (Hcoords : coords_ok c) (Hne : noc_coords_source c <> noc_coords_dest c) (Hidle : idle (noc_coords_source c) (hw s)) :
  does (tt_bh_dma_noc_config ch cfg c) s (fun rc s1 => rc = 0 /\ hw s1 = hw s /\
    does (tt_bh_dma_noc_start (S depth) fuel ch) s1 (fun rc s' =>
      m2m_result (noc_coords_source c) (noc_coords_dest c) (take (Z.to_nat (block_count cfg)) (head_block cfg)) (hw s) rc (hw s'))).
Proof.
  pose proof (aget_range _ _ _ Hch) as Hr. unfold tt_bh_dma_noc_config. unfold DMA_MAX_TRANSFER_BLOCKS in *.
  rewrite (proj2 (Z.eqb_neq _ _)), (proj2 (Z.ltb_ge _ _)) by lia.
  eapply (does_bind _ _ _ _ (fun n s1 => n = len (channels s) /\ s1 = s)); [by eexists _, _|]. intros ? ? [-> ->].
  rewrite (proj2 (Z.leb_gt _ _)) by lia. eapply does_bind; [by apply does_get_channel|]. intros ? ? [-> ->].
  set (chan := MkChannel _ c cfg _). eapply (does_bind _ _ _ _ (fun _ s1 => replaced ch chan s s1 /\ hw s1 = hw s)).
  { eexists tt, _. split; [unfold put_channel; rewrite aset_in by done; done|]. split; [by apply aset_in|done]. }
  intros _ s1 [R1 E1]. apply does_ret. split; [done|]. split; [done|]. rewrite <- E1. cbn [tt_bh_dma_noc_start].
  assert (Hg : aget (channels s1) ch = Some chan) by (by eapply replaced_get). pose proof (aget_range _ _ _ Hg) as Hr1.
  eapply (does_bind _ _ _ _ (fun n s2 => n = len (channels s1) /\ s2 = s1)); [by eexists _, _|]. intros ? ? [-> ->].
  rewrite (proj2 (Z.leb_gt _ _)) by lia. eapply does_bind; [by apply does_get_channel|]. intros ? ? [-> ->]. cbn [chan state configured negb].
  eapply does_bind; [by eapply update_ok|]. intros _ s2 [R2 E2]. rewrite <- E2.
  eapply does_mono; [apply (blocks_loop_ok _ _ ch (set_index 0 chan) s2 (take (Z.to_nat (block_count cfg)) (head_block cfg)))|done].
  - by eapply replaced_get.
  - unfold m2m_channel. cbn. tauto.
  - cbn. by rewrite E2, E1.
  - cbn. lia.
  - cbn. rewrite length_take. lia.
  - cbn. lia.
  - rewrite length_take. change (Z.to_nat DMA_MAX_TRANSFER_BLOCKS) with 4%nat. lia.
  - by apply Forall_take.
  - intros k b Hk. cbn. apply lookup_take_Some in Hk as [Hk Hlt]. rewrite aget_nat by lia. replace (Z.to_nat (0 + Z.of_nat k)) with k by lia.
    apply copy_blocks_lookup; [lia|rewrite Hlen; lia|lia|done].
Qed.
End transfers.

(** ** A simulated network *)

(** TLB registers, the command registers and memories of the nodes, the responses due and
    come, the clock (one tick per look), and how many responses a tick lets come at most. *)
Record net := MkNet { x_tlb : Z -> Z; x_reg : Z * Z -> Z -> Z; x_mem : Z * Z -> Z -> Z;
  x_sent : Z * Z -> bool -> Z; x_got : Z * Z -> bool -> Z; x_time : Z; x_rate : Z; x_calls : list (Z * Z) }.
Definition net_group (c : Z) (n : Z * Z) : bool :=
  (1 <=? n.1) && (n.1 <=? 16) && negb (n.1 =? 8) && negb (n.1 =? 9) && (bits_get 18 6 c <=? n.2) && (n.2 <=? bits_get 6 6 c).
Definition net_counts (x : net) (n : Z * Z) (d : bool) : Z := Z.max 0 (Z.min (x_got x n d) (x_sent x n d)).
Definition net_sent (x : net) (n : Z * Z) (d : bool) : Z := Z.max 0 (x_sent x n d).
(** The node and the address under window 0. *)
Definition net_node (x : net) : Z * Z := (bits_get 0 6 (x_tlb x 32), bits_get 6 6 (x_tlb x 32)).
Definition net_offset (a : Z) : option Z :=
  let d := a - ARC_NOC0_BASE_ADDR in if (0 <=? d) && (d <? 2 ^ 24) then Some (0xFF000000 + d) else None.
Definition net_tlb_index (a : Z) : Z := (a - tlb_reg_addr 0 0) / 4.

#[export] Instance net_NocHw : NocHw net := {
  ReadReg a x :=
    match net_offset a with
    | Some o => if o =? NIU_MST_WR_ACK_RECEIVED then u32 (net_counts x (net_node x) true)
                else if o =? NIU_MST_RD_RESP_RECEIVED then u32 (net_counts x (net_node x) false) else 0
    | None => 0
    end;
  WriteReg a v x :=
    match net_offset a with
    | Some o =>
        let n := net_node x in
        if o =? CMD_CTRL then
          let c := command_of (x_reg x n) in
          MkNet (x_tlb x) (x_reg x) (carry_out net_group c (x_mem x))
            (fun n' d => net_sent x n' d + (if decide (n' = n) then if Bool.eqb d (is_write (c_ctrl c)) then packets (Z.max 0 (c_size c)) else 0 else 0))
            (net_counts x) (x_time x) (x_rate x) (x_calls x)
        else MkNet (x_tlb x) (fun n' b => if decide (n' = n) then (if b =? o then v else x_reg x n b) else x_reg x n' b) (x_mem x)
               (x_sent x) (x_got x) (x_time x) (x_rate x) (x_calls x)
    | None => MkNet (fun j => if net_tlb_index a =? j then v else x_tlb x j) (x_reg x) (x_mem x) (x_sent x) (x_got x) (x_time x) (x_rate x) (x_calls x)
    end
}.
#[export] Instance net_NocDmaHw : NocDmaHw net := {
  sys_timepoint_calc ms x := x_time x + ms;
  sys_timepoint_expired t x :=
    (t <=? x_time x, MkNet (x_tlb x) (x_reg x) (x_mem x) (x_sent x) (fun n d => net_counts x n d + Z.max 0 (x_rate x)) (x_time x + 1) (x_rate x) (x_calls x));
  run_callback ch st x := MkNet (x_tlb x) (x_reg x) (x_mem x) (x_sent x) (x_got x) (x_time x) (x_rate x) ((ch, st) :: x_calls x)
}.

Lemma net_offset_window a : 0xFF000000 <= a < 0x100000000 -> net_offset (GetTlbWindowAddr 0 0 a) = Some a.
Proof.
  intros Ha. rewrite window_addr_of, window_addr_0 by done. unfold net_offset. cbv zeta.
  assert (a mod 2 ^ 24 = a - 0xFF000000) as -> by word_lia.
  rewrite (proj2 (Z.leb_le _ _)), (proj2 (Z.ltb_lt _ _)) by lia. cbn [andb]. f_equal. lia.
Qed.
Lemma net_offset_tlb k : 0 <= k < 64 -> net_offset (tlb_reg_addr 0 k) = None /\ net_tlb_index (tlb_reg_addr 0 k) = k.
Proof.
  intros Hk. split; [|by apply tlb_index_of]. unfold net_offset. cbv zeta. unfold tlb_reg_addr. change (GetTlbRegStartAddr 0) with 0x80051000.
  change ARC_NOC0_BASE_ADDR with 0xC0000000. rewrite (proj2 (Z.leb_gt _ _)) by lia. done.
Qed.
#[export] Instance net_tlb : TlbRegs net.
Proof.
  refine {| tlb := x_tlb |}. intros w k v Hk j. destruct (net_offset_tlb k Hk) as [E1 E2]. cbn [WriteReg net_NocHw]. by rewrite E1, E2.
Defined.
Lemma net_node_opened (x : net) n a : node_bounds n -> opened 0 n a x -> net_node x = n.
Proof. intros [Hx Hy] (_ & _ & E). unfold net_node. change (tlb x (0 + 32)) with (x_tlb x 32) in E. rewrite E. destruct (tlb2_word_fields n.1 n.2 Hx Hy) as (_ & -> & ->). by destruct n. Qed.
Lemma command_regs_range a : a ∈ command_regs -> 0xFF000000 <= a < 0x100000000 /\ a <> CMD_CTRL.
Proof.
  intros Ha. assert (Hall : Forall (fun a => 0xFF000000 <= a < 0x100000000 /\ a <> CMD_CTRL) command_regs) by (repeat constructor; done).
  rewrite Forall_forall in Hall. by apply Hall.
Qed.
Lemma net_count_range (x : net) n d : 0 <= net_counts x n d <= net_sent x n d.
Proof. unfold net_counts, net_sent. lia. Qed.

#[export] Instance net_laws : NiuLaws net.
Proof.
  refine {| niu_reg := x_reg; niu_mem := x_mem; sent := net_sent; got := net_counts; group := net_group; time_left := fun t x => Z.to_nat (t - x_time x) |}.
  - apply net_count_range.
  - intros w k v Hk. cbn [WriteReg net_NocHw]. by rewrite (proj1 (net_offset_tlb k Hk)).
  - intros w n d Hn Ho. cbn [ReadReg net_NocHw]. rewrite (net_node_opened w n TARGET_ADDR_LO Hn Ho). destruct d; rewrite net_offset_window; done.
  - intros w n a v Hn Ho Ha. destruct (command_regs_range a Ha) as [Hr Hne]. cbn [WriteReg net_NocHw].
    rewrite net_offset_window, (net_node_opened w n TARGET_ADDR_LO Hn Ho), (proj2 (Z.eqb_neq _ _) Hne) by done. cbn. split_and!; try done.
    intros b. by rewrite decide_True.
  - intros w n Hn Ho (Hs & _). cbn [WriteReg net_NocHw]. rewrite net_offset_window by done. rewrite (net_node_opened w n TARGET_ADDR_LO Hn Ho), Z.eqb_refl.
    cbn [x_tlb x_time x_mem]. split_and!; try done.
    + intros n' d. pose proof (net_count_range w n' d). unfold net_counts at 1. cbn [x_got x_sent].
      assert (0 <= packets (Z.max 0 (c_size (command_of (x_reg w n))))) by (apply Z.div_pos; unfold NOC_MAX_BURST_SIZE; lia).
      destruct (decide _); [destruct (Bool.eqb _ _)|]; lia.
    + intros n' d. pose proof (net_count_range w n' d). unfold net_sent at 1. cbn [x_sent]. rewrite (Z.max_r 0 (c_size _)) by done.
      assert (0 <= packets (c_size (command_of (x_reg w n)))) by (apply Z.div_pos; unfold NOC_MAX_BURST_SIZE; lia).
      destruct (decide _); [destruct (Bool.eqb _ _)|]; lia.
  - intros t w b w' E. cbn in E. injection E as <- <-. cbn [x_tlb x_mem x_time]. split_and!; try done; try (intros; lia).
    intros n d. unfold net_counts at 2. cbn [x_got x_sent]. unfold net_counts. lia.
  - intros ch st w. by split_and!.
Defined.

Module NocDmaExample.
Definition mem (n : Z * Z) (a : Z) : Z := if decide (n = (8, 0)) then a mod 256 else 255.
(** A network that answers [rate] responses a tick. *)
Definition net0 (rate : Z) : net := MkNet (fun _ => 0) (fun _ _ => 0) mem (fun _ _ => 0) (fun _ _ => 0) 0 rate [].
Definition none : dma_config := MkConfig OTHER_DIRECTION false false false false 0 0 [] false.
Definition free : tt_bh_dma_channel_data := MkChannel (replicate 4 (MkBlock 0 0 0)) (MkCoords 0 0 0 0) none (MkState 0 0 0 0 false).
Definition dma0 (rate : Z) : noc_dma net := MkNocDma (replicate 4 free) (net0 rate).
Definition cfg : dma_config := MkConfig MEMORY_TO_MEMORY true false false false 0 2 [MkBlock 0x100 0x400 8; MkBlock 0x200 0x500 40000] true.
Definition where_ : tt_bh_dma_noc_coords := MkCoords 1 2 8 0.
(** The code, what is at the end of both destinations, and the callbacks, latest first. *)
Definition run (rate : Z) (again : bool) : option (Z * (Z * Z) * list (Z * Z)) :=
  (fun r => (r.1, (x_mem (hw r.2) (8, 0) 0x407, x_mem (hw r.2) (8, 0) (0x500 + 39999)), x_calls (hw r.2))) <$>
    (_ ← tt_bh_dma_noc_config 1 cfg where_;
     rc ← tt_bh_dma_noc_start 1 51 1;
     if again then tt_bh_dma_noc_start 1 51 1 else mret rc) (dma0 rate).
End NocDmaExample.
Import NocDmaExample.

Lemma fuel_51 : forall w : net, (time_left (sys_timepoint_calc NOC_DMA_TIMEOUT_MS w) w < 51)%nat.
Proof. intros w. cbn. unfold NOC_DMA_TIMEOUT_MS. lia. Qed.

(** Two blocks are copied, or time runs out in the first. *)
Lemma memory_to_memory_copies_witness :
  does (_ ← tt_bh_dma_noc_config 1 cfg where_; tt_bh_dma_noc_start 1 51 1) (dma0 1) (fun rc _ => rc = 0 \/ rc = - ETIMEDOUT) /\
  run 1 false = Some (0, (0x07, (0x200 + 39999) mod 256), [(1, DMA_STATUS_COMPLETE); (1, DMA_STATUS_BLOCK)]) /\
  run 0 false = Some (- ETIMEDOUT, (0x07, (0x500 + 39999) mod 256), []).
Proof.
  split_and!; [|vm_compute; reflexivity|vm_compute; reflexivity].
  eapply does_bind; [apply (memory_to_memory_copies 51 fuel_51 0 1 cfg where_ free (dma0 1)); [done|done|done|done| |done|done|done|done|done]|].
  - repeat constructor; done.
  - intros rc s1 (_ & _ & Hstart). eapply does_mono; [exact Hstart|]. intros rc' s' [(-> & _)|(-> & _)]; auto.
Defined.

(** A transfer forgets where its blocks came from: started again with the same configuration
    it copies from address 0. *)
Lemma restart_loses_source :
  run 1 true = Some (0, (0x07, 39999 mod 256), [(1, DMA_STATUS_COMPLETE); (1, DMA_STATUS_BLOCK); (1, DMA_STATUS_COMPLETE); (1, DMA_STATUS_BLOCK)]).
Proof. vm_compute. reflexivity. Qed.

(** A transfer started while another's responses are under way is taken for done too early:
    the end is looked for at the count before it, not at the count that is due. *)
Lemma early_completion :
  (_ ← tt_bh_dma_noc_config 0 (MkConfig PERIPHERAL_TO_MEMORY false false false false 0 1 [MkBlock 0 0x1000 (2 * NOC_MAX_BURST_SIZE)] false) where_;
   _ ← tt_bh_dma_noc_start 1 51 0;
   _ ← tt_bh_dma_noc_config 1 (MkConfig PERIPHERAL_TO_MEMORY false false false false 0 1 [MkBlock 0 0x9000 16] false) where_;
   _ ← tt_bh_dma_noc_start 1 51 1;
   _ ← with_hw (sys_timepoint_expired 0);
   tt_bh_dma_noc_get_status 1) (dma0 1) ≫= (fun r => Some (r.1, got (hw r.2) (1, 2) true, sent (hw r.2) (1, 2) true)) =
  Some ((0, Some false), 1, 3).
Proof. vm_compute. reflexivity. Qed.
