(* ===== verification/Harvesting.v ===== *)
(** * Harvesting ([lib/tenstorrent/bh_arc]: [harvesting.c], [functional_efuse.c])

    Which tiles of the chip may be used: everything, less what the ATE and SLT
    fuses mark as failed, less what the firmware table asks to disable.  The
    efuse driver's read and the firmware table (a protobuf structure) are
    arguments; mission firmware on the ARC is the configuration modelled. *)

From S2P Require Import Prelude Noc.

(** ** Fuses ([functional_efuse.c]) *)

(** [READ_FUNCTIONAL_EFUSE]: first and last bit of each field. *)
Definition ASIC_ID_OLD : Z * Z := (1056, 1071).
Definition ATE_TENSIX_ROW_TEST_STATUS (row : Z) : Z * Z := (3168 + 32 * row, 3199 + 32 * row).
Definition ATE_DDR_TEST_STATUS : Z * Z := (3504, 3511).
Definition ATE_PCIE_SPEED_TEST : Z * Z := (3512, 3515).
Definition ATE_RISCV_L2_TEST_STATUS : Z * Z := (3520, 3535).
Definition ATE_ETH_CTRL_TEST_STATUS : Z * Z := (3536, 3551).
Definition SLT_ATE_SLT_STATUS : Z * Z := (4160, 4161).
Definition SLT_FUSE_MAP_VERSION : Z * Z := (4162, 4191).
Definition SLT_SLT_BINNING : Z * Z := (4192, 4223).
Definition SLT_DDR_TEST_STATUS_16G : Z * Z := (5472, 5479).
Definition SLT_DDR_TEST_STATUS_14G : Z * Z := (5480, 5487).
Definition SLT_DDR_TEST_STATUS_12G : Z * Z := (5488, 5495).
Definition SLT_ETH_CTRL_TEST_STATUS : Z * Z := (5520, 5535).
Definition SLT_HARVESTED_TENSIX_COLUMNS : Z * Z := (5536, 5551).

Section fuses.
(** [tt_bh_efuse_read] of the functional box: error code and 32-bit value. *)
Variable tt_bh_efuse_read : Z -> Z * Z.

Definition read_efuse_dword (offset : Z) : Z :=
  let '(rc, value) := tt_bh_efuse_read offset in
  if negb (rc =? 0) then 0 else u32 value.

Definition ReadFunctionalEfuse (start_bit end_bit : Z) : Z :=
  let field_length := s32 (end_bit - start_bit + 1) in
  if (32 <? field_length) || (field_length <? 1) then 0
  else
    let start_index := start_bit / 32 in
    let data := Z.lor (read_efuse_dword start_index) (Z.shiftl (read_efuse_dword (start_index + 1)) 32) in
    u32 (bits_get (start_bit mod 32) field_length data).

Definition READ_FUNCTIONAL_EFUSE (field : Z * Z) : Z := ReadFunctionalEfuse field.1 field.2.
End fuses.

(** ** Tiles ([harvesting.h]) *)

Definition BH_PCIE_MODE_DISABLED : Z := 0.
Definition BH_PCIE_MODE_EP : Z := 1.

Record TileEnable := MkTiles {
  tensix_col_enabled : Z;
  eth_enabled : Z;
  eth5_serdes : bool;
  eth8_serdes : bool;
  eth_serdes_connected : Z;
  gddr_enabled : Z;
  l2cpu_enabled : Z;
  pcie_enabled : Z;
  pcie_usage : list Z;
  pcie_num_serdes : list Z
}.

(** The fields of the firmware table that harvesting reads. *)
Record FwTable := MkFwTable {
  harvesting_en : bool;
  tensix_col_disable_count : Z;
  eth_disabled : bool;
  dram_disable_count : Z;
  has_dram_table : bool;
  soft_harvest_dram_mask : Z;
  pcie_mode : list Z;       (** of instances 0 and 1 *)
  num_serdes : list Z
}.

Definition BIT_MASK (n : Z) : Z := Z.ones n.
Definition POPCOUNT (z : Z) : Z := len (filter (fun i => Z.testbit z i = true) (seqZ 0 32)).

(** [x &= ~m]. *)
Definition clear_bits (x m : Z) : Z := Z.land x (Z.lnot m).

Definition set_tensix (v : Z) (t : TileEnable) : TileEnable :=
  MkTiles v (eth_enabled t) (eth5_serdes t) (eth8_serdes t) (eth_serdes_connected t) (gddr_enabled t)
          (l2cpu_enabled t) (pcie_enabled t) (pcie_usage t) (pcie_num_serdes t).
Definition set_eth (v : Z) (t : TileEnable) : TileEnable :=
  MkTiles (tensix_col_enabled t) v (eth5_serdes t) (eth8_serdes t) (eth_serdes_connected t) (gddr_enabled t)
          (l2cpu_enabled t) (pcie_enabled t) (pcie_usage t) (pcie_num_serdes t).
Definition set_gddr (v : Z) (t : TileEnable) : TileEnable :=
  MkTiles (tensix_col_enabled t) (eth_enabled t) (eth5_serdes t) (eth8_serdes t) (eth_serdes_connected t) v
          (l2cpu_enabled t) (pcie_enabled t) (pcie_usage t) (pcie_num_serdes t).
Definition set_l2cpu (v : Z) (t : TileEnable) : TileEnable :=
  MkTiles (tensix_col_enabled t) (eth_enabled t) (eth5_serdes t) (eth8_serdes t) (eth_serdes_connected t)
          (gddr_enabled t) v (pcie_enabled t) (pcie_usage t) (pcie_num_serdes t).
Definition set_pcie (v : Z) (t : TileEnable) : TileEnable :=
  MkTiles (tensix_col_enabled t) (eth_enabled t) (eth5_serdes t) (eth8_serdes t) (eth_serdes_connected t)
          (gddr_enabled t) (l2cpu_enabled t) v (pcie_usage t) (pcie_num_serdes t).
Definition set_serdes (connected : Z) (usage nserdes : list Z) (t : TileEnable) : TileEnable :=
  MkTiles (tensix_col_enabled t) (eth_enabled t) (eth5_serdes t) (eth8_serdes t) connected
          (gddr_enabled t) (l2cpu_enabled t) (pcie_enabled t) usage nserdes.

(** The static initial value of [tile_enable]. *)
Definition tile_enable_default : TileEnable :=
  MkTiles (BIT_MASK 14) (BIT_MASK 14) true true (BIT_MASK 12) (BIT_MASK 8) (BIT_MASK 4) (BIT_MASK 2) [0; 0] [0; 0].

(** ** The calculation ([harvesting.c]) *)

Section harvesting.
Variable tt_bh_efuse_read : Z -> Z * Z.
Abbreviation fuse := (READ_FUNCTIONAL_EFUSE tt_bh_efuse_read).

Definition FusesValid : bool := fuse ASIC_ID_OLD =? 0.

(** The [|=] over the ten rows. *)
Definition ate_disabled_tensix_col : Z :=
  foldl (fun acc row => Z.lor acc (fuse (ATE_TENSIX_ROW_TEST_STATUS row))) 0 (seqZ 0 10).

Definition HarvestingATEFuses (t : TileEnable) : TileEnable :=
  let t := set_tensix (clear_bits (tensix_col_enabled t) ate_disabled_tensix_col) t in
  let t := set_eth (clear_bits (eth_enabled t) (fuse ATE_ETH_CTRL_TEST_STATUS)) t in
  let t := set_gddr (clear_bits (gddr_enabled t) (fuse ATE_DDR_TEST_STATUS)) t in
  let disabled_l2cpu := fuse ATE_RISCV_L2_TEST_STATUS in
  let t := foldl (fun t i => if negb (Z.land disabled_l2cpu (BIT (i * 4)) =? 0)
                             then set_l2cpu (clear_bits (l2cpu_enabled t) (BIT i)) t else t) t (seqZ 0 4) in
  let ate_pcie_fuse := fuse ATE_PCIE_SPEED_TEST in
  foldl (fun t i => if bits_get (i * 2) 2 ate_pcie_fuse =? 3
                    then set_pcie (clear_bits (pcie_enabled t) (BIT i)) t else t) t (seqZ 0 2).

Definition GetTensixDisableSLTMapV1 : option Z :=
  let slt_binning := fuse SLT_SLT_BINNING in
  let slt_binning := if negb (bits_get 8 8 slt_binning =? 0) then bits_get 8 8 slt_binning
                     else bits_get 0 8 slt_binning in
  let harvested_columns := fuse SLT_HARVESTED_TENSIX_COLUMNS in
  let harvested_count := u8 (POPCOUNT harvested_columns) in
  let harvested_columns :=
    if ((slt_binning =? 3) || (slt_binning =? 4) || (slt_binning =? 5)) && (harvested_count <? 2)
    then Z.lor harvested_columns (BIT 16)
    else if (slt_binning =? 2) && (harvested_count <? 1) then Z.lor harvested_columns (BIT 16)
    else harvested_columns in
  for_loop (Z.to_nat NOC_X_SIZE) 0
    (fun x harvested_columns_phys =>
       if negb (Z.land harvested_columns (BIT x) =? 0) then
         phys_x ← NocToTensixPhysX x 0;
         Some (if negb (phys_x =? 0xFF) then Z.lor harvested_columns_phys (BIT phys_x) else harvested_columns_phys)
       else Some harvested_columns_phys) 0.

Definition HarvestingSLTFuses (t : TileEnable) : option TileEnable :=
  let slt_fuse_map_version := fuse SLT_FUSE_MAP_VERSION in
  if (Z.land (fuse SLT_ATE_SLT_STATUS) (BIT 1) =? 0) || (slt_fuse_map_version =? 0) then Some t
  else
    cols ← (if slt_fuse_map_version =? 1 then GetTensixDisableSLTMapV1 else Some (fuse SLT_HARVESTED_TENSIX_COLUMNS));
    let t := set_tensix (clear_bits (tensix_col_enabled t) cols) t in
    let t := set_eth (clear_bits (eth_enabled t) (fuse SLT_ETH_CTRL_TEST_STATUS)) t in
    let harvested_gddr := Z.lor (Z.lor (fuse SLT_DDR_TEST_STATUS_12G) (fuse SLT_DDR_TEST_STATUS_14G))
                                (fuse SLT_DDR_TEST_STATUS_16G) in
    let harvested_gddr := if slt_fuse_map_version <=? 2 then clear_bits harvested_gddr (BIT 3) else harvested_gddr in
    Some (set_gddr (clear_bits (gddr_enabled t) harvested_gddr) t).

(** [for (i = 13; i >= 0 && tensix_soft_disable > 0; i--)]: [n] is [i + 1]. *)
Fixpoint soft_disable_columns (n : nat) (tensix_soft_disable cols : Z) : Z :=
  match n with
  | O => cols
  | S n =>
      if tensix_soft_disable <=? 0 then cols
      else if Z.testbit cols (Z.of_nat n)
           then soft_disable_columns n (u8 (tensix_soft_disable - 1)) (clear_bits cols (BIT (Z.of_nat n)))
           else soft_disable_columns n tensix_soft_disable cols
  end.

(** Soft harvesting: what the firmware disables of the tiles [t] the fuses left. *)
Definition soft_harvesting (fw : FwTable) (t : TileEnable) : TileEnable :=
  let t := if bits_get 4 3 (eth_enabled t) =? BIT_MASK 3 then set_eth (clear_bits (eth_enabled t) (BIT 5)) t else t in
  let t := if bits_get 7 3 (eth_enabled t) =? BIT_MASK 3 then set_eth (clear_bits (eth_enabled t) (BIT 8)) t else t in
  let disabled_tensix_cols := u8 (14 - POPCOUNT (tensix_col_enabled t)) in
  let t :=
    if disabled_tensix_cols <? tensix_col_disable_count fw then
      let tensix_soft_disable := u8 (tensix_col_disable_count fw - disabled_tensix_cols) in
      set_tensix (soft_disable_columns 14 tensix_soft_disable (tensix_col_enabled t)) t
    else t in
  let t := if eth_disabled fw then set_eth 0 t else t in
  let t := if has_dram_table fw then set_gddr (clear_bits (gddr_enabled t) (soft_harvest_dram_mask fw)) t else t in
  let desired_gddr_count := u8 (8 - dram_disable_count fw) in
  if desired_gddr_count <? POPCOUNT (gddr_enabled t)
  then set_gddr (clear_bits (gddr_enabled t) (BIT 3)) t else t.

(** The part under [feature_enable.harvesting_en]. *)
Definition enabled_harvesting (fw : FwTable) (t : TileEnable) : option TileEnable :=
  t ← (if FusesValid then HarvestingSLTFuses (HarvestingATEFuses t) else Some t);
  Some (soft_harvesting fw t).

(** One PCIe instance: its usage, its SERDES count, and the Ethernet lanes it takes. *)
Definition pcie_serdes (fw : FwTable) (inst : Z) (one two : Z) (t : TileEnable) : option TileEnable :=
  mode ← aget (pcie_mode fw) inst;
  n ← aget (num_serdes fw) inst;
  usage ← aset (pcie_usage t) inst mode;
  if mode =? BH_PCIE_MODE_DISABLED then
    ns ← aset (pcie_num_serdes t) inst 0;
    Some (set_serdes (eth_serdes_connected t) usage ns t)
  else
    let n := Z.min n 2 in
    ns ← aset (pcie_num_serdes t) inst n;
    let connected := if n =? 1 then clear_bits (eth_serdes_connected t) one
                     else if n =? 2 then clear_bits (eth_serdes_connected t) two
                     else eth_serdes_connected t in
    Some (set_serdes connected usage ns t).

Definition CalculateHarvesting (fw : FwTable) (t : TileEnable) : option TileEnable :=
  let t := MkTiles (BIT_MASK 14) (BIT_MASK 14) true true (BIT_MASK 12) (BIT_MASK 8) (BIT_MASK 4) (BIT_MASK 2)
                   (pcie_usage t) (pcie_num_serdes t) in
  t ← (if harvesting_en fw then enabled_harvesting fw t else Some t);
  t ← pcie_serdes fw 0 (Z.lor (BIT 0) (BIT 1)) (Z.lor (Z.lor (BIT 0) (BIT 1)) (Z.lor (BIT 2) (BIT 3))) t;
  pcie_serdes fw 1 (Z.lor (BIT 11) (BIT 10)) (Z.lor (Z.lor (BIT 11) (BIT 10)) (Z.lor (BIT 9) (BIT 8))) t.
End harvesting.

(** ** Bit sets of tiles *)

Lemma popcount_bits z : POPCOUNT z = len (bits_of z).
Proof. reflexivity. Qed.

Definition subset (a b : Z) : Prop := forall i, 0 <= i -> Z.testbit a i = true -> Z.testbit b i = true.

#[export] Instance subset_preorder : PreOrder subset.
Proof. split; [intros a i; auto|]. intros a b c Hab Hbc i Hi Ha. auto. Qed.

Lemma clear_bits_testbit x m i : 0 <= i -> Z.testbit (clear_bits x m) i = Z.testbit x i && negb (Z.testbit m i).
Proof. intros. unfold clear_bits. by rewrite Z.land_spec, Z.lnot_spec. Qed.

Lemma clear_bits_subset x m : subset (clear_bits x m) x.
Proof. intros i Hi. rewrite clear_bits_testbit by done. by intros [? _]%andb_true_iff. Qed.

Lemma subset_range a b n : 0 <= n -> 0 <= a -> 0 <= b < 2 ^ n -> subset a b -> 0 <= a < 2 ^ n.
Proof.
  intros Hn Ha Hb Hs. split; [done|]. apply bits_lt_pow2; [done|done|]. intros i Hi.
  destruct (Z.lt_ge_cases i 0) as [Hneg|Hi0]; [lia|]. apply Hs in Hi; [|done].
  destruct (Z.lt_ge_cases i n); [done|]. by rewrite (testbit_above b n) in Hi.
Qed.

Lemma clear_bits_range x m n : 0 <= n -> 0 <= x < 2 ^ n -> 0 <= clear_bits x m < 2 ^ n.
Proof.
  intros Hn Hx. apply (subset_range _ x); [done| |done|apply clear_bits_subset].
  unfold clear_bits. apply Z.land_nonneg. lia.
Qed.

(** The highest bit is the last of [bits_of]. *)
Lemma bits_of_top x n :
  0 <= n < 32 -> 0 <= x < 2 ^ (n + 1) -> Z.testbit x n = true ->
  bits_of x = bits_of (clear_bits x (BIT n)) ++ [n].
Proof.
  intros Hn Hx Hbit.
  assert (Hhigh : forall i, n < i -> Z.testbit x i = false) by (intros i Hi; apply (testbit_above x (n + 1)); lia).
  assert (Hb : forall i, 0 <= i -> Z.testbit (BIT n) i = (n =? i)).
  { intros i Hi. apply bit_BIT; lia. }
  unfold bits_of. replace (seqZ 0 32) with (seqZ 0 n ++ seqZ (0 + n) (32 - n))
    by (rewrite <- seqZ_app by lia; f_equal; lia).
  rewrite (seqZ_cons (0 + n)) by lia. rewrite !filter_app.
  rewrite (filter_cons_True _ (0 + n)) by done. rewrite (filter_cons_False _ (0 + n)).
  2:{ rewrite clear_bits_testbit, Hb by lia. rewrite Z.add_0_l, Z.eqb_refl, andb_false_r. done. }
  rewrite !(filter_nil_iff _ (seqZ (Z.succ (0 + n)) _)).
  3:{ intros i [Hi _]%elem_of_seqZ. rewrite Hhigh by lia. done. }
  2:{ intros i [Hi _]%elem_of_seqZ. rewrite clear_bits_testbit, Hhigh by lia. done. }
  rewrite app_nil_r, Z.add_0_l. f_equal. apply filter_ext_in. intros i [Hi1 Hi2]%elem_of_seqZ.
  rewrite clear_bits_testbit, Hb by lia. destruct (Z.eqb_spec n i); [lia|]. by rewrite andb_true_r.
Qed.

Lemma bits_of_below x n : 0 <= n -> 0 <= x < 2 ^ (n + 1) -> Z.testbit x n = false -> 0 <= x < 2 ^ n.
Proof.
  intros Hn Hx Hbit. split; [lia|]. apply bits_lt_pow2; [lia|done|]. intros i Hi.
  destruct (Z.eq_dec i n) as [->|]; [congruence|]. destruct (Z.lt_ge_cases i n); [done|].
  rewrite (testbit_above x (n + 1)) in Hi by lia. done.
Qed.

(** Soft harvesting keeps the lowest columns: it takes [k] away from the top. *)
Lemma soft_disable_spec n k cols :
  (n <= 32)%nat -> 0 <= k < 256 -> 0 <= cols < 2 ^ Z.of_nat n ->
  bits_of (soft_disable_columns n k cols) = take (length (bits_of cols) - Z.to_nat k) (bits_of cols) /\
  0 <= soft_disable_columns n k cols /\ subset (soft_disable_columns n k cols) cols.
Proof.
  intros Hn. revert k cols. induction n as [|n IH]; intros k cols Hk Hc; cbn [soft_disable_columns].
  - assert (cols = 0) as -> by (cbn in Hc; lia). rewrite bits_of_0. split; [done|]. split; [done|]. reflexivity.
  - rewrite Nat2Z.inj_succ in Hc. unfold Z.succ in Hc.
    destruct (Z.leb_spec k 0) as [Hk0|Hk0].
    + replace (Z.to_nat k) with 0%nat by lia. rewrite Nat.sub_0_r, firstn_all. split; [done|]. split; [lia|reflexivity].
    + destruct (Z.testbit cols (Z.of_nat n)) eqn:E.
      * assert (Hc' : 0 <= clear_bits cols (BIT (Z.of_nat n)) < 2 ^ Z.of_nat n).
        { apply bits_of_below; [lia|apply clear_bits_range; lia|].
          rewrite clear_bits_testbit by lia. unfold BIT. rewrite Z.shiftl_1_l, Z.pow2_bits_true by lia. apply andb_false_r. }
        rewrite (wrap_small 8) by (unwrap; lia).
        destruct (IH ltac:(lia) (k - 1) _ ltac:(lia) Hc') as (-> & Hnn & Hsub).
        rewrite (bits_of_top cols (Z.of_nat n)) by (done || lia).
        split; [|split; [done|transitivity (clear_bits cols (BIT (Z.of_nat n))); [done|apply clear_bits_subset]]].
        rewrite length_app. cbn [length].
        rewrite take_app_le by lia. f_equal. lia.
      * apply IH; [lia|done|]. apply bits_of_below; [lia|done|done].
Qed.

(** ** Harvesting only removes tiles *)

Definition tiles_wf (t : TileEnable) : Prop :=
  0 <= tensix_col_enabled t < 2 ^ 14 /\ 0 <= eth_enabled t < 2 ^ 14 /\ 0 <= gddr_enabled t < 2 ^ 8 /\
  0 <= l2cpu_enabled t < 2 ^ 4 /\ 0 <= pcie_enabled t < 2 ^ 2.

(** Every tile enabled in [a] is enabled in [b]. *)
Definition tiles_le (a b : TileEnable) : Prop :=
  subset (tensix_col_enabled a) (tensix_col_enabled b) /\ subset (eth_enabled a) (eth_enabled b) /\
  subset (gddr_enabled a) (gddr_enabled b) /\ subset (l2cpu_enabled a) (l2cpu_enabled b) /\
  subset (pcie_enabled a) (pcie_enabled b).

#[export] Instance tiles_le_preorder : PreOrder tiles_le.
Proof.
  split; [intros t; repeat split; reflexivity|].
  intros a b c (?&?&?&?&?) (?&?&?&?&?). repeat split; etransitivity; eassumption.
Qed.

(** The set of tiles after a step is smaller and still well formed. *)
Definition harvested (t t' : TileEnable) : Prop := tiles_le t' t /\ (tiles_wf t -> tiles_wf t').

#[export] Instance harvested_preorder : PreOrder harvested.
Proof.
  split; [by split|]. intros a b c [H1 H2] [H3 H4]. split; [by transitivity b|auto].
Qed.

Ltac harvest_step :=
  split; [repeat split; try reflexivity; apply clear_bits_subset
         |intros (?&?&?&?&?); unfold tiles_wf;
          cbn [set_tensix set_eth set_gddr set_l2cpu set_pcie tensix_col_enabled eth_enabled gddr_enabled l2cpu_enabled pcie_enabled];
          do 4 (split; [first [assumption|apply clear_bits_range; [lia|assumption]]|]);
          first [assumption|apply clear_bits_range; [lia|assumption]]].

Lemma harvest_tensix t m : harvested t (set_tensix (clear_bits (tensix_col_enabled t) m) t).
Proof. harvest_step. Qed.
Lemma harvest_eth t m : harvested t (set_eth (clear_bits (eth_enabled t) m) t).
Proof. harvest_step. Qed.
Lemma harvest_gddr t m : harvested t (set_gddr (clear_bits (gddr_enabled t) m) t).
Proof. harvest_step. Qed.
Lemma harvest_l2cpu t m : harvested t (set_l2cpu (clear_bits (l2cpu_enabled t) m) t).
Proof. harvest_step. Qed.
Lemma harvest_pcie t m : harvested t (set_pcie (clear_bits (pcie_enabled t) m) t).
Proof. harvest_step. Qed.
#[export] Hint Resolve harvest_tensix harvest_eth harvest_gddr harvest_l2cpu harvest_pcie : fw.

Lemma harvest_fold {A} (f : TileEnable -> A -> TileEnable) l t :
  (forall t a, harvested t (f t a)) -> harvested t (foldl f t l).
Proof.
  intros Hf. revert t. induction l as [|a l IH]; intros t; cbn; [reflexivity|].
  transitivity (f t a); [apply Hf|apply IH].
Qed.

Lemma foldl_tiles_keep {A B} (proj : TileEnable -> B) (f : TileEnable -> A -> TileEnable) l t :
  (forall t a, proj (f t a) = proj t) -> proj (foldl f t l) = proj t.
Proof.
  intros Hf. revert t. induction l as [|a l IH]; intros t; cbn; [done|]. by rewrite IH, Hf.
Qed.

Section fused.
Variable tt_bh_efuse_read : Z -> Z * Z.
Abbreviation fuse := (READ_FUNCTIONAL_EFUSE tt_bh_efuse_read).

Lemma harvest_ate t : harvested t (HarvestingATEFuses tt_bh_efuse_read t).
Proof.
  unfold HarvestingATEFuses. cbv zeta.
  repeat (etransitivity; [|apply harvest_fold; intros t1 a; case_match; [eauto with fw|reflexivity]]).
  etransitivity; [apply harvest_tensix|]. etransitivity; [apply harvest_eth|]. apply harvest_gddr.
Qed.

Lemma noc_to_tensix_total x : 0 <= x < NOC_X_SIZE -> exists i, NocToTensixPhysX x 0 = Some i.
Proof.
  intros Hx. assert (R : 0 <= 0 < NUM_NOCS) by (unfold NUM_NOCS; lia).
  pose proof (forall_grid NOC_X_SIZE (fun x r => match NocToTensixPhysX x 0 with Some _ => true | None => false end)
                eq_refl x 0 Hx R) as H. cbv beta in H. destruct (NocToTensixPhysX x 0) as [i|]; [by exists i|done].
Qed.

Lemma slt_map_v1_total : exists cols, GetTensixDisableSLTMapV1 tt_bh_efuse_read = Some cols.
Proof.
  unfold GetTensixDisableSLTMapV1. cbv zeta.
  match goal with |- context [for_loop _ 0 ?b 0] => set (body := b) end.
  destruct (for_loop_inv (fun _ _ => True) (Z.to_nat NOC_X_SIZE) 0 body 0) as (c & E & _); [done| |by exists c].
  intros i c Hi _. unfold body. case_match; [|by eexists].
  destruct (noc_to_tensix_total i) as (p & ->); [unfold NOC_X_SIZE in *; lia|]. by eexists.
Qed.

Lemma harvest_slt t : exists t', HarvestingSLTFuses tt_bh_efuse_read t = Some t' /\ harvested t t'.
Proof.
  unfold HarvestingSLTFuses. cbv zeta. case_match; [exists t; split; reflexivity|].
  assert (Hc : exists cols, (if fuse SLT_FUSE_MAP_VERSION =? 1 then GetTensixDisableSLTMapV1 tt_bh_efuse_read
                             else Some (fuse SLT_HARVESTED_TENSIX_COLUMNS)) = Some cols).
  { case_match; [apply slt_map_v1_total|by eexists]. }
  destruct Hc as (cols & ->). cbn [mbind option_bind]. eexists. split; [reflexivity|].
  etransitivity; [apply harvest_tensix|]. etransitivity; [apply harvest_eth|]. apply harvest_gddr.
Qed.

(** The tiles the fuses leave. *)
Definition fused_tiles (t : TileEnable) : option TileEnable :=
  if FusesValid tt_bh_efuse_read
  then HarvestingSLTFuses tt_bh_efuse_read (HarvestingATEFuses tt_bh_efuse_read t) else Some t.

Lemma fused_tiles_spec t : exists t', fused_tiles t = Some t' /\ harvested t t'.
Proof.
  unfold fused_tiles. destruct (FusesValid _); [|exists t; split; reflexivity].
  destruct (harvest_slt (HarvestingATEFuses tt_bh_efuse_read t)) as (t' & E & Hh). exists t'. split; [exact E|].
  etransitivity; [apply harvest_ate|exact Hh].
Qed.
End fused.

(** *** Exactly the tiles the fuses leave *)

Section exactly.
Variable tt_bh_efuse_read : Z -> Z * Z.
Abbreviation fuse := (READ_FUNCTIONAL_EFUSE tt_bh_efuse_read).

(** The SLT fuses are there, and in their first version name columns of NOC 0: sixteen of
    them, and column 16 when the bin says that one more was harvested. *)
Definition slt_valid : bool := Z.testbit (fuse SLT_ATE_SLT_STATUS) 1 && negb (fuse SLT_FUSE_MAP_VERSION =? 0).
Definition slt_bin : Z :=
  let b := fuse SLT_SLT_BINNING in if bits_get 8 8 b =? 0 then bits_get 0 8 b else bits_get 8 8 b.
Definition slt_noc_column (x : Z) : bool :=
  let cols := fuse SLT_HARVESTED_TENSIX_COLUMNS in
  let expected := if (3 <=? slt_bin) && (slt_bin <=? 5) then 2 else if slt_bin =? 2 then 1 else 0 in
  Z.testbit cols x || ((x =? 16) && (u8 (POPCOUNT cols) <? expected)).
Definition slt_column (i : Z) : bool :=
  if fuse SLT_FUSE_MAP_VERSION =? 1
  then existsb (fun x => slt_noc_column x && bool_decide (NocToTensixPhysX x 0 = Some i)) (seqZ 0 NOC_X_SIZE)
  else Z.testbit (fuse SLT_HARVESTED_TENSIX_COLUMNS) i.

(** Which tiles failed a test. *)
Definition column_failed (i : Z) : bool :=
  existsb (fun row => Z.testbit (fuse (ATE_TENSIX_ROW_TEST_STATUS row)) i) (seqZ 0 10) || (slt_valid && slt_column i).
Definition eth_failed (i : Z) : bool :=
  Z.testbit (fuse ATE_ETH_CTRL_TEST_STATUS) i || (slt_valid && Z.testbit (fuse SLT_ETH_CTRL_TEST_STATUS) i).
Definition gddr_failed (i : Z) : bool :=
  Z.testbit (fuse ATE_DDR_TEST_STATUS) i ||
  (slt_valid && (Z.testbit (fuse SLT_DDR_TEST_STATUS_12G) i || Z.testbit (fuse SLT_DDR_TEST_STATUS_14G) i ||
                 Z.testbit (fuse SLT_DDR_TEST_STATUS_16G) i) && negb ((i =? 3) && (fuse SLT_FUSE_MAP_VERSION <=? 2))).
Definition l2cpu_failed (i : Z) : bool := Z.testbit (fuse ATE_RISCV_L2_TEST_STATUS) (i * 4).
Definition pcie_failed (i : Z) : bool := bits_get (i * 2) 2 (fuse ATE_PCIE_SPEED_TEST) =? 3.

(** [f] has the tiles of [t] but those: all of them when the fuses are not to be trusted. *)
Definition fused_exactly (t f : TileEnable) : Prop :=
  let off (failed : bool) := FusesValid tt_bh_efuse_read && failed in
  (forall i, 0 <= i < 14 -> Z.testbit (tensix_col_enabled f) i = Z.testbit (tensix_col_enabled t) i && negb (off (column_failed i))) /\
  (forall i, 0 <= i < 14 -> Z.testbit (eth_enabled f) i = Z.testbit (eth_enabled t) i && negb (off (eth_failed i))) /\
  (forall i, 0 <= i < 8 -> Z.testbit (gddr_enabled f) i = Z.testbit (gddr_enabled t) i && negb (off (gddr_failed i))) /\
  (forall i, 0 <= i < 4 -> Z.testbit (l2cpu_enabled f) i = Z.testbit (l2cpu_enabled t) i && negb (off (l2cpu_failed i))) /\
  (forall i, 0 <= i < 2 -> Z.testbit (pcie_enabled f) i = Z.testbit (pcie_enabled t) i && negb (off (pcie_failed i))).

Lemma testbit_lors (g : Z -> Z) l acc i : Z.testbit (foldl (fun a r => Z.lor a (g r)) acc l) i = Z.testbit acc i || existsb (fun r => Z.testbit (g r) i) l.
Proof. revert acc. induction l as [|r l IH]; intros acc; cbn [foldl existsb]; [by rewrite orb_false_r|]. by rewrite IH, Z.lor_spec, orb_assoc. Qed.

(** Clearing the bits of a list of tiles that satisfy [p]. *)
Lemma clear_each (proj : TileEnable -> Z) set (p : Z -> bool) l t i :
  (forall v t, proj (set v t) = v) -> Forall (fun k => 0 <= k) l -> 0 <= i ->
  Z.testbit (proj (foldl (fun t k => if p k then set (clear_bits (proj t) (BIT k)) t else t) t l)) i =
    Z.testbit (proj t) i && negb (existsb (fun k => (k =? i) && p k) l).
Proof.
  intros Hset Hl Hi. revert t. induction Hl as [|k l Hk _ IH]; intros t; cbn [foldl existsb]; [by rewrite andb_true_r|].
  rewrite IH. destruct (p k); [rewrite Hset, clear_bits_testbit, bit_BIT by done|]; destruct (k =? i); cbn [andb orb negb]; rewrite ?andb_true_r, ?andb_false_r; done.
Qed.

Lemma existsb_eqb i n (p : Z -> bool) : 0 <= i < n -> existsb (fun k => (k =? i) && p k) (seqZ 0 n) = p i.
Proof.
  intros Hi. destruct (p i) eqn:E.
  - apply existsb_exists. exists i. rewrite <- list_elem_of_In, elem_of_seqZ, Z.eqb_refl, E. split; [lia|done].
  - apply not_true_iff_false. intros (k & _ & [->%Z.eqb_eq Hk]%andb_true_iff)%existsb_exists. congruence.
Qed.

Lemma tensix_column_range x : 0 <= x < NOC_X_SIZE -> exists i, NocToTensixPhysX x 0 = Some i /\ (0 <= i < 14 \/ i = 0xFF).
Proof.
  intros Hx. assert (R : 0 <= 0 < NUM_NOCS) by (unfold NUM_NOCS; lia).
  pose proof (forall_grid NOC_X_SIZE (fun x r => match NocToTensixPhysX x 0 with Some i => ((0 <=? i) && (i <? 14)) || (i =? 0xFF) | None => false end)
                eq_refl x 0 Hx R) as H. cbv beta in H. destruct (NocToTensixPhysX x 0) as [i|]; [|done]. exists i. split; [done|].
  apply orb_true_iff in H as [[H1%Z.leb_le H2%Z.ltb_lt]%andb_true_iff|H%Z.eqb_eq]; [left; lia|by right].
Qed.

Lemma lor_16 (cols x : Z) : 0 <= x -> forall q : bool, Z.testbit (if q then Z.lor cols (BIT 16) else cols) x = Z.testbit cols x || ((x =? 16) && q).
Proof.
  intros Hx []; [|by rewrite andb_false_r, orb_false_r]. rewrite Z.lor_spec, bit_BIT, andb_true_r by lia. by rewrite (Z.eqb_sym 16).
Qed.

Lemma slt_v1_exact : exists cols, GetTensixDisableSLTMapV1 tt_bh_efuse_read = Some cols /\
  forall i, 0 <= i < 14 -> Z.testbit cols i = existsb (fun x => slt_noc_column x && bool_decide (NocToTensixPhysX x 0 = Some i)) (seqZ 0 NOC_X_SIZE).
Proof.
  unfold GetTensixDisableSLTMapV1. cbv zeta.
  match goal with |- context [for_loop _ 0 ?b 0] => set (body := b) end.
  set (I := fun k c => forall i, 0 <= i < 14 -> Z.testbit c i = existsb (fun x => slt_noc_column x && bool_decide (NocToTensixPhysX x 0 = Some i)) (seqZ 0 k)).
  destruct (for_loop_inv I (Z.to_nat NOC_X_SIZE) 0 body 0) as (c & E & HI); [intros i Hi; by rewrite Z.bits_0| |by exists c].
  intros x c Hx HI. assert (Hcol : body x c = if slt_noc_column x then phys_x ← NocToTensixPhysX x 0; Some (if negb (phys_x =? 0xFF) then Z.lor c (BIT phys_x) else c) else Some c).
  { unfold body. rewrite land_BIT_eqb, negb_involutive by lia. unfold slt_noc_column, slt_bin.
    set (cols := fuse SLT_HARVESTED_TENSIX_COLUMNS). set (b := fuse SLT_SLT_BINNING).
    assert (Eb : (if negb (bits_get 8 8 b =? 0) then bits_get 8 8 b else bits_get 0 8 b) = (if bits_get 8 8 b =? 0 then bits_get 0 8 b else bits_get 8 8 b)) by (by destruct (_ =? 0)).
    rewrite Eb. set (bin := if bits_get 8 8 b =? 0 then _ else _). set (n := u8 (POPCOUNT cols)).
    assert (Hn : 0 <= n) by (pose proof (u8_range (POPCOUNT cols)) as Hu; unfold in_width in Hu; unfold n; lia).
    pose proof (lor_16 cols x ltac:(lia)) as E16.
    clearbody bin n cols.
    assert (E35 : ((bin =? 3) || (bin =? 4) || (bin =? 5)) = (3 <=? bin) && (bin <=? 5))
      by (destruct (Z.eqb_spec bin 3), (Z.eqb_spec bin 4), (Z.eqb_spec bin 5), (Z.leb_spec 3 bin), (Z.leb_spec bin 5); cbn; done || lia).
    rewrite E35.
    destruct ((3 <=? bin) && (bin <=? 5)) eqn:E3; cbn [andb].
    - assert (bin =? 2 = false) as -> by (apply Z.eqb_neq; apply andb_true_iff in E3 as [?%Z.leb_le _]; lia). cbn [andb]. by rewrite E16.
    - destruct (bin =? 2); cbn [andb]; [by rewrite E16|]. rewrite (proj2 (Z.ltb_ge n 0)), andb_false_r, orb_false_r by lia. done. }
  rewrite Hcol. change (0 + Z.of_nat (Z.to_nat NOC_X_SIZE)) with NOC_X_SIZE in Hx.
  assert (Hsnoc : forall i, existsb (fun x => slt_noc_column x && bool_decide (NocToTensixPhysX x 0 = Some i)) (seqZ 0 (x + 1)) =
    existsb (fun x => slt_noc_column x && bool_decide (NocToTensixPhysX x 0 = Some i)) (seqZ 0 x) || (slt_noc_column x && bool_decide (NocToTensixPhysX x 0 = Some i))).
  { intros i. rewrite seqZ_app, Z.add_0_l, existsb_app by lia. f_equal. change (seqZ x 1) with [0 + x]. rewrite Z.add_0_l. cbn [existsb]. by rewrite orb_false_r. }
  destruct (tensix_column_range x) as (p & Ep & Hp); [unfold NOC_X_SIZE in *; lia|]. rewrite Ep in Hsnoc. cbn [mbind option_bind].
  destruct (slt_noc_column x) eqn:Es.
  - rewrite Ep. cbn [mbind option_bind]. eexists. split; [done|]. intros i Hi. rewrite Hsnoc, <- HI by done. cbn [andb]. destruct Hp as [Hp| ->].
    + rewrite (proj2 (Z.eqb_neq p 0xFF)) by lia. cbn [negb]. rewrite Z.lor_spec, bit_BIT by lia. f_equal. apply eq_true_iff_eq. rewrite Z.eqb_eq, bool_decide_eq_true. split; [by intros ->|by intros [= ->]].
    + cbn [Z.eqb Pos.eqb negb]. rewrite bool_decide_eq_false_2 by (intros [= <-]; lia). by rewrite orb_false_r.
  - eexists. split; [done|]. intros i Hi. rewrite Hsnoc, <- HI by done. by rewrite orb_false_r.
Qed.

Lemma ate_exactly t : let a := HarvestingATEFuses tt_bh_efuse_read t in
  (forall i, 0 <= i -> Z.testbit (tensix_col_enabled a) i = Z.testbit (tensix_col_enabled t) i && negb (existsb (fun row => Z.testbit (fuse (ATE_TENSIX_ROW_TEST_STATUS row)) i) (seqZ 0 10))) /\
  (forall i, 0 <= i -> Z.testbit (eth_enabled a) i = Z.testbit (eth_enabled t) i && negb (Z.testbit (fuse ATE_ETH_CTRL_TEST_STATUS) i)) /\
  (forall i, 0 <= i -> Z.testbit (gddr_enabled a) i = Z.testbit (gddr_enabled t) i && negb (Z.testbit (fuse ATE_DDR_TEST_STATUS) i)) /\
  (forall i, 0 <= i < 4 -> Z.testbit (l2cpu_enabled a) i = Z.testbit (l2cpu_enabled t) i && negb (l2cpu_failed i)) /\
  (forall i, 0 <= i < 2 -> Z.testbit (pcie_enabled a) i = Z.testbit (pcie_enabled t) i && negb (pcie_failed i)).
Proof.
  unfold HarvestingATEFuses. cbv zeta.
  rewrite !(foldl_tiles_keep tensix_col_enabled), !(foldl_tiles_keep eth_enabled), !(foldl_tiles_keep gddr_enabled), (foldl_tiles_keep l2cpu_enabled _ (seqZ 0 2)) by (intros; by case_match).
  cbn [set_tensix set_eth set_gddr tensix_col_enabled eth_enabled gddr_enabled].
  assert (Hpos : forall n, Forall (fun k => 0 <= k) (seqZ 0 n)) by (intros n; apply Forall_seqZ; lia).
  split_and!.
  - intros i Hi. rewrite clear_bits_testbit by done. unfold ate_disabled_tensix_col. by rewrite testbit_lors, Z.bits_0.
  - intros i Hi. by rewrite clear_bits_testbit.
  - intros i Hi. by rewrite clear_bits_testbit.
  - intros i Hi. rewrite (clear_each l2cpu_enabled set_l2cpu (fun i => negb (Z.land (fuse ATE_RISCV_L2_TEST_STATUS) (BIT (i * 4)) =? 0))) by (done || lia).
    rewrite existsb_eqb, land_BIT_eqb, negb_involutive by lia. done.
  - intros i Hi. rewrite (clear_each pcie_enabled set_pcie (fun i => bits_get (i * 2) 2 (fuse ATE_PCIE_SPEED_TEST) =? 3)) by (done || lia).
    rewrite existsb_eqb by lia. f_equal. by rewrite (foldl_tiles_keep pcie_enabled) by (intros; by case_match).
Qed.

Lemma fused_tiles_exact t f : fused_tiles tt_bh_efuse_read t = Some f -> fused_exactly t f.
Proof.
  unfold fused_tiles, fused_exactly. destruct (FusesValid tt_bh_efuse_read); cbn [andb].
  2: { intros [= <-]. split_and!; intros; by rewrite andb_true_r. }
  destruct (ate_exactly t) as (A1 & A2 & A3 & A4 & A5). set (a := HarvestingATEFuses tt_bh_efuse_read t) in *.
  unfold HarvestingSLTFuses. cbv zeta. rewrite land_BIT_eqb by lia.
  assert (Ev : negb (Z.testbit (fuse SLT_ATE_SLT_STATUS) 1) || (fuse SLT_FUSE_MAP_VERSION =? 0) = negb slt_valid) by (unfold slt_valid; by rewrite negb_andb, negb_involutive).
  rewrite Ev. unfold column_failed, eth_failed, gddr_failed. destruct slt_valid; cbn [negb andb].
  2: { intros [= <-]. split_and!; [intros i Hi; rewrite orb_false_r; apply A1; lia|intros i Hi; rewrite orb_false_r; apply A2; lia|intros i Hi; rewrite orb_false_r; apply A3; lia|done|done]. }
  assert (Hc : exists cols, (if fuse SLT_FUSE_MAP_VERSION =? 1 then GetTensixDisableSLTMapV1 tt_bh_efuse_read else Some (fuse SLT_HARVESTED_TENSIX_COLUMNS)) = Some cols /\
    forall i, 0 <= i < 14 -> Z.testbit cols i = slt_column i).
  { unfold slt_column. destruct (_ =? 1); [apply slt_v1_exact|exists (fuse SLT_HARVESTED_TENSIX_COLUMNS); split; [reflexivity|intros i Hi; reflexivity]]. }
  destruct Hc as (cols & -> & Hcols). cbn [mbind option_bind]. intros E%(inj Some). rewrite <- E. clear E.
  cbn [set_tensix set_eth set_gddr tensix_col_enabled eth_enabled gddr_enabled l2cpu_enabled pcie_enabled]. split_and!.
  - intros i Hi. rewrite clear_bits_testbit, A1, Hcols by lia. by rewrite negb_orb, andb_assoc.
  - intros i Hi. rewrite clear_bits_testbit, A2 by lia. by rewrite negb_orb, andb_assoc.
  - intros i Hi. rewrite clear_bits_testbit, A3 by lia. rewrite negb_orb, andb_assoc. f_equal. f_equal.
    destruct (fuse SLT_FUSE_MAP_VERSION <=? 2); rewrite ?clear_bits_testbit, !Z.lor_spec, ?bit_BIT, ?andb_false_r, ?andb_true_r by lia; [|done].
    by rewrite (Z.eqb_sym 3 i).
  - done.
  - done.
Qed.
End exactly.

(** ** The properties *)

Definition same_tiles (a b : TileEnable) : Prop :=
  tensix_col_enabled a = tensix_col_enabled b /\ eth_enabled a = eth_enabled b /\ gddr_enabled a = gddr_enabled b /\
  l2cpu_enabled a = l2cpu_enabled b /\ pcie_enabled a = pcie_enabled b.

Lemma pcie_serdes_total fw inst one two t :
  0 <= inst < 2 -> length (pcie_mode fw) = 2%nat -> length (num_serdes fw) = 2%nat ->
  length (pcie_usage t) = 2%nat -> length (pcie_num_serdes t) = 2%nat ->
  exists t', pcie_serdes fw inst one two t = Some t' /\ same_tiles t' t /\
    length (pcie_usage t') = 2%nat /\ length (pcie_num_serdes t') = 2%nat /\
    aget (pcie_usage t') inst = aget (pcie_mode fw) inst /\
    (forall n, aget (pcie_num_serdes t') inst = Some n -> n <= 2).
Proof.
  intros Hi Lm Ln Lu Ls. unfold pcie_serdes.
  destruct (aget_in (pcie_mode fw) inst) as (mode & Em); [lia|]. destruct (aget_in (num_serdes fw) inst) as (n & En); [lia|].
  rewrite Em, En. cbn [mbind option_bind]. rewrite aset_in by lia. cbn [mbind option_bind].
  rewrite !aset_in by lia.
  case_match; cbn [mbind option_bind]; (eexists; split; [reflexivity|]; split; [repeat split|]);
    cbn [set_serdes pcie_usage pcie_num_serdes]; rewrite !length_insert;
    (split; [done|]; split; [done|]; split; [apply aget_insert; lia|]); intros k; rewrite aget_insert by lia; intros [= <-]; lia.
Qed.

Definition full_tiles (t : TileEnable) : TileEnable :=
  MkTiles (BIT_MASK 14) (BIT_MASK 14) true true (BIT_MASK 12) (BIT_MASK 8) (BIT_MASK 4) (BIT_MASK 2)
          (pcie_usage t) (pcie_num_serdes t).

Lemma full_tiles_wf t : tiles_wf (full_tiles t).
Proof. unfold tiles_wf, full_tiles, BIT_MASK. cbn [tensix_col_enabled eth_enabled gddr_enabled l2cpu_enabled pcie_enabled]. repeat split; done. Qed.

Lemma bits_of_length_range x n : 0 <= n <= 32 -> 0 <= x < 2 ^ n -> len (bits_of x) <= n.
Proof.
  intros Hn Hx.
  assert (Hs : bits_of x ⊆+ seqZ 0 n).
  { apply NoDup_submseteq; [apply bits_of_NoDup|]. intros i [Hi ?]%elem_of_bits_of. apply elem_of_seqZ.
    destruct (Z.lt_ge_cases i n); [lia|]. by rewrite (testbit_above x n) in Hi. }
  apply submseteq_length in Hs. rewrite length_seqZ in Hs. lia.
Qed.

(** The three-of-a-group field is full exactly when its three bits are set. *)
Lemma group_full x lo : 0 <= lo ->
  bits_get lo 3 x = BIT_MASK 3 -> Z.testbit (clear_bits x (BIT (lo + 1))) (lo + 1) = false.
Proof.
  intros Hlo _. rewrite clear_bits_testbit by lia. unfold BIT. rewrite Z.shiftl_1_l, Z.pow2_bits_true by lia. apply andb_false_r.
Qed.

Lemma group_not_full x lo : 0 <= lo ->
  bits_get lo 3 x <> BIT_MASK 3 -> exists i, lo <= i <= lo + 2 /\ Z.testbit x i = false.
Proof.
  intros Hlo Hne.
  destruct (Z.testbit x lo) eqn:E0; [|exists lo; split; [lia|done]].
  destruct (Z.testbit x (lo + 1)) eqn:E1; [|exists (lo + 1); split; [lia|done]].
  destruct (Z.testbit x (lo + 2)) eqn:E2; [|exists (lo + 2); split; [lia|done]].
  exfalso. apply Hne. apply Z.bits_inj'. intros i Hi. rewrite bits_get_spec by lia.
  unfold BIT_MASK. rewrite testbit_ones_in by lia. destruct (Z.ltb_spec i 3); [|done].
  assert (i = 0 \/ i = 1 \/ i = 2) as [->|[-> | ->]] by lia; cbn [andb].
  - by rewrite Z.add_0_l.
  - by rewrite Z.add_comm.
  - by rewrite Z.add_comm.
Qed.

(** One of a group of three Ethernet instances is left out. *)
Definition drop_middle (lo : Z) (x : Z) : Z :=
  if bits_get lo 3 x =? BIT_MASK 3 then clear_bits x (BIT (lo + 1)) else x.

Lemma drop_middle_spec lo x : 0 <= lo ->
  (exists i, lo <= i <= lo + 2 /\ Z.testbit (drop_middle lo x) i = false) /\
  (forall i, 0 <= i -> i <> lo + 1 -> Z.testbit (drop_middle lo x) i = Z.testbit x i) /\ subset (drop_middle lo x) x.
Proof.
  intros Hlo. unfold drop_middle. destruct (Z.eqb_spec (bits_get lo 3 x) (BIT_MASK 3)) as [E|E].
  - split; [exists (lo + 1); split; [lia|by apply group_full]|]. split; [|apply clear_bits_subset].
    intros i Hi Hne. rewrite clear_bits_testbit by done. rewrite bit_BIT by lia.
    destruct (Z.eqb_spec (lo + 1) i); [lia|]. apply andb_true_r.
  - split; [by apply group_not_full|]. split; [done|reflexivity].
Qed.


Lemma if_tensix (b : bool) v t : (if b then set_tensix v t else t) = set_tensix (if b then v else tensix_col_enabled t) t.
Proof. by destruct b, t. Qed.
Lemma if_eth (b : bool) v t : (if b then set_eth v t else t) = set_eth (if b then v else eth_enabled t) t.
Proof. by destruct b, t. Qed.
Lemma if_gddr (b : bool) v t : (if b then set_gddr v t else t) = set_gddr (if b then v else gddr_enabled t) t.
Proof. by destruct b, t. Qed.

(** The columns soft harvesting leaves: at most [14 - count], the lowest ones. *)
Definition kept_columns (count cols : Z) : Z :=
  let disabled := u8 (14 - POPCOUNT cols) in
  if disabled <? count then soft_disable_columns 14 (u8 (count - disabled)) cols else cols.

Lemma kept_columns_spec count cols :
  0 <= count < 256 -> 0 <= cols < 2 ^ 14 ->
  bits_of (kept_columns count cols) = take (Z.to_nat (14 - count)) (bits_of cols) /\
  0 <= kept_columns count cols /\ subset (kept_columns count cols) cols.
Proof.
  intros Hc Hx. pose proof (bits_of_length_range cols 14 ltac:(lia) Hx) as Hl. 
  unfold kept_columns. rewrite popcount_bits. cbv zeta.
  rewrite !(wrap_small 8 (14 - Z.of_nat (length (bits_of cols)))) by (split; [lia|change (2 ^ 8) with 256; lia]).
  destruct (Z.ltb_spec (14 - Z.of_nat (length (bits_of cols))) count) as [Hlt|Hge].
  - rewrite (wrap_small 8) by (unwrap; lia).
    destruct (soft_disable_spec 14 (count - (14 - Z.of_nat (length (bits_of cols)))) cols) as (-> & ? & ?); [lia|lia|exact Hx|].
    split; [|by split]. f_equal. lia.
  - rewrite take_ge by lia. split; [done|]. split; [lia|reflexivity].
Qed.

(** The GDDRs soft harvesting leaves: outside the mask, and GDDR 3 less when too many remain. *)
Definition kept_gddr (fw : FwTable) (gddr : Z) : Z :=
  let g := if has_dram_table fw then clear_bits gddr (soft_harvest_dram_mask fw) else gddr in
  if u8 (8 - dram_disable_count fw) <? POPCOUNT g then clear_bits g (BIT 3) else g.

Lemma kept_gddr_subset fw g : subset (kept_gddr fw g) g.
Proof.
  unfold kept_gddr. cbv zeta. destruct (_ <? _); destruct (has_dram_table fw);
    repeat (etransitivity; [apply clear_bits_subset|]); reflexivity.
Qed.

(** Soft harvesting, field by field. *)
Lemma soft_harvesting_eq fw t :
  soft_harvesting fw t =
  set_gddr (kept_gddr fw (gddr_enabled t))
    (set_eth (if eth_disabled fw then 0 else drop_middle 7 (drop_middle 4 (eth_enabled t)))
      (set_tensix (kept_columns (tensix_col_disable_count fw) (tensix_col_enabled t)) t)).
Proof.
  unfold soft_harvesting. cbv zeta. repeat first [rewrite if_eth|rewrite if_tensix|rewrite if_gddr].
  destruct t as [tx et e5 e8 sc gd l2 pc us ns]. reflexivity.
Qed.

Lemma subset_nonneg_range a b n : 0 <= n -> 0 <= a -> subset a b -> 0 <= b < 2 ^ n -> 0 <= a < 2 ^ n.
Proof. intros. by apply (subset_range a b). Qed.

Lemma drop_middle_range lo x n : 0 <= n -> 0 <= x < 2 ^ n -> 0 <= drop_middle lo x < 2 ^ n.
Proof. intros. unfold drop_middle. case_match; [by apply clear_bits_range|done]. Qed.

Lemma kept_gddr_range fw g n : 0 <= n -> 0 <= g < 2 ^ n -> 0 <= kept_gddr fw g < 2 ^ n.
Proof. intros. unfold kept_gddr. cbv zeta. repeat case_match; auto using clear_bits_range. Qed.

Lemma harvest_soft fw t :
  0 <= tensix_col_disable_count fw < 256 -> tiles_wf t ->
  tiles_le (soft_harvesting fw t) t /\ tiles_wf (soft_harvesting fw t).
Proof.
  intros Hc (Wt & We & Wg & Wl & Wp). rewrite soft_harvesting_eq.
  destruct (kept_columns_spec _ _ Hc Wt) as (_ & Hn & Hs).
  unfold tiles_le, tiles_wf.
  cbn [set_tensix set_eth set_gddr tensix_col_enabled eth_enabled gddr_enabled l2cpu_enabled pcie_enabled].
  split.
  - split; [done|]. split; [|split; [apply kept_gddr_subset|by split]].
    case_match; [intros i _; by rewrite Z.bits_0|].
    etransitivity; apply drop_middle_spec; lia.
  - split; [by apply (subset_range _ (tensix_col_enabled t))|]. split; [|split; [by apply kept_gddr_range|done]].
    case_match; [done|]. by repeat apply drop_middle_range.
Qed.

(** The two PCIe instances of [CalculateHarvesting]. *)
Lemma pcie_instances fw t :
  length (pcie_mode fw) = 2%nat -> length (num_serdes fw) = 2%nat ->
  length (pcie_usage t) = 2%nat -> length (pcie_num_serdes t) = 2%nat ->
  exists t', (t ← pcie_serdes fw 0 (Z.lor (BIT 0) (BIT 1)) (Z.lor (Z.lor (BIT 0) (BIT 1)) (Z.lor (BIT 2) (BIT 3))) t;
              pcie_serdes fw 1 (Z.lor (BIT 11) (BIT 10)) (Z.lor (Z.lor (BIT 11) (BIT 10)) (Z.lor (BIT 9) (BIT 8))) t)
             = Some t' /\ same_tiles t' t /\ length (pcie_usage t') = 2%nat.
Proof.
  intros Lm Ln Lu Ls.
  destruct (pcie_serdes_total fw 0 (Z.lor (BIT 0) (BIT 1)) (Z.lor (Z.lor (BIT 0) (BIT 1)) (Z.lor (BIT 2) (BIT 3))) t)
    as (t1 & -> & (E1 & E2 & E3 & E4 & E5) & L1 & L2 & _); try done.
  cbn [mbind option_bind].
  destruct (pcie_serdes_total fw 1 (Z.lor (BIT 11) (BIT 10)) (Z.lor (Z.lor (BIT 11) (BIT 10)) (Z.lor (BIT 9) (BIT 8))) t1)
    as (t2 & E & (F1 & F2 & F3 & F4 & F5) & L & _); try done.
  exists t2. split; [exact E|]. split; [|exact L]. repeat split; congruence.
Qed.

Section calculate.
Variable tt_bh_efuse_read : Z -> Z * Z.

Lemma enabled_harvesting_spec fw t :
  tiles_wf t -> 0 <= tensix_col_disable_count fw < 256 ->
  exists f, fused_tiles tt_bh_efuse_read t = Some f /\ harvested t f /\
    enabled_harvesting tt_bh_efuse_read fw t = Some (soft_harvesting fw f) /\
    tiles_le (soft_harvesting fw f) f /\ tiles_wf (soft_harvesting fw f).
Proof.
  intros Hwf Hcount. destruct (fused_tiles_spec tt_bh_efuse_read t) as (f & Ef & Hh). exists f.
  split; [exact Ef|]. split; [exact Hh|]. pose proof Hh as [_ Hfw]. specialize (Hfw Hwf).
  split; [|by apply harvest_soft]. unfold enabled_harvesting. fold (fused_tiles tt_bh_efuse_read t). by rewrite Ef.
Qed.

Lemma fused_tiles_pcie t f :
  fused_tiles tt_bh_efuse_read t = Some f -> pcie_usage f = pcie_usage t /\ pcie_num_serdes f = pcie_num_serdes t.
Proof.
  assert (Ha : forall t, pcie_usage (HarvestingATEFuses tt_bh_efuse_read t) = pcie_usage t /\
                         pcie_num_serdes (HarvestingATEFuses tt_bh_efuse_read t) = pcie_num_serdes t).
  { intros t1. unfold HarvestingATEFuses. cbv zeta.
    by rewrite !(foldl_tiles_keep pcie_usage), !(foldl_tiles_keep pcie_num_serdes) by (intros; by case_match). }
  unfold fused_tiles. destruct (FusesValid _); [|intros E%(inj Some); by rewrite <- E].
  unfold HarvestingSLTFuses. cbv zeta. destruct (_ || _); [intros E%(inj Some); rewrite <- E; apply Ha|].
  destruct (if _ =? 1 then _ else _) as [cols|]; [|done]. cbn [mbind option_bind]. intros E%(inj Some). rewrite <- E.
  cbn [set_tensix set_eth set_gddr pcie_usage pcie_num_serdes]. apply Ha.
Qed.

Lemma group_off lo e : lo = 4 \/ lo = 7 ->
  exists i, lo <= i <= lo + 2 /\ Z.testbit (drop_middle 7 (drop_middle 4 e)) i = false.
Proof.
  intros [-> | ->].
  - destruct (drop_middle_spec 4 e ltac:(lia)) as ((i & Hi & E) & _).
    destruct (drop_middle_spec 7 (drop_middle 4 e) ltac:(lia)) as (_ & Hk & _).
    exists i. split; [done|]. rewrite Hk by lia. exact E.
  - destruct (drop_middle_spec 7 (drop_middle 4 e) ltac:(lia)) as (H & _). exact H.
Qed.

(** [CalculateHarvesting] with harvesting enabled: the fuses, then soft harvesting. *)
Lemma calculate_spec fw t :
  harvesting_en fw = true -> 0 <= tensix_col_disable_count fw < 256 ->
  length (pcie_mode fw) = 2%nat -> length (num_serdes fw) = 2%nat ->
  length (pcie_usage t) = 2%nat -> length (pcie_num_serdes t) = 2%nat ->
  exists f t', fused_tiles tt_bh_efuse_read (full_tiles t) = Some f /\
    CalculateHarvesting tt_bh_efuse_read fw t = Some t' /\ same_tiles t' (soft_harvesting fw f) /\
    tiles_wf f /\ tiles_wf t' /\ tiles_le t' f /\ length (pcie_usage t') = 2%nat.
Proof.
  intros He Hcount Lm Ln Lu Ls.
  destruct (enabled_harvesting_spec fw (full_tiles t) (full_tiles_wf t) Hcount) as (f & Ef & [_ Hfw] & Es & Hle & Hwf).
  specialize (Hfw (full_tiles_wf t)). exists f.
  unfold CalculateHarvesting. cbv zeta. fold (full_tiles t). rewrite He, Es. cbn [mbind option_bind].
  destruct (fused_tiles_pcie _ _ Ef) as [U1 U2].
  pose proof (soft_harvesting_eq fw f) as Eq.
  destruct (pcie_instances fw (soft_harvesting fw f)) as (t' & E & Hs & Lu'); [done|done| | |].
  1,2: rewrite Eq; cbn [set_tensix set_eth set_gddr pcie_usage pcie_num_serdes]; rewrite ?U1, ?U2; assumption.
  exists t'. split; [exact Ef|]. split; [exact E|]. split; [exact Hs|]. split; [exact Hfw|].
  destruct Hs as (E1 & E2 & E3 & E4 & E5).
  unfold tiles_wf, tiles_le in *. rewrite <- E1, <- E2, <- E3, <- E4, <- E5 in Hwf, Hle.
  split; [exact Hwf|]. split; [exact Hle|exact Lu'].
Qed.

(** The Ethernet groups that [soft_harvesting] leaves incomplete. *)
Lemma soft_harvesting_groups fw f lo : lo = 4 \/ lo = 7 ->
  exists i, lo <= i <= lo + 2 /\ Z.testbit (eth_enabled (soft_harvesting fw f)) i = false.
Proof.
  intros Hlo. rewrite soft_harvesting_eq. cbn [set_tensix set_eth set_gddr eth_enabled].
  destruct (eth_disabled fw); [exists lo; split; [lia|apply Z.bits_0]|by apply group_off].
Qed.

(** C8: With harvesting enabled, [CalculateHarvesting] never faults and only
    ever removes tiles: the result lies within the chip and within what the
    fuses leave, which is every tile of every kind but exactly those that failed a test (ATE or SLT), if the fuses
    are valid; L2CPU clusters and PCIe instances are lost to the fuses alone; the Tensix columns kept are the lowest [14 - count] of those
    the fuses leave; at least one of Ethernet 4-6 and one of 7-9 is off (so
    that the rest can be numbered), none but 5 and 8 for that, and all are when the table says so; a GDDR
    the fuses leave is lost only to the soft-harvesting mask or because it is
    GDDR 3. *)
Theorem calculate_harvesting_ok fw t :
  harvesting_en fw = true -> 0 <= tensix_col_disable_count fw < 256 ->
  length (pcie_mode fw) = 2%nat -> length (num_serdes fw) = 2%nat ->
  length (pcie_usage t) = 2%nat -> length (pcie_num_serdes t) = 2%nat ->
  exists f t', fused_tiles tt_bh_efuse_read (full_tiles t) = Some f /\
    CalculateHarvesting tt_bh_efuse_read fw t = Some t' /\
    tiles_wf t' /\ tiles_le t' f /\ fused_exactly tt_bh_efuse_read (full_tiles t) f /\
    l2cpu_enabled t' = l2cpu_enabled f /\ pcie_enabled t' = pcie_enabled f /\
    bits_of (tensix_col_enabled t') =
      take (Z.to_nat (14 - tensix_col_disable_count fw)) (bits_of (tensix_col_enabled f)) /\
    (exists i, 4 <= i <= 6 /\ Z.testbit (eth_enabled t') i = false) /\
    (exists i, 7 <= i <= 9 /\ Z.testbit (eth_enabled t') i = false) /\
    (eth_disabled fw = true -> eth_enabled t' = 0) /\
    (eth_disabled fw = false -> forall i, 0 <= i -> i <> 5 -> i <> 8 -> Z.testbit (eth_enabled t') i = Z.testbit (eth_enabled f) i) /\
    (forall i, 0 <= i -> i <> 3 -> Z.testbit (gddr_enabled f) i = true ->
       (has_dram_table fw = true -> Z.testbit (soft_harvest_dram_mask fw) i = false) ->
       Z.testbit (gddr_enabled t') i = true).
Proof.
  intros He Hcount Lm Ln Lu Ls.
  destruct (calculate_spec fw t He Hcount Lm Ln Lu Ls) as (f & t' & Ef & E & Hs & Hfw & Hwf & Hle & _).
  exists f, t'. split; [exact Ef|]. split; [exact E|]. split; [exact Hwf|]. split; [exact Hle|].
  split; [by apply fused_tiles_exact|].
  destruct Hs as (E1 & E2 & E3 & E4 & E5). rewrite E1, E2, E3, E4, E5. clear E.
  pose proof (soft_harvesting_groups fw f) as Hgroup.
  rewrite soft_harvesting_eq in *. cbn [set_tensix set_eth set_gddr tensix_col_enabled eth_enabled gddr_enabled] in *.
  cbn [l2cpu_enabled pcie_enabled]. split; [done|]. split; [done|]. destruct Hfw as (Wt & _). split; [by apply kept_columns_spec|].
  split; [apply Hgroup; by left|]. split; [apply Hgroup; by right|].
  split; [by intros ->|]. split.
  { intros -> i Hi H5 H8. destruct (drop_middle_spec 7 (drop_middle 4 (eth_enabled f)) ltac:(lia)) as (_ & -> & _); [|done|lia].
    by destruct (drop_middle_spec 4 (eth_enabled f) ltac:(lia)) as (_ & -> & _); [|done|lia]. }
  intros i Hi H3 Hg Hm. unfold kept_gddr. cbv zeta.
  assert (Hg' : Z.testbit (if has_dram_table fw then clear_bits (gddr_enabled f) (soft_harvest_dram_mask fw)
                           else gddr_enabled f) i = true).
  { destruct (has_dram_table fw); [|exact Hg]. by rewrite clear_bits_testbit, Hg, Hm by done. }
  destruct (_ <? _); [|exact Hg']. rewrite clear_bits_testbit, Hg' by done. unfold BIT.
  rewrite Z.shiftl_1_l, Z.pow2_bits_eqb by lia. by destruct (Z.eqb_spec 3 i); [lia|].
Qed.
End calculate.

(** No fuses blown, two columns and one GDDR to disable: the two top columns
    (12 and 13), Ethernet 5 and 8, and GDDR 3 go. *)
Example calculate_harvesting_ok_witness :
  let fw := MkFwTable true 2 false 1 false 0 [1; 0] [2; 4] in
  let efuse := fun _ : Z => (0, 0) in
  exists f t', fused_tiles efuse (full_tiles tile_enable_default) = Some f /\
    CalculateHarvesting efuse fw tile_enable_default = Some t' /\
    tiles_le t' f /\ tensix_col_enabled t' = 0xFFF /\ eth_enabled t' = 0x3EDF /\ gddr_enabled t' = 0xF7.
Proof.
  cbv zeta.
  destruct (calculate_harvesting_ok (fun _ : Z => (0, 0)) (MkFwTable true 2 false 1 false 0 [1; 0] [2; 4])
              tile_enable_default) as (f & t' & Ef & E & _ & Hle & _); try reflexivity; [cbn; lia|].
  exists f, t'. split; [exact Ef|]. split; [exact E|]. split; [exact Hle|].
  vm_compute in E. injection E as <-. repeat split; reflexivity.
Defined.
