(* ===== verification/Telemetry.v ===== *)
(** * The telemetry table ([lib/tenstorrent/bh_arc/telemetry.c], [telemetry_internal.c])

    The table of 32-bit words that the host reads: which tag is where, the words
    that are written once and those that are updated every 100 ms, the conversions
    to 16.16 fixed point, and the cached readings that several components share.
    What the other components report is an argument ([static_sources],
    [dynamic_sources], [readings]).  Floats are rationals as in [Aiclk]; [rnd] is the
    rounding of a float operation. *)

From Stdlib Require Import QArith Qround Qabs.
From S2P Require Import Prelude Aiclk Throttler Harvesting.
#[local] Open Scope Z_scope.

(** ** Tags *)

Definition TAG_BOARD_ID_HIGH : Z := 1.
Definition TAG_BOARD_ID_LOW : Z := 2.
Definition TAG_ASIC_ID : Z := 3.
Definition TAG_HARVESTING_STATE : Z := 4.
Definition TAG_UPDATE_TELEM_SPEED : Z := 5.
Definition TAG_VCORE : Z := 6.
Definition TAG_TDP : Z := 7.
Definition TAG_TDC : Z := 8.
Definition TAG_VDD_LIMITS : Z := 9.
Definition TAG_THM_LIMIT_SHUTDOWN : Z := 10.
Definition TAG_ASIC_TEMPERATURE : Z := 11.
Definition TAG_VREG_TEMPERATURE : Z := 12.
Definition TAG_BOARD_TEMPERATURE : Z := 13.
Definition TAG_AICLK : Z := 14.
Definition TAG_AXICLK : Z := 15.
Definition TAG_ARCCLK : Z := 16.
Definition TAG_L2CPUCLK0 : Z := 17.
Definition TAG_L2CPUCLK1 : Z := 18.
Definition TAG_L2CPUCLK2 : Z := 19.
Definition TAG_L2CPUCLK3 : Z := 20.
Definition TAG_ETH_LIVE_STATUS : Z := 21.
Definition TAG_GDDR_STATUS : Z := 22.
Definition TAG_GDDR_SPEED : Z := 23.
Definition TAG_ETH_FW_VERSION : Z := 24.
Definition TAG_GDDR_FW_VERSION : Z := 25.
Definition TAG_DM_APP_FW_VERSION : Z := 26.
Definition TAG_DM_BL_FW_VERSION : Z := 27.
Definition TAG_FLASH_BUNDLE_VERSION : Z := 28.
Definition TAG_CM_FW_VERSION : Z := 29.
Definition TAG_L2CPU_FW_VERSION : Z := 30.
Definition TAG_FAN_SPEED : Z := 31.
Definition TAG_TIMER_HEARTBEAT : Z := 32.
Definition TAG_TELEM_ENUM_COUNT : Z := 33.
Definition TAG_ENABLED_TENSIX_COL : Z := 34.
Definition TAG_ENABLED_ETH : Z := 35.
Definition TAG_ENABLED_GDDR : Z := 36.
Definition TAG_ENABLED_L2CPU : Z := 37.
Definition TAG_PCIE_USAGE : Z := 38.
Definition TAG_INPUT_CURRENT : Z := 39.
Definition TAG_NOC_TRANSLATION : Z := 40.
Definition TAG_FAN_RPM : Z := 41.
Definition TAG_GDDR_0_1_TEMP : Z := 42.
Definition TAG_GDDR_2_3_TEMP : Z := 43.
Definition TAG_GDDR_4_5_TEMP : Z := 44.
Definition TAG_GDDR_6_7_TEMP : Z := 45.
Definition TAG_GDDR_0_1_CORR_ERRS : Z := 46.
Definition TAG_GDDR_2_3_CORR_ERRS : Z := 47.
Definition TAG_GDDR_4_5_CORR_ERRS : Z := 48.
Definition TAG_GDDR_6_7_CORR_ERRS : Z := 49.
Definition TAG_GDDR_UNCORR_ERRS : Z := 50.
Definition TAG_MAX_GDDR_TEMP : Z := 51.
Definition TAG_ASIC_LOCATION : Z := 52.
Definition TAG_BOARD_POWER_LIMIT : Z := 53.
Definition TAG_INPUT_POWER : Z := 54.
Definition TAG_TDC_LIMIT_MAX : Z := 55.
Definition TAG_THM_LIMIT_THROTTLE : Z := 56.
Definition TAG_FW_BUILD_DATE : Z := 57.
Definition TAG_TT_FLASH_VERSION : Z := 58.
Definition TAG_ENABLED_TENSIX_ROW : Z := 59.
Definition TAG_THERM_TRIP_COUNT : Z := 60.
Definition TAG_ASIC_ID_HIGH : Z := 61.
Definition TAG_ASIC_ID_LOW : Z := 62.
Definition TAG_AICLK_LIMIT_MAX : Z := 63.
Definition TAG_TDP_LIMIT_MAX : Z := 64.
Definition TAG_AICLK_ARB_MIN : Z := 65.
Definition TAG_AICLK_ARB_MAX : Z := 66.
Definition TAG_ENABLED_MIN_ARB : Z := 67.
Definition TAG_ENABLED_MAX_ARB : Z := 68.
Definition TAG_AICLK_PPM_INFO : Z := 69.
Definition TAG_HOST_AICLK_LIMIT : Z := 70.
Definition TAG_SMBUS_ERRORS : Z := 71.
Definition TAG_GDDR_MRISC_NOC2AXI_PORT : Z := 72.
Definition TAG_GDDR_WEST_IO_POWER : Z := 73.
Definition TAG_GDDR_EAST_IO_POWER : Z := 74.
Definition TAG_KERNEL_THROTTLER : Z := 75.
Definition TAG_NOP_START_COUNT : Z := 76.
Definition TAG_NOP_ON_DURATION : Z := 77.
Definition TAG_FW_CAPABILITIES_0 : Z := 78.
Definition TAG_FW_ACTIVE_CONFIG_0 : Z := 79.
Definition TAG_COUNT : Z := 80.
Definition TELEMETRY_VERSION : Z := 0x00000100.
Definition TELEM_OFFSET (tag : Z) : Z := tag.
Definition NUM_GDDR : Z := 8.
Definition T_J_SHUTDOWN : Z := 110.

Record telemetry_entry := MkEntry { tag : Z; offset : Z }.
#[export] Instance telemetry_entry_eq : EqDecision telemetry_entry.
Proof. solve_decision. Defined.

Definition entry (t : Z) : telemetry_entry := MkEntry t (TELEM_OFFSET t).
(** An element without an initialiser. *)
Definition no_entry : telemetry_entry := MkEntry 0 0.

Definition tag_table : list telemetry_entry :=
  [entry TAG_BOARD_ID_HIGH; entry TAG_BOARD_ID_LOW; no_entry; entry TAG_HARVESTING_STATE;
   entry TAG_UPDATE_TELEM_SPEED; entry TAG_VCORE; entry TAG_TDP; entry TAG_TDC; entry TAG_VDD_LIMITS;
   entry TAG_THM_LIMIT_SHUTDOWN; entry TAG_ASIC_TEMPERATURE; entry TAG_VREG_TEMPERATURE;
   entry TAG_BOARD_TEMPERATURE; entry TAG_AICLK; entry TAG_AXICLK; entry TAG_ARCCLK; entry TAG_L2CPUCLK0;
   entry TAG_L2CPUCLK1; entry TAG_L2CPUCLK2; entry TAG_L2CPUCLK3; entry TAG_ETH_LIVE_STATUS;
   entry TAG_GDDR_STATUS; entry TAG_GDDR_SPEED; entry TAG_ETH_FW_VERSION; entry TAG_GDDR_FW_VERSION;
   entry TAG_DM_APP_FW_VERSION; entry TAG_DM_BL_FW_VERSION; entry TAG_FLASH_BUNDLE_VERSION;
   entry TAG_CM_FW_VERSION; entry TAG_L2CPU_FW_VERSION; entry TAG_FAN_SPEED; entry TAG_TIMER_HEARTBEAT;
   entry TAG_ENABLED_TENSIX_COL; entry TAG_ENABLED_ETH; entry TAG_ENABLED_GDDR; entry TAG_ENABLED_L2CPU;
   entry TAG_PCIE_USAGE; entry TAG_NOC_TRANSLATION; entry TAG_FAN_RPM; entry TAG_GDDR_0_1_TEMP;
   entry TAG_GDDR_2_3_TEMP; entry TAG_GDDR_4_5_TEMP; entry TAG_GDDR_6_7_TEMP; entry TAG_GDDR_0_1_CORR_ERRS;
   entry TAG_GDDR_2_3_CORR_ERRS; entry TAG_GDDR_4_5_CORR_ERRS; entry TAG_GDDR_6_7_CORR_ERRS;
   entry TAG_GDDR_UNCORR_ERRS; entry TAG_MAX_GDDR_TEMP; entry TAG_ASIC_LOCATION; entry TAG_BOARD_POWER_LIMIT;
   entry TAG_INPUT_POWER; entry TAG_ASIC_ID_HIGH; entry TAG_ASIC_ID_LOW; entry TAG_THERM_TRIP_COUNT;
   entry TAG_TELEM_ENUM_COUNT; entry TAG_AICLK_LIMIT_MAX; entry TAG_TDC_LIMIT_MAX;
   entry TAG_THM_LIMIT_THROTTLE; entry TAG_TDP_LIMIT_MAX; entry TAG_AICLK_ARB_MIN; entry TAG_AICLK_ARB_MAX;
   entry TAG_ENABLED_MIN_ARB; entry TAG_ENABLED_MAX_ARB; entry TAG_AICLK_PPM_INFO; entry TAG_HOST_AICLK_LIMIT;
   entry TAG_SMBUS_ERRORS; entry TAG_GDDR_MRISC_NOC2AXI_PORT; entry TAG_GDDR_WEST_IO_POWER;
   entry TAG_GDDR_EAST_IO_POWER; entry TAG_KERNEL_THROTTLER; entry TAG_NOP_START_COUNT;
   entry TAG_NOP_ON_DURATION; entry TAG_FW_CAPABILITIES_0; entry TAG_FW_ACTIVE_CONFIG_0]
  ++ replicate (Z.to_nat TAG_COUNT - 75) no_entry.

(** [telemetry_table], whose tag table is constant. *)
Record telemetry_table := MkTelem { version : Z; entry_count : Z; telemetry : list Z }.
Definition telemetry_table0 : telemetry_table := MkTelem 0 0 (replicate (Z.to_nat TAG_COUNT) 0).

(** [telemetry[t] = v] and a read, for a constant tag. *)
Definition set_tag (t v : Z) (s : telemetry_table) : telemetry_table :=
  MkTelem (version s) (entry_count s) (<[Z.to_nat t := v]> (telemetry s)).
Definition get_tag (t : Z) (s : telemetry_table) : Z := default 0 (telemetry s !! Z.to_nat t).
(** A list of such writes, in order. *)
Definition set_tags (l : list (Z * Z)) (s : telemetry_table) : telemetry_table :=
  fold_left (fun s e => set_tag e.1 e.2 s) l s.

(** ** Fixed point *)

Section rounding.
Variable rnd : Q -> Q.

Definition FLT_MAX : Q := inject_Z ((2 ^ 24 - 1) * 2 ^ 104).
Definition INT32_MIN : Z := - 2 ^ 31.

(** Conversion of a float to a 16-bit or 32-bit unsigned integer: undefined out of range. *)
Definition float_to_unsigned (w : Z) (q : Q) : option Z :=
  if qlt (-1) q && qlt q (inject_Z (2 ^ w)) then Some (Z.max 0 (Qfloor q)) else None.

Definition ConvertFloatToTelemetry (value : Q) : option Z :=
  if Qeq_bool value FLT_MAX || Qeq_bool value (- FLT_MAX) then Some 0x80000000
  else
    let abs_value := Qabs value in
    int_part ← float_to_unsigned 16 (inject_Z (Qfloor abs_value));
    frac_part ← float_to_unsigned 16 (fmul rnd (fsub rnd abs_value (inject_Z int_part)) 65536);
    let ret_value := Z.lor (Z.shiftl int_part 16) frac_part in
    Some (if qlt value 0 then u32 (- ret_value) else ret_value).

Definition ConvertTelemetryToFloat (value : Z) : Q :=
  if value =? INT32_MIN then FLT_MAX else rnd (inject_Z value / 65536).

(** ** The setters and getters that are always built *)

Definition UpdateDmFwVersion (bl_version app_version : Z) (s : telemetry_table) : telemetry_table :=
  set_tag TAG_DM_APP_FW_VERSION app_version (set_tag TAG_DM_BL_FW_VERSION bl_version s).
Definition UpdateTelemetryNocTranslation (translation_enabled : bool) := set_tag TAG_NOC_TRANSLATION (Z.b2z translation_enabled).
Definition UpdateTelemetryBoardPowerLimit (power_limit : Z) := set_tag TAG_BOARD_POWER_LIMIT power_limit.
Definition UpdateTelemetryTdpLimit (tdp_limit : Z) := set_tag TAG_TDP_LIMIT_MAX tdp_limit.
Definition UpdateTelemetryThermTripCount (therm_trip_count : Z) := set_tag TAG_THERM_TRIP_COUNT therm_trip_count.
Definition UpdateTelemetryHostAiclkLimit (fmax : Z) := set_tag TAG_HOST_AICLK_LIMIT fmax.

(** [telemetry_feature_flags_bits_0_t]. *)
Definition with_kernel_nops (enabled : bool) (w : Z) : Z := bits_set 0 1 (Z.b2z enabled) w.
Definition with_gddr_therm_trip (enabled : bool) (w : Z) : Z := bits_set 1 1 (Z.b2z enabled) w.

Definition UpdateTelemetryKernelThrottler (enabled : bool) (stop_nops_freq : Z) (s : telemetry_table) : telemetry_table :=
  let s := set_tag TAG_FW_ACTIVE_CONFIG_0 (with_kernel_nops enabled (get_tag TAG_FW_ACTIVE_CONFIG_0 s)) s in
  set_tag TAG_KERNEL_THROTTLER (Z.lor (Z.b2z enabled) (Z.shiftl (Z.land stop_nops_freq 0xFFFF) 16)) s.
Definition UpdateTelemetryGddrThermTrip (enabled : bool) (s : telemetry_table) : telemetry_table :=
  set_tag TAG_FW_ACTIVE_CONFIG_0 (with_gddr_therm_trip enabled (get_tag TAG_FW_ACTIVE_CONFIG_0 s)) s.

Record active_features := MkFeatures { kernel_nops_at_fmin : bool; gddr_therm_trip : bool }.
Definition GetActiveFeatures (s : telemetry_table) : active_features :=
  let w := get_tag TAG_FW_ACTIVE_CONFIG_0 s in MkFeatures (bits_get 0 1 w =? 1) (bits_get 1 1 w =? 1).

Definition GetTelemetryTagValid (t : Z) : bool := t <? TAG_COUNT.
Definition GetTelemetryTag (t : Z) (s : telemetry_table) : option Z :=
  if TAG_COUNT <=? t then Some (u32 (- 1)) else aget (telemetry s) t.

(** ** Shared readings ([telemetry_internal.c]) *)

Record gddr_temps := MkTemps { max_temp : Z; inst : list (Z * Z) (** top, bottom *) }.
Record TelemetryInternalData := MkInternal {
  vcore_voltage : Q; vcore_power : Q; vcore_current : Q; asic_temperature : Q;
  temps : gddr_temps; gddr_io_power_west : Q; gddr_io_power_east : Q }.
Record internal := MkCache { last_update_time : Z; internal_data : TelemetryInternalData }.

(** What the sensors report; the current only if the AVS command succeeds. *)
Record readings := MkReadings {
  rd_tmp : Q; rd_vcore : Q; rd_current : option Q; rd_west : Q; rd_east : Q; rd_temps : gddr_temps }.

Definition refresh (r : readings) (d : TelemetryInternalData) : TelemetryInternalData :=
  let cur := default (vcore_current d) (rd_current r) in
  MkInternal (rd_vcore r) (fmul rnd (fmul rnd cur (rd_vcore r)) (rnd (1 # 1000))) cur (rd_tmp r)
    (rd_temps r) (rd_west r) (rd_east r).

Definition ReadTelemetryInternal (now max_staleness : Z) (r : readings) (s : internal) : TelemetryInternalData * internal :=
  let s := if max_staleness <=? swrap 64 (now - last_update_time s) then MkCache now (refresh r (internal_data s)) else s in
  (internal_data s, s).

(** ** GDDR telemetry *)

(** The fields of [gddr_telemetry_table_t] that telemetry uses. *)
Record gddr_table := MkGddr {
  gt_training_complete : Z; gt_error : Z; gt_speed : Z; gt_major : Z; gt_minor : Z;
  gt_corr_rd : Z; gt_corr_wr : Z; gt_uncorr_rd : Z; gt_uncorr_wr : Z }.
Record gddr_bist_info := MkBist { complete : Z; failed : Z }.

Record gddr_words := MkWords { w_corr : list Z; w_uncorr : Z; w_status : Z; w_speed : Z }.

(** One instance; [table i] is [None] when its table cannot be read. *)
Definition gddr_instance (enabled : Z) (table : Z -> option gddr_table) (i : Z) (a : gddr_words) : option gddr_words :=
  if Z.testbit enabled i then
    match table i with
    | None => Some a
    | Some t =>
        let shift_val := (i mod 2) * 16 in
        c ← aget (w_corr a) (i / 2);
        corr ← aset (w_corr a) (i / 2)
          (Z.lor c (Z.lor (Z.shiftl (Z.land (gt_corr_wr t) 0xff) (8 + shift_val)) (Z.shiftl (Z.land (gt_corr_rd t) 0xff) shift_val)));
        Some (MkWords corr
          (Z.lor (w_uncorr a) (Z.lor (Z.shiftl (gt_uncorr_rd t) (i * 2)) (Z.shiftl (gt_uncorr_wr t) (i * 2 + 1))))
          (Z.lor (w_status a) (Z.lor (Z.shiftl (gt_training_complete t) (i * 2)) (Z.shiftl (gt_error t) (i * 2 + 1))))
          (gt_speed t))
    end
  else Some a.

Definition bist_bits (b : gddr_bist_info) (i : Z) (status : Z) : option Z :=
  let status := Z.lor status (Z.shiftl (Z.b2z (Z.testbit (complete b) i)) (16 + i * 2)) in
  Some (Z.lor status (Z.shiftl (Z.b2z (Z.testbit (failed b) i)) (17 + i * 2))).

Definition UpdateGddrTelemetry (enabled : Z) (table : Z -> option gddr_table) (bist : gddr_bist_info)
    (s : telemetry_table) : option telemetry_table :=
  a ← for_loop (Z.to_nat NUM_GDDR) 0 (gddr_instance enabled table) (MkWords (replicate 4 0) 0 0 (get_tag TAG_GDDR_SPEED s));
  status ← for_loop (Z.to_nat NUM_GDDR) 0 (bist_bits bist) (w_status a);
  s ← for_loop (Z.to_nat (NUM_GDDR / 2)) 0 (fun i s => c ← aget (w_corr a) i; Some (set_tag (TAG_GDDR_0_1_CORR_ERRS + i) c s)) s;
  Some (set_tag TAG_GDDR_SPEED (w_speed a) (set_tag TAG_GDDR_STATUS status (set_tag TAG_GDDR_UNCORR_ERRS (w_uncorr a) s))).

Definition pack_temp (t : gddr_temps) (i : Z) (packed : list Z) : option (list Z) :=
  let shift_val := (i mod 2) * 16 in
  p ← aget packed (i / 2);
  '(top, bottom) ← aget (inst t) i;
  aset packed (i / 2) (Z.lor p (Z.lor (Z.shiftl top (8 + shift_val)) (Z.shiftl bottom shift_val))).
Definition pack_gddr_temps (t : gddr_temps) : option (list Z) :=
  for_loop (Z.to_nat NUM_GDDR) 0 (pack_temp t) (replicate 4 0).

Definition mrisc_endpoint (enabled : Z) (port : Z -> Z) (i : Z) (packed : Z) : option Z :=
  Some (Z.lor packed (Z.shiftl (if Z.testbit enabled i then port i else 0xF) (i * 4))).
(** [port] is [get_gddr_mrisc_noc2axi_port]. *)
Definition get_gddr_mrisc_endpoints (enabled : Z) (port : Z -> Z) : option Z :=
  for_loop (Z.to_nat NUM_GDDR) 0 (mrisc_endpoint enabled port) 0.

Definition UpdateEthTelemetry (heartbeat_status link_status : Z) (s : telemetry_table) : telemetry_table :=
  set_tag TAG_ETH_LIVE_STATUS (Z.lor (u32 (Z.shiftl link_status 16)) (Z.land heartbeat_status 0xFFFF)) s.

(** ** The static words *)

(** The firmware table, fuses and versions that are reported once. *)
Record static_sources := MkStatic {
  asic_fmax : Z; vdd_max : Z; vdd_min : Z; ss_thm_limit : Z; ss_tdc_limit : Z; ss_tdp_limit : Z;
  board_id : Z; asic_id_high : Z; asic_id_low : Z; eth_fw_version : Z; fw_bundle_version : Z;
  asic_location : Z; kernel_throttler_at_floor_en : bool; gddr_therm_trip_en : bool }.

Definition telem_update_interval : Z := 100.

Definition write_static_telemetry (app_version : Z) (te : TileEnable) (src : static_sources)
    (table : Z -> option gddr_table) (port : Z -> Z) (s : telemetry_table) : option telemetry_table :=
  let s := MkTelem TELEMETRY_VERSION TAG_COUNT (telemetry s) in
  let s := set_tags [
    (TAG_TELEM_ENUM_COUNT, TAG_COUNT);
    (TAG_AICLK_LIMIT_MAX, asic_fmax src);
    (TAG_VDD_LIMITS, Z.lor (Z.shiftl (Z.land (vdd_max src) 0xFFFF) 16) (vdd_min src));
    (TAG_THM_LIMIT_SHUTDOWN, T_J_SHUTDOWN);
    (TAG_THM_LIMIT_THROTTLE, ss_thm_limit src);
    (TAG_TDC_LIMIT_MAX, ss_tdc_limit src);
    (TAG_TDP_LIMIT_MAX, ss_tdp_limit src);
    (TAG_BOARD_ID_HIGH, Z.shiftr (board_id src) 32);
    (TAG_BOARD_ID_LOW, Z.land (board_id src) 0xFFFFFFFF);
    (TAG_ASIC_ID_HIGH, asic_id_high src);
    (TAG_ASIC_ID_LOW, asic_id_low src);
    (TAG_HARVESTING_STATE, 0);
    (TAG_UPDATE_TELEM_SPEED, telem_update_interval);
    (TAG_ETH_FW_VERSION, eth_fw_version src)] s in
  let s := if negb (gddr_enabled te =? 0) then
             match table (LOG2 (LSB_GET (gddr_enabled te))) with
             | None => s
             | Some t => set_tag TAG_GDDR_FW_VERSION (Z.lor (Z.shiftl (gt_major t) 16) (gt_minor t)) s
             end
           else s in
  usage0 ← aget (pcie_usage te) 0;
  usage1 ← aget (pcie_usage te) 1;
  endpoints ← get_gddr_mrisc_endpoints (gddr_enabled te) port;
  Some (set_tags [
    (TAG_FLASH_BUNDLE_VERSION, fw_bundle_version src);
    (TAG_CM_FW_VERSION, app_version);
    (TAG_L2CPU_FW_VERSION, 0);
    (TAG_ENABLED_TENSIX_COL, tensix_col_enabled te);
    (TAG_ENABLED_ETH, eth_enabled te);
    (TAG_ENABLED_GDDR, gddr_enabled te);
    (TAG_ENABLED_L2CPU, l2cpu_enabled te);
    (TAG_PCIE_USAGE, Z.lor (Z.shiftl (Z.land usage1 0x3) 2) (Z.land usage0 0x3));
    (TAG_ASIC_LOCATION, asic_location src);
    (TAG_GDDR_MRISC_NOC2AXI_PORT, endpoints);
    (TAG_FW_CAPABILITIES_0, with_gddr_therm_trip true (with_kernel_nops true 0));
    (TAG_FW_ACTIVE_CONFIG_0, with_gddr_therm_trip (gddr_therm_trip_en src)
       (with_kernel_nops (kernel_throttler_at_floor_en src) 0))] s).

(** ** The periodic update *)

(** What the other components report; a clock rate only if it can be read. *)
Record dynamic_sources := MkDynamic {
  rate : Z -> option Z;                 (** by tag *)
  arb_min : Z * Z; arb_max : Z * Z;     (** effective frequency, and which arbiter *)
  min_bitmask : Z; max_bitmask : Z; ppm_info : Z;
  fan_ctrl_en : bool; fan_speed : Z; fan_rpm : Z;
  eth_heartbeat : Z; eth_link : Z;
  ds_table : Z -> option gddr_table; ds_bist : gddr_bist_info; ds_gddr_enabled : Z;
  ds_input_power : Z; smbus_errors : Z; nop_starts : Z; nop_duration : Z }.

(** [clock_control_get_rate(..., &telemetry[t])]. *)
Definition set_rate (src : dynamic_sources) (s : telemetry_table) (t : Z) : telemetry_table :=
  match rate src t with Some v => set_tag t v s | None => s end.

Definition update_telemetry (d : TelemetryInternalData) (src : dynamic_sources) (s : telemetry_table) : option telemetry_table :=
  voltage ← float_to_unsigned 32 (vcore_voltage d);
  power ← float_to_unsigned 32 (vcore_power d);
  current ← float_to_unsigned 32 (vcore_current d);
  temperature ← ConvertFloatToTelemetry (asic_temperature d);
  let s := set_tags [(TAG_VCORE, voltage); (TAG_TDP, power); (TAG_TDC, current); (TAG_ASIC_TEMPERATURE, temperature);
                     (TAG_VREG_TEMPERATURE, 0); (TAG_BOARD_TEMPERATURE, 0)] s in
  let s := set_rate src s TAG_AICLK in
  let s := set_tags [
    (TAG_AICLK_ARB_MIN, Z.lor (arb_min src).1 (Z.shiftl (arb_min src).2 16));
    (TAG_AICLK_ARB_MAX, Z.lor (arb_max src).1 (Z.shiftl (arb_max src).2 16));
    (TAG_ENABLED_MIN_ARB, min_bitmask src);
    (TAG_ENABLED_MAX_ARB, max_bitmask src);
    (TAG_AICLK_PPM_INFO, ppm_info src)] s in
  let s := fold_left (set_rate src) [TAG_AXICLK; TAG_ARCCLK; TAG_L2CPUCLK0; TAG_L2CPUCLK1; TAG_L2CPUCLK2; TAG_L2CPUCLK3] s in
  let s := set_tags [
    (TAG_FAN_SPEED, if fan_ctrl_en src then fan_speed src else 0xFFFFFFFF);
    (TAG_FAN_RPM, if fan_ctrl_en src then fan_rpm src else 0xFFFFFFFF)] s in
  let s := UpdateEthTelemetry (eth_heartbeat src) (eth_link src) s in
  s ← UpdateGddrTelemetry (ds_gddr_enabled src) (ds_table src) (ds_bist src) s;
  gddr_packed ← pack_gddr_temps (temps d);
  s ← for_loop (Z.to_nat (NUM_GDDR / 2)) 0 (fun i s => p ← aget gddr_packed i; Some (set_tag (TAG_GDDR_0_1_TEMP + i) p s)) s;
  west ← float_to_unsigned 32 (gddr_io_power_west d);
  east ← float_to_unsigned 32 (gddr_io_power_east d);
  let s := set_tags [
    (TAG_MAX_GDDR_TEMP, max_temp (temps d));
    (TAG_INPUT_POWER, ds_input_power src);
    (TAG_SMBUS_ERRORS, smbus_errors src);
    (TAG_GDDR_WEST_IO_POWER, west);
    (TAG_GDDR_EAST_IO_POWER, east);
    (TAG_NOP_START_COUNT, nop_starts src);
    (TAG_NOP_ON_DURATION, nop_duration src)] s in
  Some (set_tag TAG_TIMER_HEARTBEAT (u32 (get_tag TAG_TIMER_HEARTBEAT s + 1)) s).

Definition init_telemetry (app_version : Z) (te : TileEnable) (st : static_sources) (port : Z -> Z)
    (d : TelemetryInternalData) (src : dynamic_sources) (s : telemetry_table) : option telemetry_table :=
  s ← write_static_telemetry app_version te st (ds_table src) port s;
  update_telemetry d src s.
End rounding.

(** ** The tag table *)

(** The host looks a tag up in the published table. *)
Definition lookup_tag (t : Z) : list telemetry_entry := filter (fun e => tag e = t) tag_table.

Definition unlisted : list Z := [TAG_ASIC_ID; TAG_INPUT_CURRENT; TAG_FW_BUILD_DATE; TAG_TT_FLASH_VERSION; TAG_ENABLED_TENSIX_ROW].

Lemma telemetry_tag_table :
  len tag_table = TAG_COUNT /\
  forall t, 0 < t < TAG_COUNT -> lookup_tag t = if decide (t ∈ unlisted) then [] else [MkEntry t t].
Proof.
  split; [done|]. intros t Ht.
  assert (Hall : forallb (fun t => bool_decide (lookup_tag t = if decide (t ∈ unlisted) then [] else [MkEntry t t])) (seqZ 1 79) = true)
    by (vm_compute; reflexivity).
  rewrite forallb_forall in Hall. apply (bool_decide_eq_true_1 _), Hall, list_elem_of_In, elem_of_seqZ. unfold TAG_COUNT in Ht. lia.
Qed.

(** ** Words *)

Definition sized (s : telemetry_table) : Prop := len (telemetry s) = TAG_COUNT.

Lemma set_tag_sized t v s : sized s -> sized (set_tag t v s).
Proof. unfold sized, set_tag. cbn. by rewrite length_insert. Qed.

Lemma get_set_tag t t' v s :
  sized s -> 0 <= t < TAG_COUNT -> 0 <= t' ->
  get_tag t' (set_tag t v s) = if t' =? t then v else get_tag t' s.
Proof.
  unfold sized, get_tag, set_tag. cbn. intros Hs Ht Ht'. destruct (Z.eqb_spec t' t) as [->|].
  - rewrite list_lookup_insert_eq by lia. done.
  - by rewrite list_lookup_insert_ne by lia.
Qed.

Definition tags_ok (l : list (Z * Z)) : Prop := Forall (fun e => 0 <= e.1 < TAG_COUNT) l.

Lemma set_tags_sized l s : sized s -> sized (set_tags l s).
Proof. unfold set_tags. revert s. induction l as [|e l IH]; intros s Hs; [done|]. by apply IH, set_tag_sized. Qed.

Lemma get_set_tags_other l t s :
  sized s -> tags_ok l -> 0 <= t -> t ∉ l.*1 -> get_tag t (set_tags l s) = get_tag t s.
Proof.
  intros Hs Hl Ht. revert s Hs. unfold set_tags. induction Hl as [|e l He _ IH]; intros s Hs Hnin; [done|].
  cbn [fold_left]. rewrite fmap_cons, not_elem_of_cons in Hnin. destruct Hnin as [Hne Hnin].
  rewrite IH by (done || by apply set_tag_sized). rewrite get_set_tag by done. by rewrite (proj2 (Z.eqb_neq t e.1)).
Qed.

Lemma GetTelemetryTag_get t s : sized s -> 0 <= t -> GetTelemetryTag t s = Some (if t <? TAG_COUNT then get_tag t s else u32 (- 1)).
Proof.
  unfold GetTelemetryTag, sized. intros Hs Ht. destruct (Z.leb_spec TAG_COUNT t), (Z.ltb_spec t TAG_COUNT); try lia; [done|].
  destruct (aget_in (telemetry s) t) as [x Hx]; [lia|]. rewrite Hx. unfold get_tag. rewrite aget_nat in Hx by lia. by rewrite Hx.
Qed.

(** ** Packed fields *)

Definition or_field (base w : Z) (f : Z -> Z) (i acc : Z) : option Z := Some (Z.lor acc (Z.shiftl (f i) (base + i * w))).

Lemma or_fields n lo base w f acc :
  0 <= base -> 0 <= w -> 0 <= lo -> (forall i, lo <= i < lo + Z.of_nat n -> in_width w (f i)) ->
  exists p, for_loop n lo (or_field base w f) acc = Some p /\
    (forall j, lo <= j < lo + Z.of_nat n -> bits_get (base + j * w) w acc = 0 -> bits_get (base + j * w) w p = f j) /\
    (forall b l, 0 <= b -> 0 <= l -> b + l <= base + lo * w \/ base + (lo + Z.of_nat n) * w <= b -> bits_get b l p = bits_get b l acc).
Proof.
  intros Hb Hw. revert lo acc. induction n as [|n IH]; intros lo acc Hlo Hf.
  - exists acc. split_and!; [done|lia|done].
  - cbn [for_loop]. unfold or_field at 1. cbn [mbind option_bind].
    destruct (IH (lo + 1) (Z.lor acc (Z.shiftl (f lo) (base + lo * w)))) as (p & E & Hin & Hout); [lia|intros; apply Hf; lia|].
    exists p. split; [done|]. split.
    + intros j Hj H0. destruct (Z.eq_dec j lo) as [->|Hne].
      * rewrite Hout by nia. rewrite bits_get_lor, H0, Z.lor_0_l. apply bits_get_shiftl_same; [nia|done|apply Hf; lia].
      * apply Hin; [lia|]. rewrite bits_get_lor, H0, Z.lor_0_l.
        apply (bits_get_shiftl_other _ w _ w); [nia|done|nia|done|apply Hf; lia|]. right. nia.
    + intros b l Hb' Hl Hd. rewrite Hout by (done || nia). rewrite bits_get_lor.
      rewrite (bits_get_shiftl_other b l (base + lo * w) w), Z.lor_0_r; [done|done|done|nia|done|apply Hf; lia|nia].
Qed.

(** Two 16-bit halves to a word, as [corr_errs] and [packed] are laid out. *)
Definition half (i : Z) (l : list Z) : Z := bits_get ((i mod 2) * 16) 16 (default 0 (l !! Z.to_nat (i / 2))).

Lemma half_step i f l :
  0 <= i < NUM_GDDR -> length l = 4%nat -> in_width 16 f ->
  exists c l', aget l (i / 2) = Some c /\ aset l (i / 2) (Z.lor c (Z.shiftl f ((i mod 2) * 16))) = Some l' /\
    length l' = 4%nat /\ forall j, 0 <= j < NUM_GDDR -> half j l' = if j =? i then Z.lor (half i l) f else half j l.
Proof.
  intros Hi Hl Hf. unfold NUM_GDDR in *. pose proof (Z.mod_pos_bound i 2).
  assert (Hr : 0 <= i / 2 < 4) by (Z.to_euclidean_division_equations; lia).
  destruct (aget_in l (i / 2)) as [c Hc]; [lia|]. exists c. rewrite aset_in by lia. eexists. split_and!; [done|done|by rewrite length_insert|].
  intros j Hj. unfold half. pose proof (Z.mod_pos_bound j 2). rewrite aget_nat in Hc by lia.
  destruct (Z.eq_dec (j / 2) (i / 2)) as [E|Hne].
  - rewrite E, list_lookup_insert_eq by lia. rewrite Hc. unfold default. cbn [from_option id]. rewrite bits_get_lor.
    destruct (Z.eqb_spec j i) as [->|Hji].
    + by rewrite bits_get_shiftl_same by (done || lia).
    + rewrite (bits_get_shiftl_other _ 16 _ 16), Z.lor_0_r; [done|lia|done|lia|done|done|]. Z.to_euclidean_division_equations. lia.
  - rewrite list_lookup_insert_ne by (Z.to_euclidean_division_equations; lia). by rewrite (proj2 (Z.eqb_neq j i)) by congruence.
Qed.

Lemma half_zero j n : half j (replicate n 0) = 0.
Proof.
  unfold half. assert (default 0 (replicate n 0 !! Z.to_nat (j / 2)) = 0) as ->.
  { destruct (replicate n 0 !! _) as [x|] eqn:E; [|done]. by apply lookup_replicate in E as [-> _]. }
  unfold bits_get. by rewrite Z.shiftr_0_l.
Qed.

Lemma shiftl_pair a b s k : 0 <= s -> 0 <= k -> Z.lor (Z.shiftl a s) (Z.shiftl b (s + k)) = Z.shiftl (Z.lor a (Z.shiftl b k)) s.
Proof. intros. rewrite Z.shiftl_lor, Z.shiftl_shiftl by lia. by rewrite (Z.add_comm k s). Qed.

(** What a readable instance contributes, and an instance that is harvested or
    cannot be read. *)
Definition table_of (enabled : Z) (table : Z -> option gddr_table) (i : Z) : option gddr_table :=
  if Z.testbit enabled i then table i else None.
Definition pair (w : Z) (lo hi : Z) : Z := Z.lor lo (Z.shiftl hi w).
Definition status_field (t : option gddr_table) : Z :=
  match t with Some t => pair 1 (gt_training_complete t) (gt_error t) | None => 0 end.
Definition uncorr_field (t : option gddr_table) : Z :=
  match t with Some t => pair 1 (gt_uncorr_rd t) (gt_uncorr_wr t) | None => 0 end.
Definition corr_field (t : option gddr_table) : Z :=
  match t with Some t => pair 8 (Z.land (gt_corr_rd t) 0xff) (Z.land (gt_corr_wr t) 0xff) | None => 0 end.
Definition bist_field (b : gddr_bist_info) (i : Z) : Z :=
  pair 1 (Z.b2z (Z.testbit (complete b) i)) (Z.b2z (Z.testbit (failed b) i)).

(** The flags of a table are 0 or 1. *)
Definition flags_ok (t : gddr_table) : Prop :=
  in_width 1 (gt_training_complete t) /\ in_width 1 (gt_error t) /\ in_width 1 (gt_uncorr_rd t) /\ in_width 1 (gt_uncorr_wr t).

Lemma pair_width w lo hi : 0 <= w -> in_width w lo -> in_width w hi -> in_width (2 * w) (pair w lo hi).
Proof.
  intros Hw Hlo Hhi. unfold in_width in *. unfold pair.
  assert (H0 : 0 <= Z.lor lo (Z.shiftl hi w)) by (apply Z.lor_nonneg; split; [lia|apply Z.shiftl_nonneg; lia]).
  split; [done|]. apply bits_lt_pow2; [done|lia|]. intros i Hi. rewrite Z.lor_spec in Hi.
  destruct (Z.lt_ge_cases i (2 * w)) as [|Hge]; [done|]. exfalso.
  rewrite (testbit_above lo w) in Hi by (unfold in_width; lia). cbn in Hi.
  destruct (Z.lt_ge_cases i 0); [lia|]. rewrite Z.shiftl_spec, (testbit_above hi w) in Hi by (unfold in_width; lia). done.
Qed.

Lemma or_fields_S n lo base w f acc :
  for_loop (S n) lo (or_field base w f) acc = for_loop n (lo + 1) (or_field base w f) (Z.lor acc (Z.shiftl (f lo) (base + lo * w))).
Proof. done. Qed.

(** The loop over the instances. *)
Lemma gddr_instances enabled table n lo a :
  (forall i t, table_of enabled table i = Some t -> flags_ok t) ->
  0 <= lo -> lo + Z.of_nat n <= NUM_GDDR -> length (w_corr a) = 4%nat ->
  (forall j, lo <= j < NUM_GDDR -> half j (w_corr a) = 0) ->
  exists a', for_loop n lo (gddr_instance enabled table) a = Some a' /\
    for_loop n lo (or_field 0 2 (fun i => status_field (table_of enabled table i))) (w_status a) = Some (w_status a') /\
    for_loop n lo (or_field 0 2 (fun i => uncorr_field (table_of enabled table i))) (w_uncorr a) = Some (w_uncorr a') /\
    length (w_corr a') = 4%nat /\
    (forall j, 0 <= j < NUM_GDDR -> half j (w_corr a') =
       if (lo <=? j) && (j <? lo + Z.of_nat n) then corr_field (table_of enabled table j) else half j (w_corr a)).
Proof.
  intros Hok. revert lo a. induction n as [|n IH]; intros lo a Hlo Hn Hl Hz.
  { exists a. split_and!; try done. intros j Hj. destruct (Z.leb_spec lo j), (Z.ltb_spec j (lo + Z.of_nat 0)); done || lia. }
  assert (Hstep : exists a1, gddr_instance enabled table lo a = Some a1 /\
    w_status a1 = Z.lor (w_status a) (Z.shiftl (status_field (table_of enabled table lo)) (0 + lo * 2)) /\
    w_uncorr a1 = Z.lor (w_uncorr a) (Z.shiftl (uncorr_field (table_of enabled table lo)) (0 + lo * 2)) /\
    length (w_corr a1) = 4%nat /\
    forall j, 0 <= j < NUM_GDDR -> half j (w_corr a1) = if j =? lo then corr_field (table_of enabled table lo) else half j (w_corr a)).
  { unfold gddr_instance, table_of. destruct (Z.testbit enabled lo) eqn:Een; [destruct (table lo) as [t|] eqn:Et|].
    2, 3: exists a; cbn [status_field uncorr_field corr_field]; rewrite Z.shiftl_0_l, !Z.lor_0_r; split_and!; try done;
      intros j Hj; destruct (Z.eqb_spec j lo) as [->|]; [by rewrite Hz by lia|done].
    destruct (half_step lo (corr_field (Some t)) (w_corr a)) as (c & l' & Ec & Es & Hl' & Hh); [lia|done| |].
    { apply (pair_width 8); [lia|change 0xff with (Z.ones 8); rewrite Z.land_ones by lia; apply wrap_range; lia..]. }
    cbv zeta. rewrite Ec. cbn [mbind option_bind].
    rewrite (Z.lor_comm (Z.shiftl _ (8 + _))), (Z.add_comm 8), !shiftl_pair by (pose proof (Z.mod_pos_bound lo 2); lia).
    change (Z.lor (Z.land (gt_corr_rd t) 255) (Z.shiftl (Z.land (gt_corr_wr t) 255) 8)) with (corr_field (Some t)).
    rewrite Es. cbn [mbind option_bind]. eexists. split; [done|]. cbn [w_status w_uncorr w_corr].
    split_and!; [done|done|done|]. intros j Hj. rewrite Hh by done.
    destruct (j =? lo); [|done]. by rewrite Hz, Z.lor_0_l by lia. }
  destruct Hstep as (a1 & E1 & Est & Eun & Hl1 & Hc1).
  destruct (IH (lo + 1) a1) as (a' & E & Hst & Hun & Hl' & Hc); [lia|lia|done| |].
  { intros j Hj. rewrite Hc1 by lia. rewrite (proj2 (Z.eqb_neq j lo)) by lia. apply Hz. lia. }
  exists a'. rewrite !or_fields_S, <- Est, <- Eun. cbn [for_loop]. rewrite E1. cbn [mbind option_bind].
  split_and!; [done|done|done|done|]. intros j Hj. rewrite Hc, Hc1 by done.
  destruct (Z.leb_spec (lo + 1) j), (Z.ltb_spec j (lo + 1 + Z.of_nat n)), (Z.leb_spec lo j), (Z.ltb_spec j (lo + Z.of_nat (S n))),
    (Z.eqb_spec j lo); subst; cbn [andb]; try lia; done.
Qed.

Lemma for_loop_ext {S} n lo (f g : Z -> S -> option S) s :
  (forall i s, lo <= i -> f i s = g i s) -> for_loop n lo f s = for_loop n lo g s.
Proof.
  revert lo s. induction n as [|n IH]; intros lo s Hfg; [done|]. cbn [for_loop]. rewrite Hfg by lia.
  destruct (g lo s) as [s1|]; [|done]. cbn [mbind option_bind]. apply IH. intros. apply Hfg. lia.
Qed.

Lemma bist_bits_field b i x : 0 <= i -> bist_bits b i x = or_field 16 2 (bist_field b) i x.
Proof.
  intros Hi. unfold bist_bits, or_field, bist_field, pair. rewrite <- shiftl_pair by lia. rewrite Z.lor_assoc.
  by replace (16 + i * 2 + 1) with (17 + i * 2) by lia.
Qed.

(** Four words copied to consecutive tags. *)
Lemma copy_words base l s :
  sized s -> length l = 4%nat -> 0 <= base -> base + 4 <= TAG_COUNT ->
  exists s', for_loop (Z.to_nat (NUM_GDDR / 2)) 0 (fun i s => c ← aget l i; Some (set_tag (base + i) c s)) s = Some s' /\
    sized s' /\
    (forall i, 0 <= i < NUM_GDDR -> get_tag (base + i / 2) s' = default 0 (l !! Z.to_nat (i / 2))) /\
    (forall t, 0 <= t -> t < base \/ base + 4 <= t -> get_tag t s' = get_tag t s).
Proof.
  intros Hs Hl Hb Hb4. unfold NUM_GDDR.
  destruct (for_loop_inv (fun i s' => 0 <= i <= 4 /\ sized s' /\
      (forall k, 0 <= k < i -> get_tag (base + k) s' = default 0 (l !! Z.to_nat k)) /\
      (forall t, 0 <= t -> t < base \/ base + 4 <= t -> get_tag t s' = get_tag t s))
    4 0 (fun i s => c ← aget l i; Some (set_tag (base + i) c s)) s) as (s' & E & _ & Hs' & Hin & Hout).
  - split_and!; [lia|lia|done|lia|done].
  - intros i t Hi (_ & Ht & Hin & Hout). destruct (aget_in l i) as [c Hc]; [lia|]. rewrite Hc. cbn [mbind option_bind].
    eexists. split; [done|]. split_and!; [lia|lia|by apply set_tag_sized| |].
    + intros k Hk. rewrite get_set_tag by (done || lia). destruct (Z.eqb_spec (base + k) (base + i)) as [E|].
      * replace k with i by lia. rewrite aget_nat in Hc by lia. by rewrite Hc.
      * apply Hin. lia.
    + intros t' Ht' Hd. rewrite get_set_tag by (done || lia). rewrite (proj2 (Z.eqb_neq t' (base + i))) by lia. by apply Hout.
  - exists s'. split; [exact E|]. split_and!; [done| |done]. intros i Hi. apply Hin. Z.to_euclidean_division_equations. lia.
Qed.

Definition gddr_tags : list Z :=
  [TAG_GDDR_0_1_CORR_ERRS; TAG_GDDR_2_3_CORR_ERRS; TAG_GDDR_4_5_CORR_ERRS; TAG_GDDR_6_7_CORR_ERRS;
   TAG_GDDR_UNCORR_ERRS; TAG_GDDR_STATUS; TAG_GDDR_SPEED].

(** What the loops accumulate: fields of the status and error words, halves of the
    counters. *)
Lemma gddr_words_fields enabled table bist speed :
  (forall i t, table_of enabled table i = Some t -> flags_ok t) ->
  exists a status,
    for_loop (Z.to_nat NUM_GDDR) 0 (gddr_instance enabled table) (MkWords (replicate 4 0) 0 0 speed) = Some a /\
    for_loop (Z.to_nat NUM_GDDR) 0 (bist_bits bist) (w_status a) = Some status /\ length (w_corr a) = 4%nat /\
    forall i, 0 <= i < NUM_GDDR ->
      bits_get (i * 2) 2 status = status_field (table_of enabled table i) /\
      bits_get (16 + i * 2) 2 status = bist_field bist i /\
      bits_get (i * 2) 2 (w_uncorr a) = uncorr_field (table_of enabled table i) /\
      half i (w_corr a) = corr_field (table_of enabled table i).
Proof.
  intros Hok.
  assert (Hst : forall i, in_width 2 (status_field (table_of enabled table i))).
  { intros i. destruct (table_of enabled table i) as [t|] eqn:Et; [|done]. apply (pair_width 1); [lia|apply (Hok _ _ Et)..]. }
  assert (Hun : forall i, in_width 2 (uncorr_field (table_of enabled table i))).
  { intros i. destruct (table_of enabled table i) as [t|] eqn:Et; [|done]. apply (pair_width 1); [lia|apply (Hok _ _ Et)..]. }
  assert (Hbi : forall i, in_width 2 (bist_field bist i)).
  { intros i. apply (pair_width 1); [lia|by destruct (Z.testbit (complete bist) i)|by destruct (Z.testbit (failed bist) i)]. }
  assert (HN : Z.of_nat (Z.to_nat NUM_GDDR) = 8) by done. assert (HN' : NUM_GDDR = 8) by done.
  assert (H0 : forall b, bits_get b 2 0 = 0) by (intros b; unfold bits_get; by rewrite Z.shiftr_0_l).
  revert HN. generalize (Z.to_nat NUM_GDDR) as n. intros n HN.
  destruct (gddr_instances enabled table n 0 (MkWords (replicate 4 0) 0 0 speed)) as (a & Ea & Est & Eun & Hl & Hc);
    [done|lia|lia|done|intros; apply half_zero|]. cbn [w_status w_uncorr w_corr] in Est, Eun, Hc.
  destruct (or_fields n 0 0 2 _ 0 ltac:(lia) ltac:(lia) ltac:(lia) (fun i _ => Hst i)) as (p & Ep & Hp & Hpo).
  rewrite Est in Ep. injection Ep as [= <-].
  destruct (or_fields n 0 0 2 _ 0 ltac:(lia) ltac:(lia) ltac:(lia) (fun i _ => Hun i)) as (q & Eq & Hq & _).
  rewrite Eun in Eq. injection Eq as [= <-].
  destruct (or_fields n 0 16 2 _ (w_status a) ltac:(lia) ltac:(lia) ltac:(lia) (fun i _ => Hbi i)) as (r & Er & Hr & Hro).
  exists a, r. split; [done|]. split; [rewrite <- Er; apply for_loop_ext; intros; by apply bist_bits_field|]. split; [done|].
  intros i Hi. pose proof (Hp i ltac:(lia) (H0 _)) as P1. pose proof (Hq i ltac:(lia) (H0 _)) as P2. rewrite Z.add_0_l in P1, P2.
  assert (P3 : bits_get (16 + i * 2) 2 (w_status a) = 0) by (rewrite Hpo by lia; apply H0).
  pose proof (Hr i ltac:(lia) P3) as P4. rewrite Hro by lia. rewrite P1, P2, P4. split_and!; [done|done|done|]. rewrite Hc by lia.
  destruct (Z.leb_spec 0 i), (Z.ltb_spec i (0 + Z.of_nat n)); lia || done.
Qed.

(** The last three writes. *)
Definition publish (uncorr status speed : Z) (s : telemetry_table) : telemetry_table :=
  set_tag TAG_GDDR_SPEED speed (set_tag TAG_GDDR_STATUS status (set_tag TAG_GDDR_UNCORR_ERRS uncorr s)).

Lemma publish_sized uncorr status speed s : sized s -> sized (publish uncorr status speed s).
Proof. intros. unfold publish. by repeat apply set_tag_sized. Qed.

Lemma get_publish uncorr status speed s t :
  sized s -> 0 <= t ->
  get_tag t (publish uncorr status speed s) =
    if t =? TAG_GDDR_SPEED then speed else if t =? TAG_GDDR_STATUS then status
    else if t =? TAG_GDDR_UNCORR_ERRS then uncorr else get_tag t s.
Proof.
  intros Hs Ht. unfold publish, TAG_GDDR_SPEED, TAG_GDDR_STATUS, TAG_GDDR_UNCORR_ERRS.
  assert (H80 : TAG_COUNT = 80) by done.
  rewrite !get_set_tag by (repeat apply set_tag_sized; done || lia). done.
Qed.

Lemma publish_other uncorr status speed s t :
  sized s -> 0 <= t -> t <> TAG_GDDR_SPEED -> t <> TAG_GDDR_STATUS -> t <> TAG_GDDR_UNCORR_ERRS ->
  get_tag t (publish uncorr status speed s) = get_tag t s.
Proof.
  intros Hs Ht N1 N2 N3. rewrite get_publish by done.
  by rewrite (proj2 (Z.eqb_neq t _) N1), (proj2 (Z.eqb_neq t _) N2), (proj2 (Z.eqb_neq t _) N3).
Qed.

Lemma UpdateGddrTelemetry_publish enabled table bist s a status s1 :
  for_loop (Z.to_nat NUM_GDDR) 0 (gddr_instance enabled table) (MkWords (replicate 4 0) 0 0 (get_tag TAG_GDDR_SPEED s)) = Some a ->
  for_loop (Z.to_nat NUM_GDDR) 0 (bist_bits bist) (w_status a) = Some status ->
  for_loop (Z.to_nat (NUM_GDDR / 2)) 0 (fun i s => c ← aget (w_corr a) i; Some (set_tag (TAG_GDDR_0_1_CORR_ERRS + i) c s)) s = Some s1 ->
  UpdateGddrTelemetry enabled table bist s = Some (publish (w_uncorr a) status (w_speed a) s1).
Proof.
  intros Ea Er E1. unfold UpdateGddrTelemetry. apply bind_Some. exists a. split; [exact Ea|].
  apply bind_Some. exists status. split; [exact Er|]. apply bind_Some. exists s1. split; [exact E1|]. reflexivity.
Qed.

Lemma gddr_published enabled table bist s :
  sized s -> (forall i t, table_of enabled table i = Some t -> flags_ok t) ->
  exists corr uncorr status speed s1,
    UpdateGddrTelemetry enabled table bist s = Some (publish uncorr status speed s1) /\ sized s1 /\
    (forall i, 0 <= i < NUM_GDDR ->
       bits_get (i * 2) 2 status = status_field (table_of enabled table i) /\
       bits_get (16 + i * 2) 2 status = bist_field bist i /\
       bits_get (i * 2) 2 uncorr = uncorr_field (table_of enabled table i) /\
       half i corr = corr_field (table_of enabled table i) /\
       get_tag (TAG_GDDR_0_1_CORR_ERRS + i / 2) s1 = default 0 (corr !! Z.to_nat (i / 2))) /\
    (forall t, 0 <= t -> t < TAG_GDDR_0_1_CORR_ERRS \/ TAG_GDDR_0_1_CORR_ERRS + 4 <= t -> get_tag t s1 = get_tag t s).
Proof.
  intros Hs Hok.
  destruct (gddr_words_fields enabled table bist (get_tag TAG_GDDR_SPEED s) Hok) as (a & status & Ea & Er & Hl & Hf).
  destruct (copy_words TAG_GDDR_0_1_CORR_ERRS (w_corr a) s Hs Hl) as (s1 & E1 & Hs1 & Hin & Hout);
    [unfold TAG_GDDR_0_1_CORR_ERRS, TAG_COUNT; lia..|].
  exists (w_corr a), (w_uncorr a), status, (w_speed a), s1. split; [exact (UpdateGddrTelemetry_publish _ _ _ _ _ _ _ Ea Er E1)|].
  split; [done|]. split; [|exact Hout]. intros i Hi. destruct (Hf i Hi) as (F1 & F2 & F3 & F4). split_and!; auto.
Qed.

Lemma gddr_only enabled table bist s :
  sized s -> (forall i t, table_of enabled table i = Some t -> flags_ok t) ->
  exists s', UpdateGddrTelemetry enabled table bist s = Some s' /\ sized s' /\
    (forall t, 0 <= t -> t ∉ gddr_tags -> get_tag t s' = get_tag t s).
Proof.
  intros Hs Hok. destruct (gddr_published enabled table bist s Hs Hok) as (corr & uncorr & status & speed & s1 & E & Hs1 & _ & Hout).
  exists (publish uncorr status speed s1). split; [exact E|]. split; [by apply publish_sized|].
  intros t Ht Hnin. unfold gddr_tags in Hnin. rewrite !not_elem_of_cons in Hnin.
  destruct Hnin as (N1 & N2 & N3 & N4 & N5 & N6 & N7 & _). rewrite publish_other by done.
  apply Hout; [done|]. unfold TAG_GDDR_0_1_CORR_ERRS, TAG_GDDR_2_3_CORR_ERRS, TAG_GDDR_4_5_CORR_ERRS, TAG_GDDR_6_7_CORR_ERRS in *. lia.
Qed.

(** The GDDR words.  From the words that an update publishes, a host reads back for
    every instance whether it trained, its error flag, its self-test result and its
    error counters, all zero for an instance that is harvested or cannot be read;
    no other tag changes. *)
Theorem gddr_telemetry_decodes enabled table bist s
    (Hs : sized s) (Hok : forall i t, table_of enabled table i = Some t -> flags_ok t) :
  exists s', UpdateGddrTelemetry enabled table bist s = Some s' /\
    (forall i, 0 <= i < NUM_GDDR ->
       let t := table_of enabled table i in
       bits_get (i * 2) 2 (get_tag TAG_GDDR_STATUS s') = status_field t /\
       bits_get (16 + i * 2) 2 (get_tag TAG_GDDR_STATUS s') = bist_field bist i /\
       bits_get (i * 2) 2 (get_tag TAG_GDDR_UNCORR_ERRS s') = uncorr_field t /\
       bits_get ((i mod 2) * 16) 16 (get_tag (TAG_GDDR_0_1_CORR_ERRS + i / 2) s') = corr_field t) /\
    (forall t, 0 <= t -> t ∉ gddr_tags -> get_tag t s' = get_tag t s).
Proof.
  destruct (gddr_only enabled table bist s Hs Hok) as (s' & E & _ & Ho). exists s'. split; [exact E|]. split; [|exact Ho].
  destruct (gddr_published enabled table bist s Hs Hok) as (corr & uncorr & status & speed & s1 & E1 & Hs1 & Hf & _).
  rewrite E in E1. injection E1 as ->. clear E Ho. intros i Hi. destruct (Hf i Hi) as (F1 & F2 & F3 & F4 & Hin). cbv zeta.
  assert (Hi4 : 0 <= i / 2 < 4) by (unfold NUM_GDDR in Hi; Z.to_euclidean_division_equations; lia).
  rewrite (publish_other _ _ _ _ (TAG_GDDR_0_1_CORR_ERRS + i / 2)), Hin
    by (done || unfold TAG_GDDR_0_1_CORR_ERRS, TAG_GDDR_SPEED, TAG_GDDR_STATUS, TAG_GDDR_UNCORR_ERRS; lia).
  rewrite !get_publish by done. cbn [TAG_GDDR_STATUS TAG_GDDR_SPEED TAG_GDDR_UNCORR_ERRS Z.eqb Pos.eqb].
  split_and!; assumption.
Qed.

(** ** The fixed-point format *)

(** The finite single-precision floats: [m * 2^(k - 149)]. *)
Definition ulp : positive := (2 ^ 149)%positive.
Definition is_float (q : Q) : Prop := exists m k, Z.abs m < 2 ^ 24 /\ 0 <= k <= 253 /\ q == m * 2 ^ k # ulp.

(** Rounding leaves a float as it is. *)
Definition float_rounding (rnd : Q -> Q) : Prop := forall q, is_float q -> rnd q == q.

(** The nearest multiple of 1/65536 towards zero, in units of 1/65536. *)
Definition to_fixed (q : Q) : Z := let n := Qfloor (Qabs q * 65536) in if qlt q 0 then - n else n.

Lemma ulp_pow : Zpos ulp = 2 ^ 149. Proof. reflexivity. Qed.

Lemma mod_float m k :
  0 <= m < 2 ^ 24 -> 0 <= k -> exists m' k', (m * 2 ^ k) mod 2 ^ 149 = m' * 2 ^ k' /\ 0 <= m' < 2 ^ 24 /\ 0 <= k' < 149.
Proof.
  intros Hm Hk. destruct (Z.lt_ge_cases k 149).
  - exists (m mod 2 ^ (149 - k)), k. assert (0 < 2 ^ (149 - k)) by (apply Z.pow_pos_nonneg; lia).
    split; [|pose proof (Z.mod_le m (2 ^ (149 - k))); pose proof (Z.mod_pos_bound m (2 ^ (149 - k))); lia].
    replace 149 with ((149 - k) + k) at 1 by lia. rewrite Z.pow_add_r by lia. apply Z.mul_mod_distr_r; lia.
  - exists 0, 0. split; [|lia]. replace k with ((k - 149) + 149) by lia. rewrite Z.pow_add_r, Z.mul_assoc by lia. by rewrite Z.mod_mul.
Qed.

Lemma div_float m k :
  0 <= m < 2 ^ 24 -> 0 <= k <= 253 ->
  exists m' k', (m * 2 ^ k * 2 ^ 16) / 2 ^ 149 * 2 ^ 133 = m' * 2 ^ k' /\ 0 <= m' < 2 ^ 24 /\ 0 <= k' <= 253.
Proof.
  intros Hm Hk. rewrite <- Z.mul_assoc, <- Z.pow_add_r by lia. destruct (Z.lt_ge_cases (k + 16) 149).
  - exists (m / 2 ^ (149 - (k + 16))), 133. assert (0 < 2 ^ (149 - (k + 16))) by (apply Z.pow_pos_nonneg; lia). split.
    + f_equal. replace 149 with ((149 - (k + 16)) + (k + 16)) at 1 by lia. rewrite (Z.pow_add_r 2 (149 - (k + 16))) by lia.
      apply Z.div_mul_cancel_r; lia.
    + split; [|lia]. split; [apply Z.div_pos; lia|]. apply Z.le_lt_trans with m; [|lia]. apply Z.div_le_upper_bound; nia.
  - exists m, k. split; [|done]. replace (k + 16) with ((k - 133) + 149) by lia.
    rewrite (Z.pow_add_r 2 (k - 133)), Z.mul_assoc, Z.div_mul, <- Z.mul_assoc, <- Z.pow_add_r by lia. f_equal. f_equal. lia.
Qed.

Lemma fixed_split x d : 0 < d -> (x mod d * 2 ^ 16) / d + x / d * 2 ^ 16 = (x * 2 ^ 16) / d.
Proof.
  intros Hd. rewrite (Z.div_mod x d) at 3 by lia. replace ((d * (x / d) + x mod d) * 2 ^ 16) with (x mod d * 2 ^ 16 + (x / d * 2 ^ 16) * d) by ring.
  by rewrite Z.div_add by lia.
Qed.

Lemma Qfloor_eq (a : Q) n (d : positive) : a == n # d -> Qfloor a = n / Zpos d.
Proof. intros ->. reflexivity. Qed.

Lemma float_to_unsigned_floor w (a : Q) n : Qfloor a = n -> 0 <= n < 2 ^ w -> float_to_unsigned w a = Some n.
Proof.
  intros <- Hn. unfold float_to_unsigned. pose proof (Qfloor_le a) as H1. pose proof (Qlt_floor a) as H2.
  rewrite (proj2 (qlt_spec (-1) a)), (proj2 (qlt_spec a (inject_Z (2 ^ w)))).
  - cbn [andb]. f_equal. lia.
  - eapply Qlt_le_trans; [exact H2|]. rewrite <- Zle_Qle. lia.
  - eapply Qlt_le_trans; [|exact H1]. change (-1)%Q with (inject_Z (-1)). rewrite <- Zlt_Qlt. lia.
Qed.

Lemma lor_shiftl_add a b w : 0 <= w -> 0 <= b < 2 ^ w -> Z.lor (Z.shiftl a w) b = a * 2 ^ w + b.
Proof.
  intros Hw Hb. rewrite <- Z.shiftl_mul_pow2 by done. assert (Hl : Z.land (Z.shiftl a w) b = 0).
  { apply Z.bits_inj'. intros i Hi. rewrite Z.land_spec, Z.bits_0. destruct (Z.lt_ge_cases i w).
    - by rewrite Z.shiftl_spec_low.
    - by rewrite (testbit_above b w), andb_false_r. }
  by rewrite Z.add_nocarry_lxor, Z.lxor_lor by done.
Qed.

Lemma swrap_u32 z : - 2 ^ 31 <= z < 2 ^ 31 -> swrap 32 (u32 z) = z.
Proof.
  intros Hz. rewrite <- (swrap_small 32 z) at 2 by lia. unfold swrap, wrap. by rewrite Z.add_mod_idemp_l.
Qed.

Lemma not_flt_max (v : Q) : (Qabs v < 65536)%Q -> Qeq_bool v FLT_MAX || Qeq_bool v (- FLT_MAX) = false.
Proof.
  intros Hv. apply orb_false_iff. split; apply not_true_iff_false; intros E; apply Qeq_bool_iff in E; rewrite E in Hv; by vm_compute in Hv.
Qed.

(** A magnitude below 65536 is converted without rounding: its integer and fraction
    parts, truncated. *)
Lemma convert_magnitude rnd (v : Q) m k :
  float_rounding rnd -> 0 <= m < 2 ^ 24 -> 0 <= k <= 253 -> Qabs v == m * 2 ^ k # ulp -> m * 2 ^ k < 2 ^ 16 * 2 ^ 149 ->
  let n := (m * 2 ^ k * 2 ^ 16) / 2 ^ 149 in
  Qfloor (Qabs v * 65536) = n /\ 0 <= n < 2 ^ 32 /\
  ConvertFloatToTelemetry rnd v = Some (if qlt v 0 then u32 (- n) else n).
Proof.
  intros Hr Hm Hk Hv Hlt n. set (x := m * 2 ^ k) in *. assert (Hx : 0 <= x) by (apply Z.mul_nonneg_nonneg; [lia|apply Z.pow_nonneg; lia]).
  assert (Hip : Qfloor (Qabs v) = x / 2 ^ 149) by (rewrite <- ulp_pow; by apply Qfloor_eq).
  assert (Hn : 0 <= n < 2 ^ 32).
  { unfold n. split; [apply Z.div_pos; lia|]. apply Z.div_lt_upper_bound; lia. }
  split; [|split; [done|]].
  { unfold n. rewrite <- ulp_pow. apply Qfloor_eq. rewrite Hv. unfold Qeq. cbn -[Z.mul ulp Pos.mul]. lia. }
  destruct (mod_float m k) as (m' & k' & Em & Hm' & Hk'); [done|lia|]. fold x in Em.
  assert (Hmod := Z.mod_pos_bound x (2 ^ 149) ltac:(done)).
  assert (Hf : fsub rnd (Qabs v) (inject_Z (x / 2 ^ 149)) == x mod 2 ^ 149 # ulp).
  { assert (Hd : Qabs v - inject_Z (x / 2 ^ 149) == x mod 2 ^ 149 # ulp).
    { rewrite Hv. unfold Qeq, Qminus, Qplus. cbn -[Z.mul ulp Pos.mul Z.add Z.div Z.modulo Z.pow].
      pose proof (Z.div_mod x (2 ^ 149) ltac:(done)). rewrite Pos.mul_1_r, !ulp_pow. nia. }
    unfold fsub. etransitivity; [apply Hr|exact Hd]. exists m', k'. rewrite Z.abs_eq, <- Em by lia. split; [lia|]. split; [lia|exact Hd]. }
  assert (Hg : fmul rnd (fsub rnd (Qabs v) (inject_Z (x / 2 ^ 149))) 65536 == x mod 2 ^ 149 * 2 ^ 16 # ulp).
  { assert (Hd : fsub rnd (Qabs v) (inject_Z (x / 2 ^ 149)) * 65536 == x mod 2 ^ 149 * 2 ^ 16 # ulp).
    { rewrite Hf. unfold Qeq. cbn -[Z.mul ulp Pos.mul Z.modulo Z.pow]. lia. }
    unfold fmul. etransitivity; [apply Hr|exact Hd]. exists m', (k' + 16). rewrite Z.abs_eq by lia. split; [lia|]. split; [lia|].
    by rewrite Hd, Em, <- Z.mul_assoc, <- Z.pow_add_r by lia. }
  assert (Hip16 : 0 <= x / 2 ^ 149 < 2 ^ 16) by (split; [apply Z.div_pos; lia|apply Z.div_lt_upper_bound; lia]).
  assert (Hfr : 0 <= (x mod 2 ^ 149 * 2 ^ 16) / 2 ^ 149 < 2 ^ 16) by (split; [apply Z.div_pos; lia|apply Z.div_lt_upper_bound; lia]).
  unfold ConvertFloatToTelemetry. rewrite (not_flt_max v) by (rewrite Hv; unfold Qlt; cbn -[Z.mul ulp Z.pow]; rewrite ulp_pow; lia).
  rewrite Hip, (float_to_unsigned_floor 16 _ (x / 2 ^ 149)) by (done || apply Qfloor_Z). cbn [mbind option_bind].
  rewrite (float_to_unsigned_floor 16 _ ((x mod 2 ^ 149 * 2 ^ 16) / 2 ^ 149)) by (done || (rewrite <- ulp_pow at 2; by apply Qfloor_eq)).
  cbn [mbind option_bind]. cbv zeta. set (ip := x / 2 ^ 149) in *. set (fr := (x mod 2 ^ 149 * 2 ^ 16) / 2 ^ 149) in *.
  rewrite lor_shiftl_add by (done || lia). by replace (ip * 2 ^ 16 + fr) with n by (unfold n; rewrite <- fixed_split by done; unfold ip, fr; lia).
Qed.

(** The fixed-point format.  For every float whose magnitude is below 32768 the word is its
    truncation to a multiple of 1/65536 in two's complement, and reading the word back
    gives that multiple exactly; the error value travels as 0x80000000 and comes back. *)
Theorem fixed_point_roundtrip rnd (v : Q) (Hr : float_rounding rnd) (Hf : is_float v) (Hv : (Qabs v < 32768)%Q) :
  ConvertFloatToTelemetry rnd v = Some (u32 (to_fixed v)) /\
  ConvertTelemetryToFloat rnd (swrap 32 (u32 (to_fixed v))) == to_fixed v # 65536 /\
  ConvertFloatToTelemetry rnd FLT_MAX = Some 0x80000000 /\
  ConvertTelemetryToFloat rnd (swrap 32 0x80000000) = FLT_MAX.
Proof.
  destruct Hf as (m & k & Hm & Hk & Ev).
  assert (Ea : Qabs v == Z.abs m * 2 ^ k # ulp).
  { rewrite Ev. cbn -[Z.mul Z.pow]. by rewrite Z.abs_mul, (Z.abs_eq (2 ^ k)) by (apply Z.pow_nonneg; lia). }
  assert (Hlt : Z.abs m * 2 ^ k < 2 ^ 15 * 2 ^ 149).
  { rewrite Ea in Hv. unfold Qlt in Hv. cbn -[Z.mul Z.pow ulp] in Hv. rewrite ulp_pow in Hv. lia. }
  destruct (convert_magnitude rnd v (Z.abs m) k Hr) as (En & Hn & Ec); [lia|done|done|lia|].
  destruct (div_float (Z.abs m) k) as (m' & k' & Ed & Hm' & Hk'); [lia|done|].
  assert (Hn31 : (Z.abs m * 2 ^ k * 2 ^ 16) / 2 ^ 149 < 2 ^ 31) by (apply Z.div_lt_upper_bound; lia).
  set (n := (Z.abs m * 2 ^ k * 2 ^ 16) / 2 ^ 149) in *.
  assert (Et : to_fixed v = if qlt v 0 then - n else n) by (unfold to_fixed; by rewrite En).
  split; [rewrite Ec, Et; destruct (qlt v 0); [done|]; by rewrite wrap_small by (unfold in_width; lia)|]. split; [|done].
  rewrite swrap_u32 by (rewrite Et; destruct (qlt v 0); lia).
  unfold ConvertTelemetryToFloat. rewrite (proj2 (Z.eqb_neq _ INT32_MIN)) by (rewrite Et; unfold INT32_MIN; destruct (qlt v 0); lia).
  assert (Eq : inject_Z (to_fixed v) / 65536 == to_fixed v # 65536) by (unfold Qeq; cbn; lia).
  etransitivity; [apply Hr|exact Eq]. exists (if qlt v 0 then - m' else m'), k'. split; [destruct (qlt v 0); lia|]. split; [done|].
  rewrite Eq, Et. unfold Qeq. cbn -[Z.mul Z.pow ulp]. rewrite ulp_pow. destruct (qlt v 0); lia.
Qed.

Lemma fixed_point_roundtrip_witness :
  ConvertFloatToTelemetry id (- 165 # 4) = Some (u32 (- 2703360)) /\
  ConvertTelemetryToFloat id (swrap 32 (u32 (- 2703360))) == (- 2703360 # 65536).
Proof.
  destruct (fixed_point_roundtrip id (- 165 # 4)) as (H1 & H2 & _); [intros q _; reflexivity| |reflexivity|split; assumption].
  exists (- 165), 147. split; [reflexivity|]. split; [lia|reflexivity].
Defined.

(** ** The update as a whole *)

(** A step that writes no tag outside [l]. *)
Definition only (l : list Z) (s s' : telemetry_table) : Prop :=
  sized s' /\ forall t, 0 <= t -> t ∉ l -> get_tag t s' = get_tag t s.

Lemma only_trans l s s' s'' : only l s s' -> only l s' s'' -> only l s s''.
Proof. intros [_ H1] [Hs H2]. split; [done|]. intros t Ht Hn. by rewrite H2, H1. Qed.

Lemma only_mono l l' s s' : l ⊆ l' -> only l s s' -> only l' s s'.
Proof. intros Hl [Hs H]. split; [done|]. intros t Ht Hn. apply H; [done|]. intros Hin. by apply Hn, Hl. Qed.

Lemma only_set_tags l ts s : sized s -> tags_ok l -> l.*1 ⊆ ts -> only ts s (set_tags l s).
Proof.
  intros Hs Hl Hsub. apply (only_mono l.*1); [done|]. split; [by apply set_tags_sized|]. intros t Ht Hn. by apply get_set_tags_other.
Qed.

Lemma only_set_rate src ts s t : sized s -> 0 <= t < TAG_COUNT -> t ∈ ts -> only ts s (set_rate src s t).
Proof.
  intros Hs Ht Hin. unfold set_rate. destruct (rate src t) as [v|]; [|done]. split; [by apply set_tag_sized|].
  intros t' Ht' Hn. rewrite get_set_tag by done. destruct (Z.eqb_spec t' t) as [->|]; done.
Qed.

Lemma only_set_rates src ts l s :
  sized s -> Forall (fun t => 0 <= t < TAG_COUNT /\ t ∈ ts) l -> only ts s (fold_left (set_rate src) l s).
Proof.
  intros Hs Hl. revert s Hs. induction Hl as [|t l [Ht Hin] _ IH]; intros s Hs; [done|]. cbn [fold_left].
  pose proof (only_set_rate src ts s t Hs Ht Hin) as H1. eapply only_trans; [exact H1|]. apply IH, H1.
Qed.

(** The packing of the temperatures. *)
Definition temps_ok (t : gddr_temps) : Prop := len (inst t) = NUM_GDDR /\ Forall (fun p => is_u8 p.1 /\ is_u8 p.2) (inst t).

Lemma pack_temps n lo t packed :
  temps_ok t -> 0 <= lo -> lo + Z.of_nat n <= NUM_GDDR -> length packed = 4%nat ->
  (forall j, lo <= j < NUM_GDDR -> half j packed = 0) ->
  exists p, for_loop n lo (pack_temp t) packed = Some p /\ length p = 4%nat /\
    (forall j top bottom, lo <= j < lo + Z.of_nat n -> inst t !! Z.to_nat j = Some (top, bottom) -> half j p = pair 8 bottom top) /\
    (forall j, 0 <= j < NUM_GDDR -> j < lo \/ lo + Z.of_nat n <= j -> half j p = half j packed).
Proof.
  intros [Hlen Hok]. revert lo packed. induction n as [|n IH]; intros lo packed Hlo Hn Hl Hz.
  { exists packed. split_and!; [done|done|lia|done]. }
  destruct (aget_in (inst t) lo) as [[top bottom] Et]; [lia|]. pose proof Et as Et'. rewrite aget_nat in Et' by lia.
  destruct (Forall_lookup_1 _ _ _ _ Hok Et') as [Htop Hbot]. cbn in Htop, Hbot.
  destruct (half_step lo (pair 8 bottom top) packed) as (c & l' & Ec & Es & Hl' & Hh); [lia|done|by apply (pair_width 8)|].
  assert (Hstep : pack_temp t lo packed = Some l').
  { unfold pack_temp. cbv zeta. rewrite Ec. cbn [mbind option_bind]. rewrite Et. cbn [mbind option_bind].
    rewrite (Z.lor_comm (Z.shiftl _ (8 + _))), (Z.add_comm 8), shiftl_pair by (pose proof (Z.mod_pos_bound lo 2); lia). exact Es. }
  cbn [for_loop]. rewrite Hstep. cbn [mbind option_bind].
  destruct (IH (lo + 1) l') as (p & E & Hp & Hin & Hout); [lia|lia|done| |].
  { intros j Hj. rewrite Hh by lia. rewrite (proj2 (Z.eqb_neq j lo)) by lia. apply Hz. lia. }
  exists p. split; [done|]. split; [done|]. split.
  - intros j tp bt Hj Ej. destruct (Z.eq_dec j lo) as [->|]; [|apply Hin; [lia|done]].
    rewrite Et' in Ej. injection Ej as [= <- <-]. rewrite Hout, Hh by lia. by rewrite Z.eqb_refl, Hz, Z.lor_0_l by lia.
  - intros j Hj Hd. rewrite Hout, Hh by lia. by rewrite (proj2 (Z.eqb_neq j lo)) by lia.
Qed.

(** The tags of the periodic update. *)
Definition dynamic_tags : list Z :=
  [TAG_VCORE; TAG_TDP; TAG_TDC; TAG_ASIC_TEMPERATURE; TAG_VREG_TEMPERATURE; TAG_BOARD_TEMPERATURE; TAG_AICLK;
   TAG_AICLK_ARB_MIN; TAG_AICLK_ARB_MAX; TAG_ENABLED_MIN_ARB; TAG_ENABLED_MAX_ARB; TAG_AICLK_PPM_INFO;
   TAG_AXICLK; TAG_ARCCLK; TAG_L2CPUCLK0; TAG_L2CPUCLK1; TAG_L2CPUCLK2; TAG_L2CPUCLK3; TAG_FAN_SPEED; TAG_FAN_RPM;
   TAG_ETH_LIVE_STATUS] ++ gddr_tags ++
  [TAG_GDDR_0_1_TEMP; TAG_GDDR_2_3_TEMP; TAG_GDDR_4_5_TEMP; TAG_GDDR_6_7_TEMP] ++
  [TAG_MAX_GDDR_TEMP; TAG_INPUT_POWER; TAG_SMBUS_ERRORS; TAG_GDDR_WEST_IO_POWER; TAG_GDDR_EAST_IO_POWER;
   TAG_NOP_START_COUNT; TAG_NOP_ON_DURATION].

Definition sources_ok (src : dynamic_sources) : Prop :=
  forall i t, table_of (ds_gddr_enabled src) (ds_table src) i = Some t -> flags_ok t.

(** The values of an update that the code converts to an integer are in range. *)
Definition readings_ok (rnd : Q -> Q) (d : TelemetryInternalData) : Prop :=
  is_Some (float_to_unsigned 32 (vcore_voltage d)) /\ is_Some (float_to_unsigned 32 (vcore_power d)) /\
  is_Some (float_to_unsigned 32 (vcore_current d)) /\ is_Some (ConvertFloatToTelemetry rnd (asic_temperature d)) /\
  is_Some (float_to_unsigned 32 (gddr_io_power_west d)) /\ is_Some (float_to_unsigned 32 (gddr_io_power_east d)) /\
  temps_ok (temps d).

(** A further step of the same kind. *)
Lemma then_set_tags ts s0 s l : only ts s0 s -> tags_ok l -> l.*1 ⊆ ts -> only ts s0 (set_tags l s).
Proof. intros H Hl Hsub. eapply only_trans; [exact H|]. apply only_set_tags; [apply H|done..]. Qed.
Lemma then_set_tag ts s0 s t v : only ts s0 s -> 0 <= t < TAG_COUNT -> t ∈ ts -> only ts s0 (set_tag t v s).
Proof. intros H Ht Hin. apply (then_set_tags ts s0 s [(t, v)]); [done|by apply Forall_singleton|]. intros x Hx. by apply list_elem_of_singleton in Hx as ->. Qed.
Lemma then_set_rates src ts s0 s l :
  only ts s0 s -> Forall (fun t => 0 <= t < TAG_COUNT /\ t ∈ ts) l -> only ts s0 (fold_left (set_rate src) l s).
Proof. intros H Hl. eapply only_trans; [exact H|]. apply only_set_rates; [apply H|done]. Qed.
Lemma only_refl ts s : sized s -> only ts s s. Proof. done. Qed.

Lemma sub_bool (l ts : list Z) : forallb (fun t => bool_decide (t ∈ ts)) l = true -> l ⊆ ts.
Proof. rewrite forallb_forall. intros H x Hx. apply (bool_decide_eq_true_1 _), H. by apply list_elem_of_In. Qed.
Lemma tags_bool (l ts : list Z) :
  forallb (fun t => (0 <=? t) && (t <? TAG_COUNT) && bool_decide (t ∈ ts)) l = true -> Forall (fun t => 0 <= t < TAG_COUNT /\ t ∈ ts) l.
Proof.
  rewrite forallb_forall, Forall_forall. intros H x Hx. apply list_elem_of_In, H in Hx.
  apply andb_true_iff in Hx as [Hx Hin]. apply bool_decide_eq_true_1 in Hin. apply andb_true_iff in Hx as [H1 H2]. split; [|done]. lia.
Qed.
Lemma tags_ok_all l : Forall (fun t => 0 <= t < TAG_COUNT) l.*1 -> tags_ok l.
Proof. unfold tags_ok. by rewrite Forall_fmap. Qed.

Ltac tag_side :=
  first [apply tags_ok_all, (bool_decide_eq_true_1 _); vm_compute; reflexivity
        |apply sub_bool; vm_compute; reflexivity
        |apply tags_bool; vm_compute; reflexivity
        |apply (bool_decide_eq_true_1 _); vm_compute; reflexivity].

(** The words before and after those of the GDDR. *)
Definition clocks_and_fan (src : dynamic_sources) (s : telemetry_table) : telemetry_table :=
  let s := set_rate src s TAG_AICLK in
  let s := set_tags [
    (TAG_AICLK_ARB_MIN, Z.lor (arb_min src).1 (Z.shiftl (arb_min src).2 16));
    (TAG_AICLK_ARB_MAX, Z.lor (arb_max src).1 (Z.shiftl (arb_max src).2 16));
    (TAG_ENABLED_MIN_ARB, min_bitmask src);
    (TAG_ENABLED_MAX_ARB, max_bitmask src);
    (TAG_AICLK_PPM_INFO, ppm_info src)] s in
  let s := fold_left (set_rate src) [TAG_AXICLK; TAG_ARCCLK; TAG_L2CPUCLK0; TAG_L2CPUCLK1; TAG_L2CPUCLK2; TAG_L2CPUCLK3] s in
  let s := set_tags [
    (TAG_FAN_SPEED, if fan_ctrl_en src then fan_speed src else 0xFFFFFFFF);
    (TAG_FAN_RPM, if fan_ctrl_en src then fan_rpm src else 0xFFFFFFFF)] s in
  UpdateEthTelemetry (eth_heartbeat src) (eth_link src) s.

Lemma clocks_and_fan_only src s0 s : only dynamic_tags s0 s -> only dynamic_tags s0 (clocks_and_fan src s).
Proof.
  intros H. unfold clocks_and_fan, UpdateEthTelemetry. cbv zeta. apply then_set_tag; [|tag_side..]. apply then_set_tags; [|tag_side..].
  apply then_set_rates; [|tag_side]. apply then_set_tags; [|tag_side..].
  apply (then_set_rates src dynamic_tags s0 s [TAG_AICLK]); [done|tag_side].
Qed.

Definition tail_tags : list Z :=
  [TAG_MAX_GDDR_TEMP; TAG_INPUT_POWER; TAG_SMBUS_ERRORS; TAG_GDDR_WEST_IO_POWER; TAG_GDDR_EAST_IO_POWER;
   TAG_NOP_START_COUNT; TAG_NOP_ON_DURATION].
Lemma not_tail t : 42 <= t < 46 -> t ∉ tail_tags.
Proof.
  intros Ht. assert (forallb (fun t => bool_decide (t ∉ tail_tags)) (seqZ 42 4) = true) as H by (vm_compute; reflexivity).
  rewrite forallb_forall in H. apply (bool_decide_eq_true_1 _), H, list_elem_of_In, elem_of_seqZ. lia.
Qed.

(** The periodic update.  It always completes, counts one heartbeat modulo 2^32, publishes
    every GDDR temperature where the host looks for it, and leaves all words that are
    not its own (the static ones, the limits, the versions, the feature flags) alone. *)
Theorem telemetry_update rnd d src s
    (Hs : sized s) (Hd : readings_ok rnd d) (Hsrc : sources_ok src) :
  exists s', update_telemetry rnd d src s = Some s' /\ sized s' /\
    get_tag TAG_TIMER_HEARTBEAT s' = u32 (get_tag TAG_TIMER_HEARTBEAT s + 1) /\
    (forall i top bottom, 0 <= i < NUM_GDDR -> inst (temps d) !! Z.to_nat i = Some (top, bottom) ->
       bits_get ((i mod 2) * 16) 16 (get_tag (TAG_GDDR_0_1_TEMP + i / 2) s') = pair 8 bottom top) /\
    (forall t, 0 <= t -> t <> TAG_TIMER_HEARTBEAT -> t ∉ dynamic_tags -> get_tag t s' = get_tag t s).
Proof.
  destruct Hd as ([v1 E1] & [v2 E2] & [v3 E3] & [v4 E4] & [v5 E5] & [v6 E6] & Htemps).
  unfold update_telemetry. rewrite E1, E2, E3, E4. cbn [mbind option_bind].
  match goal with |- context [set_rate src ?x TAG_AICLK] => set (s1 := x) end.
  assert (H1 : only dynamic_tags s s1) by (apply then_set_tags; [by apply only_refl|tag_side..]). clearbody s1.
  apply (clocks_and_fan_only src) in H1. fold (clocks_and_fan src s1).
  set (s1' := clocks_and_fan src s1) in *. clearbody s1'. clear s1.
  destruct (gddr_only (ds_gddr_enabled src) (ds_table src) (ds_bist src) s1') as (s2 & E & Hs2 & Ho); [apply H1|exact Hsrc|].
  rewrite E. cbn [mbind option_bind].
  assert (H2 : only dynamic_tags s s2).
  { eapply only_trans; [exact H1|]. apply (only_mono gddr_tags); [apply sub_bool; vm_compute; reflexivity|done]. }
  clear H1 E Ho s1'.
  destruct (pack_temps 8 0 (temps d) (replicate 4 0) Htemps) as (p & Ep & Hp & Hin & _); [lia|done|done|intros; apply half_zero|].
  unfold pack_gddr_temps. change (Z.to_nat NUM_GDDR) with 8%nat. rewrite Ep. cbn [mbind option_bind].
  destruct (copy_words TAG_GDDR_0_1_TEMP p s2) as (s3 & E3' & Hs3 & Hw & Ho3); [done|done|unfold TAG_GDDR_0_1_TEMP, TAG_COUNT; lia..|].
  rewrite E3', E5, E6. cbn [mbind option_bind].
  assert (H3 : only dynamic_tags s s3).
  { eapply only_trans; [exact H2|]. apply (only_mono [TAG_GDDR_0_1_TEMP; TAG_GDDR_2_3_TEMP; TAG_GDDR_4_5_TEMP; TAG_GDDR_6_7_TEMP]);
      [apply sub_bool; vm_compute; reflexivity|]. split; [done|]. intros t Ht Hn. apply Ho3; [done|].
    rewrite !not_elem_of_cons in Hn. unfold TAG_GDDR_0_1_TEMP, TAG_GDDR_2_3_TEMP, TAG_GDDR_4_5_TEMP, TAG_GDDR_6_7_TEMP in *. lia. }
  match goal with |- context [set_tags ?l s3] => set (tl := l); assert (Htl : tags_ok tl /\ tl.*1 = tail_tags) by (split; [tag_side|done]) end.
  clearbody tl. destruct Htl as [Htl El].
  assert (H4 : only dynamic_tags s (set_tags tl s3)) by (apply then_set_tags; [done..|rewrite El; tag_side]).
  eexists. split; [done|]. split; [apply set_tag_sized, H4|]. destruct H4 as [Hs4 H4].
  assert (HB : 0 <= TAG_TIMER_HEARTBEAT < TAG_COUNT) by (unfold TAG_TIMER_HEARTBEAT, TAG_COUNT; lia).
  split; [|split].
  - rewrite get_set_tag, Z.eqb_refl by (done || apply HB). rewrite H4; [done|apply HB|]. tag_side.
  - intros i top bottom Hi Ei. assert (Hi4 : 0 <= i / 2 < 4) by (unfold NUM_GDDR in Hi; Z.to_euclidean_division_equations; lia).
    rewrite <- (Hin i top bottom) by (done || (unfold NUM_GDDR in Hi; lia)). unfold half. rewrite <- (Hw i Hi).
    assert (H42 : 42 <= TAG_GDDR_0_1_TEMP + i / 2 < 46) by (unfold TAG_GDDR_0_1_TEMP; lia).
    set (tt := TAG_GDDR_0_1_TEMP + i / 2) in *. clearbody tt.
    rewrite get_set_tag by (done || lia). rewrite (proj2 (Z.eqb_neq tt TAG_TIMER_HEARTBEAT)) by (unfold TAG_TIMER_HEARTBEAT; lia).
    rewrite get_set_tags_other; [done|done|done|lia|]. rewrite El. by apply not_tail.
  - intros t Ht Hne Hn. rewrite get_set_tag by done. by rewrite (proj2 (Z.eqb_neq _ _) Hne), H4.
Qed.

(** The ports of the instances, four bits each; 15 for a harvested one. *)
Lemma mrisc_endpoints_decode enabled port :
  (forall i, in_width 4 (port i)) ->
  exists w, get_gddr_mrisc_endpoints enabled port = Some w /\
    forall i, 0 <= i < NUM_GDDR -> bits_get (i * 4) 4 w = if Z.testbit enabled i then port i else 0xF.
Proof.
  intros Hp. destruct (or_fields 8 0 0 4 (fun i => if Z.testbit enabled i then port i else 0xF) 0) as (w & E & Hin & _); [done..| |].
  { intros i _. by destruct (Z.testbit enabled i). }
  exists w. split; [|intros i Hi; apply (Hin i); [unfold NUM_GDDR in Hi; lia|unfold bits_get; by rewrite Z.shiftr_0_l]].
  rewrite <- E. apply for_loop_ext. intros i s _. unfold mrisc_endpoint, or_field. by rewrite Z.add_0_l.
Qed.

(** ** Witnesses *)

Module Example.
Definition t : gddr_table := MkGddr 1 0 16 2 9 3 0x104 0 1.
Definition d : TelemetryInternalData := MkInternal 750 42 (56 # 1) (165 # 4) (MkTemps 48 (replicate 8 (48, 40))) 3 4.
Definition src : dynamic_sources :=
  MkDynamic (fun _ => Some 800) (200, 0) (1350, 1) 1 3 0 true 35 1800 0x3ff 0xff (fun _ => Some t) (MkBist 0xff 0x02) 0x7f 100 0 0 0.
End Example.

Lemma gddr_telemetry_decodes_witness :
  match UpdateGddrTelemetry 0x7f (fun _ => Some Example.t) (MkBist 0xff 0x02) telemetry_table0 with
  | Some s' => bits_get 2 2 (get_tag TAG_GDDR_STATUS s') = 1 /\ bits_get 18 2 (get_tag TAG_GDDR_STATUS s') = 3 /\
               bits_get 16 16 (get_tag TAG_GDDR_0_1_CORR_ERRS s') = 0x403
  | None => False
  end.
Proof.
  destruct (gddr_telemetry_decodes 0x7f (fun _ => Some Example.t) (MkBist 0xff 0x02) telemetry_table0) as (s' & E & H & _).
  - reflexivity.
  - intros i t. unfold table_of. destruct (Z.testbit 0x7f i); [|discriminate]. intros [= <-]. unfold flags_ok, in_width; cbn; lia.
  - rewrite E. destruct (H 1) as (H1 & H2 & _ & H4); [unfold NUM_GDDR; lia|]. split; [exact H1|]. split; [exact H2|exact H4].
Defined.

Lemma telemetry_update_witness :
  match update_telemetry id Example.d Example.src telemetry_table0 with
  | Some s' => get_tag TAG_TIMER_HEARTBEAT s' = 1 /\ get_tag TAG_BOARD_ID_LOW s' = 0
  | None => False
  end.
Proof.
  destruct (telemetry_update id Example.d Example.src telemetry_table0) as (s' & E & _ & H1 & _ & H2).
  - reflexivity.
  - split; [eexists; reflexivity|]. split; [eexists; reflexivity|]. split; [eexists; reflexivity|]. split; [eexists; reflexivity|].
    split; [eexists; reflexivity|]. split; [eexists; reflexivity|]. split; [reflexivity|]. apply Forall_replicate; unfold in_width; cbn; lia.
  - intros i t. unfold table_of. destruct (Z.testbit _ i); [|discriminate]. intros [= <-]. unfold flags_ok, in_width; cbn; lia.
  - rewrite E. split; [exact H1|]. apply H2; [unfold TAG_BOARD_ID_LOW; lia|discriminate|]. apply (bool_decide_eq_true_1 _). vm_compute. reflexivity.
Defined.
