(* ===== verification/Fan.v ===== *)
(** * Fan control of the SMC ([lib/tenstorrent/bh_arc/fan_ctrl.c])

    The filtered temperatures, the fan curve with its hysteresis, the forced speed,
    and the requests they post for the DMC (the mailbox of [Cm2dm]).  Floats are
    rationals; [rnd] is the rounding of a float operation, of which the theorems use
    that it is monotone and close ([Rounding]). *)

From Stdlib Require Import QArith Qround Qabs Lqa.
From S2P Require Import Prelude Cm2dm Aiclk Throttler Telemetry.
#[local] Open Scope Z_scope.

Definition UINT32_MAX : Z := 2 ^ 32 - 1.

(** ** State *)

Record fan_ctrl := MkFan {
  fan_rpm : Z; fan_speed : Z; fan_speed_forced : bool; fan_speed_feedback : Z;
  max_gddr_temp : Q; max_asic_temp : Q; effective_gddr_temp : Q; mailbox : smc_state }.

Definition fan_ctrl0 (m : smc_state) : fan_ctrl := MkFan 0 0 false 0 0 0 (-1) m.

Definition set_temps (g a : Q) (s : fan_ctrl) : fan_ctrl :=
  MkFan (fan_rpm s) (fan_speed s) (fan_speed_forced s) (fan_speed_feedback s) g a (effective_gddr_temp s) (mailbox s).
Definition set_speed (v : Z) (forced : bool) (s : fan_ctrl) : fan_ctrl :=
  MkFan (fan_rpm s) v forced (fan_speed_feedback s) (max_gddr_temp s) (max_asic_temp s) (effective_gddr_temp s) (mailbox s).
Definition set_effective (e : Q) (s : fan_ctrl) : fan_ctrl :=
  MkFan (fan_rpm s) (fan_speed s) (fan_speed_forced s) (fan_speed_feedback s) (max_gddr_temp s) (max_asic_temp s) e (mailbox s).
Definition set_mailbox (m : smc_state) (s : fan_ctrl) : fan_ctrl :=
  MkFan (fan_rpm s) (fan_speed s) (fan_speed_forced s) (fan_speed_feedback s) (max_gddr_temp s) (max_asic_temp s) (effective_gddr_temp s) m.

(** ** Operations *)

Section fan.
Variable rnd : Q -> Q.
(** CONFIG_TT_BH_ARC_FAN_CTRL_ALPHA and CONFIG_TT_BH_ARC_FAN_CTRL_GDDR_TEMP. *)
Variable ALPHA : Z.
Variable GDDR_TEMP : bool.

Definition alpha : Q := fdiv rnd (of_u32 ALPHA) 100.

(** [(uint32_t)(k * t - c)]. *)
Definition line (k c t : Q) : option Z := float_to_unsigned 32 (fsub rnd (fmul rnd (rnd k) t) (rnd c)).

Definition asic_curve (t : Q) : option Z :=
  if qlt t 60 then Some 20
  else if qlt t 72 then line (833 # 1000) (2998 # 100) t
  else if qlt t 75 then line (3333 # 1000) (209976 # 1000) t
  else if qlt t 90 then line 4 260 t
  else Some 100.

Definition gddr_curve (t : Q) : option Z :=
  if qlt t 45 then Some 20
  else if qlt t 60 then float_to_unsigned 32 (fsub rnd t 25)
  else if qlt t 82 then line (2955 # 1000) (1423 # 10) t
  else Some 100.

Definition hysteresis (max_gddr_temp effective : Q) : Q :=
  if qlt effective 0 then max_gddr_temp
  else if qlt effective max_gddr_temp then max_gddr_temp
  else if qle max_gddr_temp (fsub rnd effective 5) then max_gddr_temp
  else effective.

Definition fan_curve (max_asic_temp max_gddr_temp : Q) (s : fan_ctrl) : option (Z * fan_ctrl) :=
  fan_speed1 ← asic_curve max_asic_temp;
  let s := set_effective (hysteresis max_gddr_temp (effective_gddr_temp s)) s in
  fan_speed2 ← gddr_curve (effective_gddr_temp s);
  Some (Z.max fan_speed1 fan_speed2, s).

Definition filter_temp (t old : Q) : Q := fadd rnd (fmul rnd alpha t) (fmul rnd (fsub rnd 1 alpha) old).

(** [asic_temperature] and [gddr_temps.max_temp] of the shared readings. *)
Definition update_fan_speed (asic_temperature : Q) (gddr_max_temp : Z) (s : fan_ctrl) : option fan_ctrl :=
  let a := filter_temp asic_temperature (max_asic_temp s) in
  let g := if GDDR_TEMP then filter_temp (of_u32 gddr_max_temp) (max_gddr_temp s) else 0%Q in
  let s := set_temps g a s in
  if negb (fan_speed_forced s) then
    '(v, s) ← fan_curve a g s;
    let s := set_speed v false s in
    m ← UpdateFanSpeedRequest v (mailbox s);
    Some (set_mailbox m s)
  else Some s.

Definition GetFanRPM (s : fan_ctrl) : Z := fan_rpm s.
Definition SetFanRPM (rpm : Z) (s : fan_ctrl) : fan_ctrl :=
  MkFan rpm (fan_speed s) (fan_speed_forced s) (fan_speed_feedback s) (max_gddr_temp s) (max_asic_temp s) (effective_gddr_temp s) (mailbox s).
Definition GetFanSpeed (s : fan_ctrl) : Z := if negb (fan_speed_feedback s =? 0) then fan_speed_feedback s else fan_speed s.
Definition DmcFanSpeedFeedback (speed_percentage : Z) (s : fan_ctrl) : fan_ctrl :=
  MkFan (fan_rpm s) (fan_speed s) (fan_speed_forced s) speed_percentage (max_gddr_temp s) (max_asic_temp s) (effective_gddr_temp s) (mailbox s).

Definition init_fan_ctrl (asic_temperature : Q) (s : fan_ctrl) : fan_ctrl := set_temps (max_gddr_temp s) asic_temperature s.

(** Returns the exit code of the host's message. *)
Definition force_fan_speed (fan_ctrl_en : bool) (raw_speed : Z) (s : fan_ctrl) : option (Z * fan_ctrl) :=
  if negb fan_ctrl_en then Some (1, s) else
  s ← (if raw_speed =? UINT32_MAX then
         '(v, s) ← fan_curve (max_asic_temp s) (max_gddr_temp s) (set_speed (fan_speed s) false s);
         Some (set_speed v false s)
       else Some (set_speed (zclamp raw_speed 0 100) true s));
  m ← (if fan_speed_forced s then UpdateForcedFanSpeedRequest (fan_speed s) (mailbox s)
       else UpdateFanSpeedRequest (fan_speed s) (mailbox s));
  Some (0, set_mailbox m s).
End fan.

(** ** Rounding *)

(** A rounding to 24 bits, for the sizes that occur: monotone and close. *)
Class Rounding (rnd : Q -> Q) : Prop := {
  rnd_mono : forall a b, (a <= b)%Q -> (rnd a <= rnd b)%Q;
  rnd_close : forall q b, (- b <= q <= b)%Q -> (b <= 1024)%Q ->
    (- (b + 1) <= (rnd q - q) * inject_Z (2 ^ 24) <= b + 1)%Q
}.

(** No rounding, for examples. *)
#[export] Instance id_Rounding : Rounding id.
Proof.
  split; [done|]. intros q b [H1 H2] _. change (inject_Z (2 ^ 24)) with (16777216#1)%Q. unfold id. split; nra.
Qed.

Section curve.
Context (rnd : Q -> Q) `{!Rounding rnd}.
Open Scope Q_scope.

Definition line_q (k c t : Q) : Q := fsub rnd (fmul rnd (rnd k) t) (rnd c).

Lemma line_close k c t :
  0 <= k <= 4 -> 0 <= t <= 100 -> 0 <= c <= 300 ->
  k * t - c - (1 # 10000) <= line_q k c t <= k * t - c + (1 # 10000).
Proof.
  intros Hk Ht Hc. unfold line_q, fsub, fmul. change (inject_Z (2 ^ 24)) with (16777216#1).
  pose proof (rnd_close k 4 ltac:(lra) ltac:(lra)) as E1. change (inject_Z (2 ^ 24)) with (16777216#1) in *.
  set (k' := rnd k) in *. assert (E2 : - 500 <= (k' * t - k * t) * (16777216#1) <= 500) by (split; nra).
  assert (Hp : - 1 <= k' * t <= 401) by (split; nra).
  pose proof (rnd_close (k' * t) 401 ltac:(lra) ltac:(lra)) as E3. change (inject_Z (2 ^ 24)) with (16777216#1) in *.
  set (p := rnd (k' * t)) in *.
  pose proof (rnd_close c 300 ltac:(lra) ltac:(lra)) as E4. change (inject_Z (2 ^ 24)) with (16777216#1) in *. set (c' := rnd c) in *.
  pose proof (rnd_close (p - c') 403 ltac:(lra) ltac:(lra)) as E5. change (inject_Z (2 ^ 24)) with (16777216#1) in *.
  generalize dependent (rnd (p - c')). intros r E5. lra.
Qed.

Lemma line_mono k c t t' : 1 # 2 <= k <= 4 -> t <= t' -> line_q k c t <= line_q k c t'.
Proof.
  intros Hk Ht. unfold line_q, fsub, fmul. apply rnd_mono. apply Qplus_le_compat; [|apply Qle_refl]. apply rnd_mono.
  pose proof (rnd_close k 4 ltac:(lra) ltac:(lra)) as E1. change (inject_Z (2 ^ 24)) with (16777216#1) in *. nra.
Qed.
End curve.

(** ** The curves *)

Lemma float_to_unsigned_between (q : Q) (lo hi : Z) :
  (inject_Z lo <= q < inject_Z (hi + 1))%Q -> 0 <= lo -> hi < 2 ^ 32 -> exists v, float_to_unsigned 32 q = Some v /\ lo <= v <= hi /\ v = Qfloor q.
Proof.
  intros [H1 H2] Hlo Hhi. exists (Qfloor q).
  assert (Hl : lo <= Qfloor q) by (rewrite <- (Qfloor_Z lo); by apply Qfloor_resp_le).
  assert (Hh : Qfloor q < hi + 1).
  { rewrite Zlt_Qlt. eapply Qle_lt_trans; [apply Qfloor_le|done]. }
  split; [|lia]. apply float_to_unsigned_floor; lia.
Qed.

(** A piece of a curve: total and in its band, monotone. *)
Definition piece (f : Q -> option Z) (from to : Q) (lo hi : Z) : Prop :=
  (forall t, (from <= t < to)%Q -> exists v, f t = Some v /\ lo <= v <= hi) /\
  (forall t t' v v', (from <= t)%Q -> (t <= t')%Q -> (t' < to)%Q -> f t = Some v -> f t' = Some v' -> v <= v').

Section pieces.
Context (rnd : Q -> Q) `{!Rounding rnd}.

Lemma line_piece k c from to lo hi :
  (1 # 2 <= k <= 4)%Q -> (0 <= c <= 300)%Q -> (0 <= from)%Q -> (to <= 100)%Q ->
  (inject_Z lo <= k * from - c - (1 # 10000))%Q -> (k * to - c + (1 # 10000) <= inject_Z (hi + 1))%Q ->
  0 <= lo -> hi < 2 ^ 32 -> piece (line rnd k c) from to lo hi.
Proof.
  intros Hk Hc Hf Ht Hl Hh Hlo Hhi.
  assert (Hb : forall t, (from <= t < to)%Q -> exists v, line rnd k c t = Some v /\ lo <= v <= hi /\ v = Qfloor (line_q rnd k c t)).
  { intros t [H1 H2]. apply float_to_unsigned_between; [|done|done]. change (inject_Z lo <= line_q rnd k c t < inject_Z (hi + 1))%Q.
    pose proof (line_close rnd k c t ltac:(lra) ltac:(lra) Hc) as E. split; nra. }
  split; [intros t Hin; destruct (Hb t Hin) as (v & E & Hv & _); eauto|].
  intros t t' v v' H1 H2 H3 E E'. destruct (Hb t) as (w & Ew & _ & Hw); [split; lra|]. destruct (Hb t') as (w' & Ew' & _ & Hw'); [split; lra|].
  rewrite E in Ew. rewrite E' in Ew'. injection Ew as ->. injection Ew' as ->. subst. apply Qfloor_resp_le. by apply line_mono.
Qed.

Lemma minus25_piece : piece (fun t => float_to_unsigned 32 (fsub rnd t 25)) 45 60 19 35.
Proof.
  assert (Hb : forall t, (45 <= t < 60)%Q -> exists v, float_to_unsigned 32 (fsub rnd t 25) = Some v /\ 19 <= v <= 35 /\ v = Qfloor (fsub rnd t 25)).
  { intros t [H1 H2]. apply float_to_unsigned_between; [|done|done]. unfold fsub.
    pose proof (rnd_close (t - 25)%Q 35 ltac:(lra) ltac:(lra)) as E. change (inject_Z (2 ^ 24)) with (16777216#1)%Q in E.
    change (inject_Z 19) with 19%Q. change (inject_Z (35 + 1)) with 36%Q. split; lra. }
  split; [intros t Hin; destruct (Hb t Hin) as (v & E & Hv & _); eauto|].
  intros t t' v v' H1 H2 H3 E E'. destruct (Hb t) as (w & Ew & _ & Hw); [split; lra|]. destruct (Hb t') as (w' & Ew' & _ & Hw'); [split; lra|].
  rewrite E in Ew. rewrite E' in Ew'. injection Ew as ->. injection Ew' as ->. subst. apply Qfloor_resp_le. unfold fsub. apply rnd_mono. lra.
Qed.

Lemma const_piece n from to : piece (fun _ => Some n) from to n n.
Proof. split; [intros; eauto with lia|congruence || (intros; simplify_eq; lia)]. Qed.
End pieces.

Lemma qlt_ge a b : qlt a b = false -> (b <= a)%Q.
Proof. intros H. apply Qnot_lt_le. intros Hlt%qlt_spec. congruence. Qed.

(** Case analysis on the comparisons of a curve. *)
Ltac qlt_case :=
  match goal with
  | |- context [if qlt ?a ?b then _ else _] => let E := fresh "E" in destruct (qlt a b) eqn:E; [apply qlt_spec in E|apply qlt_ge in E]
  end.

Section curves.
Context (rnd : Q -> Q) `{!Rounding rnd}.

(** The curves in bands: the temperature in between two thresholds fixes the speed
    between two percentages. *)
Lemma asic_curve_pieces :
  piece (line rnd (833 # 1000) (2998 # 100)) 60 72 19 29 /\
  piece (line rnd (3333 # 1000) (209976 # 1000)) 72 75 29 39 /\
  piece (line rnd 4 260) 75 90 39 100.
Proof. split_and!; apply line_piece; (done || lra || (split; lra) || (vm_compute; discriminate)). Qed.

Lemma gddr_curve_pieces :
  piece (fun t => float_to_unsigned 32 (fsub rnd t 25)) 45 60 19 35 /\
  piece (line rnd (2955 # 1000) (1423 # 10)) 60 82 34 100.
Proof. split; [apply minus25_piece, _|]. apply line_piece; (done || lra || (split; lra) || (vm_compute; discriminate)). Qed.

Lemma asic_curve_total t : exists v, asic_curve rnd t = Some v /\ 19 <= v <= 100.
Proof.
  destruct asic_curve_pieces as ([P1 _] & [P2 _] & [P3 _]). unfold asic_curve. repeat qlt_case; eauto with lia.
  - destruct (P1 t) as (v & -> & Hv); [done|]. eauto with lia.
  - destruct (P2 t) as (v & -> & Hv); [done|]. eauto with lia.
  - destruct (P3 t) as (v & -> & Hv); [done|]. eauto with lia.
Qed.

Lemma gddr_curve_total t : exists v, gddr_curve rnd t = Some v /\ 19 <= v <= 100.
Proof.
  destruct gddr_curve_pieces as ([P1 _] & [P2 _]). unfold gddr_curve. repeat qlt_case; eauto with lia.
  - destruct (P1 t) as (v & -> & Hv); [done|]. eauto with lia.
  - destruct (P2 t) as (v & -> & Hv); [done|]. eauto with lia.
Qed.

(** Two temperatures in bands: the same one, where the piece is monotone, or one below the
    other. *)
Definition done_band {A B} (_ : A) (_ : B) : Prop := True.
Ltac bands :=
  repeat qlt_case; intros Hv Hv'; try (exfalso; lra);
  repeat match goal with
  | P : forall t, (?a <= t < ?b)%Q -> _, H1 : (?a <= ?t)%Q, H2 : (?t < ?b)%Q |- _ =>
      lazymatch goal with
      | _ : done_band P t |- _ => fail
      | _ => destruct (P t (conj H1 H2)) as (? & ? & ?); assert (done_band P t) by exact I
      end
  end;
  first [solve [simplify_eq; lia]
        |match goal with
         | M : forall t t' v v', _ |- ?v <= ?v' + 1 => solve [apply (Z.le_trans _ v'); [eapply M; [| | |exact Hv|exact Hv']; eassumption|lia]]
         end].

Lemma asic_curve_mono t t' v v' : (t <= t')%Q -> asic_curve rnd t = Some v -> asic_curve rnd t' = Some v' -> v <= v' + 1.
Proof.
  intros Ht. destruct asic_curve_pieces as ([P1 M1] & [P2 M2] & [P3 M3]). unfold asic_curve. bands.
Qed.

Lemma gddr_curve_mono t t' v v' : (t <= t')%Q -> gddr_curve rnd t = Some v -> gddr_curve rnd t' = Some v' -> v <= v' + 1.
Proof.
  intros Ht. destruct gddr_curve_pieces as ([P1 M1] & [P2 M2]). unfold gddr_curve. bands.
Qed.
End curves.

(** ** The controller *)

Lemma hysteresis_spec rnd g e :
  let h := hysteresis rnd g e in (g <= h)%Q /\ (h = g \/ (fsub rnd h 5 < g)%Q).
Proof.
  unfold hysteresis. cbv zeta. destruct (qlt e 0); [split; [apply Qle_refl|by left]|].
  destruct (qlt e g) eqn:E1; [split; [apply Qle_refl|by left]|]. apply qlt_ge in E1.
  destruct (qle g (fsub rnd e 5)) eqn:E2; [split; [apply Qle_refl|by left]|]. split; [done|]. right.
  apply Qnot_le_lt. intros H%qle_spec. congruence.
Qed.

Section control.
Context (rnd : Q -> Q) `{!Rounding rnd} (ALPHA : Z) (GDDR_TEMP : bool).

(** The speed covers what the curves ask at the filtered temperatures, up to the rounding
    at a threshold, and the hysteresis only ever keeps the fan faster. *)
Definition cooled (s : fan_ctrl) : Prop :=
  19 <= fan_speed s <= 100 /\
  (exists va vg, asic_curve rnd (max_asic_temp s) = Some va /\ gddr_curve rnd (max_gddr_temp s) = Some vg /\
     Z.max va vg <= fan_speed s + 1) /\
  (max_gddr_temp s <= effective_gddr_temp s)%Q /\
  (effective_gddr_temp s = max_gddr_temp s \/ (fsub rnd (effective_gddr_temp s) 5 < max_gddr_temp s)%Q).

(** The mailbox holds the speed under [id], to be sent. *)
Definition posted (id : Z) (s : fan_ctrl) : Prop :=
  cm_inv (cm (mailbox s)) /\ Z.testbit (pending_messages (cm (mailbox s))) id = true /\
  aget (next_msgs (cm (mailbox s))) id = Some (fan_speed s).

Lemma fan_curve_cooled s :
  exists v s', fan_curve rnd (max_asic_temp s) (max_gddr_temp s) s = Some (v, s') /\ mailbox s' = mailbox s /\
    max_asic_temp s' = max_asic_temp s /\ max_gddr_temp s' = max_gddr_temp s /\ fan_rpm s' = fan_rpm s /\
    fan_speed_feedback s' = fan_speed_feedback s /\ forall b, cooled (set_speed v b s').
Proof.
  unfold fan_curve. destruct (asic_curve_total rnd (max_asic_temp s)) as (va & Ea & Ha). rewrite Ea. cbn [mbind option_bind].
  destruct (hysteresis_spec rnd (max_gddr_temp s) (effective_gddr_temp s)) as [H1 H2].
  cbn [set_effective effective_gddr_temp]. set (h := hysteresis rnd (max_gddr_temp s) (effective_gddr_temp s)) in *.
  destruct (gddr_curve_total rnd h) as (vh & Eh & Hh). rewrite Eh. cbn [mbind option_bind].
  destruct (gddr_curve_total rnd (max_gddr_temp s)) as (vg & Eg & Hg).
  pose proof (gddr_curve_mono rnd _ _ _ _ H1 Eg Eh). eexists _, _. split; [done|]. cbn. split_and!; try done. intros b. unfold cooled. cbn.
  split; [lia|]. split; [|done]. exists va, vg. split_and!; [done|done|lia].
Qed.

Lemma post_posted id s :
  cm_inv (cm (mailbox s)) -> 1 <= id < kCm2DmMsgCount -> is_u32 (fan_speed s) ->
  exists m, post id (fan_speed s) (mailbox s) = Some m /\ posted id (set_mailbox m s).
Proof.
  intros Hi Hid Hv. destruct (post_ok (cm (mailbox s)) id (fan_speed s) Hi Hid Hv) as (c & E & Hc & En & Ep & _).
  unfold post. rewrite E. cbn [mbind option_bind]. eexists. split; [done|]. unfold posted. cbn. split; [done|]. split.
  - rewrite Ep, Z.setbit_eqb by lia. by rewrite Z.eqb_refl.
  - rewrite En. rewrite aget_nat by lia. apply list_lookup_insert_eq. pose proof (cm_next _ Hi). unfold kCm2DmMsgCount in *. lia.
Qed.

Lemma cooled_mailbox m s : cooled s -> cooled (set_mailbox m s).
Proof. done. Qed.

(** The curve evaluated and posted, as the update and the release of a forced speed do. *)
Lemma curve_posted s :
  cm_inv (cm (mailbox s)) ->
  exists v s2 m, fan_curve rnd (max_asic_temp s) (max_gddr_temp s) s = Some (v, s2) /\
    UpdateFanSpeedRequest v (mailbox s2) = Some m /\
    cooled (set_mailbox m (set_speed v false s2)) /\ posted kCm2DmMsgIdFanSpeedUpdate (set_mailbox m (set_speed v false s2)).
Proof.
  intros Hi. destruct (fan_curve_cooled s) as (v & s2 & E & Em & _ & _ & _ & _ & Hc). specialize (Hc false).
  destruct (post_posted kCm2DmMsgIdFanSpeedUpdate (set_speed v false s2)) as (m & Epost & Hp); [cbn; by rewrite Em|done| |].
  { destruct Hc as [Hc _]. unfold in_width. cbn in *. lia. }
  exists v, s2, m. split_and!; [done|exact Epost|exact Hc|done].
Qed.

(** Fan control.  Whatever the temperatures, the conversion to a percentage is defined; while
    no speed is forced every update posts to the DMC a speed between 19 and 100 % that
    covers both curves at the filtered temperatures, the GDDR temperature counting with
    its hysteresis; while one is forced, updates neither change nor post it.  The host's
    request forces min(speed, 100), or with 2^32 - 1 returns to the curves at once; it is
    refused without effect when the board has no fan control. *)
Theorem fan_control_safe s (Hi : cm_inv (cm (mailbox s))) :
  (forall t g, exists s', update_fan_speed rnd ALPHA GDDR_TEMP t g s = Some s' /\ fan_speed_forced s' = fan_speed_forced s /\
     if fan_speed_forced s then fan_speed s' = fan_speed s /\ mailbox s' = mailbox s
     else cooled s' /\ posted kCm2DmMsgIdFanSpeedUpdate s') /\
  (forall raw, is_u32 raw -> exists s', force_fan_speed rnd true raw s = Some (0, s') /\
     if raw =? UINT32_MAX then fan_speed_forced s' = false /\ cooled s' /\ posted kCm2DmMsgIdFanSpeedUpdate s'
     else fan_speed_forced s' = true /\ fan_speed s' = Z.min raw 100 /\ posted kCm2DmMsgIdForcedFanSpeedUpdate s') /\
  (forall raw, force_fan_speed rnd false raw s = Some (1, s)).
Proof.
  split; [|split; [|done]].
  - intros t g. unfold update_fan_speed. cbv zeta. set (s1 := set_temps _ _ s).
    change (fan_speed_forced s1) with (fan_speed_forced s).
    destruct (fan_speed_forced s) eqn:Ef; cbn [negb]; [eexists; split; [done|]; split; [exact Ef|done]|].
    change (filter_temp rnd ALPHA t (max_asic_temp s)) with (max_asic_temp s1).
    change (if GDDR_TEMP then _ else _) with (max_gddr_temp s1).
    destruct (curve_posted s1 Hi) as (v & s2 & m & E & Em & Hc & Hp). rewrite E. cbn [mbind option_bind].
    change (mailbox (set_speed v false s2)) with (mailbox s2). rewrite Em. cbn [mbind option_bind]. eexists. split; [done|]. by split.
  - intros raw Hraw. unfold force_fan_speed. cbn [negb]. destruct (Z.eqb_spec raw UINT32_MAX) as [->|Hne].
    + destruct (curve_posted (set_speed (fan_speed s) false s) Hi) as (v & s2 & m & E & Em & Hc & Hp). cbn in E. rewrite E. cbn [mbind option_bind].
      cbn [fan_speed_forced set_speed mailbox fan_speed]. rewrite Em. cbn [mbind option_bind]. eexists. split; [done|]. by split.
    + cbn [mbind option_bind]. assert (Ez : zclamp raw 0 100 = Z.min raw 100).
      { unfold in_width in Hraw. unfold zclamp. destruct (Z.leb_spec raw 0); lia. }
      rewrite Ez. set (s3 := set_speed (Z.min raw 100) true s).
      destruct (post_posted kCm2DmMsgIdForcedFanSpeedUpdate s3) as (m & Epost & Hp); [done|done|cbn; unfold in_width in *; lia|].
      unfold UpdateForcedFanSpeedRequest. change (fan_speed_forced s3) with true. cbn iota. rewrite Epost. cbn [mbind option_bind]. eexists. split; [done|].
      split; [done|]. split; [done|done].
Qed.
End control.

Lemma fan_control_safe_witness :
  match update_fan_speed id 50 true 70 80 (fan_ctrl0 smc_init) with
  | Some s => posted kCm2DmMsgIdFanSpeedUpdate s /\ fan_speed s = 20
  | None => False
  end.
Proof.
  destruct (fan_control_safe id 50 true (fan_ctrl0 smc_init)) as [H _]; [apply cm2dm_init_inv|].
  destruct (H 70%Q 80) as (s & E & _ & _ & Hp). rewrite E. split; [exact Hp|]. vm_compute in E. injection E as <-. reflexivity.
Defined.

(** Two requests, two message ids: the mailbox serves ids in rotation, so a forced speed that
    is posted while an update is still waiting can overtake it.  The DMC then gets the
    stale update last and leaves the forced mode, while this side, still forced, posts
    nothing more. *)
Lemma forced_speed_overtaken :
  exists s, (update_fan_speed id 50 true 70 80 (fan_ctrl0 (set_cm (MkCm 0 4 0 false zero_msg (replicate 10 0)) smc_init)) ≫= fun s =>
             force_fan_speed id true 90 s) = Some (0, s) /\
    fan_speed_forced s = true /\
    exists c, rounds [[]; []] (cm (mailbox s)) = Some ([MkMsg 7 0 90; MkMsg 3 1 20], c) /\ pending_messages c = 0.
Proof. eexists. split; [vm_compute; reflexivity|]. split; [reflexivity|]. eexists. split; vm_compute; reflexivity. Qed.
