(* ===== verification/Cat.v ===== *)
(** * The thermal monitors ([lib/tenstorrent/bh_arc/cat.c])

    The catastrophe monitor: its trim codes, its set-up at boot and its calibration
    against the thermal sensors; and the monitor of the GDDR temperature, a state
    machine over samples whose trip is reported to the DMC before it is forced.  The
    monitor's registers, pin, delay and sensor are the class [CatHw]. *)

From Stdlib Require Import QArith Qround Qabs Lqa.
From S2P Require Import Prelude Cm2dm Aiclk Throttler Telemetry Fan.
#[local] Open Scope Z_scope.

Definition RESET_UNIT_CATMON_THERM_TRIP_CNTL_REG_DEFAULT : Z := 0x318.
Definition CAT_EARLY_TRIP_TEMP : Z := 100.
Definition DEFAULT_CALIBRATION : Z := CAT_EARLY_TRIP_TEMP - T_J_SHUTDOWN.
Definition TRIM_CODE_BITS : Z := 6.
Definition GDDR_THERM_TRIP_DMC_NOTIFY_MS : Z := 50.
Definition kGddrThermTripReasonSustained : Z := 0.
Definition kGddrThermTripReasonInstantaneous : Z := 1.

(** [gpio_pin_configure(gpio1, 15, ...)]. *)
Inductive pin := GPIO_DISCONNECTED | GPIO_OUTPUT.

(** The registers, the pin, [WaitUs], and the average of the thermal sensors. *)
Class CatHw (hw : Type) := {
  write_cntl : Z -> hw -> hw;
  read_status : hw -> Z * hw;
  gpio_pin_configure : pin -> hw -> hw;
  WaitUs : Z -> hw -> hw;
  read_avg_tmp : hw -> Q * hw
}.

(** ** Trim codes *)

Section cat.
Variable rnd : Q -> Q.

Definition TempToTrimCode (temp : Q) : option Z :=
  let temp := CLAMP temp (-56) 196 in
  float_to_unsigned 8 (fsub rnd 49 (fdiv rnd temp 4)).
Definition TrimCodeToTemp (trim_code : Z) : Q := of_u32 (198 - 4 * trim_code).

(** The fields of the control register. *)
Definition cat_cntl (trim_code : Z) (enable bypass_catmon bypass_thermb : bool) : Z :=
  bits_set 9 1 (Z.b2z bypass_thermb) (bits_set 8 1 (Z.b2z bypass_catmon)
    (bits_set 7 1 (Z.b2z enable) (bits_set 0 TRIM_CODE_BITS trim_code RESET_UNIT_CATMON_THERM_TRIP_CNTL_REG_DEFAULT))).

Section hw.
Context {hw : Type} `{!CatHw hw}.

Definition WaitCATUpdate : hw -> hw := WaitUs 5.

Definition EnableCAT (trim_code : Z) (shutdown_on_trip : bool) (h : hw) : hw :=
  let h := gpio_pin_configure GPIO_DISCONNECTED h in
  let h := write_cntl (cat_cntl trim_code true false false) h in
  let h := WaitCATUpdate h in
  if shutdown_on_trip then
    let h := gpio_pin_configure GPIO_OUTPUT h in
    write_cntl (cat_cntl trim_code true true true) h
  else h.

Definition CATEarlyInit (CONFIG_ARC : bool) (h : hw) : option (Z * hw) :=
  if negb CONFIG_ARC then Some (0, h) else
  code ← TempToTrimCode (of_u32 CAT_EARLY_TRIP_TEMP);
  Some (0, EnableCAT code true h).

(** [for (code = 0; code <= BIT_MASK(TRIM_CODE_BITS) && !tripped; code++)]. *)
Fixpoint trim_search (n : nat) (code : Z) (tripped : bool) (h : hw) : Z * bool * hw :=
  match n with
  | O => (code, tripped, h)
  | S n =>
      if (code <=? 2 ^ TRIM_CODE_BITS - 1) && negb tripped then
        let h := write_cntl (cat_cntl code true false false) h in
        let h := WaitCATUpdate h in
        let '(status, h) := read_status h in
        trim_search n (code + 1) (negb (status =? 0)) h
      else (code, tripped, h)
  end.
Definition search_fuel : nat := 65.

Definition CalibrateCAT (h : hw) : Q * hw :=
  let h := EnableCAT 0 false h in
  let '(status, h) := read_status h in
  if negb (status =? 0) then (of_u32 DEFAULT_CALIBRATION, h) else
  let '(code, tripped, h) := trim_search search_fuel 0 false h in
  if negb tripped then (of_u32 DEFAULT_CALIBRATION, h) else
  let catmon_temp := TrimCodeToTemp code in
  let '(avg_tmp, h) := read_avg_tmp h in
  let catmon_error := fsub rnd catmon_temp avg_tmp in
  (if qlt catmon_error (-25) || qlt 25 catmon_error then CLAMP catmon_error (-25) 25 else catmon_error, h).

Definition CATInit (CONFIG_ARC : bool) (h : hw) : option (Z * hw) :=
  if negb CONFIG_ARC then Some (0, h) else
  let '(catmon_error, h) := CalibrateCAT h in
  code ← TempToTrimCode (fadd rnd (of_u32 T_J_SHUTDOWN) catmon_error);
  Some (0, EnableCAT code true h).

Definition TriggerThermTrip (CONFIG_ARC : bool) (h : hw) : option hw :=
  if negb CONFIG_ARC then Some h else code ← TempToTrimCode (-56); Some (EnableCAT code true h).
End hw.
End cat.

(** ** The GDDR thermal trip *)

(** The static variables of [EvaluateGddrThermTrip]. *)
Record tripper := MkTripper { tracking : bool; over_temp_start_time : Z }.
Definition tripper0 : tripper := MkTripper false 0.

Definition EvaluateGddrThermTrip (now max_temp trip_temp critical_temp duration_ms : Z) (s : tripper) : Z * tripper :=
  if negb (critical_temp =? 0) && (critical_temp <=? max_temp) then (max_temp, MkTripper false (over_temp_start_time s))
  else if (trip_temp =? 0) || (max_temp <? trip_temp) then (0, MkTripper false (over_temp_start_time s))
  else if negb (tracking s) then (0, MkTripper true now)
  else if duration_ms <=? now - over_temp_start_time s then (max_temp, MkTripper false (over_temp_start_time s))
  else (0, s).

(** The live thresholds. *)
Record thresholds := MkThresholds { gddr_therm_trip_temp : Z; gddr_therm_trip_critical_temp : Z; gddr_therm_trip_duration_ms : Z }.

(** The limits of the firmware table. *)
Definition StartGddrThermTripMonitor (trip_temp critical_temp duration_min : Z) : thresholds :=
  MkThresholds trip_temp critical_temp (duration_min * 60 * 1000).

Definition MonitorGddrThermTrip (th : thresholds) (now max_temp : Z) (s : tripper) : Z * tripper :=
  EvaluateGddrThermTrip now max_temp (gddr_therm_trip_temp th) (gddr_therm_trip_critical_temp th) (gddr_therm_trip_duration_ms th) s.

(** The handler's state: the machine, [trip_pending], the telemetry table, the mailbox, and
    when the delayed trip is due. *)
Record gddr_monitor := MkMonitor {
  machine : tripper; trip_pending : bool; table : telemetry_table; to_dmc : smc_state; trip_due : option Z }.

Definition CatSetGddrThermTripEnabled (enabled : bool) (s : gddr_monitor) : Z * gddr_monitor :=
  (0, MkMonitor (machine s) (trip_pending s) (UpdateTelemetryGddrThermTrip enabled (table s)) (to_dmc s) (trip_due s)).

Definition gddr_therm_trip_work_handler (th : thresholds) (now : Z) (s : gddr_monitor) : option gddr_monitor :=
  if trip_pending s then Some s else
  tag ← GetTelemetryTag TAG_MAX_GDDR_TEMP (table s);
  let '(max_temp, m) := MonitorGddrThermTrip th now (swrap 32 tag) (machine s) in
  if negb (max_temp =? 0) && gddr_therm_trip (GetActiveFeatures (table s)) then
    let reason := if (gddr_therm_trip_critical_temp th <=? max_temp) && negb (gddr_therm_trip_critical_temp th =? 0)
                  then kGddrThermTripReasonInstantaneous else kGddrThermTripReasonSustained in
    d ← ReportGddrThermTrip reason (to_dmc s);
    Some (MkMonitor m true (table s) d (Some (now + GDDR_THERM_TRIP_DMC_NOTIFY_MS)))
  else Some (MkMonitor m false (table s) (to_dmc s) (trip_due s)).

(** ** The dwell *)

(** The machine over the samples [(now, max_temp)], from any time on. *)
Fixpoint evaluate (trip crit dur : Z) (l : list (Z * Z)) (s : tripper) : list Z :=
  match l with
  | [] => []
  | (now, temp) :: l => let '(r, s) := EvaluateGddrThermTrip now temp trip crit dur s in r :: evaluate trip crit dur l s
  end.

Section dwell.
Context (trip crit dur : Z) (Htrip : 0 <= trip) (Hcrit : 0 <= crit).

Definition critical (temp : Z) : Prop := crit <> 0 /\ crit <= temp.
Definition hot (temp : Z) : Prop := trip <> 0 /\ trip <= temp.

(** One sample, by its temperature. *)
Lemma sample_cases now temp s :
  let res := EvaluateGddrThermTrip now temp trip crit dur s in
  (critical temp /\ res.1 = temp /\ temp <> 0 /\ tracking res.2 = false) \/
  (~ critical temp /\ ~ hot temp /\ res.1 = 0 /\ tracking res.2 = false) \/
  (~ critical temp /\ hot temp /\ tracking s = false /\ res = (0, MkTripper true now)) \/
  (~ critical temp /\ hot temp /\ tracking s = true /\ dur <= now - over_temp_start_time s /\ res.1 = temp /\ temp <> 0 /\ tracking res.2 = false) \/
  (~ critical temp /\ hot temp /\ tracking s = true /\ now - over_temp_start_time s < dur /\ res = (0, s)).
Proof.
  unfold EvaluateGddrThermTrip, critical, hot.
  destruct (Z.eqb_spec crit 0), (Z.leb_spec crit temp), (Z.eqb_spec trip 0), (Z.ltb_spec temp trip), (tracking s) eqn:Et,
    (Z.leb_spec dur (now - over_temp_start_time s)); cbn; try lia;
    first [left; split_and!; (done || lia)|right; left; split_and!; (done || lia)
          |right; right; left; split_and!; (done || lia)|right; right; right; left; split_and!; (done || lia)
          |right; right; right; right; split_and!; (done || lia)].
Qed.

(** While the machine is tracking since [t0] or before, hot samples for the dwell trip. *)
Lemma tracking_trips l s t0 k now temp :
  tracking s = true -> over_temp_start_time s <= t0 -> l !! k = Some (now, temp) -> dur <= now - t0 ->
  (forall j n t, (j <= k)%nat -> l !! j = Some (n, t) -> hot t) ->
  exists j v, (j <= k)%nat /\ evaluate trip crit dur l s !! j = Some v /\ v <> 0.
Proof.
  revert k. induction l as [|[n t] l IH]; intros k Ht Hs Hk Hd Hall; [done|]. cbn [evaluate].
  pose proof (Hall 0%nat n t ltac:(lia) eq_refl) as Hhot.
  pose proof (sample_cases n t s) as Hc. cbv zeta in Hc. destruct (EvaluateGddrThermTrip n t trip crit dur s) as [r s'] eqn:E. cbn in Hc.
  destruct Hc as [(_ & -> & Hne & _)|[(_ & Hn & _)|[(_ & _ & Hf & _)|[(_ & _ & _ & _ & -> & Hne & _)|(_ & _ & _ & Hlt & [= -> ->])]]]];
    [by exists 0%nat, t; split_and!; [lia|..]|done|congruence|by exists 0%nat, t; split_and!; [lia|..]|].
  destruct k as [|k]; [injection Hk as -> ->; lia|]. destruct (IH k) as (j & v & Hj & Ev & Hv); [done|done|done|done| |].
  { intros j n' t' Hj. apply (Hall (S j)). lia. }
  exists (S j), v. split_and!; [lia|done|done].
Qed.

(** The times of the samples, not decreasing, and not before what is being tracked. *)
Definition times_ok (l : list (Z * Z)) (s : tripper) : Prop :=
  (forall i j n t n' t', (i <= j)%nat -> l !! i = Some (n, t) -> l !! j = Some (n', t') -> n <= n') /\
  (tracking s = true -> forall i n t, l !! i = Some (n, t) -> over_temp_start_time s <= n).

Lemma times_ok_tail n t l s s' r :
  times_ok ((n, t) :: l) s -> EvaluateGddrThermTrip n t trip crit dur s = (r, s') -> times_ok l s'.
Proof.
  intros [Hs Ht] E. split; [intros i j; intros; eapply (Hs (S i) (S j)); [lia|done|done]|].
  intros Hs' i n' t' Hi. pose proof (sample_cases n t s) as Hc. rewrite E in Hc. cbn in Hc.
  destruct Hc as [(_ & _ & _ & Hf)|[(_ & _ & _ & Hf)|[(_ & _ & _ & [= -> ->])|[(_ & _ & _ & _ & _ & _ & Hf)|(_ & _ & Htr & _ & [= -> ->])]]]];
    [congruence|congruence| |congruence|].
  - cbn. by apply (Hs 0%nat (S i) n t n' t'); [lia|..].
  - by apply (Ht Htr (S i) n' t').
Qed.

(** No dwell goes unnoticed. *)
Lemma dwell_trips l s i k ni ti nk tk :
  times_ok l s -> (i <= k)%nat -> l !! i = Some (ni, ti) -> l !! k = Some (nk, tk) -> 0 < dur -> dur <= nk - ni ->
  (forall j n t, (i <= j <= k)%nat -> l !! j = Some (n, t) -> hot t) ->
  exists j v, (i <= j <= k)%nat /\ evaluate trip crit dur l s !! j = Some v /\ v <> 0.
Proof.
  revert s i k. induction l as [|[n t] l IH]; intros s i k Hok Hik Hi Hk Hd0 Hd Hall; [done|].
  cbn [evaluate]. destruct (EvaluateGddrThermTrip n t trip crit dur s) as [r s'] eqn:E.
  pose proof (times_ok_tail _ _ _ _ _ _ Hok E) as Hok'.
  destruct k as [|k]; [assert (i = 0%nat) as -> by lia; simplify_eq; lia|]. destruct i as [|i].
  - injection Hi as -> ->. pose proof (Hall 0%nat ni ti ltac:(lia) eq_refl) as Hhot.
    pose proof (sample_cases ni ti s) as Hc. rewrite E in Hc. cbn in Hc.
    assert (Hcase : r <> 0 \/ (tracking s' = true /\ over_temp_start_time s' <= ni)).
    { destruct Hc as [(_ & -> & Hne & _)|[(_ & Hn & _)|[(_ & _ & _ & [= -> ->])|[(_ & _ & _ & _ & -> & Hne & _)|(_ & _ & Htr & _ & [= -> ->])]]]];
        [by left|done|right; split; [done|cbn; lia]|by left|right]. split; [done|]. by apply (proj2 Hok Htr 0%nat ni ti). }
    destruct Hcase as [Hr|[Htr Hst]]; [exists 0%nat, r; split_and!; [lia|lia|done|done]|].
    destruct (tracking_trips l s' ni k nk tk Htr Hst Hk Hd) as (j & v & Hj & Ev & Hv).
    { intros j n' t' Hj. apply (Hall (S j)). lia. }
    exists (S j), v. split_and!; [lia|lia|done|done].
  - destruct (IH s' i k Hok') as (j & v & Hj & Ev & Hv); [lia|done|done|done|done| |].
    { intros j n' t' Hj. apply (Hall (S j)). lia. }
    exists (S j), v. split_and!; [lia|lia|done|done].
Qed.
End dwell.

Section dwell_sound.
Context (trip crit dur : Z) (Htrip : 0 <= trip) (Hcrit : 0 <= crit).

(** What the machine remembers of the samples before: one at which a hot stretch began. *)
Definition remembers (pre : list (Z * Z)) (s : tripper) : Prop :=
  tracking s = true ->
  exists i t, pre !! i = Some (over_temp_start_time s, t) /\
    forall j n t', (i <= j)%nat -> pre !! j = Some (n, t') -> hot trip t'.

(** A dwell that ends at [k]. *)
Definition dwelt (l : list (Z * Z)) (k : nat) : Prop :=
  exists i ni ti nk tk, (i < k)%nat /\ l !! i = Some (ni, ti) /\ l !! k = Some (nk, tk) /\ dur <= nk - ni /\
    forall j n t, (i <= j <= k)%nat -> l !! j = Some (n, t) -> hot trip t.

Lemma trips_only l pre s k v :
  remembers pre s -> evaluate trip crit dur l s !! k = Some v -> v <> 0 ->
  exists n, l !! k = Some (n, v) /\ (critical crit v \/ dwelt (pre ++ l) (length pre + k)).
Proof.
  revert pre s k. induction l as [|[n t] l IH]; intros pre s k Hr Hk Hv; [done|]. cbn [evaluate] in Hk.
  destruct (EvaluateGddrThermTrip n t trip crit dur s) as [r s'] eqn:E.
  pose proof (sample_cases trip crit dur Htrip Hcrit n t s) as Hc. rewrite E in Hc. cbn in Hc.
  assert (Hr' : remembers (pre ++ [(n, t)]) s').
  { intros Hs'. destruct Hc as [(_ & _ & _ & Hf)|[(_ & _ & _ & Hf)|[(_ & Hh & _ & [= -> ->])|[(_ & _ & _ & _ & _ & _ & Hf)|(_ & Hh & Htr & _ & [= -> ->])]]]];
      [congruence|congruence| |congruence|].
    - exists (length pre), t. split; [by rewrite list_lookup_middle|]. intros j n' t' Hj Hl.
      apply lookup_snoc_Some in Hl as [[Hl _]|[_ [= _ <-]]]; [lia|done].
    - destruct (Hr Htr) as (i & ti & Hi & Hall). exists i, ti. split; [by apply lookup_app_l_Some|]. intros j n' t' Hj Hl.
      apply lookup_snoc_Some in Hl as [[_ Hl]|[_ [= _ <-]]]; [by eapply Hall|done]. }
  destruct k as [|k].
  - injection Hk as ->. exists n. rewrite Nat.add_0_r.
    destruct Hc as [(Hc & -> & _)|[(_ & _ & -> & _)|[(_ & _ & _ & [= -> _])|[(_ & Hh & Htr & Hd & -> & _)|(_ & _ & _ & _ & [= -> _])]]]]; try done; [by split; [|left]|].
    split; [done|right]. destruct (Hr Htr) as (i & ti & Hi & Hall). pose proof (lookup_lt_Some _ _ _ Hi) as Hlen.
    exists i, (over_temp_start_time s), ti, n, t. split_and!; [done|by apply lookup_app_l_Some|by apply list_lookup_middle|done|].
    intros j n' t' [Hj Hj'] Hl. destruct (decide (j = length pre)) as [->|].
    + rewrite list_lookup_middle in Hl by done. by injection Hl as <- <-.
    + rewrite lookup_app_l in Hl by lia. by eapply Hall.
  - destruct (IH (pre ++ [(n, t)]) s' k Hr' Hk Hv) as (n' & Hl & Hd). exists n'. split; [done|].
    rewrite <- app_assoc, length_app in Hd. cbn in Hd. by replace (length pre + S k)%nat with (length pre + 1 + k)%nat by lia.
Qed.
End dwell_sound.

Lemma evaluate_critical trip crit dur l s k n t :
  0 <= trip -> 0 <= crit -> l !! k = Some (n, t) -> critical crit t -> evaluate trip crit dur l s !! k = Some t.
Proof.
  intros Htrip Hcrit. revert s k. induction l as [|[n0 t0] l IH]; intros s k Hk Hc; [done|]. cbn [evaluate].
  destruct (EvaluateGddrThermTrip n0 t0 trip crit dur s) as [r s'] eqn:E. destruct k as [|k]; [|by apply IH].
  injection Hk as -> ->. pose proof (sample_cases trip crit dur Htrip Hcrit n t s) as H. rewrite E in H. cbn in H. cbn.
  by destruct H as [(_ & -> & _)|[(Hn & _)|[(Hn & _)|[(Hn & _)|(Hn & _)]]]].
Qed.

(** C32: the GDDR thermal trip fires exactly when it should.  From the start, over samples in the
    order of time: a critical temperature trips at its sample; a stretch of samples at or
    above the sustained threshold that spans the dwell trips within it; and a trip
    reports the temperature of its sample, which is critical or ends such a stretch.  A
    threshold of 0 is off. *)
Theorem gddr_therm_trip_exact trip crit dur l
    (Htrip : 0 <= trip) (Hcrit : 0 <= crit) (Hdur : 0 < dur)
    (Htime : forall i j n t n' t', (i <= j)%nat -> l !! i = Some (n, t) -> l !! j = Some (n', t') -> n <= n') :
  let r := evaluate trip crit dur l tripper0 in
  (forall k n t, l !! k = Some (n, t) -> critical crit t -> r !! k = Some t) /\
  (forall i k ni ti nk tk, (i <= k)%nat -> l !! i = Some (ni, ti) -> l !! k = Some (nk, tk) -> dur <= nk - ni ->
     (forall j n t, (i <= j <= k)%nat -> l !! j = Some (n, t) -> hot trip t) ->
     exists j v, (i <= j <= k)%nat /\ r !! j = Some v /\ v <> 0) /\
  (forall k v, r !! k = Some v -> v <> 0 -> exists n, l !! k = Some (n, v) /\ (critical crit v \/ dwelt trip dur l k)).
Proof.
  cbv zeta. split; [|split].
  - intros k n t Hk Hc. by eapply evaluate_critical.
  - intros i k ni ti nk tk Hik Hi Hk Hd Hall. eapply dwell_trips; [done|done| |done|done|done|done|done|done]. by split.
  - intros k v Hk Hv. by destruct (trips_only trip crit dur Htrip Hcrit l [] tripper0 k v) as (n & Hl & Hd); [done|done|done|exists n].
Qed.

Lemma gddr_therm_trip_exact_witness :
  evaluate 95 110 60000 [(0, 96); (30000, 97); (60000, 98); (60100, 112)] tripper0 !! 3%nat = Some 112 /\
  exists j v, (0 <= j <= 2)%nat /\ evaluate 95 110 60000 [(0, 96); (30000, 97); (60000, 98); (60100, 112)] tripper0 !! j = Some v /\ v <> 0.
Proof.
  destruct (gddr_therm_trip_exact 95 110 60000 [(0, 96); (30000, 97); (60000, 98); (60100, 112)]) as (H1 & H2 & _); [lia|lia|lia| |].
  - intros i j n t n' t' Hij Hi Hj. destruct i as [|[|[|[|i]]]], j as [|[|[|[|j]]]]; try (exfalso; lia); cbn in Hi, Hj; simplify_eq; lia.
  - split; [apply (H1 3%nat 60100 112); [reflexivity|split; lia]|].
    apply (H2 0%nat 2%nat 0 96 60000 98); [lia|reflexivity|reflexivity|lia|].
    intros j n t Hj Hl. destruct j as [|[|[|[|j]]]]; try (exfalso; lia); cbn in Hl; simplify_eq; split; lia.
Defined.

(** ** Calibration *)

(** The temperature of the monitor at which a trim code trips. *)
Definition trip_point (code : Z) : Q := inject_Z (196 - 4 * code).
Definition tolerance : Q := 1 # 1000.

(** What the monitor does: a write is seen after the delay; the status is the comparison of
    the monitor's own temperature with the code's. *)
Class CatLaws (hw : Type) `{!CatHw hw} := {
  cntl : hw -> Z; pin_state : hw -> pin; cat_temp : hw -> Q; sensor_avg : hw -> Q;
  law_write h v : let h' := write_cntl v h in
    cntl h' = v /\ pin_state h' = pin_state h /\ cat_temp h' = cat_temp h /\ sensor_avg h' = sensor_avg h;
  law_pin h p : let h' := gpio_pin_configure p h in
    cntl h' = cntl h /\ pin_state h' = p /\ cat_temp h' = cat_temp h /\ sensor_avg h' = sensor_avg h;
  law_wait h t : let h' := WaitUs t h in
    cntl h' = cntl h /\ pin_state h' = pin_state h /\ cat_temp h' = cat_temp h /\ sensor_avg h' = sensor_avg h;
  law_status h v : bits_get 7 1 v = 1 -> let h' := WaitUs 5 (write_cntl v h) in
    read_status h' = (Z.b2z (qle (trip_point (bits_get 0 TRIM_CODE_BITS v)) (cat_temp h)), h');
  law_avg h : read_avg_tmp h = (sensor_avg h, h)
}.

Lemma cat_cntl_fields code e b1 b2 :
  0 <= code < 64 -> bits_get 0 TRIM_CODE_BITS (cat_cntl code e b1 b2) = code /\ bits_get 7 1 (cat_cntl code e b1 b2) = Z.b2z e.
Proof.
  intros Hc.
  assert (H : forallb (fun c => (bits_get 0 TRIM_CODE_BITS (cat_cntl c e b1 b2) =? c) && (bits_get 7 1 (cat_cntl c e b1 b2) =? Z.b2z e)) (seqZ 0 64) = true)
    by (destruct e, b1, b2; vm_compute; reflexivity).
  rewrite forallb_forall in H. specialize (H code). rewrite <- list_elem_of_In, elem_of_seqZ in H. specialize (H Hc).
  apply andb_true_iff in H as [?%Z.eqb_eq ?%Z.eqb_eq]. done.
Qed.

Section calibration.
Context (rnd : Q -> Q) `{!Rounding rnd} {hw : Type} `{!CatHw hw} `{!CatLaws hw}.

(** What stays as it is while the monitor is set up. *)
Definition same_temps (h h' : hw) : Prop := cat_temp h' = cat_temp h /\ sensor_avg h' = sensor_avg h.

Lemma EnableCAT_ok code b h :
  let h' := EnableCAT code b h in
  same_temps h h' /\ cntl h' = cat_cntl code true b b /\ pin_state h' = (if b then GPIO_OUTPUT else GPIO_DISCONNECTED).
Proof.
  unfold EnableCAT, WaitCATUpdate, same_temps. cbv zeta. set (h1 := gpio_pin_configure GPIO_DISCONNECTED h).
  destruct (law_pin h GPIO_DISCONNECTED) as (_ & P1 & T1 & A1). fold h1 in P1, T1, A1.
  set (h2 := write_cntl _ h1). destruct (law_write h1 (cat_cntl code true false false)) as (C2 & P2 & T2 & A2). fold h2 in C2, P2, T2, A2.
  destruct (law_wait h2 5) as (C3 & P3 & T3 & A3). destruct b; [|by rewrite C3, P3, T3, A3, C2, P2, T2, A2, P1, T1, A1].
  set (h3 := WaitUs 5 h2) in *. destruct (law_pin h3 GPIO_OUTPUT) as (_ & P4 & T4 & A4). set (h4 := gpio_pin_configure GPIO_OUTPUT h3) in *.
  destruct (law_write h4 (cat_cntl code true true true)) as (C5 & P5 & T5 & A5).
  by rewrite C5, P5, T5, A5, P4, T4, A4, T3, A3, T2, A2, T1, A1.
Qed.

(** One trial of the search. *)
Lemma trial_ok code h :
  0 <= code < 64 ->
  let h' := WaitUs 5 (write_cntl (cat_cntl code true false false) h) in
  read_status h' = (Z.b2z (qle (trip_point code) (cat_temp h)), h') /\ same_temps h h'.
Proof.
  intros Hc. cbv zeta. destruct (cat_cntl_fields code true false false Hc) as [Ec E7].
  rewrite law_status by done. rewrite Ec. split; [done|].
  destruct (law_write h (cat_cntl code true false false)) as (_ & _ & T1 & A1).
  destruct (law_wait (write_cntl (cat_cntl code true false false) h) 5) as (_ & _ & T2 & A2).
  split; congruence.
Qed.

(** The search ends one past the first code that trips. *)
Lemma trim_search_ok n code m h :
  0 <= code <= m -> m < 64 -> m - code + 1 < Z.of_nat n ->
  (trip_point m <= cat_temp h)%Q -> (forall c, c < m -> (cat_temp h < trip_point c)%Q) ->
  exists h', trim_search n code false h = (m + 1, true, h') /\ same_temps h h'.
Proof.
  revert code h. induction n as [|n IH]; intros code h Hc Hm Hn Ht Hlow; [lia|]. cbn [trim_search].
  change (2 ^ TRIM_CODE_BITS - 1) with 63. rewrite (proj2 (Z.leb_le code 63)) by lia. cbn [andb negb]. unfold WaitCATUpdate.
  destruct (trial_ok code h ltac:(lia)) as [Es [T A]]. rewrite Es. set (h' := WaitUs 5 _) in *.
  destruct (Z.eq_dec code m) as [->|Hne].
  - rewrite (proj2 (qle_spec _ _) Ht). exists h'. split; [|done]. destruct n as [|n]; [lia|]. cbn. by rewrite andb_false_r.
  - specialize (Hlow code ltac:(lia)) as Hlt.
    assert (Hf : qle (trip_point code) (cat_temp h) = false).
    { apply not_true_iff_false. intros H%qle_spec. by apply Qlt_not_le in Hlt. }
    rewrite Hf. cbn. destruct (IH (code + 1) h') as (h2 & E & T2 & A2); [lia|lia|lia|by rewrite T|by rewrite T|].
    exists h2. split; [done|]. split; congruence.
Qed.
End calibration.

Section trip_range.
Context (rnd : Q -> Q) `{!Rounding rnd} {hw : Type} `{!CatHw hw} `{!CatLaws hw}.

Lemma CLAMP_id v lo hi : (lo <= v <= hi)%Q -> CLAMP v lo hi == v.
Proof.
  intros [H1 H2]. unfold CLAMP, qmin. destruct (qle v lo) eqn:E; [apply qle_spec in E; lra|].
  destruct (qlt v hi) eqn:E2; [reflexivity|]. apply qlt_ge in E2. lra.
Qed.

(** A code trips at its temperature or up to 4 degrees above. *)
Lemma TempToTrimCode_spec t :
  (-56 <= t <= 196)%Q ->
  exists c, TempToTrimCode rnd t = Some c /\ 0 <= c < 64 /\
    (t - (1 # 10000) <= trip_point c)%Q /\ (trip_point c <= t + 4 + (1 # 10000))%Q.
Proof.
  intros Ht. unfold TempToTrimCode. cbv zeta. pose proof (CLAMP_id t (-56) 196 Ht) as Ec. set (t' := CLAMP t (-56) 196) in *.
  unfold fsub, fdiv. assert (E4 : t' / 4 == t * (1 # 4)) by (rewrite Ec; reflexivity).
  pose proof (rnd_close (t' / 4)%Q 49) as H1. change (inject_Z (2 ^ 24)) with (16777216#1)%Q in H1.
  specialize (H1 ltac:(rewrite E4; lra) ltac:(lra)). set (a := rnd (t' / 4)) in *.
  assert (Ha : (t - (1 # 50000) <= a * 4 <= t + (1 # 50000))%Q) by lra. clear H1.
  pose proof (rnd_close (49 - a)%Q 64) as H2. change (inject_Z (2 ^ 24)) with (16777216#1)%Q in H2.
  specialize (H2 ltac:(lra) ltac:(lra)). set (x := rnd (49 - a)) in *.
  assert (Hx : (196 - t - (1 # 20000) <= x * 4 <= 196 - t + (1 # 20000))%Q) by lra. clear H2.
  pose proof (Qfloor_le x) as F1. pose proof (Qlt_floor x) as F2. rewrite inject_Z_plus in F2.
  unfold float_to_unsigned. rewrite (proj2 (qlt_spec (-1) x)) by lra.
  rewrite (proj2 (qlt_spec x (inject_Z (2 ^ 8)))) by (change (inject_Z (2 ^ 8)) with 256%Q; lra). cbn [andb].
  exists (Z.max 0 (Qfloor x)). split; [done|]. unfold trip_point.
  assert (Hlo : -1 <= Qfloor x) by (change (-1) with (Qfloor (-1)); apply Qfloor_resp_le; lra).
  assert (Hhi : Qfloor x < 64) by (rewrite Zlt_Qlt; change (inject_Z 64) with 64%Q; lra).
  split; [lia|]. unfold Z.sub. rewrite inject_Z_plus, inject_Z_opp, inject_Z_mult.
  change (inject_Z 196) with 196%Q. change (inject_Z 4) with 4%Q. change (inject_Z 1) with 1%Q in F2.
  destruct (Z.max_spec 0 (Qfloor x)) as [[_ ->]|[Hle ->]]; [lra|].
  change (inject_Z 0) with 0%Q. rewrite Zle_Qle in Hle. change (inject_Z 0) with 0%Q in Hle.
  assert (Qfloor x = 0 \/ Qfloor x = -1) as [E|E] by (rewrite <- Zle_Qle in Hle || idtac; change 0%Q with (inject_Z 0) in Hle; rewrite <- Zle_Qle in Hle; lia);
    rewrite E in *; [change (inject_Z 0) with 0%Q in *|change (inject_Z (-1)) with (-1)%Q in *]; lra.
Qed.

(** The first code that trips at a temperature. *)
Lemma first_code (T : Q) :
  (-56 <= T)%Q -> (T < 196)%Q ->
  exists m, 0 < m < 64 /\ (trip_point m <= T)%Q /\ (T < trip_point m + 4)%Q /\ forall c, c < m -> (T < trip_point c)%Q.
Proof.
  intros H1 H2. set (m := 49 - Qfloor (T / 4)). exists m.
  assert (E4 : T / 4 == T * (1 # 4)) by reflexivity.
  assert (F1 : (inject_Z (Qfloor (T / 4)) <= T * (1 # 4))%Q) by (rewrite <- E4; apply Qfloor_le).
  assert (F2 : (T * (1 # 4) < inject_Z (Qfloor (T / 4)) + 1)%Q).
  { rewrite <- E4. pose proof (Qlt_floor (T / 4)) as F2. by rewrite inject_Z_plus in F2. }
  assert (Hlo : -14 <= Qfloor (T / 4)) by (change (-14) with (Qfloor (-14)); apply Qfloor_resp_le; rewrite E4; lra).
  assert (Hhi : Qfloor (T / 4) < 49) by (rewrite Zlt_Qlt; change (inject_Z 49) with 49%Q; lra).
  assert (Hp : trip_point m == 4 * inject_Z (Qfloor (T / 4))).
  { unfold trip_point, m. replace (196 - 4 * (49 - Qfloor (T / 4))) with (4 * Qfloor (T / 4)) by lia. by rewrite inject_Z_mult. }
  split; [unfold m; lia|]. split; [rewrite Hp; lra|]. split; [rewrite Hp; lra|].
  intros c Hc. assert (Hc4 : (trip_point m + 4 <= trip_point c)%Q).
  { unfold trip_point. change 4%Q with (inject_Z 4). rewrite <- inject_Z_plus, <- Zle_Qle. lia. }
  rewrite Hp in Hc4. lra.
Qed.

(** With the monitor [delta] above the sensors, the error that calibration finds. *)
Lemma CalibrateCAT_error h :
  (-56 <= cat_temp h)%Q -> (cat_temp h < 196)%Q -> (-512 <= sensor_avg h <= 512)%Q ->
  (-18 <= cat_temp h - sensor_avg h <= 26)%Q ->
  exists e h', CalibrateCAT rnd h = (e, h') /\ same_temps h h' /\
    (cat_temp h - sensor_avg h - 6 - (1 # 10000) <= e <= cat_temp h - sensor_avg h - 2 + (1 # 10000))%Q.
Proof.
  intros H1 H2 Hs Hd. destruct (first_code (cat_temp h) H1 H2) as (m & Hm & Hp & Hp4 & Hlow).
  unfold CalibrateCAT, EnableCAT. cbv zeta.
  destruct (law_pin h GPIO_DISCONNECTED) as (_ & _ & T1 & A1). set (h1 := gpio_pin_configure GPIO_DISCONNECTED h) in *.
  unfold WaitCATUpdate. destruct (trial_ok 0 h1 ltac:(lia)) as [Es [T2 A2]]. rewrite Es. set (h2 := WaitUs 5 _) in *.
  assert (Hf : qle (trip_point 0) (cat_temp h1) = false).
  { apply not_true_iff_false. intros H%qle_spec. rewrite T1 in H. apply (Qlt_not_le _ _ (Hlow 0 ltac:(lia))), H. }
  rewrite Hf. cbn [Z.b2z Z.eqb negb].
  destruct (trim_search_ok search_fuel 0 m h2) as (h3 & E3 & T3 & A3); [lia|lia|unfold search_fuel; lia|by rewrite T2, T1|by rewrite T2, T1|].
  rewrite E3. cbn [negb]. rewrite law_avg.
  assert (Et : cat_temp h3 = cat_temp h) by congruence. assert (Ea : sensor_avg h3 = sensor_avg h) by congruence.
  assert (Etr : TrimCodeToTemp (m + 1) == trip_point m - 2).
  { unfold TrimCodeToTemp, trip_point, of_u32. change (-(2))%Q with (inject_Z (-2)). unfold Qminus. change (- (2))%Q with (inject_Z (-2)).
    rewrite <- inject_Z_plus. f_equiv. lia. }
  set (catmon := TrimCodeToTemp (m + 1)) in *. set (q := (catmon - sensor_avg h3)%Q).
  assert (Hq : (cat_temp h - sensor_avg h - 6 <= q <= cat_temp h - sensor_avg h - 2)%Q) by (unfold q; rewrite Ea; lra).
  pose proof (rnd_close q 30 ltac:(lra) ltac:(lra)) as Hr. change (inject_Z (2 ^ 24)) with (16777216#1)%Q in Hr.
  change (fsub rnd catmon (sensor_avg h3)) with (rnd q). set (e := rnd q) in *.
  exists (if qlt e (-25) || qlt 25 e then CLAMP e (-25) 25 else e), h3. split; [done|]. split; [by split|].
  assert (He : (cat_temp h - sensor_avg h - 6 - (1 # 100000) <= e <= cat_temp h - sensor_avg h - 2 + (1 # 100000))%Q) by lra.
  destruct (qlt e (-25)) eqn:E1; [apply qlt_spec in E1; exfalso; lra|]. destruct (qlt 25 e) eqn:E2; [apply qlt_spec in E2; exfalso; lra|].
  cbn [orb]. lra.
Qed.

(** C33: the calibrated shut-down temperature.  With the monitor reading [delta] above the thermal
    sensors ([-18 <= delta <= 26]) and the chip between -56 and 196 degrees, initialisation
    ends with the trip armed at a trim code that shuts the chip down at every true
    temperature from 112 degrees on and at none up to 104, to a thousandth. *)
Theorem cat_shutdown_range h (delta : Q)
    (Hdelta : cat_temp h == sensor_avg h + delta) (Hd : (-18 <= delta <= 26)%Q)
    (Ht : (-56 <= cat_temp h)%Q) (Ht' : (cat_temp h < 196)%Q) :
  exists h' code, CATInit rnd true h = Some (0, h') /\ 0 <= code < 64 /\
    cntl h' = cat_cntl code true true true /\ pin_state h' = GPIO_OUTPUT /\
    (forall true_temp, (112 + tolerance <= true_temp)%Q -> (trip_point code <= true_temp + delta)%Q) /\
    (forall true_temp, (true_temp <= 104 - tolerance)%Q -> (true_temp + delta < trip_point code)%Q).
Proof.
  destruct (CalibrateCAT_error h Ht Ht') as (e & h1 & E & _ & He); [lra|lra|].
  unfold CATInit. cbn [negb]. rewrite E. cbn [mbind option_bind].
  assert (Hr : (110 + e - (1 # 100000) <= fadd rnd (of_u32 T_J_SHUTDOWN) e <= 110 + e + (1 # 100000))%Q).
  { unfold fadd. change (of_u32 T_J_SHUTDOWN) with 110%Q.
    pose proof (rnd_close (110 + e)%Q 140 ltac:(lra) ltac:(lra)) as H. change (inject_Z (2 ^ 24)) with (16777216#1)%Q in H. lra. }
  set (t := fadd rnd (of_u32 T_J_SHUTDOWN) e) in *.
  destruct (TempToTrimCode_spec t) as (c & Ec & Hc & Hlo & Hhi); [lra|]. rewrite Ec. cbn [mbind option_bind].
  destruct (EnableCAT_ok c true h1) as (_ & C & P). exists (EnableCAT c true h1), c. unfold tolerance.
  split_and!; [done|lia|lia|exact C|exact P|intros; lra|intros; lra].
Qed.
End trip_range.

(** *** A monitor *)

Record cat_sim := MkCatSim { sim_cntl : Z; sim_pin : pin; sim_temp : Q; sim_avg : Q }.
#[export] Instance sim_CatHw : CatHw cat_sim := {
  write_cntl v h := MkCatSim v (sim_pin h) (sim_temp h) (sim_avg h);
  read_status h := (Z.b2z ((bits_get 7 1 (sim_cntl h) =? 1) && qle (trip_point (bits_get 0 TRIM_CODE_BITS (sim_cntl h))) (sim_temp h)), h);
  gpio_pin_configure p h := MkCatSim (sim_cntl h) p (sim_temp h) (sim_avg h);
  WaitUs _ h := h;
  read_avg_tmp h := (sim_avg h, h)
}.
#[export] Instance sim_CatLaws : CatLaws cat_sim.
Proof.
  refine {| cntl := sim_cntl; pin_state := sim_pin; cat_temp := sim_temp; sensor_avg := sim_avg |}; try done.
  intros h v Hv. cbn. by rewrite Hv.
Defined.

Lemma cat_shutdown_range_witness :
  let h := MkCatSim 0 GPIO_DISCONNECTED 48 45 in
  exists h' code, CATInit id true h = Some (0, h') /\ sim_cntl h' = cat_cntl code true true true /\ (trip_point code <= 115 + 3)%Q.
Proof.
  destruct (cat_shutdown_range id (MkCatSim 0 GPIO_DISCONNECTED 48 45) 3) as (h' & code & E & _ & C & _ & H & _);
    [reflexivity|split; discriminate|discriminate|reflexivity|].
  exists h', code. split; [exact E|]. split; [exact C|]. apply H. discriminate.
Defined.

(** ** The report *)

(** Once a trip is pending nothing more is evaluated or reported. *)
Lemma gddr_trip_once th now s : trip_pending s = true -> gddr_therm_trip_work_handler th now s = Some s.
Proof. intros H. unfold gddr_therm_trip_work_handler. by rewrite H. Qed.

(** The first trip with the feature on is posted with its reason, and the shut-down is
    due [GDDR_THERM_TRIP_DMC_NOTIFY_MS] later; without it the machine just starts again. *)
Lemma gddr_trip_reported th now s :
  cm_inv (cm (to_dmc s)) -> sized (table s) -> trip_pending s = false ->
  exists s', gddr_therm_trip_work_handler th now s = Some s' /\ table s' = table s /\ cm_inv (cm (to_dmc s')) /\
    let v := (MonitorGddrThermTrip th now (swrap 32 (get_tag TAG_MAX_GDDR_TEMP (table s))) (machine s)).1 in
    if negb (v =? 0) && gddr_therm_trip (GetActiveFeatures (table s)) then
      trip_pending s' = true /\ trip_due s' = Some (now + GDDR_THERM_TRIP_DMC_NOTIFY_MS) /\
      Z.testbit (pending_messages (cm (to_dmc s'))) kCm2DmMsgIdGddrThermTrip = true /\
      aget (next_msgs (cm (to_dmc s'))) kCm2DmMsgIdGddrThermTrip =
        Some (if decide (critical (gddr_therm_trip_critical_temp th) v) then kGddrThermTripReasonInstantaneous else kGddrThermTripReasonSustained)
    else trip_pending s' = false /\ to_dmc s' = to_dmc s /\ trip_due s' = trip_due s.
Proof.
  intros Hi Hs Hp. unfold gddr_therm_trip_work_handler. rewrite Hp, GetTelemetryTag_get by done.
  change (TAG_MAX_GDDR_TEMP <? TAG_COUNT) with true. cbn [mbind option_bind]. cbv zeta.
  destruct (MonitorGddrThermTrip _ _ _ _) as [v m]. cbn [fst].
  destruct (negb (v =? 0) && gddr_therm_trip (GetActiveFeatures (table s))); [|eexists; split; [done|]; done].
  set (reason := if _ && _ then kGddrThermTripReasonInstantaneous else _).
  destruct (post_ok (cm (to_dmc s)) kCm2DmMsgIdGddrThermTrip reason Hi) as (c & E & Hc & En & Ep & _);
    [done|unfold reason; by destruct (_ && _)|].
  unfold ReportGddrThermTrip, post. rewrite E. cbn [mbind option_bind]. eexists. split; [done|]. cbn [to_dmc trip_pending trip_due table set_cm cm]. split_and!; try done.
  - rewrite Ep, Z.setbit_eqb by done. done.
  - rewrite En. rewrite aget_nat by done. rewrite list_lookup_insert_eq by (pose proof (cm_next _ Hi); change (Z.to_nat kCm2DmMsgIdGddrThermTrip) with 9%nat; unfold kCm2DmMsgCount in *; lia).
    f_equal. unfold reason, critical. destruct (Z.leb_spec (gddr_therm_trip_critical_temp th) v), (Z.eqb_spec (gddr_therm_trip_critical_temp th) 0);
      cbn [andb negb]; destruct (decide _) as [[? ?]|?]; done || lia.
Qed.

(** The forced trip: the lowest trim code, that of -56 degrees. *)
Lemma TriggerThermTrip_code rnd {hw} `{!CatHw hw} (h : hw) :
  float_rounding rnd -> TriggerThermTrip rnd true h = Some (EnableCAT 63 true h).
Proof.
  intros Hr. unfold TriggerThermTrip, TempToTrimCode. cbn [negb]. cbv zeta.
  assert (H1 : (rnd (-56 / 4) == -14)%Q).
  { etransitivity; [apply Hr|reflexivity]. exists (-14), 149. split; [reflexivity|]. split; [lia|reflexivity]. }
  assert (H2 : (rnd (49 - rnd (-56 / 4)) == 63)%Q).
  { etransitivity; [apply Hr|rewrite H1; reflexivity]. exists 63, 149. split; [reflexivity|]. split; [lia|rewrite H1; reflexivity]. }
  change (CLAMP (-56) (-56) 196) with (-56)%Q. unfold fsub, fdiv.
  rewrite (float_to_unsigned_floor 8 _ 63); [done| |done]. rewrite H2. reflexivity.
Qed.
