(* ===== verification/NocInit.v ===== *)
(** * NOC set-up and coordinate translation ([lib/tenstorrent/bh_arc/noc_init.c])

    Defective tiles are hidden by translation tables in every node's NOC
    interface: the firmware computes the tables from the harvesting data,
    programs them into all nodes of both NOCs through a TLB window, and gives
    every node a logical coordinate.  The harvesting data is an argument. *)

From S2P Require Import Prelude Noc Harvesting.

(** ** Translation tables *)

Definition PRE_TRANSLATION_SIZE : Z := 32.
Definition NO_BAD_GDDR : Z := 255.
Definition NUM_GDDR : Z := 8.

Record NocTranslation := MkNT {
  translate_en : bool;
  translate_table_x : list Z;
  translate_table_y : list Z;
  translate_col_mask : Z;
  translate_row_mask : Z;
  logical_coords : list (list Z)
}.

Definition set_tables (tx ty : list Z) (nt : NocTranslation) : NocTranslation :=
  MkNT (translate_en nt) tx ty (translate_col_mask nt) (translate_row_mask nt) (logical_coords nt).
Definition set_row_mask (m : Z) (nt : NocTranslation) : NocTranslation :=
  MkNT (translate_en nt) (translate_table_x nt) (translate_table_y nt) (translate_col_mask nt) m (logical_coords nt).
Definition set_coords (l : list (list Z)) (nt : NocTranslation) : NocTranslation :=
  MkNT (translate_en nt) (translate_table_x nt) (translate_table_y nt) (translate_col_mask nt) (translate_row_mask nt) l.
Definition set_x (i v : Z) (nt : NocTranslation) : option NocTranslation :=
  t ← aset (translate_table_x nt) i v; Some (set_tables t (translate_table_y nt) nt).
Definition set_y (i v : Z) (nt : NocTranslation) : option NocTranslation :=
  t ← aset (translate_table_y nt) i v; Some (set_tables (translate_table_x nt) t nt).

(** Two-dimensional arrays, and [memcpy]/[memmove] of bytes into an array. *)
Definition aget2 (m : list (list Z)) (i j : Z) : option Z := r ← aget m i; aget r j.
Definition aset2 (m : list (list Z)) (i j v : Z) : option (list (list Z)) :=
  r ← aget m i; r ← aset r j v; aset m i r.
Fixpoint copy_to (l : list Z) (at_ : Z) (data : list Z) : option (list Z) :=
  match data with
  | [] => Some l
  | b :: data => l ← aset l at_ b; copy_to l (at_ + 1) data
  end.

Definition SetLogicalCoord (post_x post_y logical_x logical_y : Z) (nt : NocTranslation) : option NocTranslation :=
  l ← aset2 (logical_coords nt) post_x post_y (u16 (Z.lor (Z.shiftl logical_y 6) logical_x));
  Some (set_coords l nt).

Definition all_zeroes : NocTranslation :=
  MkNT false (replicate 32 0) (replicate 32 0) 0 0 (replicate 17 (replicate 12 0)).

(** [for x < NOC_X_SIZE, for y < NOC_Y_SIZE] with the identity coordinate. *)
Definition identity_coords (nt : NocTranslation) : option NocTranslation :=
  for_loop (Z.to_nat NOC_X_SIZE) 0
    (fun x => for_loop (Z.to_nat NOC_Y_SIZE) 0 (fun y => SetLogicalCoord x y x y)) nt.

Definition MakeIdentity : option NocTranslation :=
  let nt := MkNT true (replicate 32 0) (replicate 32 0) 0 0 (replicate 17 (replicate 12 0)) in
  nt ← for_loop (Z.to_nat PRE_TRANSLATION_SIZE) 0
         (fun i nt =>
            nt ← set_x i (if i <? NOC_X_SIZE then i else 0) nt;
            set_y i (if i <? NOC_Y_SIZE then i else 0) nt) nt;
  identity_coords nt.

Definition CopyNoc0ToNoc1 (noc0 : NocTranslation) : option NocTranslation :=
  noc1 ← for_loop (Z.to_nat PRE_TRANSLATION_SIZE) 0
           (fun i noc1 =>
              x ← aget (translate_table_x noc0) i;
              noc1 ← set_x i (u8 (NOC_X_SIZE - x - 1)) noc1;
              y ← aget (translate_table_y noc0) i;
              set_y i (u8 (NOC_Y_SIZE - y - 1)) noc1) noc0;
  for_loop (Z.to_nat NOC_X_SIZE) 0
    (fun x => for_loop (Z.to_nat NOC_Y_SIZE) 0
       (fun y noc1 =>
          v ← aget2 (logical_coords noc0) (NOC_X_SIZE - x - 1) (NOC_Y_SIZE - y - 1);
          l ← aset2 (logical_coords noc1) x y v;
          Some (set_coords l noc1))) noc1.

Definition kTensixEthNoc0X : list Z := [1; 16; 2; 15; 3; 14; 4; 13; 5; 12; 6; 11; 7; 10].
Definition kL2CpuNoc0Y : list Z := [3; 9; 5; 7].
Definition kGddrY : list (list Z) := [[0; 1; 11]; [2; 10; 3]; [9; 4; 8]; [5; 7; 6]].

(** The bytes written to [out]; reading past the end of [in_] is a fault. *)
Fixpoint CopyBytesSkipIndices (in_ : list Z) (count : nat) (skip_mask : Z) : option (list Z) :=
  match count with
  | O => Some []
  | S count' =>
      match in_ with
      | [] => None
      | b :: in_ =>
          if negb (Z.land skip_mask 1 =? 0) then CopyBytesSkipIndices in_ count (Z.shiftr skip_mask 1)
          else out ← CopyBytesSkipIndices in_ count' (Z.shiftr skip_mask 1); Some (b :: out)
      end
  end.

Definition ApplyLogicalCoords (post_x_start post_y_start post_x_end post_y_end
    pre_x_start pre_y_start pre_x_end pre_y_end : Z) (nt : NocTranslation) : option NocTranslation :=
  for_loop (Z.to_nat (pre_x_end - pre_x_start + 1)) pre_x_start
    (fun pre_x nt =>
       post_x ← aget (translate_table_x nt) pre_x;
       if (post_x <? post_x_start) || (post_x_end <? post_x) then Some nt
       else for_loop (Z.to_nat (pre_y_end - pre_y_start + 1)) pre_y_start
              (fun pre_y nt =>
                 post_y ← aget (translate_table_y nt) pre_y;
                 if (post_y <? post_y_start) || (post_y_end <? post_y) then Some nt
                 else SetLogicalCoord post_x post_y pre_x pre_y nt) nt) nt.

(** The loops that fill columns [noc_x], [noc_x + step], ... with the positions of
    the set bits of [mask], lowest first, until either runs out. *)
Fixpoint fill_columns (n : nat) (noc_x step : Z) (value : Z -> option Z) (mask : Z) (nt : NocTranslation)
    : option (Z * NocTranslation) :=
  match n with
  | O => Some (mask, nt)
  | S n =>
      if mask =? 0 then Some (mask, nt)
      else
        let lsb := LSB_GET mask in
        let mask := Z.land mask (Z.lnot lsb) in
        v ← value (LOG2 lsb);
        nt ← set_x noc_x v nt;
        fill_columns n (noc_x + step) step value mask nt
  end.

(** [good_tensix_noc0_x]: the NOC 0 X bits of the Tensix columns that are not bad. *)
Definition good_columns (bad_tensix_cols : Z) : option Z :=
  for_loop (length kTensixEthNoc0X) 0
    (fun i good =>
       if negb (Z.land bad_tensix_cols (BIT i) =? 0)
       then x ← aget kTensixEthNoc0X i; Some (Z.land good (Z.lnot (BIT x)))
       else Some good)
    (Z.lor (GENMASK 7 1) (GENMASK 16 10)).

(** The GDDR rows with the one of [bad_gddr] moved to the end. *)
Definition gddr_order (bad_gddr : Z) : option (list Z) :=
  let gddr_y_order := [0; 1; 2; 3] in
  if negb (bad_gddr =? NO_BAD_GDDR) then
    let bad_gddr_row := bad_gddr mod 4 in
    gddr_y_order ← copy_to gddr_y_order bad_gddr_row (drop (Z.to_nat (bad_gddr_row + 1)) gddr_y_order);
    aset gddr_y_order 3 (bad_gddr mod 4)
  else Some gddr_y_order.

Definition ComputeNocTranslation (pcie_instance bad_tensix_cols bad_gddr skip_eth : Z) : option NocTranslation :=
  noc0 ← MakeIdentity;
  let noc0 := set_row_mask (Z.lor (translate_row_mask noc0) (Z.lor (BIT 0) (BIT 1))) noc0 in
  good ← good_columns bad_tensix_cols;
  '(good, noc0) ← fill_columns 7 1 1 Some good noc0;
  '(_, noc0) ← fill_columns 7 10 1 Some good noc0;
  '(_, noc0) ← fill_columns 7 16 (-1) (aget kTensixEthNoc0X) bad_tensix_cols noc0;
  noc0 ← ApplyLogicalCoords 1 2 7 11 1 2 16 11 noc0;
  noc0 ← ApplyLogicalCoords 10 2 16 11 1 2 16 11 noc0;
  noc0 ← (if 4 <=? bad_gddr
          then noc0 ← set_x 17 0 noc0; set_x 18 9 noc0
          else noc0 ← set_x 17 9 noc0; set_x 18 0 noc0);
  gddr_y_order ← gddr_order bad_gddr;
  noc0 ← for_loop 4 0
           (fun gddr noc0 =>
              row ← aget gddr_y_order gddr;
              ys ← aget kGddrY row;
              t ← copy_to (translate_table_y noc0) (12 + gddr * 3) (take 3 ys);
              Some (set_tables (translate_table_x noc0) t noc0)) noc0;
  noc0 ← ApplyLogicalCoords 0 0 0 11 17 12 18 23 noc0;
  noc0 ← ApplyLogicalCoords 9 0 9 11 17 12 18 23 noc0;
  let pcie_x := if negb (pcie_instance =? 0) then 11 else 2 in
  noc0 ← set_x 19 pcie_x noc0;
  noc0 ← set_y 24 0 noc0;
  noc0 ← ApplyLogicalCoords pcie_x 0 pcie_x 0 19 24 19 24 noc0;
  noc0 ← set_y 25 1 noc0;
  eth ← CopyBytesSkipIndices kTensixEthNoc0X 12 skip_eth;
  t ← copy_to (translate_table_x noc0) 20 eth;
  let noc0 := set_tables t (translate_table_y noc0) noc0 in
  noc0 ← ApplyLogicalCoords 1 1 7 1 20 25 31 25 noc0;
  noc0 ← ApplyLogicalCoords 10 1 16 1 20 25 31 25 noc0;
  t ← copy_to (translate_table_y noc0) 26 kL2CpuNoc0Y;
  let noc0 := set_tables (translate_table_x noc0) t noc0 in
  noc0 ← ApplyLogicalCoords 8 3 8 9 8 26 8 29 noc0;
  noc0 ← set_y 30 2 noc0;
  ApplyLogicalCoords 8 2 8 2 8 30 8 30 noc0.

(** [NocLogicalToPhysical] on the tables of NOC 0. *)
Definition NocLogicalToPhysical (nt : NocTranslation) (logical_x logical_y : Z) : option (Z * Z) :=
  phys_x ← (if translate_en nt && negb (Z.testbit (translate_row_mask nt) logical_y)
            then aget (translate_table_x nt) logical_x else Some logical_x);
  phys_y ← (if translate_en nt && negb (Z.testbit (translate_col_mask nt) logical_x)
            then aget (translate_table_y nt) logical_y else Some logical_y);
  Some (phys_x, phys_y).

(** ** Programming the nodes *)

Definition NIU_CFG_0 : Z := 0x0.
Definition ROUTER_CFG (n : Z) : Z := n + 1.
Definition NOC_X_ID_TRANSLATE_TABLE (n : Z) : Z := n + 0x6.
Definition NOC_Y_ID_TRANSLATE_TABLE (n : Z) : Z := n + 0xC.
Definition NOC_ID_LOGICAL : Z := 0x12.
Definition NOC_ID_TRANSLATE_COL_MASK : Z := 0x14.
Definition NOC_ID_TRANSLATE_ROW_MASK : Z := 0x15.
Definition DDR_COORD_TRANSLATE_TABLE (n : Z) : Z := n + 0x16.
Definition NIU_CFG_0_TILE_CLK_OFF : Z := 12.
Definition NIU_CFG_0_TILE_HEADER_STORE_OFF : Z := 13.
Definition NIU_CFG_0_NOC_ID_TRANSLATE_EN : Z := 14.
Definition NOC_TRANSLATE_ID_WIDTH : Z := 5.
Definition NOC_TRANSLATE_TABLE_XY_SIZE : Z := 32 / NOC_TRANSLATE_ID_WIDTH.
Definition kNoc0RegBase : Z := 0x80050000.
Definition kNoc1RegBase : Z := 0x80058000.
Definition kNiuCfg0Offset : Z := 0x100 + 4 * NIU_CFG_0.
Definition kFirstCfgRegIndex : Z := 0x100 / 4.
Definition kTlbIndex : Z := 0.

Definition WRITE_BIT (var bit : Z) (set : bool) : Z :=
  if set then Z.lor var (BIT bit) else Z.land var (Z.lnot (BIT bit)).

(** The tables packed six 5-bit entries to a register. *)
Definition pack_table (table : list Z) : option (list Z) :=
  for_loop (Z.to_nat PRE_TRANSLATION_SIZE) 0
    (fun i packed =>
       let index := i / NOC_TRANSLATE_TABLE_XY_SIZE in
       let shift := i mod NOC_TRANSLATE_TABLE_XY_SIZE * NOC_TRANSLATE_ID_WIDTH in
       v ← aget table i;
       p ← aget packed index;
       aset packed index (Z.lor p (u32 (Z.shiftl v shift))))
    (replicate (Z.to_nat NOC_TRANSLATE_TABLE_XY_SIZE) 0).

Section hardware.
Context {W : Type} `{NocHw W}.

(** The address of the window, after pointing it at the node. *)
Definition SetupNiuTlbPhys (tlb_index px py noc_id : Z) (w : W) : option (Z * W) :=
  regs ← NiuRegsBase px py noc_id;
  x ← PhysXToNoc px noc_id;
  y ← PhysYToNoc py noc_id;
  Some (GetTlbWindowAddr noc_id tlb_index regs, NOC2AXITlbSetup noc_id tlb_index x y regs w).

Definition SetupNiuTlb (tlb_index nx ny noc_id : Z) (w : W) : option (Z * W) :=
  px ← NocToPhysX nx noc_id;
  py ← NocToPhysY ny noc_id;
  regs ← NiuRegsBase px py noc_id;
  Some (GetTlbWindowAddr noc_id tlb_index regs, NOC2AXITlbSetup noc_id tlb_index nx ny regs w).

Definition cfg_reg_address (regs cfg_reg_index : Z) : Z := u32 (regs + 4 * (kFirstCfgRegIndex + cfg_reg_index)).
Definition ReadNocCfgReg (regs cfg_reg_index : Z) (w : W) : Z := ReadReg (cfg_reg_address regs cfg_reg_index) w.
Definition WriteNocCfgReg (regs cfg_reg_index value : Z) (w : W) : W :=
  WriteReg (cfg_reg_address regs cfg_reg_index) value w.

(** [for py < NOC_Y_SIZE, for px < NOC_X_SIZE]. *)
Definition for_all_nodes (body : Z -> Z -> W -> option W) (w : W) : option W :=
  for_loop (Z.to_nat NOC_Y_SIZE) 0
    (fun py => for_loop (Z.to_nat NOC_X_SIZE) 0 (fun px => body px py)) w.

(** The body of the loop over the two NOCs. *)
Definition program_ring (nt : NocTranslation) (px py noc_id : Z) (w : W) : option W :=
  packed_x ← pack_table (translate_table_x nt);
  packed_y ← pack_table (translate_table_y nt);
  ring_x ← PhysXToNoc px noc_id;
  ring_y ← PhysYToNoc py noc_id;
  '(noc_regs, w) ← SetupNiuTlbPhys kTlbIndex px py noc_id w;
  let niu_cfg_0 := ReadNocCfgReg noc_regs NIU_CFG_0 w in
  let niu_cfg_0 := if negb (translate_en nt)
                   then WRITE_BIT niu_cfg_0 NIU_CFG_0_NOC_ID_TRANSLATE_EN false else niu_cfg_0 in
  let w := if negb (translate_en nt) then WriteNocCfgReg noc_regs NIU_CFG_0 niu_cfg_0 w else w in
  let w := WriteNocCfgReg noc_regs NOC_ID_TRANSLATE_COL_MASK (translate_col_mask nt) w in
  let w := WriteNocCfgReg noc_regs NOC_ID_TRANSLATE_ROW_MASK (translate_row_mask nt) w in
  let w := WriteNocCfgReg noc_regs (DDR_COORD_TRANSLATE_TABLE 5) 0 w in
  logical ← aget2 (logical_coords nt) ring_x ring_y;
  let w := WriteNocCfgReg noc_regs NOC_ID_LOGICAL logical w in
  w ← for_loop (length packed_x) 0
        (fun i w =>
           vx ← aget packed_x i;
           let w := WriteNocCfgReg noc_regs (NOC_X_ID_TRANSLATE_TABLE i) vx w in
           vy ← aget packed_y i;
           Some (WriteNocCfgReg noc_regs (NOC_Y_ID_TRANSLATE_TABLE i) vy w)) w;
  if translate_en nt
  then Some (WriteNocCfgReg noc_regs NIU_CFG_0 (WRITE_BIT niu_cfg_0 NIU_CFG_0_NOC_ID_TRANSLATE_EN true) w)
  else Some w.

Definition ProgramNocTranslationSingleTile (translation : list NocTranslation) (noc0_x noc0_y : Z) (w : W)
    : option W :=
  px ← NocToPhysX noc0_x 0;
  py ← NocToPhysY noc0_y 0;
  for_loop (Z.to_nat NUM_NOCS) 0
    (fun noc_id w => nt ← aget translation noc_id; program_ring nt px py noc_id w) w.

Definition arc_noc0_x : Z := 8.
Definition arc_noc0_y : Z := 0.

Definition ProgramNocTranslation (translation : list NocTranslation) (w : W) : option W :=
  nt ← aget translation 0;
  let enabling := translate_en nt in
  w ← for_all_nodes
        (fun px py w =>
           noc0_x ← PhysXToNoc px 0;
           noc0_y ← PhysYToNoc py 0;
           if enabling && (noc0_x =? arc_noc0_x) && (noc0_y =? arc_noc0_y) then Some w
           else ProgramNocTranslationSingleTile translation noc0_x noc0_y w) w;
  if enabling then ProgramNocTranslationSingleTile translation arc_noc0_x arc_noc0_y w else Some w.

(** [ROUTER_CFG_1..4] of a node, for the columns and rows that take no broadcast. *)
Definition broadcast_columns (disabled_tensix_columns : Z) : option (Z * Z) :=
  for_loop 14 0
    (fun i '(cfg0, cfg1) =>
       if negb (Z.land disabled_tensix_columns (BIT i) =? 0)
       then noc0_x ← TensixPhysXToNoc i 0;
            Some (Z.lor cfg0 (BIT noc0_x), Z.lor cfg1 (BIT (NOC0_X_TO_NOC1 noc0_x)))
       else Some (cfg0, cfg1))
    (Z.lor (BIT 0) (Z.lor (BIT 8) (BIT 9)),
     Z.lor (BIT (NOC0_X_TO_NOC1 0)) (Z.lor (BIT (NOC0_X_TO_NOC1 8)) (BIT (NOC0_X_TO_NOC1 9)))).

Definition router_cfg_3 : list Z :=
  [Z.lor (BIT 0) (BIT 1); Z.lor (BIT (NOC0_Y_TO_NOC1 0)) (BIT (NOC0_Y_TO_NOC1 1))].

Definition ProgramBroadcastExclusion (disabled_tensix_columns : Z) (w : W) : option W :=
  '(cfg0, cfg1) ← broadcast_columns disabled_tensix_columns;
  for_all_nodes
    (fun px py =>
       for_loop (Z.to_nat NUM_NOCS) 0
         (fun noc_id w =>
            '(noc_regs, w) ← SetupNiuTlbPhys kTlbIndex px py noc_id w;
            c1 ← aget [cfg0; cfg1] noc_id;
            let w := WriteNocCfgReg noc_regs (ROUTER_CFG 1) c1 w in
            let w := WriteNocCfgReg noc_regs (ROUTER_CFG 2) 0 w in
            c3 ← aget router_cfg_3 noc_id;
            let w := WriteNocCfgReg noc_regs (ROUTER_CFG 3) c3 w in
            Some (WriteNocCfgReg noc_regs (ROUTER_CFG 4) 0 w))) w.

Definition EnableOverlayCg (tlb_index px py : Z) (w : W) : option W :=
  let ring := 0 in
  overlay_regs_base ← OverlayRegsBase px py;
  if negb (overlay_regs_base =? 0) then
    x ← PhysXToNoc px ring;
    y ← PhysYToNoc py ring;
    let w := NOC2AXITlbSetup ring tlb_index x y overlay_regs_base w in
    let reg := u32 (GetTlbWindowAddr ring tlb_index overlay_regs_base + 4 * 35) in
    Some (WriteReg reg (Z.lor (ReadReg reg w) (Z.shiftl 1 0)) w)
  else Some w.

Definition GetTileClkDisable (te : TileEnable) (px py : Z) : bool :=
  if (1 <=? px) && (px <=? 14) && (2 <=? py) then negb (Z.testbit (tensix_col_enabled te) (px - 1))
  else if (1 <=? px) && (px <=? 14) && (py =? 1) then negb (Z.testbit (eth_enabled te) (px - 1))
  else if px =? 0 then negb (Z.testbit (gddr_enabled te) (py / 3))
  else if px =? 16 then negb (Z.testbit (gddr_enabled te) (4 + py / 3))
  else false.

(** [cable_fault] is [is_cable_fault_mode()], [cg_en] the clock-gating feature bit. *)
Definition NocInitSingleTile (te : TileEnable) (cable_fault cg_en : bool) (noc0_x noc0_y : Z) (w : W) : option W :=
  px ← NocToPhysX noc0_x 0;
  py ← NocToPhysY noc0_y 0;
  let niu_cfg_0_updates := Z.lor (BIT NIU_CFG_0_TILE_HEADER_STORE_OFF) (if cg_en then BIT 0 else 0) in
  let router_cfg_0_updates := Z.lor (Z.shiftl 0xF 8) (if cg_en then BIT 0 else 0) in
  let tile_clk_off := if cable_fault then negb (px =? 15) else GetTileClkDisable te px py in
  w ← for_loop (Z.to_nat NUM_NOCS) 0
        (fun noc_id w =>
           '(noc_regs, w) ← SetupNiuTlbPhys kTlbIndex px py noc_id w;
           let niu_cfg_0 := Z.lor (ReadNocCfgReg noc_regs NIU_CFG_0 w) niu_cfg_0_updates in
           let w := WriteNocCfgReg noc_regs NIU_CFG_0 (WRITE_BIT niu_cfg_0 NIU_CFG_0_TILE_CLK_OFF tile_clk_off) w in
           let router_cfg_0 := Z.lor (ReadNocCfgReg noc_regs (ROUTER_CFG 0) w) router_cfg_0_updates in
           Some (WriteNocCfgReg noc_regs (ROUTER_CFG 0) router_cfg_0 w)) w;
  if cg_en then EnableOverlayCg kTlbIndex px py w else Some w.

Definition NocInit (te : TileEnable) (cable_fault cg_en : bool) (w : W) : option W :=
  w ← for_all_nodes
        (fun px py w => x ← PhysXToNoc px 0; y ← PhysYToNoc py 0; NocInitSingleTile te cable_fault cg_en x y w) w;
  if negb cable_fault
  then ProgramBroadcastExclusion (Z.land (Z.ones 14) (Z.lnot (tensix_col_enabled te))) w
  else Some w.

Definition SetSingleTileClockGate (noc0_x noc0_y : Z) (gate : bool) (w : W) : option W :=
  '(noc_regs, w) ← SetupNiuTlb kTlbIndex noc0_x noc0_y 0 w;
  let niu_cfg_0 := WRITE_BIT (ReadNocCfgReg noc_regs NIU_CFG_0 w) NIU_CFG_0_TILE_CLK_OFF gate in
  Some (WriteNocCfgReg noc_regs NIU_CFG_0 niu_cfg_0 w).

(** ** The firmware's translation state *)

Record noc_state := MkNoc {
  hw : W;
  translation : list NocTranslation;
  noc_translation_enabled : bool;
  telemetry_noc_translation : bool;
  tensix_state_chan : option bool
}.

Definition set_hw (w : W) (s : noc_state) : noc_state :=
  MkNoc w (translation s) (noc_translation_enabled s) (telemetry_noc_translation s) (tensix_state_chan s).
Definition set_translation (t : list NocTranslation) (s : noc_state) : noc_state :=
  MkNoc (hw s) t (noc_translation_enabled s) (telemetry_noc_translation s) (tensix_state_chan s).
(** [UpdateTelemetryNocTranslation(b)] and [noc_translation_enabled = b]. *)
Definition set_enabled (b : bool) (s : noc_state) : noc_state :=
  MkNoc (hw s) (translation s) b b (tensix_state_chan s).

Definition GetEnabledTensix (te : TileEnable) (s : noc_state) : option (Z * Z) :=
  x ← (if noc_translation_enabled s then Some 1
       else aget kTensixEthNoc0X (u8 (LOG2 (LSB_GET (tensix_col_enabled te)))));
  Some (x, 2).

Definition set_tensix_enable (te : TileEnable) (enable : bool) (s : noc_state) : option noc_state :=
  '(x, y) ← GetEnabledTensix te s;
  '(noc_regs, w) ← SetupNiuTlb kTlbIndex x y 0 (hw s);
  let niu_cfg_0 := WRITE_BIT (ReadNocCfgReg noc_regs NIU_CFG_0 w) NIU_CFG_0_TILE_CLK_OFF (negb enable) in
  let niu_cfg_0_addr := 0xFFB20100 in
  let w := NOC2AXITensixBroadcastTlbSetup (noc_translation_enabled s) 0 0 niu_cfg_0_addr kNoc2AxiOrderingStrict w in
  let w := NOC2AXIWrite32 0 0 niu_cfg_0_addr niu_cfg_0 w in
  '(_, w) ← SetupNiuTlb kTlbIndex x y 0 w;
  let s := set_hw w s in
  Some (MkNoc (hw s) (translation s) (noc_translation_enabled s) (telemetry_noc_translation s) (Some enable)).

Definition write_arc_translate_en (b : bool) (w : W) : W :=
  let niu_cfg_0 := ReadReg (kNoc0RegBase + kNiuCfg0Offset) w in
  let w := WriteReg (kNoc0RegBase + kNiuCfg0Offset) (WRITE_BIT niu_cfg_0 NIU_CFG_0_NOC_ID_TRANSLATE_EN b) w in
  let niu_cfg_0 := ReadReg (kNoc1RegBase + kNiuCfg0Offset) w in
  WriteReg (kNoc1RegBase + kNiuCfg0Offset) (WRITE_BIT niu_cfg_0 NIU_CFG_0_NOC_ID_TRANSLATE_EN b) w.

Definition DisableArcNocTranslation (s : noc_state) : noc_state := set_hw (write_arc_translate_en false (hw s)) s.
Definition EnableArcNocTranslation (s : noc_state) : noc_state := set_hw (write_arc_translate_en true (hw s)) s.
Definition RestoreArcNocTranslation (s : noc_state) : option noc_state :=
  nt ← aget (translation s) 0;
  Some (if translate_en nt then EnableArcNocTranslation s else s).

Definition InitNocTranslation (pcie_instance bad_tensix_cols bad_gddr skip_eth : Z) (s : noc_state)
    : option noc_state :=
  noc0 ← ComputeNocTranslation pcie_instance bad_tensix_cols bad_gddr skip_eth;
  t ← aset (translation s) 0 noc0;
  noc1 ← CopyNoc0ToNoc1 noc0;
  t ← aset t 1 noc1;
  w ← ProgramNocTranslation t (hw s);
  Some (set_enabled true (set_hw w (set_translation t s))).

Definition ClearNocTranslation (s : noc_state) : option noc_state :=
  let s := DisableArcNocTranslation s in
  z ← identity_coords all_zeroes;
  t ← aset (translation s) 0 z;
  t ← aset t 1 z;
  w ← ProgramNocTranslation t (hw s);
  Some (set_enabled false (set_hw w (set_translation t s))).

(** Zephyr's [find_lsb_set] and [find_msb_set]: one-based, 0 for no bit. *)
Definition find_lsb_set (op : Z) : Z := if op =? 0 then 0 else LOG2 (LSB_GET op) + 1.
Definition find_msb_set (op : Z) : Z := if op =? 0 then 0 else Z.log2 op + 1.

(** [1 << n] on [int]; a shift by a negative amount is undefined. *)
Definition int_bit (n : Z) : option Z := if n <? 0 then None else Some (Z.shiftl 1 n).

Definition harvesting_skip_eth (eth : Z) : option Z :=
  b ← int_bit (find_msb_set (Z.land (u32 (Z.lnot eth)) (GENMASK 6 4)) - 1);
  c ← int_bit (find_msb_set (Z.land (u32 (Z.lnot eth)) (GENMASK 9 7)) - 1);
  Some (u16 (Z.lor (u16 b) c)).

Definition harvesting_bad_gddr (gddr : Z) : Z :=
  let bad_gddr := u8 (find_lsb_set (u32 (Z.lnot gddr)) - 1) in
  if bad_gddr =? 8 then NO_BAD_GDDR else bad_gddr.

Definition InitNocTranslationFromHarvesting (te : TileEnable) (cable_fault translation_en : bool) (s : noc_state)
    : option noc_state :=
  if cable_fault then Some s
  else if negb translation_en then Some s
  else
    usage ← aget (pcie_usage te) 0;
    let pcie_instance := if usage =? BH_PCIE_MODE_EP then 0 else 1 in
    let bad_tensix_cols := Z.land (Z.ones 14) (Z.lnot (tensix_col_enabled te)) in
    let bad_gddr := harvesting_bad_gddr (gddr_enabled te) in
    skip_eth ← harvesting_skip_eth (eth_enabled te);
    InitNocTranslation pcie_instance bad_tensix_cols bad_gddr skip_eth s.

(** [struct debug_noc_translation_rqst] *)
Record debug_noc_translation_rqst := MkDebugNoc {
  enable_translation : bool;
  rq_pcie_instance : Z;
  pcie_instance_override : bool;
  rq_bad_tensix_cols : Z;
  rq_bad_gddr : Z;
  skip_eth_low : Z;
  skip_eth_hi : Z
}.

(** [pci1_mode] is the PCIe mode of instance 1 in the firmware table. *)
Definition debug_noc_translation_handler (pci1_mode : Z) (req : debug_noc_translation_rqst) (s : noc_state)
    : option (Z * noc_state) :=
  let skip_eth := Z.lor (skip_eth_low req) (u16 (Z.shiftl (skip_eth_hi req) 8)) in
  if (NUM_GDDR <=? rq_bad_gddr req) && negb (rq_bad_gddr req =? NO_BAD_GDDR) then Some (u8 (-22), s)
  else
    s ← ClearNocTranslation s;
    w ← ProgramBroadcastExclusion (rq_bad_tensix_cols req) (hw s);
    let s := set_hw w s in
    if enable_translation req then
      let pcie_instance :=
        if negb (pcie_instance_override req)
        then if pci1_mode =? BH_PCIE_MODE_EP then 1 else 0
        else rq_pcie_instance req in
      s ← InitNocTranslation pcie_instance (rq_bad_tensix_cols req) (rq_bad_gddr req) skip_eth s;
      Some (0, s)
    else Some (0, s).
End hardware.
Arguments noc_state : clear implicits.
