(* ===== verification/Gddr.v ===== *)
(** * The GDDR controllers ([lib/tenstorrent/bh_arc/gddr.c])

    Every GDDR controller has a processor (MRISC) with a memory and registers behind
    the NOC.  This file models how the SMC loads its firmware, waits for training, runs
    the memory self-test, exchanges messages with it, reads its telemetry and resets
    it.  All accesses go through TLB window [MRISC_SETUP_TLB] of [Noc]; flash, DMA,
    clock and time are the class [GddrHw].  The clock passes only in the operations
    of that class. *)

From S2P Require Import Prelude StateM Noc Tile Harvesting Telemetry NocInit.
#[local] Open Scope Z_scope.

Definition EIO : Z := 5.
Definition E2BIG : Z := 7.
Definition EBUSY : Z := 16.
Definition EINVAL : Z := 22.
Definition ETIMEDOUT : Z := 116.
Definition ENOTSUP : Z := 134.

Definition MIN_GDDR_SPEED : Z := 12000.
Definition MAX_GDDR_SPEED : Z := 20000.
Definition GDDR_SPEED_TO_MEMCLK_RATIO : Z := 16.
Definition NUM_MRISC_NOC2AXI_PORT : Z := 3.
Definition GDDR_TELEMETRY_TABLE_ADDR : Z := 0x8000.
Definition GDDR_MSG_STRUCT_ADDR : Z := 0x6000.
Definition MRISC_INIT_STATUS : Z := 0xFFB14010.
Definition MRISC_POST_CODE : Z := 0xFFB14014.
Definition MRISC_MSG_REGISTER : Z := 0xFFB14018.
Definition MRISC_INIT_FINISHED : Z := 0xdeadbeef.
Definition MRISC_INIT_FAILED : Z := 0xfa11.
Definition MRISC_INIT_BEFORE : Z := 0x11111111.
Definition MRISC_INIT_TIMEOUT : Z := 1000.
Definition MRISC_MEMTEST_TIMEOUT : Z := 1000.
Definition MRISC_POWER_SETTING_TIMEOUT_MS : Z := 1000.
Definition MRISC_MSG_TYPE_NONE : Z := 0.
Definition MRISC_MSG_TYPE_PHY_POWERDOWN : Z := 1.
Definition MRISC_MSG_TYPE_PHY_WAKEUP : Z := 2.
Definition MRISC_MSG_TYPE_RUN_MEMTEST : Z := 8.
Definition GDDR_TELEMETRY_TABLE_T_VERSION : Z := 2.

Definition MRISC_FW_NOC2AXI_PORT : Z := 0.
Definition MRISC_SETUP_TLB : Z := 13.
Definition MRISC_L1_ADDR : Z := 2 ^ 37.
Definition MRISC_REG_ADDR : Z := 2 ^ 40.
Definition MRISC_FW_CFG_OFFSET : Z := 0x3C00.
Definition NIU_CFG_0_AXI_SLAVE_ENABLE : Z := 15.
Definition kSoftReset0Addr : Z := 0xFFB121B0.
Definition kAllRiscSoftReset : Z := 0x47800.

(** [enum gddr_reset_err]. *)
Definition GDDR_RESET_ERR_INVALID_INST : Z := 1.
Definition GDDR_RESET_ERR_HARVESTED : Z := 2.
Definition GDDR_RESET_ERR_MASKED : Z := 3.
Definition GDDR_RESET_ERR_TRAINING : Z := 4.
Definition GDDR_RESET_ERR_BIST : Z := 5.
Definition GDDR_RESET_ERR_POWERDOWN : Z := 6.

(** Images of the boot file system. *)
Inductive image := memfw | memfwcfg.

(** What is around: time, flash and DMA.  [tt_boot_fs_find_fd_by_tag] gives an error or
    the image's address and size, [spi_arc_dma_transfer_to_tile] copies a range of the
    flash to an address of the ARC, [dma_words] reads words at one
    ([dma_arc_hs_transfer] to a local variable), [dma_wipe] copies the L1 of a tile
    over a GDDR node. *)
Class GddrHw (W : Type) := {
  sys_timepoint_calc : Z -> W -> Z;
  sys_timepoint_expired : Z -> W -> bool * W;
  k_msleep : Z -> W -> W;
  dma_words : Z -> nat -> W -> option (list Z) * W;
  find_image : image -> W -> (Z + Z * Z) * W;
  spi_transfer_to_tile : Z -> Z -> Z -> W -> Z * W;
  flash_read_image : Z -> Z -> W -> (Z + list Z) * W;
  set_gddr_memclk : Z -> W -> Z * W;
  dma_wipe : Z * Z -> Z * Z -> W -> W;
  record_init_failure : W -> W
}.

(** ** State *)

Record gddr (W : Type) := MkGddrState { gddr_bist : gddr_bist_info; gddr_telemetry_version_ok : Z; hw : W }.
Arguments MkGddrState {W} _ _ _.
Arguments gddr_bist {W} _.
Arguments gddr_telemetry_version_ok {W} _.
Arguments hw {W} _.

Abbreviation M W := (StateM.M (gddr W)).

(** The configuration: the build, the enabled tiles, the firmware table's DRAM mask if it has one, and
    whether a cable fault was found. *)
Record gddr_config := MkConfig {
  CONFIG_DMA_ARC_HS : bool; tile_enable : TileEnable; dram_table_mask : option Z; cable_fault : bool;
  tensix_node : Z * Z (** [GetEnabledTensix] *) }.

Section gddr.
Context {W : Type} `{NocHw W} `{GddrHw W} (cfg : gddr_config).

Definition with_hw {A} (f : W -> A * W) : M W A := fun s =>
  let '(a, w) := f (hw s) in Some (a, MkGddrState (gddr_bist s) (gddr_telemetry_version_ok s) w).
Definition on_hw (f : W -> W) : M W unit := with_hw (fun w => (tt, f w)).
Definition get_bist : M W gddr_bist_info := fun s => Some (gddr_bist s, s).
Definition set_bist (b : gddr_bist_info) : M W unit := fun s => Some (tt, MkGddrState b (gddr_telemetry_version_ok s) (hw s)).
Definition get_version_ok : M W Z := fun s => Some (gddr_telemetry_version_ok s, s).
Definition set_version_ok (v : Z) : M W unit := fun s => Some (tt, MkGddrState (gddr_bist s) v (hw s)).

(** [bits |= BIT(i)] and [bits &= ~BIT(i)] of a byte. *)
Definition set_bit (i bits : Z) : Z := Z.setbit bits i.
Definition clear_bit (i bits : Z) : Z := Z.clearbit bits i.

(** ** The MRISC through the window *)

Definition get_gddr_mrisc_noc2axi_port (gddr_inst : Z) : Z := if gddr_inst =? 0 then 2 else MRISC_FW_NOC2AXI_PORT.
Definition GetGddrMriscNocCoords (gddr_inst noc_id : Z) : option (Z * Z) :=
  GetGddrNocCoords gddr_inst (get_gddr_mrisc_noc2axi_port gddr_inst) noc_id.

Definition NOC2AXIRead32 (noc_id tlb_entry addr : Z) : M W Z :=
  with_hw (fun w => (ReadReg (GetTlbWindowAddr noc_id tlb_entry addr) w, w)).

Definition setup_window (gddr_inst base : Z) : M W unit :=
  '(x, y) ← lift (GetGddrMriscNocCoords gddr_inst 0);
  on_hw (NOC2AXITlbSetup 0 MRISC_SETUP_TLB x y base).

Definition SetupMriscL1Tlb (gddr_inst : Z) : M W Z :=
  _ ← setup_window gddr_inst MRISC_L1_ADDR;
  mret (GetTlbWindowAddr 0 MRISC_SETUP_TLB MRISC_L1_ADDR).

Definition MriscL1Read32 (gddr_inst addr : Z) : M W Z :=
  _ ← setup_window gddr_inst MRISC_L1_ADDR; NOC2AXIRead32 0 MRISC_SETUP_TLB (MRISC_L1_ADDR + addr).
Definition MriscL1Write32 (gddr_inst addr val : Z) : M W unit :=
  _ ← setup_window gddr_inst MRISC_L1_ADDR; on_hw (NOC2AXIWrite32 0 MRISC_SETUP_TLB (MRISC_L1_ADDR + addr) val).
Definition MriscRegRead32 (gddr_inst addr : Z) : M W Z :=
  _ ← setup_window gddr_inst (MRISC_REG_ADDR + addr); NOC2AXIRead32 0 MRISC_SETUP_TLB (MRISC_REG_ADDR + addr).
Definition MriscRegWrite32 (gddr_inst addr val : Z) : M W unit :=
  _ ← setup_window gddr_inst (MRISC_REG_ADDR + addr);
  on_hw (NOC2AXIWrite32 0 MRISC_SETUP_TLB (MRISC_REG_ADDR + addr) val).

(** ** Telemetry *)

(** The fields of the six words of [gddr_telemetry_table_t]. *)
Definition sizeof_table : nat := 6.
Definition tbl (l : list Z) (i : nat) : Z := default 0 (l !! i).
Definition telemetry_table_version (l : list Z) : Z := tbl l 0.
Definition mrisc_fw_version_major (l : list Z) : Z := bits_get 0 16 (tbl l 3).
Definition mrisc_fw_version_minor (l : list Z) : Z := bits_get 16 16 (tbl l 3).
Definition gddr_table_of (l : list Z) : gddr_table :=
  MkGddr (bits_get 16 8 (tbl l 2)) (bits_get 24 8 (tbl l 2)) (bits_get 0 16 (tbl l 2))
    (mrisc_fw_version_major l) (mrisc_fw_version_minor l)
    (bits_get 0 8 (tbl l 5)) (bits_get 8 8 (tbl l 5)) (bits_get 16 8 (tbl l 5)) (bits_get 24 8 (tbl l 5)).

(** [stack] is what the caller's variable holds. *)
Definition read_gddr_telemetry_table (gddr_inst : Z) (stack : list Z) : M W (Z * list Z) :=
  table ← (if CONFIG_DMA_ARC_HS cfg then
             mrisc_l1 ← SetupMriscL1Tlb gddr_inst;
             r ← with_hw (dma_words (u32 (mrisc_l1 + GDDR_TELEMETRY_TABLE_ADDR)) sizeof_table);
             match r with
             | Some l => mret l
             | None =>
                 for_m sizeof_table 0 (fun i l =>
                   v ← MriscL1Read32 gddr_inst (GDDR_TELEMETRY_TABLE_ADDR + i * 4); mret (l ++ [v])) []
             end
           else mret stack);
  mret (if telemetry_table_version table =? GDDR_TELEMETRY_TABLE_T_VERSION then 0 else - ENOTSUP, table).

(** ** Resets and enables *)

Definition ReleaseMriscReset (gddr_inst : Z) : M W unit :=
  _ ← setup_window gddr_inst kSoftReset0Addr;
  let soft_reset_0 := GetTlbWindowAddr 0 MRISC_SETUP_TLB kSoftReset0Addr in
  on_hw (fun w => WriteReg soft_reset_0 (Z.clearbit (ReadReg soft_reset_0 w) 11) w).

Definition kNiuCfg0Addr (i : Z) : Z := if i =? 0 then 0xFFB20100 else 0xFFB30100.

Definition SetAxiEnable (gddr_inst noc2axi_port : Z) (axi_enable : bool) : M W unit :=
  _ ← for_m (Z.to_nat NUM_NOCS) 0 (fun i (_ : unit) =>
        '(x, y) ← lift (GetGddrNocCoords gddr_inst noc2axi_port i);
        on_hw (NOC2AXITlbSetup i MRISC_SETUP_TLB x y (kNiuCfg0Addr i))) tt;
  for_m (Z.to_nat NUM_NOCS) 0 (fun i (_ : unit) =>
    let niu_cfg_0 := GetTlbWindowAddr i MRISC_SETUP_TLB (kNiuCfg0Addr i) in
    on_hw (fun w => WriteReg niu_cfg_0
      (if axi_enable then Z.setbit (ReadReg niu_cfg_0 w) NIU_CFG_0_AXI_SLAVE_ENABLE
       else Z.clearbit (ReadReg niu_cfg_0 w) NIU_CFG_0_AXI_SLAVE_ENABLE) w)) tt.

Definition LoadMriscFw (gddr_inst spi_address image_size : Z) : M W Z :=
  mrisc_l1 ← SetupMriscL1Tlb gddr_inst;
  with_hw (spi_transfer_to_tile spi_address image_size mrisc_l1).

Definition LoadMriscFwCfg (gddr_inst spi_address image_size : Z) : M W Z :=
  mrisc_l1 ← SetupMriscL1Tlb gddr_inst;
  let params_table := u32 (mrisc_l1 + MRISC_FW_CFG_OFFSET) in
  rc ← with_hw (spi_transfer_to_tile spi_address image_size params_table);
  _ ← (if rc =? 0 then
         on_hw (fun w => if 6 <=? ReadReg params_table w then WriteReg (u32 (params_table + 28)) gddr_inst w else w)
       else mret tt);
  mret rc.

Definition GetDramMask : Z :=
  match dram_table_mask cfg with
  | Some dram_mask => Z.land (gddr_enabled (tile_enable cfg)) dram_mask
  | None => gddr_enabled (tile_enable cfg)
  end.

(** ** Temperatures *)

Definition read_gddr_temperature (gddr_inst : Z) : M W (Z + Z * Z) :=
  if NUM_GDDR <=? gddr_inst then mret (inl (- EINVAL)) else
  ok ← get_version_ok;
  if negb (Z.testbit ok gddr_inst) then mret (inl (- ENOTSUP)) else
  temps ← MriscL1Read32 gddr_inst (GDDR_TELEMETRY_TABLE_ADDR + 4);
  mret (inr (Z.land temps 0xff, Z.land (Z.shiftr temps 16) 0xff)).

(** The loop's state: the code, and the temperatures so far. *)
Definition temps_step (dram_mask i : Z) (a : Z * gddr_temps) : M W (Z * gddr_temps) :=
  if negb (Z.testbit dram_mask i) then mret a else
  r ← read_gddr_temperature i;
  match r with
  | inl rc => mret (rc, a.2)
  | inr (top, bottom) =>
      l ← lift (aset (inst a.2) i (top, bottom));
      mret (a.1, MkTemps (Z.max (max_temp a.2) (Z.max top bottom)) l)
  end.
Definition get_gddr_temps : M W (Z * gddr_temps) :=
  for_m (Z.to_nat NUM_GDDR) 0 (temps_step GetDramMask) (0, MkTemps 0 (replicate (Z.to_nat NUM_GDDR) (0, 0))).

(** ** Messages and the memory self-test *)

Definition check_mrisc_busy (gddr_inst : Z) : M W Z :=
  status ← MriscRegRead32 gddr_inst MRISC_MSG_REGISTER;
  mret (if negb (status =? MRISC_MSG_TYPE_NONE) then - EBUSY else 0).

Fixpoint wait_mrisc_not_busy (fuel : nat) (gddr_inst timeout : Z) : M W Z :=
  match fuel with
  | O => lift None
  | S fuel =>
      status ← MriscRegRead32 gddr_inst MRISC_MSG_REGISTER;
      if status =? 0 then mret 0 else
      expired ← with_hw (sys_timepoint_expired timeout);
      if (expired : bool) then mret (- ETIMEDOUT) else wait_mrisc_not_busy fuel gddr_inst timeout
  end.

(** [stack]: the local variable for the telemetry table. *)
Definition StartHwMemtest (stack : list Z) (gddr_inst addr_bits start_addr mask : Z) : M W Z :=
  let msg_args := [addr_bits; start_addr; mask] in
  '(rc, t) ← read_gddr_telemetry_table gddr_inst stack;
  if rc <? 0 then mret (- ENOTSUP) else
  if (mrisc_fw_version_major t <? 2) || ((mrisc_fw_version_major t =? 2) && (mrisc_fw_version_minor t <? 7))
  then mret (- ENOTSUP) else
  ret ← check_mrisc_busy gddr_inst;
  if negb (ret =? 0) then mret ret else
  if 26 <? addr_bits then mret (- EINVAL) else
  _ ← for_m 3 0 (fun i (_ : unit) =>
        v ← lift (aget msg_args i); MriscL1Write32 gddr_inst (GDDR_MSG_STRUCT_ADDR + i * 4) v) tt;
  _ ← MriscRegWrite32 gddr_inst MRISC_MSG_REGISTER MRISC_MSG_TYPE_RUN_MEMTEST;
  mret 0.

Definition CheckHwMemtestResult (fuel : nat) (gddr_inst timeout : Z) : M W Z :=
  ret ← wait_mrisc_not_busy fuel gddr_inst timeout;
  b ← get_bist;
  if negb (ret =? 0) then
    _ ← set_bist (MkBist (complete b) (set_bit gddr_inst (failed b))); mret ret
  else
    pass ← MriscL1Read32 gddr_inst (GDDR_MSG_STRUCT_ADDR + 8 * 4);
    let complete := set_bit gddr_inst (complete b) in
    if negb (pass =? 0) then
      _ ← set_bist (MkBist complete (set_bit gddr_inst (failed b))); mret (- EIO)
    else
      _ ← set_bist (MkBist complete (clear_bit gddr_inst (failed b))); mret 0.

(** ** Boot: loading the firmware *)

Definition wipe_l1 : M W unit :=
  let dram_mask := GetDramMask in
  for_m (Z.to_nat NUM_GDDR) 0 (fun gddr_inst (_ : unit) =>
    if Z.testbit dram_mask gddr_inst then
      for_m (Z.to_nat NUM_MRISC_NOC2AXI_PORT) 0 (fun noc2axi_port (_ : unit) =>
        node ← lift (GetGddrNocCoords gddr_inst noc2axi_port 0);
        on_hw (dma_wipe (tensix_node cfg) node)) tt
    else mret tt) tt.

Definition fail_init (rc : Z) : M W Z := _ ← on_hw record_init_failure; mret rc.

Definition load_fw (spi_address image_size gddr_inst : Z) : M W (option Z) :=
  rc ← LoadMriscFw gddr_inst spi_address image_size;
  if negb (rc =? 0) then rc ← fail_init (- EIO); mret (Some rc) else mret None.

Definition load_cfg_and_start (spi_address image_size gddr_inst : Z) : M W (option Z) :=
  rc ← LoadMriscFwCfg gddr_inst spi_address image_size;
  if negb (rc =? 0) then rc ← fail_init (- EIO); mret (Some rc) else
  _ ← MriscRegWrite32 gddr_inst MRISC_INIT_STATUS MRISC_INIT_BEFORE;
  _ ← ReleaseMriscReset gddr_inst;
  mret None.

(** The second word of the configuration. *)
Definition GetGddrSpeedFromCfg (fw_cfg_image : list Z) : Z := le_of_bytes (take 4 (drop 4 fw_cfg_image)).

Definition InitMrisc (recovery arc : bool) : M W Z :=
  if recovery || negb arc || cable_fault cfg then mret 0 else
  _ ← wipe_l1;
  _ ← for_m (Z.to_nat NUM_GDDR) 0 (fun gddr_inst (_ : unit) =>
        for_m (Z.to_nat NUM_MRISC_NOC2AXI_PORT) 0 (fun port (_ : unit) => SetAxiEnable gddr_inst port true) tt) tt;
  let dram_mask := GetDramMask in
  fd ← with_hw (find_image memfw);
  match fd with
  | inl rc => fail_init rc
  | inr (spi_address, image_size) =>
      r ← each_until (Z.to_nat NUM_GDDR) 0 dram_mask (load_fw spi_address image_size);
      match r with
      | Some rc => mret rc
      | None =>
          fd ← with_hw (find_image memfwcfg);
          match fd with
          | inl rc => fail_init rc
          | inr (spi_address, image_size) =>
              buf ← with_hw (flash_read_image spi_address image_size);
              match buf with
              | inl rc => fail_init rc
              | inr buf =>
                  let gddr_speed := GetGddrSpeedFromCfg buf in
                  let gddr_speed := if (MIN_GDDR_SPEED <=? gddr_speed) && (gddr_speed <=? MAX_GDDR_SPEED) then gddr_speed else MIN_GDDR_SPEED in
                  rc ← with_hw (set_gddr_memclk (gddr_speed / GDDR_SPEED_TO_MEMCLK_RATIO));
                  if negb (rc =? 0) then fail_init (- EIO) else
                  r ← each_until (Z.to_nat NUM_GDDR) 0 dram_mask (load_cfg_and_start spi_address image_size);
                  mret (default 0 r)
              end
          end
      end
  end.

(** ** Training *)

(** The body of the [do] loop; [None] to go on. *)
Fixpoint training_poll (fuel : nat) (gddr_inst timeout : Z) : M W Z :=
  match fuel with
  | O => lift None
  | S fuel =>
      poll_val ← MriscRegRead32 gddr_inst MRISC_INIT_STATUS;
      if poll_val =? MRISC_INIT_FINISHED then
        version ← MriscL1Read32 gddr_inst GDDR_TELEMETRY_TABLE_ADDR;
        if negb (version =? GDDR_TELEMETRY_TABLE_T_VERSION) then mret (- ENOTSUP) else
        ok ← get_version_ok;
        _ ← set_version_ok (set_bit gddr_inst ok);
        mret 0
      else if poll_val =? MRISC_INIT_FAILED then mret (- EIO)
      else
        _ ← on_hw (k_msleep 1);
        expired ← with_hw (sys_timepoint_expired timeout);
        if negb (expired : bool) then training_poll fuel gddr_inst timeout
        else _ ← MriscRegRead32 gddr_inst MRISC_POST_CODE; mret (- ETIMEDOUT)
  end.

Definition CheckGddrTraining (fuel : nat) (gddr_inst timeout : Z) : M W Z :=
  ok ← get_version_ok;
  _ ← set_version_ok (clear_bit gddr_inst ok);
  training_poll fuel gddr_inst timeout.

(** [CheckGddrHwTest]: start all tests, then collect their results. *)
Definition start_test (stack : list Z) (gddr_inst : Z) (a : Z * Z) : M W (Z * Z) :=
  let '(test_started, any_error) := a in
  if Z.testbit (gddr_enabled (tile_enable cfg)) gddr_inst then
    error ← StartHwMemtest stack gddr_inst 26 0 0;
    mret (if error =? - ENOTSUP then (test_started, any_error)
          else if error <? 0 then (test_started, - EIO)
          else (set_bit gddr_inst test_started, any_error))
  else mret a.
Definition collect_test (fuel : nat) (test_started timeout gddr_inst any_error : Z) : M W Z :=
  if Z.testbit test_started gddr_inst then
    error ← CheckHwMemtestResult fuel gddr_inst timeout;
    mret (if error <? 0 then - EIO else any_error)
  else mret any_error.
Definition CheckGddrHwTest (fuel : nat) (stack : list Z) : M W Z :=
  '(test_started, any_error) ← for_m (Z.to_nat NUM_GDDR) 0 (start_test stack) (0, 0);
  timeout ← with_hw (fun w => (sys_timepoint_calc MRISC_MEMTEST_TIMEOUT w, w));
  for_m (Z.to_nat NUM_GDDR) 0 (collect_test fuel test_started timeout) any_error.

Definition gddr_training (fuel : nat) (stack : list Z) (recovery arc : bool) : M W Z :=
  if recovery || negb arc || cable_fault cfg then mret 0 else
  timeout ← with_hw (fun w => (sys_timepoint_calc MRISC_INIT_TIMEOUT w, w));
  init_errors ← for_m (Z.to_nat NUM_GDDR) 0 (fun gddr_inst (init_errors : bool) =>
    if Z.testbit GetDramMask gddr_inst then
      error ← CheckGddrTraining fuel gddr_inst timeout;
      mret (init_errors || negb (error =? 0))
    else mret init_errors) false;
  if negb init_errors then
    rc ← CheckGddrHwTest fuel stack;
    if rc <? 0 then fail_init (- EIO) else mret 0
  else _ ← on_hw record_init_failure; mret 0.

(** ** Power and reset *)

Definition post_message (op_code gddr_inst : Z) : M W (option Z) :=
  ret ← check_mrisc_busy gddr_inst;
  if negb (ret =? 0) then mret (Some ret) else
  _ ← MriscRegWrite32 gddr_inst MRISC_MSG_REGISTER op_code; mret None.
Definition await_message (fuel : nat) (timeout gddr_inst : Z) : M W (option Z) :=
  ret ← wait_mrisc_not_busy fuel gddr_inst timeout;
  mret (if negb (ret =? 0) then Some ret else None).

Definition mrisc_message (fuel : nat) (op_code instance_mask timeout_ms : Z) : M W Z :=
  r ← each_until (Z.to_nat NUM_GDDR) 0 instance_mask (post_message op_code);
  match r with
  | Some ret => mret ret
  | None =>
      timeout ← with_hw (fun w => (sys_timepoint_calc timeout_ms w, w));
      r ← each_until (Z.to_nat NUM_GDDR) 0 instance_mask (await_message fuel timeout);
      mret (default 0 r)
  end.

Definition set_mrisc_power_setting (fuel : nat) (on : bool) : M W Z :=
  let op_code := if on then MRISC_MSG_TYPE_PHY_WAKEUP else MRISC_MSG_TYPE_PHY_POWERDOWN in
  mrisc_message fuel op_code GetDramMask MRISC_POWER_SETTING_TIMEOUT_MS.

Definition assert_mrisc_soft_reset (gddr_inst : Z) : M W unit :=
  for_m (Z.to_nat NUM_MRISC_NOC2AXI_PORT) 0 (fun noc_node (_ : unit) =>
    '(x, y) ← lift (GetGddrNocCoords gddr_inst noc_node 0);
    _ ← on_hw (NOC2AXITlbSetup 0 MRISC_SETUP_TLB x y kSoftReset0Addr);
    on_hw (NOC2AXIWrite32 0 MRISC_SETUP_TLB kSoftReset0Addr kAllRiscSoftReset)) tt.

(** Returns the exit code and [rsp->data[1]]; [original_mrisc_state] is the power state of the MRISC domain. *)
Definition toggle_gddr_reset (fuel : nat) (stack : list Z) (original_mrisc_state : bool) (gddr_inst : Z) : M W (Z * Z) :=
  if NUM_GDDR <=? gddr_inst then mret (1, GDDR_RESET_ERR_INVALID_INST) else
  if negb (Z.testbit (gddr_enabled (tile_enable cfg)) gddr_inst) then mret (1, GDDR_RESET_ERR_HARVESTED) else
  if negb (Z.testbit GetDramMask gddr_inst) then mret (1, GDDR_RESET_ERR_MASKED) else
  b ← get_bist;
  _ ← set_bist (MkBist (clear_bit gddr_inst (complete b)) (clear_bit gddr_inst (failed b)));
  rc ← (if negb original_mrisc_state then set_mrisc_power_setting fuel true else mret 0);
  if rc <? 0 then mret (1, GDDR_RESET_ERR_POWERDOWN) else
  _ ← assert_mrisc_soft_reset gddr_inst;
  _ ← MriscRegWrite32 gddr_inst MRISC_INIT_STATUS MRISC_INIT_BEFORE;
  _ ← ReleaseMriscReset gddr_inst;
  timeout ← with_hw (fun w => (sys_timepoint_calc MRISC_INIT_TIMEOUT w, w));
  rc ← CheckGddrTraining fuel gddr_inst timeout;
  if rc <? 0 then mret (1, GDDR_RESET_ERR_TRAINING) else
  rc ← StartHwMemtest stack gddr_inst 26 0 0;
  if rc <? 0 then mret (1, GDDR_RESET_ERR_BIST) else
  timeout ← with_hw (fun w => (sys_timepoint_calc MRISC_MEMTEST_TIMEOUT w, w));
  rc ← CheckHwMemtestResult fuel gddr_inst timeout;
  if rc <? 0 then mret (1, GDDR_RESET_ERR_BIST) else
  rc ← (if negb original_mrisc_state then set_mrisc_power_setting fuel false else mret 0);
  if rc <? 0 then mret (1, GDDR_RESET_ERR_POWERDOWN) else
  mret (0, 0).
End gddr.

(** ** The processors behind the window *)

(** Address of an instance's processor on ring 0. *)
Definition node (i : Z) : Z * Z := default (0, 0) (GetGddrMriscNocCoords i 0).

(** Time: only the operations of [GddrHw] let it pass; [remaining] bounds how often a
    timepoint can still be found not expired. *)
Class MriscLaws (W : Type) `{NocHw W} `{GddrHw W} `{!TlbRegs W} `{!TileLaws W} := {
  remaining : Z -> W -> nat;
  law_time_write t a v w : (remaining t (WriteReg a v w) <= remaining t w)%nat;
  law_expired t w b w' : sys_timepoint_expired t w = (b, w') ->
    (remaining t w' <= remaining t w)%nat /\ (b = false -> (remaining t w' < remaining t w)%nat);
  law_msleep n t w : (remaining t (k_msleep n w) <= remaining t w)%nat
}.

Section mrisc.
Context {W : Type} `{MriscLaws W}.

(** Word of an instance's memory, and register. *)
Definition l1 (w : W) (i a : Z) : Z := word w (node i) (MRISC_L1_ADDR + a).
Definition reg (w : W) (i a : Z) : Z := word w (node i) (MRISC_REG_ADDR + a).

(** The same but for TLB registers: nothing has happened on the nodes. *)
Definition untouched (s s' : gddr W) : Prop :=
  gddr_bist s' = gddr_bist s /\ gddr_telemetry_version_ok s' = gddr_telemetry_version_ok s /\
  (forall n a, word (hw s') n a = word (hw s) n a) /\ forall t, (remaining t (hw s') <= remaining t (hw s))%nat.

Lemma node_ok i : 0 <= i < NUM_GDDR -> GetGddrMriscNocCoords i 0 = Some (node i).
Proof.
  intros Hi. assert (Hall : forallb (fun i => bool_decide (GetGddrMriscNocCoords i 0 = Some (node i))) (seqZ 0 8) = true) by (vm_compute; reflexivity).
  rewrite forallb_forall in Hall. apply (bool_decide_eq_true_1 _), Hall, list_elem_of_In, elem_of_seqZ. unfold NUM_GDDR in Hi. lia.
Qed.

Lemma node_inj i j : 0 <= i < NUM_GDDR -> 0 <= j < NUM_GDDR -> node i = node j -> i = j.
Proof.
  intros Hi Hj E. assert (Hall : forallb (fun i => forallb (fun j => bool_decide (node i = node j -> i = j)) (seqZ 0 8)) (seqZ 0 8) = true) by (vm_compute; reflexivity).
  rewrite forallb_forall in Hall. specialize (Hall i). rewrite <- list_elem_of_In, elem_of_seqZ, forallb_forall in Hall.
  specialize (Hall ltac:(unfold NUM_GDDR in Hi; lia) j). rewrite <- list_elem_of_In, elem_of_seqZ in Hall.
  by apply (bool_decide_eq_true_1 _) in Hall; [apply Hall|unfold NUM_GDDR in Hj; lia].
Qed.

Lemma node_range i : 0 <= i < NUM_GDDR -> 0 <= (node i).1 < 64 /\ 0 <= (node i).2 < 64.
Proof.
  intros Hi. assert (Hall : forallb (fun i => bool_decide (0 <= (node i).1 < 64 /\ 0 <= (node i).2 < 64)) (seqZ 0 8) = true) by (vm_compute; reflexivity).
  rewrite forallb_forall in Hall. apply (bool_decide_eq_true_1 _), Hall, list_elem_of_In, elem_of_seqZ. unfold NUM_GDDR in Hi. lia.
Qed.

Lemma setup_window_ok i addr s :
  0 <= i < NUM_GDDR -> does (setup_window i addr) s (fun _ s' => untouched s s' /\ opened MRISC_SETUP_TLB (node i) addr (hw s')).
Proof.
  intros Hi. unfold setup_window, does, mbind, M_bind, lift. rewrite node_ok by done. cbn [mbind option_bind]. destruct (node i) as [x y] eqn:En.
  unfold on_hw, with_hw. eexists tt, _. split; [done|].
  destruct (NOC2AXITlbSetup_ok MRISC_SETUP_TLB x y addr (hw s)) as [Ho Hw]; [done|]. split; [|exact Ho].
  split_and!; [done|done|exact Hw|]. intros t. do 4 (etransitivity; [apply law_time_write|]). done.
Qed.
End mrisc.

Section access.
Context {W : Type} `{MriscLaws W}.

(** Only this word has changed. *)
Definition wrote (i addr v : Z) (s s' : gddr W) : Prop :=
  gddr_bist s' = gddr_bist s /\ gddr_telemetry_version_ok s' = gddr_telemetry_version_ok s /\
  (forall n a, word (hw s') n a = put (node i) addr v (word (hw s)) n a) /\
  forall t, (remaining t (hw s') <= remaining t (hw s))%nat.

Lemma untouched_trans s1 s2 s3 : untouched s1 s2 -> untouched s2 s3 -> untouched s1 s3.
Proof.
  intros (B1 & V1 & W1 & R1) (B2 & V2 & W2 & R2). split_and!; [congruence|congruence|intros; by rewrite W2, W1|].
  intros t. specialize (R1 t). specialize (R2 t). lia.
Qed.

Lemma wrote_untouched i a v s1 s2 s3 : untouched s1 s2 -> wrote i a v s2 s3 -> wrote i a v s1 s3.
Proof.
  intros (B1 & V1 & W1 & R1) (B2 & V2 & W2 & R2). split_and!; [congruence|congruence| |].
  - intros n b. rewrite W2. unfold put. by rewrite W1.
  - intros t. specialize (R1 t). specialize (R2 t). lia.
Qed.

Lemma does_write i addr addr' v s :
  0 <= i < NUM_GDDR -> 0 <= addr < 2 ^ 64 -> opened MRISC_SETUP_TLB (node i) addr (hw s) -> Z.shiftr addr 24 = Z.shiftr addr' 24 ->
  does (on_hw (WriteReg (GetTlbWindowAddr 0 MRISC_SETUP_TLB addr') v)) s (fun _ s' => wrote i addr' v s s').
Proof.
  intros Hi Haddr Ho E. eexists tt, _. split; [done|].
  destruct (opened_write MRISC_SETUP_TLB (node i) addr addr' v (hw s) ltac:(done) (node_range i Hi) Haddr Ho E) as [_ Hw].
  split_and!; [done|done|exact Hw|intros; apply law_time_write].
Qed.

Lemma access_read i addr addr' s :
  0 <= i < NUM_GDDR -> 0 <= addr < 2 ^ 64 -> Z.shiftr addr 24 = Z.shiftr addr' 24 ->
  does (_ ← setup_window i addr; NOC2AXIRead32 0 MRISC_SETUP_TLB addr') s
    (fun v s' => v = word (hw s) (node i) addr' /\ untouched s s').
Proof.
  intros Hi Haddr E. eapply does_bind; [by apply setup_window_ok|]. intros _ s1 [Hu Ho].
  eexists _, s1. split; [unfold NOC2AXIRead32, with_hw; rewrite (opened_read MRISC_SETUP_TLB (node i) addr addr' _ ltac:(done) (node_range i Hi) Haddr Ho E); by destruct s1|].
  split; [apply Hu|done].
Qed.

Lemma access_write i addr addr' v s :
  0 <= i < NUM_GDDR -> 0 <= addr < 2 ^ 64 -> Z.shiftr addr 24 = Z.shiftr addr' 24 ->
  does (_ ← setup_window i addr; on_hw (NOC2AXIWrite32 0 MRISC_SETUP_TLB addr' v)) s (fun _ s' => wrote i addr' v s s').
Proof.
  intros Hi Haddr E. eapply does_bind; [by apply setup_window_ok|]. intros _ s1 [Hu Ho].
  eapply does_mono; [apply does_write with (1 := Hi) (3 := Ho) (4 := E); done|]. intros u s2 Hw. by eapply wrote_untouched.
Qed.

Lemma l1_page a : 0 <= a < 2 ^ 24 -> Z.shiftr MRISC_L1_ADDR 24 = Z.shiftr (MRISC_L1_ADDR + a) 24.
Proof.
  intros Ha. unfold MRISC_L1_ADDR. rewrite !Z.shiftr_div_pow2 by done. replace (2 ^ 37) with (2 ^ 13 * 2 ^ 24) by done.
  rewrite Z.div_add_l by done. rewrite (Z.div_small a) by done. by rewrite Z.div_mul, Z.add_0_r.
Qed.

Lemma MriscL1Read32_ok i a s :
  0 <= i < NUM_GDDR -> 0 <= a < 2 ^ 24 -> does (MriscL1Read32 i a) s (fun v s' => v = l1 (hw s) i a /\ untouched s s').
Proof. intros Hi Ha. apply access_read; [done|done|by apply l1_page]. Qed.
Lemma MriscRegRead32_ok i a s :
  0 <= i < NUM_GDDR -> 0 <= a < 2 ^ 32 -> does (MriscRegRead32 i a) s (fun v s' => v = reg (hw s) i a /\ untouched s s').
Proof. intros Hi Ha. apply access_read; [done|unfold MRISC_REG_ADDR; lia|done]. Qed.
Lemma MriscL1Write32_ok i a v s :
  0 <= i < NUM_GDDR -> 0 <= a < 2 ^ 24 -> does (MriscL1Write32 i a v) s (fun _ s' => wrote i (MRISC_L1_ADDR + a) v s s').
Proof. intros Hi Ha. apply access_write; [done|done|by apply l1_page]. Qed.
Lemma MriscRegWrite32_ok i a v s :
  0 <= i < NUM_GDDR -> 0 <= a < 2 ^ 32 -> does (MriscRegWrite32 i a v) s (fun _ s' => wrote i (MRISC_REG_ADDR + a) v s s').
Proof. intros Hi Ha. apply access_write; [done|unfold MRISC_REG_ADDR; lia|done]. Qed.
End access.

(** ** What each step does to the books *)

Section books.
Context {W : Type} `{MriscLaws W} (cfg : gddr_config).

(** The self-test results and the telemetry versions are as before. *)
Definition books (s s' : gddr W) : Prop :=
  gddr_bist s' = gddr_bist s /\ gddr_telemetry_version_ok s' = gddr_telemetry_version_ok s.
Definition later (t : Z) (s s' : gddr W) : Prop := (remaining t (hw s') <= remaining t (hw s))%nat.

Lemma books_trans s1 s2 s3 : books s1 s2 -> books s2 s3 -> books s1 s3.
Proof. intros [A B] [C D]. split; congruence. Qed.
Lemma untouched_books s s' : untouched s s' -> books s s' /\ forall t, later t s s'.
Proof. intros (B & V & _ & R). done. Qed.
Lemma wrote_books i a v s s' : wrote i a v s s' -> books s s' /\ forall t, later t s s'.
Proof. intros (B & V & _ & R). done. Qed.

Lemma does_on_hw f (s : gddr W) : does (on_hw f) s (fun _ s' => books s s' /\ hw s' = f (hw s)).
Proof. by eexists tt, _. Qed.
Lemma does_with_hw {A} (f : W -> A * W) (s : gddr W) : does (with_hw f) s (fun a s' => books s s' /\ f (hw s) = (a, hw s')).
Proof. unfold does, with_hw. destruct (f (hw s)) as [a w] eqn:E. eexists a, _. split; [done|]. done. Qed.
Lemma does_get_bist (s : gddr W) : does get_bist s (fun b s' => b = gddr_bist s /\ s' = s).
Proof. by exists (gddr_bist s), s. Qed.
Lemma does_set_bist b (s : gddr W) : does (set_bist b) s (fun _ s' => s' = MkGddrState b (gddr_telemetry_version_ok s) (hw s)).
Proof. by eexists tt, _. Qed.
Lemma does_get_version_ok (s : gddr W) : does get_version_ok s (fun v s' => v = gddr_telemetry_version_ok s /\ s' = s).
Proof. by exists (gddr_telemetry_version_ok s), s. Qed.
Lemma does_set_version_ok v (s : gddr W) : does (set_version_ok v) s (fun _ s' => s' = MkGddrState (gddr_bist s) v (hw s)).
Proof. by eexists tt, _. Qed.

(** Waiting for a message to be processed. *)
Lemma wait_ok fuel i t s :
  0 <= i < NUM_GDDR -> (remaining t (hw s) < fuel)%nat ->
  does (wait_mrisc_not_busy fuel i t) s (fun rc s' => books s s' /\ later t s s' /\
    (rc = 0 /\ reg (hw s') i MRISC_MSG_REGISTER = 0 \/ rc = - ETIMEDOUT)).
Proof.
  intros Hi. revert s. induction fuel as [|fuel IH]; intros s Hr; [lia|]. cbn [wait_mrisc_not_busy].
  eapply does_bind; [by apply MriscRegRead32_ok|]. intros v s1 [-> Hu]. destruct (untouched_books _ _ Hu) as [Hb Hl].
  destruct (Z.eqb_spec (reg (hw s) i MRISC_MSG_REGISTER) 0) as [E|_].
  { apply does_ret. split_and!; [done|apply Hl|]. left. split; [done|]. destruct Hu as (_ & _ & Hw & _). unfold reg. by rewrite Hw. }
  eapply does_bind; [apply does_with_hw|]. intros b s2 [Hb2 E]. destruct (law_expired _ _ _ _ E) as [Hle Hlt].
  specialize (Hl t). unfold later in *. pose proof (books_trans _ _ _ Hb Hb2) as Hb12. destruct b.
  { apply does_ret. split_and!; [done|lia|by right]. }
  specialize (Hlt eq_refl). eapply does_mono; [apply IH; lia|]. intros rc s3 (Hb3 & Hl3 & Hrc).
  split_and!; [by eapply books_trans|lia|done].
Qed.

(** The result of a self-test that was started. *)
Inductive test_result := TPass | TFail | TTimeout.
Definition test_code (r : test_result) : Z := match r with TPass => 0 | TFail => - EIO | TTimeout => - ETIMEDOUT end.
Definition record_test (i : Z) (r : test_result) (b : gddr_bist_info) : gddr_bist_info :=
  match r with
  | TPass => MkBist (set_bit i (complete b)) (clear_bit i (failed b))
  | TFail => MkBist (set_bit i (complete b)) (set_bit i (failed b))
  | TTimeout => MkBist (complete b) (set_bit i (failed b))
  end.
(** What the processor said. *)
Definition test_said (w : W) (i : Z) (r : test_result) : Prop :=
  match r with
  | TPass => reg w i MRISC_MSG_REGISTER = 0 /\ l1 w i (GDDR_MSG_STRUCT_ADDR + 32) = 0
  | TFail => reg w i MRISC_MSG_REGISTER = 0 /\ l1 w i (GDDR_MSG_STRUCT_ADDR + 32) <> 0
  | TTimeout => True
  end.

Lemma CheckHwMemtestResult_ok fuel i t s :
  0 <= i < NUM_GDDR -> (remaining t (hw s) < fuel)%nat ->
  does (CheckHwMemtestResult fuel i t) s (fun rc s' => exists r, rc = test_code r /\ test_said (hw s') i r /\
    gddr_bist s' = record_test i r (gddr_bist s) /\ gddr_telemetry_version_ok s' = gddr_telemetry_version_ok s /\ later t s s').
Proof.
  intros Hi Hr. unfold CheckHwMemtestResult. eapply does_bind; [by apply wait_ok|]. intros rc s1 (Hb & Hl & Hrc).
  eapply does_bind; [apply does_get_bist|]. intros b s1' [-> ->].
  destruct Hb as [Eb Ev]. destruct Hrc as [[-> Hreg]| ->].
  - cbn [Z.eqb negb]. eapply does_bind; [by apply MriscL1Read32_ok|]. intros pass s2 [-> Hu].
    assert (Hw : forall a, l1 (hw s2) i a = l1 (hw s1) i a /\ reg (hw s2) i a = reg (hw s1) i a).
    { intros a. unfold l1, reg. destruct Hu as (_ & _ & Hw & _). by rewrite !Hw. }
    destruct Hu as (Eb2 & Ev2 & _ & R2). specialize (R2 t).
    destruct (Z.eqb_spec (l1 (hw s1) i (GDDR_MSG_STRUCT_ADDR + 8 * 4)) 0) as [E|E]; cbn [negb];
      (eapply does_bind; [apply does_set_bist|]; intros u s3 ->; apply does_ret).
    + exists TPass. cbn. rewrite (proj1 (Hw _)), (proj2 (Hw _)), Eb, Ev2, Ev. split_and!; try done. unfold later in *. cbn. lia.
    + exists TFail. cbn. rewrite (proj1 (Hw _)), (proj2 (Hw _)), Eb, Ev2, Ev. split_and!; try done. unfold later in *. cbn. lia.
  - cbn [Z.eqb negb]. eapply does_bind; [apply does_set_bist|]. intros u s3 ->. apply does_ret.
    exists TTimeout. cbn. rewrite Eb, Ev. done.
Qed.
End books.

Section steps.
Context {W : Type} `{MriscLaws W} (cfg : gddr_config).

Lemma read_table_ok i stack s :
  0 <= i < NUM_GDDR ->
  does (read_gddr_telemetry_table cfg i stack) s (fun r s' => books s s' /\ (r.1 = 0 \/ r.1 = - ENOTSUP)).
Proof.
  intros Hi. unfold read_gddr_telemetry_table. eapply (does_bind _ _ _ _ (fun _ s' => books s s')).
  - destruct (CONFIG_DMA_ARC_HS cfg); [|by apply does_ret]. unfold SetupMriscL1Tlb.
    eapply (does_bind _ _ _ _ (fun _ s' => books s s')); [eapply does_bind; [by apply setup_window_ok|]; intros u s1 [Hu _]; apply does_ret; apply (untouched_books _ _ Hu)|].
    intros l s1 Hb1. eapply does_bind; [apply does_with_hw|]. intros r s2 [Hb2 _]. pose proof (books_trans _ _ _ Hb1 Hb2) as Hb.
    destruct r as [l'|]; [by apply does_ret|].
    eapply does_mono; [apply (for_m_ok (fun _ _ s' => books s s')); [done|]|done].
    intros k x s3 Hk Hb3. eapply does_bind; [apply MriscL1Read32_ok; [done|]|].
    { unfold GDDR_TELEMETRY_TABLE_ADDR, sizeof_table in *. lia. }
    intros v s4 [_ Hu]. apply does_ret. eapply books_trans; [exact Hb3|apply (untouched_books _ _ Hu)].
  - intros t s1 Hb. apply does_ret. split; [done|]. cbn. destruct (_ =? _); auto.
Qed.

Lemma check_busy_ok i s :
  0 <= i < NUM_GDDR -> does (check_mrisc_busy i) s (fun r s' => (r = 0 \/ r = - EBUSY) /\ books s s' /\ forall t, later t s s').
Proof.
  intros Hi. unfold check_mrisc_busy. eapply does_bind; [by apply MriscRegRead32_ok|]. intros v s1 [-> Hu]. apply does_ret.
  split; [|by apply untouched_books]. destruct (negb _); auto.
Qed.

Lemma StartHwMemtest_ok stack i s :
  0 <= i < NUM_GDDR ->
  does (StartHwMemtest cfg stack i 26 0 0) s (fun rc s' => books s s' /\ (rc = 0 \/ rc = - ENOTSUP \/ rc = - EBUSY)).
Proof.
  intros Hi. unfold StartHwMemtest. cbv zeta. eapply does_bind; [by apply read_table_ok|]. intros [rc t] s1 [Hb Hrc]. cbn in Hrc.
  destruct (rc <? 0); [apply does_ret; auto|]. destruct (_ || _); [apply does_ret; auto|].
  eapply does_bind; [by apply check_busy_ok|]. intros r s2 (Hr & Hb2 & _). pose proof (books_trans _ _ _ Hb Hb2) as Hb12.
  destruct Hr as [-> | ->]; cbn [Z.eqb negb]; [|by apply does_ret; auto]. change (26 <? 26) with false. cbn iota.
  eapply does_bind; [apply (for_m_ok (fun _ _ s' => books s s')); [done|]|].
  - intros k x s3 Hk Hb3. destruct (aget_in [26; 0; 0] k) as [v Hv]; [cbn; lia|]. rewrite Hv.
    eapply does_bind; [by apply (does_lift v s3 (fun v' s' => s' = s3))|]. intros v' s3' ->.
    eapply does_mono; [apply MriscL1Write32_ok; [done|]|].
    { unfold GDDR_MSG_STRUCT_ADDR in *. lia. }
    intros u s4 Hw. eapply books_trans; [exact Hb3|apply (wrote_books _ _ _ _ _ Hw)].
  - intros u s3 Hb3. eapply does_bind; [by apply MriscRegWrite32_ok|]. intros u' s4 Hw. apply does_ret. split; [|by left].
    eapply books_trans; [exact Hb3|apply (wrote_books _ _ _ _ _ Hw)].
Qed.

(** Every message is given to all, then all are awaited. *)
Lemma mrisc_message_ok fuel op mask ms s :
  (forall w, (remaining (sys_timepoint_calc ms w) w < fuel)%nat) ->
  does (mrisc_message fuel op mask ms) s (fun rc s' => books s s' /\ (rc = 0 \/ rc = - EBUSY \/ rc = - ETIMEDOUT)).
Proof.
  intros Hfuel. unfold mrisc_message.
  eapply does_bind; [apply (each_until_ok (fun _ s' => books s s') (fun r s' => books s s' /\ r = - EBUSY)); [done| |done]|].
  - intros i s1 Hi _ Hb. unfold post_message. eapply does_bind; [apply check_busy_ok; unfold NUM_GDDR in *; lia|]. intros r s2 (Hr & Hb2 & _).
    pose proof (books_trans _ _ _ Hb Hb2) as Hb12. destruct Hr as [-> | ->]; cbn [Z.eqb negb]; [|by apply does_ret].
    eapply does_bind; [apply MriscRegWrite32_ok; [unfold NUM_GDDR in *; lia|done]|]. intros u s3 Hw. apply does_ret.
    eapply books_trans; [exact Hb12|apply (wrote_books _ _ _ _ _ Hw)].
  - intros r s1 Hr. destruct r as [r|]; [destruct Hr as [Hb ->]; apply does_ret; auto|].
    eapply does_bind; [apply does_with_hw|]. intros t s2 [Hb2 E]. injection E as <- Ehw. pose proof (books_trans _ _ _ Hr Hb2) as Hb12.
    eapply does_bind; [apply (each_until_ok (fun _ s' => books s s' /\ (remaining (sys_timepoint_calc ms (hw s1)) (hw s') < fuel)%nat)
      (fun r s' => books s s' /\ r = - ETIMEDOUT)); [split; [done|rewrite <- Ehw; apply Hfuel]| |done]|].
    + intros i s3 Hi _ [Hb3 Hr3]. unfold await_message. eapply does_bind; [apply wait_ok; [unfold NUM_GDDR in *; lia|done]|].
      intros rc s4 (Hb4 & Hl4 & Hrc). pose proof (books_trans _ _ _ Hb3 Hb4) as Hb34. unfold later in Hl4.
      destruct Hrc as [[-> _]| ->]; apply does_ret; cbn; split; (done || lia).
    + intros r s3 Hr3. apply does_ret. destruct r as [r|]; cbn; [destruct Hr3 as [? ->]; auto|destruct Hr3; auto].
Qed.
End steps.

Section reset.
Context {W : Type} `{MriscLaws W} (cfg : gddr_config).

Lemma gddr_node_total i port noc : 0 <= i < NUM_GDDR -> 0 <= port < NUM_MRISC_NOC2AXI_PORT -> 0 <= noc < NUM_NOCS ->
  exists n, GetGddrNocCoords i port noc = Some n.
Proof.
  intros Hi Hp Hn.
  assert (Hall : forallb (fun i => forallb (fun p => forallb (fun n => bool_decide (is_Some (GetGddrNocCoords i p n))) (seqZ 0 2)) (seqZ 0 3)) (seqZ 0 8) = true)
    by (vm_compute; reflexivity).
  rewrite forallb_forall in Hall. specialize (Hall i). rewrite <- list_elem_of_In, elem_of_seqZ, forallb_forall in Hall.
  specialize (Hall ltac:(unfold NUM_GDDR in Hi; lia) port). rewrite <- list_elem_of_In, elem_of_seqZ, forallb_forall in Hall.
  specialize (Hall ltac:(unfold NUM_MRISC_NOC2AXI_PORT in Hp; lia) noc). rewrite <- list_elem_of_In, elem_of_seqZ in Hall.
  apply (bool_decide_eq_true_1 _) in Hall; [|change NUM_NOCS with 2 in Hn; lia]. destruct Hall as [n Hn']. eauto.
Qed.

(** Training: the bit of the telemetry version says whether it succeeded with a known version. *)
Lemma training_poll_ok fuel i t s :
  0 <= i < NUM_GDDR -> (remaining t (hw s) < fuel)%nat ->
  does (training_poll fuel i t) s (fun rc s' => gddr_bist s' = gddr_bist s /\ later t s s' /\
    ((rc = 0 /\ gddr_telemetry_version_ok s' = set_bit i (gddr_telemetry_version_ok s) /\
      reg (hw s') i MRISC_INIT_STATUS = MRISC_INIT_FINISHED /\ l1 (hw s') i GDDR_TELEMETRY_TABLE_ADDR = GDDR_TELEMETRY_TABLE_T_VERSION) \/
     ((rc = - ENOTSUP \/ rc = - EIO \/ rc = - ETIMEDOUT) /\ gddr_telemetry_version_ok s' = gddr_telemetry_version_ok s))).
Proof.
  intros Hi. revert s. induction fuel as [|fuel IH]; intros s Hr; [lia|]. cbn [training_poll].
  eapply does_bind; [by apply MriscRegRead32_ok|]. intros v s1 [-> Hu]. destruct (untouched_books _ _ Hu) as [[Eb1 Ev1] Hl1].
  specialize (Hl1 t). unfold later in *. destruct (Z.eqb_spec (reg (hw s) i MRISC_INIT_STATUS) MRISC_INIT_FINISHED) as [E|_].
  { eapply does_bind; [by apply MriscL1Read32_ok|]. intros ver s2 [-> Hu2]. destruct (untouched_books _ _ Hu2) as [[Eb2 Ev2] Hl2].
    specialize (Hl2 t). unfold later in Hl2.
    destruct (Z.eqb_spec (l1 (hw s1) i GDDR_TELEMETRY_TABLE_ADDR) GDDR_TELEMETRY_TABLE_T_VERSION) as [Ever|_]; cbn [negb];
      [|apply does_ret; split_and!; [congruence|lia|right; split; [auto|congruence]]].
    eapply does_bind; [apply does_get_version_ok|]. intros ok s3 [-> ->]. eapply does_bind; [apply does_set_version_ok|]. intros u s4 ->.
    apply does_ret. cbn. split_and!; [congruence|lia|left]. destruct Hu as (_ & _ & Hw1 & _), Hu2 as (_ & _ & Hw2 & _).
    split_and!; [done|congruence|unfold reg; by rewrite Hw2, Hw1|]. rewrite <- Ever. unfold l1. by rewrite Hw2. }
  destruct (_ =? MRISC_INIT_FAILED); [apply does_ret; split_and!; [congruence|lia|right; split; [auto|congruence]]|].
  eapply does_bind; [apply does_on_hw|]. intros u s2 [[Eb2 Ev2] E2]. pose proof (law_msleep 1 t (hw s1)) as Hl2. rewrite <- E2 in Hl2.
  eapply does_bind; [apply does_with_hw|]. intros b s3 [[Eb3 Ev3] E3]. destruct (law_expired _ _ _ _ E3) as [Hle Hlt]. destruct b; cbn [negb].
  - eapply does_bind; [by apply MriscRegRead32_ok|]. intros v s4 [_ Hu4]. destruct (untouched_books _ _ Hu4) as [[Eb4 Ev4] Hl4].
    specialize (Hl4 t). unfold later in Hl4. apply does_ret. split_and!; [congruence|lia|right; split; [auto|congruence]].
  - specialize (Hlt eq_refl). eapply does_mono; [apply IH; lia|]. intros rc s4 (Eb4 & Hl4 & Hrc).
    split_and!; [congruence|lia|]. destruct Hrc as [(-> & Ev4 & Hs)|[Hrc Ev4]]; [left|right]; (split; [done|]); [|congruence].
    split; [congruence|done].
Qed.

Lemma CheckGddrTraining_ok fuel i t s :
  0 <= i < NUM_GDDR -> (remaining t (hw s) < fuel)%nat ->
  does (CheckGddrTraining fuel i t) s (fun rc s' => gddr_bist s' = gddr_bist s /\ later t s s' /\
    ((rc = 0 /\ gddr_telemetry_version_ok s' = set_bit i (clear_bit i (gddr_telemetry_version_ok s))) \/
     ((rc = - ENOTSUP \/ rc = - EIO \/ rc = - ETIMEDOUT) /\ gddr_telemetry_version_ok s' = clear_bit i (gddr_telemetry_version_ok s)))).
Proof.
  intros Hi Hr. unfold CheckGddrTraining. eapply does_bind; [apply does_get_version_ok|]. intros ok s1 [-> ->].
  eapply does_bind; [apply does_set_version_ok|]. intros u s1 ->.
  eapply does_mono; [by apply training_poll_ok|]. cbn. intros rc s2 (Eb & Hl & Hrc). split_and!; [done|done|]. tauto.
Qed.

Lemma ReleaseMriscReset_ok i s : 0 <= i < NUM_GDDR -> does (ReleaseMriscReset i) s (fun _ s' => books s s').
Proof.
  intros Hi. unfold ReleaseMriscReset. eapply does_bind; [by apply setup_window_ok|]. intros u s1 [Hu _]. cbv zeta.
  eapply does_mono; [apply does_on_hw|]. intros u2 s2 [Hb _]. eapply books_trans; [apply (untouched_books _ _ Hu)|done].
Qed.

Lemma assert_mrisc_soft_reset_ok i s : 0 <= i < NUM_GDDR -> does (assert_mrisc_soft_reset i) s (fun _ s' => books s s').
Proof.
  intros Hi. unfold assert_mrisc_soft_reset. eapply (for_m_ok (fun _ _ s' => books s s')); [done|]. intros k x s1 Hk Hb.
  destruct (gddr_node_total i k 0) as [[nx ny] E]; [done|change (Z.of_nat (Z.to_nat NUM_MRISC_NOC2AXI_PORT)) with 3 in Hk; unfold NUM_MRISC_NOC2AXI_PORT; lia|done|].
  rewrite E. eapply does_bind; [by apply (does_lift (nx, ny) s1 (fun v s' => v = (nx, ny) /\ s' = s1))|]. intros v s1' [-> ->].
  eapply does_bind; [apply does_on_hw|]. intros u s2 [Hb2 _]. eapply does_mono; [apply does_on_hw|]. intros u2 s3 [Hb3 _].
  by eapply books_trans; [eapply books_trans|].
Qed.

(** The bits of one instance. *)
Definition bits_of (s : gddr W) (i : Z) : bool * bool * bool :=
  (Z.testbit (gddr_telemetry_version_ok s) i, Z.testbit (complete (gddr_bist s)) i, Z.testbit (failed (gddr_bist s)) i).

Lemma testbit_set i j b : 0 <= i -> Z.testbit (set_bit i b) j = (i =? j) || Z.testbit b j.
Proof. intros Hi. unfold set_bit. by rewrite Z.setbit_eqb. Qed.
Lemma testbit_clear i j b : Z.testbit (clear_bit i b) j = Z.testbit b j && negb (i =? j).
Proof. apply Z.clearbit_eqb. Qed.

Lemma power_ok fuel powered b s :
  (forall w, (remaining (sys_timepoint_calc 1000 w) w < fuel)%nat) ->
  does (if negb powered then set_mrisc_power_setting cfg fuel b else mret 0) s
    (fun rc s' => books s s' /\ (rc = 0 \/ (rc = - EBUSY \/ rc = - ETIMEDOUT) /\ powered = false)).
Proof.
  intros Hfuel. destruct powered; cbn [negb]; [apply does_ret; split; [done|by left]|].
  eapply does_mono; [by apply mrisc_message_ok|]. intros rc s' [Hb [-> |Hrc]]; auto.
Qed.

(** The books with these values. *)
Definition has_books (v c f : Z) (s : gddr W) : Prop := gddr_telemetry_version_ok s = v /\ gddr_bist s = MkBist c f.
Lemma books_has v c f s s' : has_books v c f s -> books s s' -> has_books v c f s'.
Proof. intros [A B] [C D]. split; congruence. Qed.

Lemma has_books_bits v c f s j : has_books v c f s -> bits_of s j = (Z.testbit v j, Z.testbit c j, Z.testbit f j).
Proof. intros [A B]. unfold bits_of. by rewrite A, B. Qed.

(** How to close a case: the bits of [i], and of the others. *)
Ltac bits_i Hb := rewrite (has_books_bits _ _ _ _ _ Hb), ?testbit_set, ?testbit_clear, ?Z.eqb_refl, ?andb_false_r by lia; reflexivity.
Ltac bits_other Hb :=
  let j := fresh "j" in let Hj := fresh "Hj" in let Hne := fresh "Hne" in
  intros j Hj Hne; rewrite (has_books_bits _ _ _ _ _ Hb), ?testbit_set, ?testbit_clear by lia;
  rewrite (proj2 (Z.eqb_neq _ j)) by congruence; cbn [orb negb]; rewrite ?andb_true_r; reflexivity.

End reset.

Section temperatures.
Context {W : Type} `{MriscLaws W} (cfg : gddr_config).

(** The two bytes of the word of the temperatures. *)
Definition die_temps (w : W) (i : Z) : Z * Z :=
  let v := l1 w i (GDDR_TELEMETRY_TABLE_ADDR + 4) in (Z.land v 0xff, Z.land (Z.shiftr v 16) 0xff).
(** An instance is read if it is not masked and its telemetry is of the known version. *)
Definition readable (s : gddr W) (i : Z) : bool := Z.testbit (GetDramMask cfg) i && Z.testbit (gddr_telemetry_version_ok s) i.

Definition is_max (t : gddr_temps) : Prop :=
  (forall i p, inst t !! i = Some p -> p.1 <= max_temp t /\ p.2 <= max_temp t) /\
  (max_temp t = 0 \/ exists i p, inst t !! i = Some p /\ (max_temp t = p.1 \/ max_temp t = p.2)).

Lemma is_max_insert t i p :
  is_max t -> (i < length (inst t))%nat -> inst t !! i = Some (0, 0) -> 0 <= p.1 -> 0 <= p.2 -> 0 <= max_temp t ->
  is_max (MkTemps (Z.max (max_temp t) (Z.max p.1 p.2)) (<[i := p]> (inst t))).
Proof.
  intros [Hle Hex] Hi E Hp1 Hp2 Hp3. split; cbn.
  - intros j q Hj. apply list_lookup_insert_Some in Hj as [(-> & -> & _)|[_ Hj]]; [lia|]. specialize (Hle _ _ Hj). lia.
  - destruct (Z.max_spec (max_temp t) (Z.max p.1 p.2)) as [[_ ->]|[Hge ->]].
    + right. exists i, p. rewrite list_lookup_insert_eq by done. split; [done|]. lia.
    + destruct Hex as [->|(j & q & Hj & Hq)]; [by left|]. destruct (decide (i = j)) as [->|Hne].
      * rewrite E in Hj. injection Hj as <-. left. cbn in Hq. lia.
      * right. exists j, q. by rewrite list_lookup_insert_ne.
Qed.

Definition temps_upto (s : gddr W) (k : Z) (r : Z * gddr_temps) (s' : gddr W) : Prop :=
  untouched s s' /\ length (inst r.2) = 8%nat /\ is_max r.2 /\ 0 <= max_temp r.2 /\
  (forall i, 0 <= i < NUM_GDDR -> inst r.2 !! Z.to_nat i = Some (if (i <? k) && readable s i then die_temps (hw s) i else (0, 0))) /\
  ((r.1 = 0 /\ forall i, 0 <= i < k -> Z.testbit (GetDramMask cfg) i = true -> readable s i = true) \/
   (r.1 = - ENOTSUP /\ exists i, 0 <= i < k /\ Z.testbit (GetDramMask cfg) i = true /\ readable s i = false)).

Lemma not_read_step s k r s' :
  0 <= k < NUM_GDDR -> temps_upto s k r s' -> readable s k = false ->
  temps_upto s (k + 1) (if Z.testbit (GetDramMask cfg) k then - ENOTSUP else r.1, r.2) s'.
Proof.
  intros Hk (Hu & Hl & Hm & H0' & Hin & Hrc) Hf. unfold temps_upto. cbn [fst snd]. split_and!; try done.
  - intros i Hi. rewrite Hin by done. destruct (Z.eq_dec i k) as [->|Hne].
    + rewrite Hf. by rewrite !andb_false_r.
    + by replace (i <? k + 1) with (i <? k) by (destruct (Z.ltb_spec i k), (Z.ltb_spec i (k + 1)); lia).
  - destruct (Z.testbit (GetDramMask cfg) k) eqn:Em; [right; split; [done|]; exists k; split_and!; (done || lia)|].
    destruct Hrc as [[E Hall]|(E & i & Hi & Hmi & Hri)]; [left; split; [done|]|right; split; [done|exists i; split_and!; (done || lia)]].
    intros i Hi Hmi. destruct (Z.eq_dec i k) as [->|]; [congruence|]. apply Hall; [lia|done].
Qed.

Lemma temps_step_ok s k r s' :
  0 <= k < NUM_GDDR -> temps_upto s k r s' -> does (temps_step (GetDramMask cfg) k r) s' (temps_upto s (k + 1)).
Proof.
  intros Hk Ht. pose proof Ht as (Hu & Hl & Hm & H0' & Hin & Hrc). assert (Hk8 : 0 <= k < 8) by exact Hk. unfold temps_step.
  pose proof (not_read_step s k r s' Hk Ht) as Hskip.
  destruct (Z.testbit (GetDramMask cfg) k) eqn:Em; cbn [negb].
  2: { apply does_ret. destruct r as [rc t]. apply Hskip. unfold readable. by rewrite Em. }
  unfold read_gddr_temperature. rewrite (proj2 (Z.leb_gt NUM_GDDR k)) by lia.
  pose proof Hu as (_ & Ev & Hw & _).
  eapply (does_bind _ _ _ _ (fun x s1 => untouched s s1 /\ x = if readable s k then inr (die_temps (hw s) k) else inl (- ENOTSUP))).
  - eapply does_bind; [apply does_get_version_ok|]. intros ok s1 [-> ->]. unfold readable. rewrite Em, Ev. cbn [andb].
    destruct (Z.testbit (gddr_telemetry_version_ok s) k); cbn [negb]; [|by apply does_ret].
    eapply does_bind; [by apply MriscL1Read32_ok|]. intros v s2 [-> Hu2]. apply does_ret. split; [by eapply untouched_trans|].
    unfold die_temps, l1. by rewrite !Hw.
  - intros x s1 [Hu1 ->]. destruct (readable s k) eqn:Er.
    + destruct (die_temps (hw s) k) as [top bottom] eqn:Ed. rewrite aset_in by (unfold NUM_GDDR in Hk; lia).
      eapply does_bind; [by apply (does_lift (<[Z.to_nat k := (top, bottom)]> (inst r.2)) s1 (fun l s2 => l = <[Z.to_nat k := (top, bottom)]> (inst r.2) /\ s2 = s1))|].
      intros l s2 [-> ->]. apply does_ret. assert (Ht0 : 0 <= top /\ 0 <= bottom).
      { unfold die_temps in Ed. injection Ed as <- <-. split; apply Z.land_nonneg; by right. }
      split; [done|]. cbn [fst snd inst max_temp]. split; [by rewrite length_insert|]. split.
      { apply (is_max_insert r.2 (Z.to_nat k) (top, bottom)); [done|lia| |cbn; lia..|done]. rewrite Hin by done. by rewrite Z.ltb_irrefl. }
      split; [lia|]. split.
      { intros i Hi. destruct (Z.eq_dec i k) as [->|Hne].
        - rewrite list_lookup_insert_eq by lia. rewrite Er, Ed. by destruct (Z.ltb_spec k (k + 1)); [|lia].
        - rewrite list_lookup_insert_ne by lia. rewrite Hin by done.
          by replace (i <? k + 1) with (i <? k) by (destruct (Z.ltb_spec i k), (Z.ltb_spec i (k + 1)); lia). }
      destruct Hrc as [[Erc Hall]|(Erc & i & Hi & Hmi & Hri)]; [left; split; [done|]|right; split; [done|exists i; split_and!; (done || lia)]].
      intros i Hi Hmi. destruct (Z.eq_dec i k) as [->|]; [done|]. apply Hall; [lia|done].
    + apply does_ret. specialize (Hskip eq_refl). destruct Hskip as (_ & Hrest). split; [done|exact Hrest].
Qed.

(** The temperatures.  The processors are read only where the instance is in use and its
    telemetry is of the known version, and nothing on them or in the books changes;
    every such instance gets its two dies, any other one zeros; the maximum is that of all;
    and the code is an error exactly when an instance in use could not be read. *)
Theorem get_gddr_temps_ok s :
  does (get_gddr_temps cfg) s (fun r s' => let '(rc, t) := r in
    untouched s s' /\ is_max t /\
    (forall i, 0 <= i < NUM_GDDR -> inst t !! Z.to_nat i = Some (if readable s i then die_temps (hw s) i else (0, 0))) /\
    ((rc = 0 /\ forall i, 0 <= i < NUM_GDDR -> Z.testbit (GetDramMask cfg) i = true -> readable s i = true) \/
     (rc = - ENOTSUP /\ exists i, 0 <= i < NUM_GDDR /\ Z.testbit (GetDramMask cfg) i = true /\ readable s i = false))).
Proof.
  unfold get_gddr_temps. eapply does_mono; [apply (for_m_ok (temps_upto s))|].
  - unfold temps_upto. cbn. split_and!; [done|done| |lia| |left; split; [done|lia]].
    + split; [|by left]. intros i p Hi. apply (lookup_replicate_1 8 (0, 0)) in Hi as [-> _]. cbn. lia.
    + intros i Hi. destruct (Z.ltb_spec i 0); [lia|]. cbn [andb].
      apply lookup_replicate_2. unfold NUM_GDDR in *. lia.
  - intros k r s1 Hk. apply temps_step_ok. unfold NUM_GDDR in *. lia.
  - intros [rc t] s1 (Hu & _ & Hm & _ & Hin & Hrc). cbn [fst snd] in *. split_and!; [done|done| |exact Hrc].
    intros i Hi. rewrite Hin by done. change (0 + Z.of_nat (Z.to_nat NUM_GDDR)) with 8. unfold NUM_GDDR in Hi. by destruct (Z.ltb_spec i 8); [|lia].
Qed.
End temperatures.

Section training.
Context {W : Type} `{MriscLaws W} (cfg : gddr_config) (fuel : nat) (stack : list Z)
  (Hfuel : forall w, (remaining (sys_timepoint_calc 1000 w) w < fuel)%nat).

(** The self-test bits after the tests that ran. *)
Definition test_bits (b : gddr_bist_info) (i : Z) (r : option test_result) : bool * bool :=
  match r with
  | None => (Z.testbit (complete b) i, Z.testbit (failed b) i)
  | Some TPass => (true, false)
  | Some TFail => (true, true)
  | Some TTimeout => (Z.testbit (complete b) i, true)
  end.
Definition bist_bits_of (b : gddr_bist_info) (i : Z) : bool * bool := (Z.testbit (complete b) i, Z.testbit (failed b) i).

Lemma record_test_bits i r b j :
  0 <= i -> bist_bits_of (record_test i r b) j = if i =? j then test_bits b i (Some r) else bist_bits_of b j.
Proof.
  intros Hi. unfold bist_bits_of, test_bits, record_test.
  destruct r; cbn; rewrite ?testbit_set, ?testbit_clear by done; destruct (Z.eqb_spec i j) as [->|]; cbn; by rewrite ?andb_false_r, ?andb_true_r.
Qed.

(** The tests of the instances below [k], of which [ran] tells. *)
Definition tests_upto (s : gddr W) (k : Z) (ran : Z -> option test_result) (s' : gddr W) : Prop :=
  gddr_telemetry_version_ok s' = gddr_telemetry_version_ok s /\
  (forall i, 0 <= i < NUM_GDDR -> bist_bits_of (gddr_bist s') i = test_bits (gddr_bist s) i (ran i)) /\
  (forall i, k <= i < NUM_GDDR -> ran i = None) /\
  (forall i, ran i <> None -> Z.testbit (gddr_enabled (tile_enable cfg)) i = true).

Definition code_of (ran : Z -> option test_result) (rc : Z) : Prop :=
  (rc = 0 /\ forall i, ran i = None \/ ran i = Some TPass) \/ rc = - EIO.

Lemma CheckGddrHwTest_ok s :
  does (CheckGddrHwTest cfg fuel stack) s (fun rc s' => exists ran, tests_upto s NUM_GDDR ran s' /\ code_of ran rc).
Proof.
  unfold CheckGddrHwTest.
  eapply does_bind.
  { apply (for_m_ok (fun _ a s' => books s s' /\ (a.2 = 0 \/ a.2 = - EIO) /\
      forall i, Z.testbit a.1 i = true -> Z.testbit (gddr_enabled (tile_enable cfg)) i = true)).
    - split_and!; [done|by left|]. intros i. by rewrite Z.bits_0.
    - intros i [started err] s1 Hi (Hb & He & Hst). cbn [fst snd] in *. unfold start_test.
      destruct (Z.testbit (gddr_enabled (tile_enable cfg)) i) eqn:Een; [|by apply does_ret].
      eapply does_bind; [apply StartHwMemtest_ok; unfold NUM_GDDR in *; lia|]. intros rc s2 [Hb2 Hrc]. apply does_ret.
      split; [by eapply books_trans|]. destruct Hrc as [-> |[-> | ->]].
      + change (0 =? - ENOTSUP) with false. change (0 <? 0) with false. cbn [fst snd]. split; [done|]. intros j. rewrite testbit_set by lia.
        intros [<-%Z.eqb_eq|Hj]%orb_true_iff; auto.
      + change (- ENOTSUP =? - ENOTSUP) with true. by split.
      + change (- EBUSY =? - ENOTSUP) with false. change (- EBUSY <? 0) with true. cbn [fst snd]. split; [by right|done]. }
  intros [started err] s1 (Hb & He & Hst). cbn [fst snd] in *.
  eapply does_bind; [apply does_with_hw|]. intros t s2 [Hb2 E]. injection E as <- Ehw. pose proof (books_trans _ _ _ Hb Hb2) as [Eb Ev].
  set (t := sys_timepoint_calc MRISC_MEMTEST_TIMEOUT (hw s1)).
  assert (Hr : (remaining t (hw s2) < fuel)%nat) by (rewrite <- Ehw; apply Hfuel). clearbody t.
  eapply does_mono; [apply (for_m_ok (fun k rc s' => (remaining t (hw s') < fuel)%nat /\ exists ran, tests_upto s k ran s' /\ code_of ran rc))|].
  - split; [done|]. exists (fun _ => None). split.
    + unfold tests_upto. split_and!; [done| |done|done]. intros i Hi. unfold bist_bits_of, test_bits. by rewrite Eb.
    + destruct He as [->| ->]; [left; split; [done|by left]|by right].
  - intros k rc s3 Hk (Hr3 & ran & (Ev3 & Hbits & Hnone & Hen) & Hcode). assert (HkN : 0 <= k < NUM_GDDR) by (unfold NUM_GDDR in *; lia).
    unfold collect_test. destruct (Z.testbit started k) eqn:Est.
    2: { apply does_ret. split; [done|]. exists ran. split; [|done]. split_and!; [done|done|intros; apply Hnone; lia|done]. }
    eapply does_bind; [by apply CheckHwMemtestResult_ok|]. intros rc' s4 (r & -> & _ & Eb4 & Ev4 & Hl4). apply does_ret. unfold later in Hl4.
    split; [lia|]. exists (fun j => if k =? j then Some r else ran j). split.
    + split_and!; [congruence| | |].
      * intros i Hi. rewrite Eb4, record_test_bits by lia. destruct (Z.eqb_spec k i) as [->|]; [|by apply Hbits].
        assert (En : ran i = None) by (apply Hnone; lia). specialize (Hbits i Hi). rewrite En in Hbits.
        unfold bist_bits_of, test_bits in *. destruct r; [done|done|]. by injection Hbits as -> _.
      * intros i Hi. rewrite (proj2 (Z.eqb_neq k i)) by lia. apply Hnone. lia.
      * intros i. destruct (Z.eqb_spec k i) as [->|]; [intros _; by apply Hst|apply Hen].
    + destruct r; cbn [test_code]; cbn [Z.ltb Z.compare]; [|right; done|right; done].
      destruct Hcode as [[-> Hall]| ->]; [left; split; [done|]|by right]. intros i. destruct (k =? i); [by right|apply Hall].
  - intros rc s3 (_ & ran & Ht & Hc). by exists ran.
Qed.

End training.

(** ** A simulated board *)

(** Nodes with a memory; processors that take one tick to answer: a message is
    processed, a reset ends with training finished or failed ([trains]). *)
Record board := MkBoard { b_fab : fabric; b_time : Z; b_trains : bool; b_log : list (Z * Z) }.

(** A tick on every node. *)
Definition b_tick (b : board) : board :=
  MkBoard (MkFabric (f_tlb (b_fab b)) (fun n a =>
      if a =? MRISC_REG_ADDR + MRISC_MSG_REGISTER then 0
      else if (a =? MRISC_REG_ADDR + MRISC_INIT_STATUS) && (f_word (b_fab b) n a =? MRISC_INIT_BEFORE)
           then (if b_trains b then MRISC_INIT_FINISHED else MRISC_INIT_FAILED)
      else f_word (b_fab b) n a)) (b_time b + 1) (b_trains b) (b_log b).

#[export] Instance board_NocHw : NocHw board := {
  ReadReg a b := fabric_read a (b_fab b);
  WriteReg a v b := MkBoard (fabric_write a v (b_fab b)) (b_time b) (b_trains b)
    match fabric_window (b_fab b) a with
    | Some (n, x) => if x =? MRISC_REG_ADDR + MRISC_MSG_REGISTER then (n.1, v) :: b_log b else b_log b
    | None => b_log b
    end
}.
#[export] Instance board_GddrHw : GddrHw board := {
  sys_timepoint_calc ms b := b_time b + ms;
  sys_timepoint_expired t b := (t <=? b_time b, b_tick b);
  k_msleep _ b := b_tick b;
  dma_words _ _ b := (None, b);
  find_image _ b := (inr (0, 0), b);
  spi_transfer_to_tile _ _ _ b := (0, b);
  flash_read_image _ _ b := (inr [], b);
  set_gddr_memclk _ b := (0, b);
  dma_wipe _ _ b := b;
  record_init_failure b := b
}.

#[export] Instance board_tlb : TlbRegs board.
Proof. refine {| tlb := fun b => f_tlb (b_fab b) |}. intros w k v Hk. by apply fabric_law_tlb. Defined.
#[export] Instance board_tiles : TileLaws board.
Proof.
  refine {| word := fun b => f_word (b_fab b) |}.
  - intros w k v Hk. by apply fabric_law_tlb.
  - intros w k x y addr off. apply (fabric_law_read (b_fab w)).
  - intros w k x y addr off v. apply (fabric_law_write (b_fab w)).
Defined.
#[export] Instance board_laws : MriscLaws board.
Proof.
  refine {| remaining := fun t b => Z.to_nat (t - b_time b) |}.
  - intros t a v w. done.
  - intros t w b w'. intros [= <- <-]. cbn. split; [lia|]. intros E%Z.leb_gt. lia.
  - intros n t w. cbn. lia.
Defined.

Module GddrExample.
Definition tiles : TileEnable := MkTiles 0 0 false false 0 0x7f 0 0 [] [].
Definition cfg : gddr_config := MkConfig true tiles (Some 0x3f) false (0, 0).
(** Version 2, temperatures 48 and 45, firmware 2.7. *)
Definition mem (n : Z * Z) (a : Z) : Z :=
  if a =? MRISC_L1_ADDR + GDDR_TELEMETRY_TABLE_ADDR then 2
  else if a =? MRISC_L1_ADDR + GDDR_TELEMETRY_TABLE_ADDR + 4 then 0x2D0030
  else if a =? MRISC_L1_ADDR + GDDR_TELEMETRY_TABLE_ADDR + 12 then 0x70002
  else if a =? MRISC_REG_ADDR + MRISC_INIT_STATUS then MRISC_INIT_FINISHED else 0.
Definition s0 (trains : bool) : gddr board := MkGddrState (MkBist 0 0) 0 (MkBoard (MkFabric (fun _ => 0) mem) 0 trains []).
Lemma fuel_ok : forall w : board, (remaining (sys_timepoint_calc 1000 w) w < 1001)%nat.
Proof. intros w. cbn. replace (b_time w + 1000 - b_time w) with 1000 by lia. change (Z.to_nat 1000) with 1000%nat. lia. Qed.
End GddrExample.



(** The request runs; a reset that fails to train leaves every processor woken up
    ([MRISC_MSG_TYPE_PHY_WAKEUP], the only kind of message sent) although the power state
    of the domain, that the caller keeps, still says off. *)
Example toggle_runs :
  (fun r => (r.1, bits_of r.2 5)) <$> toggle_gddr_reset GddrExample.cfg 20 [] true 5 (GddrExample.s0 true) = Some ((0, 0), (true, true, false)).
Proof. vm_compute. reflexivity. Qed.
Lemma failed_reset_leaves_phy_awake :
  match toggle_gddr_reset GddrExample.cfg 20 [] false 5 (GddrExample.s0 false) with
  | Some (r, s') => r = (1, GDDR_RESET_ERR_TRAINING) /\ len (b_log (hw s')) = 6 /\ forallb (fun e => e.2 =? MRISC_MSG_TYPE_PHY_WAKEUP) (b_log (hw s')) = true
  | None => False
  end.
Proof. vm_compute. repeat split; reflexivity. Qed.
