(* ===== verification/ResetDriver.v ===== *)
(** * The reset controller ([drivers/reset/reset_tt_bh.c], [include/zephyr/drivers/reset/reset_tt_bh.h])

    Banks of reset lines in the registers of the reset unit, active low.  The
    controllers are the instances of [dts/vendor/tenstorrent/tt_blackhole_smc.dtsi].
    [sys_read32] and [sys_write32] are the register accesses of [Noc]; the spinlock makes
    each read-modify-write one step. *)

From S2P Require Import Prelude Noc.
#[local] Open Scope Z_scope.

Definition EINVAL : Z := 22.
Definition TT_BH_RESET_BANK_STRIDE : Z := 4.

Record tt_bh_reset_config := MkResetConfig { base : Z; size : Z; reset_mask : Z }.

Definition global_reset : tt_bh_reset_config := MkResetConfig 0x80030000 0x4 0x2383.
Definition eth_reset : tt_bh_reset_config := MkResetConfig 0x80030008 0x4 0x3fff3fff.
Definition ddr_reset : tt_bh_reset_config := MkResetConfig 0x80030010 0x4 0xffffffff.
Definition l2cpu_reset : tt_bh_reset_config := MkResetConfig 0x80030014 0x4 0xff.
Definition tensix_reset : tt_bh_reset_config := MkResetConfig 0x80030020 0x20 0xffffffff.
Definition tensix_risc_reset : tt_bh_reset_config := MkResetConfig 0x80030040 0x20 0xffffffff.

(** Bit positions of the lines ([tt-bh-reset.h]). *)
Definition TT_BH_ETH_TILE_ID (n : Z) : Z := n + 0.
Definition TT_BH_ETH_RISC_ID (n : Z) : Z := n + 16.

Section driver.
Context {W : Type} `{NocHw W} (dev : tt_bh_reset_config).

Definition tt_bh_reset_is_valid_id (id : Z) : bool :=
  if 32 <=? id then false else negb (Z.land (BIT id) (reset_mask dev) =? 0).
Definition tt_bh_reset_is_valid_offset (offset : Z) : bool :=
  (offset <? size dev) && (offset mod TT_BH_RESET_BANK_STRIDE =? 0).

(** The code, and [*status]: 1 when the line is asserted. *)
Definition tt_bh_reset_status (id : Z) (w : W) : Z * option bool :=
  if negb (tt_bh_reset_is_valid_id id) then (- EINVAL, None) else
  (0, Some (Z.land (ReadReg (base dev) w) (BIT id) =? 0)).

Definition tt_bh_reset_line_assert (id : Z) (w : W) : Z * W :=
  if negb (tt_bh_reset_is_valid_id id) then (- EINVAL, w) else
  (0, WriteReg (base dev) (Z.ldiff (ReadReg (base dev) w) (BIT id)) w).
Definition tt_bh_reset_line_deassert (id : Z) (w : W) : Z * W :=
  if negb (tt_bh_reset_is_valid_id id) then (- EINVAL, w) else
  (0, WriteReg (base dev) (Z.lor (ReadReg (base dev) w) (BIT id)) w).
Definition tt_bh_reset_line_toggle (id : Z) (w : W) : Z * W :=
  if negb (tt_bh_reset_is_valid_id id) then (- EINVAL, w) else
  let value := Z.ldiff (ReadReg (base dev) w) (BIT id) in
  let w := WriteReg (base dev) value w in
  let value := Z.lor value (BIT id) in
  (0, WriteReg (base dev) value w).

Definition reset_tt_bh_write (value : Z) (w : W) : Z * W := (0, WriteReg (base dev) value w).

Definition reset_tt_bh_lines_assert (offset mask : Z) (w : W) : Z * W :=
  let lines := Z.land mask (reset_mask dev) in
  if negb (tt_bh_reset_is_valid_offset offset) || (lines =? 0) then (- EINVAL, w) else
  let addr := base dev + offset in
  (0, WriteReg addr (Z.ldiff (ReadReg addr w) lines) w).
Definition reset_tt_bh_lines_deassert (offset mask : Z) (w : W) : Z * W :=
  let lines := Z.land mask (reset_mask dev) in
  if negb (tt_bh_reset_is_valid_offset offset) || (lines =? 0) then (- EINVAL, w) else
  let addr := base dev + offset in
  (0, WriteReg addr (Z.lor (ReadReg addr w) lines) w).
End driver.

(** ** Registers of the reset unit that are plain memory *)

(** The banks of lines, and the two registers with the Ethernet mux ([Eth]). *)
Definition in_unit (a : Z) : Prop := 0x80030000 <= a < 0x80030060 \/ a = 0x8003009C \/ a = 0x8003050C.

Class ResetUnit (W : Type) `{NocHw W} := {
  reg_u32 a w : in_unit a -> is_u32 (ReadReg a w);
  reg_write a b v w : in_unit a -> in_unit b -> is_u32 v -> ReadReg a (WriteReg b v w) = if a =? b then v else ReadReg a w
}.

(** A controller of the unit. *)
Definition wf_config (dev : tt_bh_reset_config) : Prop :=
  0x80030000 <= base dev /\ base dev + size dev <= 0x80030060 /\ 0 < size dev /\ is_u32 (reset_mask dev).

Section lines.
Context {W : Type} `{ResetUnit W}.

(** The line [i] of the register at [a]: true when it is released. *)
Definition line (w : W) (a i : Z) : bool := Z.testbit (ReadReg a w) i.

(** Exactly the lines [lines] of register [r] have been driven to [level]. *)
Definition drives (level : bool) (r lines : Z) (w w' : W) : Prop :=
  forall a i, in_unit a -> 0 <= i < 32 -> line w' a i = if (a =? r) && Z.testbit lines i then level else line w a i.

(** A word below bits of a word. *)
Lemma u32_bits z a b : 0 <= z -> is_u32 a -> is_u32 b -> (forall i, Z.testbit z i = true -> Z.testbit a i = true \/ Z.testbit b i = true) -> is_u32 z.
Proof.
  intros Hz Ha Hb Hi. split; [done|]. apply bits_lt_pow2; [done|done|]. intros i E. destruct (Z.lt_ge_cases i 32); [done|].
  unfold in_width in *. by destruct (Hi i E) as [T|T]; rewrite (testbit_above _ 32 i) in T by lia.
Qed.
Lemma u32_lor a b : is_u32 a -> is_u32 b -> is_u32 (Z.lor a b).
Proof.
  intros Ha Hb. apply (u32_bits _ a b); [apply Z.lor_nonneg; unfold in_width in *; lia|done|done|].
  intros i. rewrite Z.lor_spec. apply orb_true_iff.
Qed.
Lemma u32_ldiff a b : is_u32 a -> 0 <= b -> is_u32 (Z.ldiff a b).
Proof.
  intros Ha Hb. apply (u32_bits _ a a); [apply Z.ldiff_nonneg; unfold in_width in *; lia|done|done|].
  intros i. rewrite Z.ldiff_spec. intros [E _]%andb_true_iff. by left.
Qed.
Lemma u32_land a b : 0 <= a -> is_u32 b -> is_u32 (Z.land a b).
Proof.
  intros Ha Hb. apply (u32_bits _ b b); [apply Z.land_nonneg; lia|done|done|].
  intros i. rewrite Z.land_spec. intros [_ E]%andb_true_iff. by left.
Qed.

Lemma assert_drives r lines w : in_unit r -> 0 <= lines -> drives false r lines w (WriteReg r (Z.ldiff (ReadReg r w) lines) w).
Proof.
  intros Hr Hl a i Ha Hi. unfold line. rewrite reg_write by (done || by apply u32_ldiff; [apply reg_u32|]).
  destruct (Z.eqb_spec a r) as [->|]; [|done]. rewrite Z.ldiff_spec. cbn. by destruct (Z.testbit lines i); rewrite ?andb_false_r, ?andb_true_r.
Qed.
Lemma deassert_drives r lines w : in_unit r -> is_u32 lines -> drives true r lines w (WriteReg r (Z.lor (ReadReg r w) lines) w).
Proof.
  intros Hr Hl a i Ha Hi. unfold line. rewrite reg_write by (done || by apply u32_lor; [apply reg_u32|]).
  destruct (Z.eqb_spec a r) as [->|]; [|done]. rewrite Z.lor_spec. cbn. by destruct (Z.testbit lines i); rewrite ?orb_false_r, ?orb_true_r.
Qed.

(** The two operations on lines: they drive what they are asked for, within the
    controller's mask, or refuse and do nothing. *)
Lemma lines_assert_ok dev offset mask w :
  wf_config dev -> 0 <= offset -> 0 <= mask ->
  let '(rc, w') := reset_tt_bh_lines_assert dev offset mask w in
  (rc = 0 /\ drives false (base dev + offset) (Z.land mask (reset_mask dev)) w w') \/
  (rc = - EINVAL /\ w' = w /\ (tt_bh_reset_is_valid_offset dev offset = false \/ Z.land mask (reset_mask dev) = 0)).
Proof.
  intros (Hb & Hs & Hp & Hm) Ho Hk. unfold reset_tt_bh_lines_assert. destruct (tt_bh_reset_is_valid_offset dev offset) eqn:Ev; cbn [negb orb]; [|by right; auto].
  destruct (Z.eqb_spec (Z.land mask (reset_mask dev)) 0); [by right; auto|]. left. split; [done|]. apply andb_true_iff in Ev as [Ev%Z.ltb_lt _].
  apply assert_drives; [unfold in_unit; lia|]. apply u32_land; done.
Qed.
Lemma lines_deassert_ok dev offset mask w :
  wf_config dev -> 0 <= offset -> 0 <= mask ->
  let '(rc, w') := reset_tt_bh_lines_deassert dev offset mask w in
  (rc = 0 /\ drives true (base dev + offset) (Z.land mask (reset_mask dev)) w w') \/
  (rc = - EINVAL /\ w' = w /\ (tt_bh_reset_is_valid_offset dev offset = false \/ Z.land mask (reset_mask dev) = 0)).
Proof.
  intros (Hb & Hs & Hp & Hm) Ho Hk. unfold reset_tt_bh_lines_deassert. destruct (tt_bh_reset_is_valid_offset dev offset) eqn:Ev; cbn [negb orb]; [|by right; auto].
  destruct (Z.eqb_spec (Z.land mask (reset_mask dev)) 0); [by right; auto|]. left. split; [done|]. apply andb_true_iff in Ev as [Ev%Z.ltb_lt _].
  apply deassert_drives; [unfold in_unit; lia|]. by apply u32_land.
Qed.
End lines.
