(* ===== verification/Eth.v ===== *)
(** * The Ethernet tiles ([lib/tenstorrent/bh_arc/eth.c], [serdes_eth.c])

    Which Ethernet instances are used and how the SERDES lanes are switched to them,
    loading their firmware, and the host's request to reset some of them.  All accesses
    go through TLB window [ETH_SETUP_TLB] of ring 0 ([ring] is an argument where the C
    has it); flash, DMA and the AICLK interlock are the class [EthHw], the lines are
    those of [ResetDriver]. *)

From S2P Require Import Prelude StateM Noc Tile ResetDriver Harvesting.
#[local] Open Scope Z_scope.

Definition MAX_ETH_INSTANCES : Z := 14.
Definition ETH_SETUP_TLB : Z := 0.
Definition ETH_FW_BASE_ADDR : Z := 0x70000.
Definition ETH_PARAM_ADDR : Z := 0x7c000.
Definition ETH_FW_VERSION_ADDR_OFFSET : Z := 0x188.
Definition ETH_HEARTBEAT_ADDR : Z := 0x7cc70.
Definition ETH_SERDES_CFG_ADDR : Z := 0x7d600.
Definition ETH_RESET_PC_0 : Z := 0xFFB14000.
Definition ETH_END_PC_0 : Z := 0xFFB14004.
Definition ETH_RISC_DEBUG_SOFT_RESET_0 : Z := 0xFFB121B0.
Definition ETH_PCS_STATUS : Z := 0xFFB9800C.
Definition ETH_MAC_ADDR_ORG : Z := 0x208C47.
Definition RESET_UNIT_PCIE1_MISC_CNTL_3_REG_ADDR : Z := 0x8003050C.
Definition RESET_UNIT_PCIE_MISC_CNTL_3_REG_ADDR : Z := 0x8003009C.
Definition kAllRiscSoftReset : Z := 0x47800.
Definition ASIC_ID_LOW : Z * Z := (1600, 1631).
Definition ASIC_ID_HIGH : Z * Z := (5568, 5599).

(** [enum eth_reset_err]. *)
Definition ETH_RESET_ERR_INVALID_MASK : Z := 1.
Definition ETH_RESET_ERR_CABLE_FAULT : Z := 2.
Definition ETH_RESET_ERR_NO_FLASH : Z := 3.
Definition ETH_RESET_ERR_FW_LOOKUP : Z := 4.
Definition ETH_RESET_ERR_FW_LOAD : Z := 5.
Definition ETH_RESET_ERR_CFG_LOOKUP : Z := 6.
Definition ETH_RESET_ERR_CFG_SIZE : Z := 7.
Definition ETH_RESET_ERR_CFG_LOAD : Z := 8.
Definition ETH_RESET_ERR_SERDES_FW_LOOKUP : Z := 9.
Definition ETH_RESET_ERR_SERDES_FW_LOAD : Z := 10.
Definition ETH_RESET_ERR_SERDES_CFG_LOOKUP : Z := 11.
Definition ETH_RESET_ERR_SERDES_CFG_LOAD : Z := 12.

(** [serdes_eth.h], [serdes_ss_regs.h]. *)
Definition SERDES_ETH_SETUP_TLB : Z := 0.
Definition PCIE_PHY_SERDES0_BASE : Z := 0xFFFFFFFFE0000000.
Definition PCIE_PHY_SERDES_SRAM_START_REG_ADDR : Z := 0x1400000.
Definition SERDES_INST_BASE_ADDR (inst : Z) : Z := PCIE_PHY_SERDES0_BASE + inst mod 3 * 0x4000000.
Definition SERDES_INST_SRAM_ADDR (inst : Z) : Z := SERDES_INST_BASE_ADDR inst + PCIE_PHY_SERDES_SRAM_START_REG_ADDR.

(** Images of the boot file system. *)
Inductive image := ETH_FW_CFG_TAG | ETH_FW_TAG | ETH_SD_REG_TAG | ETH_SD_FW_TAG.

(** A found image: address in the flash and size. *)
Record fd := MkFd { spi_addr : Z; image_size : Z }.

(** What is around.  [flash_read] gives the words of the scratchpad after reading,
    [dma_arc_hs_transfer] copies the first bytes of such a buffer to an address,
    [spi_arc_dma_transfer_to_tile] a range of the flash, [dma_wipe] the L1 of a Tensix
    over that of a node. *)
Class EthHw (W : Type) := {
  tt_boot_fs_find_fd_by_tag : image -> W -> (Z + fd) * W;
  spi_arc_dma_transfer_to_tile : Z -> Z -> Z -> W -> Z * W;
  flash_read : Z -> Z -> W -> (Z + list Z) * W;
  dma_arc_hs_transfer : list Z -> Z -> Z -> W -> Z * W;
  dma_wipe : Z * Z -> Z * Z -> W -> W;
  SetAiclkResetSafe : bool -> W -> W
}.

(** The build, the firmware table, the fuses and what was found earlier at boot. *)
Record eth_config := MkEthConfig {
  CONFIG_ARC : bool; CONFIG_TT_SMC_RECOVERY : bool; SCRATCHPAD_SIZE : Z; flash_ready : bool;
  tile_enable : TileEnable; cable_fault : bool; tensix_node : Z * Z (** [GetEnabledTensix] *);
  pci0_disabled : bool; pci0_num_serdes : Z; pci1_disabled : bool; pci1_num_serdes : Z;
  eth_disable_mask : option Z; eth_speed_override : option Z;
  pcb_type : Z; asic_location : Z; board_id : Z; efuse : Z -> Z * Z }.

Record eth (W : Type) := MkEth { saved_heartbeat : list Z; hw : W }.
Arguments MkEth {W} _ _.
Arguments saved_heartbeat {W} _.
Arguments hw {W} _.
Abbreviation M W := (StateM.M (eth W)).

(** [IS_BIT_SET]. *)
Definition bit (mask i : Z) : bool := Z.testbit mask i.

(** ** The SERDES mux: which instances are used *)

(** Field [mux_sel] of [RESET_UNIT_PCIE_MISC_CNTL3_reg_t]. *)
Definition mux_sel (val : Z) : Z := bits_get 3 2 val.
Definition set_mux_sel (v val : Z) : Z := bits_set 3 2 v val.

Section mux.
Context {W : Type} `{NocHw W}.

Definition SetupEthSerdesMux (eth_enabled : Z) (w : W) : W :=
  let pcie_misc_cntl3_reg := ReadReg RESET_UNIT_PCIE_MISC_CNTL_3_REG_ADDR w in
  let pcie1_misc_cntl3_reg := ReadReg RESET_UNIT_PCIE1_MISC_CNTL_3_REG_ADDR w in
  let pcie_misc_cntl3_reg :=
    if negb (bit eth_enabled 4) then set_mux_sel 3 pcie_misc_cntl3_reg
    else if negb (bit eth_enabled 5) then set_mux_sel 2 pcie_misc_cntl3_reg
    else if negb (bit eth_enabled 6) then set_mux_sel 0 pcie_misc_cntl3_reg
    else pcie_misc_cntl3_reg in
  let pcie1_misc_cntl3_reg :=
    if negb (bit eth_enabled 7) then set_mux_sel 0 pcie1_misc_cntl3_reg
    else if negb (bit eth_enabled 8) then set_mux_sel 2 pcie1_misc_cntl3_reg
    else if negb (bit eth_enabled 9) then set_mux_sel 3 pcie1_misc_cntl3_reg
    else pcie1_misc_cntl3_reg in
  let w := WriteReg RESET_UNIT_PCIE_MISC_CNTL_3_REG_ADDR pcie_misc_cntl3_reg w in
  WriteReg RESET_UNIT_PCIE1_MISC_CNTL_3_REG_ADDR pcie1_misc_cntl3_reg w.

(** The instances that the two muxes connect. *)
Definition mux_eths (sel : Z) : Z :=
  if sel =? 0 then Z.lor (BIT 4) (BIT 5)
  else if sel =? 2 then Z.lor (BIT 4) (BIT 6)
  else if sel =? 3 then Z.lor (BIT 5) (BIT 6)
  else 0.
Definition mux1_eths (sel : Z) : Z :=
  if sel =? 0 then Z.lor (BIT 9) (BIT 8)
  else if sel =? 2 then Z.lor (BIT 9) (BIT 7)
  else if sel =? 3 then Z.lor (BIT 8) (BIT 7)
  else 0.
(** Those that PCIe leaves. *)
Definition pci_eths (cfg : eth_config) : Z :=
  Z.lor (if pci0_disabled cfg then Z.lor (Z.lor (BIT 0) (BIT 1)) (Z.lor (BIT 2) (BIT 3))
         else if pci0_num_serdes cfg =? 1 then Z.lor (BIT 2) (BIT 3) else 0)
        (if pci1_disabled cfg then Z.lor (Z.lor (BIT 10) (BIT 11)) (Z.lor (BIT 12) (BIT 13))
         else if pci1_num_serdes cfg =? 1 then Z.lor (BIT 10) (BIT 11) else 0).

Definition GetEthSel (cfg : eth_config) (eth_enabled : Z) (w : W) : Z :=
  let pcie_misc_cntl3_reg := ReadReg RESET_UNIT_PCIE_MISC_CNTL_3_REG_ADDR w in
  let pcie1_misc_cntl3_reg := ReadReg RESET_UNIT_PCIE1_MISC_CNTL_3_REG_ADDR w in
  let eth_sel := Z.lor (Z.lor (mux_eths (mux_sel pcie_misc_cntl3_reg)) (mux1_eths (mux_sel pcie1_misc_cntl3_reg))) (pci_eths cfg) in
  let eth_sel := Z.land eth_sel eth_enabled in
  let eth_sel := match eth_disable_mask cfg with Some m => Z.ldiff eth_sel m | None => eth_sel end in
  Z.lor (Z.lor (Z.shiftl (mux_sel pcie1_misc_cntl3_reg) 24) (Z.shiftl (mux_sel pcie_misc_cntl3_reg) 16)) eth_sel.
End mux.

Definition GetMacAddressBase (cfg : eth_config) : Z :=
  let asic_id := Z.land (READ_FUNCTIONAL_EFUSE (efuse cfg) ASIC_ID_LOW) 0xFFFF in
  let mac_addr_base_id := u32 (asic_id * 12) in
  Z.lor (Z.shiftl ETH_MAC_ADDR_ORG 24) mac_addr_base_id.

(** ** Access to the tiles *)

Section eth.
Context {W : Type} `{NocHw W} `{EthHw W} (cfg : eth_config).

Definition with_hw {A} (f : W -> A * W) : M W A := fun s => let '(a, w) := f (hw s) in Some (a, MkEth (saved_heartbeat s) w).
Definition on_hw (f : W -> W) : M W unit := with_hw (fun w => (tt, f w)).
Definition get_hw {A} (f : W -> A) : M W A := with_hw (fun w => (f w, w)).
Definition get_heartbeat (i : Z) : M W Z := fun s => v ← aget (saved_heartbeat s) i; Some (v, s).
Definition set_heartbeat (i v : Z) : M W unit := fun s => l ← aset (saved_heartbeat s) i v; Some (tt, MkEth l (hw s)).

Definition SetupEthTlb (eth_inst ring addr : Z) : M W unit :=
  '(x, y) ← lift (GetEthNocCoords eth_inst ring);
  on_hw (NOC2AXITlbSetup ring ETH_SETUP_TLB x y addr).
Definition NOC2AXIRead32 (noc_id tlb_entry addr : Z) : M W Z := get_hw (ReadReg (GetTlbWindowAddr noc_id tlb_entry addr)).
Definition Write32 (noc_id tlb_entry addr v : Z) : M W unit := on_hw (NOC2AXIWrite32 noc_id tlb_entry addr v).

Definition eth_enabled : Z := Harvesting.eth_enabled (tile_enable cfg).

(** The first enabled instance gives the version; [0] without any. *)
Definition GetEthFwVersion (ring : Z) : M W Z :=
  r ← each_until (Z.to_nat MAX_ETH_INSTANCES) 0 eth_enabled (fun eth_inst =>
        _ ← SetupEthTlb eth_inst ring ETH_FW_BASE_ADDR;
        v ← NOC2AXIRead32 ring ETH_SETUP_TLB (ETH_FW_BASE_ADDR + ETH_FW_VERSION_ADDR_OFFSET);
        mret (Some v));
  mret (default 0 r).

Definition heartbeat_step (ring eth_inst heartbeat_status : Z) : M W Z :=
  if bit eth_enabled eth_inst then
    _ ← SetupEthTlb eth_inst ring ETH_HEARTBEAT_ADDR;
    heartbeat ← NOC2AXIRead32 ring ETH_SETUP_TLB ETH_HEARTBEAT_ADDR;
    saved ← get_heartbeat eth_inst;
    _ ← set_heartbeat eth_inst heartbeat;
    mret (if negb (saved =? heartbeat) then Z.lor heartbeat_status (BIT eth_inst) else heartbeat_status)
  else mret heartbeat_status.
Definition GetEthHeartbeatStatus (ring : Z) : M W Z := for_m (Z.to_nat MAX_ETH_INSTANCES) 0 (heartbeat_step ring) 0.

Definition link_step (ring eth_inst link_status : Z) : M W Z :=
  if bit eth_enabled eth_inst then
    _ ← SetupEthTlb eth_inst ring ETH_PCS_STATUS;
    pcs_status ← NOC2AXIRead32 ring ETH_SETUP_TLB ETH_PCS_STATUS;
    mret (if negb (pcs_status =? 0) then Z.lor link_status (BIT eth_inst) else link_status)
  else mret link_status.
Definition GetEthLinkStatus (ring : Z) : M W Z := for_m (Z.to_nat MAX_ETH_INSTANCES) 0 (link_step ring) 0.

Definition ReleaseEthReset (eth_inst ring : Z) : M W unit :=
  _ ← SetupEthTlb eth_inst ring ETH_RESET_PC_0;
  let soft_reset_0 := GetTlbWindowAddr ring ETH_SETUP_TLB ETH_RISC_DEBUG_SOFT_RESET_0 in
  on_hw (fun w => WriteReg soft_reset_0 (Z.clearbit (ReadReg soft_reset_0 w) 11) w).

(** ** Loading *)

Definition LoadEthFw (eth_inst ring spi_address image_size : Z) : M W Z :=
  let fw_load_addr := ETH_FW_BASE_ADDR in
  _ ← SetupEthTlb eth_inst ring fw_load_addr;
  rc ← with_hw (spi_arc_dma_transfer_to_tile spi_address image_size (GetTlbWindowAddr ring ETH_SETUP_TLB fw_load_addr));
  if negb (rc =? 0) then mret (- 1) else
  _ ← SetupEthTlb eth_inst ring ETH_RESET_PC_0;
  _ ← Write32 ring ETH_SETUP_TLB ETH_RESET_PC_0 fw_load_addr;
  _ ← Write32 ring ETH_SETUP_TLB ETH_END_PC_0 (ETH_PARAM_ADDR - 0x4);
  mret 0.

(** A speed that the Ethernet firmware implements. *)
Definition speed_supported (v : Z) : bool :=
  (v =? 0) || (v =? 40) || (v =? 100) || (v =? 200) || (v =? 330) || (v =? 350) || (v =? 370) || (v =? 400).

(** The parameters put into the image, word by word. *)
Definition cfg_words (eth_sel : Z) (buf : list Z) : option (list Z) :=
  buf ← aset buf 0 eth_sel;
  buf ← (match eth_speed_override cfg with
         | Some speed_override => if speed_supported speed_override then aset buf 1 speed_override else Some buf
         | None => Some buf
         end);
  buf ← aset buf 32 (pcb_type cfg);
  buf ← aset buf 33 (asic_location cfg);
  buf ← aset buf 34 (u32 (Z.shiftr (board_id cfg) 32));
  buf ← aset buf 35 (Z.land (board_id cfg) 0xFFFFFFFF);
  let mac_addr_base := GetMacAddressBase cfg in
  buf ← aset buf 36 (Z.land (Z.shiftr mac_addr_base 24) 0xFFFFFF);
  buf ← aset buf 37 (Z.land mac_addr_base 0xFFFFFF);
  buf ← aset buf 38 (READ_FUNCTIONAL_EFUSE (efuse cfg) ASIC_ID_HIGH);
  buf ← aset buf 39 (READ_FUNCTIONAL_EFUSE (efuse cfg) ASIC_ID_LOW);
  aset buf 40 eth_enabled.

Definition LoadEthFwCfg (eth_inst ring enabled spi_address image_size : Z) : M W Z :=
  r ← with_hw (flash_read spi_address image_size);
  match r with
  | inl rc => mret rc
  | inr buf =>
      eth_sel ← get_hw (GetEthSel cfg enabled);
      buf ← lift (cfg_words eth_sel buf);
      _ ← SetupEthTlb eth_inst ring ETH_PARAM_ADDR;
      rc ← with_hw (dma_arc_hs_transfer buf (GetTlbWindowAddr ring ETH_SETUP_TLB ETH_PARAM_ADDR) image_size);
      mret (if rc <? 0 then - 1 else 0)
  end.

Definition load_eth_serdes_cfg (eth_inst ring spi_address image_size : Z) : M W Z :=
  _ ← SetupEthTlb eth_inst ring ETH_SERDES_CFG_ADDR;
  rc ← with_hw (spi_arc_dma_transfer_to_tile spi_address image_size (GetTlbWindowAddr ring ETH_SETUP_TLB ETH_SERDES_CFG_ADDR));
  mret (if rc <? 0 then - 1 else 0).

Definition LoadSerdesEthFw (serdes_inst ring spi_address image_size : Z) : M W Z :=
  '(x, y) ← lift (GetSerdesNocCoords serdes_inst 0);
  _ ← on_hw (NOC2AXITlbSetup 0 SERDES_ETH_SETUP_TLB x y (SERDES_INST_SRAM_ADDR serdes_inst));
  with_hw (spi_arc_dma_transfer_to_tile spi_address image_size
             (GetTlbWindowAddr ring SERDES_ETH_SETUP_TLB (SERDES_INST_SRAM_ADDR serdes_inst))).

(** The SERDES that serve Ethernet. *)
Definition load_serdes : Z :=
  Z.lor (Z.lor (Z.lor (BIT 2) (BIT 5))
    (if pci0_disabled cfg then Z.lor (BIT 0) (BIT 1) else if pci0_num_serdes cfg =? 1 then BIT 1 else 0))
    (if pci1_disabled cfg then Z.lor (BIT 3) (BIT 4) else if pci1_num_serdes cfg =? 1 then BIT 4 else 0).

Definition load_serdes_fw (f : fd) (serdes_inst : Z) : M W (option Z) :=
  rc ← LoadSerdesEthFw serdes_inst 0 (spi_addr f) (image_size f);
  mret (if rc <? 0 then Some ETH_RESET_ERR_SERDES_FW_LOAD else None).

Definition SerdesEthInit : M W Z :=
  _ ← on_hw (SetupEthSerdesMux eth_enabled);
  r ← with_hw (tt_boot_fs_find_fd_by_tag ETH_SD_FW_TAG);
  match r with
  | inl _ => mret ETH_RESET_ERR_SERDES_FW_LOOKUP
  | inr serdes_fw_fd =>
      r ← each_until 6 0 load_serdes (load_serdes_fw serdes_fw_fd);
      mret (default 0 r)
  end.

Definition wipe_l1 : M W unit :=
  for_m (Z.to_nat MAX_ETH_INSTANCES) 0 (fun eth_inst (_ : unit) =>
    if bit eth_enabled eth_inst then
      dest ← lift (GetEthNocCoords eth_inst 0);
      on_hw (dma_wipe (tensix_node cfg) dest)
    else mret tt) tt.

(** The descriptors of the three images, or an error code. *)
Definition lookup_eth_fw_parts_fds : M W (Z + (fd * fd * fd)) :=
  r ← with_hw (tt_boot_fs_find_fd_by_tag ETH_FW_TAG);
  match r with
  | inl _ => mret (inl ETH_RESET_ERR_FW_LOOKUP)
  | inr eth_fd =>
      r ← with_hw (tt_boot_fs_find_fd_by_tag ETH_FW_CFG_TAG);
      match r with
      | inl _ => mret (inl ETH_RESET_ERR_CFG_LOOKUP)
      | inr eth_cfg_fd =>
          if SCRATCHPAD_SIZE cfg <? image_size eth_cfg_fd then mret (inl ETH_RESET_ERR_CFG_SIZE) else
          r ← with_hw (tt_boot_fs_find_fd_by_tag ETH_SD_REG_TAG);
          match r with
          | inl _ => mret (inl ETH_RESET_ERR_SERDES_CFG_LOOKUP)
          | inr serdes_reg_fd => mret (inr (eth_fd, eth_cfg_fd, serdes_reg_fd))
          end
      end
  end.

Definition load_eth_fw_parts (fds : fd * fd * fd) (ring eth_inst : Z) : M W (option Z) :=
  let '(eth_fd, eth_cfg_fd, serdes_reg_fd) := fds in
  rc ← LoadEthFw eth_inst ring (spi_addr eth_fd) (image_size eth_fd);
  if rc <? 0 then mret (Some ETH_RESET_ERR_FW_LOAD) else
  rc ← load_eth_serdes_cfg eth_inst ring (spi_addr serdes_reg_fd) (image_size serdes_reg_fd);
  if rc <? 0 then mret (Some ETH_RESET_ERR_SERDES_CFG_LOAD) else
  rc ← LoadEthFwCfg eth_inst ring eth_enabled (spi_addr eth_cfg_fd) (image_size eth_cfg_fd);
  if rc <? 0 then mret (Some ETH_RESET_ERR_CFG_LOAD) else mret None.

(** The last loop of [EthInit] and of the reset: forget the heartbeats, release the instances of [mask]. *)
Definition start_fw (mask ring : Z) : M W unit :=
  for_m (Z.to_nat MAX_ETH_INSTANCES) 0 (fun eth_inst (_ : unit) =>
    _ ← set_heartbeat eth_inst 0;
    if negb (bit mask eth_inst) then mret tt else ReleaseEthReset eth_inst ring) tt.

Definition EthInit : M W Z :=
  if eth_enabled =? 0 then mret 0 else
  _ ← wipe_l1;
  r ← lookup_eth_fw_parts_fds;
  match r with
  | inl rc => mret rc
  | inr fds =>
      r ← each_until (Z.to_nat MAX_ETH_INSTANCES) 0 eth_enabled (load_eth_fw_parts fds 0);
      match r with
      | Some rc => mret rc
      | None => _ ← start_fw eth_enabled 0; mret 0
      end
  end.

Definition eth_init : M W Z :=
  if CONFIG_TT_SMC_RECOVERY cfg || negb (CONFIG_ARC cfg) || cable_fault cfg then mret 0 else
  rc ← SerdesEthInit;
  if 0 <? rc then mret rc else EthInit.

(** ** The host's reset request *)

Definition assert_eth_risc_soft_reset (eth_inst ring : Z) : M W unit :=
  '(x, y) ← lift (GetEthNocCoords eth_inst ring);
  _ ← on_hw (NOC2AXITlbSetup ring ETH_SETUP_TLB x y ETH_RISC_DEBUG_SOFT_RESET_0);
  Write32 ring ETH_SETUP_TLB ETH_RISC_DEBUG_SOFT_RESET_0 kAllRiscSoftReset.

(** A loop over the instances of [mask]. *)
Definition for_mask (mask : Z) (body : Z -> M W unit) : M W unit :=
  for_m (Z.to_nat MAX_ETH_INSTANCES) 0 (fun i (_ : unit) => if bit mask i then body i else mret tt) tt.

Definition eth_lines (eth_inst : Z) : Z := Z.lor (BIT (TT_BH_ETH_TILE_ID eth_inst)) (BIT (TT_BH_ETH_RISC_ID eth_inst)).

(** The part between the two calls of [SetAiclkResetSafe], these included. *)
Definition reset_tiles (mask ring : Z) : M W unit :=
  _ ← on_hw (SetAiclkResetSafe true);
  _ ← for_mask mask (fun i => on_hw (fun w => (reset_tt_bh_lines_assert eth_reset 0 (eth_lines i) w).2));
  _ ← for_mask mask (fun i => on_hw (fun w => (tt_bh_reset_line_deassert eth_reset (TT_BH_ETH_TILE_ID i) w).2));
  _ ← for_mask mask (fun i => assert_eth_risc_soft_reset i ring);
  _ ← for_mask mask (fun i => on_hw (fun w => (tt_bh_reset_line_deassert eth_reset (TT_BH_ETH_RISC_ID i) w).2));
  on_hw (SetAiclkResetSafe false).

(** Returns the exit code and [rsp->data[1]]. *)
Definition toggle_eth_reset_handler (data1 requested : Z) (skip_fw : bool) : M W (Z * Z) :=
  let ring := 0 in
  let valid_bits := BIT MAX_ETH_INSTANCES - 1 in
  if negb (CONFIG_ARC cfg) then mret (0, data1) else
  if negb (Z.ldiff requested valid_bits =? 0) then mret (1, ETH_RESET_ERR_INVALID_MASK) else
  let mask := Z.land requested eth_enabled in
  if mask =? 0 then mret (0, 0) else
  if cable_fault cfg then mret (1, ETH_RESET_ERR_CABLE_FAULT) else
  r ← (if negb skip_fw then
         if negb (flash_ready cfg) then mret (inl ETH_RESET_ERR_NO_FLASH) else
         r ← lookup_eth_fw_parts_fds;
         mret (match r with inl rc => inl rc | inr fds => inr (Some fds) end)
       else mret (inr None));
  match r with
  | inl rc => mret (1, rc)
  | inr fds =>
      _ ← reset_tiles mask ring;
      match fds with
      | None => mret (0, mask)
      | Some fds =>
          r ← each_until (Z.to_nat MAX_ETH_INSTANCES) 0 mask (load_eth_fw_parts fds ring);
          match r with
          | Some rc => mret (1, rc)
          | None => _ ← start_fw mask ring; mret (0, mask)
          end
      end
  end.
End eth.

(** ** The mux and the instances used *)

Section selection.
Context {W : Type} `{ResetUnit W}.


(** The instances that PCIe leaves to Ethernet. *)
Definition pci_leaves (cfg : eth_config) (i : Z) : bool :=
  if i <? 2 then pci0_disabled cfg else if i <? 4 then pci0_disabled cfg || (pci0_num_serdes cfg =? 1)
  else if i <? 10 then true
  else if i <? 12 then pci1_disabled cfg || (pci1_num_serdes cfg =? 1) else pci1_disabled cfg.
Definition forced_off (cfg : eth_config) (i : Z) : bool := match eth_disable_mask cfg with Some m => Z.testbit m i | None => false end.

(** The mux settings, and the instance each leaves out. *)
Definition mux0 (e : Z) : Z := if negb (bit e 4) then 3 else if negb (bit e 5) then 2 else 0.
Definition mux1 (e : Z) : Z := if negb (bit e 7) then 0 else if negb (bit e 8) then 2 else 3.

Lemma mux_set v val : 0 <= v < 4 -> mux_sel (set_mux_sel v val) = v.
Proof. intros Hv. unfold mux_sel, set_mux_sel. rewrite bits_get_set_same by done. by apply wrap_small. Qed.

Lemma mux_after e w :
  (exists i, 4 <= i <= 6 /\ Z.testbit e i = false) -> (exists i, 7 <= i <= 9 /\ Z.testbit e i = false) ->
  let w' := SetupEthSerdesMux e w in
  mux_sel (ReadReg RESET_UNIT_PCIE_MISC_CNTL_3_REG_ADDR w') = mux0 e /\
  mux_sel (ReadReg RESET_UNIT_PCIE1_MISC_CNTL_3_REG_ADDR w') = mux1 e.
Proof.
  intros (i & Hi & Ei) (j & Hj & Ej). cbv zeta. unfold SetupEthSerdesMux.
  set (r0 := ReadReg RESET_UNIT_PCIE_MISC_CNTL_3_REG_ADDR w). set (r1 := ReadReg RESET_UNIT_PCIE1_MISC_CNTL_3_REG_ADDR w).
  assert (R0 : is_u32 r0) by (apply reg_u32; unfold in_unit; auto). assert (R1 : is_u32 r1) by (apply reg_u32; unfold in_unit; auto).
  set (v0 := if negb (bit e 4) then _ else _). set (v1 := if negb (bit e 7) then _ else _).
  assert (V0 : is_u32 v0 /\ mux_sel v0 = mux0 e).
  { unfold v0, mux0. unfold bit in *. destruct (Z.testbit e 4) eqn:E4; cbn [negb]; [|split; [apply bits_set_width; (done || lia)|by apply mux_set]].
    destruct (Z.testbit e 5) eqn:E5; cbn [negb]; [|split; [apply bits_set_width; (done || lia)|by apply mux_set]].
    destruct (Z.testbit e 6) eqn:E6; cbn [negb]; [|split; [apply bits_set_width; (done || lia)|by apply mux_set]].
    assert (i = 4 \/ i = 5 \/ i = 6) as [->|[->| ->]] by lia; congruence. }
  assert (V1 : is_u32 v1 /\ mux_sel v1 = mux1 e).
  { unfold v1, mux1. unfold bit in *. destruct (Z.testbit e 7) eqn:E4; cbn [negb]; [|split; [apply bits_set_width; (done || lia)|by apply mux_set]].
    destruct (Z.testbit e 8) eqn:E5; cbn [negb]; [|split; [apply bits_set_width; (done || lia)|by apply mux_set]].
    destruct (Z.testbit e 9) eqn:E6; cbn [negb]; [|split; [apply bits_set_width; (done || lia)|by apply mux_set]].
    assert (j = 7 \/ j = 8 \/ j = 9) as [->|[->| ->]] by lia; congruence. }
  destruct V0 as [U0 M0], V1 as [U1 M1]. split.
  - rewrite reg_write by (unfold in_unit; auto). cbn [Z.eqb]. rewrite (reg_write _ _ v0) by (unfold in_unit; auto). done.
  - rewrite reg_write by (unfold in_unit; auto). done.
Qed.

(** All fourteen instances. *)
Lemma forall_eth (P : Z -> bool) : forallb P (seqZ 0 14) = true -> forall i, 0 <= i < 14 -> P i = true.
Proof. rewrite forallb_forall. intros Hall i Hi. apply Hall, list_elem_of_In, elem_of_seqZ. lia. Qed.

Lemma mux_keeps e i : 0 <= i < 14 ->
  Z.testbit (Z.lor (mux_eths (mux0 e)) (mux1_eths (mux1 e))) i && Z.testbit e i = (4 <=? i) && (i <? 10) && Z.testbit e i
  \/ (i = 6 /\ Z.testbit e 4 = true /\ Z.testbit e 5 = true) \/ (i = 9 /\ Z.testbit e 7 = true /\ Z.testbit e 8 = true).
Proof.
  intros Hi. unfold mux0, mux1, bit. assert (In i (seqZ 0 14)) as Hin by (apply list_elem_of_In, elem_of_seqZ; lia). cbn in Hin.
  repeat destruct Hin as [<-|Hin]; try done;
    destruct (Z.testbit e 4) eqn:E4, (Z.testbit e 5) eqn:E5, (Z.testbit e 7) eqn:E7, (Z.testbit e 8) eqn:E8; cbn; rewrite ?E4, ?E5, ?E7, ?E8, ?andb_false_r; auto.
Qed.

Lemma pci_eths_bit cfg i : 0 <= i < 14 -> Z.testbit (pci_eths cfg) i = pci_leaves cfg i && negb ((4 <=? i) && (i <? 10)).
Proof.
  intros Hi. assert (In i (seqZ 0 14)) as Hin by (apply list_elem_of_In, elem_of_seqZ; lia). cbn in Hin.
  unfold pci_eths, pci_leaves. destruct (pci0_disabled cfg), (pci0_num_serdes cfg =? 1), (pci1_disabled cfg), (pci1_num_serdes cfg =? 1);
  repeat destruct Hin as [<-|Hin]; done.
Qed.

(** The three fields of the word that the firmware of the tiles gets. *)
Lemma eth_sel_fields a b e : 0 <= a < 4 -> 0 <= b < 4 -> 0 <= e < 2 ^ 14 ->
  let sel := Z.lor (Z.lor (Z.shiftl b 24) (Z.shiftl a 16)) e in
  bits_get 16 2 sel = a /\ bits_get 24 2 sel = b /\ forall i, 0 <= i < 14 -> Z.testbit sel i = Z.testbit e i.
Proof.
  intros Ha Hb He. cbv zeta. rewrite !bits_get_lor.
  assert (E16 : bits_get 16 2 e = 0) by (apply Z.bits_inj'; intros n Hn; rewrite bits_get_spec, Z.bits_0, (testbit_above e 14) by lia; by rewrite andb_false_r).
  assert (E24 : bits_get 24 2 e = 0) by (apply Z.bits_inj'; intros n Hn; rewrite bits_get_spec, Z.bits_0, (testbit_above e 14) by lia; by rewrite andb_false_r).
  rewrite E16, E24, !Z.lor_0_r.
  assert (Hab : forall x, 0 <= x < 4 -> x = 0 \/ x = 1 \/ x = 2 \/ x = 3) by lia.
  split_and!.
  - destruct (Hab a Ha) as [->|[->|[->| ->]]], (Hab b Hb) as [->|[->|[->| ->]]]; reflexivity.
  - destruct (Hab a Ha) as [->|[->|[->| ->]]], (Hab b Hb) as [->|[->|[->| ->]]]; reflexivity.
  - intros i Hi. rewrite !Z.lor_spec, !Z.shiftl_spec_low by lia. done.
Qed.

(** C23: the Ethernet instances used.  For any fuses and firmware table with harvesting, after
    the mux has been set for the tiles left, the word given to the tiles' firmware selects
    an instance exactly if its tile is left, PCIe leaves its lanes and the table does not
    force it off: no usable instance of the switched lanes is lost to the mux.  Its two
    mux fields are the settings of the registers and never the unused one. *)
Theorem eth_sel_exact (efuse : Z -> Z * Z) (fw : FwTable) (t : TileEnable) (cfg : eth_config) (w : W)
    (Hen : harvesting_en fw = true) (Hcount : 0 <= tensix_col_disable_count fw < 256)
    (Hm : length (pcie_mode fw) = 2%nat) (Hn : length (num_serdes fw) = 2%nat)
    (Hu : length (pcie_usage t) = 2%nat) (Hs : length (pcie_num_serdes t) = 2%nat) :
  exists t', CalculateHarvesting efuse fw t = Some t' /\
    let e := Harvesting.eth_enabled t' in
    let w' := SetupEthSerdesMux e w in let sel := GetEthSel cfg e w' in
    (forall i, 0 <= i < 14 -> Z.testbit sel i = Z.testbit e i && pci_leaves cfg i && negb (forced_off cfg i)) /\
    bits_get 16 2 sel = mux_sel (ReadReg RESET_UNIT_PCIE_MISC_CNTL_3_REG_ADDR w') /\
    bits_get 24 2 sel = mux_sel (ReadReg RESET_UNIT_PCIE1_MISC_CNTL_3_REG_ADDR w') /\
    bits_get 16 2 sel <> 1 /\ bits_get 24 2 sel <> 1.
Proof.
  destruct (calculate_spec efuse fw t Hen Hcount Hm Hn Hu Hs) as (f & t' & _ & Et & (_ & Ee & _) & _ & Hwf & _).
  exists t'. split; [exact Et|]. destruct Hwf as (_ & He & _).
  assert (G4 : exists i, 4 <= i <= 6 /\ Z.testbit (Harvesting.eth_enabled t') i = false) by (rewrite Ee; apply (soft_harvesting_groups fw f 4); auto).
  assert (G7 : exists i, 7 <= i <= 9 /\ Z.testbit (Harvesting.eth_enabled t') i = false) by (rewrite Ee; apply (soft_harvesting_groups fw f 7); auto).
  clear Et Ee. set (e := Harvesting.eth_enabled t') in *. clearbody e. cbv zeta.
  destruct (mux_after e w G4 G7) as [M0 M1]. unfold GetEthSel. rewrite M0, M1.
  assert (B0 : 0 <= mux0 e < 4 /\ mux0 e <> 1) by (unfold mux0; by repeat destruct (negb _)).
  assert (B1 : 0 <= mux1 e < 4 /\ mux1 e <> 1) by (unfold mux1; by repeat destruct (negb _)).
  set (u := Z.lor (Z.lor (mux_eths (mux0 e)) (mux1_eths (mux1 e))) (pci_eths cfg)).
  set (x := match eth_disable_mask cfg with Some m => _ | None => _ end).
  assert (Hx : forall i, 0 <= i -> Z.testbit x i = Z.testbit u i && Z.testbit e i && negb (forced_off cfg i)).
  { intros i Hi. unfold x, forced_off. destruct (eth_disable_mask cfg); rewrite ?Z.ldiff_spec, Z.land_spec; cbn; by rewrite ?andb_true_r. }
  assert (Hxr : 0 <= x < 2 ^ 14).
  { assert (0 <= Z.land u e) by (apply Z.land_nonneg; lia). assert (0 <= x) by (unfold x; destruct (eth_disable_mask cfg); [apply Z.ldiff_nonneg; lia|done]).
    apply (subset_range x e); [done|done|done|]. intros i Hi E. rewrite Hx in E by done. by apply andb_true_iff in E as [[_ E]%andb_true_iff _]. }
  destruct (eth_sel_fields (mux0 e) (mux1 e) x (proj1 B0) (proj1 B1) Hxr) as (F0 & F1 & Fx). split_and!; [|exact F0|exact F1|rewrite F0; apply B0|rewrite F1; apply B1].
  intros i Hi. rewrite Fx, Hx by lia. f_equal. unfold u. rewrite Z.lor_spec, andb_orb_distrib_l, pci_eths_bit by done.
  destruct (mux_keeps e i Hi) as [K|[(-> & E4 & E5)|(-> & E7 & E8)]].
  - rewrite K. unfold pci_leaves. by destruct (Z.testbit e i), (Z.ltb_spec i 2), (Z.ltb_spec i 4), (Z.ltb_spec i 10), (Z.leb_spec 4 i); try lia; cbn; rewrite ?andb_true_r, ?andb_false_r.
  - destruct G4 as (j & Hj & Ej). assert (j = 4 \/ j = 5 \/ j = 6) as [->|[->| ->]] by lia; [congruence|congruence|]. by rewrite Ej, !andb_false_r.
  - destruct G7 as (j & Hj & Ej). assert (j = 7 \/ j = 8 \/ j = 9) as [->|[->| ->]] by lia; [congruence|congruence|]. by rewrite Ej, !andb_false_r.
Qed.
End selection.

(** ** What a reset does *)

(** The node of an instance on ring 0. *)
Definition node (i : Z) : Z * Z := default (0, 0) (GetEthNocCoords i 0).

(** What is around, as the reset relies on it: the AICLK interlock ([safe]); whether the
    lines were ever driven without it ([glitched]); accesses to the NOC, the flash
    and the DMA leave the reset unit and the interlock alone, and the words of a
    tile survive until one of its lines is asserted, its soft reset register until then
    or until it is written. *)
Class EthLaws (W : Type) `{NocHw W} `{EthHw W} `{!TlbRegs W} `{!TileLaws W} `{!ResetUnit W} := {
  safe : W -> bool;
  glitched : W -> bool;
  law_noc a v w : 0x80050000 <= a < 2 ^ 32 ->
    let w' := WriteReg a v w in
    (forall b, in_unit b -> ReadReg b w' = ReadReg b w) /\ safe w' = safe w /\ glitched w' = glitched w;
  law_lines v w : is_u32 v ->
    let w' := WriteReg (base eth_reset) v w in
    safe w' = safe w /\ glitched w' = glitched w || negb (safe w) /\
    forall i a, 0 <= i < 14 ->
      (line w (base eth_reset) i = true -> Z.testbit v i = true) ->
      (line w (base eth_reset) (i + 16) = true -> Z.testbit v (i + 16) = true) ->
      word w' (node i) a = word w (node i) a;
  law_other w w' :
    (exists f r, tt_boot_fs_find_fd_by_tag f w = (r, w')) \/ (exists a n d r, spi_arc_dma_transfer_to_tile a n d w = (r, w')) \/
    (exists a n r, flash_read a n w = (r, w')) \/ (exists b d n r, dma_arc_hs_transfer b d n w = (r, w')) ->
    (forall b, in_unit b -> ReadReg b w' = ReadReg b w) /\ safe w' = safe w /\ glitched w' = glitched w /\
    forall i, 0 <= i < 14 -> word w' (node i) ETH_RISC_DEBUG_SOFT_RESET_0 = word w (node i) ETH_RISC_DEBUG_SOFT_RESET_0;
  law_aiclk b w :
    let w' := SetAiclkResetSafe b w in
    (forall a, in_unit a -> ReadReg a w' = ReadReg a w) /\ safe w' = b /\ glitched w' = glitched w /\
    forall i a, 0 <= i < 14 -> word w' (node i) a = word w (node i) a;
  law_scratchpad a n w l w' : flash_read a n w = (inr l, w') -> (41 <= length l)%nat
}.

Section reset.
Context {W : Type} `{EthLaws W} (cfg : eth_config).

Lemma node_all (P : Z -> bool) i : forallb P (seqZ 0 14) = true -> 0 <= i < 14 -> P i = true.
Proof. intros Hall Hi. by apply (forall_eth P). Qed.
Lemma eth_node_ok i : 0 <= i < 14 -> GetEthNocCoords i 0 = Some (node i).
Proof. intros Hi. refine (bool_decide_eq_true_1 _ (node_all (fun i => bool_decide (GetEthNocCoords i 0 = Some (node i))) i _ Hi)). by vm_compute. Qed.
Lemma node_in i : 0 <= i < 14 -> node_bounds (node i).
Proof. intros Hi. refine (bool_decide_eq_true_1 _ (node_all (fun i => bool_decide (0 <= (node i).1 < 64 /\ 0 <= (node i).2 < 64)) i _ Hi)). by vm_compute. Qed.
Lemma eth_node_inj i j : 0 <= i < 14 -> 0 <= j < 14 -> node i = node j -> i = j.
Proof.
  intros Hi Hj E. assert (forallb (fun j => bool_decide (node i = node j -> i = j)) (seqZ 0 14) = true) as Hall.
  { refine (node_all (fun i => forallb (fun j => bool_decide (node i = node j -> i = j)) (seqZ 0 14)) i _ Hi). by vm_compute. }
  exact (bool_decide_eq_true_1 _ (node_all (fun j => bool_decide (node i = node j -> i = j)) j Hall Hj) E).
Qed.

(** The soft reset register of an instance. *)
Definition soft (w : W) (i : Z) : Z := word w (node i) ETH_RISC_DEBUG_SOFT_RESET_0.

(** Reset unit and interlock as before. *)
Definition quiet (w w' : W) : Prop :=
  (forall b, in_unit b -> ReadReg b w' = ReadReg b w) /\ safe w' = safe w /\ glitched w' = glitched w.
(** And the soft resets. *)
Definition still (w w' : W) : Prop := quiet w w' /\ forall i, 0 <= i < 14 -> soft w' i = soft w i.

Lemma quiet_trans w1 w2 w3 : quiet w1 w2 -> quiet w2 w3 -> quiet w1 w3.
Proof. intros (A & B & C) (A' & B' & C'). split_and!; [intros b Hb; by rewrite A', A|congruence|congruence]. Qed.
#[export] Instance still_preorder : PreOrder still.
Proof.
  split; [done|]. intros w1 w2 w3 [Q S] [Q' S']. split; [by eapply quiet_trans|]. intros i Hi. by rewrite S', S.
Qed.

(** The state of the instances, the heartbeats included. *)
Definition calm (s s' : eth W) : Prop := saved_heartbeat s' = saved_heartbeat s /\ still (hw s) (hw s').
#[export] Instance calm_preorder : PreOrder calm.
Proof. split; [split; [done|reflexivity]|]. intros s1 s2 s3 [A B] [A' B']. split; [congruence|by etransitivity]. Qed.

Lemma tlb_quiet k v w : 0 <= k < 64 -> quiet w (WriteReg (tlb_reg_addr 0 k) v w).
Proof. intros Hk. apply law_noc. unfold tlb_reg_addr. change (GetTlbRegStartAddr 0) with 0x80051000. lia. Qed.
Lemma window_quiet k addr v w : 0 <= k < 16 -> quiet w (WriteReg (GetTlbWindowAddr 0 k addr) v w).
Proof.
  intros Hk. apply law_noc. rewrite window_addr_of, window_addr_0 by done. change ARC_NOC0_BASE_ADDR with 0xC0000000.
  pose proof (Z.mod_pos_bound addr (2 ^ 24) ltac:(done)). lia.
Qed.
Lemma setup_still x y addr w : still w (NOC2AXITlbSetup 0 ETH_SETUP_TLB x y addr w).
Proof.
  apply (NOC2AXITlbSetup_rel still); [done|]. intros j v w' Hj. split; [by apply tlb_quiet|]. intros i _. by apply law_tlb_word.
Qed.

(** An instance's window opened at an address, and a write through it. *)
Lemma SetupEthTlb_ok i addr s : 0 <= i < 14 ->
  does (SetupEthTlb i 0 addr) s (fun _ s' => calm s s' /\ opened ETH_SETUP_TLB (node i) addr (hw s')).
Proof.
  intros Hi. unfold SetupEthTlb. rewrite eth_node_ok by done. eapply does_bind; [apply (does_lift (node i) s (fun a s' => a = node i /\ s' = s)); done|].
  intros a s' [-> ->]. destruct (node i) as [x y] eqn:En. eexists tt, _. split; [done|]. split; [split; [done|apply setup_still]|].
  apply (NOC2AXITlbSetup_ok ETH_SETUP_TLB x y addr (hw s)). done.
Qed.

Lemma window_write i addr addr' v s : 0 <= i < 14 -> 0 <= addr < 2 ^ 64 -> opened ETH_SETUP_TLB (node i) addr (hw s) -> Z.shiftr addr 24 = Z.shiftr addr' 24 ->
  does (on_hw (WriteReg (GetTlbWindowAddr 0 ETH_SETUP_TLB addr') v)) s (fun _ s' =>
    saved_heartbeat s' = saved_heartbeat s /\ quiet (hw s) (hw s') /\ opened ETH_SETUP_TLB (node i) addr (hw s') /\
    forall n a, word (hw s') n a = put (node i) addr' v (word (hw s)) n a).
Proof.
  intros Hi Ha Ho E. eexists tt, _. split; [done|].
  destruct (opened_write ETH_SETUP_TLB (node i) addr addr' v (hw s) ltac:(done) (node_in i Hi) Ha Ho E) as [Ho' Hw].
  split_and!; [done|by apply window_quiet|exact Ho'|exact Hw].
Qed.

(** One instance's soft reset has been written. *)
Definition soft_set (j v : Z) (s s' : eth W) : Prop :=
  saved_heartbeat s' = saved_heartbeat s /\ quiet (hw s) (hw s') /\
  forall i, 0 <= i < 14 -> soft (hw s') i = if i =? j then v else soft (hw s) i.

Lemma write_soft i addr v s s1 : 0 <= i < 14 -> 0 <= addr < 2 ^ 64 -> calm s s1 -> opened ETH_SETUP_TLB (node i) addr (hw s1) ->
  Z.shiftr addr 24 = Z.shiftr ETH_RISC_DEBUG_SOFT_RESET_0 24 ->
  does (on_hw (WriteReg (GetTlbWindowAddr 0 ETH_SETUP_TLB ETH_RISC_DEBUG_SOFT_RESET_0) v)) s1 (fun _ s' => soft_set i v s s').
Proof.
  intros Hi Ha [Hb [Hq Hs]] Ho E. eapply does_mono; [by apply window_write|]. intros _ s2 (Hb2 & Hq2 & _ & Hw).
  split_and!; [congruence|by eapply quiet_trans|]. intros j Hj. unfold soft at 1. rewrite Hw. unfold put.
  destruct (Z.eqb_spec j i) as [->|Hne]; [by rewrite decide_True|]. rewrite decide_False; [by apply Hs|]. intros [En _]. by apply Hne, eth_node_inj.
Qed.
Lemma write_other i addr addr' v s s1 : 0 <= i < 14 -> 0 <= addr < 2 ^ 64 -> calm s s1 -> opened ETH_SETUP_TLB (node i) addr (hw s1) ->
  Z.shiftr addr 24 = Z.shiftr addr' 24 -> addr' <> ETH_RISC_DEBUG_SOFT_RESET_0 ->
  does (on_hw (WriteReg (GetTlbWindowAddr 0 ETH_SETUP_TLB addr') v)) s1 (fun _ s' => calm s s' /\ opened ETH_SETUP_TLB (node i) addr (hw s')).
Proof.
  intros Hi Ha Hc Ho E Hne. eapply does_mono; [by apply (window_write i addr)|]. intros _ s2 (Hb2 & Hq2 & Ho2 & Hw).
  split; [|done]. etransitivity; [exact Hc|]. split; [done|]. split; [done|]. intros j Hj. unfold soft at 1. rewrite Hw. unfold put.
  rewrite decide_False; [done|]. intros [_ ?]. congruence.
Qed.

Lemma ReleaseEthReset_ok i s : 0 <= i < 14 ->
  does (ReleaseEthReset i 0) s (fun _ s' => soft_set i (Z.clearbit (soft (hw s) i) 11) s s').
Proof.
  intros Hi. unfold ReleaseEthReset. eapply does_bind; [by apply SetupEthTlb_ok|]. intros _ s1 [Hc Ho].
  pose proof (opened_read ETH_SETUP_TLB (node i) ETH_RESET_PC_0 ETH_RISC_DEBUG_SOFT_RESET_0 (hw s1) ltac:(done) (node_in i Hi) ltac:(done) Ho ltac:(done)) as Er.
  destruct (write_soft i ETH_RESET_PC_0 (Z.clearbit (word (hw s1) (node i) ETH_RISC_DEBUG_SOFT_RESET_0) 11) s s1 Hi ltac:(done) Hc Ho ltac:(done)) as (u & s2 & E2 & C2).
  exists u, s2. split; [unfold on_hw, with_hw in *; by rewrite Er|]. destruct Hc as [_ [_ Hs]]. by rewrite <- (Hs i Hi).
Qed.

Lemma assert_soft_ok i s : 0 <= i < 14 ->
  does (assert_eth_risc_soft_reset i 0) s (fun _ s' => soft_set i kAllRiscSoftReset s s').
Proof.
  intros Hi. unfold assert_eth_risc_soft_reset. rewrite eth_node_ok by done.
  destruct (SetupEthTlb_ok i ETH_RISC_DEBUG_SOFT_RESET_0 s Hi) as (u & s1 & E1 & Hc & Ho). unfold SetupEthTlb in E1. rewrite eth_node_ok in E1 by done.
  destruct (write_soft i ETH_RISC_DEBUG_SOFT_RESET_0 kAllRiscSoftReset s s1 Hi ltac:(done) Hc Ho ltac:(done)) as (u' & s2 & E2 & C2).
  unfold does, mbind, M_bind, lift in *. cbn [mbind option_bind] in *. destruct (node i) as [x y]. rewrite E1. unfold Write32, NOC2AXIWrite32. eauto.
Qed.

(** ** The steps of loading *)

Lemma other_calm (s : eth W) w' : still (hw s) w' -> calm s (MkEth (saved_heartbeat s) w').
Proof. by split. Qed.
Lemma other_still w w' :
  (exists f r, tt_boot_fs_find_fd_by_tag f w = (r, w')) \/ (exists a n d r, spi_arc_dma_transfer_to_tile a n d w = (r, w')) \/
  (exists a n r, flash_read a n w = (r, w')) \/ (exists b d n r, dma_arc_hs_transfer b d n w = (r, w')) -> still w w'.
Proof. intros Hx. destruct (law_other w w' Hx) as (A & B & C & D). done. Qed.

Lemma with_other {A} (f : W -> A * W) s :
  (forall w a w', f w = (a, w') -> still w w') -> does (with_hw f) s (fun a s' => calm s s' /\ f (hw s) = (a, hw s')).
Proof. intros Hf. unfold does, with_hw. destruct (f (hw s)) as [a w'] eqn:E. exists a. eexists. split; [done|]. split; [by apply other_calm, (Hf _ a)|done]. Qed.

Lemma transfer_ok a n d s : does (with_hw (spi_arc_dma_transfer_to_tile a n d)) s (fun _ s' => calm s s').
Proof. eapply does_mono; [apply with_other|by intros r s' [? _]]. intros w r w' E. apply other_still. right. left. eauto. Qed.
Lemma find_ok f s : does (with_hw (tt_boot_fs_find_fd_by_tag f)) s (fun _ s' => calm s s').
Proof. eapply does_mono; [apply with_other|by intros r s' [? _]]. intros w r w' E. apply other_still. left. eauto. Qed.

Lemma LoadEthFw_ok i a n s : 0 <= i < 14 -> does (LoadEthFw i 0 a n) s (fun _ s' => calm s s').
Proof.
  intros Hi. unfold LoadEthFw. eapply does_bind; [by apply SetupEthTlb_ok|]. intros _ s1 [C1 _].
  eapply does_bind; [apply transfer_ok|]. intros rc s2 C2. destruct (negb _); [apply does_ret; by etransitivity|].
  eapply does_bind; [by apply SetupEthTlb_ok|]. intros _ s3 [C3 O3]. assert (H13 : calm s s3) by (etransitivity; [|exact C3]; by etransitivity).
  eapply does_bind; [apply (write_other i ETH_RESET_PC_0 ETH_RESET_PC_0 _ s s3 Hi); done|]. intros _ s4 [C4 O4].
  eapply does_bind; [apply (write_other i ETH_RESET_PC_0 ETH_END_PC_0 _ s s4 Hi); done|]. intros _ s5 [C5 _]. by apply does_ret.
Qed.

Lemma cfg_words_ok sel l : (41 <= length l)%nat -> exists l', cfg_words cfg sel l = Some l'.
Proof.
  intros Hl. unfold cfg_words.
  assert (Ha : forall i v (l : list Z), 0 <= i <= 40 -> (41 <= length l)%nat -> exists l', aset l i v = Some l' /\ (41 <= length l')%nat).
  { intros i v l0 Hi Hl0. rewrite aset_in by lia. eexists. split; [done|]. by rewrite length_insert. }
  assert (Hs : forall l : list Z, (41 <= length l)%nat -> exists l', match eth_speed_override cfg with
      Some v => if speed_supported v then aset l 1 v else Some l | None => Some l end = Some l' /\ (41 <= length l')%nat).
  { intros l0 Hl0. destruct (eth_speed_override cfg) as [v|]; [|eauto]. destruct (speed_supported v); [apply Ha; [lia|done]|eauto]. }
  destruct (Ha 0 sel l ltac:(lia) Hl) as (l0 & -> & H0'). cbn [mbind option_bind]. destruct (Hs l0 H0') as (l1 & -> & Hl1). clear Hl H0'. cbn [mbind option_bind].
  repeat match goal with Hl : (41 <= length ?l)%nat |- context [aset ?l ?i ?v] =>
    let l' := fresh "l" in let Hl' := fresh "Hl" in destruct (Ha i v l ltac:(lia) Hl) as (l' & -> & Hl'); clear Hl; cbn [mbind option_bind] end. eauto.
Qed.

Lemma LoadEthFwCfg_ok i e a n s : 0 <= i < 14 -> does (LoadEthFwCfg cfg i 0 e a n) s (fun _ s' => calm s s').
Proof.
  intros Hi. unfold LoadEthFwCfg. eapply does_bind; [apply with_other|].
  { intros w r w' E. apply other_still. right. right. left. eauto. }
  intros r s1 [C1 E1]. destruct r as [rc|buf]; [by apply does_ret|].
  eapply (does_bind _ _ _ _ (fun _ s' => calm s1 s')); [by eexists _, _|]. intros sel s2 C2.
  destruct (cfg_words_ok sel buf) as (l & ->); [by eapply law_scratchpad|].
  eapply does_bind; [apply (does_lift l s2 (fun _ s' => s' = s2)); done|]. intros buf' s2' ->.
  eapply does_bind; [by apply SetupEthTlb_ok|]. intros _ s3 [C3 _]. eapply does_bind; [apply with_other|].
  { intros w r w' E. apply other_still. right. right. right. eauto. }
  intros rc s4 [C4 _]. apply does_ret. etransitivity; [exact C1|]. etransitivity; [exact C2|]. by etransitivity.
Qed.

Lemma load_eth_serdes_cfg_ok i a n s : 0 <= i < 14 -> does (load_eth_serdes_cfg i 0 a n) s (fun _ s' => calm s s').
Proof.
  intros Hi. unfold load_eth_serdes_cfg. eapply does_bind; [by apply SetupEthTlb_ok|]. intros _ s1 [C1 _].
  eapply does_bind; [apply transfer_ok|]. intros rc s2 C2. apply does_ret. by etransitivity.
Qed.

Definition load_error (e : Z) : Prop := e = ETH_RESET_ERR_FW_LOAD \/ e = ETH_RESET_ERR_SERDES_CFG_LOAD \/ e = ETH_RESET_ERR_CFG_LOAD.
Definition lookup_error (e : Z) : Prop :=
  e = ETH_RESET_ERR_FW_LOOKUP \/ e = ETH_RESET_ERR_CFG_LOOKUP \/ e = ETH_RESET_ERR_CFG_SIZE \/ e = ETH_RESET_ERR_SERDES_CFG_LOOKUP.

Lemma load_eth_fw_parts_ok fds i s : 0 <= i < 14 ->
  does (load_eth_fw_parts cfg fds 0 i) s (fun r s' => calm s s' /\ match r with Some e => load_error e | None => True end).
Proof.
  intros Hi. destruct fds as [[f1 f2] f3]. unfold load_eth_fw_parts, load_error. eapply does_bind; [by apply LoadEthFw_ok|]. intros r1 s1 C1.
  destruct (r1 <? 0); [apply does_ret; auto|]. eapply does_bind; [by apply load_eth_serdes_cfg_ok|]. intros r2 s2 C2.
  assert (H12 : calm s s2) by (etransitivity; [exact C1|exact C2]). destruct (r2 <? 0); [apply does_ret; auto|]. eapply does_bind; [by apply LoadEthFwCfg_ok|].
  intros r3 s3 C3. assert (H13 : calm s s3) by (etransitivity; [exact H12|exact C3]). destruct (r3 <? 0); apply does_ret; auto.
Qed.

Lemma lookup_ok s : does (lookup_eth_fw_parts_fds cfg) s (fun r s' => calm s s' /\ match r with inl e => lookup_error e | inr _ => True end).
Proof.
  unfold lookup_eth_fw_parts_fds, lookup_error. eapply does_bind; [apply find_ok|]. intros r1 s1 C1. destruct r1; [apply does_ret; auto|].
  eapply does_bind; [apply find_ok|]. intros r2 s2 C2. assert (H12 : calm s s2) by (etransitivity; [exact C1|exact C2]). destruct r2; [apply does_ret; auto|].
  destruct (_ <? _); [apply does_ret; auto 10|]. eapply does_bind; [apply find_ok|]. intros r3 s3 C3.
  assert (H13 : calm s s3) by (etransitivity; [exact H12|exact C3]). destruct r3; apply does_ret; auto 10.
Qed.

(** ** The reset itself *)

(** A line of the Ethernet controller: instance [b mod 16], tile half below 16. *)
Definition eline (w : W) (b : Z) : bool := line w (base eth_reset) b.

(** The instances of [P] have the lines that [sel] selects driven to [level], under
    the interlock; nothing else has changed but the soft resets of [P] if these
    lines were asserted. *)
Definition driven (level : bool) (sel : Z -> bool) (P : Z -> bool) (s s' : eth W) : Prop :=
  saved_heartbeat s' = saved_heartbeat s /\ safe (hw s') = safe (hw s) /\ glitched (hw s') = glitched (hw s) /\
  (forall r, in_unit r -> r <> base eth_reset -> ReadReg r (hw s') = ReadReg r (hw s)) /\
  (forall b, 0 <= b < 32 -> eline (hw s') b = if P (b mod 16) && sel b then level else eline (hw s) b) /\
  (forall j, 0 <= j < 14 -> P j = false \/ level = true -> soft (hw s') j = soft (hw s) j).

Definition upto (mask k j : Z) : bool := (j <? k) && bit mask j.

Lemma upto_step mask k j : 0 <= k -> upto mask (k + 1) j = upto mask k j || ((j =? k) && bit mask k).
Proof. intros Hk. unfold upto. destruct (Z.ltb_spec j k), (Z.ltb_spec j (k + 1)), (Z.eqb_spec j k); subst; try lia; cbn; by rewrite ?orb_false_r. Qed.

Lemma driven_step level sel P k (bk : bool) s s1 s2 Q :
  driven level sel P s s1 -> (bk = true -> driven level sel (fun j => j =? k) s1 s2) -> (bk = false -> s2 = s1) ->
  (forall j, Q j = P j || ((j =? k) && bk)) -> driven level sel Q s s2.
Proof.
  intros D1 D2 E2 HQ. destruct bk.
  2:{ rewrite (E2 eq_refl). destruct D1 as (A & B & C & D & E & F). split_and!; [done..| |].
      - intros b Hb. rewrite HQ, andb_false_r, orb_false_r. by apply E.
      - intros j Hj Hc. apply F; [done|]. by rewrite HQ, andb_false_r, orb_false_r in Hc. }
  specialize (D2 eq_refl). destruct D1 as (A & B & C & D & E & F), D2 as (A' & B' & C' & D' & E' & F').
  split_and!; [congruence|congruence|congruence|intros r Hr Hn; by rewrite D', D| |].
  - intros b Hb. rewrite E', E, HQ by done. by destruct (P (b mod 16)), (b mod 16 =? k), (sel b).
  - intros j Hj Hc. rewrite HQ, andb_true_r, orb_false_iff in Hc. rewrite F', F; [done|done|naive_solver|done|naive_solver].
Qed.

Lemma write_lines level sel i v s :
  0 <= i < 14 -> safe (hw s) = true -> is_u32 v ->
  (forall b, 0 <= b < 32 -> Z.testbit v b = if (b mod 16 =? i) && sel b then level else eline (hw s) b) ->
  driven level sel (fun j => j =? i) s (MkEth (saved_heartbeat s) (WriteReg (base eth_reset) v (hw s))).
Proof.
  intros Hi Hs Hv Hb. destruct (law_lines v (hw s) Hv) as (L1 & L2 & L3). assert (U : in_unit (base eth_reset)) by (left; cbn; lia).
  assert (Ee : forall b, 0 <= b < 32 -> eline (WriteReg (base eth_reset) v (hw s)) b = Z.testbit v b).
  { intros b _. unfold eline, line. rewrite reg_write by done. by rewrite Z.eqb_refl. }
  split_and!; cbn [hw saved_heartbeat]; [done|done|by rewrite L2, Hs, orb_false_r| | |].
  - intros r Hr Hn. rewrite reg_write by done. by destruct (Z.eqb_spec r (base eth_reset)).
  - intros b Hb'. by rewrite Ee, Hb.
  - intros j Hj Hc. apply L3; [done| |]; fold (eline (hw s) j); fold (eline (hw s) (j + 16)); intros E; rewrite Hb by lia.
    + rewrite Z.mod_small by lia. destruct (_ && _) eqn:Ea; [|done]. destruct Hc as [Hc|Hc]; [|done]. rewrite Hc in Ea. done.
    + replace ((j + 16) mod 16) with j by (rewrite <- (Z.mul_1_l 16) at 1; rewrite Z.mod_add, Z.mod_small; lia).
      destruct (_ && _) eqn:Ea; [|done]. destruct Hc as [Hc|Hc]; [|done]. rewrite Hc in Ea. done.
Qed.

Lemma drive_loop level sel mask (f : Z -> W -> W) s :
  safe (hw s) = true ->
  (forall i s, 0 <= i < 14 -> safe (hw s) = true -> driven level sel (fun j => j =? i) s (MkEth (saved_heartbeat s) (f i (hw s)))) ->
  does (for_mask mask (fun i => on_hw (f i))) s (fun _ s' => driven level sel (upto mask 14) s s').
Proof.
  intros Hs Hf. unfold for_mask. eapply does_mono; [apply (for_m_ok (fun k (_ : unit) s' => driven level sel (upto mask k) s s'))|by intros].
  - split_and!; try done. intros b Hb. unfold upto. destruct (Z.ltb_spec (b mod 16) 0); [|done]. pose proof (Z.mod_pos_bound b 16). lia.
  - intros i _ s1 Hi D. change (0 + Z.of_nat (Z.to_nat MAX_ETH_INSTANCES)) with 14 in Hi.
    eexists tt, (if bit mask i then MkEth (saved_heartbeat s1) (f i (hw s1)) else s1). split; [by destruct (bit mask i)|].
    eapply (driven_step _ _ _ i (bit mask i)); [exact D| | |intros j; apply upto_step; lia].
    + intros ->. apply Hf; [done|]. destruct D as (_ & -> & _). done.
    + by intros ->.
Qed.

Definition is_tile (b : Z) : bool := b <? 16.

(** The bits of a line id, and of both lines of an instance, among the valid ones. *)
Lemma id_valid i : 0 <= i < 14 -> tt_bh_reset_is_valid_id eth_reset (TT_BH_ETH_TILE_ID i) = true /\ tt_bh_reset_is_valid_id eth_reset (TT_BH_ETH_RISC_ID i) = true.
Proof.
  intros Hi. apply andb_true_iff. refine (forall_eth (fun i => tt_bh_reset_is_valid_id eth_reset (TT_BH_ETH_TILE_ID i) && tt_bh_reset_is_valid_id eth_reset (TT_BH_ETH_RISC_ID i)) _ i Hi).
  by vm_compute.
Qed.
Lemma eth_lines_ok i : 0 <= i < 14 -> Z.land (eth_lines i) (reset_mask eth_reset) = eth_lines i /\ 0 < eth_lines i < 2 ^ 32.
Proof.
  intros Hi. assert (E : (Z.land (eth_lines i) (reset_mask eth_reset) =? eth_lines i) && (0 <? eth_lines i) && (eth_lines i <? 2 ^ 32) = true); [|lia].
  refine (forall_eth (fun i => (Z.land (eth_lines i) (reset_mask eth_reset) =? eth_lines i) && (0 <? eth_lines i) && (eth_lines i <? 2 ^ 32)) _ i Hi). by vm_compute.
Qed.
Lemma eth_lines_bit i b : 0 <= i < 14 -> 0 <= b < 32 -> Z.testbit (eth_lines i) b = (b mod 16 =? i).
Proof.
  intros Hi Hb. unfold eth_lines, TT_BH_ETH_TILE_ID, TT_BH_ETH_RISC_ID. rewrite Z.lor_spec, !bit_BIT, Z.add_0_r by lia.
  destruct (Z.eqb_spec i b), (Z.eqb_spec (i + 16) b), (Z.eqb_spec (b mod 16) i); try done; exfalso; subst; Z.to_euclidean_division_equations; lia.
Qed.

Lemma assert_step i s : 0 <= i < 14 -> safe (hw s) = true ->
  driven false (fun _ => true) (fun j => j =? i) s (MkEth (saved_heartbeat s) (reset_tt_bh_lines_assert eth_reset 0 (eth_lines i) (hw s)).2).
Proof.
  intros Hi Hs. destruct (eth_lines_ok i Hi) as [El Hl]. assert (U : in_unit (base eth_reset)) by (left; cbn; lia).
  unfold reset_tt_bh_lines_assert. rewrite El. change (tt_bh_reset_is_valid_offset eth_reset 0) with true. cbn [negb orb].
  rewrite (proj2 (Z.eqb_neq (eth_lines i) 0)) by lia. rewrite Z.add_0_r. cbn [snd].
  apply write_lines; [done|done|apply u32_ldiff; [by apply reg_u32|lia]|].
  intros b Hb. rewrite Z.ldiff_spec, eth_lines_bit by done. fold (eline (hw s) b). by destruct (_ =? _); rewrite ?andb_false_r, ?andb_true_r.
Qed.
Lemma deassert_step id (sel : Z -> bool) i s : 0 <= i < 14 -> safe (hw s) = true -> tt_bh_reset_is_valid_id eth_reset id = true -> 0 <= id < 32 ->
  (forall b, 0 <= b < 32 -> (b =? id) = (b mod 16 =? i) && sel b) ->
  driven true sel (fun j => j =? i) s (MkEth (saved_heartbeat s) (tt_bh_reset_line_deassert eth_reset id (hw s)).2).
Proof.
  intros Hi Hs Hv Hid Hsel. assert (U : in_unit (base eth_reset)) by (left; cbn; lia).
  unfold tt_bh_reset_line_deassert. rewrite Hv. cbn [negb snd].
  assert (0 <= BIT id < 2 ^ 32) by (unfold BIT; rewrite Z.shiftl_1_l; split; [lia|apply Z.pow_lt_mono_r; lia]).
  apply write_lines; [done|done|apply u32_lor; [by apply reg_u32|done]|].
  intros b Hb. rewrite Z.lor_spec, bit_BIT by lia. fold (eline (hw s) b). rewrite <- Hsel by done. rewrite Z.eqb_sym.
  by destruct (_ =? _); rewrite ?orb_false_r, ?orb_true_r.
Qed.

(** A loop of soft reset writes. *)
Lemma soft_loop mask (g : Z -> Z) body s :
  (forall i s1, 0 <= i < 14 -> bit mask i = true -> soft (hw s1) i = soft (hw s) i -> does (body i) s1 (fun _ s2 => soft_set i (g i) s1 s2)) ->
  does (for_mask mask body) s (fun _ s' => saved_heartbeat s' = saved_heartbeat s /\ quiet (hw s) (hw s') /\
    forall j, 0 <= j < 14 -> soft (hw s') j = if bit mask j then g j else soft (hw s) j).
Proof.
  intros Hb. unfold for_mask. eapply does_mono; [apply (for_m_ok (fun k (_ : unit) s' => saved_heartbeat s' = saved_heartbeat s /\ quiet (hw s) (hw s') /\
    forall j, 0 <= j < 14 -> soft (hw s') j = if upto mask k j then g j else soft (hw s) j))|].
  - split_and!; [done|done|]. intros j Hj. unfold upto. by destruct (Z.ltb_spec j 0); [lia|].
  - intros i _ s1 Hi (A & B & D). change (0 + Z.of_nat (Z.to_nat MAX_ETH_INSTANCES)) with 14 in Hi. destruct (bit mask i) eqn:Em.
    + eapply does_mono; [apply (Hb i s1 Hi Em)|].
      { rewrite D by lia. unfold upto. by rewrite Z.ltb_irrefl. }
      intros _ s2 (A' & B' & D'). split_and!; [congruence|by eapply quiet_trans|]. intros j Hj. rewrite D', D, upto_step, Em by lia.
      destruct (Z.eqb_spec j i) as [->|]; cbn [andb orb]; [by rewrite orb_true_r|by rewrite orb_false_r].
    + apply does_ret. split_and!; [done|done|]. intros j Hj. rewrite D, upto_step, Em by lia. by rewrite andb_false_r, orb_false_r.
  - intros _ s' (A & B & D). split_and!; [done|done|]. intros j Hj. rewrite D by done. unfold upto.
    change (0 + Z.of_nat (Z.to_nat MAX_ETH_INSTANCES)) with 14. by destruct (Z.ltb_spec j 14); [|lia].
Qed.

Lemma start_fw_ok mask s : length (saved_heartbeat s) = 14%nat ->
  does (start_fw mask 0) s (fun _ s' => saved_heartbeat s' = replicate 14 0 /\ quiet (hw s) (hw s') /\
    forall j, 0 <= j < 14 -> soft (hw s') j = if bit mask j then Z.clearbit (soft (hw s) j) 11 else soft (hw s) j).
Proof.
  intros Hl. unfold start_fw. eapply does_mono; [apply (for_m_ok (fun k (_ : unit) s' =>
    (length (saved_heartbeat s') = 14%nat /\ forall i : nat, Z.of_nat i < k -> (i < 14)%nat -> saved_heartbeat s' !! i = Some 0) /\ quiet (hw s) (hw s') /\
    forall j, 0 <= j < 14 -> soft (hw s') j = if upto mask k j then Z.clearbit (soft (hw s) j) 11 else soft (hw s) j))|].
  - split_and!; [done|lia|done|]. intros j Hj. unfold upto. by destruct (Z.ltb_spec j 0); [lia|].
  - intros k _ s1 Hk ((A1 & A2) & B & D). change (0 + Z.of_nat (Z.to_nat MAX_ETH_INSTANCES)) with 14 in Hk.
    eapply (does_bind _ _ _ _ (fun _ s2 => s2 = MkEth (<[Z.to_nat k := 0]> (saved_heartbeat s1)) (hw s1))).
    { eexists tt, _. split; [|done]. unfold set_heartbeat. by rewrite aset_in by lia. }
    intros _ s2 ->. set (s2 := MkEth _ (hw s1)).
    assert (A : length (saved_heartbeat s2) = 14%nat /\ forall i : nat, Z.of_nat i < k + 1 -> (i < 14)%nat -> saved_heartbeat s2 !! i = Some 0).
    { cbn. split; [by rewrite length_insert|]. intros i Hi Hi'. destruct (decide (i = Z.to_nat k)) as [->|]; [by rewrite list_lookup_insert_eq by lia|].
      rewrite list_lookup_insert_ne by lia. apply A2; lia. }
    destruct (bit mask k) eqn:Em; cbn [negb].
    + eapply does_mono; [apply ReleaseEthReset_ok; lia|]. intros _ s3 (A' & B' & D'). rewrite A'. split; [exact A|]. split; [by eapply quiet_trans|].
      intros j Hj. rewrite D', upto_step, Em by lia. cbn [hw s2]. rewrite !D by lia. unfold upto. rewrite (Z.ltb_irrefl k). cbn [andb].
      destruct (Z.eqb_spec j k) as [->|]; cbn [andb orb]; [by rewrite orb_true_r|by rewrite orb_false_r].
    + apply does_ret. split; [exact A|]. split; [exact B|]. intros j Hj. cbn [hw s2]. rewrite D, upto_step, Em by lia. by rewrite andb_false_r, orb_false_r.
  - intros _ s' ((A1 & A2) & B & D). change (0 + Z.of_nat (Z.to_nat MAX_ETH_INSTANCES)) with 14 in *. split_and!; [|done|].
    + apply list_eq. intros i. destruct (decide (i < 14)%nat) as [Hi|Hi]; [rewrite A2, lookup_replicate_2 by lia; done|].
      rewrite !lookup_ge_None_2; [done|by rewrite length_replicate; lia|lia].
    + intros j Hj. rewrite D by done. unfold upto. by destruct (Z.ltb_spec j 14); [|lia].
Qed.

(** What the reset of the instances of [mask] does. *)
Definition reset_done (mask : Z) (s s' : eth W) : Prop :=
  saved_heartbeat s' = saved_heartbeat s /\ safe (hw s') = false /\ glitched (hw s') = glitched (hw s) /\
  (forall r, in_unit r -> r <> base eth_reset -> ReadReg r (hw s') = ReadReg r (hw s)) /\
  (forall b, 0 <= b < 32 -> eline (hw s') b = upto mask 14 (b mod 16) || eline (hw s) b) /\
  (forall j, 0 <= j < 14 -> soft (hw s') j = if bit mask j then kAllRiscSoftReset else soft (hw s) j).

Lemma reset_tiles_ok mask s : does (reset_tiles mask 0) s (fun _ s' => reset_done mask s s').
Proof.
  unfold reset_tiles. set (s1 := MkEth (saved_heartbeat s) (SetAiclkResetSafe true (hw s))).
  destruct (law_aiclk true (hw s)) as (R1 & S1 & G1 & W1). eapply (does_bind _ _ _ _ (fun _ x => x = s1)); [by eexists tt, _|]. intros _ ? ->.
  eapply does_bind; [apply (drive_loop false (fun _ => true)); [exact S1|]|]. { intros. by apply assert_step. }
  intros _ s2 (A2 & S2' & G2 & R2 & E2 & W2). assert (S2 : safe (hw s2) = true) by (rewrite S2'; exact S1).
  eapply does_bind; [apply (drive_loop true is_tile mask _ s2 S2)|].
  { intros i x Hi Hx. apply deassert_step; [done|done|by apply id_valid|unfold TT_BH_ETH_TILE_ID; lia|]. intros b Hb. unfold TT_BH_ETH_TILE_ID, is_tile.
    destruct (Z.eqb_spec b (i + 0)), (Z.eqb_spec (b mod 16) i), (Z.ltb_spec b 16); cbn; try done; exfalso; Z.to_euclidean_division_equations; lia. }
  intros _ s3 (A3 & S3 & G3 & R3 & E3 & W3). rewrite S2 in S3.
  eapply does_bind; [apply (soft_loop mask (fun _ => kAllRiscSoftReset)); intros i x Hi _ _; by apply assert_soft_ok|].
  intros _ s4 (A4 & (R4 & S4 & G4) & W4). rewrite S3 in S4.
  eapply does_bind; [apply (drive_loop true (fun b => negb (is_tile b)) mask _ s4 S4)|].
  { intros i x Hi Hx. apply deassert_step; [done|done|by apply id_valid|unfold TT_BH_ETH_RISC_ID; lia|]. intros b Hb. unfold TT_BH_ETH_RISC_ID, is_tile.
    destruct (Z.eqb_spec b (i + 16)), (Z.eqb_spec (b mod 16) i), (Z.ltb_spec b 16); cbn; try done; exfalso; Z.to_euclidean_division_equations; lia. }
  intros _ s5 (A5 & S5 & G5 & R5 & E5 & W5). eexists tt, _. split; [done|].
  destruct (law_aiclk false (hw s5)) as (R6 & S6 & G6 & W6).
  assert (U : in_unit (base eth_reset)) by (left; cbn; lia).
  split_and!; cbn [saved_heartbeat hw]; [by rewrite A5, A4, A3, A2|exact S6|rewrite G6, G5, G4, G3, G2; exact G1| | |].
  - intros r Hr Hn. rewrite R6, R5, R4, R3, R2 by done. by apply R1.
  - intros b Hb. unfold eline, line. rewrite R6 by done. fold (line (hw s5) (base eth_reset) b) (eline (hw s5) b). rewrite E5 by done.
    assert (E4 : eline (hw s4) b = eline (hw s3) b) by (unfold eline, line; by rewrite R4). rewrite E4, E3, E2 by done.
    assert (E1 : eline (hw s1) b = eline (hw s) b) by (unfold eline, line, s1; cbn [hw]; by rewrite R1). rewrite E1. fold (line (hw s) (base eth_reset) b) (eline (hw s) b).
    by destruct (upto mask 14 (b mod 16)), (is_tile b).
  - intros j Hj. unfold soft at 1. rewrite W6 by done. fold (soft (hw s5) j). rewrite W5, W4 by auto. destruct (bit mask j) eqn:Em; [done|].
    rewrite W3 by auto. rewrite W2; [|done|left; unfold upto; by rewrite Em, andb_false_r]. unfold soft, s1. cbn [hw]. by apply W1.
Qed.

Lemma calm_reset mask s x s1 : calm s x -> reset_done mask x s1 -> reset_done mask s s1.
Proof.
  intros [Hb [(R & S & G) Hs]] (A & B & C & D & E & F). assert (U : in_unit (base eth_reset)) by (left; cbn; lia).
  split_and!; [congruence|done|congruence|intros r Hr Hn; by rewrite D, R| |intros j Hj; by rewrite F, Hs].
  intros b Hb'. rewrite E by done. unfold eline, line. by rewrite R.
Qed.

End reset.

(** ** Heartbeats *)

Section heartbeats.
Context {W : Type} `{NocHw W} `{EthHw W} `{!TlbRegs W} `{!TileLaws W} (cfg : eth_config).

(** The word an instance's firmware counts in. *)
Definition beat (w : W) (i : Z) : Z := word w (node i) ETH_HEARTBEAT_ADDR.
Definition saved (s : eth W) (i : Z) : Z := default 0 (saved_heartbeat s !! Z.to_nat i).

Definition beats_upto (s : eth W) (k st : Z) (s' : eth W) : Prop :=
  length (saved_heartbeat s') = 14%nat /\ (forall n a, word (hw s') n a = word (hw s) n a) /\
  forall i, 0 <= i < 14 ->
    Z.testbit st i = (i <? k) && bit (eth_enabled cfg) i && negb (saved s i =? beat (hw s) i) /\
    saved s' i = if (i <? k) && bit (eth_enabled cfg) i then beat (hw s) i else saved s i.

Lemma setup_words i addr (s : eth W) : 0 <= i < 14 ->
  does (SetupEthTlb i 0 addr) s (fun _ s' => saved_heartbeat s' = saved_heartbeat s /\ (forall n a, word (hw s') n a = word (hw s) n a) /\
    opened ETH_SETUP_TLB (node i) addr (hw s')).
Proof.
  intros Hi. unfold SetupEthTlb. rewrite eth_node_ok by done. eapply does_bind; [apply (does_lift (node i) s (fun a s' => a = node i /\ s' = s)); done|].
  intros a s' [-> ->]. destruct (node i) as [x y] eqn:En. eexists tt, _. split; [done|].
  destruct (NOC2AXITlbSetup_ok ETH_SETUP_TLB x y addr (hw s)) as [Ho Hw]; [done|]. done.
Qed.

Lemma heartbeat_step_ok s k st s1 : 0 <= k < 14 -> beats_upto s k st s1 -> does (heartbeat_step cfg 0 k st) s1 (beats_upto s (k + 1)).
Proof.
  intros Hk (Hl & Hw & Hi). unfold heartbeat_step. destruct (bit (eth_enabled cfg) k) eqn:Ee.
  2:{ apply does_ret. split_and!; [done|done|]. intros i Hr. destruct (Hi i Hr) as [-> ->].
      destruct (Z.eq_dec i k) as [->|]; [by rewrite Ee, !andb_false_r|].
      by replace (i <? k + 1) with (i <? k) by (destruct (Z.ltb_spec i k), (Z.ltb_spec i (k + 1)); lia). }
  eapply does_bind; [by apply setup_words|]. intros _ s2 (A2 & W2 & O2).
  eapply (does_bind _ _ _ _ (fun v x => v = beat (hw s) k /\ x = s2)).
  { eexists _, s2. split; [unfold NOC2AXIRead32, get_hw, with_hw; by destruct s2|]. split; [|done].
    rewrite (opened_read ETH_SETUP_TLB (node k) ETH_HEARTBEAT_ADDR ETH_HEARTBEAT_ADDR _ ltac:(done) (node_in k Hk) ltac:(done) O2 ltac:(done)). by rewrite W2, Hw. }
  intros ? ? [-> ->]. eapply (does_bind _ _ _ _ (fun v x => v = saved s1 k /\ x = s2)).
  { eexists _, s2. split; [|split; [reflexivity|done]]. unfold get_heartbeat. rewrite A2. unfold saved.
    destruct (aget_in (saved_heartbeat s1) k ltac:(lia)) as (v & Ev). rewrite Ev. rewrite aget_nat in Ev by lia. by rewrite Ev. }
  intros ? ? [-> ->]. eapply (does_bind _ _ _ _ (fun _ x => x = MkEth (<[Z.to_nat k := beat (hw s) k]> (saved_heartbeat s1)) (hw s2))).
  { eexists tt, _. split; [|done]. unfold set_heartbeat. by rewrite A2, aset_in by lia. }
  intros _ ? ->. apply does_ret. split_and!; cbn [saved_heartbeat hw]; [by rewrite length_insert|intros n a; by rewrite W2|].
  intros i Hr. destruct (Hi i Hr) as [Ht Hs]. destruct (Hi k Hk) as [_ Hs']. rewrite Z.ltb_irrefl in Hs'. cbn [andb] in Hs'.
  destruct (Z.eq_dec i k) as [->|Hne].
  - rewrite Z.ltb_irrefl in Ht. cbn [andb] in Ht. rewrite Ee, Hs', (proj2 (Z.ltb_lt k (k + 1))) by lia. cbn [andb].
    split; [|unfold saved at 1; cbn; by rewrite list_lookup_insert_eq by lia].
    destruct (saved s k =? beat (hw s) k); cbn [negb]; [done|]. by rewrite Z.lor_spec, bit_BIT, Z.eqb_refl, orb_true_r by lia.
  - replace (i <? k + 1) with (i <? k) by (destruct (Z.ltb_spec i k), (Z.ltb_spec i (k + 1)); lia).
    split; [|unfold saved at 1; cbn; rewrite list_lookup_insert_ne by lia; exact Hs].
    destruct (negb (saved s1 k =? _)); [|done]. rewrite Z.lor_spec, bit_BIT, Ht by lia. destruct (Z.eqb_spec k i); [lia|]. by rewrite orb_false_r.
Qed.

(** Heartbeats.  A poll reports exactly the enabled instances whose counter differs from the
    last poll's, remembers the counters of the enabled ones and those only, and writes
    nothing to any tile.  After a reset has forgotten the counters of all
    ([toggle_eth_reset_ok]), an instance that it left alone is reported alive whenever
    its counter is not zero, moving or not. *)
Theorem heartbeat_status_exact s (Hlen : length (saved_heartbeat s) = 14%nat) :
  does (GetEthHeartbeatStatus cfg 0) s (fun st s' =>
    (forall i, 0 <= i < 14 -> Z.testbit st i = bit (eth_enabled cfg) i && negb (saved s i =? beat (hw s) i) /\
       saved s' i = if bit (eth_enabled cfg) i then beat (hw s) i else saved s i) /\
    (forall n a, word (hw s') n a = word (hw s) n a) /\
    (saved_heartbeat s = replicate 14 0 -> forall i, 0 <= i < 14 -> bit (eth_enabled cfg) i = true -> beat (hw s) i <> 0 -> Z.testbit st i = true)).
Proof.
  unfold GetEthHeartbeatStatus. eapply does_mono; [apply (for_m_ok (beats_upto s))|].
  - split_and!; [done|done|]. intros i Hi. destruct (Z.ltb_spec i 0); [lia|]. cbn. by rewrite Z.bits_0.
  - intros i st s1 Hi. apply heartbeat_step_ok. change (0 + Z.of_nat (Z.to_nat MAX_ETH_INSTANCES)) with 14 in Hi. lia.
  - intros st s' (_ & Hw & Hi). change (0 + Z.of_nat (Z.to_nat MAX_ETH_INSTANCES)) with 14 in Hi.
    assert (Hi' : forall i, 0 <= i < 14 -> Z.testbit st i = bit (eth_enabled cfg) i && negb (saved s i =? beat (hw s) i) /\
       saved s' i = if bit (eth_enabled cfg) i then beat (hw s) i else saved s i).
    { intros i Hr. destruct (Hi i Hr) as [-> ->]. by rewrite (proj2 (Z.ltb_lt i 14)) by lia. }
    split_and!; [exact Hi'|exact Hw|]. intros Hz i Hr He Hb. destruct (Hi' i Hr) as [-> _]. rewrite He. unfold saved. rewrite Hz, lookup_replicate_2 by lia.
    cbn [from_option andb]. unfold id. destruct (Z.eqb_spec 0 (beat (hw s) i)); [congruence|done].
Qed.
End heartbeats.

(** ** A simulated chip *)

(** The network, the registers of the reset unit, the interlock, and whether the images
    are in the flash and load. *)
Record chip := MkChip { c_fab : fabric; c_regs : Z -> Z; c_safe : bool; c_glitched : bool; c_found : bool; c_loads : bool }.

Definition reset_unit (a : Z) : bool := (0x80030000 <=? a) && (a <? 0x80031000).

#[export] Instance chip_NocHw : NocHw chip := {
  ReadReg a c := if reset_unit a then u32 (c_regs c a) else fabric_read a (c_fab c);
  WriteReg a v c :=
    if reset_unit a then
      MkChip (c_fab c) (fun b => if b =? a then v else c_regs c b) (c_safe c)
        (if a =? base eth_reset then c_glitched c || negb (c_safe c) else c_glitched c) (c_found c) (c_loads c)
    else MkChip (fabric_write a v (c_fab c)) (c_regs c) (c_safe c) (c_glitched c) (c_found c) (c_loads c)
}.
#[export] Instance chip_EthHw : EthHw chip := {
  tt_boot_fs_find_fd_by_tag _ c := (if c_found c then inr (MkFd 0x1000 256) else inl (- 2), c);
  spi_arc_dma_transfer_to_tile _ _ _ c := (if c_loads c then 0 else - 5, c);
  flash_read _ _ c := (inr (repeat 0 64), c);
  dma_arc_hs_transfer _ _ _ c := (0, c);
  dma_wipe _ _ c := c;
  SetAiclkResetSafe b c := MkChip (c_fab c) (c_regs c) b (c_glitched c) (c_found c) (c_loads c)
}.

Lemma reset_unit_out a : 0x80050000 <= a -> reset_unit a = false.
Proof. intros Ha. unfold reset_unit. destruct (Z.ltb_spec a 0x80031000); [lia|by rewrite andb_false_r]. Qed.
Lemma reset_unit_in a : in_unit a -> reset_unit a = true.
Proof. unfold in_unit, reset_unit. destruct (Z.leb_spec 0x80030000 a), (Z.ltb_spec a 0x80031000); cbn; lia. Qed.

Lemma tlb_outside k : 0 <= k < 64 -> reset_unit (tlb_reg_addr 0 k) = false.
Proof. intros Hk. apply reset_unit_out. unfold tlb_reg_addr. change (GetTlbRegStartAddr 0) with 0x80051000. lia. Qed.
#[export] Instance chip_tlb : TlbRegs chip.
Proof.
  refine {| tlb := fun c => f_tlb (c_fab c) |}. intros w k v Hk. unfold WriteReg, chip_NocHw. rewrite tlb_outside by done. by apply fabric_law_tlb.
Defined.
#[export] Instance chip_tiles : TileLaws chip.
Proof.
  assert (Hwin : forall k off, 0 <= k < 16 -> 0 <= off < 2 ^ 24 -> reset_unit (window_addr 0 k off) = false).
  { intros k off Hk Ho. apply reset_unit_out. rewrite window_addr_0. change ARC_NOC0_BASE_ADDR with 0xC0000000. lia. }
  refine {| word := fun c => f_word (c_fab c) |}.
  - intros w k v Hk. unfold WriteReg, chip_NocHw. rewrite tlb_outside by done. by apply fabric_law_tlb.
  - intros w k x y addr off Hk Ha Hx Hy T1 T2 T3 Ho. unfold ReadReg, chip_NocHw. rewrite Hwin by done. by apply (fabric_law_read (c_fab w)).
  - intros w k x y addr off v Hk Ha Hx Hy T1 T2 T3 Ho. unfold WriteReg, chip_NocHw. rewrite Hwin by done. by apply (fabric_law_write (c_fab w)).
Defined.
#[export] Instance chip_unit : ResetUnit chip.
Proof.
  constructor.
  - intros a w Ha. unfold ReadReg, chip_NocHw. rewrite reset_unit_in by done. apply u32_range.
  - intros a b v w Ha Hb Hv. unfold ReadReg, WriteReg, chip_NocHw. rewrite !reset_unit_in by done. cbn.
    destruct (a =? b); [by apply wrap_small|done].
Defined.
#[export] Instance chip_laws : EthLaws chip.
Proof.
  refine {| safe := c_safe; glitched := c_glitched |}.
  - intros a v w Ha. unfold ReadReg, WriteReg, chip_NocHw. rewrite (reset_unit_out a) by lia. split; [|done].
    intros b Hb. by rewrite reset_unit_in.
  - intros v w Hv. done.
  - intros w w' Hx. assert (w' = w) as ->; [|done]. destruct Hx as [(f & r & E)|[(a & n & d & r & E)|[(a & n & r & E)|(b & d & n & r & E)]]]; by injection E as _ <-.
  - intros b w. done.
  - intros a n w l w' E. injection E as <- _. cbn. lia.
Defined.

Module EthExample.
(** Instances 5 and 8 harvested, PCIe on both sides with one SERDES. *)
Definition tiles : TileEnable := MkTiles 0 0x3EDF false false 0 0xff 0 0 [] [].
Definition cfg : eth_config := MkEthConfig true false 4096 true tiles false (1, 2) false 1 false 1 (Some 0x8) (Some 200) 0 0 0 (fun _ => (0, 0)).
Definition s0 (found loads : bool) : eth chip :=
  MkEth (repeat 7 14) (MkChip (MkFabric (fun _ => 0) (fun _ a => if a =? ETH_HEARTBEAT_ADDR then 7 else 1)) (fun _ => 0x3fff3fff) false false found loads).
End EthExample.

Lemma eth_sel_exact_witness :
  exists t', CalculateHarvesting (fun _ => (0, 0)) (MkFwTable true 2 false 1 false 0 [1; 0] [2; 4]) tile_enable_default = Some t' /\
    forall i, 0 <= i < 14 -> Z.testbit (GetEthSel EthExample.cfg (Harvesting.eth_enabled t') (SetupEthSerdesMux (Harvesting.eth_enabled t') (hw (EthExample.s0 true true)))) i =
      Z.testbit (Harvesting.eth_enabled t') i && pci_leaves EthExample.cfg i && negb (forced_off EthExample.cfg i).
Proof.
  destruct (eth_sel_exact (fun _ => (0, 0)) (MkFwTable true 2 false 1 false 0 [1; 0] [2; 4]) tile_enable_default EthExample.cfg (hw (EthExample.s0 true true)))
    as (t' & E & H & _); [reflexivity|cbn; lia|reflexivity..|]. exists t'. split; [exact E|exact H].
Defined.
(** Instances 2 to 11 but 5 and 8 (harvested) and 3 (forced off). *)
Example eth_sel_value :
  GetEthSel EthExample.cfg 0x3EDF (SetupEthSerdesMux 0x3EDF (hw (EthExample.s0 true true))) = 0x02020ED4.
Proof. vm_compute. reflexivity. Qed.


Lemma heartbeat_status_exact_witness :
  does (GetEthHeartbeatStatus EthExample.cfg 0) (EthExample.s0 true true) (fun st s' => Z.testbit st 3 = false).
Proof.
  eapply does_mono; [exact (heartbeat_status_exact EthExample.cfg (EthExample.s0 true true) eq_refl)|].
  intros st s' (Hi & _). destruct (Hi 3 ltac:(lia)) as [-> _]. vm_compute. reflexivity.
Defined.

(** An instance whose counter has stopped is reported alive after the reset of another. *)
Lemma hung_instance_reported :
  (fun r => Z.testbit r.1 3) <$> GetEthHeartbeatStatus EthExample.cfg 0 (EthExample.s0 true true) = Some false /\
  (_ ← toggle_eth_reset_handler EthExample.cfg 0 0x10 false; GetEthHeartbeatStatus EthExample.cfg 0) (EthExample.s0 true true)
    ≫= (fun r => Some (Z.testbit r.1 3)) = Some true.
Proof. split; vm_compute; reflexivity. Qed.
