(* ===== verification/Power.v ===== *)
(** * Power settings, and copies from the flash ([lib/tenstorrent/bh_arc/bh_power.c], [spi_flash_buf.c])

    The host's power message with the state that it keeps per domain, and the copy of
    an image of the flash to a tile, a buffer at a time. *)

From S2P Require Import Prelude.
#[local] Open Scope Z_scope.

Module BhPower.
Inductive bh_power_domain := BH_POWER_DOMAIN_AICLK | BH_POWER_DOMAIN_MRISC | BH_POWER_DOMAIN_TENSIX | BH_POWER_DOMAIN_L2CPU.
#[export] Instance bh_power_domain_eq : EqDecision bh_power_domain.
Proof. solve_decision. Defined.
(** The values of the enumeration. *)
Definition domain_index (d : bh_power_domain) : Z :=
  match d with BH_POWER_DOMAIN_AICLK => 0 | BH_POWER_DOMAIN_MRISC => 1 | BH_POWER_DOMAIN_TENSIX => 2 | BH_POWER_DOMAIN_L2CPU => 3 end.
Definition BH_POWER_DOMAIN_COUNT : Z := 4.
Definition EINVAL : Z := 22.

(** The first word of [struct power_setting_rqst]. *)
Record power_setting_rqst := MkPowerSetting {
  power_flags_valid : Z; max_ai_clk : bool; mrisc_phy_power : bool; tensix_enable : bool; l2cpu_enable : bool }.
Definition decode (word : Z) : power_setting_rqst :=
  MkPowerSetting (bits_get 8 4 word) (Z.testbit word 16) (Z.testbit word 17) (Z.testbit word 18) (Z.testbit word 19).

(** What the settings act on.  [aiclk_update_busy] reads the AICLK state. *)
Class PowerHw (W : Type) := {
  aiclk_update_busy : bool -> W -> W;
  bh_soft_reset_all_tensix : W -> W;
  k_usleep : Z -> W -> W;
  set_tensix_enable : bool -> W -> Z * W;
  clock_control : bool -> Z -> W -> Z * W;       (* [clock_control_on] or [_off] of an L2CPU clock *)
  set_mrisc_power_setting : bool -> W -> Z * W
}.

Record power (W : Type) := MkPower { power_state : bh_power_domain -> bool; hw : W }.
Arguments MkPower {W} _ _.
Arguments power_state {W} _.
Arguments hw {W} _.

Definition power_state0 (d : bh_power_domain) : bool := match d with BH_POWER_DOMAIN_AICLK => false | _ => true end.
Definition set_state {W} (d : bh_power_domain) (b : bool) (s : power W) : power W :=
  MkPower (fun d' => if decide (d' = d) then b else power_state s d') (hw s).
Definition set_hw {W} (w : W) (s : power W) : power W := MkPower (power_state s) w.

Section power.
Context {W : Type} `{PowerHw W}.

Definition bh_set_l2cpu_enable (enable : bool) (w : W) : Z * W :=
  let '(ret, w) := clock_control enable 0 w in
  let '(ret, w) := clock_control enable 1 w in
  let '(ret, w) := clock_control enable 2 w in
  clock_control enable 3 w.

(** Returns the code and [*state]; a domain is a number here. *)
Definition bh_power_state_get (domain : Z) (s : power W) : Z * option bool :=
  if BH_POWER_DOMAIN_COUNT <=? domain then (- EINVAL, None) else
  (0, Some (power_state s (if domain =? 0 then BH_POWER_DOMAIN_AICLK else if domain =? 1 then BH_POWER_DOMAIN_MRISC
                           else if domain =? 2 then BH_POWER_DOMAIN_TENSIX else BH_POWER_DOMAIN_L2CPU))).

(** The four parts of [apply_power_settings]; each keeps the code so far or replaces it. *)
Definition apply_aiclk (r : power_setting_rqst) (s : power W) : power W :=
  if domain_index BH_POWER_DOMAIN_AICLK <? power_flags_valid r then
    let s := set_state BH_POWER_DOMAIN_AICLK (max_ai_clk r) s in
    set_hw (aiclk_update_busy (power_state s BH_POWER_DOMAIN_AICLK) (hw s)) s
  else s.
Definition apply_tensix (r : power_setting_rqst) (a : Z * power W) : Z * power W :=
  let '(ret, s) := a in
  if domain_index BH_POWER_DOMAIN_TENSIX <? power_flags_valid r then
    let s := if negb (tensix_enable r) && power_state s BH_POWER_DOMAIN_TENSIX then
               set_hw (k_usleep 100 (bh_soft_reset_all_tensix (hw s))) s
             else s in
    let '(ret, w) := set_tensix_enable (tensix_enable r) (hw s) in
    (ret, set_state BH_POWER_DOMAIN_TENSIX (tensix_enable r) (set_hw w s))
  else (ret, s).
Definition apply_l2cpu (r : power_setting_rqst) (a : Z * power W) : Z * power W :=
  let '(ret, s) := a in
  if domain_index BH_POWER_DOMAIN_L2CPU <? power_flags_valid r then
    let '(ret, w) := bh_set_l2cpu_enable (l2cpu_enable r) (hw s) in
    (ret, set_state BH_POWER_DOMAIN_L2CPU (l2cpu_enable r) (set_hw w s))
  else (ret, s).
Definition apply_mrisc (r : power_setting_rqst) (a : Z * power W) : Z * power W :=
  let '(ret, s) := a in
  if domain_index BH_POWER_DOMAIN_MRISC <? power_flags_valid r then
    let '(ret, w) := set_mrisc_power_setting (mrisc_phy_power r) (hw s) in
    (ret, set_state BH_POWER_DOMAIN_MRISC (mrisc_phy_power r) (set_hw w s))
  else (ret, s).

Definition apply_power_settings (r : power_setting_rqst) (s : power W) : Z * power W :=
  apply_mrisc r (apply_l2cpu r (apply_tensix r (0, apply_aiclk r s))).

Definition power_setting_msg_handler (word : Z) (s : power W) : Z * power W :=
  let '(_, s) := apply_power_settings (decode word) s in (0, s).
End power.

(** ** The Tensix reset *)

(** A reset of the Tensix cores is a message over their clocks: sent while these are
    gated it is lost ([lost]).  Nothing else touches the gates. *)
Class PowerLaws (W : Type) `{PowerHw W} := {
  gated : W -> bool;
  lost : W -> bool;
  law_reset w : gated (bh_soft_reset_all_tensix w) = gated w /\ lost (bh_soft_reset_all_tensix w) = lost w || gated w;
  law_tensix b w : gated (set_tensix_enable b w).2 = negb b /\ lost (set_tensix_enable b w).2 = lost w;
  law_aiclk b w : gated (aiclk_update_busy b w) = gated w /\ lost (aiclk_update_busy b w) = lost w;
  law_usleep n w : gated (k_usleep n w) = gated w /\ lost (k_usleep n w) = lost w;
  law_clock b i w : gated (clock_control b i w).2 = gated w /\ lost (clock_control b i w).2 = lost w;
  law_mrisc b w : gated (set_mrisc_power_setting b w).2 = gated w /\ lost (set_mrisc_power_setting b w).2 = lost w
}.

Section safe.
Context {W : Type} `{PowerLaws W}.

(** The state kept for the Tensix is that of their clocks, and no reset was lost. *)
Definition in_step (s : power W) : Prop := gated (hw s) = negb (power_state s BH_POWER_DOMAIN_TENSIX) /\ lost (hw s) = false.

Lemma l2cpu_ok b w : gated (bh_set_l2cpu_enable b w).2 = gated w /\ lost (bh_set_l2cpu_enable b w).2 = lost w.
Proof.
  unfold bh_set_l2cpu_enable. destruct (clock_control b 0 w) as [r0 w0] eqn:E0. destruct (clock_control b 1 w0) as [r1 w1] eqn:E1.
  destruct (clock_control b 2 w1) as [r2 w2] eqn:E2. destruct (law_clock b 3 w2) as [G L]. rewrite G, L.
  destruct (law_clock b 2 w1) as [G2 L2]. destruct (law_clock b 1 w0) as [G1 L1]. destruct (law_clock b 0 w) as [G0 L0].
  rewrite E0 in G0, L0. rewrite E1 in G1, L1. rewrite E2 in G2, L2. cbn in *. split; congruence.
Qed.

(** The flag of a request for a domain. *)
Definition flag (r : power_setting_rqst) (d : bh_power_domain) : bool :=
  match d with
  | BH_POWER_DOMAIN_AICLK => max_ai_clk r | BH_POWER_DOMAIN_MRISC => mrisc_phy_power r
  | BH_POWER_DOMAIN_TENSIX => tensix_enable r | BH_POWER_DOMAIN_L2CPU => l2cpu_enable r
  end.

(** A part sets its own domain, if the request has its flag. *)
Definition sets (r : power_setting_rqst) (d : bh_power_domain) (s s' : power W) : Prop :=
  in_step s' /\ forall d', power_state s' d' =
    if decide (d' = d) then (if domain_index d <? power_flags_valid r then flag r d else power_state s d) else power_state s d'.

Lemma sets_none r d s : in_step s -> domain_index d <? power_flags_valid r = false -> sets r d s s.
Proof. intros Hs E. split; [done|]. intros d'. rewrite E. by destruct (decide (d' = d)) as [->|]. Qed.

Lemma sets_flag r d s w :
  domain_index d <? power_flags_valid r = true -> in_step (set_state d (flag r d) (set_hw w s)) ->
  sets r d s (set_state d (flag r d) (set_hw w s)).
Proof. intros E Hs. split; [done|]. intros d'. rewrite E. cbn. by destruct (decide (d' = d)) as [->|]. Qed.

Lemma apply_aiclk_ok r s : in_step s -> sets r BH_POWER_DOMAIN_AICLK s (apply_aiclk r s).
Proof.
  intros [Hg Hl]. unfold apply_aiclk. destruct (_ <? _) eqn:E; [|by apply sets_none]. cbv zeta.
  destruct (law_aiclk (power_state (set_state BH_POWER_DOMAIN_AICLK (max_ai_clk r) s) BH_POWER_DOMAIN_AICLK) (hw s)) as [G L].
  set (w := aiclk_update_busy _ _). apply (sets_flag r BH_POWER_DOMAIN_AICLK s w); [done|]. unfold in_step. cbn.
  destruct (decide _) as [|_]; [done|]. cbn in G, L. unfold w. split; [by rewrite <- Hg|by rewrite <- Hl].
Qed.

Lemma apply_tensix_ok r ret s : in_step s -> sets r BH_POWER_DOMAIN_TENSIX s (apply_tensix r (ret, s)).2.
Proof.
  intros [Hg Hl]. unfold apply_tensix. destruct (_ <? _) eqn:E; [|by apply sets_none].
  set (s1 := if negb (tensix_enable r) && _ then _ else s).
  assert (H1 : lost (hw s1) = false /\ power_state s1 = power_state s).
  { unfold s1. destruct (negb (tensix_enable r) && power_state s BH_POWER_DOMAIN_TENSIX) eqn:Et; [|done]. split; [|done]. cbn.
    apply andb_true_iff in Et as [_ Et]. destruct (law_usleep 100 (bh_soft_reset_all_tensix (hw s))) as [_ L].
    destruct (law_reset (hw s)) as [_ L']. by rewrite L, L', Hl, Hg, Et. }
  clearbody s1. destruct H1 as [Hl1 S1], s1 as [st w1]. cbn in Hl1, S1. subst st. destruct (law_tensix (tensix_enable r) w1) as [G L].
  cbn. destruct (set_tensix_enable (tensix_enable r) w1) as [ret' w]. cbn in G, L |- *.
  apply (sets_flag r BH_POWER_DOMAIN_TENSIX s); [done|]. unfold in_step. cbn. by rewrite G, L.
Qed.

Lemma apply_l2cpu_ok r ret s : in_step s -> sets r BH_POWER_DOMAIN_L2CPU s (apply_l2cpu r (ret, s)).2.
Proof.
  intros [Hg Hl]. unfold apply_l2cpu. destruct (_ <? _) eqn:E; [|by apply sets_none].
  destruct (l2cpu_ok (l2cpu_enable r) (hw s)) as [G L]. destruct (bh_set_l2cpu_enable (l2cpu_enable r) (hw s)) as [ret' w]. cbn in G, L |- *.
  apply (sets_flag r BH_POWER_DOMAIN_L2CPU s); [done|]. unfold in_step. cbn. by rewrite G, L.
Qed.

Lemma apply_mrisc_ok r ret s : in_step s -> sets r BH_POWER_DOMAIN_MRISC s (apply_mrisc r (ret, s)).2.
Proof.
  intros [Hg Hl]. unfold apply_mrisc. destruct (_ <? _) eqn:E; [|by apply sets_none].
  destruct (law_mrisc (mrisc_phy_power r) (hw s)) as [G L]. destruct (set_mrisc_power_setting (mrisc_phy_power r) (hw s)) as [ret' w]. cbn in G, L |- *.
  apply (sets_flag r BH_POWER_DOMAIN_MRISC s); [done|]. unfold in_step. cbn. by rewrite G, L.
Qed.

End safe.

(** *** A board: the gates, the lost resets, and a log of the rest *)

Record psim := MkPsim { p_gated : bool; p_lost : bool; p_log : list (Z * bool) }.
#[export] Instance psim_hw : PowerHw psim := {
  aiclk_update_busy b w := MkPsim (p_gated w) (p_lost w) ((0, b) :: p_log w);
  bh_soft_reset_all_tensix w := MkPsim (p_gated w) (p_lost w || p_gated w) ((4, false) :: p_log w);
  k_usleep _ w := w;
  set_tensix_enable b w := (0, MkPsim (negb b) (p_lost w) ((2, b) :: p_log w));
  clock_control b _ w := (- 5, MkPsim (p_gated w) (p_lost w) ((3, b) :: p_log w));
  set_mrisc_power_setting b w := (- 16, MkPsim (p_gated w) (p_lost w) ((1, b) :: p_log w))
}.
#[export] Instance psim_laws : PowerLaws psim.
Proof. refine {| gated := p_gated; lost := p_lost |}; done. Defined.

End BhPower.

(** ** Copies from the flash to a tile, a buffer at a time ([spi_flash_buf.c]) *)
Module SpiFlashBuf.
Definition EINVAL : Z := 22.
Definition E2BIG : Z := 7.
Definition EIO : Z := 5.
Definition INT32_MAX : Z := 0x7fffffff.

(** [flash_read] fills the first [len] bytes of the buffer; the DMA copies [len] bytes of
    the buffer to an address.  Both are drivers of Zephyr's interfaces. *)
Class SpiHw (W : Type) := {
  flash_read : Z -> list Z -> Z -> W -> Z * list Z * W;
  dma_arc_hs_transfer : list Z -> Z -> Z -> Z -> W -> Z * W     (* source, destination, length, timeout in ms *)
}.

Section copy.
Context {W : Type} `{SpiHw W}.

(** The loop, over the state [(image_size, offset, buf)]. *)
Fixpoint transfer_loop (fuel : nat) (cb : list Z -> Z -> Z -> W -> Z * W) (spi_address buf_size tlb_dst image_size offset rc : Z)
    (buf : list Z) (w : W) : option (Z * W) :=
  match fuel with
  | O => None
  | S fuel =>
      let len := Z.min buf_size image_size in
      if 0 <? len then
        let '(rc, buf, w) := flash_read (u32 (spi_address + offset)) buf len w in
        if rc <? 0 then Some (rc, w) else
        let '(rc, w) := cb buf (u32 (tlb_dst + offset)) len w in
        if rc <? 0 then Some (rc, w) else
        transfer_loop fuel cb spi_address buf_size tlb_dst (u32 (image_size - len)) (u32 (offset + len)) rc buf w
      else Some (rc, w)
  end.

Definition spi_transfer_by_parts (fuel : nat) (spi_address image_size : Z) (buf : option (list Z)) (buf_size tlb_dst : Z)
    (cb : list Z -> Z -> Z -> W -> Z * W) (w : W) : option (Z * W) :=
  match buf with
  | None => Some (- EINVAL, w)
  | Some buf =>
      if buf_size =? 0 then Some (- EINVAL, w) else
      if INT32_MAX <? image_size then Some (- E2BIG, w) else
      transfer_loop fuel cb spi_address buf_size tlb_dst image_size 0 0 buf w
  end.

Definition arc_dma_transfer_wrapper (src : list Z) (dst len : Z) (w : W) : Z * W :=
  let '(rc, w) := dma_arc_hs_transfer src dst len 500 w in
  if rc <? 0 then (- EIO, w) else (0, w).

Definition spi_arc_dma_transfer_to_tile (fuel : nat) (spi_address image_size : Z) (buf : option (list Z)) (buf_size tlb_dst : Z) (w : W) :
    option (Z * W) :=
  spi_transfer_by_parts fuel spi_address image_size buf buf_size tlb_dst arc_dma_transfer_wrapper w.
End copy.

(** *** What the drivers promise: a read that succeeds delivers the flash, a transfer that
    succeeds delivers the buffer, and a transfer that fails wrote nowhere else. *)
Class SpiLaws (W : Type) `{SpiHw W} := {
  flash : Z -> Z;
  mem : W -> Z -> Z;
  law_flash a buf n w rc buf' w' : flash_read a buf n w = (rc, buf', w') ->
    mem w' = mem w /\ (0 <= rc -> forall i, 0 <= i < n -> buf' !! Z.to_nat i = Some (flash (a + i)));
  law_dma src d n t w rc w' : dma_arc_hs_transfer src d n t w = (rc, w') ->
    (forall a, ~ d <= a < d + n -> mem w' a = mem w a) /\
    (0 <= rc -> forall i b, 0 <= i < n -> src !! Z.to_nat i = Some b -> mem w' (d + i) = b)
}.

Section correct.
Context {W : Type} `{SpiLaws W}.

(** The memory [m] with the [n] bytes of the flash at [src] put at [dst]. *)
Definition overlay (src dst n : Z) (m : Z -> Z) (a : Z) : Z :=
  if (dst <=? a) && (a <? dst + n) then flash (src + (a - dst)) else m a.

Lemma overlay_in src dst n m a : dst <= a < dst + n -> overlay src dst n m a = flash (src + (a - dst)).
Proof. intros Ha. unfold overlay. destruct (Z.leb_spec dst a); [|lia]. destruct (Z.ltb_spec a (dst + n)); [done|lia]. Qed.
Lemma overlay_out src dst n m a : ~ dst <= a < dst + n -> overlay src dst n m a = m a.
Proof. intros Ha. unfold overlay. destruct (Z.leb_spec dst a), (Z.ltb_spec a (dst + n)); try done. lia. Qed.
Lemma overlay_app src dst n s m a : 0 <= n -> 0 <= s ->
  overlay (src + n) (dst + n) s (overlay src dst n m) a = overlay src dst (n + s) m a.
Proof.
  intros Hn Hs. destruct (decide (dst + n <= a < dst + n + s)) as [Ha|Ha].
  - rewrite !overlay_in by lia. f_equal. lia.
  - rewrite (overlay_out (src + n)) by lia. destruct (decide (dst <= a < dst + n)).
    + by rewrite !overlay_in by lia.
    + by rewrite !overlay_out by lia.
Qed.

(** The outcome of a copy: all of it, or whole buffers of it before the one that failed,
    whose bytes alone are unknown. *)
Definition copy_outcome (src dst size buf_size : Z) (w : W) (res : Z * W) : Prop :=
  (0 <= res.1 /\ forall a, mem res.2 a = overlay src dst size (mem w) a) \/
  (res.1 < 0 /\ exists k, 0 <= k /\ k * buf_size < size /\
    forall a, ~ dst + k * buf_size <= a < dst + Z.min size ((k + 1) * buf_size) ->
      mem res.2 a = overlay src dst (k * buf_size) (mem w) a).

Lemma transfer_loop_ok fuel buf_size src dst size : forall buf w offset rc,
  0 < buf_size -> 0 <= size < Z.of_nat fuel -> 0 <= offset -> 0 <= src -> 0 <= dst -> 0 <= rc ->
  src + offset + size < 2 ^ 32 -> dst + offset + size < 2 ^ 32 ->
  exists res, transfer_loop fuel arc_dma_transfer_wrapper src buf_size dst size offset rc buf w = Some res /\
    copy_outcome (src + offset) (dst + offset) size buf_size w res.
Proof.
  revert size. induction fuel as [|fuel IH]; intros size buf w offset rc Hb Hs Ho Hsrc Hdst Hrc Hsm Hdm; [lia|]. cbn [transfer_loop].
  destruct (0 <? Z.min buf_size size) eqn:El.
  2: { exists (rc, w). split; [done|]. left. split; [done|]. intros a. by rewrite overlay_out by lia. }
  set (n := Z.min buf_size size) in *. rewrite !(wrap_small 32) by (unfold in_width; lia).
  destruct (flash_read (src + offset) buf n w) as [[rc1 buf1] w1] eqn:E1. destruct (law_flash _ _ _ _ _ _ _ E1) as [M1 B1].
  assert (Hfail : forall rc w', rc < 0 -> (forall a, ~ dst + offset <= a < dst + offset + n -> mem w' a = mem w a) ->
            copy_outcome (src + offset) (dst + offset) size buf_size w (rc, w')).
  { intros rc' w' Hn Ho'. right. split; [done|]. exists 0. split; [lia|]. split; [lia|]. intros a Ha. cbn [snd].
    rewrite overlay_out by lia. apply Ho'. lia. }
  destruct (Z.ltb_spec rc1 0). { eexists. split; [done|]. apply Hfail; [done|]. intros; by rewrite M1. }
  unfold arc_dma_transfer_wrapper. destruct (dma_arc_hs_transfer buf1 (dst + offset) n 500 w1) as [rc2 w2] eqn:E2.
  destruct (law_dma _ _ _ _ _ _ _ E2) as [M2 B2]. fold (@arc_dma_transfer_wrapper W _).
  destruct (Z.ltb_spec rc2 0). { eexists. split; [done|]. apply Hfail; [done|]. intros a Ha. by rewrite (M2 a Ha), M1. }
  destruct (IH (size - n) buf1 w2 (offset + n) 0) as (res & Hr & Ho'); try lia.
  exists res. split; [exact Hr|].
  assert (Hw2 : forall a, mem w2 a = overlay (src + offset) (dst + offset) n (mem w) a).
  { intros a. destruct (decide (dst + offset <= a < dst + offset + n)) as [Ha|Ha]; [|by rewrite overlay_out, M2, M1 by done].
    rewrite overlay_in by done. replace a with (dst + offset + (a - (dst + offset))) at 1 by lia.
    apply B2; [done|lia|]. apply B1; [done|lia]. }
  assert (Hov : forall s a, 0 <= s -> overlay (src + (offset + n)) (dst + (offset + n)) s (mem w2) a =
                            overlay (src + offset) (dst + offset) (n + s) (mem w) a).
  { intros s a Hs0. rewrite <- overlay_app, !Z.add_assoc by lia. unfold overlay at 1 2. by rewrite Hw2. }
  destruct Ho' as [[Hp Hc]|(Hn & k & Hk & Hks & Hc)].
  - left. split; [done|]. intros a. rewrite Hc, Hov by lia. f_equal; lia.
  - right. split; [done|]. exists (k + 1). assert (n = buf_size) by lia. split; [lia|]. split; [lia|]. intros a Ha.
    rewrite Hc, Hov by lia. f_equal; lia.
Qed.

(** C37: the copy of an image from the flash to a tile through a buffer of any size
    returns, and a code that is not negative means that the destination holds exactly
    the image and nothing else was written; an error means that the image was copied up
    to a whole number of buffers and only the bytes of the next one are unknown.  No
    buffer, an empty buffer and an image over [INT32_MAX] are refused. *)
Theorem spi_copy_correct (fuel : nat) (spi_address image_size buf_size tlb_dst : Z) (buf : option (list Z)) (w : W)
    (Hsize : 0 <= image_size < Z.of_nat fuel) (Hsrc : 0 <= spi_address) (Hdst : 0 <= tlb_dst) (Hbuf : 0 <= buf_size)
    (Hsrc' : spi_address + image_size < 2 ^ 32) (Hdst' : tlb_dst + image_size < 2 ^ 32) :
  exists res, spi_arc_dma_transfer_to_tile fuel spi_address image_size buf buf_size tlb_dst w = Some res /\
    if decide (buf = None) then res = (- EINVAL, w) else
    if buf_size =? 0 then res = (- EINVAL, w) else
    if INT32_MAX <? image_size then res = (- E2BIG, w) else
    copy_outcome spi_address tlb_dst image_size buf_size w res.
Proof.
  unfold spi_arc_dma_transfer_to_tile, spi_transfer_by_parts. destruct buf as [buf|]; cbn; [|by eexists].
  destruct (Z.eqb_spec buf_size 0); [by eexists|]. destruct (INT32_MAX <? image_size); [by eexists|].
  destruct (transfer_loop_ok fuel buf_size spi_address tlb_dst image_size buf w 0 0) as (res & Hr & Ho); try lia.
  exists res. split; [exact Hr|]. by rewrite !Z.add_0_r in Ho.
Qed.
End correct.

(** *** A chip: its memory, and the transfer that is to fail, if any *)
Record fsim := MkFsim { f_mem : Z -> Z; f_fail : nat }.
Definition fsim_flash (a : Z) : Z := a mod 251.
#[export] Instance fsim_hw : SpiHw fsim := {
  flash_read a buf n w := (0, map fsim_flash (seqZ a n) ++ drop (Z.to_nat n) buf, w);
  dma_arc_hs_transfer src d n _ w :=
    match f_fail w with
    | O => (- 116, w)
    | S k => (0, MkFsim (fun a => if (d <=? a) && (a <? d + n) then default 0 (src !! Z.to_nat (a - d)) else f_mem w a) k)
    end
}.
#[export] Instance fsim_laws : SpiLaws fsim.
Proof.
  refine {| flash := fsim_flash; mem := f_mem |}.
  - intros a buf n w rc buf' w' E. injection E as <- <- <-. split; [done|]. intros _ i Hi.
    rewrite lookup_app_l by (rewrite length_map, length_seqZ; lia). rewrite list_lookup_fmap.
    rewrite (proj2 (lookup_seqZ a n (Z.to_nat i) (a + i))) by lia. done.
  - intros src d n t w rc w' E. cbn in E. destruct (f_fail w); injection E as <- <-; [by split|]. cbn. split.
    + intros a Ha. destruct (_ && _) eqn:?; [lia|done].
    + intros _ i b Hi Hb. destruct (_ && _) eqn:?; [|lia]. replace (d + i - d) with i by lia. by rewrite Hb.
Defined.

Lemma spi_copy_correct_witness :
  (exists res, spi_arc_dma_transfer_to_tile 101 0x1000 100 (Some (repeat 0 16)) 16 0x2000 (MkFsim (fun _ => 0) 100) = Some res /\ res.1 = 0) /\
  exists res, spi_arc_dma_transfer_to_tile 101 0x1000 100 (Some (repeat 0 16)) 16 0x2000 (MkFsim (fun _ => 0) 3) = Some res /\
    copy_outcome 0x1000 0x2000 100 16 (MkFsim (fun _ => 0) 3) res /\ res.1 = - EIO.
Proof.
  split; [eexists; split; reflexivity|].
  destruct (spi_copy_correct 101 0x1000 100 16 0x2000 (Some (repeat 0 16)) (MkFsim (fun _ => 0) 3)) as (res & Hr & Ho); try lia.
  exists res. split; [exact Hr|]. split; [exact Ho|]. injection Hr as <-. reflexivity.
Defined.
End SpiFlashBuf.
