(* ===== verification/TensixInit.v ===== *)
(** * Start-up of the Tensix tiles ([lib/tenstorrent/bh_arc]: [tensix_init.c], [tensix.c]; [record_init_failure] of [reset.c])

    Clock gating, a first instruction, and the two wipes: of the L1 memories by the NOC
    DMA ([NocDma]), of the DEST registers by a firmware that every core runs. *)

From S2P Require Import Prelude StateM Noc Tile Harvesting NocInit Power NocDma.
#[local] Open Scope Z_scope.

(** ** The error status ([reset.c], [init.h]) *)

Inductive init_stage_id := INIT_STAGE_REGULATOR | INIT_STAGE_CABLE_FAULT | INIT_STAGE_TENSIX | INIT_STAGE_MRISC_LOAD | INIT_STAGE_GDDR_TRAIN.
Definition stage_bit (stage : init_stage_id) : Z :=
  match stage with
  | INIT_STAGE_REGULATOR => 0 | INIT_STAGE_CABLE_FAULT => 1 | INIT_STAGE_TENSIX => 2 | INIT_STAGE_MRISC_LOAD => 3 | INIT_STAGE_GDDR_TRAIN => 4
  end.
Definition INIT_STAGE_COUNT : Z := 5.
Definition STATUS_ERROR_STATUS0_REG_ADDR : Z := 0x80030400 + 4 * 4.

(** The new [error_status0].  A stage is a number here: the code checks its range. *)
Definition record_init_failure {W} `{NocHw W} (stage error_status0 : Z) (w : W) : Z * W :=
  if INIT_STAGE_COUNT <=? stage then (error_status0, w) else
  let error_status0 := Z.lor error_status0 (BIT stage) in
  (error_status0, WriteReg STATUS_ERROR_STATUS0_REG_ADDR error_status0 w).

(** ** One instruction into the cores ([tensix.c]) *)

Definition DBG_INSTRN_BUF_CTRL0 : Z := 0xFFB120A0.
Definition DBG_INSTRN_BUF_CTRL1 : Z := 0xFFB120A4.
Definition TENSIX_INSTRUCTION_UNPACR : Z := 0x42800091.

Section tensix.
Context {W : Type} `{NocHw W}.

(** [translated] is [IsNocTranslationEnabled()]. *)
Definition tensix_inject_instruction (translated : bool) (instruction thread : Z) (broadcast : bool) (noc_x noc_y : Z) (w : W) : W :=
  let override := u32 (Z.shiftl 1 thread) in
  let write := u32 (Z.shiftl 1 (thread + 4)) in
  let w := if broadcast then NOC2AXITensixBroadcastTlbSetup translated 0 0 DBG_INSTRN_BUF_CTRL0 kNoc2AxiOrderingStrict w
           else NOC2AXITlbSetup 0 0 noc_x noc_y DBG_INSTRN_BUF_CTRL0 w in
  let w := NOC2AXIWrite32 0 0 DBG_INSTRN_BUF_CTRL0 0 w in
  let w := NOC2AXIWrite32 0 0 DBG_INSTRN_BUF_CTRL1 instruction w in
  let w := NOC2AXIWrite32 0 0 DBG_INSTRN_BUF_CTRL0 override w in
  let w := NOC2AXIWrite32 0 0 DBG_INSTRN_BUF_CTRL0 (Z.lor override write) w in
  let w := NOC2AXIWrite32 0 0 DBG_INSTRN_BUF_CTRL0 override w in
  NOC2AXIWrite32 0 0 DBG_INSTRN_BUF_CTRL0 0 w.

(** ** Clock gating in the tiles *)

Definition cg_ctrl_hyst0 : Z := 0xFFB12070.
Definition cg_ctrl_hyst1 : Z := 0xFFB12074.
Definition cg_ctrl_hyst2 : Z := 0xFFB1207C.
Definition cg_ctrl_en : Z := 0xFFB12244.

(** [cg_en] is the feature bit of the firmware table. *)
Definition EnableTensixCG (cg_en translated broadcast : bool) (noc_x noc_y : Z) (w : W) : W :=
  if cg_en then w else
  let w := if broadcast then NOC2AXITensixBroadcastTlbSetup translated 0 0 cg_ctrl_en kNoc2AxiOrderingStrict w
           else NOC2AXITlbSetup 0 0 noc_x noc_y cg_ctrl_en w in
  let w := NOC2AXIWrite32 0 0 cg_ctrl_hyst0 0x02020202 w in
  let w := NOC2AXIWrite32 0 0 cg_ctrl_hyst1 0x02020202 w in
  let w := NOC2AXIWrite32 0 0 cg_ctrl_hyst2 0x02020202 w in
  NOC2AXIWrite32 0 0 cg_ctrl_en 0xFFFFFFFF w.

(** [tensix_power] is the state kept for the Tensix in [Power.BhPower]. *)
Definition TensixInit (te : TileEnable) (cg_en tensix_power : bool) (s : noc_state W) : option (noc_state W) :=
  let s := NocInit.set_hw (EnableTensixCG cg_en (noc_translation_enabled s) true 0 0 (NocInit.hw s)) s in
  s ← (if negb tensix_power then set_tensix_enable te false s else Some s);
  Some (NocInit.set_hw (tensix_inject_instruction (noc_translation_enabled s) TENSIX_INSTRUCTION_UNPACR 0 true 0 0 (NocInit.hw s)) s).
End tensix.

(** ** The wipes *)

Definition ARC_NOC0_X : Z := 8.
Definition ARC_NOC0_Y : Z := 0.
Definition TENSIX_X_START : Z := 2.
Definition TENSIX_Y_START : Z := 2.
Definition TENSIX_X_END : Z := 1.
Definition TENSIX_Y_END : Z := 11.
Definition TENSIX_L1_SIZE : Z := 1536 * 1024.
Definition TRISC0_RESET_PC : Z := 0xFFB12228.
Definition TRISC_RESET_PC_OVERRIDE : Z := 0xFFB12234.
Definition SOFT_RESET_0 : Z := 0xFFB121B0.
Definition ALL_RISC_SOFT_RESET : Z := 0x47800.
Definition TRISC_WIPE_FW_LOAD_ADDR : Z := 0x6000.
Definition COUNTER_COORD_L1_ADDR : Z := 0x100000.
Definition COUNTER_L1_ADDR : Z := 0x110000.
Definition NUM_TENSIX_ROWS : Z := 10.
Definition WIPE_DEST_TIMEOUT_US : Z := 10000.
Definition dma_channel : Z := 1.

(** Around: the descriptor of the image [destwipe] (an error, or its address and size), the
    cycle counter, and the memset of a buffer of the ARC's memory. *)
Class TensixHw (W : Type) := {
  find_destwipe : W -> (Z + Z * Z) * W;
  k_us_to_cyc_ceil32 : Z -> Z;
  k_cycle_get_32 : W -> Z * W;
  k_busy_wait : Z -> W -> W;
  zero_buffer : Z -> Z -> W -> W
}.

Section l1.
Context {W : Type} `{NocHw W} `{NocDmaHw W} `{TensixHw W}.
Variables (SCRATCHPAD_SIZE : Z) (fuel : nat).

Definition config_of (d : dma_channel_direction) (b : dma_block_config) : dma_config := MkConfig d false false false false 0 1 [b] false.
(** [tt_dma_config] and [dma_start]; nobody looks at their codes. *)
Definition issue (d : dma_channel_direction) (b : dma_block_config) (c : tt_bh_dma_noc_coords) : NocDma.M W unit :=
  _ ← tt_dma_config dma_channel (Some (config_of d b)) (Some c);
  _ ← tt_bh_dma_noc_start 1 fuel dma_channel;
  mret tt.

(** The loop that doubles the cleared part; the result is the local [coords]. *)
Fixpoint wipe_loop (n : nat) (tensix : Z * Z) (offset : Z) (c : tt_bh_dma_noc_coords) : NocDma.M W tt_bh_dma_noc_coords :=
  match n with
  | O => lift None
  | S n =>
      if offset <? TENSIX_L1_SIZE then
        let size := Z.min offset (TENSIX_L1_SIZE - offset) in
        let c := MkCoords (source_x c) (source_y c) tensix.1 tensix.2 in
        _ ← issue PERIPHERAL_TO_MEMORY (MkBlock 0 offset size) c;
        wipe_loop n tensix (u32 (offset + offset)) c
      else mret c
  end.
Definition loop_bound : nat := 22.

(** [tensix] is the result of [GetEnabledTensix], [sram_buffer] the buffer's address. *)
Definition wipe_l1 (tensix : Z * Z) (sram_buffer : Z) : NocDma.M W unit :=
  _ ← NocDma.on_hw (zero_buffer sram_buffer SCRATCHPAD_SIZE);
  let c := MkCoords tensix.1 tensix.2 ARC_NOC0_X ARC_NOC0_Y in
  _ ← issue MEMORY_TO_PERIPHERAL (MkBlock 0 sram_buffer SCRATCHPAD_SIZE) c;
  c ← wipe_loop loop_bound tensix SCRATCHPAD_SIZE c;
  issue TT_BH_DMA_NOC_CHANNEL_DIRECTION_BROADCAST (MkBlock 0 0 TENSIX_L1_SIZE) c.
End l1.

Section dest.
Context {W : Type} `{NocHw W} `{TensixHw W} `{SpiFlashBuf.SpiHw W}.

(** [WAIT_FOR] on the counter: true when it has reached the count. *)
Fixpoint wait_counter (fuel : nat) (expected start : Z) (w : W) : option (bool * W) :=
  match fuel with
  | O => None
  | S fuel =>
      if expected <=? ReadReg (GetTlbWindowAddr 0 0 COUNTER_L1_ADDR) w then Some (true, w) else
      let '(now, w) := k_cycle_get_32 w in
      if u32 (now - start) <? k_us_to_cyc_ceil32 WIPE_DEST_TIMEOUT_US
      then wait_counter fuel expected start (k_busy_wait 10 w)
      else Some (expected <=? ReadReg (GetTlbWindowAddr 0 0 COUNTER_L1_ADDR) w, w)
  end.
Definition global_sync (fuel : nat) (counter_x counter_y expected_count : Z) (w : W) : option (Z * W) :=
  let w := NOC2AXITlbSetup 0 0 counter_x counter_y COUNTER_L1_ADDR w in
  let '(start, w) := k_cycle_get_32 w in
  '(reached, w) ← wait_counter fuel expected_count start w;
  Some (if (reached : bool) then 0 else - ETIMEDOUT, w).

(** The words of a buffer of bytes. *)
Fixpoint words (n : nat) (l : list Z) : list Z :=
  match n with O => [] | S n => le_of_bytes (take 4 l) :: words n (drop 4 l) end.
Fixpoint write_words (addr : Z) (l : list Z) (w : W) : W :=
  match l with [] => w | v :: l => write_words (addr + 4) l (NOC2AXIWrite32 0 0 addr v w) end.
Definition noc2axi_write32_fw (src : list Z) (dst len_ : Z) (w : W) : Z * W := (0, write_words dst (words (Z.to_nat (len_ / 4)) src) w).

Definition setup_tensix_mcast_tlb (addr : Z) (w : W) : W :=
  NOC2AXIMulticastTlbSetup 0 0 TENSIX_X_START TENSIX_Y_START TENSIX_X_END TENSIX_Y_END addr kNoc2AxiOrderingStrict w.
Definition ROUND_UP (x align : Z) : Z := ((x + (align - 1)) / align) * align.

(** [wipe_dest_buf] is the local buffer; [tile_enable.tensix_col_enabled] gives the count. *)
Definition wipe_dest (fuel copy_fuel : nat) (tensix : Z * Z) (tensix_col_enabled : Z) (wipe_dest_buf : list Z) (w : W) : option (Z * W) :=
  let '(counter_x, counter_y) := tensix in
  let '(r, w) := find_destwipe w in
  match r with
  | inl rc => Some (rc, w)
  | inr (spi_address, image_size) =>
      let w := NOC2AXITlbSetup 0 0 counter_x counter_y COUNTER_L1_ADDR w in
      let w := NOC2AXIWrite32 0 0 COUNTER_L1_ADDR 0 w in
      let w := setup_tensix_mcast_tlb TRISC_WIPE_FW_LOAD_ADDR w in
      let image_size := u32 (ROUND_UP image_size 4) in
      '(rc, w) ← SpiFlashBuf.spi_transfer_by_parts copy_fuel spi_address image_size (Some wipe_dest_buf) (len wipe_dest_buf)
                   TRISC_WIPE_FW_LOAD_ADDR noc2axi_write32_fw w;
      if rc <? 0 then Some (rc, w) else
      let w := setup_tensix_mcast_tlb COUNTER_COORD_L1_ADDR w in
      let w := NOC2AXIWrite32 0 0 COUNTER_COORD_L1_ADDR counter_x w in
      let w := NOC2AXIWrite32 0 0 (COUNTER_COORD_L1_ADDR + 4) counter_y w in
      let w := setup_tensix_mcast_tlb TRISC0_RESET_PC w in
      let w := NOC2AXIWrite32 0 0 TRISC0_RESET_PC TRISC_WIPE_FW_LOAD_ADDR w in
      let w := NOC2AXIWrite32 0 0 TRISC_RESET_PC_OVERRIDE 1 w in
      let w := NOC2AXIWrite32 0 0 SOFT_RESET_0 (Z.ldiff ALL_RISC_SOFT_RESET (BIT 12)) w in
      let expected := POPCOUNT tensix_col_enabled * NUM_TENSIX_ROWS in
      '(rc_sync, w) ← global_sync fuel counter_x counter_y expected w;
      let w := setup_tensix_mcast_tlb SOFT_RESET_0 w in
      let w := NOC2AXIWrite32 0 0 SOFT_RESET_0 ALL_RISC_SOFT_RESET w in
      let w := NOC2AXIWrite32 0 0 TRISC_RESET_PC_OVERRIDE 0 w in
      if rc_sync <? 0 then Some (rc_sync, w) else Some (0, w)
  end.
End dest.

(** ** The start-up step *)

Record boot (W : Type) := MkBoot { noc : noc_state W; dma : list tt_bh_dma_channel_data; error_status0 : Z }.
Arguments MkBoot {W} _ _ _.
Arguments noc {W} _.
Arguments dma {W} _.
Arguments error_status0 {W} _.

(** The build and what was found earlier. *)
Record tensix_config := MkTensixConfig {
  CONFIG_TT_SMC_RECOVERY : bool; CONFIG_ARC : bool; SCRATCHPAD_SIZE : Z; cable_fault : bool; cg_en : bool; tensix_power : bool;
  tile_enable : TileEnable; sram_buffer : Z; wipe_dest_buf : list Z }.

Section start.
Context {W : Type} `{NocHw W} `{NocDmaHw W} `{TensixHw W} `{SpiFlashBuf.SpiHw W}.

Definition tensix_init (fuel copy_fuel : nat) (cfg : tensix_config) (s : boot W) : option (Z * boot W) :=
  if CONFIG_TT_SMC_RECOVERY cfg || negb (CONFIG_ARC cfg) then Some (0, s) else
  if cable_fault cfg then Some (0, s) else
  n ← TensixInit (tile_enable cfg) (cg_en cfg) (tensix_power cfg) (noc s);
  tensix ← GetEnabledTensix (tile_enable cfg) n;
  '(_, d) ← wipe_l1 (SCRATCHPAD_SIZE cfg) fuel tensix (sram_buffer cfg) (MkNocDma (dma s) (NocInit.hw n));
  '(rc_wipe_dest, w) ← wipe_dest fuel copy_fuel tensix (tensix_col_enabled (tile_enable cfg)) (wipe_dest_buf cfg) (NocDma.hw d);
  if rc_wipe_dest <? 0 then
    let '(e, w) := record_init_failure (stage_bit INIT_STAGE_TENSIX) (error_status0 s) w in
    Some (rc_wipe_dest, MkBoot (NocInit.set_hw w n) (channels d) e)
  else Some (0, MkBoot (NocInit.set_hw w n) (channels d) (error_status0 s)).
End start.

(** ** The wipe of the L1 memories *)

(** What the memset does, seen over the network. *)
Class ZeroLaws (W : Type) `{NiuLaws W} `{!TensixHw W} := {
  law_zero a n w :
    let w' := zero_buffer a n w in
    tlb w' = tlb w /\
    forall n' b, niu_mem w' n' b = if bool_decide (n' = (ARC_NOC0_X, ARC_NOC0_Y)) && in_range b a n then 0 else niu_mem w n' b
}.

Section wipe.
Context {W : Type} `{ZeroLaws W}.
Variable fuel : nat.
Hypothesis Hfuel : forall w, (time_left (sys_timepoint_calc NOC_DMA_TIMEOUT_MS w) w < fuel)%nat.

(** The channel that the wipe uses is there. *)
Definition channel_there (s : noc_dma W) : Prop := exists chan, aget (channels s) dma_channel = Some chan /\ length (blocks chan) = 4%nat.

(** The transfer of a direction that is not memory to memory. *)
Definition one_transfer (d : dma_channel_direction) (b : dma_block_config) (c : tt_bh_dma_noc_coords) : NocDma.M W Z :=
  match d with
  | MEMORY_TO_PERIPHERAL => tt_bh_dma_noc_start_mem_to_per fuel dma_channel
  | PERIPHERAL_TO_MEMORY => tt_bh_dma_noc_start_per_to_mem fuel dma_channel
  | _ => noc_dma_write_multicast fuel dma_channel (dest_x c) (dest_y c) (source_address b) 2 2 1 11 (dest_address b) (block_size b) false
  end.

(** A channel that was just set up for the block [b]. *)
Definition set_up (d : dma_channel_direction) (b : dma_block_config) (c : tt_bh_dma_noc_coords) (chan : tt_bh_dma_channel_data) : Prop :=
  coords chan = c /\ aget (blocks chan) (block_index (state chan)) = Some b /\ length (blocks chan) = 4%nat.

Lemma issue_ok d b c s (P : noc_dma W -> Prop) :
  channel_there s -> d <> MEMORY_TO_MEMORY -> d <> OTHER_DIRECTION ->
  (forall s2 chan, aget (channels s2) dma_channel = Some chan -> NocDma.hw s2 = NocDma.hw s -> set_up d b c chan ->
     does (one_transfer d b c) s2 (fun _ s' => P s')) ->
  does (issue fuel d b c) s (fun _ s' => P s').
Proof.
  intros (old & Hch & Hlen) Hd1 Hd2 Hone. pose proof (aget_range _ _ _ Hch) as Hr. unfold issue, tt_dma_config, tt_bh_dma_noc_config.
  cbn [config_of block_count]. change (1 =? 0) with false. change (DMA_MAX_TRANSFER_BLOCKS <? 1) with false. cbv iota.
  set (chan := MkChannel (copy_blocks 1 [b] (blocks old)) c (config_of d b) (MkState 0 0 0 1 true)).
  eapply (does_bind _ _ _ _ (fun _ s1 => replaced dma_channel chan s s1 /\ NocDma.hw s1 = NocDma.hw s)).
  { eapply (does_bind _ _ _ _ (fun n s1 => n = len (channels s) /\ s1 = s)); [by eexists _, _|]. intros ? ? [-> ->].
    rewrite (proj2 (Z.leb_gt _ _)) by lia. eapply does_bind; [by apply does_get_channel|]. intros ? ? [-> ->].
    eapply (does_bind _ _ _ _ (fun _ s1 => replaced dma_channel chan s s1 /\ NocDma.hw s1 = NocDma.hw s)).
    - eexists tt, _. split; [unfold put_channel; rewrite aset_in by done; done|]. split; [by apply aset_in|done].
    - intros _ s1 Hx. by apply does_ret. }
  intros _ s1 [R1 E1]. pose proof (replaced_get _ _ _ _ R1) as G1. pose proof (aget_range _ _ _ G1) as Hr1.
  eapply (does_bind _ _ _ _ (fun _ s' => P s')); [|intros _ s' HP; by apply does_ret]. cbn [tt_bh_dma_noc_start].
  eapply (does_bind _ _ _ _ (fun n s2 => n = len (channels s1) /\ s2 = s1)); [by eexists _, _|]. intros ? ? [-> ->].
  rewrite (proj2 (Z.leb_gt _ _)) by lia. eapply does_bind; [by apply does_get_channel|]. intros ? ? [-> ->]. cbn [chan state configured negb].
  eapply does_bind; [by eapply update_ok|]. intros _ s2 [R2 E2]. pose proof (replaced_get _ _ _ _ R2) as G2.
  change (Z.to_nat DMA_MAX_TRANSFER_BLOCKS) with 4%nat. cbn [blocks_loop]. eapply does_bind; [by apply does_get_channel|]. intros ? ? [-> ->].
  cbn [set_index chan state block_index st_block_count config config_of channel_direction coords]. change (negb (0 <? 1)) with false. cbv iota.
  assert (Hb : aget (copy_blocks 1 [b] (blocks old)) 0 = Some b).
  { rewrite aget_nat by lia. apply copy_blocks_lookup; cbn; (done || lia). }
  assert (Hset : set_up d b c (set_index 0 chan)).
  { split_and!; [done|exact Hb|]. cbn [set_index chan blocks]. by rewrite copy_blocks_length. }
  specialize (Hone s2 _ G2 ltac:(congruence) Hset). destruct d; try done.
  eapply does_bind; [apply does_current; exact Hb|]. intros ? ? [-> ->]. exact Hone.
Qed.

Lemma channel_kept c x y s s' : length (blocks c) = 4%nat -> replaced dma_channel (set_tracking x y c) s s' -> channel_there s'.
Proof. intros Hl R. eexists. split; [by eapply replaced_get|done]. Qed.

(** No interface is ever busy for longer than the driver waits. *)
Hypothesis Hready : forall n, ~ not_ready fuel n.

Notation mem s := (niu_mem (NocDma.hw s)).

Lemma issue_mem_to_per b c s :
  channel_there s -> block_ok b -> coords_ok c -> apart (noc_coords_dest c) (dest_address b) (noc_coords_source c) (source_address b) (block_size b) ->
  does (issue fuel MEMORY_TO_PERIPHERAL b c) s (fun _ s' => channel_there s' /\ forall n a, mem s' n a =
    copied (noc_coords_dest c) (dest_address b) (noc_coords_source c) (source_address b) (block_size b) (mem s) n a).
Proof.
  intros Hs Hb Hc Ha. apply issue_ok; [done..|]. intros s2 chan Hch Eh (Ec & Eb & El). cbn [one_transfer].
  eapply does_mono; [apply (mem_to_per_ok fuel Hfuel dma_channel chan b); rewrite ?Ec; done|]. intros rc s' (R & _ & w1 & A1 & Hrc). rewrite Ec in Hrc.
  split; [by eapply channel_kept|]. destruct Hrc as [(_ & Hn & _)|(_ & _ & M & _)]; [by exfalso; apply (Hready _ Hn)|].
  intros n a. rewrite M, (proj1 A1), Eh. done.
Qed.
Lemma issue_per_to_mem b c s :
  channel_there s -> block_ok b -> coords_ok c -> apart (noc_coords_source c) (source_address b) (noc_coords_dest c) (dest_address b) (block_size b) ->
  does (issue fuel PERIPHERAL_TO_MEMORY b c) s (fun _ s' => channel_there s' /\ forall n a, mem s' n a =
    copied (noc_coords_source c) (source_address b) (noc_coords_dest c) (dest_address b) (block_size b) (mem s) n a).
Proof.
  intros Hs Hb Hc Ha. apply issue_ok; [done..|]. intros s2 chan Hch Eh (Ec & Eb & El). cbn [one_transfer].
  eapply does_mono; [apply (per_to_mem_ok fuel Hfuel dma_channel chan b); rewrite ?Ec; done|]. intros rc s' (R & _ & w1 & A1 & Hrc). rewrite Ec in Hrc.
  split; [by eapply channel_kept|]. destruct Hrc as [(_ & Hn & _)|(_ & _ & M & _)]; [by exfalso; apply (Hready _ Hn)|].
  intros n a. rewrite M, (proj1 A1), Eh. done.
Qed.

(** The nodes that the multicast reaches. *)
Definition tensix_group (n : Z * Z) : bool := group (noc_coord_encode_range 2 2 1 11) n.

Lemma issue_broadcast b c s :
  channel_there s -> block_ok b -> coords_ok c ->
  does (issue fuel TT_BH_DMA_NOC_CHANNEL_DIRECTION_BROADCAST b c) s (fun _ s' => channel_there s' /\ forall n a, mem s' n a =
    if tensix_group n && negb (bool_decide (n = noc_coords_dest c)) && in_range a (dest_address b) (block_size b)
    then mem s (noc_coords_dest c) (source_address b + (a - dest_address b)) else mem s n a).
Proof.
  intros Hs (B1 & B2 & B3) [_ [Dx Dy]]. apply issue_ok; [done..|]. intros s2 chan Hch Eh (Ec & Eb & El). cbn [one_transfer]. unfold noc_dma_write_multicast.
  pose proof (coord_decodes _ _ Dx Dy : node_of_coord (noc_coord_encode (dest_x c) (dest_y c)) = noc_coords_dest c) as Ed.
  eapply does_mono; [apply (transfer_started fuel Hfuel _ _ _ _ _ _ _ _ _ (dest_x c) (dest_y c) s2 chan); try done|].
  - unfold understood. cbn [transfer_command c_ctrl c_dst c_src c_src_addr c_dst_addr c_size]. rewrite Ed. split; [unfold in_width in B3; lia|]. split; [done|by left].
  - intros rc s' (R & _ & w1 & A1 & Hrc). split; [by eapply channel_kept|]. destruct Hrc as [(_ & Hn & _)|(_ & _ & M & _)]; [by exfalso; apply (Hready _ Hn)|].
    intros n a. rewrite M. unfold carry_out, receives. cbn [transfer_command c_ctrl c_dst c_src c_src_addr c_dst_addr c_size]. rewrite Ed.
    change (Z.testbit (control NOC_CMD_WR true false) 5) with true. change (Z.testbit (control NOC_CMD_WR true false) 17) with false. cbv iota.
    rewrite orb_false_r, (proj1 A1), Eh. done.
Qed.

(** The first [n] bytes of a node's memory are zero, and nothing else changed since [w]. *)
Definition cleared (tensix : Z * Z) (n : Z) (m m' : Z * Z -> Z -> Z) : Prop :=
  (forall a, 0 <= a < n -> m' tensix a = 0) /\ forall n' a, (n' <> tensix \/ ~ 0 <= a < TENSIX_L1_SIZE) -> m' n' a = m n' a.

Lemma wipe_loop_ok tensix m n : forall offset c s, node_bounds tensix -> noc_coords_source c = tensix ->
  0 < offset < TENSIX_L1_SIZE \/ (TENSIX_L1_SIZE <= offset /\ noc_coords_dest c = tensix) -> 2 * TENSIX_L1_SIZE <= offset * 2 ^ Z.of_nat n -> offset < 2 * TENSIX_L1_SIZE ->
  channel_there s -> cleared tensix (Z.min offset TENSIX_L1_SIZE) m (mem s) ->
  does (wipe_loop fuel n tensix offset c) s (fun c' s' => noc_coords_source c' = tensix /\ noc_coords_dest c' = tensix /\ channel_there s' /\
    cleared tensix TENSIX_L1_SIZE m (mem s')).
Proof.
  induction n as [|n IH]; intros offset c s Hn Hsrc Ho Hbig Hlt Hs [Hz Hk].
  - change (2 ^ Z.of_nat 0) with 1 in Hbig. lia.
  - cbn [wipe_loop]. destruct (Z.ltb_spec offset TENSIX_L1_SIZE) as [Hoff|Hoff].
    2: { destruct Ho as [Ho|[_ Hd]]; [lia|]. apply does_ret. split_and!; [done|done|done|]. split; [|done]. intros a Ha. apply Hz. lia. }
    destruct Ho as [Ho|[Ho _]]; [|lia]. set (size := Z.min offset (TENSIX_L1_SIZE - offset)). rewrite Z.min_l in Hz by lia.
    set (c1 := MkCoords (source_x c) (source_y c) tensix.1 tensix.2). unfold TENSIX_L1_SIZE in *.
    assert (Es : noc_coords_source c1 = tensix) by exact Hsrc. assert (Ed : noc_coords_dest c1 = tensix) by (by destruct tensix).
    eapply does_bind; [apply (issue_per_to_mem (MkBlock 0 offset size) c1 s Hs)|].
    + unfold block_ok, in_width. cbn. lia.
    + split; [by rewrite Es|by rewrite Ed].
    + right. left. cbn. lia.
    + cbn [source_address dest_address block_size]. rewrite Es, Ed. intros _ s1 [Hs1 M1]. rewrite wrap_small by (unfold in_width; lia).
      apply IH; [done|done| | |lia|done|].
      * destruct (Z.lt_ge_cases (offset + offset) (1536 * 1024)); [left; lia|right; done].
      * replace ((offset + offset) * 2 ^ Z.of_nat n) with (offset * 2 ^ Z.of_nat (S n)); [lia|]. rewrite Nat2Z.inj_succ, Z.pow_succ_r by lia. lia.
      * assert (Hin : forall a, 0 <= a < Z.min (offset + offset) (1536 * 1024) -> mem s1 tensix a = 0).
        { intros a Ha. rewrite M1. unfold copied, in_range. rewrite bool_decide_true by done. cbn [andb].
          destruct (Z.leb_spec offset a); cbn [andb]; [|apply Hz; lia]. destruct (Z.ltb_spec a (offset + size)); [|lia]. apply Hz. lia. }
        split; [exact Hin|]. intros n' a Hna. rewrite M1. unfold copied, in_range.
        destruct (bool_decide_reflect (n' = tensix)) as [->|]; cbn [andb]; [|by apply Hk; left]. destruct Hna as [?|Hna]; [done|]. unfold TENSIX_L1_SIZE in Hna.
        destruct (Z.leb_spec offset a); cbn [andb]; [|apply Hk; by right]. destruct (Z.ltb_spec a (offset + size)); [lia|]. apply Hk. by right.
Qed.

End wipe.

(** ** The wipe of the DEST registers *)

(** [core] is what was last multicast to an address of the Tensix cores.  Only the counter's
    node is written otherwise; [cycles_left] bounds the polls that a wait can still make. *)
Class DestLaws (W : Type) `{NocHw W} `{TensixHw W} `{SpiFlashBuf.SpiHw W} `{!TlbRegs W} := {
  core : W -> Z -> Z;
  cycles_left : Z -> W -> nat;
  law_dest_tlb k v w : 0 <= k < 64 -> core (WriteReg (tlb_reg_addr 0 k) v w) = core w;
  law_mcast a0 a v w : 0 <= a0 < 2 ^ 32 -> 0 <= a < 2 ^ 32 -> Z.shiftr a0 24 = Z.shiftr a 24 ->
    tlb w 0 = tlb0_word a0 -> tlb w 1 = u32 (Z.shiftr a0 32) ->
    tlb w 32 = tlb2_word TENSIX_X_END TENSIX_Y_END TENSIX_X_START TENSIX_Y_START 1 kNoc2AxiOrderingStrict ->
    let w' := WriteReg (GetTlbWindowAddr 0 0 a) v w in
    tlb w' = tlb w /\ forall b, core w' b = if b =? a then v else core w b;
  law_unicast n a v w : opened 0 n a w -> let w' := WriteReg (GetTlbWindowAddr 0 0 a) v w in core w' = core w;
  law_around w w' :
    (exists r, find_destwipe w = (r, w')) \/ (exists a b n r, SpiFlashBuf.flash_read a b n w = (r, w')) \/ (exists t, k_cycle_get_32 w = (t, w')) \/
    (exists n, w' = k_busy_wait n w) -> tlb w' = tlb w /\ core w' = core w;
  law_cycle start w t w' : k_cycle_get_32 w = (t, w') ->
    (cycles_left start w' <= cycles_left start w)%nat /\
    (u32 (t - start) < k_us_to_cyc_ceil32 WIPE_DEST_TIMEOUT_US -> (cycles_left start (k_busy_wait 10 w') < cycles_left start w')%nat)
}.

Section restores.
Context {W : Type} `{DestLaws W}.

Definition same_cores (w w' : W) : Prop := core w' = core w.
#[export] Instance same_cores_preorder : PreOrder same_cores.
Proof. split; [done|]. unfold same_cores. intros w1 w2 w3. congruence. Qed.

(** Window 0 multicasts to the Tensix tiles at [a]. *)
Definition mcast_opened (a : Z) (w : W) : Prop :=
  tlb w 0 = tlb0_word a /\ tlb w 1 = u32 (Z.shiftr a 32) /\
  tlb w 32 = tlb2_word TENSIX_X_END TENSIX_Y_END TENSIX_X_START TENSIX_Y_START 1 kNoc2AxiOrderingStrict.

Lemma mcast_setup a w : mcast_opened a (setup_tensix_mcast_tlb a w) /\ same_cores w (setup_tensix_mcast_tlb a w).
Proof.
  split.
  - by apply (WriteTlbSetup_tlb 0 (tlb0_word a) (u32 (Z.shiftr a 32)) _ 0 w).
  - apply (WriteTlbSetup_rel same_cores); [done|]. intros j v w' Hj. by apply law_dest_tlb.
Qed.
Lemma unicast_setup x y a w : opened 0 (x, y) a (NOC2AXITlbSetup 0 0 x y a w) /\ same_cores w (NOC2AXITlbSetup 0 0 x y a w).
Proof.
  split; [by apply setup_opened|]. apply (NOC2AXITlbSetup_rel same_cores); [done|]. intros j v w' Hj. by apply law_dest_tlb.
Qed.
Lemma mcast_write a0 a v w : 0 <= a0 < 2 ^ 32 -> 0 <= a < 2 ^ 32 -> Z.shiftr a0 24 = Z.shiftr a 24 -> mcast_opened a0 w ->
  mcast_opened a0 (NOC2AXIWrite32 0 0 a v w) /\ forall b, core (NOC2AXIWrite32 0 0 a v w) b = if b =? a then v else core w b.
Proof.
  intros Ha0 Ha E (T0 & T1 & T2). destruct (law_mcast a0 a v w Ha0 Ha E T0 T1 T2) as [T C]. split; [|exact C].
  unfold mcast_opened, NOC2AXIWrite32. by rewrite !T.
Qed.

(** The control registers of the cores. *)
Definition controls : list Z := [SOFT_RESET_0; TRISC_RESET_PC_OVERRIDE; TRISC0_RESET_PC].
Definition same_controls (w w' : W) : Prop := forall a, a ∈ controls -> core w' a = core w a.

Lemma write_words_ok l : forall a w, 0 <= a -> a + 4 * len l <= 2 ^ 24 -> mcast_opened TRISC_WIPE_FW_LOAD_ADDR w ->
  mcast_opened TRISC_WIPE_FW_LOAD_ADDR (write_words a l w) /\ same_controls w (write_words a l w).
Proof.
  induction l as [|v l IH]; intros a w Ha Hl Ho; cbn [write_words]; [done|]. cbn [length] in Hl.
  destruct (mcast_write TRISC_WIPE_FW_LOAD_ADDR a v w) as [O1 C1]; [done|lia| |done|].
  { change (Z.shiftr TRISC_WIPE_FW_LOAD_ADDR 24) with 0. rewrite Z.shiftr_div_pow2 by done. symmetry. apply Z.div_small. lia. }
  destruct (IH (a + 4) (NOC2AXIWrite32 0 0 a v w)) as [O2 C2]; [lia|lia|done|]. split; [done|]. intros b Hb. rewrite C2, C1 by done.
  assert (Forall (fun b => 0xFF000000 <= b) controls) as Hc by (repeat constructor; done). rewrite Forall_forall in Hc. specialize (Hc b Hb).
  by destruct (Z.eqb_spec b a); [lia|].
Qed.
Lemma words_length n l : length (words n l) = n.
Proof. revert l. induction n as [|n IH]; intros l; [done|]. cbn. by rewrite IH. Qed.

Lemma load_ok copy_fuel : forall src buf_size dst size offset rc buf w,
  0 < buf_size -> 0 <= size < Z.of_nat copy_fuel -> 0 <= offset -> 0 <= dst -> dst + offset + size <= 2 ^ 24 -> mcast_opened TRISC_WIPE_FW_LOAD_ADDR w ->
  exists rc' w', SpiFlashBuf.transfer_loop copy_fuel noc2axi_write32_fw src buf_size dst size offset rc buf w = Some (rc', w') /\ same_controls w w'.
Proof.
  induction copy_fuel as [|n IH]; intros src buf_size dst size offset rc buf w Hb Hs Ho Hd Hd' Hop; [lia|]. cbn [SpiFlashBuf.transfer_loop].
  destruct (Z.ltb_spec 0 (Z.min buf_size size)); [|by eexists _, _]. set (k := Z.min buf_size size) in *.
  destruct (SpiFlashBuf.flash_read _ buf k w) as [[rc1 buf1] w1] eqn:E.
  destruct (law_around w w1) as [T1 C1]; [right; left; eauto|]. assert (S1 : same_controls w w1) by (intros a _; by rewrite C1).
  destruct (rc1 <? 0); [by eexists _, _|]. rewrite (wrap_small 32 (dst + offset)) by (unfold in_width; lia). cbn [noc2axi_write32_fw].
  assert (Hk : 4 * (k / 4) <= k) by (Z.to_euclidean_division_equations; lia). assert (0 <= k / 4) by (apply Z.div_pos; lia).
  destruct (write_words_ok (words (Z.to_nat (k / 4)) buf1) (dst + offset) w1) as [O2 C2].
  { lia. } { rewrite words_length. lia. } { unfold mcast_opened. by rewrite !T1. }
  unfold noc2axi_write32_fw at 1. change (0 <? 0) with false. cbv iota.
  rewrite (wrap_small 32 (size - k)), (wrap_small 32 (offset + k)) by (unfold in_width; lia).
  destruct (IH src buf_size dst (size - k) (offset + k) 0 buf1 (write_words (dst + offset) (words (Z.to_nat (k / 4)) buf1) w1)) as (rc' & w' & E' & S');
    [lia..|done|]. exists rc', w'. split; [exact E'|]. intros a Ha. by rewrite S', C2, S1.
Qed.

Lemma wait_counter_ok fuel expected start : forall w, (cycles_left start w < fuel)%nat ->
  exists b w', wait_counter fuel expected start w = Some (b, w') /\ same_cores w w' /\ tlb w' = tlb w /\
    b = (expected <=? ReadReg (GetTlbWindowAddr 0 0 COUNTER_L1_ADDR) w').
Proof.
  induction fuel as [|fuel IH]; intros w Hf; [lia|]. cbn [wait_counter]. destruct (expected <=? _) eqn:Ee; [by eexists _, _|].
  destruct (k_cycle_get_32 w) as [now w1] eqn:E. destruct (law_around w w1) as [T1 C1]; [right; right; left; eauto|].
  destruct (law_cycle start w now w1 E) as [Hle Hlt]. destruct (Z.ltb_spec (u32 (now - start)) (k_us_to_cyc_ceil32 WIPE_DEST_TIMEOUT_US)) as [Hc|_].
  - destruct (law_around w1 (k_busy_wait 10 w1)) as [T2 C2]; [right; right; right; eauto|].
    destruct (IH (k_busy_wait 10 w1)) as (b & w' & E' & C' & T' & Eb); [specialize (Hlt Hc); lia|]. exists b, w'. split_and!; [done| |congruence|done].
    unfold same_cores in *. congruence.
  - by eexists _, _.
Qed.

Lemma setup_write_all a0 l w : 0 <= a0 < 2 ^ 32 -> Forall (fun p => 0 <= p.1 < 2 ^ 32 /\ Z.shiftr a0 24 = Z.shiftr p.1 24) l ->
  let w' := fold_left (fun w p => NOC2AXIWrite32 0 0 p.1 p.2 w) l (setup_tensix_mcast_tlb a0 w) in
  forall b, core w' b = written_regs l (core w) b.
Proof.
  intros Ha0. cbv zeta. destruct (mcast_setup a0 w) as [Ho Hc]. unfold same_cores in Hc. rewrite <- Hc. clear Hc.
  revert Ho. generalize (setup_tensix_mcast_tlb a0 w). clear w. induction l as [|p l IH]; intros w Ho Hl b; [done|].
  apply Forall_cons in Hl as [[Hp E] Hl]. destruct (mcast_write a0 p.1 p.2 w Ha0 Hp E Ho) as [O1 C1]. cbn [fold_left]. rewrite IH by done.
  cbn. by apply written_regs_ext.
Qed.

(** The wipe of the DEST registers returns, and never leaves a core running.  Without
    the firmware's image the cores' controls are as before, and so they are when the
    image does not load.  Otherwise, whether or not all cores have reported in time,
    every core ends in soft reset with the override of its start address off; the
    code is 0 exactly when the counter has reached ten times the number of enabled
    columns, at the last look. *)
Theorem wipe_dest_restores (fuel copy_fuel : nat) tensix tensix_col_enabled (wipe_dest_buf : list Z) (w : W)
    (Hfuel : forall start w', (cycles_left start w' < fuel)%nat) (Hbuf : 0 < len wipe_dest_buf)
    (Himage : forall a n w', find_destwipe w = (inr (a, n), w') -> 0 <= n < 2 ^ 20) (Herr : forall rc w', find_destwipe w = (inl rc, w') -> rc < 0)
    (Hcopy : 2 ^ 20 < Z.of_nat copy_fuel) :
  exists rc w', wipe_dest fuel copy_fuel tensix tensix_col_enabled wipe_dest_buf w = Some (rc, w') /\
    ((rc < 0 /\ same_controls w w') \/
     ((rc = 0 \/ rc = - ETIMEDOUT) /\ core w' SOFT_RESET_0 = ALL_RISC_SOFT_RESET /\ core w' TRISC_RESET_PC_OVERRIDE = 0 /\
      exists w1, core w1 SOFT_RESET_0 = Z.ldiff ALL_RISC_SOFT_RESET (BIT 12) /\
        (rc = 0 <-> POPCOUNT tensix_col_enabled * NUM_TENSIX_ROWS <= ReadReg (GetTlbWindowAddr 0 0 COUNTER_L1_ADDR) w1))).
Proof.
  unfold wipe_dest. destruct tensix as [x y]. destruct (find_destwipe w) as [[rc|[spi n]] w1] eqn:Ef; destruct (law_around w w1) as [T1 C1]; try by left; eauto.
  { exists rc, w1. split; [done|]. left. split; [by eapply Herr|]. intros a _. by rewrite C1. }
  specialize (Himage _ _ _ eq_refl). set (w2 := NOC2AXITlbSetup 0 0 x y COUNTER_L1_ADDR w1). destruct (unicast_setup x y COUNTER_L1_ADDR w1) as [O2 C2]. fold w2 in O2, C2.
  pose proof (law_unicast (x, y) COUNTER_L1_ADDR 0 w2 O2 : core (NOC2AXIWrite32 0 0 COUNTER_L1_ADDR 0 w2) = core w2) as C3. set (w3 := NOC2AXIWrite32 0 0 COUNTER_L1_ADDR 0 w2) in *.
  destruct (mcast_setup TRISC_WIPE_FW_LOAD_ADDR w3) as [O4 C4]. set (w4 := setup_tensix_mcast_tlb TRISC_WIPE_FW_LOAD_ADDR w3) in *.
  assert (Hsz : 0 <= ROUND_UP n 4 <= 2 ^ 20) by (unfold ROUND_UP; change (2 ^ 20) with 1048576 in *; Z.to_euclidean_division_equations; lia).
  rewrite (wrap_small 32 (ROUND_UP n 4)) by (unfold in_width; lia). unfold SpiFlashBuf.spi_transfer_by_parts.
  rewrite (proj2 (Z.eqb_neq _ _)) by lia. rewrite (proj2 (Z.ltb_ge _ _)) by (unfold SpiFlashBuf.INT32_MAX; lia).
  destruct (load_ok copy_fuel spi (len wipe_dest_buf) TRISC_WIPE_FW_LOAD_ADDR (ROUND_UP n 4) 0 0 wipe_dest_buf w4) as (rc & w5 & E5 & C5);
    [lia|lia|done|done|unfold TRISC_WIPE_FW_LOAD_ADDR; lia|done|]. rewrite E5. cbn [mbind option_bind].
  assert (S5 : same_controls w w5) by (intros a Ha; unfold same_cores in *; rewrite (C5 a Ha); congruence).
  destruct (Z.ltb_spec rc 0) as [Hrc|Hrc]; [by exists rc, w5; split; [|left]|].
  pose proof (setup_write_all COUNTER_COORD_L1_ADDR [(COUNTER_COORD_L1_ADDR, x); (COUNTER_COORD_L1_ADDR + 4, y)] w5 ltac:(done) ltac:(by repeat constructor)) as C6.
  cbn [fold_left fst snd] in C6. set (w6 := NOC2AXIWrite32 0 0 (COUNTER_COORD_L1_ADDR + 4) y _) in *.
  pose proof (setup_write_all TRISC0_RESET_PC [(TRISC0_RESET_PC, TRISC_WIPE_FW_LOAD_ADDR); (TRISC_RESET_PC_OVERRIDE, 1); (SOFT_RESET_0, Z.ldiff ALL_RISC_SOFT_RESET (BIT 12))] w6
    ltac:(done) ltac:(by repeat constructor)) as C7. cbn [fold_left fst snd] in C7. set (w7 := NOC2AXIWrite32 0 0 SOFT_RESET_0 (Z.ldiff ALL_RISC_SOFT_RESET (BIT 12)) _) in *.
  set (expected := POPCOUNT tensix_col_enabled * NUM_TENSIX_ROWS). unfold global_sync.
  destruct (unicast_setup x y COUNTER_L1_ADDR w7) as [O8 C8]. set (w8 := NOC2AXITlbSetup 0 0 x y COUNTER_L1_ADDR w7) in *.
  destruct (k_cycle_get_32 w8) as [start w9] eqn:E9. destruct (law_around w8 w9) as [T9 C9]; [right; right; left; eauto|].
  destruct (wait_counter_ok fuel expected start w9) as (b & w10 & E10 & C10 & _ & Eb); [apply Hfuel|]. rewrite E10. cbn [mbind option_bind].
  pose proof (setup_write_all SOFT_RESET_0 [(SOFT_RESET_0, ALL_RISC_SOFT_RESET); (TRISC_RESET_PC_OVERRIDE, 0)] w10 ltac:(done) ltac:(by repeat constructor)) as C11.
  cbn [fold_left fst snd] in C11. set (w11 := NOC2AXIWrite32 0 0 TRISC_RESET_PC_OVERRIDE 0 _) in *.
  exists (if b then 0 else - ETIMEDOUT), w11. split; [by destruct b|]. right. split; [destruct b; auto|]. split; [by rewrite C11|]. split; [by rewrite C11|].
  exists w10. split; [unfold same_cores in *; rewrite C10, C9, C8, C7; done|]. rewrite Eb. destruct (Z.leb_spec expected (ReadReg (GetTlbWindowAddr 0 0 COUNTER_L1_ADDR) w10)); split; (done || lia || intros; unfold ETIMEDOUT in *; lia).
Qed.
End restores.

(** ** Networks that obey the laws *)

(** *** The wipe of the L1 memories, on the network of [NocDma] *)
#[export] Instance net_TensixHw : TensixHw net := {
  find_destwipe x := (inl (- 2), x);
  k_us_to_cyc_ceil32 us := us;
  k_cycle_get_32 x := (0, x);
  k_busy_wait _ x := x;
  zero_buffer a n x :=
    MkNet (x_tlb x) (x_reg x) (fun n' b => if bool_decide (n' = (ARC_NOC0_X, ARC_NOC0_Y)) && in_range b a n then 0 else x_mem x n' b)
      (x_sent x) (x_got x) (x_time x) (x_rate x) (x_calls x)
}.
#[export] Instance net_zero : ZeroLaws net.
Proof. by constructor. Defined.

Lemma net_ready n : ~ not_ready (W := net) 51 n.
Proof.
  intros (s & s' & Ho & E). unfold noc_wait_cmd_ready in E. cbn in E. by injection E.
Qed.


(** *** The wipe of the DEST registers: cores, a counter that rises with time, the image *)
Record cores := MkCores { k_tlb : Z -> Z; k_core : Z -> Z; k_count : Z; k_cycles : Z; k_rate : Z; k_image : bool; k_loads : bool }.
Definition cores_target (x : cores) (a : Z) : option Z :=
  let d := a - ARC_NOC0_BASE_ADDR in if (0 <=? d) && (d <? 2 ^ 24) then Some (Z.shiftl (k_tlb x 1) 32 + k_tlb x 0 + d) else None.
#[export] Instance cores_NocHw : NocHw cores := {
  ReadReg a x := k_count x;
  WriteReg a v x :=
    match cores_target x a with
    | Some o =>
        if Z.testbit (k_tlb x 32) 24 then
          MkCores (k_tlb x) (fun b => if b =? o then v else k_core x b) (k_count x) (k_cycles x) (k_rate x) (k_image x) (k_loads x)
        else MkCores (k_tlb x) (k_core x) v (k_cycles x) (k_rate x) (k_image x) (k_loads x)
    | None => MkCores (fun j => if tlb_index a =? j then v else k_tlb x j) (k_core x) (k_count x) (k_cycles x) (k_rate x) (k_image x) (k_loads x)
    end
}.
#[export] Instance cores_TensixHw : TensixHw cores := {
  find_destwipe x := (if k_image x then inr (0x1000, 30) else inl (- 2), x);
  k_us_to_cyc_ceil32 us := us;
  k_cycle_get_32 x := (u32 (k_cycles x), x);
  k_busy_wait n x := MkCores (k_tlb x) (k_core x) (k_count x + k_rate x) (k_cycles x + Z.max 1 n) (k_rate x) (k_image x) (k_loads x);
  zero_buffer _ _ x := x
}.
#[export] Instance cores_SpiHw : SpiFlashBuf.SpiHw cores := {
  flash_read _ buf _ x := (if k_loads x then 0 else - 5, buf, x);
  dma_arc_hs_transfer _ _ _ _ x := (0, x)
}.
#[export] Instance cores_tlb : TlbRegs cores.
Proof.
  refine {| tlb := k_tlb |}. intros w k v Hk j. cbn [WriteReg cores_NocHw]. unfold cores_target. cbv zeta. unfold tlb_reg_addr at 1 2.
  change (GetTlbRegStartAddr 0) with 0x80051000. change ARC_NOC0_BASE_ADDR with 0xC0000000. rewrite (proj2 (Z.leb_gt _ _)) by lia. cbn. by rewrite tlb_index_of.
Defined.
Lemma cores_target_window (x : cores) a0 a : 0 <= a0 < 2 ^ 32 -> Z.shiftr a0 24 = Z.shiftr a 24 ->
  k_tlb x 0 = tlb0_word a0 -> k_tlb x 1 = u32 (Z.shiftr a0 32) -> cores_target x (GetTlbWindowAddr 0 0 a) = Some a.
Proof.
  intros Ha0 E T0 T1. rewrite window_addr_of, window_addr_0 by done. unfold cores_target. cbv zeta.
  pose proof (Z.mod_pos_bound a (2 ^ 24) ltac:(done)). rewrite (proj2 (Z.leb_le _ _)), (proj2 (Z.ltb_lt _ _)) by lia. cbn [andb]. f_equal.
  rewrite T0, T1, <- window_base_words by lia. rewrite <- (window_base_off a0 a E) at 2. lia.
Qed.
(** Cycles of the timeout that are left: the counter wraps. *)
Definition cores_left (start : Z) (x : cores) : nat := Z.to_nat (2 ^ 32 - u32 (k_cycles x - start)).

Lemma cores_left_bound start (x : cores) : (cores_left start x < Z.to_nat (2 ^ 32 + 1))%nat.
Proof. unfold cores_left. pose proof (u32_range (k_cycles x - start)) as Hr. unfold in_width in Hr. lia. Qed.

#[export] Instance cores_laws : DestLaws cores.
Proof.
  refine {| core := k_core; cycles_left := cores_left |}.
  - intros k v w Hk. cbn [WriteReg cores_NocHw]. unfold cores_target. cbv zeta. unfold tlb_reg_addr at 1 2.
    change (GetTlbRegStartAddr 0) with 0x80051000. change ARC_NOC0_BASE_ADDR with 0xC0000000. by rewrite (proj2 (Z.leb_gt _ _)) by lia.
  - intros a0 a v w Ha0 Ha E T0 T1 T2. cbn [WriteReg cores_NocHw]. rewrite (cores_target_window w a0 a Ha0 E T0 T1).
    assert (k_tlb w 32 = tlb2_word TENSIX_X_END TENSIX_Y_END TENSIX_X_START TENSIX_Y_START 1 kNoc2AxiOrderingStrict) as -> by exact T2. done.
  - intros n a v w (T0 & T1 & T2). cbn [WriteReg cores_NocHw]. destruct (cores_target _ _); [|done].
    assert (Z.testbit (k_tlb w 32) 24 = false) as ->; [|done]. assert (k_tlb w 32 = tlb2_word n.1 n.2 0 0 0 kNoc2AxiOrderingStrict) as -> by exact T2.
    unfold tlb2_word. rewrite !bits_set_spec by lia. done.
  - intros w w' [(r & E)|[(a & b & n & r & E)|[(t & E)|(n & ->)]]]; cbn in *; by simplify_eq.
  - intros start w t w' E. cbn in E. injection E as <- <-. split; [lia|]. cbn [k_us_to_cyc_ceil32 cores_TensixHw k_busy_wait]. unfold cores_left, WIPE_DEST_TIMEOUT_US.
    cbn [k_cycles]. intros Hlt. word_lia.
Defined.

Definition cores0 (rate : Z) (image loads : bool) : cores := MkCores (fun _ => 0) (fun _ => 7) 99 (2 ^ 32 - 5) rate image loads.
(** The code, the soft reset, the override, and the firmware's first word. *)
Definition run_dest (rate : Z) (image loads : bool) : option (Z * list Z) :=
  (fun r => (r.1, map (k_core r.2) [SOFT_RESET_0; TRISC_RESET_PC_OVERRIDE; TRISC_WIPE_FW_LOAD_ADDR; TRISC_WIPE_FW_LOAD_ADDR + 28])) <$>
    wipe_dest 1100 100 (1, 2) 0x3ffe [1; 2; 3; 4; 5; 6; 7; 8] (cores0 rate image loads).

(** All cores report, or too few, or the image does not load, or is not there. *)
Lemma wipe_dest_restores_witness :
  (exists rc w', wipe_dest (Z.to_nat (2 ^ 32 + 1)) (Z.to_nat (2 ^ 20 + 1)) (1, 2) 0x3ffe [1; 2; 3; 4] (cores0 1 true true) = Some (rc, w') /\
     (rc < 0 \/ core w' SOFT_RESET_0 = ALL_RISC_SOFT_RESET)) /\
  run_dest 1 true true = Some (0, [ALL_RISC_SOFT_RESET; 0; 0x04030201; 0x08070605]) /\
  run_dest 0 true true = Some (- ETIMEDOUT, [ALL_RISC_SOFT_RESET; 0; 0x04030201; 0x08070605]) /\
  run_dest 1 true false = Some (- 5, [7; 7; 7; 7]) /\ run_dest 1 false true = Some (- 2, [7; 7; 7; 7]).
Proof.
  split; [|split_and!; vm_compute; reflexivity].
  destruct (wipe_dest_restores (Z.to_nat (2 ^ 32 + 1)) (Z.to_nat (2 ^ 20 + 1)) (1, 2) 0x3ffe [1; 2; 3; 4] (cores0 1 true true)) as (rc & w' & E & Hr).
  - apply cores_left_bound.
  - done.
  - intros a n w' E. cbn in E. injection E as <- <- <-. lia.
  - intros rc w' E. cbn in E. discriminate.
  - lia.
  - exists rc, w'. split; [exact E|]. destruct Hr as [[? _]|(_ & ? & _)]; auto.
Defined.

(** ** Clock gating is left alone where it is asked for

    The guard of [EnableTensixCG] is the wrong way round: with the feature enabled, as in the
    firmware table of every board, nothing is written. *)
Lemma cg_enabled_skips {W} `{NocHw W} translated broadcast x y (w : W) : EnableTensixCG true translated broadcast x y w = w.
Proof. done. Qed.
Lemma cg_disabled_enables : k_core (EnableTensixCG false true true 0 0 (cores0 0 true true)) cg_ctrl_en = 0xFFFFFFFF.
Proof. vm_compute. reflexivity. Qed.

(** A failure is a bit of the status, once and for all. *)
Lemma record_init_failure_bits {W} `{NocHw W} stage e (w : W) i : 0 <= stage -> 0 <= i ->
  Z.testbit (record_init_failure stage e w).1 i = Z.testbit e i || ((stage <? INIT_STAGE_COUNT) && (i =? stage)).
Proof.
  intros Hs Hi. unfold record_init_failure. destruct (Z.leb_spec INIT_STAGE_COUNT stage), (Z.ltb_spec stage INIT_STAGE_COUNT); try lia; cbn [fst andb].
  - by rewrite orb_false_r.
  - rewrite Z.lor_spec, bit_BIT by done. by rewrite Z.eqb_sym.
Qed.
