(* ===== verification/NocTables.v ===== *)
(** * The translation tables are right

    What [ComputeNocTranslation] of [NocInit] produces: the tables in closed form,
    the Tensix columns as a permutation with the good ones first, and a logical
    coordinate for every node that the tables lead back to that node. *)

From S2P Require Import Prelude Noc Harvesting NocInit.

(** ** Array lemmas *)

(** The list with [vs] written at position [i]. *)
Definition splice (l : list Z) (i : nat) (vs : list Z) : list Z := take i l ++ vs ++ drop (i + length vs) l.

Lemma splice_length l i vs : (i + length vs <= length l)%nat -> length (splice l i vs) = length l.
Proof. intros. unfold splice. rewrite !length_app, length_take, length_drop. lia. Qed.

Lemma splice_nil l i : splice l i [] = l.
Proof. unfold splice. cbn [app length]. by rewrite Nat.add_0_r, take_drop. Qed.

Lemma splice_snoc l i v vs :
  (i + S (length vs) <= length l)%nat ->
  splice (<[i + length vs := v]> l)%nat i vs = splice l i (vs ++ [v]).
Proof.
  intros. unfold splice. rewrite length_app, <- app_assoc. cbn [length app].
  rewrite take_insert_ge by lia. f_equal. f_equal.
  rewrite (drop_S _ v) by (apply list_lookup_insert_eq; lia).
  rewrite drop_insert_lt by lia. do 2 f_equal. lia.
Qed.

Lemma splice_cons l i v vs :
  (i + S (length vs) <= length l)%nat -> splice (<[i := v]> l) (S i) vs = splice l i (v :: vs).
Proof.
  intros. unfold splice. cbn [app length].
  rewrite (take_S_r _ i v) by (apply list_lookup_insert_eq; lia).
  rewrite take_insert_ge, drop_insert_lt by lia. rewrite <- app_assoc. cbn [app].
  by rewrite Nat.add_succ_r.
Qed.

Lemma copy_to_splice l i vs :
  (i + length vs <= length l)%nat -> copy_to l (Z.of_nat i) vs = Some (splice l i vs).
Proof.
  revert l i. induction vs as [|v vs IH]; intros l i Hl; cbn [copy_to length] in *.
  - by rewrite splice_nil.
  - rewrite aset_in by lia. rewrite Nat2Z.id. cbn.
    replace (Z.of_nat i + 1) with (Z.of_nat (S i)) by lia.
    rewrite IH by (rewrite length_insert; lia). by rewrite splice_cons by lia.
Qed.

(** ** The column loops *)

Lemma lnot_lsb_range m : 0 < m < 2 ^ 32 -> 0 <= Z.land m (Z.lnot (LSB_GET m)) < 2 ^ 32.
Proof.
  intros Hm. assert (0 <= Z.land m (Z.lnot (LSB_GET m))) by (apply Z.land_nonneg; lia).
  split; [done|]. apply bits_lt_pow2; [done|lia|]. intros i.
  rewrite Z.land_spec. intros [Hi _]%andb_true_iff.
  destruct (Z.lt_ge_cases i 32) as [|Hge]; [done|].
  rewrite (testbit_above m 32) in Hi by lia. done.
Qed.

Lemma bits_of_nil m : 0 <= m < 2 ^ 32 -> bits_of m = [] -> m = 0.
Proof.
  intros Hm Hn. destruct (Z.eq_dec m 0) as [|]; [done|]. rewrite bits_of_pop in Hn by lia. done.
Qed.

(** Ascending: the first [n] bits are written from column [x] on. *)
Lemma fill_columns_up n x m nt :
  0 <= m < 2 ^ 32 -> (x + n <= length (translate_table_x nt))%nat ->
  exists m', fill_columns n (Z.of_nat x) 1 Some m nt =
    Some (m', set_tables (splice (translate_table_x nt) x (take n (bits_of m))) (translate_table_y nt) nt) /\
    0 <= m' < 2 ^ 32 /\ bits_of m' = drop n (bits_of m).
Proof.
  revert x m nt. induction n as [|n IH]; intros x m nt Hm Hlen; cbn [fill_columns].
  - exists m. split_and!; try lia; [|done]. cbn [take]. rewrite splice_nil. by destruct nt.
  - destruct (Z.eqb_spec m 0) as [->|Hne].
    + exists 0. rewrite bits_of_0, take_nil, drop_nil. split_and!; try lia; [|done].
      rewrite splice_nil. by destruct nt.
    + rewrite bits_of_pop by lia. cbv zeta. cbn [mbind option_bind].
      unfold set_x. rewrite aset_in by lia. cbn [mbind option_bind].
      replace (Z.of_nat x + 1) with (Z.of_nat (S x)) by lia. rewrite Nat2Z.id.
      match goal with |- context [fill_columns n _ _ _ ?m1 ?nt1] =>
        destruct (IH (S x) m1 nt1) as (m' & -> & Hm' & Hb) end.
      { apply lnot_lsb_range. lia. }
      { cbn. rewrite length_insert. lia. }
      exists m'. split; [|split; [done|]].
      * cbn [set_tables translate_table_x translate_table_y]. rewrite splice_cons; [done|].
        rewrite length_take. lia.
      * done.
Qed.

(** Descending, with a partial map of the bits: [vs] ends at column [x]. *)
Lemma fill_columns_down n x value m nt vs :
  0 <= m < 2 ^ 32 -> mapM value (bits_of m) = Some vs -> (length vs <= n)%nat ->
  (n <= x)%nat -> (x < length (translate_table_x nt))%nat ->
  fill_columns n (Z.of_nat x) (-1) value m nt =
    Some (0, set_tables (splice (translate_table_x nt) (S x - length vs) (rev vs)) (translate_table_y nt) nt).
Proof.
  revert x m nt vs. induction n as [|n IH]; intros x m nt vs Hm Hvs Hn Hx Hlen; cbn [fill_columns].
  - destruct vs; [|cbn in Hn; lia]. pose proof (length_mapM _ _ _ Hvs) as Hl.
    assert (bits_of m = []) as Hl' by (apply nil_length_inv; cbn in Hl; lia). rewrite (bits_of_nil m Hm Hl'). cbn [rev]. rewrite splice_nil. by destruct nt.
  - destruct (Z.eqb_spec m 0) as [->|Hne].
    + rewrite bits_of_0 in Hvs. injection Hvs as <-. cbn [rev]. rewrite splice_nil. by destruct nt.
    + rewrite bits_of_pop in Hvs by lia. cbn [mapM] in Hvs. cbv zeta.
      destruct (value _) as [v|]; [|done]. cbn [mbind option_bind] in *.
      destruct (mapM _ _) as [vs'|] eqn:E; [|done]. injection Hvs as <-. cbn [length] in *.
      unfold set_x. rewrite aset_in by lia. cbn [mbind option_bind]. rewrite Nat2Z.id.
      replace (Z.of_nat x + -1) with (Z.of_nat (x - 1)) by lia.
      rewrite (IH (x - 1)%nat _ _ vs'); [|apply lnot_lsb_range; lia|done|lia|lia|cbn; rewrite length_insert; lia].
      cbn [set_tables translate_table_x translate_table_y rev].
      rewrite <- splice_snoc by (rewrite length_rev; lia). rewrite length_rev.
      replace (S (x - 1) - length vs')%nat with (S x - S (length vs'))%nat by lia.
      by replace (S x - S (length vs') + length vs')%nat with x by lia.
Qed.

(** ** Tensix columns *)

(** The Tensix columns in NOC 0 order, and the one of instance [i]. *)
Definition tensix_cols : list Z := seqZ 1 7 ++ seqZ 10 7.
Definition tensix_col (i : Z) : Z := nth (Z.to_nat i) kTensixEthNoc0X 0.

Lemma tensix_cols_NoDup : NoDup tensix_cols.
Proof.
  apply NoDup_app. split_and!; [apply NoDup_seqZ| |apply NoDup_seqZ].
  intros x. rewrite !elem_of_seqZ. lia.
Qed.

(** Whether the column at NOC 0 [x] is bad. *)
Definition column_bad (bad x : Z) : bool :=
  existsb (fun i => (tensix_col i =? x) && Z.testbit bad i) (seqZ 0 14).

Lemma column_bad_spec bad x :
  column_bad bad x = true <-> exists i, 0 <= i < 14 /\ tensix_col i = x /\ Z.testbit bad i = true.
Proof.
  unfold column_bad. rewrite existsb_exists. setoid_rewrite <- list_elem_of_In. setoid_rewrite elem_of_seqZ.
  split; intros (i & Hi & H); exists i.
  - apply andb_true_iff in H as [H1%Z.eqb_eq H2]. split_and!; done || lia.
  - destruct H as [H1%Z.eqb_eq H2]. split; [lia|]. by rewrite H1, H2.
Qed.

Lemma aget_tensix_col i : 0 <= i < 14 -> aget kTensixEthNoc0X i = Some (tensix_col i).
Proof.
  intros. rewrite aget_nat by lia. unfold tensix_col.
  apply nth_lookup_Some_alt || (rewrite nth_lookup; destruct (_ !! _) eqn:E; [done|];
    apply lookup_ge_None_1 in E; cbn in E; lia).
Qed.

Lemma tensix_col_cases i : 0 <= i < 14 -> i ∈ seqZ 0 14.
Proof. rewrite elem_of_seqZ. lia. Qed.

(** A property of the fourteen instances, checked one by one. *)
Lemma forall_14 (P : Z -> bool) : forallb P (seqZ 0 14) = true -> forall i, 0 <= i < 14 -> P i = true.
Proof.
  rewrite forallb_forall. intros H i Hi. apply H. apply list_elem_of_In. by apply tensix_col_cases.
Qed.

Lemma tensix_col_in i : 0 <= i < 14 -> tensix_col i ∈ tensix_cols.
Proof.
  intros Hi. apply (forall_14 (fun i => existsb (Z.eqb (tensix_col i)) tensix_cols) eq_refl) in Hi.
  apply existsb_exists in Hi as (c & Hc & ->%Z.eqb_eq). by apply list_elem_of_In.
Qed.

Lemma tensix_col_inj i j : 0 <= i < 14 -> 0 <= j < 14 -> tensix_col i = tensix_col j -> i = j.
Proof.
  intros Hi Hj E.
  pose proof (forall_14 (fun i => forallb (fun j => (i =? j) || negb (tensix_col i =? tensix_col j)) (seqZ 0 14)) eq_refl i Hi) as H.
  apply (forall_14 _ H) in Hj. cbv beta in Hj. rewrite E, Z.eqb_refl in Hj.
  rewrite orb_false_r in Hj. lia.
Qed.

Lemma good_columns_spec bad :
  exists g, good_columns bad = Some g /\ 0 <= g < 2 ^ 32 /\
    bits_of g = filter (fun x => column_bad bad x = false) tensix_cols.
Proof.
  pose (removed i x := existsb (fun j => (tensix_col j =? x) && Z.testbit bad j) (seqZ 0 i)).
  unfold good_columns. change (length kTensixEthNoc0X) with 14%nat.
  set (g0 := Z.lor (GENMASK 7 1) (GENMASK 16 10)).
  match goal with |- context [for_loop 14 0 ?b g0] => set (body := b) end.
  destruct (for_loop_inv (fun i g => 0 <= i /\ forall x, 0 <= x -> Z.testbit g x = Z.testbit g0 x && negb (removed i x)) 14 0
    body g0) as (g & -> & [_ Hg]).
  - split; [lia|]. intros x Hx. by rewrite andb_true_r.
  - intros i g Hi [_ Hg]. unfold body. clear body.
    assert (Hr : forall x, removed (i + 1) x = removed i x || ((tensix_col i =? x) && Z.testbit bad i)).
    { intros x. unfold removed. rewrite seqZ_app, existsb_app by lia. rewrite Z.add_0_l. f_equal. rewrite seqZ_cons by lia. cbn. by rewrite orb_false_r. }
    rewrite land_BIT_eqb, negb_involutive by lia. destruct (Z.testbit bad i) eqn:E.
    + rewrite aget_tensix_col by lia. cbn [mbind option_bind].
      assert (0 <= tensix_col i).
      { assert (Hi' : 0 <= i < 14) by lia. apply Z.leb_le. exact (forall_14 (fun i => 0 <=? tensix_col i) eq_refl i Hi'). }
      eexists. split; [done|]. split; [lia|]. intros x Hx. unfold BIT. rewrite Z.shiftl_1_l.
      rewrite clear_bit_spec, Hg, Hr by lia. by rewrite andb_true_r, negb_orb, andb_assoc.
    + exists g. split; [done|]. split; [lia|]. intros x Hx. rewrite Hr, andb_false_r, orb_false_r. auto.
  - change (0 + Z.of_nat 14) with 14 in Hg. exists g. split; [done|].
    assert (Hb : forall x, 0 <= x -> Z.testbit g x = Z.testbit g0 x && negb (column_bad bad x)).
    { intros x Hx. by rewrite Hg. }
    assert (0 <= g).
    { apply Z.bits_iff_nonneg_ex. exists 32. intros k Hk. rewrite Hb by lia.
      rewrite (Z.bits_above_log2 g0); [done|by vm_compute|]. eapply Z.le_lt_trans; [|exact Hk]. by vm_compute. }
    split.
    + split; [done|]. apply bits_lt_pow2; [done|lia|]. intros k Hk.
      destruct (Z.lt_ge_cases k 32); [done|]. rewrite Hb in Hk by lia.
      rewrite (Z.bits_above_log2 g0) in Hk; [done|by vm_compute|].
      eapply Z.lt_le_trans; [|eassumption]. by vm_compute.
    + assert (Ht : tensix_cols = filter (fun x => Z.testbit g0 x = true) (seqZ 0 32)) by (by vm_compute).
      rewrite Ht, list_filter_filter. unfold bits_of. apply filter_ext_in.
      intros x [? ?]%elem_of_seqZ. rewrite Hb by lia.
      destruct (Z.testbit g0 x), (column_bad bad x); cbn; intuition congruence.
Qed.

(** The columns of the bad instances, lowest instance first. *)
Definition bad_columns (bad : Z) : list Z := map tensix_col (bits_of bad).

Lemma bad_columns_spec bad :
  0 <= bad < 2 ^ 14 ->
  mapM (aget kTensixEthNoc0X) (bits_of bad) = Some (bad_columns bad) /\
  bad_columns bad ≡ₚ filter (fun x => column_bad bad x = true) tensix_cols.
Proof.
  intros Hbad.
  assert (H14 : forall i, i ∈ bits_of bad -> 0 <= i < 14).
  { intros i [Hi ?]%elem_of_bits_of. split; [lia|]. destruct (Z.lt_ge_cases i 14); [done|].
    rewrite (testbit_above bad 14) in Hi by lia. done. }
  split.
  - apply mapM_Some. unfold bad_columns. apply Forall2_fmap_r, Forall_Forall2_diag, Forall_forall.
    intros i Hi. by apply aget_tensix_col, H14.
  - apply NoDup_Permutation.
    + unfold bad_columns. apply NoDup_fmap_2_strong; [|apply bits_of_NoDup].
      intros i j Hi Hj. apply tensix_col_inj; auto.
    + apply NoDup_filter, tensix_cols_NoDup.
    + intros x. unfold bad_columns. rewrite list_elem_of_filter, column_bad_spec.
      split.
      * intros (i & -> & Hi)%list_elem_of_fmap. pose proof (H14 i Hi) as ?.
        apply elem_of_bits_of in Hi as [? ?]. split; [by exists i|]. by apply tensix_col_in.
      * intros [(i & Hi & <- & Hb) _]. apply list_elem_of_fmap. exists i. split; [done|].
        apply elem_of_bits_of. split; [done|lia].
Qed.

Definition identity_x : list Z := seqZ 0 17 ++ replicate 15 0.
Definition identity_y : list Z := seqZ 0 12 ++ replicate 20 0.

Lemma identity_x_length : length identity_x = 32%nat.
Proof. reflexivity. Qed.

(** Where the seventeen columns go: good Tensix columns in order, bad ones last. *)
Definition translated_cols (bad : Z) : list Z :=
  filter (fun x => column_bad bad x = false) tensix_cols ++ rev (bad_columns bad).

Lemma translated_cols_perm bad : 0 <= bad < 2 ^ 14 -> translated_cols bad ≡ₚ tensix_cols.
Proof.
  intros [_ Hb]%bad_columns_spec. unfold translated_cols.
  rewrite <- Permutation_rev, Hb.
  rewrite (filter_ext_in (fun x => column_bad bad x = true) (fun x => ~ column_bad bad x = false)).
  2:{ intros x _. destruct (column_bad bad x); intuition congruence. }
  apply filter_app_complement.
Qed.

Lemma translated_cols_length bad : 0 <= bad < 2 ^ 14 -> length (translated_cols bad) = 14%nat.
Proof. intros ->%translated_cols_perm%Permutation_length. done. Qed.

(** Case analysis on a list of bounded length. *)
Ltac enum_list l :=
  destruct l as [|? l]; [try (exfalso; cbn in *; lia)|try (exfalso; cbn in *; lia); try enum_list l].

Lemma splice_columns G B :
  (length G + length B = 14)%nat -> (length B <= 7)%nat ->
  splice (splice (splice identity_x 1 (take 7 G)) 10 (take 7 (drop 7 G))) (17 - length B) (rev B) =
  0 :: take 7 (G ++ rev B) ++ [8; 9] ++ drop 7 (G ++ rev B) ++ replicate 15 0.
Proof.
  intros Hl HB.
  do 7 (destruct G as [|? G]; [cbn in Hl; lia|]).
  enum_list B; enum_list G; reflexivity.
Qed.

Lemma translate_columns bad nt :
  0 <= bad < 2 ^ 14 -> (length (bits_of bad) <= 7)%nat -> translate_table_x nt = identity_x ->
  exists g g1 g2 nt1 nt2,
    good_columns bad = Some g /\
    fill_columns 7 1 1 Some g nt = Some (g1, nt1) /\
    fill_columns 7 10 1 Some g1 nt1 = Some (g2, nt2) /\
    fill_columns 7 16 (-1) (aget kTensixEthNoc0X) bad nt2 =
      Some (0, set_tables (0 :: take 7 (translated_cols bad) ++ [8; 9] ++ drop 7 (translated_cols bad) ++ replicate 15 0)
                          (translate_table_y nt) nt).
Proof.
  intros Hbad Hcount Htx.
  destruct (good_columns_spec bad) as (g & Hg & Hgr & Hbits).
  destruct (bad_columns_spec bad Hbad) as [HB _].
  pose proof (translated_cols_length bad Hbad) as Hlen. unfold translated_cols in Hlen.
  rewrite length_app, length_rev in Hlen.
  assert (Hbl : length (bad_columns bad) = length (bits_of bad)) by apply length_map.
  destruct (fill_columns_up 7 1 g nt) as (g1 & H1 & Hg1 & Hb1); [lia|rewrite Htx, identity_x_length; lia|].
  eexists g, g1. rewrite Htx in H1.
  match type of H1 with _ = Some (_, ?n) => set (nt1 := n) in * end.
  assert (Htx1 : translate_table_x nt1 = splice identity_x 1 (take 7 (bits_of g))) by done.
  assert (Hl1 : length (translate_table_x nt1) = 32%nat).
  { rewrite Htx1, splice_length; [done|]. rewrite length_take, identity_x_length. lia. }
  destruct (fill_columns_up 7 10 g1 nt1) as (g2 & H2 & Hg2 & Hb2); [lia|rewrite Hl1; lia|].
  match type of H2 with _ = Some (_, ?n) => set (nt2 := n) in * end.
  assert (Htx2 : translate_table_x nt2 = splice (translate_table_x nt1) 10 (take 7 (bits_of g1))) by done.
  assert (Hl2 : length (translate_table_x nt2) = 32%nat).
  { rewrite Htx2, splice_length; [done|]. rewrite Hl1, length_take. lia. }
  exists g2, nt1, nt2. split_and!; [done|exact H1|exact H2|].
  rewrite (fill_columns_down 7 16 _ bad nt2 (bad_columns bad)); [|lia|done|lia|lia|lia].
  rewrite Htx2, Htx1, Hb1, Hbits. rewrite splice_columns by lia. done.
Qed.

(** ** Logical coordinates *)

Definition coord_word (x y : Z) : Z := u16 (Z.lor (Z.shiftl y 6) x).

Definition coords_wf (lc : list (list Z)) : Prop :=
  len lc = NOC_X_SIZE /\ Forall (fun r => len r = NOC_Y_SIZE) lc.
Definition on_grid (x y : Z) : Prop := 0 <= x < NOC_X_SIZE /\ 0 <= y < NOC_Y_SIZE.

Lemma aset2_in lc x y v :
  coords_wf lc -> on_grid x y ->
  exists lc', aset2 lc x y v = Some lc' /\ coords_wf lc' /\
    forall x' y', aget2 lc' x' y' = if (x =? x') && (y =? y') then Some v else aget2 lc x' y'.
Proof.
  intros [Hl HF] [Hx Hy]. unfold aset2, aget2.
  destruct (aget_in lc x) as (r & Hr); [lia|]. rewrite Hr. cbn.
  pose proof (aget_Forall _ _ _ _ HF Hr) as Hrl. cbv beta in Hrl.
  rewrite aset_in by lia. cbn. rewrite aset_in by lia.
  eexists. split; [done|]. split.
  - split; [by rewrite length_insert|]. apply Forall_insert; [done|]. by rewrite length_insert.
  - intros x' y'. destruct (Z.eqb_spec x x') as [<-|Hne]; cbn [andb].
    + rewrite aget_insert, Hr by lia. cbn. destruct (Z.eqb_spec y y') as [<-|].
      * by rewrite aget_insert by lia.
      * by rewrite aget_insert_ne by lia.
    + by rewrite aget_insert_ne by lia.
Qed.

Lemma aget2_in lc x y : coords_wf lc -> on_grid x y -> exists v, aget2 lc x y = Some v.
Proof.
  intros [Hl HF] [Hx Hy]. unfold aget2. destruct (aget_in lc x) as (r & Hr); [lia|]. rewrite Hr.
  pose proof (aget_Forall _ _ _ _ HF Hr) as Hrl. cbv beta in Hrl. apply aget_in. lia.
Qed.

Lemma set_logical_coord nt x y a b :
  coords_wf (logical_coords nt) -> on_grid x y ->
  exists lc', SetLogicalCoord x y a b nt = Some (set_coords lc' nt) /\ coords_wf lc' /\
    forall x' y', aget2 lc' x' y' =
      if (x =? x') && (y =? y') then Some (coord_word a b) else aget2 (logical_coords nt) x' y'.
Proof.
  intros Hwf Hg. unfold SetLogicalCoord.
  destruct (aset2_in (logical_coords nt) x y (coord_word a b) Hwf Hg) as (lc' & E & Hwf' & Hget).
  unfold coord_word in E. rewrite E. cbn. by exists lc'.
Qed.

Section apply_coords.
Variable nt : NocTranslation.
Variables xs ys xe ye pxs pys pxe pye : Z.

(** Pre-translation coordinate [(a, b)] leads to node [(x, y)] of the box. *)
Definition leads_to (a b x y : Z) : Prop :=
  aget (translate_table_x nt) a = Some x /\ aget (translate_table_y nt) b = Some y /\
  xs <= x <= xe /\ ys <= y <= ye.

(** Every node reached by a coordinate of [P] has such a coordinate as its
    logical one; the others are unchanged. *)
Definition assigned (P : Z -> Z -> Prop) (lc : list (list Z)) : Prop :=
  forall x y,
    (exists a b, P a b /\ leads_to a b x y /\ aget2 lc x y = Some (coord_word a b)) \/
    ((forall a b, P a b -> ~ leads_to a b x y) /\ aget2 lc x y = aget2 (logical_coords nt) x y).

Lemma assigned_equiv P P' lc :
  (forall a b x y, leads_to a b x y -> P a b <-> P' a b) -> assigned P lc -> assigned P' lc.
Proof.
  intros HP H x y. destruct (H x y) as [(a & b & ? & Hl & ?)|[Hn ?]].
  - left. exists a, b. split_and!; [|done|done]. by apply (HP _ _ _ _ Hl).
  - right. split; [|done]. intros a b Hp Hl. eapply Hn; [|exact Hl]. by apply (HP _ _ _ _ Hl).
Qed.

Lemma assigned_step P lc lc' a b x y :
  assigned P lc -> leads_to a b x y ->
  (forall x' y', aget2 lc' x' y' = if (x =? x') && (y =? y') then Some (coord_word a b) else aget2 lc x' y') ->
  assigned (fun a' b' => P a' b' \/ (a' = a /\ b' = b)) lc'.
Proof.
  intros H Hl Hget x' y'. destruct (decide (x = x' /\ y = y')) as [[<- <-]|Hne].
  - left. exists a, b. split_and!; [by right|done|]. by rewrite Hget, !Z.eqb_refl.
  - assert (Hsame : aget2 lc' x' y' = aget2 lc x' y').
    { rewrite Hget. destruct (Z.eqb_spec x x'), (Z.eqb_spec y y'); cbn; tauto. }
    rewrite Hsame. destruct (H x' y') as [(a' & b' & ? & ? & ?)|[Hn ?]].
    + left. exists a', b'. split_and!; [by left|done|done].
    + right. split; [|done]. intros a' b' [?|[-> ->]]; [by apply Hn|].
      intros (E1 & E2 & _). destruct Hl as (E3 & E4 & _). apply Hne. split; congruence.
Qed.

Definition in_pre_box (a b : Z) : Prop := pxs <= a <= pxe /\ pys <= b <= pye.

Hypothesis Hwf : coords_wf (logical_coords nt).
Hypothesis Hbox : 0 <= xs /\ xe < NOC_X_SIZE /\ 0 <= ys /\ ye < NOC_Y_SIZE.
Hypothesis Hpre : 0 <= pxs <= pxe /\ pxe < len (translate_table_x nt) /\
                  0 <= pys <= pye /\ pye < len (translate_table_y nt).

Lemma apply_coords_spec :
  exists lc, ApplyLogicalCoords xs ys xe ye pxs pys pxe pye nt = Some (set_coords lc nt) /\
             coords_wf lc /\ assigned in_pre_box lc.
Proof.
  unfold ApplyLogicalCoords.
  match goal with |- context [for_loop _ _ ?b _] => set (body := b) end.
  destruct (for_loop_inv
    (fun k nt' => exists lc, nt' = set_coords lc nt /\ coords_wf lc /\
                  assigned (fun a b => pxs <= a < k /\ pys <= b <= pye) lc)
    (Z.to_nat (pxe - pxs + 1)) pxs body nt) as (nt' & E & lc & -> & Hlc & Ha).
  - exists (logical_coords nt). split; [by destruct nt|]. split; [done|].
    intros x y. right. split; [|done]. intros a b ?. lia.
  - intros k nt' Hk (lc & -> & Hlc & Ha). unfold body. cbn [set_coords translate_table_x translate_table_y].
    destruct (aget_in (translate_table_x nt) k) as (x & Hx); [lia|]. rewrite Hx. cbn [mbind option_bind].
    destruct ((x <? xs) || (xe <? x)) eqn:Hout.
    { eexists. split; [done|]. exists lc. split_and!; [done|done|].
      eapply assigned_equiv; [|exact Ha]. intros a b x' y' (Hx' & _ & ? & _). cbn.
      assert (a <> k) by (intros ->; rewrite Hx in Hx'; injection Hx' as ->; clear -Hout H; bool_cases; lia). lia. }
    match goal with |- context [for_loop ?n _ ?b _] => set (inner := b) end.
    destruct (for_loop_inv
      (fun j nt' => exists lc, nt' = set_coords lc nt /\ coords_wf lc /\
         assigned (fun a b => (pxs <= a < k /\ pys <= b <= pye) \/ (a = k /\ pys <= b < j)) lc)
      (Z.to_nat (pye - pys + 1)) pys inner (set_coords lc nt)) as (nt' & E & lc' & -> & Hlc' & Ha').
    + exists lc. split_and!; [done|done|]. eapply assigned_equiv; [|exact Ha]. cbv beta. intros; lia.
    + intros j nt' Hj (lc1 & -> & Hlc1 & Ha1). unfold inner. cbn [set_coords translate_table_x translate_table_y].
      destruct (aget_in (translate_table_y nt) j) as (y & Hy); [lia|]. rewrite Hy. cbn [mbind option_bind].
      destruct ((y <? ys) || (ye <? y)) eqn:Houty.
      { eexists. split; [done|]. exists lc1. split_and!; [done|done|].
        eapply assigned_equiv; [|exact Ha1]. intros a b x' y' (_ & Hy' & _ & ?). cbn.
        assert (b <> j) by (intros ->; rewrite Hy in Hy'; injection Hy' as ->; lia). lia. }
      destruct (set_logical_coord (set_coords lc1 nt) x y k j) as (lc2 & E2 & Hlc2 & Hget);
        [done|split; lia|].
      rewrite E2. eexists. split; [done|]. exists lc2. split_and!; [done|done|].
      eapply assigned_equiv; [|eapply assigned_step; [exact Ha1| |exact Hget]].
      * cbv beta. intros; lia.
      * split_and!; done || lia.
    + rewrite E. eexists. split; [done|]. exists lc'. split_and!; [done|done|].
      eapply assigned_equiv; [|exact Ha']. cbv beta. intros; lia.
  - exists lc. split_and!; [done|done|]. eapply assigned_equiv; [|exact Ha].
    unfold in_pre_box. intros; lia.
Qed.
End apply_coords.

(** ** Nodes found by their logical coordinate *)

(** Entries [lo .. hi] of a table. *)
Definition slice (lo hi : Z) (l : list Z) : list Z := take (Z.to_nat (hi + 1 - lo)) (drop (Z.to_nat lo) l).

Lemma slice_lookup lo hi l a : 0 <= lo -> lo <= a <= hi -> aget l a = slice lo hi l !! Z.to_nat (a - lo).
Proof.
  intros. rewrite aget_nat by lia. unfold slice. rewrite lookup_take_lt, lookup_drop by lia. f_equal. lia.
Qed.

Lemma elem_of_slice lo hi l x : 0 <= lo -> x ∈ slice lo hi l -> exists a, lo <= a <= hi /\ aget l a = Some x.
Proof.
  intros Hlo (k & Hk)%list_elem_of_lookup. exists (lo + Z.of_nat k).
  assert (Hlt : (k < Z.to_nat (hi + 1 - lo))%nat).
  { apply lookup_lt_Some in Hk. unfold slice in Hk. rewrite length_take in Hk. lia. }
  split; [lia|]. rewrite (slice_lookup lo hi) by lia. rewrite <- Hk. f_equal. lia.
Qed.

Section locate.
(** The final tables; rows 0 and 1 are masked for columns. *)
Variables TX TY : list Z.

Definition leads (a b x y : Z) : Prop :=
  0 <= a < 32 /\ 0 <= b < 32 /\ aget TY b = Some y /\ if b <? 2 then a = x else aget TX a = Some x.
Definition located (lc : list (list Z)) (x y : Z) : Prop :=
  exists a b, aget2 lc x y = Some (coord_word a b) /\ leads a b x y.

(** A call of [ApplyLogicalCoords] whose part of the tables is final. *)
Lemma apply_step nt xs ys xe ye pxs pys pxe pye :
  coords_wf (logical_coords nt) ->
  0 <= xs /\ xe < NOC_X_SIZE /\ 0 <= ys /\ ye < NOC_Y_SIZE ->
  len (translate_table_x nt) = 32 -> len (translate_table_y nt) = 32 ->
  0 <= pxs <= pxe /\ pxe < 32 /\ 2 <= pys <= pye /\ pye < 32 ->
  slice pxs pxe (translate_table_x nt) = slice pxs pxe TX ->
  slice pys pye (translate_table_y nt) = slice pys pye TY ->
  exists lc, ApplyLogicalCoords xs ys xe ye pxs pys pxe pye nt = Some (set_coords lc nt) /\ coords_wf lc /\
    (forall x y, located (logical_coords nt) x y -> located lc x y) /\
    (forall x y, x ∈ slice pxs pxe TX -> y ∈ slice pys pye TY -> xs <= x <= xe -> ys <= y <= ye -> located lc x y).
Proof.
  intros Hwf Hbox Hlx Hly Hpre Hsx Hsy.
  destruct (apply_coords_spec nt xs ys xe ye pxs pys pxe pye) as (lc & E & Hlc & Ha); [done|done|lia|].
  assert (HX : forall a, pxs <= a <= pxe -> aget (translate_table_x nt) a = aget TX a).
  { intros a ?. by rewrite !(slice_lookup pxs pxe), Hsx by lia. }
  assert (HY : forall b, pys <= b <= pye -> aget (translate_table_y nt) b = aget TY b).
  { intros b ?. by rewrite !(slice_lookup pys pye), Hsy by lia. }
  assert (Hloc : forall a b x y, in_pre_box pxs pys pxe pye a b -> leads_to nt xs ys xe ye a b x y -> leads a b x y).
  { intros a b x y [? ?] (H1 & H2 & _). rewrite HX in H1 by lia. rewrite HY in H2 by lia.
    unfold leads. destruct (Z.ltb_spec b 2); [lia|]. split_and!; done || lia. }
  exists lc. split_and!; [done|done| |].
  - intros x y Hl. destruct (Ha x y) as [(a & b & Hp & Hlt & Hget)|[_ Hget]].
    + exists a, b. split; [done|]. by apply Hloc.
    + destruct Hl as (a & b & ? & ?). exists a, b. by rewrite Hget.
  - intros x y Hx Hy Hxb Hyb. destruct (Ha x y) as [(a & b & Hp & Hlt & Hget)|[Hn _]].
    + exists a, b. split; [done|]. by apply Hloc.
    + exfalso. apply elem_of_slice in Hx as (a & ? & Hxa); [|lia].
      apply elem_of_slice in Hy as (b & ? & Hyb'); [|lia].
      apply (Hn a b); [done|]. rewrite <- HX in Hxa by lia. rewrite <- HY in Hyb' by lia. done.
Qed.
End locate.

(** ** The translation *)

Definition identity_lc : list (list Z) := map (fun x => map (fun y => coord_word x y) (seqZ 0 12)) (seqZ 0 17).

Lemma make_identity_spec : MakeIdentity = Some (MkNT true identity_x identity_y 0 0 identity_lc).
Proof. vm_compute. reflexivity. Qed.

Lemma identity_lc_wf : coords_wf identity_lc.
Proof.
  split; [done|]. apply Forall_fmap, Forall_forall. intros x _. done.
Qed.

Lemma identity_lc_get x y : on_grid x y -> aget2 identity_lc x y = Some (coord_word x y).
Proof.
  intros [Hx Hy]. change NOC_X_SIZE with 17 in Hx. change NOC_Y_SIZE with 12 in Hy.
  unfold aget2, identity_lc. rewrite aget_nat, list_lookup_fmap by lia.
  rewrite lookup_seqZ_lt by lia. cbn. rewrite aget_nat, list_lookup_fmap by lia.
  rewrite lookup_seqZ_lt by lia. cbn. do 2 f_equal; lia.
Qed.

(** The entries of [l] whose bit in [mask] is clear, counting bits from [k]. *)
Fixpoint unskipped (k : Z) (l : list Z) (mask : Z) : list Z :=
  match l with
  | [] => []
  | b :: l => if Z.testbit mask k then unskipped (k + 1) l mask else b :: unskipped (k + 1) l mask
  end.

Lemma copy_bytes_skip l count mask k :
  0 <= k ->
  CopyBytesSkipIndices l count (Z.shiftr mask k) =
    if decide (count <= length (unskipped k l mask))%nat then Some (take count (unskipped k l mask)) else None.
Proof.
  revert count k. induction l as [|b l IH]; intros count k Hk.
  - destruct count; [done|]. case_decide; [cbn in *; lia|done].
  - destruct count as [|count]; [by case_decide; [|lia]|]. cbn [CopyBytesSkipIndices unskipped].
    change 1 with (BIT 0) at 1. rewrite land_BIT_eqb, negb_involutive, Z.shiftr_spec, Z.add_0_l by lia.
    rewrite Z.shiftr_shiftr by lia. rewrite !IH by lia.
    destruct (Z.testbit mask k); [done|]. cbn [length take].
    repeat case_decide; done || lia.
Qed.

Definition valid_bad_gddr (g : Z) : Prop := 0 <= g < NUM_GDDR \/ g = NO_BAD_GDDR.

(** The GDDR columns and rows in logical order, the bad instance last. *)
Definition gddr_columns (g : Z) : list Z := if 4 <=? g then [0; 9] else [9; 0].
Definition gddr_instances (g : Z) : list Z :=
  if g =? NO_BAD_GDDR then [0; 1; 2; 3] else filter (fun i => i <> g mod 4) [0; 1; 2; 3] ++ [g mod 4].
Definition gddr_rows (g : Z) : list Z := mjoin (map (fun i => nth (Z.to_nat i) kGddrY []) (gddr_instances g)).
Definition pcie_column (inst : Z) : Z := if negb (inst =? 0) then 11 else 2.

Definition final_x (bad g pcie : Z) (eth : list Z) : list Z :=
  0 :: take 7 (translated_cols bad) ++ [8; 9] ++ drop 7 (translated_cols bad) ++ gddr_columns g ++
  [pcie_column pcie] ++ eth.
Definition final_y (g : Z) : list Z := seqZ 0 12 ++ gddr_rows g ++ [0; 1] ++ kL2CpuNoc0Y ++ [2; 0].

Lemma valid_gddr_cases (P : Z -> Prop) : Forall P [0; 1; 2; 3; 4; 5; 6; 7; 255] -> forall g, valid_bad_gddr g -> P g.
Proof.
  rewrite Forall_forall. intros H g [Hg| ->]; [|apply H; set_solver].
  change NUM_GDDR with 8 in Hg. apply H. rewrite !elem_of_cons.
  assert (g = 0 \/ g = 1 \/ g = 2 \/ g = 3 \/ g = 4 \/ g = 5 \/ g = 6 \/ g = 7) by lia. tauto.
Qed.

Ltac gddr_cases :=
  match goal with |- forall g, valid_bad_gddr g -> _ => apply valid_gddr_cases; repeat constructor end.

Lemma gddr_order_spec : forall g, valid_bad_gddr g -> gddr_order g = Some (gddr_instances g).
Proof. gddr_cases. Qed.

(** The rows of the GDDR columns are rearranged, never lost. *)
Lemma gddr_rows_perm : forall g, valid_bad_gddr g -> gddr_rows g ≡ₚ seqZ 0 12.
Proof.
  enough (H : forall g, valid_bad_gddr g -> forallb (fun x => existsb (Z.eqb x) (seqZ 0 12)) (gddr_rows g) &&
            forallb (fun y => existsb (Z.eqb y) (gddr_rows g)) (seqZ 0 12) &&
            Nat.eqb (length (gddr_rows g)) 12 = true).
  { intros g Hg. specialize (H g Hg). apply andb_true_iff in H as [[H1 H2]%andb_true_iff H3%Nat.eqb_eq].
    rewrite forallb_forall in H1, H2. symmetry. apply submseteq_length_Permutation; [|by rewrite H3].
    apply NoDup_submseteq; [apply NoDup_seqZ|]. intros y Hy%list_elem_of_In%H2.
    apply existsb_exists in Hy as (z & ? & ->%Z.eqb_eq). by apply list_elem_of_In. }
  gddr_cases.
Qed.

Lemma gddr_table g ty rows :
  valid_bad_gddr g -> rows = gddr_rows g ->
  forall nt, translate_table_y nt = identity_y -> ty = seqZ 0 12 ++ rows ++ replicate 8 0 ->
  for_loop 4 0
    (fun gddr noc0 =>
       row ← aget (gddr_instances g) gddr;
       ys ← aget kGddrY row;
       t ← copy_to (translate_table_y noc0) (12 + gddr * 3) (take 3 ys);
       Some (set_tables (translate_table_x noc0) t noc0)) nt = Some (set_tables (translate_table_x nt) ty nt).
Proof.
  intros Hg -> [en tx ty' cm rm lc] Hty ->. cbn in Hty. subst ty'. revert g Hg. gddr_cases.
Qed.

Lemma gddr_columns_spec hd : forall g, valid_bad_gddr g ->
  length hd = 17%nat -> forall nt, translate_table_x nt = hd ++ replicate 15 0 ->
  (if 4 <=? g then noc0 ← set_x 17 0 nt; set_x 18 9 noc0 else noc0 ← set_x 17 9 nt; set_x 18 0 noc0) =
  Some (set_tables (hd ++ gddr_columns g ++ replicate 13 0) (translate_table_y nt) nt).
Proof.
  intros g Hg Hl [en tx ty cm rm lc] Htx. cbn in Htx. subst tx.
  enum_list hd.
  unfold gddr_columns. by destruct (4 <=? g).
Qed.

Lemma copy_bytes_length l count mask out : CopyBytesSkipIndices l count mask = Some out -> length out = count.
Proof.
  revert count mask out. induction l as [|b l IH]; intros [|count] mask out; cbn; try (by intros [= <-]); try done.
  destruct (negb _); [apply IH|]. destruct (CopyBytesSkipIndices l count _) as [out'|] eqn:E; [|done].
  intros [= <-]. cbn. by rewrite (IH _ _ _ E).
Qed.

(** Identity coordinates lead to their node wherever the tables do not move it. *)
Lemma identity_located TX TY x y :
  on_grid x y -> aget TY y = Some y -> (2 <= y -> aget TX x = Some x) -> located TX TY identity_lc x y.
Proof.
  intros Hg Hy Hx. exists x, y. split; [by apply identity_lc_get|].
  destruct Hg as [Hgx Hgy]. change NOC_X_SIZE with 17 in Hgx. change NOC_Y_SIZE with 12 in Hgy.
  split_and!; [lia|lia|lia|lia|done|]. destruct (Z.ltb_spec y 2); [done|]. auto with lia.
Qed.

(** Name the elements of a list whose length is a numeral. *)
Ltac name_elements H :=
  lazymatch type of H with
  | length ?l = S ?n =>
      destruct l as [|? l]; [discriminate H|apply eq_add_S in H; change (length l = n) in H; name_elements H]
  | length ?l = O => apply nil_length_inv in H; subst l
  end.

Ltac norm_nt :=
  cbn [mbind option_bind set_tables set_row_mask set_coords translate_en translate_table_x translate_table_y
       translate_col_mask translate_row_mask logical_coords].
Ltac run_set :=
  match goal with
  | |- context [set_x ?i ?v ?nt] => let r := eval vm_compute in (set_x i v nt) in change (set_x i v nt) with r
  | |- context [set_y ?i ?v ?nt] => let r := eval vm_compute in (set_y i v nt) in change (set_y i v nt) with r
  | |- context [copy_to ?l ?i ?v] => let r := eval vm_compute in (copy_to l i v) in change (copy_to l i v) with r
  end; norm_nt.
Ltac run_apply TX TY lc Hwf Hp Hr :=
  match goal with |- context [ApplyLogicalCoords ?a ?b ?c ?d ?e ?f ?g ?h ?nt] =>
    destruct (apply_step TX TY nt a b c d e f g h) as (lc & -> & Hwf & Hp & Hr);
    [assumption|change NOC_X_SIZE with 17; change NOC_Y_SIZE with 12; lia|reflexivity|reflexivity|lia|reflexivity|reflexivity|]
  end; norm_nt.

Lemma compute_spec pcie bad g skip eth :
  0 <= bad < 2 ^ 14 -> (length (bits_of bad) <= 7)%nat -> valid_bad_gddr g ->
  CopyBytesSkipIndices kTensixEthNoc0X 12 skip = Some eth ->
  let TX := final_x bad g pcie eth in
  let TY := final_y g in
  exists lc, ComputeNocTranslation pcie bad g skip = Some (MkNT true TX TY 0 3 lc) /\ coords_wf lc /\
             forall x y, on_grid x y -> located TX TY lc x y.
Proof.
  intros Hbad Hcount Hg Heth. cbv zeta. unfold ComputeNocTranslation.
  rewrite make_identity_spec. norm_nt.
  match goal with |- context [fill_columns 7 1 1 Some _ ?nt] =>
    destruct (translate_columns bad nt) as (g0 & g1 & g2 & nt1 & nt2 & -> & E1 & E2 & E3); [done|done|done|] end.
  norm_nt. rewrite E1. norm_nt. rewrite E2. norm_nt. rewrite E3. norm_nt. clear E1 E2 E3 nt1 nt2 g0 g1 g2.
  rewrite (gddr_order_spec g Hg), Heth.
  unfold final_x, final_y.
  pose proof (translated_cols_length bad Hbad) as HCl.
  pose proof (translated_cols_perm bad Hbad) as HCp.
  pose proof (gddr_rows_perm g Hg) as HRp. pose proof (Permutation_length HRp) as HRl.
  apply copy_bytes_length in Heth.
  assert (HGp : gddr_columns g ≡ₚ [0; 9]).
  { unfold gddr_columns. case_match; [done|]. constructor. }
  set (PX := pcie_column pcie).
  assert (HPX : PX = 11 \/ PX = 2) by (unfold PX, pcie_column; case_match; auto).
  change (if negb (pcie =? 0) then 11 else 2) with PX. clearbody PX.
  remember (gddr_rows g) as R eqn:HR. remember (translated_cols bad) as C eqn:HC.
  match goal with |- context [MkNT true ?TX ?TY 0 3 _] => set (TX' := TX); set (TY' := TY) end.
  change (length (seqZ 0 12)) with 12%nat in HRl.
  name_elements HCl. name_elements Heth. name_elements HRl.
  cbn [take drop app] in *.
  pose proof identity_lc_wf as Hwf0.
  run_apply TX' TY' lc1 Hwf1 Hp1 Hr1.
  run_apply TX' TY' lc2 Hwf2 Hp2 Hr2.
  match goal with |- context [set_x 17 0 ?nt] =>
    let hd := eval cbn in (take 17 (translate_table_x nt)) in
    rewrite (gddr_columns_spec hd g Hg eq_refl nt eq_refl) end.
  norm_nt.
  match goal with |- context [for_loop 4 0 _ ?nt] => rewrite (gddr_table g _ _ Hg HR nt eq_refl eq_refl) end.
  norm_nt.
  assert (HGl : length (gddr_columns g) = 2%nat) by (unfold gddr_columns; by case_match).
  remember (gddr_columns g) as G eqn:HG. name_elements HGl.
  cbn [app] in *.
  run_apply TX' TY' lc3 Hwf3 Hp3 Hr3.
  run_apply TX' TY' lc4 Hwf4 Hp4 Hr4.
  run_set. run_set.
  match goal with |- context [ApplyLogicalCoords PX 0 PX 0 19 24 19 24 ?nt] =>
    destruct (apply_step TX' TY' nt PX 0 PX 0 19 24 19 24) as (lc5 & -> & Hwf5 & Hp5 & Hr5);
    [done|change NOC_X_SIZE with 17; change NOC_Y_SIZE with 12; lia|reflexivity|reflexivity|lia|reflexivity|reflexivity|]
  end. norm_nt.
  run_set. run_set. norm_nt.
  run_apply TX' TY' lc6 Hwf6 Hp6 Hr6.
  run_apply TX' TY' lc7 Hwf7 Hp7 Hr7.
  run_set. norm_nt.
  run_apply TX' TY' lc8 Hwf8 Hp8 Hr8.
  run_set.
  run_apply TX' TY' lc9 Hwf9 Hp9 Hr9.
  exists lc9. split; [done|]. split; [done|].
  intros x y Hgrid. pose proof Hgrid as [Hx Hy]. change NOC_X_SIZE with 17 in Hx. change NOC_Y_SIZE with 12 in Hy.
  assert (Hrow : y ∈ slice 0 11 TY') by (change (slice 0 11 TY') with (seqZ 0 12); apply elem_of_seqZ; lia).
  assert (HYy : aget TY' y = Some y).
  { rewrite (slice_lookup 0 11) by lia. change (slice 0 11 TY') with (seqZ 0 12).
    rewrite lookup_seqZ_lt by lia. f_equal. lia. }
  destruct (decide (2 <= y /\ x ∈ tensix_cols)) as [[H2 Hcol]|Hother].
  - assert (Hxs : x ∈ slice 1 16 TX').
    { let s := eval vm_compute in (slice 1 16 TX') in change (slice 1 16 TX') with s.
      rewrite <- HCp in Hcol. repeat rewrite elem_of_cons in Hcol. repeat rewrite elem_of_cons. tauto. }
    assert (Hys : y ∈ slice 2 11 TY') by (change (slice 2 11 TY') with (seqZ 2 10); apply elem_of_seqZ; lia).
    apply elem_of_app in Hcol. rewrite !elem_of_seqZ in Hcol.
    destruct Hcol; [assert (located TX' TY' lc1 x y) by (apply Hr1; done || lia)
                   |assert (located TX' TY' lc2 x y) by (apply Hr2; done || lia)]; auto 10.
  - enough (located TX' TY' identity_lc x y) by auto 10.
    apply identity_located; [done|done|]. intros H2.
    assert (x = 0 \/ x = 8 \/ x = 9) as [->|[->| ->]]; [|done..].
    assert (~ (1 <= x <= 7) /\ ~ (10 <= x <= 16)); [|lia].
    split; intros ?; apply Hother; split; try lia; apply elem_of_app; rewrite !elem_of_seqZ; lia.
Qed.

(** ** The tables of NOC 1 *)

(** Writing [f i] to every index of a range of a list. *)
Lemma copy_noc_tables nt :
  len (translate_table_x nt) = 32 -> len (translate_table_y nt) = 32 ->
  for_loop (Z.to_nat PRE_TRANSLATION_SIZE) 0
    (fun i noc1 =>
       x ← aget (translate_table_x nt) i;
       noc1 ← set_x i (u8 (NOC_X_SIZE - x - 1)) noc1;
       y ← aget (translate_table_y nt) i;
       set_y i (u8 (NOC_Y_SIZE - y - 1)) noc1) nt =
  Some (set_tables (map (fun x => u8 (NOC_X_SIZE - x - 1)) (translate_table_x nt))
                   (map (fun y => u8 (NOC_Y_SIZE - y - 1)) (translate_table_y nt)) nt).
Proof.
  intros Hx Hy. destruct nt as [en tx ty cm rm lc]. cbn [translate_table_x translate_table_y] in *.
  assert (Lx : length tx = 32%nat) by lia. assert (Ly : length ty = 32%nat) by lia. clear Hx Hy.
  name_elements Lx. name_elements Ly. reflexivity.
Qed.

Lemma copy_noc0_to_noc1_spec nt :
  coords_wf (logical_coords nt) -> len (translate_table_x nt) = 32 -> len (translate_table_y nt) = 32 ->
  exists lc, CopyNoc0ToNoc1 nt =
      Some (MkNT (translate_en nt) (map (fun x => u8 (NOC_X_SIZE - x - 1)) (translate_table_x nt))
                 (map (fun y => u8 (NOC_Y_SIZE - y - 1)) (translate_table_y nt))
                 (translate_col_mask nt) (translate_row_mask nt) lc) /\
    coords_wf lc /\
    forall x y, on_grid x y -> aget2 lc x y = aget2 (logical_coords nt) (NOC_X_SIZE - x - 1) (NOC_Y_SIZE - y - 1).
Proof.
  intros Hwf Hx Hy. unfold CopyNoc0ToNoc1. rewrite copy_noc_tables by done. cbn [mbind option_bind].
  set (nt1 := set_tables _ _ nt).
  match goal with |- context [for_loop (Z.to_nat NOC_X_SIZE) 0 ?b nt1] => set (outer := b) end.
  pose (flipped x y := aget2 (logical_coords nt) (NOC_X_SIZE - x - 1) (NOC_Y_SIZE - y - 1)).
  destruct (for_loop_inv
    (fun k nt2 => exists lc, nt2 = set_coords lc nt1 /\ coords_wf lc /\
       forall x y, on_grid x y -> x < k -> aget2 lc x y = flipped x y) (Z.to_nat NOC_X_SIZE) 0 outer nt1)
    as (nt2 & -> & lc & -> & Hlc & Hget).
  - exists (logical_coords nt1). split; [by destruct nt1|]. split; [done|]. intros x y [? ?]. lia.
  - intros k nt2 Hk (lc & -> & Hlc & Hget). unfold outer.
    match goal with |- context [for_loop _ 0 ?b _] => set (inner := b) end.
    destruct (for_loop_inv
      (fun m nt2 => exists lc, nt2 = set_coords lc nt1 /\ coords_wf lc /\
         forall x y, on_grid x y -> x < k \/ (x = k /\ y < m) -> aget2 lc x y = flipped x y)
      (Z.to_nat NOC_Y_SIZE) 0 inner (set_coords lc nt1)) as (nt2 & E & lc' & -> & Hlc' & Hget').
    + exists lc. split_and!; [done|done|]. intros x y Hg [?|[_ ?]]; [by apply Hget|]. destruct Hg. lia.
    + intros m nt2 Hm (lc1 & -> & Hlc1 & Hget1). unfold inner. cbv beta.
      assert (Hg : on_grid (NOC_X_SIZE - k - 1) (NOC_Y_SIZE - m - 1)).
      { unfold on_grid, NOC_X_SIZE, NOC_Y_SIZE in *. lia. }
      assert (Hg' : on_grid k m) by (unfold on_grid, NOC_X_SIZE, NOC_Y_SIZE in *; lia).
      destruct (aget2_in (logical_coords nt) _ _ Hwf Hg) as (v & Hv). rewrite Hv. cbn [mbind option_bind].
      change (logical_coords (set_coords lc1 nt1)) with lc1.
      destruct (aset2_in lc1 k m v Hlc1 Hg') as (lc2 & -> & Hlc2 & Hget2). cbn [mbind option_bind].
      eexists. split; [done|]. exists lc2. split_and!; [done|done|].
      intros x y Hxy Hlt. rewrite Hget2. destruct (Z.eqb_spec k x) as [<-|], (Z.eqb_spec m y) as [<-|]; cbn [andb].
      * unfold flipped. by rewrite Hv.
      * apply Hget1; [done|]. lia.
      * apply Hget1; [done|]. lia.
      * apply Hget1; [done|]. lia.
    + exists (set_coords lc' nt1). split; [exact E|]. exists lc'. split_and!; [done|done|].
      intros x y Hxy Hlt. apply Hget'; [done|]. destruct Hxy as [_ ?]. unfold NOC_Y_SIZE in *. lia.
  - exists lc. split_and!; [done|done|]. intros x y Hg. apply Hget; [done|]. destruct Hg as [? _]. unfold NOC_X_SIZE in *. lia.
Qed.

(** ** The properties *)

Lemma coord_word_fields a b : 0 <= a < 32 -> 0 <= b < 32 ->
  Z.land (coord_word a b) 63 = a /\ Z.shiftr (coord_word a b) 6 = b.
Proof.
  intros Ha Hb.
  assert (Hw : coord_word a b = b * 64 + a).
  { unfold coord_word.
    assert (Hl : Z.lor (Z.shiftl b 6) a = b * 64 + a).
    { pose proof (Z.add_lor_land (Z.shiftl b 6) a) as Hl.
      assert (Hz : Z.land (Z.shiftl b 6) a = 0); [|rewrite Hz in Hl; rewrite <- Z.shiftl_mul_pow2 with (n := 6) by lia || rewrite Z.shiftl_mul_pow2 in * by lia; lia].
      apply Z.bits_inj'. intros i Hi. rewrite Z.land_spec, Z.shiftl_spec, Z.bits_0 by lia.
      destruct (Z.lt_ge_cases i 6); [by rewrite Z.testbit_neg_r by lia|].
      rewrite (testbit_above a 5) by lia. apply andb_false_r. }
    rewrite Hl. apply wrap_small. unwrap. lia. }
  rewrite Hw. change 63 with (Z.ones 6). rewrite Z.land_ones, Z.shiftr_div_pow2 by lia.
  change (2 ^ 6) with 64. split; Z.to_euclidean_division_equations; lia.
Qed.

Lemma located_physical TX TY lc x y :
  located TX TY lc x y ->
  exists v, aget2 lc x y = Some v /\
    NocLogicalToPhysical (MkNT true TX TY 0 3 lc) (Z.land v 63) (Z.shiftr v 6) = Some (x, y).
Proof.
  intros (a & b & Hget & Ha & Hb & HY & HX). exists (coord_word a b). split; [done|].
  destruct (coord_word_fields a b Ha Hb) as [-> ->]. unfold NocLogicalToPhysical.
  cbn [translate_en translate_row_mask translate_col_mask translate_table_x translate_table_y andb].
  rewrite Z.bits_0, HY. cbn [negb].
  change 3 with (Z.ones 2). rewrite testbit_ones_in by lia.
  destruct (b <? 2); cbn [negb]; [by rewrite HX|]. by rewrite HX.
Qed.

Lemma final_x_length bad g pcie eth : 0 <= bad < 2 ^ 14 -> length eth = 12%nat -> len (final_x bad g pcie eth) = 32.
Proof.
  intros Hbad He. pose proof (translated_cols_length bad Hbad) as Hl. unfold final_x.
  cbn [length]. rewrite !length_app, length_take, length_drop, Hl, He.
  assert (length (gddr_columns g) = 2%nat) as -> by (unfold gddr_columns; by case_match). done.
Qed.

Lemma final_y_length g : valid_bad_gddr g -> len (final_y g) = 32.
Proof.
  intros Hg. pose proof (Permutation_length (gddr_rows_perm g Hg)) as Hl. unfold final_y.
  rewrite !length_app, Hl. done.
Qed.

Lemma gddr_rows_last g : valid_bad_gddr g -> g <> NO_BAD_GDDR -> drop 9 (gddr_rows g) = nth (Z.to_nat (g mod 4)) kGddrY [].
Proof.
  revert g. apply (valid_gddr_cases (fun g => g <> NO_BAD_GDDR -> drop 9 (gddr_rows g) = nth (Z.to_nat (g mod 4)) kGddrY [])).
  repeat (apply Forall_cons; split; [intros Hg; first [reflexivity|by destruct Hg]|]). by apply Forall_nil.
Qed.

Lemma ring_flip px py : phys_on_grid px py ->
  NOC_X_SIZE - ring_x px 1 - 1 = ring_x px 0 /\ NOC_Y_SIZE - ring_y py 1 - 1 = ring_y py 0.
Proof.
  intros [Hx Hy]. assert (R : 0 <= 0 < NUM_NOCS) by (unfold NUM_NOCS; lia). split.
  - pose proof (forall_grid NOC_X_SIZE (fun p _ => NOC_X_SIZE - ring_x p 1 - 1 =? ring_x p 0) eq_refl px 0 Hx R) as H.
    cbv beta in H. lia.
  - pose proof (forall_grid NOC_Y_SIZE (fun p _ => NOC_Y_SIZE - ring_y p 1 - 1 =? ring_y p 0) eq_refl py 0 Hy R) as H.
    cbv beta in H. lia.
Qed.

(** [ComputeNocTranslation] produces the tables its documentation lays out,
    for every set of at most seven bad Tensix columns, every bad GDDR instance or
    none, and every Ethernet skip mask that leaves twelve instances.  Translated X
    1-7 and 10-16 are a permutation of the Tensix columns: the good ones first, in
    increasing NOC order, the bad ones after them.  The GDDR rows 12-23 are a
    permutation of all twelve rows with the bad instance's rows last, X 19 is the
    PCIe endpoint and X 20-31 the Ethernet instances that are not skipped. *)
Theorem noc_translation_tables pcie bad g skip :
  0 <= bad < 2 ^ 14 -> (length (bits_of bad) <= 7)%nat -> valid_bad_gddr g ->
  (12 <= length (unskipped 0 kTensixEthNoc0X skip))%nat ->
  let good := filter (fun x => column_bad bad x = false) tensix_cols in
  let cols := good ++ rev (map tensix_col (bits_of bad)) in
  exists nt, ComputeNocTranslation pcie bad g skip = Some nt /\
    translate_en nt = true /\ translate_col_mask nt = 0 /\ translate_row_mask nt = 3 /\
    translate_table_x nt =
      0 :: take 7 cols ++ [8; 9] ++ drop 7 cols ++ (if 4 <=? g then [0; 9] else [9; 0]) ++
      [if pcie =? 0 then 2 else 11] ++ take 12 (unskipped 0 kTensixEthNoc0X skip) /\
    translate_table_y nt = seqZ 0 12 ++ gddr_rows g ++ [0; 1] ++ [3; 9; 5; 7] ++ [2; 0] /\
    cols ≡ₚ tensix_cols /\ (length good + length (bits_of bad) = 14)%nat /\
    gddr_rows g ≡ₚ seqZ 0 12 /\
    (g <> NO_BAD_GDDR -> drop 9 (gddr_rows g) = nth (Z.to_nat (g mod 4)) kGddrY []).
Proof.
  intros Hbad Hcount Hg Hskip. cbv zeta.
  pose proof (copy_bytes_skip kTensixEthNoc0X 12 skip 0 ltac:(lia)) as Heth. rewrite Z.shiftr_0_r in Heth.
  rewrite decide_True in Heth by done.
  destruct (compute_spec pcie bad g skip _ Hbad Hcount Hg Heth) as (lc & E & _ & _).
  eexists. split; [exact E|]. cbn [translate_en translate_col_mask translate_row_mask translate_table_x translate_table_y].
  pose proof (translated_cols_length bad Hbad) as Hl. unfold translated_cols, bad_columns in Hl.
  rewrite length_app, length_rev, length_map in Hl.
  do 3 (split; [reflexivity|]). split; [|split; [reflexivity|split; [|split; [|split]]]].
  - unfold final_x, pcie_column. by destruct (pcie =? 0).
  - by apply translated_cols_perm.
  - exact Hl.
  - by apply gddr_rows_perm.
  - by apply gddr_rows_last.
Qed.

Lemma noc_translation_tables_witness :
  let good := filter (fun x => column_bad 5 x = false) tensix_cols in
  let cols := good ++ rev (map tensix_col (bits_of 5)) in
  exists nt, ComputeNocTranslation 1 5 2 0x120 = Some nt /\
    translate_table_x nt = 0 :: take 7 cols ++ [8; 9] ++ drop 7 cols ++ [9; 0] ++ [11] ++
      take 12 (unskipped 0 kTensixEthNoc0X 0x120).
Proof.
  destruct (noc_translation_tables 1 5 2 0x120) as (nt & E & _ & _ & _ & HX & _).
  - lia.
  - by vm_compute; lia.
  - left. unfold NUM_GDDR. lia.
  - by vm_compute; lia.
  - exists nt. split; [exact E|exact HX].
Defined.

(** C5: every node of the 17 by 12 grid has a logical coordinate of its own: the
    firmware's own translation [NocLogicalToPhysical] leads the coordinate given
    to node (x, y) back to (x, y), so no two nodes share one; and a node has the
    same logical coordinate on both NOCs. *)
Theorem noc_logical_roundtrip pcie bad g skip :
  0 <= bad < 2 ^ 14 -> (length (bits_of bad) <= 7)%nat -> valid_bad_gddr g ->
  (12 <= length (unskipped 0 kTensixEthNoc0X skip))%nat ->
  exists nt0 nt1, ComputeNocTranslation pcie bad g skip = Some nt0 /\ CopyNoc0ToNoc1 nt0 = Some nt1 /\
    (forall x y, on_grid x y -> exists v, aget2 (logical_coords nt0) x y = Some v /\
       NocLogicalToPhysical nt0 (Z.land v 63) (Z.shiftr v 6) = Some (x, y)) /\
    (forall x y x' y', on_grid x y -> on_grid x' y' ->
       aget2 (logical_coords nt0) x y = aget2 (logical_coords nt0) x' y' -> x = x' /\ y = y') /\
    (forall px py, phys_on_grid px py ->
       aget2 (logical_coords nt1) (ring_x px 1) (ring_y py 1) =
       aget2 (logical_coords nt0) (ring_x px 0) (ring_y py 0)).
Proof.
  intros Hbad Hcount Hg Hskip.
  pose proof (copy_bytes_skip kTensixEthNoc0X 12 skip 0 ltac:(lia)) as Heth. rewrite Z.shiftr_0_r in Heth.
  rewrite decide_True in Heth by done.
  destruct (compute_spec pcie bad g skip _ Hbad Hcount Hg Heth) as (lc & E & Hwf & Hloc).
  set (nt := MkNT true (final_x bad g pcie (take 12 (unskipped 0 kTensixEthNoc0X skip))) (final_y g) 0 3 lc) in *.
  assert (Hphys : forall x y, on_grid x y -> exists v, aget2 (logical_coords nt) x y = Some v /\
            NocLogicalToPhysical nt (Z.land v 63) (Z.shiftr v 6) = Some (x, y)).
  { intros x y Hxy. exact (located_physical _ _ _ _ _ (Hloc x y Hxy)). }
  destruct (copy_noc0_to_noc1_spec nt Hwf (final_x_length _ _ _ _ Hbad (copy_bytes_length _ _ _ _ Heth))
              (final_y_length _ Hg)) as (lc1 & E1 & Hwf1 & Hlc1).
  eexists _, _. split; [exact E|]. split; [exact E1|]. split; [exact Hphys|split].
  - intros x y x' y' H1 H2 Heq.
    destruct (Hphys x y H1) as (v & Hv & Hp). destruct (Hphys x' y' H2) as (v' & Hv' & Hp').
    rewrite Hv, Hv' in Heq. injection Heq as <-. rewrite Hp in Hp'. clear - Hp'. injection Hp' as -> ->. split; reflexivity.
  - intros px py [Hx Hy]. change (logical_coords (MkNT _ _ _ _ _ lc1)) with lc1. rewrite Hlc1.
    + destruct (ring_flip px py) as [-> ->]; [split; assumption|reflexivity].
    + destruct (phys_x_to_noc px 1) as (_ & ? & _); [unfold NUM_NOCS; lia|assumption|].
      destruct (phys_y_to_noc py 1) as (_ & ? & _); [unfold NUM_NOCS; lia|assumption|]. split; assumption.
Qed.

Lemma noc_logical_roundtrip_witness :
  exists nt0 nt1, ComputeNocTranslation 0 0x2004 6 0x120 = Some nt0 /\ CopyNoc0ToNoc1 nt0 = Some nt1 /\
    aget2 (logical_coords nt1) (ring_x 3 1) (ring_y 5 1) = aget2 (logical_coords nt0) (ring_x 3 0) (ring_y 5 0).
Proof.
  destruct (noc_logical_roundtrip 0 0x2004 6 0x120) as (nt0 & nt1 & E0 & E1 & _ & _ & H).
  - lia.
  - by vm_compute; lia.
  - left. unfold NUM_GDDR. lia.
  - by vm_compute; lia.
  - exists nt0, nt1. split; [exact E0|]. split; [exact E1|]. apply H. unfold phys_on_grid, NOC_X_SIZE, NOC_Y_SIZE. lia.
Defined.
