(* ===== verification/NocProgram.v ===== *)
(** * Programming the tables into the nodes

    The functions of [NocInit] that write NOC registers, over hardware that obeys
    [NocHwLaws]: every node of both NOCs receives the packed tables, whatever
    state the translation was in before. *)

From S2P Require Import Prelude Noc Harvesting NocInit NocTables.

(** ** Packed tables *)

(** Entry [i] of a table packed six to a register from register [first] on. *)
Definition packed_entry (regs : Z -> Z) (first i : Z) : Z :=
  bits_get (i mod 6 * 5) 5 (regs (first + i / 6)).

Definition table_wf (t : list Z) : Prop := len t = 32 /\ Forall (fun v => 0 <= v < 32) t.

Lemma bits_get_shiftl_field v s s' : 0 <= v < 32 -> 0 <= s < 6 -> 0 <= s' < 6 ->
  bits_get (s' * 5) 5 (Z.shiftl v (s * 5)) = if s =? s' then v else 0.
Proof.
  intros Hv Hs Hs'. apply Z.bits_inj'. intros i Hi.
  rewrite bits_get_spec, Z.shiftl_spec by lia.
  assert (Hhigh : forall k, 5 <= k -> Z.testbit v k = false).
  { intros k Hk. apply (testbit_above v 5); lia. }
  destruct (Z.eqb_spec s s') as [<-|Hne].
  - replace (i + s * 5 - s * 5) with i by lia. destruct (Z.ltb_spec i 5); cbn; [done|]. by rewrite Hhigh by lia.
  - rewrite Z.bits_0. destruct (Z.ltb_spec i 5); cbn; [|done].
    destruct (Z.lt_ge_cases (i + s' * 5 - s * 5) 0); [by rewrite Z.testbit_neg_r by lia|]. apply Hhigh. lia.
Qed.

Lemma pack_table_spec t :
  table_wf t ->
  exists p, pack_table t = Some p /\ length p = 6%nat /\ Forall is_u32 p /\
    forall i v, aget t i = Some v -> bits_get (i mod 6 * 5) 5 (default 0 (aget p (i / 6))) = v.
Proof.
  intros [Hl HF]. unfold pack_table. change (Z.to_nat PRE_TRANSLATION_SIZE) with 32%nat.
  change NOC_TRANSLATE_TABLE_XY_SIZE with 6. change NOC_TRANSLATE_ID_WIDTH with 5.
  match goal with |- context [for_loop _ _ ?b _] => set (body := b) end.
  destruct (for_loop_inv
    (fun k p => length p = 6%nat /\ Forall is_u32 p /\
       forall i, 0 <= i < 36 -> bits_get (i mod 6 * 5) 5 (default 0 (aget p (i / 6))) =
                                if i <? k then default 0 (aget t i) else 0)
    32 0 body (replicate 6 0)) as (p & E & Hlen & Hp & Hent).
  - split; [done|]. split; [repeat constructor; unwrap; lia|]. intros i Hi.
    destruct (Z.ltb_spec i 0); [lia|].
    assert (Hz : default 0 (aget (replicate 6 0) (i / 6)) = 0).
    { rewrite aget_nat by (Z.to_euclidean_division_equations; lia). rewrite lookup_replicate_2; [done|].
      Z.to_euclidean_division_equations; lia. }
    change (Z.to_nat 6) with 6%nat. rewrite Hz. unfold bits_get. by rewrite Z.shiftr_0_l, Z.land_0_l.
  - intros k p Hk (Hlen & Hp & Hent). unfold body.
    destruct (aget_in t k) as (v & Hv); [lia|]. pose proof (aget_Forall _ _ _ _ HF Hv) as Hvr. cbv beta in Hvr.
    destruct (aget_in p (k / 6)) as (q & Hq); [Z.to_euclidean_division_equations; lia|].
    rewrite Hv. cbn [mbind option_bind]. rewrite Hq. cbn [mbind option_bind].
    rewrite aset_in by (Z.to_euclidean_division_equations; lia).
    assert (Hm : 0 <= k mod 6 < 6) by (Z.to_euclidean_division_equations; lia).
    assert (Hsh : u32 (Z.shiftl v (k mod 6 * 5)) = Z.shiftl v (k mod 6 * 5)).
    { apply wrap_small. rewrite Z.shiftl_mul_pow2 by lia. unwrap.
      assert (1 <= 2 ^ (k mod 6 * 5) <= 2 ^ 25); [|change (2 ^ 25) with 33554432 in *; nia].
      split; [pose proof (Z.pow_pos_nonneg 2 (k mod 6 * 5)); lia|]. apply Z.pow_le_mono_r; lia. }
    rewrite Hsh. eexists. split; [done|]. rewrite length_insert. split; [done|]. split.
    + apply Forall_insert; [done|]. pose proof (aget_Forall _ _ _ _ Hp Hq) as Hqr.
      rewrite <- Hsh. pose proof (u32_range (Z.shiftl v (k mod 6 * 5))) as Hr.
      unfold in_width in *. split; [apply Z.lor_nonneg; lia|]. 
      apply bits_lt_pow2; [apply Z.lor_nonneg; lia|lia|]. intros i. rewrite Z.lor_spec.
      intros Hi. destruct (Z.lt_ge_cases i 32); [done|].
      rewrite !(fun z => testbit_above z 32 i) in Hi by lia. done.
    + intros i Hi. destruct (Z.eq_dec (i / 6) (k / 6)) as [Heq|Hne].
      * rewrite Heq, aget_insert by (Z.to_euclidean_division_equations; lia). cbn [from_option]; unfold id.
        assert (0 <= i mod 6 < 6) by (Z.to_euclidean_division_equations; lia).
        rewrite bits_get_lor, bits_get_shiftl_field by lia.
        pose proof (Hent i Hi) as He. rewrite Heq, Hq in He. cbn [from_option] in He; unfold id in He. rewrite He.
        destruct (Z.eqb_spec (k mod 6) (i mod 6)) as [Hmm|Hmm].
        -- assert (i = k) as -> by (Z.to_euclidean_division_equations; lia).
           destruct (Z.ltb_spec k k); [lia|]. destruct (Z.ltb_spec k (k + 1)); [|lia].
           rewrite Hv. apply Z.lor_0_l.
        -- assert (i <> k) by congruence. rewrite Z.lor_0_r.
           destruct (Z.ltb_spec i k), (Z.ltb_spec i (k + 1)); done || lia.
      * rewrite aget_insert_ne by (Z.to_euclidean_division_equations; lia). rewrite Hent by done.
        assert (i <> k) by congruence. destruct (Z.ltb_spec i k), (Z.ltb_spec i (k + 1)); done || lia.
  - exists p. split_and!; [done|done|done|]. intros i v Hv. pose proof (aget_range _ _ _ Hv) as Hr.
    rewrite Hent by lia. destruct (Z.ltb_spec i (0 + Z.of_nat 32)); [|lia]. by rewrite Hv.
Qed.

(** ** One node *)

Record nt_wf (nt : NocTranslation) : Prop := {
  wf_x : table_wf (translate_table_x nt);
  wf_y : table_wf (translate_table_y nt);
  wf_col : is_u32 (translate_col_mask nt);
  wf_row : is_u32 (translate_row_mask nt);
  wf_coords : forall x y, on_grid x y -> exists v, aget2 (logical_coords nt) x y = Some v /\ is_u16 v
}.

(** The configuration registers of a node after it was programmed. *)
Definition programmed (nt : NocTranslation) (x y : Z) (old : Z -> Z) (i : Z) : Z :=
  if i =? NIU_CFG_0 then WRITE_BIT (old NIU_CFG_0) NIU_CFG_0_NOC_ID_TRANSLATE_EN (translate_en nt)
  else if i =? NOC_ID_TRANSLATE_COL_MASK then translate_col_mask nt
  else if i =? NOC_ID_TRANSLATE_ROW_MASK then translate_row_mask nt
  else if i =? DDR_COORD_TRANSLATE_TABLE 5 then 0
  else if i =? NOC_ID_LOGICAL then default 0 (aget2 (logical_coords nt) x y)
  else if (6 <=? i) && (i <? 12) then default 0 (p ← pack_table (translate_table_x nt); aget p (i - 6))
  else if (12 <=? i) && (i <? 18) then default 0 (p ← pack_table (translate_table_y nt); aget p (i - 12))
  else old i.

Lemma write_bit_u32 v n b : is_u32 v -> 0 <= n < 32 -> is_u32 (WRITE_BIT v n b).
Proof.
  intros Hv Hn. unfold in_width in *.
  assert (0 <= WRITE_BIT v n b).
  { unfold WRITE_BIT, BIT. rewrite Z.shiftl_1_l. pose proof (Z.pow_pos_nonneg 2 n).
    destruct b; [apply Z.lor_nonneg|apply Z.land_nonneg]; lia. }
  split; [done|]. apply bits_lt_pow2; [done|lia|]. intros i Hi.
  destruct (Z.lt_ge_cases i 32); [done|].
  assert (Hvi : Z.testbit v i = false) by (apply (testbit_above v 32); lia).
  unfold WRITE_BIT, BIT in Hi. rewrite Z.shiftl_1_l in Hi. destruct b.
  - rewrite Z.lor_spec, Hvi, Z.pow2_bits_eqb in Hi by lia. cbn in Hi. lia.
  - by rewrite Z.land_spec, Hvi in Hi.
Qed.

Lemma write_bit_testbit v n b : 0 <= n -> Z.testbit (WRITE_BIT v n b) n = b.
Proof.
  intros Hn. unfold WRITE_BIT, BIT. rewrite Z.shiftl_1_l. destruct b.
  - by rewrite Z.lor_spec, Z.pow2_bits_true, orb_true_r by lia.
  - by rewrite clear_bit_spec, Z.eqb_refl, andb_false_r by lia.
Qed.

Section programming.
Context {W : Type} `{NocHwLaws W}.

(** While a node is being programmed: the window points at it, its registers are
    [f], everything else is as in [w0]. *)
Definition at_node (w0 : W) (ring px py b : Z) (f : Z -> Z) (w : W) : Prop :=
  points_to w ring px py b /\
  forall r x y j, niu w r x y j =
    if (ring =? r) && (ring_x px ring =? x) && (ring_y py ring =? y) then f j else niu w0 r x y j.

Definition is_arc (px py : Z) : bool := (px =? ARC_PX) && (py =? ARC_PY).

Section node.
Variables (w0 : W) (ring px py b : Z).
Hypothesis Hring : 0 <= ring < NUM_NOCS.
Hypothesis Hgrid : phys_on_grid px py.
Hypothesis Hoff : arc_off w0 ring.

Lemma at_node_arc_off f w :
  at_node w0 ring px py b f w -> (is_arc px py = true -> Z.testbit (f 0) 14 = false) -> arc_off w ring.
Proof.
  intros [_ Hniu] Harc. unfold arc_off. rewrite Hniu, Z.eqb_refl. cbn [andb].
  destruct (Z.eqb_spec (ring_x px ring) (ring_x ARC_PX ring)) as [Ex|]; [|apply Hoff].
  destruct (Z.eqb_spec (ring_y py ring) (ring_y ARC_PY ring)) as [Ey|]; [|apply Hoff].
  destruct Hgrid as [Hx Hy].
  apply ring_x_inj in Ex; [|done|done|unfold ARC_PX, NOC_X_SIZE; lia].
  apply ring_y_inj in Ey; [|done|done|unfold ARC_PY, NOC_Y_SIZE; lia].
  apply Harc. unfold is_arc. by rewrite Ex, Ey, !Z.eqb_refl.
Qed.

Lemma at_node_read f w i :
  at_node w0 ring px py b f w -> (is_arc px py = true -> Z.testbit (f 0) 14 = false) -> 0 <= i < 32 ->
  ReadNocCfgReg (GetTlbWindowAddr ring 0 b) i w = f i.
Proof.
  intros Hat Harc Hi. pose proof (at_node_arc_off f w Hat Harc) as Hao. destruct Hat as [Hp Hniu].
  destruct (points_to_hits w ring px py b i) as (off & Hh & Haddr); [done..|].
  unfold ReadNocCfgReg, cfg_reg_address. change kFirstCfgRegIndex with 64. rewrite Haddr.
  rewrite (read_window _ _ _ _ _ _ _ Hh), Hniu, !Z.eqb_refl. done.
Qed.

Lemma at_node_write f w i v :
  at_node w0 ring px py b f w -> (is_arc px py = true -> Z.testbit (f 0) 14 = false) -> 0 <= i < 32 -> is_u32 v ->
  at_node w0 ring px py b (fun j => if i =? j then v else f j) (WriteNocCfgReg (GetTlbWindowAddr ring 0 b) i v w).
Proof.
  intros Hat Harc Hi Hv. pose proof (at_node_arc_off f w Hat Harc) as Hao. destruct Hat as [Hp Hniu].
  destruct (points_to_hits w ring px py b i) as (off & Hh & Haddr); [done..|].
  unfold WriteNocCfgReg, cfg_reg_address. change kFirstCfgRegIndex with 64. rewrite Haddr.
  destruct (write_window w ring 0 off px py i v Hh Hv) as [HN HT]. split.
  - unfold points_to in *. by rewrite !HT.
  - intros r x y j. rewrite HN, Hniu. unfold same_reg.
    destruct (ring =? r), (ring_x px ring =? x), (ring_y py ring =? y), (i =? j); done.
Qed.
End node.

Lemma setup_at_node w ring px py :
  0 <= ring < NUM_NOCS -> phys_on_grid px py ->
  exists b w', SetupNiuTlbPhys kTlbIndex px py ring w = Some (GetTlbWindowAddr ring 0 b, w') /\
    at_node w ring px py b (niu w ring (ring_x px ring) (ring_y py ring)) w'.
Proof.
  intros Hr Hg. pose proof Hg as [Hx Hy].
  destruct (niu_regs_base px py ring Hr Hg) as (b & Hb & _).
  destruct (phys_x_to_noc px ring Hr Hx) as (Ex & _). destruct (phys_y_to_noc py ring Hr Hy) as (Ey & _).
  destruct (tlb_setup_points w ring px py b Hr Hg Hb) as [Hp Hn].
  unfold SetupNiuTlbPhys, kTlbIndex. rewrite Hb, Ex, Ey. cbn [mbind option_bind].
  eexists b, _. split; [done|]. split; [exact Hp|].
  intros r x y j. rewrite Hn.
  destruct (Z.eqb_spec ring r) as [<-|], (Z.eqb_spec (ring_x px ring) x) as [<-|],
           (Z.eqb_spec (ring_y py ring) y) as [<-|]; done.
Qed.

Section one_ring.
Variables (w : W) (ring px py : Z) (nt : NocTranslation).
Hypothesis Hring : 0 <= ring < NUM_NOCS.
Hypothesis Hgrid : phys_on_grid px py.
Hypothesis Hoff : arc_off w ring.
Hypothesis Hwf : nt_wf nt.

Abbreviation old := (niu w ring (ring_x px ring) (ring_y py ring)).

Lemma old_arc_off : is_arc px py = true -> Z.testbit (old 0) 14 = false.
Proof. unfold is_arc. intros [->%Z.eqb_eq ->%Z.eqb_eq]%andb_true_iff. exact Hoff. Qed.

(** The registers after the writes [l], oldest first. *)
Definition written (l : list (Z * Z)) (f : Z -> Z) : Z -> Z :=
  foldl (fun f '(i, v) j => if i =? j then v else f j) f l.

Definition register_writes (lg : Z) (qx qy : list Z) (cfg : Z) : list (Z * Z) :=
  (if translate_en nt then [] else [(0, cfg)]) ++
  [(NOC_ID_TRANSLATE_COL_MASK, translate_col_mask nt); (NOC_ID_TRANSLATE_ROW_MASK, translate_row_mask nt);
   (DDR_COORD_TRANSLATE_TABLE 5, 0); (NOC_ID_LOGICAL, lg)] ++
  mjoin (zip_with (fun i '(vx, vy) => [(NOC_X_ID_TRANSLATE_TABLE i, vx); (NOC_Y_ID_TRANSLATE_TABLE i, vy)])
                  [0; 1; 2; 3; 4; 5] (zip qx qy)) ++
  (if translate_en nt then [(0, cfg)] else []).

Lemma register_writes_programmed lg qx qy j :
  pack_table (translate_table_x nt) = Some qx -> pack_table (translate_table_y nt) = Some qy ->
  length qx = 6%nat -> length qy = 6%nat ->
  aget2 (logical_coords nt) (ring_x px ring) (ring_y py ring) = Some lg ->
  written (register_writes lg qx qy (WRITE_BIT (old 0) 14 (translate_en nt))) old j =
  programmed nt (ring_x px ring) (ring_y py ring) old j.
Proof.
  intros Ex Ey Lx Ly El. unfold programmed. rewrite Ex, Ey, El. name_elements Lx. name_elements Ly.
  assert (Hj : j ∈ seqZ 0 32 \/ ~ (0 <= j < 32)) by (rewrite elem_of_seqZ; lia).
  unfold register_writes. destruct Hj as [Hj|Hj].
  - change (seqZ 0 32) with [0; 1; 2; 3; 4; 5; 6; 7; 8; 9; 10; 11; 12; 13; 14; 15; 16; 17; 18; 19; 20; 21; 22; 23; 24; 25; 26; 27; 28; 29; 30; 31] in Hj.
    repeat (apply elem_of_cons in Hj as [-> |Hj]); [..|by apply elem_of_nil in Hj];
      destruct (translate_en nt); reflexivity.
  - assert (Hne : forall k, 0 <= k < 32 -> (k =? j) = false) by (intros; apply Z.eqb_neq; lia).
    assert (Hne' : forall k, 0 <= k < 32 -> (j =? k) = false) by (intros; apply Z.eqb_neq; lia).
    rewrite !Hne' by done. replace ((6 <=? j) && (j <? 12)) with false by (symmetry; apply andb_false_iff; lia).
    replace ((12 <=? j) && (j <? 18)) with false by (symmetry; apply andb_false_iff; lia).
    destruct (translate_en nt); unfold written; cbn -[Z.eqb]; by rewrite !Hne by done.
Qed.

Lemma reg_entry i v (P : Prop) :
  (0 <=? i) && (i <? 32) && negb (i =? 0) = true -> is_u32 v ->
  0 <= i < 32 /\ is_u32 v /\ (P -> i = 0 -> Z.testbit v 14 = false).
Proof. intros Hi Hv. bool_cases. split; [lia|]. split; [done|]. intros _ ?. lia. Qed.

(** A list of writes through the window. *)
Lemma at_node_writes b l f w1 :
  at_node w ring px py b f w1 -> (is_arc px py = true -> Z.testbit (f 0) 14 = false) ->
  Forall (fun '(i, v) => 0 <= i < 32 /\ is_u32 v /\ (is_arc px py = true -> i = 0 -> Z.testbit v 14 = false)) l ->
  at_node w ring px py b (written l f) (foldl (fun w '(i, v) => WriteNocCfgReg (GetTlbWindowAddr ring 0 b) i v w) w1 l) /\
  (is_arc px py = true -> Z.testbit (written l f 0) 14 = false).
Proof.
  intros Hat Harc Hl. revert f w1 Hat Harc. induction Hl as [|[i v] l (Hi & Hv & Hiv) _ IH]; intros f w1 Hat Harc; [done|].
  cbn [foldl written]. apply IH.
  - by apply at_node_write.
  - intros Ha. destruct (Z.eqb_spec i 0) as [->|]; auto.
Qed.

Lemma program_ring_spec :
  exists w', program_ring nt px py ring w = Some w' /\
    forall r x y j, niu w' r x y j =
      if (ring =? r) && (ring_x px ring =? x) && (ring_y py ring =? y)
      then programmed nt (ring_x px ring) (ring_y py ring) old j else niu w r x y j.
Proof.
  pose proof Hgrid as [Hx Hy]. pose proof Hwf as [Wx Wy Wc Wr Wl]. pose proof old_arc_off as Harc.
  destruct (phys_x_to_noc px ring Hring Hx) as (Ex & Hrx & _).
  destruct (phys_y_to_noc py ring Hring Hy) as (Ey & Hry & _).
  destruct (pack_table_spec _ Wx) as (qx & Eqx & Lqx & Uqx & _).
  destruct (pack_table_spec _ Wy) as (qy & Eqy & Lqy & Uqy & _).
  destruct (Wl (ring_x px ring) (ring_y py ring)) as (lg & Elg & Hlg); [done|].
  assert (is_u32 lg) by word_lia. assert (is_u32 0) by (unwrap; lia).
  destruct (setup_at_node w ring px py Hring Hgrid) as (b & w1 & Es & Hat).
  pose proof (at_node_read w ring px py b Hring Hgrid Hoff old w1 0 Hat Harc ltac:(lia)) as Hread.
  pose proof (register_writes_programmed lg qx qy) as Hprog.
  set (cfg := WRITE_BIT (old 0) 14 (translate_en nt)) in *.
  assert (Hcfg : is_u32 cfg) by (apply write_bit_u32; [apply niu_u32|lia]).
  unfold program_ring. rewrite Eqx, Eqy, Ex, Ey, Es. cbn [mbind option_bind]. cbv zeta.
  rewrite Elg, Lqx. cbn [mbind option_bind]. change NIU_CFG_0 with 0. rewrite Hread.
  assert (Hmid : Forall (fun '(i, v) => 0 <= i < 32 /\ is_u32 v /\ (is_arc px py = true -> i = 0 -> Z.testbit v 14 = false))
    (((if translate_en nt then [] else [(0, cfg)]) ++
      [(NOC_ID_TRANSLATE_COL_MASK, translate_col_mask nt); (NOC_ID_TRANSLATE_ROW_MASK, translate_row_mask nt);
       (DDR_COORD_TRANSLATE_TABLE 5, 0); (NOC_ID_LOGICAL, lg)] ++
      mjoin (zip_with (fun i '(vx, vy) => [(NOC_X_ID_TRANSLATE_TABLE i, vx); (NOC_Y_ID_TRANSLATE_TABLE i, vy)])
               [0; 1; 2; 3; 4; 5] (zip qx qy))))).
  { apply Forall_app. split.
    - destruct (translate_en nt) eqn:Een; repeat constructor; try done; try lia; try apply Hcfg.
      intros _ _. unfold cfg. by apply write_bit_testbit.
    - clear Hprog Eqx Eqy. name_elements Lqx. name_elements Lqy.
      repeat match goal with HF : Forall is_u32 (_ :: _) |- _ => apply Forall_cons in HF as [? HF] end.
      cbn. repeat (apply Forall_cons; split; [apply reg_entry; [reflexivity|assumption]|]). apply Forall_nil. done. }
  specialize (fun j => Hprog j Eqx Eqy Lqx Lqy Elg). unfold register_writes in Hprog.
  destruct (at_node_writes b _ old w1 Hat Harc Hmid) as [Hat2 Harc2].
  clear Hmid Eqx Eqy Uqx Uqy Hread. name_elements Lqx. name_elements Lqy.
  destruct (translate_en nt) eqn:Een.
  - apply (at_node_write w ring px py b Hring Hgrid Hoff _ _ 0 cfg) in Hat2 as Hat3; [|done|lia|done].
    destruct Hat3 as [_ Hniu]. eexists. split; [reflexivity|]. intros r x y j. etransitivity; [apply Hniu|].
    case_match; [|done]. rewrite <- Hprog. reflexivity.
  - destruct Hat2 as [_ Hniu]. eexists. split; [reflexivity|]. intros r x y j. etransitivity; [apply Hniu|].
    case_match; [|done]. rewrite <- Hprog. reflexivity.
Qed.
End one_ring.

(** ** All nodes *)

(** What an operation makes of the registers of node [(px, py)] on a ring. *)
Abbreviation node_update := (Z -> Z -> Z -> (Z -> Z) -> Z -> Z).

(** The nodes of [done_] have been updated, the others are as in [w]. *)
Definition progress (F : node_update) (done_ : Z -> Z -> bool) (w w' : W) : Prop :=
  forall r px py j, 0 <= r < NUM_NOCS -> phys_on_grid px py ->
    niu w' r (ring_x px r) (ring_y py r) j =
      if done_ px py then F r px py (niu w r (ring_x px r) (ring_y py r)) j
      else niu w r (ring_x px r) (ring_y py r) j.

Definition arcs_off (w : W) : Prop := forall r, 0 <= r < NUM_NOCS -> arc_off w r.

Lemma arc_on_grid : phys_on_grid ARC_PX ARC_PY.
Proof. unfold phys_on_grid, ARC_PX, ARC_PY, NOC_X_SIZE, NOC_Y_SIZE. lia. Qed.

Lemma ring_cases r : 0 <= r < NUM_NOCS -> r = 0 \/ r = 1.
Proof. change NUM_NOCS with 2. lia. Qed.

Lemma same_node_spec r px py px' py' :
  0 <= r < NUM_NOCS -> phys_on_grid px py -> phys_on_grid px' py' ->
  (ring_x px r =? ring_x px' r) && (ring_y py r =? ring_y py' r) = (px =? px') && (py =? py').
Proof.
  intros Hr [Hx Hy] [Hx' Hy'].
  destruct (Z.eqb_spec px px') as [->|Hn].
  - rewrite Z.eqb_refl. cbn [andb]. destruct (Z.eqb_spec py py') as [->|Hn']; [by rewrite Z.eqb_refl|].
    apply Z.eqb_neq. intros E. by apply Hn', (ring_y_inj _ _ r).
  - cbn [andb]. apply andb_false_iff. left. apply Z.eqb_neq. intros E. by apply Hn, (ring_x_inj _ _ r).
Qed.

Definition only (px py px' py' : Z) : bool := (px =? px') && (py =? py').

Lemma only_true px py px' py' : only px py px' py' = true -> px = px' /\ py = py'.
Proof. unfold only. by intros [?%Z.eqb_eq ?%Z.eqb_eq]%andb_true_iff. Qed.

Section all_nodes.
Variable F : node_update.
Hypothesis F_ext : forall r px py f g j, (forall i, f i = g i) -> F r px py f j = F r px py g j.

Lemma progress_ext d d' w w' :
  (forall px py, phys_on_grid px py -> d px py = d' px py) -> progress F d w w' -> progress F d' w w'.
Proof. intros Hd Hp r px py j Hr Hg. rewrite <- Hd by done. by apply Hp. Qed.

(** Nodes updated one after another. *)
Lemma progress_step d d1 d' w w1 w2 :
  progress F d w w1 -> progress F d1 w1 w2 ->
  (forall px py, phys_on_grid px py -> d px py && d1 px py = false) ->
  (forall px py, phys_on_grid px py -> d' px py = d px py || d1 px py) ->
  progress F d' w w2.
Proof.
  intros H1 H2 Hdisj Hd' r px py j Hr Hg. rewrite H2, Hd' by done.
  pose proof (Hdisj px py Hg) as Hd.
  destruct (d1 px py) eqn:E1; rewrite ?orb_true_r, ?orb_false_r; [|by apply H1].
  rewrite andb_true_r in Hd. apply F_ext. intros i. by rewrite H1, Hd by done.
Qed.

Variable skip : Z -> Z -> bool.
Hypothesis F_arc : skip ARC_PX ARC_PY = false -> forall r old, 0 <= r < NUM_NOCS ->
  Z.testbit (old 0) 14 = false -> Z.testbit (F r ARC_PX ARC_PY old 0) 14 = false.

(** As long as an enabled ARC is left out, its own translation stays off. *)
Lemma progress_arcs_off d w w' :
  arcs_off w -> progress F d w w' -> (skip ARC_PX ARC_PY = true -> d ARC_PX ARC_PY = false) -> arcs_off w'.
Proof.
  intros Hoff Hp Hd r Hr. unfold arc_off. rewrite Hp by (done || apply arc_on_grid).
  pose proof (Hoff r Hr) as Ho. destruct (d ARC_PX ARC_PY) eqn:E; [|exact Ho].
  apply F_arc; [|done|exact Ho]. destruct (skip ARC_PX ARC_PY); [|done]. by specialize (Hd eq_refl).
Qed.

Variable body : Z -> Z -> W -> option W.
Hypothesis Hbody : forall px py w1, phys_on_grid px py -> arcs_off w1 ->
  exists w2, body px py w1 = Some w2 /\
             progress F (fun px' py' => only px py px' py' && negb (skip px' py')) w1 w2.

Lemma for_all_nodes_spec w :
  arcs_off w -> exists w', for_all_nodes body w = Some w' /\ progress F (fun px py => negb (skip px py)) w w'.
Proof.
  intros Hoff. unfold for_all_nodes.
  match goal with |- context [for_loop (Z.to_nat NOC_Y_SIZE) 0 ?b w] => set (outer := b) end.
  destruct (for_loop_inv
    (fun k w1 => progress F (fun px py => (py <? k) && negb (skip px py)) w w1) (Z.to_nat NOC_Y_SIZE) 0 outer w)
    as (w1 & -> & Hw1).
  - intros r px py j Hr [_ Hy]. destruct (Z.ltb_spec py 0); [lia|reflexivity].
  - intros k w1 Hk Hw1. unfold outer.
    match goal with |- context [for_loop _ 0 ?b w1] => set (inner := b) end.
    destruct (for_loop_inv
      (fun m w2 => progress F (fun px py => ((py <? k) || ((py =? k) && (px <? m))) && negb (skip px py)) w w2)
      (Z.to_nat NOC_X_SIZE) 0 inner w1) as (w2 & -> & Hw2).
    + eapply progress_ext; [|exact Hw1]. intros px py [Hx _]. cbv beta. destruct (Z.ltb_spec px 0); [lia|].
      by rewrite andb_false_r, orb_false_r.
    + intros m w2 Hm Hw2. unfold inner. cbv beta.
      assert (Hmk : phys_on_grid m k) by (split; unfold NOC_X_SIZE, NOC_Y_SIZE in *; lia).
      destruct (Hbody m k w2 Hmk) as (w3 & E3 & Hw3).
      { eapply progress_arcs_off; [exact Hoff|exact Hw2|]. intros Hs. cbv beta. by rewrite Hs, andb_false_r. }
      exists w3. split; [exact E3|]. eapply progress_step; [exact Hw2|exact Hw3|..]; intros px py _; cbv beta; unfold only.
      * destruct (Z.eqb_spec m px) as [<-|], (Z.eqb_spec k py) as [<-|]; cbn [andb]; rewrite ?andb_false_r; try done.
        rewrite !Z.ltb_irrefl, andb_false_r. done.
      * destruct (skip px py); [by rewrite !andb_false_r|]. cbn [negb]. rewrite !andb_true_r.
        apply eq_true_iff_eq. rewrite !orb_true_iff, !andb_true_iff, !Z.ltb_lt, !Z.eqb_eq. lia.
    + exists w2. split; [done|]. eapply progress_ext; [|exact Hw2]. intros px py [Hx _]. cbv beta.
      f_equal. apply eq_true_iff_eq. rewrite !orb_true_iff, !andb_true_iff, !Z.ltb_lt, !Z.eqb_eq.
      unfold NOC_X_SIZE in *. lia.
  - exists w1. split; [done|]. eapply progress_ext; [|exact Hw1]. intros px py [_ Hy]. cbv beta.
    unfold NOC_Y_SIZE in *. by destruct (Z.ltb_spec py (0 + Z.of_nat (Z.to_nat 12))); [|lia].
Qed.
End all_nodes.

(** ** The translation on all nodes *)

Definition nt_of (tr : list NocTranslation) (ring : Z) : NocTranslation := nth (Z.to_nat ring) tr all_zeroes.

Definition translation_update (tr : list NocTranslation) : node_update :=
  fun r px py old j => programmed (nt_of tr r) (ring_x px r) (ring_y py r) old j.

Lemma programmed_ext nt x y f g j : (forall i, f i = g i) -> programmed nt x y f j = programmed nt x y g j.
Proof. intros Hfg. unfold programmed. by rewrite !Hfg. Qed.

Section tables.
Variables (nt0 nt1 : NocTranslation).
Abbreviation tr := [nt0; nt1].
Abbreviation F := (translation_update tr).
Hypothesis Hwf0 : nt_wf nt0.
Hypothesis Hwf1 : nt_wf nt1.
Hypothesis Hen : translate_en nt0 = translate_en nt1.

Lemma nt_of_wf r : 0 <= r < NUM_NOCS -> nt_wf (nt_of tr r) /\ translate_en (nt_of tr r) = translate_en nt0.
Proof. intros [-> | ->]%ring_cases; done. Qed.

Lemma program_tile px py w :
  phys_on_grid px py -> arcs_off w ->
  exists w', ProgramNocTranslationSingleTile tr (ring_x px 0) (ring_y py 0) w = Some w' /\
             progress F (only px py) w w'.
Proof.
  intros Hg Hoff. pose proof Hg as [Hx Hy].
  assert (R0 : 0 <= 0 < NUM_NOCS) by (unfold NUM_NOCS; lia). assert (R1 : 0 <= 1 < NUM_NOCS) by (unfold NUM_NOCS; lia).
  destruct (phys_x_to_noc px 0 R0 Hx) as (_ & _ & Ex). destruct (phys_y_to_noc py 0 R0 Hy) as (_ & _ & Ey).
  unfold ProgramNocTranslationSingleTile. rewrite Ex, Ey. change (Z.to_nat NUM_NOCS) with 2%nat.
  cbn [mbind option_bind for_loop]. change (0 + 1) with 1.
  change (aget tr 0) with (Some nt0). change (aget tr 1) with (Some nt1). cbn [mbind option_bind].
  destruct (program_ring_spec w 0 px py nt0 R0 Hg (Hoff 0 R0) Hwf0) as (w1 & -> & H1). cbn [mbind option_bind].
  assert (Hoff1 : arc_off w1 1) by (unfold arc_off; rewrite H1; cbn [andb Z.eqb]; by apply Hoff).
  destruct (program_ring_spec w1 1 px py nt1 R1 Hg Hoff1 Hwf1) as (w2 & -> & H2). cbn [mbind option_bind].
  exists w2. split; [done|]. intros r px' py' j Hr Hg'.
  assert (Hw1 : forall x y k, niu w1 1 x y k = niu w 1 x y k) by (intros; by rewrite H1).
  rewrite H2. pose proof (same_node_spec r px py px' py' Hr Hg Hg') as Hsame.
  apply ring_cases in Hr as [-> | ->]; cbn [Z.eqb andb Pos.eqb]; rewrite ?H1, ?Hsame; cbn [Z.eqb andb].
  - rewrite Hsame. unfold only. destruct ((px =? px') && (py =? py')) eqn:E; [|reflexivity].
    apply only_true in E as [<- <-]. done.
  - unfold only. destruct ((px =? px') && (py =? py')) eqn:E; [|reflexivity]. apply only_true in E as [<- <-].
    by apply programmed_ext.
Qed.

Lemma program_translation w :
  arcs_off w -> exists w', ProgramNocTranslation tr w = Some w' /\ progress F (fun _ _ => true) w w'.
Proof.
  intros Hoff. unfold ProgramNocTranslation. change (aget tr 0) with (Some nt0). cbn [mbind option_bind].
  set (en := translate_en nt0). set (skip px py := en && is_arc px py).
  assert (R0 : 0 <= 0 < NUM_NOCS) by (unfold NUM_NOCS; lia).
  assert (Hext : forall r px py f g j, (forall i, f i = g i) -> F r px py f j = F r px py g j).
  { intros. by apply programmed_ext. }
  match goal with |- context [for_all_nodes ?b w] =>
    destruct (for_all_nodes_spec F Hext skip) with (body := b) (w := w) as (w1 & -> & Hw1) end.
  - intros Hs r old Hr Ho. unfold translation_update, programmed. cbn [Z.eqb NIU_CFG_0].
    destruct (nt_of_wf r Hr) as [_ ->].
    change NIU_CFG_0_NOC_ID_TRANSLATE_EN with 14. rewrite write_bit_testbit by lia.
    unfold skip, en in Hs. by destruct (translate_en nt0).
  - intros px py w1 Hg Hoff1. pose proof Hg as [Hx Hy].
    destruct (phys_x_to_noc px 0 R0 Hx) as (-> & _). destruct (phys_y_to_noc py 0 R0 Hy) as (-> & _).
    cbn [mbind option_bind].
    assert (Harc : en && (ring_x px 0 =? arc_noc0_x) && (ring_y py 0 =? arc_noc0_y) = skip px py).
    { unfold skip. rewrite <- andb_assoc. f_equal. change arc_noc0_x with (ring_x ARC_PX 0).
      change arc_noc0_y with (ring_y ARC_PY 0). rewrite same_node_spec by (done || apply arc_on_grid). done. }
    rewrite Harc. destruct (skip px py) eqn:Es.
    + exists w1. split; [done|]. intros r px' py' j Hr Hg'. destruct (only px py px' py') eqn:E; [|reflexivity].
      apply only_true in E as [<- <-]. by rewrite Es.
    + destruct (program_tile px py w1 Hg Hoff1) as (w2 & -> & Hp2). exists w2. split; [done|].
      eapply progress_ext; [|exact Hp2]. intros px' py' _. cbv beta. destruct (only px py px' py') eqn:E; [|done].
      apply only_true in E as [<- <-]. by rewrite Es.
  - exact Hoff.
  - cbn [mbind option_bind]. destruct en eqn:Hen'.
    + destruct (program_tile ARC_PX ARC_PY w1 arc_on_grid) as (w2 & E2 & Hw2).
      { eapply (progress_arcs_off F skip); [|exact Hoff|exact Hw1|].
        - intros Hs. unfold skip in Hs. done.
        - intros Hs. cbv beta. by rewrite Hs. }
      exists w2. split; [exact E2|].
      eapply progress_step; [exact Hext|exact Hw1|exact Hw2|..]; intros px py _; unfold skip, is_arc, only; cbn [andb];
        rewrite (Z.eqb_sym ARC_PX), (Z.eqb_sym ARC_PY); by destruct ((px =? ARC_PX) && (py =? ARC_PY)).
    + exists w1. split; [done|]. eapply progress_ext; [|exact Hw1]. done.
Qed.
End tables.

(** ** Broadcast exclusion *)

(** The columns (NOC 0) and rows no broadcast goes to. *)
Definition column_excluded (bad x : Z) : bool := (x =? 0) || (x =? 8) || (x =? 9) || column_bad bad x.

Lemma lor_bit_u32 a n : is_u32 a -> 0 <= n < 32 -> is_u32 (Z.lor a (BIT n)).
Proof. intros. exact (write_bit_u32 a n true ltac:(done) ltac:(done)). Qed.

Lemma lor_bit_spec a n i : 0 <= n -> 0 <= i -> Z.testbit (Z.lor a (BIT n)) i = Z.testbit a i || (n =? i).
Proof. intros. unfold BIT. by rewrite Z.lor_spec, Z.shiftl_1_l, Z.pow2_bits_eqb. Qed.

Lemma tensix_phys_x i : 0 <= i < 14 -> TensixPhysXToNoc i 0 = Some (tensix_col i) /\ 0 <= tensix_col i < NOC_X_SIZE.
Proof.
  intros Hi. pose proof (forall_14 (fun i => some_eqb (TensixPhysXToNoc i 0) (tensix_col i) && (0 <=? tensix_col i) &&
    (tensix_col i <? NOC_X_SIZE)) eq_refl i Hi) as H'. cbv beta in H'. repeat (apply andb_true_iff in H' as [H' ?]).
  split; [by apply some_eqb_true|]. bool_cases. lia.
Qed.

Lemma broadcast_columns_spec bad :
  exists c0 c1, broadcast_columns bad = Some (c0, c1) /\ is_u32 c0 /\ is_u32 c1 /\
    forall x, 0 <= x < NOC_X_SIZE ->
      Z.testbit c0 x = column_excluded bad x /\ Z.testbit c1 (NOC0_X_TO_NOC1 x) = column_excluded bad x.
Proof.
  unfold broadcast_columns.
  match goal with |- context [for_loop 14 0 ?b ?s] => set (body := b); set (s0 := s) end.
  pose (hit i x := existsb (fun j => (tensix_col j =? x) && Z.testbit bad j) (seqZ 0 i)).
  pose (base x := (x =? 0) || (x =? 8) || (x =? 9)).
  destruct (for_loop_inv
    (fun i '(c0, c1) => 0 <= i /\ is_u32 c0 /\ is_u32 c1 /\ forall x, 0 <= x < NOC_X_SIZE ->
       Z.testbit c0 x = base x || hit i x /\ Z.testbit c1 (NOC0_X_TO_NOC1 x) = base x || hit i x) 14 0 body s0)
    as ([c0 c1] & E & _ & U0 & U1 & Hb).
  - split; [lia|]. split; [by unwrap; vm_compute|]. split; [by unwrap; vm_compute|].
    intros x Hx. rewrite orb_false_r.
    pose proof (forall_grid NOC_X_SIZE (fun x _ => Bool.eqb (Z.testbit (fst s0) x) (base x) &&
      Bool.eqb (Z.testbit (snd s0) (NOC0_X_TO_NOC1 x)) (base x)) eq_refl x 0 Hx ltac:(unfold NUM_NOCS; lia)) as H'.
    cbv beta in H'. apply andb_true_iff in H' as [?%Bool.eqb_prop ?%Bool.eqb_prop]. done.
  - intros i [c0 c1] Hi (_ & U0 & U1 & Hb). unfold body.
    assert (Hr : forall x, hit (i + 1) x = hit i x || ((tensix_col i =? x) && Z.testbit bad i)).
    { intros x. unfold hit. rewrite seqZ_app, existsb_app by lia. rewrite Z.add_0_l. f_equal.
      rewrite seqZ_cons by lia. cbn. by rewrite orb_false_r. }
    rewrite land_BIT_eqb, negb_involutive by lia.
    destruct (tensix_phys_x i) as [Et Hrange]; [lia|]. unfold NOC_X_SIZE in *.
    destruct (Z.testbit bad i) eqn:Eb.
    + rewrite Et. cbn [mbind option_bind]. eexists. split; [reflexivity|].
      split; [lia|]. split; [apply lor_bit_u32; [done|lia]|].
      split; [apply lor_bit_u32; [done|unfold NOC0_X_TO_NOC1, NOC_X_SIZE; lia]|].
      intros x Hx. destruct (Hb x Hx) as [B0 B1]. rewrite Hr, andb_true_r.
      rewrite !lor_bit_spec by (unfold NOC0_X_TO_NOC1, NOC_X_SIZE; lia). rewrite B0, B1, <- !orb_assoc.
      split; [done|]. do 2 f_equal. unfold NOC0_X_TO_NOC1, NOC_X_SIZE.
      apply eq_true_iff_eq. rewrite !Z.eqb_eq. lia.
    + eexists. split; [reflexivity|]. split; [lia|]. split; [done|]. split; [done|].
      intros x Hx. rewrite Hr, andb_false_r, orb_false_r. by apply Hb.
  - exists c0, c1. split; [exact E|]. split; [done|]. split; [done|]. intros x Hx. exact (Hb x Hx).
Qed.

Definition exclusion_update (c0 c1 : Z) : node_update := fun r px py old j =>
  written [(ROUTER_CFG 1, if r =? 0 then c0 else c1); (ROUTER_CFG 2, 0);
           (ROUTER_CFG 3, nth (Z.to_nat r) router_cfg_3 0); (ROUTER_CFG 4, 0)] old j.

Lemma written_ext l f g j : (forall i, f i = g i) -> written l f j = written l g j.
Proof.
  unfold written. revert f g. induction l as [|[i v] l IH]; intros f g Hfg; cbn [foldl]; [apply Hfg|].
  apply IH. intros k. by rewrite Hfg.
Qed.

Lemma exclude_tile c0 c1 px py w :
  is_u32 c0 -> is_u32 c1 -> phys_on_grid px py -> arcs_off w ->
  exists w',
    for_loop (Z.to_nat NUM_NOCS) 0
      (fun noc_id w =>
         '(noc_regs, w) ← SetupNiuTlbPhys kTlbIndex px py noc_id w;
         v1 ← aget [c0; c1] noc_id;
         let w := WriteNocCfgReg noc_regs (ROUTER_CFG 1) v1 w in
         let w := WriteNocCfgReg noc_regs (ROUTER_CFG 2) 0 w in
         v3 ← aget router_cfg_3 noc_id;
         let w := WriteNocCfgReg noc_regs (ROUTER_CFG 3) v3 w in
         Some (WriteNocCfgReg noc_regs (ROUTER_CFG 4) 0 w)) w = Some w' /\
    progress (exclusion_update c0 c1) (only px py) w w'.
Proof.
  intros U0 U1 Hg Hoff.
  assert (Hone : forall r w1, 0 <= r < NUM_NOCS -> arc_off w1 r ->
    exists b w2, SetupNiuTlbPhys kTlbIndex px py r w1 = Some (GetTlbWindowAddr r 0 b, w2) /\
      at_node w1 r px py b (written [(ROUTER_CFG 1, if r =? 0 then c0 else c1); (ROUTER_CFG 2, 0);
          (ROUTER_CFG 3, nth (Z.to_nat r) router_cfg_3 0); (ROUTER_CFG 4, 0)] (niu w1 r (ring_x px r) (ring_y py r)))
        (foldl (fun w '(i, v) => WriteNocCfgReg (GetTlbWindowAddr r 0 b) i v w) w2
           [(ROUTER_CFG 1, if r =? 0 then c0 else c1); (ROUTER_CFG 2, 0);
            (ROUTER_CFG 3, nth (Z.to_nat r) router_cfg_3 0); (ROUTER_CFG 4, 0)])).
  { intros r w1 Hr Ho. destruct (setup_at_node w1 r px py Hr Hg) as (b & w2 & E & Hat). exists b, w2.
    split; [exact E|].
    refine (proj1 (at_node_writes w1 r px py Hr Hg Ho b _ _ w2 Hat (old_arc_off w1 r px py Hg Ho) _)).
    assert (is_u32 0) by (unwrap; lia).
    assert (is_u32 (nth (Z.to_nat r) router_cfg_3 0)) by (apply ring_cases in Hr as [-> | ->]; unwrap; vm_compute; done).
    repeat (apply Forall_cons; split; [apply reg_entry; [reflexivity|first [assumption|by destruct (r =? 0)]]|]).
    by apply Forall_nil. }
  assert (R0 : 0 <= 0 < NUM_NOCS) by (unfold NUM_NOCS; lia). assert (R1 : 0 <= 1 < NUM_NOCS) by (unfold NUM_NOCS; lia).
  change (Z.to_nat NUM_NOCS) with 2%nat. cbn [for_loop]. change (0 + 1) with 1.
  destruct (Hone 0 w R0 (Hoff 0 R0)) as (b & w1 & -> & Hat). cbn [mbind option_bind].
  change (aget [c0; c1] 0) with (Some c0). change (aget router_cfg_3 0) with (Some (nth (Z.to_nat 0) router_cfg_3 0)).
  cbn [mbind option_bind]. cbv zeta. cbn [foldl] in Hat. change (if 0 =? 0 then c0 else c1) with c0 in Hat.
  match type of Hat with at_node _ _ _ _ _ _ ?w => set (w2 := w) in * end.
  destruct Hat as [_ N1].
  assert (Hoff1 : arc_off w2 1) by (unfold arc_off; rewrite N1; cbn [andb Z.eqb]; by apply Hoff).
  destruct (Hone 1 w2 R1 Hoff1) as (b' & w3 & -> & Hat). cbn [mbind option_bind].
  change (aget [c0; c1] 1) with (Some c1). change (aget router_cfg_3 1) with (Some (nth (Z.to_nat 1) router_cfg_3 0)).
  cbn [mbind option_bind]. cbv zeta. cbn [foldl] in Hat. change (if 1 =? 0 then c0 else c1) with c1 in Hat.
  destruct Hat as [_ N2]. eexists. split; [reflexivity|].
  intros r px' py' j Hr Hg'. etransitivity; [apply N2|].
  pose proof (same_node_spec r px py px' py' Hr Hg Hg') as Hsame. unfold exclusion_update.
  apply ring_cases in Hr as [-> | ->]; cbn [Z.eqb andb Pos.eqb]; rewrite ?N1, ?Hsame; cbn [Z.eqb andb].
  - rewrite Hsame. unfold only. destruct ((px =? px') && (py =? py')) eqn:E; [|reflexivity].
    apply only_true in E as [<- <-]. reflexivity.
  - unfold only. destruct ((px =? px') && (py =? py')) eqn:E; [|reflexivity]. apply only_true in E as [<- <-].
    apply written_ext. intros i. by rewrite N1.
Qed.

Lemma exclude_all bad w :
  arcs_off w ->
  exists c0 c1 w', broadcast_columns bad = Some (c0, c1) /\ ProgramBroadcastExclusion bad w = Some w' /\
    progress (exclusion_update c0 c1) (fun _ _ => true) w w' /\ arcs_off w'.
Proof.
  intros Hoff. destruct (broadcast_columns_spec bad) as (c0 & c1 & E & U0 & U1 & _). exists c0, c1.
  assert (Hext : forall r px py f g j, (forall i, f i = g i) -> exclusion_update c0 c1 r px py f j = exclusion_update c0 c1 r px py g j).
  { intros. by apply written_ext. }
  assert (Harc : forall r old, 0 <= r < NUM_NOCS -> Z.testbit (old 0) 14 = false ->
    Z.testbit (exclusion_update c0 c1 r ARC_PX ARC_PY old 0) 14 = false) by (intros r old _ Ho; exact Ho).
  unfold ProgramBroadcastExclusion. rewrite E. cbn [mbind option_bind].
  match goal with |- context [for_all_nodes ?b w] =>
    destruct (for_all_nodes_spec (exclusion_update c0 c1) Hext (fun _ _ => false)) with (body := b) (w := w)
      as (w' & E' & Hp) end.
  - intros _. exact Harc.
  - intros px py w1 Hg Hoff1. destruct (exclude_tile c0 c1 px py w1 U0 U1 Hg Hoff1) as (w2 & E2 & Hp2).
    exists w2. split; [exact E2|]. eapply progress_ext; [|exact Hp2]. intros. by rewrite andb_true_r.
  - exact Hoff.
  - exists w'. split; [done|]. split; [exact E'|]. split; [exact Hp|].
    eapply (progress_arcs_off _ (fun _ _ => false)); [intros _; exact Harc|exact Hoff|exact Hp|done].
Qed.

(** ** The ARC's own registers *)

Definition disable_update : node_update := fun r px py old j =>
  if j =? NIU_CFG_0 then WRITE_BIT (old NIU_CFG_0) NIU_CFG_0_NOC_ID_TRANSLATE_EN false else old j.

Lemma disable_arc w :
  arcs_off (write_arc_translate_en false w) /\ progress disable_update is_arc w (write_arc_translate_en false w).
Proof.
  assert (R0 : 0 <= 0 < NUM_NOCS) by (unfold NUM_NOCS; lia). assert (R1 : 0 <= 1 < NUM_NOCS) by (unfold NUM_NOCS; lia).
  unfold write_arc_translate_en. cbv zeta.
  change (kNoc0RegBase + kNiuCfg0Offset) with (direct_addr 0). change (kNoc1RegBase + kNiuCfg0Offset) with (direct_addr 1).
  rewrite (read_direct w 0 R0), read_direct by done.
  set (v0 := WRITE_BIT (niu w 0 _ _ 0) _ false). set (w1 := WriteReg (direct_addr 0) v0 w).
  set (v1 := WRITE_BIT (niu w1 1 _ _ 0) _ false).
  assert (U0 : is_u32 v0) by (apply write_bit_u32; [apply niu_u32|unfold NIU_CFG_0_NOC_ID_TRANSLATE_EN; lia]).
  assert (U1 : is_u32 v1) by (apply write_bit_u32; [apply niu_u32|unfold NIU_CFG_0_NOC_ID_TRANSLATE_EN; lia]).
  pose proof (write_direct w 0 v0 R0 U0) as N0. pose proof (write_direct w1 1 v1 R1 U1) as N1. fold w1 in N0.
  assert (Hp : progress disable_update is_arc w (WriteReg (direct_addr 1) v1 w1)).
  { intros r px py j Hr Hg. rewrite N1, N0. unfold same_reg.
    pose proof (same_node_spec r ARC_PX ARC_PY px py Hr arc_on_grid Hg) as Hsame.
    unfold is_arc. rewrite (Z.eqb_sym px), (Z.eqb_sym py). rewrite <- !(andb_assoc (0 =? r)), <- !(andb_assoc (1 =? r)).
    apply ring_cases in Hr as [-> | ->]; change (0 =? 0) with true; change (1 =? 1) with true;
      change (1 =? 0) with false; change (0 =? 1) with false; cbn [andb]; rewrite !Hsame;
      (destruct ((ARC_PX =? px) && (ARC_PY =? py)) eqn:E; [|reflexivity]); cbn [andb];
      apply andb_true_iff in E as [<-%Z.eqb_eq <-%Z.eqb_eq]; unfold disable_update; rewrite (Z.eqb_sym j);
      change NIU_CFG_0 with 0; (destruct (0 =? j) eqn:Ej; [|reflexivity]); [reflexivity|].
    unfold v1. by rewrite N0. }
  split; [|exact Hp]. intros r Hr. unfold arc_off. rewrite Hp by (done || apply arc_on_grid).
  change (is_arc ARC_PX ARC_PY) with true. cbv beta iota. unfold disable_update. cbn [Z.eqb NIU_CFG_0].
  apply write_bit_testbit. unfold NIU_CFG_0_NOC_ID_TRANSLATE_EN. lia.
Qed.

(** ** What a node's registers say *)

Definition node_translates (nt : NocTranslation) (x y : Z) (regs : Z -> Z) : Prop :=
  Z.testbit (regs NIU_CFG_0) NIU_CFG_0_NOC_ID_TRANSLATE_EN = translate_en nt /\
  (forall i v, aget (translate_table_x nt) i = Some v -> packed_entry regs (NOC_X_ID_TRANSLATE_TABLE 0) i = v) /\
  (forall i v, aget (translate_table_y nt) i = Some v -> packed_entry regs (NOC_Y_ID_TRANSLATE_TABLE 0) i = v) /\
  regs NOC_ID_TRANSLATE_COL_MASK = translate_col_mask nt /\ regs NOC_ID_TRANSLATE_ROW_MASK = translate_row_mask nt /\
  aget2 (logical_coords nt) x y = Some (regs NOC_ID_LOGICAL).

Definition node_excludes (bad r : Z) (regs : Z -> Z) : Prop :=
  (forall px, 0 <= px < NOC_X_SIZE -> Z.testbit (regs (ROUTER_CFG 1)) (ring_x px r) = column_excluded bad (ring_x px 0)) /\
  (forall py, 0 <= py < NOC_Y_SIZE -> Z.testbit (regs (ROUTER_CFG 3)) (ring_y py r) = (ring_y py 0 <? 2)) /\
  regs (ROUTER_CFG 2) = 0 /\ regs (ROUTER_CFG 4) = 0.

(** Registers the translation does not use, and the other bits of [NIU_CFG_0]. *)
Definition untouched (j : Z) : bool :=
  negb ((j =? 0) || ((2 <=? j) && (j <=? 0x12)) || (j =? 0x14) || (j =? 0x15) || (j =? 0x1B)).
Definition others_kept (old regs : Z -> Z) : Prop :=
  (forall j, untouched j = true -> regs j = old j) /\
  forall n, 0 <= n -> n <> NIU_CFG_0_NOC_ID_TRANSLATE_EN -> Z.testbit (regs 0) n = Z.testbit (old 0) n.

Lemma write_bit_other v n b i : 0 <= n -> 0 <= i -> i <> n -> Z.testbit (WRITE_BIT v n b) i = Z.testbit v i.
Proof.
  intros Hn Hi Hne. unfold WRITE_BIT. destruct b.
  - rewrite lor_bit_spec by done. destruct (Z.eqb_spec n i); [lia|]. apply orb_false_r.
  - unfold BIT. rewrite Z.shiftl_1_l, clear_bit_spec by done. destruct (Z.eqb_spec n i); [lia|]. apply andb_true_r.
Qed.

#[export] Instance others_kept_preorder : PreOrder others_kept.
Proof.
  split; [by split|]. intros f g h [H1 H2] [H3 H4]. split; [intros j Hj; by rewrite H3, H1|].
  intros n Hn Hne. by rewrite H4, H2.
Qed.

Lemma packed_range t (p : list Z) first regs :
  table_wf t -> pack_table t = Some p -> (forall k, 0 <= k < 6 -> regs (first + k) = default 0 (aget p k)) ->
  forall i v, aget t i = Some v -> packed_entry regs first i = v.
Proof.
  intros Hwf Hp Hregs i v Hv. pose proof (aget_range _ _ _ Hv) as Hi. destruct Hwf as [Hl HF].
  destruct (pack_table_spec t (conj Hl HF)) as (p' & Hp' & _ & _ & Hent). rewrite Hp in Hp'. injection Hp' as <-.
  unfold packed_entry. rewrite Hregs by (Z.to_euclidean_division_equations; lia). by apply Hent.
Qed.

Lemma programmed_translates nt x y old :
  nt_wf nt -> on_grid x y -> node_translates nt x y (programmed nt x y old).
Proof.
  intros Hwf Hg. pose proof Hwf as [Wx Wy _ _ Wl]. destruct (Wl x y Hg) as (v & Hv & _).
  destruct (pack_table_spec _ Wx) as (qx & Ex & _). destruct (pack_table_spec _ Wy) as (qy & Ey & _).
  assert (Hmid : forall k, 0 <= k < 6 ->
    programmed nt x y old (6 + k) = default 0 (p ← pack_table (translate_table_x nt); aget p k) /\
    programmed nt x y old (12 + k) = default 0 (p ← pack_table (translate_table_y nt); aget p k)).
  { intros k Hk. unfold programmed.
    unfold NIU_CFG_0, NOC_ID_TRANSLATE_COL_MASK, NOC_ID_TRANSLATE_ROW_MASK, DDR_COORD_TRANSLATE_TABLE, NOC_ID_LOGICAL.
    repeat match goal with |- context [?m + k =? ?n] => destruct (Z.eqb_spec (m + k) n); [lia|] end.
    replace ((6 <=? 6 + k) && (6 + k <? 12)) with true by (symmetry; apply andb_true_iff; lia).
    replace ((6 <=? 12 + k) && (12 + k <? 12)) with false by (symmetry; apply andb_false_iff; lia).
    replace ((12 <=? 12 + k) && (12 + k <? 18)) with true by (symmetry; apply andb_true_iff; lia).
    replace (6 + k - 6) with k by lia. by replace (12 + k - 12) with k by lia. }
  split; [apply write_bit_testbit; unfold NIU_CFG_0_NOC_ID_TRANSLATE_EN; lia|].
  split; [|split; [|split; [done|split; [done|]]]].
  - apply (packed_range _ qx); [done|done|]. intros k Hk.
    change (NOC_X_ID_TRANSLATE_TABLE 0) with 6. destruct (Hmid k Hk) as [-> _]. by rewrite Ex.
  - apply (packed_range _ qy); [done|done|]. intros k Hk.
    change (NOC_Y_ID_TRANSLATE_TABLE 0) with 12. destruct (Hmid k Hk) as [_ ->]. by rewrite Ey.
  - rewrite Hv. unfold programmed. cbn. by rewrite Hv.
Qed.

Lemma programmed_kept nt x y old : others_kept old (programmed nt x y old).
Proof.
  split.
  - intros j Hj. unfold untouched in Hj. apply negb_true_iff in Hj. rewrite !orb_false_iff in Hj.
    destruct Hj as [[[[H1 H2] H3] H4] H5]. unfold programmed.
    change NIU_CFG_0 with 0. change NOC_ID_TRANSLATE_COL_MASK with 0x14. change NOC_ID_TRANSLATE_ROW_MASK with 0x15.
    change (DDR_COORD_TRANSLATE_TABLE 5) with 0x1B. change NOC_ID_LOGICAL with 0x12.
    rewrite H1, H3, H4, H5. apply andb_false_iff in H2.
    destruct (Z.eqb_spec j 0x12); [lia|].
    replace ((6 <=? j) && (j <? 12)) with false by (symmetry; apply andb_false_iff; lia).
    by replace ((12 <=? j) && (j <? 18)) with false by (symmetry; apply andb_false_iff; lia).
  - intros n Hn Hne. apply write_bit_other; [unfold NIU_CFG_0_NOC_ID_TRANSLATE_EN; lia|done|done].
Qed.

Lemma disable_kept r px py old : others_kept old (disable_update r px py old).
Proof.
  split.
  - intros j Hj. unfold disable_update. change NIU_CFG_0 with 0. destruct (Z.eqb_spec j 0) as [->|]; [by vm_compute in Hj|done].
  - intros n Hn Hne. unfold disable_update. cbn [Z.eqb NIU_CFG_0].
    apply write_bit_other; [unfold NIU_CFG_0_NOC_ID_TRANSLATE_EN; lia|done|done].
Qed.

Lemma exclusion_other c0 c1 r px py old j :
  j < 2 \/ 5 < j -> exclusion_update c0 c1 r px py old j = old j.
Proof.
  intros Hj. unfold exclusion_update, written, ROUTER_CFG. cbn [foldl].
  repeat match goal with |- context [?a =? j] => destruct (Z.eqb_spec a j); [lia|] end. done.
Qed.

Lemma exclusion_kept c0 c1 r px py old : others_kept old (exclusion_update c0 c1 r px py old).
Proof.
  split.
  - intros j Hj. apply exclusion_other. unfold untouched in Hj. bool_cases.
    destruct (Z.lt_ge_cases j 2); [by left|]. right.
    destruct (Z.leb_spec 2 j), (Z.leb_spec j 18); cbn in *; lia || done.
  - intros n _ _. by rewrite exclusion_other by lia.
Qed.

Lemma exclusion_excludes bad c0 c1 r px py old :
  broadcast_columns bad = Some (c0, c1) -> 0 <= r < NUM_NOCS ->
  node_excludes bad r (exclusion_update c0 c1 r px py old).
Proof.
  intros E Hr. destruct (broadcast_columns_spec bad) as (c0' & c1' & E' & _ & _ & Hb). rewrite E in E'. injection E' as <- <-.
  assert (Hc : exclusion_update c0 c1 r px py old (ROUTER_CFG 1) = if r =? 0 then c0 else c1) by reflexivity.
  assert (H3 : exclusion_update c0 c1 r px py old (ROUTER_CFG 3) = nth (Z.to_nat r) router_cfg_3 0) by reflexivity.
  split; [|split; [|split; reflexivity]].
  - intros px' Hx. rewrite Hc.
    assert (R0 : 0 <= 0 < NUM_NOCS) by (unfold NUM_NOCS; lia).
    destruct (phys_x_to_noc px' 0 R0 Hx) as (_ & Hrange & _).
    destruct (ring_flip px' 0) as [Hf _]; [split; [done|unfold NOC_Y_SIZE; lia]|].
    destruct (Hb (ring_x px' 0) Hrange) as [B0 B1].
    apply ring_cases in Hr as [-> | ->]; [exact B0|]. change (1 =? 0) with false. cbv iota.
    rewrite <- B1. f_equal. unfold NOC0_X_TO_NOC1. lia.
  - intros py' Hy. rewrite H3. clear - Hr Hy.
    pose proof (forall_grid NOC_Y_SIZE (fun p r => Bool.eqb (Z.testbit (nth (Z.to_nat r) router_cfg_3 0) (ring_y p r))
      (ring_y p 0 <? 2)) eq_refl py' r Hy Hr) as H'. cbv beta in H'. by apply Bool.eqb_prop in H'.
Qed.

(** Only some registers matter to the translation and to the exclusion. *)
Lemma node_translates_ext nt x y f g :
  (forall j, j = 0 \/ 6 <= j -> f j = g j) -> node_translates nt x y f -> node_translates nt x y g.
Proof.
  intros Hfg (H1 & H2 & H3 & H4 & H5 & H6).
  assert (Hp : forall first i, 6 <= first -> 0 <= i -> packed_entry g first i = packed_entry f first i).
  { intros first i Hf Hi. unfold packed_entry. rewrite Hfg; [done|]. right. Z.to_euclidean_division_equations; lia. }
  unfold node_translates. rewrite <- !Hfg by (unfold NIU_CFG_0, NOC_ID_TRANSLATE_COL_MASK, NOC_ID_TRANSLATE_ROW_MASK, NOC_ID_LOGICAL; lia).
  split; [done|]. split; [|split; [|done]].
  - intros i v Hv. pose proof (aget_range _ _ _ Hv). rewrite Hp by (unfold NOC_X_ID_TRANSLATE_TABLE; lia). by apply H2.
  - intros i v Hv. pose proof (aget_range _ _ _ Hv). rewrite Hp by (unfold NOC_Y_ID_TRANSLATE_TABLE; lia). by apply H3.
Qed.

Lemma programmed_excludes bad r nt x y old :
  node_excludes bad r old -> node_excludes bad r (programmed nt x y old).
Proof. intros H'. exact H'. Qed.

(** ** Well-formed translations *)

Definition no_translation : NocTranslation := MkNT false (replicate 32 0) (replicate 32 0) 0 0 identity_lc.

Lemma clear_tables : identity_coords all_zeroes = Some no_translation.
Proof. vm_compute. reflexivity. Qed.

Lemma coord_word_u16 a b : is_u16 (coord_word a b).
Proof. apply u16_range. Qed.

Lemma no_translation_wf : nt_wf no_translation.
Proof.
  split; cbn; try (unwrap; lia).
  - split; [done|]. repeat (apply Forall_cons; split; [lia|]). by apply Forall_nil.
  - split; [done|]. repeat (apply Forall_cons; split; [lia|]). by apply Forall_nil.
  - intros x y Hg. eexists. split; [by apply identity_lc_get|]. apply coord_word_u16.
Qed.

(** Table entries are coordinates of the grid. *)
Lemma unskipped_subset k l mask : unskipped k l mask ⊆ l.
Proof.
  revert k. induction l as [|b l IH]; intros k; cbn; [done|]. specialize (IH (k + 1)).
  case_match; set_solver.
Qed.

Lemma final_x_range bad g pcie eth :
  0 <= bad < 2 ^ 14 -> Forall (fun v => 0 <= v < NOC_X_SIZE) eth ->
  Forall (fun v => 0 <= v < NOC_X_SIZE) (final_x bad g pcie eth).
Proof.
  intros Hbad He. pose proof (translated_cols_perm bad Hbad) as Hp. unfold final_x, NOC_X_SIZE in *.
  assert (HC : Forall (fun v => 0 <= v < 17) (translated_cols bad)).
  { rewrite Hp. apply Forall_forall. intros v. unfold tensix_cols. rewrite elem_of_app, !elem_of_seqZ. lia. }
  apply Forall_cons. split; [lia|]. repeat rewrite Forall_app. split_and!.
  - by apply Forall_take.
  - repeat (apply Forall_cons; split; [lia|]). by apply Forall_nil.
  - by apply Forall_drop.
  - unfold gddr_columns. case_match; repeat (apply Forall_cons; split; [lia|]); by apply Forall_nil.
  - unfold pcie_column. case_match; repeat (apply Forall_cons; split; [lia|]); by apply Forall_nil.
  - done.
Qed.

Lemma final_y_range g : valid_bad_gddr g -> Forall (fun v => 0 <= v < NOC_Y_SIZE) (final_y g).
Proof.
  intros Hg. pose proof (gddr_rows_perm g Hg) as Hp. unfold final_y, NOC_Y_SIZE.
  assert (Hs : Forall (fun v => 0 <= v < 12) (seqZ 0 12)).
  { apply Forall_forall. intros v. rewrite elem_of_seqZ. lia. }
  rewrite !Forall_app. split_and!; [done|by rewrite Hp|..];
    repeat (apply Forall_cons; split; [lia|]); by apply Forall_nil.
Qed.

Lemma eth_range skip eth : CopyBytesSkipIndices kTensixEthNoc0X 12 skip = Some eth ->
  Forall (fun v => 0 <= v < NOC_X_SIZE) eth.
Proof.
  intros E. pose proof (copy_bytes_skip kTensixEthNoc0X 12 skip 0 ltac:(lia)) as Heth.
  rewrite Z.shiftr_0_r, E in Heth. case_decide; [|done].
  pose proof (unskipped_subset 0 kTensixEthNoc0X skip) as Hsub. set (u := unskipped 0 kTensixEthNoc0X skip) in *.
  clearbody u. injection Heth as ->. apply Forall_take, Forall_forall. intros v Hv. apply Hsub in Hv.
  clear - Hv. revert v Hv. apply Forall_forall.
  unfold NOC_X_SIZE. repeat (apply Forall_cons; split; [lia|]). by apply Forall_nil.
Qed.

Lemma translation_wf tx ty lc :
  len tx = 32 -> len ty = 32 -> Forall (fun v => 0 <= v < NOC_X_SIZE) tx -> Forall (fun v => 0 <= v < NOC_Y_SIZE) ty ->
  (forall x y, on_grid x y -> exists v, aget2 lc x y = Some v /\ is_u16 v) ->
  nt_wf (MkNT true tx ty 0 3 lc) /\
  nt_wf (MkNT true (map (fun x => u8 (NOC_X_SIZE - x - 1)) tx) (map (fun y => u8 (NOC_Y_SIZE - y - 1)) ty) 0 3 lc).
Proof.
  unfold NOC_X_SIZE, NOC_Y_SIZE. intros Lx Ly Fx Fy Hlc. split; split; cbn [translate_table_x translate_table_y
    translate_col_mask translate_row_mask logical_coords]; try done; try (unwrap; lia); split; rewrite ?length_map; try done.
  - eapply Forall_impl; [exact Fx|]. cbv beta. lia.
  - eapply Forall_impl; [exact Fy|]. cbv beta. lia.
  - apply Forall_fmap. eapply Forall_impl; [exact Fx|]. cbn. intros. rewrite wrap_small by (unwrap; lia). lia.
  - apply Forall_fmap. eapply Forall_impl; [exact Fy|]. cbn. intros. rewrite wrap_small by (unwrap; lia). lia.
Qed.

(** Both translations of [InitNocTranslation] exist and are well formed. *)
Lemma computed_wf pcie bad g skip :
  0 <= bad < 2 ^ 14 -> (length (bits_of bad) <= 7)%nat -> valid_bad_gddr g ->
  (12 <= length (unskipped 0 kTensixEthNoc0X skip))%nat ->
  exists nt0 nt1, ComputeNocTranslation pcie bad g skip = Some nt0 /\ CopyNoc0ToNoc1 nt0 = Some nt1 /\
    nt_wf nt0 /\ nt_wf nt1 /\ translate_en nt0 = true /\ translate_en nt1 = true.
Proof.
  intros Hbad Hcount Hg Hskip.
  pose proof (copy_bytes_skip kTensixEthNoc0X 12 skip 0 ltac:(lia)) as Heth. rewrite Z.shiftr_0_r in Heth.
  rewrite decide_True in Heth by done. set (eth := take 12 _) in Heth. clearbody eth.
  destruct (compute_spec pcie bad g skip _ Hbad Hcount Hg Heth) as (lc & E & Hwf & Hloc).
  pose proof (final_x_length bad g pcie eth Hbad (copy_bytes_length _ _ _ _ Heth)) as Lx.
  pose proof (final_y_length g Hg) as Ly.
  pose proof (final_x_range bad g pcie eth Hbad (eth_range _ _ Heth)) as Fx.
  pose proof (final_y_range g Hg) as Fy.
  generalize dependent (final_x bad g pcie eth). generalize dependent (final_y g). intros ty Ly Fy tx E Hloc Lx Fx.
  assert (Hu : forall x y, on_grid x y -> exists v, aget2 lc x y = Some v /\ is_u16 v).
  { intros x y Hxy. destruct (Hloc x y Hxy) as (a & b & Hget & _). exists (coord_word a b). split; [done|apply coord_word_u16]. }
  destruct (copy_noc0_to_noc1_spec (MkNT true tx ty 0 3 lc) Hwf Lx Ly) as (lc1 & E1 & Hwf1 & Hget1).
  assert (Hu1 : forall x y, on_grid x y -> exists v, aget2 lc1 x y = Some v /\ is_u16 v).
  { intros x y Hxy. rewrite Hget1 by done. apply Hu. unfold on_grid, NOC_X_SIZE, NOC_Y_SIZE in *. lia. }
  eexists _, _. split; [exact E|]. split; [exact E1|].
  split; [exact (proj1 (translation_wf tx ty lc Lx Ly Fx Fy Hu))|].
  split; [exact (proj2 (translation_wf tx ty lc1 Lx Ly Fx Fy Hu1))|]. split; reflexivity.
Qed.

(** ** The firmware's operations *)

Lemma aset_pair_0 {A} (a b v : A) : aset [a; b] 0 v = Some [v; b].
Proof. reflexivity. Qed.
Lemma aset_pair_1 {A} (a b v : A) : aset [a; b] 1 v = Some [a; v].
Proof. reflexivity. Qed.

Lemma clear_translation_with z s :
  identity_coords all_zeroes = Some z -> nt_wf z -> translate_en z = false -> length (translation s) = 2%nat ->
  exists s' w1, ClearNocTranslation s = Some s' /\ translation s' = [z; z] /\
    noc_translation_enabled s' = false /\ telemetry_noc_translation s' = false /\
    tensix_state_chan s' = tensix_state_chan s /\
    progress disable_update is_arc (hw s) w1 /\
    progress (translation_update [z; z]) (fun _ _ => true) w1 (hw s') /\ arcs_off (hw s').
Proof.
  intros Ez Wz Enz Hl. destruct s as [w tr en tel ch]. cbn [translation] in Hl. name_elements Hl.
  unfold ClearNocTranslation. rewrite Ez. unfold DisableArcNocTranslation. cbn [set_hw hw translation mbind option_bind].
  rewrite aset_pair_0. cbn [mbind option_bind]. rewrite aset_pair_1. cbn [mbind option_bind].
  destruct (disable_arc w) as [Hoff Hp1]. set (w1 := write_arc_translate_en false w) in *. clearbody w1.
  destruct (program_translation z z Wz Wz eq_refl w1 Hoff) as (w2 & E & Hp2). rewrite E. cbn [mbind option_bind].
  eexists _, w1. split; [reflexivity|]. cbn [set_enabled set_hw set_translation hw translation
    noc_translation_enabled telemetry_noc_translation tensix_state_chan].
  do 4 (split; [reflexivity|]). split; [exact Hp1|]. split; [exact Hp2|].
  intros r Hr. unfold arc_off. rewrite (Hp2 r ARC_PX ARC_PY 0 Hr arc_on_grid).
  unfold translation_update, programmed. cbn [Z.eqb NIU_CFG_0].
  change NIU_CFG_0_NOC_ID_TRANSLATE_EN with 14. rewrite write_bit_testbit by lia.
  by apply ring_cases in Hr as [-> | ->].
Qed.

Lemma clear_translation s : length (translation s) = 2%nat ->
  exists s' w1, ClearNocTranslation s = Some s' /\ translation s' = [no_translation; no_translation] /\
    noc_translation_enabled s' = false /\ telemetry_noc_translation s' = false /\
    tensix_state_chan s' = tensix_state_chan s /\
    progress disable_update is_arc (hw s) w1 /\
    progress (translation_update [no_translation; no_translation]) (fun _ _ => true) w1 (hw s') /\ arcs_off (hw s').
Proof. exact ( clear_translation_with no_translation s clear_tables no_translation_wf eq_refl). Qed.

Lemma init_translation pcie bad g skip s :
  0 <= bad < 2 ^ 14 -> (length (bits_of bad) <= 7)%nat -> valid_bad_gddr g ->
  (12 <= length (unskipped 0 kTensixEthNoc0X skip))%nat -> length (translation s) = 2%nat -> arcs_off (hw s) ->
  exists nt0 nt1 s', ComputeNocTranslation pcie bad g skip = Some nt0 /\ CopyNoc0ToNoc1 nt0 = Some nt1 /\
    nt_wf nt0 /\ nt_wf nt1 /\ translate_en nt0 = true /\ translate_en nt1 = true /\
    InitNocTranslation pcie bad g skip s = Some s' /\ translation s' = [nt0; nt1] /\
    noc_translation_enabled s' = true /\ telemetry_noc_translation s' = true /\
    tensix_state_chan s' = tensix_state_chan s /\
    progress (translation_update [nt0; nt1]) (fun _ _ => true) (hw s) (hw s').
Proof.
  intros Hbad Hcount Hg Hskip Hl Hoff.
  destruct (computed_wf pcie bad g skip Hbad Hcount Hg Hskip) as (nt0 & nt1 & E0 & E1 & W0 & W1 & En0 & En1).
  destruct s as [w tr en tel ch]. cbn [translation hw] in *. name_elements Hl.
  destruct (program_translation nt0 nt1 W0 W1 (eq_trans En0 (eq_sym En1)) w Hoff) as (w2 & E & Hp).
  exists nt0, nt1. unfold InitNocTranslation. rewrite E0. cbn [mbind option_bind translation hw].
  rewrite aset_pair_0. cbn [mbind option_bind]. rewrite E1. cbn [mbind option_bind].
  rewrite aset_pair_1. cbn [mbind option_bind]. rewrite E. cbn [mbind option_bind].
  eexists. do 2 (split; [done|]). do 4 (split; [done|]). split; [reflexivity|]. do 4 (split; [reflexivity|]). exact Hp.
Qed.

(** A node that has just been programmed, from a state in which it already
    excluded broadcasts. *)
Lemma programmed_node nt0 nt1 bad r px py (orig old regs : Z -> Z) :
  nt_wf nt0 -> nt_wf nt1 -> 0 <= r < NUM_NOCS -> phys_on_grid px py ->
  (forall j, regs j = programmed (nt_of [nt0; nt1] r) (ring_x px r) (ring_y py r) old j) ->
  node_excludes bad r old -> others_kept orig old ->
  node_translates (if r =? 0 then nt0 else nt1) (ring_x px r) (ring_y py r) regs /\
  node_excludes bad r regs /\ others_kept orig regs.
Proof.
  intros W0 W1 Hr [Hx Hy] Hregs Hex Hk.
  destruct (phys_x_to_noc px r Hr Hx) as (_ & Hrx & _). destruct (phys_y_to_noc py r Hr Hy) as (_ & Hry & _).
  assert (Hnt : nt_of [nt0; nt1] r = (if r =? 0 then nt0 else nt1)) by (by apply ring_cases in Hr as [-> | ->]).
  rewrite Hnt in Hregs. assert (Wr : nt_wf (if r =? 0 then nt0 else nt1)) by (by destruct (r =? 0)).
  split; [|split].
  - eapply node_translates_ext; [|by apply programmed_translates]. intros j _. by rewrite Hregs.
  - unfold node_excludes. rewrite !Hregs. split; [|split; [|exact (proj2 (proj2 Hex))]].
    + intros px' Hx'. by apply Hex.
    + intros py' Hy'. by apply Hex.
  - transitivity old; [exact Hk|]. destruct (programmed_kept (if r =? 0 then nt0 else nt1) (ring_x px r) (ring_y py r) old) as [K1 K2].
    split; [intros j Hj; by rewrite Hregs, K1|]. intros n Hn Hne. by rewrite Hregs, K2.
Qed.

(** A node after the translation was cleared and broadcasts were excluded. *)
Lemma cleared_node z bad c0 c1 w0 w1 w2 w3 :
  nt_wf z -> progress disable_update is_arc w0 w1 ->
  progress (translation_update [z; z]) (fun _ _ => true) w1 w2 ->
  progress (exclusion_update c0 c1) (fun _ _ => true) w2 w3 -> broadcast_columns bad = Some (c0, c1) ->
  forall r px py, 0 <= r < NUM_NOCS -> phys_on_grid px py ->
  let regs := niu w3 r (ring_x px r) (ring_y py r) in
  node_translates z (ring_x px r) (ring_y py r) regs /\ node_excludes bad r regs /\
  others_kept (niu w0 r (ring_x px r) (ring_y py r)) regs.
Proof.
  intros Wz P0 P1 P2 Eb r px py Hr Hxy. cbv zeta. pose proof Hxy as [Hx Hy].
  destruct (phys_x_to_noc px r Hr Hx) as (_ & Hrx & _). destruct (phys_y_to_noc py r Hr Hy) as (_ & Hry & _).
  pose proof (fun j => P0 r px py j Hr Hxy) as H0'. pose proof (fun j => P1 r px py j Hr Hxy) as H1.
  pose proof (fun j => P2 r px py j Hr Hxy) as H2. cbv beta iota in H1, H2. unfold translation_update in H1.
  set (f0 := niu w0 r _ _) in *. set (f1 := niu w1 r _ _) in *. set (f2 := niu w2 r _ _) in *. set (f3 := niu w3 r _ _) in *.
  assert (Hnt : nt_of [z; z] r = z) by (by apply ring_cases in Hr as [-> | ->]). rewrite Hnt in H1.
  assert (K0 : others_kept f0 f1).
  { destruct (is_arc px py); [|split; intros; by rewrite H0'].
    destruct (disable_kept r px py f0) as [A B]. split; [intros j Hj; by rewrite H0', A|]. intros n ??. by rewrite H0', B. }
  assert (K1 : others_kept f1 f2).
  { destruct (programmed_kept z (ring_x px r) (ring_y py r) f1) as [A B].
    split; [intros j Hj; by rewrite H1, A|]. intros n ??. by rewrite H1, B. }
  assert (K2 : others_kept f2 f3).
  { destruct (exclusion_kept c0 c1 r px py f2) as [A B].
    split; [intros j Hj; by rewrite H2, A|]. intros n ??. by rewrite H2, B. }
  split; [|split].
  - eapply node_translates_ext; [|by apply programmed_translates]. intros j Hj. rewrite H2, exclusion_other by lia. by rewrite H1.
  - destruct (exclusion_excludes bad c0 c1 r px py f2 Eb Hr) as (A & B & C & D). unfold node_excludes. rewrite !H2.
    split; [|split; [|by split]]; [exact A|exact B].
  - transitivity f1; [exact K0|]. by transitivity f2.
Qed.

Definition request_ok (req : debug_noc_translation_rqst) : Prop :=
  0 <= rq_bad_tensix_cols req < 2 ^ 14 /\ (length (bits_of (rq_bad_tensix_cols req)) <= 7)%nat /\
  valid_bad_gddr (rq_bad_gddr req) /\
  (12 <= length (unskipped 0 kTensixEthNoc0X (Z.lor (skip_eth_low req) (u16 (Z.shiftl (skip_eth_hi req) 8)))))%nat.

Definition requested_pcie (pci1_mode : Z) (req : debug_noc_translation_rqst) : Z :=
  if pcie_instance_override req then rq_pcie_instance req else if pci1_mode =? BH_PCIE_MODE_EP then 1 else 0.

(** C6: whatever translation the chip is in, after the host's debug message every
    node of both NOCs holds the requested one.  An acceptable request is answered
    0; then each node's translation bit, packed X and Y tables, masks and logical
    coordinate are those of the tables computed for its NOC (none, when the
    request disables translation), each node refuses broadcasts in exactly the
    unusable columns and rows, no other register or [NIU_CFG_0] bit has changed,
    and firmware state and telemetry agree.  A GDDR instance out of range is
    answered [-EINVAL] with nothing changed. *)
Theorem debug_noc_translation_programs_all pci1_mode req s :
  length (translation s) = 2%nat ->
  (request_ok req ->
   exists nt0 nt1 s',
     debug_noc_translation_handler pci1_mode req s = Some (0, s') /\
     (if enable_translation req
      then ComputeNocTranslation (requested_pcie pci1_mode req) (rq_bad_tensix_cols req) (rq_bad_gddr req)
             (Z.lor (skip_eth_low req) (u16 (Z.shiftl (skip_eth_hi req) 8))) = Some nt0 /\
           CopyNoc0ToNoc1 nt0 = Some nt1
      else nt0 = no_translation /\ nt1 = no_translation) /\
     translation s' = [nt0; nt1] /\ noc_translation_enabled s' = enable_translation req /\
     telemetry_noc_translation s' = enable_translation req /\
     forall r px py, 0 <= r < NUM_NOCS -> phys_on_grid px py ->
       let regs := niu (hw s') r (ring_x px r) (ring_y py r) in
       node_translates (if r =? 0 then nt0 else nt1) (ring_x px r) (ring_y py r) regs /\
       node_excludes (rq_bad_tensix_cols req) r regs /\
       others_kept (niu (hw s) r (ring_x px r) (ring_y py r)) regs) /\
  (NUM_GDDR <= rq_bad_gddr req -> rq_bad_gddr req <> NO_BAD_GDDR ->
   debug_noc_translation_handler pci1_mode req s = Some (u8 (-22), s)).
Proof.
  intros Hl. unfold debug_noc_translation_handler. split.
  2:{ intros Hge Hne. destruct (Z.leb_spec NUM_GDDR (rq_bad_gddr req)); [|lia].
      destruct (Z.eqb_spec (rq_bad_gddr req) NO_BAD_GDDR); [done|reflexivity]. }
  intros (Hbad & Hcount & Hg & Hskip).
  assert (Hgd : (NUM_GDDR <=? rq_bad_gddr req) && negb (rq_bad_gddr req =? NO_BAD_GDDR) = false).
  { destruct Hg as [Hg| ->]; [|reflexivity]. destruct (Z.leb_spec NUM_GDDR (rq_bad_gddr req)); [lia|done]. }
  cbv zeta. rewrite Hgd.
  destruct (clear_translation s Hl) as (s1 & w1 & -> & T1 & En1 & Tel1 & _ & P0 & P1 & Off1). cbn [mbind option_bind].
  destruct (exclude_all (rq_bad_tensix_cols req) (hw s1) Off1) as (c0 & c1 & w2 & Eb & -> & P2 & Off2).
  cbn [mbind option_bind].
  pose proof no_translation_wf as Wz. generalize dependent no_translation. intros z T1 P1 Wz.
  assert (Hcleared : forall r px py, 0 <= r < NUM_NOCS -> phys_on_grid px py ->
    let regs := niu w2 r (ring_x px r) (ring_y py r) in
    node_translates z (ring_x px r) (ring_y py r) regs /\ node_excludes (rq_bad_tensix_cols req) r regs /\
    others_kept (niu (hw s) r (ring_x px r) (ring_y py r)) regs).
  { intros r px py Hr Hxy. cbv zeta. exact (cleared_node _ _ _ _ _ _ _ _ Wz P0 P1 P2 Eb r px py Hr Hxy). }
  assert (Hsk : exists s2, set_hw w2 s1 = s2 /\ hw s2 = w2 /\ translation s2 = [z; z] /\
    noc_translation_enabled s2 = false /\ telemetry_noc_translation s2 = false).
  { eexists. split; [reflexivity|]. cbn [set_hw hw translation noc_translation_enabled telemetry_noc_translation]. auto. }
  destruct Hsk as (s2 & -> & Hhw & T2 & En2 & Tel2). rewrite <- Hhw in Hcleared, Off2.
  destruct (enable_translation req).
  - assert (Hl2 : length (translation s2) = 2%nat) by (rewrite T2; reflexivity).
    destruct (init_translation (requested_pcie pci1_mode req) _ _ _ s2 Hbad Hcount Hg Hskip Hl2 Off2)
      as (nt0 & nt1 & s3 & E0 & E1 & W0 & W1 & N0 & N1 & E3 & T3 & En3 & Tel3 & _ & P3).
    exists nt0, nt1, s3. split.
    { unfold requested_pcie in E3. destruct (pcie_instance_override req); cbn [negb]; rewrite E3; reflexivity. }
    split; [by split|]. split; [exact T3|]. split; [exact En3|]. split; [exact Tel3|].
    intros r px py Hr Hxy. cbv zeta. destruct (Hcleared r px py Hr Hxy) as (_ & Hex & Hk).
    pose proof (fun j => P3 r px py j Hr Hxy) as Hregs. cbv beta iota in Hregs. unfold translation_update in Hregs.
    exact (programmed_node _ _ _ _ _ _ _ _ _ W0 W1 Hr Hxy Hregs Hex Hk).
  - exists z, z, s2. split; [reflexivity|]. split; [by split|]. split; [exact T2|]. split; [exact En2|]. split; [exact Tel2|].
    intros r px py Hr Hxy. destruct (r =? 0); by apply Hcleared.
Qed.
End programming.

(** ** A machine that obeys the laws *)

(** NOC registers and TLB registers as plain stores; a translating ARC reaches
    only node (0, 0). *)
Record machine := MkMachine { m_niu : Z -> Z -> Z -> Z -> Z; m_tlb : Z -> Z -> Z }.

Definition m_reg (m : machine) (r x y i : Z) : Z := u32 (m_niu m r x y i).
Definition m_route (m : machine) (r : Z) (c : Z * Z) : Z * Z :=
  if Z.testbit (m_reg m r (ring_x ARC_PX r) (ring_y ARC_PY r) 0) 14 then (0, 0) else c.

Definition tlb_index (a : Z) : option (Z * Z) :=
  if (0x80051000 <=? a) && (a <? 0x80051100) then Some (0, (a - 0x80051000) / 4)
  else if (0x80059000 <=? a) && (a <? 0x80059100) then Some (1, (a - 0x80059000) / 4)
  else None.

(** The register an address reaches: ring, coordinates, index. *)
Definition reached (m : machine) (a : Z) : option (Z * Z * Z * Z) :=
  if a =? 0x80050100 then Some (0, ring_x ARC_PX 0, ring_y ARC_PY 0, 0)
  else if a =? 0x80058100 then Some (1, ring_x ARC_PX 1, ring_y ARC_PY 1, 0)
  else
    let ring := if a <? ARC_NOC1_BASE_ADDR then 0 else 1 in
    let a := a - (if ring =? 0 then ARC_NOC0_BASE_ADDR else ARC_NOC1_BASE_ADDR) in
    let idx := a / 2 ^ 24 in
    let tlb2 := m_tlb m ring (idx + 32) in
    let '(x, y) := m_route m ring (bits_get 0 6 tlb2, bits_get 6 6 tlb2) in
    px ← NocToPhysX x ring;
    py ← NocToPhysY y ring;
    b ← NiuRegsBase px py ring;
    let addr := Z.shiftl (m_tlb m ring (idx * 2 + 1)) 32 + Z.shiftl (bits_get 24 8 (m_tlb m ring (idx * 2))) 24 + a mod 2 ^ 24 in
    Some (ring, x, y, (addr - b - 0x100) / 4).

#[export] Instance machine_hw : NocHw machine := {|
  ReadReg a m := match reached m a with Some (r, x, y, i) => m_reg m r x y i | None => 0 end;
  WriteReg a v m :=
    match tlb_index a with
    | Some (ring, k) => MkMachine (m_niu m) (fun r j => if (ring =? r) && (k =? j) then v else m_tlb m r j)
    | None =>
        match reached m a with
        | Some (ring, x, y, i) =>
            MkMachine (fun r x' y' j => if same_reg ring x y i r x' y' j then v else m_niu m r x' y' j) (m_tlb m)
        | None => m
        end
    end |}.

Lemma reached_window m ring idx off px py i :
  window_hits (m_tlb m) (m_route m ring) ring idx off px py i ->
  tlb_index (window_addr ring idx off) = None /\
  reached m (window_addr ring idx off) = Some (ring, ring_x px ring, ring_y py ring, i).
Proof.
  intros (Hr & Hidx & Hoff & Hg & Hi & _ & Hroute & b & Hb & Haddr).
  change (2 ^ NOC_TLB_LOG_SIZE) with 16777216 in Hoff. unfold NOC2AXI_NUM_TLB_PER_RING in *.
  pose proof Hg as [Hx Hy].
  destruct (phys_x_to_noc px ring Hr Hx) as (_ & _ & Ex). destruct (phys_y_to_noc py ring Hr Hy) as (_ & _ & Ey).
  set (base := if ring =? 0 then ARC_NOC0_BASE_ADDR else ARC_NOC1_BASE_ADDR).
  assert (Hwin : window_addr ring idx off = base + idx * 16777216 + off).
  { unfold window_addr. rewrite Z.shiftl_mul_pow2 by (unfold NOC_TLB_LOG_SIZE; lia). reflexivity. }
  assert (Hbase : base = 0xC0000000 /\ ring = 0 \/ base = 0xE0000000 /\ ring = 1).
  { unfold base. apply ring_cases in Hr as [-> | ->]; [left|right]; split; reflexivity. }
  rewrite Hwin. split.
  - unfold tlb_index. repeat match goal with |- context [?a <=? ?b] => destruct (Z.leb_spec a b) end;
    repeat match goal with |- context [?a <? ?b] => destruct (Z.ltb_spec a b) end; cbn; lia || reflexivity.
  - unfold reached.
    destruct (Z.eqb_spec (base + idx * 16777216 + off) 0x80050100); [lia|].
    destruct (Z.eqb_spec (base + idx * 16777216 + off) 0x80058100); [lia|].
    assert (Hring : (if base + idx * 16777216 + off <? ARC_NOC1_BASE_ADDR then 0 else 1) = ring).
    { unfold ARC_NOC1_BASE_ADDR. destruct (Z.ltb_spec (base + idx * 16777216 + off) 0xE0000000); lia. }
    rewrite Hring. fold base. cbv zeta. change (2 ^ 24) with 16777216.
    replace (base + idx * 16777216 + off - base) with (idx * 16777216 + off) by lia.
    rewrite Z.div_add_l, (Z.div_small off) by lia. rewrite Z.add_0_r.
    rewrite (Z.add_comm (idx * 16777216)), Z.mod_add, (Z.mod_small off) by lia.
    change (2 * 16) with 32 in Hroute. rewrite Hroute, Ex. cbn [mbind option_bind]. rewrite Ey. cbn [mbind option_bind].
    rewrite Hb. cbn [mbind option_bind]. rewrite <- Haddr. do 2 f_equal. Z.to_euclidean_division_equations. lia.
Qed.

#[export, refine] Instance machine_laws : NocHwLaws machine := {|
  niu := m_reg; tlb_reg := m_tlb; route := m_route |}.
Proof.
  - intros. apply u32_range.
  - intros m r c Hr Hoff. unfold m_route. by rewrite Hoff.
  - intros m ring k v Hr Hk.
    assert (Hi : tlb_index (tlb_reg_addr ring k) = Some (ring, k)).
    { unfold tlb_reg_addr. apply ring_cases in Hr as [-> | ->].
      - change (GetTlbRegStartAddr 0) with 0x80051000. unfold tlb_index.
        destruct (Z.leb_spec 0x80051000 (0x80051000 + 4 * k)), (Z.ltb_spec (0x80051000 + 4 * k) 0x80051100); cbn [andb]; try lia.
        do 2 f_equal. Z.to_euclidean_division_equations. lia.
      - change (GetTlbRegStartAddr 1) with 0x80059000. unfold tlb_index.
        destruct (Z.ltb_spec (0x80059000 + 4 * k) 0x80051100); [lia|]. rewrite andb_false_r.
        destruct (Z.leb_spec 0x80059000 (0x80059000 + 4 * k)), (Z.ltb_spec (0x80059000 + 4 * k) 0x80059100); cbn [andb]; try lia.
        do 2 f_equal. Z.to_euclidean_division_equations. lia. }
    cbn [WriteReg machine_hw]. rewrite Hi. split; [done|]. done.
  - intros m ring idx off px py i Hh. destruct (reached_window m ring idx off px py i Hh) as [_ E].
    cbn [ReadReg machine_hw]. by rewrite E.
  - intros m ring idx off px py i v Hh Hv. destruct (reached_window m ring idx off px py i Hh) as [T E].
    cbn [WriteReg machine_hw]. rewrite T, E. split; [|done]. intros r x y j. unfold m_reg. cbn [m_niu].
    destruct (same_reg _ _ _ _ _ _ _ _); [by apply wrap_small|done].
  - intros m ring [-> | ->]%ring_cases; reflexivity.
  - intros m ring v Hr Hv r x y j.
    assert (Hw : WriteReg (direct_addr ring) v m =
      MkMachine (fun r x' y' j => if same_reg ring (ring_x ARC_PX ring) (ring_y ARC_PY ring) 0 r x' y' j then v else m_niu m r x' y' j) (m_tlb m)).
    { apply ring_cases in Hr as [-> | ->]; reflexivity. }
    rewrite Hw. unfold m_reg. cbn [m_niu]. destruct (same_reg _ _ _ _ _ _ _ _); [by apply wrap_small|done].
Defined.

(** Translation off, every register 0xFFFFBFFF. *)
Definition machine0 : machine := MkMachine (fun _ _ _ _ => 0xFFFFBFFF) (fun _ _ => 0).
Definition noc_state0 : noc_state machine := MkNoc machine0 [all_zeroes; all_zeroes] false false None.
Definition noc_request : debug_noc_translation_rqst := MkDebugNoc true 1 true 0x0081 3 0x20 0x01.

Lemma debug_noc_translation_programs_all_witness :
  request_ok noc_request /\
  exists nt0 nt1 s', debug_noc_translation_handler 1 noc_request noc_state0 = Some (0, s') /\
    ComputeNocTranslation 1 0x0081 3 0x120 = Some nt0 /\ translation s' = [nt0; nt1].
Proof.
  assert (Hok : request_ok noc_request).
  { unfold request_ok. split; [cbn; lia|]. split; [by vm_compute; lia|]. split; [left; cbn; unfold NUM_GDDR; lia|by vm_compute; lia]. }
  split; [exact Hok|].
  destruct (proj1 (debug_noc_translation_programs_all 1 noc_request noc_state0 eq_refl) Hok)
    as (nt0 & nt1 & s' & E & C & T & _).
  exists nt0, nt1, s'. split; [exact E|]. split; [exact (proj1 C)|exact T].
Defined.
