(* ===== verification/Reset.v ===== *)
(** * Resets of the tiles ([lib/tenstorrent/bh_arc/reset.c])

    The resets of start-up, and those that the host asks for: of all Tensix tiles, of one,
    and the re-initialisation after it.  Over the reset controllers ([ResetDriver]), the
    NOC's set-up ([NocInit]) and the start of the Tensix tiles ([TensixInit]). *)

From S2P Require Import Prelude Noc Harvesting NocInit ResetDriver TensixInit NocTables NocProgram.
#[local] Open Scope Z_scope.

(** Bits of the global reset: system, NOC, reference clock counter, PCIe 0 and 1, PTP. *)
Definition TT_BH_GLOBAL_RESET_MASK : Z := Z.lor (BIT 0) (Z.lor (BIT 1) (Z.lor (BIT 7) (Z.lor (BIT 8) (Z.lor (BIT 9) (BIT 13))))).
Definition TT_BH_ETH_TILE_MASK : Z := GENMASK 13 0.
Definition TT_BH_ETH_RISC_MASK : Z := GENMASK 29 16.
Definition TT_BH_DDR_TILE_MASK : Z := GENMASK 7 0.
Definition TT_BH_DDR_RISC_MASK : Z := GENMASK 31 8.
Definition TT_BH_L2CPU_TILE_MASK : Z := GENMASK 3 0.
Definition TENSIX_NUM_RESET_BANKS : Z := size tensix_reset / TT_BH_RESET_BANK_STRIDE.
Definition UINT32_MAX : Z := 0xFFFFFFFF.
Definition kSoftReset0Addr : Z := 0xFFB121B0.
Definition kAllRiscSoftReset : Z := 0x47800.
Definition DMC_CABLE_POWER_LIMIT_REG_ADDR : Z := 0x80030060 + 4 * 1.
Definition CABLE_POWER_LIMIT_MAGIC : Z := 0xCAB10000.
Definition CABLE_POWER_LIMIT_MAGIC_MASK : Z := 0xFFFF0000.
Definition CABLE_POWER_LIMIT_VALUE_MASK : Z := 0x0000FFFF.
Definition NUM_MRISC_NOC2AXI_PORT : Z := 3.

(** The progress of start-up, in a scratch register ([fw_common/post_code.c]). *)
Definition STATUS_POST_CODE_REG_ADDR : Z := 0x80030060 + 4 * 0.
Definition POST_CODE_PREFIX : Z := 0xc0de.
Definition POST_CODE_SRC_CMFW : Z := 0x0.
Definition POST_CODE_ARC_INIT_STEP3 : Z := 0x13.
Definition POST_CODE_ARC_INIT_STEP6 : Z := 0x16.
Definition POST_CODE_ARC_INIT_STEP7 : Z := 0x17.
Definition SetPostCode {W} `{NocHw W} (fw_id post_code : Z) (w : W) : W :=
  WriteReg STATUS_POST_CODE_REG_ADDR
    (Z.lor (Z.lor (Z.shiftl POST_CODE_PREFIX 16) (Z.shiftl fw_id 14)) (Z.land post_code 0x3fff)) w.

(** The PLLs of the clock driver [ClockControl] by number, and the AICLK interlock of [Dvfs]. *)
Class ResetHw (W : Type) := {
  pll_bypass : Z -> W -> W;        (* [clock_control_configure] to [CLOCK_CONTROL_TT_BH_CONFIG_BYPASS] *)
  pll_init_state : Z -> W -> W;    (* [clock_control_set_rate] of [CLOCK_CONTROL_TT_BH_INIT_STATE] *)
  SetAiclkResetSafe : bool -> W -> W
}.

(** The build, the board, the fuses, and the state kept for the Tensix in [Power]. *)
Record reset_config := MkResetCfg {
  CONFIG_TT_SMC_RECOVERY : bool; CONFIG_ARC : bool; num_plls : Z; is_ubb : bool; cg_en : bool; noc_translation_en : bool;
  tensix_power : bool; tile_enable : TileEnable }.

Record resets (W : Type) := MkResets { noc : noc_state W; cable_fault_mode : bool; error_status0 : Z }.
Arguments MkResets {W} _ _ _.
Arguments noc {W} _.
Arguments cable_fault_mode {W} _.
Arguments error_status0 {W} _.

Section reset.
Context {W : Type} `{NocHw W} `{ResetHw W} (cfg : reset_config).

Definition is_cable_fault_mode (s : resets W) : bool := cable_fault_mode s.
Definition hw_of (s : resets W) : W := hw (noc s).
Definition on_hw (f : W -> W) (s : resets W) : resets W := MkResets (set_hw (f (hw_of s)) (noc s)) (cable_fault_mode s) (error_status0 s).
Definition on_noc (f : noc_state W -> option (noc_state W)) (s : resets W) : option (resets W) :=
  n ← f (noc s); Some (MkResets n (cable_fault_mode s) (error_status0 s)).

(** [ARRAY_FOR_EACH] and the loops over banks: total, so over [fold_left]. *)
Definition for_each (n : Z) (f : Z -> W -> W) (w : W) : W := fold_left (fun w i => f i w) (seqZ 0 n) w.
Definition all_banks (f : Z -> W -> Z * W) : W -> W := for_each TENSIX_NUM_RESET_BANKS (fun i w => (f (i * TT_BH_RESET_BANK_STRIDE) w).2).

Definition bh_soft_reset_all_tensix (translated : bool) (w : W) : W :=
  let w := NOC2AXITensixBroadcastTlbSetup translated 0 0 kSoftReset0Addr kNoc2AxiOrderingStrict w in
  NOC2AXIWrite32 0 0 kSoftReset0Addr kAllRiscSoftReset w.
(** The write to one node. *)
Definition soft_reset_node (n : Z * Z) (w : W) : W :=
  NOC2AXIWrite32 0 0 kSoftReset0Addr kAllRiscSoftReset (NOC2AXITlbSetup 0 0 n.1 n.2 kSoftReset0Addr w).

Definition AssertSoftResets (s : resets W) : option (Z * resets W) :=
  let s := on_hw (SetPostCode POST_CODE_SRC_CMFW POST_CODE_ARC_INIT_STEP6) s in
  if CONFIG_TT_SMC_RECOVERY cfg || negb (CONFIG_ARC cfg) then Some (0, s) else
  if cable_fault_mode s then Some (0, s) else
  let s := on_hw (bh_soft_reset_all_tensix (noc_translation_enabled (noc s))) s in
  w ← for_loop 14 0
        (fun eth_inst w =>
           if Z.testbit (eth_enabled (tile_enable cfg)) eth_inst
           then n ← GetEthNocCoords eth_inst 0; Some (soft_reset_node n w) else Some w) (hw_of s);
  w ← for_loop (Z.to_nat NUM_GDDR) 0
        (fun gddr_inst w =>
           if Z.testbit (gddr_enabled (tile_enable cfg)) gddr_inst
           then for_loop (Z.to_nat NUM_MRISC_NOC2AXI_PORT) 0
                  (fun noc_node_inst w => n ← GetGddrNocCoords gddr_inst noc_node_inst 0; Some (soft_reset_node n w)) w
           else Some w) w;
  Some (0, on_hw (fun _ => w) s).

Definition DeassertRiscvResets (s : resets W) : Z * resets W :=
  let s := on_hw (SetPostCode POST_CODE_SRC_CMFW POST_CODE_ARC_INIT_STEP7) s in
  if CONFIG_TT_SMC_RECOVERY cfg || negb (CONFIG_ARC cfg) then (0, s) else
  if cable_fault_mode s then (0, s) else
  let s := on_hw (for_each (num_plls cfg) pll_bypass) s in
  let s := on_hw (all_banks (fun offset => reset_tt_bh_lines_deassert tensix_risc_reset offset UINT32_MAX)) s in
  let s := on_hw (fun w => (reset_tt_bh_lines_deassert eth_reset 0 TT_BH_ETH_RISC_MASK w).2) s in
  let s := on_hw (fun w => (reset_tt_bh_lines_deassert ddr_reset 0 TT_BH_DDR_RISC_MASK w).2) s in
  (0, on_hw (for_each (num_plls cfg) pll_init_state) s).

Definition ToggleTensixReset (s : resets W) : Z * resets W :=
  let s := on_hw (all_banks (fun offset => reset_tt_bh_lines_assert tensix_reset offset UINT32_MAX)) s in
  (0, on_hw (all_banks (fun offset => reset_tt_bh_lines_deassert tensix_reset offset UINT32_MAX)) s).

(** The code, and [rsp->data[0]]. *)
Definition ToggleSingleTensixReset (noc_x noc_y : Z) (s : resets W) : option ((Z * Z) * resets W) :=
  nt ← aget (translation (noc s)) 0;
  '(phys_x, phys_y) ← NocLogicalToPhysical nt noc_x noc_y;
  tensix_col ← NocToTensixPhysX phys_x 0;
  tensix_row ← NocToTensixPhysY phys_y 0;
  if (NUM_TENSIX_X <=? tensix_col) || (NUM_TENSIX_Y <=? tensix_row) then Some ((1, 1), s) else
  let tensix_index := u8 (NUM_TENSIX_Y * tensix_col + tensix_row) in
  let bank_offset := (tensix_index / 32) * TT_BH_RESET_BANK_STRIDE in
  let bit_index := tensix_index mod 32 in
  let s := on_hw (SetAiclkResetSafe true) s in
  let s := on_hw (fun w => (reset_tt_bh_lines_assert tensix_risc_reset bank_offset (BIT bit_index) w).2) s in
  let s := on_hw (fun w => (reset_tt_bh_lines_assert tensix_reset bank_offset (BIT bit_index) w).2) s in
  let s := on_hw (fun w => (reset_tt_bh_lines_deassert tensix_reset bank_offset (BIT bit_index) w).2) s in
  s ← on_noc (fun n => Some (DisableArcNocTranslation n)) s;
  w ← NocInitSingleTile (tile_enable cfg) (cable_fault_mode s) (cg_en cfg) phys_x phys_y (hw_of s);
  w ← ProgramNocTranslationSingleTile (translation (noc s)) phys_x phys_y w;
  let w := EnableTensixCG (cg_en cfg) (noc_translation_enabled (noc s)) false phys_x phys_y w in
  let w := soft_reset_node (phys_x, phys_y) w in
  let s := on_hw (fun _ => w) s in
  s ← on_noc RestoreArcNocTranslation s;
  let s := on_hw (fun w => (reset_tt_bh_lines_deassert tensix_risc_reset bank_offset (BIT bit_index) w).2) s in
  let s := on_hw (SetAiclkResetSafe false) s in
  let s := on_hw (tensix_inject_instruction (noc_translation_enabled (noc s)) TENSIX_INSTRUCTION_UNPACR 0 false noc_x noc_y) s in
  if negb (tensix_power cfg) then
    w ← SetSingleTileClockGate noc_x noc_y true (hw_of s);
    Some ((0, 0), on_hw (fun _ => w) s)
  else Some ((0, 0), s).

Definition ReinitTensix (s : resets W) : option (Z * resets W) :=
  s ← on_noc ClearNocTranslation s;
  w ← NocInit (tile_enable cfg) (cable_fault_mode s) (cg_en cfg) (hw_of s);
  let s := on_hw (fun _ => w) s in
  s ← on_noc (TensixInit (tile_enable cfg) (cg_en cfg) (tensix_power cfg)) s;
  if noc_translation_en cfg then
    s ← on_noc (InitNocTranslationFromHarvesting (tile_enable cfg) (cable_fault_mode s) (noc_translation_en cfg)) s; Some (0, s)
  else Some (0, s).

(** The cable's power limit as the DMC left it: no power at all is a cable fault. *)
Definition check_cable (s : resets W) : resets W :=
  let raw_value := ReadReg DMC_CABLE_POWER_LIMIT_REG_ADDR (hw_of s) in
  if is_ubb cfg then s
  else if Z.land raw_value CABLE_POWER_LIMIT_MAGIC_MASK =? CABLE_POWER_LIMIT_MAGIC then
    let cable_power_limit := Z.land raw_value CABLE_POWER_LIMIT_VALUE_MASK in
    if cable_power_limit =? 0 then
      let '(e, w) := record_init_failure (stage_bit INIT_STAGE_CABLE_FAULT) (error_status0 s) (hw_of s) in
      MkResets (set_hw w (noc s)) true e
    else s
  else s.

Definition DeassertTileResets (s : resets W) : Z * resets W :=
  let s := on_hw (SetPostCode POST_CODE_SRC_CMFW POST_CODE_ARC_INIT_STEP3) s in
  if negb (CONFIG_ARC cfg) then (0, s) else
  let s := check_cable s in
  let s := on_hw (for_each (num_plls cfg) pll_bypass) s in
  let s := on_hw (fun w => (reset_tt_bh_write global_reset TT_BH_GLOBAL_RESET_MASK w).2) s in
  let s := on_hw (fun w => (reset_tt_bh_write eth_reset TT_BH_ETH_TILE_MASK w).2) s in
  let s := on_hw (all_banks (fun offset => reset_tt_bh_lines_deassert tensix_reset offset UINT32_MAX)) s in
  let s := on_hw (fun w => (reset_tt_bh_write ddr_reset TT_BH_DDR_TILE_MASK w).2) s in
  (0, on_hw (fun w => (reset_tt_bh_write l2cpu_reset TT_BH_L2CPU_TILE_MASK w).2) s).
End reset.

(** ** What goes over the NOC *)

(** A write to the NOC's registers or through its windows. *)
Definition noc_write {W} `{NocHw W} (w w' : W) : Prop := exists a v, 0x80050000 <= a < 2 ^ 32 /\ w' = WriteReg a v w.
Definition noc_writes {W} `{NocHw W} : W -> W -> Prop := rtc noc_write.

(** A computation is defined and does nothing but such writes. *)
Definition only_noc {W} `{NocHw W} (o : option W) (w : W) : Prop := exists w', o = Some w' /\ noc_writes w w'.

Section over_noc.
Context {W : Type} `{NocHw W}.

#[export] Instance noc_writes_preorder : PreOrder (noc_writes (W := W)).
Proof. unfold noc_writes. apply _. Qed.

Lemma noc_write_once a v w : 0x80050000 <= a < 2 ^ 32 -> noc_writes w (WriteReg a v w).
Proof. intros Ha. apply rtc_once. by exists a, v. Qed.
Lemma noc_write_then a v w w' : 0x80050000 <= a < 2 ^ 32 -> noc_writes w w' -> noc_writes w (WriteReg a v w').
Proof. intros Ha Hw. etransitivity; [exact Hw|]. by apply noc_write_once. Qed.

Lemma window_range ring k addr : 0 <= ring < NUM_NOCS -> 0 <= k < 16 -> 0x80050000 <= GetTlbWindowAddr ring k addr < 2 ^ 32.
Proof.
  intros Hr Hk. unfold GetTlbWindowAddr, NOC_TLB_WINDOW_ADDR_MASK. rewrite Z.land_ones, Z.shiftl_mul_pow2 by done.
  change NOC_TLB_LOG_SIZE with 24. pose proof (Z.mod_pos_bound addr (2 ^ 24) ltac:(done)).
  apply ring_cases in Hr as [-> | ->]; cbn [Z.eqb]; [change ARC_NOC0_BASE_ADDR with 0xC0000000|change ARC_NOC1_BASE_ADDR with 0xE0000000];
    rewrite wrap_small by (unfold in_width; lia); lia.
Qed.
Lemma window_write_noc k addr v w w' : 0 <= k < 16 -> noc_writes w w' -> noc_writes w (NOC2AXIWrite32 0 k addr v w').
Proof. intros Hk. apply noc_write_then, window_range; [unfold NUM_NOCS; lia|done]. Qed.

Lemma tlb_setup_noc ring k t0 t1 t2 t3 w w' : 0 <= ring < NUM_NOCS -> 0 <= k < 16 -> noc_writes w w' -> noc_writes w (WriteTlbSetup ring k t0 t1 t2 t3 w').
Proof.
  intros Hr Hk Hw. unfold WriteTlbSetup. change NOC2AXI_NUM_TLB_PER_RING with 16.
  assert (Hb : 0x80050000 <= GetTlbRegStartAddr ring /\ GetTlbRegStartAddr ring + 256 < 2 ^ 32).
  { apply ring_cases in Hr as [-> | ->]; [change (GetTlbRegStartAddr 0) with 0x80051000|change (GetTlbRegStartAddr 1) with 0x80059000]; lia. }
  repeat (apply noc_write_then; [lia|]). exact Hw.
Qed.

Lemma cfg_range ring px py b i : 0 <= ring < NUM_NOCS -> phys_on_grid px py -> NiuRegsBase px py ring = Some b -> 0 <= i < 32 ->
  0x80050000 <= cfg_reg_address (GetTlbWindowAddr ring 0 b) i < 2 ^ 32.
Proof.
  intros Hr Hg Hb Hi. destruct (niu_regs_base px py ring Hr Hg) as (b' & Hb' & Hin). rewrite Hb in Hb'. injection Hb' as <-.
  unfold cfg_reg_address. change kFirstCfgRegIndex with 64. apply ring_cases in Hr as [-> | ->];
    repeat (apply elem_of_cons in Hin as [-> |Hin]); try (by apply elem_of_nil in Hin);
    match goal with |- context [GetTlbWindowAddr ?r ?k ?x] => let v := eval vm_compute in (GetTlbWindowAddr r k x) in change (GetTlbWindowAddr r k x) with v end;
    rewrite wrap_small by (unfold in_width; lia); lia.
Qed.

(** A node's window, set up. *)
Lemma setup_noc ring px py w : 0 <= ring < NUM_NOCS -> phys_on_grid px py ->
  exists b w', SetupNiuTlbPhys kTlbIndex px py ring w = Some (GetTlbWindowAddr ring 0 b, w') /\ noc_writes w w' /\
    forall i v w2, 0 <= i < 32 -> noc_writes w w2 -> noc_writes w (WriteNocCfgReg (GetTlbWindowAddr ring 0 b) i v w2).
Proof.
  intros Hr Hg. pose proof Hg as [Hx Hy]. destruct (niu_regs_base px py ring Hr Hg) as (b & Hb & _).
  destruct (phys_x_to_noc px ring Hr Hx) as (Ex & _). destruct (phys_y_to_noc py ring Hr Hy) as (Ey & _).
  unfold SetupNiuTlbPhys. rewrite Hb, Ex, Ey. cbn [mbind option_bind]. eexists b, _. split; [done|].
  split; [apply tlb_setup_noc; [done|done|reflexivity]|]. intros i v w2 Hi Hw. unfold WriteNocCfgReg. apply noc_write_then; [by eapply cfg_range|done].
Qed.

Lemma for_loop_noc n lo body (w : W) :
  (forall i w1, lo <= i < lo + Z.of_nat n -> only_noc (body i w1) w1) -> only_noc (for_loop n lo body w) w.
Proof.
  intros Hb. destruct (for_loop_inv (fun _ w' => noc_writes w w') n lo body w) as (w' & E & Hw); [reflexivity| |by exists w'].
  intros i w1 Hi H1. destruct (Hb i w1 Hi) as (w2 & E & H2). exists w2. split; [done|]. by etransitivity.
Qed.

Lemma program_ring_noc nt px py ring w : 0 <= ring < NUM_NOCS -> phys_on_grid px py -> nt_wf nt -> only_noc (program_ring nt px py ring w) w.
Proof.
  intros Hr Hg [Wx Wy _ _ Wl]. pose proof Hg as [Hx Hy]. destruct (phys_x_to_noc px ring Hr Hx) as (Ex & Rx & _). destruct (phys_y_to_noc py ring Hr Hy) as (Ey & Ry & _).
  destruct (pack_table_spec _ Wx) as (qx & Px & Lx & _). destruct (pack_table_spec _ Wy) as (qy & Py & Ly & _).
  destruct (setup_noc ring px py w Hr Hg) as (b & w1 & Es & H1 & Hcfg). destruct (Wl (ring_x px ring) (ring_y py ring)) as (v & Ev & _); [done|].
  unfold program_ring. rewrite Px, Py. cbn [mbind option_bind]. rewrite Ex, Ey. cbn [mbind option_bind]. rewrite Es. cbn [mbind option_bind].
  rewrite Ev. cbn [mbind option_bind]. rewrite Lx.
  set (w2 := if negb (translate_en nt) then _ else w1).
  assert (H2 : noc_writes w w2) by (unfold w2; destruct (negb _); [apply Hcfg; [unfold NIU_CFG_0; lia|done]|done]).
  set (regs := GetTlbWindowAddr ring 0 b) in *.
  match goal with |- context [for_loop 6 0 ?body ?w0] => set (w3 := w0); set (f := body) end.
  assert (H3 : noc_writes w w3).
  { unfold w3. repeat (apply Hcfg; [unfold NOC_ID_LOGICAL, NOC_ID_TRANSLATE_ROW_MASK, NOC_ID_TRANSLATE_COL_MASK, DDR_COORD_TRANSLATE_TABLE; lia|]). exact H2. }
  destruct (for_loop_inv (fun _ w' => noc_writes w w') 6 0 f w3) as (w4 & E4 & H4); [done| |].
  - intros i w' Hi Hw'. unfold f. destruct (aget_in qx i) as (vx & Hvx); [lia|]. destruct (aget_in qy i) as (vy & Hvy); [lia|].
    rewrite Hvx, Hvy. cbn [mbind option_bind]. eexists. split; [done|]. unfold NOC_X_ID_TRANSLATE_TABLE, NOC_Y_ID_TRANSLATE_TABLE. do 2 (apply Hcfg; [lia|]). done.
  - rewrite E4. cbn [mbind option_bind]. destruct (translate_en nt); eexists; (split; [done|]); [apply Hcfg; [unfold NIU_CFG_0; lia|done]|done].
Qed.

Lemma program_tile_noc nt0 nt1 px py w : phys_on_grid px py -> nt_wf nt0 -> nt_wf nt1 ->
  only_noc (ProgramNocTranslationSingleTile [nt0; nt1] (ring_x px 0) (ring_y py 0) w) w.
Proof.
  intros Hg W0 W1. pose proof Hg as [Hx Hy]. assert (R0 : 0 <= 0 < NUM_NOCS) by (unfold NUM_NOCS; lia).
  destruct (phys_x_to_noc px 0 R0 Hx) as (_ & _ & Ex). destruct (phys_y_to_noc py 0 R0 Hy) as (_ & _ & Ey).
  unfold ProgramNocTranslationSingleTile. rewrite Ex, Ey. cbn [mbind option_bind]. apply for_loop_noc. intros i w1 Hi. change (0 + Z.of_nat (Z.to_nat NUM_NOCS)) with NUM_NOCS in Hi.
  pose proof (ring_cases i Hi) as Hc. destruct Hc as [-> | ->].
  - change (aget [nt0; nt1] 0) with (Some nt0). cbn [mbind option_bind]. by apply program_ring_noc.
  - change (aget [nt0; nt1] 1) with (Some nt1). cbn [mbind option_bind]. by apply program_ring_noc.
Qed.

Lemma overlay_noc px py w : phys_on_grid px py -> only_noc (EnableOverlayCg kTlbIndex px py w) w.
Proof.
  intros Hg. pose proof Hg as [Hx Hy]. assert (R0 : 0 <= 0 < NUM_NOCS) by (unfold NUM_NOCS; lia).
  destruct (phys_x_to_noc px 0 R0 Hx) as (Ex & _). destruct (phys_y_to_noc py 0 R0 Hy) as (Ey & _).
  unfold EnableOverlayCg, OverlayRegsBase. destruct (niu_regs_base px py 0 R0 Hg) as (b & Hb & _). unfold NiuRegsBase in Hb.
  destruct (GetNodeType px py) as [t|]; [|done]. cbn [mbind option_bind].
  assert (Hz : forall x, x = 0 \/ x = NOC_OVERLAY_START_ADDR -> only_noc (if negb (x =? 0) then
      PhysXToNoc px 0 ≫= (fun x0 => PhysYToNoc py 0 ≫= (fun y => let w := NOC2AXITlbSetup 0 kTlbIndex x0 y x w in
        let reg := u32 (GetTlbWindowAddr 0 kTlbIndex x + 4 * 35) in Some (WriteReg reg (Z.lor (ReadReg reg w) (Z.shiftl 1 0)) w))) else Some w) w).
  { intros x [-> | ->]; [by eexists|]. rewrite Ex, Ey. cbn [Z.eqb negb mbind option_bind]. eexists. split; [done|].
    apply noc_write_then; [|apply tlb_setup_noc; [done|done|reflexivity]]. vm_compute. done. }
  destruct t; apply Hz; auto.
Qed.

Lemma init_tile_noc te cf cg px py w : phys_on_grid px py -> only_noc (NocInitSingleTile te cf cg (ring_x px 0) (ring_y py 0) w) w.
Proof.
  intros Hg. pose proof Hg as [Hx Hy]. assert (R0 : 0 <= 0 < NUM_NOCS) by (unfold NUM_NOCS; lia).
  destruct (phys_x_to_noc px 0 R0 Hx) as (_ & _ & Ex). destruct (phys_y_to_noc py 0 R0 Hy) as (_ & _ & Ey).
  unfold NocInitSingleTile. rewrite Ex, Ey. cbn [mbind option_bind]. cbv zeta.
  match goal with |- context [for_loop ?n ?lo ?f w] => destruct (for_loop_noc n lo f w) as (w1 & E1 & H1) end.
  - intros i w1 Hi. change (0 + Z.of_nat (Z.to_nat NUM_NOCS)) with NUM_NOCS in Hi. destruct (setup_noc i px py w1 Hi Hg) as (b & w2 & Es & H2 & Hcfg).
    rewrite Es. cbn [mbind option_bind]. eexists. split; [done|]. do 2 (apply Hcfg; [unfold ROUTER_CFG, NIU_CFG_0; lia|]). done.
  - rewrite E1. cbn [mbind option_bind]. destruct cg; [|by exists w1]. destruct (overlay_noc px py w1 Hg) as (w2 & E2 & H2). exists w2. split; [done|]. by etransitivity.
Qed.

Lemma clock_gate_noc x y gate w : on_grid x y -> only_noc (SetSingleTileClockGate x y gate w) w.
Proof.
  intros [Hx Hy]. assert (R0 : 0 <= 0 < NUM_NOCS) by (unfold NUM_NOCS; lia).
  assert (Hpx : exists px, NocToPhysX x 0 = Some px /\ 0 <= px < NOC_X_SIZE).
  { assert (Hall : Forall (fun x => exists px, NocToPhysX x 0 = Some px /\ 0 <= px < NOC_X_SIZE) (seqZ 0 NOC_X_SIZE)).
    { unfold NocToPhysX, NOC_X_SIZE. cbn. repeat constructor; eexists; (split; [reflexivity|lia]). }
    rewrite Forall_forall in Hall. apply Hall, elem_of_seqZ. lia. }
  assert (Hpy : exists py, NocToPhysY y 0 = Some py /\ 0 <= py < NOC_Y_SIZE).
  { assert (Hall : Forall (fun y => exists py, NocToPhysY y 0 = Some py /\ 0 <= py < NOC_Y_SIZE) (seqZ 0 NOC_Y_SIZE)).
    { unfold NocToPhysY, NOC_Y_SIZE. cbn. repeat constructor; eexists; (split; [reflexivity|lia]). }
    rewrite Forall_forall in Hall. apply Hall, elem_of_seqZ. lia. }
  destruct Hpx as (px & Ex & Rx), Hpy as (py & Ey & Ry). assert (Hg : phys_on_grid px py) by done.
  destruct (niu_regs_base px py 0 R0 Hg) as (b & Hb & _). unfold SetSingleTileClockGate, SetupNiuTlb. rewrite Ex, Ey. cbn [mbind option_bind]. rewrite Hb. cbn [mbind option_bind].
  eexists. split; [done|]. unfold WriteNocCfgReg. apply noc_write_then; [by apply (cfg_range 0 px py)|]. apply tlb_setup_noc; [done|done|reflexivity].
Qed.

Lemma arc_translate_noc b w : noc_writes w (write_arc_translate_en b w).
Proof. unfold write_arc_translate_en. do 2 (apply noc_write_then; [vm_compute; done|]). reflexivity. Qed.

Lemma soft_reset_noc n w : noc_writes w (soft_reset_node n w).
Proof. apply window_write_noc; [done|]. apply tlb_setup_noc; [done|done|reflexivity]. Qed.
Lemma enable_cg_noc cg tr x y w : noc_writes w (EnableTensixCG cg tr false x y w).
Proof. unfold EnableTensixCG. destruct cg; [reflexivity|]. do 4 (apply window_write_noc; [done|]). apply tlb_setup_noc; [done|done|reflexivity]. Qed.
Lemma inject_noc tr i t x y w : noc_writes w (tensix_inject_instruction tr i t false x y w).
Proof. unfold tensix_inject_instruction. do 6 (apply window_write_noc; [done|]). apply tlb_setup_noc; [done|done|reflexivity]. Qed.
End over_noc.

(** ** The reset of one tile *)

(** Around the banks of the Tensix: the AICLK interlock; which lines have ever [fell] from
    released to asserted; and whether a line was ever driven without the interlock
    ([bare]).  What goes over the NOC touches none of it. *)
Class ResetLaws (W : Type) `{NocHw W} `{ResetHw W} `{!ResetUnit W} := {
  interlock : W -> bool;
  fell : W -> Z -> Z -> bool;
  bare : W -> bool;
  law_noc_write a v w : 0x80050000 <= a < 2 ^ 32 ->
    let w' := WriteReg a v w in
    (forall b, in_unit b -> ReadReg b w' = ReadReg b w) /\ interlock w' = interlock w /\ bare w' = bare w /\
    forall b i, fell w' b i = fell w b i;
  law_bank a v w : 0x80030020 <= a < 0x80030060 -> is_u32 v ->
    let w' := WriteReg a v w in
    interlock w' = interlock w /\ bare w' = bare w || negb (interlock w) /\
    forall b i, fell w' b i = fell w b i || ((b =? a) && line w b i && negb (Z.testbit v i));
  law_interlock b w :
    let w' := SetAiclkResetSafe b w in
    (forall a, in_unit a -> ReadReg a w' = ReadReg a w) /\ interlock w' = b /\ bare w' = bare w /\ forall a i, fell w' a i = fell w a i
}.

Section single.
Context {W : Type} `{ResetLaws W} (cfg : reset_config).

(** Nothing of the reset unit and around it has changed. *)
Definition calm (w w' : W) : Prop :=
  (forall b, in_unit b -> ReadReg b w' = ReadReg b w) /\ interlock w' = interlock w /\ bare w' = bare w /\ forall b i, fell w' b i = fell w b i.
#[export] Instance calm_preorder : PreOrder calm.
Proof.
  split; [done|]. intros w1 w2 w3 (A & B & C & D) (A' & B' & C' & D'). split_and!; [intros b Hb; by rewrite A', A|congruence|congruence|].
  intros b i. by rewrite D', D.
Qed.
Lemma noc_calm w w' : noc_writes w w' -> calm w w'.
Proof. induction 1 as [w|w w1 w' (a & v & Ha & ->) _ IH]; [reflexivity|]. etransitivity; [|exact IH]. by apply law_noc_write. Qed.
Lemma calm_line w w' a i : calm w w' -> in_unit a -> line w' a i = line w a i.
Proof. intros (E & _) Ha. unfold line. by rewrite E. Qed.

(** The line of the tile [k] in the bank at [start]. *)
Definition bank_of (start k : Z) : Z := start + k / 32 * 4.
Definition is_line (start k a i : Z) : bool := (a =? bank_of start k) && (i =? k mod 32).

Lemma line_of_other_tile start k k' : 0 <= k -> 0 <= k' -> is_line start k (bank_of start k') (k' mod 32) = (k =? k').
Proof.
  intros Hk Hk'. unfold is_line, bank_of.
  destruct (Z.eqb_spec (start + k' / 32 * 4) (start + k / 32 * 4)), (Z.eqb_spec (k' mod 32) (k mod 32)), (Z.eqb_spec k k'); try done; exfalso;
    subst; Z.to_euclidean_division_equations; lia.
Qed.

(** A step that drives the line of tile [k] in the bank at [start] to [level]. *)
Definition drove (level : bool) (start k : Z) (w w' : W) : Prop :=
  interlock w' = interlock w /\ bare w' = bare w || negb (interlock w) /\
  (forall a i, in_unit a -> 0 <= i < 32 -> line w' a i = if is_line start k a i then level else line w a i) /\
  (forall a i, in_unit a -> 0 <= i < 32 -> fell w' a i = fell w a i || (is_line start k a i && line w a i && negb level)).

Definition tensix_bank (dev : tt_bh_reset_config) : Prop := dev = tensix_reset \/ dev = tensix_risc_reset.

Lemma bank_write dev level k w v : tensix_bank dev -> 0 <= k < 140 -> is_u32 v ->
  (forall i, 0 <= i < 32 -> Z.testbit v i = if i =? k mod 32 then level else line w (bank_of (base dev) k) i) ->
  drove level (base dev) k w (WriteReg (bank_of (base dev) k) v w).
Proof.
  intros Hd Hk Hv Hbits. assert (Hr : 0x80030020 <= bank_of (base dev) k < 0x80030060).
  { unfold bank_of. assert (0 <= k / 32 <= 4) by (Z.to_euclidean_division_equations; lia). destruct Hd as [-> | ->]; cbn [base tensix_reset tensix_risc_reset]; lia. }
  assert (Hu : in_unit (bank_of (base dev) k)) by (left; lia).
  destruct (law_bank _ v w Hr Hv) as (I & B & F). split_and!; [exact I|exact B| |].
  - intros a i Ha Hi. unfold line at 1. rewrite reg_write by done. unfold is_line. destruct (Z.eqb_spec a (bank_of (base dev) k)) as [->|]; cbn [andb]; [|done].
    by apply Hbits.
  - intros a i Ha Hi. rewrite F. unfold is_line. destruct (Z.eqb_spec a (bank_of (base dev) k)) as [->|]; cbn [andb]; [|done]. rewrite Hbits by done.
    destruct (Z.eqb_spec i (k mod 32)); cbn [andb]; [done|]. by rewrite andb_negb_r.
Qed.

Lemma bank_valid dev k : tensix_bank dev -> 0 <= k < 140 ->
  tt_bh_reset_is_valid_offset dev (k / 32 * TT_BH_RESET_BANK_STRIDE) = true /\ Z.land (BIT (k mod 32)) (reset_mask dev) = BIT (k mod 32) /\ 0 < BIT (k mod 32) < 2 ^ 32.
Proof.
  intros Hd Hk. assert (Hm : 0 <= k mod 32 < 32) by (apply Z.mod_pos_bound; lia).
  assert (Hb : 0 < BIT (k mod 32) < 2 ^ 32) by (unfold BIT; rewrite Z.shiftl_1_l; split; [apply Z.pow_pos_nonneg; lia|apply Z.pow_lt_mono_r; lia]).
  split_and!; [| |lia|lia].
  - unfold tt_bh_reset_is_valid_offset. apply andb_true_iff. rewrite Z.ltb_lt, Z.eqb_eq. change TT_BH_RESET_BANK_STRIDE with 4. rewrite Z.mod_mul by done.
    assert (0 <= k / 32 <= 4) by (Z.to_euclidean_division_equations; lia). split; [|done]. destruct Hd as [-> | ->]; cbn [size tensix_reset tensix_risc_reset]; lia.
  - assert (reset_mask dev = Z.ones 32) as -> by (by destruct Hd as [-> | ->]). rewrite Z.land_ones by done. apply Z.mod_small. lia.
Qed.

Lemma assert_drove dev k w : tensix_bank dev -> 0 <= k < 140 ->
  drove false (base dev) k w (reset_tt_bh_lines_assert dev (k / 32 * TT_BH_RESET_BANK_STRIDE) (BIT (k mod 32)) w).2.
Proof.
  intros Hd Hk. destruct (bank_valid dev k Hd Hk) as (Ev & El & Hb). unfold reset_tt_bh_lines_assert. rewrite Ev, El. cbn [negb orb].
  rewrite (proj2 (Z.eqb_neq _ 0)) by lia. cbn [snd]. change TT_BH_RESET_BANK_STRIDE with 4. fold (bank_of (base dev) k).
  assert (Hu : in_unit (bank_of (base dev) k)).
  { left. unfold bank_of. assert (0 <= k / 32 <= 4) by (Z.to_euclidean_division_equations; lia). destruct Hd as [-> | ->]; cbn [base tensix_reset tensix_risc_reset]; lia. }
  apply bank_write; [done|done|apply u32_ldiff; [by apply reg_u32|lia]|]. intros i Hi. rewrite Z.ldiff_spec, bit_BIT, Z.eqb_sym by (lia || (apply Z.mod_pos_bound; lia)).
  fold (line w (bank_of (base dev) k) i). destruct (_ =? _); cbn [negb]; [apply andb_false_r|apply andb_true_r].
Qed.
Lemma deassert_drove dev k w : tensix_bank dev -> 0 <= k < 140 ->
  drove true (base dev) k w (reset_tt_bh_lines_deassert dev (k / 32 * TT_BH_RESET_BANK_STRIDE) (BIT (k mod 32)) w).2.
Proof.
  intros Hd Hk. destruct (bank_valid dev k Hd Hk) as (Ev & El & Hb). unfold reset_tt_bh_lines_deassert. rewrite Ev, El. cbn [negb orb].
  rewrite (proj2 (Z.eqb_neq _ 0)) by lia. cbn [snd]. change TT_BH_RESET_BANK_STRIDE with 4. fold (bank_of (base dev) k).
  assert (Hu : in_unit (bank_of (base dev) k)).
  { left. unfold bank_of. assert (0 <= k / 32 <= 4) by (Z.to_euclidean_division_equations; lia). destruct Hd as [-> | ->]; cbn [base tensix_reset tensix_risc_reset]; lia. }
  apply bank_write; [done|done|apply u32_lor; [by apply reg_u32|unfold in_width; lia]|]. intros i Hi. rewrite Z.lor_spec, bit_BIT, Z.eqb_sym by (lia || (apply Z.mod_pos_bound; lia)).
  fold (line w (bank_of (base dev) k) i). destruct (_ =? _); [apply orb_true_r|apply orb_false_r].
Qed.

(** *** Which tile *)

Lemma find_coord_spec coord x n : forall i, (forall j, i <= j < i + Z.of_nat n -> exists c, coord j = Some c) ->
  exists r, find_coord coord n i x = Some r /\ ((i <= r < i + Z.of_nat n /\ coord r = Some x) \/
    (r = 0xFF /\ forall j, i <= j < i + Z.of_nat n -> coord j <> Some x)).
Proof.
  induction n as [|n IH]; intros i Hc; cbn [find_coord]; [exists 0xFF; split; [done|]; right; split; [done|lia]|].
  destruct (Hc i) as [c Ec]; [lia|]. rewrite Ec. cbn [mbind option_bind]. destruct (Z.eqb_spec c x) as [->|Hne].
  - exists i. split; [done|]. left. split; [lia|done].
  - destruct (IH (i + 1)) as (r & Er & Hr); [intros j Hj; apply Hc; lia|]. exists r. split; [done|].
    destruct Hr as [[Hr E]|[-> Hall]]; [left; split; [lia|done]|]. right. split; [done|]. intros j Hj.
    destruct (Z.eq_dec j i) as [->|]; [congruence|apply Hall; lia].
Qed.

Definition tile_column (x : Z) (c : Z) : Prop := 0 <= c < NUM_TENSIX_X /\ TensixPhysXToNoc c 0 = Some x.
Definition tile_row (y : Z) (r : Z) : Prop := 0 <= r < NUM_TENSIX_Y /\ TensixPhysYToNoc r 0 = Some y.

Lemma column_spec x : exists c, NocToTensixPhysX x 0 = Some c /\ ((tile_column x c /\ x = ring_x (c + 1) 0) \/ (c = 0xFF /\ forall c', ~ tile_column x c')).
Proof.
  assert (R0 : 0 <= 0 < NUM_NOCS) by (unfold NUM_NOCS; lia).
  assert (Hc : forall c, 0 <= c < NUM_TENSIX_X -> TensixPhysXToNoc c 0 = Some (ring_x (c + 1) 0)).
  { intros c Hc. unfold NUM_TENSIX_X in Hc. unfold TensixPhysXToNoc. rewrite wrap_small by (unfold in_width; lia). apply phys_x_to_noc; [done|unfold NOC_X_SIZE; lia]. }
  destruct (find_coord_spec (fun i => TensixPhysXToNoc i 0) x (Z.to_nat NUM_TENSIX_X) 0) as (c & Ec & Hr).
  { intros j Hj. change (0 + Z.of_nat (Z.to_nat NUM_TENSIX_X)) with NUM_TENSIX_X in Hj. eauto. }
  change (0 + Z.of_nat (Z.to_nat NUM_TENSIX_X)) with NUM_TENSIX_X in Hr. exists c. split; [exact Ec|]. destruct Hr as [[Hr E]|[-> Hall]].
  - left. split; [done|]. rewrite Hc in E by done. congruence.
  - right. split; [done|]. intros c' [Hc' E]. by apply (Hall c').
Qed.
Lemma row_spec y : exists r, NocToTensixPhysY y 0 = Some r /\ ((tile_row y r /\ y = ring_y (r + 2) 0) \/ (r = 0xFF /\ forall r', ~ tile_row y r')).
Proof.
  assert (R0 : 0 <= 0 < NUM_NOCS) by (unfold NUM_NOCS; lia).
  assert (Hc : forall r, 0 <= r < NUM_TENSIX_Y -> TensixPhysYToNoc r 0 = Some (ring_y (r + 2) 0)).
  { intros r Hr. unfold NUM_TENSIX_Y in Hr. unfold TensixPhysYToNoc. rewrite wrap_small by (unfold in_width; lia). apply phys_y_to_noc; [done|unfold NOC_Y_SIZE; lia]. }
  destruct (find_coord_spec (fun i => TensixPhysYToNoc i 0) y (Z.to_nat NUM_TENSIX_Y) 0) as (r & Er & Hr).
  { intros j Hj. change (0 + Z.of_nat (Z.to_nat NUM_TENSIX_Y)) with NUM_TENSIX_Y in Hj. eauto. }
  change (0 + Z.of_nat (Z.to_nat NUM_TENSIX_Y)) with NUM_TENSIX_Y in Hr. exists r. split; [exact Er|]. destruct Hr as [[Hr E]|[-> Hall]].
  - left. split; [done|]. rewrite Hc in E by done. congruence.
  - right. split; [done|]. intros r' [Hr' E]. by apply (Hall r').
Qed.

Lemma logical_defined nt x y : nt_wf nt -> on_grid x y -> exists px py, NocLogicalToPhysical nt x y = Some (px, py).
Proof.
  intros [[Lx _] [Ly _] _ _ _] [Hx Hy]. unfold NocLogicalToPhysical. unfold NOC_X_SIZE, NOC_Y_SIZE in *.
  destruct (aget_in (translate_table_x nt) x) as [a ->]; [lia|]. destruct (aget_in (translate_table_y nt) y) as [b ->]; [lia|].
  destruct (_ && _); cbn [mbind option_bind]; destruct (_ && _); cbn [mbind option_bind]; eauto.
Qed.

(** What the reset of tile [k] leaves: both its lines released and everything else of the
    reset unit as before; both lines, and no other, fell since; the interlock is off
    again and was on whenever a line moved. *)
Definition tile_reset (k : Z) (w w' : W) : Prop :=
  (forall a i, in_unit a -> 0 <= i < 32 -> line w' a i = line w a i || is_line (base tensix_reset) k a i || is_line (base tensix_risc_reset) k a i) /\
  (forall a i, in_unit a -> 0 <= i < 32 ->
     fell w' a i = fell w a i || ((is_line (base tensix_reset) k a i || is_line (base tensix_risc_reset) k a i) && line w a i)) /\
  interlock w' = false /\ bare w' = bare w.

(** The four movements, with the NOC's traffic between them. *)
Lemma tile_reset_steps k w w1 w2 w3 w4 w5 w6 w7 w8 : 
  calm (SetAiclkResetSafe true w) w1 -> drove false (base tensix_risc_reset) k w1 w2 -> drove false (base tensix_reset) k w2 w3 ->
  drove true (base tensix_reset) k w3 w4 -> calm w4 w5 -> drove true (base tensix_risc_reset) k w5 w6 -> w7 = SetAiclkResetSafe false w6 -> calm w7 w8 ->
  tile_reset k w w8.
Proof.
  intros C1 (I2 & B2 & L2 & F2) (I3 & B3 & L3 & F3) (I4 & B4 & L4 & F4) C5 (I6 & B6 & L6 & F6) -> C8.
  destruct (law_interlock true w) as (R0 & I0 & B0 & F0). destruct (law_interlock false w6) as (R7 & I7 & B7 & F7).
  pose proof C1 as (_ & I1 & B1 & F1). pose proof C5 as (_ & I5 & B5 & F5). pose proof C8 as (_ & I8 & B8 & F8).
  assert (L1 : forall a i, in_unit a -> line w1 a i = line w a i).
  { intros a i Ha. rewrite (calm_line _ _ a i C1 Ha). unfold line. by rewrite R0. }
  assert (L8 : forall a i, in_unit a -> line w8 a i = line w6 a i).
  { intros a i Ha. rewrite (calm_line _ _ a i C8 Ha). unfold line. by rewrite R7. }
  assert (Hon : interlock w1 = true) by congruence. rewrite Hon in *. rewrite I2 in *. rewrite I3 in *. rewrite I4 in *. rewrite I5 in *.
  assert (Hne : forall a i, is_line (base tensix_reset) k a i && is_line (base tensix_risc_reset) k a i = false).
  { intros a i. unfold is_line, bank_of. cbn [base tensix_reset tensix_risc_reset]. destruct (Z.eqb_spec a (0x80030020 + k / 32 * 4)), (Z.eqb_spec a (0x80030040 + k / 32 * 4)); cbn; try done; [lia|]. by rewrite andb_false_r. }
  split_and!.
  - intros a i Ha Hi. rewrite L8, L6, (calm_line _ _ a i C5), L4, L3, L2, L1 by done. specialize (Hne a i).
    destruct (is_line (base tensix_reset) k a i), (is_line (base tensix_risc_reset) k a i); try done; by rewrite ?orb_true_r, ?orb_false_r.
  - intros a i Ha Hi. rewrite F8, F7, F6, F5, F4, F3, F2, F1, F0 by done. rewrite L3, L2, L1, (calm_line _ _ a i C5), L4, L3, L2, L1 by done. specialize (Hne a i).
    destruct (is_line (base tensix_reset) k a i), (is_line (base tensix_risc_reset) k a i); try done; cbn; rewrite ?andb_false_r, ?andb_true_r, ?orb_false_r; done.
  - congruence.
  - rewrite B8, B7, B6, B5, B4, B3, B2, B1, B0. cbn. by rewrite !orb_false_r.
Qed.

(** C26: the host's request to reset one Tensix tile, by its logical coordinates on the
    grid.  It returns.  Coordinates that do not lead to a Tensix tile are refused with
    nothing changed.  Otherwise the tile is found through the translation tables, and
    exactly its two lines are pulsed: they end released, all other lines of the reset
    unit never moved, the AICLK interlock was on while they did and is off again; the
    tables and flags of the firmware stay. *)
Theorem toggle_single_tensix_reset_ok lx ly s nt0 nt1
    (Hgrid : on_grid lx ly) (Ht : translation (noc s) = [nt0; nt1]) (Hwf0 : nt_wf nt0) (Hwf1 : nt_wf nt1) :
  exists px py, NocLogicalToPhysical nt0 lx ly = Some (px, py) /\
    (((forall c, ~ tile_column px c) \/ (forall r, ~ tile_row py r)) /\ ToggleSingleTensixReset cfg lx ly s = Some ((1, 1), s) \/
     exists c r s', tile_column px c /\ tile_row py r /\ ToggleSingleTensixReset cfg lx ly s = Some ((0, 0), s') /\
       tile_reset (10 * c + r) (hw_of s) (hw_of s') /\ translation (noc s') = translation (noc s) /\
       noc_translation_enabled (noc s') = noc_translation_enabled (noc s) /\ cable_fault_mode s' = cable_fault_mode s /\ error_status0 s' = error_status0 s).
Proof.
  destruct (logical_defined nt0 lx ly Hwf0 Hgrid) as (px & py & Ep). exists px, py. split; [done|]. unfold ToggleSingleTensixReset. rewrite Ht.
  change (aget [nt0; nt1] 0) with (Some nt0). cbn [mbind option_bind]. rewrite Ep. cbn [mbind option_bind].
  destruct (column_spec px) as (c & Ec & Hc). destruct (row_spec py) as (r & Er & Hr). rewrite Ec, Er. cbn [mbind option_bind].
  destruct Hc as [[Hc Ex]|[-> Hc]]; [|left; split; [by left|done]].
  destruct Hr as [[Hr Ey]|[-> Hr]]; [|left; split; [by right|by rewrite orb_true_r]].
  right. pose proof Hc as [Hc14 _]. pose proof Hr as [Hr10 _]. unfold NUM_TENSIX_X, NUM_TENSIX_Y in *. rewrite !(proj2 (Z.leb_gt _ _)) by lia. cbn [orb].
  rewrite (wrap_small 8) by (unfold in_width; lia). set (k := 10 * c + r). assert (Hk : 0 <= k < 140) by lia.
  assert (Hg : phys_on_grid (c + 1) (r + 2)) by (unfold phys_on_grid, NOC_X_SIZE, NOC_Y_SIZE; lia).
  destruct s as [n cf e]. cbn [noc] in Ht. unfold on_hw, on_noc, hw_of. cbn [noc cable_fault_mode error_status0 mbind option_bind set_hw hw translation noc_translation_enabled].
  set (w := hw n). set (w1 := SetAiclkResetSafe true w).
  set (w2 := (reset_tt_bh_lines_assert tensix_risc_reset _ _ w1).2). pose proof (assert_drove tensix_risc_reset k w1 ltac:(by right) Hk : drove _ _ _ _ w2) as D2.
  set (w3 := (reset_tt_bh_lines_assert tensix_reset _ _ w2).2). pose proof (assert_drove tensix_reset k w2 ltac:(by left) Hk : drove _ _ _ _ w3) as D3.
  set (w4 := (reset_tt_bh_lines_deassert tensix_reset _ _ w3).2). pose proof (deassert_drove tensix_reset k w3 ltac:(by left) Hk : drove _ _ _ _ w4) as D4.
  pose proof (arc_translate_noc false w4) as N5. set (w5 := write_arc_translate_en false w4) in *.
  cbn [DisableArcNocTranslation set_hw hw translation noc_translation_enabled]. fold w5. rewrite Ht.
  destruct (init_tile_noc (tile_enable cfg) cf (cg_en cfg) (c + 1) (r + 2) w5 Hg) as (w6 & E6 & N6). rewrite Ex, Ey, E6. cbn [mbind option_bind].
  destruct (program_tile_noc nt0 nt1 (c + 1) (r + 2) w6 Hg Hwf0 Hwf1) as (w7 & E7 & N7). rewrite E7. cbn [mbind option_bind].
  set (w8 := EnableTensixCG (cg_en cfg) (noc_translation_enabled n) false (ring_x (c + 1) 0) (ring_y (r + 2) 0) w7).
  pose proof (enable_cg_noc (cg_en cfg) (noc_translation_enabled n) (ring_x (c + 1) 0) (ring_y (r + 2) 0) w7 : noc_writes w7 w8) as N8.
  pose proof (soft_reset_noc (ring_x (c + 1) 0, ring_y (r + 2) 0) w8) as N9. set (w9 := soft_reset_node _ w8) in *.
  unfold RestoreArcNocTranslation. change (translation (set_hw w9 _)) with (translation n). rewrite Ht. change (aget [nt0; nt1] 0) with (Some nt0). cbn [mbind option_bind].
  set (n10 := if translate_en nt0 then _ else _).
  assert (Hn10 : noc_writes w9 (hw n10) /\ translation n10 = translation n /\ noc_translation_enabled n10 = noc_translation_enabled n).
  { unfold n10. destruct (translate_en nt0); cbn; [split; [apply arc_translate_noc|done]|done]. }
  clearbody n10. destruct Hn10 as (N10 & T10 & En10). rewrite Ht in T10.
  cbn [noc cable_fault_mode error_status0 mbind option_bind set_hw hw translation noc_translation_enabled].
  set (w11 := (reset_tt_bh_lines_deassert tensix_risc_reset (k / 32 * TT_BH_RESET_BANK_STRIDE) (BIT (k mod 32)) (hw n10)).2). pose proof (deassert_drove tensix_risc_reset k (hw n10) ltac:(by right) Hk : drove _ _ _ _ w11) as D11.
  set (w12 := SetAiclkResetSafe false w11).
  pose proof (inject_noc (noc_translation_enabled n10) TENSIX_INSTRUCTION_UNPACR 0 lx ly w12) as N13. set (w13 := tensix_inject_instruction (noc_translation_enabled n10) TENSIX_INSTRUCTION_UNPACR 0 false lx ly w12) in *.
  assert (N5' : noc_writes w4 (hw n10)).
  { do 5 (etransitivity; [|eassumption]). exact N5. }
  assert (Hsteps : forall w14, noc_writes w13 w14 -> tile_reset k w w14).
  { intros w14 N14. eapply (tile_reset_steps k w w1 w2 w3 w4 (hw n10) w11 w12 w14); [reflexivity|exact D2|exact D3|exact D4|by apply noc_calm|exact D11|done|].
    apply noc_calm. by etransitivity. }
  exists c, r. destruct (negb (tensix_power cfg)).
  - destruct (clock_gate_noc lx ly true w13 Hgrid) as (w14 & E14 & N14). rewrite E14. cbn [mbind option_bind]. eexists. split; [by rewrite <- Ex|]. split; [by rewrite <- Ey|]. split; [reflexivity|].
    cbn. split; [by apply Hsteps|]. by rewrite ?T10, ?En10, ?Ht.
  - eexists. split; [by rewrite <- Ex|]. split; [by rewrite <- Ey|]. split; [reflexivity|]. cbn. split; [by apply Hsteps|]. by rewrite ?T10, ?En10, ?Ht.
Qed.
End single.

(** ** The resets of start-up *)

(** Around the lines at start-up: the scratch registers and the PLLs leave the lines alone;
    [plls] of them feed the tiles, and [rushed] says whether a line was ever written
    while one of those was not bypassed. *)
Class BootLaws (W : Type) `{NocHw W} `{ResetHw W} := {
  plls : Z;
  bypassed : W -> Z -> bool;
  rushed : W -> bool;
  law_scratch a v w : a = STATUS_POST_CODE_REG_ADDR \/ a = STATUS_ERROR_STATUS0_REG_ADDR ->
    let w' := WriteReg a v w in
    (forall b, in_unit b \/ b = DMC_CABLE_POWER_LIMIT_REG_ADDR -> ReadReg b w' = ReadReg b w) /\ rushed w' = rushed w;
  law_bypass i w :
    let w' := pll_bypass i w in
    (forall b, in_unit b -> ReadReg b w' = ReadReg b w) /\ rushed w' = rushed w /\ forall j, bypassed w' j = (j =? i) || bypassed w j;
  law_init_state i w :
    let w' := pll_init_state i w in (forall b, in_unit b -> ReadReg b w' = ReadReg b w) /\ rushed w' = rushed w;
  law_noc_boot a v w : 0x80050000 <= a < 2 ^ 32 ->
    let w' := WriteReg a v w in (forall b, in_unit b -> ReadReg b w' = ReadReg b w) /\ rushed w' = rushed w;
  law_unit_write a v w : in_unit a -> (forall j, 0 <= j < plls -> bypassed w j = true) ->
    let w' := WriteReg a v w in rushed w' = rushed w /\ forall j, bypassed w' j = bypassed w j
}.

Section boot.
Context {W : Type} `{BootLaws W} `{!ResetUnit W} (cfg : reset_config).

(** The registers of a controller's banks. *)
Definition is_bank (dev : tt_bh_reset_config) (a : Z) : bool := existsb (fun k => a =? base dev + k * TT_BH_RESET_BANK_STRIDE) (seqZ 0 TENSIX_NUM_RESET_BANKS).

(** The lines after [DeassertTileResets] and [DeassertRiscvResets], from those before. *)
Definition after_tiles (a i : Z) (before : bool) : bool :=
  if a =? base global_reset then Z.testbit TT_BH_GLOBAL_RESET_MASK i
  else if a =? base eth_reset then i <? 14
  else if a =? base ddr_reset then i <? 8
  else if a =? base l2cpu_reset then i <? 4
  else is_bank tensix_reset a || before.
Definition after_riscv (a i : Z) (before : bool) : bool :=
  before || is_bank tensix_risc_reset a || ((a =? base eth_reset) && (16 <=? i) && (i <? 30)) || ((a =? base ddr_reset) && (8 <=? i)).

Definition slow (w : W) : Prop := forall j, 0 <= j < plls -> bypassed w j = true.

(** The lines go through [g], with all clocks slow if they were. *)
Definition moves (g : Z -> Z -> bool -> bool) (w w' : W) : Prop :=
  (forall a i, in_unit a -> 0 <= i < 32 -> line w' a i = g a i (line w a i)) /\ (slow w -> rushed w' = rushed w /\ slow w').

Lemma moves_then g1 g2 w w1 w2 : moves g1 w w1 -> moves g2 w1 w2 -> moves (fun a i b => g2 a i (g1 a i b)) w w2.
Proof.
  intros [L1 S1] [L2 S2]. split; [intros a i Ha Hi; by rewrite L2, L1|]. intros Hs. destruct (S1 Hs) as [R1 H1']. destruct (S2 H1') as [R2 H2]. split; [congruence|done].
Qed.
Lemma moves_ext g g' w w' : (forall a i b, 0 <= i < 32 -> g a i b = g' a i b) -> moves g w w' -> moves g' w w'.
Proof. intros Hg [L S]. split; [|done]. intros a i Ha Hi. by rewrite <- Hg, L. Qed.

Lemma unit_slow a v w : in_unit a -> slow w -> rushed (WriteReg a v w) = rushed w /\ slow (WriteReg a v w).
Proof. intros Ha Hs. destruct (law_unit_write a v w Ha Hs) as [R B]. split; [done|]. intros j Hj. rewrite B. by apply Hs. Qed.

Lemma write_moves dev v w : wf_config dev -> is_u32 v ->
  moves (fun a i b => if a =? base dev then Z.testbit v i else b) w (reset_tt_bh_write dev v w).2.
Proof.
  intros (Hb & Hs & Hp & _) Hv. assert (Hu : in_unit (base dev)) by (left; lia). split; [|by apply unit_slow].
  intros a i Ha Hi. unfold line. cbn [snd reset_tt_bh_write]. rewrite reg_write by done. by destruct (a =? base dev).
Qed.
Lemma lines_moves (assert : bool) dev offset mask w : wf_config dev -> tt_bh_reset_is_valid_offset dev offset = true -> 0 <= offset -> 0 <= mask ->
  Z.land mask (reset_mask dev) <> 0 ->
  moves (fun a i b => if (a =? base dev + offset) && Z.testbit (Z.land mask (reset_mask dev)) i then negb assert else b) w
    ((if assert then reset_tt_bh_lines_assert else reset_tt_bh_lines_deassert) dev offset mask w).2.
Proof.
  intros Hwf Hv Ho Hm Hne. pose proof Hwf as (Hb & Hs & Hp & Hr). pose proof Hv as [Hv1%Z.ltb_lt _]%andb_true_iff.
  assert (Hu : in_unit (base dev + offset)) by (left; lia). split.
  - destruct assert.
    + pose proof (lines_assert_ok dev offset mask w Hwf Ho Hm) as K. destruct (reset_tt_bh_lines_assert _ _ _ _) as [rc w'].
      destruct K as [[_ D]|(_ & _ & [E|E])]; [exact D|congruence|congruence].
    + pose proof (lines_deassert_ok dev offset mask w Hwf Ho Hm) as K. destruct (reset_tt_bh_lines_deassert _ _ _ _) as [rc w'].
      destruct K as [[_ D]|(_ & _ & [E|E])]; [exact D|congruence|congruence].
  - intros Hs'. destruct assert; unfold reset_tt_bh_lines_assert, reset_tt_bh_lines_deassert; rewrite Hv; cbn [negb orb];
      rewrite (proj2 (Z.eqb_neq _ 0)) by done; by apply unit_slow.
Qed.

Lemma deassert_moves dev offset mask w : wf_config dev -> tt_bh_reset_is_valid_offset dev offset = true -> 0 <= offset -> 0 <= mask ->
  Z.land mask (reset_mask dev) <> 0 ->
  moves (fun a i b => if (a =? base dev + offset) && Z.testbit (Z.land mask (reset_mask dev)) i then true else b) w (reset_tt_bh_lines_deassert dev offset mask w).2.
Proof. exact (lines_moves false dev offset mask w). Qed.

Lemma banks_moves (assert : bool) dev w : tensix_bank dev ->
  moves (fun a i b => if is_bank dev a then negb assert else b) w
    (all_banks (fun offset => (if assert then reset_tt_bh_lines_assert else reset_tt_bh_lines_deassert) dev offset UINT32_MAX) w).
Proof.
  intros Hd. unfold all_banks, for_each, is_bank.
  assert (Hl : Forall (fun k => 0 <= k < 8) (seqZ 0 TENSIX_NUM_RESET_BANKS)).
  { apply Forall_forall. intros k Hk%elem_of_seqZ. change (0 + TENSIX_NUM_RESET_BANKS) with 8 in Hk. lia. }
  revert w. induction Hl as [|k l Hk _ IH]; intros w; cbn [fold_left existsb]; [split; [done|]; done|].
  assert (Hwf : wf_config dev) by (destruct Hd as [-> | ->]; by vm_compute).
  assert (Hsz : size dev = 32) by (by destruct Hd as [-> | ->]).
  assert (Hrm : Z.land UINT32_MAX (reset_mask dev) = Z.ones 32) by (by destruct Hd as [-> | ->]).
  eapply moves_ext; [|eapply moves_then; [apply (lines_moves assert dev (k * TT_BH_RESET_BANK_STRIDE) UINT32_MAX w Hwf)|apply IH]].
  - intros a i b Hi. cbn beta. rewrite Hrm, Z.ones_spec_low, andb_true_r by lia. destruct (a =? _), (existsb _ l); done.
  - unfold tt_bh_reset_is_valid_offset. rewrite Hsz. change TT_BH_RESET_BANK_STRIDE with 4. rewrite Z.mod_mul by done. rewrite (proj2 (Z.ltb_lt _ _)) by lia. done.
  - change TT_BH_RESET_BANK_STRIDE with 4. lia.
  - done.
  - by rewrite Hrm.
Qed.

Lemma banks_released dev w : tensix_bank dev ->
  moves (fun a i b => is_bank dev a || b) w (all_banks (fun offset => reset_tt_bh_lines_deassert dev offset UINT32_MAX) w).
Proof. intros Hd. eapply moves_ext; [|exact (banks_moves false dev w Hd)]. intros a i b _. cbn beta. by destruct (is_bank dev a). Qed.

(** What leaves the lines alone. *)
Lemma keeps_moves w w' : (forall b, in_unit b -> ReadReg b w' = ReadReg b w) -> (slow w -> rushed w' = rushed w /\ slow w') -> moves (fun _ _ b => b) w w'.
Proof. intros K S. split; [|exact S]. intros a i Ha Hi. unfold line. by rewrite K. Qed.

(** Every PLL on the list is bypassed. *)
Lemma bypass_all l w : let w' := fold_left (fun w i => pll_bypass i w) l w in
  (forall b, in_unit b -> ReadReg b w' = ReadReg b w) /\ rushed w' = rushed w /\ forall j, j ∈ l \/ bypassed w j = true -> bypassed w' j = true.
Proof.
  revert w. induction l as [|k l IH]; intros w; cbn [fold_left].
  - split_and!; [done|done|]. intros j [Hj|Hj]; [by apply elem_of_nil in Hj|done].
  - destruct (IH (pll_bypass k w)) as (R & Ru & B). destruct (law_bypass k w) as (R' & Ru' & B'). split_and!.
    + intros b Hb. by rewrite R, R'.
    + congruence.
    + intros j Hj. apply B. rewrite B'. destruct Hj as [[->|Hj]%elem_of_cons|Hj]; [right; by rewrite Z.eqb_refl|by left|right; by rewrite Hj, orb_true_r].
Qed.
Lemma init_state_all l w : let w' := fold_left (fun w i => pll_init_state i w) l w in
  (forall b, in_unit b -> ReadReg b w' = ReadReg b w) /\ rushed w' = rushed w.
Proof.
  revert w. induction l as [|k l IH]; intros w; cbn [fold_left]; [done|].
  destruct (IH (pll_init_state k w)) as (R & Ru). destruct (law_init_state k w) as (R' & Ru'). split; [intros b Hb; by rewrite R, R'|congruence].
Qed.

(** The cable is at fault when the DMC left its mark, and no power. *)
Definition cable_bad (w : W) : bool :=
  negb (is_ubb cfg) && (Z.land (ReadReg DMC_CABLE_POWER_LIMIT_REG_ADDR w) CABLE_POWER_LIMIT_MAGIC_MASK =? CABLE_POWER_LIMIT_MAGIC) &&
  (Z.land (ReadReg DMC_CABLE_POWER_LIMIT_REG_ADDR w) CABLE_POWER_LIMIT_VALUE_MASK =? 0).

Lemma check_cable_ok s : let s' := check_cable cfg s in
  (forall b, in_unit b -> ReadReg b (hw_of s') = ReadReg b (hw_of s)) /\ rushed (hw_of s') = rushed (hw_of s) /\
  cable_fault_mode s' = cable_fault_mode s || cable_bad (hw_of s) /\
  error_status0 s' = if cable_bad (hw_of s) then Z.lor (error_status0 s) (BIT (stage_bit INIT_STAGE_CABLE_FAULT)) else error_status0 s.
Proof.
  unfold check_cable, cable_bad. destruct (is_ubb cfg); cbn [negb andb]; [by rewrite orb_false_r|].
  destruct (_ =? CABLE_POWER_LIMIT_MAGIC); cbn [andb]; [|by rewrite orb_false_r].
  destruct (_ =? 0); [|by rewrite orb_false_r]. unfold record_init_failure. change (INIT_STAGE_COUNT <=? stage_bit INIT_STAGE_CABLE_FAULT) with false.
  destruct (law_scratch STATUS_ERROR_STATUS0_REG_ADDR (Z.lor (error_status0 s) (BIT (stage_bit INIT_STAGE_CABLE_FAULT))) (hw_of s) ltac:(by right)) as [R Ru].
  cbn. rewrite orb_true_r. split_and!; [intros b Hb; apply R; by left|exact Ru|done|done].
Qed.

Lemma post_kept step w : let w' := SetPostCode POST_CODE_SRC_CMFW step w in
  (forall b, in_unit b -> ReadReg b w' = ReadReg b w) /\ rushed w' = rushed w /\ cable_bad w' = cable_bad w.
Proof.
  unfold SetPostCode, cable_bad. match goal with |- context [WriteReg _ ?v w] => destruct (law_scratch STATUS_POST_CODE_REG_ADDR v w ltac:(by left)) as [R Ru] end.
  rewrite !R by (by right). split_and!; [|done|done]. intros b Hb. apply R. by left.
Qed.

(** The writes of [DeassertTileResets]. *)
Lemma tiles_move w : moves after_tiles w
  (reset_tt_bh_write l2cpu_reset TT_BH_L2CPU_TILE_MASK (reset_tt_bh_write ddr_reset TT_BH_DDR_TILE_MASK
    (all_banks (fun offset => reset_tt_bh_lines_deassert tensix_reset offset UINT32_MAX)
      (reset_tt_bh_write eth_reset TT_BH_ETH_TILE_MASK (reset_tt_bh_write global_reset TT_BH_GLOBAL_RESET_MASK w).2).2)).2).2.
Proof.
  eapply moves_ext; [|eapply moves_then; [|eapply moves_then; [|eapply moves_then; [|eapply moves_then]]]].
  2: apply (write_moves global_reset TT_BH_GLOBAL_RESET_MASK); [by vm_compute|by vm_compute].
  2: apply (write_moves eth_reset TT_BH_ETH_TILE_MASK); [by vm_compute|by vm_compute].
  2: apply (banks_released tensix_reset); by left.
  2: apply (write_moves ddr_reset TT_BH_DDR_TILE_MASK); [by vm_compute|by vm_compute].
  2: apply (write_moves l2cpu_reset TT_BH_L2CPU_TILE_MASK); [by vm_compute|by vm_compute].
  intros a i b Hi. cbn beta. unfold after_tiles. change (base global_reset) with 0x80030000. change (base eth_reset) with 0x80030008.
  change (base ddr_reset) with 0x80030010. change (base l2cpu_reset) with 0x80030014.
  change TT_BH_ETH_TILE_MASK with (Z.ones 14). change TT_BH_DDR_TILE_MASK with (Z.ones 8). change TT_BH_L2CPU_TILE_MASK with (Z.ones 4).
  rewrite !testbit_ones_in by lia.
  assert (Hb : forall x, x < 0x80030020 -> is_bank tensix_reset x = false).
  { intros x Hx. unfold is_bank. change (seqZ 0 TENSIX_NUM_RESET_BANKS) with [0; 1; 2; 3; 4; 5; 6; 7]. unfold TT_BH_RESET_BANK_STRIDE. cbn [existsb base tensix_reset].
    by rewrite !(proj2 (Z.eqb_neq _ _)) by lia. }
  destruct (Z.eqb_spec a 0x80030000) as [->|]; [by rewrite (Hb 0x80030000)|]. destruct (Z.eqb_spec a 0x80030008) as [->|]; [by rewrite (Hb 0x80030008)|].
  destruct (Z.eqb_spec a 0x80030010) as [->|]; [done|]. destruct (Z.eqb_spec a 0x80030014) as [->|]; [done|]. by destruct (is_bank tensix_reset a).
Qed.

(** The writes of [DeassertRiscvResets]. *)
Lemma riscv_move w : moves after_riscv w
  (reset_tt_bh_lines_deassert ddr_reset 0 TT_BH_DDR_RISC_MASK (reset_tt_bh_lines_deassert eth_reset 0 TT_BH_ETH_RISC_MASK
    (all_banks (fun offset => reset_tt_bh_lines_deassert tensix_risc_reset offset UINT32_MAX) w)).2).2.
Proof.
  eapply moves_ext; [|eapply moves_then; [|eapply moves_then]].
  2: apply (banks_released tensix_risc_reset); by right.
  2: apply (deassert_moves eth_reset 0 TT_BH_ETH_RISC_MASK); by vm_compute.
  2: apply (deassert_moves ddr_reset 0 TT_BH_DDR_RISC_MASK); by vm_compute.
  intros a i b Hi. cbn beta. unfold after_riscv. rewrite !Z.add_0_r.
  change (Z.land TT_BH_ETH_RISC_MASK (reset_mask eth_reset)) with (Z.shiftl (Z.ones 14) 16). change (Z.land TT_BH_DDR_RISC_MASK (reset_mask ddr_reset)) with (Z.shiftl (Z.ones 24) 8).
  rewrite !Z.shiftl_spec by lia.
  assert (Ho : forall n k, 0 <= n -> Z.testbit (Z.ones n) (i - k) = (k <=? i) && (i <? k + n)).
  { intros n k Hn. rewrite Z.testbit_ones by lia. destruct (Z.leb_spec 0 (i - k)), (Z.leb_spec k i), (Z.ltb_spec (i - k) n), (Z.ltb_spec i (k + n)); try lia; done. }
  rewrite !Ho by lia. change (16 + 14) with 30. change (8 + 24) with 32. rewrite (proj2 (Z.ltb_lt i 32)) by lia. rewrite andb_true_r. cbn [negb].
  destruct (a =? base ddr_reset), (a =? base eth_reset), (is_bank tensix_risc_reset a), (8 <=? i), (16 <=? i), (i <? 30), b; done.
Qed.

(** The last word on a line after both steps, in the two modes. *)
Definition after_boot (fault : bool) (a i : Z) (before : bool) : bool :=
  if fault then after_tiles a i before else after_riscv a i (after_tiles a i before).

Lemma deassert_tiles_ok s : CONFIG_ARC cfg = true -> num_plls cfg = plls ->
  let s1 := (DeassertTileResets cfg s).2 in
  (forall a i, in_unit a -> 0 <= i < 32 -> line (hw_of s1) a i = after_tiles a i (line (hw_of s) a i)) /\
  rushed (hw_of s1) = rushed (hw_of s) /\ cable_fault_mode s1 = cable_fault_mode s || cable_bad (hw_of s) /\
  error_status0 s1 = (if cable_bad (hw_of s) then Z.lor (error_status0 s) (BIT (stage_bit INIT_STAGE_CABLE_FAULT)) else error_status0 s).
Proof.
  intros Harc Hn. unfold DeassertTileResets. rewrite Harc. cbn [negb].
  destruct (post_kept POST_CODE_ARC_INIT_STEP3 (hw_of s)) as (R1 & Ru1 & C1). set (s1 := on_hw (SetPostCode _ _) s).
  destruct (check_cable_ok s1) as (R2 & Ru2 & F2 & E2). set (s2 := check_cable cfg s1) in *.
  change (hw_of s1) with (SetPostCode POST_CODE_SRC_CMFW POST_CODE_ARC_INIT_STEP3 (hw_of s)) in *. rewrite C1 in F2, E2.
  destruct (bypass_all (seqZ 0 (num_plls cfg)) (hw_of s2)) as (R3 & Ru3 & B3). set (w3 := fold_left _ _ _) in *.
  assert (Hs : slow w3) by (intros j Hj; apply B3; left; apply elem_of_seqZ; lia).
  destruct (tiles_move w3) as [L S]. destruct (S Hs) as [Ru4 _]. split_and!.
  - intros a i Ha Hi. unfold on_hw, hw_of at 1. cbn [snd noc set_hw hw]. etransitivity; [apply L; done|]. f_equal. unfold line. by rewrite R3, R2, R1.
  - etransitivity; [exact Ru4|]. by rewrite Ru3, Ru2, Ru1.
  - exact F2.
  - exact E2.
Qed.

Lemma deassert_riscv_ok s : CONFIG_ARC cfg = true -> CONFIG_TT_SMC_RECOVERY cfg = false -> num_plls cfg = plls ->
  let s1 := (DeassertRiscvResets cfg s).2 in
  (forall a i, in_unit a -> 0 <= i < 32 -> line (hw_of s1) a i = if cable_fault_mode s then line (hw_of s) a i else after_riscv a i (line (hw_of s) a i)) /\
  rushed (hw_of s1) = rushed (hw_of s) /\ cable_fault_mode s1 = cable_fault_mode s /\ error_status0 s1 = error_status0 s.
Proof.
  intros Harc Hrec Hn. unfold DeassertRiscvResets. rewrite Harc, Hrec. cbn [negb orb].
  destruct (post_kept POST_CODE_ARC_INIT_STEP7 (hw_of s)) as (R1 & Ru1 & _). set (w1 := SetPostCode _ _ (hw_of s)) in *.
  change (cable_fault_mode (on_hw _ s)) with (cable_fault_mode s). destruct (cable_fault_mode s) eqn:Ef.
  - split_and!; [intros a i Ha Hi; unfold line; cbn; fold w1; by rewrite R1|exact Ru1|exact Ef|done].
  - destruct (bypass_all (seqZ 0 (num_plls cfg)) w1) as (R3 & Ru3 & B3). set (w3 := fold_left _ _ w1) in *.
    assert (Hs : slow w3) by (intros j Hj; apply B3; left; apply elem_of_seqZ; lia).
    destruct (riscv_move w3) as [L S]. destruct (S Hs) as [Ru4 _]. set (w4 := (reset_tt_bh_lines_deassert ddr_reset _ _ _).2) in *.
    destruct (init_state_all (seqZ 0 (num_plls cfg)) w4) as (R5 & Ru5). split_and!; [|etransitivity; [exact Ru5|congruence]|exact Ef|done].
    intros a i Ha Hi. transitivity (line w4 a i); [unfold line; cbn; unfold for_each; fold w1; fold w3; fold w4; by rewrite R5|].
    rewrite L by done. f_equal. unfold line. by rewrite R3, R1.
Qed.

(** C27: the resets of start-up.  [DeassertTileResets] releases the tiles and holds every
    RISC core of the Ethernet and GDDR tiles, and those of the Tensix as they were;
    the rest of start-up may do anything that leaves the lines alone; then
    [DeassertRiscvResets] releases the cores.  A cable that brings no power is noticed, goes
    into the error status, and keeps the cores held.  No line is ever written
    while a clock of the tiles is fast. *)
Theorem boot_resets_ok s s2 (Harc : CONFIG_ARC cfg = true) (Hrec : CONFIG_TT_SMC_RECOVERY cfg = false) (Hn : num_plls cfg = plls)
  (Hlines : forall a i, in_unit a -> 0 <= i < 32 -> line (hw_of s2) a i = line (hw_of (DeassertTileResets cfg s).2) a i)
  (Hrush : rushed (hw_of s2) = rushed (hw_of (DeassertTileResets cfg s).2))
  (Hmode : cable_fault_mode s2 = cable_fault_mode (DeassertTileResets cfg s).2) :
  let s3 := (DeassertRiscvResets cfg s2).2 in
  let fault := cable_fault_mode s || cable_bad (hw_of s) in
  (forall a i, in_unit a -> 0 <= i < 32 -> line (hw_of s3) a i = after_boot fault a i (line (hw_of s) a i)) /\
  rushed (hw_of s3) = rushed (hw_of s) /\ cable_fault_mode s3 = fault /\
  error_status0 (DeassertTileResets cfg s).2 =
    (if cable_bad (hw_of s) then Z.lor (error_status0 s) (BIT (stage_bit INIT_STAGE_CABLE_FAULT)) else error_status0 s).
Proof.
  destruct (deassert_tiles_ok s Harc Hn) as (L1 & R1 & F1 & E1). destruct (deassert_riscv_ok s2 Harc Hrec Hn) as (L3 & R3 & F3 & _). cbv zeta.
  set (s1 := (DeassertTileResets cfg s).2) in *. split_and!; [|congruence|congruence|exact E1].
  intros a i Ha Hi. rewrite L3 by done. unfold after_boot. rewrite Hmode, F1, Hlines, L1 by done. done.
Qed.

(** *** Between the two steps of start-up *)

Lemma soft_reset_all_noc translated w : noc_writes w (bh_soft_reset_all_tensix translated w).
Proof. unfold bh_soft_reset_all_tensix. apply window_write_noc; [done|]. apply tlb_setup_noc; [done|done|reflexivity]. Qed.

Lemma eth_nodes_defined : Forall (fun i => exists n, GetEthNocCoords i 0 = Some n) (seqZ 0 14).
Proof. cbn. repeat (apply Forall_cons; split; [by eexists|]). by apply Forall_nil. Qed.
Lemma gddr_nodes_defined : Forall (fun i => Forall (fun j => exists n, GetGddrNocCoords i j 0 = Some n) (seqZ 0 3)) (seqZ 0 NUM_GDDR).
Proof. cbn. repeat first [apply Forall_nil_2 | apply Forall_cons_2 | by eexists]. Qed.

Lemma noc_quiet w w' : noc_writes w w' -> (forall b, in_unit b -> ReadReg b w' = ReadReg b w) /\ rushed w' = rushed w.
Proof.
  induction 1 as [w|w w1 w' (a & v & Ha & ->) _ [R Ru]]; [done|]. destruct (law_noc_boot a v w Ha) as [R1 Ru1].
  split; [intros b Hb; by rewrite R, R1|congruence].
Qed.

(** [AssertSoftResets], which runs between them, returns, and is one of the steps that
    [boot_resets_ok] allows. *)
Lemma assert_soft_resets_quiet s : exists s', AssertSoftResets cfg s = Some (0, s') /\
  (forall a i, in_unit a -> line (hw_of s') a i = line (hw_of s) a i) /\ rushed (hw_of s') = rushed (hw_of s) /\
  cable_fault_mode s' = cable_fault_mode s /\ error_status0 s' = error_status0 s /\ translation (noc s') = translation (noc s).
Proof.
  unfold AssertSoftResets. destruct (post_kept POST_CODE_ARC_INIT_STEP6 (hw_of s)) as (R1 & Ru1 & _). set (s1 := on_hw (SetPostCode _ _) s).
  change (SetPostCode POST_CODE_SRC_CMFW POST_CODE_ARC_INIT_STEP6 (hw_of s)) with (hw_of s1) in R1, Ru1.
  assert (Hquiet : (forall a i, in_unit a -> line (hw_of s1) a i = line (hw_of s) a i)) by (intros a i Ha; unfold line; by rewrite R1).
  destruct (_ || _); [by exists s1|]. change (cable_fault_mode s1) with (cable_fault_mode s). destruct (cable_fault_mode s) eqn:Ef; [by exists s1|].
  set (w2 := bh_soft_reset_all_tensix (noc_translation_enabled (noc s1)) (hw_of s1)). change (hw_of (on_hw _ s1)) with w2.
  pose proof (soft_reset_all_noc (noc_translation_enabled (noc s1)) (hw_of s1) : noc_writes _ w2) as N2.
  pose proof eth_nodes_defined as He. rewrite Forall_forall in He. pose proof gddr_nodes_defined as Hg. rewrite Forall_forall in Hg.
  match goal with |- context [for_loop 14 0 ?f w2] => destruct (for_loop_noc 14 0 f w2) as (w3 & -> & N3) end.
  { intros i w Hi. destruct (Z.testbit _ i); [|by exists w]. destruct (He i) as (n & ->); [apply elem_of_seqZ; lia|]. eexists. split; [done|]. apply soft_reset_noc. }
  cbn [mbind option_bind].
  match goal with |- context [for_loop (Z.to_nat NUM_GDDR) 0 ?f w3] => destruct (for_loop_noc (Z.to_nat NUM_GDDR) 0 f w3) as (w4 & -> & N4) end.
  { intros i w Hi. destruct (Z.testbit _ i); [|by exists w]. apply for_loop_noc. intros j w' Hj. specialize (Hg i ltac:(apply elem_of_seqZ; lia)).
    rewrite Forall_forall in Hg. destruct (Hg j) as (n & ->); [apply elem_of_seqZ; change (0 + Z.of_nat (Z.to_nat NUM_MRISC_NOC2AXI_PORT)) with 3 in Hj; lia|].
    eexists. split; [done|]. apply soft_reset_noc. }
  cbn [mbind option_bind]. eexists. split; [reflexivity|].
  destruct (noc_quiet (hw_of s1) w4) as [R4 Ru4]; [by do 2 (etransitivity; [eassumption|])|].
  split_and!; [intros a i Ha; cbn; rewrite <- Hquiet by done; unfold line; by rewrite R4|cbn; congruence|exact Ef|done|done].
Qed.

(** The reset of all Tensix tiles: afterwards all are released, nothing else moved. *)
Lemma toggle_tensix_all s a i : in_unit a -> 0 <= i < 32 ->
  line (hw_of (ToggleTensixReset s).2) a i = is_bank tensix_reset a || line (hw_of s) a i.
Proof.
  intros Ha Hi. destruct (banks_moves true tensix_reset (hw_of s) ltac:(by left)) as [L1 _].
  match type of L1 with forall a i, _ -> _ -> line ?w a i = _ => destruct (banks_released tensix_reset w ltac:(by left)) as [L2 _] end.
  etransitivity; [exact (L2 a i Ha Hi)|]. rewrite L1 by done. by destruct (is_bank tensix_reset a).
Qed.
End boot.

(** ** Coordinates off the grid

    The handlers take what the host sends: a logical column past the tables is read past
    their end, whatever the tables say of the row. *)
Lemma single_reset_unchecked {W} `{NocHw W} `{ResetHw W} cfg lx ly (s : resets W) nt0 nt1 :
  translation (noc s) = [nt0; nt1] -> nt_wf nt0 -> translate_en nt0 = true -> Z.testbit (translate_row_mask nt0) ly = false -> 32 <= lx ->
  ToggleSingleTensixReset cfg lx ly s = None.
Proof.
  intros Ht [[Lx _] _ _ _ _] He Hm Hl. unfold ToggleSingleTensixReset. rewrite Ht. change (aget [nt0; nt1] 0) with (Some nt0). cbn [mbind option_bind].
  unfold NocLogicalToPhysical. rewrite He, Hm. cbn [negb andb].
  assert (aget (translate_table_x nt0) lx = None) as ->; [|done]. apply aget_out. right. lia.
Qed.

(** ** A simulated chip *)

(** The reset unit with its neighbouring scratch registers; the interlock; the lines that
    fell, by register; a write without the interlock; the bypassed PLLs; a write
    with one not bypassed.  Nothing answers on the NOC. *)
Record bench := MkBench {
  b_regs : Z -> Z; b_safe : bool; b_fell : Z -> Z; b_bare : bool; b_slow : Z -> bool; b_rushed : bool }.

Definition bench_unit (a : Z) : bool := (0x80030000 <=? a) && (a <? 0x80031000).
Definition bench_tensix (a : Z) : bool := (0x80030020 <=? a) && (a <? 0x80030060).
Definition bench_lines (a : Z) : bool := (0x80030000 <=? a) && (a <? 0x80030060) || (a =? 0x8003009C) || (a =? 0x8003050C).

#[export] Instance bench_NocHw : NocHw bench := {
  ReadReg a c := if bench_unit a then u32 (b_regs c a) else 0;
  WriteReg a v c :=
    if bench_unit a then
      MkBench (fun b => if b =? a then v else b_regs c b) (b_safe c)
        (fun b => if (b =? a) && bench_tensix a then Z.lor (b_fell c b) (Z.ldiff (u32 (b_regs c a)) v) else b_fell c b)
        (b_bare c || (bench_tensix a && negb (b_safe c))) (b_slow c)
        (b_rushed c || (bench_lines a && negb (forallb (b_slow c) (seqZ 0 5))))
    else c
}.
#[export] Instance bench_ResetHw : ResetHw bench := {
  pll_bypass i c := MkBench (b_regs c) (b_safe c) (b_fell c) (b_bare c) (fun j => (j =? i) || b_slow c j) (b_rushed c);
  pll_init_state i c := MkBench (b_regs c) (b_safe c) (b_fell c) (b_bare c) (fun j => negb (j =? i) && b_slow c j) (b_rushed c);
  SetAiclkResetSafe b c := MkBench (b_regs c) b (b_fell c) (b_bare c) (b_slow c) (b_rushed c)
}.

Lemma bench_in a : in_unit a -> bench_unit a = true /\ bench_lines a = true.
Proof.
  unfold in_unit, bench_unit, bench_lines.
  destruct (Z.leb_spec 0x80030000 a), (Z.ltb_spec a 0x80031000), (Z.ltb_spec a 0x80030060), (Z.eqb_spec a 0x8003009C), (Z.eqb_spec a 0x8003050C); cbn; try lia; done.
Qed.

#[export] Instance bench_reset_unit : ResetUnit bench.
Proof.
  constructor.
  - intros a w [Ha _]%bench_in. unfold ReadReg, bench_NocHw. rewrite Ha. apply u32_range.
  - intros a b v w [Ha _]%bench_in [Hb _]%bench_in Hv. unfold ReadReg, WriteReg, bench_NocHw. rewrite Hb, Ha. cbn.
    destruct (a =? b); [by apply wrap_small|done].
Defined.

#[export] Instance bench_ResetLaws : ResetLaws bench.
Proof.
  refine {| interlock := b_safe; fell := fun c a i => Z.testbit (b_fell c a) i; bare := b_bare |}.
  - intros a v w Ha. unfold WriteReg, bench_NocHw.
    assert (bench_unit a = false) as -> by (unfold bench_unit; apply andb_false_iff; right; apply Z.ltb_ge; lia). done.
  - intros a v w Ha Hv. destruct (bench_in a ltac:(left; lia)) as [Hu _]. unfold WriteReg, bench_NocHw. rewrite Hu. cbn.
    assert (bench_tensix a = true) as Ht by (unfold bench_tensix; apply andb_true_iff; rewrite Z.leb_le, Z.ltb_lt; lia). rewrite Ht. cbn.
    split_and!; [done|done|]. intros b i. rewrite andb_true_r. destruct (Z.eqb_spec b a) as [->|]; cbn; [|by rewrite orb_false_r].
    rewrite Z.lor_spec, Z.ldiff_spec. unfold line, ReadReg. by rewrite Hu.
  - done.
Defined.
#[export] Instance bench_BootLaws : BootLaws bench.
Proof.
  refine {| plls := 5; bypassed := b_slow; rushed := b_rushed |}.
  - intros a v w Ha. assert (Hu : bench_unit a = true) by (by destruct Ha as [-> | ->]). assert (Hl : bench_lines a = false) by (by destruct Ha as [-> | ->]).
    unfold WriteReg, bench_NocHw. rewrite Hu, Hl. cbn [andb orb]. rewrite orb_false_r. split; [|done]. intros b Hb. unfold ReadReg.
    assert (Hn : b <> a). { unfold in_unit in Hb. change DMC_CABLE_POWER_LIMIT_REG_ADDR with 0x80030064 in Hb.
      destruct Ha as [-> | ->]; [change STATUS_POST_CODE_REG_ADDR with 0x80030060|change STATUS_ERROR_STATUS0_REG_ADDR with 0x80030410]; lia. }
    destruct (bench_unit b); [|done]. cbn. by rewrite (proj2 (Z.eqb_neq _ _)).
  - done.
  - done.
  - intros a v w Ha. unfold WriteReg, bench_NocHw.
    assert (bench_unit a = false) as -> by (unfold bench_unit; apply andb_false_iff; right; apply Z.ltb_ge; lia). done.
  - intros a v w [Hu Hl]%bench_in Hs. unfold WriteReg, bench_NocHw. rewrite Hu, Hl. cbn -[seqZ]. split; [|done].
    assert (forallb (b_slow w) (seqZ 0 5) = true) as ->; [|by rewrite orb_false_r]. apply forallb_forall. intros j Hj.
    apply Hs. rewrite <- list_elem_of_In in Hj. apply elem_of_seqZ in Hj. lia.
Defined.

Module ResetExample.
Definition tiles : TileEnable := MkTiles 0x3fef 0x3fff false false 0 0xff 0 0 [] [].
Definition cfg : reset_config := MkResetCfg false true 5 false true true false tiles.
(** The tables of a chip without the Tensix column of physical 5. *)
Definition tables : list NocTranslation :=
  match ComputeNocTranslation 0 0x10 NO_BAD_GDDR 0x3 with Some nt0 => match CopyNoc0ToNoc1 nt0 with Some nt1 => [nt0; nt1] | None => [] end | None => [] end.
Definition state (regs : Z -> Z) : resets bench :=
  MkResets (MkNoc (MkBench regs false (fun _ => 0) false (fun _ => false) false) tables true true (Some false)) false 0.
(** All lines released. *)
Definition running : resets bench := state (fun _ => 0xffffffff).
(** After power-on; the DMC reports no cable power, or no report. *)
Definition cold (fault : bool) : resets bench := state (fun a => if (a =? DMC_CABLE_POWER_LIMIT_REG_ADDR) && fault then CABLE_POWER_LIMIT_MAGIC else 0).
End ResetExample.

Lemma toggle_single_tensix_reset_ok_witness :
  exists px py c r s', tile_column px c /\ tile_row py r /\
    ToggleSingleTensixReset ResetExample.cfg 6 4 ResetExample.running = Some ((0, 0), s') /\
    tile_reset (10 * c + r) (hw_of ResetExample.running) (hw_of s').
Proof.
  destruct (computed_wf 0 0x10 NO_BAD_GDDR 0x3) as (nt0 & nt1 & E0 & E1 & W0 & W1 & _); [lia|by vm_compute; lia|by right|by vm_compute; lia|].
  assert (Ht : translation (noc ResetExample.running) = [nt0; nt1]) by (cbn; unfold ResetExample.tables; by rewrite E0, E1).
  destruct (toggle_single_tensix_reset_ok ResetExample.cfg 6 4 ResetExample.running nt0 nt1) as (px & py & _ & [[_ E]|(c & r & s' & Hc & Hr & E & T & _)]);
    [unfold on_grid, NOC_X_SIZE, NOC_Y_SIZE; lia|exact Ht|exact W0|exact W1|exfalso; vm_compute in E; discriminate|].
  exists px, py, c, r, s'. auto.
Defined.
(** The node is tile 125, line 29 of the fourth banks: those fall, and nothing else.  A node that is no Tensix tile is refused; what is off the grid reads past the tables. *)
Example toggle_single_values :
  (fun r => (r.1, map (b_fell (hw_of r.2)) [0x8003002C; 0x8003004C])) <$> ToggleSingleTensixReset ResetExample.cfg 6 4 ResetExample.running
    = Some ((0, 0), [2 ^ 29; 2 ^ 29]) /\
  fst <$> ToggleSingleTensixReset ResetExample.cfg 8 0 ResetExample.running = Some (1, 1) /\
  ToggleSingleTensixReset ResetExample.cfg 40 4 ResetExample.running = None.
Proof. by vm_compute. Qed.

Lemma boot_resets_ok_witness :
  Forall (fun fault => let s3 := (DeassertRiscvResets ResetExample.cfg (DeassertTileResets ResetExample.cfg (ResetExample.cold fault)).2).2 in
    cable_fault_mode s3 = fault /\ rushed (hw_of s3) = false /\
    forall i, 0 <= i < 32 -> line (hw_of s3) (base ddr_reset) i = after_boot fault (base ddr_reset) i false) [false; true].
Proof.
  apply Forall_forall. intros fault _. set (s := ResetExample.cold fault). set (s2 := (DeassertTileResets ResetExample.cfg s).2).
  destruct (boot_resets_ok ResetExample.cfg s s2) as (L & R & F & _); [reflexivity..|].
  assert (Ef : cable_fault_mode s || cable_bad ResetExample.cfg (hw_of s) = fault) by (by destruct fault; vm_compute). rewrite Ef in L, F.
  split; [exact F|]. split; [rewrite R; by destruct fault|]. intros i Hi. etransitivity; [apply (L (base ddr_reset) i); [left; cbn; lia|done]|].
  reflexivity.
Defined.
