(* ===== verification/Pll.v ===== *)
(** * The PLL library ([lib/tenstorrent/bh_arc/pll.c])

    Start-up of the five PLLs and the rates of the clocks, on the registers that the driver
    of [ClockControl] handles one PLL at a time.  The bit fields, the settings and the
    registers' rules are those of [ClockControl]; [ReadReg] and [WriteReg] are the accesses
    of its class, [WaitUs] and [WaitNs] its delays, and [TimerTimestamp] the counter of the
    50 MHz reference clock. *)

From S2P Require Import Prelude ClockControl.
#[local] Open Scope Z_scope.

(** ** Data *)

Definition REFCLK_F_MHZ : Z := 50.
Definition WAIT_1US : Z := 50.
Definition NS_PER_REFCLK : Z := 20.
Definition PLL_COUNT : Z := 5.
Definition PLL0 : Z := 0.
Definition PLL1 : Z := 1.
Definition PLL3 : Z := 3.
Definition PLL4 : Z := 4.
Definition PLL_0_CNTL_PLL_CNTL_0_REG_ADDR : Z := 0x80020100.
Definition PLL_0_CNTL_PLL_CNTL_1_REG_ADDR : Z := 0x80020104.
Definition PLL_0_CNTL_PLL_CNTL_2_REG_ADDR : Z := 0x80020108.
Definition PLL_0_CNTL_PLL_CNTL_3_REG_ADDR : Z := 0x8002010C.
Definition PLL_0_CNTL_PLL_CNTL_5_REG_ADDR : Z := 0x80020114.
Definition PLL_0_CNTL_USE_POSTDIV_REG_ADDR : Z := 0x8002011C.
Definition PLL_0_CNTL_CLK_COUNTER_EN_REG_ADDR : Z := 0x80020130.
Definition PLL_CNTL_REG_OFFSET : Z := 0x100.
Definition GET_PLL_CNTL_ADDR (ID reg : Z) : Z := reg + PLL_CNTL_REG_OFFSET * ID.

Definition PLLSettings : Type := tt_bh_pll_settings.
(** AICLK; ARCCLK, AXICLK and APBCLK; MACCLK and SECCLK; GDDRMEMCLK; L2CPUCLK. *)
Definition kPLLInitialSettings : list PLLSettings := [
  init_settings_of 2 0 128 0x18 1 (3, 0, 0, 0) (1, 1, 1, 1);
  init_settings_of 2 0 192 0x18 1 (5, 4, 23, 0) (1, 1, 1, 1);
  init_settings_of 2 0 68 0x18 1 (1, 0, 0, 0) (1, 1, 1, 1);
  init_settings_of 2 0 120 0x18 1 (3, 0, 0, 0) (1, 1, 1, 1);
  init_settings_of 2 0 64 0x18 1 (1, 1, 1, 1) (1, 1, 1, 1)].
Definition initial (i : Z) : PLLSettings := default (MkSettings 0 0 0 0 0) (aget kPLLInitialSettings i).

(** The settings that [SetGddrMemClk] starts from. *)
Definition gddr_settings : PLLSettings := init_settings_of 2 0 0 0x18 1 (3, 0, 0, 0) (1, 1, 1, 1).

(** ** Rates *)

Definition GetExtPostdiv (postdiv_index pll_cntl_5 use_postdiv : Z) : option Z :=
  postdiv_value ← (if (0 <=? postdiv_index) && (postdiv_index <=? 3) then Some (postdiv postdiv_index pll_cntl_5) else None);
  if negb (pll_use_postdiv postdiv_index use_postdiv =? 0) then
    Some (if postdiv_value =? 0 then 0
          else if postdiv_value <=? 16 then postdiv_value + 1
          else (postdiv_value + 1) * 2)
  else Some 1.

Definition CalculateFreqFromPllRegs (pll_cntl_1 pll_cntl_5 use_postdiv postdiv_index : Z) : option Z :=
  eff_postdiv ← GetExtPostdiv postdiv_index pll_cntl_5 use_postdiv;
  if eff_postdiv =? 0 then Some 0
  else udiv (u32 (REFCLK_F_MHZ * fbdiv pll_cntl_1)) (u32 (refdiv pll_cntl_1 * eff_postdiv)).

Definition CalculateFbdiv (target_freq_mhz pll_cntl_1 pll_cntl_5 use_postdiv postdiv_index : Z) : option Z :=
  eff_postdiv ← GetExtPostdiv postdiv_index pll_cntl_5 use_postdiv;
  if eff_postdiv =? 0 then Some 0
  else Some (u32 (u32 (target_freq_mhz * refdiv pll_cntl_1) * eff_postdiv) / REFCLK_F_MHZ).

Definition GetVcoFreq (pll_cntl_1 : Z) : option Z := udiv (u32 (REFCLK_F_MHZ * fbdiv pll_cntl_1)) (refdiv pll_cntl_1).

(** ** Operations *)

(** The counter of the reference clock. *)
Class Refclk (W : Type) := { TimerTimestamp : W -> Z * W }.

(** [for (i = 0; i < PLL_COUNT; i++)], over a body that always ends. *)
Definition for_plls {W} (f : Z -> W -> W) (w : W) : W := fold_left (fun w i => f i w) (seqZ 0 PLL_COUNT) w.

Section library.
Context {W : Type} `{PllHw W} `{!Refclk W} (CONFIG_ARC : bool).
Implicit Types (w : W) (pll_num : Z) (pll_settings : PLLSettings).

Definition ReadReg (addr : Z) w : Z * W := sys_read32 addr w.
Definition WriteReg (addr val : Z) w : W := sys_write32 val addr w.

Definition ConfigPLLVco pll_num pll_settings w : W :=
  let w := WriteReg (GET_PLL_CNTL_ADDR pll_num PLL_0_CNTL_PLL_CNTL_1_REG_ADDR) (pll_cntl_1 pll_settings) w in
  let w := WriteReg (GET_PLL_CNTL_ADDR pll_num PLL_0_CNTL_PLL_CNTL_2_REG_ADDR) (pll_cntl_2 pll_settings) w in
  WriteReg (GET_PLL_CNTL_ADDR pll_num PLL_0_CNTL_PLL_CNTL_3_REG_ADDR) (pll_cntl_3 pll_settings) w.

Definition ConfigExtPostDivs pll_num pll_settings w : W :=
  let w := WriteReg (GET_PLL_CNTL_ADDR pll_num PLL_0_CNTL_USE_POSTDIV_REG_ADDR) 0 w in
  let w := WriteReg (GET_PLL_CNTL_ADDR pll_num PLL_0_CNTL_PLL_CNTL_5_REG_ADDR) (pll_cntl_5 pll_settings) w in
  WriteReg (GET_PLL_CNTL_ADDR pll_num PLL_0_CNTL_USE_POSTDIV_REG_ADDR) (use_postdiv pll_settings) w.

(** Whether the lock came is not reported. *)
Fixpoint lock_poll (fuel : nat) (pll_num end_time : Z) w : option W :=
  match fuel with
  | O => None
  | S fuel =>
      let '(val, w) := ReadReg PLL_CNTL_WRAPPER_PLL_LOCK_REG_ADDR w in
      if negb (Z.land val (BIT pll_num) =? 0) then Some w else
      let '(now, w) := TimerTimestamp w in
      if now <? end_time then lock_poll fuel pll_num end_time w else Some w
  end.
Definition WaitPLLLock (fuel : nat) pll_num w : option W :=
  let '(now, w) := TimerTimestamp w in
  lock_poll fuel pll_num (u64 (now + 400 * WAIT_1US)) w.

(** One PLL to the reference clock. *)
Definition to_bypass pll_num w : W :=
  let '(pll_cntl_0, w) := ReadReg (GET_PLL_CNTL_ADDR pll_num PLL_0_CNTL_PLL_CNTL_0_REG_ADDR) w in
  WriteReg (GET_PLL_CNTL_ADDR pll_num PLL_0_CNTL_PLL_CNTL_0_REG_ADDR) (set_bypass 0 pll_cntl_0) w.

Definition PLLAllBypass w : W :=
  let w := for_plls to_bypass w in
  let w := k_busy_wait 3 w in
  for_plls (fun i => WriteReg (GET_PLL_CNTL_ADDR i PLL_0_CNTL_USE_POSTDIV_REG_ADDR) 0) w.

Definition PLLUpdate (fuel : nat) pll pll_settings w : option W :=
  let w := to_bypass pll w in
  let w := k_busy_wait 3 w in
  let pll_cntl_0 := 0 in
  let w := WriteReg (GET_PLL_CNTL_ADDR pll PLL_0_CNTL_PLL_CNTL_0_REG_ADDR) pll_cntl_0 w in
  let w := ConfigPLLVco pll pll_settings w in
  let w := k_busy_wait 5 w in
  let pll_cntl_0 := set_pd 1 pll_cntl_0 in
  let w := WriteReg (GET_PLL_CNTL_ADDR pll PLL_0_CNTL_PLL_CNTL_0_REG_ADDR) pll_cntl_0 w in
  w ← WaitPLLLock fuel pll w;
  let w := ConfigExtPostDivs pll pll_settings w in
  let w := k_busy_wait_ns 300 w in
  let pll_cntl_0 := set_bypass 1 pll_cntl_0 in
  let w := WriteReg (GET_PLL_CNTL_ADDR pll PLL_0_CNTL_PLL_CNTL_0_REG_ADDR) pll_cntl_0 w in
  Some (k_busy_wait_ns 300 w).

Definition enable_clk_counters w : W :=
  let w := WriteReg PLL_CNTL_WRAPPER_REFCLK_PERIOD_REG_ADDR CLK_COUNTER_REFCLK_PERIOD w in
  for_plls (fun i => WriteReg (GET_PLL_CNTL_ADDR i PLL_0_CNTL_CLK_COUNTER_EN_REG_ADDR) 0xff) w.

(** The post code of step 4: [SetPostCode] as in [Reset]. *)
Definition post_step4 w : W := WriteReg 0x80030060 0xc0de0014 w.

Definition PLLInit (fuel : nat) w : option (Z * W) :=
  let w := post_step4 w in
  if negb CONFIG_ARC then Some (0, w) else
  let w := for_plls to_bypass w in
  let w := k_busy_wait 3 w in
  let pll_cntl_0 := 0 in
  let w := for_plls (fun i => WriteReg (GET_PLL_CNTL_ADDR i PLL_0_CNTL_PLL_CNTL_0_REG_ADDR) pll_cntl_0) w in
  let w := for_plls (fun i => ConfigPLLVco i (initial i)) w in
  let w := k_busy_wait 5 w in
  let pll_cntl_0 := set_pd 1 pll_cntl_0 in
  let w := for_plls (fun i => WriteReg (GET_PLL_CNTL_ADDR i PLL_0_CNTL_PLL_CNTL_0_REG_ADDR) pll_cntl_0) w in
  w ← for_loop (Z.to_nat PLL_COUNT) 0 (WaitPLLLock fuel) w;
  let w := for_plls (fun i => ConfigExtPostDivs i (initial i)) w in
  let w := k_busy_wait_ns 300 w in
  let pll_cntl_0 := set_bypass 1 pll_cntl_0 in
  let w := for_plls (fun i => WriteReg (GET_PLL_CNTL_ADDR i PLL_0_CNTL_PLL_CNTL_0_REG_ADDR) pll_cntl_0) w in
  let w := k_busy_wait_ns 300 w in
  Some (0, enable_clk_counters w).

Definition GetFreqFromPll pll_num (postdiv_index : Z) w : option (Z * W) :=
  let '(pll_cntl_1, w) := ReadReg (GET_PLL_CNTL_ADDR pll_num PLL_0_CNTL_PLL_CNTL_1_REG_ADDR) w in
  let '(pll_cntl_5, w) := ReadReg (GET_PLL_CNTL_ADDR pll_num PLL_0_CNTL_PLL_CNTL_5_REG_ADDR) w in
  let '(use_postdiv, w) := ReadReg (GET_PLL_CNTL_ADDR pll_num PLL_0_CNTL_USE_POSTDIV_REG_ADDR) w in
  f ← CalculateFreqFromPllRegs pll_cntl_1 pll_cntl_5 use_postdiv postdiv_index; Some (f, w).
Definition GetAICLK : W -> option (Z * W) := GetFreqFromPll PLL0 0.
Definition GetARCCLK : W -> option (Z * W) := GetFreqFromPll PLL1 0.
Definition GetAXICLK : W -> option (Z * W) := GetFreqFromPll PLL1 1.
Definition GetAPBCLK : W -> option (Z * W) := GetFreqFromPll PLL1 2.
Definition GetL2CPUCLK (l2cpu_num : Z) : W -> option (Z * W) := GetFreqFromPll PLL4 l2cpu_num.

Definition SetGddrMemClk (fuel : nat) (gddr_mem_clk_mhz : Z) w : option (Z * W) :=
  fbdiv_ ← CalculateFbdiv gddr_mem_clk_mhz (pll_cntl_1 gddr_settings) (pll_cntl_5 gddr_settings) (use_postdiv gddr_settings) 0;
  if fbdiv_ =? 0 then Some (-1, w) else
  let pll_settings := set_pll_cntl_1 (set_fbdiv fbdiv_ (pll_cntl_1 gddr_settings)) gddr_settings in
  vco_freq ← GetVcoFreq (pll_cntl_1 pll_settings);
  if negb ((VCO_MIN_FREQ <=? vco_freq) && (vco_freq <=? VCO_MAX_FREQ)) then Some (-1, w) else
  w ← PLLUpdate fuel PLL3 pll_settings w; Some (0, w).

(** The two loops of [SetAICLK]. *)
Fixpoint fbdiv_loop (fuel : nat) (target_fbdiv pll_cntl_1 : Z) w : option W :=
  if fbdiv pll_cntl_1 =? target_fbdiv then Some w else
  match fuel with
  | O => None
  | S fuel =>
      let pll_cntl_1 := set_fbdiv (if fbdiv pll_cntl_1 <? target_fbdiv then fbdiv pll_cntl_1 + 1 else fbdiv pll_cntl_1 - 1) pll_cntl_1 in
      let w := WriteReg (GET_PLL_CNTL_ADDR PLL0 PLL_0_CNTL_PLL_CNTL_1_REG_ADDR) pll_cntl_1 w in
      fbdiv_loop fuel target_fbdiv pll_cntl_1 (k_busy_wait_ns 100 w)
  end.
Fixpoint postdiv_loop (fuel : nat) (target_postdiv pll_cntl_5 : Z) w : option W :=
  if postdiv 0 pll_cntl_5 =? target_postdiv then Some w else
  match fuel with
  | O => None
  | S fuel =>
      let pll_cntl_5 := set_postdiv 0 (if postdiv 0 pll_cntl_5 <? target_postdiv then postdiv 0 pll_cntl_5 + 1 else postdiv 0 pll_cntl_5 - 1) pll_cntl_5 in
      let w := WriteReg (GET_PLL_CNTL_ADDR PLL0 PLL_0_CNTL_PLL_CNTL_5_REG_ADDR) pll_cntl_5 w in
      postdiv_loop fuel target_postdiv pll_cntl_5 (k_busy_wait_ns 100 w)
  end.
Definition SetAICLK (fuel : nat) (aiclk_in_mhz : Z) w : option W :=
  let target_fbdiv := u32 (aiclk_in_mhz * 4) / REFCLK_F_MHZ in
  let target_postdiv := 1 in
  let '(pll_cntl_1, w) := ReadReg (GET_PLL_CNTL_ADDR PLL0 PLL_0_CNTL_PLL_CNTL_1_REG_ADDR) w in
  let '(pll_cntl_5, w) := ReadReg (GET_PLL_CNTL_ADDR PLL0 PLL_0_CNTL_PLL_CNTL_5_REG_ADDR) w in
  w ← fbdiv_loop fuel target_fbdiv pll_cntl_1 w;
  postdiv_loop fuel target_postdiv pll_cntl_5 w.

(** The divider's 8 bits wrap. *)
Definition DropAICLK w : W :=
  let '(pll_cntl_5, w) := ReadReg (GET_PLL_CNTL_ADDR PLL0 PLL_0_CNTL_PLL_CNTL_5_REG_ADDR) w in
  WriteReg (GET_PLL_CNTL_ADDR PLL0 PLL_0_CNTL_PLL_CNTL_5_REG_ADDR) (set_postdiv 0 (postdiv 0 pll_cntl_5 + 10) pll_cntl_5) w.
End library.

(** ** The same arithmetic as the driver's *)

Lemma ext_postdiv_driver i c5 u : GetExtPostdiv i c5 u = clock_control_tt_bh_get_ext_postdiv i c5 u.
Proof. unfold GetExtPostdiv, clock_control_tt_bh_get_ext_postdiv. by destruct (_ && _). Qed.
Lemma fbdiv_driver t c1 c5 u i : CalculateFbdiv t c1 c5 u i = clock_control_tt_bh_calculate_fbdiv REFCLK_F_MHZ t c1 c5 u i.
Proof. unfold CalculateFbdiv, clock_control_tt_bh_calculate_fbdiv. rewrite ext_postdiv_driver. done. Qed.

(** The driver's view of PLL [i], with the start-up settings of this library. *)
Definition pll_config (i : Z) : clock_control_tt_bh_config :=
  MkConfig i REFCLK_F_MHZ (GET_PLL_CNTL_ADDR i PLL_0_CNTL_PLL_CNTL_0_REG_ADDR) (initial i).

Lemma pll_addr i off : GET_PLL_CNTL_ADDR i (PLL_0_CNTL_PLL_CNTL_0_REG_ADDR + off) = base (pll_config i) + off.
Proof. cbn. unfold GET_PLL_CNTL_ADDR. lia. Qed.

Lemma pll_wf i : 0 <= i < PLL_COUNT -> config_wf (pll_config i).
Proof.
  intros Hi. split; [apply cfg_ok_range; cbn; unfold GET_PLL_CNTL_ADDR, PLL_0_CNTL_PLL_CNTL_0_REG_ADDR, PLL_CNTL_REG_OFFSET; lia|done|].
  unfold PLL_COUNT in Hi. assert (i = 0 \/ i = 1 \/ i = 2 \/ i = 3 \/ i = 4) as Hc by lia.
  destruct Hc as [->|[->|[->|[->| ->]]]]; by vm_compute.
Qed.

(** ** The wait for the lock *)

(** The counter counts the time of [PllHwLaws] in steps of 20 ns. *)
Class RefclkLaws (W : Type) `{PllHwLaws W} `{!Refclk W} := {
  ts_value w : (TimerTimestamp w).1 = ns w / NS_PER_REFCLK;
  ts_regs w a : regs (TimerTimestamp w).2 a = regs w a;
  ts_log w : log (TimerTimestamp w).2 = log w;
  ts_ns w : ns w <= ns (TimerTimestamp w).2
}.

Section results.
Context {W : Type} `{RefclkLaws W}.
Implicit Types (w : W).

Lemma did_ts w : did w [] (TimerTimestamp w).2.
Proof. split; [apply ts_log|intros a; apply ts_regs|apply ts_ns]. Qed.

Lemma lock_poll_did fuel i end_time w : end_time * 20 - ns w < Z.of_nat fuel -> (0 < fuel)%nat ->
  exists w', lock_poll fuel i end_time w = Some w' /\ did w [] w'.
Proof.
  revert w. induction fuel as [|fuel IH]; intros w Hf Hp; [lia|]. cbn [lock_poll]. unfold ReadReg.
  pose proof (did_read_raw w PLL_CNTL_WRAPPER_PLL_LOCK_REG_ADDR) as D1. pose proof (read_ns PLL_CNTL_WRAPPER_PLL_LOCK_REG_ADDR w) as N1.
  destruct (sys_read32 PLL_CNTL_WRAPPER_PLL_LOCK_REG_ADDR w) as [val w1]. cbn [snd] in *.
  destruct (negb _); [by exists w1|]. pose proof (did_ts w1) as D2. pose proof (ts_value w1) as V. destruct (TimerTimestamp w1) as [now w2]. cbn [fst snd] in *.
  pose proof (did_app _ _ _ _ _ D1 D2) as D. pose proof (did_ns _ _ _ D2) as N2.
  destruct (Z.ltb_spec now end_time) as [Hlt|_]; [|by exists w2].
  assert (ns w1 < end_time * 20) by (unfold NS_PER_REFCLK in V; Z.to_euclidean_division_equations; lia).
  destruct (IH w2) as (w' & E & D'); [lia|lia|]. exists w'. split; [exact E|]. exact (did_app _ _ _ _ _ D D').
Qed.

(** 400 us, one poll per nanosecond. *)
Definition ref_fuel : Z := 400 * 1000 + 1.

Lemma wait_pll_did fuel i w : ref_fuel <= Z.of_nat fuel -> 0 <= ns w -> exists w', WaitPLLLock fuel i w = Some w' /\ did w [] w'.
Proof.
  intros Hf Hn. unfold WaitPLLLock. pose proof (did_ts w) as D. pose proof (ts_value w) as V. destruct (TimerTimestamp w) as [now w1]. cbn [fst snd] in *.
  unfold ref_fuel, NS_PER_REFCLK in *. pose proof (did_ns _ _ _ D) as N.
  destruct (lock_poll_did fuel i (u64 (now + 400 * WAIT_1US)) w1) as (w' & E & D'); [|lia|exists w'; split; [exact E|exact (did_app _ _ _ _ _ D D')]].
  assert (u64 (now + 400 * WAIT_1US) <= now + 400 * WAIT_1US) by (apply Z.mod_le; [Z.to_euclidean_division_equations; unfold WAIT_1US; lia|done]).
  unfold WAIT_1US in *. Z.to_euclidean_division_equations; lia.
Qed.

(** ** One PLL: the driver's events *)

Lemma to_bypass_did i w : 0 <= i < PLL_COUNT ->
  did w [EvWrite (base (pll_config i)) (set_bypass 0 (regs w (base (pll_config i))))] (to_bypass i w).
Proof.
  intros Hi. unfold to_bypass, ReadReg, WriteReg. change (GET_PLL_CNTL_ADDR i PLL_0_CNTL_PLL_CNTL_0_REG_ADDR) with (base (pll_config i)).
  destruct (cw_addr _ (pll_wf i Hi) 0) as [Hne _]; [done|]. rewrite Z.add_0_r in Hne. rewrite <- (read_value _ w Hne).
  pose proof (did_read_raw w (base (pll_config i))) as D. destruct (sys_read32 _ w) as [v w1]. cbn [fst snd] in *. did_solve.
Qed.

Lemma pll_update_did fuel i s w : 0 <= i < PLL_COUNT -> ref_fuel <= Z.of_nat fuel -> 0 <= ns w ->
  exists w', PLLUpdate fuel i s w = Some w' /\ did w (update_events (pll_config i) s (regs w (base (pll_config i)))) w'.
Proof.
  intros Hi Hf Hn. unfold PLLUpdate. pose proof (to_bypass_did i w Hi) as D0. set (w0 := to_bypass i w) in *. cbv zeta.
  match goal with |- context [WaitPLLLock fuel i ?x] => set (w1 := x) end.
  assert (D1 : did w (restart_events (pll_config i) s (regs w (base (pll_config i)))) w1).
  { unfold w1, ConfigPLLVco, WriteReg. eapply did_eq; [repeat did_step|].
    unfold restart_events. rewrite <- !pll_addr. cbn [app]. by rewrite pll_addr, Z.add_0_r. }
  destruct (wait_pll_did fuel i w1 Hf) as (w2 & -> & D2); [destruct D1; lia|]. cbn [mbind option_bind].
  pose proof (did_app _ _ _ _ _ D1 D2) as D. rewrite app_nil_r in D.
  eexists. split; [reflexivity|]. eapply did_eq; [unfold ConfigExtPostDivs, WriteReg; repeat did_step|].
  unfold update_events. rewrite <- !app_assoc. f_equal. unfold switch_events. cbn [app]. rewrite <- !pll_addr. reflexivity.
Qed.

(** ** All PLLs at once *)

Lemma each_did (f : Z -> W -> W) (ev : Z -> list pll_event) l w :
  (forall i w, did w (ev i) (f i w)) -> did w (concat (map ev l)) (fold_left (fun w i => f i w) l w).
Proof.
  intros Hf. revert w. induction l as [|i l IH]; intros w; cbn [fold_left map concat]; [apply did_nil|].
  exact (did_app _ _ _ _ _ (Hf i w) (IH (f i w))).
Qed.

Lemma bypass_each l w : NoDup l -> Forall (fun i => 0 <= i < PLL_COUNT) l ->
  did w (map (fun i => EvWrite (base (pll_config i)) (set_bypass 0 (regs w (base (pll_config i))))) l) (fold_left (fun w i => to_bypass i w) l w).
Proof.
  intros Hd Hl. revert w Hd. induction Hl as [|i l Hi Hl IH]; intros w Hd; cbn [fold_left map]; [apply did_nil|].
  apply NoDup_cons in Hd as [Hni Hd]. pose proof (to_bypass_did i w Hi) as D1. pose proof (IH (to_bypass i w) Hd) as D2.
  eapply did_eq; [exact (did_app _ _ _ _ _ D1 D2)|]. cbn [app]. f_equal. apply map_ext_in. intros j Hj%list_elem_of_In.
  rewrite (did_regs _ _ _ D1). cbn [replay event_regs]. destruct (Z.eqb_spec (base (pll_config j)) (base (pll_config i))) as [E|]; [|done].
  exfalso. cbn in E. unfold GET_PLL_CNTL_ADDR, PLL_CNTL_REG_OFFSET in E. assert (j = i) by lia. by subst j.
Qed.

(** The events of [PLLInit], from the values of the five control registers. *)
Definition plls : list Z := seqZ 0 PLL_COUNT.
Definition on_each (ev : Z -> list pll_event) : list pll_event := concat (map ev plls).
Definition init_events (cntl_0 : Z -> Z) : list pll_event :=
  [EvWrite 0x80030060 0xc0de0014] ++
  map (fun i => EvWrite (base (pll_config i)) (set_bypass 0 (cntl_0 i))) plls ++
  [EvWait 3000] ++
  on_each (fun i => [EvWrite (GET_PLL_CNTL_ADDR i PLL_0_CNTL_PLL_CNTL_0_REG_ADDR) 0]) ++
  on_each (fun i => [EvWrite (GET_PLL_CNTL_ADDR i PLL_0_CNTL_PLL_CNTL_1_REG_ADDR) (pll_cntl_1 (initial i)); EvWrite (GET_PLL_CNTL_ADDR i PLL_0_CNTL_PLL_CNTL_2_REG_ADDR) (pll_cntl_2 (initial i));
                     EvWrite (GET_PLL_CNTL_ADDR i PLL_0_CNTL_PLL_CNTL_3_REG_ADDR) (pll_cntl_3 (initial i))]) ++
  [EvWait 5000] ++
  on_each (fun i => [EvWrite (GET_PLL_CNTL_ADDR i PLL_0_CNTL_PLL_CNTL_0_REG_ADDR) 2]) ++
  on_each (fun i => [EvWrite (GET_PLL_CNTL_ADDR i PLL_0_CNTL_USE_POSTDIV_REG_ADDR) 0; EvWrite (GET_PLL_CNTL_ADDR i PLL_0_CNTL_PLL_CNTL_5_REG_ADDR) (pll_cntl_5 (initial i));
                     EvWrite (GET_PLL_CNTL_ADDR i PLL_0_CNTL_USE_POSTDIV_REG_ADDR) (use_postdiv (initial i))]) ++
  [EvWait 300] ++
  on_each (fun i => [EvWrite (GET_PLL_CNTL_ADDR i PLL_0_CNTL_PLL_CNTL_0_REG_ADDR) 18]) ++
  [EvWait 300; EvWrite PLL_CNTL_WRAPPER_REFCLK_PERIOD_REG_ADDR CLK_COUNTER_REFCLK_PERIOD] ++
  on_each (fun i => [EvWrite (GET_PLL_CNTL_ADDR i PLL_0_CNTL_CLK_COUNTER_EN_REG_ADDR) 0xff]).

Lemma wait_all_did fuel w : ref_fuel <= Z.of_nat fuel -> 0 <= ns w ->
  exists w', for_loop (Z.to_nat PLL_COUNT) 0 (WaitPLLLock fuel) w = Some w' /\ did w [] w'.
Proof.
  intros Hf Hn. destruct (for_loop_inv (fun _ w' => did w [] w') (Z.to_nat PLL_COUNT) 0 (WaitPLLLock fuel) w) as (w' & E & D); [apply did_nil| |by exists w'].
  intros i w1 _ D1. destruct (wait_pll_did fuel i w1 Hf) as (w2 & E & D2); [destruct D1; lia|]. exists w2. split; [exact E|]. exact (did_app _ _ _ _ _ D1 D2).
Qed.

Lemma write_each reg (v : Z -> Z) w : did w (on_each (fun i => [EvWrite (GET_PLL_CNTL_ADDR i reg) (v i)])) (for_plls (fun i => WriteReg (GET_PLL_CNTL_ADDR i reg) (v i)) w).
Proof. apply (each_did (fun i => WriteReg (GET_PLL_CNTL_ADDR i reg) (v i))). intros i w1. apply did_write. Qed.

Lemma pll_init_did fuel w : ref_fuel <= Z.of_nat fuel -> 0 <= ns w ->
  exists w', PLLInit true fuel w = Some (0, w') /\ did w (init_events (fun i => regs w (base (pll_config i)))) w'.
Proof.
  intros Hf Hn. unfold PLLInit. cbn [negb]. pose proof (did_write w 0xc0de0014 0x80030060) as D0. change (sys_write32 _ _ w) with (post_step4 w) in D0. set (w0 := post_step4 w) in *.
  assert (D1 : did w0 (map (fun i => EvWrite (base (pll_config i)) (set_bypass 0 (regs w (base (pll_config i))))) plls) (for_plls to_bypass w0)).
  { eapply did_eq; [apply bypass_each; [apply NoDup_seqZ|apply Forall_forall; intros i Hi%elem_of_seqZ; lia]|]. apply map_ext_in.
    intros i Hi%list_elem_of_In%elem_of_seqZ. rewrite (did_regs _ _ _ D0). cbn [replay event_regs]. rewrite (proj2 (Z.eqb_neq _ _)); [done|].
    cbn. unfold GET_PLL_CNTL_ADDR, PLL_0_CNTL_PLL_CNTL_0_REG_ADDR, PLL_CNTL_REG_OFFSET, PLL_COUNT in *. lia. }
  set (w1 := for_plls to_bypass w0) in *. pose proof (did_wait w1 3) as D2. set (w2 := k_busy_wait 3 w1) in *.
  pose proof (write_each PLL_0_CNTL_PLL_CNTL_0_REG_ADDR (fun _ => 0) w2) as D3. set (w3 := for_plls _ w2) in *.
  pose proof (each_did (fun i => ConfigPLLVco i (initial i)) (fun i => [EvWrite (GET_PLL_CNTL_ADDR i PLL_0_CNTL_PLL_CNTL_1_REG_ADDR) (pll_cntl_1 (initial i));
    EvWrite (GET_PLL_CNTL_ADDR i PLL_0_CNTL_PLL_CNTL_2_REG_ADDR) (pll_cntl_2 (initial i)); EvWrite (GET_PLL_CNTL_ADDR i PLL_0_CNTL_PLL_CNTL_3_REG_ADDR) (pll_cntl_3 (initial i))]) plls w3) as D4.
  specialize (D4 ltac:(intros i wi; unfold ConfigPLLVco, WriteReg; did_solve)).
  change (fold_left _ plls w3) with (for_plls (fun i => ConfigPLLVco i (initial i)) w3) in D4. set (w4 := for_plls _ w3) in *.
  pose proof (did_wait w4 5) as D5. set (w5 := k_busy_wait 5 w4) in *.
  pose proof (write_each PLL_0_CNTL_PLL_CNTL_0_REG_ADDR (fun _ => 2) w5) as D6. change (set_pd 1 0) with 2. set (w6 := for_plls _ w5) in *.
  destruct (wait_all_did fuel w6 Hf) as (w7 & -> & D7); [destruct D0, D1, D2, D3, D4, D5, D6; lia|]. cbn [mbind option_bind].
  pose proof (each_did (fun i => ConfigExtPostDivs i (initial i)) (fun i => [EvWrite (GET_PLL_CNTL_ADDR i PLL_0_CNTL_USE_POSTDIV_REG_ADDR) 0;
    EvWrite (GET_PLL_CNTL_ADDR i PLL_0_CNTL_PLL_CNTL_5_REG_ADDR) (pll_cntl_5 (initial i)); EvWrite (GET_PLL_CNTL_ADDR i PLL_0_CNTL_USE_POSTDIV_REG_ADDR) (use_postdiv (initial i))]) plls w7) as D8.
  specialize (D8 ltac:(intros i wi; unfold ConfigExtPostDivs, WriteReg; did_solve)).
  change (fold_left _ plls w7) with (for_plls (fun i => ConfigExtPostDivs i (initial i)) w7) in D8. set (w8 := for_plls _ w7) in *.
  pose proof (did_wait_ns w8 300) as D9. set (w9 := k_busy_wait_ns 300 w8) in *.
  pose proof (write_each PLL_0_CNTL_PLL_CNTL_0_REG_ADDR (fun _ => 18) w9) as D10. change (set_bypass 1 2) with 18. set (w10 := for_plls _ w9) in *.
  pose proof (did_wait_ns w10 300) as D11. set (w11 := k_busy_wait_ns 300 w10) in *.
  pose proof (did_write w11 CLK_COUNTER_REFCLK_PERIOD PLL_CNTL_WRAPPER_REFCLK_PERIOD_REG_ADDR) as D12. unfold enable_clk_counters, WriteReg at 1.
  set (w12 := sys_write32 _ _ w11) in *. pose proof (write_each PLL_0_CNTL_CLK_COUNTER_EN_REG_ADDR (fun _ => 0xff) w12) as D13. set (w13 := for_plls _ w12) in *.
  exists w13. split; [done|]. eapply did_eq.
  - exact (did_app _ _ _ _ _ D0 (did_app _ _ _ _ _ D1 (did_app _ _ _ _ _ D2 (did_app _ _ _ _ _ D3 (did_app _ _ _ _ _ D4 (did_app _ _ _ _ _ D5 (did_app _ _ _ _ _ D6
      (did_app _ _ _ _ _ D7 (did_app _ _ _ _ _ D8 (did_app _ _ _ _ _ D9 (did_app _ _ _ _ _ D10 (did_app _ _ _ _ _ D11 (did_app _ _ _ _ _ D12 D13))))))))))))).
  - reflexivity.
Qed.
End results.

(** *** What one PLL sees of it *)

(** Writes to the registers of the PLL at [b], and all waits. *)
Definition own (b : Z) (e : pll_event) : bool :=
  match e with EvWrite a _ => (b <=? a) && (a <? b + PLL_CNTL_REG_OFFSET) | EvWait _ => true end.

Lemma write_ok_agree b r r' waited off v : (forall a, b <= a < b + PLL_CNTL_REG_OFFSET -> r a = r' a) -> write_ok b r waited off v = write_ok b r' waited off v.
Proof.
  intros Hr. unfold PLL_CNTL_REG_OFFSET in Hr.
  assert (E : forall o, 0 <= o < 256 -> r (b + o) = r' (b + o)) by (intros o Ho; apply Hr; lia).
  unfold write_ok. destruct (Z.eqb_spec off PLL_CNTL_0_OFFSET) as [->|].
  { unfold powered, bypassed. cbn [event_regs]. rewrite Z.eqb_refl, !E by (unfold PLL_CNTL_0_OFFSET; lia). done. }
  destruct (Z.eqb_spec off PLL_CNTL_1_OFFSET) as [->|].
  { unfold powered, bypassed. rewrite !E by (unfold PLL_CNTL_0_OFFSET, PLL_CNTL_1_OFFSET; lia). done. }
  unfold powered, bypassed. by rewrite !E by (unfold PLL_CNTL_0_OFFSET, PLL_USE_POSTDIV_OFFSET; lia).
Qed.
Lemma write_ok_foreign b r waited a v : own b (EvWrite a v) = false -> write_ok b r waited (a - b) v = true /\ is_cntl (a - b) = false.
Proof.
  unfold own, write_ok, is_cntl, PLL_CNTL_REG_OFFSET, PLL_CNTL_0_OFFSET, PLL_CNTL_1_OFFSET, PLL_CNTL_2_OFFSET, PLL_CNTL_3_OFFSET, PLL_CNTL_5_OFFSET, PLL_USE_POSTDIV_OFFSET.
  intros Ho. assert (a < b \/ b + 256 <= a) by (destruct (Z.leb_spec b a), (Z.ltb_spec a (b + 256)); try done; lia).
  rewrite !(proj2 (Z.eqb_neq _ _)) by lia. split; [done|].
  destruct (Z.leb_spec 0 (a - b)), (Z.leb_spec (a - b) 28); lia || done.
Qed.

Lemma seq_ok_own b evs : forall r r' waited, (forall a, b <= a < b + PLL_CNTL_REG_OFFSET -> r a = r' a) ->
  seq_ok b r waited evs = seq_ok b r' waited (List.filter (own b) evs).
Proof.
  induction evs as [|[a v|n] evs IH]; intros r r' waited Hr; cbn [List.filter]; [done| |].
  - destruct (own b (EvWrite a v)) eqn:Eo; cbn [seq_ok].
    + rewrite (write_ok_agree b r r') by done. f_equal. apply IH. intros x Hx. cbn [event_regs]. by rewrite (Hr x Hx).
    + destruct (write_ok_foreign b r waited a v Eo) as [-> ->]. apply IH. intros x Hx. cbn [event_regs].
      destruct (Z.eqb_spec x a) as [->|]; [|by apply Hr]. exfalso. unfold own in Eo. rewrite (proj2 (Z.leb_le _ _)), (proj2 (Z.ltb_lt _ _)) in Eo by lia. done.
  - apply IH. done.
Qed.

Lemma replay_own b evs a : b <= a < b + PLL_CNTL_REG_OFFSET -> forall r, replay evs r a = replay (List.filter (own b) evs) r a.
Proof.
  intros Ha. assert (Hext : forall evs r r', r a = r' a -> replay evs r a = replay evs r' a).
  { clear. induction evs as [|e evs IH]; intros r r' E; [done|]. apply IH. destruct e; cbn; [|done]. by rewrite E. }
  induction evs as [|[a' v|n] evs IH]; intros r; [done| |apply IH]. cbn [List.filter]. destruct (own b (EvWrite a' v)) eqn:Eo; cbn [replay]; [apply IH|].
  rewrite <- IH. apply Hext. cbn [event_regs]. destruct (Z.eqb_spec a a') as [<-|]; [|done]. exfalso.
  unfold own in Eo. rewrite (proj2 (Z.leb_le _ _)), (proj2 (Z.ltb_lt _ _)) in Eo by lia. done.
Qed.

(** Each PLL goes through what the driver's initialisation puts it through. *)
Lemma init_events_own i cntl_0 : 0 <= i < PLL_COUNT ->
  List.filter (own (base (pll_config i))) (init_events cntl_0) =
    update_events (pll_config i) (initial i) (cntl_0 i) ++ [EvWrite (base (pll_config i) + CLK_COUNTER_EN_OFFSET) 0xff].
Proof.
  unfold PLL_COUNT. intros Hi. assert (i = 0 \/ i = 1 \/ i = 2 \/ i = 3 \/ i = 4) as Hc by lia.
  destruct Hc as [->|[->|[->|[->| ->]]]]; vm_compute; reflexivity.
Qed.

(** The rates after start-up, in MHz, by PLL and divider. *)
Definition boot_rates : list (list Z) := [[800; 0; 0; 0]; [800; 960; 100; 0]; [850; 0; 0; 0]; [750; 0; 0; 0]; [800; 800; 800; 800]].
Definition boot_rate (i k : Z) : option Z := row ← aget boot_rates i; aget row k.

Section start.
Context {W : Type} `{RefclkLaws W}.
Implicit Types (w : W).

Lemma get_freq_regs i k w : 0 <= i < PLL_COUNT ->
  fst <$> GetFreqFromPll i k w = CalculateFreqFromPllRegs (regs w (base (pll_config i) + PLL_CNTL_1_OFFSET)) (regs w (base (pll_config i) + PLL_CNTL_5_OFFSET))
    (regs w (base (pll_config i) + PLL_USE_POSTDIV_OFFSET)) k.
Proof.
  intros Hi. destruct (read_three (pll_config i) (pll_wf i Hi) w) as (w1 & w2 & w3 & E1 & E2 & E3 & _).
  unfold GetFreqFromPll, ReadReg. unfold clock_control_tt_bh_read_reg in E1, E2, E3.
  change PLL_0_CNTL_PLL_CNTL_1_REG_ADDR with (PLL_0_CNTL_PLL_CNTL_0_REG_ADDR + PLL_CNTL_1_OFFSET).
  change PLL_0_CNTL_PLL_CNTL_5_REG_ADDR with (PLL_0_CNTL_PLL_CNTL_0_REG_ADDR + PLL_CNTL_5_OFFSET).
  change PLL_0_CNTL_USE_POSTDIV_REG_ADDR with (PLL_0_CNTL_PLL_CNTL_0_REG_ADDR + PLL_USE_POSTDIV_OFFSET).
  rewrite !pll_addr, E1, E2, E3. by destruct (CalculateFreqFromPllRegs _ _ _ _).
Qed.

End start.

(** ** One clock at a time *)

Section clocks.
Context {W : Type} `{RefclkLaws W}.
Implicit Types (w : W).

(** The same settings, through the library and through the driver: the same events. *)
Lemma update_like_driver fuel i s d w : 0 <= i < PLL_COUNT -> lock_fuel <= Z.of_nat fuel -> 0 <= ns w ->
  exists w1 w2 evs, PLLUpdate fuel i s w = Some w1 /\ clock_control_tt_bh_update fuel (pll_config i) s d w = Some (set_settings s d, w2) /\
    did w evs w1 /\ did w evs w2.
Proof.
  intros Hi Hf Hn. destruct (pll_update_did fuel i s w Hi) as (w1 & E1 & D1); [unfold ref_fuel; unfold lock_fuel, PLL_LOCK_TIMEOUT_MS in Hf; lia|done|].
  destruct (update_did (pll_config i) (pll_wf i Hi) fuel Hf s d w Hn) as (w2 & E2 & D2).
  rewrite Z.add_0_r in D2. exists w1, w2, (update_events (pll_config i) s (regs w (base (pll_config i)))). auto.
Qed.

(** The memory clock: the request is refused with nothing changed, or PLL 3 goes through a
    full restart and its clock is the request rounded down. *)
Lemma set_gddr_mem_clk_ok fuel f w : ref_fuel <= Z.of_nat fuel -> 0 <= ns w -> 0 <= f < 2 ^ 16 ->
  let fb := f * 8 / 50 in
  exists rc w', SetGddrMemClk fuel f w = Some (rc, w') /\
    (rc = -1 /\ w' = w /\ ~ 64 <= fb <= 200 \/
     rc = 0 /\ 64 <= fb <= 200 /\ (exists s, did w (update_events (pll_config 3) s (regs w (base (pll_config 3)))) w') /\
       fst <$> GetFreqFromPll PLL3 0 w' = Some (50 * fb / 8) /\ f - 12 < 50 * fb / 8 <= f).
Proof.
  intros Hf Hn Hr. set (fb := f * 8 / 50). unfold SetGddrMemClk.
  assert (Ec : CalculateFbdiv f (pll_cntl_1 gddr_settings) (pll_cntl_5 gddr_settings) (use_postdiv gddr_settings) 0 = Some fb).
  { unfold CalculateFbdiv. change (GetExtPostdiv 0 (pll_cntl_5 gddr_settings) (use_postdiv gddr_settings)) with (Some 4). cbn [mbind option_bind Z.eqb].
    change (refdiv (pll_cntl_1 gddr_settings)) with 2. rewrite (wrap_small 32 (f * 2)), wrap_small by (unwrap; lia). unfold fb, REFCLK_F_MHZ. by replace (f * 2 * 4) with (f * 8) by lia. }
  rewrite Ec. cbn [mbind option_bind]. assert (Hfb : 0 <= fb < 2 ^ 16) by (unfold fb; Z.to_euclidean_division_equations; lia).
  destruct (Z.eqb_spec fb 0) as [E0|Hne]; [exists (-1), w; split; [done|left; split_and!; [done..|lia]]|].
  set (s := set_pll_cntl_1 _ _). assert (Es : pll_cntl_1 s = set_fbdiv fb (pll_cntl_1 gddr_settings)) by done.
  assert (Ev : GetVcoFreq (pll_cntl_1 s) = Some (25 * fb)).
  { unfold GetVcoFreq. rewrite Es, fbdiv_set, refdiv_set by done. change (refdiv (pll_cntl_1 gddr_settings)) with 2.
    rewrite wrap_small by (unfold REFCLK_F_MHZ; unwrap; lia). unfold udiv, REFCLK_F_MHZ. cbn [Z.eqb]. f_equal. Z.to_euclidean_division_equations; lia. }
  rewrite Ev. cbn [mbind option_bind]. unfold VCO_MIN_FREQ, VCO_MAX_FREQ.
  destruct (Z.leb_spec 1600 (25 * fb)); cbn [andb negb]; [|exists (-1), w; split; [done|left; split_and!; [done..|lia]]].
  destruct (Z.leb_spec (25 * fb) 5000); cbn [negb]; [|exists (-1), w; split; [done|left; split_and!; [done..|lia]]].
  destruct (pll_update_did fuel PLL3 s w) as (w' & E & D); [done|done|done|]. rewrite E. cbn [mbind option_bind]. exists 0, w'. split; [done|right].
  split; [done|]. split; [lia|]. split; [by exists s|]. split; [|unfold fb; Z.to_euclidean_division_equations; lia].
  rewrite get_freq_regs by done. rewrite !(did_regs _ _ _ D).
  change (replay _ (regs w) (base (pll_config PLL3) + PLL_CNTL_1_OFFSET)) with (pll_cntl_1 s).
  change (replay _ (regs w) (base (pll_config PLL3) + PLL_CNTL_5_OFFSET)) with (pll_cntl_5 s).
  change (replay _ (regs w) (base (pll_config PLL3) + PLL_USE_POSTDIV_OFFSET)) with (use_postdiv s).
  unfold CalculateFreqFromPllRegs. change (GetExtPostdiv 0 (pll_cntl_5 s) (use_postdiv s)) with (Some 4). cbn [mbind option_bind Z.eqb].
  rewrite Es, fbdiv_set, refdiv_set by done. change (refdiv (pll_cntl_1 gddr_settings)) with 2. unfold REFCLK_F_MHZ.
  rewrite !wrap_small by (unwrap; lia). done.
Qed.
End clocks.

(** ** The AI clock, moved while it runs *)

Section aiclk.
Context {W : Type} `{RefclkLaws W}.
Implicit Types (w : W).

Definition A1 : Z := GET_PLL_CNTL_ADDR PLL0 PLL_0_CNTL_PLL_CNTL_1_REG_ADDR.
Definition A5 : Z := GET_PLL_CNTL_ADDR PLL0 PLL_0_CNTL_PLL_CNTL_5_REG_ADDR.

(** The walk of the feedback divider is the driver's. *)
Lemma fbdiv_loop_driver fuel t r w : fbdiv_loop fuel t r w = aiclk_loop fuel (pll_config 0) t r w.
Proof. revert r w. induction fuel as [|fuel IH]; intros r w; cbn [fbdiv_loop aiclk_loop]; [done|]. destruct (_ =? _); [done|]. apply IH. Qed.

Lemma postdiv_set v r : 0 <= v < 256 -> postdiv 0 (set_postdiv 0 v r) = v.
Proof. intros Hv. unfold postdiv, set_postdiv. rewrite bits_get_set_same by lia. apply wrap_small. done. Qed.
Lemma set_postdiv_twice u v r : set_postdiv 0 u (set_postdiv 0 v r) = set_postdiv 0 u r.
Proof. apply Z.bits_inj'. intros i Hi. unfold set_postdiv. rewrite !bits_set_spec by lia. by destruct (_ && _). Qed.
Lemma set_postdiv_same r : set_postdiv 0 (postdiv 0 r) r = r.
Proof.
  apply Z.bits_inj'. intros i Hi. unfold set_postdiv, postdiv. rewrite bits_set_spec by lia.
  destruct ((8 * 0 <=? i) && (i <? 8 * 0 + 8)) eqn:E; [|done]. bool_cases. rewrite bits_get_spec by lia.
  destruct (Z.ltb_spec (i - 8 * 0) 8); [|lia]. cbn. f_equal. lia.
Qed.
Lemma postdiv_range r : 0 <= postdiv 0 r < 256.
Proof. apply (bits_get_range 0 8); lia. Qed.

Lemma postdiv_loop_ok fuel n target r w : (n <= fuel)%nat -> 0 <= target < 256 -> Z.abs (target - postdiv 0 r) = Z.of_nat n -> regs w A5 = r ->
  exists w', postdiv_loop fuel target r w = Some w' /\ regs w' A5 = set_postdiv 0 target r /\ forall a, a <> A5 -> regs w' a = regs w a.
Proof.
  intros Hn Ht. revert fuel r w Hn. induction n as [|n IH]; intros fuel r w Hn Hd Hr; pose proof (postdiv_range r) as Hp.
  - assert (postdiv 0 r = target) as <- by lia. exists w. destruct fuel; cbn [postdiv_loop]; rewrite Z.eqb_refl, set_postdiv_same; done.
  - destruct fuel as [|fuel]; [lia|]. cbn [postdiv_loop]. destruct (Z.eqb_spec (postdiv 0 r) target); [lia|].
    set (v := set_postdiv 0 _ r). assert (Hv : postdiv 0 v = if postdiv 0 r <? target then postdiv 0 r + 1 else postdiv 0 r - 1).
    { apply postdiv_set. destruct (Z.ltb_spec (postdiv 0 r) target); lia. }
    fold A5. unfold WriteReg. set (w1 := k_busy_wait_ns 100 (sys_write32 v A5 w)).
    assert (R : forall a, regs w1 a = if a =? A5 then v else regs w a) by (intros a; unfold w1; by rewrite wait_ns_regs, write_regs).
    destruct (IH fuel v w1) as (w' & E & E5 & Eo); [lia|rewrite Hv; destruct (Z.ltb_spec (postdiv 0 r) target); lia|by rewrite R, Z.eqb_refl|].
    exists w'. split; [exact E|]. split; [rewrite E5; apply set_postdiv_twice|]. intros a Ha. rewrite Eo, R by done. by rewrite (proj2 (Z.eqb_neq _ _)).
Qed.

(** [SetAICLK] ends where it should and touches nothing else, for every target that fits the
    divider; on the settings of start-up the clock is then the request rounded down. *)
Lemma set_aiclk_lands fuel a w : 2 ^ 16 <= Z.of_nat fuel -> 0 <= a < 819200 ->
  exists w', SetAICLK fuel a w = Some w' /\
    fbdiv (regs w' A1) = 4 * a / 50 /\ refdiv (regs w' A1) = refdiv (regs w A1) /\ postdiv 0 (regs w' A5) = 1 /\
    (forall x, x <> A1 -> x <> A5 -> regs w' x = regs w x) /\
    (refdiv (regs w A1) = 2 -> pll_use_postdiv 0 (regs w (base (pll_config 0) + PLL_USE_POSTDIV_OFFSET)) = 1 ->
       exists f, fst <$> GetAICLK w' = Some f /\ a - 14 < f <= a).
Proof.
  intros Hf Ha. set (t := 4 * a / 50). assert (Ht : is_u16 t) by (unfold t; unwrap; Z.to_euclidean_division_equations; lia).
  unfold SetAICLK, ReadReg. fold A1 A5. rewrite (Z.mul_comm a 4), (wrap_small 32 (4 * a)) by (unwrap; lia). change (4 * a / REFCLK_F_MHZ) with t.
  pose proof (read_value A1 w ltac:(done)) as V1. pose proof (did_read_raw w A1) as D1. destruct (sys_read32 A1 w) as [c1 w1]. cbn [fst snd] in *.
  pose proof (read_value A5 w1 ltac:(done)) as V5. pose proof (did_read_raw w1 A5) as D2. destruct (sys_read32 A5 w1) as [c5 w2]. cbn [fst snd] in *.
  rewrite (did_regs _ _ _ D1) in V5. cbn [replay] in V5. subst c1 c5. pose proof (did_app _ _ _ _ _ D1 D2) as D. cbn [app] in D.
  pose proof (fbdiv_range (regs w A1)) as Hfb. set (n := Z.to_nat (Z.abs (t - fbdiv (regs w A1)))).
  rewrite fbdiv_loop_driver.
  destruct (aiclk_loop_did (pll_config 0) fuel n t (regs w A1) w2) as (w3 & E3 & D3); [clear -Ht Hfb Hf; unfold n; unwrap; lia|done|unfold n; lia|].
  rewrite E3. cbn [mbind option_bind]. set (up := fbdiv (regs w A1) <? t) in *.
  assert (Hr : forall x, regs w2 x = regs w x) by (intros x; by rewrite (did_regs _ _ _ D)).
  destruct (steps_safe (pll_config 0) n up (regs w2) 100) as (_ & F1 & Fo); [|lia|].
  { change (base (pll_config 0) + PLL_CNTL_1_OFFSET) with A1. rewrite Hr. unfold n, up. clear -Ht Hfb. destruct (Z.ltb_spec (fbdiv (regs w A1)) t); unwrap; lia. }
  change (base (pll_config 0) + PLL_CNTL_1_OFFSET) with A1 in *. rewrite Hr in F1, Fo.
  assert (Et : (if up then fbdiv (regs w A1) + Z.of_nat n else fbdiv (regs w A1) - Z.of_nat n) = t).
  { unfold up, n. destruct (Z.ltb_spec (fbdiv (regs w A1)) t); lia. }
  rewrite Et in F1.
  pose proof (postdiv_range (regs w A5)) as Hp.
  destruct (postdiv_loop_ok fuel (Z.to_nat (Z.abs (1 - postdiv 0 (regs w A5)))) 1 (regs w A5) w3) as (w4 & E4 & P5 & Po); [lia|lia|lia| |].
  { rewrite (did_regs _ _ _ D3), Fo by done. apply Hr. }
  exists w4. split; [exact E4|].
  assert (R1 : regs w4 A1 = set_fbdiv t (regs w A1)) by (rewrite Po, (did_regs _ _ _ D3) by done; exact F1).
  assert (Ro : forall x, x <> A1 -> x <> A5 -> regs w4 x = regs w x) by (intros x Hx1 Hx5; rewrite Po, (did_regs _ _ _ D3), Fo, Hr by done; done).
  assert (G1 : fbdiv (regs w4 A1) = t) by (rewrite R1; by apply fbdiv_set). assert (G2 : refdiv (regs w4 A1) = refdiv (regs w A1)) by (rewrite R1; apply refdiv_set).
  assert (G5 : postdiv 0 (regs w4 A5) = 1) by (rewrite P5; by apply postdiv_set).
  split_and!; [done..|]. intros Hrd Hu. unfold GetAICLK. rewrite get_freq_regs by done.
  change (base (pll_config PLL0) + PLL_CNTL_1_OFFSET) with A1. change (base (pll_config PLL0) + PLL_CNTL_5_OFFSET) with A5.
  change (base (pll_config PLL0) + PLL_USE_POSTDIV_OFFSET) with (base (pll_config 0) + PLL_USE_POSTDIV_OFFSET). rewrite (Ro (base (pll_config 0) + PLL_USE_POSTDIV_OFFSET)) by done.
  unfold CalculateFreqFromPllRegs, GetExtPostdiv. cbn [Z.leb andb mbind option_bind]. rewrite Hu, G5, G1, G2, Hrd. cbn [Z.eqb negb Z.leb mbind option_bind].
  unfold REFCLK_F_MHZ. rewrite !wrap_small by (unwrap; lia). unfold udiv. eexists. split; [reflexivity|]. unfold t. clear.
  change (u32 (2 * _)) with 4. Z.to_euclidean_division_equations; lia.
Qed.

(** A target that does not fit is never reached. *)
Lemma set_aiclk_diverges fuel a w : 819200 <= a < 2 ^ 30 -> SetAICLK fuel a w = None.
Proof.
  intros Ha. unfold SetAICLK. rewrite (wrap_small 32 (a * 4)) by (unwrap; lia). unfold ReadReg. destruct (sys_read32 _ w) as [c1 w1], (sys_read32 _ w1) as [c5 w2].
  rewrite fbdiv_loop_driver, aiclk_loop_diverges; [done|]. unfold REFCLK_F_MHZ. Z.to_euclidean_division_equations; lia.
Qed.

(** [DropAICLK] slows the clock down, unless the divider was off (it then turns the clock on) or
    ran over (it then speeds the clock up). *)
Lemma drop_aiclk w : let p := postdiv 0 (regs w A5) in
  regs (DropAICLK w) A5 = set_postdiv 0 (p + 10) (regs w A5) /\ (forall x, x <> A5 -> regs (DropAICLK w) x = regs w x) /\
  postdiv 0 (regs (DropAICLK w) A5) = if p <? 246 then p + 10 else p - 246.
Proof.
  cbv zeta. unfold DropAICLK, ReadReg, WriteReg. fold A5. pose proof (read_value A5 w ltac:(done)) as V. pose proof (did_read_raw w A5) as D.
  destruct (sys_read32 A5 w) as [c5 w1]. cbn [fst snd] in *. subst c5. rewrite !write_regs, Z.eqb_refl.
  split; [done|]. split; [intros x Hx; rewrite write_regs, (proj2 (Z.eqb_neq _ _)) by done; by rewrite (did_regs _ _ _ D)|].
  pose proof (postdiv_range (regs w A5)) as Hp. unfold postdiv at 1, set_postdiv. rewrite bits_get_set_same by lia. unfold wrap.
  destruct (Z.ltb_spec (postdiv 0 (regs w A5)) 246); Z.to_euclidean_division_equations; lia.
Qed.
End aiclk.

(** ** A simulated chip *)

#[export] Instance sim_refclk : Refclk sim := { TimerTimestamp w := (sim_ns w / NS_PER_REFCLK, w) }.
#[export] Instance sim_refclk_laws : RefclkLaws sim.
Proof. by constructor. Defined.

(** Registers full of ones, and PLLs that do not lock within the wait. *)
Definition dirty : sim := MkSim (fun _ => 0xffffffff) [] 0 (2 ^ 40).
Definition poll_fuel : nat := Z.to_nat ref_fuel.


(** A request far beyond any memory clock is cut to 16 bits and accepted. *)
Example gddr_clk_truncates :
  (fun r => (r.1, fst <$> GetFreqFromPll PLL3 0 r.2)) <$> SetGddrMemClk 10 410300 (MkSim (fun _ => 0) [] 0 0) = Some (0, Some 700).
Proof. vm_compute. reflexivity. Qed.
(** The divider of the AI clock at 250. *)
Example drop_speeds_up :
  let w := MkSim (fun a => if a =? A1 then mk_cntl_1 2 0 128 else if a =? A5 then 250 else 1) [] 0 0 in
  (fst <$> GetAICLK w, fst <$> GetAICLK (DropAICLK w)) = (Some 6, Some 640).
Proof. vm_compute. reflexivity. Qed.
