(* ===== verification/Pvt.v ===== *)
(** * The process, voltage and temperature monitors ([drivers/sensor/tenstorrent/pvt], [lib/tenstorrent/bh_arc/pvt.c])

    Set-up and calibration of the monitors ([pvt_tt_bh.c]), reads of lists of channels
    ([pvt_tt_bh_rtio.c]), conversions and decoding ([pvt_tt_bh_decoder.c]), and the three
    messages by which the host reads one sensor ([pvt.c]).  Floats are rationals with
    an arbitrary rounding [rnd]; a variable that the code may read before it is written
    is an argument.  The queue that carries a request to its handler (RTIO) is Zephyr's. *)

From Stdlib Require Import QArith Qround Qabs Lqa.
From S2P Require Import Prelude StateM Aiclk Throttler Harvesting Telemetry.
#[local] Open Scope Z_scope.

(** ** Registers *)

Definition PVT_ID_NUM : Z := 0x80080008.
Definition PVT_TM_SCRATCH : Z := 0x8008000C.
Definition PVT_CNTL_IRQ_EN_REG_ADDR : Z := 0x80080040.
Definition PVT_CNTL_TS_00_IRQ_ENABLE_REG_ADDR : Z := 0x800800C0.
Definition PVT_CNTL_PD_00_IRQ_ENABLE_REG_ADDR : Z := 0x80080340.
Definition PVT_CNTL_VM_00_IRQ_ENABLE_REG_ADDR : Z := 0x80080A00.
Definition PVT_CNTL_TS_00_ALARMA_CFG_REG_ADDR : Z := 0x800800E0.
Definition PVT_CNTL_TS_00_ALARMB_CFG_REG_ADDR : Z := 0x800800E4.
Definition PVT_CNTL_TS_CMN_CLK_SYNTH_REG_ADDR : Z := 0x80080080.
Definition PVT_CNTL_PD_CMN_CLK_SYNTH_REG_ADDR : Z := 0x80080300.
Definition PVT_CNTL_VM_CMN_CLK_SYNTH_REG_ADDR : Z := 0x80080800.
Definition PVT_CNTL_PD_CMN_SDIF_STATUS_REG_ADDR : Z := 0x80080308.
Definition PVT_CNTL_PD_CMN_SDIF_REG_ADDR : Z := 0x8008030C.
Definition PVT_CNTL_TS_CMN_SDIF_STATUS_REG_ADDR : Z := 0x80080088.
Definition PVT_CNTL_TS_CMN_SDIF_REG_ADDR : Z := 0x8008008C.
Definition PVT_CNTL_VM_CMN_SDIF_STATUS_REG_ADDR : Z := 0x80080808.
Definition PVT_CNTL_VM_CMN_SDIF_REG_ADDR : Z := 0x8008080C.
Definition PVT_CNTL_TS_00_SDIF_DONE_REG_ADDR : Z := 0x800800D4.
Definition PVT_CNTL_TS_00_SDIF_DATA_REG_ADDR : Z := 0x800800D8.
Definition PVT_CNTL_VM_00_SDIF_RDATA_REG_ADDR : Z := 0x80080A30.
Definition PVT_CNTL_PD_00_SDIF_DONE_REG_ADDR : Z := 0x80080354.
Definition PVT_CNTL_PD_00_SDIF_DATA_REG_ADDR : Z := 0x80080358.
Definition TS_PD_OFFSET : Z := 0x40.
Definition VM_OFFSET : Z := 0x200.
Definition IP_CNTL_ADDR : Z := 0x0.
Definition IP_CFG0_ADDR : Z := 0x1.
Definition IP_TMR_ADDR : Z := 0x5.
Definition ALARM_A_THERM_TRIP_TEMP : Z := 83.
Definition ALARM_B_THERM_TRIP_TEMP : Z := 109.
Definition TS_HYSTERESIS_DELTA : Z := 5.
Definition ALL_AGING_OSC : Z := 0x7.
Definition NUM_TS : Z := 8.
Definition NUM_VM : Z := 8.
Definition NUM_PD : Z := 16.
Definition SDIF_DONE_TIMEOUT_MS : Z := 10.
Definition STATUS_POST_CODE : Z := 0x80030060.
Definition EINVAL : Z := 22.
Definition EIO : Z := 5.
Definition ENOTSUP : Z := 134.

(** [pd_ip_cfg0_t], [ts_ip_cfg0_t], [pvt_cntl_clk_synth_reg_t], [pvt_cntl_sdif_reg_t] and the alarm registers. *)
Definition pd_ip_cfg0 (run_mode oscillator_select oscillator_enable counter_gate : Z) : Z :=
  bits_set 20 2 counter_gate (bits_set 13 3 oscillator_enable (bits_set 8 5 oscillator_select (bits_set 0 4 run_mode 0))).
Definition ts_ip_cfg0 (run_mode resolution : Z) : Z := u8 (bits_set 5 2 resolution (bits_set 0 4 run_mode 0)).
Definition clk_synth_reg (lo hi hold en base : Z) : Z := bits_set 24 1 en (bits_set 16 4 hold (bits_set 8 8 hi (bits_set 0 8 lo base))).
Definition sdif_reg (addr wdata : Z) : Z := bits_set 31 1 1 (bits_set 27 1 1 (bits_set 0 24 wdata (bits_set 24 3 addr 0))).
Definition alarm_cfg (hyst_thresh alarm_thresh : Z) : Z := bits_set 16 16 alarm_thresh (bits_set 0 16 hyst_thresh 0).
(** [pvt_cntl_ts_pd_sdif_data_reg_t] and [ip_data_reg_t], which agree on these fields. *)
Definition sample_data (v : Z) : Z := bits_get 0 16 v.
Definition sample_type (v : Z) : Z := bits_get 16 1 v.
Definition sample_fault (v : Z) : Z := bits_get 17 1 v.

(** ** Data *)

Inductive PvtType := TS | PD | VM.
Inductive ReadStatus := ReadOk | SampleFault | IncorrectSampleType | SdifTimeout.
Definition status_code (s : ReadStatus) : Z := match s with ReadOk => 0 | SampleFault => 1 | IncorrectSampleType => 2 | SdifTimeout => 3 end.
#[export] Instance ReadStatus_dec : EqDecision ReadStatus.
Proof. solve_decision. Defined.

Inductive pvt_tt_bh_channel := CHAN_PD | CHAN_VM | CHAN_TS | CHAN_TS_AVG | CHAN_OTHER.
#[export] Instance channel_dec : EqDecision pvt_tt_bh_channel.
Proof. solve_decision. Defined.

Record sensor_chan_spec := MkSpec { chan_type : pvt_tt_bh_channel; chan_idx : Z }.
#[export] Instance spec_dec : EqDecision sensor_chan_spec.
Proof. solve_decision. Defined.
Record pvt_tt_bh_rtio_data := MkData { spec : sensor_chan_spec; raw : Z }.
Record pvt_tt_bh_config := MkConfig { num_pd : Z; num_vm : Z; num_ts : Z }.

(** The hardware; [therm_cali_delta]; [selected_pd_delay_chain] and [new_delay_chain]. *)
Record pvt (W : Type) := MkPvt { hw : W; therm_cali_delta : list Z; selected_pd_delay_chain : Z; new_delay_chain : Z }.
Arguments MkPvt {W} _ _ _ _.
Arguments hw {W} _.
Arguments therm_cali_delta {W} _.
Arguments selected_pd_delay_chain {W} _.
Arguments new_delay_chain {W} _.
Definition pvt0 {W} (w : W) (num_ts : Z) : pvt W := MkPvt w (replicate (Z.to_nat num_ts) 0) 0xFF 1.
Definition set_hw {W} (w : W) (p : pvt W) : pvt W := MkPvt w (therm_cali_delta p) (selected_pd_delay_chain p) (new_delay_chain p).
Definition set_deltas {W} (l : list Z) (p : pvt W) : pvt W := MkPvt (hw p) l (selected_pd_delay_chain p) (new_delay_chain p).

(** ** Conversions ([pvt_tt_bh_decoder.c]) *)

Section conversions.
Variable rnd : Q -> Q.
#[local] Open Scope Q_scope.

Definition VM_VREF : Q := rnd (12207 # 10000).

Definition pvt_tt_bh_raw_to_temp (raw : Z) : Q :=
  let eqbs := fsub rnd (fdiv rnd (inject_Z raw) 4096) (1 # 2) in
  fadd rnd (rnd (8309 # 100)) (fmul rnd (2625 # 10) eqbs).

(** The clamp to 16 bits and the conversion by truncation. *)
Definition to_raw (raw_f : Q) : option Z :=
  let raw_f := if qlt raw_f 0 then 0 else raw_f in
  let raw_f := if qlt 65535 raw_f then 65535 else raw_f in
  float_to_unsigned 16 (fadd rnd raw_f (1 # 2)).

Definition pvt_tt_bh_temp_to_raw (temp : Q) : option Z :=
  let eqbs := fdiv rnd (fsub rnd temp (rnd (8309 # 100))) (2625 # 10) in
  to_raw (fmul rnd (fadd rnd eqbs (1 # 2)) 4096).

Definition volt_slope : Q := fdiv rnd (fmul rnd VM_VREF 6) 81920.
(** [3 / 256] is an integer division here ... *)
Definition pvt_tt_bh_raw_to_volt (raw : Z) : Q :=
  let offset := fmul rnd (fdiv rnd VM_VREF 5) (inject_Z (3 / 256 + 1)) in
  fsub rnd (fmul rnd volt_slope (inject_Z raw)) offset.
(** ... and one of floats here. *)
Definition pvt_tt_bh_volt_to_raw (volt : Q) : option Z :=
  let offset := fmul rnd (fdiv rnd VM_VREF 5) (fadd rnd (fdiv rnd 3 256) 1) in
  to_raw (fdiv rnd (fadd rnd volt offset) volt_slope).

Definition pvt_tt_bh_raw_to_freq (raw : Z) : Q := fdiv rnd (fmul rnd (fmul rnd (fmul rnd (inject_Z raw) 4) 1) 5) 255.
Definition pvt_tt_bh_freq_to_raw (freq : Q) : option Z := to_raw (fdiv rnd (fmul rnd freq 255) (fmul rnd (fmul rnd 4 1) 5)).

(** [temp_to_dout] of [pvt_tt_bh.c]. *)
Definition temp_to_dout (temp : Z) : option Z :=
  float_to_unsigned 16 (fmul rnd (fadd rnd (fdiv rnd (fsub rnd (inject_Z temp) (rnd (8309 # 100))) (2625 # 10)) (1 # 2)) 4096).

(** What the first entry for a channel decodes to; with none, nothing is written. *)
Definition convert (chan : pvt_tt_bh_channel) (raw : Z) : option Q :=
  match chan with
  | CHAN_PD => Some (pvt_tt_bh_raw_to_freq raw)
  | CHAN_VM => Some (pvt_tt_bh_raw_to_volt raw)
  | CHAN_TS | CHAN_TS_AVG => Some (pvt_tt_bh_raw_to_temp raw)
  | CHAN_OTHER => None
  end.
(** The code and [*out]; [max_count] entries are looked at. *)
Fixpoint decode_loop (n : nat) (i : Z) (buf : list pvt_tt_bh_rtio_data) (chan_spec : sensor_chan_spec) (out : Q) : option (Z * Q) :=
  match n with
  | O => Some (0, out)%Z
  | S n =>
      d ← aget buf i;
      if decide (spec d = chan_spec) then
        match convert (chan_type chan_spec) (raw d) with Some q => Some (0%Z, q) | None => Some (- ENOTSUP, out)%Z end
      else decode_loop n (i + 1) buf chan_spec out
  end.
Definition pvt_tt_bh_decode_sample (buf : list pvt_tt_bh_rtio_data) (chan_spec : sensor_chan_spec) (max_count : Z) (out : Q) : option (Z * Q) :=
  decode_loop (Z.to_nat max_count) 0 buf chan_spec out.
End conversions.

(** ** The driver ([pvt_tt_bh.c], [pvt_tt_bh_rtio.c]) *)

Class PvtHw (W : Type) := {
  sys_read32 : Z -> W -> Z * W;
  sys_write32 : Z -> Z -> W -> W;      (* value, address *)
  k_uptime_get : W -> Z * W;
  k_usleep : Z -> W -> W
}.

Section driver.
Context {W : Type} `{PvtHw W}.
Variable rnd : Q -> Q.
Variable cfg : pvt_tt_bh_config.
(** [tt_bh_efuse_read] of [Harvesting], the APB clock in MHz, the build. *)
Variable tt_bh_efuse_read : Z -> Z * Z.
Variable apb_clk : Z.
Variable CONFIG_TT_SMC_RECOVERY CONFIG_ARC : bool.
(** What [data] of [read_ts_avg] holds in turn [i] when the read fails. *)
Variable junk : Z -> Z.

Notation D := (M (pvt W)).
Definition rd (addr : Z) : D Z := fun p => let '(v, w) := sys_read32 addr (hw p) in Some (v, set_hw w p).
Definition wr (val addr : Z) : D unit := fun p => Some (tt, set_hw (sys_write32 val addr (hw p)) p).
Definition uptime : D Z := fun p => let '(v, w) := k_uptime_get (hw p) in Some (v, set_hw w p).
Definition sleep (us : Z) : D unit := fun p => Some (tt, set_hw (k_usleep us (hw p)) p).
Definition gets {A} (f : pvt W -> A) : D A := fun p => Some (f p, p).
Definition modify (f : pvt W -> pvt W) : D unit := fun p => Some (tt, f p).
Definition for_each (n : Z) (body : Z -> D unit) : D unit := for_m (Z.to_nat n) 0 (fun i _ => body i) tt.

Fixpoint wait_sdif_ready (fuel : nat) (status_reg_addr : Z) : D unit :=
  match fuel with
  | O => fun _ => None
  | S fuel => v ← rd status_reg_addr; if Z.testbit v 0 then wait_sdif_ready fuel status_reg_addr else mret tt
  end.
Definition sdif_write (fuel : nat) (status_reg_addr wr_data_reg_addr sdif_addr data : Z) : D unit :=
  _ ← wait_sdif_ready fuel status_reg_addr; wr (sdif_reg sdif_addr data) wr_data_reg_addr.
Definition ts_write (fuel : nat) := sdif_write fuel PVT_CNTL_TS_CMN_SDIF_STATUS_REG_ADDR PVT_CNTL_TS_CMN_SDIF_REG_ADDR.
Definition pd_write (fuel : nat) := sdif_write fuel PVT_CNTL_PD_CMN_SDIF_STATUS_REG_ADDR PVT_CNTL_PD_CMN_SDIF_REG_ADDR.
Definition vm_write (fuel : nat) := sdif_write fuel PVT_CNTL_VM_CMN_SDIF_STATUS_REG_ADDR PVT_CNTL_VM_CMN_SDIF_REG_ADDR.

(** *** Set-up *)

Definition pvt_tt_bh_interrupt_config : D unit :=
  _ ← wr 0xE PVT_CNTL_IRQ_EN_REG_ADDR;
  _ ← for_each NUM_TS (fun i => wr 0x1B (i * TS_PD_OFFSET + PVT_CNTL_TS_00_IRQ_ENABLE_REG_ADDR));
  _ ← for_each NUM_PD (fun i => wr 0x3 (i * TS_PD_OFFSET + PVT_CNTL_PD_00_IRQ_ENABLE_REG_ADDR));
  _ ← for_each NUM_VM (fun i => wr 0x3 (i * VM_OFFSET + PVT_CNTL_VM_00_IRQ_ENABLE_REG_ADDR));
  hyst_a ← lift (temp_to_dout rnd (ALARM_A_THERM_TRIP_TEMP - TS_HYSTERESIS_DELTA));
  alarm_a ← lift (temp_to_dout rnd ALARM_A_THERM_TRIP_TEMP);
  _ ← for_each NUM_TS (fun i => wr (alarm_cfg hyst_a alarm_a) (i * TS_PD_OFFSET + PVT_CNTL_TS_00_ALARMA_CFG_REG_ADDR));
  hyst_b ← lift (temp_to_dout rnd (ALARM_B_THERM_TRIP_TEMP - TS_HYSTERESIS_DELTA));
  alarm_b ← lift (temp_to_dout rnd ALARM_B_THERM_TRIP_TEMP);
  for_each NUM_TS (fun i => wr (alarm_cfg hyst_b alarm_b) (i * TS_PD_OFFSET + PVT_CNTL_TS_00_ALARMB_CFG_REG_ADDR)).

(** [DIV_ROUND_UP(apb_clk, 16)], less one, in the two 8-bit fields. *)
Definition clk_synth : Z :=
  let half_cycle := u32 (apb_clk + 15) / 16 in
  clk_synth_reg (half_cycle - 1) (half_cycle - 1) 2 1 0x00010000.
Definition pvt_tt_bh_clock_config : D unit :=
  _ ← wr clk_synth PVT_CNTL_TS_CMN_CLK_SYNTH_REG_ADDR;
  _ ← wr clk_synth PVT_CNTL_PD_CMN_CLK_SYNTH_REG_ADDR;
  wr clk_synth PVT_CNTL_VM_CMN_CLK_SYNTH_REG_ADDR.

Definition enable_aging_meas (fuel : nat) : D unit := pd_write fuel IP_CFG0_ADDR (pd_ip_cfg0 0 0 ALL_AGING_OSC 0).

Fixpoint walk_ones (n : nat) (i : Z) : D Z :=
  match n with
  | O => mret 0
  | S n =>
      _ ← wr (BIT i) PVT_TM_SCRATCH;
      v ← rd PVT_TM_SCRATCH;
      if negb (v =? BIT i) then mret (- EIO) else walk_ones n (i + 1)
  end.
Definition pvt_tt_bh_is_alive : D Z :=
  id ← rd PVT_ID_NUM;
  if negb (id =? 0) then mret (- EIO) else
  scratch ← rd PVT_TM_SCRATCH;
  if negb (scratch =? 0) then mret (- EIO) else walk_ones 32 0.

(** The fuse of one sensor, and the correction it gives. *)
Definition deg25 (id : Z) : Z := let start := 2240 + id * 64 in u16 (ReadFunctionalEfuse tt_bh_efuse_read start (start + 15)).
Definition calibrate (celcius25_raw : Z) (id : Z) : D unit :=
  let efuse := deg25 id in
  let efuse_celcius := pvt_tt_bh_raw_to_temp rnd efuse in
  if qle 22 efuse_celcius && qle efuse_celcius 28 then
    l ← gets therm_cali_delta; l ← lift (aset l id (swrap 16 (efuse - celcius25_raw))); modify (set_deltas l)
  else mret tt.

Definition post_step5 : D unit := wr 0xc0de0015 STATUS_POST_CODE.
Definition pvt_tt_bh_init (fuel : nat) : D Z :=
  _ ← post_step5;
  if CONFIG_TT_SMC_RECOVERY || negb CONFIG_ARC then mret 0 else
  ret ← pvt_tt_bh_is_alive;
  if negb (ret =? 0) then mret ret else
  _ ← pvt_tt_bh_interrupt_config;
  _ ← pvt_tt_bh_clock_config;
  _ ← ts_write fuel IP_TMR_ADDR 0x100;
  _ ← ts_write fuel IP_CFG0_ADDR (ts_ip_cfg0 0 2);
  _ ← ts_write fuel IP_CNTL_ADDR 0x108;
  _ ← pd_write fuel IP_TMR_ADDR 0x0;
  _ ← pd_write fuel IP_CNTL_ADDR 0x100;
  _ ← enable_aging_meas fuel;
  _ ← vm_write fuel IP_TMR_ADDR 0x40;
  _ ← vm_write fuel IP_CFG0_ADDR 0x1000;
  _ ← vm_write fuel IP_CNTL_ADDR 0x108;
  _ ← sleep 100;
  celcius25_raw ← lift (pvt_tt_bh_temp_to_raw rnd 25);
  _ ← for_each (num_ts cfg) (calibrate celcius25_raw);
  mret 0.

(** *** Reads *)

Definition select_delay_chain_and_start_pd_conv (fuel : nat) (delay_chain : Z) : D unit :=
  selected ← gets selected_pd_delay_chain;
  if negb (delay_chain =? selected) then
    _ ← pd_write fuel IP_CFG0_ADDR (pd_ip_cfg0 0 delay_chain ALL_AGING_OSC 0x3);
    _ ← pd_write fuel IP_CNTL_ADDR 0x108;
    _ ← sleep 250;
    modify (fun p => MkPvt (hw p) (therm_cali_delta p) delay_chain (new_delay_chain p))
  else mret tt.

Definition get_pvt_addr (type : PvtType) (id base_addr : Z) : Z :=
  u32 (id * match type with VM => VM_OFFSET | _ => TS_PD_OFFSET end + base_addr).

(** Up to the last poll: whether it came too late. *)
Fixpoint poll_done (fuel : nat) (addr deadline : Z) : D bool :=
  match fuel with
  | O => fun _ => None
  | S fuel =>
      sdif_done ← rd addr;
      now ← uptime;
      let timeout := deadline <? now in
      if (sdif_done =? 0) && negb timeout then poll_done fuel addr deadline else mret timeout
  end.
(** The status, and the sample if it was written. *)
Definition of_sample (v : Z) : ReadStatus * option Z :=
  if negb (sample_fault v =? 0) then (SampleFault, None)
  else if negb (sample_type v =? 0) then (IncorrectSampleType, None)
  else (ReadOk, Some (sample_data v)).
Definition read_pvt_auto_mode (fuel : nat) (type : PvtType) (id sdif_done_base_addr sdif_data_base_addr : Z) : D (ReadStatus * option Z) :=
  now ← uptime;
  let deadline := u64 (now + SDIF_DONE_TIMEOUT_MS) in
  timeout ← poll_done fuel (get_pvt_addr type id sdif_done_base_addr) deadline;
  if timeout : bool then mret (SdifTimeout, None) else
  v ← rd (get_pvt_addr type id sdif_data_base_addr);
  mret (of_sample v).
Definition read_ts_raw (fuel : nat) (id : Z) : D (ReadStatus * option Z) :=
  read_pvt_auto_mode fuel TS id PVT_CNTL_TS_00_SDIF_DONE_REG_ADDR PVT_CNTL_TS_00_SDIF_DATA_REG_ADDR.
Definition delta (id : Z) : D Z := l ← gets therm_cali_delta; lift (aget l id).

(** The reads return the new value of [*data], from the old. *)
Definition read_ts (fuel : nat) (chan data : Z) : D (ReadStatus * Z) :=
  '(status, v) ← read_ts_raw fuel chan;
  d ← delta chan;
  mret (status, u16 (default data v - d)).
(** Errors of the single reads are not looked at. *)
Definition read_ts_avg (fuel : nat) : D (ReadStatus * Z) :=
  sum ← for_m 8 0 (fun i sum =>
    '(_, v) ← read_ts_raw fuel i;
    d ← delta i;
    mret (u16 (sum + (default (junk i) v - d)))) 0;
  mret (ReadOk, sum / 8).
Definition read_vm (id data : Z) : D (ReadStatus * Z) :=
  v ← rd (id * VM_OFFSET + PVT_CNTL_VM_00_SDIF_RDATA_REG_ADDR);
  let '(status, d) := of_sample v in mret (status, default data d).
Definition read_pd (fuel : nat) (id delay_chain data : Z) : D (ReadStatus * Z) :=
  _ ← select_delay_chain_and_start_pd_conv fuel delay_chain;
  '(status, v) ← read_pvt_auto_mode fuel PD id PVT_CNTL_PD_00_SDIF_DONE_REG_ADDR PVT_CNTL_PD_00_SDIF_DATA_REG_ADDR;
  mret (status, default data v).

(** One channel, into a slot of the buffer: an error code, or the status and the sample. *)
Definition read_channel (fuel : nat) (chan : sensor_chan_spec) (data : Z) : D (Z + ReadStatus * Z) :=
  match chan_type chan with
  | CHAN_PD =>
      if num_pd cfg <=? chan_idx chan then mret (inl (- EINVAL)) else
      chain ← gets new_delay_chain; r ← read_pd fuel (chan_idx chan) chain data; mret (inr r)
  | CHAN_VM =>
      if num_vm cfg <=? chan_idx chan then mret (inl (- EINVAL)) else
      r ← read_vm (chan_idx chan) data; mret (inr r)
  | CHAN_TS =>
      if num_ts cfg <=? chan_idx chan then mret (inl (- EINVAL)) else
      r ← read_ts fuel (u8 (chan_idx chan)) data; mret (inr r)
  | CHAN_TS_AVG => r ← read_ts_avg fuel; mret (inr r)
  | CHAN_OTHER => mret (inl (- ENOTSUP))
  end.
(** The loop over the channels: the completion code and the buffer. *)
Fixpoint sample_loop (fuel : nat) (channels : list sensor_chan_spec) (i : Z) (data : list pvt_tt_bh_rtio_data) : D (Z * list pvt_tt_bh_rtio_data) :=
  match channels with
  | [] => mret (0, data)
  | chan :: channels =>
      old ← lift (aget data i);
      data ← lift (aset data i (MkData chan (raw old)));
      r ← read_channel fuel chan (raw old);
      match r with
      | inl ret => mret (ret, data)
      | inr (status, v) =>
          data ← lift (aset data i (MkData chan v));
          if decide (status = ReadOk) then sample_loop fuel channels (i + 1) data else mret (status_code status, data)
      end
  end.
(** [rx_buf]: the code of [rtio_sqe_rx_buf], or the buffer. *)
Definition pvt_tt_bh_submit_sample (fuel : nat) (channels : list sensor_chan_spec) (rx_buf : Z + list pvt_tt_bh_rtio_data)
    : D (Z * list pvt_tt_bh_rtio_data) :=
  match rx_buf with inl ret => mret (ret, []) | inr data => sample_loop fuel channels 0 data end.
Definition pvt_tt_bh_submit (fuel : nat) (iodev op_rx : bool) (channels : list sensor_chan_spec) (rx_buf : Z + list pvt_tt_bh_rtio_data)
    : D (Z * list pvt_tt_bh_rtio_data) :=
  if negb iodev then mret (- EINVAL, []) else if negb op_rx then mret (- EINVAL, []) else pvt_tt_bh_submit_sample fuel channels rx_buf.
Definition pvt_tt_bh_delay_chain_set (c : Z) : D unit := modify (fun p => MkPvt (hw p) (therm_cali_delta p) (selected_pd_delay_chain p) c).

Inductive pvt_tt_bh_attribute := ATTR_NUM_PD | ATTR_NUM_VM | ATTR_NUM_TS | ATTR_OTHER.
Definition pvt_tt_bh_attr_get (attr : pvt_tt_bh_attribute) (val : Z * Z) : Z * (Z * Z) :=
  match attr with
  | ATTR_NUM_PD => (0, (num_pd cfg, 0)) | ATTR_NUM_VM => (0, (num_vm cfg, 0)) | ATTR_NUM_TS => (0, (num_ts cfg, 0))
  | ATTR_OTHER => (- ENOTSUP, val)
  end.

(** ** The messages of the host ([pvt.c]) *)

(** The channel lists of the three devices; a buffer before its first use. *)
Definition iodev (type : pvt_tt_bh_channel) (n : Z) : list sensor_chan_spec := map (MkSpec type) (seqZ 0 n).
Definition zero_buf (n : Z) : list pvt_tt_bh_rtio_data := replicate (Z.to_nat n) (MkData (MkSpec CHAN_OTHER 0) 0).

(** [sensor_read] blocks until the request is complete and returns its code.  The code of the
    handler, with [data[1]] and [data[2]] on success, and the static buffer;
    [celcius] is the local variable before it is written. *)
Definition read_ts_handler (fuel : nat) (sensor_id : Z) (celcius : Q) (ts_buf : list pvt_tt_bh_rtio_data)
    : D (Z * option (Z * Z) * list pvt_tt_bh_rtio_data) :=
  '(ret, ts_buf) ← pvt_tt_bh_submit fuel true true (iodev CHAN_TS 8) (inr ts_buf);
  if negb (ret =? 0) then mret (u8 ret, None, ts_buf) else
  '(_, celcius) ← lift (pvt_tt_bh_decode_sample rnd ts_buf (MkSpec CHAN_TS (u16 sensor_id)) (num_ts cfg) celcius);
  d1 ← lift (pvt_tt_bh_temp_to_raw rnd celcius);
  d2 ← lift (ConvertFloatToTelemetry rnd celcius);
  mret (0, Some (d1, d2), ts_buf).
Definition read_pd_handler (fuel : nat) (delay_chain sensor_id : Z) (freq : Q) (pd_buf : list pvt_tt_bh_rtio_data)
    : D (Z * option (Z * Z) * list pvt_tt_bh_rtio_data) :=
  _ ← pvt_tt_bh_delay_chain_set delay_chain;
  '(ret, pd_buf) ← pvt_tt_bh_submit fuel true true (iodev CHAN_PD 16) (inr pd_buf);
  if negb (ret =? 0) then mret (u8 ret, None, pd_buf) else
  '(_, freq) ← lift (pvt_tt_bh_decode_sample rnd pd_buf (MkSpec CHAN_PD (u16 sensor_id)) (num_pd cfg) freq);
  d1 ← lift (pvt_tt_bh_freq_to_raw rnd freq);
  d2 ← lift (ConvertFloatToTelemetry rnd freq);
  mret (0, Some (d1, d2), pd_buf).
Definition read_vm_handler (fuel : nat) (sensor_id : Z) (volts : Q) (vm_buf : list pvt_tt_bh_rtio_data)
    : D (Z * option (Z * Z) * list pvt_tt_bh_rtio_data) :=
  '(ret, vm_buf) ← pvt_tt_bh_submit fuel true true (iodev CHAN_VM 8) (inr vm_buf);
  if negb (ret =? 0) then mret (u8 ret, None, vm_buf) else
  '(_, volts) ← lift (pvt_tt_bh_decode_sample rnd vm_buf (MkSpec CHAN_VM (u16 sensor_id)) (num_vm cfg) volts);
  d1 ← lift (pvt_tt_bh_volt_to_raw rnd volts);
  d2 ← lift (float_to_unsigned 16 (fmul rnd volts 1000));
  mret (0, Some (d1, d2), vm_buf).
End driver.

(** ** The conversions *)

(** A rounding to 24 bits, for the sizes that occur. *)
Class FloatRounding (rnd : Q -> Q) : Prop :=
  near : forall q b, (- b <= q <= b)%Q -> (b <= 16777216)%Q -> (- (b + 1) <= (rnd q - q) * 16777216 <= b + 1)%Q.
#[export] Instance id_FloatRounding : FloatRounding id.
Proof. intros q b [H1 H2] _. unfold id. split; lra. Qed.

Section close.
Context (rnd : Q -> Q) `{!FloatRounding rnd}.
#[local] Open Scope Q_scope.

Lemma to_raw_exact x (r : Z) : (0 <= r <= 65535)%Z -> inject_Z r - (12 # 25) <= x <= inject_Z r + (12 # 25) -> to_raw rnd x = Some r.
Proof.
  intros Hr Hx. unfold to_raw. assert (Hr0 : 0 <= inject_Z r) by (change 0 with (inject_Z 0); rewrite <- Zle_Qle; lia).
  assert (Hr1 : inject_Z r <= 65535) by (change 65535 with (inject_Z 65535); rewrite <- Zle_Qle; lia).
  set (y := if qlt x 0 then 0 else x). assert (Hy : inject_Z r - (12 # 25) <= y <= inject_Z r + (12 # 25)).
  { unfold y. destruct (qlt x 0) eqn:E; [apply qlt_spec in E|]; lra. }
  set (z := if qlt 65535 y then 65535 else y). assert (Hz : inject_Z r - (12 # 25) <= z <= inject_Z r + (12 # 25)).
  { unfold z. destruct (qlt 65535 y) eqn:E; [apply qlt_spec in E|]; lra. }
  unfold fadd. pose proof (near (z + (1 # 2)) 65536 ltac:(lra) ltac:(lra)) as N. set (s := rnd _) in *.
  apply float_to_unsigned_floor; [|lia].
  assert (Hs : inject_Z r <= s < inject_Z (r + 1)) by (rewrite inject_Z_plus; change (inject_Z 1) with 1; lra).
  destruct Hs as [Hs1 Hs2]. apply Z.le_antisymm.
  - apply Z.lt_succ_r. rewrite Zlt_Qlt. eapply Qle_lt_trans; [apply Qfloor_le|]. exact Hs2.
  - rewrite <- (Qfloor_Z r). by apply Qfloor_resp_le.
Qed.

(** What the host is told of a temperature is the sample that it came from. *)
Lemma temp_roundtrip (r : Z) : (0 <= r <= 65535)%Z -> pvt_tt_bh_temp_to_raw rnd (pvt_tt_bh_raw_to_temp rnd r) = Some r.
Proof.
  intros Hr. unfold pvt_tt_bh_temp_to_raw, pvt_tt_bh_raw_to_temp, fsub, fadd, fmul, fdiv. cbv zeta.
  assert (Hr0 : 0 <= inject_Z r) by (change 0 with (inject_Z 0); rewrite <- Zle_Qle; lia).
  assert (Hr1 : inject_Z r <= 65535) by (change 65535 with (inject_Z 65535); rewrite <- Zle_Qle; lia).
  assert (E1 : inject_Z r / 4096 == inject_Z r * (1 # 4096)) by (unfold Qdiv; reflexivity).
  pose proof (near (inject_Z r / 4096) 16 ltac:(rewrite E1; lra) ltac:(lra)) as N1. set (a := rnd (inject_Z r / 4096)) in *.
  rewrite E1 in N1.
  pose proof (near (a - (1 # 2)) 17 ltac:(lra) ltac:(lra)) as N2. set (b := rnd (a - (1 # 2))) in *.
  pose proof (near ((2625 # 10) * b) 4500 ltac:(lra) ltac:(lra)) as N3. set (c := rnd ((2625 # 10) * b)) in *.
  pose proof (near (8309 # 100) 84 ltac:(lra) ltac:(lra)) as N4. set (k := rnd (8309 # 100)) in *.
  pose proof (near (k + c) 4600 ltac:(lra) ltac:(lra)) as N5. set (t := rnd (k + c)) in *.
  pose proof (near (t - k) 4600 ltac:(lra) ltac:(lra)) as N6. set (d := rnd (t - k)) in *.
  assert (E2 : d / (2625 # 10) == d * (2 # 525)) by field.
  pose proof (near (d / (2625 # 10)) 20 ltac:(rewrite E2; lra) ltac:(lra)) as N7. set (e := rnd (d / (2625 # 10))) in *.
  rewrite E2 in N7.
  pose proof (near (e + (1 # 2)) 21 ltac:(lra) ltac:(lra)) as N8. set (f := rnd (e + (1 # 2))) in *.
  pose proof (near (f * 4096) 70000 ltac:(lra) ltac:(lra)) as N9. set (g := rnd (f * 4096)) in *.
  apply to_raw_exact; [done|]. lra.
Qed.

Lemma raw_range (r : Z) : (0 <= r <= 65535)%Z -> 0 <= inject_Z r <= 65535.
Proof. intros Hr. change 0 with (inject_Z 0). change 65535 with (inject_Z 65535). rewrite <- !Zle_Qle. lia. Qed.

(** Of a frequency. *)
Lemma freq_roundtrip (r : Z) : (0 <= r <= 65535)%Z -> pvt_tt_bh_freq_to_raw rnd (pvt_tt_bh_raw_to_freq rnd r) = Some r.
Proof.
  intros Hr. unfold pvt_tt_bh_freq_to_raw, pvt_tt_bh_raw_to_freq, fmul, fdiv. pose proof (raw_range r Hr) as Hq.
  pose proof (near (inject_Z r * 4) 262140 ltac:(lra) ltac:(lra)) as N1. set (a := rnd (inject_Z r * 4)) in *.
  pose proof (near (a * 1) 262141 ltac:(lra) ltac:(lra)) as N2. set (b := rnd (a * 1)) in *.
  pose proof (near (b * 5) 1310710 ltac:(lra) ltac:(lra)) as N3. set (c := rnd (b * 5)) in *.
  assert (E4 : c / 255 == c * (1 # 255)) by field. pose proof (near (c / 255) 5141 ltac:(rewrite E4; lra) ltac:(lra)) as N4. set (f := rnd (c / 255)) in *. rewrite E4 in N4.
  pose proof (near (f * 255) 1310800 ltac:(lra) ltac:(lra)) as N5. set (g := rnd (f * 255)) in *.
  pose proof (near (4 * 1) 4 ltac:(lra) ltac:(lra)) as N6. set (h := rnd (4 * 1)) in *.
  pose proof (near (h * 5) 21 ltac:(lra) ltac:(lra)) as N7. set (k := rnd (h * 5)) in *.
  assert (Hk : - (48 # 1) <= (k - 20) * 16777216 <= 48) by lra. assert (Hkp : 0 < k) by lra.
  assert (Hg : - (1 # 2) <= g - 20 * inject_Z r <= 1 # 2) by lra.
  assert (Hx : inject_Z r - (1 # 10) <= g / k <= inject_Z r + (1 # 10)).
  { split; [apply Qle_shift_div_l; [done|]|apply Qle_shift_div_r; [done|]].
    - assert (inject_Z r * (k - 20) <= (1 # 4)) by nra. nra.
    - assert (- (1 # 4) <= inject_Z r * (k - 20)) by nra. nra. }
  pose proof (near (g / k) 65536 ltac:(lra) ltac:(lra)) as N8. set (x := rnd (g / k)) in *. apply to_raw_exact; [done|]. lra.
Qed.

(** Of a voltage, the sample plus 32: the two offsets differ by 3/256 of a fifth of the
    reference, which is 32 steps. *)
Lemma volt_off_by_32 (r : Z) : (0 <= r <= 65503)%Z -> pvt_tt_bh_volt_to_raw rnd (pvt_tt_bh_raw_to_volt rnd r) = Some (r + 32)%Z.
Proof.
  intros Hr. unfold pvt_tt_bh_volt_to_raw, pvt_tt_bh_raw_to_volt, volt_slope, VM_VREF, fmul, fdiv, fadd, fsub. pose proof (raw_range r ltac:(lia)) as Hq.
  pose proof (near (12207 # 10000) 2 ltac:(lra) ltac:(lra)) as N1. set (v := rnd (12207 # 10000)) in *.
  pose proof (near (v * 6) 8 ltac:(lra) ltac:(lra)) as N2. set (a := rnd (v * 6)) in *.
  assert (E3 : a / 81920 == a * (1 # 81920)) by field. pose proof (near (a / 81920) (1 # 1000) ltac:(rewrite E3; lra) ltac:(lra)) as N3. set (k := rnd (a / 81920)) in *. rewrite E3 in N3.
  assert (E4 : v / 5 == v * (1 # 5)) by field. pose proof (near (v / 5) (1 # 4) ltac:(rewrite E4; lra) ltac:(lra)) as N4. set (w := rnd (v / 5)) in *. rewrite E4 in N4.
  assert (E5 : w * inject_Z (3 / 256 + 1) == w) by (change (inject_Z (3 / 256 + 1)) with 1; ring).
  pose proof (near (w * inject_Z (3 / 256 + 1)) (1 # 3) ltac:(rewrite E5; lra) ltac:(lra)) as N5. set (o1 := rnd (w * inject_Z (3 / 256 + 1))) in *. rewrite E5 in N5.
  assert (E6 : 3 / 256 == (3 # 256)) by reflexivity. pose proof (near (3 / 256) (1 # 50) ltac:(rewrite E6; lra) ltac:(lra)) as N6. set (b := rnd (3 / 256)) in *. rewrite E6 in N6.
  pose proof (near (b + 1) (11 # 10) ltac:(lra) ltac:(lra)) as N7. set (c := rnd (b + 1)) in *.
  assert (Hwc : - (2 # 1) <= (w * c - w * (259 # 256)) * 16777216 <= 2) by (split; nra).
  pose proof (near (w * c) (1 # 3) ltac:(lra) ltac:(lra)) as N8. set (o2 := rnd (w * c)) in *.
  assert (Hk : (89 # 1000000) <= k <= (90 # 1000000)) by lra.
  assert (Hp : 0 <= k * inject_Z r <= 6) by (split; nra).
  pose proof (near (k * inject_Z r) 6 ltac:(lra) ltac:(lra)) as N9. set (p := k * inject_Z r) in *. set (p' := rnd p) in *.
  pose proof (near (p' - o1) 7 ltac:(lra) ltac:(lra)) as N10. set (q := rnd (p' - o1)) in *.
  pose proof (near (q + o2) 7 ltac:(lra) ltac:(lra)) as N11. set (s := rnd (q + o2)) in *.
  assert (Hs : - (1 # 100000) <= s - p - 32 * k <= (1 # 100000)) by lra.
  assert (Hx : inject_Z r + 32 - (12 # 100) <= s / k <= inject_Z r + 32 + (12 # 100)).
  { split; [apply Qle_shift_div_l; [lra|]|apply Qle_shift_div_r; [lra|]]; unfold p in Hs; nra. }
  assert (Hrr : inject_Z (r + 32) == inject_Z r + 32) by (rewrite inject_Z_plus; reflexivity).
  assert (Hr3 : inject_Z r <= 65503) by (change 65503 with (inject_Z 65503); rewrite <- Zle_Qle; lia).
  pose proof (near (s / k) 65536 ltac:(lra) ltac:(lra)) as N12. set (x := rnd (s / k)) in *. apply to_raw_exact; [lia|]. rewrite Hrr. lra.
Qed.
End close.

(** ** The reads *)

(** The monitors, steady while they are read: the word of each ([sense], for the process
    detectors under the oscillator chosen), whether a sample of it is ready, and the
    time in nanoseconds, which stands still at the end of days.  An access takes at
    most a millisecond, and a status register is busy at most [sdif_bound] times in a row. *)
Class PvtLaws (W : Type) `{PvtHw W} := {
  sense : W -> Z -> PvtType -> Z -> Z;
  ready : W -> PvtType -> Z -> bool;
  osc : W -> Z;
  ns : W -> Z;
  busy : W -> Z;
  sdif_bound : Z;
  kept (w w' : W) : Prop := (forall o t i, sense w' o t i = sense w o t i) /\ (forall t i, ready w' t i = ready w t i);
  law_ns w : 0 <= ns w < 2 ^ 83;
  law_busy w : 0 <= busy w < sdif_bound;
  law_read a w : let w' := (sys_read32 a w).2 in kept w w' /\ osc w' = osc w /\ ns w <= ns w' <= ns w + 1000000;
  law_tick a w : ns w + 1000000000 < 2 ^ 83 -> ns w < ns (sys_read32 a w).2;
  law_uptime w : let w' := (k_uptime_get w).2 in
    (k_uptime_get w).1 = ns w / 1000000 /\ kept w w' /\ osc w' = osc w /\ ns w <= ns w' <= ns w + 1000000;
  law_sleep u w : let w' := k_usleep u w in kept w w' /\ osc w' = osc w;
  law_write v a w : let w' := sys_write32 v a w in
    kept w w' /\ osc w' = if (a =? PVT_CNTL_PD_CMN_SDIF_REG_ADDR) && (bits_get 24 3 v =? IP_CFG0_ADDR) then bits_get 8 5 v else osc w;
  law_status a w : a = PVT_CNTL_TS_CMN_SDIF_STATUS_REG_ADDR \/ a = PVT_CNTL_PD_CMN_SDIF_STATUS_REG_ADDR \/ a = PVT_CNTL_VM_CMN_SDIF_STATUS_REG_ADDR ->
    Z.testbit (sys_read32 a w).1 0 = true -> busy (sys_read32 a w).2 < busy w;
  law_ts i w : 0 <= i < NUM_TS ->
    ((sys_read32 (i * TS_PD_OFFSET + PVT_CNTL_TS_00_SDIF_DONE_REG_ADDR) w).1 =? 0) = negb (ready w TS i) /\
    (sys_read32 (i * TS_PD_OFFSET + PVT_CNTL_TS_00_SDIF_DATA_REG_ADDR) w).1 = sense w 0 TS i;
  law_pd i w : 0 <= i < NUM_PD ->
    ((sys_read32 (i * TS_PD_OFFSET + PVT_CNTL_PD_00_SDIF_DONE_REG_ADDR) w).1 =? 0) = negb (ready w PD i) /\
    (sys_read32 (i * TS_PD_OFFSET + PVT_CNTL_PD_00_SDIF_DATA_REG_ADDR) w).1 = sense w (osc w) PD i;
  law_vm i w : 0 <= i < NUM_VM -> (sys_read32 (i * VM_OFFSET + PVT_CNTL_VM_00_SDIF_RDATA_REG_ADDR) w).1 = sense w 0 VM i
}.

Section reads.
Context {W : Type} `{PvtLaws W}.
Variable fuel : nat.
Hypothesis Hfuel : sdif_bound + 20000000 <= Z.of_nat fuel.
Implicit Types (p : pvt W) (w : W).

#[export] Instance kept_preorder : PreOrder (kept (W := W)).
Proof. split; [done|]. intros w1 w2 w3 [A B] [A' B']. split; intros; [by rewrite A', A|by rewrite B', B]. Qed.

(** Only time has passed. *)
Definition still p p' : Prop :=
  kept (hw p) (hw p') /\ osc (hw p') = osc (hw p) /\ therm_cali_delta p' = therm_cali_delta p /\
  selected_pd_delay_chain p' = selected_pd_delay_chain p /\ new_delay_chain p' = new_delay_chain p.
#[export] Instance still_preorder : PreOrder still.
Proof. split; [done|]. intros p1 p2 p3 (A & B & C & D & E) (A' & B' & C' & D' & E'). split_and!; [by etransitivity|congruence..]. Qed.

Lemma rd_ok a p : does (rd a) p (fun v p' => v = (sys_read32 a (hw p)).1 /\ still p p' /\ hw p' = (sys_read32 a (hw p)).2).
Proof.
  unfold rd, does. destruct (law_read a (hw p)) as (K & O & _). destruct (sys_read32 a (hw p)) as [v w]. exists v, (set_hw w p). done.
Qed.
Lemma uptime_ok p : does uptime p (fun v p' => v = ns (hw p) / 1000000 /\ still p p' /\ ns (hw p) <= ns (hw p') <= ns (hw p) + 1000000).
Proof.
  unfold uptime, does. destruct (law_uptime (hw p)) as (V & K & O & N). destruct (k_uptime_get (hw p)) as [v w]. exists v, (set_hw w p). done.
Qed.

(** A sample of a sensor with data. *)
Lemma poll_ready n a deadline p : (forall w, kept (hw p) w -> (sys_read32 a w).1 <> 0) -> ns (hw p) + 2000000 <= deadline * 1000000 ->
  does (poll_done (Datatypes.S n) a deadline) p (fun t p' => t = false /\ still p p').
Proof.
  intros Hd Hn. cbn [poll_done]. eapply does_bind; [apply rd_ok|]. cbn beta. intros v p1 (-> & S1 & E1).
  eapply does_bind; [apply uptime_ok|]. cbn beta. intros now p2 (-> & S2 & _). rewrite (proj2 (Z.eqb_neq _ 0)) by (apply Hd; reflexivity). cbn [andb].
  apply does_ret. split; [|by etransitivity]. apply Z.ltb_ge. destruct (law_read a (hw p)) as (_ & _ & N). rewrite <- E1 in N.
  Z.to_euclidean_division_equations; lia.
Qed.

(** One without: the wait ends, and is reported. *)
Lemma poll_never n a deadline p : (forall w, kept (hw p) w -> (sys_read32 a w).1 = 0) -> 0 <= deadline -> deadline * 1000000 + 2000000000 < 2 ^ 83 ->
  (deadline + 1) * 1000000 - ns (hw p) < Z.of_nat n -> (0 < n)%nat -> does (poll_done n a deadline) p (fun t p' => t = true /\ still p p').
Proof.
  revert p. induction n as [|n IH]; intros p Hd Hdl H83 Hn Hp; [lia|]. cbn [poll_done]. eapply does_bind; [apply rd_ok|]. cbn beta. intros v p1 (-> & S1 & E1).
  eapply does_bind; [apply uptime_ok|]. cbn beta. intros now p2 (-> & S2 & N2). rewrite (Hd (hw p)) by reflexivity. cbn [Z.eqb andb].
  destruct (Z.ltb_spec deadline (ns (hw p1) / 1000000)) as [Hl|Hl]; cbn [negb]; [apply does_ret; split; [done|by etransitivity]|].
  destruct (law_read a (hw p)) as (_ & _ & N). assert (ns (hw p1) < (deadline + 1) * 1000000) by (Z.to_euclidean_division_equations; lia).
  assert (T : ns (hw p) < ns (hw p1)) by (rewrite E1; apply law_tick; rewrite <- E1 in N; lia).
  eapply does_mono; [apply (IH p2)|].
  - intros w K. apply Hd. destruct S1 as [K1 _], S2 as [K2 _]. by do 2 (etransitivity; [eassumption|]).
  - done.
  - done.
  - lia.
  - destruct n; [lia|lia].
  - cbn beta. intros t p' [-> S']. split; [done|]. by do 2 (etransitivity; [eassumption|]).
Qed.

(** What an automatic read gives, by the readiness and the word of the sensor. *)
Definition auto_result (r : bool) (v : Z) : ReadStatus * option Z := if r then of_sample v else (SdifTimeout, None).

Lemma auto_ok type i done data p (r : bool) x :
  (forall w, kept (hw p) w -> ((sys_read32 (get_pvt_addr type i done) w).1 =? 0) = negb r) ->
  (forall w, kept (hw p) w -> osc w = osc (hw p) -> (sys_read32 (get_pvt_addr type i data) w).1 = x) ->
  (r = true \/ ns (hw p) + 3000000000 < 2 ^ 83) ->
  does (read_pvt_auto_mode fuel type i done data) p (fun s p' => s = auto_result r x /\ still p p').
Proof.
  intros Hdone Hdata Hr. unfold read_pvt_auto_mode. eapply does_bind; [apply uptime_ok|]. cbn beta. intros now p1 (-> & S1 & N1).
  pose proof (law_ns (hw p)) as Hns. assert (Hw : u64 (ns (hw p) / 1000000 + SDIF_DONE_TIMEOUT_MS) = ns (hw p) / 1000000 + 10).
  { unfold SDIF_DONE_TIMEOUT_MS. apply wrap_small. unfold in_width. Z.to_euclidean_division_equations; lia. }
  rewrite Hw. pose proof S1 as (K1 & O1 & _). destruct r; cbn [auto_result negb] in *.
  - destruct fuel as [|n] eqn:Ef; [pose proof (law_busy (hw p)); lia|].
    eapply does_bind; [apply poll_ready|].
    + intros w K. apply Z.eqb_neq, Hdone. by etransitivity.
    + Z.to_euclidean_division_equations; lia.
    + cbn beta. intros t p2 [-> S2]. pose proof S2 as (K2 & O2 & _). eapply does_bind; [apply rd_ok|]. cbn beta. intros v p3 (-> & S3 & _).
      apply does_ret. split; [|by do 2 (etransitivity; [eassumption|])]. f_equal. apply Hdata; [by etransitivity|congruence].
  - destruct Hr as [|Hr]; [done|]. eapply does_bind; [apply (poll_never fuel)|].
    + intros w K. apply Z.eqb_eq, Hdone. by etransitivity.
    + Z.to_euclidean_division_equations; lia.
    + Z.to_euclidean_division_equations; lia.
    + pose proof (law_busy (hw p)). Z.to_euclidean_division_equations; lia.
    + pose proof (law_busy (hw p)). lia.
    + cbn beta. intros t p2 [-> S2]. apply does_ret. split; [done|]. by etransitivity.
Qed.

Lemma sensor_addr type i base : 0 <= i < 16 -> 0x80080000 <= base < 0x80081000 ->
  get_pvt_addr type i base = i * match type with VM => VM_OFFSET | _ => TS_PD_OFFSET end + base.
Proof. intros Hi Hb. apply wrap_small. unfold in_width, VM_OFFSET, TS_PD_OFFSET. destruct type; lia. Qed.

Lemma read_ts_raw_ok i p : 0 <= i < NUM_TS -> (ready (hw p) TS i = true \/ ns (hw p) + 3000000000 < 2 ^ 83) ->
  does (read_ts_raw fuel i) p (fun s p' => s = auto_result (ready (hw p) TS i) (sense (hw p) 0 TS i) /\ still p p').
Proof.
  intros Hi Hr. apply auto_ok; [| |done]; unfold NUM_TS in *.
  - intros w [_ Kr]. rewrite sensor_addr by (lia || done). rewrite <- Kr. by apply law_ts.
  - intros w [Ks _] _. rewrite sensor_addr by (lia || done). rewrite <- Ks. by apply law_ts.
Qed.
Lemma read_pd_raw_ok i p : 0 <= i < NUM_PD -> (ready (hw p) PD i = true \/ ns (hw p) + 3000000000 < 2 ^ 83) ->
  does (read_pvt_auto_mode fuel PD i PVT_CNTL_PD_00_SDIF_DONE_REG_ADDR PVT_CNTL_PD_00_SDIF_DATA_REG_ADDR) p
    (fun s p' => s = auto_result (ready (hw p) PD i) (sense (hw p) (osc (hw p)) PD i) /\ still p p').
Proof.
  intros Hi Hr. apply auto_ok; [| |done]; unfold NUM_PD in *.
  - intros w [_ Kr]. rewrite sensor_addr by (lia || done). rewrite <- Kr. by apply law_pd.
  - intros w [Ks _] O. rewrite sensor_addr by (lia || done). rewrite <- Ks, <- O. by apply law_pd.
Qed.

(** *** Writes over the SDIF *)

(** Nothing of the driver has changed but the oscillator. *)
Definition driven p p' : Prop :=
  kept (hw p) (hw p') /\ therm_cali_delta p' = therm_cali_delta p /\
  selected_pd_delay_chain p' = selected_pd_delay_chain p /\ new_delay_chain p' = new_delay_chain p.
#[export] Instance driven_preorder : PreOrder driven.
Proof. split; [done|]. intros p1 p2 p3 (A & B & C & D) (A' & B' & C' & D'). split_and!; [by etransitivity|congruence..]. Qed.
Lemma still_driven p p' : still p p' -> driven p p'.
Proof. intros (A & _ & B & C & D). done. Qed.

Lemma sdif_ready_ok n a p :
  a = PVT_CNTL_TS_CMN_SDIF_STATUS_REG_ADDR \/ a = PVT_CNTL_PD_CMN_SDIF_STATUS_REG_ADDR \/ a = PVT_CNTL_VM_CMN_SDIF_STATUS_REG_ADDR ->
  busy (hw p) < Z.of_nat n -> does (wait_sdif_ready n a) p (fun _ p' => still p p').
Proof.
  intros Ha. revert p. induction n as [|n IH]; intros p Hn; [pose proof (law_busy (hw p)); lia|]. cbn [wait_sdif_ready].
  eapply does_bind; [apply rd_ok|]. cbn beta. intros v p1 (-> & S1 & E1). destruct (Z.testbit _ 0) eqn:Eb; [|by apply does_ret].
  eapply does_mono; [apply IH; rewrite E1; pose proof (law_status a (hw p) Ha Eb); lia|]. cbn beta. intros _ p' S'. by etransitivity.
Qed.
Lemma wr_ok v a p : does (wr v a) p (fun _ p' => driven p p' /\
  osc (hw p') = if (a =? PVT_CNTL_PD_CMN_SDIF_REG_ADDR) && (bits_get 24 3 v =? IP_CFG0_ADDR) then bits_get 8 5 v else osc (hw p)).
Proof. exists tt, (set_hw (sys_write32 v a (hw p)) p). split; [done|]. destruct (law_write v a (hw p)) as [K O]. done. Qed.

Lemma sdif_fields a d : 0 <= a < 8 -> bits_get 24 3 (sdif_reg a d) = a /\ bits_get 8 5 (sdif_reg a d) = bits_get 8 5 d.
Proof.
  intros Ha. unfold sdif_reg. split.
  - rewrite !bits_get_set_other by lia. rewrite bits_get_set_same by lia. apply wrap_small. done.
  - rewrite !bits_get_set_other by lia. apply Z.bits_inj'. intros i Hi. rewrite !bits_get_spec, bits_set_spec by lia.
    destruct (Z.ltb_spec i 5); [|done]. rewrite (proj2 (Z.leb_le 0 (i + 8))), (proj2 (Z.ltb_lt (i + 8) (0 + 24))) by lia. cbn [andb]. by rewrite Z.sub_0_r.
Qed.
Lemma sdif_write_ok st reg a d p :
  st = PVT_CNTL_TS_CMN_SDIF_STATUS_REG_ADDR \/ st = PVT_CNTL_PD_CMN_SDIF_STATUS_REG_ADDR \/ st = PVT_CNTL_VM_CMN_SDIF_STATUS_REG_ADDR -> 0 <= a < 8 ->
  does (sdif_write fuel st reg a d) p (fun _ p' => driven p p' /\
    osc (hw p') = if (reg =? PVT_CNTL_PD_CMN_SDIF_REG_ADDR) && (a =? IP_CFG0_ADDR) then bits_get 8 5 d else osc (hw p)).
Proof.
  intros Hst Ha. unfold sdif_write. eapply does_bind; [apply sdif_ready_ok; [done|pose proof (law_busy (hw p)); lia]|]. cbn beta. intros _ p1 S1.
  eapply does_mono; [apply wr_ok|]. cbn beta. intros _ p2 [D2 O2]. split; [etransitivity; [by apply still_driven|exact D2]|].
  destruct (sdif_fields a d Ha) as [E1 E2]. rewrite E1, E2 in O2. rewrite O2. destruct S1 as (_ & O1 & _). by rewrite O1.
Qed.
End reads.

(** ** A list of channels *)

Section channels.
Context {W : Type} `{PvtLaws W}.
Variable cfg : pvt_tt_bh_config.
Variable junk : Z -> Z.
Variable fuel : nat.
Hypothesis Hfuel : sdif_bound + 20000000 <= Z.of_nat fuel.
Implicit Types (p : pvt W) (w : W).

(** Zephyr's channel numbers are unsigned; the device tree's counts; a correction per sensor. *)
Record pvt_wf p : Prop := {
  pw_pd : num_pd cfg <= NUM_PD;
  pw_vm : num_vm cfg <= NUM_VM;
  pw_ts : num_ts cfg = NUM_TS;
  pw_deltas : len (therm_cali_delta p) = NUM_TS;
  pw_chain : is_u32 (new_delay_chain p) /\ new_delay_chain p <> 0xFF;
  pw_ready : forall t i, ready (hw p) t i = true;
  pw_cache : selected_pd_delay_chain p = 0xFF \/ osc (hw p) = selected_pd_delay_chain p mod 32
}.
Definition later p p' : Prop :=
  kept (hw p) (hw p') /\ therm_cali_delta p' = therm_cali_delta p /\ new_delay_chain p' = new_delay_chain p.
#[export] Instance later_preorder : PreOrder later.
Proof. split; [done|]. intros p1 p2 p3 (A & B & C) (A' & B' & C'). split_and!; [by etransitivity|congruence..]. Qed.

(** The code that refuses a channel. *)
Definition check (chan : sensor_chan_spec) : option Z :=
  match chan_type chan with
  | CHAN_PD => if num_pd cfg <=? chan_idx chan then Some (- EINVAL) else None
  | CHAN_VM => if num_vm cfg <=? chan_idx chan then Some (- EINVAL) else None
  | CHAN_TS => if num_ts cfg <=? chan_idx chan then Some (- EINVAL) else None
  | CHAN_TS_AVG => None
  | CHAN_OTHER => Some (- ENOTSUP)
  end.
Definition correction p (i : Z) : Z := default 0 (aget (therm_cali_delta p) i).
Definition average p : Z :=
  fold_left (fun sum i => u16 (sum + (default (junk i) (of_sample (sense (hw p) 0 TS i)).2 - correction p i))) (seqZ 0 8) 0 / 8.
(** What a word gives in a slot that held [old]. *)
Definition kept_or (old : Z) (s : ReadStatus * option Z) : ReadStatus * Z := (s.1, default old s.2).
(** What a channel reads as, in such a slot. *)
Definition entry p (chan : sensor_chan_spec) (old : Z) : ReadStatus * Z :=
  match chan_type chan with
  | CHAN_PD => kept_or old (of_sample (sense (hw p) (new_delay_chain p mod 32) PD (chan_idx chan)))
  | CHAN_VM => kept_or old (of_sample (sense (hw p) 0 VM (chan_idx chan)))
  | CHAN_TS => let s := kept_or old (of_sample (sense (hw p) 0 TS (chan_idx chan))) in (s.1, u16 (s.2 - correction p (chan_idx chan)))
  | _ => (ReadOk, average p)
  end.

Lemma fold_left_pointwise {A B} (f g : A -> B -> A) l a : (forall a b, f a b = g a b) -> fold_left f l a = fold_left g l a.
Proof. intros E. revert a. induction l as [|b l IH]; intros a; cbn; [done|]. by rewrite E. Qed.

Lemma average_later p p' : later p p' -> average p' = average p.
Proof.
  intros ((Ks & _) & Ed & _). unfold average. f_equal. apply fold_left_pointwise. intros sum i. unfold correction. by rewrite Ks, Ed.
Qed.
Lemma entry_later p p' chan old : later p p' -> entry p' chan old = entry p chan old.
Proof.
  intros L. pose proof L as ((Ks & _) & Ed & Ec). unfold entry, correction. rewrite (average_later p p' L), Ed, Ec.
  destruct (chan_type chan); by rewrite ?Ks.
Qed.

Lemma gets_ok {A} (f : pvt W -> A) p : does (gets f) p (fun a p' => a = f p /\ p' = p).
Proof. by exists (f p), p. Qed.

Lemma wf_still p p' : pvt_wf p -> still p p' -> pvt_wf p' /\ later p p'.
Proof.
  intros [A B C D E F G] ((Ks & Kr) & O & Ed & Es & Ec). split; [|split_and!; done].
  split; rewrite ?Ed, ?Ec, ?Es, ?O; try done. intros t i. by rewrite Kr.
Qed.

Lemma delta_ok i p : pvt_wf p -> 0 <= i < NUM_TS -> does (delta i) p (fun d p' => d = correction p i /\ p' = p).
Proof.
  intros Hwf Hi. unfold delta, correction. exists (default 0 (aget (therm_cali_delta p) i)), p. split; [|done].
  destruct (aget_in (therm_cali_delta p) i) as [d E]; [rewrite (pw_deltas p Hwf); done|]. unfold mbind, M_bind, gets, lift. cbn. by rewrite E.
Qed.

Lemma osc_select c : bits_get 8 5 (pd_ip_cfg0 0 c ALL_AGING_OSC 0x3) = c mod 32.
Proof. unfold pd_ip_cfg0. rewrite !bits_get_set_other by lia. by rewrite bits_get_set_same by lia. Qed.

Lemma select_ok p : pvt_wf p ->
  does (select_delay_chain_and_start_pd_conv fuel (new_delay_chain p)) p (fun _ p' => pvt_wf p' /\ later p p' /\ osc (hw p') = new_delay_chain p mod 32).
Proof.
  intros Hwf. destruct Hwf as [A B C D E F G]. unfold select_delay_chain_and_start_pd_conv.
  eapply does_bind; [apply gets_ok|]. cbn beta. intros sel p0 [-> ->].
  destruct (Z.eqb_spec (new_delay_chain p) (selected_pd_delay_chain p)) as [Es|Hne]; cbn [negb].
  - apply does_ret. split; [by split|]. split; [done|]. destruct G as [G|G]; [|by rewrite Es]. exfalso. apply (proj2 E). congruence.
  - eapply does_bind; [apply sdif_write_ok; [done|by right; left|unfold IP_CFG0_ADDR; lia]|]. cbn beta. intros _ p1 [D1 O1].
    rewrite osc_select in O1. change (_ && _) with true in O1. cbn [andb] in O1.
    eapply does_bind; [apply sdif_write_ok; [done|by right; left|unfold IP_CNTL_ADDR; lia]|]. cbn beta. intros _ p2 [D2 O2].
    change (_ && _) with false in O2. cbn in O2.
    eapply (does_bind _ _ _ _ (fun _ p3 => driven p2 p3 /\ osc (hw p3) = osc (hw p2))).
    { exists tt, (set_hw (k_usleep 250 (hw p2)) p2). split; [done|]. destruct (law_sleep 250 (hw p2)) as [K O]. done. }
    cbn beta. intros _ p3 [D3 O3]. pose proof (transitivity D1 (transitivity D2 D3)) as ((Ks & Kr) & Ed & _ & Ec).
    exists tt. eexists. split; [reflexivity|]. cbn [hw therm_cali_delta new_delay_chain selected_pd_delay_chain].
    assert (Ho : osc (hw p3) = new_delay_chain p mod 32) by congruence.
    split; [|split; [split_and!; done|done]]. split; cbn; rewrite ?Ed, ?Ec; try done; [|by right]. intros t i. by rewrite Kr, F.
Qed.

Lemma avg_ok p : pvt_wf p -> does (read_ts_avg junk fuel) p (fun r p' => r = (ReadOk, average p) /\ pvt_wf p' /\ later p p').
Proof.
  intros Hwf. unfold read_ts_avg.
  set (step := fun sum i => u16 (sum + (default (junk i) (of_sample (sense (hw p) 0 TS i)).2 - correction p i))).
  eapply (does_bind _ _ _ _ (fun sum p' => sum = fold_left step (seqZ 0 8) 0 /\ pvt_wf p' /\ later p p')).
  - apply (for_m_ok (fun i sum p' => sum = fold_left step (seqZ 0 i) 0 /\ pvt_wf p' /\ later p p')); [done|].
    intros i sum p1 Hi (-> & W1 & L1). assert (HiT : 0 <= i < NUM_TS) by (unfold NUM_TS; lia).
    eapply does_bind; [apply read_ts_raw_ok; [done|done|left; apply (pw_ready p1 W1)]|]. cbn beta. intros s p2 [-> S2].
    rewrite (pw_ready p1 W1). cbn [auto_result]. destruct (wf_still p1 p2 W1 S2) as [W2 L2]. pose proof L1 as ((Ks & _) & Ed & _). rewrite Ks.
    pose proof (eq_refl (of_sample (sense (hw p) 0 TS i))) as Es. destruct (of_sample (sense (hw p) 0 TS i)) as [st v] in Es at 2 |- *.
    eapply does_bind; [by apply delta_ok|]. cbn beta. intros d p3 [-> ->]. apply does_ret.
    split; [|split; [done|by etransitivity]]. replace (seqZ 0 (i + 1)) with (seqZ 0 i ++ [i]).
    + rewrite fold_left_app. cbn [fold_left]. unfold step at 2. rewrite Es. cbn [snd]. unfold correction. destruct L2 as (_ & Ed2 & _). by rewrite Ed2, Ed.
    + rewrite seqZ_app, Z.add_0_l by lia. done.
  - cbn beta. intros sum p1 (-> & W1 & L1). apply does_ret. unfold average, step. split; [reflexivity|by split].
Qed.

Lemma read_pd_ok p i old : pvt_wf p -> 0 <= i < NUM_PD ->
  does (read_pd fuel i (new_delay_chain p) old) p (fun r p' => r = kept_or old (of_sample (sense (hw p) (new_delay_chain p mod 32) PD i)) /\ pvt_wf p' /\ later p p').
Proof.
  intros Hwf Hi. unfold read_pd. eapply does_bind; [by apply select_ok|]. cbn beta. intros _ p1 (W1 & L1 & O1).
  eapply does_bind; [apply read_pd_raw_ok; [done|done|left; apply (pw_ready p1 W1)]|]. cbn beta. intros s p2 [-> S2].
  rewrite (pw_ready p1 W1), O1. cbn [auto_result]. destruct (wf_still p1 p2 W1 S2) as [W2 L2]. pose proof L1 as ((Ks & _) & _). rewrite Ks.
  destruct (of_sample _) as [st v]. apply does_ret. split; [done|]. split; [done|by etransitivity].
Qed.
Lemma read_vm_ok p i old : pvt_wf p -> 0 <= i < NUM_VM ->
  does (read_vm i old) p (fun r p' => r = kept_or old (of_sample (sense (hw p) 0 VM i)) /\ pvt_wf p' /\ later p p').
Proof.
  intros Hwf Hi. unfold read_vm. eapply does_bind; [apply rd_ok|]. cbn beta. intros v p1 (-> & S1 & _). rewrite law_vm by done.
  destruct (wf_still p p1 Hwf S1) as [W1 L1]. destruct (of_sample _) as [st v]. by apply does_ret.
Qed.
Lemma read_ts_ok p i old : pvt_wf p -> 0 <= i < NUM_TS ->
  does (read_ts fuel i old) p (fun r p' =>
    r = (let s := kept_or old (of_sample (sense (hw p) 0 TS i)) in (s.1, u16 (s.2 - correction p i))) /\ pvt_wf p' /\ later p p').
Proof.
  intros Hwf Hi. unfold read_ts. eapply does_bind; [apply read_ts_raw_ok; [done|done|left; apply (pw_ready p Hwf)]|]. cbn beta. intros s p1 [-> S1].
  rewrite (pw_ready p Hwf). cbn [auto_result]. destruct (wf_still p p1 Hwf S1) as [W1 L1]. destruct (of_sample _) as [st v].
  eapply does_bind; [by apply delta_ok|]. cbn beta. intros d p2 [-> ->]. apply does_ret. split; [|done].
  destruct L1 as (_ & Ed & _). unfold correction. by rewrite Ed.
Qed.

Lemma channel_ok p chan old : pvt_wf p -> 0 <= chan_idx chan ->
  does (read_channel cfg junk fuel chan old) p (fun r p' =>
    r = match check chan with Some e => inl e | None => inr (entry p chan old) end /\ pvt_wf p' /\ later p p').
Proof.
  intros Hwf Hi. unfold read_channel, check, entry. destruct (chan_type chan).
  - destruct (Z.leb_spec (num_pd cfg) (chan_idx chan)) as [_|Hlt]; [by apply does_ret|]. pose proof (pw_pd p Hwf).
    eapply does_bind; [apply gets_ok|]. cbn beta. intros c p0 [-> ->]. eapply does_bind; [apply read_pd_ok; [done|lia]|].
    cbn beta. intros r p1 (-> & W1 & L1). by apply does_ret.
  - destruct (Z.leb_spec (num_vm cfg) (chan_idx chan)) as [_|Hlt]; [by apply does_ret|]. pose proof (pw_vm p Hwf).
    eapply does_bind; [apply read_vm_ok; [done|lia]|]. cbn beta. intros r p1 (-> & W1 & L1). by apply does_ret.
  - destruct (Z.leb_spec (num_ts cfg) (chan_idx chan)) as [_|Hlt]; [by apply does_ret|]. rewrite (pw_ts p Hwf) in Hlt.
    assert (Eu : u8 (chan_idx chan) = chan_idx chan) by (apply wrap_small; unfold in_width, NUM_TS in *; lia). rewrite Eu.
    eapply does_bind; [apply read_ts_ok; [done|lia]|]. cbn beta. intros r p1 (-> & W1 & L1). by apply does_ret.
  - eapply does_bind; [by apply avg_ok|]. cbn beta. intros r p1 (-> & W1 & L1). apply does_ret. split; [reflexivity|by split].
  - by apply does_ret.
Qed.

(** The completion code of a channel in a slot that held [old]: zero, if it is read. *)
Definition verdict p (chan : sensor_chan_spec) (old : Z) : Z :=
  match check chan with Some e => e | None => status_code (entry p chan old).1 end.
(** The buffer and the code of a read of [chans], from slot [i] on. *)
Fixpoint sampled p (chans : list sensor_chan_spec) (data : list pvt_tt_bh_rtio_data) : Z * list pvt_tt_bh_rtio_data :=
  match chans, data with
  | chan :: chans, d :: data =>
      if verdict p chan (raw d) =? 0 then let r := sampled p chans data in (r.1, MkData chan (entry p chan (raw d)).2 :: r.2)
      else (verdict p chan (raw d), MkData chan (match check chan with Some _ => raw d | None => (entry p chan (raw d)).2 end) :: data)
  | _, _ => (0, data)
  end.

Lemma verdict_later p p' chan old : later p p' -> verdict p' chan old = verdict p chan old.
Proof. intros L. unfold verdict. by rewrite (entry_later p p' chan old L). Qed.
Lemma sampled_later p p' chans data : later p p' -> sampled p' chans data = sampled p chans data.
Proof.
  intros L. revert data. induction chans as [|chan chans IH]; intros [|d data]; [done..|]. cbn [sampled].
  by rewrite IH, (verdict_later p p' chan (raw d) L), (entry_later p p' chan (raw d) L).
Qed.
Lemma status_code_0 s : status_code s = 0 <-> s = ReadOk.
Proof. by destruct s. Qed.
Lemma check_nonzero chan e : check chan = Some e -> e <> 0.
Proof. unfold check, EINVAL, ENOTSUP. destruct (chan_type chan); repeat case_match; intros [= <-]; done. Qed.

Lemma aget_mid {A} (pre l : list A) x : aget (pre ++ x :: l) (len pre) = Some x.
Proof. rewrite aget_nat by lia. rewrite Nat2Z.id. by apply list_lookup_middle. Qed.
Lemma aset_mid {A} (pre l : list A) x y : aset (pre ++ x :: l) (len pre) y = Some (pre ++ y :: l).
Proof. rewrite aset_in by (rewrite length_app; cbn; lia). rewrite Nat2Z.id. f_equal. rewrite <- (Nat.add_0_r (length pre)) at 1. by rewrite insert_app_r. Qed.

Lemma sample_loop_ok chans p pre data : pvt_wf p -> Forall (fun c => 0 <= chan_idx c) chans -> (length chans <= length data)%nat ->
  does (sample_loop cfg junk fuel chans (len pre) (pre ++ data)) p (fun r p' =>
    r = (let s := sampled p chans data in (s.1, pre ++ s.2)) /\ pvt_wf p' /\ later p p').
Proof.
  revert p pre data. induction chans as [|chan chans IH]; intros p pre data Hwf Hc Hl.
  { apply does_ret. by destruct data. }
  destruct data as [|d data]; [cbn in Hl; lia|]. apply Forall_cons in Hc as [Hi Hc]. cbn [sample_loop sampled].
  rewrite aget_mid. apply does_bind with (Q := fun old p' => old = d /\ p' = p); [by apply does_lift|]. intros ? ? [-> ->]. rewrite aset_mid.
  apply does_bind with (Q := fun l p' => l = pre ++ MkData chan (raw d) :: data /\ p' = p); [by apply does_lift|]. intros ? ? [-> ->].
  eapply does_bind; [by apply channel_ok|]. cbn beta. intros r p1 (-> & W1 & L1). unfold verdict. destruct (check chan) as [e|] eqn:Ec.
  - apply check_nonzero in Ec. rewrite (proj2 (Z.eqb_neq e 0)) by done. by apply does_ret.
  - destruct (entry p chan (raw d)) as [st v]. cbn [fst snd]. rewrite aset_mid.
    apply does_bind with (Q := fun l p' => l = pre ++ MkData chan v :: data /\ p' = p1); [by apply does_lift|]. intros ? ? [-> ->].
    case_decide as Es; [apply status_code_0 in Es; rewrite Es; cbn [Z.eqb]|rewrite <- status_code_0 in Es; rewrite (proj2 (Z.eqb_neq _ 0)) by done; by apply does_ret].
    pose proof (IH p1 (pre ++ [MkData chan v]) data W1 Hc ltac:(cbn in Hl; lia)) as Hrest.
    rewrite <- app_assoc, length_app, Nat2Z.inj_add in Hrest. eapply does_mono; [exact Hrest|]. cbn beta. intros r p2 (-> & W2 & L2).
    rewrite (sampled_later p p1 _ _ L1). cbn [fst snd]. rewrite <- app_assoc. split; [done|]. split; [done|by etransitivity].
Qed.

(** The channels before the first that fails are read; it gives the code; the rest of the buffer is left. *)
Lemma sampled_spec p chans data : (length chans <= length data)%nat ->
  let '(code, data') := sampled p chans data in
  length data' = length data /\ exists n, (n <= length chans)%nat /\
    (forall j chan d, (j < n)%nat -> chans !! j = Some chan -> data !! j = Some d ->
       verdict p chan (raw d) = 0 /\ data' !! j = Some (MkData chan (entry p chan (raw d)).2)) /\
    (forall j, (n < j)%nat \/ (length chans <= j)%nat -> data' !! j = data !! j) /\
    (n = length chans /\ code = 0 \/
     exists chan d, chans !! n = Some chan /\ data !! n = Some d /\ code = verdict p chan (raw d) /\ code <> 0).
Proof.
  revert data. induction chans as [|chan chans IH]; intros [|d data] Hl; cbn in Hl; [..|lia|].
  1, 2: cbn; split; [done|]; exists 0%nat; split_and!; [lia|intros; lia|done|by left].
  cbn [sampled]. destruct (Z.eqb_spec (verdict p chan (raw d)) 0) as [Ev|Ev].
  - pose proof (IH data ltac:(lia)) as Hr. destruct (sampled p chans data) as [code data'].
    destruct Hr as (Hlen & n & Hn & Hread & Hleft & Hend). cbn [fst snd]. split; [cbn; by rewrite Hlen|]. exists (Datatypes.S n).
    split_and!; [cbn; lia|..].
    + intros [|j] c e Hj; cbn; [intros [= <-] [= <-]; done|]. apply Hread. lia.
    + intros [|j] Hj; cbn in Hj |- *; [lia|]. apply Hleft. lia.
    + destruct Hend as [[-> ->]|Hend]; [by left|by right].
  - split; [done|]. exists 0%nat. split_and!; [lia|intros; lia|intros [|j] Hj; [cbn in Hj; lia|done]|right; by exists chan, d].
Qed.

(** *** The handlers of the host *)

Section host.
Variable rnd : Q -> Q.
Context `{!FloatRounding rnd}.

Lemma decode_hit t n (val : Z -> Z) buf i out : (forall j, 0 <= j < n -> aget buf j = Some (MkData (MkSpec t j) (val j))) ->
  pvt_tt_bh_decode_sample rnd buf (MkSpec t i) n out =
    Some (if (0 <=? i) && (i <? n) then match convert rnd t (val i) with Some q => (0, q) | None => (- ENOTSUP, out) end else (0, out)).
Proof.
  intros Hb. unfold pvt_tt_bh_decode_sample.
  assert (G : forall k lo, 0 <= lo -> lo + Z.of_nat k = Z.max lo n -> decode_loop rnd k lo buf (MkSpec t i) out =
    Some (if (lo <=? i) && (i <? n) then match convert rnd t (val i) with Some q => (0, q) | None => (- ENOTSUP, out) end else (0, out))).
  { induction k as [|k IH]; intros lo Hlo Hk; cbn [decode_loop].
    - destruct (Z.leb_spec lo i), (Z.ltb_spec i n); try done; lia.
    - rewrite Hb by lia. cbn [mbind option_bind spec chan_type raw]. case_decide as E.
      + injection E as ->. rewrite (proj2 (Z.leb_le i i)), (proj2 (Z.ltb_lt i n)) by lia. cbn [andb]. by destruct (convert _ _ _).
      + assert (lo <> i) by congruence. rewrite IH by lia. do 2 f_equal.
        destruct (Z.leb_spec lo i), (Z.leb_spec (lo + 1) i); try done; lia. }
  destruct (Z.le_gt_cases 0 n); [apply G; lia|].
  replace (Z.to_nat n) with O by lia. cbn. destruct (Z.leb_spec 0 i), (Z.ltb_spec i n); try done; lia.
Qed.

Lemma iodev_lookup t n j : 0 <= j < n -> iodev t n !! Z.to_nat j = Some (MkSpec t j).
Proof. intros Hj. unfold iodev. rewrite list_lookup_fmap, lookup_seqZ_lt by lia. cbn. f_equal. f_equal. lia. Qed.
Lemma iodev_length t n : length (iodev t n) = Z.to_nat n.
Proof. unfold iodev. rewrite length_map. apply length_seqZ. Qed.

(** A read of all the sensors of a type, when each has a sample. *)
Lemma read_all_ok t n val p buf : pvt_wf p -> len buf = n ->
  (forall j old, 0 <= j < n -> verdict p (MkSpec t j) old = 0 /\ (entry p (MkSpec t j) old).2 = val j) ->
  does (pvt_tt_bh_submit cfg junk fuel true true (iodev t n) (inr buf)) p (fun r p' =>
    r.1 = 0 /\ (forall j, 0 <= j < n -> aget r.2 j = Some (MkData (MkSpec t j) (val j))) /\ len r.2 = n /\ pvt_wf p' /\ later p p').
Proof.
  intros Hwf Hl Hv. unfold pvt_tt_bh_submit, pvt_tt_bh_submit_sample. cbn [negb].
  assert (Hc : Forall (fun c => 0 <= chan_idx c) (iodev t n)).
  { unfold iodev. apply Forall_map, Forall_seqZ. intros x Hx. cbn. lia. }
  eapply does_mono; [apply (sample_loop_ok (iodev t n) p [] buf Hwf Hc); rewrite iodev_length; lia|]. cbn beta. intros r p' (-> & W' & L').
  pose proof (sampled_spec p (iodev t n) buf ltac:(rewrite iodev_length; lia)) as Hs. destruct (sampled p (iodev t n) buf) as [code buf'].
  destruct Hs as (Hlen & k & Hk & Hread & _ & Hend). cbn [fst snd app]. rewrite iodev_length in *.
  destruct Hend as [[-> ->]|(chan & d & E1 & E2 & -> & Hne)].
  - split; [done|]. split; [|split; [lia|done]]. intros j Hj. rewrite aget_nat by lia.
    destruct (lookup_lt_is_Some_2 buf (Z.to_nat j)) as [d Ed]; [lia|].
    destruct (Hread (Z.to_nat j) (MkSpec t j) d ltac:(lia) (iodev_lookup t n j Hj) Ed) as [_ ->]. do 2 f_equal. apply Hv, Hj.
  - exfalso. apply Hne. pose proof (lookup_lt_Some _ _ _ E1) as Hlt. rewrite iodev_length in Hlt.
    rewrite <- (Nat2Z.id k), iodev_lookup in E1 by lia. injection E1 as <-. apply Hv. lia.
Qed.

(** What the handlers share: a sensor that there is, or the local as it was found. *)
Lemma handler_ok t n val p id out buf (f g : Q -> option Z) d1 d2 : pvt_wf p -> len buf = n -> t <> CHAN_OTHER ->
  (forall j old, 0 <= j < n -> verdict p (MkSpec t j) old = 0 /\ (entry p (MkSpec t j) old).2 = val j) ->
  let q := if u16 id <? n then default out (convert rnd t (val (u16 id))) else out in
  f q = Some d1 -> g q = Some d2 ->
  does ('(ret, buf) ← pvt_tt_bh_submit cfg junk fuel true true (iodev t n) (inr buf);
        if negb (ret =? 0) then mret (u8 ret, None, buf) else
        '(_, x) ← lift (pvt_tt_bh_decode_sample rnd buf (MkSpec t (u16 id)) n out);
        d1 ← lift (f x); d2 ← lift (g x); mret (0, Some (d1, d2), buf)) p
    (fun r p' => r.1 = (0, Some (d1, d2)) /\ pvt_wf p' /\ later p p').
Proof.
  intros Hwf Hl Ht Hv q E1 E2. eapply does_bind; [by apply (read_all_ok t n val)|].
  cbn beta. intros [code buf'] p1 (E & Hb & _ & W1 & L1). cbn [fst snd] in E, Hb. subst code. cbn [negb Z.eqb].
  rewrite (decode_hit t n val buf' (u16 id) out Hb). apply does_bind with (Q := fun r p' => r.2 = q /\ p' = p1).
  { apply does_lift. split; [|done]. unfold q. pose proof (u16_range id) as Hu. unfold in_width in Hu. rewrite (proj2 (Z.leb_le 0 (u16 id))) by lia. cbn [andb].
    destruct (u16 id <? n); [|done]. by destruct t. }
  intros [c x] ? [E ->]. cbn [snd] in E. subst x. rewrite E1. apply does_bind with (Q := fun r p' => r = d1 /\ p' = p1); [by apply does_lift|]. intros ? ? [-> ->].
  rewrite E2. apply does_bind with (Q := fun r p' => r = d2 /\ p' = p1); [by apply does_lift|]. intros ? ? [-> ->]. by apply does_ret.
Qed.

(** What the channels give when every sensor has a sample. *)
Lemma ts_entries val p : pvt_wf p -> (forall j, 0 <= j < 8 -> of_sample (sense (hw p) 0 TS j) = (ReadOk, Some (val j))) ->
  forall j old, 0 <= j < 8 -> verdict p (MkSpec CHAN_TS j) old = 0 /\ (entry p (MkSpec CHAN_TS j) old).2 = u16 (val j - correction p j).
Proof.
  intros Hwf Hv j old Hj. unfold verdict, check, entry. cbn [chan_type chan_idx].
  rewrite (pw_ts p Hwf), (proj2 (Z.leb_gt NUM_TS j)) by (unfold NUM_TS; lia). by rewrite Hv.
Qed.
Lemma pd_entries val p : num_pd cfg = 16 -> (forall j, 0 <= j < 16 -> of_sample (sense (hw p) (new_delay_chain p mod 32) PD j) = (ReadOk, Some (val j))) ->
  forall j old, 0 <= j < 16 -> verdict p (MkSpec CHAN_PD j) old = 0 /\ (entry p (MkSpec CHAN_PD j) old).2 = val j.
Proof.
  intros Hn Hv j old Hj. unfold verdict, check, entry. cbn [chan_type chan_idx]. rewrite Hn, (proj2 (Z.leb_gt 16 j)) by lia. by rewrite Hv.
Qed.
Lemma vm_entries val p : num_vm cfg = 8 -> (forall j, 0 <= j < 8 -> of_sample (sense (hw p) 0 VM j) = (ReadOk, Some (val j))) ->
  forall j old, 0 <= j < 8 -> verdict p (MkSpec CHAN_VM j) old = 0 /\ (entry p (MkSpec CHAN_VM j) old).2 = val j.
Proof.
  intros Hn Hv j old Hj. unfold verdict, check, entry. cbn [chan_type chan_idx]. rewrite Hn, (proj2 (Z.leb_gt 8 j)) by lia. by rewrite Hv.
Qed.
Lemma of_sample_range v x : of_sample v = (ReadOk, Some x) -> 0 <= x <= 65535.
Proof. unfold of_sample. repeat case_match; intros [= <-]. unfold sample_data. pose proof (bits_get_range 0 16 v ltac:(lia) ltac:(lia)) as Hb. unfold in_width in Hb. lia. Qed.

Lemma set_chain_wf c p : pvt_wf p -> is_u32 c -> c <> 0xFF -> pvt_wf (MkPvt (hw p) (therm_cali_delta p) (selected_pd_delay_chain p) c).
Proof. intros [] Hc Hn. split; cbn; auto. Qed.
End host.
End channels.

(** ** Set-up *)

Section setup.
Context {W : Type} `{PvtLaws W}.
Variable rnd : Q -> Q.
Context `{!FloatRounding rnd}.
Variable cfg : pvt_tt_bh_config.
Variable tt_bh_efuse_read : Z -> Z * Z.
Variable apb_clk : Z.
Variable fuel : nat.
Hypothesis Hfuel : sdif_bound + 20000000 <= Z.of_nat fuel.
Implicit Types (p : pvt W).

Section window.
#[local] Open Scope Q_scope.
(** The temperature of a sample, up to the rounding. *)
Lemma raw_to_temp_near (r : Z) : (0 <= r <= 65535)%Z ->
  - (1 # 200) <= pvt_tt_bh_raw_to_temp rnd r - ((8309 # 100) + (2625 # 10) * (inject_Z r * (1 # 4096) - (1 # 2))) <= (1 # 200).
Proof.
  intros Hr. unfold pvt_tt_bh_raw_to_temp, fsub, fadd, fmul, fdiv. cbv zeta. pose proof (raw_range r Hr) as Hq.
  assert (E1 : inject_Z r / 4096 == inject_Z r * (1 # 4096)) by (unfold Qdiv; reflexivity).
  pose proof (near (inject_Z r / 4096) 16 ltac:(rewrite E1; lra) ltac:(lra)) as N1. set (a := rnd (inject_Z r / 4096)) in *. rewrite E1 in N1.
  pose proof (near (a - (1 # 2)) 17 ltac:(lra) ltac:(lra)) as N2. set (b := rnd (a - (1 # 2))) in *.
  pose proof (near ((2625 # 10) * b) 4500 ltac:(lra) ltac:(lra)) as N3. set (c := rnd ((2625 # 10) * b)) in *.
  pose proof (near (8309 # 100) 84 ltac:(lra) ltac:(lra)) as N4. set (k := rnd (8309 # 100)) in *.
  pose proof (near (k + c) 4600 ltac:(lra) ltac:(lra)) as N5. set (t := rnd (k + c)) in *. lra.
Qed.
Lemma fuse_window (r : Z) : (0 <= r <= 65535)%Z ->
  qle 22 (pvt_tt_bh_raw_to_temp rnd r) && qle (pvt_tt_bh_raw_to_temp rnd r) 28 = ((1095 <=? r) && (r <=? 1188))%Z.
Proof.
  intros Hr. pose proof (raw_to_temp_near r Hr) as N. set (t := pvt_tt_bh_raw_to_temp rnd r) in *.
  assert (L : forall a b : Z, (a <= b)%Z -> inject_Z a <= inject_Z b) by (intros; by rewrite <- Zle_Qle).
  apply eq_true_iff_eq. rewrite !andb_true_iff, !Z.leb_le, !qle_spec. split; intros [A B].
  - split; apply Z.nlt_ge; intros C; [pose proof (L r 1094%Z ltac:(lia)) as D; change (inject_Z 1094) with 1094 in D|
      pose proof (L 1189%Z r ltac:(lia)) as D; change (inject_Z 1189) with 1189 in D]; lra.
  - apply L in A, B. change (inject_Z 1095) with 1095 in A. change (inject_Z 1188) with 1188 in B. split; lra.
Qed.
Lemma celcius25 : pvt_tt_bh_temp_to_raw rnd 25 = Some 1142%Z.
Proof.
  unfold pvt_tt_bh_temp_to_raw, fsub, fadd, fmul, fdiv. cbv zeta.
  pose proof (near (8309 # 100) 84 ltac:(lra) ltac:(lra)) as N4. set (k := rnd (8309 # 100)) in *.
  pose proof (near (25 - k) 60 ltac:(lra) ltac:(lra)) as N6. set (d := rnd (25 - k)) in *.
  assert (E2 : d / (2625 # 10) == d * (2 # 525)) by field.
  pose proof (near (d / (2625 # 10)) 20 ltac:(rewrite E2; lra) ltac:(lra)) as N7. set (e := rnd (d / (2625 # 10))) in *. rewrite E2 in N7.
  pose proof (near (e + (1 # 2)) 21 ltac:(lra) ltac:(lra)) as N8. set (f := rnd (e + (1 # 2))) in *.
  pose proof (near (f * 4096) 70000 ltac:(lra) ltac:(lra)) as N9. set (g := rnd (f * 4096)) in *.
  apply to_raw_exact; [done|lia|]. change (inject_Z 1142) with 1142. lra.
Qed.
(** The thresholds of the alarms are defined. *)
Lemma dout_defined (t : Z) : (0 <= t <= 200)%Z -> is_Some (temp_to_dout rnd t).
Proof.
  intros Ht. unfold temp_to_dout, fsub, fadd, fmul, fdiv, float_to_unsigned.
  assert (Hq : 0 <= inject_Z t <= 200) by (change 0 with (inject_Z 0); change 200 with (inject_Z 200); rewrite <- !Zle_Qle; lia).
  pose proof (near (8309 # 100) 84 ltac:(lra) ltac:(lra)) as N4. set (k := rnd (8309 # 100)) in *.
  pose proof (near (inject_Z t - k) 200 ltac:(lra) ltac:(lra)) as N6. set (d := rnd (inject_Z t - k)) in *.
  assert (E2 : d / (2625 # 10) == d * (2 # 525)) by field.
  pose proof (near (d / (2625 # 10)) 20 ltac:(rewrite E2; lra) ltac:(lra)) as N7. set (e := rnd (d / (2625 # 10))) in *. rewrite E2 in N7.
  pose proof (near (e + (1 # 2)) 21 ltac:(lra) ltac:(lra)) as N8. set (f := rnd (e + (1 # 2))) in *.
  pose proof (near (f * 4096) 70000 ltac:(lra) ltac:(lra)) as N9. set (g := rnd (f * 4096)) in *.
  rewrite (proj2 (qlt_spec (-1) g)), (proj2 (qlt_spec g (inject_Z (2 ^ 16)))); [by eexists|change (inject_Z (2 ^ 16)) with 65536; lra|lra].
Qed.
End window.

(** Steps that leave the corrections alone. *)
Definition spares {A} (m : M (pvt W) A) : Prop := forall p, does m p (fun _ p' => therm_cali_delta p' = therm_cali_delta p).
Lemma spares_bind {A B} (m : M (pvt W) A) (f : A -> M (pvt W) B) : spares m -> (forall a, spares (f a)) -> spares (m ≫= f).
Proof. intros Hm Hf p. eapply does_bind; [apply Hm|]. cbn beta. intros a p1 E. eapply does_mono; [apply Hf|]. cbn beta. intros _ p2 E2. congruence. Qed.
Lemma spares_wr v a : spares (wr v a).
Proof. intros p. eapply does_mono; [apply wr_ok|]. cbn beta. intros _ p' [(_ & E & _) _]. done. Qed.
Lemma spares_sdif st reg a d :
  st = PVT_CNTL_TS_CMN_SDIF_STATUS_REG_ADDR \/ st = PVT_CNTL_PD_CMN_SDIF_STATUS_REG_ADDR \/ st = PVT_CNTL_VM_CMN_SDIF_STATUS_REG_ADDR -> 0 <= a < 8 ->
  spares (sdif_write fuel st reg a d).
Proof. intros Hst Ha p. eapply does_mono; [by apply sdif_write_ok|]. cbn beta. intros _ p' [(_ & E & _) _]. done. Qed.
Lemma spares_each n body : (forall i, spares (body i)) -> spares (for_each n body).
Proof.
  intros Hb p. unfold for_each. apply (for_m_ok (fun _ _ p' => therm_cali_delta p' = therm_cali_delta p)); [done|].
  intros i [] p1 _ E. eapply does_mono; [apply Hb|]. cbn beta. intros _ p2 E2. congruence.
Qed.
Lemma spares_sleep u : spares (sleep u).
Proof. intros p. by exists tt, (set_hw (k_usleep u (hw p)) p). Qed.
Lemma spares_lift {A} (o : option A) : is_Some o -> spares (lift o).
Proof. intros [a ->] p. by apply does_lift. Qed.
Lemma does_spares {A B} (m : M (pvt W) A) (f : A -> M (pvt W) B) p P :
  spares m -> (forall a p', therm_cali_delta p' = therm_cali_delta p -> does (f a) p' P) -> does (m ≫= f) p P.
Proof. intros Hm Hf. eapply does_bind; [apply Hm|exact Hf]. Qed.
Ltac spares := repeat match goal with
  | |- spares (wr _ _) => apply spares_wr
  | |- spares (sleep _) => apply spares_sleep
  | |- spares (for_each _ _) => apply spares_each; intros ?
  | |- spares (sdif_write _ _ _ _ _) => apply spares_sdif; [auto|unfold IP_TMR_ADDR, IP_CFG0_ADDR, IP_CNTL_ADDR; lia]
  | |- spares (lift (temp_to_dout _ _)) => apply spares_lift, dout_defined; lia
  | |- spares (_ ≫= _) => apply spares_bind; [|intros ?]
  end.

Lemma spares_interrupt_config : spares (pvt_tt_bh_interrupt_config rnd).
Proof. unfold pvt_tt_bh_interrupt_config, ALARM_A_THERM_TRIP_TEMP, ALARM_B_THERM_TRIP_TEMP, TS_HYSTERESIS_DELTA. spares. Qed.
Lemma spares_clock_config : spares (pvt_tt_bh_clock_config apb_clk).
Proof. unfold pvt_tt_bh_clock_config. spares. Qed.

(** Of [pvt_tt_bh_is_alive], the code: whether the hardware answers is its own affair. *)
Lemma walk_ones_ok n i p : does (walk_ones n i) p (fun r p' => (r = 0 \/ r = - EIO) /\ therm_cali_delta p' = therm_cali_delta p).
Proof.
  revert i p. induction n as [|n IH]; intros i p; cbn [walk_ones]; [apply does_ret; by split; [left|]|].
  eapply does_bind; [apply spares_wr|]. cbn beta. intros _ p1 E1. eapply does_bind; [apply rd_ok|]. cbn beta. intros v p2 (_ & (_ & _ & E2 & _) & _).
  destruct (negb _); [apply does_ret; split; [by right|congruence]|]. eapply does_mono; [apply IH|]. cbn beta. intros r p3 [Hr E3]. split; [done|congruence].
Qed.
Lemma is_alive_ok p : does pvt_tt_bh_is_alive p (fun r p' => (r = 0 \/ r = - EIO) /\ therm_cali_delta p' = therm_cali_delta p).
Proof.
  unfold pvt_tt_bh_is_alive. eapply does_bind; [apply rd_ok|]. cbn beta. intros v p1 (_ & (_ & _ & E1 & _) & _).
  destruct (negb _); [apply does_ret; by split; [right|]|]. eapply does_bind; [apply rd_ok|]. cbn beta. intros v' p2 (_ & (_ & _ & E2 & _) & _).
  destruct (negb _); [apply does_ret; split; [by right|congruence]|]. eapply does_mono; [apply walk_ones_ok|]. cbn beta. intros r p3 [Hr E3]. split; [done|congruence].
Qed.

(** The correction that the fuse of a sensor gives. *)
Definition calibrated (id old : Z) : Z :=
  let f := deg25 tt_bh_efuse_read id in if (1095 <=? f) && (f <=? 1188) then f - 1142 else old.
Lemma calibrate_ok id p : 0 <= id < len (therm_cali_delta p) ->
  does (calibrate rnd tt_bh_efuse_read 1142 id) p (fun _ p' =>
    len (therm_cali_delta p') = len (therm_cali_delta p) /\
    forall j, correction p' j = if j =? id then calibrated id (correction p id) else correction p j).
Proof.
  intros Hid. unfold calibrate, calibrated. pose proof (u16_range (ReadFunctionalEfuse tt_bh_efuse_read (2240 + id * 64) (2240 + id * 64 + 15))) as Hf.
  fold (deg25 tt_bh_efuse_read id) in Hf. unfold in_width in Hf. rewrite fuse_window by lia. destruct ((1095 <=? _) && _) eqn:Ew.
  - apply andb_true_iff in Ew as [E1%Z.leb_le E2%Z.leb_le]. eapply does_bind; [apply gets_ok|]. cbn beta. intros l ? [-> ->].
    rewrite aset_in by done. apply does_bind with (Q := fun l p' => l = <[Z.to_nat id := swrap 16 (deg25 tt_bh_efuse_read id - 1142)]> (therm_cali_delta p) /\ p' = p); [by apply does_lift|].
    intros l ? [-> ->]. eexists tt, _. split; [reflexivity|]. cbn. split; [by rewrite length_insert|]. intros j. unfold correction. cbn [therm_cali_delta set_deltas].
    destruct (Z.eqb_spec j id) as [->|Hne]; [rewrite aget_insert by lia; cbn; rewrite swrap_small; lia|].
    by rewrite aget_insert_ne by lia.
  - apply does_ret. split; [done|]. intros j. by destruct (Z.eqb_spec j id) as [->|].
Qed.

(** The start of the driver: nothing, on a build without the monitors; an error, when they do
    not answer; or the corrections of the sensors whose fuse is near 25 degrees, with the others as they were. *)
Lemma setup_ok (CONFIG_TT_SMC_RECOVERY CONFIG_ARC : bool) p : num_ts cfg = NUM_TS -> len (therm_cali_delta p) = NUM_TS ->
  does (pvt_tt_bh_init rnd cfg tt_bh_efuse_read apb_clk CONFIG_TT_SMC_RECOVERY CONFIG_ARC fuel) p (fun r p' =>
    len (therm_cali_delta p') = NUM_TS /\ (r = 0 \/ r = - EIO) /\
    forall j, 0 <= j < NUM_TS -> correction p' j = if (r =? 0) && negb CONFIG_TT_SMC_RECOVERY && CONFIG_ARC then calibrated j (correction p j) else correction p j).
Proof.
  intros Hn Hl. unfold pvt_tt_bh_init. eapply does_bind; [apply spares_wr|]. cbn beta. intros _ p0 E0.
  assert (C0 : forall j, correction p0 j = correction p j) by (intros j; unfold correction; by rewrite E0).
  destruct (CONFIG_TT_SMC_RECOVERY || negb CONFIG_ARC) eqn:Eb.
  { apply does_ret. rewrite E0. split; [done|]. split; [by left|]. intros j Hj. rewrite C0. by destruct CONFIG_TT_SMC_RECOVERY, CONFIG_ARC. }
  apply orb_false_iff in Eb as [-> ->%negb_false_iff]. eapply does_bind; [apply is_alive_ok|]. cbn beta. intros r p1 [Hr E1].
  destruct (Z.eqb_spec r 0) as [->|Hne]; cbn [negb].
  2: { apply does_ret. rewrite E1, E0. split; [done|]. split; [done|]. intros j Hj. rewrite (proj2 (Z.eqb_neq r 0)) by done. cbn [andb].
       unfold correction. by rewrite E1, E0. }
  unfold enable_aging_meas, ts_write, pd_write, vm_write.
  do 11 (apply does_spares; [first [apply spares_interrupt_config|apply spares_clock_config|spares]|intros _ ? ?Hq]).
  apply does_spares; [spares|intros _ p2 Hp2]. rewrite celcius25. apply does_bind with (Q := fun l p' => l = 1142 /\ p' = p2); [by apply does_lift|]. intros ? ? [-> ->].
  assert (E2 : therm_cali_delta p2 = therm_cali_delta p) by congruence.
  eapply does_bind.
  - unfold for_each. rewrite Hn. apply (for_m_ok (fun i _ p' => len (therm_cali_delta p') = NUM_TS /\
      forall j, correction p' j = if (0 <=? j) && (j <? i) then calibrated j (correction p j) else correction p j)).
    + split; [congruence|]. intros j. unfold correction. rewrite E2. destruct (Z.leb_spec 0 j), (Z.ltb_spec j 0); try done; lia.
    + intros i [] q Hi [Hlen Hc]. eapply does_mono; [apply calibrate_ok; rewrite Hlen; unfold NUM_TS in *; lia|]. cbn beta.
      intros _ q' [Hlen1 Hc']. split; [congruence|]. intros j. rewrite Hc', !Hc.
      destruct (Z.eqb_spec j i) as [->|Hne].
      * rewrite (proj2 (Z.ltb_ge i i)), (proj2 (Z.ltb_lt i (i + 1))), andb_false_r, andb_true_r, (proj2 (Z.leb_le 0 i)) by lia. done.
      * by replace (j <? i + 1) with (j <? i) by (apply eq_true_iff_eq; rewrite !Z.ltb_lt; lia).
  - cbn beta. intros _ pz [Hl' Hc]. apply does_ret. split; [done|]. split; [by left|]. intros j Hj. rewrite Hc. cbn [Z.eqb negb andb].
    by rewrite (proj2 (Z.leb_le 0 j)), (proj2 (Z.ltb_lt j _)) by (unfold NUM_TS in *; lia).
Qed.
End setup.

(** ** The theorems *)

Section theorems.
Context {W : Type} `{PvtLaws W}.
Variable cfg : pvt_tt_bh_config.
Variable junk : Z -> Z.
Variable fuel : nat.
Hypothesis Hfuel : sdif_bound + 20000000 <= Z.of_nat fuel.
Implicit Types p : pvt W.


Variable rnd : Q -> Q.
Context `{!FloatRounding rnd}.


(** The start of the driver gives zero or [-EIO].  When the monitors answer, each thermal sensor whose fuse is between
    22 and 28 degrees gets its difference from the sample of 25 degrees as its correction, so of
    47 steps (3 degrees) at most; the others keep theirs.  On an error, and on the builds without monitors, none changes. *)
Theorem pvt_init_ok (tt_bh_efuse_read : Z -> Z * Z) (apb_clk : Z) (CONFIG_TT_SMC_RECOVERY CONFIG_ARC : bool) p :
  num_ts cfg = NUM_TS -> therm_cali_delta p = replicate 8 0 ->
  does (pvt_tt_bh_init rnd cfg tt_bh_efuse_read apb_clk CONFIG_TT_SMC_RECOVERY CONFIG_ARC fuel) p (fun r p' =>
    len (therm_cali_delta p') = NUM_TS /\ (r = 0 \/ r = - EIO) /\
    forall j, 0 <= j < NUM_TS -> -47 <= correction p' j <= 47 /\
      correction p' j = if (r =? 0) && negb CONFIG_TT_SMC_RECOVERY && CONFIG_ARC then calibrated tt_bh_efuse_read j 0 else 0).
Proof.
  intros Hn Hd. eapply does_mono; [apply setup_ok; [done|done|done|by rewrite Hd]|]. cbn beta. intros r p' (Hl & Hr & Hc). split; [done|]. split; [done|].
  intros j Hj. rewrite Hc by done. assert (E0 : correction p j = 0).
  { unfold correction. rewrite Hd, aget_nat by lia. rewrite lookup_replicate_2; [done|unfold NUM_TS in Hj; lia]. }
  rewrite E0. split; [|done]. destruct (_ && _); [|lia]. unfold calibrated. destruct ((1095 <=? _) && _) eqn:Ew; [|lia].
  apply andb_true_iff in Ew as [E1%Z.leb_le E2%Z.leb_le]. lia.
Qed.
End theorems.

(** ** Simulated monitors

    Eight thermal sensors, of which the one called [faulty] reports a fault, sixteen process detectors
    whose words depend on the oscillator, eight voltages; accesses of a microsecond. *)

Record monitors := MkMonitors { scratch : Z; oscillator : Z; faulty : Z; time : Z }.
Definition LAST : Z := 2 ^ 83 - 1.
Definition now (w : monitors) : Z := Z.max 0 (Z.min LAST (time w)).
Definition tick (w : monitors) : monitors := MkMonitors (scratch w) (oscillator w) (faulty w) (Z.min LAST (now w + 1000)).
Definition word (w : monitors) (o : Z) (t : PvtType) (i : Z) : Z :=
  match t with TS => if i =? faulty w then 0x20000 else 1142 + i | PD => 2000 + 100 * o + i | VM => 10000 + i end.
(** The sensor of a register among those that start at [base]. *)
Definition nth_of (base step n a : Z) : option Z :=
  let i := (a - base) / step in if (0 <=? i) && (i <? n) && (a =? i * step + base) then Some i else None.
Definition sim_value (w : monitors) (a : Z) : Z :=
  if a =? PVT_TM_SCRATCH then scratch w else
  match nth_of PVT_CNTL_TS_00_SDIF_DATA_REG_ADDR TS_PD_OFFSET NUM_TS a, nth_of PVT_CNTL_PD_00_SDIF_DATA_REG_ADDR TS_PD_OFFSET NUM_PD a,
    nth_of PVT_CNTL_VM_00_SDIF_RDATA_REG_ADDR VM_OFFSET NUM_VM a, nth_of PVT_CNTL_TS_00_SDIF_DONE_REG_ADDR TS_PD_OFFSET NUM_TS a,
    nth_of PVT_CNTL_PD_00_SDIF_DONE_REG_ADDR TS_PD_OFFSET NUM_PD a with
  | Some i, _, _, _, _ => word w 0 TS i
  | _, Some i, _, _, _ => word w (oscillator w) PD i
  | _, _, Some i, _, _ => word w 0 VM i
  | _, _, _, None, None => 0
  | _, _, _, _, _ => 1
  end.
#[export] Instance sim_hw : PvtHw monitors := {
  sys_read32 a w := (sim_value w a, tick w);
  sys_write32 v a w :=
    tick (MkMonitors (if a =? PVT_TM_SCRATCH then v else scratch w)
      (if (a =? PVT_CNTL_PD_CMN_SDIF_REG_ADDR) && (bits_get 24 3 v =? IP_CFG0_ADDR) then bits_get 8 5 v else oscillator w) (faulty w) (time w));
  k_uptime_get w := (now w / 1000000, tick w);
  k_usleep us w := MkMonitors (scratch w) (oscillator w) (faulty w) (now w + 1000 * us)
}.

(** A statement about the sensors of a type is one about each. *)
Lemma each_index n (P : Z -> Prop) : Forall P (seqZ 0 n) -> forall i, 0 <= i < n -> P i.
Proof. rewrite Forall_seqZ. intros HP i Hi. apply HP. lia. Qed.
Lemma now_bounds w : 0 <= now w <= LAST.
Proof. unfold now, LAST. lia. Qed.
Lemma now_tick w : now w <= now (tick w) <= now w + 1000000 /\ (now w + 1000000000 < 2 ^ 83 -> now w < now (tick w)).
Proof. pose proof (now_bounds w) as Hn. unfold tick, now in *. cbn [time] in *. unfold LAST in *. lia. Qed.

#[export] Program Instance sim_laws : PvtLaws monitors := {
  sense := word; ready _ _ _ := true; osc := oscillator; ns := now; busy _ := 0; sdif_bound := 1
}.
Next Obligation. intros w. pose proof (now_bounds w). unfold LAST in *. cbn. lia. Qed.
Next Obligation. intros w. cbn. lia. Qed.
Next Obligation. intros a w. cbn. split; [done|]. split; [done|]. apply now_tick. Qed.
Next Obligation. intros a w. apply now_tick. Qed.
Next Obligation. intros w. cbn. split; [done|]. split; [done|]. split; [done|]. apply now_tick. Qed.
Next Obligation. done. Qed.
Next Obligation. intros v a w. cbn. split; [done|]. by destruct (_ && _). Qed.
Next Obligation. intros a w [->|[->| ->]]; done. Qed.
Next Obligation. intros i w Hi. revert i Hi. apply each_index. repeat constructor. Qed.
Next Obligation. intros i w Hi. revert i Hi. apply each_index. repeat constructor. Qed.
Next Obligation. intros i w Hi. revert i Hi. apply each_index. repeat constructor. Qed.

(** ** Witnesses *)

Definition cfg_bh : pvt_tt_bh_config := MkConfig 16 8 8.
Definition enough : nat := Z.to_nat 20000001.
Lemma enough_ok : sdif_bound (W := monitors) + 20000000 <= Z.of_nat enough.
Proof. unfold enough. rewrite Z2Nat.id by lia. done. Qed.
(** Past the first read of the process detectors; the corrections are 3 everywhere. *)
Definition awake (faulty : Z) : pvt monitors := MkPvt (MkMonitors 0 1 faulty 5000000000) (replicate 8 3) 1 1.
Lemma awake_wf faulty : pvt_wf cfg_bh (awake faulty).
Proof. split; try done; by right. Qed.
Definition nobuf (n : nat) : list pvt_tt_bh_rtio_data := replicate n (MkData (MkSpec CHAN_OTHER 0) 0).
(** Two sensors read, a third that faults, and one that is not reached. *)
Definition mixed : list sensor_chan_spec := [MkSpec CHAN_PD 3; MkSpec CHAN_VM 1; MkSpec CHAN_TS 5; MkSpec CHAN_PD 20].



(** Fuses of 1150 for even sensors, of nothing for the others. *)
Definition fuses (dword : Z) : Z * Z := (0, if (dword / 2) mod 2 =? 1 then 1150 else 0).
Lemma pvt_init_ok_witness :
  does (pvt_tt_bh_init id cfg_bh fuses 100 false true enough) (pvt0 (MkMonitors 0 0 (-1) 0) 8) (fun r p' =>
    len (therm_cali_delta p') = NUM_TS /\ (r = 0 \/ r = - EIO) /\
    forall j, 0 <= j < NUM_TS -> -47 <= correction p' j <= 47 /\
      correction p' j = if (r =? 0) && negb false && true then calibrated fuses j 0 else 0) /\
  map (fun j => calibrated fuses j 0) [0; 1; 2; 3] = [8; 0; 8; 0].
Proof.
  split; [|by vm_compute]. apply (pvt_init_ok cfg_bh enough enough_ok id fuses 100 false true (pvt0 (MkMonitors 0 0 (-1) 0) 8)); done.
Defined.
