(* ===== verification/NocHarvest.v ===== *)
(** * From harvesting to NOC translation ([noc_init.c], [InitNocTranslationFromHarvesting])

    The tiles that [CalculateHarvesting] leaves decide the translation tables:
    these theorems compose [Harvesting] with [NocTables] and [NocProgram]. *)

From S2P Require Import Prelude Noc Harvesting NocInit NocTables NocProgram.

(** ** Finite checks *)

Lemma forallb_range n (P : Z -> bool) : forallb P (seqZ 0 n) = true -> forall i, 0 <= i < n -> P i = true.
Proof. rewrite forallb_forall. intros H i Hi. apply H, list_elem_of_In, elem_of_seqZ. lia. Qed.

(** The highest instance of [lo], [lo + 1], [lo + 2] that is off, if any. *)
Definition top_off (lo eth : Z) : option Z :=
  if negb (Z.testbit eth (lo + 2)) then Some (lo + 2)
  else if negb (Z.testbit eth (lo + 1)) then Some (lo + 1)
  else if negb (Z.testbit eth lo) then Some lo else None.

Definition expected_skip (eth : Z) : option Z :=
  a ← top_off 4 eth; b ← top_off 7 eth; Some (Z.lor (BIT a) (BIT b)).

(** The three bits of a group that are off, as [find_msb_set] sees them. *)
Lemma group_mask lo x : 0 <= lo -> lo + 2 < 32 ->
  Z.land (u32 (Z.lnot x)) (Z.lor (2 ^ lo) (Z.lor (2 ^ (lo + 1)) (2 ^ (lo + 2)))) =
  Z.lor (if Z.testbit x lo then 0 else 2 ^ lo)
        (Z.lor (if Z.testbit x (lo + 1) then 0 else 2 ^ (lo + 1)) (if Z.testbit x (lo + 2) then 0 else 2 ^ (lo + 2))).
Proof.
  intros Hlo H32. apply Z.bits_inj'. intros i Hi.
  assert (Hif : forall (b : bool) n, 0 <= n -> Z.testbit (if b then 0 else 2 ^ n) i = negb b && (n =? i)).
  { intros [] n Hn; [apply Z.bits_0|]. by rewrite Z.pow2_bits_eqb. }
  rewrite Z.land_spec, !Z.lor_spec, !Hif, !Z.pow2_bits_eqb by lia.
  unfold wrap. destruct (Z.lt_ge_cases i 32).
  - rewrite Z.mod_pow2_bits_low, Z.lnot_spec by lia.
    destruct (Z.eqb_spec lo i) as [<-|]; [|destruct (Z.eqb_spec (lo + 1) i) as [<-|]; [|destruct (Z.eqb_spec (lo + 2) i) as [<-|]]].
    all: repeat match goal with |- context [?a =? ?b] => destruct (Z.eqb_spec a b); try lia end.
    all: by rewrite ?andb_true_r, ?andb_false_r, ?orb_false_r.
  - repeat match goal with |- context [?a =? ?b] => destruct (Z.eqb_spec a b); try lia end.
Qed.

Lemma skip_eth_spec eth : harvesting_skip_eth eth = expected_skip eth.
Proof.
  unfold harvesting_skip_eth, expected_skip, top_off.
  change (GENMASK 6 4) with (Z.lor (2 ^ 4) (Z.lor (2 ^ (4 + 1)) (2 ^ (4 + 2)))).
  change (GENMASK 9 7) with (Z.lor (2 ^ 7) (Z.lor (2 ^ (7 + 1)) (2 ^ (7 + 2)))).
  rewrite !group_mask by lia.
  generalize (Z.testbit eth 4), (Z.testbit eth (4 + 1)), (Z.testbit eth (4 + 2)),
    (Z.testbit eth 7), (Z.testbit eth (7 + 1)), (Z.testbit eth (7 + 2)).
  intros [] [] [] [] [] []; reflexivity.
Qed.

Lemma top_off_spec lo eth :
  match top_off lo eth with
  | Some i => lo <= i <= lo + 2 /\ Z.testbit eth i = false
  | None => forall i, lo <= i <= lo + 2 -> Z.testbit eth i = true
  end.
Proof.
  unfold top_off. destruct (Z.testbit eth (lo + 2)) eqn:E2; cbn [negb]; [|split; [lia|done]].
  destruct (Z.testbit eth (lo + 1)) eqn:E1; cbn [negb]; [|split; [lia|done]].
  destruct (Z.testbit eth lo) eqn:E0; cbn [negb]; [|split; [lia|done]].
  intros i Hi. assert (i = lo \/ i = lo + 1 \/ i = lo + 2) as [->|[-> | ->]] by lia; assumption.
Qed.

Lemma top_off_some lo eth i : lo <= i <= lo + 2 -> Z.testbit eth i = false -> exists j, top_off lo eth = Some j.
Proof.
  intros Hi Hb. pose proof (top_off_spec lo eth) as H. destruct (top_off lo eth) as [j|]; [by exists j|].
  rewrite (H i Hi) in Hb. done.
Qed.

(** Skipping one instance of each group leaves the twelve the tables hold. *)
Lemma skip_two_unskipped a b : 4 <= a <= 6 -> 7 <= b <= 9 ->
  length (unskipped 0 kTensixEthNoc0X (Z.lor (BIT a) (BIT b))) = 12%nat.
Proof.
  intros Ha Hb. assert (a = 4 \/ a = 5 \/ a = 6) as [->|[-> | ->]] by lia;
    assert (b = 7 \/ b = 8 \/ b = 9) as [->|[-> | ->]] by lia; reflexivity.
Qed.

Lemma skip_two_bits a b i : 4 <= a <= 6 -> 7 <= b <= 9 -> 0 <= i -> Z.testbit (Z.lor (BIT a) (BIT b)) i = true -> i = a \/ i = b.
Proof.
  intros Ha Hb Hi. rewrite Z.lor_spec, !bit_BIT by lia.
  intros [->%Z.eqb_eq| ->%Z.eqb_eq]%orb_true_iff; auto.
Qed.

(** The GDDR the tables leave out: the lowest that is off. *)
Definition first_gddr_off (gddr bad : Z) : bool :=
  if gddr =? 255 then bad =? NO_BAD_GDDR
  else (0 <=? bad) && (bad <? NUM_GDDR) && negb (Z.testbit gddr bad) && (Z.land gddr (Z.ones bad) =? Z.ones bad).

Lemma bad_gddr_spec gddr : 0 <= gddr < 2 ^ 8 -> first_gddr_off gddr (harvesting_bad_gddr gddr) = true.
Proof. apply (forallb_range 256 (fun g => first_gddr_off g (harvesting_bad_gddr g))). vm_compute. reflexivity. Qed.

Lemma bad_gddr_valid gddr : 0 <= gddr < 2 ^ 8 -> valid_bad_gddr (harvesting_bad_gddr gddr).
Proof.
  intros Hg%bad_gddr_spec. unfold first_gddr_off in Hg. destruct (gddr =? 255); [right; by apply Z.eqb_eq|].
  apply andb_true_iff in Hg as [Hg _]. apply andb_true_iff in Hg as [Hg _]. apply andb_true_iff in Hg as [H1 H2].
  left. lia.
Qed.

Definition unusable_columns (tensix : Z) : Z := Z.land (Z.ones 14) (Z.lnot tensix).

Lemma unusable_columns_count tensix : 0 <= tensix < 2 ^ 14 ->
  0 <= unusable_columns tensix < 2 ^ 14 /\
  (length (bits_of (unusable_columns tensix)) + length (bits_of tensix) = 14)%nat.
Proof.
  intros Ht.
  assert (Hbit : forall i, 0 <= i -> Z.testbit (unusable_columns tensix) i = (i <? 14) && negb (Z.testbit tensix i)).
  { intros i Hi. unfold unusable_columns. by rewrite Z.land_spec, Z.lnot_spec, testbit_ones_in by lia. }
  assert (Hrange : 0 <= unusable_columns tensix < 2 ^ 14).
  { unfold unusable_columns. split; [apply Z.land_nonneg; by left|]. rewrite Z.land_comm, Z.land_ones by lia.
    by apply Z.mod_pos_bound. }
  split; [exact Hrange|].
  assert (Hb : forall x, 0 <= x < 2 ^ 14 -> bits_of x = filter (fun i => Z.testbit x i = true) (seqZ 0 14)).
  { intros x Hx. unfold bits_of. change (seqZ 0 32) with (seqZ 0 14 ++ seqZ 14 18). rewrite filter_app.
    rewrite (filter_nil_iff _ (seqZ 14 18)); [apply app_nil_r|]. intros i [Hi _]%elem_of_seqZ.
    by rewrite (testbit_above x 14) by lia. }
  rewrite !Hb by done. rewrite Nat.add_comm.
  rewrite (filter_ext_in (fun i => Z.testbit (unusable_columns tensix) i = true) (fun i => ~ Z.testbit tensix i = true) (seqZ 0 14)).
  - pose proof (Permutation_length (filter_app_complement (fun i => Z.testbit tensix i = true) (seqZ 0 14))) as HP.
    rewrite length_app in HP. exact HP.
  - intros i Hi%elem_of_seqZ. rewrite Hbit by lia. destruct (Z.ltb_spec i 14); [|lia].
    cbn [andb]. rewrite negb_true_iff, not_true_iff_false. done.
Qed.

(** ** From harvesting to the nodes *)

Section nodes.
Context {W : Type} `{!NocHw W} `{!NocHwLaws W}.
Implicit Types (s : noc_state W).

(** Every node of both NOCs translates by the tables of its NOC. *)
Definition all_nodes_translate (nt0 nt1 : NocTranslation) (w : W) : Prop :=
  forall r px py, 0 <= r < NUM_NOCS -> phys_on_grid px py ->
    node_translates (if r =? 0 then nt0 else nt1) (ring_x px r) (ring_y py r) (niu w r (ring_x px r) (ring_y py r)).

Lemma progress_translates nt0 nt1 w w' :
  nt_wf nt0 -> nt_wf nt1 -> progress (translation_update [nt0; nt1]) (fun _ _ => true) w w' ->
  all_nodes_translate nt0 nt1 w'.
Proof.
  intros W0 W1 Hp r px py Hr [Hx Hy].
  destruct (phys_x_to_noc px r Hr Hx) as (_ & Hrx & _). destruct (phys_y_to_noc py r Hr Hy) as (_ & Hry & _).
  assert (Hnt : nt_of [nt0; nt1] r = (if r =? 0 then nt0 else nt1)) by (by apply ring_cases in Hr as [-> | ->]).
  assert (Wr : nt_wf (if r =? 0 then nt0 else nt1)) by (by destruct (r =? 0)).
  eapply node_translates_ext; [|apply (programmed_translates _ _ _ (niu w r (ring_x px r) (ring_y py r)) Wr); by split].
  intros j _. rewrite (Hp r px py j Hr (conj Hx Hy)). unfold translation_update. by rewrite Hnt.
Qed.

(** Ethernet, GDDR and column masks that tables can be computed for. *)
Lemma init_from_harvesting te s a b :
  tiles_wf te -> (7 <= length (bits_of (tensix_col_enabled te)))%nat ->
  length (pcie_usage te) = 2%nat -> length (translation s) = 2%nat -> arcs_off (hw s) ->
  top_off 4 (eth_enabled te) = Some a -> top_off 7 (eth_enabled te) = Some b ->
  exists usage nt0 nt1 s', aget (pcie_usage te) 0 = Some usage /\
    InitNocTranslationFromHarvesting te false true s = Some s' /\
    ComputeNocTranslation (if usage =? BH_PCIE_MODE_EP then 0 else 1) (unusable_columns (tensix_col_enabled te))
      (harvesting_bad_gddr (gddr_enabled te)) (Z.lor (BIT a) (BIT b)) = Some nt0 /\
    CopyNoc0ToNoc1 nt0 = Some nt1 /\
    translation s' = [nt0; nt1] /\ noc_translation_enabled s' = true /\ telemetry_noc_translation s' = true /\
    all_nodes_translate nt0 nt1 (hw s').
Proof.
  intros (Wt & We & Wg & _) Hcols Lu Lt Hoff Ea Eb.
  destruct (aget_in (pcie_usage te) 0) as (usage & Eu); [lia|]. exists usage.
  unfold InitNocTranslationFromHarvesting. cbn [negb]. rewrite Eu, skip_eth_spec. unfold expected_skip. rewrite Ea, Eb.
  cbn [mbind option_bind]. fold (unusable_columns (tensix_col_enabled te)).
  destruct (unusable_columns_count _ Wt) as [Hr Hn].
  pose proof (top_off_spec 4 (eth_enabled te)) as Ha. rewrite Ea in Ha.
  pose proof (top_off_spec 7 (eth_enabled te)) as Hb. rewrite Eb in Hb.
  destruct (init_translation (if usage =? BH_PCIE_MODE_EP then 0 else 1) (unusable_columns (tensix_col_enabled te))
              (harvesting_bad_gddr (gddr_enabled te)) (Z.lor (BIT a) (BIT b)) s)
    as (nt0 & nt1 & s' & E0 & E1 & W0 & W1 & _ & _ & E & T & En & Tel & _ & P).
  - exact Hr.
  - lia.
  - by apply bad_gddr_valid.
  - rewrite skip_two_unskipped by (apply Ha || apply Hb). lia.
  - exact Lt.
  - exact Hoff.
  - exists nt0, nt1, s'. split; [reflexivity|]. split; [exact E|]. split; [exact E0|]. split; [exact E1|].
    split; [exact T|]. split; [exact En|]. split; [exact Tel|]. by apply (progress_translates nt0 nt1 (hw s)).
Qed.
End nodes.

Section harvested_chip.
Context {W : Type} `{!NocHw W} `{!NocHwLaws W}.
Implicit Types (s : noc_state W).

(** C7: at boot, harvesting and NOC translation agree.  From the tiles
    [CalculateHarvesting] leaves, as long as seven Tensix columns remain,
    [InitNocTranslationFromHarvesting] never faults: the Ethernet instances it
    leaves out of the tables are one of 4-6 and one of 7-9, both off; the GDDR
    it moves to the end is the lowest one off (none when all are on); the bad
    columns are exactly those not enabled; and afterwards every node of both
    NOCs holds the tables computed from these, and firmware state and telemetry
    say that translation is on. *)
Theorem harvested_chip_translates efuse fw te s :
  harvesting_en fw = true -> 0 <= tensix_col_disable_count fw < 256 ->
  length (pcie_mode fw) = 2%nat -> length (num_serdes fw) = 2%nat ->
  length (pcie_usage te) = 2%nat -> length (pcie_num_serdes te) = 2%nat ->
  length (translation s) = 2%nat -> arcs_off (hw s) ->
  exists te', CalculateHarvesting efuse fw te = Some te' /\
    ((7 <= length (bits_of (tensix_col_enabled te')))%nat ->
     exists a b usage nt0 nt1 s',
       4 <= a <= 6 /\ 7 <= b <= 9 /\ Z.testbit (eth_enabled te') a = false /\ Z.testbit (eth_enabled te') b = false /\
       first_gddr_off (gddr_enabled te') (harvesting_bad_gddr (gddr_enabled te')) = true /\
       aget (pcie_usage te') 0 = Some usage /\
       InitNocTranslationFromHarvesting te' false true s = Some s' /\
       ComputeNocTranslation (if usage =? BH_PCIE_MODE_EP then 0 else 1) (unusable_columns (tensix_col_enabled te'))
         (harvesting_bad_gddr (gddr_enabled te')) (Z.lor (BIT a) (BIT b)) = Some nt0 /\
       CopyNoc0ToNoc1 nt0 = Some nt1 /\
       translation s' = [nt0; nt1] /\ noc_translation_enabled s' = true /\ telemetry_noc_translation s' = true /\
       all_nodes_translate nt0 nt1 (hw s')).
Proof.
  intros He Hcount Lm Ln Lu Ls Lt Hoff.
  destruct (calculate_spec efuse fw te He Hcount Lm Ln Lu Ls) as (f & te' & _ & E & (_ & Ee & _) & _ & Hwf & _ & Lu').
  exists te'. split; [exact E|]. intros Hcols. clear E.
  assert (Hgroup : forall lo, lo = 4 \/ lo = 7 -> exists i, top_off lo (eth_enabled te') = Some i).
  { intros lo Hlo. destruct (soft_harvesting_groups fw f lo Hlo) as (i & Hi & Hb).
    rewrite <- Ee in Hb. exact (top_off_some lo _ i Hi Hb). }
  destruct (Hgroup 4 (or_introl eq_refl)) as (a & Ha). destruct (Hgroup 7 (or_intror eq_refl)) as (b & Hb).
  pose proof (top_off_spec 4 (eth_enabled te')) as Sa. rewrite Ha in Sa.
  pose proof (top_off_spec 7 (eth_enabled te')) as Sb. rewrite Hb in Sb.
  destruct (init_from_harvesting te' s a b Hwf Hcols Lu' Lt Hoff Ha Hb) as (usage & nt0 & nt1 & s' & H).
  exists a, b, usage, nt0, nt1, s'. split; [apply Sa|]. split; [apply Sb|]. split; [apply Sa|]. split; [apply Sb|].
  split; [|exact H]. apply bad_gddr_spec. apply Hwf.
Qed.

(** Translation cannot be set up without harvesting.  The Ethernet mask is
    computed exactly when one of 4-6 and one of 7-9 is off (otherwise 1 is
    shifted by -1, which is undefined); so with [harvesting_en] off in the
    firmware table and translation on, [InitNocTranslationFromHarvesting] runs
    into the undefined shift before it writes anything. *)
Theorem translation_without_harvesting efuse fw te s :
  (forall eth, harvesting_skip_eth eth = None <->
     (forall i, 4 <= i <= 6 -> Z.testbit eth i = true) \/ (forall i, 7 <= i <= 9 -> Z.testbit eth i = true)) /\
  (harvesting_en fw = false -> length (pcie_mode fw) = 2%nat -> length (num_serdes fw) = 2%nat ->
   length (pcie_usage te) = 2%nat -> length (pcie_num_serdes te) = 2%nat ->
   exists te', CalculateHarvesting efuse fw te = Some te' /\
     InitNocTranslationFromHarvesting te' false true s = None).
Proof.
  assert (Hskip : forall eth, harvesting_skip_eth eth = None <->
     (forall i, 4 <= i <= 6 -> Z.testbit eth i = true) \/ (forall i, 7 <= i <= 9 -> Z.testbit eth i = true)).
  { intros eth. rewrite skip_eth_spec. unfold expected_skip.
    pose proof (top_off_spec 4 eth) as Ha. pose proof (top_off_spec 7 eth) as Hb.
    destruct (top_off 4 eth) as [a|]; [|split; [by left|done]]. cbn [mbind option_bind].
    destruct (top_off 7 eth) as [b|]; [|split; [by right|done]]. split; [done|].
    intros [H|H]; [rewrite (H a) in Ha by lia|rewrite (H b) in Hb by lia]; naive_solver. }
  split; [exact Hskip|]. intros He Lm Ln Lu Ls.
  unfold CalculateHarvesting. cbv zeta. rewrite He. cbn [mbind option_bind]. fold (full_tiles te).
  destruct (pcie_instances fw (full_tiles te)) as (te' & E & (_ & Ee & _) & L); [done|done|exact Lu|exact Ls|].
  exists te'. split; [exact E|]. unfold InitNocTranslationFromHarvesting. cbn [negb].
  destruct (aget_in (pcie_usage te') 0) as (u & ->); [lia|]. cbn [mbind option_bind].
  assert (Hnone : harvesting_skip_eth (eth_enabled te') = None); [|by rewrite Hnone].
  apply Hskip. left. intros i Hi. rewrite Ee. change (eth_enabled (full_tiles te)) with (Z.ones 14).
  apply Z.ones_spec_low. lia.
Qed.
End harvested_chip.

(** ** The theorems at work *)

(** Two columns and a GDDR harvested; no fuse blown; ARC translation off. *)
Definition example_fw (en : bool) : FwTable := MkFwTable en 2 false 1 false 0 [1; 0] [2; 4].
Definition no_fuses (_ : Z) : Z * Z := (0, 0).

Lemma machine0_arcs_off : arcs_off (hw noc_state0).
Proof. intros r [-> | ->]%ring_cases; reflexivity. Qed.

Lemma harvested_chip_translates_witness :
  exists te' nt0 nt1 s', CalculateHarvesting no_fuses (example_fw true) tile_enable_default = Some te' /\
    tensix_col_enabled te' = 0xFFF /\ InitNocTranslationFromHarvesting te' false true noc_state0 = Some s' /\
    translation s' = [nt0; nt1] /\ all_nodes_translate nt0 nt1 (hw s').
Proof.
  destruct (harvested_chip_translates no_fuses (example_fw true) tile_enable_default noc_state0)
    as (te' & E & H); try reflexivity; [cbn; lia|exact machine0_arcs_off|].
  assert (Et : tensix_col_enabled te' = 0xFFF).
  { clear H. vm_compute in E. apply (f_equal (fun o => match o with Some t => tensix_col_enabled t | None => 0 end)) in E.
    cbn in E. by rewrite <- E. }
  destruct H as (a & b & usage & nt0 & nt1 & s' & _ & _ & _ & _ & _ & _ & Ei & _ & _ & T & _ & _ & A);
    [rewrite Et; vm_compute; lia|].
  exists te', nt0, nt1, s'. split; [exact E|]. split; [exact Et|]. split; [exact Ei|]. split; [exact T|exact A].
Defined.

Lemma translation_without_harvesting_witness :
  exists te', CalculateHarvesting no_fuses (example_fw false) tile_enable_default = Some te' /\
    InitNocTranslationFromHarvesting te' false true noc_state0 = None.
Proof.
  apply (translation_without_harvesting no_fuses (example_fw false) tile_enable_default noc_state0); reflexivity.
Defined.
